(* ===== verification/_CoqProject ===== *)
-Q . S2P
Prelude.v
Bytes.v
Io.v
Time.v
Encodings.v
Printf.v
Ftoa.v
Vsnprintf.v
PrintfProof.v
PrintfSpec.v
Wprintf.v
Allocator.v
SharedPtr.v
ListC.v
Queue.v
Memory.v
HeapProof.v
PagesProof.v
CString.v
Paths.v
Ramdisk.v
Gpt.v
VfatEntry.v
Vfat.v
VfatData.v
VfatWrite.v
VfatMake.v
Image.v
VfatDir.v
VfatDirProof.v
VfatLookup.v
Pipe.v
Handles.v
Threads.v
Sync.v
Vfs.v
FileLock.v
VfsProof.v
Host.v
RwLock.v
Mutex.v
Events.v
Pe.v
PeProof.v
Args.v
LoadProof.v
Ports.v
Cmos.v
Radix.v
Paging.v
Boot.v
BootLoad.v
BootMain.v
Acpi.v
System.v
Vm.v
Process.v
ProcessProof.v
Gdt.v
Linker.v
LinkerProof.v
DebugPrint.v
Serial.v
Start.v
User.v
Programs.v
