(* ===== verification/Prelude.v ===== *)
(** * XT operating system: a verification library

    XT is a 64-bit kernel (xtkernel/), a VFAT driver (drivers/vfat/), a boot
    loader, host tools and test programs, in C. This library models the kernel,
    the driver, the boot loader and the tools as executable definitions and
    proves what makes each part correct. Paths below are relative to src/.

    ** How the code is modelled

    A C function is a definition of the same name in the monad [M S A] of this
    file: state passing with four ends. [Ok] is [XT_SUCCESS] with the values of
    the out-parameters, [Err] another result code, [Fault] an access that C
    leaves undefined or that traps, [OutOfFuel] a loop whose bound ran out.
    [XT_TRY] is the bind of the monad, a dropped result code is [out_or], one
    that the source inspects is [attempt]. Integers are [Z] with their
    wrap-around written out ([u8] to [u64], [s32]). Pointers are [Z]; objects
    live in typed stores by address (Allocator.v), so aliasing, dangling
    pointers and NULL are those of the code. Buffers and strings are lists of
    bytes, and stepping over their end is [Fault]. A component that is part of a
    larger state runs there through [zoom].

    Code that is not part of the repository is a parameter: block devices
    ([BlockDevice], Bytes.v), the ports and the interrupt controllers ([Bus],
    [PicBus], Ports.v), what the firmware left in memory (Acpi.v), the counter
    values of clocks (Time.v), the entry points of loaded modules (Linker.v),
    accesses to the memory of a program (User.v), the services and files of the
    firmware ([BootServices], Boot.v, [EfiFile], BootLoad.v, [Firmware],
    BootMain.v), the calls of Windows ([HostApi], Host.v), the registers of the
    clock ([CmosBus], Cmos.v) and the wire of the serial port ([SerialLine],
    Serial.v). Each class has an instance, which the witnesses use. A property of devices that in-range writes keep
    ([Watch], Bytes.v) is kept by making a volume and by writing its files.
    Two classes are interfaces between components of the kernel: [Allocator]
    (Allocator.v) is what the heap promises to the components that allocate; HeapProof.v proves it of the heap of Memory.v.
    [PageAllocator] (Paging.v) is what page tables need of xtAllocatePages; its
    instance is a list of free frames. System.v and what builds on it is
    generic in both. The printf library is generic in its output function and
    the state behind it; that the text does not depend on the function is the
    theory of streams in PrintfProof.v.

    What other threads do while one waits is an argument: a list of state
    changes, one for each time the thread leaves the CPU. The theorems on mutual
    exclusion and lost wake-ups do not fix it: they are about a step relation
    whose steps are the sections of code between two switches (RwLock.v,
    Mutex.v). What memory holds before it is written (junk, garbage) is an
    argument too.

    ** The files and the code they model

    - Prelude.v: integers, result codes (include/xt/result.h), the monad, list
      lemmas, tactics. Bytes.v: little-endian numbers, slices, block devices.
      Io.v: include/xt/io.h.
    - Time.v: xtkernel/time.c, hpet.c and the CMOS clock of
      arch/x86_64/arch.c, whose registers Cmos.v reads. Encodings.v: encodings.c. CString.v: string.c, the
      names of print.c. Paths.v: xtNormalizePath and the name check of fs.c.
      Gpt.v: gpt.c, arch/x86_64/random.c.
    - Printf.v, Ftoa.v, Vsnprintf.v: external/printf.c, integers, doubles
      (SpecFloat of the Standard Library), format strings and entry points;
      Wprintf.v: its 16-bit half and xtboot/print.c. PrintfProof.v proves what
      is printed, PrintfSpec.v states what a format means and that the code
      prints it. DebugPrint.v: xtkernel/print.c, panic.c and the register dump
      of gdt.c; Serial.v: their way through fs.c to serial.c.
    - Allocator.v: the interface of the heap and typed stores. ListC.v: list.c.
      Queue.v: queue.c. SharedPtr.v: sharedptr.c. Memory.v: memory.c, proved in
      HeapProof.v and PagesProof.v.
    - Ramdisk.v: ramdisk.c. VfatEntry.v, Vfat.v, VfatDir.v:
      drivers/vfat/main.c, directory entries, clusters and directories; proved
      in VfatData.v, VfatWrite.v, VfatMake.v, VfatDirProof.v, VfatLookup.v.
      Image.v: volumes on partitions and the partitions of tools/mkimage.c;
      Host.v: its recursive copy and tools/win32.c.
      Vfs.v: fs.c and devfs.c, proved in VfsProof.v. Pipe.v: pipe.c.
      FileLock.v: the lock of a file asked for by the thread that holds it,
      which is what Vfat.v has in place of the lock.
    - Threads.v: scheduler.c, spinlock.c. Sync.v: mutex.c, rwlock.c, event.c,
      proved in Mutex.v, RwLock.v, Events.v. Handles.v: the handle tables of
      process.c.
    - Radix.v: the theory of trees of 512-entry tables. Paging.v:
      arch/x86_64/memory.c. Ports.v: arch/x86_64/io.c, pit.c, serial.c. Acpi.v:
      acpi.c, xtHPETInit, arch/x86_64/shutdown.c.
    - System.v: the state of threads, processes, page tables and handles
      together. Vm.v: vm.c. Process.v: process.c and arch/x86_64/context.c,
      proved in ProcessProof.v. Gdt.v: arch/x86_64/gdt.c.
    - Pe.v: one executable image (include/xt/pe.h, linker.c), proved in
      PeProof.v and LoadProof.v. Args.v: xtPassArgs of linker.c. Linker.v: the
      rest of linker.c, over System.v and Vfs.v, proved in LinkerProof.v.
    - User.v: user.c, arch/x86_64/mem.asm and syscall.c. Programs.v: the two
      programs of user/, xtinit and test.
    - Boot.v: the page tables of xtboot/arch/x86_64/arch.c. BootLoad.v: loading
      the kernel, xtboot/main.c. BootMain.v: UefiMain and xtboot/assert.c.
      Start.v: the second half of xtKernelMain and waitThread, xtkernel/main.c.

    ** What the theorems show

    - Memory. The heap's blocks tile its memory, an allocation is fresh, aligned
      and large enough, a free gives back exactly one block and merges it
      ([heap_init_establishes], [heap_alloc_sound], [heap_free_sound]); page
      allocation is first fit, a region that is used up leaves the list unless
      it is the last of several ([xtAllocatePages_first_fit]); mapping a range
      of small pages changes the translation of that range only, on a tree
      without large pages in the way and with cleared pages for new tables
      ([set_pages_maps]); a page fault in a map gets a page where there is one
      and changes no other address ([page_fault_maps_page]); the
      maps of a process stay sorted ([insert_map_sorted_perm]); a new process
      shares the kernel's half, the last entry of the lower half, and nothing
      else ([create_process_space]); the
      boot loader's page table maps physical memory, kernel and stack where the
      kernel expects them, the kernel's image lies there ([boot_map],
      [kernel_in_place]), and the loader ends in the jump to it with the RAM
      disk, and the memory map that the firmware accepted, in place
      ([kernel_takes_over]).
    - Storage. What is written to a file of a volume is read back and other
      files keep their contents, with a full disk as a case of its own
      ([vfat_write_file], [vfat_read_after_write]). The update of the directory
      entry asks for the lock of the file again: the theorems hold for the
      tools, whose locks do nothing, and say that a write under the kernel's
      lock waits for itself or leaves the entry alone ([lock_not_again]). A volume that was made can
      be mounted ([mount_after_make], [calc_fat_size_least]), also on a
      partition, which leaves the table and the other partitions alone
      ([format_keeps_table]), as writing to its files does
      ([partition_write_confined]); a file is found by the name its entries
      spell, which is the name it was given up to 13 units and repeats units in
      longer ones ([open_root_file], [lfn_name_roundtrip]); a
      partition table has correct checksums ([xtSetPartitions_writes],
      [calculate_crc32_correct]).
    - Files. Paths are normalised to a canonical form, the deepest mount is
      found and the file system behind it is asked, after the file is made when
      the caller wants that, and the object it gives is set up ([normalize_path_canonical], [find_path_node_deepest],
      [open_file_dispatch]); a pipe and a queue refine a list
      ([pipe_refines_queue], [queue_refines_list]); a handle is bound to what
      was put there ([duplicate_handle_binds]) and guards the access
      ([handles_guard_files]).
    - Concurrency. Mutual exclusion and no lost wake-up, over all
      interleavings ([rw_mutual_exclusion], [rw_no_lost_wakeup],
      [mutex_mutual_exclusion]); a runnable thread gets the CPU within a bound
      that its place in the order and the quanta give ([schedule_bounded_wait]); waiting for events and threads
      ([wait_for_any_takes_first], [wait_for_all_takes_all],
      [terminate_then_wait]).
    - Programs. Relocation, export lookup, the layout of a loaded image, the
      sharing of modules, the random addresses, and the arguments a program
      finds ([apply_relocations_moves], [get_proc_address],
      [load_image_layout], [cached_module_shared], [program_addresses],
      [args_reach_program]); what the second program prints
      ([test_prints_its_name]).
    - Text. A format prints what its items mean, numerals, characters and
      strings in their fields ([format_renders]); snprintf keeps the beginning
      of what any output function gets ([vsnprintf_truncates]); formatting ends
      ([vsnprintf_ends]); a message of the kernel goes out on the serial line
      whole ([message_on_the_line]); a number that is printed is scanned back
      ([print_then_scan]).
    - Tools. What is written to a file of the host is read back
      ([win32_write_read]).
    - Hardware and data. The interrupt controllers and gates
      ([initialize_pic], [set_irqs_gates]), the firmware tables
      ([find_acpi_table_first]), time and text ([unix_time_roundtrip],
      [utf8_to_utf16_correct]).

    Where the code does not do what it means to, the development proves what it
    does: a full pipe that looks empty ([full_pipe_is_empty]), a mutex that
    loses a wake-up ([mutex_lost_wakeup]), a wait that never times out
    ([wait_never_times_out]), an image relocated twice ([relocated_twice]),
    directories without dot entries ([new_directory_has_no_dots]), a message
    longer than its buffer ([debug_print_overruns]), a loader that stops when
    the memory map grows ([map_growth_stops]), files of the host from 4 GB on
    ([win32_large_offset_faults]), numbers that lose a carry
    ([ftoa_carry_lost]), and others.

    ** Bounds and fuel

    Loops over linked lists get the number of nodes in the store as fuel, which
    is enough for every list that is not cyclic; loops over a buffer its
    length; loops over a table its number of entries; the search for the year
    one step for each 365 days; the walks of the handle tree its four levels. The
    theorems give the result with the fuel the definitions choose, or for every
    fuel above a stated bound, so they include termination. The heap, which
    falls back on the page allocator, which allocates from the heap, is bounded
    by the depth of that recursion; [heap_alloc_sound] says which branch is
    taken. A format gets one round for each of its characters. _ftoa and _etoa,
    which call each other, get four calls, enough for every number that was
    tried; that a scaled number is never again too large for _ftoa is not
    proved, so [vsnprintf_ends] leaves their letters out. [set_pages_maps] needs one step per page. Where the code does not
    end, the theorem says so for every fuel ([unset_unmapped_never_ends],
    [wait_for_itself_never_returns]).

    ** Not modelled

    - The first half of xtKernelMain and xtArchInit: they call, one after the
      other, initialisations that are modelled, over states of their own. Put
      together they would end at the shift of xtSyscallInit that C leaves
      undefined ([syscall_init_undefined]), before the scheduler of Start.v.
      xtMemoryDump, which nothing calls. Messages within other functions are
      left out, but for those of the panics, the assertions and waitThread.
    - drivers/pci, drivers/ahci, apit.c and namedPipe.c are empty. The messages
      of the tools on the host's console.
    - The locks and events of the VFAT driver's file objects, but for the lock a
      writer holds: they are taken to be free.
    - Instructions whose effect is outside the model: flushing the TLB, loading
      the descriptor tables, halting. A context switch is assembly; it is
      modelled by what the other threads do meanwhile.
    - There is one CPU, as in the code: the scheduler has one current thread,
      and a spinlock that is busy with interrupts off never becomes free. *)
From Stdlib Require Import ZArith Lia.
From stdpp Require Import base tactics list gmap fin_maps numbers.

Open Scope Z_scope.

(** * Machine integers *)

(** The C types the kernel uses, as [Z] with the wrap-around written out. *)
Definition u8 (z : Z) : Z := z mod 2 ^ 8.

Definition u16 (z : Z) : Z := z mod 2 ^ 16.

Definition u32 (z : Z) : Z := z mod 2 ^ 32.

Definition u64 (z : Z) : Z := z mod 2 ^ 64.

(** [int32_t] arithmetic. *)
Definition s32 (z : Z) : Z := (z + 2 ^ 31) mod 2 ^ 32 - 2 ^ 31.

(** [NULL] of include/xt/result.h. *)
Definition NULL : Z := 0.

(** * Result codes (include/xt/result.h) *)

Definition XT_TYPE_MASK (x : Z) : Z := u64 (Z.shiftl x 60).

Definition XT_ERROR_MASK : Z := XT_TYPE_MASK 15.

Definition XT_ERROR (x : Z) : Z := Z.lor x XT_ERROR_MASK.

Definition XT_IS_ERROR (x : Z) : bool := Z.land x XT_ERROR_MASK =? XT_ERROR_MASK.

Definition XT_SUCCESS : Z := 0.

Definition XT_INVALID_PARAMETER : Z := XT_ERROR 1.

Definition XT_NOT_IMPLEMENTED : Z := XT_ERROR 2.

Definition XT_OUT_OF_MEMORY : Z := XT_ERROR 3.

Definition XT_OUT_OF_BOUNDARY : Z := XT_ERROR 4.

Definition XT_NOT_FOUND : Z := XT_ERROR 5.

Definition XT_NOT_EQUAL : Z := XT_ERROR 6.

Definition XT_INVALID_INITIALIZATION : Z := XT_ERROR 7.

Definition XT_BAD_NAME : Z := XT_ERROR 8.

Definition XT_ACCESS_DENIED : Z := XT_ERROR 9.

Definition XT_END_OF_FILE : Z := XT_ERROR 10.

Definition XT_INVALID_MODULE : Z := XT_ERROR 11.

Definition XT_ARCH_EXCEPTION : Z := XT_ERROR 12.

Definition XT_FILE_ALREADY_EXISTS : Z := XT_ERROR 13.

Definition XT_UNKNOWN_ERROR : Z := XT_ERROR 14.

Definition XT_ACCESS_VIOLATION : Z := XT_ERROR 15.

Definition XT_WOULD_BLOCK : Z := XT_ERROR 16.

Definition XT_BROKEN_PIPE : Z := XT_ERROR 17.

Definition XT_TIMEOUT : Z := XT_ERROR 18.

(** * Outcomes and the kernel monad *)

(** A call of a kernel function: it returns [XT_SUCCESS] with its out-parameter,
    it returns an error code, it does something C leaves undefined or that traps
    (a NULL or wild dereference, an index out of an array), or the loop bound
    given to the model was too small. *)
Inductive outcome (S A : Type) : Type :=
| Ok (a : A) (s : S)
| Err (code : Z) (s : S)
| Fault
| OutOfFuel.

Arguments Ok {S A} a s.
Arguments Err {S A} code s.
Arguments Fault {S A}.
Arguments OutOfFuel {S A}.

Definition M (S A : Type) : Type := S -> outcome S A.

#[export] Instance M_ret (S : Type) : MRet (M S) := fun A a s => Ok a s.

(** [XT_TRY]: an error of the first call is returned at once. *)
#[export] Instance M_bind (S : Type) : MBind (M S) := fun A B k m s =>
  match m s with
  | Ok a s' => k a s'
  | Err c s' => Err c s'
  | Fault => Fault
  | OutOfFuel => OutOfFuel
  end.

Definition throw {S A} (c : Z) : M S A := fun s => Err c s.

Definition fault {S A} : M S A := fun _ => Fault.

Definition nofuel {S A} : M S A := fun _ => OutOfFuel.

Definition get {S} : M S S := fun s => Ok s s.

Definition put {S} (s' : S) : M S unit := fun _ => Ok tt s'.

Definition modify {S} (f : S -> S) : M S unit := fun s => Ok tt (f s).

Definition gets {S A} (f : S -> A) : M S A := fun s => Ok (f s) s.

(** A dereference: the object behind a pointer, or a fault. *)
Definition deref {S A} (f : S -> option A) : M S A := fun s =>
  match f s with Some a => Ok a s | None => Fault end.

(** [XT_CHECK_ARG_IS_NULL]. *)
Definition XT_CHECK_ARG_IS_NULL {S} (x : Z) : M S unit :=
  if x =? NULL then throw XT_INVALID_PARAMETER else mret tt.

(** A call whose result code the source drops: [out_or d m] is the value of the
    out-parameter afterwards, which keeps its initial value [d] on an error. *)
Definition out_or {S A} (d : A) (m : M S A) : M S A := fun s =>
  match m s with
  | Ok a s' => Ok a s'
  | Err _ s' => Ok d s'
  | Fault => Fault
  | OutOfFuel => OutOfFuel
  end.

(** A call whose result code the source stores in a variable. *)
Definition attempt {S A} (m : M S A) : M S (A + Z) := fun s =>
  match m s with
  | Ok a s' => Ok (inl a) s'
  | Err c s' => Ok (inr c) s'
  | Fault => Fault
  | OutOfFuel => OutOfFuel
  end.

(** Running an operation of a component on its part of a larger state. *)
Definition zoom {S T A} (g : S -> T) (p : T -> S -> S) (m : M T A) : M S A := fun s =>
  match m (g s) with
  | Ok a t => Ok a (p t s)
  | Err c t => Err c (p t s)
  | Fault => Fault
  | OutOfFuel => OutOfFuel
  end.

(** * Notations and automation *)

Declare Scope xt_scope.
Delimit Scope xt_scope with xt.

(** A call that cannot fail on its own: the out-parameter goes unused. *)
Notation "m ;;; k" := (mbind (fun _ => k) m)
  (at level 100, k at level 200, right associativity) : xt_scope.

Open Scope xt_scope.

Create Rewrite HintDb words.
Create HintDb bounds.
Create Rewrite HintDb xt.

(** The cases of the comparisons in the goal; those that cannot be go away. *)
Ltac zcases := repeat match goal with
  | |- context [?a <? ?b] => destruct (Z.ltb_spec a b); try lia; cbn [andb]
  | |- context [?a <=? ?b] => destruct (Z.leb_spec a b); try lia; cbn [andb]
  end; try done.

(** [lia] with quotients and remainders by constants. *)
Ltac dlia := Z.div_mod_to_equations; lia.

(** Splits the boolean tests of the goal and turns them into arithmetic. *)
Ltac zbool :=
  repeat match goal with
  | H : (_ =? _) = true |- _ => apply Z.eqb_eq in H
  | H : (_ =? _) = false |- _ => apply Z.eqb_neq in H
  | H : (_ <? _) = true |- _ => apply Z.ltb_lt in H
  | H : (_ <? _) = false |- _ => apply Z.ltb_ge in H
  | H : (_ <=? _) = true |- _ => apply Z.leb_le in H
  | H : (_ <=? _) = false |- _ => apply Z.leb_gt in H
  | H : (_ >? _) = true |- _ => rewrite Z.gtb_ltb in H
  | H : (_ >? _) = false |- _ => rewrite Z.gtb_ltb in H
  | H : _ && _ = true |- _ => apply andb_true_iff in H; destruct H
  | H : _ && _ = false |- _ => apply andb_false_iff in H
  | H : _ || _ = true |- _ => apply orb_true_iff in H
  | H : _ || _ = false |- _ => apply orb_false_iff in H; destruct H
  | H : negb _ = true |- _ => apply negb_true_iff in H
  | H : negb _ = false |- _ => apply negb_false_iff in H
  end.

(** Decides the test of the first [if] of the goal. *)
Ltac ztest :=
  match goal with
  | |- context [if ?b then _ else _] =>
    let E := fresh "E" in destruct b eqn:E; zbool
  end.

(** Takes one step of a call in the kernel monad. *)
Ltac mrun :=
  cbn [mbind mret M_bind M_ret throw fault nofuel get put modify gets
       out_or attempt zoom].

(** * Lemmas on machine integers *)

Lemma u8_small z : 0 <= z < 2 ^ 8 -> u8 z = z.
Proof. apply Z.mod_small. Qed.

Lemma u16_small z : 0 <= z < 2 ^ 16 -> u16 z = z.
Proof. apply Z.mod_small. Qed.

Lemma u32_small z : 0 <= z < 2 ^ 32 -> u32 z = z.
Proof. apply Z.mod_small. Qed.

Lemma u64_small z : 0 <= z < 2 ^ 64 -> u64 z = z.
Proof. apply Z.mod_small. Qed.

#[export] Hint Rewrite u8_small u16_small u32_small u64_small using lia : words.

Lemma u8_bound z : 0 <= u8 z < 2 ^ 8.
Proof. apply Z.mod_pos_bound; lia. Qed.

Lemma u16_bound z : 0 <= u16 z < 2 ^ 16.
Proof. apply Z.mod_pos_bound; lia. Qed.

Lemma u32_bound z : 0 <= u32 z < 2 ^ 32.
Proof. apply Z.mod_pos_bound; lia. Qed.

Lemma u64_bound z : 0 <= u64 z < 2 ^ 64.
Proof. apply Z.mod_pos_bound; lia. Qed.

#[export] Hint Resolve u8_bound u16_bound u32_bound u64_bound : bounds.

(** Masking with [2^n - 1] and shifting, as arithmetic. *)
Lemma land_low z n : 0 <= n -> Z.land z (2 ^ n - 1) = z mod 2 ^ n.
Proof. intros H. rewrite <- Z.land_ones, Z.ones_equiv by lia. f_equal; lia. Qed.

Lemma shiftr_div z n : 0 <= n -> Z.shiftr z n = z / 2 ^ n.
Proof. apply Z.shiftr_div_pow2. Qed.

Lemma shiftl_mul z n : 0 <= n -> Z.shiftl z n = z * 2 ^ n.
Proof. apply Z.shiftl_mul_pow2. Qed.

Lemma testbit_small z n i : 0 <= z < 2 ^ n -> 0 <= n <= i -> Z.testbit z i = false.
Proof.
  intros Hz Hi. destruct (decide (z = 0)) as [->|]; [apply Z.bits_0|].
  apply Z.bits_above_log2; [lia|]. apply Z.log2_lt_pow2; [lia|].
  pose proof (Z.pow_le_mono_r 2 n i). lia.
Qed.

(** Disjoint bits: [|] is [+]. *)
Lemma lor_add_shift a b n : 0 <= n -> 0 <= b < 2 ^ n -> Z.lor (a * 2 ^ n) b = a * 2 ^ n + b.
Proof.
  intros Hn Hb. symmetry. rewrite Z.add_nocarry_lxor.
  - apply Z.bits_inj'; intros i Hi. rewrite Z.lxor_spec, Z.lor_spec.
    destruct (decide (i < n)).
    + rewrite Z.mul_pow2_bits_low by lia. by destruct (Z.testbit b i).
    + rewrite (testbit_small b n i) by lia. by destruct (Z.testbit (a * 2 ^ n) i).
  - apply Z.bits_inj'; intros i Hi. rewrite Z.land_spec, Z.bits_0.
    destruct (decide (i < n)).
    + by rewrite Z.mul_pow2_bits_low by lia.
    + rewrite (testbit_small b n i) by lia. apply andb_false_r.
Qed.

Lemma lor_small a b n : 0 <= n -> 0 <= a < 2 ^ n -> 0 <= b < 2 ^ n -> 0 <= Z.lor a b < 2 ^ n.
Proof.
  intros Hn Ha Hb. assert (0 <= Z.lor a b) by (apply Z.lor_nonneg; lia).
  split; [done|]. destruct (decide (Z.lor a b = 0)); [lia|].
  apply Z.log2_lt_pow2; [lia|]. rewrite Z.log2_lor by lia.
  apply Z.max_lub_lt.
  - destruct (decide (a = 0)) as [->|].
    + destruct (decide (n = 0)) as [->|]; [|simpl; lia].
      assert (b = 0) as -> by lia. done.
    + apply Z.log2_lt_pow2; lia.
  - destruct (decide (b = 0)) as [->|].
    + destruct (decide (n = 0)) as [->|]; [|simpl; lia].
      assert (a = 0) as -> by lia. done.
    + apply Z.log2_lt_pow2; lia.
Qed.

(** * Lemmas on lists *)

Lemma list_snoc {X} (l : list X) : l <> [] -> exists l' x, l = l' ++ [x].
Proof. induction l using rev_ind; [done|eauto]. Qed.

(** * Changing many entries of a map *)

Section AlterAll.
Context {V : Type} (g : V -> V).
Implicit Types m : gmap Z V.

Definition alter_all (ts : list Z) (m : gmap Z V) : gmap Z V := fold_left (fun m t => alter g t m) ts m.

Lemma alter_all_cons t ts m : alter_all (t :: ts) m = alter_all ts (alter g t m).
Proof. done. Qed.

Lemma alter_all_other ts : forall m u, u ∉ ts -> alter_all ts m !! u = m !! u.
Proof.
  induction ts as [|t ts IH]; intros m u Hu; [done|]. apply not_elem_of_cons in Hu as [Hu Hn].
  rewrite alter_all_cons, IH by done. by rewrite lookup_alter_ne by done.
Qed.

Lemma alter_all_in ts : forall m u, NoDup ts -> u ∈ ts -> alter_all ts m !! u = g <$> m !! u.
Proof.
  induction ts as [|t ts IH]; intros m u Hnd Hu; [by apply not_elem_of_nil in Hu|]. apply list.NoDup_cons in Hnd as [Hnt Hnd].
  rewrite alter_all_cons. destruct (decide (u = t)) as [->|].
  - rewrite alter_all_other by done. apply lookup_alter_eq.
  - apply elem_of_cons in Hu as [?|Hu]; [done|]. rewrite IH by done. by rewrite lookup_alter_ne by done.
Qed.

Lemma alter_all_is_Some ts : forall m u, is_Some (m !! u) -> is_Some (alter_all ts m !! u).
Proof.
  induction ts as [|t ts IH]; intros m u [x Hx]; [eauto|]. rewrite alter_all_cons. apply IH.
  destruct (decide (u = t)) as [->|]; [rewrite lookup_alter_eq, Hx; eauto|]. rewrite lookup_alter_ne by done. eauto.
Qed.

(** Changing an entry to a function of what it is. *)
Lemma insert_alter m t x f : m !! t = Some x -> <[t := f x]> m = alter f t m.
Proof.
  intros E. apply map_eq. intros u. destruct (decide (u = t)) as [->|].
  - by rewrite lookup_insert_eq, lookup_alter_eq, E.
  - by rewrite lookup_insert_ne, lookup_alter_ne.
Qed.

End AlterAll.

(** * Lemmas on the kernel monad *)

Section Monad.
Context {S : Type}.

Lemma bind_ret {A B} (a : A) (k : A -> M S B) (s : S) : (mret a ≫= k) s = k a s.
Proof. done. Qed.

Lemma bind_Ok {A B} (m : M S A) (k : A -> M S B) s a s' :
  m s = Ok a s' -> (m ≫= k) s = k a s'.
Proof. intros H. unfold mbind, M_bind. by rewrite H. Qed.

Lemma bind_Err {A B} (m : M S A) (k : A -> M S B) s c s' :
  m s = Err c s' -> (m ≫= k) s = Err c s'.
Proof. intros H. unfold mbind, M_bind. by rewrite H. Qed.

Lemma bind_Fault {A B} (m : M S A) (k : A -> M S B) s :
  m s = Fault -> (m ≫= k) s = Fault.
Proof. intros H. unfold mbind, M_bind. by rewrite H. Qed.

Lemma bind_Ok_inv {A B} (m : M S A) (k : A -> M S B) s b s' :
  (m ≫= k) s = Ok b s' -> exists a s1, m s = Ok a s1 /\ k a s1 = Ok b s'.
Proof. unfold mbind, M_bind. destruct (m s); naive_solver. Qed.

Lemma bind_bind {A B C} (m : M S A) (k : A -> M S B) (l : B -> M S C) s :
  ((m ≫= k) ≫= l) s = (m ≫= (fun a => k a ≫= l)) s.
Proof. unfold mbind, M_bind. by destruct (m s). Qed.

Lemma check_nonnull (p : Z) (s : S) :
  p <> NULL -> XT_CHECK_ARG_IS_NULL p s = Ok tt s.
Proof. intros H. unfold XT_CHECK_ARG_IS_NULL. by rewrite (proj2 (Z.eqb_neq _ _) H). Qed.

Lemma check_then {B} (p : Z) (k : unit -> M S B) (s : S) :
  p <> NULL -> (XT_CHECK_ARG_IS_NULL p ≫= k) s = k tt s.
Proof. intros H. by rewrite (bind_Ok _ _ _ _ _ (check_nonnull p s H)). Qed.

Lemma check_null (s : S) : XT_CHECK_ARG_IS_NULL NULL s = Err XT_INVALID_PARAMETER s.
Proof. done. Qed.

Lemma deref_Some {A} (f : S -> option A) s a : f s = Some a -> deref f s = Ok a s.
Proof. unfold deref. by intros ->. Qed.

Lemma deref_None {A} (f : S -> option A) s : f s = None -> deref f s = Fault.
Proof. unfold deref. by intros ->. Qed.

Lemma out_or_Ok {A} (d : A) (m : M S A) s a s' : m s = Ok a s' -> out_or d m s = Ok a s'.
Proof. unfold out_or. by intros ->. Qed.

Lemma out_or_Err {A} (d : A) (m : M S A) s c s' : m s = Err c s' -> out_or d m s = Ok d s'.
Proof. unfold out_or. by intros ->. Qed.

End Monad.

(** Runs the next call of a sequence, proving its result with [tac]. *)
Ltac mstep_with tac :=
  first [ rewrite (bind_Ok _ _ _ _ _ ltac:(tac))
        | rewrite (bind_Err _ _ _ _ _ ltac:(tac)) ].

#[export] Hint Rewrite @bind_ret @check_null : xt.
#[export] Hint Rewrite @check_nonnull using done : xt.
