(* ===== verification/Bytes.v ===== *)
(** Bytes: integers in little-endian order, parts of byte strings, and the
    interface of a block device. *)
From Stdlib Require Import ZArith Lia.
From stdpp Require Import base tactics list numbers.
From S2P Require Import Prelude.

Open Scope Z_scope.

Definition byte (b : Z) : Prop := 0 <= b < 256.

(** Little-endian bytes of an integer. *)
Fixpoint le (n : nat) (v : Z) : list Z :=
  match n with
  | O => []
  | S n => v mod 256 :: le n (v / 256)
  end.

(** The integer of little-endian bytes. *)
Fixpoint of_le (l : list Z) : Z :=
  match l with
  | [] => 0
  | b :: l => b + 256 * of_le l
  end.

Lemma le_length n v : length (le n v) = n.
Proof. revert v; induction n as [|n IH]; intros v; cbn; [done|]. by rewrite IH. Qed.

Lemma le_bytes n v : Forall byte (le n v).
Proof. revert v; induction n as [|n IH]; intros v; cbn; constructor; [unfold byte; dlia|done]. Qed.

Lemma of_le_le n v : of_le (le n v) = v mod 2 ^ (8 * Z.of_nat n).
Proof.
  revert v; induction n as [|n IH]; intros v; cbn [le of_le]; [by rewrite Z.mod_1_r|].
  rewrite IH. replace (8 * Z.of_nat (S n)) with (8 + 8 * Z.of_nat n) by lia.
  rewrite Z.pow_add_r by lia. change (2 ^ 8) with 256.
  rewrite (Z.rem_mul_r v 256) by lia. lia.
Qed.

Lemma of_le_small n v : 0 <= v < 2 ^ (8 * Z.of_nat n) -> of_le (le n v) = v.
Proof. intros Hv. rewrite of_le_le. by apply Z.mod_small. Qed.

Lemma of_le_bound bs : Forall byte bs -> 0 <= of_le bs < 256 ^ Z.of_nat (length bs).
Proof.
  induction 1 as [|b bs Hb _ IH]; cbn [of_le length]; [cbn; lia|]. unfold byte in Hb.
  rewrite Nat2Z.inj_succ, Z.pow_succ_r by lia. lia.
Qed.

Lemma le_of_le bs : Forall byte bs -> le (length bs) (of_le bs) = bs.
Proof.
  induction 1 as [|b bs Hb _ IH]; cbn [le of_le length]; [done|]. unfold byte in Hb.
  assert ((b + 256 * of_le bs) mod 256 = b) as -> by dlia. assert ((b + 256 * of_le bs) / 256 = of_le bs) as -> by dlia. by rewrite IH.
Qed.

(** * Parts of a byte string *)

(** [n] bytes from [off] on. *)
Definition slice (off n : Z) (l : list Z) : list Z := take (Z.to_nat n) (drop (Z.to_nat off) l).

(** [bs] written over [l] at [off]. *)
Definition splice (off : Z) (bs l : list Z) : list Z :=
  take (Z.to_nat off) l ++ bs ++ drop (Z.to_nat off + length bs) l.

Notation len l := (Z.of_nat (length l)).

Lemma slice_lookup off n l i : slice off n l !! i = if decide (Z.of_nat i < n) then l !! (Z.to_nat off + i)%nat else None.
Proof.
  unfold slice. destruct (decide _).
  - by rewrite lookup_take_lt, lookup_drop by lia.
  - by rewrite lookup_take_ge by lia.
Qed.

Lemma splice_lookup off bs l i : 0 <= off -> off <= len l ->
  splice off bs l !! i =
    if decide (Z.of_nat i < off) then l !! i
    else if decide (Z.of_nat i < off + len bs) then bs !! (i - Z.to_nat off)%nat else l !! i.
Proof.
  intros Ho Hl. unfold splice. assert (length (take (Z.to_nat off) l) = Z.to_nat off) as Ht by (rewrite length_take; lia).
  destruct (decide _).
  - rewrite lookup_app_l by lia. by rewrite lookup_take_lt by lia.
  - rewrite lookup_app_r by lia. rewrite Ht. destruct (decide _).
    + by rewrite lookup_app_l by lia.
    + rewrite lookup_app_r by lia. rewrite lookup_drop. f_equal. lia.
Qed.

Lemma slice_length off n l : 0 <= off -> 0 <= n -> off + n <= len l -> length (slice off n l) = Z.to_nat n.
Proof. intros. unfold slice. rewrite length_take, length_drop. lia. Qed.

Lemma splice_length off bs l : 0 <= off -> off + len bs <= len l -> length (splice off bs l) = length l.
Proof. intros. unfold splice. rewrite !length_app, length_take, length_drop. lia. Qed.

(** Both sides of an equation of parts, entry by entry. *)
Ltac by_entry :=
  apply list_eq; intros ?i; rewrite ?slice_lookup; rewrite ?splice_lookup by lia; rewrite ?slice_lookup;
  repeat match goal with |- context [decide ?P] => destruct (decide P) end.

Lemma slice_splice_eq off bs l : 0 <= off -> off + len bs <= len l -> slice off (len bs) (splice off bs l) = bs.
Proof.
  intros Ho Hl. apply list_eq. intros i. rewrite slice_lookup. destruct (decide _).
  - rewrite splice_lookup by lia. rewrite !decide_False, decide_True by lia. f_equal. lia.
  - rewrite (proj2 (lookup_ge_None bs i)) by lia. done.
Qed.

Lemma slice_splice_ne o n off bs l : 0 <= o -> 0 <= off -> off + len bs <= len l ->
  o + n <= off \/ off + len bs <= o -> slice o n (splice off bs l) = slice o n l.
Proof.
  intros Ho Hoff Hl Hd. apply list_eq. intros i. rewrite !slice_lookup. destruct (decide _); [|done].
  rewrite splice_lookup by lia. destruct (decide _); [done|]. rewrite decide_False by lia. done.
Qed.

(** A write in a part that may run over the end of the list. *)
Lemma slice_splice_short o n p bs l : 0 <= o -> 0 <= p -> p + len bs <= n -> o + p + len bs <= len l ->
  slice o n (splice (o + p) bs l) = splice p bs (slice o n l).
Proof.
  intros Ho Hp Hb Hl. assert (p + len bs <= len (slice o n l)) by (unfold slice; rewrite length_take, length_drop; lia).
  apply list_eq. intros i. rewrite splice_lookup by lia. rewrite !slice_lookup. destruct (decide (Z.of_nat i < n)).
  - rewrite splice_lookup by lia. destruct (decide (Z.of_nat i < p)); [by rewrite decide_True by lia|].
    rewrite decide_False by lia. destruct (decide (Z.of_nat i < p + len bs)).
    + rewrite decide_True by lia. f_equal. lia.
    + by rewrite decide_False by lia.
  - rewrite !decide_False by lia. done.
Qed.

Lemma slice_splice_within o n p bs l : 0 <= o -> 0 <= p -> p + len bs <= n -> o + n <= len l ->
  slice o n (splice (o + p) bs l) = splice p bs (slice o n l).
Proof. intros. apply slice_splice_short; lia. Qed.

Lemma slice_app o a b l : 0 <= o -> 0 <= a -> 0 <= b -> slice o (a + b) l = slice o a l ++ slice (o + a) b l.
Proof.
  intros Ho Ha Hb. unfold slice. replace (Z.to_nat (a + b)) with (Z.to_nat a + Z.to_nat b)%nat by lia.
  rewrite <- take_take_drop, drop_drop. do 3 f_equal. lia.
Qed.

Lemma slice_slice o n p m l : 0 <= o -> 0 <= p -> p + m <= n -> slice p m (slice o n l) = slice (o + p) m l.
Proof.
  intros Ho Hp Hm. apply list_eq. intros i. rewrite !slice_lookup. destruct (decide (Z.of_nat i < m)); [|done].
  rewrite decide_True by lia. f_equal. lia.
Qed.

Lemma slice_all l : slice 0 (len l) l = l.
Proof. unfold slice. rewrite Nat2Z.id. apply firstn_all. Qed.

Lemma slice_mid o n pre m post : o = len pre -> n = len m -> slice o n (pre ++ m ++ post) = m.
Proof. intros -> ->. unfold slice. by rewrite !Nat2Z.id, drop_app_length, take_app_length. Qed.

Lemma slice_nil o n : slice o n [] = [].
Proof. unfold slice. by rewrite drop_nil, take_nil. Qed.

Lemma splice_nil off l : splice off [] l = l.
Proof. unfold splice. by rewrite Nat.add_0_r, app_nil_l, take_drop. Qed.

(** A write in the middle part. *)
Lemma splice_mid l1 l2 l3 p bs : 0 <= p -> p + len bs <= len l2 -> splice (len l1 + p) bs (l1 ++ l2 ++ l3) = l1 ++ splice p bs l2 ++ l3.
Proof.
  intros Hp Hl. unfold splice. replace (Z.to_nat (len l1 + p)) with (length l1 + Z.to_nat p)%nat by lia.
  rewrite take_app_add. rewrite take_app_le by lia. rewrite <- Nat.add_assoc, drop_app_add, drop_app_le by lia. by rewrite <- !app_assoc.
Qed.

(** Two writes in a row. *)
Lemma splice_splice off a b l : 0 <= off -> off + len a + len b <= len l -> splice (off + len a) b (splice off a l) = splice off (a ++ b) l.
Proof.
  intros Ho Hl. assert (length (splice off a l) = length l) as L by (apply splice_length; lia).
  apply list_eq. intros i. rewrite !splice_lookup by lia. rewrite length_app.
  repeat (destruct (decide _); try lia); try done; rewrite ?lookup_app_l, ?lookup_app_r by lia; try done; f_equal; lia.
Qed.

(** Bytes that arrive in a buffer: what is not overwritten stays. *)
Definition fill (buf bs : list Z) : list Z := bs ++ drop (length bs) buf.

Lemma fill_all buf bs : length buf = length bs -> fill buf bs = bs.
Proof. intros E. unfold fill. by rewrite <- E, drop_all, app_nil_r. Qed.

(** * Block devices *)

(** What a file system relies on: within the bounds of the device a read gives
    the bytes there, and a write replaces them. Nothing is said about calls
    that cross the end or move no bytes. *)
Class BlockDevice (D : Type) := {
  dev_read : Z -> Z -> M D (list Z);
  dev_write : Z -> list Z -> M D Z;
  dev_bytes : D -> list Z;
  dev_read_ok d off n : 0 <= off -> 0 < n -> off + n <= len (dev_bytes d) ->
    dev_read off n d = Ok (slice off n (dev_bytes d)) d;
  dev_write_ok d off bs : 0 <= off -> 0 < len bs -> off + len bs <= len (dev_bytes d) ->
    exists d', dev_write off bs d = Ok (len bs) d' /\ dev_bytes d' = splice off bs (dev_bytes d)
}.

(** A property of devices that every write within the bounds keeps. What is
    proved of a file system holds with the property beside it. *)
Class Watch (D : Type) {B : BlockDevice D} := {
  watched : D -> Prop;
  watched_write d off bs d' : watched d -> 0 <= off -> 0 < len bs -> off + len bs <= len (dev_bytes d) ->
    dev_write off bs d = Ok (len bs) d' -> watched d'
}.

(** Nothing in particular. *)
#[export] Instance watch_nothing {D : Type} {B : BlockDevice D} : Watch D | 100 := {
  watched := fun _ => True;
  watched_write := fun _ _ _ _ _ _ _ _ _ => I
}.

(** A disk held as a list; transfers that cross its end fail. *)
Definition disk_read (off n : Z) : M (list Z) (list Z) := fun d =>
  if (0 <=? off) && (off + n <=? len d) then Ok (slice off n d) d else Err XT_END_OF_FILE d.

Definition disk_write (off : Z) (bs : list Z) : M (list Z) Z := fun d =>
  if (0 <=? off) && (off + len bs <=? len d) then Ok (len bs) (splice off bs d) else Err XT_END_OF_FILE d.

Lemma disk_read_ok d off n : 0 <= off -> 0 < n -> off + n <= len d -> disk_read off n d = Ok (slice off n d) d.
Proof. intros. unfold disk_read. by rewrite !(proj2 (Z.leb_le _ _)) by lia. Qed.

Lemma disk_write_ok d off bs : 0 <= off -> 0 < len bs -> off + len bs <= len d ->
  exists d', disk_write off bs d = Ok (len bs) d' /\ d' = splice off bs d.
Proof. intros. unfold disk_write. rewrite !(proj2 (Z.leb_le _ _)) by lia. eauto. Qed.

#[export] Instance Disk : BlockDevice (list Z) := {
  dev_read := disk_read;
  dev_write := disk_write;
  dev_bytes := fun d => d;
  dev_read_ok := disk_read_ok;
  dev_write_ok := disk_write_ok
}.
