(* ===== verification/Io.v ===== *)
(** What include/xt/io.h declares for every file system: the information on a
    file and the flags. *)
From Stdlib Require Import ZArith.
From stdpp Require Import base list numbers.
From S2P Require Import Prelude.

Open Scope Z_scope.

(** The name is the bytes of the C string. *)
Record XTFileInfo := mkInfo {
  info_name : list Z;
  FileSize : Z;
  PhysicalSize : Z;
  createdTime : Z;
  lastAccessTime : Z;
  lastWriteTime : Z;
  info_flags : Z;
  userOwnerId : Z
}.

Definition XT_FILE_MODE_READ : Z := 0x01.

Definition XT_FILE_MODE_WRITE : Z := 0x02.

Definition XT_FILE_MODE_CREATE : Z := 0x04.

Definition XT_FILE_ATTRIBUTE_DIRECTORY : Z := 0x08.

Definition XT_FILE_MODE_NONBLOCK : Z := 0x80.

Definition XT_PATH_NODE_TYPE_FILE : Z := 0.

Definition XT_LOCK_READ : Z := 0x01.

Definition XT_LOCK_WRITE : Z := 0x02.

(** [XTFileInfo info = { 0 }] *)
Definition no_info : XTFileInfo := mkInfo [] 0 0 0 0 0 0 0.

(** A field of the information with another value. *)
Definition set_sizes (size physical : Z) (info : XTFileInfo) : XTFileInfo :=
  mkInfo (info_name info) size physical (createdTime info) (lastAccessTime info) (lastWriteTime info) (info_flags info) (userOwnerId info).

Definition set_info_name (name : list Z) (info : XTFileInfo) : XTFileInfo :=
  mkInfo name (FileSize info) (PhysicalSize info) (createdTime info) (lastAccessTime info) (lastWriteTime info) (info_flags info) (userOwnerId info).
