(* ===== verification/Time.v ===== *)
(** Calendar time: xtkernel/time.c, the HPET clock of xtkernel/hpet.c and the
    CMOS clock decoding of xtkernel/arch/x86_64/arch.c. *)
From Stdlib Require Import ZArith Lia.
From stdpp Require Import base tactics list numbers.
From S2P Require Import Prelude.

Open Scope Z_scope.

(** * Data *)

(** [XTTime]; all fields but [year] and [yday] are [uint8_t]. *)
Record XTTime := mkTime {
  seconds : Z;
  minutes : Z;
  hour : Z;
  mday : Z;
  wday : Z;
  month : Z;
  yday : Z;
  year : Z
}.

(** * The calendar (time.c) *)

Definition is_leap_year (y : Z) : bool :=
  (y mod 4 =? 0) && negb (y mod 100 =? 0) || (y mod 400 =? 0).

Definition days_table : list Z := [31; 28; 31; 30; 31; 30; 31; 31; 30; 31; 30; 31].

(** A month outside 1..12 reads outside the table. *)
Definition days_in_month {S} (y m : Z) : M S Z :=
  if (m =? 2) && is_leap_year y then mret 29
  else if m <? 1 then fault
  else deref (fun _ => days_table !! Z.to_nat (m - 1)).

(** [for (m = 1; m < month; ++m) total += ...], [n] iterations from [m]. *)
Fixpoint days_before_loop {S} (n : nat) (y m total : Z) : M S Z :=
  match n with
  | O => mret total
  | Datatypes.S n =>
    d ← days_in_month y m;
    days_before_loop n y (u8 (m + 1)) (u16 (total + d))
  end.

Definition days_before_month {S} (y m : Z) : M S Z :=
  days_before_loop (Z.to_nat (m - 1)) y 1 0.

Definition year_days (y : Z) : Z := if is_leap_year y then 366 else 365.

(** [for (y = 1970; y < time->year; ++y)], [n] iterations from [y]. *)
Fixpoint years_loop (n : nat) (y days : Z) : Z :=
  match n with
  | O => days
  | S n => years_loop n (u32 (y + 1)) (u64 (days + year_days y))
  end.

Definition xtMakeTime {S} (time : XTTime) : M S Z :=
  if (seconds time >? 59) || (minutes time >? 59) || (hour time >? 23)
     || (mday time <? 1) || (mday time >? 31) || (month time <? 1) || (month time >? 12)
     || (year time <? 1970)
  then throw XT_INVALID_PARAMETER
  else
    dim ← days_in_month (year time) (month time);
    if mday time >? dim then throw XT_INVALID_PARAMETER
    else
      let days := years_loop (Z.to_nat (year time - 1970)) 1970 0 in
      before ← days_before_month (year time) (month time);
      let days := u64 (days + before) in
      let days := u64 (days + (mday time - 1)) in
      mret (u64 (days * 86400 + hour time * 3600 + minutes time * 60 + seconds time)).

(** [while (days >= ...) { days -= ...; ++year; }] *)
Fixpoint year_search {S} (fuel : nat) (y days : Z) : M S (Z * Z) :=
  if days >=? year_days y then
    match fuel with
    | O => nofuel
    | Datatypes.S fuel => year_search fuel (u32 (y + 1)) (days - year_days y)
    end
  else mret (y, days).

(** [while (month <= 12) { ... }] *)
Fixpoint month_search {S} (fuel : nat) (y m days : Z) : M S (Z * Z) :=
  if m <=? 12 then
    dim ← days_in_month y m;
    if days <? dim then mret (m, days)
    else match fuel with
         | O => nofuel
         | Datatypes.S fuel => month_search fuel y (u8 (m + 1)) (days - dim)
         end
  else mret (m, days).

(** [xtGetTimeFromUnix] into the structure behind its pointer. *)
Definition xtGetTimeFromUnix {S} (unixtime : Z) : M S XTTime :=
  let days := unixtime / 86400 in
  let secs_of_day := u32 (unixtime mod 86400) in
  let h := u8 (secs_of_day / 3600) in
  let mi := u8 (secs_of_day mod 3600 / 60) in
  let s := u8 (secs_of_day mod 60) in
  '(y, days1) ← year_search (Z.to_nat (days / 365)) 1970 days;
  '(m, days2) ← month_search 12 y 1 days1;
  let md := u8 (days2 + 1) in
  let wd := u8 ((unixtime / 86400 + 4) mod 7) in
  before ← days_before_month y m;
  let yd := u16 (before + (md - 1)) in
  mret (mkTime s mi h md wd m yd y).

(** * The HPET clock (hpet.c) *)

(** The globals [hpet_period_fs], [last_hpet_ns], [current_time_seconds] and
    [current_time_nanoseconds]. *)
Record HpetClock := mkClock {
  hpet_period_fs : Z;
  last_hpet_ns : Z;
  current_time_seconds : Z;
  current_time_nanoseconds : Z
}.

Definition hpet_now_ns (c : HpetClock) (ticks : Z) : Z :=
  u64 (ticks * hpet_period_fs c) / 1000000.

(** [ticks] is what the main counter register at [hpet_base + 0xF0] reads. *)
Definition xtSetTime (ticks unixtime nanoseconds : Z) : M HpetClock unit :=
  modify (fun c => mkClock (hpet_period_fs c) (hpet_now_ns c ticks) unixtime nanoseconds).

Definition xtGetTime (ticks : Z) : M HpetClock (Z * Z) :=
  c ← get;
  let now_ns := hpet_now_ns c ticks in
  let delta_ns := u64 (now_ns - last_hpet_ns c) in
  let ns := u64 (current_time_nanoseconds c + delta_ns) in
  let '(sec, ns) :=
    if ns >=? 1000000000
    then (u64 (current_time_seconds c + ns / 1000000000), ns mod 1000000000)
    else (current_time_seconds c, ns) in
  put (mkClock (hpet_period_fs c) now_ns sec ns) ;;;
  mret (sec, ns).

(** * The CMOS clock (arch.c) *)

Definition CURRENT_YEAR : Z := 2026.

(** One reading of the clock registers 0x00, 0x02, 0x04, 0x07, 0x08 and 0x09. *)
Record RtcRegs := mkRtc {
  rtc_second : Z;
  rtc_minute : Z;
  rtc_hour : Z;
  rtc_day : Z;
  rtc_month : Z;
  rtc_year : Z
}.

#[export] Instance RtcRegs_eq_dec : EqDecision RtcRegs.
Proof. solve_decision. Defined.

(** The [do ... while] of [xtCMOSInit]: readings are taken until two in a row
    agree; [next] are the readings the hardware still has to give. *)
Fixpoint rtc_settle {S} (cur : RtcRegs) (next : list RtcRegs) : M S RtcRegs :=
  match next with
  | [] => nofuel
  | r :: next => if decide (cur = r) then mret r else rtc_settle r next
  end.

Definition bcd_byte (v : Z) : Z := u8 (Z.land v 15 + v / 16 * 10).

(** The conversion part of [xtCMOSInit]: from registers and register B to the
    time that is handed to [xtMakeTime]. *)
Definition rtc_decode (r : RtcRegs) (registerB : Z) : XTTime :=
  let binary := negb (Z.land registerB 4 =? 0) in
  let second := if binary then rtc_second r else bcd_byte (rtc_second r) in
  let minute := if binary then rtc_minute r else bcd_byte (rtc_minute r) in
  let hour := if binary then rtc_hour r
              else u8 (Z.lor (Z.land (rtc_hour r) 15 + Z.land (rtc_hour r) 112 / 16 * 10)
                             (Z.land (rtc_hour r) 128)) in
  let day := if binary then rtc_day r else bcd_byte (rtc_day r) in
  let month := if binary then rtc_month r else bcd_byte (rtc_month r) in
  let year := if binary then rtc_year r
              else u32 (Z.land (rtc_year r) 15 + rtc_year r / 16 * 10) in
  let hour := if (Z.land registerB 2 =? 0) && negb (Z.land hour 128 =? 0)
              then (Z.land hour 127 + 12) mod 24 else hour in
  let year := u32 (year + CURRENT_YEAR / 100 * 100) in
  let year := if year <? CURRENT_YEAR then u32 (year + 100) else year in
  mkTime second minute hour day 0 month 0 year.

(** [xtCMOSInit]: the first reading, the readings of the loop, register B and
    the HPET counter at the time of the call. The result code of [xtMakeTime]
    is dropped and [unixtime] starts as 0. *)
Definition xtCMOSInit (first : RtcRegs) (next : list RtcRegs) (registerB ticks : Z)
    : M HpetClock unit :=
  r ← rtc_settle first next;
  unixtime ← out_or 0 (xtMakeTime (rtc_decode r registerB));
  xtSetTime ticks unixtime 0.

(** * The specification of the calendar *)

(** Days in the [n] years from [y] on. *)
Fixpoint span (n : nat) (y : Z) : Z :=
  match n with
  | O => 0
  | S n => year_days y + span n (y + 1)
  end.

(** The months of the Gregorian calendar. *)
Definition month_len (y m : Z) : Z :=
  if m =? 2 then (if is_leap_year y then 29 else 28)
  else if (m =? 4) || (m =? 6) || (m =? 9) || (m =? 11) then 30 else 31.

(** Days in the first [n] months. *)
Fixpoint months_span (y : Z) (n : nat) : Z :=
  match n with
  | O => 0
  | S n => months_span y n + month_len y (Z.of_nat (S n))
  end.

Definition months_before (y m : Z) : Z := months_span y (Z.to_nat (m - 1)).

(** What [xtMakeTime] accepts: a date of the calendar from 1970 on. *)
Definition valid_date (t : XTTime) : Prop :=
  0 <= seconds t <= 59 /\ 0 <= minutes t <= 59 /\ 0 <= hour t <= 23 /\
  1970 <= year t < 2 ^ 32 /\ 1 <= month t <= 12 /\ 1 <= mday t <= month_len (year t) (month t).

(** The values the fields can hold by their C types. *)
Definition time_in_range (t : XTTime) : Prop :=
  0 <= seconds t < 2 ^ 8 /\ 0 <= minutes t < 2 ^ 8 /\ 0 <= hour t < 2 ^ 8 /\
  0 <= mday t < 2 ^ 8 /\ 0 <= month t < 2 ^ 8 /\ 0 <= year t < 2 ^ 32.

(** The days from 1970-01-01 to a date and the seconds to a moment, in
    unbounded integers. *)
Definition date_days (t : XTTime) : Z :=
  span (Z.to_nat (year t - 1970)) 1970 + months_before (year t) (month t) + (mday t - 1).

Definition moment_seconds (t : XTTime) : Z :=
  date_days t * 86400 + hour t * 3600 + minutes t * 60 + seconds t.

(** The result of the month search on day [d] of a year, checked. *)
Definition month_search_ok {S} (s : S) (y d : Z) : bool :=
  match month_search 12 y 1 d s with
  | Ok (m, r) _ =>
    (1 <=? m) && (m <=? 12) && (0 <=? r) && (r <? month_len y m) && (d =? months_before y m + r)
  | _ => false
  end.

(** * Lemmas *)

Lemma year_days_bounds y : 365 <= year_days y <= 366.
Proof. unfold year_days. destruct (is_leap_year y); lia. Qed.

Lemma span_bounds n y : 365 * Z.of_nat n <= span n y <= 366 * Z.of_nat n.
Proof.
  revert y; induction n as [|n IH]; intros y; cbn [span]; [lia|].
  pose proof (year_days_bounds y). pose proof (IH (y + 1)). lia.
Qed.

Lemma years_loop_span n y d :
  0 <= y -> y + Z.of_nat n < 2 ^ 32 -> 0 <= d -> d + 366 * Z.of_nat n < 2 ^ 64 ->
  years_loop n y d = d + span n y.
Proof.
  revert y d; induction n as [|n IH]; intros y d Hy Hn Hd Hb; cbn [years_loop span]; [lia|].
  pose proof (year_days_bounds y).
  rewrite u32_small, u64_small by lia. rewrite IH by lia. lia.
Qed.

(** The year search finds the year that holds the day. *)
Lemma year_search_ok {S} fuel y days (s : S) :
  0 <= y -> 0 <= days -> days / 365 <= Z.of_nat fuel -> y + Z.of_nat fuel < 2 ^ 32 ->
  exists n r, year_search fuel y days s = Ok (y + Z.of_nat n, r) s /\
    days = span n y + r /\ 0 <= r < year_days (y + Z.of_nat n) /\ (n <= fuel)%nat.
Proof.
  revert y days; induction fuel as [|fuel IH]; intros y days Hy Hd Hf Hb; cbn [year_search];
    pose proof (year_days_bounds y); destruct (days >=? year_days y) eqn:E;
    rewrite Z.geb_leb in E; zbool.
  - exfalso. dlia.
  - exists 0%nat, days. cbn [span]. rewrite Z.add_0_r. repeat split; lia.
  - destruct (IH (y + 1) (days - year_days y)) as (n & r & Hr & Hs & Hr' & Hn);
      [lia | lia | dlia | lia |].
    exists (Datatypes.S n), r. rewrite u32_small by lia. rewrite Hr. cbn [span].
    replace (y + Z.of_nat (Datatypes.S n)) with (y + 1 + Z.of_nat n) by lia.
    repeat split; (lia || done).
  - exists 0%nat, days. cbn [span]. rewrite Z.add_0_r. repeat split; lia.
Qed.

(** A day is in one year only. *)
Lemma span_unique n n' y r r' :
  span n y + r = span n' y + r' ->
  0 <= r < year_days (y + Z.of_nat n) -> 0 <= r' < year_days (y + Z.of_nat n') ->
  n = n' /\ r = r'.
Proof.
  revert n' y; induction n as [|n IH]; intros [|n'] y; cbn [span]; intros H Hr Hr'.
  - lia.
  - rewrite Z.add_0_r in Hr. pose proof (span_bounds n' (y + 1)). lia.
  - rewrite Z.add_0_r in Hr'. pose proof (span_bounds n (y + 1)). lia.
  - destruct (IH n' (y + 1)) as [-> ->]; [lia| | |done].
    + by replace (y + 1 + Z.of_nat n) with (y + Z.of_nat (Datatypes.S n)) by lia.
    + by replace (y + 1 + Z.of_nat n') with (y + Z.of_nat (Datatypes.S n')) by lia.
Qed.

(** The month routines look at the year only through [is_leap_year]. *)
Lemma days_in_month_leap {S} y y' m (s : S) :
  is_leap_year y = is_leap_year y' -> days_in_month y m s = days_in_month y' m s.
Proof. intros H. unfold days_in_month. by rewrite H. Qed.

Lemma days_in_month_state {S} y m (s s' : S) d : days_in_month y m s = Ok d s' -> s' = s.
Proof.
  unfold days_in_month, deref. destruct (_ && _); [by intros [= _ <-]|].
  destruct (m <? 1); [done|]. destruct (days_table !! _); [by intros [= _ <-]|done].
Qed.

Lemma days_before_loop_leap {S} n y y' m t (s : S) :
  is_leap_year y = is_leap_year y' -> days_before_loop n y m t s = days_before_loop n y' m t s.
Proof.
  intros H. revert m t; induction n as [|n IH]; intros m t; [done|].
  cbn [days_before_loop]. unfold mbind, M_bind. rewrite (days_in_month_leap y y' m s H).
  destruct (days_in_month y' m s) eqn:E; try done.
  apply days_in_month_state in E as ->.
  apply IH.
Qed.

Lemma month_search_leap {S} fuel y y' m d (s : S) :
  is_leap_year y = is_leap_year y' -> month_search fuel y m d s = month_search fuel y' m d s.
Proof.
  intros H. revert m d; induction fuel as [|n IH]; intros m d; cbn [month_search];
    destruct (m <=? 12); [|done| |done]; unfold mbind, M_bind;
    rewrite (days_in_month_leap y y' m s H);
    destruct (days_in_month y' m s) eqn:E; try done.
  apply days_in_month_state in E as ->.
  destruct (d <? a); [done|]. apply IH.
Qed.

Definition leap_rep (y : Z) : Z := if is_leap_year y then 2000 else 2001.

Lemma leap_rep_leap y : is_leap_year y = is_leap_year (leap_rep y).
Proof. unfold leap_rep. by destruct (is_leap_year y) eqn:E. Qed.

Lemma month_len_leap y y' m : is_leap_year y = is_leap_year y' -> month_len y m = month_len y' m.
Proof. intros H. unfold month_len. by rewrite H. Qed.

Lemma months_span_leap y y' n :
  is_leap_year y = is_leap_year y' -> months_span y n = months_span y' n.
Proof.
  intros H. induction n as [|n IH]; cbn [months_span]; [done|].
  by rewrite IH, (month_len_leap y y').
Qed.

Ltac twelve m H :=
  assert (m = 1 \/ m = 2 \/ m = 3 \/ m = 4 \/ m = 5 \/ m = 6 \/ m = 7 \/ m = 8 \/ m = 9 \/
          m = 10 \/ m = 11 \/ m = 12) as H by lia;
  destruct H as [->|[->|[->|[->|[->|[->|[->|[->|[->|[->|[->| ->]]]]]]]]]]].

Lemma days_in_month_len {S} y m (s : S) :
  1 <= m <= 12 -> days_in_month y m s = Ok (month_len y m) s.
Proof.
  intros H. unfold days_in_month, month_len, deref.
  twelve m Hm; cbn -[is_leap_year]; destruct (is_leap_year y); reflexivity.
Qed.

(** The days of a month fit the loop's 16-bit total. *)
Lemma month_len_bounds y m : 28 <= month_len y m <= 31.
Proof. unfold month_len. repeat case_match; lia. Qed.

Lemma days_before_loop_len {S} n y k (s : S) :
  Z.of_nat k + Z.of_nat n <= 12 ->
  days_before_loop n y (Z.of_nat k + 1) (months_span y k) s = Ok (months_span y (k + n)) s.
Proof.
  assert (forall j, 0 <= months_span y j <= 31 * Z.of_nat j) as B.
  { induction j; cbn [months_span]; [lia|].
    pose proof (month_len_bounds y (Z.of_nat (Datatypes.S j))). lia. }
  revert k; induction n as [|n IH]; intros k H; cbn [days_before_loop].
  - by rewrite Nat.add_0_r.
  - rewrite (bind_Ok _ _ _ _ _ (days_in_month_len y (Z.of_nat k + 1) s ltac:(lia))).
    pose proof (B k). pose proof (month_len_bounds y (Z.of_nat k + 1)).
    rewrite u16_small, u8_small by lia.
    specialize (IH (Datatypes.S k) ltac:(lia)). cbn [months_span] in IH.
    replace (Z.of_nat (Datatypes.S k)) with (Z.of_nat k + 1) in IH by lia.
    rewrite IH. do 2 f_equal. lia.
Qed.

Lemma days_before_month_len {S} y m (s : S) :
  1 <= m <= 12 -> days_before_month y m s = Ok (months_before y m) s.
Proof.
  intros H. unfold days_before_month, months_before.
  apply (days_before_loop_len _ y 0 s). lia.
Qed.

(** Every day of a year has its month: all 366 + 365 days are evaluated. *)
Lemma month_search_all {S} (s : S) y d :
  0 <= d < year_days y -> month_search_ok s (leap_rep y) d = true.
Proof.
  assert (forallb (fun d => month_search_ok s 2000 (Z.of_nat d)) (seq 0 366)
          && forallb (fun d => month_search_ok s 2001 (Z.of_nat d)) (seq 0 365) = true) as H
    by (vm_compute; reflexivity).
  apply andb_true_iff in H as [Hl Hn]. intros Hd. unfold leap_rep, year_days in *.
  replace d with (Z.of_nat (Z.to_nat d)) by lia.
  destruct (is_leap_year y); [eapply forallb_forall in Hl | eapply forallb_forall in Hn];
    eauto; apply in_seq; lia.
Qed.

Lemma month_search_len {S} (s : S) y d :
  0 <= d < year_days y ->
  exists m r, month_search 12 y 1 d s = Ok (m, r) s /\
    1 <= m <= 12 /\ 0 <= r < month_len y m /\ d = months_before y m + r.
Proof.
  intros Hd. pose proof (month_search_all s y d Hd) as H. unfold month_search_ok in H.
  pose proof (leap_rep_leap y) as L.
  rewrite <- (month_search_leap 12 y (leap_rep y) 1 d s L) in H.
  destruct (month_search 12 y 1 d s) as [[m r] s'| | |] eqn:E; try done.
  assert (s' = s) as ->.
  { clear -E. revert E. generalize 12%nat 1 d. intros n. induction n as [|n IH]; intros k e;
      cbn [month_search]; (destruct (k <=? 12); [|by intros [= _ _ <-]]);
      (destruct (days_in_month y k s) as [dim s1| | |] eqn:D;
       unfold mbind, M_bind; rewrite D; try done);
      apply days_in_month_state in D as ->; (destruct (e <? dim); [by intros [= _ _ <-]|]).
    - done.
    - apply IH. }
  exists m, r. zbool. rewrite (month_len_leap y _ m L) .
  unfold months_before in *. rewrite (months_span_leap y _ _ L).
  repeat split; try done; lia.
Qed.

Lemma months_before_bounds y m : 1 <= m <= 12 -> 0 <= months_before y m <= 31 * 12.
Proof.
  intros H. unfold months_before. assert (Z.to_nat (m - 1) <= 12)%nat as L by lia.
  generalize dependent (Z.to_nat (m - 1)). intros n Hn.
  enough (0 <= months_span y n <= 31 * Z.of_nat n) by lia. clear Hn.
  induction n as [|n IH]; cbn [months_span]; [lia|].
  pose proof (month_len_bounds y (Z.of_nat (Datatypes.S n))). lia.
Qed.

Lemma make_time_valid {S} t (s : S) : valid_date t -> xtMakeTime t s = Ok (moment_seconds t) s.
Proof.
  intros (Hs & Hm & Hh & Hy & Hmo & Hd). unfold xtMakeTime, moment_seconds, date_days.
  pose proof (month_len_bounds (year t) (month t)).
  replace ((seconds t >? 59) || _ || _ || _ || _ || _ || _ || _) with false
    by (symmetry; rewrite !orb_false_iff; repeat split; lia).
  rewrite (bind_Ok _ _ _ _ _ (days_in_month_len _ _ s Hmo)).
  replace (mday t >? _) with false by (symmetry; lia).
  rewrite (bind_Ok _ _ _ _ _ (days_before_month_len _ _ s Hmo)).
  pose proof (span_bounds (Z.to_nat (year t - 1970)) 1970).
  pose proof (months_before_bounds (year t) (month t) Hmo) as B.
  rewrite years_loop_span by lia. cbv [mret M_ret]. f_equal.
  rewrite Z.add_0_l. rewrite (u64_small (span _ _ + _)), (u64_small (span _ _ + _ + _)) by lia.
  apply u64_small. lia.
Qed.

Lemma make_time_invalid {S} t (s : S) :
  time_in_range t -> ~ valid_date t -> xtMakeTime t s = Err XT_INVALID_PARAMETER s.
Proof.
  intros (Hs & Hm & Hh & Hd & Hmo & Hy) N. unfold xtMakeTime.
  destruct (_ || _) eqn:E; [done|]. rewrite !orb_false_iff in E.
  destruct E as [[[[[[[E1 E2] E3] E4] E5] E6] E7] E8]. zbool.
  rewrite (bind_Ok _ _ _ _ _ (days_in_month_len (year t) (month t) s ltac:(lia))).
  destruct (mday t >? _) eqn:E9; [done|].
  contradict N. unfold valid_date. repeat split; lia.
Qed.

Lemma get_time_spec {S} t (s : S) :
  0 <= t < 2 ^ 56 ->
  exists tm, xtGetTimeFromUnix t s = Ok tm s /\ valid_date tm /\ moment_seconds tm = t /\
    wday tm = (t / 86400 + 4) mod 7 /\ yday tm = months_before (year tm) (month tm) + mday tm - 1.
Proof.
  intros Ht. unfold xtGetTimeFromUnix.
  assert (0 <= t / 86400 < 2 ^ 40) as Hq by dlia.
  assert (0 <= t / 86400 / 365 < 2 ^ 32 - 2000) as Hq2 by (generalize dependent (t / 86400); intros; dlia).
  destruct (year_search_ok (Z.to_nat (t / 86400 / 365)) 1970 (t / 86400) s)
    as (n & d & Hy & Hsp & Hd & Hn); [lia|lia|lia|lia|].
  rewrite (bind_Ok _ _ _ _ _ Hy).
  destruct (month_search_len s (1970 + Z.of_nat n) d Hd) as (m & r & Hms & Hm & Hr & Hdr).
  rewrite (bind_Ok _ _ _ _ _ Hms).
  pose proof (month_len_bounds (1970 + Z.of_nat n) m).
  pose proof (year_days_bounds (1970 + Z.of_nat n)).
  rewrite (bind_Ok _ _ _ _ _ (days_before_month_len _ _ s Hm)).
  eexists. split; [reflexivity|].
  pose proof (Z.mod_pos_bound t 86400 ltac:(lia)) as Hday.
  pose proof (Z.mod_pos_bound (t / 86400 + 4) 7 ltac:(lia)) as Hwk.
  pose proof (Z.div_mod t 86400 ltac:(lia)) as Ht2.
  revert Hday Hwk Ht2 Hsp. generalize (t / 86400) ((t / 86400 + 4) mod 7) (t mod 86400).
  intros q wk h Hday Hwk Ht2 Hsp.
  pose proof (months_before_bounds (1970 + Z.of_nat n) m Hm).
  rewrite (u32_small h) by lia.
  rewrite (u8_small (r + 1)), (u8_small wk), (u8_small (h mod 60)), (u8_small (h mod 3600 / 60)),
    (u8_small (h / 3600)), u16_small by dlia.
  unfold valid_date, moment_seconds, date_days. cbn [seconds minutes hour mday wday month yday year].
  replace (Z.to_nat (1970 + Z.of_nat n - 1970)) with n by lia.
  repeat split; try lia; try dlia.
Qed.

(** A clock shows [base] nanoseconds more than its last HPET reading. *)
Definition clock_shows (c : HpetClock) (base : Z) : Prop :=
  0 <= last_hpet_ns c <= 2 ^ 64 / 1000000 /\ 0 <= current_time_nanoseconds c < 1000000000 /\
  0 <= current_time_seconds c /\
  current_time_seconds c * 1000000000 + current_time_nanoseconds c = base + last_hpet_ns c.

(** The nanoseconds a counter value stands for, without wrap-around. *)
Definition ticks_ns (period ticks : Z) : Z := ticks * period / 1000000.

(** Readings of the clock at the given counter values. *)
Fixpoint read_clock (l : list Z) : M HpetClock (list (Z * Z)) :=
  match l with
  | [] => mret []
  | t :: l => r ← xtGetTime t; rs ← read_clock l; mret (r :: rs)
  end.

(** Counter values in the order of time, below the wrap of the product. *)
Fixpoint ticks_ordered (period t0 : Z) (l : list Z) : Prop :=
  match l with
  | [] => True
  | t :: l => t0 <= t /\ t * period < 2 ^ 64 /\ ticks_ordered period t l
  end.

Lemma hpet_now_exact c t :
  0 <= t -> 0 <= hpet_period_fs c -> t * hpet_period_fs c < 2 ^ 64 ->
  hpet_now_ns c t = ticks_ns (hpet_period_fs c) t.
Proof. intros. unfold hpet_now_ns, ticks_ns. rewrite u64_small by nia. done. Qed.

(** One reading keeps the clock exact. *)
Lemma get_time_shows c base t :
  clock_shows c base -> base + 2 ^ 64 / 1000000 < 2 ^ 63 -> 0 <= base ->
  0 <= t -> 0 <= hpet_period_fs c -> t * hpet_period_fs c < 2 ^ 64 ->
  last_hpet_ns c <= ticks_ns (hpet_period_fs c) t ->
  exists sec ns c', xtGetTime t c = Ok (sec, ns) c' /\ clock_shows c' base /\
    hpet_period_fs c' = hpet_period_fs c /\ last_hpet_ns c' = ticks_ns (hpet_period_fs c) t /\
    0 <= ns < 1000000000 /\ sec * 1000000000 + ns = base + ticks_ns (hpet_period_fs c) t.
Proof.
  intros (Hl & Hn & Hs & He) Hb Hb0 Ht Hp Hw Hle. unfold xtGetTime.
  cbv beta iota zeta delta [mbind M_bind get put mret M_ret].
  rewrite hpet_now_exact by done. set (now := ticks_ns (hpet_period_fs c) t) in *.
  assert (0 <= now <= 2 ^ 64 / 1000000) as Hnow by (unfold now, ticks_ns; assert (0 <= t * hpet_period_fs c) by nia; dlia).
  rewrite (u64_small (now - last_hpet_ns c)) by dlia.
  rewrite (u64_small (current_time_nanoseconds c + _)) by dlia.
  destruct (_ >=? 1000000000) eqn:E.
  - assert (0 <= (current_time_nanoseconds c + (now - last_hpet_ns c)) / 1000000000 < 2 ^ 63)
      by dlia.
    rewrite u64_small by lia.
    do 3 eexists. split; [reflexivity|].
    unfold clock_shows. cbn [hpet_period_fs last_hpet_ns current_time_seconds current_time_nanoseconds].
    repeat split; dlia.
  - do 3 eexists. split; [reflexivity|].
    unfold clock_shows. cbn [hpet_period_fs last_hpet_ns current_time_seconds current_time_nanoseconds].
    repeat split; dlia.
Qed.

Lemma ticks_ns_mono p a b : 0 <= p -> a <= b -> ticks_ns p a <= ticks_ns p b.
Proof. intros. unfold ticks_ns. apply Z.div_le_mono; nia. Qed.

Lemma read_clock_app l l' c :
  read_clock (l ++ l') c = (rs ← read_clock l; rs' ← read_clock l'; mret (rs ++ rs')) c.
Proof.
  revert c; induction l as [|t l IH]; intros c; cbn [read_clock app].
  - unfold mbind, M_bind, mret, M_ret. by destruct (read_clock l' c).
  - unfold mbind, M_bind, mret, M_ret in *. destruct (xtGetTime t c); try done.
    rewrite IH. destruct (read_clock l s); try done. by destruct (read_clock l' s0).
Qed.

(** All readings of a clock that is exact are exact. *)
Lemma read_clock_exact l : forall c base,
  clock_shows c base -> base + 2 ^ 64 / 1000000 < 2 ^ 63 -> 0 <= base -> 0 <= hpet_period_fs c ->
  forall t0, 0 <= t0 -> last_hpet_ns c <= ticks_ns (hpet_period_fs c) t0 ->
  ticks_ordered (hpet_period_fs c) t0 l ->
  exists rs c', read_clock l c = Ok rs c' /\
    Forall2 (fun t r => 0 <= r.2 < 1000000000 /\
                        r.1 * 1000000000 + r.2 = base + ticks_ns (hpet_period_fs c) t) l rs.
Proof.
  induction l as [|t l IH]; intros c base Hc Hb Hb0 Hp t0 Ht0 Hl Ho; cbn [read_clock].
  - exists [], c. split; [done|constructor].
  - destruct Ho as (H1 & H2 & H3).
    pose proof (ticks_ns_mono (hpet_period_fs c) t0 t Hp H1).
    destruct (get_time_shows c base t) as (sec & ns & c1 & E & Hc1 & Ep & El & Hns & Hs); try lia; [done|].
    destruct (IH c1 base Hc1 Hb Hb0 ltac:(lia) t) as (rs & c2 & E2 & F); [lia|by rewrite El, Ep|by rewrite Ep|].
    exists ((sec, ns) :: rs), c2. rewrite (bind_Ok _ _ _ _ _ E), (bind_Ok _ _ _ _ _ E2).
    split; [done|]. constructor; [done|]. by rewrite <- Ep.
Qed.

(** The register value that shows [v], 0..99, in BCD. *)
Definition to_bcd (v : Z) : Z := v / 10 * 16 + v mod 10.

Lemma bcd_byte_correct v : 0 <= v < 100 -> bcd_byte (to_bcd v) = v.
Proof.
  intros H. unfold bcd_byte, to_bcd. change 15 with (2 ^ 4 - 1). rewrite land_low by lia.
  rewrite u8_small; dlia.
Qed.

(** * Theorems *)

(** [xtMakeTime] decides the calendar: on any field values of the C types it returns the seconds from 1970-01-01 to the moment when the fields are a date, and [XT_INVALID_PARAMETER] otherwise. *)
Theorem xtMakeTime_spec {S} (t : XTTime) (s : S) :
  time_in_range t ->
  (valid_date t /\ xtMakeTime t s = Ok (moment_seconds t) s) \/
  (~ valid_date t /\ xtMakeTime t s = Err XT_INVALID_PARAMETER s).
Proof.
  intros H.
  assert (valid_date t \/ ~ valid_date t) as [V|V].
  { unfold valid_date, time_in_range in *. destruct (decide (mday t <= month_len (year t) (month t)));
    destruct (decide (1970 <= year t)); destruct (decide (1 <= month t <= 12));
    destruct (decide (1 <= mday t)); destruct (decide (seconds t <= 59));
    destruct (decide (minutes t <= 59)); destruct (decide (hour t <= 23)); lia. }
  - left. auto using make_time_valid.
  - right. auto using make_time_invalid.
Qed.

(** * The Gregorian calendar, without the program's routines *)

Definition gregorian_leap (y : Z) : Prop := y mod 4 = 0 /\ (y mod 100 <> 0 \/ y mod 400 = 0).

#[export] Instance gregorian_leap_dec y : Decision (gregorian_leap y).
Proof. unfold gregorian_leap. apply _. Defined.

(** The leap years from the year 1 to [y]. *)
Definition leap_years (y : Z) : Z := y / 4 - y / 100 + y / 400.

(** The day of the year, from 0; the table gives the days before a month of a common year. *)
Definition day_of_year (y m d : Z) : Z :=
  nth (Z.to_nat (m - 1)) [0; 31; 59; 90; 120; 151; 181; 212; 243; 273; 304; 334] 0 +
  (if decide (2 < m /\ gregorian_leap y) then 1 else 0) + (d - 1).

Definition days_since_1970 (y m d : Z) : Z := 365 * (y - 1970) + (leap_years (y - 1) - leap_years 1969) + day_of_year y m d.

Definition month_days (y m : Z) : Z :=
  if decide (m = 2) then (if decide (gregorian_leap y) then 29 else 28)
  else nth (Z.to_nat (m - 1)) [31; 28; 31; 30; 31; 30; 31; 31; 30; 31; 30; 31] 0.

(** A date and time of the calendar, from 1970 on. *)
Definition gregorian (t : XTTime) : Prop :=
  0 <= seconds t <= 59 /\ 0 <= minutes t <= 59 /\ 0 <= hour t <= 23 /\
  1970 <= year t /\ 1 <= month t <= 12 /\ 1 <= mday t <= month_days (year t) (month t).

Lemma is_leap_gregorian y : is_leap_year y = bool_decide (gregorian_leap y).
Proof.
  unfold is_leap_year, gregorian_leap. assert (y mod 400 = 0 -> y mod 4 = 0) as H4 by (intros; dlia).
  destruct (Z.eqb_spec (y mod 4) 0), (Z.eqb_spec (y mod 100) 0), (Z.eqb_spec (y mod 400) 0); cbn; symmetry;
    first [apply bool_decide_eq_true; tauto|apply bool_decide_eq_false; tauto].
Qed.

Lemma month_len_days y m : 1 <= m <= 12 -> month_len y m = month_days y m.
Proof.
  intros Hm. unfold month_len, month_days. rewrite is_leap_gregorian. twelve m H12; try reflexivity. cbn [Z.eqb Pos.eqb].
  rewrite decide_True by done. by destruct (decide (gregorian_leap y)) as [G|G]; [rewrite (bool_decide_eq_true_2 _ G)|rewrite (bool_decide_eq_false_2 _ G)].
Qed.

Lemma months_before_days y m d : 1 <= m <= 12 -> months_before y m + (d - 1) = day_of_year y m d.
Proof.
  intros Hm. unfold day_of_year. f_equal. unfold months_before. destruct (decide (gregorian_leap y)) as [G|G].
  - assert (forall n, months_span y n = months_span 2000 n) as ->.
    { intros n. apply months_span_leap. rewrite is_leap_gregorian. by rewrite (bool_decide_eq_true_2 _ G). }
    twelve m H12; cbn -[Z.add]; first [rewrite decide_True by (split; [lia|done]); reflexivity|rewrite decide_False by lia; reflexivity].
  - assert (forall n, months_span y n = months_span 2001 n) as ->.
    { intros n. apply months_span_leap. rewrite is_leap_gregorian. by rewrite (bool_decide_eq_false_2 _ G). }
    rewrite decide_False by tauto. twelve m H12; reflexivity.
Qed.

Lemma div_pred y k : 0 < k -> y / k - (y - 1) / k = if y mod k =? 0 then 1 else 0.
Proof.
  intros Hk. pose proof (Z.div_mod y k ltac:(lia)). pose proof (Z.mod_pos_bound y k Hk).
  destruct (Z.eqb_spec (y mod k) 0) as [E|E].
  - assert ((y - 1) / k = y / k - 1) as ->; [|lia]. symmetry. apply Z.div_unique with (k - 1); lia.
  - assert ((y - 1) / k = y / k) as ->; [|lia]. symmetry. apply Z.div_unique with (y mod k - 1); lia.
Qed.

Lemma year_days_leap y : year_days y = 365 + (leap_years y - leap_years (y - 1)).
Proof.
  unfold year_days. rewrite is_leap_gregorian. unfold leap_years.
  pose proof (div_pred y 4 ltac:(lia)). pose proof (div_pred y 100 ltac:(lia)). pose proof (div_pred y 400 ltac:(lia)).
  assert (y mod 400 = 0 -> y mod 100 = 0) by (intros; dlia). assert (y mod 100 = 0 -> y mod 4 = 0) by (intros; dlia).
  unfold gregorian_leap. destruct (Z.eqb_spec (y mod 4) 0), (Z.eqb_spec (y mod 100) 0), (Z.eqb_spec (y mod 400) 0); try lia;
    first [rewrite bool_decide_eq_true_2 by tauto; lia|rewrite bool_decide_eq_false_2 by tauto; lia].
Qed.

Lemma span_leap n y : span n y = 365 * Z.of_nat n + (leap_years (y + Z.of_nat n - 1) - leap_years (y - 1)).
Proof.
  revert y; induction n as [|n IH]; intros y; cbn [span]; [replace (y + Z.of_nat 0 - 1) with (y - 1) by lia; lia|].
  rewrite IH, year_days_leap. replace (y + 1 + Z.of_nat n - 1) with (y + Z.of_nat (Datatypes.S n) - 1) by lia.
  replace (y + 1 - 1) with y by lia. lia.
Qed.

(** The dates the program takes are those of the calendar. *)
Lemma valid_gregorian tm : valid_date tm -> gregorian tm /\ date_days tm = days_since_1970 (year tm) (month tm) (mday tm).
Proof.
  intros (Hs & Hmi & Hh & Hy & Hmo & Hd). split.
  - rewrite month_len_days in Hd by done. repeat split; lia.
  - unfold date_days, days_since_1970. rewrite <- months_before_days, span_leap by done.
    replace (1970 + Z.of_nat (Z.to_nat (year tm - 1970)) - 1) with (year tm - 1) by lia. change (1970 - 1) with 1969. lia.
Qed.

(** C34: Every Unix time below 2^56 (about two billion years) is broken into the moment of the Gregorian calendar that many seconds after 1970-01-01: its fields are a date and a time, the days up to the date, counted with 365 days a year, a leap day every fourth year but for three centuries in four and the lengths of the months, make up the time with the hours, minutes and seconds, the week day counts from a Thursday and the day of the year is the calendar's; and [xtMakeTime] gives the same Unix time back. *)
Theorem unix_time_roundtrip {S} (t : Z) (s : S) :
  0 <= t < 2 ^ 56 ->
  exists tm, xtGetTimeFromUnix t s = Ok tm s /\ gregorian tm /\
    days_since_1970 (year tm) (month tm) (mday tm) * 86400 + hour tm * 3600 + minutes tm * 60 + seconds tm = t /\
    wday tm = (days_since_1970 (year tm) (month tm) (mday tm) + 4) mod 7 /\ yday tm = day_of_year (year tm) (month tm) (mday tm) /\
    xtMakeTime tm s = Ok t s.
Proof.
  intros H. destruct (get_time_spec t s H) as (tm & E & V & M & W & Y). destruct (valid_gregorian tm V) as [G D].
  destruct V as (Hs & Hmi & Hh & Hy & Hmo & Hd).
  assert (t / 86400 = date_days tm) as Q by (rewrite <- M; unfold moment_seconds; dlia).
  exists tm. split; [done|]. split; [done|]. rewrite <- D. split; [exact M|]. rewrite W, Q. split; [done|].
  split; [rewrite Y, <- months_before_days by done; lia|]. rewrite <- M. by apply make_time_valid.
Qed.

(** While the product [ticks * hpet_period_fs] stays below 2^64 the clock neither loses nor gains time: after [xtSetTime], however often [xtGetTime] is called in between, each reading is the time that was set plus the nanoseconds the counter has advanced. *)
Theorem clock_never_drifts (c : HpetClock) (t0 sec ns : Z) (l : list Z) :
  0 <= hpet_period_fs c -> 0 <= t0 -> t0 * hpet_period_fs c < 2 ^ 64 ->
  ticks_ordered (hpet_period_fs c) t0 l -> 0 <= ns < 1000000000 ->
  2 ^ 64 / 1000000 <= sec * 1000000000 + ns < 2 ^ 62 -> 0 <= sec ->
  exists rs c', (xtSetTime t0 sec ns ;;; read_clock l) c = Ok rs c' /\
    Forall2 (fun t r => 0 <= r.2 < 1000000000 /\
      r.1 * 1000000000 + r.2 =
        sec * 1000000000 + ns + (ticks_ns (hpet_period_fs c) t - ticks_ns (hpet_period_fs c) t0)) l rs.
Proof.
  intros Hp Ht0 Hw Ho Hns Hb Hs.
  unfold xtSetTime, modify. cbv beta iota zeta delta [mbind M_bind].
  rewrite hpet_now_exact by done. set (n0 := ticks_ns (hpet_period_fs c) t0).
  assert (0 <= n0 <= 2 ^ 64 / 1000000)
    by (unfold n0, ticks_ns; assert (0 <= t0 * hpet_period_fs c) by nia; dlia).
  set (c1 := mkClock (hpet_period_fs c) n0 sec ns).
  assert (clock_shows c1 (sec * 1000000000 + ns - n0)) as Hc by (unfold clock_shows; cbn; lia).
  destruct (read_clock_exact l c1 _ Hc ltac:(lia) ltac:(lia) Hp t0 Ht0 ltac:(cbn; lia) Ho)
    as (rs & c' & E & F).
  exists rs, c'. split; [done|]. refine (Forall2_impl _ _ F). intros t [a b] [H1 H2].
  cbn in *. fold n0. lia.
Qed.

(** Once the product wraps (5.1 hours of running time, whatever the period) the clock jumps ahead by 2^64 nanoseconds less the wrapped range, more than 584 years: with a 100 MHz counter, two readings one second apart, on both sides of the wrap. *)
Theorem clock_jumps_at_wrap :
  let c := mkClock 10000000 (hpet_now_ns (mkClock 10000000 0 0 0) 1844674400000) 1767225600 0 in
  match xtGetTime (1844674400000 + 100000000) c with
  | Ok (sec, _) _ => sec - 1767225600 > 584 * 31536000
  | _ => False
  end.
Proof. vm_compute. reflexivity. Qed.

(** The CMOS clock in BCD and 24-hour mode is decoded to the time it shows, its two-digit year read as a year from [CURRENT_YEAR] on. *)
Theorem rtc_decode_bcd (registerB : Z) (s mi h d mo y : Z) :
  Z.land registerB 4 = 0 -> Z.land registerB 2 <> 0 ->
  0 <= s < 60 -> 0 <= mi < 60 -> 0 <= h < 24 -> 1 <= d <= 31 -> 1 <= mo <= 12 -> 0 <= y < 100 ->
  rtc_decode (mkRtc (to_bcd s) (to_bcd mi) (to_bcd h) (to_bcd d) (to_bcd mo) (to_bcd y)) registerB =
  mkTime s mi h d 0 mo 0 (if y <? 26 then 2100 + y else 2000 + y).
Proof.
  intros Hb Hm Hs Hmi Hh Hd Hmo Hy. unfold rtc_decode.
  cbn [rtc_second rtc_minute rtc_hour rtc_day rtc_month rtc_year].
  rewrite Hb, (proj2 (Z.eqb_neq _ _) Hm). cbn [negb andb Z.eqb].
  rewrite !bcd_byte_correct by lia. f_equal.
  - assert (forallb (fun h => u8 (Z.lor (Z.land (to_bcd (Z.of_nat h)) 15
        + Z.land (to_bcd (Z.of_nat h)) 112 / 16 * 10) (Z.land (to_bcd (Z.of_nat h)) 128))
        =? Z.of_nat h) (seq 0 24) = true) as A by (vm_compute; reflexivity).
    rewrite forallb_forall in A. specialize (A (Z.to_nat h)). rewrite in_seq in A.
    rewrite Z2Nat.id in A by lia. apply Z.eqb_eq, A. lia.
  - change (CURRENT_YEAR / 100 * 100) with 2000. unfold CURRENT_YEAR.
    replace (Z.land (to_bcd y) 15 + to_bcd y / 16 * 10) with y.
    2: { unfold to_bcd. change 15 with (2 ^ 4 - 1). rewrite land_low by lia. dlia. }
    rewrite (u32_small y), (u32_small (y + 2000)) by lia.
    destruct (y <? 26) eqn:E; zbool; destruct (_ <? 2026) eqn:E2; zbool; try lia.
    rewrite u32_small; lia.
Qed.

(** In 12-hour mode noon, "12 PM" (register value 0x92), is taken for midnight, and "12 AM" (0x12) for noon. *)
Theorem rtc_noon_is_midnight :
  hour (rtc_decode (mkRtc 0 0 0x92 1 1 0) 0) = 0 /\ hour (rtc_decode (mkRtc 0 0 0x12 1 1 0) 0) = 12.
Proof. split; vm_compute; reflexivity. Qed.

Lemma xtMakeTime_spec_witness :
  xtMakeTime (mkTime 30 15 12 29 0 2 2024 0) tt = Ok (moment_seconds (mkTime 30 15 12 29 0 2 2024 0)) tt \/
  ~ valid_date (mkTime 30 15 12 29 0 2 2024 0).
Proof.
  destruct (xtMakeTime_spec (mkTime 30 15 12 29 0 2 2024 0) tt) as [[_ E]|[N _]]; [|by left|by right].
  unfold time_in_range. cbn. lia.
Defined.

Lemma unix_time_roundtrip_witness :
  exists tm, xtGetTimeFromUnix 4107542399 tt = Ok tm tt /\ gregorian tm /\ xtMakeTime tm tt = Ok 4107542399 tt /\
    (year tm, month tm, mday tm) = (2100, 2, 28) /\ days_since_1970 2100 2 28 * 86400 + 86399 = 4107542399.
Proof.
  destruct (unix_time_roundtrip 4107542399 tt) as (tm & E & G & _ & _ & _ & R); [lia|].
  exists tm. split; [exact E|]. split; [exact G|]. split; [exact R|]. vm_compute in E. injection E as <-. by split.
Defined.

Lemma clock_never_drifts_witness :
  exists rs c', (xtSetTime 1000 1709208930 500 ;;; read_clock [2000; 100002000]) (mkClock 10000000 0 0 0) = Ok rs c' /\
    length rs = 2%nat.
Proof.
  destruct (clock_never_drifts (mkClock 10000000 0 0 0) 1000 1709208930 500 [2000; 100002000])
    as (rs & c' & E & F); [cbn [hpet_period_fs ticks_ordered]; try lia; try (split; [by vm_compute|lia])..|exists rs, c'; split; [exact E|by apply Forall2_length in F]].
Defined.

Lemma rtc_decode_bcd_witness :
  rtc_decode (mkRtc (to_bcd 59) (to_bcd 30) (to_bcd 23) (to_bcd 31) (to_bcd 12) (to_bcd 27)) 2 = mkTime 59 30 23 31 0 12 0 2027.
Proof. apply (rtc_decode_bcd 2 59 30 23 31 12 27); done || lia. Defined.
