(* ===== verification/Encodings.v ===== *)
(** UTF-8 and UTF-16: xtkernel/encodings.c. A string is the list of its units
    with the terminating zero; reading after the end of the list is a fault. *)
From Stdlib Require Import ZArith Lia.
From stdpp Require Import base tactics list numbers.
From S2P Require Import Prelude.

Open Scope Z_scope.

(** * The conversions *)

(** What is written to [utf16] for one code point. *)
Definition put_utf16 (cp : Z) : list Z :=
  if cp <=? 0xFFFF then [u16 cp]
  else
    let cp := cp - 0x10000 in
    [u16 (Z.shiftr cp 10 + 0xD800); u16 (Z.land cp 0x3FF + 0xDC00)].

(** [xtUTF8toUTF16]: the units written to [utf16], the terminator included. *)
Fixpoint xtUTF8toUTF16 {S} (utf8 : list Z) : M S (list Z) :=
  match utf8 with
  | [] => fault
  | b0 :: t =>
    if b0 =? 0 then mret [0]
    else if Z.land b0 0x80 =? 0 then
      out ← xtUTF8toUTF16 t; mret (put_utf16 b0 ++ out)
    else if Z.land b0 0xE0 =? 0xC0 then
      match t with
      | b1 :: t =>
        out ← xtUTF8toUTF16 t;
        mret (put_utf16 (Z.lor (Z.shiftl (Z.land b0 0x1F) 6) (Z.land b1 0x3F)) ++ out)
      | _ => fault
      end
    else if Z.land b0 0xF0 =? 0xE0 then
      match t with
      | b1 :: b2 :: t =>
        out ← xtUTF8toUTF16 t;
        mret (put_utf16 (Z.lor (Z.lor (Z.shiftl (Z.land b0 0x0F) 12)
                                      (Z.shiftl (Z.land b1 0x3F) 6)) (Z.land b2 0x3F)) ++ out)
      | _ => fault
      end
    else if Z.land b0 0xF8 =? 0xF0 then
      match t with
      | b1 :: b2 :: b3 :: t =>
        out ← xtUTF8toUTF16 t;
        mret (put_utf16 (Z.lor (Z.lor (Z.lor (Z.shiftl (Z.land b0 0x07) 18)
                                             (Z.shiftl (Z.land b1 0x3F) 12))
                                      (Z.shiftl (Z.land b2 0x3F) 6)) (Z.land b3 0x3F)) ++ out)
      | _ => fault
      end
    else xtUTF8toUTF16 t
  end.

(** What is written to [utf8] for one code point. *)
Definition put_utf8 (cp : Z) : list Z :=
  if cp <=? 0x7F then [u8 cp]
  else if cp <=? 0x7FF then
    [u8 (Z.lor (Z.shiftr cp 6) 0xC0); u8 (Z.lor (Z.land cp 0x3F) 0x80)]
  else if cp <=? 0xFFFF then
    [u8 (Z.lor (Z.shiftr cp 12) 0xE0);
     u8 (Z.lor (Z.land (Z.shiftr cp 6) 0x3F) 0x80);
     u8 (Z.lor (Z.land cp 0x3F) 0x80)]
  else
    [u8 (Z.lor (Z.shiftr cp 18) 0xF0);
     u8 (Z.lor (Z.land (Z.shiftr cp 12) 0x3F) 0x80);
     u8 (Z.lor (Z.land (Z.shiftr cp 6) 0x3F) 0x80);
     u8 (Z.lor (Z.land cp 0x3F) 0x80)].

(** [xtUTF16toUTF8]: the bytes written to [utf8], the terminator included. *)
Fixpoint xtUTF16toUTF8 {S} (utf16 : list Z) : M S (list Z) :=
  match utf16 with
  | [] => fault
  | high :: t =>
    if high =? 0 then mret [0]
    else if (high >=? 0xD800) && (high <=? 0xDBFF) then
      match t with
      | low :: t =>
        out ← xtUTF16toUTF8 t;
        mret (put_utf8 (u32 (Z.lor (0x10000 + Z.shiftl (high - 0xD800) 10) (low - 0xDC00))) ++ out)
      | _ => fault
      end
    else
      out ← xtUTF16toUTF8 t; mret (put_utf8 high ++ out)
  end.

(** * The encodings of the Unicode standard *)

(** A code point a zero-terminated string can hold. *)
Definition scalar (cp : Z) : Prop := 0 < cp < 0x110000 /\ ~ (0xD800 <= cp <= 0xDFFF).

Definition utf8_encode (cp : Z) : list Z :=
  if cp <? 0x80 then [cp]
  else if cp <? 0x800 then [0xC0 + cp / 64; 0x80 + cp mod 64]
  else if cp <? 0x10000 then [0xE0 + cp / 4096; 0x80 + cp / 64 mod 64; 0x80 + cp mod 64]
  else [0xF0 + cp / 262144; 0x80 + cp / 4096 mod 64; 0x80 + cp / 64 mod 64; 0x80 + cp mod 64].

Definition utf16_encode (cp : Z) : list Z :=
  if cp <? 0x10000 then [cp]
  else [0xD800 + (cp - 0x10000) / 1024; 0xDC00 + (cp - 0x10000) mod 1024].

Definition utf8_string (cps : list Z) : list Z := concat (map utf8_encode cps) ++ [0].

Definition utf16_string (cps : list Z) : list Z := concat (map utf16_encode cps) ++ [0].

(** * Lemmas *)

Lemma lor_tag a b n : 0 <= n -> 0 <= b < 2 ^ n -> Z.lor b (a * 2 ^ n) = a * 2 ^ n + b.
Proof. intros. rewrite Z.lor_comm. by apply lor_add_shift. Qed.

Ltac bits_to_arith :=
  rewrite ?shiftr_div, ?shiftl_mul by lia;
  change 0x7 with (2 ^ 3 - 1); change 0xF with (2 ^ 4 - 1); change 0x1F with (2 ^ 5 - 1);
  change 0x3F with (2 ^ 6 - 1); change 0x3FF with (2 ^ 10 - 1);
  rewrite ?land_low by lia.

Lemma put_utf16_encode cp : 0 <= cp < 0x110000 -> put_utf16 cp = utf16_encode cp.
Proof.
  intros H. unfold put_utf16, utf16_encode.
  destruct (cp <=? 0xFFFF) eqn:E; destruct (cp <? 0x10000) eqn:F; zbool; try lia.
  - by rewrite u16_small by lia.
  - bits_to_arith. rewrite !u16_small by dlia. f_equal; [|f_equal]; dlia.
Qed.

Lemma put_utf8_encode cp : 0 <= cp < 0x110000 -> put_utf8 cp = utf8_encode cp.
Proof.
  intros H. unfold put_utf8, utf8_encode.
  assert (forall x, 0 <= x -> Z.lor (x mod 2 ^ 6) 0x80 = 0x80 + x mod 64) as T.
  { intros x Hx. change 0x80 with (2 * 2 ^ 6). apply lor_tag; dlia. }
  repeat case_match; zbool; try lia; bits_to_arith; rewrite ?T by dlia.
  - by rewrite u8_small by lia.
  - change 0xC0 with (3 * 2 ^ 6). rewrite lor_tag by dlia. by rewrite !u8_small by dlia.
  - change 0xE0 with (14 * 2 ^ 4). rewrite lor_tag by dlia. by rewrite !u8_small by dlia.
  - change 0xF0 with (30 * 2 ^ 3). rewrite lor_tag by dlia. by rewrite !u8_small by dlia.
Qed.

(** The leading byte's class, by its high bits. *)
Lemma lead_class (P : Z -> bool) b :
  0 <= b < 256 -> forallb P (map Z.of_nat (seq 0 256)) = true -> P b = true.
Proof.
  intros Hb H. rewrite forallb_forall in H. apply H.
  replace b with (Z.of_nat (Z.to_nat b)) by lia. apply in_map, in_seq. lia.
Qed.

Lemma lead1 b : 0 <= b < 0x80 -> Z.land b 0x80 = 0.
Proof.
  intros Hb. pose (P b := (b >=? 0x80) || (Z.land b 0x80 =? 0)).
  assert (P b = true) as A by (apply lead_class; [lia|by vm_compute]). unfold P in A. lia.
Qed.

Lemma lead2 b : 0xC0 <= b < 0xE0 ->
  Z.land b 0x80 <> 0 /\ Z.land b 0xE0 = 0xC0 /\ Z.land b 0x1F = b - 0xC0.
Proof.
  intros Hb. pose (P b := negb (0xC0 <=? b) || negb (b <? 0xE0) ||
    negb (Z.land b 0x80 =? 0) && (Z.land b 0xE0 =? 0xC0) && (Z.land b 0x1F =? b - 0xC0)).
  assert (P b = true) as A by (apply lead_class; [lia|by vm_compute]). unfold P in A. lia.
Qed.

Lemma lead3 b : 0xE0 <= b < 0xF0 ->
  Z.land b 0x80 <> 0 /\ Z.land b 0xE0 <> 0xC0 /\ Z.land b 0xF0 = 0xE0 /\ Z.land b 0xF = b - 0xE0.
Proof.
  intros Hb. pose (P b := negb (0xE0 <=? b) || negb (b <? 0xF0) ||
    negb (Z.land b 0x80 =? 0) && negb (Z.land b 0xE0 =? 0xC0) && (Z.land b 0xF0 =? 0xE0)
    && (Z.land b 0xF =? b - 0xE0)).
  assert (P b = true) as A by (apply lead_class; [lia|by vm_compute]). unfold P in A. lia.
Qed.

Lemma lead4 b : 0xF0 <= b < 0xF8 -> Z.land b 0x80 <> 0 /\ Z.land b 0xE0 <> 0xC0 /\
  Z.land b 0xF0 <> 0xE0 /\ Z.land b 0xF8 = 0xF0 /\ Z.land b 0x7 = b - 0xF0.
Proof.
  intros Hb. pose (P b := negb (0xF0 <=? b) || negb (b <? 0xF8) ||
    negb (Z.land b 0x80 =? 0) && negb (Z.land b 0xE0 =? 0xC0) && negb (Z.land b 0xF0 =? 0xE0)
    && (Z.land b 0xF8 =? 0xF0) && (Z.land b 0x7 =? b - 0xF0)).
  assert (P b = true) as A by (apply lead_class; [lia|by vm_compute]). unfold P in A. lia.
Qed.

Lemma land_tail x : Z.land (0x80 + x mod 64) 0x3F = x mod 64.
Proof. change 0x3F with (2 ^ 6 - 1). rewrite land_low by lia. dlia. Qed.

Lemma eqb_ne x : x <> 0 -> (x =? 0) = false.
Proof. lia. Qed.

Lemma utf8_step {S} cp rest out (s : S) :
  scalar cp -> xtUTF8toUTF16 rest s = Ok out s ->
  xtUTF8toUTF16 (utf8_encode cp ++ rest) s = Ok (utf16_encode cp ++ out) s.
Proof.
  intros [Hcp Hsur] Hrest. rewrite <- put_utf16_encode by lia. unfold utf8_encode.
  repeat case_match; zbool; cbn [app xtUTF8toUTF16]; rewrite eqb_ne by dlia.
  - rewrite lead1 by lia. cbn [Z.eqb]. by rewrite (bind_Ok _ _ _ _ _ Hrest).
  - destruct (lead2 (0xC0 + cp / 64)) as (D1 & D2 & D3); [dlia|].
    rewrite eqb_ne, D2, Z.eqb_refl, D3, land_tail by done. rewrite (bind_Ok _ _ _ _ _ Hrest).
    rewrite shiftl_mul, lor_add_shift by dlia. cbv [mret M_ret]. do 3 f_equal. dlia.
  - destruct (lead3 (0xE0 + cp / 4096)) as (D1 & D2 & D3 & D4); [dlia|].
    rewrite eqb_ne, (proj2 (Z.eqb_neq _ _) D2), D3, Z.eqb_refl, D4, !land_tail by done.
    rewrite (bind_Ok _ _ _ _ _ Hrest). rewrite !shiftl_mul by lia.
    rewrite <- Z.lor_assoc. rewrite (lor_add_shift (cp / 64 mod 64)) by dlia.
    rewrite lor_add_shift by dlia. cbv [mret M_ret]. do 3 f_equal. dlia.
  - destruct (lead4 (0xF0 + cp / 262144)) as (D1 & D2 & D3 & D4 & D5); [dlia|].
    rewrite eqb_ne, (proj2 (Z.eqb_neq _ _) D2), (proj2 (Z.eqb_neq _ _) D3), D4, Z.eqb_refl, D5,
      !land_tail by done.
    rewrite (bind_Ok _ _ _ _ _ Hrest). rewrite !shiftl_mul by lia.
    rewrite <- !Z.lor_assoc. rewrite (lor_add_shift (cp / 64 mod 64)) by dlia.
    rewrite (lor_add_shift (cp / 4096 mod 64)) by dlia.
    rewrite lor_add_shift by dlia. cbv [mret M_ret]. do 3 f_equal. dlia.
Qed.

Lemma utf16_step {S} cp rest out (s : S) :
  scalar cp -> xtUTF16toUTF8 rest s = Ok out s ->
  xtUTF16toUTF8 (utf16_encode cp ++ rest) s = Ok (utf8_encode cp ++ out) s.
Proof.
  intros [Hcp Hsur] Hrest. rewrite <- put_utf8_encode by lia. unfold utf16_encode.
  destruct (cp <? 0x10000) eqn:E; zbool; cbn [app xtUTF16toUTF8]; rewrite eqb_ne by dlia.
  - replace ((cp >=? 0xD800) && (cp <=? 0xDBFF)) with false by lia.
    by rewrite (bind_Ok _ _ _ _ _ Hrest).
  - replace (_ && _) with true by (symmetry; apply andb_true_iff; split; zbool; dlia).
    rewrite (bind_Ok _ _ _ _ _ Hrest). cbv [mret M_ret]. do 3 f_equal.
    rewrite shiftl_mul by lia.
    replace (0x10000 + _ * 2 ^ 10) with ((64 + (cp - 0x10000) / 1024) * 2 ^ 10) by lia.
    rewrite lor_add_shift by dlia. rewrite u32_small by dlia. dlia.
Qed.

Lemma put_utf16_length cp : (length (put_utf16 cp) <= 2)%nat.
Proof. unfold put_utf16. by destruct (_ <=? _); cbn; lia. Qed.

Lemma put_utf16_length1 cp : cp <= 0xFFFF -> length (put_utf16 cp) = 1%nat.
Proof. intros H. unfold put_utf16. by replace (cp <=? 0xFFFF) with true by lia. Qed.

Lemma put_utf8_length cp : (length (put_utf8 cp) <= 4)%nat.
Proof. unfold put_utf8. repeat case_match; cbn; lia. Qed.

Lemma put_utf8_length3 cp : cp <= 0xFFFF -> (length (put_utf8 cp) <= 3)%nat.
Proof. intros H. unfold put_utf8. repeat case_match; zbool; cbn; lia. Qed.

Lemma put_inv {S} (m : M S (list Z)) c o (s s' : S) :
  (out ← m; mret (c ++ out)) s = Ok o s' -> exists o', m s = Ok o' s' /\ o = c ++ o'.
Proof. intros H. apply bind_Ok_inv in H as (a & s1 & H1 & [= <- <-]). eauto. Qed.

Lemma utf8_fits {S} n : forall (utf8 out : list Z) (s s' : S), (length utf8 <= n)%nat ->
  Forall (fun b => 0 <= b < 256) utf8 -> xtUTF8toUTF16 utf8 s = Ok out s' ->
  (length out <= length utf8)%nat.
Proof.
  induction n as [|n IH]; intros utf8 out s s' L F H; (destruct utf8 as [|b0 t]; [done|]);
    [cbn in L; lia|]. cbn [length] in *. apply Forall_cons_iff in F as [F0 F]. revert H.
  cbn [xtUTF8toUTF16]. destruct (b0 =? 0); [intros [= <- _]; cbn; lia|].
  assert (forall t' c, (length t' <= n)%nat -> (length c + length t' <= Datatypes.S (length t))%nat ->
    Forall (fun b => 0 <= b < 256) t' -> (out ← xtUTF8toUTF16 t'; mret (c ++ out)) s = Ok out s' ->
    (length out <= Datatypes.S (length t))%nat) as K.
  { intros t' c Hl Hc Ft H. apply put_inv in H as (o & H & ->). rewrite length_app.
    apply IH in H; [lia|lia|done]. }
  destruct (Z.land b0 0x80 =? 0).
  - apply K; [lia| |done]. rewrite put_utf16_length1 by lia. lia.
  - destruct (Z.land b0 0xE0 =? 0xC0); [|destruct (Z.land b0 0xF0 =? 0xE0);
      [|destruct (Z.land b0 0xF8 =? 0xF0)]].
    + destruct t as [|b1 t]; [done|]. cbn [length] in *. repeat apply Forall_cons_iff in F as [_ F].
      apply K; [lia| |done].
      pose proof (put_utf16_length (Z.lor (Z.shiftl (Z.land b0 0x1F) 6) (Z.land b1 0x3F))). lia.
    + destruct t as [|b1 [|b2 t]]; [done|done|]. cbn [length] in *. repeat apply Forall_cons_iff in F as [_ F].
      apply K; [lia| |done]. match goal with |- context [put_utf16 ?c] =>
        pose proof (put_utf16_length c) end. lia.
    + destruct t as [|b1 [|b2 [|b3 t]]]; [done|done|done|]. cbn [length] in *.
      repeat apply Forall_cons_iff in F as [_ F]. apply K; [lia| |done]. match goal with |- context [put_utf16 ?c] =>
        pose proof (put_utf16_length c) end. lia.
    + intros H. apply IH in H; [lia|lia|done].
Qed.

(** * Theorems *)

(** C33: Every string of Unicode scalar values is converted from UTF-8 to UTF-16 as the standard's encoding forms say, and the conversion stops at the terminator. *)
Theorem utf8_to_utf16_correct {S} (cps : list Z) (rest : list Z) (s : S) :
  Forall scalar cps -> xtUTF8toUTF16 (utf8_string cps ++ rest) s = Ok (utf16_string cps) s.
Proof.
  intros H. induction H as [|cp cps Hcp _ IH]; [done|].
  unfold utf8_string, utf16_string in *. cbn [map concat]. rewrite <- !app_assoc in *.
  by apply utf8_step.
Qed.

Lemma utf16_string_ok {S} (cps : list Z) (rest : list Z) (s : S) :
  Forall scalar cps -> xtUTF16toUTF8 (utf16_string cps ++ rest) s = Ok (utf8_string cps) s.
Proof.
  intros H. induction H as [|cp cps Hcp _ IH]; [done|].
  unfold utf8_string, utf16_string in *. cbn [map concat]. rewrite <- !app_assoc in *.
  by apply utf16_step.
Qed.

(** Every string of Unicode scalar values is converted from UTF-16 to UTF-8 as the standard's encoding forms say, surrogate pairs included. *)
Theorem utf16_to_utf8_correct {S} (cps : list Z) (rest : list Z) (s : S) :
  Forall scalar cps -> xtUTF16toUTF8 (utf16_string cps ++ rest) s = Ok (utf8_string cps) s.
Proof. apply utf16_string_ok. Qed.

(** A UTF-16 buffer of as many units as the UTF-8 string has bytes is never overrun, whatever the bytes, well formed or not. *)
Theorem utf8_to_utf16_fits {S} (utf8 out : list Z) (s s' : S) :
  Forall (fun b => 0 <= b < 256) utf8 -> xtUTF8toUTF16 utf8 s = Ok out s' ->
  (length out <= length utf8)%nat.
Proof. by apply (utf8_fits (length utf8)). Qed.

(** A sequence cut short by the terminator makes both conversions step over the terminator and read on after the string. *)
Theorem truncated_sequence_overruns {S} (b0 high : Z) (s : S) :
  0xC0 <= b0 < 0xE0 -> 0xD800 <= high <= 0xDBFF ->
  xtUTF8toUTF16 [b0; 0] s = Fault /\ xtUTF16toUTF8 [high; 0] s = Fault.
Proof.
  intros H H'. destruct (lead2 b0 H) as (D1 & D2 & _). cbn [xtUTF8toUTF16 xtUTF16toUTF8].
  rewrite !eqb_ne, D2 by lia. replace (_ && _) with true by lia. by rewrite (eqb_ne high) by lia.
Qed.

Lemma utf8_to_utf16_correct_witness :
  xtUTF8toUTF16 (utf8_string [0x41; 0x416; 0x20AC; 0x1F600] ++ [7]) tt = Ok (utf16_string [0x41; 0x416; 0x20AC; 0x1F600]) tt.
Proof. apply (utf8_to_utf16_correct [0x41; 0x416; 0x20AC; 0x1F600]). repeat constructor; unfold scalar; lia. Defined.

Lemma utf16_to_utf8_correct_witness :
  xtUTF16toUTF8 (utf16_string [0x41; 0x416; 0x20AC; 0x1F600] ++ [7]) tt = Ok (utf8_string [0x41; 0x416; 0x20AC; 0x1F600]) tt.
Proof. apply (utf16_to_utf8_correct [0x41; 0x416; 0x20AC; 0x1F600]). repeat constructor; unfold scalar; lia. Defined.

Lemma utf8_to_utf16_fits_witness : (length [0x41; 0x416; 0] <= length [0x41; 0xD0; 0x96; 0])%nat.
Proof. apply (utf8_to_utf16_fits [0x41; 0xD0; 0x96; 0] [0x41; 0x416; 0] tt tt); [repeat constructor; lia|by vm_compute]. Defined.

Lemma truncated_sequence_overruns_witness : xtUTF8toUTF16 [0xD0; 0] tt = Fault /\ xtUTF16toUTF8 [0xD83D; 0] tt = Fault.
Proof. apply (truncated_sequence_overruns 0xD0 0xD83D tt); lia. Defined.
