(* ===== verification/Printf.v ===== *)
(** Formatted printing: external/printf.c, without its numbers in floating
    point (Ftoa.v). The compiler is the 64-bit MinGW one (config.mk):
    [char] is signed, [long] has 32 bits, [long long], [size_t] and pointers
    have 64, and a [va_list] is a row of 8-byte slots. A function that outputs
    is generic in the state [S] and in the output function [out], which gets a
    character (0 to 255), the index and the limit. *)
From Stdlib Require Import ZArith Lia Ascii.
From stdpp Require Import base tactics list numbers.
From S2P Require Import Prelude.

Open Scope Z_scope.

(** The code of a character. *)
Abbreviation CH c := (ltac:(let x := eval vm_compute in (Z.of_N (N_of_ascii c%char)) in exact x)) (only parsing).

(** * Constants *)

Definition PRINTF_NTOA_BUFFER_SIZE : Z := 32.

Definition FLAGS_ZEROPAD : Z := Z.shiftl 1 0.

Definition FLAGS_LEFT : Z := Z.shiftl 1 1.

Definition FLAGS_PLUS : Z := Z.shiftl 1 2.

Definition FLAGS_SPACE : Z := Z.shiftl 1 3.

Definition FLAGS_HASH : Z := Z.shiftl 1 4.

Definition FLAGS_UPPERCASE : Z := Z.shiftl 1 5.

Definition FLAGS_CHAR : Z := Z.shiftl 1 6.

Definition FLAGS_SHORT : Z := Z.shiftl 1 7.

Definition FLAGS_LONG : Z := Z.shiftl 1 8.

Definition FLAGS_LONG_LONG : Z := Z.shiftl 1 9.

Definition FLAGS_PRECISION : Z := Z.shiftl 1 10.

Definition FLAGS_ADAPT_EXP : Z := Z.shiftl 1 11.

(** [flags & f] as a condition, and [flags & ~f]. *)
Definition has (flags f : Z) : bool := negb (Z.land flags f =? 0).

Definition clear (flags f : Z) : Z := Z.land flags (2 ^ 32 - 1 - f).

(** * Output functions *)

Definition out_fct_type (S : Type) : Type := Z -> Z -> Z -> M S unit.

(** The state is the buffer; a write after its end is a fault. *)
Definition _out_buffer : out_fct_type (list Z) := fun character idx maxlen buffer =>
  if idx <? maxlen then
    if idx <? Z.of_nat (length buffer) then Ok tt (<[Z.to_nat idx := character]> buffer) else Fault
  else Ok tt buffer.

Definition _out_null {S} : out_fct_type S := fun _ _ _ => mret tt.

(** [_out_char] with the [_putchar] of the program, and [_out_fct] with the
    function and the argument of the caller. *)
Definition _out_char {S} (_putchar : Z -> M S unit) : out_fct_type S := fun character _ _ =>
  if character =? 0 then mret tt else _putchar character.

Definition _out_fct {S} (fct : Z -> M S unit) : out_fct_type S := fun character _ _ =>
  if character =? 0 then mret tt else fct character.

(** A [char] that is extended to 16 bits: the buffer is one of [unsigned short]. *)
Definition _out_wchar : out_fct_type (list Z) := fun character idx maxlen buffer =>
  let ch := if character <? 128 then character else u16 (character - 256) in
  if idx <? maxlen then
    if idx <? Z.of_nat (length buffer) then Ok tt (<[Z.to_nat idx := ch]> buffer) else Fault
  else Ok tt buffer.

(** * Reading strings *)

(** [_strnlen_s]; the loop counts [maxsize] down, a string has fewer bytes
    than 2^64. *)
Fixpoint _strnlen_s {S} (str : list Z) (maxsize : Z) : M S Z :=
  match str with
  | [] => fault
  | c :: str => if (c =? 0) || (maxsize =? 0) then mret 0
                else n ← _strnlen_s str (maxsize - 1); mret (u32 (n + 1))
  end.

Definition _is_digit (ch : Z) : bool := (CH "0" <=? ch) && (ch <=? CH "9").

(** The number and the rest of the string. *)
Fixpoint _atoi {S} (i : Z) (str : list Z) : M S (Z * list Z) :=
  match str with
  | [] => fault
  | c :: rest => if _is_digit c then _atoi (u32 (i * 10 + (c - CH "0"))) rest else mret (i, str)
  end.

(** * Numbers *)

(** The digits of a number in the local array, the last one first. The array
    is the list of the characters written so far; [n] is what is left of it. *)
Fixpoint digits (n : nat) (value base flags : Z) : list Z :=
  match n with
  | O => []
  | S n =>
    let digit := value mod base in
    (if digit <? 10 then CH "0" + digit
     else (if has flags FLAGS_UPPERCASE then CH "A" else CH "a") + digit - 10) ::
    (if value / base =? 0 then [] else digits n (value / base) base flags)
  end.

(** [while ((len < bound) && (len < PRINTF_NTOA_BUFFER_SIZE)) buf[len++] = '0'] *)
Definition zeros_to (bound : Z) (buf : list Z) : list Z :=
  buf ++ replicate (Z.to_nat (bound `min` PRINTF_NTOA_BUFFER_SIZE) - length buf) (CH "0").

(** [buf[len++] = c] where there is room. *)
Definition push (c : Z) (buf : list Z) : list Z :=
  if Z.of_nat (length buf) <? PRINTF_NTOA_BUFFER_SIZE then buf ++ [c] else buf.

Definition sign_width (negative : bool) (width flags : Z) : Z :=
  if negb (width =? 0) && (negative || has flags (Z.lor FLAGS_PLUS FLAGS_SPACE)) then width - 1 else width.

Definition leading_zeros (buf : list Z) (negative : bool) (prec width flags : Z) : list Z * Z :=
  if has flags FLAGS_LEFT then (buf, width)
  else
    let width := if has flags FLAGS_ZEROPAD then sign_width negative width flags else width in
    let buf := zeros_to prec buf in
    (if has flags FLAGS_ZEROPAD then zeros_to width buf else buf, width).

(** [len--] is the array without its last character. *)
Definition hash (buf : list Z) (base prec width flags : Z) : list Z :=
  if negb (has flags FLAGS_HASH) then buf
  else
    let len := Z.of_nat (length buf) in
    let buf :=
      if negb (has flags FLAGS_PRECISION) && negb (len =? 0) && ((len =? prec) || (len =? width)) then
        let buf := removelast buf in
        if negb (Z.of_nat (length buf) =? 0) && (base =? 16) then removelast buf else buf
      else buf in
    let buf :=
      if (base =? 16) && negb (has flags FLAGS_UPPERCASE) then push (CH "x") buf
      else if (base =? 16) && has flags FLAGS_UPPERCASE then push (CH "X") buf
      else if base =? 2 then push (CH "b") buf
      else buf in
    push (CH "0") buf.

Definition sign (buf : list Z) (negative : bool) (flags : Z) : list Z :=
  if negative then push (CH "-") buf
  else if has flags FLAGS_PLUS then push (CH "+") buf
  else if has flags FLAGS_SPACE then push (CH " ") buf
  else buf.

Section Out.
Context {S : Type} (out : out_fct_type S) (maxlen : Z).

(** [out(c, buffer, idx++, maxlen)] *)
Definition put_char (c idx : Z) : M S Z := out c idx maxlen ;;; mret (u64 (idx + 1)).

Fixpoint put_chars (l : list Z) (idx : Z) : M S Z :=
  match l with
  | [] => mret idx
  | c :: l => idx ← put_char c idx; put_chars l idx
  end.

Definition spaces (n idx : Z) : M S Z := put_chars (replicate (Z.to_nat n) (CH " ")) idx.

Definition _out_rev (idx : Z) (buf : list Z) (width flags : Z) : M S Z :=
  let start_idx := idx in
  idx ← (if negb (has flags FLAGS_LEFT) && negb (has flags FLAGS_ZEROPAD) then spaces (width - Z.of_nat (length buf)) idx
         else mret idx);
  idx ← put_chars (rev buf) idx;
  if has flags FLAGS_LEFT then spaces (width - u64 (idx - start_idx)) idx else mret idx.

Definition _ntoa_format (idx : Z) (buf : list Z) (negative : bool) (base prec width flags : Z) : M S Z :=
  let '(buf, width) := leading_zeros buf negative prec width flags in
  let buf := hash buf base prec width flags in
  let buf := sign buf negative flags in
  _out_rev idx buf width flags.

(** [value] is an [unsigned long]. *)
Definition _ntoa_long (idx value : Z) (negative : bool) (base prec width flags : Z) : M S Z :=
  let flags := if value =? 0 then clear flags FLAGS_HASH else flags in
  let buf := if negb (has flags FLAGS_PRECISION) || negb (value =? 0)
             then digits (Z.to_nat PRINTF_NTOA_BUFFER_SIZE) value base flags else [] in
  _ntoa_format idx buf negative base prec width flags.

(** [value] is an [unsigned long long]. *)
Definition _ntoa_long_long (idx value : Z) (negative : bool) (base prec width flags : Z) : M S Z :=
  let flags := if value =? 0 then clear flags FLAGS_HASH else flags in
  let buf := if negb (has flags FLAGS_PRECISION) || negb (value =? 0)
             then digits (Z.to_nat PRINTF_NTOA_BUFFER_SIZE) value base flags else [] in
  _ntoa_format idx buf negative base prec width flags.

End Out.
