(* ===== verification/Ftoa.v ===== *)
(** Formatted printing: numbers in floating point, _ftoa and _etoa of
    external/printf.c. A [double] is a [spec_float] with 53 bits, rounded to
    nearest even after each operation. *)
From Stdlib Require Import ZArith Lia Ascii SpecFloat.
From stdpp Require Import base tactics list numbers.
From S2P Require Import Prelude Printf.

Open Scope Z_scope.

(** * Doubles *)

Definition fadd : spec_float -> spec_float -> spec_float := SFadd 53 1024.

Definition fsub : spec_float -> spec_float -> spec_float := SFsub 53 1024.

Definition fmul : spec_float -> spec_float -> spec_float := SFmul 53 1024.

Definition fdiv : spec_float -> spec_float -> spec_float := SFdiv 53 1024.

(** An integer as a double, and [m * 2^e], which is what a literal stands for. *)
Definition double (z : Z) : spec_float := binary_normalize 53 1024 z 0 false.

Definition lit (m e : Z) : spec_float := binary_normalize 53 1024 m e false.

(** The conversion to an integer drops the fraction; a value out of the range
    of the type gets the residue here, C leaves it undefined. *)
Definition truncate (f : spec_float) : Z :=
  match f with
  | S754_finite s m e => let n := if e <? 0 then Z.pos m / 2 ^ - e else Z.pos m * 2 ^ e in if s then - n else n
  | _ => 0
  end.

(** The bits of a double that is not negative, and the double of 64 bits. *)
Definition bits_of (f : spec_float) : Z :=
  match f with
  | S754_finite _ m e => if Z.pos m <? 2 ^ 52 then Z.pos m else (e + 1075) * 2 ^ 52 + (Z.pos m - 2 ^ 52)
  | S754_zero _ => 0
  | S754_infinity _ => 2047 * 2 ^ 52
  | S754_nan => 2047 * 2 ^ 52 + 2 ^ 51
  end.

Definition of_bits (u : Z) : spec_float :=
  let s := Z.testbit u 63 in
  let e := Z.land (Z.shiftr u 52) 0x7FF in
  let m := Z.land u (2 ^ 52 - 1) in
  if e =? 2047 then (if m =? 0 then S754_infinity s else S754_nan)
  else let m := if e =? 0 then m else m + 2 ^ 52 in
       match m with
       | Z.pos m => S754_finite s m ((e `max` 1) - 1075)
       | _ => S754_zero s
       end.

Definition DBL_MAX : spec_float := lit (2 ^ 53 - 1) 971.

Definition PRINTF_FTOA_BUFFER_SIZE : Z := 32.

Definition PRINTF_DEFAULT_FLOAT_PRECISION : Z := 6.

Definition PRINTF_MAX_FLOAT : spec_float := double 1000000000.

Definition half : spec_float := lit 1 (-1).

Definition pow10 : list spec_float :=
  map double [1; 10; 100; 1000; 10000; 100000; 1000000; 10000000; 100000000; 1000000000].

(** * _ftoa *)

(** [while (len < PRINTF_FTOA_BUFFER_SIZE) { buf[len++] = '0' + v % 10; if (!(v /= 10)) break; }]
    with room for [n] more characters. *)
Fixpoint decimal (n : nat) (v : Z) : list Z :=
  match n with
  | O => []
  | S n => (48 + v mod 10) :: (if v / 10 =? 0 then [] else decimal n (v / 10))
  end.

Definition room (buf : list Z) : nat := Z.to_nat PRINTF_FTOA_BUFFER_SIZE - length buf.

(** The whole part and the fraction of [value] with [prec] decimals. *)
Definition ftoa_round (value scale : spec_float) : Z * Z :=
  let whole := s32 (truncate value) in
  let tmp := fmul (fsub value (double whole)) scale in
  let frac := u32 (truncate tmp) in
  let diff := fsub tmp (double frac) in
  if SFltb half diff then
    let frac := u32 (frac + 1) in
    if SFleb scale (double frac) then (s32 (whole + 1), 0) else (whole, frac)
  else if SFltb diff half then (whole, frac)
  else if (frac =? 0) || Z.odd frac then (whole, u32 (frac + 1))
  else (whole, frac).

(** The decimals and the point. *)
Definition ftoa_fraction (buf : list Z) (frac prec : Z) : list Z :=
  let ds := decimal (room buf) frac in
  let count := u32 (prec - Z.of_nat (length ds)) in
  let buf := buf ++ ds in
  let buf := buf ++ replicate (Z.to_nat (count `min` Z.of_nat (room buf))) (CH "0") in
  if Z.of_nat (length buf) <? PRINTF_FTOA_BUFFER_SIZE then buf ++ [CH "."] else buf.

Definition ftoa_whole (value : spec_float) (whole prec : Z) : Z :=
  if prec =? 0 then
    let diff := fsub value (double whole) in
    if (negb (SFltb diff half) || SFltb half diff) && Z.odd whole then s32 (whole + 1) else whole
  else whole.

Definition ftoa_pad (buf : list Z) (negative : bool) (width flags : Z) : list Z * Z :=
  if negb (has flags FLAGS_LEFT) && has flags FLAGS_ZEROPAD then
    let width := sign_width negative width flags in
    (zeros_to width buf, width)
  else (buf, width).

Section Out.
Context {S : Type} (out : out_fct_type S) (maxlen : Z).

Section Ftoa.
Context (_etoa : Z -> spec_float -> Z -> Z -> Z -> M S Z).

Definition ftoa_body (idx : Z) (value : spec_float) (prec width flags : Z) : M S Z :=
  if negb (SFeqb value value) then _out_rev out maxlen idx [CH "n"; CH "a"; CH "n"] width flags
  else if SFltb value (SFopp DBL_MAX) then _out_rev out maxlen idx [CH "f"; CH "n"; CH "i"; CH "-"] width flags
  else if SFltb DBL_MAX value then
    _out_rev out maxlen idx (if has flags FLAGS_PLUS then [CH "f"; CH "n"; CH "i"; CH "+"] else [CH "f"; CH "n"; CH "i"]) width flags
  else if SFltb PRINTF_MAX_FLOAT value || SFltb value (SFopp PRINTF_MAX_FLOAT) then _etoa idx value prec width flags
  else
    let negative := SFltb value (double 0) in
    let value := if negative then fsub (double 0) value else value in
    let prec := if negb (has flags FLAGS_PRECISION) then PRINTF_DEFAULT_FLOAT_PRECISION else prec in
    let zeros := (prec - 9) `max` 0 `min` PRINTF_FTOA_BUFFER_SIZE in
    let buf := replicate (Z.to_nat zeros) (CH "0") in
    let prec := prec - zeros in
    scale ← deref (fun _ => pow10 !! Z.to_nat prec);
    let '(whole, frac) := ftoa_round value scale in
    let whole := ftoa_whole value whole prec in
    let buf := if prec =? 0 then buf else ftoa_fraction buf frac prec in
    let buf := buf ++ decimal (room buf) whole in
    let '(buf, width) := ftoa_pad buf negative width flags in
    let buf := sign buf negative flags in
    _out_rev out maxlen idx buf width flags.

End Ftoa.

(** * _etoa *)

(** The decimal exponent of [value] and the power of ten it is divided by. The
    literals are 0.1760912590558, 0.301029995663981, 0.289529654602168,
    3.321928094887362, 2.302585092994046 and 0.6931471805599453. *)
Definition etoa_scale (value : spec_float) : Z * spec_float :=
  let U := bits_of value in
  let exp2 := Z.land (Z.shiftr U 52) 0x7FF - 1023 in
  let F := of_bits (Z.lor (Z.land U (2 ^ 52 - 1)) (Z.shiftl 1023 52)) in
  let expval := truncate (fadd (fadd (lit 6344356229335219 (-55)) (fmul (double exp2) (lit 5422874305198587 (-54))))
                               (fmul (fsub F (lit 3 (-1))) (lit 5215702578316129 (-54)))) in
  let exp2 := truncate (fadd (fmul (double expval) (lit 7480317065143153 (-51))) half) in
  let z := fsub (fmul (double expval) (lit 5184960683398422 (-51))) (fmul (double exp2) (lit 6243314768165359 (-53))) in
  let z2 := fmul z z in
  let F := of_bits (u64 (Z.shiftl (exp2 + 1023) 52)) in
  let F := fmul F (fadd (double 1) (fdiv (fmul (double 2) z)
             (fadd (fsub (double 2) z) (fdiv z2 (fadd (double 6) (fdiv z2 (fadd (double 10) (fdiv z2 (double 14))))))))) in
  if SFltb value F then (expval - 1, fdiv F (double 10)) else (expval, F).

Section Etoa.
Context (_ftoa : Z -> spec_float -> Z -> Z -> Z -> M S Z).

Definition etoa_body (idx : Z) (value : spec_float) (prec width flags : Z) : M S Z :=
  if negb (SFeqb value value) || SFltb DBL_MAX value || SFltb value (SFopp DBL_MAX) then _ftoa idx value prec width flags
  else
    let negative := SFltb value (double 0) in
    let value := if negative then SFopp value else value in
    let prec := if negb (has flags FLAGS_PRECISION) then PRINTF_DEFAULT_FLOAT_PRECISION else prec in
    let '(expval, F) := etoa_scale value in
    let minwidth := if (expval <? 100) && (-100 <? expval) then 4 else 5 in
    let '(prec, flags, minwidth, expval) :=
      if has flags FLAGS_ADAPT_EXP then
        if SFleb (lit 7378697629483821 (-66)) value && SFltb value (double 1000000) then
          (if expval <? s32 prec then u32 (s32 prec - expval - 1) else 0, Z.lor flags FLAGS_PRECISION, 0, 0)
        else (if (0 <? prec) && has flags FLAGS_PRECISION then prec - 1 else prec, flags, minwidth, expval)
      else (prec, flags, minwidth, expval) in
    let fwidth := if minwidth <? width then width - minwidth else 0 in
    let fwidth := if has flags FLAGS_LEFT && negb (minwidth =? 0) then 0 else fwidth in
    let value := if expval =? 0 then value else fdiv value F in
    let start_idx := idx in
    idx ← _ftoa idx (if negative then SFopp value else value) prec fwidth (clear flags FLAGS_ADAPT_EXP);
    if minwidth =? 0 then mret idx
    else
      idx ← put_char out maxlen (if has flags FLAGS_UPPERCASE then CH "E" else CH "e") idx;
      idx ← _ntoa_long out maxlen idx (Z.abs expval) (expval <? 0) 10 0 (minwidth - 1) (Z.lor FLAGS_ZEROPAD FLAGS_PLUS);
      if has flags FLAGS_LEFT then spaces out maxlen (width - u64 (idx - start_idx)) idx else mret idx.

End Etoa.

(** The two call each other: a large number goes from [_ftoa] to [_etoa], the
    scaled one back. [n] bounds the calls. *)
Fixpoint ftoa_etoa (n : nat) (exponential : bool) (idx : Z) (value : spec_float) (prec width flags : Z) : M S Z :=
  match n with
  | O => nofuel
  | Datatypes.S n =>
    if exponential then etoa_body (ftoa_etoa n false) idx value prec width flags
    else ftoa_body (ftoa_etoa n true) idx value prec width flags
  end.

Definition _ftoa : Z -> spec_float -> Z -> Z -> Z -> M S Z := ftoa_etoa 4 false.

Definition _etoa : Z -> spec_float -> Z -> Z -> Z -> M S Z := ftoa_etoa 4 true.

End Out.
