(* ===== verification/Vsnprintf.v ===== *)
(** Formatted printing: the format string and the entry points of
    external/printf.c for 8-bit characters. A pointer into a format is the
    memory from there on, the terminator and what follows included. [strings]
    gives the memory behind a pointer argument. *)
From Stdlib Require Import ZArith Lia Ascii SpecFloat.
From stdpp Require Import base tactics list numbers.
From S2P Require Import Prelude Bytes Printf Ftoa.

Open Scope Z_scope.

(** * Arguments *)

(** [va_arg]: the next slot; there is none behind the last argument. *)
Definition va_arg {S} (va : list Z) : M S (Z * list Z) :=
  match va with [] => fault | slot :: va => mret (slot, va) end.

(** The low [n] bits of a slot as a signed number. *)
Definition signed (n z : Z) : Z := (z + 2 ^ (n - 1)) mod 2 ^ n - 2 ^ (n - 1).

(** * The parts of a specifier

    Each gives what it read and the rest of the format. *)

Definition flag_of (c : Z) : option Z :=
  if c =? CH "0" then Some FLAGS_ZEROPAD
  else if c =? CH "-" then Some FLAGS_LEFT
  else if c =? CH "+" then Some FLAGS_PLUS
  else if c =? CH " " then Some FLAGS_SPACE
  else if c =? CH "#" then Some FLAGS_HASH
  else None.

Fixpoint parse_flags {S} (flags : Z) (format : list Z) : M S (Z * list Z) :=
  match format with
  | [] => fault
  | c :: rest => match flag_of c with Some f => parse_flags (Z.lor flags f) rest | None => mret (flags, format) end
  end.

(** [*] in the width: a negative one is for the left. *)
Definition star_width {S} (flags : Z) (va : list Z) : M S (Z * Z * list Z) :=
  '(slot, va) ← va_arg va;
  let w := signed 32 slot in
  mret (if w <? 0 then (Z.lor flags FLAGS_LEFT, u32 (- w), va) else (flags, u32 w, va)).

Definition parse_width {S} (flags : Z) (format va : list Z) : M S (Z * Z * list Z * list Z) :=
  match format with
  | [] => fault
  | c :: rest =>
    if _is_digit c then '(width, rest) ← _atoi 0 format; mret (flags, width, rest, va)
    else if c =? CH "*" then '(flags, width, va) ← star_width flags va; mret (flags, width, rest, va)
    else mret (flags, 0, format, va)
  end.

Definition star_precision {S} (va : list Z) : M S (Z * list Z) :=
  '(slot, va) ← va_arg va;
  let prec := signed 32 slot in
  mret (if 0 <? prec then u32 prec else 0, va).

Definition parse_precision {S} (flags : Z) (format va : list Z) : M S (Z * Z * list Z * list Z) :=
  match format with
  | [] => fault
  | c :: rest =>
    if negb (c =? CH ".") then mret (flags, 0, format, va)
    else
      let flags := Z.lor flags FLAGS_PRECISION in
      match rest with
      | [] => fault
      | c :: rest' =>
        if _is_digit c then '(precision, rest) ← _atoi 0 rest; mret (flags, precision, rest, va)
        else if c =? CH "*" then '(precision, va) ← star_precision va; mret (flags, precision, rest', va)
        else mret (flags, 0, rest, va)
      end
  end.

(** The flag [one], and [two] where [c] comes again behind [c]. *)
Definition double_flag {S} (c flags one two : Z) (rest : list Z) : M S (Z * list Z) :=
  let flags := Z.lor flags one in
  match rest with
  | [] => fault
  | d :: rest' => mret (if d =? c then (Z.lor flags two, rest') else (flags, rest))
  end.

(** [ptrdiff_t], [intmax_t] and [size_t] have 8 bytes, [long] has 4. *)
Definition parse_length {S} (flags : Z) (format : list Z) : M S (Z * list Z) :=
  match format with
  | [] => fault
  | c :: rest =>
    if c =? CH "l" then double_flag c flags FLAGS_LONG FLAGS_LONG_LONG rest
    else if c =? CH "h" then double_flag c flags FLAGS_SHORT FLAGS_CHAR rest
    else if (c =? CH "t") || (c =? CH "j") || (c =? CH "z") then mret (Z.lor flags FLAGS_LONG_LONG, rest)
    else mret (flags, format)
  end.

(** * The specifiers *)

Section Out.
Context {S : Type} (out : out_fct_type S) (maxlen : Z) (strings : Z -> option (list Z)).

Definition base_of (c : Z) : Z :=
  if (c =? CH "x") || (c =? CH "X") then 16 else if c =? CH "o" then 8 else if c =? CH "b" then 2 else 10.

Definition is_signed (c : Z) : bool := (c =? CH "i") || (c =? CH "d").

Definition integer_flags (c flags : Z) : Z :=
  let flags := if base_of c =? 10 then clear flags FLAGS_HASH else flags in
  let flags := if c =? CH "X" then Z.lor flags FLAGS_UPPERCASE else flags in
  let flags := if is_signed c then flags else clear flags (Z.lor FLAGS_PLUS FLAGS_SPACE) in
  if has flags FLAGS_PRECISION then clear flags FLAGS_ZEROPAD else flags.

(** [(unsigned)(value > 0 ? value : 0 - value)] *)
Definition magnitude (value : Z) : Z := if 0 <? value then value else 0 - value.

Definition convert_signed (idx slot base precision width flags : Z) : M S Z :=
  if has flags FLAGS_LONG_LONG then
    let value := signed 64 slot in
    _ntoa_long_long out maxlen idx (u64 (magnitude value)) (value <? 0) base precision width flags
  else if has flags FLAGS_LONG then
    let value := signed 32 slot in
    _ntoa_long out maxlen idx (u32 (magnitude value)) (value <? 0) base precision width flags
  else
    let value := if has flags FLAGS_CHAR then signed 8 slot else if has flags FLAGS_SHORT then signed 16 slot else signed 32 slot in
    _ntoa_long out maxlen idx (u32 (magnitude value)) (value <? 0) base precision width flags.

Definition convert_unsigned (idx slot base precision width flags : Z) : M S Z :=
  if has flags FLAGS_LONG_LONG then _ntoa_long_long out maxlen idx (u64 slot) false base precision width flags
  else if has flags FLAGS_LONG then _ntoa_long out maxlen idx (u32 slot) false base precision width flags
  else
    let value := if has flags FLAGS_CHAR then u8 slot else if has flags FLAGS_SHORT then u16 slot else u32 slot in
    _ntoa_long out maxlen idx value false base precision width flags.

Definition convert_integer (c idx width precision flags : Z) (va : list Z) : M S (Z * list Z) :=
  let flags := integer_flags c flags in
  '(slot, va) ← va_arg va;
  idx ← (if is_signed c then convert_signed else convert_unsigned) idx slot (base_of c) precision width flags;
  mret (idx, va).

(** [while (l++ < width) out(' ', ...)] where the flag says so. *)
Definition pad (when : bool) (l width idx : Z) : M S Z := if when then spaces out maxlen (width - l) idx else mret idx.

Definition convert_char (idx width flags : Z) (va : list Z) : M S (Z * list Z) :=
  idx ← pad (negb (has flags FLAGS_LEFT)) 1 width idx;
  '(slot, va) ← va_arg va;
  idx ← put_char out maxlen (u8 slot) idx;
  idx ← pad (has flags FLAGS_LEFT) 1 width idx;
  mret (idx, va).

(** The characters of the string, at most [precision] of them if it is [limited];
    the character is read before the limit is looked at. *)
Fixpoint put_string (p : list Z) (limited : bool) (precision idx : Z) : M S Z :=
  match p with
  | [] => fault
  | c :: p =>
    if (c =? 0) || (limited && (precision =? 0)) then mret idx
    else idx ← put_char out maxlen c idx; put_string p limited (precision - 1) idx
  end.

Definition convert_string (idx width precision flags : Z) (va : list Z) : M S (Z * list Z) :=
  '(slot, va) ← va_arg va;
  p ← deref (fun _ => strings slot);
  l ← _strnlen_s p (if negb (precision =? 0) then precision else 2 ^ 64 - 1);
  let l := if has flags FLAGS_PRECISION then (if l <? precision then l else precision) else l in
  idx ← pad (negb (has flags FLAGS_LEFT)) l width idx;
  idx ← put_string p (has flags FLAGS_PRECISION) precision idx;
  idx ← pad (has flags FLAGS_LEFT) l width idx;
  mret (idx, va).

Definition convert_pointer (idx precision flags : Z) (va : list Z) : M S (Z * list Z) :=
  '(slot, va) ← va_arg va;
  idx ← _ntoa_long_long out maxlen idx (u64 slot) false 16 precision 16 (Z.lor flags (Z.lor FLAGS_ZEROPAD FLAGS_UPPERCASE));
  mret (idx, va).

Definition convert_float (c idx width precision flags : Z) (va : list Z) : M S (Z * list Z) :=
  '(slot, va) ← va_arg va;
  idx ← (if (c =? CH "f") || (c =? CH "F") then
           _ftoa out maxlen idx (of_bits slot) precision width (if c =? CH "F" then Z.lor flags FLAGS_UPPERCASE else flags)
         else
           let flags := if (c =? CH "g") || (c =? CH "G") then Z.lor flags FLAGS_ADAPT_EXP else flags in
           let flags := if (c =? CH "E") || (c =? CH "G") then Z.lor flags FLAGS_UPPERCASE else flags in
           _etoa out maxlen idx (of_bits slot) precision width flags);
  mret (idx, va).

Definition is_one_of (c : Z) (l : list Z) : bool := existsb (Z.eqb c) l.

Definition convert (c idx width precision flags : Z) (va : list Z) : M S (Z * list Z) :=
  if is_one_of c [CH "d"; CH "i"; CH "u"; CH "x"; CH "X"; CH "o"; CH "b"] then convert_integer c idx width precision flags va
  else if is_one_of c [CH "f"; CH "F"; CH "e"; CH "E"; CH "g"; CH "G"] then convert_float c idx width precision flags va
  else if c =? CH "c" then convert_char idx width flags va
  else if c =? CH "s" then convert_string idx width precision flags va
  else if c =? CH "p" then convert_pointer idx precision flags va
  else idx ← put_char out maxlen c idx; mret (idx, va).

(** [out((char)0, buffer, idx < maxlen ? idx : maxlen - 1U, maxlen); return (int)idx;] *)
Definition terminate (idx : Z) : M S Z :=
  out 0 (if idx <? maxlen then idx else u64 (maxlen - 1)) maxlen ;;; mret (s32 idx).

(** One specifier: what is behind the [%], up to and with the letter. *)
Definition specifier (idx : Z) (format va : list Z) : M S (Z * list Z * list Z) :=
  '(flags, format) ← parse_flags 0 format;
  '(flags, width, format, va) ← parse_width flags format va;
  '(flags, precision, format, va) ← parse_precision flags format va;
  '(flags, format) ← parse_length flags format;
  match format with
  | [] => fault
  | c :: format => '(idx, va) ← convert c idx width precision flags va; mret (idx, format, va)
  end.

Fixpoint format_loop (n : nat) (idx : Z) (format va : list Z) : M S Z :=
  match n with
  | O => nofuel
  | Datatypes.S n =>
    match format with
    | [] => fault
    | c :: rest =>
      if c =? 0 then mret idx
      else if negb (c =? CH "%") then idx ← put_char out maxlen c idx; format_loop n idx rest va
      else '(idx, rest, va) ← specifier idx rest va; format_loop n idx rest va
    end
  end.

(** Each round takes at least one character of the format. *)
Definition _vsnprintf (format va : list Z) : M S Z :=
  idx ← format_loop (Datatypes.S (length format)) 0 format va;
  terminate idx.

End Out.

(** * Entry points *)

Definition printf_ {S} (_putchar : Z -> M S unit) (strings : Z -> option (list Z)) (format va : list Z) : M S Z :=
  _vsnprintf (_out_char _putchar) (2 ^ 64 - 1) strings format va.

Definition vprintf_ {S} (_putchar : Z -> M S unit) (strings : Z -> option (list Z)) (format va : list Z) : M S Z :=
  _vsnprintf (_out_char _putchar) (2 ^ 64 - 1) strings format va.

Definition fctprintf {S} (fct : Z -> M S unit) (strings : Z -> option (list Z)) (format va : list Z) : M S Z :=
  _vsnprintf (_out_fct fct) (2 ^ 64 - 1) strings format va.

(** With a NULL buffer only the length is computed. *)
Definition length_printf (maxlen : Z) (strings : Z -> option (list Z)) (format va : list Z) : M (list Z) Z :=
  _vsnprintf _out_null maxlen strings format va.

Definition sprintf_ (strings : Z -> option (list Z)) (format va : list Z) : M (list Z) Z :=
  _vsnprintf _out_buffer (2 ^ 64 - 1) strings format va.

Definition snprintf_ (count : Z) (strings : Z -> option (list Z)) (format va : list Z) : M (list Z) Z :=
  _vsnprintf _out_buffer count strings format va.

Definition vsnprintf_ (count : Z) (strings : Z -> option (list Z)) (format va : list Z) : M (list Z) Z :=
  _vsnprintf _out_buffer count strings format va.
