(* ===== verification/PrintfProof.v ===== *)
(** What external/printf.c prints. A call sends characters to its output
    function one after the other and at consecutive indices, and which ones
    does not depend on that function: [streams]. So the buffer of snprintf
    holds the beginning of what any other output function is given. *)
From Stdlib Require Import ZArith Lia Ascii String SpecFloat.
From stdpp Require Import base tactics list numbers.
From S2P Require Import Prelude Printf Ftoa Vsnprintf.

Open Scope Z_scope.

(** An output function that keeps the text, every character of it, and the
    function that fctprintf gets to do so. *)
Definition record : out_fct_type (list Z) := fun character _ _ text => Ok tt (text ++ [character]).

Definition append (character : Z) : M (list Z) unit := fun text => Ok tt (text ++ [character]).

(** A buffer after as much of [text] was put in its first [count] bytes as fits
    with the terminator. *)
Definition truncated (count : Z) (text b : list Z) : list Z :=
  if count =? 0 then b
  else let sent := take (Z.to_nat (count - 1)) text in sent ++ 0 :: drop (Datatypes.S (length sent)) b.

(** * Streams *)

(** How a computation ends that does not look at its state. *)
Inductive ending (X : Type) : Type :=
| Done (x : X)
| Broken
| Unbounded.

Arguments Done {X} x.
Arguments Broken {X}.
Arguments Unbounded {X}.

Definition play {S X} (e : ending X) : M S X :=
  match e with Done x => mret x | Broken => fault | Unbounded => nofuel end.

(** A computation without output. *)
Definition silent {X} (m : forall S, M S X) : Prop := exists e, forall S s, m S s = play e s.

(** A computation that outputs from [idx] on; [pos] finds the index it ends at
    in its result. *)
Definition streams {X} (idx : Z) (pos : X -> Z) (f : forall S, out_fct_type S -> Z -> M S X) : Prop :=
  0 <= idx < 2 ^ 64 -> exists l e,
    (forall x, e = Done x -> pos x = u64 (idx + Z.of_nat (length l))) /\
    forall S (out : out_fct_type S) maxlen s, f S out maxlen s = (put_chars out maxlen l idx ;;; play e) s.

Lemma bind_cong {S A B} (m m' : M S A) (k : A -> M S B) s : m s = m' s -> (m ≫= k) s = (m' ≫= k) s.
Proof. unfold mbind, M_bind. by intros ->. Qed.

Lemma bind_assoc {S A B C} (m : M S A) (k : A -> M S B) (h : B -> M S C) s :
  ((m ≫= k) ≫= h) s = (m ≫= (fun x => k x ≫= h)) s.
Proof. unfold mbind, M_bind. by destruct (m s). Qed.

Lemma bind_ext {S A B} (m : M S A) (k k' : A -> M S B) s : (forall a s, k a s = k' a s) -> (m ≫= k) s = (m ≫= k') s.
Proof. intros E. unfold mbind, M_bind. destruct (m s); auto. Qed.

Lemma put_chars_cons {S} (out : out_fct_type S) maxlen c l idx s :
  put_chars out maxlen (c :: l) idx s = (out c idx maxlen ;;; put_chars out maxlen l (u64 (idx + 1))) s.
Proof. cbn [put_chars]. unfold put_char. by rewrite bind_assoc. Qed.

Lemma u64_next idx n : u64 (u64 (idx + 1) + Z.of_nat n) = u64 (idx + Z.of_nat (Datatypes.S n)).
Proof. unfold u64. rewrite Zplus_mod_idemp_l. f_equal. lia. Qed.

Lemma put_chars_app {S} (out : out_fct_type S) maxlen l1 l2 : forall idx s, 0 <= idx < 2 ^ 64 ->
  put_chars out maxlen (l1 ++ l2) idx s = (put_chars out maxlen l1 idx ;;; put_chars out maxlen l2 (u64 (idx + Z.of_nat (length l1)))) s.
Proof.
  induction l1 as [|c l1 IH]; intros idx s Hi; cbn [app length].
  - cbn. by rewrite Z.add_0_r, u64_small.
  - rewrite put_chars_cons. erewrite (bind_cong (put_chars out maxlen (c :: l1) idx)) by apply put_chars_cons.
    rewrite bind_assoc. apply bind_ext. intros _ s'. by rewrite IH, u64_next by apply u64_bound.
Qed.

(** The index the characters end at. *)
Lemma put_chars_idx {S} (out : out_fct_type S) maxlen l : forall idx s i s', 0 <= idx < 2 ^ 64 ->
  put_chars out maxlen l idx s = Ok i s' -> i = u64 (idx + Z.of_nat (length l)).
Proof.
  induction l as [|c l IH]; intros idx s i s' Hi; cbn [length].
  - intros [= <- _]. by rewrite Z.add_0_r, u64_small.
  - rewrite put_chars_cons. unfold mbind, M_bind. destruct (out c idx maxlen s) as [[] t| | |]; [|done..].
    intros E. rewrite (IH _ _ _ _ (u64_bound _) E). apply u64_next.
Qed.

Lemma play_bind {S A B} (e : ending A) (k : A -> M S B) s :
  (play e ≫= k) s = match e with Done a => k a s | Broken => Fault | Unbounded => OutOfFuel end.
Proof. by destruct e. Qed.

Lemma streams_ret {X} idx pos (x : X) : pos x = idx -> streams idx pos (fun S out maxlen => mret x).
Proof. intros E Hi. exists [], (Done x). split; [|done]. intros y [= <-]. cbn. by rewrite Z.add_0_r, u64_small. Qed.

Lemma streams_end {X} idx (pos : X -> Z) (e : ending X) : (forall x, e <> Done x) -> streams idx pos (fun S out maxlen => play e).
Proof. intros E _. exists [], e. split; [|done]. intros x ->. by destruct (E x). Qed.

Lemma streams_put_chars idx l : streams idx id (fun S out maxlen => put_chars out maxlen l idx).
Proof.
  intros Hi. exists l, (Done (u64 (idx + Z.of_nat (length l)))). split; [by intros x [= <-]|].
  intros S out maxlen s. unfold mbind, M_bind. destruct (put_chars out maxlen l idx s) as [i s'| | |] eqn:E; try done.
  by rewrite (put_chars_idx _ _ _ _ _ _ _ Hi E).
Qed.

Lemma streams_bind {X Y} idx (pos1 : X -> Z) (pos2 : Y -> Z) f g :
  streams idx pos1 f -> (forall x, streams (pos1 x) pos2 (fun S out maxlen => g S out maxlen x)) ->
  streams idx pos2 (fun S out maxlen => f S out maxlen ≫= g S out maxlen).
Proof.
  intros Hf Hg Hi. destruct (Hf Hi) as (l1 & e1 & H1 & E1). destruct e1 as [x| |].
  - assert (Hx : pos1 x = u64 (idx + Z.of_nat (length l1))) by auto.
    destruct (Hg x) as (l2 & e2 & H2 & E2); [rewrite Hx; apply u64_bound|]. exists (l1 ++ l2), e2. split.
    + intros y Ey. rewrite (H2 y Ey), Hx, length_app. unfold u64. rewrite Zplus_mod_idemp_l. f_equal. lia.
    + intros S out maxlen s. rewrite (bind_cong _ _ _ _ (E1 S out maxlen s)), bind_assoc.
      erewrite (bind_cong (put_chars out maxlen (l1 ++ l2) idx)) by by apply put_chars_app. rewrite bind_assoc.
      apply bind_ext. intros _ s'. rewrite play_bind, E2. by rewrite Hx.
  - exists l1, Broken. split; [done|]. intros S out maxlen s. rewrite (bind_cong _ _ _ _ (E1 S out maxlen s)), bind_assoc.
    by apply bind_ext.
  - exists l1, Unbounded. split; [done|]. intros S out maxlen s. rewrite (bind_cong _ _ _ _ (E1 S out maxlen s)), bind_assoc.
    by apply bind_ext.
Qed.

Lemma streams_silent {X Y} idx (pos : Y -> Z) (m : forall S, M S X) g :
  silent m -> (forall x, streams idx pos (fun S out maxlen => g S out maxlen x)) ->
  streams idx pos (fun S out maxlen => m S ≫= g S out maxlen).
Proof.
  intros [e E] Hg. destruct e as [x| |].
  - intros Hi. destruct (Hg x Hi) as (l & e & H1 & E1). exists l, e. split; [done|]. intros S out maxlen s.
    by rewrite (bind_cong _ _ _ _ (E S s)), <- E1.
  - intros _. exists [], Broken. split; [done|]. intros S out maxlen s. by rewrite (bind_cong _ _ _ _ (E S s)).
  - intros _. exists [], Unbounded. split; [done|]. intros S out maxlen s. by rewrite (bind_cong _ _ _ _ (E S s)).
Qed.

Lemma silent_ret {X} (x : X) : silent (fun S => mret x).
Proof. by exists (Done x). Qed.

Lemma silent_fault {X} : silent (X := X) (fun S => fault).
Proof. by exists Broken. Qed.

Lemma silent_nofuel {X} : silent (X := X) (fun S => nofuel).
Proof. by exists Unbounded. Qed.

Lemma silent_bind {X Y} (m : forall S, M S X) (k : forall S, X -> M S Y) :
  silent m -> (forall x, silent (fun S => k S x)) -> silent (fun S => m S ≫= k S).
Proof.
  intros [e E] Hk. destruct e as [x| |].
  - destruct (Hk x) as [e' E']. exists e'. intros S s. by rewrite (bind_cong _ _ _ _ (E S s)), <- E'.
  - exists Broken. intros S s. by rewrite (bind_cong _ _ _ _ (E S s)).
  - exists Unbounded. intros S s. by rewrite (bind_cong _ _ _ _ (E S s)).
Qed.

Lemma silent_deref {X} (o : option X) : silent (fun S => deref (fun _ => o)).
Proof. destruct o as [x|]; [by exists (Done x)|by exists Broken]. Qed.

Create HintDb streams.

(** Goes through a computation; what it calls is in the hints. *)
Ltac silent := cbn beta zeta iota; lazymatch goal with
  | |- silent (fun S => match ?x with _ => _ end) => destruct x; silent
  | |- forall _, _ => intros ?; silent
  | |- _ => first [ solve [auto with streams nocore] | apply silent_ret | apply silent_fault | apply silent_nofuel | apply silent_deref
                  | apply silent_bind; silent ]
  end.

Lemma silent_va_arg va : silent (fun S => va_arg va).
Proof. unfold va_arg. silent. Qed.

Lemma silent_strnlen str : forall maxsize, silent (fun S => _strnlen_s str maxsize).
Proof. induction str as [|c str IH]; intros maxsize; cbn [_strnlen_s]; [apply silent_fault|]. silent. Qed.

Lemma silent_atoi str : forall i, silent (fun S => _atoi i str).
Proof. induction str as [|c str IH]; intros i; cbn [_atoi]; [apply silent_fault|]. silent. Qed.

#[export] Hint Resolve silent_va_arg silent_strnlen silent_atoi : streams.

Lemma silent_flags format : forall flags, silent (fun S => parse_flags flags format).
Proof. induction format as [|c format IH]; intros flags; cbn [parse_flags]; [apply silent_fault|]. silent. Qed.

Lemma silent_star_width flags va : silent (fun S => star_width flags va).
Proof. unfold star_width. silent. Qed.

Lemma silent_star_precision va : silent (fun S => star_precision va).
Proof. unfold star_precision. silent. Qed.

#[export] Hint Resolve silent_flags silent_star_width silent_star_precision : streams.

Lemma silent_width flags format va : silent (fun S => parse_width flags format va).
Proof. unfold parse_width. silent. Qed.

Lemma silent_precision flags format va : silent (fun S => parse_precision flags format va).
Proof. unfold parse_precision. silent. Qed.

Lemma silent_length flags format : silent (fun S => parse_length flags format).
Proof. unfold parse_length, double_flag. silent. Qed.

#[export] Hint Resolve silent_width silent_precision silent_length : streams.

(** The same for a computation that outputs. *)
Ltac streams := cbn beta zeta iota; lazymatch goal with
  | |- streams _ _ (fun S out maxlen => match ?x with _ => _ end) => destruct x; streams
  | |- forall _, _ => intros ?; streams
  | |- _ => first [ solve [auto with streams nocore] | apply streams_put_chars | by apply streams_ret
                  | by apply (streams_end _ _ Broken) | by apply (streams_end _ _ Unbounded)
                  | apply streams_silent; [solve [silent]|streams]
                  | eapply (streams_bind _ id); [solve [streams]|streams] | eapply (streams_bind _ fst); [solve [streams]|streams]
                  | eapply (streams_bind _ (fun x => x.1.1)); [solve [streams]|streams] ]
  end.

Lemma streams_put_char c idx : streams idx id (fun S out maxlen => put_char out maxlen c idx).
Proof.
  intros Hi. destruct (streams_put_chars idx [c] Hi) as (l & e & H1 & E). exists l, e. split; [done|]. intros S out maxlen s.
  rewrite <- E. cbn [put_chars]. unfold mbind, M_bind. by destruct (put_char out maxlen c idx s).
Qed.

Lemma streams_spaces n idx : streams idx id (fun S out maxlen => spaces out maxlen n idx).
Proof. apply streams_put_chars. Qed.

#[export] Hint Resolve streams_put_char streams_spaces : streams.

Lemma streams_out_rev idx buf width flags : streams idx id (fun S out maxlen => _out_rev out maxlen idx buf width flags).
Proof. unfold _out_rev. streams. Qed.

#[export] Hint Resolve streams_out_rev : streams.

Lemma streams_ntoa_format idx buf negative base prec width flags :
  streams idx id (fun S out maxlen => _ntoa_format out maxlen idx buf negative base prec width flags).
Proof. unfold _ntoa_format. streams. Qed.

Lemma streams_ntoa_long idx value negative base prec width flags :
  streams idx id (fun S out maxlen => _ntoa_long out maxlen idx value negative base prec width flags).
Proof. apply streams_ntoa_format. Qed.

Lemma streams_ntoa_long_long idx value negative base prec width flags :
  streams idx id (fun S out maxlen => _ntoa_long_long out maxlen idx value negative base prec width flags).
Proof. apply streams_ntoa_format. Qed.

#[export] Hint Resolve streams_ntoa_long streams_ntoa_long_long : streams.

Lemma streams_ftoa n : forall exponential idx value prec width flags,
  streams idx id (fun S out maxlen => ftoa_etoa out maxlen n exponential idx value prec width flags).
Proof.
  induction n as [|n IH]; intros exponential idx value prec width flags; cbn [ftoa_etoa]; [by apply (streams_end _ _ Unbounded)|].
  destruct exponential.
  - unfold etoa_body. streams.
  - unfold ftoa_body. streams.
Qed.

Lemma streams_convert_float c idx width precision flags va :
  streams idx fst (fun S out maxlen => convert_float out maxlen c idx width precision flags va).
Proof. pose proof streams_ftoa. unfold convert_float, _ftoa, _etoa. streams. Qed.

Lemma streams_convert_integer c idx width precision flags va :
  streams idx fst (fun S out maxlen => convert_integer out maxlen c idx width precision flags va).
Proof. unfold convert_integer, convert_signed, convert_unsigned. destruct (is_signed c); streams. Qed.

Lemma streams_pad when l width idx : streams idx id (fun S out maxlen => pad out maxlen when l width idx).
Proof. unfold pad. streams. Qed.

Lemma streams_put_string p limited : forall precision idx, streams idx id (fun S out maxlen => put_string out maxlen p limited precision idx).
Proof. induction p as [|c p IH]; intros precision idx; cbn [put_string]; [by apply (streams_end _ _ Broken)|]. streams. Qed.

#[export] Hint Resolve streams_convert_float streams_convert_integer streams_pad streams_put_string : streams.

Section Format.
Context (strings : Z -> option (list Z)).

Lemma streams_convert c idx width precision flags va :
  streams idx fst (fun S out maxlen => convert out maxlen strings c idx width precision flags va).
Proof. unfold convert, convert_char, convert_string, convert_pointer. streams. Qed.

Hint Resolve streams_convert : streams.

Lemma streams_specifier idx format va :
  streams idx (fun x => x.1.1) (fun S out maxlen => specifier out maxlen strings idx format va).
Proof. unfold specifier. streams. Qed.

Hint Resolve streams_specifier : streams.

Lemma streams_format n : forall idx format va, streams idx id (fun S out maxlen => format_loop out maxlen strings n idx format va).
Proof.
  induction n as [|n IH]; intros idx format va; cbn [format_loop]; [by apply (streams_end _ _ Unbounded)|]. streams.
Qed.

End Format.

(** * The output functions *)

Lemma record_chars maxlen l : forall idx text, 0 <= idx < 2 ^ 64 ->
  put_chars record maxlen l idx text = Ok (u64 (idx + Z.of_nat (length l))) (text ++ l).
Proof.
  induction l as [|c l IH]; intros idx text Hi; cbn [length].
  - cbn. by rewrite Z.add_0_r, u64_small, app_nil_r.
  - rewrite put_chars_cons. unfold mbind, M_bind, record at 1. rewrite IH by apply u64_bound.
    by rewrite u64_next, <- app_assoc.
Qed.

Lemma append_chars maxlen l : forall idx text, 0 <= idx < 2 ^ 64 ->
  put_chars (_out_fct append) maxlen l idx text = Ok (u64 (idx + Z.of_nat (length l))) (text ++ filter (fun c => c <> 0) l).
Proof.
  induction l as [|c l IH]; intros idx text Hi; cbn [length].
  - cbn. by rewrite Z.add_0_r, u64_small, app_nil_r.
  - rewrite put_chars_cons. unfold mbind, M_bind, _out_fct at 1. destruct (Z.eqb_spec c 0) as [->|Hc]; cbn [mret M_ret append].
    + rewrite IH by apply u64_bound. by rewrite u64_next, filter_cons_False by lia.
    + rewrite IH by apply u64_bound. by rewrite u64_next, filter_cons_True, <- app_assoc by done.
Qed.

Lemma buffer_full maxlen b l : forall idx, maxlen <= idx -> 0 <= idx -> idx + Z.of_nat (length l) < 2 ^ 64 ->
  put_chars _out_buffer maxlen l idx b = Ok (idx + Z.of_nat (length l)) b.
Proof.
  induction l as [|c l IH]; intros idx H1 H0 H2; cbn [length] in *; [cbn; by rewrite Z.add_0_r|].
  rewrite put_chars_cons. unfold mbind, M_bind, _out_buffer at 1. rewrite (proj2 (Z.ltb_ge _ _)) by lia.
  rewrite u64_small, IH by lia. f_equal. lia.
Qed.

(** What is past the limit is dropped. *)
Lemma buffer_chars maxlen l : forall b rest, Z.of_nat (length b) + Z.of_nat (length l) < 2 ^ 64 -> 0 <= maxlen <= Z.of_nat (length (b ++ rest)) ->
  Z.of_nat (length b) <= maxlen ->
  let sent := take (Z.to_nat maxlen - length b) l in
  put_chars _out_buffer maxlen l (Z.of_nat (length b)) (b ++ rest) =
    Ok (Z.of_nat (length b) + Z.of_nat (length l)) (b ++ sent ++ drop (length sent) rest).
Proof.
  induction l as [|c l IH]; intros b rest Hl Hm Hb; cbn [length] in Hl |- *.
  - rewrite take_nil. cbn. by rewrite Z.add_0_r.
  - rewrite put_chars_cons. unfold mbind, M_bind, _out_buffer at 1. cbn zeta. rewrite length_app in Hm.
    destruct (Z.ltb_spec (Z.of_nat (length b)) maxlen) as [Hlt|Hge].
    + rewrite (proj2 (Z.ltb_lt _ _)) by (rewrite length_app; lia). rewrite u64_small, Nat2Z.id by lia.
      destruct rest as [|r rest]; [cbn [length] in Hm; lia|]. rewrite insert_app_r_alt, Nat.sub_diag by done. cbn [insert list_insert].
      replace (Z.to_nat maxlen - length b)%nat with (Datatypes.S (Z.to_nat maxlen - length (b ++ [c]))) by (rewrite length_app; cbn; lia).
      cbn [take length drop].
      replace (b ++ c :: rest) with ((b ++ [c]) ++ rest) by by rewrite <- app_assoc.
      replace (Z.of_nat (length b) + 1) with (Z.of_nat (length (b ++ [c]))) by (rewrite length_app; cbn; lia).
      rewrite IH by (rewrite ?length_app in *; cbn [length] in *; lia).
      f_equal; [rewrite length_app; cbn [length]; lia|]. by rewrite <- app_assoc.
    + replace (Z.to_nat maxlen - length b)%nat with O by lia. cbn [take length drop app].
      rewrite u64_small, buffer_full by lia. f_equal. lia.
Qed.

Lemma buffer_text count b l : 0 <= count <= Z.of_nat (length b) -> Z.of_nat (length l) < 2 ^ 64 -> count < 2 ^ 64 ->
  (put_chars _out_buffer count l 0 ≫= terminate _out_buffer count) b = Ok (s32 (Z.of_nat (length l))) (truncated count l b).
Proof.
  intros Hc Hl Hc'. unfold mbind, M_bind. pose proof (buffer_chars count l [] b) as E. cbn [length app] in E.
  change (Z.of_nat 0) with 0 in E. rewrite Nat.sub_0_r in E. rewrite E by lia. clear E. rewrite Z.add_0_l.
  unfold terminate, mbind, M_bind, mret, M_ret, _out_buffer, truncated.
  destruct (Z.eqb_spec count 0) as [->|Hn].
  { change (Z.to_nat 0) with O. cbn [take length drop app]. by rewrite (proj2 (Z.ltb_ge (Z.of_nat _) 0)), (proj2 (Z.ltb_ge _ 0)) by (try apply u64_bound; lia). }
  set (k := Z.to_nat (count - 1)). set (c := Z.to_nat count). assert (Hk : c = Datatypes.S k) by lia.
  set (i := if Z.of_nat (length l) <? count then Z.of_nat (length l) else u64 (count - 1)).
  assert (Hi : i = Z.of_nat (length l `min` k)).
  { unfold i. destruct (Z.ltb_spec (Z.of_nat (length l)) count); [lia|]. rewrite u64_small; lia. }
  assert (Hb : length (take c l ++ drop (length (take c l)) b) = length b) by (rewrite length_app, length_drop, length_take; lia).
  rewrite (proj2 (Z.ltb_lt i count)), Hb, (proj2 (Z.ltb_lt i _)) by lia. f_equal.
  rewrite Hi, Nat2Z.id, insert_take_drop by lia. rewrite length_take.
  f_equal; [|f_equal].
  - rewrite take_app_le by (rewrite length_take; lia). rewrite take_take. 
    destruct (decide (length l <= k)%nat); [rewrite !take_ge by lia; done|]. f_equal. lia.
  - rewrite drop_app, drop_drop, length_take, (drop_ge (take c l)) by (rewrite length_take; lia).
    rewrite app_nil_l, length_take. f_equal. lia.
Qed.

(** * The format and its text *)

Section Theorems.
Context (strings : Z -> option (list Z)).

(** What a call sends, and how it ends. *)
Lemma vsnprintf_streams format va : exists l (e : ending Z), forall S (out : out_fct_type S) maxlen s,
  _vsnprintf out maxlen strings format va s = (put_chars out maxlen l 0 ≫= (fun idx =>
    match e with Done _ => terminate out maxlen idx | Broken => fault | Unbounded => nofuel end)) s.
Proof.
  destruct (streams_format strings (S (length format)) 0 format va ltac:(lia)) as (l & e & H & E). exists l, e.
  intros S out maxlen s. unfold _vsnprintf. rewrite (bind_cong _ _ _ _ (E S out maxlen s)), bind_assoc.
  unfold mbind, M_bind. destruct (put_chars out maxlen l 0 s) as [i s'| | |] eqn:Ei; [|done..].
  destruct e as [x| |]; [|done..]. cbn. apply put_chars_idx in Ei as ->; [|lia]. by rewrite <- (H x eq_refl).
Qed.

(** A text that was recorded ends with the terminator. *)
Lemma record_ok count format va n out : _vsnprintf record count strings format va [] = Ok n out -> Z.of_nat (length out) <= 2 ^ 64 ->
  exists text, out = text ++ [0] /\ n = s32 (Z.of_nat (length text)) /\ forall S (o : out_fct_type S) maxlen s,
    _vsnprintf o maxlen strings format va s = (put_chars o maxlen text 0 ≫= terminate o maxlen) s.
Proof.
  destruct (vsnprintf_streams format va) as (l & e & E). rewrite E. unfold mbind at 1, M_bind at 1. rewrite record_chars by lia.
  rewrite app_nil_l. destruct e as [x| |]; [|done..]. cbn. intros [= <- <-] Hl. rewrite length_app in Hl. cbn in Hl.
  exists l. repeat split; [|apply E]. by rewrite Z.add_0_l, u64_small by lia.
Qed.

End Theorems.

(** * Termination

    [ends Q m]: [m] comes to an end, with a result that has [Q] or without one. *)

Definition ends {S X} (Q : X -> Prop) (m : M S X) : Prop :=
  forall s, match m s with Ok a _ => Q a | OutOfFuel => False | _ => True end.

Lemma ends_ret {S X} (Q : X -> Prop) (x : X) : Q x -> ends (S := S) Q (mret x).
Proof. by intros H s. Qed.

Lemma ends_fault {S X} (Q : X -> Prop) : ends (S := S) (X := X) Q fault.
Proof. by intros s. Qed.

Lemma ends_deref {S X} (f : S -> option X) : ends (fun _ => True) (deref f).
Proof. intros s. unfold deref. by destruct (f s). Qed.

Lemma ends_bind {S A B} (P : A -> Prop) (Q : B -> Prop) (m : M S A) (k : A -> M S B) :
  ends P m -> (forall a, P a -> ends Q (k a)) -> ends Q (m ≫= k).
Proof.
  intros Hm Hk s. specialize (Hm s). unfold mbind, M_bind. destruct (m s) as [a s'| | |]; [|done..]. by apply Hk.
Qed.

Lemma ends_weaken {S A} (P Q : A -> Prop) (m : M S A) : ends P m -> (forall a, P a -> Q a) -> ends Q m.
Proof. intros Hm H s. specialize (Hm s). destruct (m s); auto. Qed.

Ltac ends := cbn beta zeta iota; lazymatch goal with
  | |- ends _ (match ?x with _ => _ end) => destruct x; ends
  | |- forall _, _ => intros ?; ends
  | |- _ => first [ solve [eauto with streams nocore] | apply ends_ret; solve [done | eauto] | apply ends_fault
                  | apply ends_deref | eapply ends_bind; [solve [ends]|ends] ]
  end.

#[export] Hint Resolve ends_deref : streams.

(** What is read of the format is not read again. *)
Lemma ends_atoi {S} str : forall i, ends (S := S) (fun x => x.2 `suffix_of` str) (_atoi i str).
Proof.
  induction str as [|c str IH]; intros i; cbn [_atoi]; [apply ends_fault|]. destruct (_is_digit c); [|by apply ends_ret].
  eapply ends_weaken; [apply IH|]. intros x. apply suffix_cons_r.
Qed.

Lemma ends_flags {S} format : forall flags, ends (S := S) (fun x => x.2 `suffix_of` format) (parse_flags flags format).
Proof.
  induction format as [|c format IH]; intros flags; cbn [parse_flags]; [apply ends_fault|]. destruct (flag_of c); [|by apply ends_ret].
  eapply ends_weaken; [apply IH|]. intros x. apply suffix_cons_r.
Qed.

Lemma ends_va_arg {S} va : ends (S := S) (fun _ => True) (va_arg va).
Proof. unfold va_arg. ends. Qed.

#[export] Hint Resolve ends_va_arg suffix_cons_r : streams.

Lemma ends_star {S} flags va : ends (S := S) (fun _ => True) (star_width flags va) /\ ends (S := S) (fun _ => True) (star_precision va).
Proof. unfold star_width, star_precision. split; ends. Qed.

Lemma ends_width {S} flags format va : ends (S := S) (fun x => x.1.2 `suffix_of` format) (parse_width flags format va).
Proof.
  unfold parse_width. destruct format as [|c rest]; [apply ends_fault|]. destruct (_is_digit c).
  - eapply ends_bind; [apply ends_atoi|]. intros [w r] H. by apply ends_ret.
  - destruct (c =? _); [|by apply ends_ret]. eapply ends_bind; [apply ends_star|]. intros [[f w] v] _. apply ends_ret. by apply suffix_cons_r.
Qed.

Lemma ends_precision {S} flags format va : ends (S := S) (fun x => x.1.2 `suffix_of` format) (parse_precision flags format va).
Proof.
  unfold parse_precision. destruct format as [|c rest]; [apply ends_fault|]. destruct (negb _); [by apply ends_ret|].
  destruct rest as [|d rest']; [apply ends_fault|]. destruct (_is_digit d).
  - eapply ends_bind; [apply ends_atoi|]. intros [p r] H. apply ends_ret. by apply suffix_cons_r.
  - destruct (d =? _); [|apply ends_ret; by apply suffix_cons_r]. eapply ends_bind; [by apply (ends_star 0)|]. intros [p v] _.
    apply ends_ret. do 2 apply suffix_cons_r. done.
Qed.

Lemma ends_length {S} flags format : ends (S := S) (fun x => x.2 `suffix_of` format) (parse_length flags format).
Proof.
  assert (forall c a b one two (rest : list Z), ends (S := S) (fun x => x.2 `suffix_of` b :: rest) (double_flag c a one two rest)) as Hd.
  { intros c a b one two [|d rest]; [apply ends_fault|]. apply ends_ret. destruct (d =? c); [do 2 apply suffix_cons_r|apply suffix_cons_r]; done. }
  unfold parse_length. destruct format as [|c rest]; [apply ends_fault|].
  destruct (c =? _); [apply Hd|]. destruct (c =? _); [apply Hd|]. destruct (_ || _ || _); apply ends_ret; [by apply suffix_cons_r|done].
Qed.

Section Ends.
Context {S : Type} (out : out_fct_type S) (maxlen : Z) (strings : Z -> option (list Z)).
Context (out_ends : forall c idx maxlen, ends (fun _ => True) (out c idx maxlen)).

Hint Resolve out_ends : streams.

Lemma ends_put_char c idx : ends (fun _ => True) (put_char out maxlen c idx).
Proof. unfold put_char. ends. Qed.

Hint Resolve ends_put_char : streams.

Lemma ends_put_chars l : forall idx, ends (fun _ => True) (put_chars out maxlen l idx).
Proof. induction l as [|c l IH]; intros idx; cbn [put_chars]; ends. Qed.

Hint Resolve ends_put_chars : streams.

Lemma ends_out_rev idx buf width flags : ends (fun _ => True) (_out_rev out maxlen idx buf width flags).
Proof. unfold _out_rev, spaces. ends. Qed.

Hint Resolve ends_out_rev : streams.

Lemma ends_ntoa idx buf negative base prec width flags :
  ends (fun _ => True) (_ntoa_format out maxlen idx buf negative base prec width flags).
Proof. unfold _ntoa_format. ends. Qed.

Hint Resolve ends_ntoa : streams.

Lemma ends_strnlen str : forall maxsize, ends (S := S) (fun _ => True) (_strnlen_s str maxsize).
Proof. induction str as [|c str IH]; intros maxsize; cbn [_strnlen_s]; ends. Qed.

Lemma ends_pad when l width idx : ends (fun _ => True) (pad out maxlen when l width idx).
Proof. unfold pad, spaces. ends. Qed.

Lemma ends_put_string p limited : forall precision idx, ends (fun _ => True) (put_string out maxlen p limited precision idx).
Proof. induction p as [|c p IH]; intros precision idx; cbn [put_string]; ends. Qed.

Hint Resolve ends_strnlen ends_pad ends_put_string : streams.

(** The letters of the conversions of numbers in floating point. *)
Definition is_float (c : Z) : bool := is_one_of c [CH "f"; CH "F"; CH "e"; CH "E"; CH "g"; CH "G"].

Lemma ends_convert c idx width precision flags va : is_float c = false ->
  ends (fun _ => True) (convert out maxlen strings c idx width precision flags va).
Proof.
  unfold convert, is_float. intros ->. unfold convert_integer, convert_signed, convert_unsigned, convert_char, convert_string, convert_pointer,
    _ntoa_long, _ntoa_long_long. destruct (is_signed c); ends.
Qed.

Lemma ends_specifier idx format va : Forall (fun c => is_float c = false) format ->
  ends (fun x => x.1.2 `suffix_of` format /\ (length x.1.2 < length format)%nat) (specifier out maxlen strings idx format va).
Proof.
  intros Hf. unfold specifier. eapply ends_bind; [apply ends_flags|]. intros [f1 r1] H1. cbn in H1.
  eapply ends_bind; [apply ends_width|]. intros [[[f2 w] r2] v2] H2. cbn in H2.
  eapply ends_bind; [apply ends_precision|]. intros [[[f3 p] r3] v3] H3. cbn in H3.
  eapply ends_bind; [apply ends_length|]. intros [f4 r4] H4. cbn in H4.
  assert (Hs : r4 `suffix_of` format) by (etrans; [exact H4|]; etrans; [exact H3|]; by etrans).
  destruct r4 as [|c r5]; [apply ends_fault|].
  eapply ends_bind; [apply ends_convert|].
  - destruct Hs as [k ->]. apply Forall_app in Hf as [_ Hf]. by inversion Hf.
  - intros [i v5] _. apply ends_ret. cbn. split; [etrans; [|exact Hs]; by apply suffix_cons_r|].
    apply suffix_length in Hs. cbn in Hs. lia.
Qed.

Lemma ends_format n : forall idx format va, (length format < n)%nat -> Forall (fun c => is_float c = false) format ->
  ends (fun _ => True) (format_loop out maxlen strings n idx format va).
Proof.
  induction n as [|n IH]; intros idx format va Hl Hf; [lia|]. cbn [format_loop].
  destruct format as [|c rest]; [apply ends_fault|]. cbn in Hl. inversion Hf as [|? ? _ Hr]; subst.
  destruct (c =? 0); [by apply ends_ret|]. destruct (negb _).
  - eapply ends_bind; [apply ends_put_char|]. intros i _. apply IH; [lia|done].
  - eapply ends_bind; [by apply ends_specifier|]. intros [[i r] v] [[k Hk] Hlt]. cbn in *. apply IH; [lia|].
    subst rest. by apply Forall_app in Hr as [_ Hr].
Qed.

End Ends.

(** * Integers *)

(** The value of a digit, and of a row of digits. *)
Definition digit_value (c : Z) : Z :=
  if c <=? CH "9" then c - CH "0" else if CH "a" <=? c then c - CH "a" + 10 else c - CH "A" + 10.

Definition number (base : Z) (l : list Z) : Z := foldl (fun a c => a * base + digit_value c) 0 l.

Lemma number_app base l c : number base (l ++ [c]) = number base l * base + digit_value c.
Proof. unfold number. by rewrite foldl_app. Qed.

Lemma digits_number base flags : 2 <= base <= 16 -> forall n v, (0 < n)%nat -> 0 <= v < base ^ Z.of_nat n ->
  number base (rev (digits n v base flags)) = v /\ rev (digits n v base flags) <> [] /\ (v <> 0 -> head (rev (digits n v base flags)) <> Some (CH "0")).
Proof.
  intros Hb. induction n as [|n IH]; intros v Hn Hv; [lia|]. cbn [digits rev].
  set (c := if v mod base <? 10 then _ else _).
  assert (Hm : 0 <= v mod base < base) by (apply Z.mod_pos_bound; lia).
  assert (Hc : digit_value c = v mod base).
  { unfold c, digit_value. destruct (Z.ltb_spec (v mod base) 10), (has flags FLAGS_UPPERCASE); zcases; lia. }
  assert (Hc0 : v mod base <> 0 -> c <> CH "0") by (intros H E; rewrite E in Hc; cbn in Hc; lia).
  rewrite number_app, Hc. pose proof (Z.div_mod v base ltac:(lia)) as Hd.
  destruct (Z.eqb_spec (v / base) 0) as [E|E].
  - cbn [rev]. split; [cbn; lia|]. split; [done|]. intros H. cbn. intros [= H']. by apply Hc0; [lia|].
  - assert (Hn' : (0 < n)%nat).
    { destruct n; [|lia]. rewrite Z.pow_1_r in Hv. rewrite Z.div_small in E by lia. done. }
    destruct (IH (v / base) Hn') as (H1 & H2 & H3).
    { split; [apply Z.div_pos; lia|]. apply Z.div_lt_upper_bound; [lia|]. rewrite Nat2Z.inj_succ, Z.pow_succ_r in Hv by lia. lia. }
    rewrite H1. split; [lia|]. split; [by intros [_ ?]%app_eq_nil|]. intros _.
    destruct (rev (digits n (v / base) base flags)) as [|d ds]; [done|]. apply (H3 E).
Qed.

Lemma digits_length n v base flags : (length (digits n v base flags) <= n)%nat.
Proof. revert v. induction n as [|n IH]; intros v; cbn [digits length]; [lia|]. destruct (_ =? _); cbn [length]; [lia|]. specialize (IH (v / base)). lia. Qed.

(** A number in a field of [width] characters: the sign stands before zeros and
    behind spaces. *)
Definition field (negative : bool) (ds : list Z) (width flags : Z) : list Z :=
  let minus := if negative then [CH "-"] else [] in
  let fill c := replicate (Z.to_nat width - length (minus ++ ds)) c in
  if has flags FLAGS_LEFT then minus ++ ds ++ fill (CH " ")
  else if has flags FLAGS_ZEROPAD then minus ++ fill (CH "0") ++ ds
  else fill (CH " ") ++ minus ++ ds.

Record plain (flags : Z) : Prop := mkPlain {
  plain_clear : clear flags FLAGS_HASH = flags;
  plain_hash : has flags FLAGS_HASH = false;
  plain_plus : has flags FLAGS_PLUS = false;
  plain_space : has flags FLAGS_SPACE = false;
  plain_sign : has flags (Z.lor FLAGS_PLUS FLAGS_SPACE) = false;
  plain_precision : has flags FLAGS_PRECISION = false
}.

Lemma if_same {X} (b : bool) (x : X) : (if b then x else x) = x.
Proof. by destruct b. Qed.

Lemma rev_replicate {X} n (x : X) : rev (replicate n x) = replicate n x.
Proof. rewrite rev_alt. apply reverse_replicate. Qed.

(** The number behind the padding with zeros and the sign. *)
Lemma sign_text buf negative flags : plain flags -> (negative = true -> (length buf < 32)%nat) ->
  sign buf negative flags = buf ++ (if negative then [CH "-"] else []).
Proof.
  intros [_ _ P3 P4 _ _] Hl. unfold sign, push. rewrite P3, P4. destruct negative; [|by rewrite app_nil_r].
  rewrite (proj2 (Z.ltb_lt _ _)); [done|]. unfold PRINTF_NTOA_BUFFER_SIZE. specialize (Hl eq_refl). lia.
Qed.

Lemma out_rev_text {S} (out : out_fct_type S) maxlen idx buf width flags s :
  0 <= idx -> 0 <= width < 2 ^ 32 -> idx + 2 ^ 33 < 2 ^ 64 -> (length buf <= 32)%nat ->
  let fill := replicate (Z.to_nat width - length buf) (CH " ") in
  _out_rev out maxlen idx buf width flags s =
    put_chars out maxlen (if has flags FLAGS_LEFT then rev buf ++ fill else if has flags FLAGS_ZEROPAD then rev buf else fill ++ rev buf) idx s.
Proof.
  intros Hi Hw Hb Hl fill. unfold _out_rev. destruct (has flags FLAGS_LEFT); cbn [negb andb].
  - rewrite put_chars_app by lia. unfold mbind, M_bind, mret, M_ret.
    destruct (put_chars out maxlen (rev buf) idx s) as [i s'| | |] eqn:Ei; try done. apply put_chars_idx in Ei as ->; [|lia].
    rewrite length_rev. rewrite (u64_small (idx + _)), (u64_small (idx + _ - idx)) by lia. unfold spaces, fill. do 2 f_equal. lia.
  - destruct (has flags FLAGS_ZEROPAD); cbn [negb]; unfold mbind, M_bind, mret, M_ret; [by destruct (put_chars _ _ _ _ _)|].
    rewrite put_chars_app by lia. unfold spaces.
    replace (Z.to_nat (width - Z.of_nat (length buf))) with (Z.to_nat width - length buf)%nat by lia. fold fill.
    unfold mbind, M_bind. destruct (put_chars out maxlen fill idx s) as [i s'| | |] eqn:Ei; try done. apply put_chars_idx in Ei as ->; [|lia].
    by destruct (put_chars _ _ _ _ _).
Qed.

Lemma ntoa_text {S} (out : out_fct_type S) maxlen idx value negative base width flags s :
  plain flags -> 0 <= idx -> 0 <= width < 2 ^ 32 -> idx + 2 ^ 33 < 2 ^ 64 ->
  (has flags FLAGS_LEFT = false -> has flags FLAGS_ZEROPAD = true -> width <= 32) ->
  (negative = true -> (length (digits 32 value base flags) < 32)%nat) ->
  _ntoa_long_long out maxlen idx value negative base 0 width flags s =
    put_chars out maxlen (field negative (rev (digits 32 value base flags)) width flags) idx s.
Proof.
  intros Hp Hi Hw Hb Hz Hn. destruct (id Hp) as [P1 P2 P3 P4 P5 P6]. unfold _ntoa_long_long. rewrite P1, (if_same _ flags), P6. cbn [negb orb].
  change (Z.to_nat PRINTF_NTOA_BUFFER_SIZE) with 32%nat. set (ds := digits 32 value base flags) in *.
  assert (Hl : (length ds <= 32)%nat) by apply digits_length.
  assert (H0 : zeros_to 0 ds = ds) by (unfold zeros_to; cbn; by rewrite app_nil_r).
  unfold _ntoa_format, leading_zeros, field, hash. rewrite H0, P2. cbn [negb].
  assert (Hs : (length (ds ++ if negative then [CH "-"] else []) <= 32)%nat) by (rewrite length_app; destruct negative; cbn [length]; [specialize (Hn eq_refl)|]; lia).
  destruct (has flags FLAGS_LEFT) eqn:EL; [|destruct (has flags FLAGS_ZEROPAD) eqn:EZ].
  - rewrite sign_text, out_rev_text, EL by done. rewrite rev_app_distr, !length_app, length_rev. destruct negative; cbn; do 2 f_equal; rewrite ?Nat.add_0_r, ?Nat.add_1_r; done.
  - set (w := sign_width negative width flags). specialize (Hz eq_refl eq_refl).
    assert (Ew : w = if negative then width - 1 `min` width else width).
    { unfold w, sign_width. rewrite P5, orb_false_r. destruct negative; [|by rewrite andb_false_r]. rewrite andb_true_r. destruct (Z.eqb_spec width 0); cbn; lia. }
    unfold zeros_to. rewrite Z.min_l by (unfold PRINTF_NTOA_BUFFER_SIZE; destruct negative; lia).
    set (zs := replicate _ _). assert (Hzs : (length zs + length ds <= 32 /\ (negative = true -> length zs + length ds < 32))%nat).
    { unfold zs. rewrite length_replicate. split; [destruct negative|intros ->; specialize (Hn eq_refl)]; lia. }
    rewrite sign_text by (done || (intros ->; rewrite length_app; lia)).
    rewrite out_rev_text, EL, EZ; [|done| |done|]; [|destruct negative; lia|rewrite !length_app; destruct negative; cbn [length]; [destruct Hzs as [_ Hzs]; specialize (Hzs eq_refl)|]; lia].
    rewrite !rev_app_distr. unfold zs. rewrite rev_replicate. do 2 f_equal; [by destruct negative|]. do 2 f_equal. rewrite length_app, length_rev. destruct negative; cbn [length]; lia.
  - rewrite sign_text, out_rev_text, EL, EZ by done. rewrite rev_app_distr, !length_app, length_rev. do 2 f_equal; [f_equal; destruct negative; cbn [length]; lia|by destruct negative].
Qed.

Lemma digits_short base flags : 2 <= base -> forall n k v, (0 < k)%nat -> 0 <= v < base ^ Z.of_nat k -> (length (digits n v base flags) <= k)%nat.
Proof.
  intros Hb. induction n as [|n IH]; intros k v Hk Hv; cbn [digits length]; [lia|]. destruct (Z.eqb_spec (v / base) 0) as [E|E]; [cbn; lia|].
  destruct k as [|k]; [lia|]. destruct k as [|k]; [rewrite Z.pow_1_r in Hv; by rewrite Z.div_small in E by lia|]. cut (length (digits n (v / base) base flags) <= S k)%nat; [lia|].
  apply IH; [lia|]. rewrite (Nat2Z.inj_succ (S k)), Z.pow_succ_r in Hv by lia.
  split; [apply Z.div_pos; lia|]. apply Z.div_lt_upper_bound; lia.
Qed.

Lemma digits_decimal n flags : forall v, 0 <= v -> Forall (fun c => _is_digit c = true) (digits n v 10 flags).
Proof.
  induction n as [|n IH]; intros v Hv; cbn [digits]; constructor.
  - assert (0 <= v mod 10 < 10) by (apply Z.mod_pos_bound; lia). rewrite (proj2 (Z.ltb_lt _ _)) by lia. unfold _is_digit. zcases; lia.
  - destruct (_ =? _); [done|]. apply IH, Z.div_pos; lia.
Qed.

(** Scanning wraps around like the type. *)
Lemma atoi_digits {S} ds c rest (s : S) : Forall (fun c => _is_digit c = true) ds -> _is_digit c = false -> forall i, 0 <= i < 2 ^ 32 ->
  _atoi i (ds ++ c :: rest) s = Ok (u32 (foldl (fun a c => a * 10 + digit_value c) i ds), c :: rest) s.
Proof.
  intros Hd Hc. induction Hd as [|d ds Hd _ IH]; intros i Hi; cbn [app _atoi foldl].
  - rewrite Hc, u32_small by lia. done.
  - rewrite Hd, IH by apply u32_bound. do 2 f_equal.
    assert (Hv : d - CH "0" = digit_value d) by (unfold digit_value, _is_digit in *; zbool; zcases; lia). rewrite Hv.
    generalize (i * 10 + digit_value d) as a. clear. intros a.
    assert (forall ds a, u32 (foldl (fun a c => a * 10 + digit_value c) (u32 a) ds) = u32 (foldl (fun a c => a * 10 + digit_value c) a ds)) as H; [|apply H].
    clear. intros ds. induction ds as [|d ds IH]; intros a; cbn [foldl]; [unfold u32; by rewrite Zmod_mod|].
    rewrite <- IH, <- (IH (a * 10 + _)). do 2 f_equal. unfold u32. by rewrite <- Zplus_mod_idemp_l, Zmult_mod_idemp_l, Zplus_mod_idemp_l.
Qed.

(** The cases of a membership in a list that is given. *)
Ltac members H := lazymatch type of H with
  | _ ∈ [] => by apply elem_of_nil in H
  | _ => apply elem_of_cons in H as [->|H]; [|members H]
  end.

(** An integer conversion without a sign, a precision or [#]. *)
Section Unsigned.
Context (c width size adjust : Z).
Context (Hc : c ∈ [CH "u"; CH "x"; CH "X"; CH "o"]) (Hs : size ∈ [0; FLAGS_LONG; FLAGS_LONG_LONG; Z.lor FLAGS_LONG FLAGS_LONG_LONG]).
Context (Ha : adjust ∈ [0; FLAGS_ZEROPAD; FLAGS_LEFT]) (Hw : 0 <= width < 2 ^ 32) (Hz : adjust = FLAGS_ZEROPAD -> width <= 32).

Definition unsigned_digits (v : Z) : list Z := rev (digits 32 v (base_of c) (integer_flags c (Z.lor size adjust))).

Lemma base_of_bounds : 8 <= base_of c <= 16.
Proof. members Hc; cbn; lia. Qed.

Lemma unsigned_digits_ok v : 0 <= v < 2 ^ 64 ->
  number (base_of c) (unsigned_digits v) = v /\ unsigned_digits v <> [] /\ (v <> 0 -> head (unsigned_digits v) <> Some (CH "0")).
Proof.
  intros Hv. pose proof base_of_bounds. apply digits_number; [lia..|]. split; [lia|]. eapply Z.lt_le_trans; [apply Hv|].
  transitivity (8 ^ Z.of_nat 32); [done|]. apply Z.pow_le_mono_l. lia.
Qed.

Lemma integer_flags_ok (flags := integer_flags c (Z.lor size adjust)) :
  plain flags /\ is_signed c = false /\ has flags FLAGS_LEFT = has adjust FLAGS_LEFT /\ has flags FLAGS_ZEROPAD = has adjust FLAGS_ZEROPAD /\
  has flags FLAGS_LONG_LONG = has size FLAGS_LONG_LONG /\ has flags FLAGS_CHAR = false /\ has flags FLAGS_SHORT = false.
Proof. unfold flags. members Hc; members Hs; members Ha; by repeat split. Qed.

Lemma convert_unsigned_puts {S} (out : out_fct_type S) maxlen idx slot va s : 0 <= idx -> idx + 2 ^ 33 < 2 ^ 64 ->
  convert_integer out maxlen c idx width 0 (Z.lor size adjust) (slot :: va) s =
    (idx ← put_chars out maxlen (field false (unsigned_digits (if has size FLAGS_LONG_LONG then u64 slot else u32 slot)) width adjust) idx; mret (idx, va)) s.
Proof.
  intros Hi Hb. set (v := if has size _ then _ else _). destruct integer_flags_ok as (Hp & Hsg & HL & HZ & HLL & HC & HS).
  unfold convert_integer. rewrite Hsg. set (flags := integer_flags c (Z.lor size adjust)) in *.
  assert (Hcv : convert_unsigned out maxlen idx slot (base_of c) 0 width flags s = put_chars out maxlen (field false (unsigned_digits v) width adjust) idx s).
  { replace (field _ _ width adjust) with (field false (unsigned_digits v) width flags) by (unfold field; by rewrite HL, HZ).
    assert (Hz' : has flags FLAGS_LEFT = false -> has flags FLAGS_ZEROPAD = true -> width <= 32).
    { rewrite HZ. intros _ H. apply Hz. members Ha; done. }
    unfold convert_unsigned, v. rewrite HLL, HC, HS. destruct (has size _); [by apply ntoa_text|]. destruct (has flags FLAGS_LONG); by apply ntoa_text. }
  unfold mbind, M_bind. cbn [va_arg mret M_ret]. by rewrite Hcv.
Qed.

End Unsigned.

(** * Theorems *)

(** C23: What snprintf leaves in a buffer of [count] bytes is the beginning of what the format prints, cut to [count - 1] characters, and the terminator; nothing else of the buffer changes. Its result is the length of the whole text, and fctprintf gives its function the same characters but for the zeros. *)
Theorem vsnprintf_truncates (strings : Z -> option (list Z)) (format va : list Z) (count n : Z) (out b : list Z) :
  _vsnprintf record count strings format va [] = Ok n out -> Z.of_nat (length out) <= 2 ^ 64 ->
  0 <= count <= Z.of_nat (length b) -> count < 2 ^ 64 ->
  snprintf_ count strings format va b = Ok n (truncated count (removelast out) b) /\
  fctprintf append strings format va [] = Ok n (filter (fun c => c <> 0) out) /\ n = s32 (Z.of_nat (length out) - 1).
Proof.
  intros E Hl Hc Hb. apply record_ok in E as (text & -> & -> & E); [|done]. rewrite removelast_last, length_app in *. cbn [length] in *.
  unfold snprintf_, fctprintf. rewrite !E. rewrite buffer_text by lia. split; [done|]. split; [|f_equal; lia].
  unfold mbind, M_bind. rewrite append_chars by lia. rewrite list.filter_app, app_nil_l, u64_small by lia. cbn. by rewrite app_nil_r.
Qed.

(** A format without conversions of floating-point numbers is printed to the end or to a fault: the loops over the format, the arguments and the digits all end. *)
Theorem vsnprintf_ends (strings : Z -> option (list Z)) (format va b : list Z) (count : Z) :
  Forall (fun c => is_float c = false) format -> snprintf_ count strings format va b <> OutOfFuel.
Proof.
  intros Hf. assert (Ho : forall c idx maxlen, ends (fun _ => True) (_out_buffer c idx maxlen)).
  { intros c idx maxlen s. unfold _out_buffer. by repeat destruct (_ <? _). }
  cut (ends (fun _ => True) (snprintf_ count strings format va)); [intros H E; specialize (H b); by rewrite E in H|].
  eapply ends_bind; [apply ends_format; [apply Ho|lia|done]|]. intros i _. eapply ends_bind; [apply Ho|]. intros _ _. by apply ends_ret.
Qed.

(** A number below 2^32 that was printed with %u is read back by the scanner of widths. *)
Theorem print_then_scan (strings : Z -> option (list Z)) (v count : Z) (b : list Z) :
  0 <= v < 2 ^ 32 -> 11 <= count <= Z.of_nat (length b) -> count < 2 ^ 64 ->
  exists n b' rest, snprintf_ count strings [CH "%"; CH "u"; 0] [v] b = Ok n b' /\ _atoi 0 b' b = Ok (v, rest) b.
Proof.
  intros Hv Hc Hb. set (ds := rev (digits 32 v 10 0)).
  assert (Hd : Forall (fun c => _is_digit c = true) ds) by (apply Forall_rev, digits_decimal; lia).
  assert (Hl : (length ds <= 10)%nat).
  { unfold ds. rewrite length_rev. apply digits_short; lia. }
  destruct (digits_number 10 0 ltac:(lia) 32 v ltac:(lia) ltac:(lia)) as (Hn & _).
  exists (s32 (Z.of_nat (length ds))), (truncated count ds b), (0 :: drop (Datatypes.S (length ds)) b). split.
  - rewrite <- (buffer_text count b ds) by lia. apply bind_cong.
    assert (Hs : specifier _out_buffer count strings 0 [CH "u"; 0] [v] b =
      (x ← convert_integer _out_buffer count (CH "u") 0 0 0 (Z.lor 0 0) [v]; mret (x.1, [0], x.2)) b).
    { unfold specifier, mbind, M_bind. cbn -[convert_integer]. unfold mbind, M_bind. by destruct (convert_integer _ _ _ _ _ _ _ _ _) as [[]| | |]. }
    etransitivity; [exact (bind_cong (specifier _out_buffer count strings 0 [CH "u"; 0] [v]) _ _ b Hs)|].
    unfold mbind, M_bind. rewrite convert_unsigned_puts; [|constructor..|lia|lia|lia|lia].
    change (has 0 FLAGS_LONG_LONG) with false. cbn iota. rewrite u32_small by lia.
    change (field false (unsigned_digits (CH "u") 0 0 v) 0 0) with ([] ++ ds). cbn [app].
    unfold mbind, M_bind. by destruct (put_chars _ _ _ _ _).
  - unfold truncated. rewrite (proj2 (Z.eqb_neq _ _)), take_ge by lia.
    rewrite atoi_digits by (done || lia). unfold number in Hn. fold ds in Hn. change (base_of _) with 10 in Hn. rewrite Hn, u32_small by lia. done.
Qed.

(** * What goes wrong *)

(** A format as bytes, with its terminator. *)
Definition bytes_of (s : string) : list Z := map (fun c => Z.of_N (N_of_ascii c)) (String.list_ascii_of_string s) ++ [0].

Definition no_strings : Z -> option (list Z) := fun _ => None.

Definition printed (format : string) (va : list Z) : outcome (list Z) Z := _vsnprintf record 4096 no_strings (bytes_of format) va [].

(** 0.95 lies between two doubles, and ten times the one below is 9.5 after rounding: half a digit is rounded up to 10 tenths without a carry into the whole part, and the decimals fill the array. *)
Example ftoa_carry_lost : printed "%.1f" [0x3FEE666666666666] = Ok 32 (bytes_of "00000000000000000000000000000010").
Proof. vm_compute. reflexivity. Qed.

(** The exponent of zero is that of the smallest doubles. *)
Example etoa_zero_wrong : printed "%e" [0] = Ok 13 (bytes_of "0.000000e-308").
Proof. vm_compute. reflexivity. Qed.

(** With 42 decimals or more the array is full before the precision is down to nine, and the table of powers is read past its end. *)
Example ftoa_precision_overruns : printed "%.42f" [0] = Fault /\ exists n text, printed "%.41f" [0] = Ok n text.
Proof. split; [vm_compute; reflexivity|]. do 2 eexists. vm_compute. reflexivity. Qed.

(** A percent sign at the end of the format makes the loop step over the terminator. *)
Example format_percent_overruns : printed "100%" [] = Fault.
Proof. reflexivity. Qed.

(** In base two only the low 32 digits of a number of 64 bits are printed. *)
Example binary_cut : printed "%llb" [2 ^ 40] = Ok 32 (bytes_of "00000000000000000000000000000000").
Proof. vm_compute. reflexivity. Qed.

(** With [#] the digits that fill the width are taken for zeros and overwritten by the prefix. *)
Example hash_eats_digits : printed "%#2x" [0xff] = Ok 2 (bytes_of "0x").
Proof. vm_compute. reflexivity. Qed.

(** * Witnesses *)

Lemma vsnprintf_truncates_witness :
  let out := bytes_of "result is 0xdeadbeef" in
  _vsnprintf record 10 no_strings (bytes_of "result is 0x%llx") [0xdeadbeef] [] = Ok 20 out /\
  snprintf_ 10 no_strings (bytes_of "result is 0x%llx") [0xdeadbeef] (replicate 12 7) = Ok 20 (truncated 10 (removelast out) (replicate 12 7)).
Proof.
  split; [vm_compute; reflexivity|].
  apply (vsnprintf_truncates no_strings (bytes_of "result is 0x%llx") [0xdeadbeef] 10 20 (bytes_of "result is 0xdeadbeef") (replicate 12 7));
    [vm_compute; reflexivity|vm_compute; discriminate|vm_compute; by split|lia].
Defined.

Lemma vsnprintf_ends_witness : snprintf_ 64 no_strings (bytes_of "%5d|%-5d|%x") [1; 2; 3] (replicate 64 7) <> OutOfFuel.
Proof. apply vsnprintf_ends. vm_compute. repeat constructor. Defined.

Lemma print_then_scan_witness : exists n b' rest,
  snprintf_ 11 no_strings (bytes_of "%u") [4294967295] (replicate 11 0) = Ok n b' /\ _atoi 0 b' (replicate 11 0) = Ok (4294967295, rest) (replicate 11 0).
Proof. apply (print_then_scan no_strings 4294967295 11 (replicate 11 0)); cbn; lia. Defined.
