(* ===== verification/PrintfSpec.v ===== *)
(** What a format means: a specification of external/printf.c on formats that
    are put together from plain text and from conversions of integers,
    characters and strings, and the theorem that the code prints it. *)
From Stdlib Require Import ZArith Lia Ascii String.
From stdpp Require Import base tactics list numbers sets.
From S2P Require Import Prelude Bytes Printf Vsnprintf PrintfProof.

Open Scope Z_scope.

(** * Items of a format *)

Inductive item : Type :=
| Text (l : list Z)
| Unsigned (letter width size adjust slot : Z)
| Signed (letter width size adjust slot : Z)
| Str (width adjust p : Z)
| Chr (width adjust slot : Z)
| Percent.

(** ** What is written in the format *)

Definition flag_text (adjust : Z) : list Z :=
  if adjust =? FLAGS_ZEROPAD then [CH "0"] else if adjust =? FLAGS_LEFT then [CH "-"] else [].

Definition decimal_text (n : Z) : list Z := if n =? 0 then [] else rev (digits 32 n 10 0).

Definition size_text (size : Z) : list Z :=
  if size =? 0 then [] else if size =? FLAGS_LONG then [CH "l"] else [CH "l"; CH "l"].

Definition conversion (adjust width size letter : Z) : list Z :=
  CH "%" :: flag_text adjust ++ decimal_text width ++ size_text size ++ [letter].

Definition written (i : item) : list Z :=
  match i with
  | Text l => l
  | Unsigned letter width size adjust _ | Signed letter width size adjust _ => conversion adjust width size letter
  | Str width adjust _ => conversion adjust width 0 (CH "s")
  | Chr width adjust _ => conversion adjust width 0 (CH "c")
  | Percent => conversion 0 0 0 (CH "%")
  end.

Definition arguments (i : item) : list Z :=
  match i with
  | Unsigned _ _ _ _ slot | Signed _ _ _ _ slot | Chr _ _ slot => [slot]
  | Str _ _ p => [p]
  | _ => []
  end.

(** ** What is printed *)

Definition digit_char (upper : bool) (d : Z) : Z :=
  if d <? 10 then CH "0" + d else (if upper then CH "A" else CH "a") + (d - 10).

(** The numeral of [v]: digits below the base, in their order, and no zero in
    front but for 0 itself. *)
Definition numeral (upper : bool) (base v : Z) (text : list Z) : Prop :=
  exists ds, text = map (digit_char upper) ds /\ Forall (fun d => 0 <= d < base) ds /\
    foldl (fun a d => a * base + d) 0 ds = v /\ ds <> [] /\ (head ds = Some 0 -> ds = [0]).

(** The value of an argument of a size. *)
Definition unsigned_value (size slot : Z) : Z := if has size FLAGS_LONG_LONG then u64 slot else u32 slot.

Definition signed_value (size slot : Z) : Z := if has size FLAGS_LONG_LONG then signed 64 slot else signed 32 slot.

(** The base that a letter asks for: [%u] decimal, [%o] octal, [%x] and [%X] hexadecimal. *)
Definition radix (letter : Z) : Z :=
  if decide (letter = CH "o") then 8 else if decide (letter = CH "x" \/ letter = CH "X") then 16 else 10.

Definition renders (strings : Z -> option (list Z)) (i : item) (text : list Z) : Prop :=
  match i with
  | Text l => text = l
  | Unsigned letter width size adjust slot =>
    exists ds, numeral (letter =? CH "X") (radix letter) (unsigned_value size slot) ds /\ text = field false ds width adjust
  | Signed letter width size adjust slot =>
    exists ds, numeral false 10 (Z.abs (signed_value size slot)) ds /\ text = field (signed_value size slot <? 0) ds width adjust
  | Str width adjust p =>
    exists l rest, strings p = Some (l ++ 0 :: rest) /\ Forall (fun c => c <> 0) l /\ text = field false l width adjust
  | Chr width adjust slot => text = field false [u8 slot] width adjust
  | Percent => text = [CH "%"]
  end.

(** ** The meaning is one text *)

Definition value (base : Z) (ds : list Z) : Z := foldl (fun a d => a * base + d) 0 ds.

Lemma value_app base ds d : value base (ds ++ [d]) = value base ds * base + d.
Proof. unfold value. by rewrite foldl_app. Qed.

Lemma value_positive base ds : 2 <= base -> Forall (fun d => 0 <= d < base) ds -> ds <> [] -> head ds <> Some 0 -> 0 < value base ds.
Proof.
  intros Hb. induction ds as [|d ds IH] using rev_ind; [done|]. intros [Hds Hd]%Forall_app _ Hh. apply Forall_inv in Hd. rewrite value_app.
  destruct ds as [|e ds]; [|pose proof (IH Hds ltac:(done) Hh); nia]. cbn in *. assert (d <> 0) by congruence. unfold value. cbn. lia.
Qed.

Lemma last_digit base a1 a2 d1 d2 : 0 <= d1 < base -> 0 <= d2 < base -> a1 * base + d1 = a2 * base + d2 -> a1 = a2 /\ d1 = d2.
Proof.
  intros H1 H2 E. assert (Ea : (a1 * base + d1) / base = (a2 * base + d2) / base) by by rewrite E.
  rewrite !Z.div_add_l, (Z.div_small d1), (Z.div_small d2) in Ea by lia. assert (a1 = a2) as -> by lia. lia.
Qed.

Lemma digits_unique base : 2 <= base -> forall ds1 ds2, Forall (fun d => 0 <= d < base) ds1 -> Forall (fun d => 0 <= d < base) ds2 ->
  ds1 <> [] -> ds2 <> [] -> (head ds1 = Some 0 -> ds1 = [0]) -> (head ds2 = Some 0 -> ds2 = [0]) -> value base ds1 = value base ds2 -> ds1 = ds2.
Proof.
  intros Hb. induction ds1 as [|d1 ds1 IH] using rev_ind; [done|]. intros ds2. destruct ds2 as [|d2 ds2 _] using rev_ind; [done|].
  intros [F1 D1]%Forall_app [F2 D2]%Forall_app _ _ H1 H2 E. apply Forall_inv in D1, D2. rewrite !value_app in E.
  destruct (last_digit _ _ _ _ _ D1 D2 E) as [Ev ->]. f_equal.
  assert (Hl : forall ds, (head (ds ++ [d2]) = Some 0 -> ds ++ [d2] = [0]) -> ds <> [] -> head ds <> Some 0).
  { intros ds H Hn H0. destruct ds as [|e ds]; [done|]. specialize (H H0). by destruct ds. }
  destruct ds1 as [|e1 ds1], ds2 as [|e2 ds2]; [done|..].
  - pose proof (value_positive base (e2 :: ds2) Hb F2 ltac:(done) (Hl _ H2 ltac:(done))). unfold value in *. cbn in *. lia.
  - pose proof (value_positive base (e1 :: ds1) Hb F1 ltac:(done) (Hl _ H1 ltac:(done))). unfold value in *. cbn in *. lia.
  - apply IH; [done..| | |done]; intros H0; exfalso; [by apply (Hl _ H1)|by apply (Hl _ H2)].
Qed.

Lemma numeral_unique upper base v t1 t2 : 2 <= base -> numeral upper base v t1 -> numeral upper base v t2 -> t1 = t2.
Proof.
  intros Hb (ds1 & -> & F1 & E1 & N1 & H1) (ds2 & -> & F2 & E2 & N2 & H2). f_equal. apply (digits_unique base); try done. unfold value. congruence.
Qed.

Lemma before_nul_unique (l1 l2 : list Z) r1 r2 : Forall (fun c => c <> 0) l1 -> Forall (fun c => c <> 0) l2 -> l1 ++ 0 :: r1 = l2 ++ 0 :: r2 -> l1 = l2.
Proof.
  intros H1. revert l2. induction H1 as [|c l1 Hc _ IH]; intros l2 H2 E.
  - by destruct H2 as [|d l2 Hd _]; [|injection E as <- _].
  - destruct H2 as [|d l2 Hd H2]; [by injection E as -> _|]. injection E as -> E. f_equal. by apply IH.
Qed.

Lemma base_positive c : 2 <= radix c.
Proof. unfold radix. repeat case_decide; lia. Qed.

Lemma base_radix c : c ∈ [CH "u"; CH "x"; CH "X"; CH "o"] -> base_of c = radix c.
Proof. intros Hc. repeat (apply elem_of_cons in Hc as [->|Hc]; [reflexivity|]). by apply not_elem_of_nil in Hc. Qed.

Lemma renders_unique strings i t1 t2 : renders strings i t1 -> renders strings i t2 -> t1 = t2.
Proof.
  destruct i; cbn [renders].
  - congruence.
  - intros (d1 & N1 & ->) (d2 & N2 & ->). by rewrite (numeral_unique _ _ _ _ _ (base_positive _) N1 N2).
  - intros (d1 & N1 & ->) (d2 & N2 & ->). by rewrite (numeral_unique false 10 _ _ _ ltac:(lia) N1 N2).
  - intros (l1 & r1 & E1 & F1 & ->) (l2 & r2 & E2 & F2 & ->). rewrite E1 in E2. injection E2 as E2. by rewrite (before_nul_unique _ _ _ _ F1 F2 E2).
  - congruence.
  - congruence.
Qed.

Lemma texts_unique strings items : forall texts1 texts2, Forall2 (renders strings) items texts1 -> Forall2 (renders strings) items texts2 -> texts1 = texts2.
Proof.
  induction items as [|i items IH]; intros t1 t2 H1 H2; [by apply Forall2_nil_inv_l in H1 as ->; apply Forall2_nil_inv_l in H2 as ->|].
  apply Forall2_cons_inv_l in H1 as (x1 & t1' & R1 & H1 & ->). apply Forall2_cons_inv_l in H2 as (x2 & t2' & R2 & H2 & ->).
  f_equal; [by apply (renders_unique strings i)|by apply IH].
Qed.

(** ** Which items there are *)

Definition sizes : list Z := [0; FLAGS_LONG; Z.lor FLAGS_LONG FLAGS_LONG_LONG].

Definition number_ok (width size adjust : Z) : Prop :=
  size ∈ sizes /\ adjust ∈ [0; FLAGS_ZEROPAD; FLAGS_LEFT] /\ 0 <= width < 2 ^ 32 /\ (adjust = FLAGS_ZEROPAD -> width <= 32).

Definition item_ok (strings : Z -> option (list Z)) (i : item) : Prop :=
  match i with
  | Text l => Forall (fun c => c <> 0 /\ c <> CH "%") l /\ len l < 2 ^ 33
  | Unsigned letter width size adjust _ => letter ∈ [CH "u"; CH "x"; CH "X"; CH "o"] /\ number_ok width size adjust
  | Signed letter width size adjust _ => letter ∈ [CH "d"; CH "i"] /\ number_ok width size adjust
  | Str width adjust p => adjust ∈ [0; FLAGS_LEFT] /\ 0 <= width < 2 ^ 32 /\
      exists l rest, strings p = Some (l ++ 0 :: rest) /\ Forall (fun c => c <> 0) l /\ len l < 2 ^ 32
  | Chr width adjust _ => adjust ∈ [0; FLAGS_LEFT] /\ 0 <= width < 2 ^ 32
  | Percent => True
  end.

(** * Reading a conversion *)

(** A letter that ends a conversion. *)
Definition is_letter (c : Z) : Prop := flag_of c = None /\ _is_digit c = false /\ c ∉ [CH "*"; CH "."; CH "l"; CH "h"; CH "t"; CH "j"; CH "z"].

Lemma decimal_ok n : 0 <= n < 2 ^ 32 ->
  Forall (fun c => _is_digit c = true) (decimal_text n) /\ foldl (fun a c => a * 10 + digit_value c) 0 (decimal_text n) = n /\
  head (decimal_text n) <> Some (CH "0").
Proof.
  intros Hn. unfold decimal_text. destruct (Z.eqb_spec n 0) as [->|H0]; [done|].
  destruct (digits_number 10 0 ltac:(lia) 32 n ltac:(lia) ltac:(lia)) as (H1 & _ & H3). split; [|by split; [exact H1|apply H3]].
  apply Forall_rev, digits_decimal. lia.
Qed.

(** The first character behind the flags. *)
Lemma flag_of_digit c : _is_digit c = true -> c <> CH "0" -> flag_of c = None.
Proof. unfold _is_digit, flag_of. intros H Hc. zbool. rewrite !(proj2 (Z.eqb_neq c _)) by lia. done. Qed.

(** Computes a closed term of the goal. *)
Ltac eval_of f := match goal with |- context [f ?x] => let v := eval vm_compute in (f x) in lazymatch v with Some _ => change (f x) with v | [] => change (f x) with v | _ :: _ => change (f x) with v end end.

Definition stops (rest : list Z) : Prop := exists c l, rest = c :: l /\ flag_of c = None.

Lemma flags_read {S} adjust rest (s : S) : adjust ∈ [0; FLAGS_ZEROPAD; FLAGS_LEFT] -> stops rest ->
  parse_flags 0 (flag_text adjust ++ rest) s = Ok (adjust, rest) s.
Proof. intros Ha (c & l & -> & Hc). members Ha; eval_of flag_text; cbn [app parse_flags]; try eval_of flag_of; rewrite Hc; done.
Qed.

Definition ends_number (rest : list Z) : Prop := exists c l, rest = c :: l /\ _is_digit c = false /\ c <> CH "*" /\ c <> CH "." .

Lemma width_read {S} flags width rest va (s : S) : 0 <= width < 2 ^ 32 -> ends_number rest ->
  parse_width flags (decimal_text width ++ rest) va s = Ok (flags, width, rest, va) s.
Proof.
  intros Hw (c & l & -> & Hd & Hs & _). destruct (decimal_ok width Hw) as (H1 & H2 & _).
  destruct (decimal_text width) as [|d ds] eqn:E.
  - cbn. rewrite Hd, (proj2 (Z.eqb_neq _ _) Hs). unfold decimal_text in E. by rewrite <- H2.
  - cbn [app parse_width]. rewrite (Forall_inv H1).
    assert (Ha := atoi_digits (d :: ds) c l s H1 Hd 0 ltac:(lia)). cbn [app] in Ha. rewrite (bind_Ok _ _ _ _ _ Ha), H2, u32_small by lia. done.
Qed.

Lemma size_read {S} flags size c rest (s : S) : size ∈ sizes -> is_letter c ->
  parse_length flags (size_text size ++ c :: rest) s = Ok (Z.lor flags size, c :: rest) s.
Proof.
  intros Hs (_ & _ & Hc). assert (Hn : forall x, x ∈ [CH "l"; CH "h"; CH "t"; CH "j"; CH "z"] -> (c =? x) = false).
  { intros x Hx. apply Z.eqb_neq. intros ->. apply Hc. set_solver. }
  members Hs; eval_of size_text; cbn [app]; unfold parse_length, double_flag.
  - rewrite !Hn by set_solver. cbn [orb]. by rewrite Z.lor_0_r.
  - rewrite Z.eqb_refl, Hn by set_solver. done.
  - rewrite !Z.eqb_refl. by rewrite Z.lor_assoc.
Qed.

Lemma precision_read {S} flags rest va (s : S) : ends_number rest -> parse_precision flags rest va s = Ok (flags, 0, rest, va) s.
Proof. intros (c & l & -> & _ & _ & Hp). cbn [parse_precision]. by rewrite (proj2 (Z.eqb_neq _ _) Hp). Qed.

Lemma size_ends_number size c rest : size ∈ sizes -> is_letter c -> ends_number (size_text size ++ c :: rest).
Proof.
  intros Hs (_ & Hd & Hc). assert (ends_number (c :: rest)) by (exists c, rest; repeat split; [done|..]; intros ->; apply Hc; set_solver).
  members Hs; eval_of size_text; cbn [app]; [done|..]; by repeat eexists.
Qed.

Lemma size_stops size c rest : size ∈ sizes -> is_letter c -> stops (size_text size ++ c :: rest).
Proof. intros Hs (Hf & _). members Hs; eval_of size_text; cbn [app]; by repeat eexists. Qed.

Lemma width_stops width rest : 0 <= width < 2 ^ 32 -> stops rest -> stops (decimal_text width ++ rest).
Proof.
  intros Hw Hr. destruct (decimal_ok width Hw) as (H1 & _ & H3). destruct (decimal_text width) as [|d ds]; [done|].
  exists d, (ds ++ rest). split; [done|]. apply flag_of_digit; [exact (Forall_inv H1)|]. intros ->. by apply H3.
Qed.

(** What is behind the percent sign of a conversion is read as it was meant. *)
Lemma specifier_read {S} (out : out_fct_type S) maxlen strings idx adjust width size c rest va s :
  adjust ∈ [0; FLAGS_ZEROPAD; FLAGS_LEFT] -> 0 <= width < 2 ^ 32 -> size ∈ sizes -> is_letter c ->
  specifier out maxlen strings idx (tail (conversion adjust width size c) ++ rest) va s =
    ('(idx, va) ← convert out maxlen strings c idx width 0 (Z.lor size adjust) va; mret (idx, rest, va)) s.
Proof.
  intros Ha Hw Hs Hc. unfold conversion. cbn [tail]. rewrite <- !app_assoc. cbn [app].
  pose proof (size_ends_number size c rest Hs Hc) as He. pose proof (size_stops size c rest Hs Hc) as Hst.
  unfold specifier. rewrite (bind_Ok _ _ _ _ _ (flags_read adjust _ s Ha (width_stops _ _ Hw Hst))).
  rewrite (bind_Ok _ _ _ _ _ (width_read adjust width _ va s Hw He)), (bind_Ok _ _ _ _ _ (precision_read adjust _ va s He)).
  rewrite (bind_Ok _ _ _ _ _ (size_read adjust size c rest s Hs Hc)). by rewrite Z.lor_comm.
Qed.

(** * Printing a conversion *)

(** [m] prints [text] from [idx] on and gives what is left of the arguments. *)
Definition prints {S} (out : out_fct_type S) (maxlen : Z) (text : list Z) (idx : Z) (va : list Z) (m : M S (Z * list Z)) : Prop :=
  forall s, m s = (idx ← put_chars out maxlen text idx; mret (idx, va)) s.

(** ** Numbers *)

Lemma digits_numeral base flags : 2 <= base <= 16 -> forall n v, (0 < n)%nat -> 0 <= v < base ^ Z.of_nat n ->
  numeral (has flags FLAGS_UPPERCASE) base v (rev (digits n v base flags)).
Proof.
  intros Hb. induction n as [|n IH]; intros v Hn Hv; [lia|]. cbn [digits rev].
  assert (Hm : 0 <= v mod base < base) by (apply Z.mod_pos_bound; lia). pose proof (Z.div_mod v base ltac:(lia)) as Hd.
  assert (Ec : (if v mod base <? 10 then CH "0" + v mod base else (if has flags FLAGS_UPPERCASE then CH "A" else CH "a") + v mod base - 10) =
    digit_char (has flags FLAGS_UPPERCASE) (v mod base)) by (unfold digit_char; destruct (_ <? _); lia).
  rewrite Ec. destruct (Z.eqb_spec (v / base) 0) as [E|E].
  - exists [v mod base]. repeat split; [by constructor|cbn; lia|done|]. cbn. by intros [= ->].
  - assert (Hn' : (0 < n)%nat).
    { destruct n; [|lia]. rewrite Z.pow_1_r in Hv. rewrite Z.div_small in E by lia. done. }
    destruct (IH (v / base) Hn') as (ds & -> & H1 & H2 & H3 & H4).
    { split; [apply Z.div_pos; lia|]. apply Z.div_lt_upper_bound; [lia|]. rewrite Nat2Z.inj_succ, Z.pow_succ_r in Hv by lia. lia. }
    exists (ds ++ [v mod base]). rewrite map_app. repeat split; [by apply Forall_app_2; [|constructor]|rewrite foldl_app, H2; cbn; lia|by intros [_ ?]%app_eq_nil|].
    intros H0. destruct ds as [|d ds]; [done|]. specialize (H4 H0) as [= -> ->]. cbn in H2. lia.
Qed.

Lemma unsigned_prints letter width size adjust slot : letter ∈ [CH "u"; CH "x"; CH "X"; CH "o"] -> number_ok width size adjust ->
  exists ds, numeral (letter =? CH "X") (radix letter) (unsigned_value size slot) ds /\ (length ds <= 32)%nat /\
    forall S (out : out_fct_type S) maxlen idx va, 0 <= idx -> idx + 2 ^ 33 < 2 ^ 64 ->
    prints out maxlen (field false ds width adjust) idx va (convert_integer out maxlen letter idx width 0 (Z.lor size adjust) (slot :: va)).
Proof.
  intros Hc (Hs & Ha & Hw & Hz). exists (unsigned_digits letter size adjust (unsigned_value size slot)).
  assert (Hs' : size ∈ [0; FLAGS_LONG; FLAGS_LONG_LONG; Z.lor FLAGS_LONG FLAGS_LONG_LONG]) by (unfold sizes in Hs; set_solver). repeat split.
  - replace (letter =? CH "X") with (has (integer_flags letter (Z.lor size adjust)) FLAGS_UPPERCASE) by (members Hc; members Hs; members Ha; done).
    assert (Hv : 0 <= unsigned_value size slot < 2 ^ 64).
    { unfold unsigned_value. destruct (has _ _); [apply u64_bound|pose proof (u32_bound slot); lia]. }
    rewrite <- (base_radix letter Hc). pose proof (base_of_bounds letter Hc). apply digits_numeral; [lia..|]. split; [lia|]. eapply Z.lt_le_trans; [apply Hv|].
    transitivity (8 ^ Z.of_nat 32); [done|]. apply Z.pow_le_mono_l. lia.
  - unfold unsigned_digits. rewrite length_rev. apply digits_length.
  - intros S out maxlen idx va Hi Hb s. by apply convert_unsigned_puts.
Qed.

Lemma signed_bound n z : 0 < n -> - 2 ^ (n - 1) <= signed n z < 2 ^ (n - 1).
Proof.
  intros Hn. unfold signed. pose proof (Z.mod_pos_bound (z + 2 ^ (n - 1)) (2 ^ n) ltac:(lia)).
  replace (2 ^ n) with (2 * 2 ^ (n - 1)) in *; [lia|]. rewrite <- Z.pow_succ_r by lia. f_equal. lia.
Qed.

Lemma magnitude_abs v : magnitude v = Z.abs v.
Proof. unfold magnitude. destruct (Z.ltb_spec 0 v); lia. Qed.

Lemma signed_flags letter size adjust (flags := integer_flags letter (Z.lor size adjust)) :
  letter ∈ [CH "d"; CH "i"] -> size ∈ sizes -> adjust ∈ [0; FLAGS_ZEROPAD; FLAGS_LEFT] ->
  plain flags /\ is_signed letter = true /\ base_of letter = 10 /\ has flags FLAGS_UPPERCASE = false /\
  has flags FLAGS_LEFT = has adjust FLAGS_LEFT /\ has flags FLAGS_ZEROPAD = has adjust FLAGS_ZEROPAD /\
  has flags FLAGS_LONG_LONG = has size FLAGS_LONG_LONG /\ has flags FLAGS_CHAR = false /\ has flags FLAGS_SHORT = false.
Proof. intros Hc Hs Ha. unfold flags. members Hc; members Hs; members Ha; by repeat split. Qed.

Lemma zeropad_narrow adjust width : adjust ∈ [0; FLAGS_ZEROPAD; FLAGS_LEFT] -> (adjust = FLAGS_ZEROPAD -> width <= 32) ->
  has adjust FLAGS_ZEROPAD = true -> width <= 32.
Proof. intros Ha Hz H. apply Hz. members Ha; done. Qed.

Lemma signed_prints letter width size adjust slot : letter ∈ [CH "d"; CH "i"] -> number_ok width size adjust ->
  let v := signed_value size slot in
  exists ds, numeral false 10 (Z.abs v) ds /\ (length ds <= 32)%nat /\
    forall S (out : out_fct_type S) maxlen idx va, 0 <= idx -> idx + 2 ^ 33 < 2 ^ 64 ->
    prints out maxlen (field (v <? 0) ds width adjust) idx va (convert_integer out maxlen letter idx width 0 (Z.lor size adjust) (slot :: va)).
Proof.
  intros Hc (Hs & Ha & Hw & Hz) v. destruct (signed_flags letter size adjust Hc Hs Ha) as (Hp & Hsg & H10 & HU & HL & HZP & HLL & HC & HS).
  set (flags := integer_flags letter (Z.lor size adjust)) in *. exists (rev (digits 32 (Z.abs v) 10 flags)).
  assert (Hv : - 2 ^ 63 <= v < 2 ^ 63).
  { unfold v, signed_value. pose proof (signed_bound 64 slot ltac:(lia)). pose proof (signed_bound 32 slot ltac:(lia)).
    change (64 - 1) with 63 in *. change (32 - 1) with 31 in *. destruct (has size FLAGS_LONG_LONG); lia. }
  split; [rewrite <- HU; apply digits_numeral; [lia..|]; change (10 ^ Z.of_nat 32) with (10 ^ 32); lia|].
  split; [rewrite length_rev; apply digits_length|]. intros S out maxlen idx va Hi Hb.
  assert (Ht : forall s, _ntoa_long_long out maxlen idx (Z.abs v) (v <? 0) 10 0 width flags s =
    put_chars out maxlen (field (v <? 0) (rev (digits 32 (Z.abs v) 10 flags)) width adjust) idx s).
  { intros s. rewrite ntoa_text by (first [done | intros _; rewrite HZP; by apply zeropad_narrow | intros _; apply (Nat.le_lt_trans _ 20); [apply digits_short|]; lia]).
    unfold field. by rewrite HL, HZP. }
  intros s. unfold convert_integer. fold flags. rewrite Hsg, H10.
  assert (Hcv : convert_signed out maxlen idx slot 10 0 width flags s =
    put_chars out maxlen (field (v <? 0) (rev (digits 32 (Z.abs v) 10 flags)) width adjust) idx s).
  { rewrite <- Ht. unfold convert_signed, v, signed_value in *. rewrite HLL, HC, HS. destruct (has size FLAGS_LONG_LONG).
    - rewrite magnitude_abs, u64_small by lia. done.
    - pose proof (signed_bound 32 slot ltac:(lia)). change (32 - 1) with 31 in *. rewrite magnitude_abs, u32_small by lia. by destruct (has flags FLAGS_LONG). }
  unfold mbind, M_bind. cbn [va_arg mret M_ret]. by rewrite Hcv.
Qed.

(** ** Characters and strings *)

Lemma field_pads ds width adjust : adjust ∈ [0; FLAGS_LEFT] ->
  let fill := replicate (Z.to_nat (width - len ds)) (CH " ") in
  field false ds width adjust = (if has adjust FLAGS_LEFT then [] else fill) ++ ds ++ (if has adjust FLAGS_LEFT then fill else []).
Proof.
  intros Ha fill. unfold field. cbn [app]. replace (Z.to_nat width - length ds)%nat with (Z.to_nat (width - len ds)) by lia. fold fill.
  members Ha; cbn; rewrite ?app_nil_r; done.
Qed.

(** Padding around a text that [m] prints. *)
Lemma pads_around {S} (out : out_fct_type S) maxlen when ds l width idx (m : Z -> M S Z) s :
  0 <= idx -> 0 <= width < 2 ^ 32 -> len ds < 2 ^ 32 -> l = len ds -> idx + 2 ^ 34 < 2 ^ 64 ->
  (forall i s, 0 <= i -> i + 2 ^ 32 < 2 ^ 64 -> m i s = put_chars out maxlen ds i s) ->
  let fill := replicate (Z.to_nat (width - l)) (CH " ") in
  (idx ← pad out maxlen (negb when) l width idx; idx ← m idx; pad out maxlen when l width idx) s =
    put_chars out maxlen ((if when then [] else fill) ++ ds ++ (if when then fill else [])) idx s.
Proof.
  intros Hi Hw Hd -> Hb Hm fill. unfold pad, spaces. fold fill. assert (Hf : len fill < 2 ^ 32) by (unfold fill; rewrite length_replicate; lia).
  destruct when; cbn [negb app].
  - rewrite put_chars_app by lia. unfold mbind, M_bind, mret, M_ret. rewrite Hm by lia.
    destruct (put_chars out maxlen ds idx s) as [i s'| | |] eqn:Ei; try done. by apply put_chars_idx in Ei as ->; [|lia].
  - rewrite app_nil_r, put_chars_app by lia. unfold mbind, M_bind, mret, M_ret.
    destruct (put_chars out maxlen fill idx s) as [i s'| | |] eqn:Ei; try done. apply put_chars_idx in Ei as ->; [|lia].
    rewrite u64_small by lia. rewrite Hm by lia. by destruct (put_chars _ _ _ _ _).
Qed.

Lemma put_string_text {S} (out : out_fct_type S) maxlen rest l : Forall (fun c => c <> 0) l -> forall precision idx s,
  put_string out maxlen (l ++ 0 :: rest) false precision idx s = put_chars out maxlen l idx s.
Proof.
  induction 1 as [|c l Hc _ IH]; intros precision idx s; [done|]. cbn [app put_string put_chars].
  rewrite (proj2 (Z.eqb_neq _ _) Hc). apply bind_ext. intros i s'. apply IH.
Qed.

Lemma strnlen_text {S} rest l : Forall (fun c => c <> 0) l -> forall maxsize (s : S), len l < 2 ^ 32 -> len l <= maxsize ->
  _strnlen_s (l ++ 0 :: rest) maxsize s = Ok (len l) s.
Proof.
  induction 1 as [|c l Hc _ IH]; intros maxsize s Hl Hm; [done|]. cbn [app _strnlen_s length] in *.
  rewrite (proj2 (Z.eqb_neq _ _) Hc), (proj2 (Z.eqb_neq maxsize 0)) by lia. cbn [orb].
  rewrite (bind_Ok _ _ _ _ _ (IH (maxsize - 1) s ltac:(lia) ltac:(lia))), u32_small by lia. unfold mret, M_ret. f_equal. lia.
Qed.

Lemma string_prints {S} (out : out_fct_type S) maxlen strings width adjust p l rest idx va :
  adjust ∈ [0; FLAGS_LEFT] -> 0 <= width < 2 ^ 32 -> strings p = Some (l ++ 0 :: rest) -> Forall (fun c => c <> 0) l -> len l < 2 ^ 32 ->
  0 <= idx -> idx + 2 ^ 34 < 2 ^ 64 ->
  prints out maxlen (field false l width adjust) idx va (convert_string out maxlen strings idx width 0 adjust (p :: va)).
Proof.
  intros Ha Hw Hp Hl Hn Hi Hb s. rewrite field_pads by done.
  assert (HP : has adjust FLAGS_PRECISION = false) by (members Ha; done).
  assert (E := pads_around out maxlen (has adjust FLAGS_LEFT) l (len l) width idx (put_string out maxlen (l ++ 0 :: rest) false 0) s
    Hi Hw Hn eq_refl Hb (fun i s _ _ => put_string_text out maxlen rest l Hl 0 i s)).
  rewrite <- (bind_cong _ _ _ _ E). unfold convert_string. rewrite HP. cbn [Z.eqb negb].
  unfold mbind at 1, M_bind at 1. cbn [va_arg mret M_ret]. unfold deref. unfold mbind at 1, M_bind at 1. rewrite Hp.
  rewrite (bind_Ok _ _ _ _ _ (strnlen_text rest l Hl (2 ^ 64 - 1) s Hn ltac:(lia))). rewrite bind_assoc.
  apply bind_ext. intros i s'. by rewrite bind_assoc.
Qed.

Lemma char_prints {S} (out : out_fct_type S) maxlen width adjust slot idx va :
  adjust ∈ [0; FLAGS_LEFT] -> 0 <= width < 2 ^ 32 -> 0 <= idx -> idx + 2 ^ 34 < 2 ^ 64 ->
  prints out maxlen (field false [u8 slot] width adjust) idx va (convert_char out maxlen idx width adjust (slot :: va)).
Proof.
  intros Ha Hw Hi Hb s. rewrite field_pads by done.
  assert (E := pads_around out maxlen (has adjust FLAGS_LEFT) [u8 slot] 1 width idx (put_char out maxlen (u8 slot)) s Hi Hw ltac:(cbn; lia) eq_refl Hb).
  rewrite <- (bind_cong _ _ _ _ (E ltac:(intros i s' _ _; cbn; unfold mbind, M_bind; by destruct (put_char _ _ _ _ _)))).
  unfold convert_char. rewrite bind_assoc. apply bind_ext. intros i s'. rewrite bind_assoc. by unfold mbind at 1, M_bind at 1.
Qed.

(** * Printing a format *)

Lemma field_length negative ds width adjust : len ds < 2 ^ 32 -> 0 <= width < 2 ^ 32 -> len (field negative ds width adjust) <= 2 ^ 33.
Proof.
  intros Hd Hw. unfold field. set (minus := if negative then _ else _). assert (len minus <= 1) by (destruct negative; cbn; lia).
  destruct (has _ _); [|destruct (has _ _)]; rewrite !length_app, length_replicate; lia.
Qed.

Lemma letters_end c : c ∈ [CH "u"; CH "x"; CH "X"; CH "o"; CH "d"; CH "i"; CH "s"; CH "c"; CH "%"] -> is_letter c.
Proof. intros Hc. split; [|split]; [members Hc; done..|]. intros H. members Hc; repeat (apply elem_of_cons in H as [H|H]; [done|]); by apply elem_of_nil in H. Qed.

(** What comes behind the percent sign of a conversion prints its text. *)
Definition specifies (strings : Z -> option (list Z)) (i : item) (text : list Z) : Prop :=
  forall S (out : out_fct_type S) maxlen idx rest va s, 0 <= idx -> idx + 2 ^ 34 < 2 ^ 64 ->
  specifier out maxlen strings idx (tail (written i) ++ rest) (arguments i ++ va) s =
    (idx ← put_chars out maxlen text idx; mret (idx, rest, va)) s.

Lemma specifies_conversion strings i text adjust width size c :
  written i = conversion adjust width size c -> adjust ∈ [0; FLAGS_ZEROPAD; FLAGS_LEFT] -> 0 <= width < 2 ^ 32 -> size ∈ sizes -> is_letter c ->
  (forall S (out : out_fct_type S) maxlen idx va, 0 <= idx -> idx + 2 ^ 34 < 2 ^ 64 ->
    prints out maxlen text idx va (convert out maxlen strings c idx width 0 (Z.lor size adjust) (arguments i ++ va))) ->
  specifies strings i text.
Proof.
  intros Ew Ha Hw Hs Hc Hp S out maxlen idx rest va s Hi Hb. rewrite Ew, specifier_read by done.
  rewrite (bind_cong _ _ _ _ (Hp S out maxlen idx va Hi Hb s)). by rewrite bind_assoc.
Qed.

Lemma zero_or_left adjust : adjust ∈ [0; FLAGS_LEFT] -> adjust ∈ [0; FLAGS_ZEROPAD; FLAGS_LEFT].
Proof. set_solver. Qed.

(** Every conversion has a text. *)
Lemma item_specifies strings i : item_ok strings i -> (forall l, i <> Text l) ->
  exists text, renders strings i text /\ len text <= 2 ^ 33 /\ specifies strings i text.
Proof.
  destruct i as [l|c w size a slot|c w size a slot|w a p|w a slot|]; cbn [item_ok]; intros Hok Ht.
  - by destruct (Ht l).
  - destruct Hok as (Hc & Hn). destruct (unsigned_prints c w size a slot Hc Hn) as (ds & H1 & H2 & H3). destruct Hn as (Hs & Ha & Hw & _).
    exists (field false ds w a). split; [by exists ds|]. split; [apply field_length; lia|].
    apply (specifies_conversion _ _ _ a w size c); [done..|apply letters_end; set_solver|]. intros S out maxlen idx va Hi Hb s.
    rewrite <- H3 by lia. members Hc; done.
  - destruct Hok as (Hc & Hn). destruct (signed_prints c w size a slot Hc Hn) as (ds & H1 & H2 & H3). destruct Hn as (Hs & Ha & Hw & _).
    exists (field (signed_value size slot <? 0) ds w a). split; [by exists ds|]. split; [apply field_length; lia|].
    apply (specifies_conversion _ _ _ a w size c); [done..|apply letters_end; set_solver|]. intros S out maxlen idx va Hi Hb s.
    rewrite <- H3 by lia. members Hc; done.
  - destruct Hok as (Ha & Hw & l & rest & Hp & Hl & Hn). exists (field false l w a). split; [by exists l, rest|]. split; [by apply field_length|].
    apply (specifies_conversion _ _ _ a w 0 (CH "s")); [done|by apply zero_or_left|done|set_solver|by apply letters_end; set_solver|].
    intros S out maxlen idx va Hi Hb. by apply (string_prints out maxlen strings w a p l rest).
  - destruct Hok as (Ha & Hw). exists (field false [u8 slot] w a). split; [done|]. split; [by apply field_length|].
    apply (specifies_conversion _ _ _ a w 0 (CH "c")); [done|by apply zero_or_left|done|set_solver|by apply letters_end; set_solver|].
    intros S out maxlen idx va Hi Hb. by apply char_prints.
  - exists [CH "%"]. split; [done|]. split; [cbn; lia|].
    apply (specifies_conversion _ _ _ 0 0 0 (CH "%")); [done|set_solver|lia|set_solver|by apply letters_end; set_solver|]. intros S out maxlen idx va Hi Hb s. cbn.
    unfold mbind, M_bind. by destruct (put_char _ _ _ _ _).
Qed.

Lemma written_conversion i : (forall l, i <> Text l) -> written i = CH "%" :: tail (written i).
Proof. intros Ht. destruct i; [by destruct (Ht l)|done..]. Qed.

Section Format.
Context (strings : Z -> option (list Z)) {S : Type} (out : out_fct_type S) (maxlen : Z).

Lemma plain_prints l : Forall (fun c => c <> 0 /\ c <> CH "%") l -> forall n idx rest va s, (length l <= n)%nat ->
  format_loop out maxlen strings n idx (l ++ rest) va s =
    (idx ← put_chars out maxlen l idx; format_loop out maxlen strings (n - length l) idx rest va) s.
Proof.
  induction 1 as [|c l [H0 Hp] _ IH]; intros n idx rest va s Hn; [cbn; by rewrite Nat.sub_0_r|].
  destruct n as [|n]; [cbn in Hn; lia|]. cbn [app format_loop put_chars length Nat.sub].
  rewrite (proj2 (Z.eqb_neq _ _) H0), (proj2 (Z.eqb_neq _ _) Hp), bind_assoc. apply bind_ext. intros i s'. apply IH. cbn in Hn. lia.
Qed.

Lemma conversion_prints i text n idx rest va s : (forall l, i <> Text l) -> specifies strings i text -> 0 <= idx -> idx + 2 ^ 34 < 2 ^ 64 ->
  format_loop out maxlen strings (Datatypes.S n) idx (written i ++ rest) (arguments i ++ va) s =
    (idx ← put_chars out maxlen text idx; format_loop out maxlen strings n idx rest va) s.
Proof.
  intros Ht Hi H0 Hb. rewrite (written_conversion i Ht). cbn [app format_loop Z.eqb Pos.eqb negb].
  rewrite (bind_cong _ _ _ _ (Hi S out maxlen idx rest va s H0 Hb)), bind_assoc. by apply bind_ext.
Qed.

End Format.

Definition format_of (items : list item) : list Z := concat (map written items).

Definition arguments_of (items : list item) : list Z := concat (map arguments items).

Lemma text_or_conversion i : (exists l, i = Text l) \/ forall l, i <> Text l.
Proof. destruct i; [left; by eexists|right..]; done. Qed.

Lemma items_print strings items : Forall (item_ok strings) items ->
  exists texts, Forall2 (renders strings) items texts /\ len (concat texts) <= 2 ^ 33 * len items /\
    forall S (out : out_fct_type S) maxlen n idx rest va s, (length (format_of items) < n)%nat -> 0 <= idx -> idx + 2 ^ 33 * (len items + 2) < 2 ^ 64 ->
    format_loop out maxlen strings n idx (format_of items ++ 0 :: rest) (arguments_of items ++ va) s = put_chars out maxlen (concat texts) idx s.
Proof.
  induction 1 as [|i items Hi _ (texts & H1 & H2 & H3)].
  { exists []. split; [done|]. split; [done|]. intros S out maxlen n idx rest va s Hn _ _. by destruct n as [|n]; [cbn in Hn; lia|]. }
  assert (Hi' : exists text, renders strings i text /\ len text <= 2 ^ 33 /\ forall S (out : out_fct_type S) maxlen n idx rest va s,
    (length (written i) <= n)%nat -> 0 <= idx -> idx + 2 ^ 34 < 2 ^ 64 ->
    exists m, (n - length (written i) <= m)%nat /\ format_loop out maxlen strings n idx (written i ++ rest) (arguments i ++ va) s =
      (idx ← put_chars out maxlen text idx; format_loop out maxlen strings m idx rest va) s).
  { destruct (text_or_conversion i) as [[l ->]|Ht].
    - destruct Hi as (Hl & Hn). exists l. split; [done|]. split; [lia|]. intros S out maxlen n idx rest va s Hn' _ _.
      exists (n - length l)%nat. split; [done|]. by apply plain_prints.
    - destruct (item_specifies strings i Hi Ht) as (text & Hr & Hl & Hs). exists text. split; [done|]. split; [done|].
      intros S out maxlen n idx rest va s Hn H0 Hb. rewrite (written_conversion i Ht) in Hn. cbn [length] in Hn. destruct n as [|n]; [lia|].
      exists n. split; [rewrite (written_conversion i Ht); cbn [length]; lia|]. by apply conversion_prints. }
  destruct Hi' as (text & Hr & Hl & Hs). exists (text :: texts). split; [by constructor|]. split; [cbn [concat length]; rewrite length_app; lia|].
  intros S out maxlen n idx rest va s Hn H0 Hb. unfold format_of, arguments_of in *. cbn [map concat length] in *. rewrite <- !app_assoc. rewrite length_app in Hn.
  destruct (Hs S out maxlen n idx (concat (map written items) ++ 0 :: rest) (concat (map arguments items) ++ va) s ltac:(lia) H0 ltac:(lia)) as (m & Hm & ->).
  rewrite put_chars_app by lia. unfold mbind, M_bind.
  destruct (put_chars out maxlen text idx s) as [idx' s'| | |] eqn:Ei; try done. apply put_chars_idx in Ei as ->; [|lia].
  rewrite u64_small by lia. apply H3; lia.
Qed.

(** * The theorem *)

(** C10: A format of plain text and of conversions of integers, characters and strings prints, item by item, what the items mean: the numeral of the argument's value in the base of the letter, the character, the string up to its terminator, each in its field; this text is determined. Whatever the output function is, it gets these characters in this order and then the terminator; snprintf leaves them in the buffer as far as they fit, and returns how many there are. *)
Theorem format_renders (strings : Z -> option (list Z)) (items : list item) (rest va b : list Z) (count : Z) :
  Forall (item_ok strings) items -> len items < 2 ^ 30 -> 0 <= count <= len b -> count < 2 ^ 64 ->
  exists texts, Forall2 (renders strings) items texts /\ (forall texts', Forall2 (renders strings) items texts' -> texts' = texts) /\
    let text := concat texts in
    let format := format_of items ++ 0 :: rest in
    snprintf_ count strings format (arguments_of items ++ va) b = Ok (s32 (len text)) (truncated count text b) /\
    forall S (out : out_fct_type S) maxlen s,
      _vsnprintf out maxlen strings format (arguments_of items ++ va) s = (put_chars out maxlen text 0 ≫= terminate out maxlen) s.
Proof.
  intros Hi Hn Hc Hb. destruct (items_print strings items Hi) as (texts & H1 & H2 & H3). exists texts. split; [done|]. split; [intros texts' H'; by apply (texts_unique strings items)|]. intros text format.
  assert (E : forall S (out : out_fct_type S) maxlen s,
    _vsnprintf out maxlen strings format (arguments_of items ++ va) s = (put_chars out maxlen text 0 ≫= terminate out maxlen) s).
  { intros S out maxlen s. unfold _vsnprintf. apply bind_cong, H3; [|lia..]. unfold format. rewrite length_app. cbn [length]. lia. }
  split; [|done]. unfold snprintf_. rewrite E. unfold text. apply buffer_text; lia.
Qed.

(** "pid %-4d handle 0x%08llx: %s (100%%)" *)
Definition demo_items : list item :=
  [Text (removelast (bytes_of "pid ")); Signed (CH "d") 4 0 FLAGS_LEFT (-7); Text (removelast (bytes_of " handle 0x"));
   Unsigned (CH "x") 8 (Z.lor FLAGS_LONG FLAGS_LONG_LONG) FLAGS_ZEROPAD 0xbeef; Text (removelast (bytes_of ": ")); Str 0 0 1;
   Text (removelast (bytes_of " (100")); Percent; Text [CH ")"]].

Definition demo_strings (p : Z) : option (list Z) := if p =? 1 then Some (bytes_of "open") else None.

Example demo_format : format_of demo_items ++ [0] = bytes_of "pid %-4d handle 0x%08llx: %s (100%%)".
Proof. vm_compute. reflexivity. Qed.

Example demo_text : snprintf_ 64 demo_strings (format_of demo_items ++ [0]) (arguments_of demo_items) [] = Fault /\
  exists n, _vsnprintf record 64 demo_strings (format_of demo_items ++ [0]) (arguments_of demo_items) [] =
    Ok n (bytes_of "pid -7   handle 0x0000beef: open (100%)").
Proof. split; [|eexists]; vm_compute; reflexivity. Qed.

Lemma format_renders_witness : Forall (item_ok demo_strings) demo_items /\ exists texts, Forall2 (renders demo_strings) demo_items texts /\
  snprintf_ 20 demo_strings (format_of demo_items ++ [0]) (arguments_of demo_items ++ []) (replicate 24 7) =
    Ok (s32 (len (concat texts))) (truncated 20 (concat texts) (replicate 24 7)).
Proof.
  assert (Hok : Forall (item_ok demo_strings) demo_items).
  { repeat constructor; try done; try lia. exists (removelast (bytes_of "open")), []. split; [done|]. split; [repeat constructor; done|cbn; lia]. }
  split; [exact Hok|].
  destruct (format_renders demo_strings demo_items [] [] (replicate 24 7) 20 Hok ltac:(cbn; lia) ltac:(cbn; lia) ltac:(lia)) as (texts & H1 & _ & H2 & _).
  exists texts. split; [exact H1|exact H2].
Defined.
