(* ===== verification/Wprintf.v ===== *)
(** Formatted printing with 16-bit characters: the second half of
    external/printf.c and the printing of the boot loader, xtboot/print.c. The
    format is an array of [unsigned short]; the functions it shares with the
    other half take it for one of [char]. The memory behind a pointer is
    therefore the list of its bytes. *)
From Stdlib Require Import ZArith Lia Ascii String.
From stdpp Require Import base tactics list numbers.
From S2P Require Import Prelude Printf Ftoa Vsnprintf PrintfProof.

Open Scope Z_scope.

(** * Characters of two bytes *)

Definition unit16 {S} (p : list Z) : M S (Z * list Z) :=
  match p with
  | b0 :: b1 :: p => mret (b0 + 256 * b1, p)
  | _ => fault
  end.

(** A format, as the bytes it has in memory. *)
Definition wide (l : list Z) : list Z := concat (map (fun c => [c mod 256; c / 256]) l).

(** * The parts of a specifier *)

Fixpoint parse_flagsw {S} (flags : Z) (format : list Z) : M S (Z * list Z) :=
  match format with
  | b0 :: b1 :: rest =>
    match flag_of (b0 + 256 * b1) with Some f => parse_flagsw (Z.lor flags f) rest | None => mret (flags, format) end
  | _ => fault
  end.

(** [_is_digit] gets the low byte, [_atoi] reads byte after byte. *)
Definition parse_widthw {S} (flags : Z) (format va : list Z) : M S (Z * Z * list Z * list Z) :=
  '(c, rest) ← unit16 format;
  if _is_digit (u8 c) then '(width, rest) ← _atoi 0 format; mret (flags, width, rest, va)
  else if c =? CH "*" then '(flags, width, va) ← star_width flags va; mret (flags, width, rest, va)
  else mret (flags, 0, format, va).

Definition parse_precisionw {S} (flags : Z) (format va : list Z) : M S (Z * Z * list Z * list Z) :=
  '(c, rest) ← unit16 format;
  if negb (c =? CH ".") then mret (flags, 0, format, va)
  else
    let flags := Z.lor flags FLAGS_PRECISION in
    '(c, rest') ← unit16 rest;
    if _is_digit (u8 c) then '(precision, rest) ← _atoi 0 rest; mret (flags, precision, rest, va)
    else if c =? CH "*" then '(precision, va) ← star_precision va; mret (flags, precision, rest', va)
    else mret (flags, 0, rest, va).

Definition double_flagw {S} (c flags one two : Z) (rest : list Z) : M S (Z * list Z) :=
  let flags := Z.lor flags one in
  '(d, rest') ← unit16 rest;
  mret (if d =? c then (Z.lor flags two, rest') else (flags, rest)).

Definition parse_lengthw {S} (flags : Z) (format : list Z) : M S (Z * list Z) :=
  '(c, rest) ← unit16 format;
  if c =? CH "l" then double_flagw c flags FLAGS_LONG FLAGS_LONG_LONG rest
  else if c =? CH "h" then double_flagw c flags FLAGS_SHORT FLAGS_CHAR rest
  else if (c =? CH "t") || (c =? CH "j") || (c =? CH "z") then mret (Z.lor flags FLAGS_LONG_LONG, rest)
  else mret (flags, format).

Section Out.
Context {S : Type} (out : out_fct_type S) (maxlen : Z) (strings : Z -> option (list Z)).

(** * Numbers

    The same text as for 8-bit characters, on a local array and a buffer of
    [unsigned short]. *)

Definition _out_revw : Z -> list Z -> Z -> Z -> M S Z := _out_rev out maxlen.

Definition _ntow_format (idx : Z) (buf : list Z) (negative : bool) (base prec width flags : Z) : M S Z :=
  let '(buf, width) := leading_zeros buf negative prec width flags in
  let buf := hash buf base prec width flags in
  let buf := sign buf negative flags in
  _out_revw idx buf width flags.

Definition _ntow_long_long (idx value : Z) (negative : bool) (base prec width flags : Z) : M S Z :=
  let flags := if value =? 0 then clear flags FLAGS_HASH else flags in
  let buf := if negb (has flags FLAGS_PRECISION) || negb (value =? 0)
             then digits (Z.to_nat PRINTF_NTOA_BUFFER_SIZE) value base flags else [] in
  _ntow_format idx buf negative base prec width flags.

(** * The specifiers *)

Definition convert_signedw (idx slot base precision width flags : Z) : M S Z :=
  if has flags FLAGS_LONG_LONG then
    let value := signed 64 slot in
    _ntow_long_long idx (u64 (magnitude value)) (value <? 0) base precision width flags
  else convert_signed out maxlen idx slot base precision width flags.

Definition convert_integerw (c idx width precision flags : Z) (va : list Z) : M S (Z * list Z) :=
  let flags := integer_flags c flags in
  '(slot, va) ← va_arg va;
  idx ← (if is_signed c then convert_signedw else convert_unsigned out maxlen) idx slot (base_of c) precision width flags;
  mret (idx, va).

(** A character is cut to a [char] when it is output. *)
Fixpoint put_wstring (p : list Z) (limited : bool) (precision idx : Z) : M S Z :=
  match p with
  | b0 :: b1 :: p =>
    if (b0 + 256 * b1 =? 0) || (limited && (precision =? 0)) then mret idx
    else idx ← put_char out maxlen (u8 b0) idx; put_wstring p limited (precision - 1) idx
  | _ => fault
  end.

(** [%ls]: the length is taken of the bytes. *)
Definition convert_wstring (idx width precision flags : Z) (va : list Z) : M S (Z * list Z) :=
  '(slot, va) ← va_arg va;
  p ← deref (fun _ => strings slot);
  l ← _strnlen_s p (if negb (precision =? 0) then precision else 2 ^ 64 - 1);
  let l := if has flags FLAGS_PRECISION then (if l <? precision then l else precision) else l in
  idx ← pad out maxlen (negb (has flags FLAGS_LEFT)) l width idx;
  idx ← put_wstring p (has flags FLAGS_PRECISION) precision idx;
  idx ← pad out maxlen (has flags FLAGS_LEFT) l width idx;
  mret (idx, va).

Definition convertw (c idx width precision flags : Z) (va : list Z) : M S (Z * list Z) :=
  if is_one_of c [CH "d"; CH "i"; CH "u"; CH "x"; CH "X"; CH "o"; CH "b"] then convert_integerw c idx width precision flags va
  else if is_one_of c [CH "f"; CH "F"; CH "e"; CH "E"; CH "g"; CH "G"] then convert_float out maxlen c idx width precision flags va
  else if c =? CH "c" then convert_char out maxlen idx width flags va
  else if c =? CH "s" then
    (if has flags FLAGS_LONG then convert_wstring else convert_string out maxlen strings) idx width precision flags va
  else if c =? CH "p" then convert_pointer out maxlen idx precision flags va
  else idx ← put_char out maxlen (u8 c) idx; mret (idx, va).

Definition specifierw (idx : Z) (format va : list Z) : M S (Z * list Z * list Z) :=
  '(flags, format) ← parse_flagsw 0 format;
  '(flags, width, format, va) ← parse_widthw flags format va;
  '(flags, precision, format, va) ← parse_precisionw flags format va;
  '(flags, format) ← parse_lengthw flags format;
  '(c, format) ← unit16 format;
  '(idx, va) ← convertw c idx width precision flags va;
  mret (idx, format, va).

Fixpoint formatw_loop (n : nat) (idx : Z) (format va : list Z) : M S Z :=
  match n with
  | O => nofuel
  | Datatypes.S n =>
    '(c, rest) ← unit16 format;
    if c =? 0 then mret idx
    else if negb (c =? CH "%") then idx ← put_char out maxlen (u8 c) idx; formatw_loop n idx rest va
    else '(idx, rest, va) ← specifierw idx rest va; formatw_loop n idx rest va
  end.

Definition _vwsnprintf (format va : list Z) : M S Z :=
  idx ← formatw_loop (Datatypes.S (length format)) 0 format va;
  terminate out maxlen idx.

End Out.

Definition vwsnprintf_ (size : Z) (strings : Z -> option (list Z)) (format va : list Z) : M (list Z) Z :=
  _vwsnprintf _out_wchar size strings format va.

(** * The boot loader's printing (xtboot/print.c)

    The console is the list of the 16-bit characters it was given;
    [OutputString] ends at the terminator. *)

Fixpoint until_nul (l : list Z) : option (list Z) :=
  match l with [] => None | c :: l => if c =? 0 then Some [] else l ← until_nul l; Some (c :: l) end.

Definition EfiOutputString (str : list Z) : M (list Z) unit := fun console =>
  match until_nul str with Some l => Ok tt (console ++ l) | None => Fault end.

(** [garbage] is what the buffer on the stack holds. *)
Definition EfiVPrint (garbage : list Z) (strings : Z -> option (list Z)) (str va : list Z) : M (list Z) unit := fun console =>
  match vwsnprintf_ 4096 strings str va garbage with
  | Ok _ buffer => EfiOutputString buffer console
  | Err c _ => Err c console
  | Fault => Fault
  | OutOfFuel => OutOfFuel
  end.

Definition EfiPrint (garbage : list Z) (strings : Z -> option (list Z)) (str va : list Z) : M (list Z) unit :=
  EfiVPrint garbage strings str va.

Definition EfiPrintLn (garbage : list Z) (strings : Z -> option (list Z)) (str va : list Z) : M (list Z) unit :=
  EfiVPrint garbage strings str va ;;; EfiOutputString [10; 13; 0].

(** * Lemmas *)

Lemma wide_cons c l : wide (c :: l) = c mod 256 :: c / 256 :: wide l.
Proof. done. Qed.

Lemma unit16_wide {S} c l (s : S) : 0 <= c < 65536 -> unit16 (wide (c :: l)) s = Ok (c, wide l) s.
Proof. intros Hc. rewrite wide_cons. cbn. do 2 f_equal. pose proof (Z.div_mod c 256). lia. Qed.

(** A character of ASCII is written as it is. *)
Lemma wchar_chars maxlen l : Forall (fun c => 0 <= c < 128) l -> forall idx b,
  put_chars _out_wchar maxlen l idx b = put_chars _out_buffer maxlen l idx b.
Proof.
  induction 1 as [|c l Hc _ IH]; intros idx b; [done|]. rewrite !put_chars_cons. unfold mbind, M_bind.
  unfold _out_wchar at 1. rewrite (proj2 (Z.ltb_lt c 128)) by lia. fold (_out_buffer c idx maxlen b).
  by destruct (_out_buffer c idx maxlen b) as [[] s| | |].
Qed.

Definition is_plain (c : Z) : Prop := 0 < c < 128 /\ c <> CH "%".

Lemma formatw_plain {S} (out : out_fct_type S) maxlen strings va rest l : Forall is_plain l -> forall n idx s, (length l < n)%nat -> 0 <= idx < 2 ^ 64 ->
  formatw_loop out maxlen strings n idx (wide (l ++ 0 :: rest)) va s = put_chars out maxlen l idx s.
Proof.
  induction 1 as [|c l [Hc Hp] _ IH]; intros n idx s Hn Hi; (destruct n as [|n]; [cbn in Hn; lia|]); cbn [app formatw_loop].
  - by rewrite (bind_Ok _ _ _ _ _ (unit16_wide 0 _ s ltac:(lia))).
  - rewrite (bind_Ok _ _ _ _ _ (unit16_wide c _ s ltac:(lia))). rewrite (proj2 (Z.eqb_neq c 0)), (proj2 (Z.eqb_neq c _)) by (done || lia).
    cbn [negb put_chars]. rewrite u8_small by lia. unfold mbind, M_bind. destruct (put_char out maxlen c idx s) as [i s'| | |] eqn:E; [|done..].
    apply IH; [cbn in Hn; lia|]. unfold put_char, mbind, M_bind in E. destruct (out c idx maxlen s) as [[] ?| | |]; [|done..].
    injection E as <- _. apply u64_bound.
Qed.

Lemma until_nul_app l rest : Forall (fun c => c <> 0) l -> until_nul (l ++ 0 :: rest) = Some l.
Proof. induction 1 as [|c l Hc _ IH]; [done|]. cbn [app until_nul]. by rewrite (proj2 (Z.eqb_neq c 0)), IH by done. Qed.

(** * Theorems *)

(** A message of at most 4095 characters of ASCII and without conversions appears on the console of the firmware as it is. *)
Theorem efi_print_plain (garbage : list Z) (strings : Z -> option (list Z)) (l rest va console : list Z) :
  length garbage = 4096%nat -> (length l < 4096)%nat -> Forall is_plain l ->
  EfiVPrint garbage strings (wide (l ++ 0 :: rest)) va console = Ok tt (console ++ l).
Proof.
  intros Hg Hl Hp. assert (Ha : Forall (fun c => 0 <= c < 128) l) by (eapply Forall_impl; [|exact Hp]; intros c [? _]; lia).
  assert (E : vwsnprintf_ 4096 strings (wide (l ++ 0 :: rest)) va garbage = Ok (s32 (Z.of_nat (length l))) (truncated 4096 l garbage)).
  { rewrite <- (buffer_text 4096 garbage l) by (rewrite ?Hg; lia). unfold vwsnprintf_, _vwsnprintf.
    assert (Hw : (length l < S (length (wide (l ++ 0%Z :: rest))))%nat).
    { clear. induction l as [|c l IH]; [cbn; lia|]. cbn [app]. rewrite wide_cons. cbn [length]. lia. }
    rewrite (bind_cong _ _ _ _ (formatw_plain _ _ _ _ _ _ Hp _ 0 _ Hw ltac:(lia))), (bind_cong _ _ _ _ (wchar_chars _ _ Ha _ _)).
    by apply bind_ext. }
  unfold EfiVPrint. rewrite E. unfold truncated. cbn [Z.eqb]. change (Z.to_nat (4096 - 1)) with 4095%nat. rewrite take_ge by lia.
  unfold EfiOutputString. rewrite until_nul_app; [done|]. eapply Forall_impl; [|exact Hp]. intros c [? _]. lia.
Qed.

Lemma efi_print_plain_witness : EfiVPrint (replicate (Z.to_nat 4096) 7) (fun _ => None) (wide ([79; 75] ++ [0])) [] [62] = Ok tt [62; 79; 75].
Proof. apply (efi_print_plain _ _ [79; 75] []); [done|cbn; lia|by repeat constructor]. Defined.

(** A width or a precision is read byte by byte and leaves the format pointer in the middle of a character: the rest of the message is lost. *)
Example wide_width_loses_text :
  EfiVPrint (replicate (Z.to_nat 4096) 7) (fun _ => None) (wide (bytes_of "error %4d")) [42] [] = Ok tt (removelast (bytes_of "error ")).
Proof. vm_compute. reflexivity. Qed.

(** A character above 127 is cut to its low byte and extended with its sign. *)
Example wide_letter_garbled :
  EfiVPrint (replicate (Z.to_nat 4096) 7) (fun _ => None) (wide [0x41F; 0]) [] [] = Ok tt [0x1F] /\
  EfiVPrint (replicate (Z.to_nat 4096) 7) (fun _ => None) (wide [0xE9; 0]) [] [] = Ok tt [0xFFE9].
Proof. split; vm_compute; reflexivity. Qed.
