(* ===== verification/Allocator.v ===== *)
(** What the kernel heap promises to the components that allocate from it, and
    the typed stores those components keep their objects in. The promise is
    kept by a bump allocator (here, for the witnesses) and by the kernel's own
    heap (Memory.v, HeapProof.v). *)
From Stdlib Require Import ZArith Lia.
From stdpp Require Import base tactics list gmap fin_maps numbers.
From S2P Require Import Prelude.

Open Scope Z_scope.

(** * The interface *)

(** [heap_ok h L]: the heap is sound and [L] are the pointers it has handed out
    and not got back. A call that fails promises nothing. *)
Class Allocator (H : Type) := {
  xtHeapAlloc : Z -> M H Z;
  xtHeapFree : Z -> M H unit;
  heap_ok : H -> gset Z -> Prop;
  alloc_fresh h L n p h' :
    heap_ok h L -> xtHeapAlloc n h = Ok p h' -> p <> NULL /\ (p ∉ L) /\ heap_ok h' ({[p]} ∪ L);
  free_live h L p :
    heap_ok h L -> p ∈ L -> exists h', xtHeapFree p h = Ok tt h' /\ heap_ok h' (L ∖ {[p]});
  free_null h : xtHeapFree NULL h = Err XT_INVALID_PARAMETER h
}.

(** * The bump allocator *)

Record Bump := mkBump { bump_next : Z; bump_live : gset Z }.

Definition bump_alloc (n : Z) : M Bump Z := fun b =>
  Ok (bump_next b) (mkBump (bump_next b + Z.max 16 n) ({[bump_next b]} ∪ bump_live b)).

Definition bump_free (p : Z) : M Bump unit := fun b =>
  if p =? NULL then Err XT_INVALID_PARAMETER b
  else if decide (p ∈ bump_live b) then Ok tt (mkBump (bump_next b) (bump_live b ∖ {[p]})) else Fault.

Definition bump_ok (b : Bump) (L : gset Z) : Prop :=
  bump_live b = L /\ 0 < bump_next b /\ forall p, p ∈ L -> 0 < p < bump_next b.

Definition bump_empty : Bump := mkBump 16 ∅.

Lemma bump_alloc_ok b L n p b' :
  bump_ok b L -> bump_alloc n b = Ok p b' -> p <> NULL /\ (p ∉ L) /\ bump_ok b' ({[p]} ∪ L).
Proof.
  intros (HL & Hn & Hp) [= <- <-]. unfold NULL. split; [lia|]. split.
  - intros H. apply Hp in H. lia.
  - subst L. split; [done|]. cbn. split; [lia|]. intros q Hq.
    apply elem_of_union in Hq as [->%elem_of_singleton|Hq]; [lia|]. apply Hp in Hq. lia.
Qed.

Lemma bump_free_ok b L p :
  bump_ok b L -> p ∈ L -> exists b', bump_free p b = Ok tt b' /\ bump_ok b' (L ∖ {[p]}).
Proof.
  intros (HL & Hn & Hp) H. unfold bump_free. pose proof (Hp p H).
  replace (p =? NULL) with false by (unfold NULL; lia).
  rewrite decide_True by congruence. eexists; split; [done|]. subst L.
  split; [done|]. split; [done|]. intros q Hq. apply Hp. set_solver.
Qed.

#[export] Instance Bump_Allocator : Allocator Bump := {
  xtHeapAlloc := bump_alloc;
  xtHeapFree := bump_free;
  heap_ok := bump_ok;
  alloc_fresh := bump_alloc_ok;
  free_live := bump_free_ok;
  free_null := fun _ => eq_refl
}.

Lemma bump_empty_ok : heap_ok bump_empty ∅.
Proof. split; [done|]. cbn. split; [lia|]. set_solver. Qed.

(** * Typed stores *)

(** The objects of one C type, by address. *)
Definition load {A} (p : Z) : M (gmap Z A) A := deref (fun m => m !! p).

Definition store {A} (p : Z) (v : A) : M (gmap Z A) unit := fun m =>
  match m !! p with Some _ => Ok tt (<[p := v]> m) | None => Fault end.

Definition create {A} (p : Z) (v : A) : M (gmap Z A) unit := modify (insert p v).

Definition dispose {A} (p : Z) : M (gmap Z A) unit := modify (delete p).

(** Assigning fields of the object behind a pointer. *)
Definition assign {A} (p : Z) (f : A -> A) : M (gmap Z A) unit := fun m =>
  match m !! p with Some v => Ok tt (<[p := f v]> m) | None => Fault end.

(** * Chains of linked nodes *)

Section Chain.
Context {A B : Type} (next : A -> Z) (val : A -> B).

(** The nodes at the addresses of [l], with the values of [l], lie on the path
    from [p] to [q]. *)
Fixpoint chain (m : gmap Z A) (p : Z) (l : list (Z * B)) (q : Z) : Prop :=
  match l with
  | [] => p = q
  | (a, b) :: l => p = a /\ a <> NULL /\ exists n, m !! a = Some n /\ val n = b /\ chain m (next n) l q
  end.

Lemma chain_app m p l1 l2 q :
  chain m p (l1 ++ l2) q <-> exists r, chain m p l1 r /\ chain m r l2 q.
Proof.
  revert p; induction l1 as [|[a b] l1 IH]; intros p; cbn [app chain].
  - split; [eauto|]. by intros (r & -> & H).
  - split.
    + intros (-> & Ha & n & Hm & Hv & (r & H1 & H2)%IH). exists r. eauto 10.
    + intros (r & (-> & Ha & n & Hm & Hv & H1) & H2). split; [done|]. split; [done|].
      exists n. split; [done|]. split; [done|]. apply IH. eauto.
Qed.

(** A change of the store outside the chain. *)
Lemma chain_frame m m' p l q :
  (forall a, a ∈ l.*1 -> m' !! a = m !! a) -> chain m p l q -> chain m' p l q.
Proof.
  revert p; induction l as [|[a b] l IH]; intros p; cbn [chain fmap list_fmap fst]; [done|].
  intros H (-> & Ha & n & Hm & Hv & Hc). split; [done|]. split; [done|]. exists n.
  rewrite H by set_solver. split; [done|]. split; [done|]. apply IH; [set_solver|done].
Qed.

Lemma chain_insert m p l q a v : a ∉ l.*1 -> chain m p l q -> chain (<[a := v]> m) p l q.
Proof. intros Ha. apply chain_frame. intros b Hb. rewrite lookup_insert_ne; set_solver. Qed.

Lemma chain_delete m p l q a : a ∉ l.*1 -> chain m p l q -> chain (delete a m) p l q.
Proof. intros Ha. apply chain_frame. intros b Hb. rewrite lookup_delete_ne; set_solver. Qed.

Lemma chain_lookup m p l q a b :
  chain m p l q -> (a, b) ∈ l -> a <> NULL /\ exists n, m !! a = Some n /\ val n = b.
Proof.
  revert p; induction l as [|[c k] l IH]; intros p; [set_solver|].
  cbn [chain]. intros (_ & Hb & n & Hm & Hv & Hc) [[= -> ->]|H]%elem_of_cons; eauto.
Qed.

Lemma chain_dom m p l q : chain m p l q -> forall a, a ∈ l.*1 -> a ∈ dom m.
Proof.
  intros Hc a ([b n] & -> & H)%list_elem_of_fmap. apply elem_of_dom.
  eapply chain_lookup in H as (_ & k & ? & _); [|done]. by exists k.
Qed.

(** An acyclic chain has no more nodes than the store. *)
Lemma chain_length m p l q : chain m p l q -> NoDup l.*1 -> (length l <= size m)%nat.
Proof.
  intros Hc Hnd. rewrite <- (length_fmap fst).
  rewrite <- (size_list_to_set (C := gset Z)) by exact Hnd.
  rewrite <- size_dom. apply subseteq_size. intros a Ha. apply elem_of_list_to_set in Ha.
  by eapply chain_dom.
Qed.

Lemma chain_nonnull m p l q : chain m p l q -> l <> [] -> p <> NULL.
Proof. destruct l as [|[a n] l]; [done|]. by intros (-> & H & _) _. Qed.

Lemma chain_addresses_nonnull m p l q : chain m p l q -> NULL ∉ l.*1.
Proof.
  intros Hc ([b n] & E & H)%list_elem_of_fmap. by eapply chain_lookup in H as [? _].
Qed.

(** The chain that starts at an address is the only one. *)
Lemma chain_det m p l1 l2 : chain m p l1 NULL -> chain m p l2 NULL -> l1 = l2.
Proof.
  revert p l2; induction l1 as [|[a n] l1 IH]; intros p [|[b k] l2]; cbn [chain].
  - done.
  - intros -> (-> & H & _). done.
  - intros (-> & H & _) ->. done.
  - intros (-> & _ & x & H1 & V1 & C1) (-> & _ & y & H2 & V2 & C2). simplify_eq. f_equal. eauto.
Qed.

(** Redirecting the last link. *)
Lemma chain_relink (set_next : Z -> A -> A) m p l a b q r :
  (forall x n, next (set_next x n) = x) -> (forall x n, val (set_next x n) = val n) ->
  NoDup (l ++ [(a, b)]).*1 -> chain m p (l ++ [(a, b)]) q ->
  exists n, m !! a = Some n /\ next n = q /\
    chain (<[a := set_next r n]> m) p (l ++ [(a, b)]) r.
Proof.
  intros Hn Hv Hnd (x & H1 & -> & Ha & n & Hm & Hb & Hq)%chain_app. cbn in Hq.
  exists n. split; [done|]. split; [done|]. apply chain_app. exists a. split.
  - apply chain_insert; [|done]. rewrite fmap_app, list.NoDup_app in Hnd. set_solver.
  - cbn. split; [done|]. split; [done|]. eexists. rewrite lookup_insert_eq. by rewrite Hn, Hv.
Qed.

End Chain.

(** * Lemmas *)

Section Stores.
Context {A : Type}.
Implicit Types (m : gmap Z A) (v : A).

Lemma load_Ok m p v : m !! p = Some v -> load p m = Ok v m.
Proof. intros H. unfold load, deref. by rewrite H. Qed.

Lemma load_inv m p v m' : load p m = Ok v m' -> m' = m /\ m !! p = Some v.
Proof. unfold load, deref. destruct (m !! p); naive_solver. Qed.

Lemma store_Ok m p v w : m !! p = Some w -> store p v m = Ok tt (<[p := v]> m).
Proof. intros H. unfold store. by rewrite H. Qed.

Lemma assign_Ok m p f v : m !! p = Some v -> assign p f m = Ok tt (<[p := f v]> m).
Proof. intros H. unfold assign. by rewrite H. Qed.

End Stores.

Lemma zoom_Ok {S T A} (g : S -> T) (p : T -> S -> S) (m : M T A) s a t :
  m (g s) = Ok a t -> zoom g p m s = Ok a (p t s).
Proof. intros H. unfold zoom. by rewrite H. Qed.

Lemma zoom_Err {S T A} (g : S -> T) (p : T -> S -> S) (m : M T A) s c t :
  m (g s) = Err c t -> zoom g p m s = Err c (p t s).
Proof. intros H. unfold zoom. by rewrite H. Qed.
