(* ===== verification/SharedPtr.v ===== *)
(** Shared pointers (xtkernel/sharedptr.c): an object behind a pointer with a
    count of references. *)
From Stdlib Require Import ZArith Lia.
From stdpp Require Import base tactics gmap fin_maps numbers.
From S2P Require Import Prelude Allocator.

Open Scope Z_scope.

(** [deleteFunc] is the function's address, [NULL] for none. *)
Record XTSharedPtr := mkShared { sdata : Z; deleteFunc : Z; count : Z }.

Definition SHARED : Z := 24.

Record Shared (H : Type) := mkSharedHeap { sheap : H; pointers : gmap Z XTSharedPtr }.

Arguments mkSharedHeap {H} _ _.
Arguments sheap {H} _.
Arguments pointers {H} _.

Section SharedPtr.
Context {H : Type} {A : Allocator H}.

Definition on_sheap {X} (m : M H X) : M (Shared H) X := zoom sheap (fun h s => mkSharedHeap h (pointers s)) m.

Definition on_pointers {X} (m : M (gmap Z XTSharedPtr) X) : M (Shared H) X := zoom pointers (fun p s => mkSharedHeap (sheap s) p) m.

Definition xtSharedPtrGetData (ptr : Z) : M (Shared H) Z :=
  XT_CHECK_ARG_IS_NULL ptr ;;;
  p ← on_pointers (load ptr);
  mret (sdata p).

(** The data is freed when there is no memory for the pointer; what the free says
    is dropped. *)
Definition xtCreateSharedPtr (data df : Z) : M (Shared H) Z :=
  r ← attempt (on_sheap (xtHeapAlloc SHARED));
  match r with
  | inr code => out_or tt (on_sheap (xtHeapFree data)) ;;; throw code
  | inl p => on_pointers (create p (mkShared data df 1)) ;;; mret p
  end.

Definition xtIncrementReference (ptr : Z) : M (Shared H) unit :=
  XT_CHECK_ARG_IS_NULL ptr ;;;
  on_pointers (assign ptr (fun p => mkShared (sdata p) (deleteFunc p) (u64 (count p + 1)))).

(** [call df data] is the call through the function pointer, its result dropped.
    The shared pointer itself stays allocated. *)
Definition xtDecrementReference (call : Z -> Z -> M (Shared H) unit) (ptr : Z) : M (Shared H) unit :=
  XT_CHECK_ARG_IS_NULL ptr ;;;
  on_pointers (assign ptr (fun p => mkShared (sdata p) (deleteFunc p) (u64 (count p - 1)))) ;;;
  p ← on_pointers (load ptr);
  if count p =? 0 then
    (if deleteFunc p =? NULL then mret tt else out_or tt (call (deleteFunc p) (sdata p))) ;;;
    p ← on_pointers (load ptr);
    on_sheap (xtHeapFree (sdata p))
  else mret tt.

(** * The specification: a count *)

(** The object behind [ptr] is alive, with [n] references. *)
Definition refers (s : Shared H) (ptr d df n : Z) : Prop :=
  ptr <> NULL /\ pointers s !! ptr = Some (mkShared d df n).

Lemma on_pointers_Ok {X} (m : M (gmap Z XTSharedPtr) X) s a p : m (pointers s) = Ok a p -> on_pointers m s = Ok a (mkSharedHeap (sheap s) p).
Proof. intros E. unfold on_pointers, zoom. by rewrite E. Qed.

Lemma on_sheap_Ok {X} (m : M H X) s a h : m (sheap s) = Ok a h -> on_sheap m s = Ok a (mkSharedHeap h (pointers s)).
Proof. intros E. unfold on_sheap, zoom. by rewrite E. Qed.

Lemma load_ref s ptr d df n : refers s ptr d df n -> on_pointers (load ptr) s = Ok (mkShared d df n) s.
Proof. intros [_ E]. rewrite (on_pointers_Ok _ s (mkShared d df n) (pointers s)); [by destruct s|]. unfold load. by apply deref_Some. Qed.

Lemma assign_ref s ptr d df n f : refers s ptr d df n ->
  on_pointers (assign ptr f) s = Ok tt (mkSharedHeap (sheap s) (<[ptr := f (mkShared d df n)]> (pointers s))).
Proof. intros [_ E]. apply on_pointers_Ok. unfold assign. by rewrite E. Qed.

(** A sequence of references taken and dropped. *)
Inductive RefOp := Inc | Dec.

Definition run_op (ptr : Z) (call : Z -> Z -> M (Shared H) unit) (o : RefOp) : M (Shared H) unit :=
  match o with Inc => xtIncrementReference ptr | Dec => xtDecrementReference call ptr end.

Fixpoint run_ops (ptr : Z) (call : Z -> Z -> M (Shared H) unit) (os : list RefOp) : M (Shared H) unit :=
  match os with
  | [] => mret tt
  | o :: os => run_op ptr call o ;;; run_ops ptr call os
  end.

Definition balance (o : RefOp) : Z := match o with Inc => 1 | Dec => -1 end.

(** The references that are left after each step. *)
Fixpoint counts_ok (n : Z) (os : list RefOp) : Prop :=
  match os with
  | [] => True
  | o :: os => 0 < n + balance o < 2 ^ 64 /\ counts_ok (n + balance o) os
  end.

Lemma run_ops_ok call ptr d df os : forall s n, refers s ptr d df n -> counts_ok n os ->
  exists s', run_ops ptr call os s = Ok tt s' /\ refers s' ptr d df (n + fold_right (fun o t => balance o + t) 0 os) /\ sheap s' = sheap s.
Proof.
  induction os as [|o os IH]; intros s n Hr Hc; cbn [run_ops fold_right]; [exists s; by rewrite Z.add_0_r|].
  destruct Hc as [Hb Hc]. pose proof Hr as [Hp _].
  assert (exists s1, run_op ptr call o s = Ok tt s1 /\ refers s1 ptr d df (n + balance o) /\ sheap s1 = sheap s) as (s1 & R & Hr1 & E1).
  { destruct o; cbn [run_op balance] in *; [unfold xtIncrementReference|unfold xtDecrementReference]; rewrite check_then by done.
    - rewrite (assign_ref s ptr d df n _ Hr). cbn [sdata deleteFunc count]. eexists. split; [done|]. split; [|done]. split; [done|]. cbn.
      rewrite lookup_insert_eq. by rewrite u64_small by lia.
    - rewrite (bind_Ok _ _ _ _ _ (assign_ref s ptr d df n _ Hr)). cbn [sdata deleteFunc count]. rewrite u64_small by lia.
      set (s1 := mkSharedHeap _ _). assert (refers s1 ptr d df (n - 1)) as Hr1 by (split; [done|]; cbn; by rewrite lookup_insert_eq).
      rewrite (bind_Ok _ _ _ _ _ (load_ref s1 ptr d df (n - 1) Hr1)). cbn [count]. rewrite (proj2 (Z.eqb_neq _ 0)) by lia.
      exists s1. split; [done|]. split; [done|done]. }
  rewrite (bind_Ok _ _ _ _ _ R). destruct (IH s1 _ Hr1 Hc) as (s' & R' & Hr' & E'). exists s'. split; [done|]. split; [|congruence].
  by replace (n + (balance o + fold_right (fun o t => balance o + t) 0 os)) with (n + balance o + fold_right (fun o t => balance o + t) 0 os) by lia.
Qed.

(** While references are left the object stays alive, however they are taken and dropped, and the heap is not touched; the last drop calls the delete function, if there is one, and then frees the object. *)
Theorem shared_ptr_counts (call : Z -> Z -> M (Shared H) unit) (s : Shared H) (ptr d df : Z) (os : list RefOp) :
  refers s ptr d df 1 -> counts_ok 1 os ->
  exists s', run_ops ptr call os s = Ok tt s' /\ refers s' ptr d df (1 + fold_right (fun o t => balance o + t) 0 os) /\ sheap s' = sheap s /\
    (1 + fold_right (fun o t => balance o + t) 0 os = 1 -> df = NULL -> forall L, heap_ok (sheap s) L -> d ∈ L ->
       exists s'', xtDecrementReference call ptr s' = Ok tt s'' /\ heap_ok (sheap s'') (L ∖ {[d]})).
Proof.
  intros Hr Hc. destruct (run_ops_ok call ptr d df os s 1 Hr Hc) as (s' & R & Hr' & E). exists s'. split; [done|]. split; [done|]. split; [done|].
  intros E1 -> L HL Hd. rewrite E1 in Hr'. pose proof Hr' as [Hp _]. unfold xtDecrementReference. rewrite check_then by done.
  rewrite (bind_Ok _ _ _ _ _ (assign_ref s' ptr d NULL 1 _ Hr')). cbn [sdata deleteFunc count]. change (u64 (1 - 1)) with 0.
  set (s1 := mkSharedHeap _ _). assert (refers s1 ptr d NULL 0) as Hr1 by (split; [done|]; cbn; by rewrite lookup_insert_eq).
  rewrite (bind_Ok _ _ _ _ _ (load_ref s1 ptr d NULL 0 Hr1)). cbn [count deleteFunc]. rewrite !Z.eqb_refl, bind_ret.
  rewrite (bind_Ok _ _ _ _ _ (load_ref s1 ptr d NULL 0 Hr1)). cbn [sdata].
  destruct (free_live (sheap s1) L d) as (h' & R1 & HL'); [cbn; by rewrite E|done|].
  exists (mkSharedHeap h' (pointers s1)). split; [by apply on_sheap_Ok|done].
Qed.

(** A delete function that frees the object, as the linker's does, makes the last drop free it twice: when freeing what is not allocated is a fault, the drop faults. *)
Theorem delete_function_frees_twice (call : Z -> Z -> M (Shared H) unit) (s : Shared H) (ptr d df : Z) :
  refers s ptr d df 1 -> df <> NULL -> (forall x, call df x = on_sheap (xtHeapFree x)) ->
  (forall h h', xtHeapFree d h = Ok tt h' -> xtHeapFree d h' = Fault) ->
  (exists h', xtHeapFree d (sheap s) = Ok tt h') -> xtDecrementReference call ptr s = Fault.
Proof.
  intros Hr Hdf Hcall Htwice (h' & Hfree). pose proof Hr as [Hp _]. unfold xtDecrementReference. rewrite check_then by done.
  rewrite (bind_Ok _ _ _ _ _ (assign_ref s ptr d df 1 _ Hr)). cbn [sdata deleteFunc count]. change (u64 (1 - 1)) with 0.
  set (s1 := mkSharedHeap _ _). assert (refers s1 ptr d df 0) as Hr1 by (split; [done|]; cbn; by rewrite lookup_insert_eq).
  rewrite (bind_Ok _ _ _ _ _ (load_ref s1 ptr d df 0 Hr1)). cbn [count deleteFunc]. rewrite Z.eqb_refl, (proj2 (Z.eqb_neq df NULL)) by done.
  cbn [sdata]. rewrite Hcall. rewrite (bind_Ok _ _ s1 tt (mkSharedHeap h' (pointers s1))); [|by apply out_or_Ok, on_sheap_Ok].
  assert (refers (mkSharedHeap h' (pointers s1)) ptr d df 0) as Hr2 by (split; [done|]; cbn; by rewrite lookup_insert_eq).
  rewrite (bind_Ok _ _ _ _ _ (load_ref _ ptr d df 0 Hr2)). cbn [sdata]. unfold on_sheap, zoom. cbn [sheap]. by rewrite (Htwice _ _ Hfree).
Qed.

End SharedPtr.

(** * A pointer with references *)

Definition shared_demo (df : Z) : Shared Bump := mkSharedHeap (mkBump 64 {[16]}) {[32 := mkShared 16 df 1]}.

Lemma shared_demo_refers df : refers (shared_demo df) 32 16 df 1.
Proof. by split. Qed.

Lemma shared_ptr_counts_witness :
  exists s', run_ops 32 (fun _ _ => mret tt) [Inc; Inc; Dec; Dec] (shared_demo NULL) = Ok tt s' /\ refers s' 32 16 NULL 1 /\ sheap s' = sheap (shared_demo NULL) /\
    (1 = 1 -> NULL = NULL -> forall L, heap_ok (sheap (shared_demo NULL)) L -> 16 ∈ L ->
       exists s'', xtDecrementReference (fun _ _ => mret tt) 32 s' = Ok tt s'' /\ heap_ok (sheap s'') (L ∖ {[16]})).
Proof.
  apply (shared_ptr_counts (fun _ _ => mret tt) (shared_demo NULL) 32 16 NULL [Inc; Inc; Dec; Dec]).
  - by split.
  - cbn. lia.
Defined.

Lemma bump_frees_once (h h' : Bump) : xtHeapFree 16 h = Ok tt h' -> xtHeapFree 16 h' = Fault.
Proof.
  cbn. unfold bump_free. change (16 =? NULL) with false. cbn iota. destruct (decide _); [|done]. intros [= <-]. cbn.
  rewrite decide_False; [done|]. set_solver.
Qed.

Lemma delete_function_frees_twice_witness : xtDecrementReference (fun _ x => on_sheap (xtHeapFree x)) 32 (shared_demo 7) = Fault.
Proof.
  apply (delete_function_frees_twice (fun _ x => on_sheap (xtHeapFree x)) (shared_demo 7) 32 16 7); [by split|done|done|exact bump_frees_once|].
  by eexists.
Defined.
