(* ===== verification/ListC.v ===== *)
(** Linked lists: xtkernel/list.c. The nodes are a typed store; the operations
    that allocate or free are given the heap's functions. *)
From Stdlib Require Import ZArith Lia.
From stdpp Require Import base tactics list gmap fin_maps numbers.
From S2P Require Import Prelude Allocator.

Open Scope Z_scope.

(** * Data *)

Record XTList := mkList { data : Z; next : Z }.

Notation Lists := (gmap Z XTList).

Definition set_data (d : Z) (n : XTList) : XTList := mkList d (next n).

Definition set_next (p : Z) (n : XTList) : XTList := mkList (data n) p.

(** * Accessors *)

Definition xtSetListData (list d : Z) : M Lists unit :=
  XT_CHECK_ARG_IS_NULL list ;;;
  XT_CHECK_ARG_IS_NULL d ;;;
  assign list (set_data d).

Definition xtGetListData (list : Z) : M Lists Z :=
  XT_CHECK_ARG_IS_NULL list ;;;
  n ← load list;
  mret (data n).

Definition xtSetNextList (l p : Z) : M Lists unit :=
  XT_CHECK_ARG_IS_NULL l ;;;
  XT_CHECK_ARG_IS_NULL p ;;;
  assign l (set_next p).

Definition xtGetNextList (l : Z) : M Lists Z :=
  XT_CHECK_ARG_IS_NULL l ;;;
  n ← load l;
  mret (next n).

(** * Walks. A walk over more nodes than the store has goes in circles, so the
    size of the store is fuel enough for every walk that ends. *)

(** [for (;l->next; l = l->next);] *)
Fixpoint last_loop (fuel : nat) (l : Z) : M Lists Z :=
  n ← load l;
  if next n =? NULL then mret l
  else match fuel with
       | O => nofuel
       | S fuel => last_loop fuel (next n)
       end.

Definition xtGetLastList (l : Z) : M Lists Z :=
  XT_CHECK_ARG_IS_NULL l ;;;
  m ← get;
  last_loop (size m) l.

Definition xtAppendList (l to_append : Z) : M Lists unit :=
  XT_CHECK_ARG_IS_NULL l ;;;
  XT_CHECK_ARG_IS_NULL to_append ;;;
  last ← xtGetLastList l;
  assign last (set_next to_append).

(** [for (;l;l=l->next,++len);] *)
Fixpoint length_loop (fuel : nat) (l len : Z) : M Lists Z :=
  if l =? NULL then mret len
  else
    n ← load l;
    match fuel with
    | O => nofuel
    | S fuel => length_loop fuel (next n) (u64 (len + 1))
    end.

(** The function has no [return]; its callers use [*length] only. *)
Definition xtListLength (l : Z) : M Lists Z :=
  XT_CHECK_ARG_IS_NULL l ;;;
  m ← get;
  length_loop (size m) l 0.

(** The result code of [xtGetLastList] is dropped; [next] is not NULL here. *)
Definition xtInsertList (l p : Z) : M Lists unit :=
  XT_CHECK_ARG_IS_NULL l ;;;
  XT_CHECK_ARG_IS_NULL p ;;;
  last ← out_or NULL (xtGetLastList p);
  n ← load l;
  assign last (set_next (next n)) ;;;
  assign l (set_next p).

(** [for (i = 0; i < pos && l; ++i, l = l->next);] *)
Fixpoint index_loop (pos : nat) (l : Z) : M Lists Z :=
  match pos with
  | O => mret l
  | S pos => if l =? NULL then mret l else n ← load l; index_loop pos (next n)
  end.

Definition xtIndexList (l pos : Z) : M Lists Z :=
  XT_CHECK_ARG_IS_NULL l ;;;
  l ← index_loop (Z.to_nat pos) l;
  if l =? NULL then throw XT_OUT_OF_BOUNDARY else mret l.

(** [for (;list->next && list->next == toRemove; list = list->next);] *)
Fixpoint remove_loop (fuel : nat) (list toRemove : Z) : M Lists Z :=
  n ← load list;
  if negb (next n =? NULL) && (next n =? toRemove)
  then match fuel with
       | O => nofuel
       | S fuel => remove_loop fuel (next n) toRemove
       end
  else mret list.

(** The part of [xtRemoveFromList] before [xtDestroyList(toRemove)]. *)
Definition remove_unlink (list toRemove : Z) : M Lists unit :=
  XT_CHECK_ARG_IS_NULL list ;;;
  XT_CHECK_ARG_IS_NULL toRemove ;;;
  m ← get;
  at_ ← remove_loop (size m) list toRemove;
  n ← load at_;
  if next n =? NULL then throw XT_NOT_FOUND
  else
    nn ← load (next n);
    assign at_ (set_next (next nn)).

(** * Operations on the heap *)

Record ListHeap (H : Type) := mkListHeap { heap : H; lists : Lists }.

Arguments mkListHeap {H} _ _.
Arguments heap {H} _.
Arguments lists {H} _.

Section Heap.
Context {H : Type} {A : Allocator H}.

Definition on_heap {X} (m : M H X) : M (ListHeap H) X :=
  zoom heap (fun h s => mkListHeap h (lists s)) m.

Definition on_lists {X} (m : M Lists X) : M (ListHeap H) X :=
  zoom lists (fun l s => mkListHeap (heap s) l) m.

Definition xtCreateList (d : Z) : M (ListHeap H) Z :=
  result ← on_heap (xtHeapAlloc 16);
  on_lists (create result (mkList d NULL)) ;;;
  mret result.

(** The function has no [return] on success. *)
Definition xtDestroyList (list : Z) : M (ListHeap H) unit :=
  XT_CHECK_ARG_IS_NULL list ;;;
  on_heap (xtHeapFree list) ;;;
  on_lists (dispose list).

Definition xtRemoveFromList (list toRemove : Z) : M (ListHeap H) unit :=
  on_lists (remove_unlink list toRemove) ;;;
  out_or tt (xtDestroyList toRemove).

End Heap.

(** * The specification: a chain of nodes is a list of data *)

Definition lseg (m : Lists) (p : Z) (l : list (Z * Z)) (q : Z) : Prop := chain next data m p l q.

Definition is_list (m : Lists) (p : Z) (l : list (Z * Z)) : Prop := lseg m p l NULL /\ NoDup l.*1.

(** * Lemmas *)

Lemma last_loop_ok fuel m p l a d :
  lseg m p (l ++ [(a, d)]) NULL -> (length l <= fuel)%nat -> last_loop fuel p m = Ok a m.
Proof.
  revert fuel p; induction l as [|[b e] l IH]; intros fuel p; cbn [app lseg chain].
  - intros (-> & Ha & n & Hm & Hd & Hn) _.
    destruct fuel; cbn [last_loop]; rewrite (bind_Ok _ _ _ _ _ (load_Ok _ _ _ Hm)), Hn; done.
  - intros (-> & Hb & n & Hm & Hd & Hc) Hf. cbn [length] in Hf. destruct fuel as [|fuel]; [lia|].
    cbn [last_loop]. rewrite (bind_Ok _ _ _ _ _ (load_Ok _ _ _ Hm)).
    assert (next n <> NULL) as E by (eapply chain_nonnull; [done|by destruct l]).
    rewrite (proj2 (Z.eqb_neq _ _) E). apply IH; [done|lia].
Qed.

Lemma get_last_ok m p l a d :
  is_list m p (l ++ [(a, d)]) -> xtGetLastList p m = Ok a m.
Proof.
  intros [Hc Hnd]. unfold xtGetLastList. rewrite (bind_Ok _ _ _ tt m).
  2: { apply check_nonnull. eapply chain_nonnull; [done|by destruct l]. }
  cbv [mbind M_bind get]. eapply last_loop_ok; [done|].
  eapply chain_length in Hc; [|done]. rewrite length_app in Hc. lia.
Qed.

Lemma length_loop_ok fuel m p l len :
  lseg m p l NULL -> (length l <= fuel)%nat -> 0 <= len -> len + Z.of_nat (length l) < 2 ^ 64 ->
  length_loop fuel p len m = Ok (len + Z.of_nat (length l)) m.
Proof.
  revert fuel p len; induction l as [|[b e] l IH]; intros fuel p len; cbn [lseg chain].
  - intros -> _ _ _. destruct fuel; cbn [length_loop Z.eqb]; cbv [mret M_ret];
      cbn [length]; by rewrite Z.add_0_r.
  - intros (-> & Hb & n & Hm & Hd & Hc) Hf Hl Hlen. cbn [length] in *.
    destruct fuel as [|fuel]; [lia|].
    cbn [length_loop]. rewrite (proj2 (Z.eqb_neq _ _) Hb).
    rewrite (bind_Ok _ _ _ _ _ (load_Ok _ _ _ Hm)). rewrite u64_small by lia.
    rewrite IH; [f_equal; lia|done|lia|lia|lia].
Qed.

Lemma index_loop_ok m p l pos :
  lseg m p l NULL ->
  index_loop pos p m = Ok (match l !! pos with Some (a, _) => a | None => NULL end) m.
Proof.
  revert p pos; induction l as [|[b e] l IH]; intros p pos; cbn [lseg chain].
  - intros ->. destruct pos; done.
  - intros (-> & Hb & n & Hm & Hd & Hc). destruct pos as [|pos]; [done|].
    cbn [index_loop lookup list_lookup]. rewrite (proj2 (Z.eqb_neq _ _) Hb).
    rewrite (bind_Ok _ _ _ _ _ (load_Ok _ _ _ Hm)). by apply IH.
Qed.

(** A single node spliced in behind a node of a list. *)
Lemma insert_middle m first q e a d la lb :
  is_list m first (la ++ (a, d) :: lb) -> m !! q = Some (mkList e NULL) -> q <> NULL -> q ∉ (la ++ (a, d) :: lb).*1 ->
  exists m', xtInsertList a q m = Ok tt m' /\ is_list m' first (la ++ (a, d) :: (q, e) :: lb).
Proof.
  intros [Hc Hnd] Hq Hqn Hql. replace (la ++ (a, d) :: lb) with ((la ++ [(a, d)]) ++ lb) in * by by rewrite <- app_assoc.
  apply chain_app in Hc as (r & Hc1 & Hc2). pose proof Hnd as Hnd'. rewrite fmap_app, list.NoDup_app in Hnd'.
  destruct Hnd' as (Hn1 & Hx & Hn2). rewrite fmap_app in Hql. apply not_elem_of_app in Hql as [Hq1 Hq2].
  assert (chain next data (<[q := mkList e r]> m) first (la ++ [(a, d)]) r) as Hc1' by by apply chain_insert.
  destruct (chain_relink next data set_next (<[q := mkList e r]> m) first la a d r q) as (n & Hm & Hr & Hc); try done.
  assert (q <> a) as Hqa by (intros ->; apply Hq1; rewrite fmap_app; set_solver).
  rewrite lookup_insert_ne in Hm by done.
  exists (<[a := set_next q n]> (<[q := mkList e r]> m)). split; [|split].
  - assert (a <> NULL) as Ha by (apply chain_addresses_nonnull in Hc1; intros ->; apply Hc1; rewrite fmap_app; set_solver).
    unfold xtInsertList. rewrite !check_then by done.
    assert (xtGetLastList q m = Ok q m) as E.
    { unfold xtGetLastList. rewrite check_then by done. change (last_loop (size m) q m = Ok q m). destruct (size m); cbn; by rewrite (bind_Ok _ _ _ _ _ (load_Ok _ _ _ Hq)). }
    rewrite (bind_Ok _ _ _ _ _ (out_or_Ok _ _ _ _ _ E)), (bind_Ok _ _ _ _ _ (load_Ok _ _ _ Hm)), (bind_Ok _ _ _ _ _ (assign_Ok _ _ _ _ Hq)).
    rewrite Hr. apply assign_Ok. by rewrite lookup_insert_ne.
  - replace (la ++ (a, d) :: (q, e) :: lb) with ((la ++ [(a, d)]) ++ (q, e) :: lb) by by rewrite <- app_assoc.
    apply chain_app. exists q. split; [done|]. cbn. split; [done|]. split; [done|]. exists (mkList e r).
    rewrite lookup_insert_ne, lookup_insert_eq by done. split; [done|]. split; [done|]. cbn.
    apply chain_insert; [intros ?; eapply Hx; [|done]; rewrite fmap_app; set_solver|]. by apply chain_insert.
  - replace (la ++ (a, d) :: (q, e) :: lb) with ((la ++ [(a, d)]) ++ [(q, e)] ++ lb) by by rewrite <- app_assoc.
    rewrite (fmap_app _ (la ++ [(a, d)])), list.NoDup_app. split; [done|]. split; [|by apply list.NoDup_cons].
    intros x Hx1 [Hx2|Hx2]%elem_of_cons; [|by eapply Hx]. cbn in Hx2. subst x. done.
Qed.

(** A node set before a list that is not empty. *)
Lemma insert_front m first q e l :
  is_list m first l -> l <> [] -> m !! q = Some (mkList e NULL) -> q <> NULL -> q ∉ l.*1 ->
  exists m', xtSetNextList q first m = Ok tt m' /\ is_list m' q ((q, e) :: l).
Proof.
  intros [Hc Hnd] Hl Hq Hqn Hql. exists (<[q := mkList e first]> m). split; [|split].
  - unfold xtSetNextList. pose proof (chain_nonnull _ _ _ _ _ _ Hc Hl). rewrite !check_then by done. by rewrite (assign_Ok _ _ _ _ Hq).
  - cbn. split; [done|]. split; [done|]. exists (mkList e first). rewrite lookup_insert_eq. split; [done|]. split; [done|].
    by apply chain_insert.
  - by apply list.NoDup_cons.
Qed.

(** * Theorems *)

(** Appending a list joins the two lists and changes nothing else. *)
Lemma xtAppendList_spec (m : Lists) (p q : Z) (l1 l2 : list (Z * Z)) :
  is_list m p l1 -> is_list m q l2 -> l1 <> [] -> l2 <> [] -> NoDup (l1 ++ l2).*1 ->
  exists m', xtAppendList p q m = Ok tt m' /\ is_list m' p (l1 ++ l2) /\
    forall a, a ∉ l1.*1 -> m' !! a = m !! a.
Proof.
  intros H1 H2 N1 N2 Hnd. destruct (list_snoc l1 N1) as (l & [a d] & ->).
  pose proof (get_last_ok _ _ _ _ _ H1) as HL. destruct H1 as [H1 D1], H2 as [H2 D2].
  destruct (chain_relink next data set_next m p l a d NULL q) as (n & Hm & _ & Hc); try done.
  assert (NULL <> p) by (intros <-; eapply chain_nonnull in H1; [done|by destruct l]).
  assert (q <> NULL) by (eapply chain_nonnull in H2; done).
  exists (<[a := set_next q n]> m). split; [|split; [split; [|done]|]].
  - unfold xtAppendList. rewrite !check_then by done.
    rewrite (bind_Ok _ _ _ _ _ HL). by apply assign_Ok.
  - apply chain_app. exists q. split; [done|]. apply chain_insert; [|done].
    rewrite fmap_app, list.NoDup_app in Hnd. destruct Hnd as (_ & Hnd & _). apply Hnd.
    rewrite fmap_app. set_solver.
  - intros b Hb. rewrite lookup_insert_ne; [done|]. rewrite fmap_app in Hb. set_solver.
Qed.

(** Inserting a list after a node splices it in there. *)
Theorem xtInsertList_spec (m : Lists) (p q d : Z) (l1 l2 : list (Z * Z)) :
  is_list m p ((p, d) :: l1) -> is_list m q l2 -> l2 <> [] -> NoDup ((p, d) :: l2 ++ l1).*1 ->
  exists m', xtInsertList p q m = Ok tt m' /\ is_list m' p ((p, d) :: l2 ++ l1).
Proof.
  intros H1 H2 N2 Hnd. destruct (list_snoc l2 N2) as (l & [a e] & ->).
  pose proof (get_last_ok _ _ _ _ _ H2) as HL. destruct H1 as [H1 D1], H2 as [H2 D2].
  cbn [lseg chain] in H1. destruct H1 as (_ & Hp & n & Hm & Hd & Hc).
  destruct (chain_relink next data set_next m q l a e NULL (next n)) as (k & Hk & _ & Hc2); try done.
  assert (q <> NULL) as Hq by (eapply chain_nonnull in H2; [done|by destruct l]).
  cbn [fmap list_fmap fst] in Hnd. rewrite list.NoDup_cons, fmap_app, list.NoDup_app in Hnd.
  destruct Hnd as (Hpn & Dl & Dx & Dr).
  assert (a <> p) as Hap.
  { intros ->. apply Hpn. rewrite fmap_app. set_solver. }
  exists (<[p := set_next q n]> (<[a := set_next (next n) k]> m)).
  split; [|split].
  - unfold xtInsertList. rewrite !check_then by done.
    rewrite (bind_Ok _ _ _ _ _ (out_or_Ok _ _ _ _ _ HL)).
    rewrite (bind_Ok _ _ _ _ _ (load_Ok _ _ _ Hm)).
    rewrite (bind_Ok _ _ _ _ _ (assign_Ok _ _ _ _ Hk)).
    apply assign_Ok. by rewrite lookup_insert_ne.
  - cbn [lseg chain]. split; [done|]. split; [done|]. exists (set_next q n).
    rewrite lookup_insert_eq. split; [done|]. split; [done|]. cbn [next set_next].
    apply chain_insert; [rewrite fmap_app; set_solver|].
    apply chain_app. exists (next n). split; [done|]. apply chain_insert; [|done].
    apply Dx. rewrite fmap_app. set_solver.
  - cbn [fmap list_fmap fst]. rewrite list.NoDup_cons, fmap_app, list.NoDup_app. done.
Qed.

(** Indexing gives the node at the position, [XT_OUT_OF_BOUNDARY] after the end; the length is the number of nodes. *)
Theorem xtIndexList_spec (m : Lists) (p pos : Z) (l : list (Z * Z)) :
  is_list m p l -> l <> [] -> 0 <= pos -> Z.of_nat (length l) < 2 ^ 64 ->
  xtListLength p m = Ok (Z.of_nat (length l)) m /\
  xtIndexList p pos m =
    match l !! Z.to_nat pos with Some (a, _) => Ok a m | None => Err XT_OUT_OF_BOUNDARY m end.
Proof.
  intros [Hc Hnd] N Hp Hlen. pose proof (chain_nonnull _ _ _ _ _ _ Hc N) as Hnn. split.
  - unfold xtListLength. rewrite check_then by done.
    cbv [mbind M_bind get]. rewrite (length_loop_ok _ m p l); [done|done| |lia|lia].
    by eapply chain_length.
  - unfold xtIndexList. rewrite check_then by done.
    rewrite (bind_Ok _ _ _ _ _ (index_loop_ok m p l (Z.to_nat pos) Hc)).
    destruct (l !! Z.to_nat pos) as [[a d]|] eqn:E; [|done].
    assert (a <> NULL) as Ha.
    { apply list_elem_of_lookup_2 in E. by eapply chain_lookup in E as [? _]. }
    by rewrite (proj2 (Z.eqb_neq _ _) Ha).
Qed.

(** [xtSetNextList] cannot end a list: NULL is refused and the link stays. *)
Lemma xtSetNextList_refuses_null (m : Lists) (l : Z) :
  xtSetNextList l NULL m = Err XT_INVALID_PARAMETER m.
Proof.
  unfold xtSetNextList. destruct (decide (l = NULL)) as [->|Hl]; [done|].
  by rewrite !check_then by done.
Qed.

(** Removing the node after the head frees it but unlinks its successor instead: the head still points to the freed node. *)
Theorem xtRemoveFromList_leaves_dangling {H} `{Allocator H} (s : ListHeap H) (L : gset Z)
    (p x y d e f : Z) (l : list (Z * Z)) :
  heap_ok (heap s) L -> x ∈ L -> is_list (lists s) p ((p, d) :: (x, e) :: (y, f) :: l) ->
  exists s', xtRemoveFromList p x s = Ok tt s' /\
    lists s' !! p = Some (mkList d x) /\ lists s' !! x = None.
Proof.
  intros Hok Hx [Hc Hnd]. destruct s as [h m]. cbn [heap lists] in *.
  cbn [lseg chain] in Hc. destruct Hc as (_ & Hp & n1 & M1 & <- & N1 & Hx0 & n2 & M2 & <- & N2 & Hy0 & n3 & M3 & _).
  assert (p <> x) as Hpx by (intros ->; cbn in Hnd; rewrite list.NoDup_cons in Hnd; set_solver).
  assert (x <> y) as Hxy by
    (intros ->; cbn in Hnd; rewrite !list.NoDup_cons in Hnd; set_solver).
  destruct (free_live h L x Hok Hx) as (h' & Hf & Hok').
  set (m' := <[x := set_next (next n3) n2]> m).
  assert (remove_unlink p x m = Ok tt m') as U.
  { unfold remove_unlink. rewrite !check_then by done.
    cbv [get]. unfold mbind at 1, M_bind at 1.
    assert (exists k, size m = Datatypes.S k) as [k ->].
    { destruct (size m) eqn:E; [|eauto]. apply map_size_empty_iff in E. subst m. done. }
    rewrite (bind_Ok _ _ m x m).
    - rewrite (bind_Ok _ _ _ _ _ (load_Ok _ _ _ M2)).
      rewrite N2, (proj2 (Z.eqb_neq _ _) Hy0). rewrite (bind_Ok _ _ _ _ _ (load_Ok _ _ _ M3)).
      by apply assign_Ok.
    - cbn [remove_loop]. rewrite (bind_Ok _ _ _ _ _ (load_Ok _ _ _ M1)), N1.
      rewrite (proj2 (Z.eqb_neq _ _) Hx0), Z.eqb_refl. cbn [negb andb].
      destruct k; cbn [remove_loop]; rewrite (bind_Ok _ _ _ _ _ (load_Ok _ _ _ M2)), N2;
      rewrite (proj2 (Z.eqb_neq y x)) by done; by rewrite andb_false_r. }
  exists (mkListHeap h' (delete x m')). unfold xtRemoveFromList, on_lists.
  rewrite (bind_Ok _ _ _ tt (mkListHeap h m')) by (unfold zoom; cbn [lists heap]; by rewrite U).
  split; [|split].
  - apply out_or_Ok. unfold xtDestroyList. rewrite check_then by done.
    rewrite (bind_Ok _ _ _ tt (mkListHeap h' m')) by (unfold on_heap, zoom; cbn [lists heap]; by rewrite Hf).
    done.
  - cbn [lists]. rewrite lookup_delete_ne by done. unfold m'. rewrite lookup_insert_ne by done.
    rewrite M1. by destruct n1; cbn in *; subst.
  - cbn [lists]. apply lookup_delete_eq.
Qed.

(** Three nodes: 16 -> 32, and 48 alone. *)
Definition demo_lists : Lists := {[16 := mkList 1 32; 32 := mkList 2 NULL; 48 := mkList 3 NULL]}.

Lemma demo_is_list : is_list demo_lists 16 [(16, 1); (32, 2)] /\ is_list demo_lists 48 [(48, 3)].
Proof.
  split; (split; [|by apply (bool_decide_unpack _); vm_compute]); cbn;
    repeat (split; [done|]; split; [done|]; eexists; split; [done|]; split; [done|]); done.
Qed.

Lemma xtInsertList_spec_witness :
  exists m', xtInsertList 16 48 demo_lists = Ok tt m' /\ is_list m' 16 [(16, 1); (48, 3); (32, 2)].
Proof.
  destruct demo_is_list as [H1 H2]. apply (xtInsertList_spec demo_lists 16 48 1 [(32, 2)] [(48, 3)] H1 H2); [done|].
  by apply (bool_decide_unpack _); vm_compute.
Defined.

Lemma xtIndexList_spec_witness : xtListLength 16 demo_lists = Ok 2 demo_lists /\ xtIndexList 16 1 demo_lists = Ok 32 demo_lists.
Proof. by apply (xtIndexList_spec demo_lists 16 1 [(16, 1); (32, 2)] (proj1 demo_is_list)). Defined.
