(* ===== verification/Queue.v ===== *)
(** Queues of pointers: xtkernel/queue.c, over the heap's interface. *)
From Stdlib Require Import ZArith Lia.
From stdpp Require Import base tactics list gmap fin_maps numbers.
From S2P Require Import Prelude Allocator.

Open Scope Z_scope.

(** * Data *)

Record XTQueueNode := mkQNode { data : Z; next : Z }.

(** [lock] is never assigned nor read by the code. *)
Record XTQueue := mkQueue { head : Z; tail : Z; lock : Z }.

Record QueueState (H : Type) := mkQState {
  heap : H;
  queues : gmap Z XTQueue;
  nodes : gmap Z XTQueueNode
}.

Arguments mkQState {H} _ _ _.
Arguments heap {H} _.
Arguments queues {H} _.
Arguments nodes {H} _.

Definition set_head (p : Z) (q : XTQueue) : XTQueue := mkQueue p (tail q) (lock q).

Definition set_tail (p : Z) (q : XTQueue) : XTQueue := mkQueue (head q) p (lock q).

Definition set_next (p : Z) (n : XTQueueNode) : XTQueueNode := mkQNode (data n) p.

Section Queue.
Context {H : Type} {A : Allocator H}.

Definition on_heap {X} (m : M H X) : M (QueueState H) X :=
  zoom heap (fun h s => mkQState h (queues s) (nodes s)) m.

Definition on_queues {X} (m : M (gmap Z XTQueue) X) : M (QueueState H) X :=
  zoom queues (fun q s => mkQState (heap s) q (nodes s)) m.

Definition on_nodes {X} (m : M (gmap Z XTQueueNode) X) : M (QueueState H) X :=
  zoom nodes (fun n s => mkQState (heap s) (queues s) n) m.

(** * Operations *)

Definition xtCreateQueueNode (d : Z) : M (QueueState H) Z :=
  result ← on_heap (xtHeapAlloc 16);
  on_nodes (create result (mkQNode d NULL)) ;;;
  mret result.

(** The popped value is written through [data] when that is not NULL; here it
    is the result. *)
Definition xtPopQueue (q : Z) : M (QueueState H) Z :=
  XT_CHECK_ARG_IS_NULL q ;;;
  qs ← on_queues (load q);
  XT_CHECK_ARG_IS_NULL (head qs) ;;;
  n ← on_nodes (load (head qs));
  on_queues (assign q (set_head (next n))) ;;;
  (if next n =? NULL then on_queues (assign q (set_tail NULL)) else mret tt) ;;;
  on_heap (xtHeapFree (head qs)) ;;;
  on_nodes (dispose (head qs)) ;;;
  mret (data n).

Definition xtPushQueue (q d : Z) : M (QueueState H) unit :=
  XT_CHECK_ARG_IS_NULL q ;;;
  newNode ← xtCreateQueueNode d;
  qs ← on_queues (load q);
  (if tail qs =? NULL
   then on_queues (assign q (set_tail newNode))
   else
     on_nodes (assign (tail qs) (set_next newNode)) ;;;
     on_queues (assign q (set_tail newNode))) ;;;
  qs ← on_queues (load q);
  if head qs =? NULL then on_queues (assign q (set_head (tail qs))) else mret tt.

(** [garbage] is what the uninitialised field [lock] holds. *)
Definition xtCreateQueue (garbage : Z) : M (QueueState H) Z :=
  result ← on_heap (xtHeapAlloc 24);
  on_queues (create result (mkQueue NULL NULL garbage)) ;;;
  mret result.

Definition xtDestroyQueue (result : Z) : M (QueueState H) unit :=
  on_heap (xtHeapFree result) ;;;
  on_queues (dispose result).

(** [for (i = q->head, prev = NULL; i != NULL; prev = i, i = i->next)] *)
Fixpoint remove_loop (fuel : nat) (q i prev d : Z) : M (QueueState H) unit :=
  if i =? NULL then throw XT_NOT_FOUND
  else
    n ← on_nodes (load i);
    if data n =? d then
      (if prev =? NULL
       then on_queues (assign q (set_head (next n)))
       else on_nodes (assign prev (set_next (next n)))) ;;;
      (if next n =? NULL then on_queues (assign q (set_tail prev)) else mret tt) ;;;
      out_or tt (on_heap (xtHeapFree i)) ;;;
      on_nodes (dispose i)
    else match fuel with
         | O => nofuel
         | S fuel => remove_loop fuel q (next n) i d
         end.

(** Fuel for a walk over every node there is. *)
Definition xtRemoveFromQueue (q d : Z) : M (QueueState H) unit :=
  qs ← on_queues (load q);
  s ← get;
  remove_loop (size (nodes s)) q (head qs) NULL d.

(** * The specification: a queue is the list of its data *)

(** The address of the last node. *)
Definition last_addr (l : list (Z * Z)) : Z := foldl (fun _ x => x.1) NULL l.

(** The queue at [q] consists of the nodes [l]; its objects are live. *)
Definition queue_rep (s : QueueState H) (L : gset Z) (q : Z) (l : list (Z * Z)) : Prop :=
  heap_ok (heap s) L /\ dom (nodes s) ∪ dom (queues s) ⊆ L /\ dom (nodes s) ## dom (queues s) /\
  q <> NULL /\ NoDup l.*1 /\
  exists qs, queues s !! q = Some qs /\ chain next data (nodes s) (head qs) l NULL /\
    tail qs = last_addr l.

Definition is_queue (s : QueueState H) (L : gset Z) (q : Z) (xs : list Z) : Prop :=
  exists l, queue_rep s L q l /\ l.*2 = xs.

(** The first node that holds [d], and the nodes without it. *)
Fixpoint remove_first (d : Z) (l : list (Z * Z)) : option (Z * list (Z * Z)) :=
  match l with
  | [] => None
  | (a, e) :: l =>
    if e =? d then Some (a, l)
    else match remove_first d l with Some (b, l') => Some (b, (a, e) :: l') | None => None end
  end.

(** Calls on one queue, and the answers a caller gets. *)
Inductive queue_op := Push (d : Z) | Pop | Remove (d : Z).

Inductive answer := Done | Popped (d : Z) | Failed (code : Z).

Definition call (q : Z) (o : queue_op) : M (QueueState H) answer :=
  match o with
  | Push d => r ← attempt (xtPushQueue q d);
              mret (match r with inl _ => Done | inr c => Failed c end)
  | Pop => r ← attempt (xtPopQueue q);
           mret (match r with inl d => Popped d | inr c => Failed c end)
  | Remove d => r ← attempt (xtRemoveFromQueue q d);
                mret (match r with inl _ => Done | inr c => Failed c end)
  end.

Fixpoint calls (q : Z) (l : list queue_op) : M (QueueState H) (list answer) :=
  match l with
  | [] => mret []
  | o :: l => r ← call q o; rs ← calls q l; mret (r :: rs)
  end.

End Queue.

(** The same calls on a list. *)
Fixpoint delete_first (d : Z) (xs : list Z) : list Z :=
  match xs with
  | [] => []
  | x :: xs => if x =? d then xs else x :: delete_first d xs
  end.

Definition spec_call (o : queue_op) (xs : list Z) : answer * list Z :=
  match o with
  | Push d => (Done, xs ++ [d])
  | Pop => match xs with [] => (Failed XT_INVALID_PARAMETER, []) | x :: xs => (Popped x, xs) end
  | Remove d => if decide (d ∈ xs) then (Done, delete_first d xs) else (Failed XT_NOT_FOUND, xs)
  end.

Fixpoint spec_calls (l : list queue_op) (xs : list Z) : list answer * list Z :=
  match l with
  | [] => ([], xs)
  | o :: l => let '(r, xs) := spec_call o xs in let '(rs, xs) := spec_calls l xs in (r :: rs, xs)
  end.

(** * Lemmas *)

Ltac qstep H :=
  unfold on_heap, on_queues, on_nodes, zoom; cbn [heap queues nodes]; rewrite H; reflexivity.

Lemma last_addr_snoc l x : last_addr (l ++ [x]) = x.1.
Proof. unfold last_addr. by rewrite foldl_app. Qed.

Section Lemmas.
Context {H : Type} {A : Allocator H}.
Implicit Types (s : QueueState H) (L : gset Z).

Lemma load_queue h Q N q qs :
  Q !! q = Some qs ->
  (on_queues (load q) : M (QueueState H) XTQueue) (mkQState h Q N) = Ok qs (mkQState h Q N).
Proof. intros E. qstep (load_Ok _ _ _ E). Qed.

Lemma assign_queue h Q N q f qs :
  Q !! q = Some qs ->
  (on_queues (assign q f) : M (QueueState H) unit) (mkQState h Q N) = Ok tt (mkQState h (<[q := f qs]> Q) N).
Proof. intros E. qstep (assign_Ok Q q f _ E). Qed.

Lemma load_node h Q N a n :
  N !! a = Some n ->
  (on_nodes (load a) : M (QueueState H) XTQueueNode) (mkQState h Q N) = Ok n (mkQState h Q N).
Proof. intros E. qstep (load_Ok _ _ _ E). Qed.

Lemma assign_node h Q N a f n :
  N !! a = Some n ->
  (on_nodes (assign a f) : M (QueueState H) unit) (mkQState h Q N) = Ok tt (mkQState h Q (<[a := f n]> N)).
Proof. intros E. qstep (assign_Ok N a f _ E). Qed.

Lemma create_node_ok h Q N d p h' :
  xtHeapAlloc 16 h = Ok p h' ->
  xtCreateQueueNode d (mkQState h Q N) = Ok p (mkQState h' Q (<[p := mkQNode d NULL]> N)).
Proof.
  intros E. unfold xtCreateQueueNode. by rewrite (bind_Ok _ _ _ p (mkQState h' Q N)) by qstep E.
Qed.

Lemma free_node_ok h Q N a h' :
  xtHeapFree a h = Ok tt h' ->
  (on_heap (xtHeapFree a) ;;; on_nodes (dispose a)) (mkQState h Q N) = Ok tt (mkQState h' Q (delete a N)).
Proof. intros E. by rewrite (bind_Ok _ _ _ tt (mkQState h' Q N)) by qstep E. Qed.

(** A push onto the nodes of a queue. *)
Lemma push_rep s L q l d p h' :
  queue_rep s L q l -> xtHeapAlloc 16 (heap s) = Ok p h' ->
  exists s', xtPushQueue q d s = Ok tt s' /\ queue_rep s' ({[p]} ∪ L) q (l ++ [(p, d)]).
Proof.
  intros (Hok & Hdom & Hdis & Hq & Hnd & qs & Hqs & Hc & Ht) Ha.
  destruct s as [h Q N]. cbn [heap queues nodes] in *.
  destruct (alloc_fresh _ _ _ _ _ Hok Ha) as (Hp0 & Hp & Hok').
  assert (q ∈ dom Q) as HqQ by (apply elem_of_dom; eauto).
  assert (p ∉ l.*1) as Hpl by (intros X; eapply chain_dom in X; [|done]; set_solver).
  unfold xtPushQueue. rewrite check_then by done.
  rewrite (bind_Ok _ _ _ _ _ (create_node_ok _ _ _ _ _ _ Ha)).
  set (N1 := <[p := mkQNode d NULL]> N). set (Q1 := <[q := set_tail p qs]> Q).
  assert (Q1 !! q = Some (set_tail p qs)) as E1 by apply lookup_insert_eq.
  rewrite (bind_Ok _ _ _ _ _ (load_queue _ _ _ _ _ Hqs)).
  assert (NoDup (l ++ [(p, d)]).*1) as Hnd'.
  { rewrite fmap_app, list.NoDup_app. split; [done|]. split; [set_solver|apply NoDup_singleton]. }
  destruct (decide (l = [])) as [->|Hl].
  - cbn in Ht, Hc. rewrite Ht, Z.eqb_refl.
    rewrite (bind_Ok _ _ _ _ _ (assign_queue _ _ _ _ _ _ Hqs)).
    rewrite (bind_Ok _ _ _ _ _ (load_queue _ _ _ _ _ E1)).
    cbn [head set_tail]. rewrite Hc. cbn [Z.eqb NULL].
    eexists. split; [apply (assign_queue _ _ _ _ _ _ E1)|].
    unfold queue_rep. cbn [heap queues nodes]. subst Q1 N1. rewrite !dom_insert_L.
    do 5 (split; [done || set_solver|]). eexists. rewrite lookup_insert_eq.
    split; [done|]. split; [|done]. cbn.
    rewrite lookup_insert_eq. eauto 10.
  - destruct (list_snoc l Hl) as (l' & [a e] & ->).
    pose proof (chain_nonnull _ _ _ _ _ _ Hc Hl) as Hh0.
    rewrite last_addr_snoc in Ht. cbn [fst] in Ht.
    assert (chain next data N1 (head qs) (l' ++ [(a, e)]) NULL) as Hc1 by (by apply chain_insert).
    destruct (chain_relink next data set_next N1 (head qs) l' a e NULL p) as (n & Hn & _ & Hc2);
      [done|done|done|done|].
    assert (a <> NULL /\ a <> p) as [Ha0 Hap].
    { split; [|intros ->; apply Hpl; rewrite fmap_app; set_solver].
      eapply (chain_lookup _ _ _ _ _ _ a e) in Hc as [? _]; [done|]. set_solver. }
    rewrite Ht, (proj2 (Z.eqb_neq _ _) Ha0).
    rewrite (bind_Ok _ _ _ tt (mkQState h' Q1 (<[a := set_next p n]> N1))).
    2: { rewrite (bind_Ok _ _ _ _ _ (assign_node _ _ _ _ _ _ Hn)). by apply assign_queue. }
    rewrite (bind_Ok _ _ _ _ _ (load_queue _ _ _ _ _ E1)).
    cbn [head set_tail]. rewrite (proj2 (Z.eqb_neq _ _) Hh0).
    eexists. split; [done|].
    assert (a ∈ dom N1) as HaN by (apply elem_of_dom; eauto).
    unfold queue_rep. cbn [heap queues nodes]. subst Q1 N1. rewrite !dom_insert_L in *.
    do 5 (split; [done || set_solver|]). eexists. rewrite lookup_insert_eq.
    split; [done|]. cbn [head tail set_tail]. rewrite last_addr_snoc. split; [|done].
    apply chain_app. exists p. split; [done|]. cbn. split; [done|]. split; [done|].
    exists (mkQNode d NULL). by rewrite lookup_insert_ne, lookup_insert_eq by done.
Qed.

(** A pop from the nodes of a queue. *)
Lemma pop_rep s L q l a d :
  queue_rep s L q ((a, d) :: l) ->
  exists s', xtPopQueue q s = Ok d s' /\ queue_rep s' (L ∖ {[a]}) q l.
Proof.
  intros (Hok & Hdom & Hdis & Hq & Hnd & qs & Hqs & (Hh & Ha0 & n & Hn & Hd & Hc) & Ht).
  destruct s as [h Q N]. cbn [heap queues nodes] in *.
  assert (a ∈ dom N) as HaN by (apply elem_of_dom; eauto).
  destruct (free_live h L a Hok) as (h' & Hf & Hok'); [set_solver|].
  cbn [fmap list_fmap fst] in Hnd. rewrite list.NoDup_cons in Hnd. destruct Hnd as [Hal Hnd].
  unfold xtPopQueue. rewrite check_then by done.
  rewrite (bind_Ok _ _ _ _ _ (load_queue _ _ _ _ _ Hqs)), Hh, check_then by done.
  rewrite (bind_Ok _ _ _ _ _ (load_node _ _ _ _ _ Hn)).
  rewrite (bind_Ok _ _ _ _ _ (assign_queue _ _ _ _ _ _ Hqs)).
  set (q2 := if next n =? NULL then set_tail NULL (set_head (next n) qs) else set_head (next n) qs).
  rewrite (bind_Ok _ _ _ tt (mkQState h (<[q := q2]> Q) N)).
  2: { subst q2. destruct (next n =? NULL); [|done].
       rewrite (assign_queue _ _ _ _ _ (set_head (next n) qs)) by apply lookup_insert_eq.
       by rewrite insert_insert_eq. }
  rewrite (bind_Ok _ _ _ tt (mkQState h' (<[q := q2]> Q) N)) by qstep Hf.
  assert (q ∈ dom Q) as HqQ by (apply elem_of_dom; eauto).
  eexists. split; [cbv [mbind M_bind mret M_ret]; cbn; by rewrite Hd|].
  unfold queue_rep. cbn [heap queues nodes]. rewrite dom_insert_L, dom_delete_L.
  do 5 (split; [done || set_solver|]). exists q2. rewrite lookup_insert_eq. split; [done|].
  assert (head q2 = next n) as -> by (subst q2; by destruct (_ =? _)).
  split; [by apply chain_delete|].
  subst q2. destruct (next n =? NULL) eqn:E; zbool; cbn [tail set_tail set_head].
  - destruct l as [|[b e] l]; [done|]. cbn in Hc. naive_solver.
  - rewrite Ht. destruct l as [|[b e] l]; [cbn in Hc; congruence|]. done.
Qed.

(** Taking a node out: its predecessor (or the queue's head) and the tail. *)
Lemma unlink_ok h Q N q qs l1 l2 a d n :
  Q !! q = Some qs -> tail qs = last_addr (l1 ++ (a, d) :: l2) ->
  NoDup (l1 ++ (a, d) :: l2).*1 -> next n <> a ->
  chain next data N (head qs) l1 a -> chain next data N (next n) l2 NULL ->
  exists q2 N2, dom N2 = dom N /\ chain next data N2 (head q2) (l1 ++ l2) NULL /\
    tail q2 = last_addr (l1 ++ l2) /\
    ((if last_addr l1 =? NULL then on_queues (assign q (set_head (next n)))
      else on_nodes (assign (last_addr l1) (set_next (next n)))) ;;;
     (if next n =? NULL then on_queues (assign q (set_tail (last_addr l1))) else mret tt) : M (QueueState H) unit)
      (mkQState h Q N) = Ok tt (mkQState h (<[q := q2]> Q) N2).
Proof.
  intros Hqs Ht Hnd Hna C1 C2.
  rewrite fmap_app in Hnd. cbn [fmap list_fmap fst] in Hnd.
  rewrite list.NoDup_app, list.NoDup_cons in Hnd. destruct Hnd as (D1 & Dx & Da & D2).
  set (fix_tail q0 := if next n =? NULL then set_tail (last_addr l1) q0 else q0).
  assert (forall q0, head (fix_tail q0) = head q0) as FH by (intros q0; subst fix_tail; cbn; by destruct (_ =? _)).
  assert (forall q0, tail q0 = tail qs -> tail (fix_tail q0) = last_addr (l1 ++ l2)) as FT.
  { intros q0 E. subst fix_tail. cbn. unfold last_addr in *. rewrite !foldl_app in *.
    destruct (next n =? NULL) eqn:En; zbool.
    - destruct l2 as [|[b e] l2]; [done|]. cbn in C2. naive_solver.
    - rewrite E, Ht. destruct l2 as [|[b e] l2]; [cbn in C2; congruence|]. done. }
  destruct (decide (l1 = [])) as [->|Hl1].
  - exists (fix_tail (set_head (next n) qs)), N. split; [done|]. rewrite FH.
    split; [done|]. split; [by apply FT|]. cbn [last_addr foldl Z.eqb NULL].
    rewrite (bind_Ok _ _ _ _ _ (assign_queue _ _ _ _ _ _ Hqs)). subst fix_tail. cbn beta.
    destruct (next n =? NULL); [|done].
    rewrite (assign_queue _ _ _ _ _ (set_head (next n) qs)) by apply lookup_insert_eq.
    by rewrite insert_insert_eq.
  - destruct (list_snoc l1 Hl1) as (l & [b e] & ->). rewrite !last_addr_snoc. cbn [fst].
    destruct (chain_relink next data set_next N (head qs) l b e a (next n)) as (k & Hk & _ & Hc);
      [done|done|done|done|].
    assert (b <> NULL) as Hb by
      (eapply (chain_lookup _ _ _ _ _ _ b e) in C1 as [? _]; [done|set_solver]).
    assert (b ∈ dom N) as HbN by (apply elem_of_dom; eauto).
    exists (fix_tail qs), (<[b := set_next (next n) k]> N).
    split; [rewrite dom_insert_L; set_solver|]. rewrite FH.
    split; [apply chain_app; exists (next n); split; [done|];
            apply chain_insert; [rewrite fmap_app in Dx; set_solver|done]|].
    split; [by apply FT|]. rewrite (proj2 (Z.eqb_neq _ _) Hb).
    rewrite (bind_Ok _ _ _ _ _ (assign_node _ _ _ _ _ _ Hk)). subst fix_tail. cbn beta.
    rewrite !last_addr_snoc. cbn [fst].
    destruct (next n =? NULL); [by rewrite (assign_queue _ _ _ _ _ _ Hqs)|].
    cbv [mret M_ret]. by rewrite (insert_id Q q qs).
Qed.

Lemma remove_here h Q N L q qs l1 l2 a d fuel :
  queue_rep (mkQState h Q N) L q (l1 ++ (a, d) :: l2) -> Q !! q = Some qs ->
  chain next data N (head qs) l1 a -> chain next data N a ((a, d) :: l2) NULL ->
  exists s', remove_loop fuel q a (last_addr l1) d (mkQState h Q N) = Ok tt s' /\
    queue_rep s' (L ∖ {[a]}) q (l1 ++ l2).
Proof.
  intros (Hok & Hdom & Hdis & Hq & Hnd & qs' & Hqs' & _ & Ht) Hqs C1 (_ & Ha0 & n & Hn & Hd & C2).
  cbn [heap queues nodes] in *. assert (qs' = qs) as -> by congruence.
  assert (a ∈ dom N) as HaN by (apply elem_of_dom; eauto).
  assert (q ∈ dom Q) as HqQ by (apply elem_of_dom; eauto).
  destruct (free_live h L a Hok) as (h' & Hf & Hok'); [set_solver|].
  pose proof Hnd as Hnd'. rewrite fmap_app in Hnd. cbn [fmap list_fmap fst] in Hnd.
  rewrite list.NoDup_app, list.NoDup_cons in Hnd. destruct Hnd as (D1 & Dx & Da & D2).
  destruct (unlink_ok h Q N q qs l1 l2 a d n Hqs Ht Hnd') as (q2 & N2 & DN & E1 & E3 & E4); try done.
  { intros E. destruct l2 as [|[b e] l2]; cbn in C2; [congruence|]. set_solver. }
  exists (mkQState h' (<[q := q2]> Q) (delete a N2)). split.
  - destruct fuel; cbn [remove_loop]; rewrite (proj2 (Z.eqb_neq _ _) Ha0);
      rewrite (bind_Ok _ _ _ _ _ (load_node _ _ _ _ _ Hn)), Hd, Z.eqb_refl;
      rewrite <- bind_bind; rewrite (bind_Ok _ _ _ _ _ E4);
      rewrite (bind_Ok _ _ _ tt (mkQState h' (<[q := q2]> Q) N2)) by (apply out_or_Ok; qstep Hf);
      done.
  - unfold queue_rep. cbn [heap queues nodes]. rewrite dom_insert_L, dom_delete_L, DN, fmap_app.
    do 4 (split; [done || set_solver|]).
    split; [rewrite list.NoDup_app; set_solver|]. exists q2. rewrite lookup_insert_eq. split; [done|].
    split; [|done]. apply chain_delete; [rewrite fmap_app; set_solver|]. done.
Qed.

Lemma remove_loop_ok h Q N L q qs d l2 : forall l1 fuel i,
  queue_rep (mkQState h Q N) L q (l1 ++ l2) -> Q !! q = Some qs ->
  chain next data N (head qs) l1 i -> chain next data N i l2 NULL -> (length l2 <= fuel)%nat ->
  match remove_first d l2 with
  | None => remove_loop fuel q i (last_addr l1) d (mkQState h Q N) = Err XT_NOT_FOUND (mkQState h Q N)
  | Some (a, l2') => exists s', remove_loop fuel q i (last_addr l1) d (mkQState h Q N) = Ok tt s' /\
      queue_rep s' (L ∖ {[a]}) q (l1 ++ l2')
  end.
Proof.
  induction l2 as [|[a e] l2 IH]; intros l1 fuel i HR Hqs C1 C2 Hf.
  - cbn in C2. subst i. destruct fuel; done.
  - cbn [remove_first]. pose proof C2 as (-> & Ha0 & n & Hn & Hd & C3).
    destruct (e =? d) eqn:E; zbool.
    + subst e. subst d. by eapply remove_here.
    + cbn [length] in Hf. destruct fuel as [|fuel]; [lia|].
      assert (remove_loop (S fuel) q a (last_addr l1) d (mkQState h Q N) =
              remove_loop fuel q (next n) (last_addr (l1 ++ [(a, e)])) d (mkQState h Q N)) as ->.
      { cbn [remove_loop]. rewrite (proj2 (Z.eqb_neq _ _) Ha0).
        rewrite (bind_Ok _ _ _ _ _ (load_node _ _ _ _ _ Hn)), Hd.
        rewrite (proj2 (Z.eqb_neq _ _) E). by rewrite last_addr_snoc. }
      specialize (IH (l1 ++ [(a, e)]) fuel (next n)). rewrite <- !app_assoc in IH.
      specialize (IH HR Hqs). destruct (remove_first d l2) as [[b l2']|].
      * destruct IH as (s' & E1 & E2); [|done|lia|].
        { apply chain_app. exists a. split; [done|]. cbn. eauto 10. }
        exists s'. split; [done|]. by rewrite <- app_assoc in E2.
      * apply IH; [|done|lia]. apply chain_app. exists a. split; [done|]. cbn. eauto 10.
Qed.

Lemma remove_rep s L q l d :
  queue_rep s L q l ->
  match remove_first d l with
  | None => xtRemoveFromQueue q d s = Err XT_NOT_FOUND s
  | Some (a, l') => exists s', xtRemoveFromQueue q d s = Ok tt s' /\ queue_rep s' (L ∖ {[a]}) q l'
  end.
Proof.
  intros HR. pose proof HR as (_ & _ & _ & _ & Hnd & qs & Hqs & Hc & _).
  destruct s as [h Q N]. cbn [heap queues nodes] in *. unfold xtRemoveFromQueue.
  rewrite (bind_Ok _ _ _ _ _ (load_queue _ _ _ _ _ Hqs)). cbv [mbind M_bind get]. cbn [nodes].
  apply (remove_loop_ok h Q N L q qs d l [] (size N) (head qs)); try done.
  by eapply chain_length.
Qed.

End Lemmas.

Lemma remove_first_spec d l :
  match remove_first d l with
  | None => d ∉ l.*2
  | Some (_, l') => d ∈ l.*2 /\ l'.*2 = delete_first d l.*2
  end.
Proof.
  induction l as [|[a e] l IH]; cbn [remove_first delete_first fmap list_fmap snd]; [set_solver|].
  destruct (e =? d) eqn:E; zbool; [set_solver|].
  destruct (remove_first d l) as [[b l']|]; [|set_solver].
  destruct IH as [IH1 IH2]. split; [set_solver|]. cbn. by rewrite IH2.
Qed.

(** * Theorems *)

(** C31: A queue is a first-in first-out list: on every sequence of pushes, pops and removals, with memory for the nodes, the code gives the answers and leaves the contents that the same calls give and leave on a list. *)
Theorem queue_refines_list {H} `{Allocator H} (s : QueueState H) (L : gset Z) (q : Z)
    (xs : list Z) (ops : list queue_op) :
  (forall h, exists p h', xtHeapAlloc 16 h = Ok p h') -> is_queue s L q xs ->
  exists s' L', calls q ops s = Ok (spec_calls ops xs).1 s' /\ is_queue s' L' q (spec_calls ops xs).2.
Proof.
  intros Hmem. revert s L xs; induction ops as [|o ops IH]; intros s L xs (l & HR & <-).
  { exists s, L. split; [done|]. by exists l. }
  assert (exists s1 L1, call q o s = Ok (spec_call o l.*2).1 s1 /\ is_queue s1 L1 q (spec_call o l.*2).2)
    as (s1 & L1 & E1 & R1).
  { destruct o as [d| |d]; cbn [call spec_call].
    - destruct (Hmem (heap s)) as (p & h' & Ha).
      destruct (push_rep s L q l d p h' HR Ha) as (s1 & E & R). exists s1, ({[p]} ∪ L).
      unfold attempt, mbind, M_bind. rewrite E. split; [done|]. exists (l ++ [(p, d)]).
      split; [done|]. by rewrite fmap_app.
    - destruct l as [|[a d] l].
      + exists s, L. split; [|by exists []].
        destruct HR as (_ & _ & _ & Hq & _ & qs & Hqs & Hc & _). destruct s as [h Q N].
        cbn in Hqs, Hc. unfold attempt, mbind at 1, M_bind at 1. unfold xtPopQueue.
        rewrite check_then by done. rewrite (bind_Ok _ _ _ _ _ (load_queue _ _ _ _ _ Hqs)).
        by rewrite Hc.
      + destruct (pop_rep s L q l a d HR) as (s1 & E & R). exists s1, (L ∖ {[a]}).
        unfold attempt, mbind, M_bind. rewrite E. split; [done|]. by exists l.
    - pose proof (remove_rep s L q l d HR) as Hr. pose proof (remove_first_spec d l) as Hs.
      destruct (remove_first d l) as [[a l']|].
      + destruct Hr as (s1 & E & R). exists s1, (L ∖ {[a]}). destruct Hs as [Hs1 Hs2].
        rewrite decide_True by done. unfold attempt, mbind, M_bind. rewrite E.
        split; [done|]. exists l'. by rewrite Hs2.
      + exists s, L. rewrite decide_False by done. unfold attempt, mbind, M_bind. rewrite Hr.
        split; [done|]. by exists l. }
  destruct (IH s1 L1 (spec_call o l.*2).2 R1) as (s2 & L2 & E2 & R2). exists s2, L2.
  cbn [calls spec_calls]. rewrite (bind_Ok _ _ _ _ _ E1), (bind_Ok _ _ _ _ _ E2).
  destruct (spec_call o l.*2) as [r ys]. cbn [fst snd] in *.
  destruct (spec_calls ops ys) as [rs zs]. done.
Qed.

(** An empty queue at 16. *)
Definition demo_queues : QueueState Bump := mkQState (mkBump 64 {[16]}) {[16 := mkQueue NULL NULL 0]} ∅.

Lemma demo_is_queue : is_queue demo_queues {[16]} 16 [].
Proof.
  exists []. split; [|done]. split.
  - split; [done|]. split; [done|]. intros p ->%elem_of_singleton. cbn. lia.
  - split; [by vm_compute|]. split; [cbn; set_solver|]. split; [done|]. split; [constructor|].
    by exists (mkQueue NULL NULL 0).
Qed.

Lemma queue_refines_list_witness :
  exists s' L', calls 16 [Push 5; Push 6; Remove 5; Pop; Pop] demo_queues =
      Ok [Done; Done; Done; Popped 6; Failed XT_INVALID_PARAMETER] s' /\
    is_queue s' L' 16 [].
Proof.
  apply (queue_refines_list demo_queues {[16]} 16 [] [Push 5; Push 6; Remove 5; Pop; Pop]); [|exact demo_is_queue].
  intros h. by eexists _, _.
Defined.
