(* ===== verification/Memory.v ===== *)
(** Physical memory and the kernel heap: xtkernel/memory.c. The heap falls back
    on the page allocator and the page allocator keeps its lists in the heap,
    so both work on one state. *)
From Stdlib Require Import ZArith Lia.
From stdpp Require Import base tactics list gmap fin_maps numbers.
From S2P Require Import Prelude Allocator ListC.

Open Scope Z_scope.

(** * Data *)

(** The header in front of every block; [hsize] counts it in. *)
Record XTHeapEntry := mkEntry { hsize : Z; used : Z; hnext : Z; hprev : Z }.

Record XTHeap := mkHeap { heap_start : Z; heap_size : Z }.

Record XTMemoryMapEntry := mkMap { attributes : Z; start : Z; length : Z }.

(** The globals of memory.c and the objects they lead to. *)
Record Mem := mkMem {
  heap_initialized : bool;
  heaps : Z;
  memoryDescs : Z;
  entries : gmap Z XTHeapEntry;
  heap_structs : gmap Z XTHeap;
  lists : Lists;
  mapEntries : gmap Z XTMemoryMapEntry
}.

(** Where the linker put the statics [heap_data], [static_heap_meta] and
    [static_heap_list_node]. *)
Record Statics := mkStatics {
  heap_data : Z;
  static_heap_meta : Z;
  static_heap_list_node : Z
}.

Definition HEAP_HEADER_SIZE : Z := 32.

Definition MIN_BLOCK_SIZE : Z := HEAP_HEADER_SIZE + 16.

Definition HEAP_DATA_SIZE : Z := 64 * 1024.

Definition HIGH_MEM : Z := 0xffff800000000000.

Definition HIGHER_MEM (x : Z) : Z := Z.lor x HIGH_MEM.

Definition XT_MEM_UNKNOWN : Z := 0.

Definition XT_MEM_FREE : Z := 1.

Definition XT_MEM_RESERVED : Z := 2.

Definition XT_MEM_ACPI : Z := 3.

Definition XT_MEM_NVS : Z := 4.

Definition XT_MEM_UNUSABLE : Z := 5.

Definition XT_MEM_MMIO : Z := 6.

(** [x & ~15] on 64 bits. *)
Definition align_down16 (x : Z) : Z := Z.land (u64 x) (2 ^ 64 - 16).

(** * Access to the stores *)

Definition set_heaps (p : Z) (s : Mem) : Mem :=
  mkMem (heap_initialized s) p (memoryDescs s) (entries s) (heap_structs s) (lists s) (mapEntries s).

Definition set_memoryDescs (p : Z) (s : Mem) : Mem :=
  mkMem (heap_initialized s) (heaps s) p (entries s) (heap_structs s) (lists s) (mapEntries s).

Definition set_initialized (s : Mem) : Mem :=
  mkMem true (heaps s) (memoryDescs s) (entries s) (heap_structs s) (lists s) (mapEntries s).

Definition on_entries {X} (m : M (gmap Z XTHeapEntry) X) : M Mem X :=
  zoom entries (fun e s => mkMem (heap_initialized s) (heaps s) (memoryDescs s) e (heap_structs s) (lists s) (mapEntries s)) m.

Definition on_structs {X} (m : M (gmap Z XTHeap) X) : M Mem X :=
  zoom heap_structs (fun e s => mkMem (heap_initialized s) (heaps s) (memoryDescs s) (entries s) e (lists s) (mapEntries s)) m.

Definition on_lists {X} (m : M Lists X) : M Mem X :=
  zoom lists (fun e s => mkMem (heap_initialized s) (heaps s) (memoryDescs s) (entries s) (heap_structs s) e (mapEntries s)) m.

Definition on_maps {X} (m : M (gmap Z XTMemoryMapEntry) X) : M Mem X :=
  zoom mapEntries (fun e s => mkMem (heap_initialized s) (heaps s) (memoryDescs s) (entries s) (heap_structs s) (lists s) e) m.

Definition set_hsize (n : Z) (e : XTHeapEntry) : XTHeapEntry := mkEntry n (used e) (hnext e) (hprev e).

Definition set_used (n : Z) (e : XTHeapEntry) : XTHeapEntry := mkEntry (hsize e) n (hnext e) (hprev e).

Definition set_hnext (n : Z) (e : XTHeapEntry) : XTHeapEntry := mkEntry (hsize e) (used e) n (hprev e).

Definition set_hprev (n : Z) (e : XTHeapEntry) : XTHeapEntry := mkEntry (hsize e) (used e) (hnext e) n.

Definition set_start (n : Z) (e : XTMemoryMapEntry) : XTMemoryMapEntry := mkMap (attributes e) n (length e).

Definition set_length (n : Z) (e : XTMemoryMapEntry) : XTMemoryMapEntry := mkMap (attributes e) (start e) n.

(** * The heap *)

Definition xtHeapSetupBlock (memory size : Z) : M (gmap Z XTHeapEntry) unit :=
  create memory (mkEntry size 0 NULL NULL).

(** The two calls on the static node: the second is refused (its argument is
    NULL) and the node keeps the zero it starts with. *)
Definition xtHeapInit (st : Statics) : M Mem unit :=
  s ← get;
  if heap_initialized s then mret tt
  else
    let start := heap_data st in
    let start := if start mod 16 =? 0 then start else align_down16 (start + 15) in
    let usable_size := u64 (HEAP_DATA_SIZE - (start - heap_data st)) in
    on_entries (xtHeapSetupBlock start (align_down16 usable_size)) ;;;
    on_structs (create (static_heap_meta st) (mkHeap start usable_size)) ;;;
    out_or tt (on_lists (xtSetListData (static_heap_list_node st) (static_heap_meta st))) ;;;
    out_or tt (on_lists (xtSetNextList (static_heap_list_node st) NULL)) ;;;
    modify (set_heaps (static_heap_list_node st)) ;;;
    modify set_initialized.

(** The head of the block at [current] becomes a block of [needed_size] bytes. *)
Definition split_block (current needed_size : Z) : M (gmap Z XTHeapEntry) unit :=
  cur ← load current;
  if hsize cur >=? u64 (needed_size + MIN_BLOCK_SIZE) then
    let new_block := current + needed_size in
    create new_block (mkEntry (hsize cur - needed_size) 0 (hnext cur) current) ;;;
    (if hnext cur =? NULL then mret tt else assign (hnext cur) (set_hprev new_block)) ;;;
    assign current (set_hsize needed_size) ;;;
    assign current (set_hnext new_block)
  else mret tt.

(** [while (current != NULL)]: the data pointer of the first block that fits. *)
Fixpoint search_blocks (fuel : nat) (current needed_size : Z)
    : M (gmap Z XTHeapEntry) (option Z) :=
  if current =? NULL then mret None
  else
    cur ← load current;
    if (used cur =? 0) && (hsize cur >=? needed_size) then
      split_block current needed_size ;;;
      assign current (set_used 1) ;;;
      mret (Some (current + HEAP_HEADER_SIZE))
    else match fuel with
         | O => nofuel
         | S fuel => search_blocks fuel (hnext cur) needed_size
         end.

(** [for (XTList *l = heaps; l; xtGetNextList(l, &l))] *)
Fixpoint search_heaps (fuel : nat) (l needed_size : Z) : M Mem (option Z) :=
  if l =? NULL then mret None
  else
    h ← out_or NULL (on_lists (xtGetListData l));
    heap ← on_structs (load h);
    s ← get;
    r ← on_entries (search_blocks (size (entries s)) (heap_start heap) needed_size);
    match r with
    | Some p => mret (Some p)
    | None =>
      match fuel with
      | O => nofuel
      | S fuel => l ← out_or l (on_lists (xtGetNextList l)); search_heaps fuel l needed_size
      end
    end.

(** The merge with the block before: the block that is left. *)
Definition merge_prev (block : Z) : M (gmap Z XTHeapEntry) Z :=
  b ← load block;
  if hprev b =? NULL then mret block
  else
    p ← load (hprev b);
    if used p =? 0 then
      assign (hprev b) (set_hsize (hsize p + hsize b)) ;;;
      assign (hprev b) (set_hnext (hnext b)) ;;;
      (if hnext b =? NULL then mret tt else assign (hnext b) (set_hprev (hprev b))) ;;;
      mret (hprev b)
    else mret block.

(** The merge with the block after. *)
Definition merge_next (block : Z) : M (gmap Z XTHeapEntry) unit :=
  b ← load block;
  if hnext b =? NULL then mret tt
  else
    n ← load (hnext b);
    if used n =? 0 then
      assign block (set_hsize (hsize b + hsize n)) ;;;
      assign block (set_hnext (hnext n)) ;;;
      (if hnext n =? NULL then mret tt else assign (hnext n) (set_hprev block))
    else mret tt.

(** [xtHeapFree] reads the header in front of whatever pointer it is given; an
    address where no header was ever written is a fault. The headers of merged
    blocks stay in memory. *)
Definition heap_free (ptr : Z) : M (gmap Z XTHeapEntry) unit :=
  XT_CHECK_ARG_IS_NULL ptr ;;;
  let block := ptr - HEAP_HEADER_SIZE in
  b ← load block;
  if used b =? 0 then throw XT_INVALID_PARAMETER
  else
    assign block (set_used 0) ;;;
    block ← merge_prev block;
    merge_next block.

Definition xtHeapFree (ptr : Z) : M Mem unit := on_entries (heap_free ptr).

Definition xtDestroyList (list : Z) : M Mem unit :=
  XT_CHECK_ARG_IS_NULL list ;;;
  xtHeapFree list ;;;
  on_lists (dispose list).

(** * Pages *)

(** [size+((1ull << PAGE_SHIFT))&(~(1ull << PAGE_SHIFT))]: [+] binds first. *)
Definition page_round (size : Z) : Z := Z.land (u64 (size + 0x1000)) (2 ^ 64 - 1 - 0x1000).

(** The pages are taken from the front of the entry; an empty entry leaves the
    list. The result codes of the list calls are dropped. *)
Definition take_pages (i prev entry size : Z) : M Mem Z :=
  e ← on_maps (load entry);
  on_maps (assign entry (set_start (u64 (start e + size)))) ;;;
  on_maps (assign entry (set_length (length e - size))) ;;;
  (if length e - size =? 0 then
     next ← out_or NULL (on_lists (xtGetNextList i));
     (if prev =? NULL then modify (set_memoryDescs next)
      else out_or tt (on_lists (xtSetNextList prev next))) ;;;
     out_or tt (xtDestroyList i)
   else mret tt) ;;;
  mret (start e).

(** One of the two loops of [xtAllocatePages]: [fits] is its test. *)
Fixpoint pages_loop (fuel : nat) (fits : XTMemoryMapEntry -> bool) (i prev size : Z)
    : M Mem (option Z) :=
  if i =? NULL then mret None
  else
    entry ← out_or NULL (on_lists (xtGetListData i));
    e ← on_maps (load entry);
    if fits e then out ← take_pages i prev entry size; mret (Some out)
    else match fuel with
         | O => nofuel
         | S fuel =>
           next ← out_or i (on_lists (xtGetNextList i));
           pages_loop fuel fits next i size
         end.

Definition xtAllocatePages (ptr size : Z) : M Mem Z :=
  let size := page_round size in
  s ← get;
  let fuel := stdpp.base.size (lists s) in
  r ← pages_loop fuel (fun e => (start e =? ptr) && (length e >=? size)) (memoryDescs s) NULL size;
  match r with
  | Some out => mret out
  | None =>
    s ← get;
    r ← pages_loop fuel (fun e => length e >=? size) (memoryDescs s) NULL size;
    match r with
    | Some out => mret out
    | None => throw XT_OUT_OF_MEMORY
    end
  end.

(** * Allocation *)

(** [size] after alignment, and the block it needs. *)
Definition needed (size : Z) : Z :=
  let needed_size := u64 (size + HEAP_HEADER_SIZE) in
  if needed_size <? MIN_BLOCK_SIZE then MIN_BLOCK_SIZE else needed_size.

(** [0x4000 ? needed_size < 0x4000 : ...] is the comparison, 0 or 1. The new
    heap is written into the pages but not linked into [heaps]. *)
Definition grow_heap (needed_size : Z) : M Mem unit :=
  let page_needed_size := if needed_size <? 0x4000 then 1 else 0 in
  page_raw ← xtAllocatePages NULL page_needed_size;
  let page_raw := HIGHER_MEM page_raw in
  let data_start := align_down16 (page_raw + 16 + 15) in
  on_structs (create page_raw (mkHeap data_start (0x4000 - (data_start - page_raw)))) ;;;
  on_entries (xtHeapSetupBlock data_start (0x4000 - (data_start - page_raw))).

(** [fuel] bounds the recursion at the end of the function. *)
Fixpoint xtHeapAlloc (st : Statics) (fuel : nat) (size : Z) : M Mem Z :=
  xtHeapInit st ;;;
  let size := align_down16 (size + 15) in
  let needed_size := needed size in
  s ← get;
  r ← search_heaps (stdpp.base.size (lists s)) (heaps s) needed_size;
  match r with
  | Some p => mret p
  | None =>
    grow_heap needed_size ;;;
    match fuel with
    | O => nofuel
    | S fuel => xtHeapAlloc st fuel size
    end
  end.

Definition xtCreateList (st : Statics) (fuel : nat) (d : Z) : M Mem Z :=
  result ← xtHeapAlloc st fuel 16;
  on_lists (create result (mkList d NULL)) ;;;
  mret result.

(** * Freeing pages *)

(** [while (curr)]: the last node whose entry starts at or below [addr], and
    the node after it. *)
Fixpoint place_loop (fuel : nat) (curr prev addr : Z) : M Mem (Z * Z) :=
  if curr =? NULL then mret (prev, curr)
  else
    entry ← out_or NULL (on_lists (xtGetListData curr));
    e ← on_maps (load entry);
    if start e >? addr then mret (prev, curr)
    else match fuel with
         | O => nofuel
         | S fuel =>
           next ← out_or curr (on_lists (xtGetNextList curr));
           place_loop fuel next curr addr
         end.

(** The map entry of a node, if there is a node. *)
Definition entry_of (node : Z) : M Mem Z :=
  if node =? NULL then mret NULL else out_or NULL (on_lists (xtGetListData node)).

Definition load_entry (entry : Z) : M Mem (option XTMemoryMapEntry) :=
  if entry =? NULL then mret None else e ← on_maps (load entry); mret (Some e).

(** The four cases of [xtFreePages] after the search. *)
Definition insert_pages (st : Statics) (fuel : nat) (prev curr addr size : Z) : M Mem unit :=
  newEntry ← xtHeapAlloc st fuel 24;
  on_maps (create newEntry (mkMap XT_MEM_FREE addr size)) ;;;
  newNode ← out_or NULL (xtCreateList st fuel newEntry);
  out_or tt (on_lists (xtSetNextList newNode curr)) ;;;
  if prev =? NULL then modify (set_memoryDescs newNode)
  else out_or tt (on_lists (xtSetNextList prev newNode)).

Definition xtFreePages (st : Statics) (fuel : nat) (addr size : Z) : M Mem unit :=
  s ← get;
  '(prev, curr) ← place_loop (stdpp.base.size (lists s)) (memoryDescs s) NULL addr;
  prevEntry ← entry_of prev;
  currEntry ← entry_of curr;
  pe ← load_entry prevEntry;
  ce ← load_entry currEntry;
  match pe with
  | Some p =>
    if u64 (start p + length p) =? addr then
      let len := u64 (length p + size) in
      on_maps (assign prevEntry (set_length len)) ;;;
      match ce with
      | Some c =>
        if u64 (start p + len) =? start c then
          on_maps (assign prevEntry (set_length (u64 (len + length c)))) ;;;
          nextAfterCurr ← out_or NULL (on_lists (xtGetNextList curr));
          out_or tt (on_lists (xtSetNextList prev nextAfterCurr)) ;;;
          out_or tt (xtDestroyList curr)
        else mret tt
      | None => mret tt
      end
    else
      match ce with
      | Some c =>
        if u64 (addr + size) =? start c then
          on_maps (assign currEntry (set_start addr)) ;;;
          on_maps (assign currEntry (set_length (u64 (length c + size))))
        else insert_pages st fuel prev curr addr size
      | None => insert_pages st fuel prev curr addr size
      end
  | None =>
    match ce with
    | Some c =>
      if u64 (addr + size) =? start c then
        on_maps (assign currEntry (set_start addr)) ;;;
        on_maps (assign currEntry (set_length (u64 (length c + size))))
      else insert_pages st fuel prev curr addr size
    | None => insert_pages st fuel prev curr addr size
    end
  end.

(** * The memory map of the firmware *)

(** The memory types of UEFI the code tells apart. *)
Inductive EFI_MEMORY_TYPE :=
| EfiReservedMemoryType | EfiLoaderCode | EfiLoaderData | EfiBootServicesCode
| EfiBootServicesData | EfiRuntimeServicesCode | EfiRuntimeServicesData
| EfiConventionalMemory | EfiUnusableMemory | EfiACPIReclaimMemory | EfiACPIMemoryNVS
| EfiMemoryMappedIO | EfiMemoryMappedIOPortSpace | EfiPalCode
| EfiUnacceptedMemoryType | EfiOtherMemoryType.

Definition xtUEFITypeToXT (type : EFI_MEMORY_TYPE) : Z :=
  match type with
  | EfiReservedMemoryType | EfiRuntimeServicesCode | EfiRuntimeServicesData | EfiPalCode =>
    XT_MEM_RESERVED
  | EfiConventionalMemory | EfiBootServicesCode | EfiBootServicesData | EfiLoaderCode
  | EfiLoaderData => XT_MEM_FREE
  | EfiUnacceptedMemoryType | EfiUnusableMemory => XT_MEM_UNUSABLE
  | EfiACPIMemoryNVS => XT_MEM_NVS
  | EfiACPIReclaimMemory => XT_MEM_ACPI
  | EfiMemoryMappedIO | EfiMemoryMappedIOPortSpace => XT_MEM_MMIO
  | EfiOtherMemoryType => XT_MEM_UNKNOWN
  end.

(** The fields of [EFI_MEMORY_DESCRIPTOR] the kernel reads. *)
Record EfiDesc := mkDesc { Type_ : EFI_MEMORY_TYPE; PhysicalStart : Z; NumberOfPages : Z }.

Definition append_desc (st : Statics) (fuel : nat) (mapEntry : Z) : M Mem unit :=
  new_node ← xtCreateList st fuel mapEntry;
  s ← get;
  if memoryDescs s =? NULL then modify (set_memoryDescs new_node)
  else on_lists (xtAppendList (memoryDescs s) new_node).

(** The [while] of [xtMemoryInit]; [last_entry] is NULL at first. *)
Fixpoint init_loop (st : Statics) (fuel : nat) (descs : list EfiDesc) (last_entry : Z) : M Mem unit :=
  match descs with
  | [] => mret tt
  | desc :: descs =>
    if PhysicalStart desc <? 0x100000 then init_loop st fuel descs last_entry
    else
      mapEntry ← out_or NULL (xtHeapAlloc st fuel 24);
      if mapEntry =? NULL then fault
      else
        let e := mkMap (xtUEFITypeToXT (Type_ desc)) (PhysicalStart desc) (u64 (NumberOfPages desc * 4096)) in
        on_maps (create mapEntry e) ;;;
        last ← load_entry last_entry;
        match last with
        | Some l =>
          if (attributes l =? attributes e) && (u64 (start l + length l) =? start e) then
            on_maps (assign last_entry (set_length (u64 (length l + length e)))) ;;;
            out_or tt (xtHeapFree mapEntry) ;;;
            on_maps (dispose mapEntry) ;;;
            init_loop st fuel descs last_entry
          else append_desc st fuel mapEntry ;;; init_loop st fuel descs mapEntry
        | None => append_desc st fuel mapEntry ;;; init_loop st fuel descs mapEntry
        end
  end.

Definition xtMemoryInit (st : Statics) (fuel : nat) (descs : list EfiDesc) : M Mem unit :=
  xtHeapInit st ;;;
  modify (set_memoryDescs NULL) ;;;
  init_loop st fuel descs NULL.

(** The statics before the first call: zeroed. *)
Definition mem_boot (st : Statics) : Mem :=
  mkMem false NULL NULL ∅ {[ static_heap_meta st := mkHeap 0 0 ]}
    {[ static_heap_list_node st := mkList 0 0 ]} ∅.
