(* ===== verification/HeapProof.v ===== *)
(** The kernel heap of Memory.v is sound: its blocks tile the heap's memory, an
    allocation is a fresh aligned block, a free gives the block back and merges
    it with its free neighbours; with it the heap keeps the promises of the
    [Allocator] interface. *)
From Stdlib Require Import ZArith Lia.
From stdpp Require Import base tactics list gmap fin_maps numbers.
From S2P Require Import Prelude Allocator ListC Memory.

Open Scope Z_scope.

Notation Entries := (gmap Z XTHeapEntry).

(** * The specification: a heap is a list of blocks *)

(** A block is its size, header included, and its [used] flag. *)
Notation block := (Z * Z)%type.

Definition total (bs : list block) : Z := foldr (fun b n => b.1 + n) 0 bs.

Definition good_block (b : block) : Prop := MIN_BLOCK_SIZE <= b.1 /\ b.1 mod 16 = 0 /\ (b.2 = 0 \/ b.2 = 1).

(** The blocks [bs] lie one after the other from [a] on, doubly linked: [p] is
    the block before and [nxt] the block after them. *)
Fixpoint blocks (E : Entries) (p a : Z) (bs : list block) (nxt : Z) : Prop :=
  match bs with
  | [] => True
  | (sz, u) :: bs =>
    E !! a = Some (mkEntry sz u (match bs with [] => nxt | _ => a + sz end) p) /\
    blocks E a (a + sz) bs nxt
  end.

(** No two free blocks touch. *)
Fixpoint coalesced (bs : list block) : Prop :=
  match bs with
  | b :: bs => match bs with b' :: _ => b.2 = 1 \/ b'.2 = 1 | [] => True end /\ coalesced bs
  | [] => True
  end.

(** The data pointers of the used blocks from [a] on. *)
Fixpoint pointers (a : Z) (bs : list block) : gset Z :=
  match bs with
  | [] => ∅
  | (sz, u) :: bs => (if u =? 1 then {[a + HEAP_HEADER_SIZE]} else ∅) ∪ pointers (a + sz) bs
  end.

(** The memory of the used blocks: data pointer and length. *)
Fixpoint extents (a : Z) (bs : list block) : list (Z * Z) :=
  match bs with
  | [] => []
  | (sz, u) :: bs =>
    (if u =? 1 then [(a + HEAP_HEADER_SIZE, sz - HEAP_HEADER_SIZE)] else []) ++ extents (a + sz) bs
  end.

(** The last block before the end of [bs]. *)
Definition prev_of (p a : Z) (bs : list block) : Z :=
  match reverse bs with [] => p | (sz, _) :: _ => a + total bs - sz end.

Definition next_of (nxt a : Z) (bs : list block) : Z := match bs with [] => nxt | _ => a end.

(** * Lemmas *)

Lemma total_cons b bs : total (b :: bs) = b.1 + total bs.
Proof. done. Qed.

Lemma total_app l1 l2 : total (l1 ++ l2) = total l1 + total l2.
Proof. induction l1 as [|b l1 IH]; [done|]. cbn [app]. rewrite !total_cons, IH. lia. Qed.

Lemma total_nonneg bs : Forall good_block bs -> 0 <= total bs.
Proof.
  induction 1 as [|b bs (H & _) _ IH]; [done|]. rewrite total_cons.
  unfold MIN_BLOCK_SIZE, HEAP_HEADER_SIZE in *. lia.
Qed.

Lemma prev_of_snoc p a bs sz u : prev_of p a (bs ++ [(sz, u)]) = a + total bs.
Proof. unfold prev_of. rewrite reverse_snoc, total_app. cbn. lia. Qed.

Lemma prev_of_cons p a sz u bs : prev_of p a ((sz, u) :: bs) = prev_of a (a + sz) bs.
Proof.
  destruct bs as [|b bs] using rev_ind.
  - unfold prev_of. cbn. lia.
  - destruct b as [s v]. rewrite app_comm_cons, !prev_of_snoc, total_cons. cbn [fst]. lia.
Qed.

Lemma blocks_app E p a bs1 bs2 nxt :
  blocks E p a (bs1 ++ bs2) nxt <->
  blocks E p a bs1 (next_of nxt (a + total bs1) bs2) /\ blocks E (prev_of p a bs1) (a + total bs1) bs2 nxt.
Proof.
  revert p a; induction bs1 as [|[sz u] bs1 IH]; intros p a; cbn [app blocks].
  - unfold prev_of. cbn. rewrite Z.add_0_r. naive_solver.
  - rewrite IH, prev_of_cons. rewrite total_cons; cbn [fst]. rewrite Z.add_assoc.
    assert (match bs1 ++ bs2 with [] => nxt | _ :: _ => a + sz end =
            match bs1 with [] => next_of nxt (a + sz + total bs1) bs2 | _ :: _ => a + sz end) as ->.
    { destruct bs1; [|done]. cbn. destruct bs2; [done|]. cbn. lia. }
    naive_solver.
Qed.

Lemma blocks_frame E E' p a bs nxt :
  Forall good_block bs -> (forall k, a <= k < a + total bs -> E' !! k = E !! k) ->
  blocks E p a bs nxt -> blocks E' p a bs nxt.
Proof.
  intros G. revert p a; induction G as [|[sz u] bs (H & _) G IH]; intros p a HE; [done|].
  pose proof (total_nonneg bs G). unfold MIN_BLOCK_SIZE, HEAP_HEADER_SIZE in *. rewrite total_cons in HE. cbn in H, HE. cbn [blocks]. intros [H1 H2]. split.
  - rewrite HE by lia. done.
  - apply IH; [|done]. intros k Hk. apply HE. lia.
Qed.

(** The link back from the block after a change. *)
Definition relink (nx p : Z) (E : Entries) : Entries :=
  if nx =? NULL then E else alter (set_hprev p) nx E.

Lemma relink_run nx p E :
  (nx <> NULL -> is_Some (E !! nx)) ->
  (if nx =? NULL then mret tt else assign nx (set_hprev p)) E = Ok tt (relink nx p E).
Proof.
  intros H. unfold relink. destruct (nx =? NULL) eqn:En; [done|]. zbool.
  destruct (H En) as [e He]. rewrite (assign_Ok _ _ _ _ He). f_equal.
  apply map_eq. intros k. destruct (decide (k = nx)) as [->|].
  - by rewrite lookup_insert_eq, lookup_alter_eq, He.
  - by rewrite lookup_insert_ne, lookup_alter_ne by done.
Qed.

Lemma relink_ne nx p E k : (nx <> NULL -> k <> nx) -> relink nx p E !! k = E !! k.
Proof.
  intros H. unfold relink. destruct (nx =? NULL) eqn:En; [done|]. zbool.
  rewrite lookup_alter_ne; [done|]. intros ->. by apply H.
Qed.

Lemma blocks_relink E p p' a bs :
  0 < a -> Forall good_block bs -> blocks E p a bs NULL -> blocks (relink (next_of NULL a bs) p' E) p' a bs NULL.
Proof.
  intros Ha G. destruct bs as [|[sz u] bs]; [done|]. cbn [blocks next_of]. intros [H1 H2].
  inversion G as [|? ? (Hs & _) G']; subst. unfold MIN_BLOCK_SIZE, HEAP_HEADER_SIZE in Hs. cbn in Hs.
  split.
  - unfold relink. rewrite (proj2 (Z.eqb_neq a NULL)) by (unfold NULL; lia).
    by rewrite lookup_alter_eq, H1.
  - eapply blocks_frame; [done| |done]. intros k Hk. apply relink_ne. lia.
Qed.

Lemma blocks_next_lookup E p a bs :
  next_of NULL a bs <> NULL -> blocks E p a bs NULL -> is_Some (E !! next_of NULL a bs).
Proof. destruct bs as [|[sz u] bs]; [done|]. cbn. intros _ [-> _]. eauto. Qed.

Lemma pointers_app a bs1 bs2 : pointers a (bs1 ++ bs2) = pointers a bs1 ∪ pointers (a + total bs1) bs2.
Proof.
  revert a; induction bs1 as [|[sz u] bs1 IH]; intros a; cbn [app pointers].
  - cbn. rewrite Z.add_0_r. set_solver.
  - rewrite total_cons, IH; cbn [fst]. rewrite Z.add_assoc. set_solver.
Qed.

Lemma extents_app a bs1 bs2 : extents a (bs1 ++ bs2) = extents a bs1 ++ extents (a + total bs1) bs2.
Proof.
  revert a; induction bs1 as [|[sz u] bs1 IH]; intros a; cbn [app extents].
  - cbn. by rewrite Z.add_0_r.
  - rewrite total_cons, IH; cbn [fst]. by rewrite Z.add_assoc, <- app_assoc.
Qed.

Lemma pointers_extents a bs : pointers a bs = list_to_set (extents a bs).*1.
Proof.
  revert a; induction bs as [|[sz u] bs IH]; intros a; cbn [pointers extents]; [done|].
  rewrite IH. destruct (u =? 1); cbn; set_solver.
Qed.

Lemma pointers_range a bs p :
  Forall good_block bs -> p ∈ pointers a bs -> a + HEAP_HEADER_SIZE <= p < a + total bs.
Proof.
  intros G. revert a; induction G as [|[sz u] bs (H & _) G IH]; intros a; cbn [pointers]; [set_solver|].
  pose proof (total_nonneg bs G). rewrite total_cons; cbn [fst].
  unfold MIN_BLOCK_SIZE, HEAP_HEADER_SIZE in *. cbn in H.
  intros [Hp|Hp]%elem_of_union.
  - destruct (u =? 1); set_solver by lia.
  - apply IH in Hp. lia.
Qed.

(** A used block behind a pointer. *)
Lemma pointers_split a bs p :
  Forall good_block bs -> p ∈ pointers a bs ->
  exists pre sz post, bs = pre ++ (sz, 1) :: post /\ p = a + total pre + HEAP_HEADER_SIZE.
Proof.
  intros G. revert a; induction G as [|[sz u] bs (_ & _ & Hu) G IH]; intros a; cbn [pointers]; [set_solver|].
  cbn in Hu. intros [Hp|Hp]%elem_of_union.
  - exists [], sz, bs. destruct Hu as [-> | ->]; cbn in *; [set_solver|].
    apply elem_of_singleton in Hp. split; [done|]. lia.
  - destruct (IH _ Hp) as (pre & sz' & post & -> & ->). exists ((sz, u) :: pre), sz', post.
    split; [done|]. rewrite total_cons. cbn [fst]. lia.
Qed.

Lemma coalesced_app_inv l1 l2 : coalesced (l1 ++ l2) -> coalesced l1 /\ coalesced l2.
Proof.
  induction l1 as [|b l1 IH]; cbn [app coalesced]; [done|]. intros [H1 H2].
  destruct (IH H2) as [H3 H4]. split; [|done]. split; [|done]. by destruct l1.
Qed.

Lemma coalesced_change l1 b b' l2 :
  (b'.2 = b.2 \/ b'.2 = 1) -> coalesced (l1 ++ b :: l2) -> coalesced (l1 ++ b' :: l2).
Proof.
  intros Hb. induction l1 as [|c l1 IH]; cbn [app coalesced]; intros [H1 H2].
  - split; [|done]. destruct l2; [done|]. intuition congruence.
  - split; [|auto]. destruct l1; cbn in *; intuition congruence.
Qed.

(** * Allocation on the list of blocks *)

(** First fit: the pointer, and the blocks with the one it is in used. *)
Fixpoint alloc_blocks (need a : Z) (bs : list block) : option (Z * list block) :=
  match bs with
  | [] => None
  | (sz, u) :: bs =>
    if (u =? 0) && (sz >=? need) then
      Some (a + HEAP_HEADER_SIZE,
            if sz >=? need + MIN_BLOCK_SIZE then (need, 1) :: (sz - need, 0) :: bs else (sz, 1) :: bs)
    else match alloc_blocks need (a + sz) bs with
         | Some (p, bs') => Some (p, (sz, u) :: bs')
         | None => None
         end
  end.

Definition need_ok (need : Z) : Prop := MIN_BLOCK_SIZE <= need /\ need mod 16 = 0.

Lemma take_ok E p a sz post need :
  0 < a -> Forall good_block ((sz, 0) :: post) -> blocks E p a ((sz, 0) :: post) NULL ->
  need_ok need -> need <= sz < 2 ^ 63 ->
  exists E', (split_block a need ;;; assign a (set_used 1)) E = Ok tt E' /\
    blocks E' p a (if sz >=? need + MIN_BLOCK_SIZE then (need, 1) :: (sz - need, 0) :: post
                   else (sz, 1) :: post) NULL /\
    forall k, k < a -> E' !! k = E !! k.
Proof.
  intros Ha G HB Hn Hle. inversion G as [|? ? Gs G']; subst.
  pose proof (total_nonneg post G'). cbn [blocks] in HB. destruct HB as [H1 H2].
  assert (forall bs' x y, match bs' with [] => x | _ :: _ => y end = next_of x y bs') as N
    by (intros bs' x y; by destruct bs').
  rewrite N in H1. unfold need_ok, good_block, MIN_BLOCK_SIZE, HEAP_HEADER_SIZE in *. cbn [fst snd] in *.
  unfold split_block. rewrite bind_bind, (bind_Ok _ _ _ _ _ (load_Ok _ _ _ H1)). cbn [hsize hnext].
  unfold MIN_BLOCK_SIZE, HEAP_HEADER_SIZE. rewrite u64_small by lia.
  destruct (sz >=? need + (32 + 16)) eqn:Es.
  - rewrite Z.geb_leb in Es. zbool. set (nb := a + need).
    set (E1 := <[nb := mkEntry (sz - need) 0 (next_of NULL (a + sz) post) a]> E).
    assert (next_of NULL (a + sz) post <> NULL -> is_Some (E1 !! next_of NULL (a + sz) post)) as Hs.
    { intros Hne. subst E1. apply lookup_insert_is_Some'. right.
      by eapply blocks_next_lookup in H2. }
    set (E2 := relink (next_of NULL (a + sz) post) nb E1).
    assert (E2 !! a = Some (mkEntry sz 0 (next_of NULL (a + sz) post) p)) as L2.
    { subst E2 E1. rewrite relink_ne by (destruct post; cbn; unfold NULL; lia).
      rewrite lookup_insert_ne by lia. done. }
    exists (<[a := mkEntry need 1 nb p]> E2). split; [|split].
    + rewrite !bind_bind. rewrite (bind_Ok _ _ _ tt E1) by done.
      rewrite bind_bind, (bind_Ok _ _ _ _ _ (relink_run _ _ _ Hs)). fold E2.
      rewrite bind_bind, (bind_Ok _ _ _ _ _ (assign_Ok _ _ _ _ L2)).
      rewrite (bind_Ok _ _ _ _ _ (assign_Ok _ _ _ _ (lookup_insert_eq _ _ _))).
      rewrite insert_insert_eq, (assign_Ok _ _ _ _ (lookup_insert_eq _ _ _)), insert_insert_eq. done.
    + cbn [blocks]. rewrite lookup_insert_eq. split; [done|].
      replace (a + need + (sz - need)) with (a + sz) by lia. split.
      * rewrite lookup_insert_ne by lia. subst E2 E1. fold nb. rewrite relink_ne.
        -- rewrite lookup_insert_eq. by rewrite N.
        -- destruct post; cbn; unfold NULL; lia.
      * fold nb. eapply blocks_frame; [done| |].
        -- intros k Hk. rewrite lookup_insert_ne by lia. reflexivity.
        -- subst E2. eapply blocks_relink; [lia|done|]. eapply blocks_frame; [done| |exact H2].
           intros k Hk. subst E1. by rewrite lookup_insert_ne by lia.
    + intros k Hk. rewrite lookup_insert_ne by lia. subst E2 E1.
      rewrite relink_ne by (destruct post; cbn; unfold NULL; lia). by rewrite lookup_insert_ne by lia.
  - exists (<[a := mkEntry sz 1 (next_of NULL (a + sz) post) p]> E). split; [|split].
    + cbv [mbind M_bind mret M_ret]. by rewrite (assign_Ok _ _ _ _ H1).
    + cbn [blocks]. rewrite lookup_insert_eq, N. split; [done|].
      eapply blocks_frame; [done| |done]. intros k Hk. by rewrite lookup_insert_ne by lia.
    + intros k Hk. by rewrite lookup_insert_ne by lia.
Qed.

Lemma alloc_blocks_cons need a bs p bs' :
  alloc_blocks need a bs = Some (p, bs') -> bs <> [] /\ bs' <> [].
Proof.
  destruct bs as [|[sz u] bs]; [done|]. cbn [alloc_blocks].
  destruct (_ && _); [intros [= _ <-]; by destruct (_ >=? _)|].
  destruct (alloc_blocks _ _ bs) as [[q r]|]; [|done]. by intros [= _ <-].
Qed.

Lemma search_ok need bs : forall fuel E p a,
  0 < a -> Forall good_block bs -> blocks E p a bs NULL -> need_ok need -> total bs < 2 ^ 63 ->
  (List.length bs <= fuel)%nat ->
  match alloc_blocks need a bs with
  | None => search_blocks fuel (next_of NULL a bs) need E = Ok None E
  | Some (q, bs') => exists E', search_blocks fuel (next_of NULL a bs) need E = Ok (Some q) E' /\
      blocks E' p a bs' NULL /\ forall k, k < a -> E' !! k = E !! k
  end.
Proof.
  induction bs as [|[sz u] bs IH]; intros fuel E p a Ha G HB Hn Ht Hf; [by destruct fuel|].
  rewrite total_cons in Ht. cbn [fst] in Ht.
  pose proof HB as [H1 H2]. inversion G as [|? ? (Gs & _) G']; subst.
  unfold MIN_BLOCK_SIZE, HEAP_HEADER_SIZE in Gs. cbn [fst] in Gs.
  cbn [alloc_blocks next_of]. cbn [List.length] in Hf.
  assert (search_blocks fuel a need E =
    if (u =? 0) && (sz >=? need) then
      ((split_block a need ;;; assign a (set_used 1)) ;;; mret (Some (a + HEAP_HEADER_SIZE))) E
    else match fuel with O => OutOfFuel
         | Datatypes.S fuel => search_blocks fuel (next_of NULL (a + sz) bs) need E end) as ->.
  { destruct fuel; cbn [search_blocks]; rewrite (proj2 (Z.eqb_neq a NULL)) by (unfold NULL; lia);
      rewrite (bind_Ok _ _ _ _ _ (load_Ok _ _ _ H1)); cbn [used hsize hnext];
      (destruct (_ && _); [by rewrite bind_bind|]); [done|]. by destruct bs. }
  destruct ((u =? 0) && (sz >=? need)) eqn:E0.
  - apply andb_true_iff in E0 as [E1 E2]. rewrite Z.geb_leb in E2. zbool. subst u.
    pose proof (total_nonneg bs G'). destruct (take_ok E p a sz bs need Ha G HB Hn ltac:(lia)) as (E' & R & B & F).
    exists E'. by rewrite (bind_Ok _ _ _ _ _ R).
  - destruct fuel as [|fuel]; [lia|].
    specialize (IH fuel E a (a + sz) ltac:(lia) G' H2 Hn ltac:(lia) ltac:(lia)).
    destruct (alloc_blocks need (a + sz) bs) as [[q bs']|] eqn:EA; [|done].
    destruct IH as (E' & R & B & F). exists E'. split; [done|].
    apply alloc_blocks_cons in EA as [N1 N2].
    split; [|intros k Hk; apply F; lia]. cbn [blocks]. rewrite F by lia. rewrite H1.
    split; [|done]. do 2 f_equal. by destruct bs, bs'.
Qed.

Lemma alloc_blocks_head need a sz u bs q r :
  alloc_blocks need a ((sz, u) :: bs) = Some (q, r) ->
  exists s' u' r', r = (s', u') :: r' /\ (u' = u \/ u' = 1).
Proof.
  cbn [alloc_blocks]. destruct (_ && _); [destruct (_ >=? _)|destruct (alloc_blocks _ _ _) as [[? ?]|]];
    intros [= <- <-]; eauto 10.
Qed.

(** What an allocation does to the list of blocks. *)
Lemma alloc_blocks_spec need a bs q bs' :
  need_ok need -> Forall good_block bs -> coalesced bs -> alloc_blocks need a bs = Some (q, bs') ->
  Forall good_block bs' /\ coalesced bs' /\ total bs' = total bs /\
  (q ∉ pointers a bs) /\
  (exists len, need <= len + HEAP_HEADER_SIZE /\ extents a bs' ≡ₚ (q, len) :: extents a bs) /\
  exists pre sz post, bs' = pre ++ (sz, 1) :: post /\ q = a + total pre + HEAP_HEADER_SIZE /\ need <= sz.
Proof.
  intros Hn G. revert a q bs'; induction G as [|[sz u] bs Gs G IH]; intros a q bs' C; [done|].
  cbn [alloc_blocks coalesced] in *. destruct C as [C1 C2].
  unfold need_ok, good_block, MIN_BLOCK_SIZE, HEAP_HEADER_SIZE in *. cbn [fst snd] in *.
  destruct ((u =? 0) && (sz >=? need)) eqn:E0.
  - apply andb_true_iff in E0 as [E1 E2]. rewrite Z.geb_leb in E2. zbool. subst u.
    assert (a + 32 ∉ pointers (a + sz) bs) as Hq.
    { intros Hp. apply pointers_range in Hp; [unfold HEAP_HEADER_SIZE in Hp; lia|done]. }
    intros [= <- <-]. destruct (sz >=? need + (32 + 16)) eqn:Es; rewrite Z.geb_leb in Es; zbool.
    + split; [repeat constructor; cbn; try lia; [|done]; rewrite Zminus_mod; dlia|].
      split; [cbn; split; [by left|]; split; [|done]; destruct bs; naive_solver|].
      rewrite !total_cons. cbn [fst pointers Z.eqb]. split; [lia|]. cbn. unfold HEAP_HEADER_SIZE.
      replace (a + need + (sz - need)) with (a + sz) by lia.
      split; [set_solver|]. split; [by exists (need - 32); split; [lia|]|].
      exists [], need, ((sz - need, 0) :: bs). cbn. split; [done|]. lia.
    + split; [repeat constructor; cbn; try lia; done|].
      split; [cbn; split; [destruct bs; auto|done]|].
      rewrite !total_cons. cbn [fst pointers Z.eqb]. split; [lia|]. cbn. unfold HEAP_HEADER_SIZE.
      split; [set_solver|]. split; [by exists (sz - 32); split; [lia|]|].
      exists [], sz, bs. cbn. split; [done|]. lia.
  - destruct (alloc_blocks need (a + sz) bs) as [[q0 r]|] eqn:EA; [|done]. intros [= <- <-].
    destruct (IH (a + sz) q0 r C2 EA) as (I1 & I2 & I3 & I4 & (len & Hlen & I5) & pre & s1 & post & -> & Hq & I6).
    split; [by constructor|]. split.
    { cbn [coalesced]. split; [|done]. destruct bs as [|[s2 u2] bs]; [done|].
      destruct (alloc_blocks_head _ _ _ _ _ _ _ EA) as (s' & u' & r' & -> & Hu). cbn in *. naive_solver. }
    rewrite !total_cons, I3. split; [done|].
    pose proof I1 as [I7 _]%list.Forall_app. pose proof (total_nonneg pre I7).
    cbn [pointers extents]. unfold HEAP_HEADER_SIZE in *. split; [|split].
    + destruct (u =? 1); set_solver by lia.
    + exists len. split; [done|]. rewrite I5. destruct (u =? 1); [|done]. cbn. apply perm_swap.
    + exists ((sz, u) :: pre), s1, post. rewrite total_cons. cbn [fst]. split; [done|]. lia.
Qed.

(** * Freeing on the list of blocks *)

Definition merge_left (pre : list block) (sz : Z) : list block * Z :=
  match reverse pre with
  | (s, u) :: rpre => if u =? 0 then (reverse rpre, s + sz) else (pre, sz)
  | [] => (pre, sz)
  end.

Definition merge_right (sz : Z) (post : list block) : Z * list block :=
  match post with
  | (s, u) :: post' => if u =? 0 then (sz + s, post') else (sz, post)
  | [] => (sz, post)
  end.

Definition free_blocks (pre : list block) (sz : Z) (post : list block) : list block :=
  (merge_left pre sz).1 ++
  ((merge_right (merge_left pre sz).2 post).1, 0) :: (merge_right (merge_left pre sz).2 post).2.

Lemma merge_next_ok E p a sz post :
  0 < a -> Forall good_block ((sz, 0) :: post) -> blocks E p a ((sz, 0) :: post) NULL ->
  exists E', merge_next a E = Ok tt E' /\
    blocks E' p a (((merge_right sz post).1, 0) :: (merge_right sz post).2) NULL /\
    forall k, k < a -> E' !! k = E !! k.
Proof.
  intros Ha G [H1 H2]. inversion G as [|? ? (Gs & _) G']; subst.
  unfold MIN_BLOCK_SIZE, HEAP_HEADER_SIZE in Gs. cbn [fst] in Gs.
  unfold merge_next. rewrite (bind_Ok _ _ _ _ _ (load_Ok _ _ _ H1)). cbn [hnext hsize].
  destruct post as [|[s u] post]; [by exists E|].
  rewrite (proj2 (Z.eqb_neq (a + sz) NULL)) by (unfold NULL; lia).
  destruct H2 as [H2 H3]. rewrite (bind_Ok _ _ _ _ _ (load_Ok _ _ _ H2)).
  cbn [used hnext hsize merge_right]. destruct (u =? 0) eqn:Eu; [|by exists E].
  inversion G' as [|? ? (Gs2 & _) G2]; subst.
  unfold MIN_BLOCK_SIZE, HEAP_HEADER_SIZE in Gs2. cbn [fst snd] in *.
  assert (match post with [] => NULL | _ :: _ => a + sz + s end = next_of NULL (a + sz + s) post) as N
    by (by destruct post). rewrite N in H2 |- *.
  set (nx := next_of NULL (a + sz + s) post) in *.
  assert (nx <> NULL -> a < nx) as Hnx by (subst nx; destruct post; cbn; [done|lia]).
  exists (relink nx a (<[a := mkEntry (sz + s) 0 nx p]> E)). split; [|split].
  - rewrite (bind_Ok _ _ _ _ _ (assign_Ok _ _ _ _ H1)).
    rewrite (bind_Ok _ _ _ _ _ (assign_Ok _ _ _ _ (lookup_insert_eq _ _ _))), insert_insert_eq.
    apply relink_run. intros Hne. apply lookup_insert_is_Some'. right.
    by eapply blocks_next_lookup in H3.
  - cbn [blocks]. rewrite relink_ne by lia. rewrite lookup_insert_eq. split.
    + do 2 f_equal. subst nx. destruct post; cbn; [done|lia].
    + rewrite Z.add_assoc. apply blocks_relink with (p := a + sz); [lia|done|].
      eapply blocks_frame; [done| |done]. intros k Hk. by rewrite lookup_insert_ne by lia.
  - intros k Hk. rewrite relink_ne by lia. by rewrite lookup_insert_ne by lia.
Qed.

Lemma merge_prev_ok E base pre sz post :
  0 < base -> Forall good_block (pre ++ (sz, 0) :: post) -> blocks E NULL base (pre ++ (sz, 0) :: post) NULL ->
  exists E', merge_prev (base + total pre) E = Ok (base + total (merge_left pre sz).1) E' /\
    blocks E' NULL base ((merge_left pre sz).1 ++ ((merge_left pre sz).2, 0) :: post) NULL.
Proof.
  intros Hb G HB. pose proof HB as [HB1 HB2]%blocks_app. destruct HB2 as [H1 H2].
  pose proof G as [Gp Gs]%list.Forall_app. inversion Gs as [|? ? (Gs1 & _) G']; subst.
  pose proof (total_nonneg pre Gp). unfold MIN_BLOCK_SIZE, HEAP_HEADER_SIZE in Gs1. cbn [fst] in Gs1.
  unfold merge_prev. rewrite (bind_Ok _ _ _ _ _ (load_Ok _ _ _ H1)). cbn [hprev hsize hnext].
  destruct pre as [|[s u] pre _] using rev_ind; [by exists E|].
  rewrite prev_of_snoc. unfold merge_left. rewrite reverse_snoc, reverse_involutive.
  apply list.Forall_app in Gp as [Gp Gl]. inversion Gl as [|? ? (Gs2 & _) _]; subst.
  pose proof (total_nonneg pre Gp). unfold MIN_BLOCK_SIZE, HEAP_HEADER_SIZE in Gs2. cbn [fst] in Gs2.
  rewrite (proj2 (Z.eqb_neq (base + total pre) NULL)) by (unfold NULL; lia).
  apply blocks_app in HB1 as [B1 [B2 _]]. rewrite (bind_Ok _ _ _ _ _ (load_Ok _ _ _ B2)).
  cbn [used hsize]. rewrite total_app, total_cons in *. cbn [fst] in *. change (total []) with 0 in *.
  destruct (u =? 0) eqn:Eu; cbn [fst snd].
  2: { exists E. rewrite total_app, total_cons. split; [done|].
       by rewrite <- app_assoc in *. }
  assert (match post with [] => NULL | _ :: _ => base + (total pre + (s + 0)) + sz end
          = next_of NULL (base + total pre + (s + sz)) post) as N
    by (destruct post; cbn; [done|lia]). rewrite N in H1 |- *.
  set (nx := next_of NULL (base + total pre + (s + sz)) post) in *.
  assert (nx <> NULL -> base + total pre < nx) as Hnx by (subst nx; destruct post; cbn; [done|lia]).
  replace (base + (total pre + (s + 0)) + sz) with (base + total pre + (s + sz)) in H2 by lia.
  zbool. subst u.
  set (E1 := <[base + total pre := mkEntry (s + sz) 0 nx (prev_of NULL base pre)]> E).
  exists (relink nx (base + total pre) E1). split.
  - rewrite (bind_Ok _ _ _ _ _ (assign_Ok _ _ _ _ B2)).
    rewrite (bind_Ok _ _ _ _ _ (assign_Ok _ _ _ _ (lookup_insert_eq _ _ _))), insert_insert_eq.
    unfold set_hnext, set_hsize. cbn [hsize hnext hprev used]. fold E1.
    rewrite (bind_Ok _ _ _ tt (relink nx (base + total pre) E1)); [done|].
    apply relink_run. intros Hne. apply lookup_insert_is_Some'. right.
    by eapply blocks_next_lookup in H2.
  - apply blocks_app. split; [|cbn [blocks]; split].
    + cbn [next_of] in *. eapply blocks_frame; [done| |exact B1].
      intros k Hk. rewrite relink_ne by lia. subst E1. by rewrite lookup_insert_ne by lia.
    + rewrite relink_ne by lia. subst E1. rewrite lookup_insert_eq. subst nx. by destruct post.
    + apply blocks_relink with (p := base + (total pre + (s + 0))); [lia|done|].
      eapply blocks_frame; [done| |done]. intros k Hk. subst E1. by rewrite lookup_insert_ne by lia.
Qed.

Lemma coalesced_cons b l :
  coalesced (b :: l) <-> match l with b' :: _ => b.2 = 1 \/ b'.2 = 1 | [] => True end /\ coalesced l.
Proof. done. Qed.

Lemma coalesced_mid l1 b l2 :
  coalesced (l1 ++ b :: l2) <->
  coalesced l1 /\ coalesced l2 /\
  match reverse l1 with c :: _ => c.2 = 1 \/ b.2 = 1 | [] => True end /\
  match l2 with c :: _ => b.2 = 1 \/ c.2 = 1 | [] => True end.
Proof.
  induction l1 as [|c l1 IH].
  - cbn. naive_solver.
  - rewrite <- app_comm_cons, !coalesced_cons, IH.
    destruct l1 as [|d l1 _] using rev_ind; [cbn; naive_solver|].
    rewrite reverse_cons, reverse_snoc. rewrite <- !app_comm_cons.
    destruct (l1 ++ [d]) eqn:E; [by destruct l1|]. naive_solver.
Qed.

Lemma merge_left_spec pre sz :
  Forall good_block pre -> MIN_BLOCK_SIZE <= sz -> sz mod 16 = 0 -> coalesced pre ->
  let pre' := (merge_left pre sz).1 in let sz' := (merge_left pre sz).2 in
  Forall good_block pre' /\ good_block (sz', 0) /\ coalesced pre' /\
  total pre' + sz' = total pre + sz /\ (forall a, extents a pre' = extents a pre) /\
  match reverse pre' with c :: _ => c.2 = 1 | [] => True end.
Proof.
  intros G Hs Hm C. unfold merge_left.
  destruct pre as [|[s u] pre _] using rev_ind; cbn [reverse fst snd].
  { unfold good_block. cbn. repeat split; auto. }
  rewrite reverse_snoc, reverse_involutive.
  apply list.Forall_app in G as [G Gl]. inversion Gl as [|? ? (Gs & Gm & Gu) _]; subst. cbn in Gs, Gm, Gu.
  apply coalesced_mid in C as (C1 & _ & C2 & _). cbn in C2.
  destruct (u =? 0) eqn:Eu; zbool; cbn [fst snd].
  - subst u. split; [done|]. split; [unfold good_block, MIN_BLOCK_SIZE, HEAP_HEADER_SIZE in *; cbn; dlia|].
    split; [done|]. rewrite total_app, total_cons. cbn. split; [lia|]. split.
    + intros a. rewrite extents_app. cbn. by rewrite app_nil_r.
    + destruct (reverse pre) as [|c l]; [done|]. naive_solver.
  - assert (u = 1) as -> by naive_solver.
    split; [by apply list.Forall_app|]. split; [unfold good_block; cbn; auto|].
    split; [apply coalesced_mid; cbn; destruct (reverse pre); auto|].
    split; [done|]. split; [done|]. by rewrite reverse_snoc.
Qed.

Lemma merge_right_spec sz post :
  good_block (sz, 0) -> Forall good_block post -> coalesced post ->
  let sz' := (merge_right sz post).1 in let post' := (merge_right sz post).2 in
  Forall good_block post' /\ good_block (sz', 0) /\ coalesced post' /\
  sz' + total post' = sz + total post /\ (forall a, extents (a + sz') post' = extents (a + sz) post) /\
  match post' with c :: _ => c.2 = 1 | [] => True end.
Proof.
  intros Gz G C. unfold merge_right. destruct post as [|[s u] post]; cbn [fst snd]; [auto 10|].
  inversion G as [|? ? (Gs & Gm & Gu) G']; subst. cbn in Gs, Gm, Gu. destruct C as [C1 C2].
  destruct (u =? 0) eqn:Eu; zbool; cbn [fst snd].
  - subst u. split; [done|].
    split; [unfold good_block, MIN_BLOCK_SIZE, HEAP_HEADER_SIZE in *; cbn in *; dlia|].
    split; [done|]. rewrite total_cons. cbn [fst]. split; [lia|]. split.
    + intros a. cbn. by rewrite Z.add_assoc.
    + destruct post; [done|]. cbn in C1. naive_solver.
  - assert (u = 1) as -> by naive_solver. split; [done|]. split; [done|]. split; [by split|].
    split; [done|]. split; [|done]. intros a. done.
Qed.

(** What a free does to the list of blocks. *)
Lemma free_blocks_spec base pre sz post :
  Forall good_block (pre ++ (sz, 1) :: post) -> coalesced (pre ++ (sz, 1) :: post) ->
  Forall good_block (free_blocks pre sz post) /\ coalesced (free_blocks pre sz post) /\
  total (free_blocks pre sz post) = total (pre ++ (sz, 1) :: post) /\
  extents base (free_blocks pre sz post) = extents base pre ++ extents (base + total pre + sz) post.
Proof.
  intros G C. apply list.Forall_app in G as [Gp Gs]. inversion Gs as [|? ? (Gs1 & Gs2 & _) G']; subst.
  cbn in Gs1, Gs2. apply coalesced_mid in C as (C1 & C2 & _ & _). unfold free_blocks.
  destruct (merge_left_spec pre sz Gp Gs1 Gs2 C1) as (L1 & L2 & L3 & L4 & L5 & L6).
  destruct (merge_left pre sz) as [pre' sz1]. cbn [fst snd] in *.
  destruct (merge_right_spec sz1 post L2 G' C2) as (R1 & R2 & R3 & R4 & R5 & R6).
  destruct (merge_right sz1 post) as [sz2 post']. cbn [fst snd] in *.
  split; [apply list.Forall_app; by split; [|constructor]|].
  split; [apply coalesced_mid; cbn; destruct (reverse pre'), post'; auto|].
  rewrite !total_app, !total_cons. cbn [fst]. split; [lia|].
  rewrite !extents_app, L5. cbn [extents Z.eqb app]. rewrite R5.
  by replace (base + total pre' + sz1) with (base + total pre + sz) by lia.
Qed.

Lemma heap_free_ok E base pre sz post :
  0 < base -> Forall good_block (pre ++ (sz, 1) :: post) -> blocks E NULL base (pre ++ (sz, 1) :: post) NULL ->
  exists E', heap_free (base + total pre + HEAP_HEADER_SIZE) E = Ok tt E' /\
    blocks E' NULL base (free_blocks pre sz post) NULL.
Proof.
  intros Hb G HB. pose proof HB as [B1 [H1 H2]]%blocks_app.
  pose proof G as [Gp Gs]%list.Forall_app. inversion Gs as [|? ? (Gs1 & Gs2 & _) G']; subst.
  pose proof (total_nonneg pre Gp). cbn [fst] in Gs1, Gs2.
  assert (Forall good_block (pre ++ (sz, 0) :: post)) as G0.
  { apply list.Forall_app. split; [done|]. constructor; [|done]. unfold good_block. cbn. auto. }
  unfold MIN_BLOCK_SIZE, HEAP_HEADER_SIZE in Gs1.
  unfold heap_free. rewrite check_then by (unfold NULL, HEAP_HEADER_SIZE; lia).
  replace (base + total pre + HEAP_HEADER_SIZE - HEAP_HEADER_SIZE) with (base + total pre) by lia.
  rewrite (bind_Ok _ _ _ _ _ (load_Ok _ _ _ H1)). cbn [used Z.eqb].
  rewrite (bind_Ok _ _ _ _ _ (assign_Ok _ _ _ _ H1)). cbn [set_used hsize hnext hprev].
  match goal with |- context [<[_ := ?e]> E] => set (E1 := <[base + total pre := e]> E) end.
  assert (blocks E1 NULL base (pre ++ (sz, 0) :: post) NULL) as HB1.
  { apply blocks_app. subst E1. split; [|cbn [blocks]; split].
    - eapply blocks_frame; [done| |exact B1]. intros k Hk. by rewrite lookup_insert_ne by lia.
    - by rewrite lookup_insert_eq.
    - eapply blocks_frame; [done| |done]. intros k Hk. by rewrite lookup_insert_ne by lia. }
  destruct (merge_prev_ok E1 base pre sz post Hb G0 HB1) as (E2 & R2 & HB2).
  rewrite (bind_Ok _ _ _ _ _ R2). apply blocks_app in HB2 as [B3 B4].
  destruct (merge_left pre sz) as [pre' sz1] eqn:EL. cbn [fst snd] in *.
  assert (Forall good_block pre' /\ Forall good_block ((sz1, 0) :: post)) as [G2 G3].
  { revert EL. unfold merge_left. destruct pre as [|[s u] pre _] using rev_ind; cbn [reverse].
    - intros [= <- <-]. split; [done|]. by inversion G0.
    - rewrite reverse_snoc, reverse_involutive. apply list.Forall_app in Gp as [Gp Gl].
      inversion Gl as [|? ? (Gs3 & Gm & Gu) _]; subst. cbn in Gs3, Gm. unfold MIN_BLOCK_SIZE, HEAP_HEADER_SIZE in Gs3.
      destruct (u =? 0); intros [= <- <-]; (split; [done || by apply list.Forall_app|]); constructor; try done;
        unfold good_block, MIN_BLOCK_SIZE, HEAP_HEADER_SIZE; cbn; dlia. }
  pose proof (total_nonneg pre' G2).
  destruct (merge_next_ok E2 _ (base + total pre') sz1 post ltac:(lia) G3 B4) as (E3 & R3 & B5 & F).
  exists E3. split; [done|]. unfold free_blocks. rewrite EL. cbn [fst snd].
  apply blocks_app. split; [|done]. eapply blocks_frame; [done| |exact B3].
  intros k Hk. apply F. lia.
Qed.

(** * The invariant of the heap *)

(** The static heap is the only one; its blocks [bs] start at [base]. *)
Definition heap_inv (st : Statics) (s : Mem) (base : Z) (bs : list block) : Prop :=
  heap_initialized s = true /\ heaps s = static_heap_list_node st /\
  static_heap_list_node st <> NULL /\
  lists s !! static_heap_list_node st = Some (mkList (static_heap_meta st) NULL) /\
  (exists n, heap_structs s !! static_heap_meta st = Some (mkHeap base n)) /\
  0 < base /\ base mod 16 = 0 /\ total bs < 2 ^ 63 /\
  Forall good_block bs /\ bs <> [] /\ coalesced bs /\ blocks (entries s) NULL base bs NULL.

(** The memory the heap has handed out, as the spec of its interface sees it. *)
Definition live (s : Mem) (base : Z) (bs : list block) : list (Z * Z) := extents base bs.

Definition apart (x y : Z * Z) : Prop := x.1 + x.2 <= y.1 \/ y.1 + y.2 <= x.1.

Definition with_entries (s : Mem) (E : Entries) : Mem :=
  mkMem (heap_initialized s) (heaps s) (memoryDescs s) E (heap_structs s) (lists s) (mapEntries s).

(** * Lemmas on the invariant *)

Lemma extents_range a bs x :
  Forall good_block bs -> x ∈ extents a bs ->
  a + HEAP_HEADER_SIZE <= x.1 /\ 16 <= x.2 /\ x.1 + x.2 <= a + total bs.
Proof.
  intros G. revert a; induction G as [|[sz u] bs (H & _) G IH]; intros a; cbn [extents]; [set_solver|].
  pose proof (total_nonneg bs G). rewrite total_cons; cbn [fst].
  unfold MIN_BLOCK_SIZE, HEAP_HEADER_SIZE in *. cbn in H.
  intros [Hp|Hp]%elem_of_app.
  - destruct (u =? 1); [|set_solver]. apply list_elem_of_singleton in Hp as ->. cbn. lia.
  - apply IH in Hp. lia.
Qed.

Lemma extents_apart a bs x y :
  Forall good_block bs -> x ∈ extents a bs -> y ∈ extents a bs -> x = y \/ apart x y.
Proof.
  intros G. revert a; induction G as [|[sz u] bs (H & _) G IH]; intros a; cbn [extents]; [set_solver|].
  unfold MIN_BLOCK_SIZE, HEAP_HEADER_SIZE in *. cbn in H. unfold apart in *.
  assert (forall z, z ∈ (if u =? 1 then [(a + 32, sz - 32)] else []) ->
    z = (a + 32, sz - 32)) as S by (intros z; destruct (u =? 1); set_solver).
  intros [Hx|Hx]%elem_of_app [Hy|Hy]%elem_of_app.
  - apply S in Hx, Hy. left. congruence.
  - apply S in Hx as ->. apply extents_range in Hy as [Hy _]; [|done].
    unfold HEAP_HEADER_SIZE in Hy. cbn. right. lia.
  - apply S in Hy as ->. apply extents_range in Hx as [Hx _]; [|done].
    unfold HEAP_HEADER_SIZE in Hx. cbn. right. lia.
  - eauto.
Qed.

Lemma extents_split a bs x :
  Forall good_block bs -> x ∈ extents a bs ->
  exists pre sz post, bs = pre ++ (sz, 1) :: post /\
    x = (a + total pre + HEAP_HEADER_SIZE, sz - HEAP_HEADER_SIZE).
Proof.
  intros G. revert a; induction G as [|[sz u] bs (_ & _ & Hu) G IH]; intros a; cbn [extents]; [set_solver|].
  cbn in Hu. intros [Hp|Hp]%elem_of_app.
  - exists [], sz, bs. destruct Hu as [-> | ->]; cbn in *; [set_solver|].
    apply list_elem_of_singleton in Hp. rewrite Z.add_0_r. done.
  - destruct (IH _ Hp) as (pre & sz' & post & -> & ->). exists ((sz, u) :: pre), sz', post.
    split; [done|]. rewrite total_cons. cbn [fst]. f_equal. lia.
Qed.

Lemma align_down16_spec x : align_down16 x = u64 x - u64 x mod 16.
Proof.
  unfold align_down16. change (2 ^ 64 - 16) with (Z.shiftl (Z.ones 60) 4).
  pose proof (u64_bound x). set (y := u64 x) in *. clearbody y.
  replace (Z.land y (Z.shiftl (Z.ones 60) 4)) with (Z.shiftl (Z.shiftr y 4) 4).
  - rewrite shiftl_mul, shiftr_div by lia. dlia.
  - apply Z.bits_inj'. intros i Hi. rewrite Z.land_spec.
    destruct (decide (i < 4)); [rewrite !Z.shiftl_spec_low by lia; by rewrite andb_false_r|].
    rewrite !Z.shiftl_spec_high, Z.shiftr_spec by lia. replace (i - 4 + 4) with i by lia.
    destruct (decide (i < 64)).
    + rewrite Z.ones_spec_low by lia. by rewrite andb_true_r.
    + rewrite (testbit_small y 64 i) by lia. done.
Qed.

Lemma needed_ok size : need_ok (needed (align_down16 size)).
Proof.
  unfold need_ok, needed, MIN_BLOCK_SIZE, HEAP_HEADER_SIZE. rewrite align_down16_spec.
  pose proof (u64_bound size). set (y := u64 size) in *. clearbody y. unfold u64 in *.
  destruct (_ <? _) eqn:E; zbool; dlia.
Qed.

Lemma needed_size n : 0 <= n < 2 ^ 63 -> n + HEAP_HEADER_SIZE <= needed (align_down16 (n + 15)).
Proof.
  intros Hn. unfold needed, HEAP_HEADER_SIZE. rewrite align_down16_spec, (u64_small (n + 15)) by lia.
  rewrite u64_small by dlia. destruct (_ <? _) eqn:E; zbool; dlia.
Qed.

Lemma with_entries_inv st s base bs E bs' :
  heap_inv st s base bs -> total bs' = total bs -> Forall good_block bs' -> bs' <> [] -> coalesced bs' ->
  blocks E NULL base bs' NULL -> heap_inv st (with_entries s E) base bs'.
Proof.
  intros (? & ? & ? & ? & ? & ? & ? & ? & _) Et ? ? ? ?. unfold heap_inv. rewrite Et. by repeat split.
Qed.

Lemma blocks_lookups E p a bs nxt :
  Forall good_block bs -> blocks E p a bs nxt -> (List.length bs <= size E)%nat.
Proof.
  intros G HB. set (ks := (fix f a bs := match bs with [] => [] | (sz, _) :: bs => a :: f (a + sz) bs end) a bs).
  assert (NoDup ks /\ (forall k, k ∈ ks -> a <= k /\ k ∈ dom E) /\ List.length ks = List.length bs) as (H1 & H2 & <-).
  { subst ks. revert p a HB. induction G as [|[sz u] bs (Hs & _) G IH]; intros p a HB.
    - split; [constructor|]. set_solver.
    - destruct HB as [HB1 HB2]. destruct (IH _ _ HB2) as (I1 & I2 & I3).
      unfold MIN_BLOCK_SIZE, HEAP_HEADER_SIZE in Hs. cbn in Hs. split; [|split].
      + apply list.NoDup_cons. split; [|done]. intros X. apply I2 in X. lia.
      + intros k [->|Hk]%elem_of_cons; [split; [lia|]; apply elem_of_dom; eauto|].
        apply I2 in Hk as [? ?]. split; [lia|done].
      + cbn. by rewrite I3. }
  rewrite <- (size_list_to_set (C := gset Z)) by exact H1. rewrite <- size_dom.
  apply subseteq_size. intros k Hk. apply elem_of_list_to_set in Hk. by apply H2.
Qed.

(** The first pass of an allocation. *)
Lemma search_heaps_ok st s base bs need fuel :
  heap_inv st s base bs -> need_ok need ->
  match alloc_blocks need base bs with
  | None => search_heaps (S fuel) (heaps s) need s = Ok None s
  | Some (p, bs') => exists E, search_heaps (S fuel) (heaps s) need s = Ok (Some p) (with_entries s E) /\
      blocks E NULL base bs' NULL
  end.
Proof.
  intros (Hi & Hh & Hn0 & Hl & (n & Hs) & Hb & Hm & Ht & G & Hne & C & HB) Hn.
  pose proof (search_ok need bs (size (entries s)) (entries s) NULL base Hb G HB Hn Ht
    (blocks_lookups _ _ _ _ _ G HB)) as HS.
  assert (next_of NULL base bs = base) as Hnx by (by destruct bs). rewrite Hnx in HS.
  assert (search_heaps (S fuel) (heaps s) need s =
    match search_blocks (size (entries s)) base need (entries s) with
    | Ok (Some p) E => Ok (Some p) (with_entries s E)
    | Ok None E => search_heaps fuel NULL need (with_entries s E)
    | Err c E => Err c (with_entries s E)
    | Fault => Fault
    | OutOfFuel => OutOfFuel
    end) as ->.
  { destruct s as [i h d E H L X]. cbn in *. subst h. cbn [search_heaps].
    rewrite (proj2 (Z.eqb_neq _ _) Hn0).
    unfold on_lists, on_structs, on_entries, zoom, out_or, xtGetListData, xtGetNextList, load, deref, get.
    unfold mbind, M_bind, mret, M_ret, XT_CHECK_ARG_IS_NULL. cbn.
    rewrite (proj2 (Z.eqb_neq _ _) Hn0). cbn. rewrite Hl. cbn. rewrite Hs. cbn.
    destruct (search_blocks _ _ _ _) as [[p|] E'| | |]; try done. cbn. by rewrite Hl. }
  destruct (alloc_blocks need base bs) as [[p bs']|].
  - destruct HS as (E & -> & HB' & _). eauto.
  - rewrite HS. destruct s, fuel; done.
Qed.

Lemma heap_init_noop st s : heap_initialized s = true -> xtHeapInit st s = Ok tt s.
Proof. intros H. unfold xtHeapInit, mbind, M_bind, get. by rewrite H. Qed.

Lemma lists_size st s base bs : heap_inv st s base bs -> exists k, size (lists s) = S k.
Proof.
  intros (_ & _ & _ & Hl & _). destruct (size (lists s)) eqn:E; [|eauto].
  apply map_size_empty_iff in E. by rewrite E in Hl.
Qed.

Lemma heap_alloc_ok st s base bs fuel n :
  heap_inv st s base bs ->
  match alloc_blocks (needed (align_down16 (n + 15))) base bs with
  | None => xtHeapAlloc st fuel n s =
      (grow_heap (needed (align_down16 (n + 15))) ;;;
       match fuel with O => nofuel | S fuel => xtHeapAlloc st fuel (align_down16 (n + 15)) end) s
  | Some (p, bs') => exists E, xtHeapAlloc st fuel n s = Ok p (with_entries s E) /\
      heap_inv st (with_entries s E) base bs'
  end.
Proof.
  intros HI. pose proof HI as (Hi & _ & _ & _ & _ & _ & _ & _ & G & _ & C & _).
  destruct (lists_size st s base bs HI) as [k Hk].
  pose proof (search_heaps_ok st s base bs _ k HI (needed_ok (n + 15))) as HS.
  pose proof (fun q bs' => alloc_blocks_spec _ base bs q bs' (needed_ok (n + 15))) as SP.
  assert (xtHeapAlloc st fuel n s =
    (r ← search_heaps (S k) (heaps s) (needed (align_down16 (n + 15)));
     match r with
     | Some p => mret p
     | None => grow_heap (needed (align_down16 (n + 15))) ;;;
         match fuel with O => nofuel | S fuel => xtHeapAlloc st fuel (align_down16 (n + 15)) end
     end) s) as ->.
  { destruct fuel; cbn [xtHeapAlloc]; rewrite (bind_Ok _ _ _ _ _ (heap_init_noop st s Hi));
      rewrite <- Hk; done. }
  destruct (alloc_blocks _ base bs) as [[p bs']|] eqn:EA.
  - destruct HS as (E & R & HB). exists E. rewrite (bind_Ok _ _ _ _ _ R). split; [done|].
    destruct (SP p bs' G C eq_refl) as (S1 & S2 & S3 & _).
    eapply with_entries_inv; try done. apply alloc_blocks_cons in EA. tauto.
  - by rewrite (bind_Ok _ _ _ _ _ HS).
Qed.

Lemma heap_free_live st s base pre sz post :
  heap_inv st s base (pre ++ (sz, 1) :: post) ->
  exists E, xtHeapFree (base + total pre + HEAP_HEADER_SIZE) s = Ok tt (with_entries s E) /\
    heap_inv st (with_entries s E) base (free_blocks pre sz post).
Proof.
  intros HI. pose proof HI as (_ & _ & _ & _ & _ & Hb & _ & _ & G & _ & C & HB).
  destruct (heap_free_ok _ base pre sz post Hb G HB) as (E & R & HB').
  destruct (free_blocks_spec base pre sz post G C) as (F1 & F2 & F3 & _).
  exists E. split; [unfold xtHeapFree, on_entries, zoom; by rewrite R|].
  eapply with_entries_inv; try done. unfold free_blocks.
  intros X. apply app_nil in X as [_ X]. done.
Qed.

(** * Theorems *)

(** C40: [xtHeapInit] on the zeroed statics leaves one free block that fills the 64 KiB arena from its first aligned byte. *)
Theorem heap_init_establishes (st : Statics) :
  0 < heap_data st < 2 ^ 64 - HEAP_DATA_SIZE - 16 ->
  static_heap_meta st <> NULL -> static_heap_list_node st <> NULL ->
  exists s base n, xtHeapInit st (mem_boot st) = Ok tt s /\ heap_inv st s base [(n, 0)] /\
    heap_data st <= base < heap_data st + 16 /\ n = HEAP_DATA_SIZE - (if base =? heap_data st then 0 else 16).
Proof.
  intros Hd Hm Hn. unfold HEAP_DATA_SIZE in *.
  set (base := if heap_data st mod 16 =? 0 then heap_data st else align_down16 (heap_data st + 15)).
  assert (heap_data st <= base < heap_data st + 16 /\ base mod 16 = 0) as [Hb Hb16].
  { subst base. destruct (_ =? 0) eqn:E; zbool; [lia|]. rewrite align_down16_spec, u64_small by lia. dlia. }
  set (n := align_down16 (u64 (HEAP_DATA_SIZE - (base - heap_data st)))).
  assert (n = 65536 - (if base =? heap_data st then 0 else 16)) as En.
  { subst n. unfold HEAP_DATA_SIZE. rewrite align_down16_spec, !u64_small by (try apply u64_bound; lia).
    destruct (_ =? heap_data st) eqn:E; zbool; dlia. }
  exists (mkMem true (static_heap_list_node st) NULL {[base := mkEntry n 0 NULL NULL]}
    {[static_heap_meta st := mkHeap base (u64 (HEAP_DATA_SIZE - (base - heap_data st)))]}
    {[static_heap_list_node st := mkList (static_heap_meta st) NULL]} ∅), base, n.
  split; [|split; [|split; [done|exact En]]].
  - assert (xtSetListData (static_heap_list_node st) (static_heap_meta st)
      {[static_heap_list_node st := mkList 0 0]} =
      Ok tt {[static_heap_list_node st := mkList (static_heap_meta st) NULL]}) as U1.
    { unfold xtSetListData. rewrite !check_then by done. unfold assign.
      by rewrite lookup_singleton_eq, insert_singleton_eq. }
    unfold xtHeapInit, mem_boot. cbv [mbind M_bind get]. cbn [heap_initialized]. fold base.
    unfold on_lists, on_structs, on_entries, zoom, out_or, modify. cbn [lists entries heap_structs].
    cbn. rewrite U1. rewrite xtSetNextList_refuses_null. cbn. by rewrite insert_singleton_eq.
  - split; [done|]. split; [done|]. split; [done|]. cbn [lists]. rewrite lookup_singleton_eq.
    split; [done|]. split; [eexists; apply lookup_singleton_eq|]. split; [lia|]. split; [done|].
    assert (48 <= n <= 65536) as Hn2 by (rewrite En; destruct (base =? _); lia).
    split; [unfold total; cbn [foldr fst]; lia|]. split.
    { constructor; [|done]. unfold good_block, MIN_BLOCK_SIZE, HEAP_HEADER_SIZE. cbn.
      split; [lia|]. split; [|by left]. rewrite En. by destruct (base =? _). }
    split; [done|]. split; [done|]. cbn. by rewrite lookup_singleton_eq.
Qed.

(** C1: An allocation of less than 2^63 bytes from the arena gives 16-byte aligned memory of at least the requested size that does not overlap anything handed out before, and keeps the heap sound; only when no free block is large enough does it turn to the page allocator, and then it tries again. *)
Theorem heap_alloc_sound (st : Statics) (s : Mem) (base : Z) (bs : list block) (fuel : nat) (n : Z) :
  heap_inv st s base bs -> 0 <= n < 2 ^ 63 ->
  (exists p len s' bs', xtHeapAlloc st fuel n s = Ok p s' /\ heap_inv st s' base bs' /\
     p mod 16 = 0 /\ n <= len /\ live s' base bs' ≡ₚ (p, len) :: live s base bs /\
     Forall (apart (p, len)) (live s base bs)) \/
  Forall (fun b => b.2 = 0 -> b.1 < needed (align_down16 (n + 15))) bs /\
  xtHeapAlloc st fuel n s =
    (grow_heap (needed (align_down16 (n + 15))) ;;;
     match fuel with O => nofuel | S fuel => xtHeapAlloc st fuel (align_down16 (n + 15)) end) s.
Proof.
  intros HI Hn. pose proof HI as (_ & _ & _ & _ & _ & Hb & Hb16 & _ & G & _ & C & _).
  pose proof (heap_alloc_ok st s base bs fuel n HI) as HA.
  destruct (alloc_blocks (needed (align_down16 (n + 15))) base bs) as [[p bs']|] eqn:EA.
  - left. destruct HA as (E & R & HI').
    destruct (alloc_blocks_spec _ base bs p bs' (needed_ok _) G C EA)
      as (S1 & S2 & S3 & S4 & (len & S5 & S6) & pre & sz & post & S7 & S8 & S9).
    exists p, len, (with_entries s E), bs'. split; [done|]. split; [done|].
    pose proof (needed_size n Hn). split; [|split; [lia|split; [done|]]].
    + subst p bs'. apply list.Forall_app in S1 as [S1 _].
      assert (total pre mod 16 = 0) as Hp.
      { clear -S1. induction S1 as [|b l (_ & Hm & _) _ IH]; [done|]. rewrite total_cons. dlia. }
      unfold HEAP_HEADER_SIZE. dlia.
    + apply list.Forall_forall. intros [q k] Hq.
      destruct (extents_apart base bs' (p, len) (q, k) S1) as [[= <- <-]|Ha]; [| |exfalso|done].
      * rewrite S6. set_solver.
      * rewrite S6. set_solver.
      * apply S4. rewrite pointers_extents. apply elem_of_list_to_set. apply list_elem_of_fmap.
        by exists (p, len).
  - right. split; [|exact HA]. clear -EA. revert base EA. generalize (needed (align_down16 (n + 15))). intros need.
    induction bs as [|[sz u] bs IH]; intros base; cbn [alloc_blocks]; [done|].
    destruct ((u =? 0) && (sz >=? need)) eqn:E; [done|].
    destruct (alloc_blocks need (base + sz) bs) as [[? ?]|] eqn:E2; [done|].
    intros _. constructor; [cbn; intros ->; cbn in E; lia|]. by eapply IH.
Qed.

(** C2: Freeing a live allocation succeeds, takes exactly that memory out of what is handed out, and keeps the heap sound: its blocks tile the arena and no two free blocks touch. *)
Theorem heap_free_sound (st : Statics) (s : Mem) (base : Z) (bs : list block) (p len : Z) :
  heap_inv st s base bs -> (p, len) ∈ live s base bs ->
  exists s' bs', xtHeapFree p s = Ok tt s' /\ heap_inv st s' base bs' /\
    live s base bs ≡ₚ (p, len) :: live s' base bs'.
Proof.
  intros HI Hp. pose proof HI as (_ & _ & _ & _ & _ & _ & _ & _ & G & _ & C & _).
  destruct (extents_split base bs _ G Hp) as (pre & sz & post & -> & [= -> ->]).
  destruct (heap_free_live st s base pre sz post HI) as (E & R & HI').
  exists (with_entries s E), (free_blocks pre sz post). split; [done|]. split; [done|].
  destruct (free_blocks_spec base pre sz post G C) as (_ & _ & _ & F4). unfold live.
  rewrite F4, extents_app. cbn [extents Z.eqb app]. by rewrite Permutation_middle.
Qed.

(** Nothing leaks and nothing stays fragmented: a sound heap with no live allocation is one free block again. *)
Theorem heap_empty_is_whole (st : Statics) (s : Mem) (base : Z) (bs : list block) :
  heap_inv st s base bs -> live s base bs = [] -> bs = [(total bs, 0)].
Proof.
  intros (_ & _ & _ & _ & _ & _ & _ & _ & G & Hne & C & _). unfold live.
  destruct bs as [|[sz u] bs]; [done|]. inversion G as [|? ? (_ & _ & Hu) G']; subst. cbn in Hu.
  cbn [extents]. intros [H1 H2]%app_nil. destruct Hu as [-> | ->]; [|done].
  destruct bs as [|[s2 u2] bs]; [cbn; do 2 f_equal; lia|].
  inversion G' as [|? ? (_ & _ & Hu2) G2]; subst. cbn in Hu2, H2, C.
  destruct Hu2 as [-> | ->]; [|done]. naive_solver.
Qed.

(** A size in the last 47 bytes below 2^64 wraps around in the header arithmetic: the request is granted with the smallest block, 16 usable bytes. *)
Theorem heap_alloc_size_wraps (n : Z) :
  2 ^ 64 - 47 <= n < 2 ^ 64 -> needed (align_down16 (n + 15)) = MIN_BLOCK_SIZE.
Proof.
  intros Hn. unfold needed, MIN_BLOCK_SIZE, HEAP_HEADER_SIZE. rewrite align_down16_spec.
  destruct (decide (n + 15 < 2 ^ 64)).
  - rewrite (u64_small (n + 15)) by lia.
    assert (n + 15 - (n + 15) mod 16 = 2 ^ 64 - 16 \/ n + 15 - (n + 15) mod 16 = 2 ^ 64 - 32) as [-> | ->] by dlia;
      by vm_compute.
  - assert (u64 (n + 15) = n + 15 - 2 ^ 64) as -> by (unfold u64; dlia).
    replace (n + 15 - 2 ^ 64 - (n + 15 - 2 ^ 64) mod 16) with 0 by dlia. by vm_compute.
Qed.

(** * The heap keeps the promises of the interface *)

(** While the arena lasts: [fuel] 0 cuts the recursion after the page allocator. *)
Definition mem_ok (st : Statics) (s : Mem) (L : gset Z) : Prop :=
  exists base bs, heap_inv st s base bs /\ pointers base bs = L.

Lemma mem_alloc_fresh st s L n p s' :
  mem_ok st s L -> Memory.xtHeapAlloc st 0 n s = Ok p s' ->
  p <> NULL /\ (p ∉ L) /\ mem_ok st s' ({[p]} ∪ L).
Proof.
  intros (base & bs & HI & <-) R. pose proof HI as (_ & _ & _ & _ & _ & Hb & _ & _ & G & _ & C & _).
  pose proof (heap_alloc_ok st s base bs 0 n HI) as HA.
  destruct (alloc_blocks _ base bs) as [[q bs']|] eqn:EA.
  - destruct HA as (E & R' & HI'). rewrite R' in R. injection R as -> <-.
    destruct (alloc_blocks_spec _ base bs p bs' (needed_ok _) G C EA)
      as (S1 & _ & _ & S4 & (len & _ & S6) & pre & sz & post & S7 & S8 & _).
    subst bs'. apply list.Forall_app in S1 as [S1 _]. pose proof (total_nonneg pre S1).
    split; [unfold NULL, HEAP_HEADER_SIZE in *; lia|]. split; [done|].
    exists base, (pre ++ (sz, 1) :: post). split; [done|].
    rewrite !pointers_extents. rewrite S6. cbn. done.
  - rewrite HA in R. apply bind_Ok_inv in R as (? & ? & _ & R). done.
Qed.

Lemma mem_free_live st s L p :
  mem_ok st s L -> p ∈ L -> exists s', Memory.xtHeapFree p s = Ok tt s' /\ mem_ok st s' (L ∖ {[p]}).
Proof.
  intros (base & bs & HI & <-) Hp. pose proof HI as (_ & _ & _ & _ & _ & _ & _ & _ & G & _ & C & _).
  destruct (pointers_split base bs p G Hp) as (pre & sz & post & -> & ->).
  destruct (heap_free_live st s base pre sz post HI) as (E & R & HI').
  exists (with_entries s E). split; [done|]. exists base, (free_blocks pre sz post). split; [done|].
  destruct (free_blocks_spec base pre sz post G C) as (_ & _ & _ & F4).
  rewrite !pointers_extents, F4, extents_app. cbn [extents Z.eqb app].
  rewrite !fmap_app, !list_to_set_app_L. cbn [fmap list_fmap fst list_to_set].
  pose proof G as [Gp Gs]%list.Forall_app. inversion Gs as [|? ? (Gs1 & _) G']; subst.
  unfold MIN_BLOCK_SIZE, HEAP_HEADER_SIZE in *. cbn in Gs1.
  assert (base + total pre + 32 ∉ pointers base pre) as N1
    by (intros X; apply pointers_range in X; [unfold HEAP_HEADER_SIZE in X; lia|done]).
  assert (base + total pre + 32 ∉ pointers (base + total pre + sz) post) as N2
    by (intros X; apply pointers_range in X; [unfold HEAP_HEADER_SIZE in X; lia|done]).
  rewrite pointers_extents in N1, N2. set_solver.
Qed.

#[export] Instance Mem_Allocator (st : Statics) : Allocator Mem := {
  Allocator.xtHeapAlloc := Memory.xtHeapAlloc st 0;
  Allocator.xtHeapFree := Memory.xtHeapFree;
  Allocator.heap_ok := mem_ok st;
  alloc_fresh := mem_alloc_fresh st;
  free_live := mem_free_live st;
  free_null := fun s => ltac:(destruct s; reflexivity)
}.

(** A heap of two blocks, the first one handed out. *)
Definition demo_statics : Statics := mkStatics 0x1000 0x100 0x200.

Definition demo_heap : Mem :=
  mkMem true 0x200 NULL {[0x1000 := mkEntry 0x40 1 0x1040 NULL; 0x1040 := mkEntry 0xffc0 0 NULL 0x1000]}
    {[0x100 := mkHeap 0x1000 0x10000]} {[0x200 := mkList 0x100 NULL]} ∅.

Lemma demo_heap_inv : heap_inv demo_statics demo_heap 0x1000 [(0x40, 1); (0xffc0, 0)].
Proof.
  do 4 (split; [done|]). split; [by eexists|]. do 3 (split; [done|]).
  split; [repeat constructor; unfold MIN_BLOCK_SIZE, HEAP_HEADER_SIZE; cbn; try lia; tauto|].
  split; [done|]. split; [cbn; naive_solver|]. by vm_compute.
Qed.

Lemma heap_alloc_sound_witness :
  exists p len s' bs', xtHeapAlloc demo_statics 0 100 demo_heap = Ok p s' /\ heap_inv demo_statics s' 0x1000 bs' /\
    p mod 16 = 0 /\ 100 <= len /\ Forall (apart (p, len)) [(0x1020, 0x20)].
Proof.
  destruct (heap_alloc_sound demo_statics demo_heap 0x1000 _ 0 100 demo_heap_inv ltac:(lia))
    as [(p & len & s' & bs' & R & HI & Hp & Hl & _ & HF)|[HF _]]; [by eauto 10|].
  exfalso. apply list.Forall_cons in HF as [_ [HF _]%list.Forall_cons]. by specialize (HF eq_refl).
Defined.

Lemma heap_free_sound_witness :
  exists s' bs', xtHeapFree 0x1020 demo_heap = Ok tt s' /\ heap_inv demo_statics s' 0x1000 bs' /\
    [(0x1020, 0x20)] ≡ₚ (0x1020, 0x20) :: live s' 0x1000 bs'.
Proof. apply (heap_free_sound demo_statics demo_heap 0x1000 _ 0x1020 0x20 demo_heap_inv). by left. Defined.

Lemma heap_init_establishes_witness :
  exists s base n, xtHeapInit (mkStatics 0x1008 0x100 0x200) (mem_boot (mkStatics 0x1008 0x100 0x200)) = Ok tt s /\
    heap_inv (mkStatics 0x1008 0x100 0x200) s base [(n, 0)] /\
    0x1008 <= base < 0x1008 + 16 /\ n = HEAP_DATA_SIZE - (if base =? 0x1008 then 0 else 16).
Proof. apply (heap_init_establishes (mkStatics 0x1008 0x100 0x200)); cbn; unfold HEAP_DATA_SIZE, NULL; lia. Defined.
