(* ===== verification/PagesProof.v ===== *)
(** The page allocator of Memory.v: first fit over the memory map, what its
    rounding does, and that giving pages back restores the map. *)
From Stdlib Require Import ZArith Lia.
From stdpp Require Import base tactics list gmap fin_maps numbers.
From S2P Require Import Prelude Allocator ListC Memory.

Open Scope Z_scope.

(** * The specification: the memory map is a list of regions *)

(** A region: its list node, the address of its map entry, and the entry. *)
Notation region := (Z * Z * XTMemoryMapEntry)%type.

Definition pages_inv (s : Mem) (ds : list region) : Prop :=
  chain next data (lists s) (memoryDescs s) ds.*1 NULL /\ NoDup ds.*1.*1 /\ NoDup ds.*1.*2 /\
  Forall (fun d => mapEntries s !! d.1.2 = Some d.2) ds /\ Forall (fun d => d.1.2 <> NULL) ds.

(** The first region that passes a test, and those before and after it. *)
Fixpoint pick (fits : XTMemoryMapEntry -> bool) (ds : list region)
    : option (list region * region * list region) :=
  match ds with
  | [] => None
  | d :: ds =>
    if fits d.2 then Some ([], d, ds)
    else match pick fits ds with
         | Some (l1, x, l2) => Some (d :: l1, x, l2)
         | None => None
         end
  end.

(** The region [xtAllocatePages] takes pages from. *)
Definition chosen (ptr size : Z) (ds : list region) : option (list region * region * list region) :=
  match pick (fun e => (start e =? ptr) && (length e >=? size)) ds with
  | Some r => Some r
  | None => pick (fun e => length e >=? size) ds
  end.

Definition shrink (size : Z) (d : region) : region :=
  (d.1, mkMap (attributes d.2) (start d.2 + size) (length d.2 - size)).

(** Regions in the order of their addresses, with a gap after each. *)
Fixpoint spaced (ds : list region) : Prop :=
  match ds with
  | [] => True
  | d :: ds =>
    match ds with e :: _ => start d.2 + length d.2 < start e.2 | [] => True end /\ spaced ds
  end.

Definition region_ok (d : region) : Prop :=
  0 < start d.2 /\ 0 <= length d.2 /\ start d.2 + length d.2 < 2 ^ 64.

Definition with_maps (s : Mem) (m : gmap Z XTMemoryMapEntry) : Mem :=
  mkMem (heap_initialized s) (heaps s) (memoryDescs s) (entries s) (heap_structs s) (lists s) m.

(** * Lemmas *)

Lemma with_maps_id s : with_maps s (mapEntries s) = s.
Proof. by destruct s. Qed.

Lemma get_data_run s node n :
  node <> NULL -> lists s !! node = Some n -> on_lists (xtGetListData node) s = Ok (data n) s.
Proof.
  intros H1 H2. destruct s. cbn in *. unfold on_lists, zoom, xtGetListData. cbn.
  rewrite check_then by done. by rewrite (bind_Ok _ _ _ _ _ (load_Ok _ _ _ H2)).
Qed.

Lemma get_next_run s node n :
  node <> NULL -> lists s !! node = Some n -> on_lists (xtGetNextList node) s = Ok (next n) s.
Proof.
  intros H1 H2. destruct s. cbn in *. unfold on_lists, zoom, xtGetNextList. cbn.
  rewrite check_then by done. by rewrite (bind_Ok _ _ _ _ _ (load_Ok _ _ _ H2)).
Qed.

Lemma load_map_run s a e : mapEntries s !! a = Some e -> on_maps (load a) s = Ok e s.
Proof. intros H. destruct s. cbn in *. unfold on_maps, zoom. cbn. by rewrite (load_Ok _ _ _ H). Qed.

Lemma assign_map_run s a f e :
  mapEntries s !! a = Some e -> on_maps (assign a f) s = Ok tt (with_maps s (<[a := f e]> (mapEntries s))).
Proof. intros H. destruct s. cbn in *. unfold on_maps, zoom. cbn. by rewrite (assign_Ok _ _ _ _ H). Qed.

(** The node before a position. *)
Definition node_before (prev : Z) (l : list region) : Z := foldl (fun _ d => d.1.1) prev l.

Lemma pages_loop_ok fits size s ds : forall fuel i prev,
  chain next data (lists s) i ds.*1 NULL -> Forall (fun d => mapEntries s !! d.1.2 = Some d.2) ds ->
  (List.length ds <= fuel)%nat ->
  pages_loop fuel fits i prev size s =
  match pick fits ds with
  | None => Ok None s
  | Some (l1, x, _) => (out ← take_pages x.1.1 (node_before prev l1) x.1.2 size; mret (Some out)) s
  end.
Proof.
  induction ds as [|[[a b] e] ds IH]; intros fuel i prev Hc HF Hf.
  - cbn in Hc. subst i. by destruct fuel.
  - cbn [fmap list_fmap fst chain] in Hc. destruct Hc as (-> & Ha & n & Hn & Hd & Hc).
    apply list.Forall_cons in HF as [He HF]. cbn [fst snd] in He.
    assert (pages_loop fuel fits a prev size s =
      if fits e then (out ← take_pages a prev b size; mret (Some out)) s
      else match fuel with O => OutOfFuel | S fuel => pages_loop fuel fits (next n) a size s end) as ->.
    { destruct fuel; cbn [pages_loop]; rewrite (proj2 (Z.eqb_neq _ _) Ha);
        rewrite (bind_Ok _ _ _ _ _ (out_or_Ok _ _ _ _ _ (get_data_run s a n Ha Hn))), Hd;
        rewrite (bind_Ok _ _ _ _ _ (load_map_run s b e He)); (destruct (fits e); [done|]); [done|].
      by rewrite (bind_Ok _ _ _ _ _ (out_or_Ok _ _ _ _ _ (get_next_run s a n Ha Hn))). }
    cbn [pick snd]. destruct (fits e); [done|]. cbn [List.length] in Hf.
    destruct fuel as [|fuel]; [lia|]. rewrite IH; [|done|done|lia].
    destruct (pick fits ds) as [[[l1 x] l2]|]; done.
Qed.

Lemma pick_split fits ds l1 x l2 : pick fits ds = Some (l1, x, l2) -> ds = l1 ++ x :: l2 /\ fits x.2 = true.
Proof.
  revert l1 x l2; induction ds as [|d ds IH]; intros l1 x l2; cbn [pick]; [done|].
  destruct (fits d.2) eqn:E; [by intros [= <- <- <-]|].
  destruct (pick fits ds) as [[[k1 y] k2]|]; [|done]. intros [= <- <- <-].
  destruct (IH k1 y k2 eq_refl) as [-> ?]. done.
Qed.

Lemma take_pages_run s i prev a e size :
  mapEntries s !! a = Some e -> 0 <= start e + size < 2 ^ 64 -> size < length e ->
  take_pages i prev a size s =
  Ok (start e) (with_maps s (<[a := mkMap (attributes e) (start e + size) (length e - size)]> (mapEntries s))).
Proof.
  intros He Hb Hl. unfold take_pages. rewrite (bind_Ok _ _ _ _ _ (load_map_run s a e He)).
  rewrite (bind_Ok _ _ _ _ _ (assign_map_run s a _ e He)).
  rewrite (bind_Ok _ _ _ _ _ (assign_map_run _ a _ _ (lookup_insert_eq _ _ _))).
  replace (length e - size =? 0) with false by lia. cbn. rewrite insert_insert_eq, u64_small by lia. done.
Qed.

(** A region that is used up: its node leaves the list and is freed, but the link of the node before it is not cleared when nothing follows. *)
Definition used_up (s : Mem) (h' : gmap Z XTHeapEntry) (a prev b : Z) (n : XTList) (e : XTMemoryMapEntry) : Mem :=
  mkMem (heap_initialized s) (heaps s) (if decide (prev = NULL) then next n else memoryDescs s) h' (heap_structs s)
    (delete a (if decide (prev = NULL \/ next n = NULL) then lists s else alter (set_next (next n)) prev (lists s)))
    (<[b := mkMap (attributes e) (u64 (start e + length e)) 0]> (mapEntries s)).

Lemma take_all_run s a prev b e n h' : mapEntries s !! b = Some e -> a <> NULL -> lists s !! a = Some n ->
  heap_free a (entries s) = Ok tt h' -> (prev <> NULL -> is_Some (lists s !! prev)) ->
  take_pages a prev b (length e) s = Ok (start e) (used_up s h' a prev b n e).
Proof.
  intros He Ha Hn Hh Hp. unfold take_pages. rewrite (bind_Ok _ _ _ _ _ (load_map_run s b e He)).
  rewrite (bind_Ok _ _ _ _ _ (assign_map_run s b _ e He)).
  rewrite (bind_Ok _ _ _ _ _ (assign_map_run _ b _ _ (lookup_insert_eq _ _ _))).
  rewrite Z.sub_diag. change (0 =? 0) with true. cbv iota. cbn [with_maps mapEntries]. rewrite insert_insert_eq.
  destruct s as [hi hs md es st ls ms]. cbn in He, Hn, Hh, Hp. unfold with_maps. cbn [heap_initialized heaps memoryDescs entries heap_structs lists mapEntries].
  set (ms' := <[b := _]> ms). set (s1 := mkMem hi hs md es st ls ms').
  rewrite !bind_bind. rewrite (bind_Ok _ _ _ _ _ (out_or_Ok _ _ _ _ _ (get_next_run s1 a n Ha Hn))). rewrite !bind_bind.
  set (ls' := if decide (prev = NULL \/ next n = NULL) then ls else alter (set_next (next n)) prev ls).
  rewrite (bind_Ok _ _ _ tt (mkMem hi hs (if decide (prev = NULL) then next n else md) es st ls' ms')).
  2:{ unfold ls'. destruct (decide (prev = NULL)) as [->|Hne]; [by rewrite decide_True by (by left)|].
      rewrite (proj2 (Z.eqb_neq _ _) Hne). destruct (Hp Hne) as [np Hnp]. unfold out_or, on_lists, zoom, xtSetNextList. cbn.
      rewrite check_then by done. destruct (decide (next n = NULL)) as [->|Hnn]; [by rewrite decide_True by (by right)|].
      rewrite decide_False by tauto. rewrite check_then by done. rewrite (assign_Ok _ _ _ _ Hnp). by rewrite (insert_alter _ _ _ _ Hnp). }
  erewrite bind_Ok; [|apply out_or_Ok; unfold xtDestroyList; rewrite check_then by done;
    erewrite bind_Ok by (unfold xtHeapFree, on_entries, zoom; cbn; by rewrite Hh); reflexivity]. done.
Qed.

Lemma pages_inv_length s ds : pages_inv s ds -> (List.length ds <= size (lists s))%nat.
Proof. intros (Hc & Hnd & _). apply chain_length in Hc; [|done]. by rewrite length_fmap in Hc. Qed.

Lemma pages_inv_update s l1 d d' l2 :
  pages_inv s (l1 ++ d :: l2) -> d'.1 = d.1 ->
  pages_inv (with_maps s (<[d.1.2 := d'.2]> (mapEntries s))) (l1 ++ d' :: l2).
Proof.
  intros (Hc & Hn & He & HF & H0) Hd. unfold pages_inv. cbn [lists memoryDescs mapEntries with_maps].
  assert ((l1 ++ d' :: l2).*1 = (l1 ++ d :: l2).*1) as E by (rewrite !fmap_app; cbn; by rewrite Hd).
  rewrite E. split; [done|]. split; [done|]. split; [done|]. split.
  2: { apply list.Forall_app in H0 as [H1 H2]. apply list.Forall_cons in H2 as [H2 H3].
       apply list.Forall_app. split; [done|]. apply list.Forall_cons. by rewrite Hd. }
  rewrite !fmap_app in He. cbn in He. rewrite list.NoDup_app, list.NoDup_cons in He.
  destruct He as (_ & He1 & He2 & _).
  apply list.Forall_app in HF as [F1 F2]. apply list.Forall_cons in F2 as [F2 F3].
  apply list.Forall_app. split; [|apply list.Forall_cons; split].
  - apply list.Forall_forall. intros x Hx. rewrite list.Forall_forall in F1. rewrite lookup_insert_ne; [by apply F1|].
    intros E2. apply (He1 x.1.2); [|rewrite <- E2; set_solver].
    apply list_elem_of_fmap. exists x.1. split; [done|]. apply list_elem_of_fmap. eauto.
  - rewrite Hd. apply lookup_insert_eq.
  - apply list.Forall_forall. intros x Hx. rewrite list.Forall_forall in F3. rewrite lookup_insert_ne; [by apply F3|].
    intros E2. apply He2. rewrite E2.
    apply list_elem_of_fmap. exists x.1. split; [done|]. apply list_elem_of_fmap. eauto.
Qed.

Lemma allocate_run s ds ptr size :
  pages_inv s ds ->
  xtAllocatePages ptr size s =
  match chosen ptr (page_round size) ds with
  | None => Err XT_OUT_OF_MEMORY s
  | Some (l1, x, _) => take_pages x.1.1 (node_before NULL l1) x.1.2 (page_round size) s
  end.
Proof.
  intros HI. pose proof (pages_inv_length s ds HI) as HL. destruct HI as (Hc & _ & _ & HF & _).
  unfold xtAllocatePages, chosen. cbv beta iota zeta delta [get]. unfold mbind at 1, M_bind at 1.
  unfold mbind at 1, M_bind at 1. rewrite (pages_loop_ok _ _ s ds) by done.
  destruct (pick _ ds) as [[[l1 x] l2]|].
  - unfold mbind, M_bind, mret, M_ret. by destruct (take_pages _ _ _ _ s).
  - unfold mbind at 1, M_bind at 1. unfold mbind at 1, M_bind at 1. rewrite (pages_loop_ok _ _ s ds) by done.
    destruct (pick _ ds) as [[[l1 x] l2]|]; [|done].
    unfold mbind, M_bind, mret, M_ret. by destruct (take_pages _ _ _ _ s).
Qed.

Lemma chosen_split ptr size ds l1 x l2 :
  chosen ptr size ds = Some (l1, x, l2) -> ds = l1 ++ x :: l2 /\ size <= length x.2.
Proof.
  unfold chosen. destruct (pick _ ds) as [[[k1 y] k2]|] eqn:E1; [intros [= <- <- <-]|intros E2];
    [apply pick_split in E1 as [-> E]|apply pick_split in E2 as [-> E]]; (split; [done|]);
    [apply andb_true_iff in E as [_ E]|]; rewrite Z.geb_leb in E; lia.
Qed.

Lemma clear_bit12 y : 0 <= y < 2 ^ 64 ->
  Z.land y (2 ^ 64 - 1 - 0x1000) = y / 8192 * 8192 + y mod 4096.
Proof.
  intros Hy. set (C := 2 ^ 64 - 1 - 0x1000). change 8192 with (2 ^ 13) at 2. rewrite <- lor_add_shift by dlia.
  change 8192 with (2 ^ 13). change 4096 with (2 ^ 12).
  rewrite <- shiftr_div, <- shiftl_mul by lia. rewrite <- Z.land_ones by lia.
  apply Z.bits_inj'. intros i Hi. rewrite Z.lor_spec, !Z.land_spec.
  destruct (decide (i < 64)) as [H64|H64]; [|by rewrite (testbit_small y 64 i), andb_false_l,
    Z.shiftl_spec_high, Z.shiftr_spec, (testbit_small y 64 (i - 13 + 13)) by lia].
  assert (Z.testbit C i = negb (i =? 12)) as ->.
  { assert (forallb (fun k => eqb (Z.testbit C (Z.of_nat k)) (negb (Z.of_nat k =? 12)))
      (seq 0 64) = true) as A by (vm_compute; reflexivity).
    rewrite forallb_forall in A. specialize (A (Z.to_nat i)). rewrite Z2Nat.id in A by lia.
    apply eqb_true_iff, A, in_seq. lia. }
  destruct (decide (i < 13)).
  - rewrite Z.shiftl_spec_low by lia. rewrite orb_false_l.
    destruct (decide (i = 12)) as [->|]; [by rewrite Z.ones_spec_high, !andb_false_r by lia|].
    rewrite Z.ones_spec_low by lia. by replace (i =? 12) with false by lia.
  - rewrite Z.shiftl_spec_high, Z.shiftr_spec, Z.ones_spec_high by lia.
    replace (i - 13 + 13) with i by lia. replace (i =? 12) with false by lia.
    by rewrite andb_false_r, orb_false_r, andb_true_r.
Qed.

Lemma place_loop_ok s addr x l2 : forall l1 fuel i prev,
  chain next data (lists s) i (l1 ++ x :: l2).*1 NULL ->
  Forall (fun d => mapEntries s !! d.1.2 = Some d.2) (l1 ++ x :: l2) ->
  Forall (fun d => start d.2 <= addr) l1 -> addr < start x.2 -> (List.length l1 <= fuel)%nat ->
  place_loop fuel i prev addr s = Ok (node_before prev l1, x.1.1) s.
Proof.
  assert (forall (d : region) l fuel i prev, chain next data (lists s) i (d :: l).*1 NULL ->
    mapEntries s !! d.1.2 = Some d.2 ->
    exists n, i = d.1.1 /\ chain next data (lists s) (next n) l.*1 NULL /\
    place_loop fuel i prev addr s = if start d.2 >? addr then Ok (prev, i) s
      else match fuel with O => OutOfFuel | S fuel => place_loop fuel (next n) i addr s end) as Step.
  { intros [[a b] e] l fuel i prev Hc He. cbn [fst snd] in *.
    destruct Hc as (-> & Ha & n & Hn & Hd & Hc). exists n. split; [done|]. split; [done|].
    destruct fuel; cbn [place_loop]; rewrite (proj2 (Z.eqb_neq _ _) Ha);
      rewrite (bind_Ok _ _ _ _ _ (out_or_Ok _ _ _ _ _ (get_data_run s a n Ha Hn))), Hd;
      rewrite (bind_Ok _ _ _ _ _ (load_map_run s b e He)); (destruct (start e >? addr); [done|]); [done|].
    by rewrite (bind_Ok _ _ _ _ _ (out_or_Ok _ _ _ _ _ (get_next_run s a n Ha Hn))). }
  induction l1 as [|d l1 IH]; intros fuel i prev Hc HF HL Hx Hf; cbn [app] in *.
  - apply list.Forall_cons in HF as [He _].
    destruct (Step x l2 fuel i prev Hc He) as (n & -> & _ & ->).
    by replace (start x.2 >? addr) with true by lia.
  - apply list.Forall_cons in HF as [He HF]. apply list.Forall_cons in HL as [Hd HL]. cbn [List.length] in Hf.
    destruct (Step d _ fuel i prev Hc He) as (n & -> & Hc2 & ->).
    replace (start d.2 >? addr) with false by lia. destruct fuel as [|fuel]; [lia|].
    rewrite IH by (done || lia). done.
Qed.

Lemma spaced_app_inv l1 l2 : spaced (l1 ++ l2) -> spaced l1 /\ spaced l2.
Proof.
  induction l1 as [|b l1 IH]; cbn [app spaced]; [done|]. intros [H1 H2].
  destruct (IH H2) as [H3 H4]. split; [|done]. split; [|done]. by destruct l1.
Qed.

Lemma spaced_before l1 x l2 :
  Forall region_ok (l1 ++ x :: l2) -> spaced (l1 ++ x :: l2) ->
  Forall (fun d => start d.2 + length d.2 < start x.2) l1.
Proof.
  induction l1 as [|d l1 IH]; intros G S; [done|]. cbn [app] in *.
  apply list.Forall_cons in G as [G1 G]. destruct S as [S1 S].
  apply list.Forall_cons. split; [|auto]. destruct l1 as [|e l1]; [done|]. cbn in S1.
  specialize (IH G S). apply list.Forall_cons in IH as [IH _]. unfold region_ok in *.
  apply list.Forall_cons in G as [G2 _]. unfold region_ok in *. lia.
Qed.

(** Looking up the entry of a node of the map. *)
Lemma entry_run s ds d :
  chain next data (lists s) (memoryDescs s) ds.*1 NULL ->
  Forall (fun d => mapEntries s !! d.1.2 = Some d.2) ds -> Forall (fun d => d.1.2 <> NULL) ds -> d ∈ ds ->
  entry_of d.1.1 s = Ok d.1.2 s /\ load_entry d.1.2 s = Ok (Some d.2) s.
Proof.
  intros Hc HF H0 Hd. rewrite list.Forall_forall in HF, H0.
  pose proof (chain_lookup next data _ _ _ _ d.1.1 d.1.2 Hc) as Hn.
  destruct Hn as (Ha & n & Hn & Hv); [apply list_elem_of_fmap; exists d; split; [by destruct d as [[? ?] ?]|done]|].
  unfold entry_of, load_entry. rewrite (proj2 (Z.eqb_neq _ _) Ha), (proj2 (Z.eqb_neq _ _) (H0 d Hd)).
  rewrite (out_or_Ok _ _ _ _ _ (get_data_run s _ n Ha Hn)), Hv.
  by rewrite (bind_Ok _ _ _ _ _ (load_map_run s _ _ (HF d Hd))).
Qed.

Lemma node_before_snoc prev l (d : region) : node_before prev (l ++ [d]) = d.1.1.
Proof. unfold node_before. by rewrite foldl_app. Qed.

Lemma region_node s l1 (x : region) l2 : pages_inv s (l1 ++ x :: l2) ->
  x.1.1 <> NULL /\ x.1.1 ∉ (l1 ++ l2).*1.*1 /\ x.1.2 ∉ (l1 ++ l2).*1.*2 /\
  exists n, lists s !! x.1.1 = Some n /\ chain next data (lists s) (memoryDescs s) l1.*1 x.1.1 /\ chain next data (lists s) (next n) l2.*1 NULL.
Proof.
  intros (Hc & Hn & He & _). rewrite !fmap_app in Hc. do 2 rewrite fmap_app in Hn, He. cbn [fmap list_fmap] in Hc, Hn, He. destruct x as [[a b] e]. cbn [fst snd] in *.
  apply chain_app in Hc as (r & H1 & (-> & Ha & n & Hln & Hd & H2)). rewrite list.NoDup_app, list.NoDup_cons in Hn, He.
  split; [done|]. rewrite !fmap_app. split; [set_solver|]. split; [set_solver|]. by exists n.
Qed.

Lemma NoDup_without {X} (l1 l2 : list X) x : NoDup (l1 ++ x :: l2) -> NoDup (l1 ++ l2).
Proof.
  rewrite !list.NoDup_app, list.NoDup_cons. intros (H1 & H2 & _ & H3). split; [done|]. split; [|done].
  intros y Hy Hin. apply (H2 y Hy). by right.
Qed.

(** The other regions stay, if the region was the first or others follow it. *)
Lemma used_up_inv s h' l1 (x : region) l2 n : pages_inv s (l1 ++ x :: l2) -> lists s !! x.1.1 = Some n -> l1 = [] \/ l2 <> [] ->
  pages_inv (used_up s h' x.1.1 (node_before NULL l1) x.1.2 n x.2) (l1 ++ l2).
Proof.
  intros HI Hn Hc. destruct (region_node s l1 x l2 HI) as (Ha & Ha' & Hb & n' & Hn' & C1 & C2). rewrite Hn in Hn'. injection Hn' as <-.
  pose proof HI as (_ & Nd1 & Nd2 & HF & H0). unfold pages_inv. cbn [used_up memoryDescs lists mapEntries].
  assert (NoDup (l1 ++ l2).*1.*1 /\ NoDup (l1 ++ l2).*1.*2) as [N1 N2].
  { do 2 rewrite fmap_app in Nd1, Nd2. cbn [fmap list_fmap] in Nd1, Nd2. repeat rewrite fmap_app. by split; eapply NoDup_without. }
  split; [|split; [done|split; [done|split]]].
  - destruct l1 as [|d0 l0] using rev_ind; [|clear IHl0].
    + cbn [app] in *. change (node_before NULL []) with NULL. rewrite (decide_True (P := NULL = NULL)), (decide_True (P := NULL = NULL \/ _)) by auto. apply chain_delete; [|done]. exact Ha'.
    + rewrite node_before_snoc. assert (l2 <> []) as Hl2 by (destruct Hc as [Hc|]; [by destruct l0|done]). clear Hc.
      assert (d0.1.1 <> NULL) as Hd0.
      { intros E. apply (chain_addresses_nonnull _ _ _ _ _ _ C1). rewrite !fmap_app, <- E. cbn. set_solver. }
      pose proof (chain_nonnull next data _ _ _ _ C2 ltac:(by destruct l2)) as Hnn. rewrite (decide_False (P := d0.1.1 = NULL)), (decide_False (P := d0.1.1 = NULL \/ _)) by tauto.
      rewrite fmap_app in C1. cbn [fmap list_fmap] in C1. destruct d0 as [[p b0] e0]. cbn [fst snd] in *.
      rewrite !fmap_app in N1. cbn in N1. pose proof N1 as Nd%list.NoDup_app.
      destruct (chain_relink next data set_next (lists s) (memoryDescs s) l0.*1 p b0 x.1.1 (next n)) as (np & Hp & _ & C3); [done|done| |done|].
      { rewrite fmap_app. apply Nd. }
      rewrite <- (insert_alter _ _ _ _ Hp). apply chain_delete; [done|]. rewrite !fmap_app. cbn [fmap list_fmap fst]. apply chain_app. exists (next n). split; [done|].
      apply chain_insert; [|done]. intros Hin. destruct Nd as (_ & Nd & _). apply (Nd p); [set_solver|done].
  - apply list.Forall_forall. intros d Hd. rewrite lookup_insert_ne.
    + rewrite list.Forall_forall in HF. apply HF. set_solver.
    + intros E. apply Hb. rewrite E. apply list_elem_of_fmap. exists d.1. split; [done|]. apply list_elem_of_fmap. eauto.
  - rewrite list.Forall_app, list.Forall_cons in H0. apply list.Forall_app. tauto.
Qed.

(** * Theorems *)

(** C38: [xtAllocatePages] is first fit: it takes the pages from the front of the region that starts at the wanted address, if that is large enough, else of the first region that is large enough. A region that is larger shrinks by what was taken, and no other changes. One that is used up exactly leaves the map, and its node, a live block of the heap, is freed; but if it was the last of several, the node before it is still linked to the freed node. With no region large enough the result is [XT_OUT_OF_MEMORY]. *)
Theorem xtAllocatePages_first_fit (s : Mem) (ds : list region) (ptr size : Z) :
  pages_inv s ds -> Forall region_ok ds ->
  match chosen ptr (page_round size) ds with
  | None => xtAllocatePages ptr size s = Err XT_OUT_OF_MEMORY s /\
      Forall (fun d => length d.2 < page_round size) ds
  | Some (l1, x, l2) =>
      ds = l1 ++ x :: l2 /\ page_round size <= length x.2 /\
      (page_round size < length x.2 ->
       exists s', xtAllocatePages ptr size s = Ok (start x.2) s' /\
         pages_inv s' (l1 ++ shrink (page_round size) x :: l2)) /\
      (page_round size = length x.2 -> forall h', heap_free x.1.1 (entries s) = Ok tt h' ->
       exists s', xtAllocatePages ptr size s = Ok (start x.2) s' /\ entries s' = h' /\ lists s' !! x.1.1 = None /\
         (l1 = [] \/ l2 <> [] -> pages_inv s' (l1 ++ l2)) /\
         (l1 <> [] -> l2 = [] -> exists n, lists s' !! node_before NULL l1 = Some n /\ next n = x.1.1))
  end.
Proof.
  intros HI G. rewrite (allocate_run s ds ptr size HI).
  destruct (chosen ptr (page_round size) ds) as [[[l1 x] l2]|] eqn:EC.
  - apply chosen_split in EC as [-> Hle]. split; [done|]. split; [done|].
    assert (0 <= page_round size) by (unfold page_round; apply Z.land_nonneg; right; lia).
    pose proof HI as (_ & _ & _ & HF & _). apply list.Forall_app in HF as [_ HF]. apply list.Forall_cons in HF as [HF _]. split.
    + intros Hlt. apply list.Forall_app in G as [_ G]. apply list.Forall_cons in G as [(G1 & G2 & G3) _].
      eexists. split; [eapply take_pages_run; [exact HF|lia|lia]|].
      by apply (pages_inv_update s l1 x (shrink (page_round size) x) l2).
    + intros -> h' Hh. destruct (region_node s l1 x l2 HI) as (Ha & Ha' & _ & n & Hn & C1 & _).
      exists (used_up s h' x.1.1 (node_before NULL l1) x.1.2 n x.2). split; [apply take_all_run; try done; intros Hne|split; [done|split; [apply lookup_delete_eq|split]]].
      * destruct l1 as [|d0 l0 _] using rev_ind; [done|]. rewrite node_before_snoc.
        apply elem_of_dom. eapply chain_dom; [exact C1|]. rewrite !fmap_app. cbn. set_solver.
      * intros Hc. by apply used_up_inv.
      * intros Hl1 ->. destruct l1 as [|d0 l0 _] using rev_ind; [done|]. rewrite node_before_snoc. cbn [used_up lists].
        pose proof HI as (Hc & _). destruct d0 as [[p b0] e0]. cbn [fst snd].
        rewrite fmap_app in C1. apply chain_app in C1 as (r & _ & C1). cbn in C1. destruct C1 as (-> & Hp & np & Hnp & _ & C1).
        destruct (region_node s (l0 ++ [((p, b0), e0)]) x [] HI) as (_ & _ & _ & n' & Hn' & _ & C2). rewrite Hn in Hn'. injection Hn' as <-. cbn in C2.
        rewrite decide_True by (by right). exists np. rewrite lookup_delete_ne; [done|]. intros E. apply Ha'. rewrite E, !fmap_app. cbn. set_solver.
  - split; [done|]. revert EC. unfold chosen. destruct (pick _ ds) as [[[? ?] ?]|]; [done|].
    clear. generalize (page_round size) as sz. intros sz.
    induction ds as [|d ds IH]; cbn [pick]; [done|].
    destruct (length d.2 >=? sz) eqn:E; [done|]. destruct (pick _ ds) as [[[? ?] ?]|]; [done|].
    intros _. constructor; [lia|by apply IH].
Qed.

(** The rounding clears one bit instead of the low twelve: a whole number of pages is rounded up to an even number, and a size with bits below the page size keeps them. *)
Theorem page_round_spec (size : Z) :
  0 <= size < 2 ^ 64 - 0x1000 ->
  page_round size = (size + 0x1000) / 0x2000 * 0x2000 + size mod 0x1000.
Proof.
  intros H. unfold page_round. rewrite u64_small by lia. rewrite clear_bit12 by lia.
  change 0x1000 with 4096. change 0x2000 with 8192. dlia.
Qed.

(** Pages that are taken from a map of separated regions and given back leave the memory map, and the whole state, as it was. *)
Theorem alloc_free_pages_roundtrip (st : Statics) (fuel : nat) (s : Mem) (ds l1 l2 : list region)
    (x : region) (ptr size : Z) :
  pages_inv s ds -> Forall region_ok ds -> spaced ds -> page_round size = size -> 0 < size ->
  chosen ptr size ds = Some (l1, x, l2) -> size < length x.2 ->
  (p ← xtAllocatePages ptr size; xtFreePages st fuel p size) s = Ok tt s.
Proof.
  intros HI G S Hr Hs EC Hlt. pose proof EC as [-> _]%chosen_split.
  pose proof (spaced_before l1 x l2 G S) as Hbef.
  pose proof G as [G1 G2]%list.Forall_app. apply list.Forall_cons in G2 as [(Gx1 & Gx2 & Gx3) _].
  pose proof HI as (_ & _ & _ & HF & _). apply list.Forall_app in HF as [_ HF]. apply list.Forall_cons in HF as [HF _].
  set (x' := shrink size x).
  pose proof (pages_inv_update s l1 x x' l2 HI eq_refl) as HI'.
  assert (xtAllocatePages ptr size s = Ok (start x.2) (with_maps s (<[x.1.2 := x'.2]> (mapEntries s)))) as RA.
  { rewrite (allocate_run s _ ptr size HI), Hr, EC. apply take_pages_run; [done|lia|lia]. }
  rewrite (bind_Ok _ _ _ _ _ RA). set (s1 := with_maps s (<[x.1.2 := x'.2]> (mapEntries s))) in *.
  pose proof (pages_inv_length s1 _ HI') as HL. rewrite length_app in HL. cbn [List.length] in HL.
  destruct HI' as (Hc & Hn & He & HF' & H0).
  assert (Forall (fun d => start d.2 <= start x.2) l1) as Hle.
  { rewrite list.Forall_forall in Hbef, G1 |- *. intros d Hd. specialize (Hbef d Hd). specialize (G1 d Hd).
    unfold region_ok in G1. lia. }
  assert (mapEntries s1 !! x.1.2 = Some x'.2) as Hx' by apply lookup_insert_eq.
  unfold xtFreePages. unfold mbind at 1, M_bind at 1, get at 1.
  rewrite (bind_Ok _ _ _ (node_before NULL l1, x.1.1) s1).
  2: { apply (place_loop_ok s1 (start x.2) x' l2); [exact Hc|exact HF'|exact Hle|cbn; lia|]. lia. }
  assert (x' ∈ l1 ++ x' :: l2) as Hin by set_solver.
  destruct (entry_run s1 _ x' Hc HF' H0 Hin) as [RX1 RX2].
  assert (exists pa pe, entry_of (node_before NULL l1) s1 = Ok pa s1 /\ load_entry pa s1 = Ok pe s1 /\
    match pe with Some p => u64 (start p + length p) <> start x.2 | None => True end) as (pa & pe & RP1 & RP2 & HP).
  { destruct l1 as [|d l1 _] using rev_ind; [by exists NULL, None|].
    assert (node_before NULL (l1 ++ [d]) = d.1.1) as -> by (unfold node_before; by rewrite foldl_app).
    destruct (entry_run s1 _ d Hc HF' H0) as [RD1 RD2]; [set_solver|].
    exists d.1.2, (Some d.2). split; [done|]. split; [done|].
    assert (d ∈ l1 ++ [d]) as Hd by set_solver.
    rewrite list.Forall_forall in Hbef, G1. specialize (Hbef d Hd). specialize (G1 d Hd).
    unfold region_ok in G1. rewrite u64_small; lia. }
  rewrite (bind_Ok _ _ _ _ _ RP1), (bind_Ok _ _ _ _ _ RX1), (bind_Ok _ _ _ _ _ RP2), (bind_Ok _ _ _ _ _ RX2).
  assert (u64 (start x.2 + size) =? start x'.2 = true) as Htouch
    by (rewrite u64_small by lia; cbn; lia).
  assert ((on_maps (assign x'.1.2 (set_start (start x.2))) ;;;
           on_maps (assign x'.1.2 (set_length (u64 (length x'.2 + size))))) s1 = Ok tt s) as RW.
  { rewrite (bind_Ok _ _ _ _ _ (assign_map_run s1 _ _ _ Hx')).
    rewrite (assign_map_run _ x.1.2 _ _ (lookup_insert_eq _ _ _)).
    trans (Ok tt (with_maps s (<[x.1.2 := x.2]> (mapEntries s)))).
    - subst s1. unfold with_maps. cbn [mapEntries]. rewrite !insert_insert_eq.
      unfold set_start, set_length. cbn. rewrite u64_small by lia.
      do 4 f_equal. destruct x as [? [? ? ?]]. cbn. f_equal; lia.
    - rewrite insert_id by done. by rewrite with_maps_id. }
  destruct pe as [p|]; [rewrite (proj2 (Z.eqb_neq _ _) HP)|]; by rewrite Htouch.
Qed.

(** Growing the heap is lost: for a request below 16 KiB it takes one byte, not four pages, from the first region, writes a heap header there and links it nowhere, so the list of heaps is what it was. *)
Theorem grow_heap_links_nothing (s : Mem) (d : region) (ds : list region) (need : Z) :
  pages_inv s (d :: ds) -> Forall region_ok (d :: ds) -> 1 < length d.2 -> need < 0x4000 ->
  exists s', grow_heap need s = Ok tt s' /\ heaps s' = heaps s /\ lists s' = lists s /\
    pages_inv s' (shrink 1 d :: ds).
Proof.
  intros HI G Hl Hn. unfold grow_heap. replace (need <? 0x4000) with true by lia.
  pose proof HI as (_ & _ & _ & HF & _). apply list.Forall_cons in HF as [HF _].
  assert (chosen NULL (page_round 1) (d :: ds) = Some ([], d, ds)) as EC.
  { unfold chosen. replace (pick _ (d :: ds)) with (@None (list region * region * list region)).
    - change (page_round 1) with 1. cbn [pick]. by replace (length d.2 >=? 1) with true by lia.
    - symmetry. clear -G. revert G. generalize (d :: ds). induction l as [|e l IH]; [done|]. intros G.
      apply list.Forall_cons in G as [(G1 & _) G]. cbn [pick].
      replace (start e.2 =? NULL) with false by (unfold NULL; lia). cbn [andb]. by rewrite IH. }
  apply list.Forall_cons in G as [(G1 & G2 & G3) _].
  pose proof (allocate_run s _ NULL 1 HI) as R. rewrite EC in R. change (page_round 1) with 1 in R.
  rewrite (take_pages_run s _ _ _ _ 1 HF) in R by lia. rewrite (bind_Ok _ _ _ _ _ R).
  eexists. split; [reflexivity|]. split; [done|]. split; [done|].
  pose proof (pages_inv_update s [] d (shrink 1 d) ds HI eq_refl) as (P1 & P2 & P3 & P4).
  by split.
Qed.

(** Taking a whole region that is last in the map frees its list node but leaves the node before linked to it ([xtSetNextList] refuses NULL): the next walk over the map reads freed memory. The region taken here is device memory: the type of a region is not looked at. *)
Theorem last_region_dangles :
  let st := mkStatics 0x1000 0x100 0x200 in
  let boot := xtMemoryInit st 1 [mkDesc EfiConventionalMemory 0x100000 0x10; mkDesc EfiMemoryMappedIO 0x400000 2] in
  (match (boot ;;; xtAllocatePages 0x400000 0x2000) (mem_boot st) with Ok p _ => p = 0x400000 | _ => False end) /\
  (boot ;;; xtAllocatePages 0x400000 0x2000 ;;; xtAllocatePages NULL 0x20000) (mem_boot st) = Fault.
Proof. split; vm_compute; reflexivity. Qed.

(** A memory map of two regions. *)
Definition demo_regions : list region :=
  [(0x300, 0x500, mkMap XT_MEM_FREE 0x100000 0x4000); (0x320, 0x540, mkMap XT_MEM_FREE 0x200000 0x80000)].

Definition demo_pages : Mem :=
  mkMem true 0x200 0x300 ∅ ∅ {[0x300 := mkList 0x500 0x320; 0x320 := mkList 0x540 NULL]}
    {[0x500 := mkMap XT_MEM_FREE 0x100000 0x4000; 0x540 := mkMap XT_MEM_FREE 0x200000 0x80000]}.

Lemma demo_pages_inv : pages_inv demo_pages demo_regions /\ Forall region_ok demo_regions /\ spaced demo_regions.
Proof.
  split; [split; [cbn; do 2 (split; [done|]; split; [done|]; eexists; split; [done|]; split; [done|]); done|]|].
  - split; [by apply (bool_decide_unpack _); vm_compute|]. split; [by apply (bool_decide_unpack _); vm_compute|].
    split; repeat constructor; done.
  - split; [repeat constructor; cbn; lia|]. cbn. lia.
Qed.

Lemma xtAllocatePages_first_fit_witness :
  exists s', xtAllocatePages NULL 0x8000 demo_pages = Ok 0x200000 s' /\
    pages_inv s' [(0x300, 0x500, mkMap XT_MEM_FREE 0x100000 0x4000); (0x320, 0x540, mkMap XT_MEM_FREE 0x208000 0x78000)].
Proof.
  destruct demo_pages_inv as (HP & HR & _).
  destruct (xtAllocatePages_first_fit demo_pages demo_regions NULL 0x8000 HP HR) as (_ & _ & G & _). by apply G.
Defined.

Lemma alloc_free_pages_roundtrip_witness :
  (p ← xtAllocatePages NULL 0x8000; xtFreePages (mkStatics 0x1000 0x100 0x200) 0 p 0x8000) demo_pages = Ok tt demo_pages.
Proof.
  destruct demo_pages_inv as (HP & HR & HS).
  eapply (alloc_free_pages_roundtrip _ 0 demo_pages demo_regions _ _ _ NULL 0x8000 HP HR HS); [done|done|done|].
  by vm_compute.
Defined.

Lemma page_round_spec_witness : page_round 0x3000 = (0x3000 + 0x1000) / 0x2000 * 0x2000 + 0x3000 mod 0x1000.
Proof. apply (page_round_spec 0x3000). lia. Defined.
