(* ===== verification/CString.v ===== *)
(** Strings and memory blocks: xtkernel/string.c, and the names of the result
    codes of xtkernel/print.c. A pointer to bytes is the list of the bytes from
    there to the end of the object; an access after the end is a fault. *)
From Stdlib Require Import ZArith Lia String.
From stdpp Require Import base tactics list gmap numbers.
From S2P Require Import Prelude Allocator.

Open Scope Z_scope.

(** * Operations *)

(** [tolower] of an [unsigned char]. *)
Definition tolower (ch : Z) : Z := if (65 <=? ch) && (ch <=? 90) then ch + 32 else ch.

(** [char] is signed: 'A'..'Z' and the NUL are the same either way. *)
Fixpoint compare_loop {S} (n : nat) (l r : list Z) : M S unit :=
  match n with
  | O => mret tt
  | Datatypes.S n =>
    match l, r with
    | a :: l, b :: r => if a =? b then compare_loop n l r else throw XT_NOT_EQUAL
    | _, _ => fault
    end
  end.

Definition xtCompareMemory {S} (left right : list Z) (len : Z) : M S unit :=
  compare_loop (Z.to_nat len) left right.

(** The loop of [xtStringCmp] and, with [f] = [tolower], of [xtStringICmp]. *)
Fixpoint strcmp_loop {S} (f : Z -> Z) (n : nat) (l r : list Z) : M S unit :=
  match n with
  | O => mret tt
  | Datatypes.S n =>
    match l, r with
    | a :: l, b :: r =>
      if f a =? f b then (if a =? 0 then mret tt else strcmp_loop f n l r) else throw XT_NOT_EQUAL
    | _, _ => fault
    end
  end.

Definition xtStringCmp {S} (left right : list Z) (max : Z) : M S unit :=
  if max =? 0 then mret tt else strcmp_loop id (Z.to_nat max) left right.

Definition xtStringICmp {S} (left right : list Z) (max : Z) : M S unit :=
  if max =? 0 then mret tt else strcmp_loop tolower (Z.to_nat max) left right.

Fixpoint strlen_loop {S} (str : list Z) (result : Z) : M S Z :=
  match str with
  | [] => fault
  | c :: str => if c =? 0 then mret result else strlen_loop str (u64 (result + 1))
  end.

Definition xtGetStringLength {S} (str : list Z) : M S Z := strlen_loop str 0.

(** [for(; i < max && src[i]; ++i) dst[i] = src[i]; dst[i] = 0;]: the bytes at
    [dst] afterwards. *)
Fixpoint copy_string_loop {S} (n : nat) (dst src : list Z) : M S (list Z) :=
  match n, src with
  | Datatypes.S n, c :: src =>
    if c =? 0 then (match dst with _ :: dst => mret (0 :: dst) | [] => fault end)
    else match dst with
         | _ :: dst => dst ← copy_string_loop n dst src; mret (c :: dst)
         | [] => fault
         end
  | Datatypes.S _, [] => fault
  | O, _ => match dst with _ :: dst => mret (0 :: dst) | [] => fault end
  end.

Definition xtCopyString {S} (dst src : list Z) (max : Z) : M S (list Z) :=
  copy_string_loop (Z.to_nat max) dst src.

Fixpoint copy_mem_loop {S} (n : nat) (dst src : list Z) : M S (list Z) :=
  match n with
  | O => mret dst
  | Datatypes.S n =>
    match dst, src with
    | _ :: dst, c :: src => dst ← copy_mem_loop n dst src; mret (c :: dst)
    | _, _ => fault
    end
  end.

Definition xtCopyMem {S} (dst src : list Z) (size : Z) : M S (list Z) :=
  copy_mem_loop (Z.to_nat size) dst src.

Fixpoint set_mem_loop {S} (n : nat) (dst : list Z) (c : Z) : M S (list Z) :=
  match n with
  | O => mret dst
  | Datatypes.S n =>
    match dst with
    | _ :: dst => dst ← set_mem_loop n dst c; mret (c :: dst)
    | [] => fault
    end
  end.

Definition xtSetMem {S} (dst : list Z) (c size : Z) : M S (list Z) :=
  set_mem_loop (Z.to_nat size) dst c.

(** [xtMemSet] of memory.c is the same loop. *)
Definition xtMemSet {S} (data : list Z) (c count : Z) : M S (list Z) :=
  set_mem_loop (Z.to_nat count) data c.

(** [xtDuplicateString]: the new pointer and the bytes behind it; [garbage] is
    what the fresh memory holds. *)
Definition xtDuplicateString {H} `{Allocator H} (garbage : Z) (str : list Z) : M H (Z * list Z) :=
  size ← out_or 0 (xtGetStringLength str);
  newStr ← xtHeapAlloc (u64 (size + 1));
  mem ← xtCopyMem (replicate (Z.to_nat (u64 (size + 1))) garbage) str (u64 (size + 1));
  match mem with
  | [] => fault
  | _ => mret (newStr, <[Z.to_nat size := 0]> mem)
  end.

(** * Result names (print.c) *)

Definition results : list string :=
  ["SUCCESS"; "INVALID_PARAMETER"; "NOT_IMPLEMENTED"; "OUT_OF_MEMORY"; "OUT_OF_BOUNDARY";
   "NOT_FOUND"; "NOT_EQUAL"; "INVALID_INITIALIZATION"; "BAN_NAME"; "ACCESS_DENIED";
   "END_OF_FILE"; "INVALID_MODULE"; "ARCH_EXCEPTION"; "ALREADY_EXISTS"]%string.

Definition xtResultToStr {S} (result : Z) : M S string :=
  let result := Z.land result (2 ^ 64 - 1 - XT_ERROR_MASK) in
  deref (fun _ => results !! Z.to_nat result).

(** * The specification: C strings *)

(** The bytes of [str] before its terminator, if it has one. *)
Fixpoint c_string (str : list Z) : option (list Z) :=
  match str with
  | [] => None
  | c :: str => if c =? 0 then Some [] else cs ← c_string str; Some (c :: cs)
  end.

(** * Lemmas *)

Lemma strlen_loop_ok {S} str cs n (s : S) :
  c_string str = Some cs -> 0 <= n -> n + Z.of_nat (length cs) < 2 ^ 64 ->
  strlen_loop str n s = Ok (n + Z.of_nat (length cs)) s.
Proof.
  revert cs n; induction str as [|c str IH]; intros cs n; cbn [c_string strlen_loop]; [done|].
  destruct (c =? 0); [intros [= <-] _ _; cbn; by rewrite Z.add_0_r|].
  destruct (c_string str) as [ds|]; [|done]. intros [= <-] Hn Hl. cbn [length] in *.
  rewrite u64_small by lia. rewrite (IH ds) by (done || lia). f_equal. lia.
Qed.

Lemma c_string_app str cs : c_string str = Some cs -> exists rest, str = cs ++ 0 :: rest /\ Forall (fun c => c <> 0) cs.
Proof.
  revert cs; induction str as [|c str IH]; intros cs; cbn [c_string]; [done|].
  destruct (c =? 0) eqn:E; zbool; [intros [= <-]; subst; eauto|].
  destruct (c_string str) as [ds|]; [|done]. intros [= <-].
  destruct (IH ds eq_refl) as (rest & -> & HF). exists rest. split; [done|]. by constructor.
Qed.

Lemma copy_mem_ok {S} (a b c d : list Z) (s : S) :
  length a = length b -> copy_mem_loop (length b) (a ++ c) (b ++ d) s = Ok (b ++ c) s.
Proof.
  revert a; induction b as [|y b IH]; intros [|x a]; try done. cbn [length app copy_mem_loop]. intros [= E].
  by rewrite (bind_Ok _ _ _ _ _ (IH a E)).
Qed.

(** * Theorems *)

Lemma strcmp_ok {S} (left right l r : list Z) (max : Z) (s : S) :
  c_string left = Some l -> c_string right = Some r -> 0 <= max ->
  xtStringCmp left right max s =
    if decide (take (Z.to_nat max) l = take (Z.to_nat max) r) then Ok tt s else Err XT_NOT_EQUAL s.
Proof.
  intros Hl Hr Hm. unfold xtStringCmp. destruct (max =? 0) eqn:E0; zbool; [by subst|].
  clear E0 Hm. revert l r right Hl Hr. generalize (Z.to_nat max) as n. intros n.
  revert left. induction n as [|n IH]; intros left l r right Hl Hr; [by cbn|].
  cbn [strcmp_loop]. destruct left as [|a left]; [done|]. destruct right as [|b right]; [done|].
  cbn [c_string] in Hl, Hr. change (id a) with a. change (id b) with b.
  destruct (a =? b) eqn:Eab; zbool.
  - subst b. destruct (a =? 0) eqn:E; [by simplify_eq|].
    destruct (c_string left) as [l'|] eqn:E1; [|done]. destruct (c_string right) as [r'|] eqn:E2; [|done].
    cbn in Hl, Hr. simplify_eq. rewrite (IH left l' r' right E1 E2). cbn [take].
    destruct (decide (take n l' = take n r')) as [->|N].
    + by rewrite decide_True.
    + rewrite decide_False; [done|]. by intros [= ?].
  - rewrite decide_False; [done|].
    destruct (a =? 0) eqn:Ea, (b =? 0) eqn:Eb; zbool.
    + congruence.
    + destruct (c_string right); [|done]. by simplify_eq/=.
    + destruct (c_string left); [|done]. by simplify_eq/=.
    + destruct (c_string left); [|done]. destruct (c_string right); [|done]. simplify_eq/=. congruence.
Qed.

(** Comparing names of a fixed length that need no terminator. *)
Lemma strcmp_prefix {S} (n : nat) (s : S) : forall l r : list Z,
  (n <= length l)%nat -> (n <= length r)%nat -> Forall (fun c => c <> 0) (take n r) ->
  strcmp_loop id n l r s = if decide (take n l = take n r) then Ok tt s else Err XT_NOT_EQUAL s.
Proof.
  induction n as [|n IH]; intros l r Hl Hr Hz; [done|].
  destruct l as [|a l]; [cbn in Hl; lia|]. destruct r as [|b r]; [cbn in Hr; lia|].
  cbn [length] in Hl, Hr. cbn [take] in *. apply list.Forall_cons in Hz as [Hb Hz].
  cbn [strcmp_loop]. change (id a) with a. change (id b) with b. destruct (a =? b) eqn:E; zbool.
  - subst a. replace (b =? 0) with false by lia. rewrite IH by (lia || done).
    destruct (decide (take n l = take n r)) as [->|N]; [by rewrite decide_True|].
    rewrite decide_False; [done|]. by intros [= ?].
  - rewrite decide_False; [done|]. by intros [= ? _].
Qed.

(** [xtStringCmp] says equal exactly when the two strings agree in their first [max] bytes, or agree up to a common end. *)
Theorem xtStringCmp_spec {S} (left right l r : list Z) (max : Z) (s : S) :
  c_string left = Some l -> c_string right = Some r -> 0 <= max ->
  xtStringCmp left right max s =
    if decide (take (Z.to_nat max) l = take (Z.to_nat max) r) then Ok tt s else Err XT_NOT_EQUAL s.
Proof. apply strcmp_ok. Qed.

(** [xtCopyString] needs room for [max + 1] bytes: a source of [max] or more bytes has its terminator written one byte after a buffer of [max] bytes; a buffer with that byte gets the first [max] bytes and the terminator. *)
Theorem xtCopyString_bounds {S} (dst rest src cs : list Z) (tail : Z) (max : Z) (s : S) :
  c_string src = Some cs -> 0 <= max -> Z.of_nat (length dst) = max -> max <= Z.of_nat (length cs) ->
  xtCopyString dst src max s = Fault /\
  xtCopyString (dst ++ tail :: rest) src max s = Ok (take (Z.to_nat max) cs ++ 0 :: rest) s.
Proof.
  intros Hs Hm Hd Hc. unfold xtCopyString. replace (Z.to_nat max) with (length dst) by lia.
  assert (length dst <= length cs)%nat as L by lia. clear Hm Hd Hc max.
  revert src cs Hs L. induction dst as [|x dst IH]; intros src cs Hs L; [by split|].
  cbn [length copy_string_loop app]. destruct src as [|c src]; [done|]. cbn [c_string] in Hs.
  destruct (c =? 0) eqn:Ec; [simplify_eq; cbn in L; lia|].
  destruct (c_string src) as [ds|] eqn:E; [|done]. cbn in Hs. simplify_eq. cbn [length take] in *.
  destruct (IH src ds E ltac:(lia)) as [I1 I2].
  rewrite (bind_Fault _ _ _ I1), (bind_Ok _ _ _ _ _ I2). done.
Qed.

(** [xtDuplicateString] copies the string with its terminator into memory of just that size. *)
Theorem xtDuplicateString_spec {H} `{Allocator H} (garbage : Z) (str cs : list Z) (h h' : H) (p : Z) :
  c_string str = Some cs -> Z.of_nat (length cs) < 2 ^ 63 ->
  xtHeapAlloc (Z.of_nat (length cs) + 1) h = Ok p h' ->
  xtDuplicateString garbage str h = Ok (p, cs ++ [0]) h'.
Proof.
  intros Hs Hl Ha. unfold xtDuplicateString.
  rewrite (bind_Ok _ _ _ _ _ (out_or_Ok _ _ _ _ _ (strlen_loop_ok str cs 0 h Hs ltac:(lia) ltac:(lia)))).
  rewrite Z.add_0_l, u64_small by lia. rewrite (bind_Ok _ _ _ _ _ Ha).
  destruct (c_string_app str cs Hs) as (rest & -> & _).
  rewrite (bind_Ok _ _ _ (cs ++ [0]) h').
  - destruct (cs ++ [0]) eqn:E; [by destruct cs|]. rewrite <- E. cbv [mret M_ret]. do 2 f_equal.
    rewrite Nat2Z.id, insert_app_r_alt by lia. by rewrite Nat.sub_diag.
  - unfold xtCopyMem. replace (Z.to_nat (Z.of_nat (length cs) + 1)) with (length (cs ++ [0]))
      by (rewrite length_app; cbn; lia).
    replace (cs ++ 0 :: rest) with ((cs ++ [0]) ++ rest) by (by rewrite <- app_assoc).
    pose proof (copy_mem_ok (replicate (length (cs ++ [0])) garbage) (cs ++ [0]) [] rest h') as C.
    rewrite !app_nil_r in C. apply C. by rewrite length_replicate.
Qed.

(** The last five result codes have no name: looking one up reads after the table. *)
Theorem xtResultToStr_overruns {S} (s : S) :
  Forall (fun c => xtResultToStr c s = Fault)
    [XT_UNKNOWN_ERROR; XT_ACCESS_VIOLATION; XT_WOULD_BLOCK; XT_BROKEN_PIPE; XT_TIMEOUT].
Proof. repeat constructor. Qed.

Lemma xtStringCmp_spec_witness : xtStringCmp [104; 105; 0] [104; 106; 0] 2 tt = Err XT_NOT_EQUAL tt.
Proof. by apply (xtStringCmp_spec [104; 105; 0] [104; 106; 0] [104; 105] [104; 106] 2 tt). Defined.

Lemma xtCopyString_bounds_witness :
  xtCopyString [0; 0] [104; 105; 0] 2 tt = Fault /\ xtCopyString ([0; 0] ++ 9 :: [8]) [104; 105; 0] 2 tt = Ok [104; 105; 0; 8] tt.
Proof. by apply (xtCopyString_bounds [0; 0] [8] [104; 105; 0] [104; 105] 9 2 tt). Defined.

Lemma xtDuplicateString_spec_witness :
  xtDuplicateString 0xaa [104; 105; 0] bump_empty = Ok (16, [104; 105; 0]) (mkBump 32 {[16]}).
Proof. apply (xtDuplicateString_spec 0xaa [104; 105; 0] [104; 105]); by vm_compute. Defined.
