(* ===== verification/Paths.v ===== *)
(** Paths (xtkernel/fs.c): components, normalisation into a buffer, and the
    check of a name. A path is the list of its bytes without the terminator. *)
From Stdlib Require Import ZArith Lia.
From stdpp Require Import base tactics list numbers.
From S2P Require Import Prelude CString.

Open Scope Z_scope.

(** * Components *)

Definition SLASH : Z := 47.

Definition BACKSLASH : Z := 92.

Definition DOT : Z := 46.

Definition is_separator (c : Z) : bool := (c =? SLASH) || (c =? BACKSLASH).

Fixpoint skip_separators (p : list Z) : list Z :=
  match p with
  | c :: q => if is_separator c then skip_separators q else p
  | [] => []
  end.

(** The component, which ends before a separator or after [count] bytes, and
    what comes after it. *)
Fixpoint component (count : nat) (p : list Z) : list Z * list Z :=
  match count, p with
  | S count, c :: q => if is_separator c then ([], p) else let '(name, rest) := component count q in (c :: name, rest)
  | _, _ => ([], p)
  end.

(** * Normalisation *)

(** A byte of a buffer. *)
Definition put_byte {S} (buffer : list Z) (i c : Z) : M S (list Z) :=
  if (0 <=? i) && (i <? Z.of_nat (length buffer)) then mret (<[Z.to_nat i := c]> buffer) else fault.

Definition get_byte {S} (buffer : list Z) (i : Z) : M S Z := deref (fun _ => if i <? 0 then None else buffer !! Z.to_nat i).

(** [xtStringICmp(name, s, 4096) == 0] *)
Definition is_name {S} (name s : list Z) : M S bool :=
  r ← attempt (xtStringICmp (name ++ [0]) (s ++ [0]) 4096);
  mret (match r with inl _ => true | inr _ => false end).

(** [while (pos > 0 && buffer[pos] != '/') --pos;] *)
Fixpoint last_slash {S} (fuel : nat) (buffer : list Z) (pos : Z) : M S Z :=
  if pos >? 0 then
    c ← get_byte buffer pos;
    if c =? SLASH then mret pos
    else match fuel with O => nofuel | Datatypes.S fuel => last_slash fuel buffer (pos - 1) end
  else mret pos.

(** The step for [".."]: the buffer and the new length. *)
Definition go_up {S} (buffer : list Z) (len : Z) : M S (list Z * Z) :=
  if len >? 1 then
    pos ← last_slash (Z.to_nat len) buffer (len - 1);
    if pos =? 0 then (buffer ← put_byte buffer 1 0; mret (buffer, 1))
    else (buffer ← put_byte buffer pos 0; mret (buffer, pos))
  else mret (buffer, len).

Fixpoint put_name {S} (buffer : list Z) (len : Z) (name : list Z) : M S (list Z * Z) :=
  match name with
  | [] => mret (buffer, len)
  | c :: name => buffer ← put_byte buffer len c; put_name buffer (len + 1) name
  end.

(** The step for any other name. *)
Definition add_name {S} (buffer : list Z) (len buffsize : Z) (name : list Z) : M S (list Z * Z) :=
  '(buffer, len) ← (if len >? 1 then
                      if len + 1 >=? buffsize then throw XT_OUT_OF_BOUNDARY
                      else buffer ← put_byte buffer len SLASH; mret (buffer, len + 1)
                    else mret (buffer, len));
  if len + Z.of_nat (length name) >=? buffsize then throw XT_OUT_OF_BOUNDARY
  else
    '(buffer, len) ← put_name buffer len name;
    buffer ← put_byte buffer len 0;
    mret (buffer, len).

Fixpoint normalize_loop {S} (fuel : nat) (path buffer : list Z) (len buffsize : Z) : M S (list Z * Z) :=
  match skip_separators path with
  | [] => mret (buffer, len)
  | path =>
    match fuel with
    | O => nofuel
    | Datatypes.S fuel =>
      let '(name, path) := component 255 path in
      dot ← is_name name [DOT];
      match dot with
      | true => normalize_loop fuel path buffer len buffsize
      | false =>
        dots ← is_name name [DOT; DOT];
        '(buffer, len) ← (match dots with true => go_up buffer len | false => add_name buffer len buffsize name end);
        normalize_loop fuel path buffer len buffsize
      end
    end
  end.

(** The buffer afterwards; it has room for [buffsize] bytes or more. *)
Definition xtNormalizePath {S} (path buffer : list Z) (buffsize : Z) : M S (list Z) :=
  if buffsize =? 0 then throw XT_INVALID_PARAMETER
  else match path with
       | c :: _ =>
         if is_separator c then
           buffer ← put_byte buffer 0 SLASH;
           buffer ← put_byte buffer 1 0;
           '(buffer, len) ← normalize_loop (length path) path buffer 1 buffsize;
           if len >? 1 then
             c ← get_byte buffer (len - 1);
             if c =? SLASH then put_byte buffer (len - 1) 0 else mret buffer
           else mret buffer
         else throw XT_INVALID_PARAMETER
       | [] => throw XT_INVALID_PARAMETER
       end.

Definition xtCheckName {S} (path : list Z) : M S unit :=
  if existsb is_separator path then throw XT_BAD_NAME else mret tt.

(** * The specification *)

(** The components of a path, those longer than 255 bytes cut into pieces. *)
Fixpoint components (fuel : nat) (p : list Z) : list (list Z) :=
  match skip_separators p, fuel with
  | [], _ | _, O => []
  | p, S fuel => let '(name, rest) := component 255 p in name :: components fuel rest
  end.

(** The stack of names, the last one first, after one more component. *)
Definition enter (stack : list (list Z)) (name : list Z) : list (list Z) :=
  if decide (name = [DOT]) then stack
  else if decide (name = [DOT; DOT]) then tl stack
  else name :: stack.

(** The path of a stack: a slash before each name, or one slash. *)
Definition render (stack : list (list Z)) : list Z :=
  match stack with [] => [SLASH] | _ => concat (map (cons SLASH) (rev stack)) end.

(** All the stacks on the way, the first one included. *)
Fixpoint stacks (stack : list (list Z)) (names : list (list Z)) : list (list (list Z)) :=
  stack :: match names with [] => [] | name :: names => stacks (enter stack name) names end.

Definition final (names : list (list Z)) : list (list Z) := fold_left enter names [].

(** * Lemmas *)

Definition name_ok (name : list Z) : Prop :=
  name <> [] /\ Forall (fun c => c <> 0 /\ is_separator c = false) name /\ (length name <= 255)%nat.

Lemma skip_length p : (length (skip_separators p) <= length p)%nat.
Proof. induction p as [|c p IH]; [done|]. cbn [skip_separators]. destruct (is_separator c); cbn [length]; lia. Qed.

Lemma skip_head p c q : skip_separators p = c :: q -> is_separator c = false.
Proof. induction p as [|x p IH]; [done|]. cbn [skip_separators]. destruct (is_separator x) eqn:E; [done|]. by intros [= <- <-]. Qed.

Lemma component_spec p : forall count name rest, component count p = (name, rest) ->
  p = name ++ rest /\ Forall (fun c => is_separator c = false) name /\ (length name <= count)%nat.
Proof.
  induction p as [|c p IH]; intros count name rest H.
  - destruct count; cbn in H; simplify_eq; (split; [done|]; split; [constructor|cbn; lia]).
  - destruct count as [|count]; cbn [component] in H; [simplify_eq; split; [done|]; split; [constructor|cbn; lia]|].
    destruct (is_separator c) eqn:Ec; [simplify_eq; split; [done|]; split; [constructor|cbn; lia]|].
    destruct (component count p) as [name' rest'] eqn:E. simplify_eq. destruct (IH _ _ _ E) as (-> & H1 & H2).
    split; [done|]. split; [by constructor|]. cbn. lia.
Qed.

Lemma component_step k c q : is_separator c = false -> component (S k) (c :: q) = (c :: (component k q).1, (component k q).2).
Proof. intros H. cbn [component]. rewrite H. by destruct (component k q). Qed.

(** A component of a path whose separators were skipped. *)
Lemma component_ok p c q name rest : skip_separators p = c :: q -> Forall (fun c => c <> 0) p -> component 255 (c :: q) = (name, rest) ->
  name_ok name /\ Forall (fun c => c <> 0) rest /\ (length rest < length p)%nat.
Proof.
  intros Hs Hn Hc. pose proof (skip_head _ _ _ Hs) as Hh. pose proof (skip_length p) as Hl. rewrite Hs in Hl.
  assert (Forall (fun c => c <> 0) (c :: q)) as Hq.
  { rewrite <- Hs. clear -Hn. induction Hn as [|x p Hx Hp IH]; [constructor|]. cbn [skip_separators]. destruct (is_separator x); [done|by constructor]. }
  destruct (component_spec _ _ _ _ Hc) as (E & H1 & H2). rewrite E in Hq. apply list.Forall_app in Hq as [Hq1 Hq2].
  assert (name <> []) as Hne by (rewrite (component_step 254 c q Hh) in Hc; by injection Hc as <- _).
  split; [|split; [done|]].
  - split; [done|]. split; [by apply list.Forall_and|done].
  - apply (f_equal length) in E. rewrite length_app in E. destruct name; [done|]. cbn [length] in *. lia.
Qed.

Lemma tolower_dot c : tolower c = DOT <-> c = DOT.
Proof. unfold tolower, DOT. destruct (_ && _) eqn:E; zbool; lia. Qed.

Lemma strcmp_loop_ok {S} (f : Z -> Z) : (forall c, f c = 0 <-> c = 0) -> forall n l r (s : S),
  Forall (fun c => c <> 0) l -> Forall (fun c => c <> 0) r -> (length l < n)%nat -> (length r < n)%nat ->
  strcmp_loop f n (l ++ [0]) (r ++ [0]) s = if decide (map f l = map f r) then Ok tt s else Err XT_NOT_EQUAL s.
Proof.
  intros Hf. assert (f 0 = 0) as F0 by (by apply Hf).
  induction n as [|n IH]; intros l r s Hl Hr Ln Lr; [lia|]. cbn [strcmp_loop].
  destruct l as [|a l]; destruct r as [|b r]; cbn [app map].
  - by rewrite Z.eqb_refl.
  - apply list.Forall_cons in Hr as [Hb _]. rewrite F0. rewrite (proj2 (Z.eqb_neq 0 (f b))) by (intros E; by apply Hb, Hf). by rewrite decide_False by done.
  - apply list.Forall_cons in Hl as [Ha _]. rewrite F0. rewrite (proj2 (Z.eqb_neq (f a) 0)) by (intros E; by apply Ha, Hf). by rewrite decide_False by done.
  - apply list.Forall_cons in Hl as [Ha Hl]. apply list.Forall_cons in Hr as [Hb Hr]. cbn [length] in *.
    destruct (f a =? f b) eqn:E; zbool.
    + rewrite (proj2 (Z.eqb_neq a 0)) by done. rewrite IH by (done || lia).
      destruct (decide (map f l = map f r)) as [K|K]; [rewrite decide_True by congruence|rewrite decide_False by congruence]; done.
    + rewrite decide_False by congruence. done.
Qed.

Lemma map_dots l c : Forall (fun x => x = DOT) c -> map tolower l = map tolower c <-> l = c.
Proof.
  intros Hc. split; [|by intros ->]. revert l. induction Hc as [|x c -> _ IH]; intros [|y l]; try done. cbn [map]. intros [= E1 E2].
  change (tolower DOT) with DOT in E1. apply tolower_dot in E1 as ->. by rewrite (IH l E2).
Qed.

Lemma tolower_dots name c : c = [DOT] \/ c = [DOT; DOT] -> map tolower name = map tolower c <-> name = c.
Proof. intros [-> | ->]; apply map_dots; repeat constructor. Qed.

Lemma is_name_ok {S} name c (s : S) : name_ok name -> c = [DOT] \/ c = [DOT; DOT] -> is_name name c s = Ok (bool_decide (name = c)) s.
Proof.
  intros (_ & Hn & Hl) Hc. unfold is_name, attempt, xtStringICmp. cbn [Z.eqb]. unfold mbind, M_bind.
  pose proof (tolower_dots name c Hc) as Hiff. rewrite strcmp_loop_ok.
  - destruct (decide (map tolower name = map tolower c)) as [K|K]; [rewrite bool_decide_true by tauto|rewrite bool_decide_false by tauto]; done.
  - intros x. unfold tolower. destruct (_ && _) eqn:E; zbool; lia.
  - eapply list.Forall_impl; [exact Hn|]. by intros x [? _].
  - unfold DOT in Hc. destruct Hc as [-> | ->]; repeat constructor; done.
  - lia.
  - destruct Hc as [-> | ->]; cbn [length]; lia.
Qed.

(** * The buffer *)

(** A name on the stack. *)
Definition entry_name (name : list Z) : Prop := name_ok name /\ name <> [DOT] /\ name <> [DOT; DOT].

(** The buffer begins with the path of the stack as a C string. *)
Definition holds (buffer : list Z) (stack : list (list Z)) : Prop := exists rest, buffer = render stack ++ 0 :: rest.

Lemma name_no_slash name : name_ok name -> Forall (fun c => c <> SLASH) name.
Proof.
  intros (_ & H & _). eapply list.Forall_impl; [exact H|]. intros x [_ Hx] ->. done.
Qed.

Lemma render_cons name st : st <> [] -> render (name :: st) = render st ++ SLASH :: name.
Proof.
  intros H. destruct st as [|x st]; [done|]. unfold render. cbn [rev]. rewrite !map_app, !concat_app. cbn [map concat]. by rewrite !app_nil_r.
Qed.

Lemma render_one name : render [name] = SLASH :: name.
Proof. unfold render. cbn. by rewrite app_nil_r. Qed.

Lemma render_pos st : 0 < Z.of_nat (length (render st)).
Proof. destruct st as [|x st]; [cbn; lia|]. destruct st; [rewrite render_one; cbn [length]; lia|]. rewrite render_cons by done. rewrite length_app. cbn [length]. lia. Qed.

Lemma render_root st : Forall entry_name st -> Z.of_nat (length (render st)) > 1 <-> st <> [].
Proof.
  intros H. destruct st as [|x st]; [cbn; split; [lia|done]|]. split; [done|]. intros _.
  apply list.Forall_cons in H as [((Hx & _ & _) & _) _]. destruct st; [rewrite render_one|rewrite render_cons by done; rewrite length_app; pose proof (render_pos (l :: st))];
    destruct x; (done || (cbn [length]; lia)).
Qed.

Lemma put_byte_ok {S} (a : list Z) x b c (s : S) : put_byte (a ++ x :: b) (Z.of_nat (length a)) c s = Ok (a ++ c :: b) s.
Proof.
  unfold put_byte. rewrite length_app. cbn [length]. rewrite (proj2 (Z.leb_le _ _)), (proj2 (Z.ltb_lt _ _)) by lia. cbn [andb].
  rewrite Nat2Z.id. by rewrite insert_app_r_alt, Nat.sub_diag by done.
Qed.

Lemma get_byte_ok {S} (a : list Z) x b (s : S) : get_byte (a ++ x :: b) (Z.of_nat (length a)) s = Ok x s.
Proof. unfold get_byte. apply deref_Some. rewrite (proj2 (Z.ltb_ge _ _)) by lia. rewrite Nat2Z.id. by rewrite list_lookup_middle. Qed.

Lemma put_name_ok {S} name : forall (a b : list Z) (s : S), (length name <= length b)%nat ->
  put_name (a ++ b) (Z.of_nat (length a)) name s = Ok (a ++ name ++ drop (length name) b, Z.of_nat (length a + length name)) s.
Proof.
  induction name as [|c name IH]; intros a b s Hl; cbn [put_name length].
  { by rewrite drop_0, Nat.add_0_r. }
  destruct b as [|x b]; cbn [length] in Hl; [lia|]. rewrite (bind_Ok _ _ _ _ _ (put_byte_ok a x b c s)).
  replace (Z.of_nat (length a) + 1) with (Z.of_nat (length (a ++ [c]))) by (rewrite length_app; cbn; lia).
  replace (a ++ c :: b) with ((a ++ [c]) ++ b) by (by rewrite <- app_assoc). rewrite IH by lia. rewrite <- app_assoc, length_app. cbn [app length drop].
  do 2 f_equal. lia.
Qed.

Lemma last_slash_ok {S} (pre name rest : list Z) (s : S) : Forall (fun c => c <> SLASH) name ->
  forall k fuel, (k <= length name)%nat -> (k <= fuel)%nat ->
    last_slash fuel (pre ++ SLASH :: name ++ rest) (Z.of_nat (length pre + k)) s = Ok (Z.of_nat (length pre)) s.
Proof.
  intros Hn. induction k as [|k IH]; intros fuel Hk Hf.
  - rewrite Nat.add_0_r. destruct fuel; cbn [last_slash]; (destruct (_ >? 0); [|done]); by rewrite (bind_Ok _ _ _ _ _ (get_byte_ok pre SLASH (name ++ rest) s)), Z.eqb_refl.
  - destruct fuel as [|fuel]; [lia|]. cbn [last_slash]. rewrite Z.gtb_ltb, (proj2 (Z.ltb_lt _ _)) by lia.
    destruct (lookup_lt_is_Some_2 name k ltac:(lia)) as [x Hx]. destruct (list_elem_of_split_length name k x Hx) as (l1 & l2 & -> & Hl1).
    assert (get_byte (pre ++ SLASH :: (l1 ++ x :: l2) ++ rest) (Z.of_nat (length pre + Datatypes.S k)) s = Ok x s) as R.
    { replace (pre ++ SLASH :: (l1 ++ x :: l2) ++ rest) with ((pre ++ SLASH :: l1) ++ x :: (l2 ++ rest)) by (by simplify_list_eq).
      replace (length pre + Datatypes.S k)%nat with (length (pre ++ SLASH :: l1)) by (rewrite length_app; cbn [length]; lia). apply get_byte_ok. }
    rewrite (bind_Ok _ _ _ _ _ R). rewrite list.Forall_forall in Hn.
    rewrite (proj2 (Z.eqb_neq x SLASH)) by (apply Hn; apply elem_of_app; right; by left).
    replace (Z.of_nat (length pre + Datatypes.S k) - 1) with (Z.of_nat (length pre + k)) by lia. apply IH; lia.
Qed.

Lemma go_up_ok {S} buffer st (s : S) : Forall entry_name st -> holds buffer st ->
  exists buffer', go_up buffer (Z.of_nat (length (render st))) s = Ok (buffer', Z.of_nat (length (render (tl st)))) s /\
    holds buffer' (tl st) /\ length buffer' = length buffer.
Proof.
  intros Hst [rest ->]. unfold go_up. destruct st as [|name st].
  { exists (render [] ++ 0 :: rest). split; [done|]. split; [by exists rest|done]. }
  pose proof (proj2 (render_root _ Hst) ltac:(done)) as Hp. rewrite Z.gtb_ltb, (proj2 (Z.ltb_lt _ _)) by lia.
  apply list.Forall_cons in Hst as [[Hname _] Hst]. pose proof (name_no_slash _ Hname) as Hns. cbn [tl].
  destruct st as [|x st].
  - rewrite render_one. replace (Z.of_nat (length (SLASH :: name)) - 1) with (Z.of_nat (length (@nil Z) + length name)) by (cbn [length]; lia).
    change ((SLASH :: name) ++ 0 :: rest) with ([] ++ SLASH :: name ++ (0 :: rest)).
    erewrite bind_Ok by (apply (last_slash_ok [] name (0 :: rest) s Hns (length name)); [lia|cbn [length]; lia]). cbn [length Z.of_nat Z.eqb].
    destruct Hname as (Hne & _). destruct name as [|y name]; [done|]. cbn [app].
    change (Z.of_nat 0 =? 0) with true. cbn iota. erewrite bind_Ok by (apply (put_byte_ok [SLASH] y (name ++ 0 :: rest) 0 s)). eexists. split; [done|]. split; [by eexists|]. done.
  - rewrite render_cons by done. set (R := render (x :: st)) in *. rewrite <- app_assoc. cbn [app].
    replace (Z.of_nat (length (R ++ SLASH :: name)) - 1) with (Z.of_nat (length R + length name)) by (rewrite length_app; cbn [length]; lia).
    erewrite bind_Ok by (apply (last_slash_ok R name (0 :: rest) s Hns (length name)); [lia|rewrite length_app; cbn [length]; lia]).
    pose proof (render_pos (x :: st)) as HR. fold R in HR. rewrite (proj2 (Z.eqb_neq _ 0)) by lia.
    rewrite (bind_Ok _ _ _ _ _ (put_byte_ok R SLASH (name ++ 0 :: rest) 0 s)). eexists. split; [done|]. split; [by eexists|]. by rewrite !length_app.
Qed.

Lemma add_name_ok {S} buffer st name buffsize (s : S) : Forall entry_name st -> name_ok name -> holds buffer st -> buffsize <= Z.of_nat (length buffer) ->
  if decide (Z.of_nat (length (render (name :: st))) < buffsize)
  then exists buffer', add_name buffer (Z.of_nat (length (render st))) buffsize name s = Ok (buffer', Z.of_nat (length (render (name :: st)))) s /\
    holds buffer' (name :: st) /\ length buffer' = length buffer
  else add_name buffer (Z.of_nat (length (render st))) buffsize name s = Err XT_OUT_OF_BOUNDARY s.
Proof.
  intros Hst Hname [rest ->] Hb. unfold add_name. pose proof (render_root st Hst) as Hr. rewrite length_app in Hb. cbn [length] in Hb.
  assert (0 < Z.of_nat (length name)) as Hpos by (destruct Hname as (? & _); destruct name; [done|cbn [length]; lia]).
  assert (forall A B : list Z, (length name < length B)%nat -> exists B',
    ('(buffer, len) ← put_name (A ++ B) (Z.of_nat (length A)) name; buffer ← put_byte buffer len 0; mret (buffer, len)) s =
      Ok ((A ++ name) ++ 0 :: B', Z.of_nat (length (A ++ name))) s /\ (length name + Datatypes.S (length B') = length B)%nat) as Hput.
  { intros A B' HB. rewrite (bind_Ok _ _ _ _ _ (put_name_ok name A B' s ltac:(lia))).
    destruct (drop (length name) B') as [|y B2] eqn:E; [apply (f_equal length) in E; rewrite length_drop in E; cbn in E; lia|]. exists B2.
    rewrite app_assoc. replace (length A + length name)%nat with (length (A ++ name)) by (by rewrite length_app).
    rewrite (bind_Ok _ _ _ _ _ (put_byte_ok (A ++ name) y B2 0 s)). split; [done|]. apply (f_equal length) in E. rewrite length_drop in E. cbn [length] in E. lia. }
  destruct st as [|x st].
  - change (Z.of_nat (length (render [])) >? 1) with false. cbn iota. change (Z.of_nat (length (render []))) with 1. rewrite bind_ret. rewrite render_one. cbn [length render] in *.
    destruct (decide _) as [Hd|Hd].
    + rewrite Z.geb_leb, (proj2 (Z.leb_gt _ _)) by lia. destruct (Hput [SLASH] (0 :: rest)) as (B' & R & L); [cbn [length render] in *; lia|].
      cbn [length app Z.of_nat Pos.of_succ_nat] in *. eexists. split; [exact R|]. split; [by eexists; rewrite render_one|]. cbn [length]. rewrite length_app. cbn [length]. lia.
    + rewrite Z.geb_leb, (proj2 (Z.leb_le _ _)) by lia. done.
  - rewrite Z.gtb_ltb, (proj2 (Z.ltb_lt _ _)) by (apply Z.gt_lt, Hr; done). rewrite render_cons by done. set (R0 := render (x :: st)) in *. rewrite length_app. cbn [length].
    destruct (decide _) as [Hd|Hd].
    + rewrite Z.geb_leb, (proj2 (Z.leb_gt _ _)) by lia. rewrite bind_bind, (bind_Ok _ _ _ _ _ (put_byte_ok R0 0 rest SLASH s)), bind_ret.
      rewrite Z.geb_leb, (proj2 (Z.leb_gt _ _)) by lia.
      destruct (Hput (R0 ++ [SLASH]) rest) as (B' & R & L); [lia|]. rewrite length_app in R. cbn [length] in R.
      replace (Z.of_nat (length R0) + 1) with (Z.of_nat (length R0 + 1)) by lia. rewrite <- app_assoc in R. cbn [app] in R. rewrite R.
      eexists. split; [do 2 f_equal; rewrite !length_app; cbn [length]; lia|].
      split; [eexists; rewrite render_cons by done; by rewrite <- !app_assoc|]. rewrite !length_app. cbn [length]. lia.
    + destruct (Z.of_nat (length R0) + 1 >=? buffsize) eqn:E; [done|]. rewrite Z.geb_leb in E. zbool.
      destruct rest as [|y rest]; [cbn [length] in Hb; lia|].
      rewrite bind_bind, (bind_Ok _ _ _ _ _ (put_byte_ok R0 0 (y :: rest) SLASH s)), bind_ret.
      rewrite Z.geb_leb, (proj2 (Z.leb_le _ _)) by lia. done.
Qed.

(** * The loop *)

Definition fits (buffsize : Z) (st : list (list Z)) : Prop := Z.of_nat (length (render st)) < buffsize.

#[export] Instance fits_dec buffsize st : Decision (fits buffsize st).
Proof. unfold fits. apply _. Defined.

Lemma enter_names st name : Forall entry_name st -> name_ok name -> Forall entry_name (enter st name).
Proof.
  intros H Hn. unfold enter. destruct (decide _); [done|]. destruct (decide _); [by destruct H|]. by constructor.
Qed.

Lemma stacks_head st names : exists t, stacks st names = st :: t.
Proof. destruct names; by eexists. Qed.

Lemma normalize_step {S} buffer st name buffsize (s : S) : Forall entry_name st -> name_ok name -> holds buffer st ->
  buffsize <= Z.of_nat (length buffer) -> fits buffsize st ->
  forall A (k : list Z * Z -> M S A) (kdot : M S A),
  (kdot = k (buffer, Z.of_nat (length (render st)))) ->
  if decide (fits buffsize (enter st name))
  then exists buffer', holds buffer' (enter st name) /\ length buffer' = length buffer /\
    (dot ← is_name name [DOT];
     match dot with
     | true => kdot
     | false =>
       dots ← is_name name [DOT; DOT];
       r ← (match dots with true => go_up buffer (Z.of_nat (length (render st))) | false => add_name buffer (Z.of_nat (length (render st))) buffsize name end);
       k r
     end) s = k (buffer', Z.of_nat (length (render (enter st name)))) s
  else (dot ← is_name name [DOT];
     match dot with
     | true => kdot
     | false =>
       dots ← is_name name [DOT; DOT];
       r ← (match dots with true => go_up buffer (Z.of_nat (length (render st))) | false => add_name buffer (Z.of_nat (length (render st))) buffsize name end);
       k r
     end) s = Err XT_OUT_OF_BOUNDARY s.
Proof.
  intros Hst Hn Hb Hl Hfit A k kdot ->. unfold enter.
  destruct (decide (name = [DOT])) as [E|E].
  - rewrite decide_True by done. exists buffer. split; [done|]. split; [done|].
    rewrite (bind_Ok _ _ _ _ _ (is_name_ok name [DOT] s Hn (or_introl eq_refl))). by rewrite bool_decide_true.
  - destruct (decide (name = [DOT; DOT])) as [E2|E2].
    + destruct (go_up_ok buffer st s Hst Hb) as (buffer' & R & Hb' & L'). rewrite decide_True.
      2:{ unfold fits in *. destruct st as [|x st]; [done|]. cbn [tl]. destruct st; [pose proof (render_pos [x]); rewrite render_one in *; cbn [length render] in *; lia|].
          rewrite render_cons in Hfit by done. rewrite length_app in Hfit. lia. }
      exists buffer'. split; [done|]. split; [done|].
      rewrite (bind_Ok _ _ _ _ _ (is_name_ok name [DOT] s Hn (or_introl eq_refl))), bool_decide_false by done.
      rewrite (bind_Ok _ _ _ _ _ (is_name_ok name [DOT; DOT] s Hn (or_intror eq_refl))), bool_decide_true by done. by rewrite (bind_Ok _ _ _ _ _ R).
    + pose proof (add_name_ok buffer st name buffsize s Hst Hn Hb Hl) as K. unfold fits. destruct (decide _) as [Hd|Hd].
      * destruct K as (buffer' & R & Hb' & L'). exists buffer'. split; [done|]. split; [done|].
        rewrite (bind_Ok _ _ _ _ _ (is_name_ok name [DOT] s Hn (or_introl eq_refl))), bool_decide_false by done.
        rewrite (bind_Ok _ _ _ _ _ (is_name_ok name [DOT; DOT] s Hn (or_intror eq_refl))), bool_decide_false by done. by rewrite (bind_Ok _ _ _ _ _ R).
      * rewrite (bind_Ok _ _ _ _ _ (is_name_ok name [DOT] s Hn (or_introl eq_refl))), bool_decide_false by done.
        rewrite (bind_Ok _ _ _ _ _ (is_name_ok name [DOT; DOT] s Hn (or_intror eq_refl))), bool_decide_false by done. by rewrite (bind_Err _ _ _ _ _ K).
Qed.

Lemma normalize_loop_ok {S} buffsize (s : S) : forall fuel path buffer st, (length path <= fuel)%nat -> Forall (fun c => c <> 0) path ->
  Forall entry_name st -> holds buffer st -> buffsize <= Z.of_nat (length buffer) -> fits buffsize st ->
  let names := components fuel path in
  if decide (Forall (fits buffsize) (stacks st names))
  then exists buffer', normalize_loop fuel path buffer (Z.of_nat (length (render st))) buffsize s =
      Ok (buffer', Z.of_nat (length (render (fold_left enter names st)))) s /\
    holds buffer' (fold_left enter names st) /\ length buffer' = length buffer /\ Forall entry_name (fold_left enter names st)
  else normalize_loop fuel path buffer (Z.of_nat (length (render st))) buffsize s = Err XT_OUT_OF_BOUNDARY s.
Proof.
  induction fuel as [|fuel IH]; intros path buffer st Hf Hp Hst Hb Hl Hfit names.
  - destruct path; [|cbn [length] in Hf; lia]. cbn [components skip_separators stacks fold_left normalize_loop]. rewrite decide_True by (by apply list.Forall_singleton). by exists buffer.
  - subst names. cbn [normalize_loop components]. destruct (skip_separators path) as [|c q] eqn:Es.
    { cbn [stacks fold_left]. rewrite decide_True by (by apply list.Forall_singleton). by exists buffer. }
    destruct (component 255 (c :: q)) as [name rest] eqn:Ec. destruct (component_ok _ _ _ _ _ Es Hp Ec) as (Hn & Hr & Hlen).
    cbn [stacks fold_left].
    pose proof (normalize_step buffer st name buffsize s Hst Hn Hb Hl Hfit _ (fun '(buffer, len) => normalize_loop fuel rest buffer len buffsize) _ eq_refl) as K.
    destruct (stacks_head (enter st name) (components fuel rest)) as [t Et].
    destruct (decide (fits buffsize (enter st name))) as [Hd|Hd].
    + destruct K as (buffer1 & Hb1 & L1 & K).
      pose proof (IH rest buffer1 (enter st name) ltac:(lia) Hr (enter_names st name Hst Hn) Hb1 ltac:(by rewrite L1) Hd) as K2. cbn zeta in K2.
      destruct (decide (Forall (fits buffsize) (stacks (enter st name) (components fuel rest)))) as [Hd2|Hd2].
      * rewrite decide_True by (by constructor). destruct K2 as (buffer' & R & Hb' & L' & Hn'). exists buffer'.
        split; [|split; [done|split; [congruence|done]]]. etrans; [|exact R]. exact K.
      * rewrite decide_False by (by rewrite list.Forall_cons; intros [_ ?]). etrans; [|exact K2]. exact K.
    + rewrite decide_False; [exact K|]. rewrite list.Forall_cons, Et, list.Forall_cons. tauto.
Qed.

(** The last byte of a path of names is no slash. *)
Lemma render_last st : Forall entry_name st -> st <> [] ->
  exists l c, render st = l ++ [c] /\ c <> SLASH.
Proof.
  intros H Hne. destruct st as [|name st]; [done|]. apply list.Forall_cons in H as [[Hn _] _]. pose proof (name_no_slash _ Hn) as Hs.
  destruct Hn as (Hn & _). destruct (list_snoc name Hn) as (n' & c & ->). apply list.Forall_app in Hs as [_ [Hc _]%list.Forall_cons].
  destruct st as [|x st]; [rewrite render_one; by exists (SLASH :: n'), c|]. rewrite render_cons by done.
  exists (render (x :: st) ++ SLASH :: n'), c. split; [by rewrite <- app_assoc|done].
Qed.

(** * Theorems *)

Lemma normalize_ok {S} (path buffer : list Z) (buffsize c : Z) (q : list Z) (s : S) :
  path = c :: q -> is_separator c = true -> Forall (fun b => b <> 0) path -> 2 <= buffsize <= Z.of_nat (length buffer) ->
  let names := components (length path) path in
  if decide (Forall (fits buffsize) (stacks [] names))
  then exists rest, xtNormalizePath path buffer buffsize s = Ok (render (final names) ++ 0 :: rest) s /\ Forall entry_name (final names)
  else xtNormalizePath path buffer buffsize s = Err XT_OUT_OF_BOUNDARY s.
Proof.
  intros Ep Hc Hp Hb names. assert (xtNormalizePath path buffer buffsize s =
    (buffer ← put_byte buffer 0 SLASH;
     buffer ← put_byte buffer 1 0;
     '(buffer, len) ← normalize_loop (length path) path buffer 1 buffsize;
     if len >? 1 then
       c ← get_byte buffer (len - 1);
       if c =? SLASH then put_byte buffer (len - 1) 0 else mret buffer
     else mret buffer) s) as ->.
  { unfold xtNormalizePath. rewrite (proj2 (Z.eqb_neq buffsize 0)) by lia. rewrite Ep. by rewrite Hc. }
  destruct buffer as [|b0 [|b1 buffer]]; [cbn [length] in Hb; lia..|].
  rewrite (bind_Ok _ _ _ _ _ (put_byte_ok [] b0 (b1 :: buffer) SLASH s)). cbn [app].
  erewrite bind_Ok by (apply (put_byte_ok [SLASH] b1 buffer 0 s)). cbn [app].
  pose proof (normalize_loop_ok buffsize s (length path) path (SLASH :: 0 :: buffer) [] ltac:(done) Hp ltac:(constructor) ltac:(by exists buffer)
    ltac:(exact (proj2 Hb)) ltac:(unfold fits; cbn; lia)) as K. cbn zeta in K. fold names in K. unfold final.
  destruct (decide _) as [Hd|Hd].
  - destruct K as (buffer' & R & [rest ->] & _ & Hn). rewrite (bind_Ok _ _ _ _ _ R). exists rest. split; [|done].
    set (st := fold_left enter names []) in *. pose proof (render_root st Hn) as Hr.
    destruct (_ >? 1) eqn:E; [|done]. rewrite Z.gtb_ltb in E. zbool.
    destruct (render_last st Hn ltac:(apply Hr; lia)) as (l & x & El & Hx). rewrite El. rewrite length_app. cbn [length].
    replace (Z.of_nat (length l + 1) - 1) with (Z.of_nat (length l)) by lia. rewrite <- app_assoc. cbn [app].
    rewrite (bind_Ok _ _ _ _ _ (get_byte_ok l x (0 :: rest) s)). by rewrite (proj2 (Z.eqb_neq x SLASH)).
  - by rewrite (bind_Err _ _ _ _ _ K).
Qed.

(** What the components of a canonical path are. *)
Lemma component_name name : forall count rest, Forall (fun c => is_separator c = false) name -> (length name <= count)%nat ->
  (forall c q, rest = c :: q -> is_separator c = true) -> component count (name ++ rest) = (name, rest).
Proof.
  induction name as [|c name IH]; intros count rest Hn Hl Hr.
  - cbn [app]. destruct rest as [|c q]; [by destruct count|]. destruct count; [done|]. cbn [component]. by rewrite (Hr c q eq_refl).
  - apply list.Forall_cons in Hn as [Hc Hn]. cbn [length] in Hl. destruct count as [|count]; [lia|]. cbn [app component]. rewrite Hc, IH by (done || lia). done.
Qed.

Lemma components_of names : Forall name_ok names -> forall fuel, (length (concat (map (cons SLASH) names)) <= fuel)%nat ->
  components fuel (concat (map (cons SLASH) names)) = names.
Proof.
  induction 1 as [|name names Hn _ IH]; intros fuel Hf; [by destruct fuel|]. cbn [map concat] in *.
  destruct Hn as (Hne & Hc & Hl). apply list.Forall_and in Hc as [_ Hc]. rewrite length_app in Hf. cbn [length] in Hf.
  destruct fuel as [|fuel]; [lia|]. cbn [app components skip_separators]. change (is_separator SLASH) with true. cbn iota.
  assert (skip_separators (name ++ concat (map (cons SLASH) names)) = name ++ concat (map (cons SLASH) names)) as ->.
  { destruct name as [|x name]; [done|]. apply list.Forall_cons in Hc as [Hx _]. cbn [app skip_separators]. by rewrite Hx. }
  destruct (name ++ concat (map (cons SLASH) names)) as [|x l] eqn:E; [by destruct name|]. rewrite <- E.
  rewrite component_name; [f_equal; apply IH; lia|done|done|]. intros y q Hy. destruct names as [|n2 names]; [done|]. by injection Hy as <- _.
Qed.

Lemma enter_entry st name : entry_name name -> enter st name = name :: st.
Proof. intros (_ & H1 & H2). unfold enter. by rewrite !decide_False by done. Qed.

Lemma fold_enter names : forall st, Forall entry_name names -> fold_left enter names st = rev names ++ st.
Proof.
  induction names as [|name names IH]; intros st H; [done|]. apply list.Forall_cons in H as [H1 H2]. cbn [fold_left rev].
  rewrite enter_entry, IH by done. by rewrite <- app_assoc.
Qed.

Lemma render_grows st name : (length (render st) <= length (render (name :: st)))%nat.
Proof. destruct st as [|x st]; [rewrite render_one; cbn [length render]; lia|]. rewrite (render_cons name (x :: st)), length_app by done. lia. Qed.

Lemma stacks_bounded names : forall st, Forall entry_name names ->
  Forall (fun x => (length (render x) <= length (render (fold_left enter names st)))%nat) (stacks st names).
Proof.
  induction names as [|name names IH]; intros st H; cbn [stacks fold_left].
  - by apply list.Forall_singleton.
  - apply list.Forall_cons in H as [H1 H2]. rewrite enter_entry by done. specialize (IH (name :: st) H2). constructor; [|done].
    destruct (stacks_head (name :: st) names) as [t E]. rewrite E in IH. apply list.Forall_cons in IH as [IH _]. pose proof (render_grows st name). lia.
Qed.

(** * Theorems *)

(** C30: [xtNormalizePath] on an absolute path puts the canonical path into the buffer: one slash before each name, no [.] left, each [..] having removed the name before it, or one slash for the root. It says [XT_OUT_OF_BOUNDARY] exactly when the path has to grow to [buffsize] bytes or more on the way. *)
Theorem normalize_path_canonical {S} (path buffer : list Z) (buffsize c : Z) (q : list Z) (s : S) :
  path = c :: q -> is_separator c = true -> Forall (fun b => b <> 0) path -> 2 <= buffsize <= Z.of_nat (length buffer) ->
  let names := components (length path) path in
  if decide (Forall (fits buffsize) (stacks [] names))
  then exists rest, xtNormalizePath path buffer buffsize s = Ok (render (final names) ++ 0 :: rest) s /\ Forall entry_name (final names)
  else xtNormalizePath path buffer buffsize s = Err XT_OUT_OF_BOUNDARY s.
Proof. apply normalize_ok. Qed.

(** A path that is canonical is left as it is, if the buffer has room for it. *)
Theorem normalize_path_idempotent {S} (st : list (list Z)) (buffer : list Z) (buffsize : Z) (s : S) :
  Forall entry_name st -> Z.of_nat (length (render st)) < buffsize -> 2 <= buffsize <= Z.of_nat (length buffer) ->
  exists rest, xtNormalizePath (render st) buffer buffsize s = Ok (render st ++ 0 :: rest) s.
Proof.
  intros Hst Hl Hb. pose proof (Forall_rev Hst) as Hrev.
  assert (components (length (render st)) (render st) = rev st) as Ec.
  { destruct st as [|x st]; [done|]. unfold render. apply components_of; [|done]. eapply list.Forall_impl; [exact Hrev|]. by intros ? [? _]. }
  assert (exists q, render st = SLASH :: q) as [q Eq].
  { destruct st as [|x st]; [by eexists|]. unfold render. destruct (rev (x :: st)) as [|y l] eqn:E; [cbn [rev] in E; by destruct (rev st)|]. by eexists. }
  assert (Forall (fun b => b <> 0) (render st)) as Hnz.
  { assert (forall l, Forall entry_name l -> Forall (fun b => b <> 0) (concat (map (cons SLASH) l))) as H.
    { induction 1 as [|n l ((_ & Hn & _) & _) _ IH]; [constructor|]. cbn [map concat]. apply list.Forall_app. split; [|done]. constructor; [done|].
      eapply list.Forall_impl; [exact Hn|]. by intros ? [? _]. }
    destruct st as [|x st]; [by repeat constructor|]. by apply H. }
  pose proof (normalize_ok (render st) buffer buffsize SLASH q s Eq eq_refl Hnz Hb) as K. cbn zeta in K. rewrite Ec in K.
  assert (final (rev st) = st) as Ef by (unfold final; rewrite fold_enter by done; by rewrite rev_involutive, app_nil_r). rewrite Ef in K.
  rewrite decide_True in K; [destruct K as (rest & R & _); by exists rest|].
  eapply list.Forall_impl; [apply (stacks_bounded (rev st) [] Hrev)|]. intros x Hx. unfold fits. unfold final in Ef. rewrite Ef in Hx. cbn beta in Hx. lia.
Qed.

Lemma normalize_path_canonical_witness :
  exists rest, xtNormalizePath [92; 97; 47; 46; 47; 47; 98; 47; 46; 46; 92; 99; 47] (replicate 8 9) 8 tt = Ok ([47; 97; 47; 99] ++ 0 :: rest) tt /\
    Forall entry_name [[99]; [97]].
Proof.
  exact (normalize_path_canonical [92; 97; 47; 46; 47; 47; 98; 47; 46; 46; 92; 99; 47] (replicate 8 9) 8 92 [97; 47; 46; 47; 47; 98; 47; 46; 46; 92; 99; 47] tt
    eq_refl eq_refl ltac:(repeat constructor; done) ltac:(split; by vm_compute)).
Defined.

Lemma normalize_path_idempotent_witness :
  exists rest, xtNormalizePath [47; 97; 47; 99] (replicate 8 9) 8 tt = Ok ([47; 97; 47; 99] ++ 0 :: rest) tt.
Proof.
  apply (normalize_path_idempotent [[99]; [97]] (replicate 8 9) 8 tt).
  - repeat constructor; try done; cbn; lia.
  - by vm_compute.
  - split; by vm_compute.
Defined.
