(* ===== verification/Ramdisk.v ===== *)
(** The initial ram disk (xtkernel/ramdisk.c): the tar file system and the
    device it is mounted from. The memory of the machine is read from the
    device's pointer on; an access behind it is a fault. *)
From Stdlib Require Import ZArith Lia.
From stdpp Require Import base tactics list numbers.
From S2P Require Import Prelude Bytes CString Io.

Open Scope Z_scope.

(** * The device *)

(** [ptr] is the start of the state, the memory that can be read. *)
Record XTInitrdData := mkInitrd { initrd_size : Z }.

(** The code, and the bytes that are read: all of [size], even behind the end of
    the image. *)
Definition initrdReadFile (d : XTInitrdData) (offset size : Z) : M (list Z) (Z * list Z) :=
  if offset >=? initrd_size d then mret (XT_END_OF_FILE, [])
  else fun mem => if offset + size >? len mem then Fault else Ok (XT_SUCCESS, slice offset size mem) mem.

(** The address [ptr + offset], as a distance from [ptr]. *)
Definition initrdMapFile (d : XTInitrdData) (offset : Z) : M (list Z) Z := mret offset.

Definition initrdUnmapFile (d : XTInitrdData) (offset size ptr : Z) : M (list Z) unit := mret tt.

(** * Tar headers *)

Definition TAR : Z := 512.

Record Tar := mkTar { filename : list Z; tar_size : list Z; mtime : list Z; typeflag : list Z }.

Definition tar_of (b : list Z) : Tar := mkTar (slice 0 100 b) (slice 124 12 b) (slice 136 12 b) (slice 156 1 b).

(** [*c - '0'] of every byte, the terminator of the field included. *)
Definition oct2bin (str : list Z) (size : Z) : Z := fold_left (fun n c => u64 (u64 (n * 8) + (c - 48))) (take (Z.to_nat size) str) 0.

Record TarFileData := mkTarFile {
  fileSize : Z;
  name : list Z;
  ptrToData : Z;
  mktime : Z;
  access : Z;
  attr : Z
}.

(** What [xtDuplicateString] copies of the name; it runs over the end of the field
    when the name fills it. *)
Definition tar_name {S} (header : list Z) : M S (list Z) :=
  n ← xtGetStringLength header;
  mret (take (Z.to_nat n) header).

(** * The file system *)

Section Tarfs.
Context {D : Type}.
Variable read_dev : Z -> Z -> M D (Z * list Z).

Definition tarReadFile (f : TarFileData) (offset count : Z) : M D (Z * list Z) := read_dev (u64 (ptrToData f + offset)) count.

(** [garbage] is what the heap's memory holds where no attribute is stored. *)
Fixpoint tar_loop (fuel : nat) (garbage : Z) (fname : list Z) (flags seek : Z) : M D TarFileData :=
  '(code, bs) ← read_dev seek TAR;
  if code =? XT_END_OF_FILE then throw XT_NOT_FOUND
  else
    let b := fill (replicate 512 0) bs in
    let header := tar_of b in
    r ← attempt (xtStringCmp (filename header) (fname ++ [0]) 100);
    match r with
    | inl _ =>
      copy ← tar_name b;
      mret (mkTarFile (oct2bin (tar_size header) 12) copy (u64 (seek + TAR)) (oct2bin (mtime header) 12) flags
        (if oct2bin (typeflag header) 1 =? 5 then XT_FILE_ATTRIBUTE_DIRECTORY else garbage))
    | inr _ => match fuel with O => nofuel | S fuel => tar_loop fuel garbage fname flags (u64 (seek + TAR)) end
    end.

Definition tarOpenFile (fuel : nat) (garbage : Z) (fname : list Z) (flags : Z) : M D TarFileData := tar_loop fuel garbage fname flags 0.

Definition tarMount : M D unit := mret tt.

End Tarfs.

Section Map.
Context {D : Type}.
Variable map_dev : Z -> M D Z.
Variable unmap_dev : Z -> Z -> Z -> M D unit.

(** The size that is reported and the address; the device sets no size. *)
Definition tarMapFile (f : TarFileData) (offset : Z) : M D (Z * Z) :=
  p ← map_dev (u64 (offset + ptrToData f));
  mret (fileSize f, p).

Definition tarUnmapFile (f : TarFileData) (offset ptr size : Z) : M D unit :=
  unmap_dev offset ptr (if size =? 0 then fileSize f else size).

End Map.

(** * Sizes *)

(** The number that octal digits stand for. *)
Definition octal (digits : list Z) : Z := fold_left (fun n d => 8 * n + d) digits 0.

Lemma oct_exact digits : forall n, Forall (fun d => 0 <= d < 8) digits -> 0 <= n -> (n + 1) * 8 ^ Z.of_nat (length digits) <= 2 ^ 64 ->
  fold_left (fun n c => u64 (u64 (n * 8) + (c - 48))) (map (Z.add 48) digits) n = fold_left (fun n d => 8 * n + d) digits n.
Proof.
  induction digits as [|d digits IH]; intros n Hd Hn Hl; [done|]. apply list.Forall_cons in Hd as [Hd Hds].
  cbn [map fold_left length] in *. rewrite Nat2Z.inj_succ, Z.pow_succ_r in Hl by lia.
  assert (1 <= 8 ^ Z.of_nat (length digits)) by (apply (Z.pow_le_mono_r 8 0); lia).
  assert ((n + 1) * 8 <= 2 ^ 64) by nia. rewrite (u64_small (n * 8)), u64_small by lia.
  replace (n * 8 + (48 + d - 48)) with (8 * n + d) by lia. apply IH; [done|lia|nia].
Qed.

Lemma octal_bound digits : forall n, Forall (fun d => 0 <= d < 8) digits -> 0 <= n -> 0 <= fold_left (fun n d => 8 * n + d) digits n < (n + 1) * 8 ^ Z.of_nat (length digits).
Proof.
  induction digits as [|d digits IH]; intros n Hd Hn; [cbn; lia|]. apply list.Forall_cons in Hd as [Hd Hds]. cbn [fold_left length].
  rewrite Nat2Z.inj_succ, Z.pow_succ_r by lia. specialize (IH (8 * n + d) Hds ltac:(lia)).
  assert (1 <= 8 ^ Z.of_nat (length digits)) by (apply (Z.pow_le_mono_r 8 0); lia). nia.
Qed.

(** * Looking a name up *)

Definition block (mem : list Z) (k : Z) : list Z := slice (TAR * k) TAR mem.

(** The file name field of the block is the name, as far as 100 bytes tell. *)
Definition block_named (fname mem : list Z) (k : Z) : bool :=
  match xtStringCmp (slice 0 100 (block mem k)) (fname ++ [0]) 100 tt with Ok _ _ => true | _ => false end.

(** A field that holds a string. *)
Definition names_ok (mem : list Z) (blocks : Z) : Prop :=
  forall k, 0 <= k < blocks -> exists s, c_string (slice 0 100 (block mem k)) = Some s.

Lemma c_string_prefix a b s : c_string a = Some s -> c_string (a ++ b) = Some s.
Proof.
  revert s. induction a as [|x a IH]; intros s; [done|]. cbn [app c_string]. destruct (x =? 0); [done|].
  destruct (c_string a) as [t|]; [|done]. intros [= <-]. by rewrite (IH t eq_refl).
Qed.

Lemma c_string_end fname : Forall (fun b => b <> 0) fname -> c_string (fname ++ [0]) = Some fname.
Proof. induction 1 as [|b l Hb _ IH]; [done|]. cbn [app c_string]. by rewrite (proj2 (Z.eqb_neq b 0)), IH. Qed.

Lemma header_compare {S} fname mem k s (x : S) : Forall (fun b => b <> 0) fname -> c_string (slice 0 100 (block mem k)) = Some s ->
  attempt (xtStringCmp (slice 0 100 (block mem k)) (fname ++ [0]) 100) x = Ok (if block_named fname mem k then inl tt else inr XT_NOT_EQUAL) x.
Proof.
  intros Hf Hs. unfold attempt, block_named. rewrite !(strcmp_ok _ _ s fname 100) by (done || lia || by apply c_string_end). by destruct (decide _).
Qed.

Section Open.
Variables (mem fname : list Z) (blocks garbage flags : Z).
Hypothesis Hlen : TAR * blocks <= len mem /\ len mem < 2 ^ 63.
Hypothesis Hnames : names_ok mem blocks.
Hypothesis Hfname : Forall (fun b => b <> 0) fname.

Let read := initrdReadFile (mkInitrd (TAR * blocks)).

Lemma read_block k : 0 <= k < blocks -> read (TAR * k) TAR mem = Ok (XT_SUCCESS, block mem k) mem.
Proof.
  intros Hk. unfold read, initrdReadFile, TAR in *. cbn [initrd_size]. rewrite Z.geb_leb, (proj2 (Z.leb_gt _ _)) by lia.
  rewrite Z.gtb_ltb, (proj2 (Z.ltb_ge _ _)) by lia. done.
Qed.

Lemma block_length k : 0 <= k < blocks -> length (block mem k) = 512%nat.
Proof. intros Hk. unfold block. unfold TAR in *. by rewrite slice_length by lia. Qed.

Lemma tar_name_ok k s : c_string (slice 0 100 (block mem k)) = Some s -> 0 <= k < blocks -> tar_name (block mem k) mem = Ok s mem.
Proof.
  intros Hs Hk. unfold tar_name. assert (c_string (block mem k) = Some s) as Hc.
  { rewrite <- (take_drop 100 (block mem k)). by apply c_string_prefix. }
  destruct (c_string_app _ _ Hc) as (rest & E & _). pose proof (block_length k Hk) as L.
  assert (length s <= 512)%nat by (rewrite E, length_app in L; lia).
  unfold xtGetStringLength. rewrite (bind_Ok _ _ _ _ _ (strlen_loop_ok (block mem k) s 0 mem Hc ltac:(lia) ltac:(lia))).
  rewrite Z.add_0_l, Nat2Z.id, E, take_app_length. done.
Qed.

Lemma tar_loop_ok fuel : forall k, 0 <= k <= blocks -> (Z.to_nat (blocks - k) <= fuel)%nat ->
  (exists j s, k <= j < blocks /\ block_named fname mem j = true /\ (forall i, k <= i < j -> block_named fname mem i = false) /\
     c_string (slice 0 100 (block mem j)) = Some s /\
     tar_loop read fuel garbage fname flags (TAR * k) mem =
       Ok (mkTarFile (oct2bin (slice 124 12 (block mem j)) 12) s (TAR * (j + 1)) (oct2bin (slice 136 12 (block mem j)) 12) flags
         (if oct2bin (slice 156 1 (block mem j)) 1 =? 5 then XT_FILE_ATTRIBUTE_DIRECTORY else garbage)) mem) \/
  ((forall i, k <= i < blocks -> block_named fname mem i = false) /\
     tar_loop read fuel garbage fname flags (TAR * k) mem = Err XT_NOT_FOUND mem).
Proof.
  induction fuel as [|fuel IH]; intros k Hk Hf; cbn [tar_loop].
  - assert (k = blocks) as -> by lia. right. split; [lia|]. unfold read, initrdReadFile. cbn [initrd_size]. rewrite Z.geb_leb, (proj2 (Z.leb_le _ _)) by lia. done.
  - destruct (decide (k = blocks)) as [->|Hne].
    { right. split; [lia|]. unfold read, initrdReadFile. cbn [initrd_size]. rewrite Z.geb_leb, (proj2 (Z.leb_le _ _)) by lia. done. }
    rewrite (bind_Ok _ _ _ _ _ (read_block k ltac:(lia))). change (XT_SUCCESS =? XT_END_OF_FILE) with false. cbn iota.
    rewrite fill_all by (by rewrite block_length by lia). cbn [filename tar_of]. destruct (Hnames k ltac:(lia)) as [s Hs].
    rewrite (bind_Ok _ _ _ _ _ (header_compare fname mem k s mem Hfname Hs)).
    unfold TAR in Hlen. assert (u64 (TAR * k + TAR) = TAR * (k + 1)) as En by (unfold TAR; rewrite u64_small; lia). rewrite En.
    destruct (block_named fname mem k) eqn:E.
    + left. exists k, s. split; [lia|]. split; [done|]. split; [lia|]. split; [done|]. by rewrite (bind_Ok _ _ _ _ _ (tar_name_ok k s Hs ltac:(lia))).
    + destruct (IH (k + 1)) as [(j & s' & Hj & Hm & Hn & Hs' & R)|[Hn R]]; [lia|lia| |].
      * left. exists j, s'. split; [lia|]. split; [done|]. split; [|done]. intros i Hi. destruct (decide (i = k)) as [->|]; [done|apply Hn; lia].
      * right. split; [|done]. intros i Hi. destruct (decide (i = k)) as [->|]; [done|apply Hn; lia].
Qed.

End Open.

(** * Theorems *)

(** [tarOpenFile] always returns: with the first block of the image whose first 100 bytes are the name, the file's contents beginning in the block after it, or with [XT_NOT_FOUND] when no block has the name. Blocks that are the contents of other files are looked at like headers. *)
Theorem tar_open_first (mem fname : list Z) (blocks garbage flags : Z) :
  TAR * blocks <= len mem -> len mem < 2 ^ 63 -> 0 <= blocks -> names_ok mem blocks -> Forall (fun b => b <> 0) fname ->
  let open := tarOpenFile (initrdReadFile (mkInitrd (TAR * blocks))) (Z.to_nat blocks) garbage fname flags mem in
  (exists f j, open = Ok f mem /\ 0 <= j < blocks /\ block_named fname mem j = true /\ (forall i, 0 <= i < j -> block_named fname mem i = false) /\
     ptrToData f = TAR * (j + 1) /\ c_string (slice 0 100 (block mem j)) = Some (name f) /\ access f = flags) \/
  (open = Err XT_NOT_FOUND mem /\ forall i, 0 <= i < blocks -> block_named fname mem i = false).
Proof.
  intros H1 H2 H3 Hn Hf open. destruct (tar_loop_ok mem fname blocks garbage flags (conj H1 H2) Hn Hf (Z.to_nat blocks) 0) as [(j & s & Hj & Hm & Hnm & Hs & R)|[Hnm R]];
    [lia|lia| |]; change (TAR * 0) with 0 in R.
  - left. eexists _, j. split; [exact R|]. repeat split; try done; lia.
  - right. by split.
Qed.

(** The size of every file is wrong: [oct2bin] takes the terminator of the field for a digit, so eleven octal digits that stand for [v] give [8 * v - 48], modulo 2^64. *)
Theorem tar_size_wrong (digits : list Z) :
  Forall (fun d => 0 <= d < 8) digits -> length digits = 11%nat ->
  oct2bin (map (Z.add 48) digits ++ [0]) 12 = (8 * octal digits - 48) mod 2 ^ 64 /\ oct2bin (map (Z.add 48) digits ++ [0]) 12 <> octal digits.
Proof.
  intros Hd Hl. pose proof (octal_bound digits 0 Hd ltac:(lia)) as Hb. rewrite Hl in Hb. change ((0 + 1) * 8 ^ Z.of_nat 11) with (2 ^ 33) in Hb.
  assert (oct2bin (map (Z.add 48) digits ++ [0]) 12 = (8 * octal digits - 48) mod 2 ^ 64) as E.
  { unfold oct2bin. change (Z.to_nat 12) with 12%nat. rewrite take_ge by (rewrite length_app, length_map, Hl; done). rewrite fold_left_app.
    rewrite oct_exact by (done || lia || (rewrite Hl; vm_compute; done)). cbn [fold_left]. fold (octal digits). fold (octal digits) in Hb.
    rewrite (u64_small (octal digits * 8)) by lia. unfold u64. f_equal. lia. }
  split; [done|]. rewrite E. fold (octal digits) in Hb. destruct (decide (8 * octal digits < 48)).
  - rewrite <- (Z.mod_add _ 1) by lia. rewrite Z.mod_small by lia. lia.
  - rewrite Z.mod_small by lia. lia.
Qed.

(** * A small image *)

(** A header with a name and a size field. *)
Definition tar_block (fname digits : list Z) : list Z :=
  fname ++ replicate (124 - length fname) 0 ++ map (Z.add 48) digits ++ replicate (388 - length digits) 0.

Definition small_image : list Z := tar_block [97] [0; 0; 0; 0; 0; 0; 0; 1; 0; 0; 0] ++ tar_block [98] [] ++ tar_block [98] [].

Lemma small_names : names_ok small_image 3.
Proof.
  intros k Hk. assert (k = 0 \/ k = 1 \/ k = 2) as [-> | [-> | ->]] by lia; eexists; by vm_compute.
Qed.

Lemma tar_open_first_witness :
  let open := tarOpenFile (initrdReadFile (mkInitrd (TAR * 3))) 3 7 [98] 1 small_image in
  (exists f j, open = Ok f small_image /\ 0 <= j < 3 /\ block_named [98] small_image j = true /\ (forall i, 0 <= i < j -> block_named [98] small_image i = false) /\
     ptrToData f = TAR * (j + 1) /\ c_string (slice 0 100 (block small_image j)) = Some (name f) /\ access f = 1) \/
  (open = Err XT_NOT_FOUND small_image /\ forall i, 0 <= i < 3 -> block_named [98] small_image i = false).
Proof. apply (tar_open_first small_image [98] 3 7 1); [by vm_compute..|exact small_names|by repeat constructor]. Defined.

Lemma tar_size_wrong_witness : oct2bin (map (Z.add 48) [0; 0; 0; 0; 0; 0; 0; 1; 0; 0; 0] ++ [0]) 12 = (8 * 512 - 48) mod 2 ^ 64 /\
  oct2bin (map (Z.add 48) [0; 0; 0; 0; 0; 0; 0; 1; 0; 0; 0] ++ [0]) 12 <> 512.
Proof. apply (tar_size_wrong [0; 0; 0; 0; 0; 0; 0; 1; 0; 0; 0]); [repeat constructor; lia|done]. Defined.
