(* ===== verification/Gpt.v ===== *)
(** GUID partition tables: xtkernel/gpt.c, with the generator of random numbers
    of xtkernel/arch/x86_64/random.c that its GUIDs come from. *)
From Stdlib Require Import ZArith Lia.
From stdpp Require Import base tactics list gmap numbers.
From S2P Require Import Prelude Bytes Allocator.

Open Scope Z_scope.

(** * Random numbers (random.c) *)

(** [boot_seed] is the state. *)
Definition xtGetRandomU64 : M Z Z := fun boot_seed =>
  let x := boot_seed in
  let x := Z.lxor x (u64 (Z.shiftl x 13)) in
  let x := Z.lxor x (Z.shiftr x 7) in
  let x := Z.lxor x (u64 (Z.shiftl x 17)) in
  Ok x x.

(** [low] and [high] are what [rdtsc] gives. *)
Definition xtEarlyRandomInit (low high : Z) : M Z unit :=
  put (Z.lor (u64 (Z.shiftl high 32)) low).

(** * CRC-32 *)

Definition crc_step (c : Z) : Z :=
  if Z.land c 1 =? 0 then Z.shiftr c 1 else Z.lxor 0xedb88320 (Z.shiftr c 1).

(** [create_crc32_table]: the entries, each by eight steps. *)
Definition create_crc32_table : list Z :=
  map (fun n => Nat.iter 8 crc_step (Z.of_nat n)) (seq 0 256).

(** The table is filled on the first call and stays. *)
Definition crc_table : list Z := Eval vm_compute in create_crc32_table.

Definition crc_byte (c b : Z) : Z :=
  Z.lxor (nth (Z.to_nat (Z.land (Z.lxor c b) 0xFF)) crc_table 0) (Z.shiftr c 8).

Definition calculate_crc32 (buf : list Z) : Z :=
  Z.lxor (fold_left crc_byte buf 0xFFFFFFFF) 0xFFFFFFFF.

(** * Data *)

Record EFI_GUID := mkGuid { Data1 : Z; Data2 : Z; Data3 : Z; Data4 : list Z }.

Definition guid_bytes (g : EFI_GUID) : list Z := le 4 (Data1 g) ++ le 2 (Data2 g) ++ le 2 (Data3 g) ++ Data4 g.

Record GPT_Partition := mkPart {
  PartitionType : EFI_GUID;
  uniqueGUID : EFI_GUID;
  firstLba : Z;
  lastLba : Z;
  attributes : Z;
  Name : list Z
}.

Definition part_bytes (p : GPT_Partition) : list Z :=
  guid_bytes (PartitionType p) ++ guid_bytes (uniqueGUID p) ++ le 8 (firstLba p) ++ le 8 (lastLba p)
  ++ le 8 (attributes p) ++ concat (map (le 2) (Name p)).

Record GPT_Header := mkHeader {
  crc32_checksum : Z;
  backupLba : Z;
  hdr_lastLba : Z;
  diskGUID : EFI_GUID;
  crc32_PartCheckSum : Z
}.

(** The fields that are always the same are written out: signature, revision
    0x00010000, header size 92, current LBA 1, first LBA 0x22, partitions from
    LBA 2, 128 of 128 bytes. *)
Definition header_bytes (h : GPT_Header) : list Z :=
  [69; 70; 73; 32; 80; 65; 82; 84] ++ le 4 0x00010000 ++ le 4 92 ++ le 4 (crc32_checksum h) ++ le 4 0
  ++ le 8 1 ++ le 8 (backupLba h) ++ le 8 0x22 ++ le 8 (hdr_lastLba h) ++ guid_bytes (diskGUID h)
  ++ le 8 2 ++ le 4 128 ++ le 4 128 ++ le 4 (crc32_PartCheckSum h).

(** * GUIDs *)

(** The loop fills the first 8 of the 16 random bytes; the ninth value in the
    initialiser of the 8-byte [Data4] is dropped. *)
Definition new_guid : M Z EFI_GUID :=
  r ← xtGetRandomU64;
  let rand_arr := le 8 r ++ replicate 8 0 in
  let byte i := nth i rand_arr 0 in
  let d3 := byte 6%nat + byte 7%nat * 256 in
  let d3 := Z.land d3 (Z.lnot (2 ^ 15)) in
  let d3 := Z.lor d3 (2 ^ 14) in
  let d3 := Z.land d3 (Z.lnot (2 ^ 13)) in
  let d3 := Z.land d3 (Z.lnot (2 ^ 12)) in
  let b := byte 7%nat in
  let b := Z.lor b (2 ^ 7) in
  let b := Z.lor b (2 ^ 6) in
  let b := Z.land b (Z.lnot (2 ^ 5)) in
  mret (mkGuid (byte 0%nat + byte 1%nat * 2 ^ 8 + byte 2%nat * 2 ^ 16 + byte 3%nat * 2 ^ 24)
               (byte 4%nat + byte 5%nat * 256) d3
               (b :: map byte [8; 9; 10; 11; 12; 13; 14]%nat)).

Definition null_guid : EFI_GUID := mkGuid 0 0 0 (replicate 8 0).

(** [xtCompareMemory] with the null GUID. *)
Definition is_null_guid (g : EFI_GUID) : bool := bool_decide (guid_bytes g = guid_bytes null_guid).

(** * Partition devices *)

Section Devices.
Context {D : Type}.

(** The parent's file operations: offset and bytes (or count), the number of
    bytes moved. *)
Variable xtWriteFile : Z -> list Z -> M D Z.
Variable xtReadFile : Z -> Z -> M D (list Z).

Definition xtPartWriteFile (part : GPT_Partition) (offset : Z) (data : list Z) : M D Z :=
  xtWriteFile (u64 (offset + firstLba part * 512)) data.

Definition xtPartReadFile (part : GPT_Partition) (offset count : Z) : M D (list Z) :=
  xtReadFile (u64 (offset + firstLba part * 512)) count.

Definition xtPartGetFileInfo (part : GPT_Partition) : Z :=
  u64 ((lastLba part - firstLba part + 1) * 512).

End Devices.

Definition xtGetMaxSizeOfPartitions (array : list GPT_Partition) : Z :=
  fold_left (fun maxSize part => if maxSize <? lastLba part then lastLba part else maxSize) array 0.

(** [temp] is a [uint8_t]. *)
Definition LBA2CHS (lba : Z) : list Z :=
  let temp := u8 (lba / 63) in
  [temp mod 255; u8 (Z.lor (lba mod 63 + 1) (Z.shiftl (Z.shiftr (temp / 255) 8) 6)); temp / 255].

(** * Writing the table *)

(** The boot code, the protective partition and the signature. [chs_end] is
    initialised with the address of [chsEnd], whose low byte is [address]. *)
Definition mbr_bytes (address : Z) : list Z :=
  [0xbb; 0x12; 0x7c; 0xb4; 0x0e; 0x8a; 0x07; 0xcd; 0x10; 0x3c; 0x00; 0x74; 0x03; 0x43; 0xeb; 0xf3;
   0xeb; 0xfe; 0x54; 0x68; 0x69; 0x73; 0x20; 0x64; 0x69; 0x73; 0x6b; 0x20; 0x64; 0x6f; 0x65; 0x73;
   0x6e; 0x27; 0x74; 0x20; 0x6c; 0x6f; 0x61; 0x64; 0x20; 0x66; 0x72; 0x6f; 0x6d; 0x20; 0x4d; 0x42;
   0x52; 0x00; 0x00] ++ replicate 395 0
  ++ ([0x00] ++ [0x00; 0x02; 0x00] ++ [0xee] ++ [u8 address; 0; 0] ++ le 4 1 ++ le 4 (2 ^ 32 - 1))
  ++ replicate 48 0 ++ le 2 0xaa55.

(** Copying the partitions: missing GUIDs are made on the way, [parts] has room
    for 128. *)
Fixpoint fill_parts (array : list GPT_Partition) (i : nat) (parts : list (list Z))
    : M Z (list GPT_Partition * list (list Z)) :=
  match array with
  | [] => mret ([], parts)
  | p :: array =>
    g ← (if is_null_guid (uniqueGUID p) then new_guid else mret (uniqueGUID p));
    let p := mkPart (PartitionType p) g (firstLba p) (lastLba p) (attributes p) (Name p) in
    if (i <? 128)%nat then
      '(array, parts) ← fill_parts array (S i) (<[i := part_bytes p]> parts);
      mret (p :: array, parts)
    else fault
  end.

Section Write.
Context {H D : Type} `{Allocator H}.
Variable xtWriteFile : Z -> list Z -> M D Z.

(** The heap, the random generator and the block device. *)
Record GptState := mkGpt { heap : H; boot_seed : Z; blockdev : D }.

Definition on_heap {X} (m : M H X) : M GptState X :=
  zoom heap (fun h s => mkGpt h (boot_seed s) (blockdev s)) m.

Definition on_seed {X} (m : M Z X) : M GptState X :=
  zoom boot_seed (fun b s => mkGpt (heap s) b (blockdev s)) m.

Definition on_dev {X} (m : M D X) : M GptState X :=
  zoom blockdev (fun d s => mkGpt (heap s) (boot_seed s) d) m.

(** The device's address, its partition and the address of its file object. When
    there is no memory for the file object the device is not freed. *)
Definition xtCreatePartitionDevice (first last_ : Z) (name : list Z) (typeGUID uniqueGUID : EFI_GUID)
    : M GptState (Z * GPT_Partition * Z) :=
  partDev ← on_heap (xtHeapAlloc 136);
  g ← (if is_null_guid uniqueGUID then on_seed new_guid else mret uniqueGUID);
  file ← on_heap (xtHeapAlloc 64);
  mret (partDev, mkPart typeGUID g first last_ 0 (take 36 name), file).

(** The partitions as they are afterwards. The result codes of the writes are
    dropped; without memory for the array the code goes through NULL. *)
Definition xtSetPartitions (address : Z) (array : list GPT_Partition) : M GptState (list GPT_Partition) :=
  let maxSize := xtGetMaxSizeOfPartitions array in
  out_or 0 (on_dev (xtWriteFile 0 (mbr_bytes address))) ;;;
  guid ← on_seed new_guid;
  parts ← out_or NULL (on_heap (xtHeapAlloc (128 * 128)));
  if parts =? NULL then fault
  else
    '(array, bytes) ← on_seed (fill_parts array 0 (replicate 128 (replicate 128 0)));
    let sum_parts := calculate_crc32 (concat bytes) in
    let header := mkHeader 0 (u64 (maxSize - 2)) (u64 (maxSize - 1)) guid sum_parts in
    let header := mkHeader (calculate_crc32 (header_bytes header)) (backupLba header) (hdr_lastLba header)
                           (diskGUID header) (crc32_PartCheckSum header) in
    out_or 0 (on_dev (xtWriteFile 512 (header_bytes header))) ;;;
    out_or 0 (on_dev (xtWriteFile (2 * 512) (concat bytes))) ;;;
    out_or tt (on_heap (xtHeapFree parts)) ;;;
    mret array.

End Write.

Arguments GptState : clear implicits.

(** * The specification of CRC-32 *)

(** The checksum bit by bit: no table. *)
Definition crc_bitwise (buf : list Z) : Z :=
  Z.lxor (fold_left (fun c b => Nat.iter 8 crc_step (Z.lxor c b)) buf 0xFFFFFFFF) 0xFFFFFFFF.

Definition word32 (c : Z) : Prop := 0 <= c < 2 ^ 32.

(** A header whose checksums are right for its own bytes and the partitions. *)
Definition header_verifies (hdr parts : list Z) : Prop :=
  of_le (take 4 (drop 16 hdr)) = calculate_crc32 (take 16 hdr ++ [0; 0; 0; 0] ++ drop 20 hdr) /\
  of_le (take 4 (drop 88 hdr)) = calculate_crc32 parts.

(** * Lemmas *)

Lemma crc_step_odd c : crc_step c = Z.lxor (Z.shiftr c 1) (if Z.odd c then 0xedb88320 else 0).
Proof.
  unfold crc_step. change 1 with (2 ^ 1 - 1) at 1. rewrite land_low by lia.
  rewrite Zmod_odd. destruct (Z.odd c); cbn [Z.eqb]; [apply Z.lxor_comm|by rewrite Z.lxor_0_r].
Qed.

Lemma crc_step_lxor a b : crc_step (Z.lxor a b) = Z.lxor (crc_step a) (crc_step b).
Proof.
  rewrite !crc_step_odd, Z.shiftr_lxor. assert (Z.odd (Z.lxor a b) = xorb (Z.odd a) (Z.odd b)) as ->.
  { rewrite <- !Z.bit0_odd. apply Z.lxor_spec. }
  set (P := 0xedb88320).
  apply Z.bits_inj'. intros i Hi. rewrite !Z.lxor_spec.
  destruct (Z.odd a), (Z.odd b); cbn [xorb]; rewrite ?Z.bits_0;
    destruct (Z.testbit (Z.shiftr a 1) i), (Z.testbit (Z.shiftr b 1) i), (Z.testbit P i); done.
Qed.

Lemma crc_iter_lxor n a b :
  Nat.iter n crc_step (Z.lxor a b) = Z.lxor (Nat.iter n crc_step a) (Nat.iter n crc_step b).
Proof. induction n as [|n IH]; [done|]. by rewrite !Nat.iter_succ, IH, crc_step_lxor. Qed.

Lemma crc_iter_shift n x : Nat.iter n crc_step (Z.shiftl x (Z.of_nat n)) = x.
Proof.
  revert x; induction n as [|n IH]; intros x; [cbn; apply Z.shiftl_0_r|].
  rewrite Nat.iter_succ_r. rewrite crc_step_odd.
  assert (Z.odd (Z.shiftl x (Z.of_nat (S n))) = false) as ->
    by (rewrite <- Z.bit0_odd; apply Z.shiftl_spec_low; lia).
  rewrite Z.lxor_0_r, Z.shiftr_shiftl_l by lia.
  replace (Z.of_nat (S n) - 1) with (Z.of_nat n) by lia. apply IH.
Qed.

Lemma table_lookup k : 0 <= k < 256 -> nth (Z.to_nat k) crc_table 0 = Nat.iter 8 crc_step k.
Proof.
  intros Hk.
  assert (forallb (fun n => nth n crc_table 0 =? Nat.iter 8 crc_step (Z.of_nat n)) (seq 0 256) = true) as A
    by (vm_compute; reflexivity).
  rewrite forallb_forall in A. specialize (A (Z.to_nat k)). rewrite in_seq in A.
  rewrite Z2Nat.id in A by lia. apply Z.eqb_eq, A. lia.
Qed.

Lemma split_low8 x : 0 <= x -> x = Z.lxor (Z.land x 0xFF) (Z.shiftl (Z.shiftr x 8) 8).
Proof.
  intros Hx. apply Z.bits_inj'. intros i Hi. rewrite Z.lxor_spec, Z.land_spec.
  change 0xFF with (Z.ones 8). destruct (decide (i < 8)).
  - rewrite Z.ones_spec_low, Z.shiftl_spec_low by lia. by rewrite andb_true_r, xorb_false_r.
  - rewrite Z.ones_spec_high, Z.shiftl_spec_high, Z.shiftr_spec by lia.
    replace (i - 8 + 8) with i by lia. by rewrite andb_false_r.
Qed.

Lemma lxor_nonneg a b : 0 <= a -> 0 <= b -> 0 <= Z.lxor a b.
Proof. intros Ha Hb. apply Z.lxor_nonneg. lia. Qed.

(** One table step is eight bit steps. *)
Lemma crc_byte_bits c b : 0 <= c -> byte b -> crc_byte c b = Nat.iter 8 crc_step (Z.lxor c b).
Proof.
  intros Hc Hb. unfold crc_byte, byte in *.
  pose proof (lxor_nonneg c b Hc ltac:(lia)) as Hx.
  assert (0 <= Z.land (Z.lxor c b) 0xFF < 256) as Hr
    by (change 0xFF with (2 ^ 8 - 1); rewrite land_low by lia; dlia).
  rewrite table_lookup by done. rewrite (split_low8 (Z.lxor c b) Hx) at 2.
  rewrite crc_iter_lxor, crc_iter_shift. f_equal.
  rewrite Z.shiftr_lxor, (shiftr_div b 8) by lia. rewrite (Z.div_small b) by lia. by rewrite Z.lxor_0_r.
Qed.

Lemma lxor_word32 a b : word32 a -> word32 b -> word32 (Z.lxor a b).
Proof.
  unfold word32. intros Ha Hb. pose proof (lxor_nonneg a b ltac:(lia) ltac:(lia)).
  split; [done|]. destruct (decide (Z.lxor a b = 0)); [lia|]. apply Z.log2_lt_pow2; [lia|].
  eapply Z.le_lt_trans; [apply Z.log2_lxor; lia|]. apply Z.max_lub_lt.
  - destruct (decide (a = 0)) as [->|]; [done|]. apply Z.log2_lt_pow2; lia.
  - destruct (decide (b = 0)) as [->|]; [done|]. apply Z.log2_lt_pow2; lia.
Qed.

Lemma crc_step_word c : word32 c -> word32 (crc_step c).
Proof.
  intros H. rewrite crc_step_odd. apply lxor_word32; unfold word32 in *.
  - rewrite shiftr_div by lia. dlia.
  - destruct (Z.odd c); lia.
Qed.

Lemma crc_iter_word n c : word32 c -> word32 (Nat.iter n crc_step c).
Proof. intros H. induction n; [done|]. rewrite Nat.iter_succ. by apply crc_step_word. Qed.

(** A step of the register loses nothing: the polynomial has its top bit. *)
Lemma crc_step_inj a b : word32 a -> word32 b -> crc_step a = crc_step b -> a = b.
Proof.
  unfold word32. intros Ha Hb. rewrite !crc_step_odd, !shiftr_div by lia. intros E.
  assert (Z.odd a = Z.odd b) as O.
  { assert (forall c, 0 <= c < 2 ^ 32 ->
      Z.testbit (Z.lxor (c / 2 ^ 1) (if Z.odd c then 0xedb88320 else 0)) 31 = Z.odd c) as T.
    { intros c Hc. rewrite Z.lxor_spec, (testbit_small (c / 2 ^ 1) 31 31) by dlia.
      by destruct (Z.odd c). }
    rewrite <- (T a Ha), <- (T b Hb). by rewrite E. }
  assert (a / 2 ^ 1 = b / 2 ^ 1) as D.
  { rewrite O in E. apply (f_equal (fun x => Z.lxor x (if Z.odd b then 0xedb88320 else 0))) in E.
    rewrite !Z.lxor_assoc, !Z.lxor_nilpotent, !Z.lxor_0_r in E. done. }
  pose proof (Zmod_odd a) as Oa. pose proof (Zmod_odd b) as Ob. rewrite O in Oa. rewrite <- Ob in Oa. dlia.
Qed.

Lemma crc_iter_inj n a b :
  word32 a -> word32 b -> Nat.iter n crc_step a = Nat.iter n crc_step b -> a = b.
Proof.
  intros Ha Hb. induction n as [|n IH]; [done|]. rewrite !Nat.iter_succ. intros E. apply IH.
  apply crc_step_inj; auto using crc_iter_word.
Qed.

Lemma byte_word b : byte b -> word32 b.
Proof. unfold byte, word32. lia. Qed.

Definition crc_reg (buf : list Z) (c : Z) : Z :=
  fold_left (fun c b => Nat.iter 8 crc_step (Z.lxor c b)) buf c.

Lemma crc_reg_word buf c : word32 c -> Forall byte buf -> word32 (crc_reg buf c).
Proof.
  intros Hc HF. revert c Hc. induction HF as [|b buf Hb _ IH]; intros c Hc; [done|].
  cbn [crc_reg fold_left]. apply IH, crc_iter_word, lxor_word32; auto using byte_word.
Qed.

Lemma crc_fold buf c :
  word32 c -> Forall byte buf -> fold_left crc_byte buf c = crc_reg buf c.
Proof.
  intros Hc HF. revert c Hc. induction HF as [|b buf Hb _ IH]; intros c Hc; [done|].
  unfold crc_reg. cbn [fold_left]. rewrite crc_byte_bits by (done || (unfold word32 in Hc; lia)). apply IH.
  apply crc_iter_word, lxor_word32; auto using byte_word.
Qed.

Lemma lxor_inj_r a b c : Z.lxor a c = Z.lxor b c -> a = b.
Proof.
  intros E. apply (f_equal (fun x => Z.lxor x c)) in E.
  by rewrite !Z.lxor_assoc, !Z.lxor_nilpotent, !Z.lxor_0_r in E.
Qed.

Lemma crc_reg_inj buf a b :
  word32 a -> word32 b -> Forall byte buf -> crc_reg buf a = crc_reg buf b -> a = b.
Proof.
  intros Ha Hb HF. revert a b Ha Hb. induction HF as [|x buf Hx _ IH]; intros a b Ha Hb; [done|].
  unfold crc_reg. cbn [fold_left]. intros E. apply IH in E; [|apply crc_iter_word, lxor_word32; auto using byte_word..].
  apply crc_iter_inj in E; [|apply lxor_word32; auto using byte_word..]. by apply lxor_inj_r in E.
Qed.

Definition good_guid (g : EFI_GUID) : Prop := length (Data4 g) = 8%nat /\ Forall byte (Data4 g).

Definition good_part (p : GPT_Partition) : Prop :=
  good_guid (PartitionType p) /\ good_guid (uniqueGUID p) /\ length (Name p) = 36%nat.

(** The same partition, with the GUID it had if it had one. *)
Definition named (p q : GPT_Partition) : Prop :=
  q = mkPart (PartitionType p) (uniqueGUID q) (firstLba p) (lastLba p) (attributes p) (Name p) /\
  (is_null_guid (uniqueGUID p) = false -> uniqueGUID q = uniqueGUID p).

Lemma guid_bytes_length g : good_guid g -> length (guid_bytes g) = 16%nat.
Proof. intros [H _]. unfold guid_bytes. rewrite !length_app, !le_length, H. done. Qed.

Lemma guid_bytes_bytes g : good_guid g -> Forall byte (guid_bytes g).
Proof. intros [_ H]. unfold guid_bytes. rewrite !list.Forall_app. auto using le_bytes. Qed.

Lemma part_bytes_bytes p : good_part p -> Forall byte (part_bytes p).
Proof.
  intros (H1 & H2 & _). unfold part_bytes. rewrite !list.Forall_app.
  repeat split; auto using le_bytes, guid_bytes_bytes.
  induction (Name p); cbn [map concat]; [constructor|]. apply list.Forall_app. auto using le_bytes.
Qed.

Lemma header_bytes_bytes h : good_guid (diskGUID h) -> Forall byte (header_bytes h).
Proof.
  intros H. unfold header_bytes. rewrite !list.Forall_app.
  repeat split; auto using le_bytes, guid_bytes_bytes.
  repeat (apply list.Forall_cons; split; [unfold byte; lia|]). constructor.
Qed.

Lemma part_bytes_length p : good_part p -> length (part_bytes p) = 128%nat.
Proof.
  intros (H1 & H2 & H3). unfold part_bytes.
  rewrite !length_app, !guid_bytes_length, !le_length by done.
  assert (forall l, length (concat (map (le 2) l)) = (2 * length l)%nat) as ->.
  { induction l as [|x l IH]; [done|]. cbn [map concat length]. rewrite length_app, IH, le_length. lia. }
  rewrite H3. done.
Qed.

Lemma new_guid_ok seed : exists g seed', new_guid seed = Ok g seed' /\ good_guid g /\ is_null_guid g = false.
Proof.
  unfold new_guid, xtGetRandomU64. cbv beta iota zeta delta [mbind M_bind mret M_ret].
  match goal with |- context [Ok (mkGuid ?a ?b ?c ?d) ?s] => set (d1 := a); set (d2 := b); set (d3 := c) end.
  do 2 eexists. split; [reflexivity|]. split; [split; [done|]; cbn [Data4]|].
  { match goal with |- context [le 8 ?r] => pose proof (le_bytes 8 r) as HB; set (rl := le 8 r) in * end.
    assert (forall i, byte (nth i (rl ++ replicate 8 0) 0)) as HN.
    { intros i. destruct (nth_in_or_default i (rl ++ replicate 8 0) 0) as [Hin| ->]; [|unfold byte; lia].
      apply (proj1 (list.Forall_forall byte (rl ++ replicate 8 0))); [|by apply list_elem_of_In].
      apply list.Forall_app. split; [done|]. apply list.Forall_replicate. unfold byte. lia. }
    apply list.Forall_cons. split; [|apply Forall_map, list.Forall_forall; intros; apply HN].
    generalize (HN 7%nat). generalize (nth 7 (rl ++ replicate 8 0) 0). intros x Hx.
    assert (forallb (fun k => let v := Z.land (Z.lor (Z.lor (Z.of_nat k) (2 ^ 7)) (2 ^ 6)) (Z.lnot (2 ^ 5)) in
      (0 <=? v) && (v <? 256)) (seq 0 256) = true) as A by (vm_compute; reflexivity).
    rewrite forallb_forall in A. unfold byte in *. specialize (A (Z.to_nat x)).
    rewrite Z2Nat.id, in_seq in A by lia. lia. }
  unfold is_null_guid. apply bool_decide_eq_false. unfold guid_bytes. cbn [Data1 Data2 Data3 Data4 null_guid].
  intros E. assert (le 2 d3 = le 2 0) as E3.
  { apply (f_equal (fun l => take 2 (drop 6 l))) in E. revert E. cbn [le app drop take]. done. }
  assert (Z.testbit d3 14 = true) as T.
  { subst d3. rewrite !Z.land_spec, Z.lor_spec. rewrite Z.pow2_bits_eqb, orb_true_r by lia. done. }
  apply (f_equal of_le) in E3. rewrite !of_le_le in E3. change (8 * Z.of_nat 2) with 16 in E3.
  rewrite <- (Z.mod_pow2_bits_low d3 16 14) in T by lia. rewrite E3 in T. done.
Qed.

Lemma fill_parts_ok array : forall i parts seed,
  (i + length array <= 128)%nat -> length parts = 128%nat -> Forall good_part array ->
  exists array' parts' seed', fill_parts array i parts seed = Ok (array', parts') seed' /\
    parts' = take i parts ++ map part_bytes array' ++ drop (i + length array) parts /\
    length array' = length array /\ Forall good_part array' /\
    Forall (fun p => is_null_guid (uniqueGUID p) = false) array' /\ Forall2 named array array'.
Proof.
  induction array as [|p array IH]; intros i parts seed Hi Hp HG.
  - exists [], parts, seed. split; [done|]. cbn. rewrite Nat.add_0_r, take_drop. done.
  - cbn [length] in Hi. apply list.Forall_cons in HG as [(G1 & G2 & G3) HG].
    assert (exists g seed1, (if is_null_guid (uniqueGUID p) then new_guid else mret (uniqueGUID p)) seed
      = Ok g seed1 /\ good_guid g /\ is_null_guid g = false /\ (is_null_guid (uniqueGUID p) = false -> g = uniqueGUID p))
      as (g & seed1 & R & Gg & Ng & Eg).
    { destruct (is_null_guid (uniqueGUID p)) eqn:E; [|by exists (uniqueGUID p), seed].
      destruct (new_guid_ok seed) as (g & seed1 & R & Gg & Ng). by exists g, seed1. }
    set (q := mkPart (PartitionType p) g (firstLba p) (lastLba p) (attributes p) (Name p)).
    destruct (IH (S i) (<[i := part_bytes q]> parts) seed1) as (array' & parts' & seed' & R2 & E2 & L2 & F1 & F2 & F3);
      [lia|by rewrite length_insert|done|].
    exists (q :: array'), parts', seed'. cbn [fill_parts]. rewrite (bind_Ok _ _ _ _ _ R). fold q.
    replace (i <? 128)%nat with true by (symmetry; apply Nat.ltb_lt; lia).
    rewrite (bind_Ok _ _ _ _ _ R2). split; [done|]. split; [|split; [cbn; lia|split; [by constructor|split; by constructor]]].
    rewrite E2. rewrite (take_S_r _ i (part_bytes q)) by (apply list_lookup_insert_eq; lia).
    rewrite take_insert_ge by lia. rewrite drop_insert_lt by lia.
    cbn [map length]. rewrite <- app_assoc. cbn [app].
    by rewrite Nat.add_succ_r.
Qed.

Lemma concat_length_128 (l : list (list Z)) :
  Forall (fun b => length b = 128%nat) l -> length (concat l) = (128 * length l)%nat.
Proof. induction 1 as [|b l Hb _ IH]; [done|]. cbn [concat length]. rewrite length_app, IH, Hb. lia. Qed.

(** The header with its checksums filled in. *)
Lemma header_checks h parts :
  good_guid (diskGUID h) -> crc32_checksum h = 0 -> crc32_PartCheckSum h = calculate_crc32 parts ->
  word32 (calculate_crc32 parts) -> word32 (calculate_crc32 (header_bytes h)) ->
  let h' := mkHeader (calculate_crc32 (header_bytes h)) (backupLba h) (hdr_lastLba h) (diskGUID h)
                     (crc32_PartCheckSum h) in
  header_verifies (header_bytes h') parts /\ length (header_bytes h') = 92%nat.
Proof.
  intros Hg H0 Hp W1 W2 h'. set (c := calculate_crc32 (header_bytes h)) in *.
  set (pre := [69; 70; 73; 32; 80; 65; 82; 84] ++ le 4 0x00010000 ++ le 4 92).
  set (mid := le 4 0 ++ le 8 1 ++ le 8 (backupLba h) ++ le 8 0x22 ++ le 8 (hdr_lastLba h)
    ++ guid_bytes (diskGUID h) ++ le 8 2 ++ le 4 128 ++ le 4 128).
  assert (length mid = 68%nat) as Lm.
  { subst mid. rewrite !length_app, !le_length, guid_bytes_length by done. done. }
  assert (forall x, header_bytes (mkHeader x (backupLba h) (hdr_lastLba h) (diskGUID h) (crc32_PartCheckSum h))
    = pre ++ le 4 x ++ mid ++ le 4 (crc32_PartCheckSum h)) as HB.
  { intros x. unfold header_bytes, pre, mid. cbn [crc32_checksum backupLba hdr_lastLba diskGUID crc32_PartCheckSum].
    by rewrite <- !app_assoc. }
  assert (header_bytes h = pre ++ le 4 0 ++ mid ++ le 4 (crc32_PartCheckSum h)) as HB0
    by (rewrite <- HB, <- H0; by destruct h).
  subst h'. rewrite HB. unfold header_verifies. split; [split|].
  - change 16%nat with (length pre). rewrite drop_app_length, take_app_length.
    change 4%nat with (length (le 4 c)) at 1. rewrite take_app_length.
    replace (drop 20 _) with (mid ++ le 4 (crc32_PartCheckSum h)).
    2: { rewrite app_assoc. change 20%nat with (length (pre ++ le 4 c)). by rewrite drop_app_length. }
    change [0; 0; 0; 0] with (le 4 0). rewrite <- HB0. fold c.
    rewrite of_le_le. apply Z.mod_small. unfold word32 in W2. cbn. lia.
  - replace (drop 88 _) with (le 4 (crc32_PartCheckSum h)).
    2: { rewrite !app_assoc. replace 88%nat with (length ((pre ++ le 4 c) ++ mid)) by (rewrite length_app, Lm; done).
         by rewrite drop_app_length. }
    change 4%nat with (length (le 4 (crc32_PartCheckSum h))) at 1. rewrite firstn_all, of_le_le, Hp.
    apply Z.mod_small. unfold word32 in W1. cbn. lia.
  - rewrite !length_app, !le_length, Lm. done.
Qed.

(** A sequence of writes whose result codes are dropped. *)
Fixpoint write_all {D} (w : Z -> list Z -> M D Z) (l : list (Z * list Z)) : M D unit :=
  match l with
  | [] => mret tt
  | (o, b) :: l => out_or 0 (w o b) ;;; write_all w l
  end.

Lemma calculate_word buf : Forall byte buf -> word32 (calculate_crc32 buf).
Proof.
  intros H. unfold calculate_crc32. rewrite crc_fold by (done || (unfold word32; lia)).
  apply lxor_word32; [apply crc_reg_word; [unfold word32; lia|done]|unfold word32; lia].
Qed.

(** * Theorems *)

(** C35: The table-driven checksum is the CRC-32 of the standard, computed bit by bit, on every buffer of bytes. *)
Theorem calculate_crc32_correct (buf : list Z) :
  Forall byte buf -> calculate_crc32 buf = crc_bitwise buf.
Proof.
  intros H. unfold calculate_crc32, crc_bitwise. by rewrite crc_fold by (done || (unfold word32; lia)).
Qed.

(** The checksum of "123456789" is the standard's check value. *)
Example crc32_check_value : calculate_crc32 [49; 50; 51; 52; 53; 54; 55; 56; 57] = 0xCBF43926.
Proof. vm_compute. reflexivity. Qed.

(** Any corruption of one byte, at any place of any buffer, changes the checksum. *)
Theorem crc32_detects_byte (before after : list Z) (x y : Z) :
  Forall byte before -> Forall byte after -> byte x -> byte y -> x <> y ->
  calculate_crc32 (before ++ x :: after) <> calculate_crc32 (before ++ y :: after).
Proof.
  intros Hb Ha Hx Hy N E. unfold calculate_crc32 in E. apply lxor_inj_r in E.
  assert (word32 0xFFFFFFFF) as W by (unfold word32; lia).
  rewrite !crc_fold in E by (done || (apply list.Forall_app; split; [done|by constructor])).
  unfold crc_reg in E. rewrite !fold_left_app in E. cbn [fold_left] in E.
  pose proof (crc_reg_word before _ W Hb) as Wb. unfold crc_reg in Wb.
  apply (crc_reg_inj after) in E; [|apply crc_iter_word, lxor_word32; auto using byte_word..|done].
  apply crc_iter_inj in E; [|apply lxor_word32; auto using byte_word..].
  apply N. rewrite (Z.lxor_comm _ x), (Z.lxor_comm _ y) in E. by apply lxor_inj_r in E.
Qed.

Lemma set_partitions_ok {H D} `{Allocator H} (w : Z -> list Z -> M D Z) (address : Z)
    (array : list GPT_Partition) (h h1 : H) (L : gset Z) (seed p : Z) (d : D) :
  heap_ok h L -> xtHeapAlloc (128 * 128) h = Ok p h1 -> (length array <= 128)%nat -> Forall good_part array ->
  exists array' hdr parts, Forall2 named array array' /\
    Forall (fun p => is_null_guid (uniqueGUID p) = false) array' /\
    length hdr = 92%nat /\ length parts = (128 * 128)%nat /\
    parts = concat (map part_bytes array') ++ replicate (128 * (128 - length array)) 0 /\
    header_verifies hdr parts /\
    forall d', write_all w [(0, mbr_bytes address); (512, hdr); (1024, parts)] d = Ok tt d' ->
    exists h' seed', xtSetPartitions w address array (mkGpt h seed d) = Ok array' (mkGpt h' seed' d').
Proof.
  intros Hok Ha Hl HG. destruct (alloc_fresh _ _ _ _ _ Hok Ha) as (Hp0 & Hp & Hok1).
  destruct (free_live h1 _ p Hok1 ltac:(set_solver)) as (h2 & Hf & _).
  destruct (new_guid_ok seed) as (g & seed1 & Rg & Gg & _).
  destruct (fill_parts_ok array 0 (replicate 128 (replicate 128 0)) seed1)
    as (array' & parts & seed2 & Rf & Ep & Ln & F1 & F2 & F3); [lia|by rewrite length_replicate|done|].
  set (hdr0 := mkHeader 0 (u64 (xtGetMaxSizeOfPartitions array - 2)) (u64 (xtGetMaxSizeOfPartitions array - 1))
    g (calculate_crc32 (concat parts))).
  assert (Forall (Forall byte) parts /\ length (concat parts) = (128 * 128)%nat) as [Bp Lp].
  { subst parts. rewrite take_0. cbn [app Nat.add]. rewrite drop_replicate. split.
    - apply list.Forall_app. split.
      + apply Forall_map. eapply list.Forall_impl; [exact F1|]. intros q Hq. by apply part_bytes_bytes.
      + apply list.Forall_replicate, list.Forall_replicate. unfold byte. lia.
    - rewrite concat_length_128.
      + rewrite length_app, length_map, length_replicate, Ln. lia.
      + apply list.Forall_app. split.
        * apply Forall_map. eapply list.Forall_impl; [exact F1|]. intros q Hq. by apply part_bytes_length.
        * apply list.Forall_replicate. apply length_replicate. }
  assert (Forall byte (concat parts)) as Bc by (by apply Forall_concat).
  destruct (header_checks hdr0 (concat parts)) as [V1 V2];
    [done|done|done|by apply calculate_word|by apply calculate_word, header_bytes_bytes|].
  eexists array', (header_bytes _), (concat parts).
  split; [done|]. split; [done|]. split; [exact V2|]. split; [exact Lp|]. split.
  { subst parts. rewrite take_0. cbn [app Nat.add]. rewrite drop_replicate, concat_app. f_equal.
    clear. generalize (128 - length array)%nat. intros n. induction n as [|n IH]; [done|].
    replace (128 * S n)%nat with (128 + 128 * n)%nat by lia. rewrite replicate_add, <- IH. done. }
  split; [exact V1|]. intros d' HW. cbn [write_all] in HW.
  apply bind_Ok_inv in HW as (n1 & d1 & W1 & HW). apply bind_Ok_inv in HW as (n2 & d2 & W2 & HW).
  apply bind_Ok_inv in HW as (n3 & d3 & W3 & [= <-]).
  exists h2, seed2. unfold xtSetPartitions.
  assert (forall o b n da db (hh : H) ss, out_or 0 (w o b) da = Ok n db ->
    out_or 0 (on_dev (w o b) : M (GptState H D) Z) (mkGpt hh ss da) = Ok n (mkGpt hh ss db)) as OD.
  { intros o b n da db hh ss. unfold out_or, on_dev, zoom. cbn [blockdev].
    destruct (w o b da); intros E; inversion E; reflexivity. }
  rewrite (bind_Ok _ _ _ _ _ (OD _ _ _ _ _ h seed W1)).
  rewrite (bind_Ok _ _ _ g (mkGpt h seed1 d1)) by (unfold on_seed, zoom; cbn [boot_seed]; by rewrite Rg).
  rewrite (bind_Ok _ _ _ p (mkGpt h1 seed1 d1)) by (unfold out_or, on_heap, zoom; cbn [heap]; by rewrite Ha).
  rewrite (proj2 (Z.eqb_neq _ _) Hp0).
  rewrite (bind_Ok _ _ _ (array', parts) (mkGpt h1 seed2 d1)) by (unfold on_seed, zoom; cbn [boot_seed]; by rewrite Rf).
  rewrite (bind_Ok _ _ _ _ _ (OD _ _ _ _ _ h1 seed2 W2)).
  rewrite (bind_Ok _ _ _ _ _ (OD _ _ _ _ _ h1 seed2 W3)).
  rewrite (bind_Ok _ _ _ tt (mkGpt h2 seed2 d3)) by (unfold out_or, on_heap, zoom; cbn [heap]; by rewrite Hf).
  done.
Qed.

(** C20: Writing partitions puts the boot sector, the header and the 128 entries on the device, in this order; both checksums of the header are right, every partition has its entry, unchanged but for the GUID it gets when it has none. *)
Theorem xtSetPartitions_writes {H D} `{Allocator H} (w : Z -> list Z -> M D Z) (address : Z)
    (array : list GPT_Partition) (h h1 : H) (L : gset Z) (seed p : Z) (d : D) :
  heap_ok h L -> xtHeapAlloc (128 * 128) h = Ok p h1 -> (length array <= 128)%nat -> Forall good_part array ->
  exists array' hdr parts, Forall2 named array array' /\
    Forall (fun p => is_null_guid (uniqueGUID p) = false) array' /\
    length hdr = 92%nat /\ length parts = (128 * 128)%nat /\
    parts = concat (map part_bytes array') ++ replicate (128 * (128 - length array)) 0 /\
    header_verifies hdr parts /\
    forall d', write_all w [(0, mbr_bytes address); (512, hdr); (1024, parts)] d = Ok tt d' ->
    exists h' seed', xtSetPartitions w address array (mkGpt h seed d) = Ok array' (mkGpt h' seed' d').
Proof. apply set_partitions_ok. Qed.

Lemma calculate_crc32_correct_witness : calculate_crc32 [49; 50; 51] = crc_bitwise [49; 50; 51].
Proof. apply (calculate_crc32_correct [49; 50; 51]). repeat constructor; lia. Defined.

Lemma crc32_detects_byte_witness : calculate_crc32 ([1; 2] ++ 3 :: [4]) <> calculate_crc32 ([1; 2] ++ 5 :: [4]).
Proof. apply (crc32_detects_byte [1; 2] [4] 3 5); [repeat constructor; lia..| | |lia]; unfold byte; lia. Defined.

(** One partition without a GUID of its own, written to a log of writes. *)
Definition demo_guid (d1 : Z) : EFI_GUID := mkGuid d1 0 0 (replicate 8 0).

Definition demo_part : GPT_Partition := mkPart (demo_guid 7) (demo_guid 0) 34 2081 0 (replicate 36 0).

Definition log_write (o : Z) (b : list Z) : M (list (Z * list Z)) Z := fun d => Ok (Z.of_nat (length b)) (d ++ [(o, b)]).

Lemma xtSetPartitions_writes_witness :
  exists array' hdr parts, Forall (fun p => is_null_guid (uniqueGUID p) = false) array' /\ header_verifies hdr parts /\
    exists h' seed', xtSetPartitions log_write 0x5000 [demo_part] (mkGpt bump_empty 42 []) =
      Ok array' (mkGpt h' seed' [(0, mbr_bytes 0x5000); (512, hdr); (1024, parts)]).
Proof.
  destruct (xtSetPartitions_writes log_write 0x5000 [demo_part] bump_empty (mkBump 16400 {[16]}) ∅ 42 16 [])
    as (array' & hdr & parts & _ & Hg & _ & _ & _ & HV & HW).
  - split; [done|]. split; [done|]. intros p Hp. by apply elem_of_empty in Hp.
  - by vm_compute.
  - cbn. lia.
  - repeat constructor; unfold byte; lia.
  - exists array', hdr, parts. split; [exact Hg|]. split; [exact HV|]. by apply HW.
Defined.
