(* ===== verification/VfatEntry.v ===== *)
(** Directory entries of the VFAT driver (drivers/vfat/main.c): the short and
    the long entries as records and as bytes, DOS time stamps, the short name,
    its checksum, and the long name spread over entries. *)
From Stdlib Require Import ZArith Lia.
From stdpp Require Import base tactics list numbers.
From S2P Require Import Prelude Bytes Time Io.

Open Scope Z_scope.

(** * Constants *)

Definition ORed : Z := 0x40.

Definition READONLY : Z := 0x1.

Definition SUBDIR : Z := 0x10.

(** * Data *)

Record sfn_dir_entry := mkSfn {
  sfn_name : list Z;
  sfn_ext : list Z;
  sfn_attributes : Z;
  reserved : Z;
  deleted_time_ms : Z;
  create_time : Z;
  create_date : Z;
  ext_attributes : Z;
  firstClusterHigh : Z;
  last_modifided_time : Z;
  last_modifided_date : Z;
  firstClusterLow : Z;
  file_size : Z
}.

Record lfn_dir_entry := mkLfn {
  order : Z;
  name0 : list Z;
  lfn_attributes : Z;
  lfn_type : Z;
  checksum : Z;
  name1 : list Z;
  lfn_firstCluster : Z;
  name2 : list Z
}.

(** The packed structs in memory. *)
Definition sfn_bytes (e : sfn_dir_entry) : list Z :=
  sfn_name e ++ sfn_ext e ++ [sfn_attributes e; reserved e; deleted_time_ms e] ++
  le 2 (create_time e) ++ le 2 (create_date e) ++ le 2 (ext_attributes e) ++ le 2 (firstClusterHigh e) ++
  le 2 (last_modifided_time e) ++ le 2 (last_modifided_date e) ++ le 2 (firstClusterLow e) ++ le 4 (file_size e).

Definition bytes_sfn (b : list Z) : sfn_dir_entry :=
  mkSfn (slice 0 8 b) (slice 8 3 b) (of_le (slice 11 1 b)) (of_le (slice 12 1 b)) (of_le (slice 13 1 b))
    (of_le (slice 14 2 b)) (of_le (slice 16 2 b)) (of_le (slice 18 2 b)) (of_le (slice 20 2 b))
    (of_le (slice 22 2 b)) (of_le (slice 24 2 b)) (of_le (slice 26 2 b)) (of_le (slice 28 4 b)).

Definition words_bytes (ws : list Z) : list Z := concat (map (le 2) ws).

(** [n] 16-bit words from [off] on. *)
Definition bytes_words (n : nat) (off : Z) (b : list Z) : list Z :=
  map (fun i => of_le (slice (off + 2 * Z.of_nat i) 2 b)) (seq 0 n).

Definition lfn_bytes (e : lfn_dir_entry) : list Z :=
  [order e] ++ words_bytes (name0 e) ++ [lfn_attributes e; lfn_type e; checksum e] ++ words_bytes (name1 e) ++
  le 2 (lfn_firstCluster e) ++ words_bytes (name2 e).

Definition bytes_lfn (b : list Z) : lfn_dir_entry :=
  mkLfn (of_le (slice 0 1 b)) (bytes_words 5 1 b) (of_le (slice 11 1 b)) (of_le (slice 12 1 b)) (of_le (slice 13 1 b))
    (bytes_words 6 14 b) (of_le (slice 26 2 b)) (bytes_words 2 28 b).

(** [sfn.firstClusterLow | (sfn.firstClusterHigh << 16)] *)
Definition sfn_cluster (e : sfn_dir_entry) : Z := Z.lor (firstClusterLow e) (Z.shiftl (firstClusterHigh e) 16).

Definition set_times (ct cd mt md : Z) (e : sfn_dir_entry) : sfn_dir_entry :=
  mkSfn (sfn_name e) (sfn_ext e) (sfn_attributes e) (reserved e) (deleted_time_ms e) ct cd (ext_attributes e)
    (firstClusterHigh e) mt md (firstClusterLow e) (file_size e).

Definition set_attributes (a : Z) (e : sfn_dir_entry) : sfn_dir_entry :=
  mkSfn (sfn_name e) (sfn_ext e) a (reserved e) (deleted_time_ms e) (create_time e) (create_date e) (ext_attributes e)
    (firstClusterHigh e) (last_modifided_time e) (last_modifided_date e) (firstClusterLow e) (file_size e).

Definition set_file_size (n : Z) (e : sfn_dir_entry) : sfn_dir_entry :=
  mkSfn (sfn_name e) (sfn_ext e) (sfn_attributes e) (reserved e) (deleted_time_ms e) (create_time e) (create_date e)
    (ext_attributes e) (firstClusterHigh e) (last_modifided_time e) (last_modifided_date e) (firstClusterLow e) n.

Definition set_cluster (c : Z) (e : sfn_dir_entry) : sfn_dir_entry :=
  mkSfn (sfn_name e) (sfn_ext e) (sfn_attributes e) (reserved e) (deleted_time_ms e) (create_time e) (create_date e)
    (ext_attributes e) (u16 (Z.shiftr c 16)) (last_modifided_time e) (last_modifided_date e) (Z.land c 0xffff) (file_size e).

Definition set_names (n x : list Z) (e : sfn_dir_entry) : sfn_dir_entry :=
  mkSfn n x (sfn_attributes e) (reserved e) (deleted_time_ms e) (create_time e) (create_date e) (ext_attributes e)
    (firstClusterHigh e) (last_modifided_time e) (last_modifided_date e) (firstClusterLow e) (file_size e).

(** * Time stamps *)

Definition _create_time (hours minute second : Z) : Z :=
  Z.lor (Z.lor (Z.shiftl hours 11) (Z.shiftl minute 5)) (Z.shiftr second 1).

Definition _create_date (y m d : Z) : Z := Z.lor (Z.lor (Z.shiftl y 9) (Z.shiftl m 5)) d.

Definition get_year (date : Z) : Z := Z.shiftr date 9.

Definition get_month (date : Z) : Z := Z.land (Z.shiftr date 5) 0xf.

Definition get_mday (date : Z) : Z := Z.land date 0x1f.

Definition get_seconds (time : Z) : Z := Z.shiftl (Z.land time 0x1f) 1.

Definition get_minutes (time : Z) : Z := Z.land (Z.shiftr time 5) 0x3f.

Definition get_hours (time : Z) : Z := Z.shiftr time 11.

(** The two words of a moment, as the driver stores them. *)
Definition dos_time (tm : XTTime) : Z := u16 (_create_time (hour tm) (minutes tm) (seconds tm)).

Definition dos_date (tm : XTTime) : Z := u16 (_create_date (u32 (year tm - 1980)) (month tm) (mday tm)).

Definition time_of_dos (date time : Z) : XTTime :=
  mkTime (get_seconds time) (get_minutes time) (get_hours time) (get_mday date) 0 (get_month date) 0 (get_year date + 1980).

(** [XTTime tm = { 0 }] *)
Definition no_time : XTTime := mkTime 0 0 0 0 0 0 0 0.

(** The results of [xtMakeTime] are dropped: a bad date leaves the old value. *)
Definition vfatSFNtoFileInfo {S} (sfn : sfn_dir_entry) (info : XTFileInfo) : M S XTFileInfo :=
  created ← out_or (createdTime info) (xtMakeTime (time_of_dos (create_date sfn) (create_time sfn)));
  written ← out_or (lastWriteTime info) (xtMakeTime (time_of_dos (last_modifided_date sfn) (last_modifided_time sfn)));
  let fl := Z.lor (info_flags info) XT_FILE_MODE_READ in
  let fl := if Z.land (sfn_attributes sfn) SUBDIR =? 0 then fl else Z.lor fl XT_FILE_ATTRIBUTE_DIRECTORY in
  let fl := if Z.land (sfn_attributes sfn) READONLY =? 0 then Z.lor fl XT_FILE_MODE_WRITE else fl in
  mret (mkInfo (info_name info) (FileSize info) (PhysicalSize info) created (lastAccessTime info) written fl (userOwnerId info)).

Definition vfatFileInfoToSFN {S} (sfn : sfn_dir_entry) (info : XTFileInfo) : M S sfn_dir_entry :=
  tm ← out_or no_time (xtGetTimeFromUnix (createdTime info));
  tm2 ← out_or tm (xtGetTimeFromUnix (lastWriteTime info));
  let sfn := set_times (dos_time tm) (dos_date tm) (dos_time tm2) (dos_date tm2) sfn in
  mret (if Z.land (info_flags info) XT_FILE_ATTRIBUTE_DIRECTORY =? 0 then sfn
        else set_attributes (Z.lor (sfn_attributes sfn) SUBDIR) sfn).

(** * Names *)

(** The byte at an index of a name in its buffer. *)
Definition char_at {S} (name : list Z) (i : Z) : M S Z := deref (fun _ => if i <? 0 then None else name !! Z.to_nat i).

(** [for (; (name_len - 1 > 1) && name[name_len] != '.'; --name_len)] *)
Fixpoint extension_loop {S} (fuel : nat) (name : list Z) (name_len : Z) : M S Z :=
  if u64 (name_len - 1) >? 1 then
    c ← char_at name name_len;
    if c =? 46 then mret name_len
    else match fuel with O => nofuel | Datatypes.S fuel => extension_loop fuel name (u64 (name_len - 1)) end
  else mret name_len.

(** The index where the extension starts. The test for an empty name has no
    effect: the assignment after it comes in any case. *)
Definition xtGetExtension {S} (name : list Z) (name_len : Z) : M S Z :=
  n ← extension_loop (Z.to_nat name_len) name name_len;
  mret (n + 1).

Fixpoint short_loop (name : list Z) : Z :=
  match name with
  | [] => 0
  | c :: name => if (c =? 0) || (c =? 46) then 0 else 1 + short_loop name
  end.

Definition xtGetShortNameLength (name : list Z) : Z := let l := short_loop name in if l >? 8 then 8 else l.

Definition checksum_step (sum c : Z) : Z := u8 ((if Z.land sum 1 =? 0 then 0 else 0x80) + Z.shiftr sum 1 + c).

Definition calc_checksum (shortname : list Z) : Z := fold_left checksum_step (take 11 shortname) 0.

Definition to_upper (ascii : Z) : Z := if (ascii <=? 122) && (ascii >=? 97) then ascii - 97 + 65 else ascii.

(** * Long names *)

(** The copy of [n] characters at [lfn_pos] into one of the three arrays. *)
Definition lfn_part (wname : list Z) (n : nat) (lfn_pos : Z) : list Z :=
  let wname_len := len wname in
  let remaining := wname_len - lfn_pos in
  let to_copy := if remaining <? Z.of_nat n then remaining else Z.of_nat n in
  map (fun i => let k := Z.of_nat i in
         if k <? to_copy then nth (Z.to_nat (lfn_pos + k)) wname 0
         else if (k =? to_copy) && (lfn_pos + k =? wname_len) then 0x0000 else 0xffff)
      (seq 0 n).

(** [lfn_pos += to_copy] *)
Definition lfn_next (wname : list Z) (n : nat) (lfn_pos : Z) : Z :=
  lfn_pos + (if len wname - lfn_pos <? Z.of_nat n then len wname - lfn_pos else Z.of_nat n).

(** [lfn_pos] is not moved behind the characters of [name2], so the next entry
    begins with those two again. *)
Definition make_lfn (wname : list Z) (cs ord lfn_pos : Z) : lfn_dir_entry * Z :=
  let pos1 := lfn_next wname 5 lfn_pos in
  let pos2 := lfn_next wname 6 pos1 in
  (mkLfn ord (lfn_part wname 5 lfn_pos) 0xf 0 cs (lfn_part wname 6 pos1) 0 (lfn_part wname 2 pos2), pos2).

(** [for (i = 1; i <= countOfLFNEntries && lfn_pos < wname_len; ++i)]: the
    entries with the indices they are written to. *)
Fixpoint lfn_loop (fuel : nat) (wname : list Z) (cs count free_index i lfn_pos : Z) : list (Z * lfn_dir_entry) :=
  match fuel with
  | O => []
  | S fuel =>
    if (i <=? count) && (lfn_pos <? len wname) then
      let ord := u8 (count - i + 1) in
      let ord := if i =? 1 then Z.lor ord ORed else ord in
      let '(e, pos) := make_lfn wname cs ord lfn_pos in
      (free_index + (count - i), e) :: lfn_loop fuel wname cs count free_index (i + 1) pos
    else []
  end.

Definition countOfLFNEntries (wname : list Z) : Z := (len wname + 12) / 13.

Definition lfn_entries (wname : list Z) (cs free_index : Z) : list (Z * lfn_dir_entry) :=
  lfn_loop (Z.to_nat (countOfLFNEntries wname)) wname cs (countOfLFNEntries wname) free_index 1 0.

(** The inner loop of the readers: the characters of one entry after [pos]
    others, up to the end mark or the end of the buffer. *)
Fixpoint copy_chars (w acc : list Z) : list Z :=
  match w with
  | [] => acc
  | c :: w =>
    if len acc <? 255 then
      if (c =? 0x0000) || (c =? 0xFFFF) then acc else copy_chars w (acc ++ [c])
    else acc
  end.

Definition lfn_chars (e : lfn_dir_entry) : list Z := name0 e ++ name1 e ++ name2 e.

(** [for (i = lfnCount - 1; i >= 0; i--)] over the collected entries. *)
Definition lfn_name (lfnBuffer : list lfn_dir_entry) : list Z :=
  fold_left (fun acc e => copy_chars (lfn_chars e) acc) (rev lfnBuffer) [].

(** * The bytes of entries *)

Definition word (w : Z) : Prop := 0 <= w < 2 ^ 16.

Record sfn_ok (e : sfn_dir_entry) : Prop := mkSfnOk {
  sfn_ok_name : length (sfn_name e) = 8%nat;
  sfn_ok_ext : length (sfn_ext e) = 3%nat;
  sfn_ok_words : Forall word [create_time e; create_date e; ext_attributes e; firstClusterHigh e;
    last_modifided_time e; last_modifided_date e; firstClusterLow e];
  sfn_ok_size : 0 <= file_size e < 2 ^ 32
}.

Record lfn_ok (e : lfn_dir_entry) : Prop := mkLfnOk {
  lfn_ok_lengths : length (name0 e) = 5%nat /\ length (name1 e) = 6%nat /\ length (name2 e) = 2%nat;
  lfn_ok_words : Forall word (name0 e ++ name1 e ++ name2 e ++ [lfn_firstCluster e])
}.

(** A list of known length, as its elements. *)
Ltac explode l := repeat (let x := fresh "c" in destruct l as [|x l]; [discriminate|]); destruct l as [|]; [|discriminate].

Lemma word_pair w : word w -> w mod 256 + 256 * (w / 256 mod 256) = w.
Proof. unfold word. intros Hw. dlia. Qed.

Lemma word_quad v : 0 <= v < 2 ^ 32 ->
  v mod 256 + 256 * (v / 256 mod 256 + 256 * (v / 256 / 256 mod 256 + 256 * (v / 256 / 256 / 256 mod 256))) = v.
Proof. intros Hv. dlia. Qed.

(** Reads the fields of packed bytes back. *)
Ltac fields :=
  repeat match goal with
  | |- context [Z.to_nat ?z] => let n := eval vm_compute in (Z.to_nat z) in change (Z.to_nat z) with n
  end;
  cbn -[Z.div Z.modulo Z.mul Z.add]; rewrite ?Z.mul_0_r, ?Z.add_0_r; rewrite ?word_pair, ?word_quad by done; done.

Lemma sfn_bytes_length e : sfn_ok e -> length (sfn_bytes e) = 32%nat.
Proof. intros [H1 H2 _ _]. unfold sfn_bytes. rewrite !length_app, !le_length, H1, H2. done. Qed.

Lemma bytes_sfn_bytes e : sfn_ok e -> bytes_sfn (sfn_bytes e) = e.
Proof.
  destruct e as [nm ex at_ rs dl ct cd ea fh mt md fl fs]. intros [H1 H2 H3 H4]. cbn in H1, H2, H3, H4.
  rewrite !list.Forall_cons in H3. destruct_and!. explode nm. explode ex.
  unfold sfn_bytes, bytes_sfn, slice. fields.
Qed.

Lemma lfn_bytes_length e : lfn_ok e -> length (lfn_bytes e) = 32%nat.
Proof.
  destruct e as [o n0 a t cs n1 fc n2]. intros [(H0 & H1 & H2) _]. cbn in H0, H1, H2.
  explode n0. explode n1. explode n2. reflexivity.
Qed.

Lemma bytes_lfn_bytes e : lfn_ok e -> bytes_lfn (lfn_bytes e) = e.
Proof.
  destruct e as [o n0 a t cs n1 fc n2]. intros [(H0 & H1 & H2) H3]. cbn in H0, H1, H2.
  explode n0. explode n1. explode n2. cbn in H3. rewrite !list.Forall_cons in H3. destruct_and!.
  unfold lfn_bytes, bytes_lfn, bytes_words, words_bytes, slice. cbn [seq map]. fields.
Qed.

(** * Time stamps round trip *)

Lemma months_end y m : 1 <= m <= 12 -> months_before y m + month_len y m <= year_days y.
Proof.
  intros Hm. assert (forall l : bool, is_leap_year y = l -> months_before y m + month_len y m <= year_days y) as K; [|by eapply K].
  intros l Hl. assert (m = 1 \/ m = 2 \/ m = 3 \/ m = 4 \/ m = 5 \/ m = 6 \/ m = 7 \/ m = 8 \/ m = 9 \/ m = 10 \/ m = 11 \/ m = 12) as Hin by lia.
  unfold year_days, months_before, month_len. rewrite Hl.
  assert (forall y', is_leap_year y' = l -> months_span y (Z.to_nat (m - 1)) = months_span y' (Z.to_nat (m - 1))) as E
    by (intros y' Hy'; apply months_span_leap; congruence).
  destruct l; [rewrite (E 2000 eq_refl)|rewrite (E 2001 eq_refl)];
    clear -Hin; destruct_or! Hin; subst; by vm_compute.
Qed.

Lemma span_add n m y : span (n + m) y = span n y + span m (y + Z.of_nat n).
Proof.
  revert y; induction n as [|n IH]; intros y; cbn [Nat.add span]; [by rewrite Z.add_0_r|].
  rewrite IH. replace (y + 1 + Z.of_nat n) with (y + Z.of_nat (S n)) by lia. lia.
Qed.

Lemma span_mono n m y : (n <= m)%nat -> span n y <= span m y.
Proof.
  intros Hm. replace m with (n + (m - n))%nat by lia. rewrite span_add. pose proof (span_bounds (m - n) (y + Z.of_nat n)). lia.
Qed.

(** The year of a moment, from bounds on the moment. *)
Lemma year_of_moment tm (a b : Z) : valid_date tm -> 1970 <= a ->
  span (Z.to_nat (a - 1970)) 1970 * 86400 <= moment_seconds tm < span (Z.to_nat (b - 1970)) 1970 * 86400 -> a <= year tm < b.
Proof.
  intros (Hs & Hmi & Hh & Hy & Hmo & Hd) Ha Hm. unfold moment_seconds, date_days in Hm.
  pose proof (months_before_bounds (year tm) (month tm) Hmo). pose proof (months_end (year tm) (month tm) Hmo).
  split.
  - destruct (decide (a <= year tm)); [done|exfalso].
    pose proof (span_mono (S (Z.to_nat (year tm - 1970))) (Z.to_nat (a - 1970)) 1970 ltac:(lia)) as K.
    replace (S (Z.to_nat (year tm - 1970))) with (Z.to_nat (year tm - 1970) + 1)%nat in K by lia.
    rewrite span_add in K. cbn [span] in K. replace (1970 + Z.of_nat (Z.to_nat (year tm - 1970))) with (year tm) in K by lia. lia.
  - destruct (decide (year tm < b)); [done|exfalso].
    pose proof (span_mono (Z.to_nat (b - 1970)) (Z.to_nat (year tm - 1970)) 1970 ltac:(lia)). lia.
Qed.

(** A date of the DOS era in its two words. *)
Lemma dos_words tm : valid_date tm -> 1980 <= year tm < 2108 ->
  word (dos_date tm) /\ word (dos_time tm) /\
  time_of_dos (dos_date tm) (dos_time tm) =
    mkTime (seconds tm - seconds tm mod 2) (minutes tm) (hour tm) (mday tm) 0 (month tm) 0 (year tm).
Proof.
  intros (Hs & Hmi & Hh & _ & Hmo & Hd) Hy. pose proof (month_len_bounds (year tm) (month tm)).
  unfold dos_date, dos_time, _create_time, _create_date, time_of_dos, get_seconds, get_minutes, get_hours, get_mday, get_month, get_year.
  change 0x1f with (2 ^ 5 - 1). change 0xf with (2 ^ 4 - 1). change 0x3f with (2 ^ 6 - 1).
  rewrite !land_low, !shiftr_div, !shiftl_mul by lia.
  rewrite (u32_small (year tm - 1980)) by lia.
  set (h := hour tm) in *. set (mi := minutes tm) in *. set (se := seconds tm) in *.
  set (y := year tm - 1980) in *. set (mo := month tm) in *. set (da := mday tm) in *.
  assert (Z.lor (Z.lor (h * 2 ^ 11) (mi * 2 ^ 5)) (se / 2 ^ 1) = (h * 2 ^ 6 + mi) * 2 ^ 5 + se / 2 ^ 1) as ->.
  { change (2 ^ 11) with (2 ^ 6 * 2 ^ 5). rewrite Z.mul_assoc. rewrite <- (Z.shiftl_mul_pow2 (h * 2 ^ 6)), <- (Z.shiftl_mul_pow2 mi) by lia.
    rewrite <- Z.shiftl_lor, Z.shiftl_mul_pow2, (lor_add_shift h mi 6) by lia. apply lor_add_shift; dlia. }
  assert (Z.lor (Z.lor (y * 2 ^ 9) (mo * 2 ^ 5)) da = (y * 2 ^ 4 + mo) * 2 ^ 5 + da) as ->.
  { change (2 ^ 9) with (2 ^ 4 * 2 ^ 5). rewrite Z.mul_assoc. rewrite <- (Z.shiftl_mul_pow2 (y * 2 ^ 4)), <- (Z.shiftl_mul_pow2 mo) by lia.
    rewrite <- Z.shiftl_lor, Z.shiftl_mul_pow2, (lor_add_shift y mo 4) by lia. apply lor_add_shift; lia. }
  unfold word. rewrite !u16_small by dlia. split; [lia|]. split; [dlia|]. f_equal; subst y; dlia.
Qed.

(** The seconds from 1970 to the beginning of 1980 and of 2108. *)
Definition DOS_FIRST : Z := 315532800.

Definition DOS_END : Z := 4354819200.

Lemma dos_years : span (Z.to_nat (1980 - 1970)) 1970 * 86400 = DOS_FIRST /\ span (Z.to_nat (2108 - 1970)) 1970 * 86400 = DOS_END.
Proof. split; by vm_compute. Qed.

(** A moment of the DOS era comes back with even seconds. *)
Lemma dos_moment {S} (t : Z) (s : S) : DOS_FIRST <= t < DOS_END ->
  exists tm, xtGetTimeFromUnix t s = Ok tm s /\ word (dos_date tm) /\ word (dos_time tm) /\
    xtMakeTime (time_of_dos (dos_date tm) (dos_time tm)) s = Ok (t - t mod 2) s.
Proof.
  intros Ht. destruct (get_time_spec t s) as (tm & E & V & Hm & _); [unfold DOS_FIRST, DOS_END in Ht; lia|].
  assert (1980 <= year tm < 2108) as Hy.
  { apply year_of_moment; [done|lia|]. destruct dos_years as [-> ->]. lia. }
  destruct (dos_words tm V Hy) as (W1 & W2 & E3). exists tm. split; [done|]. split; [done|]. split; [done|].
  destruct V as (Hs & Hmi & Hh & Hyr & Hmo & Hd). rewrite E3, make_time_valid.
  - f_equal. rewrite <- Hm. unfold moment_seconds, date_days. cbn [seconds minutes hour mday month year]. dlia.
  - unfold valid_date. cbn [seconds minutes hour mday month year]. split; [dlia|]. done.
Qed.

(** The time stamps of a file survive the directory entry: from 1980 to 2107
    what [vfatFileInfoToSFN] stores, [vfatSFNtoFileInfo] reads back, rounded
    down to even seconds. *)
Theorem sfn_time_roundtrip {S} (sfn : sfn_dir_entry) (info info' : XTFileInfo) (s : S) :
  DOS_FIRST <= createdTime info < DOS_END -> DOS_FIRST <= lastWriteTime info < DOS_END ->
  exists info2, (e ← vfatFileInfoToSFN sfn info; vfatSFNtoFileInfo e info') s = Ok info2 s /\
    createdTime info2 = createdTime info - createdTime info mod 2 /\
    lastWriteTime info2 = lastWriteTime info - lastWriteTime info mod 2.
Proof.
  intros Hc Hw. destruct (dos_moment (createdTime info) s Hc) as (tm & E1 & _ & _ & R1).
  destruct (dos_moment (lastWriteTime info) s Hw) as (tm2 & E2 & _ & _ & R2).
  unfold vfatFileInfoToSFN. rewrite bind_bind, (bind_Ok _ _ _ _ _ (out_or_Ok _ _ _ _ _ E1)).
  rewrite bind_bind, (bind_Ok _ _ _ _ _ (out_or_Ok _ _ _ _ _ E2)), bind_ret.
  unfold vfatSFNtoFileInfo. set (e := if Z.land (info_flags info) _ =? 0 then _ else _).
  assert (create_date e = dos_date tm /\ create_time e = dos_time tm /\ last_modifided_date e = dos_date tm2 /\
    last_modifided_time e = dos_time tm2) as (-> & -> & -> & ->) by (unfold e; by destruct (_ =? 0)).
  rewrite (bind_Ok _ _ _ _ _ (out_or_Ok _ _ _ _ _ R1)), (bind_Ok _ _ _ _ _ (out_or_Ok _ _ _ _ _ R2)).
  eexists. split; [done|]. done.
Qed.

(** * Long names round trip *)

(** A character of a long name. *)
Definition name_char (c : Z) : Prop := 0 < c < 0xFFFF.

(** One array, from the characters that are left. *)
Definition part_of (rest : list Z) (n : nat) : list Z :=
  map (fun i => if Z.of_nat i <? len rest then nth i rest 0 else if Z.of_nat i =? len rest then 0 else 0xffff) (seq 0 n).

Lemma lfn_part_rest wname n pos : 0 <= pos <= len wname ->
  lfn_part wname n pos = part_of (drop (Z.to_nat pos) wname) n /\
  lfn_next wname n pos = pos + Z.min (Z.of_nat n) (len wname - pos).
Proof.
  intros Hp. unfold lfn_part, part_of, lfn_next. assert (len (drop (Z.to_nat pos) wname) = len wname - pos) as E
    by (rewrite length_drop; lia).
  split; [|destruct (_ <? _) eqn:?; zbool; lia].
  apply map_ext_in. intros i Hi%in_seq. rewrite E.
  assert ((Z.of_nat i <? (if len wname - pos <? Z.of_nat n then len wname - pos else Z.of_nat n)) = (Z.of_nat i <? len wname - pos)) as ->
    by (destruct (len wname - pos <? Z.of_nat n) eqn:?; zbool; destruct (Z.of_nat i <? len wname - pos) eqn:?; zbool; lia).
  destruct (Z.of_nat i <? len wname - pos) eqn:E1; zbool.
  - rewrite <- (take_drop (Z.to_nat pos) wname) at 1. rewrite app_nth2; rewrite length_take; [f_equal; lia|lia].
  - destruct (len wname - pos <? Z.of_nat n) eqn:E2; zbool.
    + destruct (Z.of_nat i =? len wname - pos) eqn:E3; zbool; [|done]. by rewrite (proj2 (Z.eqb_eq _ _)) by lia.
    + rewrite !(proj2 (Z.eqb_neq _ _)) by lia. done.
Qed.

Lemma part_of_cons c rest n : part_of (c :: rest) (S n) = c :: part_of rest n.
Proof.
  unfold part_of. cbn [seq map length nth]. f_equal.
  rewrite <- seq_shift, map_map. apply map_ext. intros i. cbn [nth]. rewrite !Nat2Z.inj_succ.
  assert ((Z.succ (Z.of_nat i) <? Z.succ (len rest)) = (Z.of_nat i <? len rest)) as -> by (apply Bool.eq_iff_eq_true; rewrite !Z.ltb_lt; lia).
  by assert ((Z.succ (Z.of_nat i) =? Z.succ (len rest)) = (Z.of_nat i =? len rest)) as -> by (apply Bool.eq_iff_eq_true; rewrite !Z.eqb_eq; lia).
Qed.

Lemma copy_part n : forall rest w acc, Forall name_char rest -> len acc + len rest <= 255 ->
  copy_chars (part_of rest n ++ w) acc =
    if decide (length rest < n)%nat then acc ++ rest else copy_chars w (acc ++ take n rest).
Proof.
  induction n as [|n IH]; intros rest w acc HF Hl.
  { rewrite decide_False by lia. by rewrite take_0, app_nil_r. }
  destruct rest as [|c rest].
  - cbn [length app]. rewrite decide_True by lia. rewrite app_nil_r. unfold part_of. cbn. by destruct (_ <? _).
  - apply list.Forall_cons in HF as [Hc HF]. unfold name_char in Hc. rewrite part_of_cons. cbn [length app copy_chars] in *.
    rewrite (proj2 (Z.ltb_lt (len acc) 255)) by lia. rewrite (proj2 (Z.eqb_neq c 0)), (proj2 (Z.eqb_neq c 0xffff)) by lia. cbn [orb].
    rewrite IH by (done || (rewrite length_app; cbn; lia)). rewrite <- !app_assoc. cbn [app take].
    destruct (decide (length rest < n)%nat); [by rewrite decide_True by lia|by rewrite decide_False by lia].
Qed.

Lemma copy_three rest acc : Forall name_char rest -> len acc + len rest <= 255 ->
  copy_chars (part_of rest 5 ++ part_of (drop 5 rest) 6 ++ part_of (drop 11 rest) 2) acc = acc ++ take 13 rest.
Proof.
  intros HF Hl. assert (forall q, Forall name_char (drop q rest)) as HD by (intros; by apply Forall_drop).
  rewrite copy_part by done. destruct (decide _); [by rewrite take_ge by lia|].
  rewrite copy_part by (done || (rewrite length_app, length_take, length_drop; lia)). rewrite length_drop.
  destruct (decide _); [rewrite <- app_assoc, take_drop, take_ge by lia; done|].
  rewrite <- (app_nil_r (part_of _ 2)), copy_part by (done || (rewrite !length_app, !length_take, !length_drop; lia)).
  rewrite length_drop. change 11%nat with (5 + 6)%nat. rewrite <- drop_drop. rewrite <- !app_assoc.
  destruct (decide _).
  - rewrite (take_drop 6 (drop 5 rest)), take_drop, take_ge by lia. done.
  - cbn [copy_chars]. by rewrite (take_take_drop (drop 5 rest) 6 2), take_take_drop.
Qed.

(** The characters of one entry up to the end mark. *)
Fixpoint until_end (w : list Z) : list Z :=
  match w with
  | [] => []
  | c :: w => if (c =? 0x0000) || (c =? 0xFFFF) then [] else c :: until_end w
  end.

(** The buffer takes 255 characters. *)
Lemma copy_chars_take w : forall acc, len acc <= 255 -> copy_chars w acc = take 255 (acc ++ until_end w).
Proof.
  induction w as [|c w IH]; intros acc Hl; cbn [copy_chars until_end]; [by rewrite app_nil_r, take_ge by lia|].
  destruct (Z.ltb_spec (len acc) 255) as [Hlt|Hge].
  - destruct (_ || _); [by rewrite app_nil_r, take_ge by lia|]. rewrite IH by (rewrite length_app; cbn [length]; lia). by rewrite <- app_assoc.
  - rewrite take_app_le by lia. by rewrite take_ge by lia.
Qed.

Lemma fold_copy es : forall acc, len acc <= 255 ->
  fold_left (fun acc e => copy_chars (lfn_chars e) acc) es acc = take 255 (acc ++ concat (map (fun e => until_end (lfn_chars e)) es)).
Proof.
  induction es as [|e es IH]; intros acc Hl; cbn [fold_left map concat]; [by rewrite app_nil_r, take_ge by lia|].
  rewrite copy_chars_take by done. rewrite IH by (rewrite length_take; lia). rewrite (app_assoc acc).
  set (x := acc ++ _). destruct (decide (length x <= 255)%nat) as [Hx|Hx]; [by rewrite (take_ge x) by lia|].
  rewrite !take_app_le by (rewrite ?length_take; lia). by rewrite take_take, Nat.min_id.
Qed.

(** One entry holds 13 characters; the position moves 11 further. *)
Lemma make_lfn_chars wname cs ord pos : Forall name_char wname -> 0 <= pos <= len wname -> len wname <= 255 ->
  let '(e, pos') := make_lfn wname cs ord pos in
  until_end (lfn_chars e) = slice pos 13 wname /\ pos' = pos + Z.min 11 (len wname - pos).
Proof.
  intros HF Hp Hl. unfold make_lfn, lfn_chars. cbn [name0 name1 name2].
  destruct (lfn_part_rest wname 5 pos Hp) as [-> ->]. set (p1 := pos + _). assert (0 <= p1 <= len wname) as Hp1 by lia.
  destruct (lfn_part_rest wname 6 p1 Hp1) as [-> ->]. set (p2 := p1 + _). assert (0 <= p2 <= len wname) as Hp2 by lia.
  destruct (lfn_part_rest wname 2 p2 Hp2) as [-> _]. split; [|lia].
  assert (forall p q, 0 <= p -> p = Z.min (pos + Z.of_nat q) (len wname) -> drop (Z.to_nat p) wname = drop q (drop (Z.to_nat pos) wname)) as Hd.
  { intros p q Hp0 Hq. rewrite drop_drop. destruct (decide (pos + Z.of_nat q <= len wname)); [f_equal; lia|].
    by rewrite !drop_ge by lia. }
  rewrite (Hd p1 5%nat), (Hd p2 11%nat) by lia.
  pose proof (copy_three (drop (Z.to_nat pos) wname) [] ltac:(by apply Forall_drop) ltac:(rewrite length_drop; cbn; lia)) as K.
  rewrite copy_chars_take in K by (cbn; lia). cbn [app] in K. set (w := part_of _ 5 ++ _) in *.
  assert (length (until_end w) <= 13)%nat as L.
  { transitivity (length w); [|unfold w, part_of; by rewrite !length_app, !length_map, !length_seq]. generalize w. clear.
    intros w. induction w as [|c w IH]; [done|]. cbn [until_end]. destruct (_ || _); cbn [length]; lia. }
  rewrite take_ge in K by lia. exact K.
Qed.

(** What the readers collect: entry [k] holds the 13 characters from [11 * k]
    on. *)
Definition lfn_spelled (wname : list Z) : list Z :=
  take 255 (concat (map (fun k => slice (11 * Z.of_nat k) 13 wname) (seq 0 (Z.to_nat (countOfLFNEntries wname))))).

(** The entries of the loop, from the [i]th on: where they go and what they spell. *)
Lemma lfn_loop_spec wname cs base : Forall name_char wname -> len wname <= 255 ->
  let count := countOfLFNEntries wname in
  forall fuel i, 1 <= i <= count + 1 -> count < i + Z.of_nat fuel ->
  let es := lfn_loop fuel wname cs count base i (Z.min (11 * (i - 1)) (len wname)) in
  map fst es = map (fun k => base + (count - i) - Z.of_nat k) (seq 0 (Z.to_nat (count + 1 - i))) /\
  map (fun e => until_end (lfn_chars e)) (map snd es) =
    map (fun k => slice (11 * (i - 1 + Z.of_nat k)) 13 wname) (seq 0 (Z.to_nat (count + 1 - i))).
Proof.
  intros HF Hl count fuel. assert (13 * (count - 1) < len wname + 0 /\ len wname <= 13 * count) as Hcount
    by (unfold count, countOfLFNEntries; split; [destruct wname; cbn [length]; dlia|dlia]).
  induction fuel as [|fuel IH]; intros i Hi Hf es; unfold es; cbn [lfn_loop].
  { replace (Z.to_nat (count + 1 - i)) with O by lia. done. }
  destruct ((i <=? count) && (Z.min (11 * (i - 1)) (len wname) <? len wname)) eqn:E.
  - zbool. set (ord := if i =? 1 then _ else _). rewrite Z.min_l by lia.
    pose proof (make_lfn_chars wname cs ord (11 * (i - 1)) HF ltac:(lia) Hl) as K.
    destruct (make_lfn wname cs ord (11 * (i - 1))) as [e pos']. destruct K as [Ke ->].
    replace (11 * (i - 1) + Z.min 11 (len wname - 11 * (i - 1))) with (Z.min (11 * (i + 1 - 1)) (len wname)) by lia.
    destruct (IH (i + 1)) as [I1 I2]; [lia|lia|]. cbn [map fst snd]. rewrite I1, I2, Ke.
    replace (Z.to_nat (count + 1 - i)) with (S (Z.to_nat (count + 1 - (i + 1)))) by lia. cbn [seq map].
    rewrite <- seq_shift, !map_map. split; f_equal; [lia|apply map_ext; intros k; lia|do 2 f_equal; lia|].
    apply map_ext. intros k. do 2 f_equal. lia.
  - cbn [map]. assert (count + 1 - i = 0) as ->; [|done]. apply andb_false_iff in E as [E|E]; zbool; lia.
Qed.

Lemma lfn_part_words wname n pos : Forall name_char wname -> length (lfn_part wname n pos) = n /\ Forall word (lfn_part wname n pos).
Proof.
  intros HF. unfold lfn_part. split; [by rewrite length_map, length_seq|]. apply Forall_map. apply list.Forall_forall. intros i _. cbn zeta.
  destruct (_ <? _); [|destruct (_ && _); unfold word; lia].
  destruct (nth_in_or_default (Z.to_nat (pos + Z.of_nat i)) wname 0) as [Hin| ->]; [|unfold word; lia].
  apply list_elem_of_In in Hin. rewrite list.Forall_forall in HF. specialize (HF _ Hin). unfold name_char in HF. unfold word. lia.
Qed.

Lemma lfn_loop_ok wname cs count base : Forall name_char wname -> forall fuel i pos,
  Forall (fun e => lfn_ok e.2) (lfn_loop fuel wname cs count base i pos).
Proof.
  intros HF fuel. induction fuel as [|fuel IH]; intros i pos; cbn [lfn_loop]; [constructor|].
  destruct (_ && _); [|constructor]. unfold make_lfn. constructor; [|apply IH]. cbn [snd].
  pose proof (lfn_part_words wname) as K. split; cbn [name0 name1 name2 lfn_firstCluster].
  - repeat split; by apply K.
  - rewrite !list.Forall_app, list.Forall_singleton. repeat split; try by apply K. all: lia.
Qed.

Lemma rev_countdown base n :
  rev (map (fun k => base + (Z.of_nat n - 1) - Z.of_nat k) (seq 0 n)) = map (fun k => base + Z.of_nat k) (seq 0 n).
Proof.
  induction n as [|n IH]; [done|]. rewrite seq_S at 2. rewrite map_app, <- IH. cbn [seq map rev]. rewrite <- seq_shift, map_map.
  f_equal; [|cbn; f_equal; lia]. f_equal. apply map_ext. intros k. lia.
Qed.

Lemma lfn_name_ok (wname : list Z) (cs base : Z) :
  Forall name_char wname -> len wname <= 255 ->
  let es := lfn_entries wname cs base in
  map fst (rev es) = map (fun k => base + Z.of_nat k) (seq 0 (Z.to_nat (countOfLFNEntries wname))) /\
  lfn_name (map (fun e => bytes_lfn (lfn_bytes e.2)) (rev es)) = lfn_spelled wname.
Proof.
  intros HF Hl es. assert (0 <= countOfLFNEntries wname) as Hc by (unfold countOfLFNEntries; dlia).
  destruct (lfn_loop_spec wname cs base HF Hl (Z.to_nat (countOfLFNEntries wname)) 1 ltac:(lia) ltac:(lia)) as [K1 K2].
  rewrite Z.min_l in K1, K2 by lia. change (lfn_loop _ _ _ _ _ 1 (11 * (1 - 1))) with es in K1, K2.
  replace (countOfLFNEntries wname + 1 - 1) with (countOfLFNEntries wname) in K1, K2 by lia. split.
  - rewrite map_rev, K1, <- (rev_countdown base). f_equal. apply map_ext. intros k. lia.
  - assert (map (fun e => bytes_lfn (lfn_bytes e.2)) (rev es) = map snd (rev es)) as ->.
    { apply map_ext_in. intros e He%in_rev. apply bytes_lfn_bytes. pose proof (lfn_loop_ok wname cs (countOfLFNEntries wname) base HF
        (Z.to_nat (countOfLFNEntries wname)) 1 0) as K. rewrite list.Forall_forall in K. apply K. by apply list_elem_of_In. }
    unfold lfn_name. rewrite map_rev, rev_involutive, fold_copy, K2 by done. unfold lfn_spelled. cbn [app]. by do 2 f_equal.
Qed.

(** A name that fits one entry is spelled as it is; a longer one repeats two
    characters after the 13th. *)
Lemma spelled_short wname : len wname <= 13 -> lfn_spelled wname = wname.
Proof.
  intros Hl. unfold lfn_spelled, countOfLFNEntries. destruct (decide (wname = [])) as [->|Hne]; [done|].
  assert (0 < len wname) by (destruct wname; [done|cbn [length]; lia]).
  replace (Z.to_nat ((len wname + 12) / 13)) with 1%nat by dlia. cbn [seq map concat]. rewrite app_nil_r. unfold slice. change (drop (Z.to_nat (11 * Z.of_nat 0)) wname) with wname.
  rewrite (take_ge wname (Z.to_nat 13)) by lia. apply take_ge. lia.
Qed.

Lemma spelled_long wname : 13 < len wname <= 255 -> lfn_spelled wname !! 13%nat = wname !! 11%nat.
Proof.
  intros Hl. unfold lfn_spelled, countOfLFNEntries. rewrite lookup_take_lt by lia.
  replace (Z.to_nat ((len wname + 12) / 13)) with (S (S (Z.to_nat ((len wname + 12) / 13) - 2))) by dlia. cbn [seq map concat].
  rewrite lookup_app_r by (rewrite slice_length; lia). rewrite slice_length by lia.
  rewrite lookup_app_l by (unfold slice; rewrite length_take, length_drop; lia). unfold slice. rewrite lookup_take_lt by lia. by rewrite lookup_drop.
Qed.

(** C36: The directory entries of a long name, written and read back: the entries of a name of [n] units fill [(n + 12) / 13] places before the short entry, and a reader that collects them in the order in which they lie on the disk gets from entry [k] the 13 units from unit [11 * k] on (the position in the name is not moved behind the last two units of an entry), cut at 255. So a name of up to 13 units survives; in a longer one unit 11 comes back again as unit 13. *)
Theorem lfn_name_roundtrip (wname : list Z) (cs base : Z) :
  Forall name_char wname -> len wname <= 255 ->
  let es := lfn_entries wname cs base in
  let spelled := lfn_name (map (fun e => bytes_lfn (lfn_bytes e.2)) (rev es)) in
  map fst (rev es) = map (fun k => base + Z.of_nat k) (seq 0 (Z.to_nat ((len wname + 12) / 13))) /\
  spelled = take 255 (concat (map (fun k => slice (11 * Z.of_nat k) 13 wname) (seq 0 (Z.to_nat ((len wname + 12) / 13))))) /\
  (len wname <= 13 -> spelled = wname) /\ (13 < len wname -> spelled !! 13%nat = wname !! 11%nat).
Proof.
  intros HF Hl es spelled. destruct (lfn_name_ok wname cs base HF Hl) as [K1 K2]. split; [exact K1|]. unfold spelled, es. rewrite K2.
  split; [done|]. split; [apply spelled_short|]. intros H. by apply spelled_long.
Qed.

Lemma sfn_time_roundtrip_witness :
  let info := mkInfo [] 0 0 1709208931 0 1709208930 0 0 in
  exists info2, (e ← vfatFileInfoToSFN (bytes_sfn (replicate 32 0)) info; vfatSFNtoFileInfo e info) tt = Ok info2 tt /\
    createdTime info2 = 1709208930 /\ lastWriteTime info2 = 1709208930.
Proof.
  intros info. apply (sfn_time_roundtrip (bytes_sfn (replicate 32 0)) info info tt); unfold DOS_FIRST, DOS_END; cbn; lia.
Defined.

Lemma lfn_name_roundtrip_witness :
  let name n := map Z.of_nat (seq 65 n) in
  let spelled w := lfn_name (map (fun e => bytes_lfn (lfn_bytes e.2)) (rev (lfn_entries w 7 3))) in
  spelled (name 13%nat) = name 13%nat /\ spelled (name 14%nat) = name 13%nat ++ [76; 77; 78] /\ spelled (name 14%nat) !! 13%nat = Some 76.
Proof.
  intros name spelled. split; [|split].
  - apply (lfn_name_roundtrip (name 13%nat) 7 3); [repeat constructor; lia|cbn; lia|cbn; lia].
  - by vm_compute.
  - apply (lfn_name_roundtrip (name 14%nat) 7 3); [repeat constructor; lia|cbn; lia|cbn; lia].
Defined.
