(* ===== verification/Vfat.v ===== *)
(** The VFAT driver (drivers/vfat/main.c) below its directories: the file
    allocation table, the clusters of a file, reading and writing, and the
    layout [vfatMakeFS] and [vfatMount] agree on. A write to a file calls
    [xtReadFile] and [xtWriteFile] for its directory entry, on the object whose
    lock the caller holds; other locks are taken to be free, and events of the
    file objects are left out. *)
From Stdlib Require Import ZArith Lia.
From stdpp Require Import base tactics list functions numbers.
From S2P Require Import Prelude Bytes Time VfatEntry.

Open Scope Z_scope.

(** * Data *)

Definition EOC : Z := 0x0fffffff.

Definition SECTOR_SIZE : Z := 512.

Definition SECTORS_PER_CLUSTER : Z := 4.

Definition RESERVED_SECTORS : Z := 32.

Definition FAT_COUNT : Z := 2.

Record vfatFileData := mkFileData { index : Z; parentCluster : Z; firstCluster : Z }.

(** [rootDir] is the data of the file object of the root directory. *)
Record vfatFSData := mkFSData {
  fat_size_bytes : Z;
  sectors_per_cluster : Z;
  bytes_per_sector : Z;
  reserved_sectors : Z;
  data_offset : Z;
  rootDir : vfatFileData
}.

(** The fields of the boot sector the driver reads or computes. *)
Record fat32_ebpb := mkEbpb {
  bytes_per_logsector : Z;
  logsector_per_cluster : Z;
  count_reserved : Z;
  count_fat_tables : Z;
  total_sectors32 : Z;
  log_per_fat32 : Z;
  root_cluster : Z;
  log_fsinfo : Z;
  volume_id : Z
}.

(** * The size of the table *)

(** The test of the loop: is the table too small for the clusters that are left? *)
Definition fat_too_small (total_sectors reserved fats spc bps sectors_per_fat : Z) : bool :=
  let data_sectors := u32 (u32 (total_sectors - reserved) - u32 (fats * sectors_per_fat)) in
  let cluster_count := data_sectors / spc in
  u32 (u32 (cluster_count * 4) + bps - 1) / bps >? sectors_per_fat.

Fixpoint calc_fat_loop {S} (fuel : nat) (total_sectors reserved fats spc bps sectors_per_fat : Z) : M S Z :=
  let sectors_per_fat := u32 (sectors_per_fat + 1) in
  if fat_too_small total_sectors reserved fats spc bps sectors_per_fat then
    match fuel with O => nofuel | Datatypes.S fuel => calc_fat_loop fuel total_sectors reserved fats spc bps sectors_per_fat end
  else mret sectors_per_fat.

(** A division by 0 is a fault. *)
Definition calc_fat_size {S} (fuel : nat) (total_sectors reserved fats spc bps : Z) : M S Z :=
  if (spc =? 0) || (bps =? 0) then fault else calc_fat_loop fuel total_sectors reserved fats spc bps 0.

Section Vfat.
Context {D : Type} {B : BlockDevice D}.
Variable fs : vfatFSData.

(** * The table *)

Definition get_next_cluster (cluster : Z) : M D Z :=
  if cluster <? 2 then mret EOC
  else
    r ← attempt (dev_read (u32 (reserved_sectors fs * bytes_per_sector fs + cluster * 4)) 4);
    match r with
    | inl bs => mret (of_le (fill [0; 0; 0; 0] bs))
    | inr _ => mret EOC
    end.

Definition set_next_cluster (from to : Z) : M D Z :=
  if (from <? 2) || (to =? 0) || (to =? 1) then mret 0
  else
    let fat_offset := u32 (reserved_sectors fs * bytes_per_sector fs) in
    out_or 0 (dev_write (u32 (fat_offset + from * 4)) (le 4 to)) ;;;
    out_or 0 (dev_write (u32 (fat_offset + fat_size_bytes fs + from * 4)) (le 4 to)) ;;;
    mret 1.

(** A read that fails counts as a free entry. *)
Fixpoint free_loop (n : nat) (i : Z) : M D Z :=
  match n with
  | O => mret EOC
  | S n =>
    bs ← out_or [] (dev_read (u32 (bytes_per_sector fs * reserved_sectors fs + i * 4)) 4);
    if of_le (fill [0; 0; 0; 0] bs) =? 0 then mret i else free_loop n (i + 1)
  end.

Definition find_free_cluster : M D Z := free_loop (Z.to_nat (fat_size_bytes fs / 4 - 2)) 2.

(** * Reading *)

Definition cluster_size : Z := u32 (sectors_per_cluster fs * bytes_per_sector fs).

(** The walk to the cluster of the offset; [None] when the chain ends before. *)
Fixpoint seek (n : nat) (current_cluster : Z) : M D (option Z) :=
  match n with
  | O => mret (Some current_cluster)
  | S n =>
    next ← get_next_cluster current_cluster;
    if next =? EOC then mret None else seek n next
  end.

(** How much of the rest fits in the cluster. *)
Definition chunk (offset done count : Z) : Z :=
  let pos_in_cluster := u64 (offset + done) mod cluster_size in
  let to_write := cluster_size - pos_in_cluster in
  if to_write >? count - done then count - done else to_write.

(** In [vfatReadFile] all of this but the last addition is in 32 bits. *)
Definition read_offset (current_cluster pos_in_cluster : Z) : Z :=
  u64 (u32 (data_offset fs + u32 (current_cluster - 2) * cluster_size) + pos_in_cluster).

(** In [vfatWriteFile] the product is in 64 bits. *)
Definition write_offset (current_cluster pos_in_cluster : Z) : Z :=
  u64 (data_offset fs + u32 (current_cluster - 2) * cluster_size + pos_in_cluster).

Fixpoint read_loop (fuel : nat) (offset count current_cluster : Z) (acc : list Z) : M D (list Z) :=
  if len acc <? count then
    match fuel with
    | O => nofuel
    | S fuel =>
      let pos_in_cluster := u64 (offset + len acc) mod cluster_size in
      bs ← out_or [] (dev_read (read_offset current_cluster pos_in_cluster) (chunk offset (len acc) count));
      if len bs =? 0 then mret acc
      else if pos_in_cluster + len bs =? cluster_size then
        next ← get_next_cluster current_cluster;
        if next =? EOC then mret (acc ++ bs) else read_loop fuel offset count next (acc ++ bs)
      else read_loop fuel offset count current_cluster (acc ++ bs)
    end
  else mret acc.

(** The code that is returned, and the bytes that were read. *)
Definition vfatReadFile (file : vfatFileData) (offset count : Z) : M D (Z * list Z) :=
  if cluster_size =? 0 then fault
  else
    c ← seek (Z.to_nat (u32 (offset / cluster_size))) (firstCluster file);
    match c with
    | None => mret (XT_END_OF_FILE, [])
    | Some c =>
      bs ← read_loop (Z.to_nat count) offset count c [];
      mret (if len bs =? count then XT_SUCCESS else XT_END_OF_FILE, bs)
    end.

(** * Writing *)

(** The next cluster of a chain, which grows when it ends; [None] when the disk
    is full. *)
Definition next_or_new (current_cluster : Z) : M D (option Z) :=
  next ← get_next_cluster current_cluster;
  if next =? EOC then
    next ← find_free_cluster;
    if next =? EOC then mret None
    else
      set_next_cluster current_cluster next ;;;
      set_next_cluster next EOC ;;;
      mret (Some next)
  else mret (Some next).

Fixpoint seek_new (n : nat) (current_cluster : Z) : M D (option Z) :=
  match n with
  | O => mret (Some current_cluster)
  | S n =>
    next ← next_or_new current_cluster;
    match next with None => mret None | Some next => seek_new n next end
  end.

Fixpoint write_loop (fuel : nat) (data : list Z) (offset current_cluster bytes_written : Z) : M D (option Z) :=
  let count := len data in
  if bytes_written <? count then
    match fuel with
    | O => nofuel
    | S fuel =>
      let pos_in_cluster := u64 (offset + bytes_written) mod cluster_size in
      block_written ← out_or 0 (dev_write (write_offset current_cluster pos_in_cluster)
        (slice bytes_written (chunk offset bytes_written count) data));
      if block_written =? 0 then mret (Some bytes_written)
      else
        let bytes_written := bytes_written + block_written in
        if pos_in_cluster + block_written =? cluster_size then
          next ← next_or_new current_cluster;
          match next with
          | None => mret None
          | Some next => write_loop fuel data offset next bytes_written
          end
        else write_loop fuel data offset current_cluster bytes_written
    end
  else mret (Some bytes_written).

(** The two loops of [vfatWriteFile]; [None] when it returns [XT_END_OF_FILE]
    from inside. *)
Definition write_clusters (first offset : Z) (data : list Z) : M D (option Z) :=
  if cluster_size =? 0 then fault
  else
    c ← seek_new (Z.to_nat (u32 (offset / cluster_size))) first;
    match c with
    | None => mret None
    | Some c => write_loop (length data) data offset c 0
    end.

Definition ENTRY : Z := 32.

(** [xtReadFile] of one directory entry into a buffer. *)
Definition read_entry (dir : vfatFileData) (buf : list Z) (i : Z) : M D (list Z) :=
  '(_, bs) ← vfatReadFile dir (i * ENTRY) ENTRY;
  mret (fill buf bs).

(** The lock of the file object while its [WriteFile] runs. The tools for the
    host have locks that do nothing (tools/win32.c); in the kernel [xtWriteFile]
    holds the lock for writing (xtkernel/fs.c), and the object may be in the mode
    that does not wait. *)
Inductive FileLock := NoLock | WriteLocked (nonblock : bool).

(** [xtLockFile] by [xtReadFile] and [xtWriteFile] on that object: the thread
    that holds the lock for writing cannot get it again; it is refused or waits
    for itself. *)
Definition lock_again (l : FileLock) : M D unit :=
  match l with
  | NoLock => mret tt
  | WriteLocked true => throw XT_WOULD_BLOCK
  | WriteLocked false => nofuel
  end.

(** The entry of the file is updated through the parent's clusters; [now] is
    what [xtGetTime] gives. The results of the two calls are dropped, and the
    fields of [file] are as before afterwards. *)
Definition update_entry (l : FileLock) (file : vfatFileData) (size now : Z) : M D unit :=
  let dir := mkFileData (index file) EOC (parentCluster file) in
  b ← out_or (replicate 32 0) (lock_again l ;;; read_entry dir (replicate 32 0) (index file));
  let sfn := bytes_sfn b in
  if Z.land (sfn_attributes sfn) SUBDIR =? 0 then
    let sfn := if file_size sfn <? size then set_file_size (u32 size) sfn else sfn in
    tm ← out_or no_time (xtGetTimeFromUnix now);
    out_or tt (lock_again l ;;;
      write_clusters (firstCluster dir) (index file * ENTRY)
        (sfn_bytes (set_times (create_time sfn) (create_date sfn) (dos_time tm) (dos_date tm) sfn)) ;;;
      mret tt)
  else mret tt.

(** The code and [*written]. *)
Definition vfatWriteFile (l : FileLock) (file : vfatFileData) (data : list Z) (offset now : Z) : M D (Z * Z) :=
  w ← write_clusters (firstCluster file) offset data;
  match w with
  | None => mret (XT_END_OF_FILE, 0)
  | Some bytes_written =>
    (if parentCluster file =? EOC then mret tt else update_entry l file (offset + bytes_written) now) ;;;
    mret (if bytes_written =? len data then XT_SUCCESS else XT_END_OF_FILE, bytes_written)
  end.

End Vfat.

(** * Making and mounting *)

(** The boot sector: the fields above at their places, the constants the driver
    stores around them. *)
Definition ebpb_bytes (e : fat32_ebpb) : list Z :=
  [0xEB; 0x58; 0x90] ++ [77; 83; 87; 73; 78; 52; 46; 49] ++
  le 2 (bytes_per_logsector e) ++ le 1 (logsector_per_cluster e) ++ le 2 (count_reserved e) ++ le 1 (count_fat_tables e) ++
  le 2 0 ++ le 2 0 ++ [0xF8] ++ le 2 0 ++ le 2 0 ++ le 2 0 ++ le 4 0 ++ le 4 (total_sectors32 e) ++ le 4 (log_per_fat32 e) ++
  le 2 0 ++ le 2 0 ++ le 4 (root_cluster e) ++ le 2 (log_fsinfo e) ++ le 2 6 ++ replicate 12 0 ++ [0; 0; 0x29] ++
  le 4 (volume_id e) ++ [78; 79; 32; 78; 65; 77; 69; 32; 32; 32; 32] ++ [70; 65; 84; 51; 50; 32; 32; 32] ++
  replicate 420 0 ++ le 2 0xAA55.

Definition fsinfo_bytes : list Z :=
  le 4 0x41615252 ++ replicate 480 0 ++ le 4 0x61417272 ++ le 4 3 ++ le 4 0xFFFFFFFF ++ replicate 12 0 ++ le 4 0xAA550000.

(** [total_sectors] of the file system: what is left after the reserved sectors
    is rounded down to whole clusters. *)
Definition usable_sectors (sizeOfDisk : Z) : Z :=
  let total_sectors := u32 (sizeOfDisk / SECTOR_SIZE) in
  let data_sectors := u32 (total_sectors - RESERVED_SECTORS) in
  let remainder := data_sectors mod SECTORS_PER_CLUSTER in
  if remainder =? 0 then total_sectors else u32 (RESERVED_SECTORS + (data_sectors - remainder)).

Section Make.
Context {D : Type} {B : BlockDevice D}.

(** [xtWriteFile] with its result dropped. *)
Definition put_bytes (off : Z) (bs : list Z) : M D unit := out_or 0 (dev_write off bs) ;;; mret tt.

(** The first three entries of a table. *)
Definition write_fat (off : Z) : M D unit :=
  put_bytes off (le 4 0x0FFFFFF8) ;;;
  put_bytes (off + 4) (le 4 0x0FFFFFFF) ;;;
  put_bytes (off + 8) (le 4 0x0FFFFFFF).

(** [sizeOfDisk] is what [xtGetFileInfo] says, [random] what [xtGetRandomU64]
    gives. The rest of the tables and the root directory are not written. *)
Definition vfatMakeFS (fuel : nat) (sizeOfDisk random : Z) : M D unit :=
  let total_sectors := usable_sectors sizeOfDisk in
  fat_sz ← calc_fat_size fuel total_sectors RESERVED_SECTORS FAT_COUNT SECTORS_PER_CLUSTER SECTOR_SIZE;
  let ebpb := mkEbpb SECTOR_SIZE SECTORS_PER_CLUSTER RESERVED_SECTORS FAT_COUNT total_sectors fat_sz 2 1 (u32 random) in
  put_bytes 0 (ebpb_bytes ebpb) ;;;
  put_bytes (6 * SECTOR_SIZE) (ebpb_bytes ebpb) ;;;
  put_bytes SECTOR_SIZE fsinfo_bytes ;;;
  put_bytes (SECTOR_SIZE + 510) (le 2 0xAA55) ;;;
  let fat_bytes := u32 (fat_sz * SECTOR_SIZE) in
  write_fat (SECTOR_SIZE * RESERVED_SECTORS) ;;;
  write_fat (u32 (SECTOR_SIZE * RESERVED_SECTORS + fat_bytes)) ;;;
  put_bytes (u64 (sizeOfDisk - 1)) [0].

(** The objects are not freed when the boot sector cannot be read. *)
Definition vfatMount : M D vfatFSData :=
  b ← dev_read 0 512;
  let b := fill (replicate 512 0) b in
  let bps := of_le (slice 11 2 b) in
  let res := of_le (slice 14 2 b) in
  let fat_size := u32 (of_le (slice 36 4 b) * bps) in
  mret (mkFSData fat_size (of_le (slice 13 1 b)) bps res (u32 (of_le (slice 16 1 b) * fat_size + bps * res))
    (mkFileData 0 EOC (of_le (slice 44 4 b)))).

End Make.

(** * The size of the table is right *)

Section Fat_size.
Variables (total_sectors reserved fats spc bps : Z).
Hypothesis bounds : 0 <= reserved /\ 0 < fats /\ 0 < spc /\ 4 * fats <= bps /\ 4 <= bps /\ reserved + fats <= total_sectors /\
  4 * total_sectors + bps < 2 ^ 32.

(** Clusters left besides tables of [r] sectors, and the sectors their entries take. *)
Definition clusters (r : Z) : Z := (total_sectors - reserved - fats * r) / spc.

Definition entries_sectors (r : Z) : Z := (clusters r * 4 + bps - 1) / bps.

Lemma too_small_spec r : 0 < r -> fats * r <= total_sectors - reserved ->
  fat_too_small total_sectors reserved fats spc bps r = (entries_sectors r >? r).
Proof.
  intros Hr Hd. unfold fat_too_small, entries_sectors, clusters. destruct bounds as (H1 & H2 & H3 & H4 & H5 & H6 & H7).
  rewrite (u32_small (total_sectors - reserved)), (u32_small (fats * r)), (u32_small (total_sectors - reserved - fats * r)) by nia.
  set (d := total_sectors - reserved - fats * r). assert (0 <= d / spc <= d) as Hc by (split; [apply Z.div_pos; lia|apply Z.div_le_upper_bound; nia]).
  rewrite (u32_small (d / spc * 4)), u32_small by lia. done.
Qed.

(** A table that is too small leaves room for one more sector per table. *)
Lemma too_small_next r : 0 < r -> fats * r <= total_sectors - reserved -> entries_sectors r > r ->
  fats * (r + 1) <= total_sectors - reserved.
Proof.
  intros Hr Hd Ht. destruct bounds as (H1 & H2 & H3 & H4 & H5 & H6 & H7). unfold entries_sectors, clusters in Ht.
  set (d := total_sectors - reserved - fats * r) in *.
  assert (r + 1 <= (d / spc * 4 + bps - 1) / bps) as Ht' by lia.
  assert ((r + 1) * bps <= d / spc * 4 + bps - 1) as Hm.
  { pose proof (Z.mul_div_le (d / spc * 4 + bps - 1) bps ltac:(lia)). nia. }
  assert (spc * (d / spc) <= d) as Hq by (apply Z.mul_div_le; lia). assert (0 <= d / spc) by (apply Z.div_pos; lia).
  assert (d / spc <= d) by nia. subst d. nia.
Qed.

Lemma calc_fat_loop_ok {S} (s : S) : forall fuel r0, 0 <= r0 -> fats * (r0 + 1) <= total_sectors - reserved ->
  (Z.to_nat (total_sectors - reserved - fats * (r0 + 1)) <= fuel)%nat ->
  exists r, calc_fat_loop fuel total_sectors reserved fats spc bps r0 s = Ok r s /\
    r0 < r /\ fats * r <= total_sectors - reserved /\ entries_sectors r <= r /\ forall q, r0 < q < r -> entries_sectors q > q.
Proof.
  pose proof bounds as (H1 & H2 & H3 & H4 & H5 & H6 & H7).
  induction fuel as [|fuel IH]; intros r0 Hr Hd Hf; cbn [calc_fat_loop]; rewrite (u32_small (r0 + 1)) by nia;
    rewrite too_small_spec by lia; (destruct (entries_sectors (r0 + 1) >? r0 + 1) eqn:E; rewrite Z.gtb_ltb in E; zbool;
    [|exists (r0 + 1); split; [done|]; repeat split; try lia]); pose proof (too_small_next (r0 + 1) ltac:(lia) Hd ltac:(lia)).
  - nia.
  - destruct (IH (r0 + 1)) as (r & R & Q1 & Q2 & Q3 & Q4); [lia|lia|nia|].
    exists r. split; [done|]. split; [lia|]. split; [done|]. split; [done|]. intros q Hq.
    destruct (decide (q = r0 + 1)) as [->|]; [lia|apply Q4; lia].
Qed.

End Fat_size.

Lemma calc_fat_size_ok {S} (total_sectors reserved fats spc bps : Z) (s : S) :
  0 <= reserved -> 0 < fats -> 0 < spc -> 4 * fats <= bps -> reserved + fats <= total_sectors -> 4 * total_sectors + bps < 2 ^ 32 ->
  exists r, calc_fat_size (Z.to_nat total_sectors) total_sectors reserved fats spc bps s = Ok r s /\
    0 < r /\ reserved + fats * r <= total_sectors /\
    4 * ((total_sectors - reserved - fats * r) / spc) <= r * bps /\
    forall q, 0 < q < r -> q * bps < 4 * ((total_sectors - reserved - fats * q) / spc).
Proof.
  intros H1 H2 H3 H4 H6 H7.
  destruct (calc_fat_loop_ok total_sectors reserved fats spc bps ltac:(lia) s (Z.to_nat total_sectors) 0) as (r & R & Q1 & Q2 & Q3 & Q4); [lia|lia|lia|].
  exists r. split; [unfold calc_fat_size; rewrite !(proj2 (Z.eqb_neq _ _)) by lia; done|]. split; [done|]. split; [lia|].
  unfold entries_sectors, clusters in *. split.
  - set (c := (total_sectors - reserved - fats * r) / spc) in *. pose proof (Z.mul_div_le (c * 4 + bps - 1) bps ltac:(lia)).
    pose proof (Z.mod_pos_bound (c * 4 + bps - 1) bps ltac:(lia)). pose proof (Z.div_mod (c * 4 + bps - 1) bps ltac:(lia)). nia.
  - intros q Hq. specialize (Q4 q Hq). set (c := (total_sectors - reserved - fats * q) / spc) in *.
    pose proof (Z.mul_div_le (c * 4 + bps - 1) bps ltac:(lia)). nia.
Qed.

(** C37: [calc_fat_size], when four times the sectors and a sector's bytes more are below 2^32, ends and gives the smallest table with a word for each cluster that is left: the clusters beside tables of [r] sectors have their words in [r] sectors, and with any smaller table they do not. The two reserved words at the start of a table are not counted: as the clusters are numbered from 2, the last one or two may be without an entry (as in [last_clusters_without_entry]), but never more. *)
Theorem calc_fat_size_least {S} (total_sectors reserved fats spc bps : Z) (s : S) :
  0 <= reserved -> 0 < fats -> 0 < spc -> 4 * fats <= bps -> reserved + fats <= total_sectors -> 4 * total_sectors + bps < 2 ^ 32 ->
  exists r, calc_fat_size (Z.to_nat total_sectors) total_sectors reserved fats spc bps s = Ok r s /\
    0 < r /\ reserved + fats * r <= total_sectors /\
    4 * ((total_sectors - reserved - fats * r) / spc) <= r * bps /\
    forall q, 0 < q < r -> q * bps < 4 * ((total_sectors - reserved - fats * q) / spc).
Proof. apply calc_fat_size_ok. Qed.

(** A volume of 546 sectors: 128 clusters, the numbers 2 to 129, and a table of 128 words. *)
Example last_clusters_without_entry :
  calc_fat_size 546 546 32 2 4 512 tt = Ok 1 tt /\ (546 - 32 - 2 * 1) / 4 = 128 /\ 1 * 512 < 4 * (128 + 2).
Proof. by vm_compute. Qed.

Lemma calc_fat_size_least_witness :
  exists r, calc_fat_size (Z.to_nat 128) 128 32 2 4 512 tt = Ok r tt /\
    0 < r /\ 32 + 2 * r <= 128 /\
    4 * ((128 - 32 - 2 * r) / 4) <= r * 512 /\
    forall q, 0 < q < r -> q * 512 < 4 * ((128 - 32 - 2 * q) / 4).
Proof. apply (calc_fat_size_least 128 32 2 4 512 tt); lia. Defined.
