(* ===== verification/VfatData.v ===== *)
(** The contents of files of the VFAT driver: a volume as a table and a cluster
    for each number, a file as the clusters of its chain. *)
From Stdlib Require Import ZArith Lia.
From stdpp Require Import base tactics list functions numbers.
From S2P Require Import Prelude Bytes Time VfatEntry Vfat.

Open Scope Z_scope.

(** * The specification: a table and clusters *)

(** The layout of a volume whose device holds the clusters below [n]. *)
Record geometry (fs : vfatFSData) (n size : Z) : Prop := mkGeometry {
  g_cluster : 0 < sectors_per_cluster fs * bytes_per_sector fs < 2 ^ 32;
  g_reserved : 0 <= reserved_sectors fs * bytes_per_sector fs;
  g_tables : 0 <= fat_size_bytes fs /\
    reserved_sectors fs * bytes_per_sector fs + 2 * fat_size_bytes fs <= data_offset fs;
  g_clusters : 2 <= n <= fat_size_bytes fs / 4 /\ n <= EOC;
  g_end : data_offset fs + (n - 2) * (sectors_per_cluster fs * bytes_per_sector fs) <= size;
  g_words : data_offset fs + (n - 2) * (sectors_per_cluster fs * bytes_per_sector fs) < 2 ^ 32
}.

Definition entries (fs : vfatFSData) : Z := fat_size_bytes fs / 4.

Definition fat_at (fs : vfatFSData) (c : Z) : Z := reserved_sectors fs * bytes_per_sector fs + 4 * c.

Definition cluster_at (fs : vfatFSData) (c : Z) : Z := data_offset fs + (c - 2) * cluster_size fs.

(** The chain of a file: each cluster links to the next, the last one ends it. *)
Fixpoint chain (fat : Z -> Z) (cs : list Z) : Prop :=
  match cs with
  | [] => False
  | c :: t => match t with [] => fat c = EOC | c' :: _ => fat c = c' end /\ (t <> [] -> chain fat t)
  end.

Definition file_ok (n : Z) (fat : Z -> Z) (cs : list Z) : Prop :=
  chain fat cs /\ NoDup cs /\ Forall (fun c => 2 <= c < n) cs.

Definition content (clus : Z -> list Z) (cs : list Z) : list Z := concat (map clus cs).

(** No entry behind the last cluster of the device is free. *)
Definition guarded (fs : vfatFSData) (n : Z) (fat : Z -> Z) : Prop := forall c, n <= c < entries fs -> fat c <> 0.

(** The clusters of the device that are free. *)
Definition free_clusters (n : Z) (fat : Z -> Z) : Z := len (filter (fun c => fat c = 0) (seqZ 2 (n - 2))).

(** The search for a free entry stays inside the device [k] times. *)
Definition room (fs : vfatFSData) (n : Z) (fat : Z -> Z) (k : Z) : Prop := guarded fs n fat \/ k <= free_clusters n fat.

(** No entry of the table is free. *)
Definition table_full (fs : vfatFSData) (fat : Z -> Z) : Prop := forall c, 2 <= c < entries fs -> fat c <> 0.

(** A table in which the chain [cs] was extended by free clusters to [cs']. *)
Record grows (n : Z) (fat : Z -> Z) (cs : list Z) (fat' : Z -> Z) (cs' : list Z) : Prop := mkGrows {
  grows_file : file_ok n fat' cs';
  grows_new : exists new, cs' = cs ++ new /\ Forall (fun c => fat c = 0) new;
  grows_frame : forall c, c ∉ cs' -> fat' c = fat c
}.

Section Data.
Context {D : Type} {B : BlockDevice D} {W : Watch D}.
Variables (fs : vfatFSData) (n size : Z).
Hypothesis G : geometry fs n size.
Implicit Types (d : D) (fat : Z -> Z) (clus : Z -> list Z).

(** A device that holds a table and clusters, and is as it is watched to be. *)
Record vol d fat clus : Prop := mkVol {
  vol_size : len (dev_bytes d) = size;
  vol_watched : watched d;
  vol_fat : forall c, 2 <= c < entries fs -> of_le (slice (fat_at fs c) 4 (dev_bytes d)) = fat c;
  vol_clus : forall c, 2 <= c < n -> slice (cluster_at fs c) (cluster_size fs) (dev_bytes d) = clus c
}.

Notation csz := (cluster_size fs).

Lemma csz_eq : csz = sectors_per_cluster fs * bytes_per_sector fs.
Proof. unfold cluster_size. apply u32_small. pose proof (g_cluster _ _ _ G). lia. Qed.

Lemma csz_bounds : 0 < csz < 2 ^ 32.
Proof. rewrite csz_eq. apply (g_cluster _ _ _ G). Qed.

(** The places of the entries and of the clusters. *)
Lemma fat_place c : 2 <= c < entries fs ->
  0 <= fat_at fs c /\ fat_at fs c + 4 <= reserved_sectors fs * bytes_per_sector fs + fat_size_bytes fs /\
  fat_at fs c + fat_size_bytes fs + 4 <= data_offset fs /\ data_offset fs <= size /\ data_offset fs < 2 ^ 32.
Proof.
  pose proof (g_reserved _ _ _ G). pose proof (g_tables _ _ _ G). pose proof (g_end _ _ _ G). pose proof (g_words _ _ _ G).
  pose proof (g_clusters _ _ _ G). pose proof (g_cluster _ _ _ G). unfold fat_at, entries. intros Hc.
  assert (4 * c + 4 <= fat_size_bytes fs) by dlia. nia.
Qed.

Lemma cluster_place c : 2 <= c < n ->
  0 <= cluster_at fs c /\ data_offset fs <= cluster_at fs c /\ cluster_at fs c + csz <= size /\ cluster_at fs c + csz < 2 ^ 32.
Proof.
  pose proof (g_reserved _ _ _ G). pose proof (g_tables _ _ _ G). pose proof (g_end _ _ _ G). pose proof (g_words _ _ _ G).
  pose proof csz_bounds. unfold cluster_at. rewrite csz_eq in *. intros Hc. nia.
Qed.

Lemma cluster_small c : 2 <= c < n -> 0 <= c - 2 < 2 ^ 32 /\ 0 <= data_offset fs.
Proof.
  intros Hc. pose proof (cluster_place c Hc) as (_ & _ & _ & P). pose proof csz_bounds as [Hz _].
  pose proof (g_reserved _ _ _ G). pose proof (g_tables _ _ _ G). unfold cluster_at in P.
  assert (c - 2 <= (c - 2) * csz) by nia. lia.
Qed.

Lemma vol_clus_length d fat clus c : vol d fat clus -> 2 <= c < n -> len (clus c) = csz.
Proof.
  intros V Hc. rewrite <- (vol_clus _ _ _ V c Hc). pose proof (cluster_place c Hc). pose proof csz_bounds.
  pose proof (vol_size _ _ _ V). rewrite slice_length; lia.
Qed.

Lemma vol_next d fat clus c : vol d fat clus -> 2 <= c < entries fs -> get_next_cluster fs c d = Ok (fat c) d.
Proof.
  intros V Hc. unfold get_next_cluster. rewrite (proj2 (Z.ltb_ge c 2)) by lia.
  pose proof (fat_place c Hc) as (P1 & P2 & P3 & P4 & P5). pose proof (vol_size _ _ _ V).
  pose proof (g_tables _ _ _ G). unfold fat_at in *. rewrite (Z.mul_comm c 4), u32_small by lia.
  unfold attempt. unfold mbind, M_bind. rewrite dev_read_ok by lia. f_equal. rewrite fill_all; [by apply (vol_fat _ _ _ V)|].
  rewrite slice_length; [done|lia..].
Qed.

(** A write elsewhere. *)
Lemma vol_splice d fat clus off bs d' : vol d fat clus -> 0 <= off -> off + len bs <= size ->
  dev_bytes d' = splice off bs (dev_bytes d) ->
  len (dev_bytes d') = size /\
  (forall c, 2 <= c < entries fs -> off + len bs <= fat_at fs c \/ fat_at fs c + 4 <= off -> of_le (slice (fat_at fs c) 4 (dev_bytes d')) = fat c) /\
  (forall c, 2 <= c < n -> off + len bs <= cluster_at fs c \/ cluster_at fs c + csz <= off ->
     slice (cluster_at fs c) csz (dev_bytes d') = clus c).
Proof.
  intros V Ho Hl ->. pose proof (vol_size _ _ _ V) as Hs. pose proof csz_bounds. split; [|split].
  - by rewrite splice_length by lia.
  - intros c Hc Hd. rewrite slice_splice_ne by (pose proof (fat_place c Hc); lia). by apply (vol_fat _ _ _ V).
  - intros c Hc Hd. rewrite slice_splice_ne by (pose proof (cluster_place c Hc); lia). by apply (vol_clus _ _ _ V).
Qed.

Lemma vol_set d fat clus c v : vol d fat clus -> 2 <= c < entries fs -> 2 <= v < 2 ^ 32 ->
  exists d', set_next_cluster fs c v d = Ok 1 d' /\ vol d' (<[c := v]> fat) clus.
Proof.
  intros V Hc Hv. unfold set_next_cluster. rewrite (proj2 (Z.ltb_ge c 2)), !(proj2 (Z.eqb_neq v _)) by lia. cbn [orb].
  pose proof (fat_place c Hc) as (P1 & P2 & P3 & P4 & P5). pose proof (g_reserved _ _ _ G) as Hr. pose proof (vol_size _ _ _ V) as Hs.
  pose proof (g_tables _ _ _ G) as Ht.
  assert (len (le 4 v) = 4) as L4 by done.
  rewrite (u32_small (reserved_sectors fs * bytes_per_sector fs)) by lia.
  assert (u32 (reserved_sectors fs * bytes_per_sector fs + c * 4) = fat_at fs c) as -> by (unfold fat_at in *; rewrite u32_small; lia).
  assert (u32 (reserved_sectors fs * bytes_per_sector fs + fat_size_bytes fs + c * 4) = fat_at fs c + fat_size_bytes fs) as ->
    by (unfold fat_at in *; rewrite u32_small; lia).
  destruct (dev_write_ok d (fat_at fs c) (le 4 v)) as (d1 & W1 & B1); [lia|cbn [le length]; lia|lia|].
  rewrite (bind_Ok _ _ _ _ _ (out_or_Ok _ _ _ _ _ W1)).
  destruct (vol_splice d fat clus (fat_at fs c) (le 4 v) d1 V P1 ltac:(lia) B1) as (S1 & F1 & C1).
  destruct (dev_write_ok d1 (fat_at fs c + fat_size_bytes fs) (le 4 v)) as (d2 & W2 & B2); [lia|cbn [le length]; lia|lia|].
  rewrite (bind_Ok _ _ _ _ _ (out_or_Ok _ _ _ _ _ W2)). exists d2. split; [done|].
  assert (vol d1 (<[c := v]> fat) clus) as V1.
  { split; [done|eapply watched_write, W1; [apply V|lia|cbn [le length]; lia|lia]| |].
    - intros x Hx. destruct (decide (x = c)) as [->|Hne].
      + rewrite fn_lookup_insert, B1, <- L4, slice_splice_eq by lia. by apply of_le_small; cbn; lia.
      + rewrite fn_lookup_insert_ne by done. apply F1; [done|]. unfold fat_at. lia.
    - intros x Hx. apply C1; [done|]. pose proof (cluster_place x Hx). lia. }
  destruct (vol_splice d1 _ clus (fat_at fs c + fat_size_bytes fs) (le 4 v) d2 V1 ltac:(lia) ltac:(lia) B2) as (S2 & F2 & C2).
  split; [done|eapply watched_write, W2; [apply V1|lia|cbn [le length]; lia|lia]| |].
  - intros x Hx. apply F2; [done|]. pose proof (fat_place x Hx). unfold fat_at in *. lia.
  - intros x Hx. apply C2; [done|]. pose proof (cluster_place x Hx). lia.
Qed.

Lemma vol_read d fat clus c pos m : vol d fat clus -> 2 <= c < n -> 0 <= pos -> 0 < m -> pos + m <= csz ->
  dev_read (read_offset fs c pos) m d = Ok (slice pos m (clus c)) d.
Proof.
  intros V Hc Hp Hm Hl. pose proof (cluster_place c Hc) as (P1 & P2 & P3 & P4). pose proof (vol_size _ _ _ V). pose proof csz_bounds.
  pose proof (cluster_small c Hc) as [Hs Hd].
  assert (read_offset fs c pos = cluster_at fs c + pos) as ->.
  { unfold read_offset, cluster_at in *. rewrite (u32_small (c - 2)) by lia. rewrite (u32_small (_ + _)) by lia. rewrite u64_small; lia. }
  rewrite dev_read_ok by lia. f_equal. rewrite <- (vol_clus _ _ _ V c Hc). rewrite slice_slice by lia. done.
Qed.

Lemma vol_write d fat clus c pos bs : vol d fat clus -> 2 <= c < n -> 0 <= pos -> 0 < len bs -> pos + len bs <= csz ->
  exists d', dev_write (write_offset fs c pos) bs d = Ok (len bs) d' /\ vol d' fat (<[c := splice pos bs (clus c)]> clus).
Proof.
  intros V Hc Hp H0 Hl. pose proof (cluster_place c Hc) as (P1 & P2 & P3 & P4). pose proof (vol_size _ _ _ V) as Hs. pose proof csz_bounds.
  pose proof (cluster_small c Hc) as [Hsm Hd].
  assert (write_offset fs c pos = cluster_at fs c + pos) as ->.
  { unfold write_offset, cluster_at in *. rewrite (u32_small (c - 2)) by lia. rewrite u64_small; lia. }
  destruct (dev_write_ok d (cluster_at fs c + pos) bs) as (d1 & W1 & B1); [lia|lia|lia|]. exists d1. split; [done|].
  destruct (vol_splice d fat clus (cluster_at fs c + pos) bs d1 V ltac:(lia) ltac:(lia) B1) as (S1 & F1 & C1).
  split; [done|eapply watched_write, W1; [apply V|lia..]| |].
  - intros x Hx. apply F1; [done|]. pose proof (fat_place x Hx); pose proof (g_tables _ _ _ G). lia.
  - intros x Hx. destruct (decide (x = c)) as [->|Hne].
    + rewrite fn_lookup_insert, B1, slice_splice_within by lia. by rewrite (vol_clus _ _ _ V).
    + rewrite fn_lookup_insert_ne by done. apply C1; [done|]. unfold cluster_at. assert (x < c \/ c < x) by lia. nia.
Qed.

Lemma free_loop_ok d fat clus k : forall i, vol d fat clus -> 2 <= i -> i + Z.of_nat k <= entries fs ->
  exists f, free_loop fs k i d = Ok f d /\
    ((f = EOC /\ forall c, i <= c < i + Z.of_nat k -> fat c <> 0) \/
     (i <= f < i + Z.of_nat k /\ fat f = 0 /\ forall c, i <= c < f -> fat c <> 0)).
Proof.
  induction k as [|k IH]; intros i V Hi Hk; cbn [free_loop].
  { exists EOC. split; [done|]. left. split; [done|]. lia. }
  pose proof (fat_place i ltac:(lia)) as (P1 & P2 & P3 & P4 & P5). pose proof (vol_size _ _ _ V).
  pose proof (g_tables _ _ _ G).
  assert (u32 (bytes_per_sector fs * reserved_sectors fs + i * 4) = fat_at fs i) as -> by (unfold fat_at in *; rewrite u32_small; lia).
  assert (dev_read (fat_at fs i) 4 d = Ok (slice (fat_at fs i) 4 (dev_bytes d)) d) as R by (apply dev_read_ok; lia).
  rewrite (bind_Ok _ _ _ _ _ (out_or_Ok _ _ _ _ _ R)). rewrite fill_all by (rewrite slice_length; [done|lia..]).
  rewrite (vol_fat _ _ _ V) by lia. destruct (fat i =? 0) eqn:E; zbool.
  - exists i. split; [done|]. right. split; [lia|]. split; [done|lia].
  - destruct (IH (i + 1) V) as (f & R' & Hf); [lia|lia|]. exists f. split; [done|].
    assert (forall c, i <= c -> (i + 1 <= c -> fat c <> 0) -> fat c <> 0) as Hi1
      by (intros c Hc H2; destruct (decide (c = i)) as [->|]; [done|apply H2; lia]).
    destruct Hf as [[-> Hn]|(Hf1 & Hf2 & Hf3)]; [left|right; split; [lia|split; [done|]]]; [split; [done|]|]; intros c Hc; apply Hi1; try lia; intros H1;
      [apply Hn|apply Hf3]; lia.
Qed.

Lemma vol_free d fat clus : vol d fat clus ->
  exists f, find_free_cluster fs d = Ok f d /\
    ((f = EOC /\ table_full fs fat) \/ (2 <= f < entries fs /\ fat f = 0 /\ forall c, 2 <= c < f -> fat c <> 0)).
Proof.
  intros V. pose proof (g_clusters _ _ _ G) as Hc. fold (entries fs) in Hc.
  destruct (free_loop_ok d fat clus (Z.to_nat (entries fs - 2)) 2 V) as (f & R & Hf); [lia|lia|].
  exists f. split; [exact R|]. replace (2 + Z.of_nat (Z.to_nat (entries fs - 2))) with (entries fs) in Hf by lia. done.
Qed.

(** ** Chains *)

Lemma chain_cons fat c t : chain fat (c :: t) ->
  match t with [] => fat c = EOC | c' :: _ => fat c = c' /\ chain fat t end.
Proof. destruct t as [|c' t]; [by intros [? _]|]. intros [? H]. by eauto. Qed.

Lemma chain_same fat fat' cs : (forall c, c ∈ cs -> fat' c = fat c) -> chain fat cs -> chain fat' cs.
Proof.
  induction cs as [|c t IH]; [done|]. intros Hf H. apply chain_cons in H. cbn [chain]. rewrite Hf by left.
  destruct t as [|c' t]; [by split|]. destruct H as [-> H]. split; [done|]. intros _. apply IH; [|done]. intros x Hx. apply Hf. by right.
Qed.

Lemma chain_snoc fat cs c f : c ∉ cs -> f ∉ cs -> f <> c -> chain fat (cs ++ [c]) -> chain (<[f := EOC]> (<[c := f]> fat)) (cs ++ [c; f]).
Proof.
  intros Hc Hf Hn. induction cs as [|x t IH]; intros H.
  - cbn [app chain]. split; [by rewrite fn_lookup_insert_ne, fn_lookup_insert|]. intros _. split; [by rewrite fn_lookup_insert|done].
  - apply not_elem_of_cons in Hc as [Hcx Hc]. apply not_elem_of_cons in Hf as [Hfx Hf].
    change ((x :: t) ++ [c]) with (x :: (t ++ [c])) in H. apply chain_cons in H.
    change ((x :: t) ++ [c; f]) with (x :: (t ++ [c; f])). cbn [chain]. rewrite !fn_lookup_insert_ne by done.
    destruct t as [|y t]; cbn [app] in *; destruct H as [-> H]; (split; [done|]); intros _; by apply IH.
Qed.

Lemma content_length d fat clus cs : vol d fat clus -> Forall (fun c => 2 <= c < n) cs -> len (content clus cs) = len cs * csz.
Proof.
  intros V. induction 1 as [|c t Hc _ IH]; [done|]. unfold content in *. cbn [map concat length].
  rewrite length_app, !Nat2Z.inj_add, IH, (vol_clus_length d fat clus c V Hc). lia.
Qed.

Lemma content_app clus cs1 cs2 : content clus (cs1 ++ cs2) = content clus cs1 ++ content clus cs2.
Proof. unfold content. by rewrite map_app, concat_app. Qed.

Lemma content_frame clus clus' cs : (forall c, c ∈ cs -> clus' c = clus c) -> content clus' cs = content clus cs.
Proof. intros H. unfold content. f_equal. apply map_ext_in. intros c Hc. by apply H, list_elem_of_In. Qed.

(** A part of the contents that begins in a cluster. *)
Lemma slice_skip l1 l2 p m : 0 <= p -> slice (len l1 + p) m (l1 ++ l2) = slice p m l2.
Proof.
  intros Hp. unfold slice. replace (Z.to_nat (len l1 + p)) with (length l1 + Z.to_nat p)%nat by lia.
  by rewrite <- drop_drop, drop_app_length.
Qed.

(** ** Reading *)

(** How far the loops get in one round. *)
Lemma chunk_spec offset done count : 0 <= offset -> 0 <= done < count -> offset + count < 2 ^ 64 ->
  let pos := (offset + done) mod csz in
  u64 (offset + done) mod csz = pos /\ 0 <= pos < csz /\ chunk fs offset done count = Z.min (csz - pos) (count - done).
Proof.
  intros Ho Hd Hl pos. pose proof csz_bounds. unfold chunk. rewrite u64_small by lia. fold pos.
  pose proof (Z.mod_pos_bound (offset + done) csz ltac:(lia)) as Hp. fold pos in Hp. split; [done|]. split; [done|].
  destruct (_ >? _) eqn:E; rewrite Z.gtb_ltb in E; zbool; lia.
Qed.

Lemma read_loop_ok d fat clus offset count : vol d fat clus -> 0 <= offset -> offset + count < 2 ^ 64 ->
  forall fuel c post acc, chain fat (c :: post) -> Forall (fun c => 2 <= c < n) (c :: post) ->
    (Z.to_nat (count - len acc) <= fuel)%nat ->
    read_loop fs fuel offset count c acc d =
      Ok (acc ++ slice ((offset + len acc) mod csz) (count - len acc) (content clus (c :: post))) d.
Proof.
  intros V Ho Hc fuel. pose proof (g_clusters _ _ _ G) as Hnf. fold (entries fs) in Hnf.
  induction fuel as [|fuel IH]; intros c post acc Hch HF Hf; cbn [read_loop].
  { rewrite (proj2 (Z.ltb_ge _ _)) by lia. unfold slice. replace (Z.to_nat (count - len acc)) with O by lia.
    by rewrite take_0, app_nil_r. }
  destruct (len acc <? count) eqn:E; zbool.
  2:{ unfold slice. replace (Z.to_nat (count - len acc)) with O by lia. by rewrite take_0, app_nil_r. }
  pose proof HF as [Hcn HFp]%list.Forall_cons. pose proof (vol_clus_length d fat clus c V Hcn) as Lc.
  destruct (chunk_spec offset (len acc) count) as (P1 & P2 & P3); [lia|lia|lia|].
  rewrite P1, P3. set (pos := (offset + len acc) mod csz) in *. set (m := Z.min (csz - pos) (count - len acc)).
  rewrite (bind_Ok _ _ _ _ _ (out_or_Ok _ _ _ _ _ (vol_read d fat clus c pos m V Hcn ltac:(lia) ltac:(lia) ltac:(lia)))).
  assert (len (slice pos m (clus c)) = m) as Lm by (rewrite slice_length; lia). rewrite Lm.
  rewrite (proj2 (Z.eqb_neq m 0)) by lia.
  unfold content. cbn [map concat]. fold (content clus post).
  assert (forall k, 0 <= k -> slice pos (m + k) (clus c ++ content clus post) = slice pos m (clus c) ++ slice (pos + m) k (clus c ++ content clus post)) as Hsplit.
  { intros k Hk. rewrite slice_app by lia. f_equal. unfold slice. rewrite drop_app_le by lia. rewrite take_app_le; [done|rewrite length_drop; lia]. }
  destruct (pos + m =? csz) eqn:E2; zbool.
  - rewrite (bind_Ok _ _ _ _ _ (vol_next d fat clus c V ltac:(lia))). apply chain_cons in Hch.
    replace (count - len acc) with (m + (count - len acc - m)) by lia. rewrite Hsplit by lia.
    replace (pos + m) with (len (clus c) + 0) by lia. rewrite slice_skip by lia.
    destruct post as [|c' post].
    + rewrite Hch. rewrite Z.eqb_refl. unfold content. cbn [map concat]. by rewrite slice_nil, app_nil_r.
    + destruct Hch as [-> Hch]. pose proof HFp as [Hc' _]%list.Forall_cons.
      rewrite (proj2 (Z.eqb_neq c' EOC)).
      2:{ lia. }
      rewrite (IH c' post) by (done || (rewrite length_app; lia)). rewrite length_app, Nat2Z.inj_add, Lm.
      assert ((offset + (len acc + m)) mod csz = 0) as ->.
      { replace (offset + (len acc + m)) with (offset + len acc + m) by lia. rewrite <- Zplus_mod_idemp_l. fold pos. rewrite E2. apply Z_mod_same_full. }
      rewrite <- app_assoc. by replace (count - (len acc + m)) with (count - len acc - m) by lia.
  - rewrite (IH c post) by (done || (rewrite length_app; lia)). rewrite length_app, Nat2Z.inj_add, Lm.
    replace (count - (len acc + m)) with 0 by lia. replace (count - len acc) with m by lia.
    unfold slice at 2. cbn [take]. rewrite app_nil_r. do 2 f_equal. unfold slice. by rewrite drop_app_le, take_app_le by (rewrite ?length_drop; lia).
Qed.

Lemma seek_ok d fat clus : vol d fat clus -> forall k c t, chain fat (c :: t) -> Forall (fun c => 2 <= c < n) (c :: t) ->
  seek fs k c d = Ok ((c :: t) !! k) d.
Proof.
  intros V. pose proof (g_clusters _ _ _ G) as Hnf. fold (entries fs) in Hnf.
  induction k as [|k IH]; intros c t Hch HF; [done|]. cbn [seek].
  pose proof HF as [Hc HFt]%list.Forall_cons. rewrite (bind_Ok _ _ _ _ _ (vol_next d fat clus c V ltac:(lia))).
  apply chain_cons in Hch. destruct t as [|c' t].
  - rewrite Hch, Z.eqb_refl. done.
  - destruct Hch as [-> Hch]. pose proof HFt as [Hc' _]%list.Forall_cons. rewrite (proj2 (Z.eqb_neq c' EOC)) by lia. by apply IH.
Qed.

Lemma file_drop fat cs k c : file_ok n fat cs -> cs !! k = Some c ->
  exists post, cs = take k cs ++ c :: post /\ chain fat (c :: post) /\ Forall (fun c => 2 <= c < n) (c :: post).
Proof.
  intros (Hch & _ & HF) Hk. exists (drop (S k) cs). assert (cs = take k cs ++ c :: drop (S k) cs) as E by (symmetry; by apply take_drop_middle).
  split; [done|]. rewrite E in HF. apply list.Forall_app in HF as [_ HF]. split; [|done]. clear HF. rewrite E in Hch.
  revert Hch. generalize (take k cs) as l. generalize (drop (S k) cs) as post. clear. intros post l. induction l as [|x l IH]; [done|].
  change ((x :: l) ++ c :: post) with (x :: (l ++ c :: post)). intros H%chain_cons. apply IH. destruct l; cbn [app] in *; apply H.
Qed.

Lemma offset_split offset : 0 <= offset -> offset = offset / csz * csz + offset mod csz /\ 0 <= offset mod csz < csz.
Proof. pose proof csz_bounds. intros. pose proof (Z.div_mod offset csz ltac:(lia)). pose proof (Z.mod_pos_bound offset csz ltac:(lia)). lia. Qed.

(** [vfatReadFile] in terms of the contents. *)
Lemma vfat_read_ok d fat clus cs c0 f offset count : vol d fat clus -> file_ok n fat cs -> head cs = Some c0 -> firstCluster f = c0 ->
  0 <= offset -> 0 <= count -> offset + count < 2 ^ 64 -> offset / csz < 2 ^ 32 ->
  vfatReadFile fs f offset count d =
    Ok (if (offset <? len cs * csz) && (offset + count <=? len cs * csz) then XT_SUCCESS else XT_END_OF_FILE,
        slice offset count (content clus cs)) d.
Proof.
  intros V HFile Hhd <- Ho Hc Hoc Hq. pose proof csz_bounds. unfold vfatReadFile. rewrite (proj2 (Z.eqb_neq csz 0)) by lia.
  pose proof (Z.div_pos offset csz ltac:(lia) ltac:(lia)) as Hq0. rewrite u32_small by lia.
  destruct (offset_split offset Ho) as [Eo Hp]. set (q := offset / csz) in *. set (p := offset mod csz) in *.
  destruct cs as [|c0 t]; [done|]. injection Hhd as Hhd. pose proof HFile as (Hch & _ & HF). rewrite <- Hhd.
  rewrite (bind_Ok _ _ _ _ _ (seek_ok d fat clus V (Z.to_nat q) c0 t Hch HF)).
  pose proof (content_length d fat clus _ V HF) as Lc.
  destruct ((c0 :: t) !! Z.to_nat q) as [c|] eqn:Ek.
  - pose proof (lookup_lt_Some _ _ _ Ek) as Hlt. destruct (file_drop fat _ _ c HFile Ek) as (post & Ecs & Hch' & HF').
    rewrite (bind_Ok _ _ _ _ _ (read_loop_ok d fat clus offset count V Ho Hoc (Z.to_nat count) c post [] Hch' HF' ltac:(cbn; lia))).
    change (len []) with 0. rewrite app_nil_l, Z.add_0_r, Z.sub_0_r. fold p.
    assert (slice p count (content clus (c :: post)) = slice offset count (content clus (c0 :: t))) as ->.
    { rewrite Ecs, content_app. rewrite Eo. rewrite <- slice_skip with (l1 := content clus (take (Z.to_nat q) (c0 :: t))) by lia.
      do 2 f_equal. rewrite (content_length d fat clus) by (done || by apply Forall_take). rewrite length_take. lia. }
    do 2 f_equal. unfold mret, M_ret. assert (offset < len (c0 :: t) * csz) by nia. rewrite (proj2 (Z.ltb_lt offset _)) by done. cbn [andb].
    destruct (offset + count <=? len (c0 :: t) * csz) eqn:E; zbool.
    + rewrite slice_length by lia. by rewrite Z2Nat.id, Z.eqb_refl by lia.
    + rewrite (proj2 (Z.eqb_neq _ _)); [done|]. unfold slice. rewrite length_take, length_drop. lia.
  - apply lookup_ge_None in Ek. assert (len (c0 :: t) * csz <= offset) by nia. rewrite (proj2 (Z.ltb_ge offset _)) by done. cbn [andb].
    do 3 f_equal. unfold slice. rewrite drop_ge by lia. by rewrite take_nil.
Qed.

End Data.
