(* ===== verification/VfatWrite.v ===== *)
(** Writing to the files of the VFAT driver: what [vfatWriteFile] does to the
    contents of the file, to its directory entry and to every other file. *)
From Stdlib Require Import ZArith Lia.
From stdpp Require Import base tactics list functions numbers.
From S2P Require Import Prelude Bytes Time VfatEntry Vfat VfatData.

Open Scope Z_scope.

(** * Chains that grow *)

Section Grow.
Variables (fs : vfatFSData) (n : Z).
Implicit Types (fat : Z -> Z) (cs : list Z).

Lemma grows_refl fat cs : file_ok n fat cs -> grows n fat cs fat cs.
Proof. intros F. split; [done| |done]. exists []. by rewrite app_nil_r. Qed.

Lemma grows_trans fat cs fat1 cs1 fat2 cs2 :
  grows n fat cs fat1 cs1 -> grows n fat1 cs1 fat2 cs2 -> grows n fat cs fat2 cs2.
Proof.
  intros [F1 (new1 & -> & N1) Fr1] [F2 (new2 & -> & N2) Fr2]. split; [done| |].
  - exists (new1 ++ new2). split; [by rewrite app_assoc|]. apply list.Forall_app. split; [done|].
    apply list.Forall_forall. intros c Hc. rewrite list.Forall_forall in N2. rewrite <- Fr1; [by apply N2|].
    destruct F2 as (_ & Nd & _). apply list.NoDup_app in Nd as (_ & Nd & _). intros Hin. by apply (Nd c).
  - intros c Hc. rewrite Fr2 by done. apply Fr1. rewrite not_elem_of_app in Hc. tauto.
Qed.

Lemma file_nonzero fat cs c : file_ok n fat cs -> c ∈ cs -> fat c <> 0.
Proof.
  intros (Hch & _ & HF) Hc. induction cs as [|x t IH]; [by apply not_elem_of_nil in Hc|].
  apply chain_cons in Hch. apply list.Forall_cons in HF as [Hx HF]. apply elem_of_cons in Hc as [->|Hc].
  - destruct t as [|y t]; [by rewrite Hch|]. destruct Hch as [-> _]. apply list.Forall_cons in HF as [Hy _]. lia.
  - destruct t as [|y t]; [by apply not_elem_of_nil in Hc|]. apply IH; [apply Hch|done|done].
Qed.

Lemma grows_length fat cs fat' cs' : grows n fat cs fat' cs' -> len cs <= len cs'.
Proof. intros [_ (new & -> & _) _]. rewrite length_app. lia. Qed.

Lemma grows_guarded fat cs fat' cs' : grows n fat cs fat' cs' -> guarded fs n fat -> guarded fs n fat'.
Proof.
  intros [(_ & _ & HF) _ Fr] Gd c Hc. rewrite Fr; [by apply Gd|]. intros Hin. rewrite list.Forall_forall in HF. specialize (HF c Hin). lia.
Qed.

(** Each cluster that is taken costs one free cluster. *)
Lemma grows_free fat cs fat' cs' : file_ok n fat cs -> grows n fat cs fat' cs' ->
  free_clusters n fat <= free_clusters n fat' + (len cs' - len cs).
Proof.
  intros F [_ (new & -> & _) Fr]. unfold free_clusters.
  assert (length (filter (fun c => fat c = 0%Z) (seqZ 2%Z (n - 2)%Z)) <= length (new ++ filter (fun c => fat' c = 0%Z) (seqZ 2%Z (n - 2)%Z)))%nat as K.
  { apply submseteq_length, NoDup_submseteq; [apply list.NoDup_filter, NoDup_seqZ|]. intros c [H0 Hc]%list_elem_of_filter.
    apply elem_of_app. destruct (decide (c ∈ new)) as [|Hn]; [by left|right]. apply list_elem_of_filter. split; [|done].
    rewrite Fr; [done|]. intros [Hin|Hin]%elem_of_app; [|done]. by apply (file_nonzero fat cs c F Hin). }
  rewrite length_app in K. rewrite length_app. lia.
Qed.

Lemma room_le fat k k' : k' <= k -> room fs n fat k -> room fs n fat k'.
Proof. intros Hk [Gd|H]; [by left|right; lia]. Qed.

Lemma grows_room fat cs fat' cs' k : file_ok n fat cs -> grows n fat cs fat' cs' -> room fs n fat (k - len cs) -> room fs n fat' (k - len cs').
Proof. intros F Gr [Gd|H]; [left; by apply (grows_guarded fat cs fat' cs')|right]. pose proof (grows_free fat cs fat' cs' F Gr). lia. Qed.

(** Where there is room, the first free entry is one of a cluster of the device. *)
Lemma room_inside fat f : room fs n fat 1 -> fat f = 0 -> f < entries fs -> (forall c, 2 <= c < f -> fat c <> 0) -> f < n.
Proof.
  intros Hr Hf He Hmin. destruct (decide (f < n)) as [|Hge]; [done|exfalso]. destruct Hr as [Gd|Hc]; [by apply (Gd f); [lia|]|].
  unfold free_clusters in Hc. destruct (filter (fun c => fat c = 0) (seqZ 2 (n - 2))) as [|w l] eqn:E; [cbn in Hc; lia|].
  assert (w ∈ filter (fun c => fat c = 0) (seqZ 2 (n - 2))) as Hw by (rewrite E; left).
  apply list_elem_of_filter in Hw as [H0 Hw%elem_of_seqZ]. by apply (Hmin w); [lia|].
Qed.

(** Another file stays what it is. *)
Lemma grows_other fat cs fat' cs' fs2 : grows n fat cs fat' cs' -> file_ok n fat fs2 -> fs2 ## cs -> file_ok n fat' fs2 /\ fs2 ## cs'.
Proof.
  intros [_ (new & -> & N) Fr] F2 Hd. assert (fs2 ## cs ++ new) as Hd'.
  { intros c H2 [H|H]%elem_of_app; [by apply (Hd c)|]. rewrite list.Forall_forall in N. by apply (file_nonzero fat fs2 c F2), N. }
  split; [|done]. destruct F2 as (Hch & Nd & HF). split; [|by split]. apply (chain_same fat); [|done]. intros c Hc. apply Fr. intros H. by apply (Hd' c).
Qed.

End Grow.

Section Write.
Context {D : Type} {B : BlockDevice D} {W : Watch D}.
Variables (fs : vfatFSData) (n size : Z).
Hypothesis G : geometry fs n size.
Implicit Types (d : D) (fat : Z -> Z) (clus : Z -> list Z).
Notation csz := (cluster_size fs).
Notation vol := (vol fs n size).

(** * The next cluster *)

Lemma next_or_new_ok d fat clus cs pre c post : vol d fat clus -> file_ok n fat cs -> (post = [] -> room fs n fat 1) -> cs = pre ++ c :: post ->
  (post = [] /\ table_full fs fat /\ next_or_new fs c d = Ok None d) \/
  exists d' fat' cs' c' post', next_or_new fs c d = Ok (Some c') d' /\ vol d' fat' clus /\ grows n fat cs fat' cs' /\
    cs' = (pre ++ [c]) ++ c' :: post' /\ len cs' <= Z.max (len cs) (len pre + 2).
Proof.
  intros V F Gd E. pose proof (g_clusters _ _ _ G) as Hn. fold (entries fs) in Hn. pose proof F as (Hch & Nd & HF). rewrite E in *.
  apply list.Forall_app in HF as [_ [Hc HFp]%list.Forall_cons].
  unfold next_or_new. rewrite (bind_Ok _ _ _ _ _ (vol_next fs n size G d fat clus c V ltac:(lia))).
  destruct post as [|c' post'].
  - destruct (file_drop n fat (pre ++ [c]) (length pre) c F) as (post & E' & Hch' & _); [by rewrite lookup_app_r, Nat.sub_diag by done|].
    rewrite take_app_length in E'. apply app_inv_head in E'. injection E' as <-. apply chain_cons in Hch'. rewrite Hch', Z.eqb_refl.
    destruct (vol_free fs n size G d fat clus V) as (f & R & Hf). rewrite (bind_Ok _ _ _ _ _ R). destruct Hf as [[-> Hfull]|(Hf1 & Hf2 & Hf3)].
    + left. rewrite Z.eqb_refl. done.
    + assert (f < n) as Hfn by (apply (room_inside fs n fat f (Gd eq_refl) Hf2); [lia|done]).
      rewrite (proj2 (Z.eqb_neq f EOC)) by lia. right.
      destruct (vol_set fs n size G d fat clus c f V) as (d1 & R1 & V1); [lia|unfold EOC in *; lia|]. rewrite (bind_Ok _ _ _ _ _ R1).
      destruct (vol_set fs n size G d1 _ clus f EOC V1) as (d2 & R2 & V2); [lia|unfold EOC; lia|]. rewrite (bind_Ok _ _ _ _ _ R2).
      assert (f ∉ pre ++ [c]) as Hni by (intros Hin; by apply (file_nonzero n fat _ f F)).
      assert (c ∉ pre) as Hcp by (apply list.NoDup_app in Nd as (_ & Nd & _); intros H; by apply (Nd c H), list_elem_of_singleton).
      exists d2, (<[f := EOC]> (<[c := f]> fat)), (pre ++ [c; f]), f, []. split; [done|]. split; [done|].
      rewrite not_elem_of_app, list_elem_of_singleton in Hni. destruct Hni as [Hfp Hfc].
      split; [|split; [by rewrite <- app_assoc|rewrite !length_app; cbn [length]; lia]]. split.
      * split; [by apply chain_snoc|]. destruct F as (_ & _ & HF). change [c; f] with ([c] ++ [f]). rewrite app_assoc. split.
        -- apply list.NoDup_app. split; [done|]. split; [|apply NoDup_singleton]. intros x Hx ->%list_elem_of_singleton. apply elem_of_app in Hx as [?|?%list_elem_of_singleton]; [done|by subst].
        -- apply list.Forall_app. split; [done|]. apply list.Forall_singleton. lia.
      * exists [f]. split; [by rewrite <- app_assoc|]. by apply list.Forall_singleton.
      * intros x Hx. rewrite not_elem_of_app, !not_elem_of_cons in Hx. destruct Hx as (? & ? & ? & _). by rewrite !fn_lookup_insert_ne by done.
  - right. destruct (file_drop n fat (pre ++ c :: c' :: post') (length pre) c F) as (post & E' & Hch' & _); [by rewrite lookup_app_r, Nat.sub_diag by done|].
    rewrite take_app_length in E'. apply app_inv_head in E'. injection E' as <-. apply chain_cons in Hch' as [-> _].
    apply list.Forall_cons in HFp as [Hc' _]. rewrite (proj2 (Z.eqb_neq c' EOC)) by lia.
    exists d, fat, (pre ++ c :: c' :: post'), c', post'. split; [done|]. split; [done|]. split; [by apply grows_refl|].
    split; [by rewrite <- app_assoc|lia].
Qed.

(** [K] clusters are the most the chain grows to. *)
Lemma seek_new_ok K k : forall d fat clus cs pre c post, vol d fat clus -> file_ok n fat cs -> room fs n fat (K - len cs) -> cs = pre ++ c :: post ->
  len pre + 1 + Z.of_nat k <= K ->
  exists r d' fat' cs', seek_new fs k c d = Ok r d' /\ vol d' fat' clus /\ grows n fat cs fat' cs' /\ len cs' <= Z.max (len cs) K /\
    match r with
    | None => table_full fs fat' /\ len cs' <= len pre + Z.of_nat k
    | Some c' => exists pre' post', cs' = pre' ++ c' :: post' /\ len pre' = len pre + Z.of_nat k
    end.
Proof.
  induction k as [|k IH]; intros d fat clus cs pre c post V F Gd E HK; cbn [seek_new].
  { exists (Some c), d, fat, cs. split; [done|]. split; [done|]. split; [by apply grows_refl|]. split; [lia|]. exists pre, post. split; [done|lia]. }
  destruct (next_or_new_ok d fat clus cs pre c post V F) as [(-> & Hfull & R)|(d1 & fat1 & cs1 & c1 & post1 & R & V1 & G1 & E1 & L1)]; [|exact E| |].
  { intros ->. eapply room_le; [|exact Gd]. rewrite E, length_app. cbn [length]. lia. }
  all: rewrite (bind_Ok _ _ _ _ _ R).
  - exists None, d, fat, cs. split; [done|]. split; [done|]. split; [by apply grows_refl|]. split; [lia|]. split; [done|]. rewrite E, length_app. cbn [length]. lia.
  - destruct (IH d1 fat1 clus cs1 (pre ++ [c]) c1 post1 V1 (grows_file _ _ _ _ _ G1) (grows_room fs n fat cs fat1 cs1 K F G1 Gd) E1)
      as (r & d' & fat' & cs' & R' & V' & G' & L' & Hr); [rewrite length_app; cbn [length]; lia|].
    exists r, d', fat', cs'. split; [done|]. split; [done|]. split; [by eapply grows_trans|]. split; [lia|].
    rewrite length_app in Hr. cbn [length] in Hr. destruct r as [c'|].
    + destruct Hr as (pre' & post' & E' & L''). exists pre', post'. split; [done|lia].
    + split; [apply Hr|]. destruct Hr as [_ Hr]. lia.
Qed.

(** * Writing inside a chain *)

Lemma content_write clus pre c post p bs : (forall x, x ∈ pre -> len (clus x) = csz) -> c ∉ pre -> c ∉ post -> len (clus c) = csz ->
  0 <= p -> p + len bs <= csz ->
  content (<[c := splice p bs (clus c)]> clus) (pre ++ c :: post) = splice (len pre * csz + p) bs (content clus (pre ++ c :: post)).
Proof.
  intros Hl Hp Hq Lc Hp0 Hb. rewrite !content_app. unfold content at 2 4. cbn [map concat]. fold (content clus post).
  fold (content (<[c := splice p bs (clus c)]> clus) post). rewrite fn_lookup_insert.
  rewrite !(content_frame clus (<[c := splice p bs (clus c)]> clus)) by (intros x Hx; by rewrite fn_lookup_insert_ne by (intros ->; done)).
  replace (len pre * csz) with (len (content clus pre)); [by rewrite splice_mid by lia|].
  clear -Hl. induction pre as [|x pre IH]; [done|]. unfold content in *. cbn [map concat length].
  rewrite length_app, !Nat2Z.inj_add, IH by (intros y Hy; apply Hl; by right). rewrite (Hl x) by left. lia.
Qed.

(** What a write of [data] at [offset] that got to [w'] leaves, when it began
    with the file [cs] and [w] bytes were written before. *)
Definition wrote (offset : Z) (data : list Z) (w w' : Z) (fat : Z -> Z) (clus : Z -> list Z) (cs : list Z) (fat' : Z -> Z) (clus' : Z -> list Z) (cs' : list Z) : Prop :=
  grows n fat cs fat' cs' /\ (forall x, x ∉ cs' -> clus' x = clus x) /\ w <= w' <= len data /\
  (w < w' -> offset + w' <= len cs' * csz) /\
  content clus' cs' = splice (offset + w) (slice w (w' - w) data) (content clus cs').

Definition outcome (offset : Z) (data : list Z) (w' : Z) (r : option Z) (fat' : Z -> Z) (cs' : list Z) : Prop :=
  match r with
  | Some k => k = len data /\ w' = len data
  | None => table_full fs fat' /\ len cs' * csz <= offset + w'
  end.

Lemma position_split x q p : 0 < csz -> x = q * csz + p -> 0 <= p < csz -> x / csz = q /\ x mod csz = p.
Proof.
  intros Hc -> Hp. split.
  - symmetry. apply (Z.div_unique _ _ q p); lia.
  - symmetry. apply (Z.mod_unique _ _ q p); lia.
Qed.

Lemma wrote_trans offset data w w1 w2 fat clus cs clus1 fat1 cs1 fat2 clus2 cs2 : 0 <= offset -> 0 <= w ->
  wrote offset data w w1 fat clus cs fat1 clus1 cs1 -> wrote offset data w1 w2 fat1 clus1 cs1 fat2 clus2 cs2 ->
  content clus1 cs2 = splice (offset + w) (slice w (w1 - w) data) (content clus cs2) ->
  len (content clus cs2) = len cs2 * csz ->
  wrote offset data w w2 fat clus cs fat2 clus2 cs2.
Proof.
  intros Ho Hw (G1 & Fr1 & B1 & L1 & _) (G2 & Fr2 & B2 & L2 & C2) C1 LC. pose proof (csz_bounds fs n size G).
  destruct (grows_new _ _ _ _ _ G2) as (new & E2 & _).
  assert (len cs1 <= len cs2) as Hlen by (rewrite E2, length_app; lia).
  split; [by eapply grows_trans|]. split; [|split; [lia|split]].
  - intros x Hx. rewrite Fr2 by done. apply Fr1. rewrite E2, not_elem_of_app in Hx. tauto.
  - intros Hlt. destruct (decide (w1 < w2)); [by apply L2|]. specialize (L1 ltac:(lia)). nia.
  - rewrite C2, C1. destruct (decide (w1 = w2)) as [<-|].
    { rewrite Z.sub_diag. unfold slice at 1. cbn [take]. by rewrite splice_nil. }
    assert (len (slice w (w1 - w) data) = w1 - w) as S1 by (rewrite slice_length; lia).
    assert (len (slice w1 (w2 - w1) data) = w2 - w1) as S2 by (rewrite slice_length; lia).
    replace (offset + w1) with (offset + w + len (slice w (w1 - w) data)) by lia.
    rewrite splice_splice by (specialize (L2 ltac:(lia)); lia). f_equal.
    replace (w2 - w) with ((w1 - w) + (w2 - w1)) by lia. rewrite slice_app by lia. f_equal. f_equal. lia.
Qed.

Lemma file_parts fat cs pre c post : file_ok n fat cs -> cs = pre ++ c :: post ->
  (forall x, x ∈ pre -> 2 <= x < n) /\ 2 <= c < n /\ c ∉ pre /\ c ∉ post.
Proof.
  intros (_ & Nd & HF) ->. apply list.Forall_app in HF as [HF1 [Hc _]%list.Forall_cons]. apply list.NoDup_app in Nd as (_ & Nd & [Hp _]%list.NoDup_cons).
  split; [by apply list.Forall_forall|]. split; [done|]. split; [|done]. intros H. apply (Nd c H). by left.
Qed.

(** The round that writes [m] bytes into the cluster [c]. *)
Lemma write_round offset data d fat clus cs pre c post w pos m : vol d fat clus -> file_ok n fat cs -> cs = pre ++ c :: post ->
  0 <= offset -> 0 <= w -> offset + w = len pre * csz + pos -> 0 <= pos -> 0 < m -> pos + m <= csz -> w + m <= len data ->
  exists d1 clus1, dev_write (write_offset fs c pos) (slice w m data) d = Ok m d1 /\ vol d1 fat clus1 /\
    wrote offset data w (w + m) fat clus cs fat clus1 cs /\
    forall post2, c ∉ post2 -> content clus1 (pre ++ c :: post2) = splice (offset + w) (slice w m data) (content clus (pre ++ c :: post2)).
Proof.
  intros V F E Ho Hw Hpos Hp Hm Hpm Hl. destruct (file_parts fat cs pre c post F E) as (Hpre & Hc & Hcp & Hcq).
  assert (len (slice w m data) = m) as Lm by (rewrite slice_length; lia).
  destruct (vol_write fs n size G d fat clus c pos (slice w m data) V Hc Hp ltac:(lia) ltac:(lia)) as (d1 & R & V1). rewrite Lm in R.
  exists d1, (<[c := splice pos (slice w m data) (clus c)]> clus). split; [done|]. split; [done|].
  assert (forall post2, c ∉ post2 -> content (<[c := splice pos (slice w m data) (clus c)]> clus) (pre ++ c :: post2) =
    splice (offset + w) (slice w m data) (content clus (pre ++ c :: post2))) as Hcont.
  { intros post2 Hq. rewrite Hpos. apply content_write; [|done|done|by eapply vol_clus_length|done|lia].
    intros x Hx. by eapply vol_clus_length, Hpre. }
  split; [|done]. split; [by apply grows_refl|]. split; [|split; [lia|split]].
  - intros x Hx. rewrite fn_lookup_insert_ne; [done|]. intros <-. apply Hx. rewrite E. apply elem_of_app. right. by left.
  - intros _. rewrite E, length_app. cbn [length]. pose proof (csz_bounds fs n size G). nia.
  - replace (w + m - w) with m by lia. rewrite E. by apply Hcont.
Qed.

Lemma write_loop_end offset data fuel d fat clus cs c w : vol d fat clus -> file_ok n fat cs -> len data <= w -> 0 <= w <= len data ->
  write_loop fs fuel data offset c w d = Ok (Some w) d /\ wrote offset data w w fat clus cs fat clus cs /\ outcome offset data w (Some w) fat cs.
Proof.
  intros V F Hw Hw2. split.
  { destruct fuel; cbn [write_loop]; rewrite (proj2 (Z.ltb_ge _ _)) by lia; done. }
  split; [|split; lia]. split; [by apply grows_refl|]. split; [done|]. split; [lia|]. split; [lia|].
  rewrite Z.sub_diag. unfold slice. cbn [take]. by rewrite splice_nil.
Qed.

(** The clusters a chain has when it can hold what ends at [e], and the next cluster if that is a cluster's end. *)
Definition chain_for (e : Z) : Z := e / csz + 1.

Lemma write_loop_ok offset data : 0 <= offset -> offset + len data < 2 ^ 64 ->
  forall fuel d fat clus cs pre c post w, vol d fat clus -> file_ok n fat cs -> room fs n fat (chain_for (offset + len data) - len cs) -> cs = pre ++ c :: post ->
    len pre = (offset + w) / csz -> 0 <= w <= len data -> (Z.to_nat (len data - w) <= fuel)%nat ->
    exists r d' fat' clus' cs' w', write_loop fs fuel data offset c w d = Ok r d' /\ vol d' fat' clus' /\
      wrote offset data w w' fat clus cs fat' clus' cs' /\ outcome offset data w' r fat' cs' /\ len cs' <= Z.max (len cs) (chain_for (offset + len data)).
Proof.
  intros Ho Hc fuel. pose proof (csz_bounds fs n size G) as Hz.
  induction fuel as [|fuel IH]; intros d fat clus cs pre c post w V F Gd E Hq Hw Hf.
  { destruct (write_loop_end offset data 0 d fat clus cs c w V F) as (R & W0 & O); [lia|lia|]. exists (Some w), d, fat, clus, cs, w. repeat (split; [done|]). lia. }
  destruct (decide (len data <= w)) as [Hge|Hlt].
  { destruct (write_loop_end offset data (S fuel) d fat clus cs c w V F) as (R & W0 & O); [lia|lia|]. exists (Some w), d, fat, clus, cs, w. repeat (split; [done|]). lia. }
  cbn [write_loop]. rewrite (proj2 (Z.ltb_lt _ _)) by lia.
  destruct (chunk_spec fs n size G offset w (len data)) as (P1 & P2 & P3); [lia|lia|lia|]. rewrite P1, P3.
  pose proof (Z.div_mod (offset + w) csz ltac:(lia)) as Hdm. rewrite <- Hq in Hdm.
  set (pos := (offset + w) mod csz) in *. set (m := Z.min (csz - pos) (len data - w)).
  destruct (write_round offset data d fat clus cs pre c post w pos m V F E) as (d1 & clus1 & R1 & V1 & W1 & C1); [lia..|].
  rewrite (bind_Ok _ _ _ _ _ (out_or_Ok _ _ _ _ _ R1)). rewrite (proj2 (Z.eqb_neq m 0)) by lia.
  assert (len pre <= chain_for (offset + len data) - 1) as Hpre by (unfold chain_for; rewrite Hq; pose proof (Z.div_le_mono (offset + w) (offset + len data) csz ltac:(lia) ltac:(lia)); lia).
  destruct (pos + m =? csz) eqn:E2; zbool.
  - assert (len pre + 1 <= chain_for (offset + len data) - 1) as Hpre1.
    { unfold chain_for. enough (len pre + 1 <= (offset + len data) / csz) by lia. apply Z.div_le_lower_bound; nia. }
    destruct (next_or_new_ok d1 fat clus1 cs pre c post V1 F) as [(-> & Hfull & R2)|(d2 & fat2 & cs2 & c2 & post2 & R2 & V2 & G2 & E3 & L3)]; [|exact E| |].
    { intros ->. eapply room_le; [|exact Gd]. rewrite E, length_app. cbn [length]. lia. }
    all: rewrite (bind_Ok _ _ _ _ _ R2).
    + exists None, d1, fat, clus1, cs, (w + m). split; [done|]. split; [done|]. split; [done|]. split; [|lia]. split; [done|].
      rewrite E, length_app. cbn [length]. nia.
    + pose proof (grows_file _ _ _ _ _ G2) as F2.
      destruct (IH d2 fat2 clus1 cs2 (pre ++ [c]) c2 post2 (w + m) V2 F2 (grows_room fs n fat cs fat2 cs2 _ F G2 Gd) E3)
        as (r & d' & fat' & clus' & cs' & w' & R' & V' & W' & O' & L').
      { rewrite length_app. cbn [length]. destruct (position_split (offset + (w + m)) (len pre + 1) 0) as [-> _]; nia. }
      { lia. }
      { lia. }
      exists r, d', fat', clus', cs', w'. split; [done|]. split; [done|]. split; [|split; [done|lia]].
      assert (grows n fat2 cs2 fat' cs') as G' by apply W'.
      eapply (wrote_trans offset data w (w + m) w' fat clus cs clus1 fat2 cs2); [done|lia| |exact W'| |].
      * destruct W1 as (_ & Fr & Bd & Ln & _). split; [done|].
        rewrite <- app_assoc in E3. cbn [app] in E3.
        destruct (file_parts fat2 cs2 pre c (c2 :: post2) F2 E3) as (_ & _ & _ & Hcq). split; [|split; [lia|split]].
        -- intros x Hx. apply Fr. destruct (grows_new _ _ _ _ _ G2) as (new & E4 & _). rewrite E4, not_elem_of_app in Hx. tauto.
        -- intros Hlt'. specialize (Ln Hlt'). pose proof (grows_length n _ _ _ _ G2). nia.
        -- rewrite E3. replace (w + m - w) with m by lia. by apply C1.
      * destruct (grows_new _ _ _ _ _ G') as (new & E4 & _). rewrite <- app_assoc in E3. cbn [app] in E3.
        pose proof (grows_file _ _ _ _ _ G') as F'. rewrite E4, E3, <- app_assoc in *. cbn [app] in *.
        replace (w + m - w) with m by lia. apply C1. by destruct (file_parts fat' _ pre c _ F' eq_refl) as (_ & _ & _ & ?).
      * eapply content_length; [exact G|exact V|]. apply (grows_file _ _ _ _ _ G').
  - assert (w + m = len data) as Hend by lia.
    destruct (IH d1 fat clus1 cs pre c post (w + m) V1 F Gd E) as (r & d' & fat' & clus' & cs' & w' & R' & V' & W' & O' & L').
    { destruct (position_split (offset + (w + m)) (len pre) (pos + m)) as [-> _]; nia. }
    { lia. }
    { lia. }
    exists r, d', fat', clus', cs', w'. split; [done|]. split; [done|]. split; [|done].
    eapply (wrote_trans offset data w (w + m) w'); [done|lia|exact W1|exact W'| |].
    + destruct (grows_new _ _ _ _ _ (proj1 W')) as (new & E4 & _). pose proof (grows_file _ _ _ _ _ (proj1 W')) as F'.
      rewrite E4, E, <- app_assoc in *. cbn [app] in *. replace (w + m - w) with m by lia. apply C1.
      by destruct (file_parts fat' _ pre c _ F' eq_refl) as (_ & _ & _ & ?).
    + eapply content_length; [exact G|exact V|]. apply (grows_file _ _ _ _ _ (proj1 W')).
Qed.

(** [write_clusters]: the bytes that were written are spliced into the contents,
    and only a full table stops it. *)
Lemma write_clusters_ok d fat clus cs c0 offset data : vol d fat clus -> file_ok n fat cs -> room fs n fat (chain_for (offset + len data) - len cs) -> head cs = Some c0 ->
  0 <= offset -> offset + len data < 2 ^ 64 -> offset / csz < 2 ^ 32 ->
  exists r d' fat' clus' cs' w', write_clusters fs c0 offset data d = Ok r d' /\ vol d' fat' clus' /\
    wrote offset data 0 w' fat clus cs fat' clus' cs' /\ outcome offset data w' r fat' cs' /\ len cs' <= Z.max (len cs) (chain_for (offset + len data)).
Proof.
  intros V F Gd Hh Ho Hl Hq. pose proof (csz_bounds fs n size G) as Hz. unfold write_clusters. rewrite (proj2 (Z.eqb_neq csz 0)) by lia.
  pose proof (Z.div_pos offset csz ltac:(lia) ltac:(lia)). rewrite u32_small by lia.
  destruct cs as [|c t]; [done|]. injection Hh as ->.
  pose proof (Z.div_le_mono offset (offset + len data) csz ltac:(lia) ltac:(lia)) as Hm.
  destruct (seek_new_ok (chain_for (offset + len data)) (Z.to_nat (offset / csz)) d fat clus (c0 :: t) [] c0 t V F Gd eq_refl)
    as (r & d1 & fat1 & cs1 & R & V1 & G1 & L1 & Hr); [unfold chain_for; cbn [length]; lia|].
  rewrite (bind_Ok _ _ _ _ _ R). destruct r as [c1|].
  - destruct Hr as (pre' & post' & E' & L').
    destruct (write_loop_ok offset data Ho Hl (length data) d1 fat1 clus cs1 pre' c1 post' 0 V1 (grows_file _ _ _ _ _ G1)
      (grows_room fs n fat (c0 :: t) fat1 cs1 _ F G1 Gd) E')
      as (r & d' & fat' & clus' & cs' & w' & R' & V' & W' & O' & L2); [rewrite Z.add_0_r; cbn in L'; lia|lia|lia|].
    exists r, d', fat', clus', cs', w'. split; [done|]. split; [done|]. split; [|split; [done|lia]]. destruct W' as (G' & W'). split; [by eapply grows_trans|done].
  - exists None, d1, fat1, clus, cs1, 0. split; [done|]. split; [done|]. split; [|split; [|done]].
    + split; [done|]. split; [done|]. split; [lia|]. split; [lia|]. rewrite Z.sub_diag. unfold slice. cbn [take]. by rewrite splice_nil.
    + split; [apply Hr|]. destruct Hr as [_ Hr]. cbn in Hr. pose proof (Z.mul_div_le offset csz ltac:(lia)). nia.
Qed.

(** * The whole write *)

(** The entry [e] of a file after a write that ended at [size] at the time [tm]. *)
Definition entry_after (size : Z) (tm : XTTime) (e : sfn_dir_entry) : sfn_dir_entry :=
  set_times (create_time e) (create_date e) (dos_time tm) (dos_date tm) (set_file_size (Z.max (file_size e) size) e).

(** The directory [dcs] has an entry with the index [i]. *)
Record entry_ok (i : Z) (dcs : list Z) : Prop := mkEntryOk {
  entry_index : 0 <= i /\ i * ENTRY + ENTRY < 2 ^ 32;
  entry_inside : i * ENTRY + ENTRY <= len dcs * csz
}.

Definition entry_of (i : Z) clus (dcs : list Z) : list Z := slice (i * ENTRY) ENTRY (content clus dcs).

Lemma read_entry_ok d fat clus dcs dir i : vol d fat clus -> file_ok n fat dcs -> head dcs = Some (firstCluster dir) -> entry_ok i dcs ->
  read_entry fs dir (replicate 32 0) i d = Ok (entry_of i clus dcs) d.
Proof.
  intros V F Hh [Hi Hin]. pose proof (csz_bounds fs n size G) as Hz. unfold ENTRY in *. unfold read_entry, ENTRY.
  assert (i * 32 / csz < 2 ^ 32) as Hq by (apply Z.div_lt_upper_bound; nia).
  rewrite (bind_Ok _ _ _ _ _ (vfat_read_ok fs n size G d fat clus dcs (firstCluster dir) dir (i * 32) 32 V F Hh eq_refl
    ltac:(lia) ltac:(lia) ltac:(lia) Hq)).
  unfold mret, M_ret. f_equal. apply fill_all. pose proof F as (_ & _ & HF). pose proof (content_length fs n size G d fat clus dcs V HF).
  unfold entry_of, ENTRY. by rewrite slice_length by lia.
Qed.

Lemma entry_length d fat clus dcs i : vol d fat clus -> file_ok n fat dcs -> entry_ok i dcs -> length (entry_of i clus dcs) = 32%nat.
Proof.
  intros V (_ & _ & HF) [Hi Hin]. unfold entry_of, ENTRY in *. pose proof (content_length fs n size G d fat clus dcs V HF).
  by rewrite slice_length by lia.
Qed.

Lemma entry_after_length sz tm b : length b = 32%nat -> len (sfn_bytes (entry_after sz tm (bytes_sfn b))) = 32.
Proof.
  intros L. unfold sfn_bytes. rewrite !length_app, !le_length. unfold entry_after, set_times, set_file_size, bytes_sfn. cbn [sfn_name sfn_ext].
  rewrite !slice_length by lia. done.
Qed.

Lemma update_entry_ok d fat clus dcs f sz now : vol d fat clus -> file_ok n fat dcs -> room fs n fat (chain_for (index f * ENTRY + ENTRY) - len dcs) ->
  head dcs = Some (parentCluster f) -> entry_ok (index f) dcs -> 0 <= sz < 2 ^ 32 -> 0 <= now < 2 ^ 37 ->
  exists d' fat' clus' dcs' tm, update_entry fs NoLock f sz now d = Ok tt d' /\ vol d' fat' clus' /\ grows n fat dcs fat' dcs' /\
    valid_date tm /\ moment_seconds tm = now /\ (forall x, x ∉ dcs' -> clus' x = clus x) /\
    content clus' dcs' =
      let e := bytes_sfn (entry_of (index f) clus dcs) in
      if Z.land (sfn_attributes e) SUBDIR =? 0 then splice (index f * ENTRY) (sfn_bytes (entry_after sz tm e)) (content clus dcs')
      else content clus dcs'.
Proof.
  intros V F Gd Hh He Hsz Hnow. unfold update_entry, lock_again. pose proof (csz_bounds fs n size G) as Hz.
  erewrite bind_Ok; [|exact (out_or_Ok _ _ _ _ _ (read_entry_ok d fat clus dcs (mkFileData (index f) EOC (parentCluster f)) (index f) V F Hh He))].
  set (b := entry_of (index f) clus dcs). pose proof (entry_length d fat clus dcs (index f) V F He) as Lb. fold b in Lb.
  destruct (get_time_spec now d ltac:(lia)) as (tm & Htm & Hval & Hmom & _).
  destruct (Z.land (sfn_attributes (bytes_sfn b)) SUBDIR =? 0) eqn:Ea.
  2:{ exists d, fat, clus, dcs, tm. split; [done|]. split; [done|]. split; [by apply grows_refl|]. done. }
  rewrite (bind_Ok _ _ _ _ _ (out_or_Ok _ _ _ _ _ Htm)).
  match goal with |- context [write_clusters _ _ _ ?w] => replace w with (sfn_bytes (entry_after sz tm (bytes_sfn b))) end.
  2:{ unfold entry_after. f_equal. destruct (file_size (bytes_sfn b) <? sz) eqn:El; zbool; [rewrite u32_small by lia; by rewrite Z.max_r by lia|].
      by rewrite Z.max_l by lia. }
  pose proof (entry_after_length sz tm b Lb) as Ln. destruct He as [Hi Hin]. unfold ENTRY in *.
  destruct (write_clusters_ok d fat clus dcs (parentCluster f) (index f * 32) (sfn_bytes (entry_after sz tm (bytes_sfn b))) V F ltac:(by rewrite Ln) Hh)
    as (r & d' & fat' & clus' & dcs' & w' & R & V' & W' & O' & _); [lia|lia|apply Z.div_lt_upper_bound; nia|].
  destruct W' as (G' & Fr & Bd & Lw & C). exists d', fat', clus', dcs', tm.
  split; [apply out_or_Ok; rewrite bind_ret; by rewrite (bind_Ok _ _ _ _ _ R)|]. split; [done|]. split; [done|]. split; [done|]. split; [done|]. split; [done|]. cbn zeta.
  assert (w' = 32) as ->.
  { destruct r as [k|]; destruct O' as [O1 O']; [lia|]. pose proof (grows_length n _ _ _ _ G'). nia. }
  rewrite C, Z.add_0_r, Z.sub_0_r. f_equal. rewrite <- Ln. apply slice_all.
Qed.

(** With the lock held the entry cannot be had, and nothing is written. *)
Lemma update_entry_locked d f sz now nonblock : 0 <= now < 2 ^ 37 ->
  update_entry fs (WriteLocked nonblock) f sz now d = if nonblock then Ok tt d else OutOfFuel.
Proof.
  intros Hnow. unfold update_entry, lock_again. destruct nonblock; [|done].
  erewrite bind_Ok by (unfold out_or; reflexivity). change (Z.land (sfn_attributes (bytes_sfn (replicate 32 0))) SUBDIR =? 0) with true. cbv iota.
  destruct (get_time_spec now d ltac:(lia)) as (tm & Htm & _). rewrite (bind_Ok _ _ _ _ _ (out_or_Ok _ _ _ _ _ Htm)). by unfold out_or.
Qed.

(** The clusters a chain needs to hold what ends at [e]. *)
Definition needed (cs : list Z) (e : Z) : Z := Z.max 0 (chain_for e - len cs).

(** [vfatWriteFile] of a file in a directory. *)
Record written (l : FileLock) fat clus cs dcs (f : vfatFileData) (offset : Z) (data : list Z) (now : Z)
    (r : Z * Z) (fat' : Z -> Z) (clus' : Z -> list Z) (cs' dcs' : list Z) : Prop := mkWritten {
  written_file : file_ok n fat' cs' /\ file_ok n fat' dcs' /\ cs' ## dcs';
  written_prefix : cs `prefix_of` cs' /\ dcs `prefix_of` dcs';
  written_content :
    (exists tm, r = (XT_SUCCESS, len data) /\ valid_date tm /\ moment_seconds tm = now /\ (0 < len data -> offset + len data <= len cs' * csz) /\
       content clus' cs' = splice offset data (content clus cs') /\
       match l with
       | NoLock => content clus' dcs' = let e := bytes_sfn (entry_of (index f) clus dcs) in
           if Z.land (sfn_attributes e) SUBDIR =? 0
           then splice (index f * ENTRY) (sfn_bytes (entry_after (offset + len data) tm e)) (content clus dcs')
           else content clus dcs'
       | WriteLocked _ => dcs' = dcs /\ content clus' dcs = content clus dcs
       end) \/
    (exists w', r = (XT_END_OF_FILE, 0) /\ table_full fs fat' /\ free_clusters n fat < needed cs (offset + len data) /\
       0 <= w' <= len data /\ len cs' * csz <= offset + w' /\
       content clus' cs' = splice offset (take (Z.to_nat w') data) (content clus cs') /\
       dcs' = dcs /\ content clus' dcs = content clus dcs);
  written_others : forall ocs, file_ok n fat ocs -> ocs ## cs -> ocs ## dcs -> file_ok n fat' ocs /\ content clus' ocs = content clus ocs
}.

Lemma disjoint_content clus clus' cs ocs : (forall x, x ∉ cs -> clus' x = clus x) -> ocs ## cs -> content clus' ocs = content clus ocs.
Proof. intros Fr Hd. apply content_frame. intros x Hx. apply Fr. intros H. by apply (Hd x). Qed.

Lemma full_none fat : table_full fs fat -> free_clusters n fat = 0.
Proof.
  intros Hf. unfold free_clusters. destruct (filter (fun c => fat c = 0) (seqZ 2 (n - 2))) as [|x l] eqn:E; [done|exfalso].
  assert (x ∈ filter (fun c => fat c = 0) (seqZ 2 (n - 2))) as Hx by (rewrite E; left).
  apply list_elem_of_filter in Hx as [H0 Hx%elem_of_seqZ]. pose proof (g_clusters _ _ _ G) as Hn. fold (entries fs) in Hn. apply (Hf x); [lia|done].
Qed.

(** What the call gives, with the lock of the file object. *)
Definition finished (l : FileLock) (r : Z * Z) (d : D) : Prelude.outcome D (Z * Z) :=
  match l with
  | WriteLocked false => if r.1 =? XT_SUCCESS then OutOfFuel else Ok r d
  | _ => Ok r d
  end.

Lemma vfat_write_ok l d fat clus cs dcs f offset data now :
  vol d fat clus -> file_ok n fat cs -> file_ok n fat dcs -> cs ## dcs ->
  head cs = Some (firstCluster f) -> head dcs = Some (parentCluster f) -> entry_ok (index f) dcs ->
  room fs n fat (needed cs (offset + len data) + needed dcs (index f * ENTRY + ENTRY)) ->
  0 <= offset -> offset + len data < 2 ^ 32 -> 0 <= now < 2 ^ 37 ->
  exists r d' fat' clus' cs' dcs', vfatWriteFile fs l f data offset now d = finished l r d' /\ vol d' fat' clus' /\
    written l fat clus cs dcs f offset data now r fat' clus' cs' dcs'.
Proof.
  intros V F Fd Hdis Hh Hhd He Gd Ho Hl Hnow. pose proof (csz_bounds fs n size G) as Hz. unfold vfatWriteFile.
  destruct (write_clusters_ok d fat clus cs (firstCluster f) offset data V F ltac:(eapply room_le; [|exact Gd]; unfold needed; lia) Hh Ho)
    as (r & d1 & fat1 & clus1 & cs1 & w1 & R1 & V1 & W1 & O1 & N1); [lia|apply Z.div_lt_upper_bound; nia|].
  rewrite (bind_Ok _ _ _ _ _ R1). destruct W1 as (G1 & Fr1 & B1 & L1 & C1). rewrite Z.add_0_r, Z.sub_0_r in C1.
  pose proof (grows_file _ _ _ _ _ G1) as F1.
  assert (dcs ## cs) as Hdis' by (intros x H1 H2; by apply (Hdis x)).
  destruct (grows_other n fat cs fat1 cs1 dcs G1 Fd Hdis') as [Fd1 Hd1].
  pose proof (disjoint_content clus clus1 cs1 dcs Fr1 Hd1) as Cd1. destruct (grows_new _ _ _ _ _ G1) as (new & E1 & _).
  destruct r as [k|].
  - destruct O1 as [-> ->]. assert (parentCluster f <> EOC) as Hp.
    { destruct dcs as [|x dcs]; [done|]. injection Hhd as <-. destruct Fd as (_ & _ & [Hx _]%list.Forall_cons). pose proof (g_clusters _ _ _ G). lia. }
    rewrite (proj2 (Z.eqb_neq (parentCluster f) EOC) Hp), Z.eqb_refl. destruct l as [|nonblock].
    + assert (room fs n fat1 (chain_for (index f * ENTRY + ENTRY) - len dcs)) as Gd1.
      { apply (room_le fs n fat1 (len cs1 + (chain_for (index f * ENTRY + ENTRY) - len dcs) - len cs1)); [lia|].
        apply (grows_room fs n fat cs fat1 cs1 _ F G1). eapply room_le; [|exact Gd]. unfold needed in *. lia. }
      destruct (update_entry_ok d1 fat1 clus1 dcs f (offset + len data) now V1 Fd1 Gd1 Hhd He ltac:(lia) Hnow)
        as (d2 & fat2 & clus2 & dcs2 & tm & R2 & V2 & G2 & Hval & Hmom & Fr2 & C2).
      rewrite (bind_Ok _ _ _ _ _ R2). pose proof (grows_file _ _ _ _ _ G2) as F2.
      destruct (grows_other n fat1 dcs fat2 dcs2 cs1 G2 F1) as [F1' Hd2]; [intros x H1 H2; by apply (Hd1 x)|].
      destruct (grows_new _ _ _ _ _ G2) as (newd & E2 & _).
      exists (XT_SUCCESS, len data), d2, fat2, clus2, cs1, dcs2. split; [done|]. split; [done|]. split.
      * done.
      * split; [exists new|exists newd]; done.
      * left. exists tm. split; [done|]. split; [done|]. split; [done|]. split; [done|].
        assert (content clus1 dcs2 = content clus dcs2) as Ed by (apply (disjoint_content _ _ cs1); [done|intros x H1 H2; by apply (Hd2 x)]).
        rewrite (disjoint_content clus1 clus2 dcs2 cs1 Fr2 Hd2), C1. split; [f_equal; apply slice_all|].
        rewrite C2. unfold entry_of. by rewrite Cd1, Ed.
      * intros ocs Fo H1 H2. destruct (grows_other n fat cs fat1 cs1 ocs G1 Fo H1) as [Fo1 Hd3].
        destruct (grows_other n fat1 dcs fat2 dcs2 ocs G2 Fo1 H2) as [Fo2 Hd4]. split; [done|].
        by rewrite (disjoint_content clus1 clus2 dcs2 ocs Fr2 Hd4), (disjoint_content clus clus1 cs1 ocs Fr1 Hd3).
    + destruct (get_time_spec now d1 ltac:(lia)) as (tm & _ & Hval & Hmom & _).
      exists (XT_SUCCESS, len data), d1, fat1, clus1, cs1, dcs. split; [|split; [done|]].
      { unfold mbind, M_bind. rewrite update_entry_locked by done. by destruct nonblock. }
      split.
      * split; [done|]. split; [done|]. intros x H1 H2. by apply (Hd1 x).
      * split; [by exists new|done].
      * left. exists tm. split; [done|]. split; [done|]. split; [done|]. split; [done|]. rewrite C1. split; [f_equal; apply slice_all|done].
      * intros ocs Fo H1 H2. destruct (grows_other n fat cs fat1 cs1 ocs G1 Fo H1) as [Fo1 Hd3]. split; [done|].
        apply (disjoint_content _ _ cs1); done.
  - destruct O1 as [Hfull Hend]. exists (XT_END_OF_FILE, 0), d1, fat1, clus1, cs1, dcs. split; [by destruct l as [|[]]|]. split; [done|]. split.
    + split; [done|]. split; [done|]. intros x H1 H2. by apply (Hd1 x).
    + split; [by exists new|done].
    + right. exists w1. split; [done|]. split; [done|]. split; [|split; [lia|split; [lia|by split]]].
      pose proof (grows_free n fat cs fat1 cs1 F G1) as Hfree. rewrite (full_none fat1 Hfull) in Hfree.
      assert (len cs1 <= (offset + len data) / csz) as Hq by (apply Z.div_le_lower_bound; nia). unfold needed, chain_for. lia.
    + intros ocs Fo H1 H2. destruct (grows_other n fat cs fat1 cs1 ocs G1 Fo H1) as [Fo1 Hd3]. split; [done|].
      apply (disjoint_content _ _ cs1); done.
Qed.

End Write.

(** * Theorems *)

Section Theorems.
Context {D : Type} {B : BlockDevice D} {W : Watch D}.

(** On a volume whose chains are sound, [vfatReadFile] gives the part of the file's clusters that was asked for, cut at the end of the last cluster, and says [XT_SUCCESS] exactly when all of it is there; the size in the directory entry plays no part. The device is not changed. *)
Theorem vfat_read_contents (fs : vfatFSData) (n size : Z) (d : D) (fat : Z -> Z) (clus : Z -> list Z) (cs : list Z) (f : vfatFileData) (offset count : Z) :
  geometry fs n size -> vol fs n size d fat clus -> file_ok n fat cs -> head cs = Some (firstCluster f) ->
  0 <= offset -> 0 <= count -> offset + count < 2 ^ 32 ->
  vfatReadFile fs f offset count d =
    Ok (if (offset <? len cs * cluster_size fs) && (offset + count <=? len cs * cluster_size fs) then XT_SUCCESS else XT_END_OF_FILE,
        slice offset count (content clus cs)) d.
Proof.
  intros G V F Hh Ho Hc Hl. pose proof (csz_bounds fs n size G). apply (vfat_read_ok fs n size G d fat clus cs (firstCluster f)); try done; [lia|].
  apply Z.div_lt_upper_bound; nia.
Qed.

(** C3: [vfatWriteFile] on a sound volume, for a write that ends below 4 GB. The free entries the file and its directory may need are ones of clusters on the device (the table has enough of them, or no free entry behind them). Either all bytes are in the file's clusters at the offset, the chain having grown by free clusters as needed, or no entry of the table is free, which happens only when there were fewer free clusters than the file needs: then everything up to the end of the chain was written, the directory entry is as before, and the call returns [XT_END_OF_FILE]. After a complete write the directory entry is updated by calls that take the lock of the file again: without locks (the host's tools) the entry has the larger size and the new time, and the call returns [XT_SUCCESS]; when the caller holds the lock for writing, as [xtWriteFile] of the kernel does, an object that does not wait keeps its old entry, and any other waits for itself: the call never returns. No other file of the volume changes in any case. *)
Theorem vfat_write_file (fs : vfatFSData) (n size : Z) (l : FileLock) (d : D) (fat : Z -> Z) (clus : Z -> list Z) (cs dcs : list Z) (f : vfatFileData)
    (offset : Z) (data : list Z) (now : Z) :
  geometry fs n size -> vol fs n size d fat clus -> file_ok n fat cs -> file_ok n fat dcs -> cs ## dcs ->
  head cs = Some (firstCluster f) -> head dcs = Some (parentCluster f) -> entry_ok fs (index f) dcs ->
  room fs n fat (needed fs cs (offset + len data) + needed fs dcs (index f * ENTRY + ENTRY)) ->
  0 <= offset -> offset + len data < 2 ^ 32 -> 0 <= now < 2 ^ 37 ->
  exists r d' fat' clus' cs' dcs', vol fs n size d' fat' clus' /\
    written fs n l fat clus cs dcs f offset data now r fat' clus' cs' dcs' /\
    vfatWriteFile fs l f data offset now d = match l with
      | NoLock | WriteLocked true => Ok r d'
      | WriteLocked false => if r.1 =? XT_SUCCESS then OutOfFuel else Ok r d'
      end.
Proof.
  intros G V F Fd Hdis Hh Hhd He Gd Ho Hl Hnow.
  destruct (vfat_write_ok fs n size G l d fat clus cs dcs f offset data now V F Fd Hdis Hh Hhd He Gd Ho Hl Hnow)
    as (r & d' & fat' & clus' & cs' & dcs' & R & V' & W'). exists r, d', fat', clus', cs', dcs'. split; [done|]. split; [done|]. by rewrite R; destruct l as [|[]].
Qed.

(** C11: What was written is read back, and every other file reads as before, whether the write succeeded or not; when it did not succeed the table has no free entry. The volume is as for C3, and the caller does not hold the lock of a file object that waits (with which the call does not return). *)
Theorem vfat_read_after_write (fs : vfatFSData) (n size : Z) (l : FileLock) (d : D) (fat : Z -> Z) (clus : Z -> list Z) (cs dcs : list Z) (f : vfatFileData)
    (offset : Z) (data : list Z) (now : Z) :
  geometry fs n size -> vol fs n size d fat clus -> file_ok n fat cs -> file_ok n fat dcs -> cs ## dcs ->
  head cs = Some (firstCluster f) -> head dcs = Some (parentCluster f) -> entry_ok fs (index f) dcs ->
  room fs n fat (needed fs cs (offset + len data) + needed fs dcs (index f * ENTRY + ENTRY)) ->
  0 <= offset -> offset + len data < 2 ^ 32 -> 0 <= now < 2 ^ 37 -> data <> [] -> l <> WriteLocked false ->
  exists code written d', vfatWriteFile fs l f data offset now d = Ok (code, written) d' /\
    (needed fs cs (offset + len data) <= free_clusters n fat -> code = XT_SUCCESS) /\
    (code = XT_SUCCESS -> vfatReadFile fs f offset (len data) d' = Ok (XT_SUCCESS, data) d') /\
    (code <> XT_SUCCESS -> find_free_cluster fs d' = Ok EOC d') /\
    forall g ocs o k, file_ok n fat ocs -> ocs ## cs -> ocs ## dcs -> head ocs = Some (firstCluster g) ->
      0 <= o -> 0 <= k -> o + k < 2 ^ 32 ->
      exists out, vfatReadFile fs g o k d = Ok out d /\ vfatReadFile fs g o k d' = Ok out d'.
Proof.
  intros G V F Fd Hdis Hh Hhd He Gd Ho Hl Hnow Hne Hlock.
  destruct (vfat_write_ok fs n size G l d fat clus cs dcs f offset data now V F Fd Hdis Hh Hhd He Gd Ho Hl Hnow)
    as ([code w] & d' & fat' & clus' & cs' & dcs' & R & V' & [(F' & Fd' & _) [[new E] _] C Oth]).
  pose proof (csz_bounds fs n size G) as Hz. exists code, w, d'. split; [by rewrite R; destruct l as [|[]]|]. split; [|split; [|split]].
  - intros Hfree. destruct C as [(tm & C & _)|(w' & _ & _ & C & _)]; [by injection C as -> _|lia].
  - intros ->. destruct C as [(tm & _ & _ & _ & Hin & C & _)|(w' & C & _)]; [|discriminate].
    assert (head cs' = Some (firstCluster f)) as Hh' by (rewrite E; by destruct cs).
    rewrite (vfat_read_ok fs n size G d' fat' clus' cs' (firstCluster f) f) by (done || lia || (apply Z.div_lt_upper_bound; nia)).
    pose proof F' as (_ & _ & HF'). pose proof (content_length fs n size G d' fat' clus' cs' V' HF') as Lc.
    assert (0 < len data) as Hpos by (destruct data; [done|cbn [length]; lia]). specialize (Hin Hpos).
    pose proof (content_length fs n size G d fat clus cs' V HF') as Lc0.
    rewrite (proj2 (Z.ltb_lt _ _)), (proj2 (Z.leb_le _ _)) by lia. cbn [andb]. rewrite C. by rewrite slice_splice_eq by lia.
  - intros Hcode. destruct C as [(tm & C & _)|(w' & _ & Hfull & _)]; [congruence|].
    destruct (vol_free fs n size G d' fat' clus' V') as (f' & Rf & [[-> _]|(Hf1 & Hf2 & _)]); [done|]. by exfalso; apply (Hfull f').
  - intros g ocs o k Fo H1 H2 Hg Ho' Hk Hok. destruct (Oth ocs Fo H1 H2) as [Fo' Co]. eexists. split.
    + apply (vfat_read_ok fs n size G d fat clus ocs (firstCluster g)); try done; [lia|apply Z.div_lt_upper_bound; nia].
    + rewrite <- Co. apply (vfat_read_ok fs n size G d' fat' clus' ocs (firstCluster g)); try done; [lia|apply Z.div_lt_upper_bound; nia].
Qed.

End Theorems.

(** * A small volume *)

(** Sectors of 64 bytes, one per cluster; the root directory in the cluster 2
    with an entry for the file in the cluster 3, another file in the cluster 5;
    the table has two entries behind the device, which are not free. *)
Definition small_fs : vfatFSData := mkFSData 32 1 64 1 128 (mkFileData 0 EOC 2).

Definition small_table : list Z := concat (map (le 4) [0x0FFFFFF8; EOC; EOC; EOC; 0; EOC; EOC; EOC]).

Definition small_disk : list Z :=
  replicate 64 0 ++ small_table ++ small_table ++
  (replicate 32 0 ++ replicate 11 65 ++ replicate 15 0 ++ [3; 0] ++ replicate 4 0) ++
  replicate 64 1 ++ replicate 64 2 ++ replicate 64 3.

Definition small_file : vfatFileData := mkFileData 1 2 3.

Definition small_fat (c : Z) : Z := of_le (slice (fat_at small_fs c) 4 small_disk).

Definition small_clus (c : Z) : list Z := slice (cluster_at small_fs c) (cluster_size small_fs) small_disk.

Lemma small_geometry : geometry small_fs 6 384.
Proof. split; repeat split; by vm_compute. Qed.

Lemma small_vol : vol small_fs 6 384 small_disk small_fat small_clus.
Proof. split; [reflexivity|done|done|done]. Qed.

Lemma small_guarded : guarded small_fs 6 small_fat.
Proof.
  intros c Hc. change (entries small_fs) with 8 in Hc. assert (c = 6 \/ c = 7) as [-> | ->] by lia; by vm_compute.
Qed.

Lemma small_files : file_ok 6 small_fat [3] /\ file_ok 6 small_fat [2] /\ file_ok 6 small_fat [5].
Proof. split; [|split]; (split; [by split; [vm_compute|]|split; [apply NoDup_singleton|by apply list.Forall_singleton]]). Qed.

Lemma small_entry : entry_ok small_fs 1 [2].
Proof. split; [done|by vm_compute]. Qed.

Lemma small_apart : [3] ## [2] /\ [5] ## [3] /\ [5] ## [2].
Proof. split_and!; intros x ->%list_elem_of_singleton H%list_elem_of_singleton; discriminate. Qed.

Lemma vfat_read_contents_witness :
  vfatReadFile small_fs small_file 60 8 small_disk = Ok (XT_END_OF_FILE, [1; 1; 1; 1]) small_disk.
Proof.
  apply (vfat_read_contents small_fs 6 384 small_disk small_fat small_clus [3] small_file 60 8
    small_geometry small_vol (proj1 small_files) eq_refl); lia.
Defined.

Lemma vfat_write_file_witness :
  (exists r d' fat' clus' cs' dcs', vfatWriteFile small_fs NoLock small_file (replicate 70 9) 10 1000000000 small_disk = Ok r d' /\
    vol small_fs 6 384 d' fat' clus' /\
    written small_fs 6 NoLock small_fat small_clus [3] [2] small_file 10 (replicate 70 9) 1000000000 r fat' clus' cs' dcs') /\
  exists r d', vfatWriteFile small_fs (WriteLocked false) small_file (replicate 70 9) 10 1000000000 small_disk =
    if r.1 =? XT_SUCCESS then OutOfFuel else Ok r d'.
Proof.
  assert (room small_fs 6 small_fat (needed small_fs [3] (10 + 70) + needed small_fs [2] (1 * ENTRY + ENTRY))) as Hr by (left; exact small_guarded).
  split.
  - destruct (vfat_write_file small_fs 6 384 NoLock small_disk small_fat small_clus [3] [2] small_file 10 (replicate 70 9) 1000000000
      small_geometry small_vol (proj1 small_files) (proj1 (proj2 small_files)) (proj1 small_apart) eq_refl eq_refl small_entry Hr)
      as (r & d' & fat' & clus' & cs' & dcs' & V & W & R); [lia|vm_compute; done|lia|].
    exists r, d', fat', clus', cs', dcs'. split; [exact R|]. split; [exact V|exact W].
  - destruct (vfat_write_file small_fs 6 384 (WriteLocked false) small_disk small_fat small_clus [3] [2] small_file 10 (replicate 70 9) 1000000000
      small_geometry small_vol (proj1 small_files) (proj1 (proj2 small_files)) (proj1 small_apart) eq_refl eq_refl small_entry Hr)
      as (r & d' & fat' & clus' & cs' & dcs' & V & W & R); [lia|vm_compute; done|lia|].
    exists r, d'. exact R.
Defined.

Lemma vfat_read_after_write_witness :
  exists written d', vfatWriteFile small_fs NoLock small_file (replicate 50 9) 10 1000000000 small_disk = Ok (XT_SUCCESS, written) d' /\
    vfatReadFile small_fs small_file 10 50 d' = Ok (XT_SUCCESS, replicate 50 9) d' /\
    exists out, vfatReadFile small_fs (mkFileData 0 2 5) 0 64 small_disk = Ok out small_disk /\ vfatReadFile small_fs (mkFileData 0 2 5) 0 64 d' = Ok out d'.
Proof.
  destruct (vfat_read_after_write small_fs 6 384 NoLock small_disk small_fat small_clus [3] [2] small_file 10 (replicate 50 9) 1000000000
    small_geometry small_vol (proj1 small_files) (proj1 (proj2 small_files)) (proj1 small_apart) eq_refl eq_refl small_entry)
    as (code & w & d' & R & Hc & Hs & _ & Ho); [left; exact small_guarded|lia|vm_compute; done|lia|discriminate|discriminate|].
  assert (code = XT_SUCCESS) as -> by (apply Hc; vm_compute; discriminate). exists w, d'. split; [exact R|]. split; [by apply Hs|].
  apply (Ho _ [5]); [apply small_files|apply small_apart|apply small_apart|done|lia|lia|lia].
Defined.

(** In the kernel the thread waits for the lock it holds. *)
Example kernel_write_waits : vfatWriteFile small_fs (WriteLocked false) small_file (replicate 50 9) 10 1000000000 small_disk = OutOfFuel.
Proof. by vm_compute. Qed.

(** The same volume with its clusters in use and the entries behind them free, as
    [vfatMakeFS] leaves them: the file gets the cluster 6, which is not on the
    device. The search does not know the number of clusters. *)
Definition full_table : list Z := concat (map (le 4) [0x0FFFFFF8; EOC; EOC; EOC; EOC; EOC; 0; 0]).

Definition full_disk : list Z := replicate 64 0 ++ full_table ++ full_table ++ drop 128 small_disk.

Example full_volume_overruns :
  find_free_cluster small_fs full_disk = Ok 6 full_disk /\ cluster_at small_fs 6 = 384 /\ len full_disk = 384 /\
  match vfatWriteFile small_fs NoLock small_file (replicate 70 9) 10 1000000000 full_disk with
  | Ok (code, w) d' => code = XT_END_OF_FILE /\ w = 54 /\ get_next_cluster small_fs 3 d' = Ok 6 d'
  | _ => False
  end.
Proof. by vm_compute. Qed.
