(* ===== verification/VfatMake.v ===== *)
(** Making and mounting a volume of the VFAT driver: [vfatMount] finds what
    [vfatMakeFS] laid out. *)
From Stdlib Require Import ZArith Lia.
From stdpp Require Import base tactics list functions numbers.
From S2P Require Import Prelude Bytes Time VfatEntry Vfat VfatData.

Open Scope Z_scope.

Section Make.
Context {D : Type} {B : BlockDevice D} {W : Watch D}.
Implicit Type d : D.

Lemma put_bytes_ok d off bs : 0 <= off -> 0 < len bs -> off + len bs <= len (dev_bytes d) ->
  exists d', put_bytes off bs d = Ok tt d' /\ dev_bytes d' = splice off bs (dev_bytes d) /\ length (dev_bytes d') = length (dev_bytes d) /\ (watched d -> watched d').
Proof.
  intros Ho Hb Hl. destruct (dev_write_ok d off bs Ho Hb Hl) as (d' & R & E). exists d'. split; [|split; [done|split]].
  - unfold put_bytes. by rewrite (bind_Ok _ _ _ _ _ (out_or_Ok _ _ _ _ _ R)).
  - rewrite E. by apply splice_length.
  - intros Hw. by eapply watched_write.
Qed.

(** A write that leaves a range alone, or lies at it. *)
Definition keeps_range (o k : Z) d d' : Prop := slice o k (dev_bytes d') = slice o k (dev_bytes d).

Lemma put_elsewhere d d' off bs o k : 0 <= o -> 0 <= off -> off + len bs <= len (dev_bytes d) ->
  dev_bytes d' = splice off bs (dev_bytes d) -> o + k <= off \/ off + len bs <= o -> keeps_range o k d d'.
Proof. intros. unfold keeps_range. rewrite H2. by apply slice_splice_ne. Qed.

(** The three entries of [write_fat]. *)
Lemma write_fat_ok d off : 0 <= off -> off + 12 <= len (dev_bytes d) ->
  exists d', write_fat off d = Ok tt d' /\ length (dev_bytes d') = length (dev_bytes d) /\
    slice (off + 8) 4 (dev_bytes d') = le 4 EOC /\ (watched d -> watched d') /\
    forall o k, 0 <= o -> o + k <= off \/ off + 12 <= o -> keeps_range o k d d'.
Proof.
  intros Ho Hl. unfold write_fat.
  destruct (put_bytes_ok d off (le 4 0x0FFFFFF8)) as (d1 & R1 & E1 & L1 & KL1); [done|(cbn [le length]; lia)|cbn [le length]; lia|]. rewrite (bind_Ok _ _ _ _ _ R1).
  destruct (put_bytes_ok d1 (off + 4) (le 4 0x0FFFFFFF)) as (d2 & R2 & E2 & L2 & KL2); [lia|(cbn [le length]; lia)|cbn [le length]; lia|]. rewrite (bind_Ok _ _ _ _ _ R2).
  destruct (put_bytes_ok d2 (off + 8) (le 4 0x0FFFFFFF)) as (d3 & R3 & E3 & L3 & KL3); [lia|(cbn [le length]; lia)|cbn [le length]; lia|].
  exists d3. split; [done|]. split; [lia|]. split; [|split; [by eauto|]].
  - rewrite E3. change 4 with (len (le 4 0x0FFFFFFF)) at 1. apply slice_splice_eq; [lia|cbn [le length]; lia].
  - intros o k Hk Hd. unfold keeps_range. rewrite E3, slice_splice_ne, E2, slice_splice_ne, E1, slice_splice_ne; (done || lia || (cbn [le length]; lia)).
Qed.

Lemma usable_bounds size : 65536 <= size < 2 ^ 32 ->
  64 <= usable_sectors size <= size / 512 /\ (usable_sectors size - 32) mod 4 = 0 /\ 512 * usable_sectors size <= size.
Proof.
  intros Hs. unfold usable_sectors, SECTOR_SIZE, RESERVED_SECTORS, SECTORS_PER_CLUSTER.
  assert (128 <= size / 512 < 2 ^ 23) as Ht by dlia. rewrite (u32_small (size / 512)), (u32_small (size / 512 - 32)) by lia.
  assert (512 * (size / 512) <= size) as Hm by dlia. set (t := size / 512) in *. clearbody t.
  destruct ((t - 32) mod 4 =? 0) eqn:E; zbool; [split; [lia|split; [done|lia]]|].
  rewrite u32_small by dlia. split; [dlia|]. split; dlia.
Qed.

Lemma make_spec d size random : len (dev_bytes d) = size -> 65536 <= size < 2 ^ 32 ->
  exists d' r, vfatMakeFS (Z.to_nat (usable_sectors size)) size random d = Ok tt d' /\ len (dev_bytes d') = size /\ (watched d -> watched d') /\
    0 < r /\ 32 + 2 * r <= usable_sectors size /\ 4 * ((usable_sectors size - 32 - 2 * r) / 4) <= r * 512 /\ 4 <= usable_sectors size - 32 - 2 * r /\
    slice 0 512 (dev_bytes d') = ebpb_bytes (mkEbpb 512 4 32 2 (usable_sectors size) r 2 1 (u32 random)) /\
    slice (32 * 512 + 8) 4 (dev_bytes d') = le 4 EOC.
Proof.
  intros HL Hs. destruct (usable_bounds size Hs) as (U1 & U2 & U3). set (t := usable_sectors size) in *.
  assert (size / 512 < 2 ^ 23) as Ht by dlia.
  destruct (calc_fat_size_ok t 32 2 4 512 d) as (r & R & Q1 & Q2 & Q3 & Q4); [lia..|].
  assert (4 <= t - 32 - 2 * r) as Q5.
  { destruct (decide (r = 1)) as [->|]; [lia|]. specialize (Q4 (r - 1) ltac:(lia)). clear -Q1 Q4 n.
    pose proof (Z.mul_div_le (t - 32 - 2 * (r - 1)) 4 ltac:(lia)). lia. }
  unfold vfatMakeFS. fold t. unfold RESERVED_SECTORS, FAT_COUNT, SECTORS_PER_CLUSTER, SECTOR_SIZE. rewrite (bind_Ok _ _ _ _ _ R).
  set (e := mkEbpb 512 4 32 2 t r 2 1 (u32 random)).
  assert (len (ebpb_bytes e) = 512) as Le by reflexivity. assert (len fsinfo_bytes = 512) as Lf by reflexivity.
  rewrite (u32_small (r * 512)) by lia. rewrite (u32_small (512 * 32 + r * 512)) by lia. rewrite (u64_small (size - 1)) by lia.
  destruct (put_bytes_ok d 0 (ebpb_bytes e)) as (d1 & R1 & E1 & L1 & KL1); [lia|(cbn [le length]; lia)|lia|]. rewrite (bind_Ok _ _ _ _ _ R1).
  destruct (put_bytes_ok d1 (6 * 512) (ebpb_bytes e)) as (d2 & R2 & E2 & L2 & KL2); [lia|(cbn [le length]; lia)|lia|]. rewrite (bind_Ok _ _ _ _ _ R2).
  destruct (put_bytes_ok d2 512 fsinfo_bytes) as (d3 & R3 & E3 & L3 & KL3); [lia|(cbn [le length]; lia)|lia|]. rewrite (bind_Ok _ _ _ _ _ R3).
  destruct (put_bytes_ok d3 (512 + 510) (le 2 0xAA55)) as (d4 & R4 & E4 & L4 & KL4); [lia|(cbn [le length]; lia)|cbn [le length]; lia|]. rewrite (bind_Ok _ _ _ _ _ R4).
  destruct (write_fat_ok d4 (512 * 32)) as (d5 & R5 & L5 & F5 & KL5 & K5); [lia|lia|]. rewrite (bind_Ok _ _ _ _ _ R5).
  destruct (write_fat_ok d5 (512 * 32 + r * 512)) as (d6 & R6 & L6 & F6 & KL6 & K6); [lia|lia|]. rewrite (bind_Ok _ _ _ _ _ R6).
  destruct (put_bytes_ok d6 (size - 1) [0]) as (d7 & R7 & E7 & L7 & KL7); [lia|(cbn [le length]; lia)|cbn [length]; lia|].
  exists d7, r. split; [exact R7|]. split; [lia|]. split; [by eauto 10|]. split; [done|]. split; [done|]. split; [done|]. split; [done|]. split.
  - rewrite E7, slice_splice_ne by (cbn [length]; lia). rewrite (K6 0 512), (K5 0 512) by lia.
    rewrite E4, slice_splice_ne by (cbn [le length]; lia). rewrite E3, slice_splice_ne by lia. rewrite E2, slice_splice_ne by lia.
    rewrite E1. fold e. clear - Le HL Hs.
    assert (0 + len (ebpb_bytes e) <= len (dev_bytes d)) as Hb by (rewrite Le; lia).
    pose proof (slice_splice_eq 0 (ebpb_bytes e) (dev_bytes d) ltac:(lia) Hb) as K. by rewrite Le in K.
  - rewrite E7, slice_splice_ne by (cbn [length]; lia). rewrite (K6 (32 * 512 + 8) 4) by lia. exact F5.
Qed.

(** [vfatMount] of a device with such a boot sector. *)
Lemma mount_spec d r total vol_id : 512 <= len (dev_bytes d) -> 0 < r < 2 ^ 22 - 16 ->
  slice 0 512 (dev_bytes d) = ebpb_bytes (mkEbpb 512 4 32 2 total r 2 1 vol_id) ->
  vfatMount d = Ok (mkFSData (r * 512) 4 512 32 (2 * (r * 512) + 512 * 32) (mkFileData 0 EOC 2)) d.
Proof.
  intros Hl Hr E. unfold vfatMount.
  assert (dev_read 0 512 d = Ok (slice 0 512 (dev_bytes d)) d) as R by (apply dev_read_ok; lia). rewrite (bind_Ok _ _ _ _ _ R).
  rewrite E. set (e := mkEbpb 512 4 32 2 total r 2 1 vol_id). rewrite fill_all by reflexivity.
  assert (slice 11 2 (ebpb_bytes e) = le 2 512) as -> by reflexivity. assert (slice 14 2 (ebpb_bytes e) = le 2 32) as -> by reflexivity.
  assert (slice 36 4 (ebpb_bytes e) = le 4 r) as -> by reflexivity. assert (slice 13 1 (ebpb_bytes e) = le 1 4) as -> by reflexivity.
  assert (slice 16 1 (ebpb_bytes e) = le 1 2) as -> by reflexivity. assert (slice 44 4 (ebpb_bytes e) = le 4 2) as -> by reflexivity.
  rewrite (of_le_small 4 r) by (change (8 * Z.of_nat 4) with 32; lia).
  change (of_le (le 2 512)) with 512. change (of_le (le 2 32)) with 32. change (of_le (le 1 4)) with 4. change (of_le (le 1 2)) with 2.
  change (of_le (le 4 2)) with 2. rewrite (u32_small (r * 512)), u32_small by lia. done.
Qed.

(** A volume that [vfatMakeFS] laid out on a device of 64 KB to 4 GB is mounted by [vfatMount] with a sound geometry: the two tables and all clusters lie on the device, and the root directory is the chain of the one cluster 2. The clusters the driver can use are those on the device or those the table has entries for, whichever are fewer. *)
Theorem mount_after_make (d : D) (size random : Z) :
  watched d -> len (dev_bytes d) = size -> 65536 <= size < 2 ^ 32 ->
  exists d' fs n fat clus, vfatMakeFS (Z.to_nat (usable_sectors size)) size random d = Ok tt d' /\ vfatMount d' = Ok fs d' /\
    cluster_size fs = 2048 /\ rootDir fs = mkFileData 0 EOC 2 /\ 2 < n /\
    n = Z.min (2 + (usable_sectors size * 512 - data_offset fs) / 2048) (entries fs) /\
    geometry fs n size /\ vol fs n size d' fat clus /\ file_ok n fat [2].
Proof.
  intros Hw HL Hs. destruct (make_spec d size random HL Hs) as (d' & r & R & L' & K & Q1 & Q2 & Q3 & Q4 & Eb & Ef).
  destruct (usable_bounds size Hs) as (U1 & U2 & U3). set (t := usable_sectors size) in *.
  assert (size / 512 < 2 ^ 23) as Ht by dlia.
  set (fs := mkFSData (r * 512) 4 512 32 (2 * (r * 512) + 512 * 32) (mkFileData 0 EOC 2)).
  set (n := Z.min (2 + (t * 512 - data_offset fs) / 2048) (entries fs)).
  assert (entries fs = r * 128) as Een by (unfold entries, fs; cbn [fat_size_bytes]; dlia).
  assert ((t * 512 - data_offset fs) / 2048 = (t - 32 - 2 * r) / 4) as Ecl.
  { unfold fs; cbn [data_offset]. replace (t * 512 - (2 * (r * 512) + 512 * 32)) with ((t - 32 - 2 * r) * 512) by lia.
    change 2048 with (4 * 512). apply Z.div_mul_cancel_r; lia. }
  pose proof (Z.mul_div_le (t - 32 - 2 * r) 4 ltac:(lia)). assert (1 <= (t - 32 - 2 * r) / 4) by (apply Z.div_le_lower_bound; lia).
  assert (2 < n /\ n <= entries fs /\ n <= 2 + (t - 32 - 2 * r) / 4) as (N1 & N2 & N3) by (unfold n; lia).
  assert (geometry fs n size) as G.
  { split; cbn [fs sectors_per_cluster bytes_per_sector reserved_sectors fat_size_bytes data_offset]; [lia|lia|lia| |lia|lia].
    fold (entries fs). unfold entries in *. unfold fs in N2, Een. cbn [fat_size_bytes] in *. unfold EOC. lia. }
  exists d', fs, n, (fun c => of_le (slice (fat_at fs c) 4 (dev_bytes d'))), (fun c => slice (cluster_at fs c) (cluster_size fs) (dev_bytes d')).
  split; [done|]. split; [eapply mount_spec; [lia|lia|exact Eb]|]. split; [done|]. split; [done|]. split; [done|]. split; [done|]. split; [done|].
  split; [split; [done|by apply K|done..]|]. split; [|split; [apply NoDup_singleton|apply list.Forall_singleton; lia]]. split; [|done].
  change (fat_at fs 2) with (32 * 512 + 8). by rewrite Ef.
Qed.

End Make.

Theorem mount_after_make_witness :
  exists d' fs n fat clus, vfatMakeFS (Z.to_nat (usable_sectors 65536)) 65536 7 (replicate (Z.to_nat 65536) 0) = Ok tt d' /\ vfatMount d' = Ok fs d' /\
    cluster_size fs = 2048 /\ rootDir fs = mkFileData 0 EOC 2 /\ 2 < n /\
    n = Z.min (2 + (usable_sectors 65536 * 512 - data_offset fs) / 2048) (entries fs) /\
    geometry fs n 65536 /\ vol fs n 65536 d' fat clus /\ file_ok n fat [2].
Proof.
  apply (mount_after_make (replicate (Z.to_nat 65536) 0) 65536 7).
  - done.
  - cbn [dev_bytes Disk]. rewrite length_replicate. by rewrite Z2Nat.id.
  - lia.
Defined.
