(* ===== verification/Image.v ===== *)
(** Volumes on partitions, and the disk image of tools/mkimage.c: a partition
    of xtkernel/gpt.c is a block device, the VFAT driver makes and mounts its
    volume there. *)
From Stdlib Require Import ZArith Lia.
From stdpp Require Import base tactics list gmap numbers.
From S2P Require Import Prelude Bytes Allocator Gpt Time VfatEntry Vfat VfatData VfatWrite VfatMake.

Open Scope Z_scope.

(** * A partition as a device *)

Section Partition.
Context {D : Type} {B : BlockDevice D}.

(** The file object of a partition: its entry and the device it is on. The
    entry's last byte has a 64-bit address. *)
Record Partition := mkPartition {
  entry : GPT_Partition;
  parent : D;
  addressable : 0 <= firstLba entry /\ (lastLba entry + 1) * 512 < 2 ^ 64
}.

Definition set_parent (d : D) (p : Partition) : Partition := mkPartition (entry p) d (addressable p).

Definition part_offset (p : Partition) : Z := firstLba (entry p) * 512.

Definition part_size (p : Partition) : Z := (lastLba (entry p) - firstLba (entry p) + 1) * 512.

Definition part_read (off n : Z) : M Partition (list Z) := fun p =>
  zoom parent set_parent (xtPartReadFile dev_read (entry p) off n) p.

Definition part_write (off : Z) (bs : list Z) : M Partition Z := fun p =>
  zoom parent set_parent (xtPartWriteFile dev_write (entry p) off bs) p.

(** What can be read through the partition. *)
Definition partition_bytes (p : Partition) : list Z := slice (part_offset p) (part_size p) (dev_bytes (parent p)).

(** A transfer within the partition lies at the same place of the parent. *)
Lemma part_place p off n : 0 <= off -> 0 < n -> off + n <= len (partition_bytes p) ->
  u64 (off + part_offset p) = part_offset p + off /\ 0 <= part_offset p /\ off + n <= part_size p /\
  part_offset p + off + n <= len (dev_bytes (parent p)).
Proof.
  intros Ho Hn Hl. pose proof (addressable p) as [A1 A2]. unfold partition_bytes, slice in Hl. rewrite length_take, length_drop in Hl.
  unfold part_offset, part_size in *. rewrite u64_small by lia. lia.
Qed.

Lemma part_read_ok p off n : 0 <= off -> 0 < n -> off + n <= len (partition_bytes p) ->
  part_read off n p = Ok (slice off n (partition_bytes p)) p.
Proof.
  intros Ho Hn Hl. destruct (part_place p off n Ho Hn Hl) as (E & P1 & P2 & P3). unfold part_read, zoom, xtPartReadFile.
  fold (part_offset p). rewrite E, dev_read_ok by lia. unfold partition_bytes. rewrite slice_slice by lia. by destruct p.
Qed.

Lemma part_write_ok p off bs : 0 <= off -> 0 < len bs -> off + len bs <= len (partition_bytes p) ->
  exists p', part_write off bs p = Ok (len bs) p' /\ partition_bytes p' = splice off bs (partition_bytes p).
Proof.
  intros Ho Hn Hl. destruct (part_place p off _ Ho Hn Hl) as (E & P1 & P2 & P3). unfold part_write, zoom, xtPartWriteFile.
  fold (part_offset p). rewrite E. destruct (dev_write_ok (parent p) (part_offset p + off) bs) as (d' & -> & Ed); [lia..|].
  exists (set_parent d' p). split; [done|]. unfold partition_bytes. cbn [set_parent parent]. rewrite Ed.
  change (part_offset (set_parent d' p)) with (part_offset p). change (part_size (set_parent d' p)) with (part_size p).
  apply slice_splice_short; lia.
Qed.

#[export] Instance Partition_Device : BlockDevice Partition := {
  dev_read := part_read;
  dev_write := part_write;
  dev_bytes := partition_bytes;
  dev_read_ok := part_read_ok;
  dev_write_ok := part_write_ok
}.

(** Two states of one partition whose parents differ in the partition only. *)
Definition confined (p q : Partition) : Prop :=
  entry q = entry p /\ length (dev_bytes (parent q)) = length (dev_bytes (parent p)) /\
  forall o k, 0 <= o -> o + k <= part_offset p \/ part_offset p + part_size p <= o ->
    slice o k (dev_bytes (parent q)) = slice o k (dev_bytes (parent p)).

Lemma write_confined p0 p off bs q : confined p0 p -> 0 <= off -> 0 < len bs -> off + len bs <= len (dev_bytes p) ->
  dev_write off bs p = Ok (len bs) q -> confined p0 q.
Proof.
  intros (E0 & L0 & C0) Ho Hn Hl. destruct (part_place p off _ Ho Hn Hl) as (E & P1 & P2 & P3). cbn [dev_write Partition_Device]. unfold part_write, zoom, xtPartWriteFile.
  fold (part_offset p). rewrite E. destruct (dev_write_ok (parent p) (part_offset p + off) bs) as (d' & -> & Ed); [lia..|].
  intros [= <-]. split; [done|]. cbn [set_parent parent]. rewrite Ed. split; [rewrite splice_length; lia|].
  intros o k Hk Hd. unfold part_offset, part_size in *. rewrite E0 in *. rewrite slice_splice_ne by lia. by apply C0.
Qed.

(** Watching that nothing but the partition changes. *)
Definition watch_confined (p0 : Partition) : Watch Partition := {| watched := confined p0; watched_write := write_confined p0 |}.

End Partition.

Arguments Partition D : clear implicits.

(** * tools/mkimage.c *)

Definition ESP_GUID : EFI_GUID := mkGuid 0xC12A7328 0xF81F 0x11D2 [0xBA; 0x4B; 0x00; 0xA0; 0xC9; 0x3E; 0xC9; 0x3B].

Definition BASIC_DATA_GUID : EFI_GUID := mkGuid 0xEBD0A0A2 0xB9E5 0x4433 [0x87; 0xC0; 0x68; 0xB6; 0xB7; 0x26; 0x99; 0xC7].

(** An array of 36 characters with the characters of [s] in it. *)
Definition wide_name (s : list Z) : list Z := take 36 (s ++ replicate 36 0).

Definition efi_name : list Z := wide_name [69; 70; 73; 32; 83; 89; 83; 84; 69; 77; 32; 80; 65; 82; 84; 73; 84; 73; 79; 78].

Definition data_name : list Z := wide_name [66; 97; 115; 105; 99; 32; 68; 97; 116; 97].

Section Mkimage.
Context {H D : Type} {A : Allocator H} {B : BlockDevice D}.

(** Writing zeros over a device, a sector at a time; the result codes are
    dropped. *)
Fixpoint zeros_loop (fuel : nat) (i FileSize : Z) : M D unit :=
  if i <? FileSize then
    match fuel with
    | O => nofuel
    | S fuel => out_or 0 (dev_write i (replicate 512 0)) ;;; zeros_loop fuel (u64 (i + 512)) FileSize
    end
  else mret tt.

Definition xtFillZeros (FileSize : Z) : M D unit := zeros_loop (Z.to_nat FileSize) 0 FileSize.

(** The part of [main] that makes the two partition devices and writes the
    table. The results of xtCreatePartitionDevice are dropped; without the
    device xtSetPartitions goes through NULL. *)
Definition main_partitions (address : Z) : M (GptState H D) (list GPT_Partition) :=
  efipart ← attempt (xtCreatePartitionDevice 2048 (130 * 1024 * 1024 / 512 + 2048 - 1) efi_name ESP_GUID null_guid);
  syspart ← attempt (xtCreatePartitionDevice (130 * 1024 * 1024 / 512 + 2048) (130 * 1024 * 1024 / 512 + 8191) data_name BASIC_DATA_GUID null_guid);
  match efipart, syspart with
  | inl (_, efi, _), inl (_, sys, _) => xtSetPartitions dev_write address [efi; sys]
  | _, _ => fault
  end.

(** A device of whole sectors is all zeros afterwards. *)
Lemma zeros_loop_ok n : forall k fuel (d : D), len (dev_bytes d) = n -> n mod 512 = 0 -> n < 2 ^ 64 - 512 -> 0 <= k -> 512 * k <= n ->
  (Z.to_nat (n - 512 * k) <= fuel)%nat -> take (Z.to_nat (512 * k)) (dev_bytes d) = replicate (Z.to_nat (512 * k)) 0 ->
  exists d', zeros_loop fuel (512 * k) n d = Ok tt d' /\ dev_bytes d' = replicate (Z.to_nat n) 0.
Proof.
  intros k fuel. revert k. induction fuel as [|fuel IH]; intros k d L Hm Hn Hk Hkn Hf Z0; cbn [zeros_loop].
  - rewrite (proj2 (Z.ltb_ge _ _)) by lia. exists d. split; [done|].
    rewrite <- (take_ge (dev_bytes d) (Z.to_nat (512 * k))), Z0 by lia. f_equal. lia.
  - destruct (Z.ltb_spec (512 * k) n).
    + assert (512 * (k + 1) <= n) by dlia.
      destruct (dev_write_ok d (512 * k) (replicate 512 0)) as (d1 & W & E); [lia|rewrite length_replicate; lia..|].
      rewrite (bind_Ok _ _ _ _ _ (out_or_Ok _ _ _ _ _ W)), u64_small by lia. replace (512 * k + 512) with (512 * (k + 1)) by lia.
      apply IH; try lia.
      * rewrite E, splice_length; [done|lia|rewrite length_replicate; lia].
      * rewrite E. unfold splice. rewrite Z0, app_assoc, <- replicate_add, take_app_le by (rewrite length_replicate; lia).
        rewrite take_ge by (rewrite length_replicate; lia). f_equal. lia.
    + exists d. split; [done|]. rewrite <- (take_ge (dev_bytes d) (Z.to_nat (512 * k))), Z0 by lia. f_equal. lia.
Qed.

Lemma fill_zeros_ok n (d : D) : len (dev_bytes d) = n -> n mod 512 = 0 -> n < 2 ^ 64 - 512 ->
  exists d', xtFillZeros n d = Ok tt d' /\ dev_bytes d' = replicate (Z.to_nat n) 0.
Proof. intros L Hm Hn. apply (zeros_loop_ok n 0 (Z.to_nat n)); try done; lia. Qed.

Lemma create_partition_inv (s s1 : GptState H D) r first last_ name ty : good_guid ty -> length name = 36%nat ->
  attempt (xtCreatePartitionDevice first last_ name ty null_guid) s = Ok r s1 ->
  blockdev s1 = blockdev s /\
  match r with inl (_, e, _) => good_part e /\ firstLba e = first /\ lastLba e = last_ | inr _ => True end.
Proof.
  intros Hty Hn. unfold attempt, xtCreatePartitionDevice. change (is_null_guid null_guid) with true. cbn iota.
  destruct s as [h b d]. unfold on_heap, on_seed, zoom, mbind, M_bind, mret, M_ret. cbn [heap boot_seed blockdev].
  destruct (new_guid_ok b) as (g & b' & Rg & Hg & _).
  destruct (xtHeapAlloc 136 h) as [p h1|c h1| |]; [|intros [= <- <-]; done|done|done]. cbn [heap boot_seed blockdev].
  rewrite Rg. cbn [heap boot_seed blockdev].
  destruct (xtHeapAlloc 64 h1) as [q h2|c h2| |]; intros [= <- <-]; [|done].
  split; [done|]. split; [|done]. split; [done|]. split; [done|]. cbn [Name]. rewrite length_take. lia.
Qed.

(** The two partitions of the image lie behind the table, side by side. *)
Lemma main_partitions_ok (address : Z) (s : GptState H D) array s' : main_partitions address s = Ok array s' ->
  exists e f s1, xtSetPartitions dev_write address [e; f] s1 = Ok array s' /\ blockdev s1 = blockdev s /\
    Forall good_part [e; f] /\ firstLba e = 2048 /\ lastLba e = 268287 /\ firstLba f = 268288 /\ lastLba f = 274431.
Proof.
  unfold main_partitions. intros (r1 & s1 & R1 & R)%bind_Ok_inv. apply bind_Ok_inv in R as (r2 & s2 & R2 & R).
  apply create_partition_inv in R1 as [B1 K1]; [|split; [done|repeat constructor; unfold byte; lia]|done].
  apply create_partition_inv in R2 as [B2 K2]; [|split; [done|repeat constructor; unfold byte; lia]|done].
  destruct r1 as [[[p1 e] f1]|], r2 as [[[p2 f] f2]|]; try done. destruct K1 as (G1 & F1 & L1), K2 as (G2 & F2 & L2).
  exists e, f, s2. split; [done|]. split; [congruence|]. split; [by constructor; [|constructor; [|constructor]]|]. by rewrite F1, L1, F2, L2.
Qed.

End Mkimage.

(** * Partitioning and formatting *)

Section Format.
Context {H D : Type} {A : Allocator H} {B : BlockDevice D}.
Implicit Type d : D.

Lemma mbr_length address : length (mbr_bytes address) = 512%nat.
Proof. reflexivity. Qed.

(** The three writes of xtSetPartitions on a device with room for the table. *)
Lemma table_written (d : D) mbr hdr parts : length mbr = 512%nat -> length hdr = 92%nat -> length parts = (128 * 128)%nat ->
  34 * 512 <= len (dev_bytes d) ->
  exists d', write_all dev_write [(0, mbr); (512, hdr); (1024, parts)] d = Ok tt d' /\ length (dev_bytes d') = length (dev_bytes d) /\
    slice 0 512 (dev_bytes d') = mbr /\ slice 512 92 (dev_bytes d') = hdr /\ slice 1024 (128 * 128) (dev_bytes d') = parts.
Proof.
  intros Lm Lh Lp Hl. cbn [write_all].
  destruct (dev_write_ok d 0 mbr) as (d1 & W1 & E1); [lia..|]. rewrite (bind_Ok _ _ _ _ _ (out_or_Ok _ _ _ _ _ W1)).
  assert (length (dev_bytes d1) = length (dev_bytes d)) as L1 by (rewrite E1; apply splice_length; lia).
  destruct (dev_write_ok d1 512 hdr) as (d2 & W2 & E2); [lia..|]. rewrite (bind_Ok _ _ _ _ _ (out_or_Ok _ _ _ _ _ W2)).
  assert (length (dev_bytes d2) = length (dev_bytes d)) as L2 by (rewrite E2, splice_length; lia).
  destruct (dev_write_ok d2 1024 parts) as (d3 & W3 & E3); [lia..|]. rewrite (bind_Ok _ _ _ _ _ (out_or_Ok _ _ _ _ _ W3)).
  exists d3. split; [done|]. split; [rewrite E3, splice_length; lia|].
  rewrite E3, !(slice_splice_ne _ _ 1024) by lia. replace (128 * 128) with (len parts) by lia. rewrite slice_splice_eq by lia.
  rewrite E2, (slice_splice_ne 0) by lia. replace 92 with (len hdr) by lia. rewrite slice_splice_eq by lia.
  rewrite E1. replace 512 with (len mbr) at 1 by lia. by rewrite slice_splice_eq by lia.
Qed.

(** The room of two partitions does not overlap. *)
Definition apart (e f : GPT_Partition) : Prop := lastLba e < firstLba f \/ lastLba f < firstLba e.

(** C25: A disk is partitioned and a partition behind the table is formatted: its volume mounts with a sound geometry, the header and the entries of the table are on the disk with checksums that verify, and the bytes of every other partition are as they were. *)
Theorem format_keeps_table (address seed random p : Z) (array : list GPT_Partition) (h h1 : H) (L : gset Z) (d : D) (i : nat) (e : GPT_Partition) :
  heap_ok h L -> xtHeapAlloc (128 * 128) h = Ok p h1 -> (length array <= 128)%nat -> Forall good_part array ->
  array !! i = Some e -> 34 <= firstLba e -> (lastLba e + 1) * 512 <= len (dev_bytes d) < 2 ^ 64 ->
  65536 <= (lastLba e - firstLba e + 1) * 512 < 2 ^ 32 ->
  exists array' h' seed' d1 q, xtSetPartitions dev_write address array (mkGpt h seed d) = Ok array' (mkGpt h' seed' d1) /\
    Forall2 named array array' /\ array' !! i = Some (entry q) /\ parent q = d1 /\
    let size := xtPartGetFileInfo (entry q) in
    exists q' fs n fat clus hdr parts, vfatMakeFS (Z.to_nat (usable_sectors size)) size random q = Ok tt q' /\ vfatMount q' = Ok fs q' /\
      geometry fs n size /\ vol fs n size q' fat clus /\ file_ok n fat [2] /\
      header_verifies hdr parts /\ parts = concat (map part_bytes array') ++ replicate (128 * (128 - length array)) 0 /\
      slice 512 92 (dev_bytes (parent q')) = hdr /\ slice 1024 (128 * 128) (dev_bytes (parent q')) = parts /\
      forall j f, array' !! j = Some f -> 0 <= firstLba f -> apart e f ->
        slice (firstLba f * 512) ((lastLba f - firstLba f + 1) * 512) (dev_bytes (parent q')) =
        slice (firstLba f * 512) ((lastLba f - firstLba f + 1) * 512) (dev_bytes d1).
Proof.
  intros Hok Ha Hn HG Hi He Hd Hs.
  destruct (set_partitions_ok dev_write address array h h1 L seed p d Hok Ha Hn HG) as (array' & hdr & parts & Na & _ & Lh & Lp & Ep & Vh & W).
  destruct (table_written d (mbr_bytes address) hdr parts (mbr_length _) Lh Lp) as (d1 & W1 & L1 & _ & S1 & S2); [lia|].
  destruct (W d1 W1) as (h' & seed' & R). destruct (Forall2_lookup_l _ _ _ _ _ Na Hi) as (e' & He' & E & _).
  assert (firstLba e' = firstLba e /\ lastLba e' = lastLba e) as [F1 F2] by (rewrite E; done).
  assert (0 <= firstLba e' /\ (lastLba e' + 1) * 512 < 2 ^ 64) as Ha' by lia.
  exists array', h', seed', d1, (mkPartition e' d1 Ha'). split; [done|]. split; [done|]. split; [done|]. split; [done|]. cbn zeta.
  assert (xtPartGetFileInfo e' = (lastLba e - firstLba e + 1) * 512) as Es by (unfold xtPartGetFileInfo; rewrite F1, F2, u64_small; lia).
  cbn [entry]. rewrite Es. set (size := (lastLba e - firstLba e + 1) * 512) in *.
  destruct (mount_after_make (W := watch_confined (mkPartition e' d1 Ha')) (mkPartition e' d1 Ha') size random)
    as (q' & fs & n & fat & clus & R1 & R2 & _ & _ & _ & _ & Geo & [V0 (Eq & Lq & C) V1 V2] & F); [done| |done|].
  { cbn [dev_bytes Partition_Device]. unfold partition_bytes, part_offset, part_size. cbn [entry parent]. rewrite slice_length; lia. }
  exists q', fs, n, fat, clus, hdr, parts. unfold part_offset, part_size in C. cbn [entry parent] in C. rewrite F1, F2 in C.
  split; [done|]. split; [done|]. split; [done|]. split; [done|]. split; [done|]. split; [done|]. split; [done|].
  rewrite !C by lia. split; [done|]. split; [done|]. intros j f Hj Hf Hap. apply C; unfold apart in Hap; lia.
Qed.

(** Writing to a file of a volume on a partition changes nothing outside the partition, if the free entries it may take are ones of clusters inside. *)
Theorem partition_write_confined (fs : vfatFSData) (n size : Z) (q : Partition D) (fat : Z -> Z) (clus : Z -> list Z) (cs dcs : list Z) (f : vfatFileData)
    (offset : Z) (data : list Z) (now : Z) :
  geometry fs n size -> vol fs n size q fat clus -> file_ok n fat cs -> file_ok n fat dcs -> cs ## dcs ->
  head cs = Some (firstCluster f) -> head dcs = Some (parentCluster f) -> entry_ok fs (index f) dcs ->
  room fs n fat (needed fs cs (offset + len data) + needed fs dcs (index f * ENTRY + ENTRY)) ->
  0 <= offset -> offset + len data < 2 ^ 32 -> 0 <= now < 2 ^ 37 ->
  exists r q' fat' clus' cs' dcs', vfatWriteFile fs NoLock f data offset now q = Ok r q' /\ confined q q' /\ vol fs n size q' fat' clus' /\
    written fs n NoLock fat clus cs dcs f offset data now r fat' clus' cs' dcs'.
Proof.
  intros G [V1 _ V2 V3] F Fd Hdis Hh Hhd He Gd Ho Hl Hnow.
  destruct (vfat_write_ok (W := watch_confined q) fs n size G NoLock q fat clus cs dcs f offset data now)
    as (r & q' & fat' & clus' & cs' & dcs' & R & [V1' C V2' V3'] & Wr); try done.
  exists r, q', fat', clus', cs', dcs'. split; [done|]. split; [exact C|]. by split.
Qed.

End Format.

Lemma format_keeps_table_witness :
  exists array' h' seed' d1 q, xtSetPartitions dev_write 0x5000 [demo_part] (mkGpt bump_empty 42 (replicate (Z.to_nat 1065984) 0)) = Ok array' (mkGpt h' seed' d1) /\
    array' !! O = Some (entry q) /\ parent q = d1 /\ exists (q' : Partition (list Z)) fs, vfatMount q' = Ok fs q'.
Proof.
  destruct (format_keeps_table 0x5000 42 7 16 [demo_part] bump_empty (mkBump 16400 {[16]}) ∅ (replicate (Z.to_nat 1065984) 0) 0 demo_part)
    as (array' & h' & seed' & d1 & q & R & _ & E & P & q' & fs & n & fat & clus & hdr & parts & _ & M & _).
  - split; [done|]. split; [done|]. intros p Hp. by apply elem_of_empty in Hp.
  - by vm_compute.
  - cbn. lia.
  - repeat constructor; unfold byte; lia.
  - done.
  - cbn. lia.
  - cbn [dev_bytes Disk demo_part lastLba]. rewrite length_replicate, Z2Nat.id by lia. lia.
  - cbn. lia.
  - exists array', h', seed', d1, q. split; [exact R|]. split; [exact E|]. split; [exact P|]. by exists q', fs.
Defined.
