(* ===== verification/VfatDir.v ===== *)
(** The directories of the VFAT driver (drivers/vfat/main.c): looking a path up,
    creating, opening and deleting files, and the information on a file. An
    [XTFile] of the driver is its [vfatFileData]; a C string is the list of its
    bytes without the terminator. The locks of the objects are taken to be free
    (the driver does not set those of the objects it makes itself, see
    [vfatFindFile]); events and the heap are left out. *)
From Stdlib Require Import ZArith Lia.
From stdpp Require Import base tactics list numbers.
From S2P Require Import Prelude Bytes Time Encodings CString Paths Io VfatEntry Vfat.

Open Scope Z_scope.

(** * Names *)

(** The units before the first 0. *)
Fixpoint until_zero (ws : list Z) : list Z :=
  match ws with
  | [] => []
  | w :: ws => if w =? 0 then [] else w :: until_zero ws
  end.

(** A C string in a buffer of 256 zero bytes. *)
Definition name_buffer (name : list Z) : list Z := name ++ replicate (256 - length name) 0.

(** The name of a directory entry from the long entries before it, converted
    into a buffer of 256 bytes; the bytes with their terminator. *)
Definition long_name {S} (lfnBuffer : list lfn_dir_entry) : M S (list Z) :=
  full ← xtUTF16toUTF8 (lfn_name lfnBuffer ++ [0]);
  if len full >? 256 then fault else mret full.

Definition name_equal {S} (name full : list Z) : M S bool :=
  r ← attempt (xtStringCmp (name ++ [0]) full 256);
  mret (match r with inl _ => true | inr _ => false end).

(** The bytes of a name padded with spaces. *)
Definition padded (n : nat) (bs : list Z) : list Z := take n (bs ++ replicate n 32).

Definition no_entry : list Z := replicate 32 0.

Definition deleted : Z := 0xE5.

Definition first_byte (b : list Z) : Z := of_le (slice 0 1 b).

Definition attributes_of (b : list Z) : Z := of_le (slice 11 1 b).

Section Dir.
Context {D : Type} {B : BlockDevice D}.
Variable fs : vfatFSData.

(** [xtReadFile] of one entry with its result code. *)
Definition read_code (dir : vfatFileData) (buf : list Z) (i : Z) : M D (Z * list Z) :=
  '(code, bs) ← vfatReadFile fs dir (i * ENTRY) ENTRY;
  mret (code, fill buf bs).

(** [xtWriteFile] of one entry to a directory, its result dropped. *)
Definition write_entry (dir : vfatFileData) (i : Z) (b : list Z) : M D unit :=
  write_clusters fs (firstCluster dir) (i * ENTRY) b ;;; mret tt.

(** * Looking a path up *)

(** The loop over one directory: the index and the bytes of the entry with the
    name. [sfn] is the buffer, [lfnBuffer] the long entries collected so far. *)
Fixpoint scan (fuel : nat) (dir : vfatFileData) (name sfn : list Z) (i : Z) (lfnBuffer : list lfn_dir_entry) : M D (option (Z * list Z)) :=
  match fuel with
  | O => nofuel
  | S fuel =>
    '(code, sfn) ← read_code dir sfn i;
    if negb (code =? XT_SUCCESS) then mret None
    else if first_byte sfn =? 0 then mret None
    else if (first_byte sfn =? deleted) || (attributes_of sfn =? 0x0F) then
      if (attributes_of sfn =? 0x0F) && (len lfnBuffer <? 20)
      then scan fuel dir name sfn (i + 1) (lfnBuffer ++ [bytes_lfn sfn])
      else scan fuel dir name sfn (i + 1) []
    else
      full ← long_name lfnBuffer;
      same ← name_equal name full;
      match same with true => mret (Some (i, sfn)) | false => scan fuel dir name sfn (i + 1) [] end
  end.

(** The outer loop. The result is what the pointers
    [left] and [_dir] are set to; they
    stay NULL when a component before the last is not a directory. [garbage] is
    the uninitialised entry of each round. *)
Fixpoint find_loop (fuel entries : nat) (garbage : list Z) (p : list Z) (dir : vfatFileData) : M D (option (list Z * vfatFileData)) :=
  match skip_separators p with
  | [] => mret (Some ([], dir))
  | componentStart =>
    match fuel with
    | O => nofuel
    | S fuel =>
      let '(name, p) := component 255 componentStart in
      r ← scan entries dir name garbage 0 [];
      match r with
      | None => mret (Some (componentStart, dir))
      | Some (i, sfn) =>
        match skip_separators p with
        | [] => mret (Some (p, mkFileData i (parentCluster dir) (firstCluster dir)))
        | _ =>
          if Z.land (attributes_of sfn) SUBDIR =? 0 then mret None
          else find_loop fuel entries garbage p (mkFileData 0 (parentCluster dir) (sfn_cluster (bytes_sfn sfn)))
        end
      end
    end
  end.

Definition vfatFindFile (fuel : nat) (garbage path : list Z) : M D (option (list Z * vfatFileData)) :=
  find_loop (length path) fuel garbage path (rootDir fs).

(** An entry that cannot be read counts as free. *)
Fixpoint free_entry_loop (fuel : nat) (dir : vfatFileData) (i : Z) : M D Z :=
  match fuel with
  | O => nofuel
  | S fuel =>
    sfn ← read_entry fs dir no_entry i;
    if (first_byte sfn =? 0) || (first_byte sfn =? deleted) then mret i else free_entry_loop fuel dir (u32 (i + 1))
  end.

Definition vfatFindFreeEntry (fuel : nat) (dir : vfatFileData) : M D Z := free_entry_loop fuel dir 0.

(** * The information on a file *)

(** Marks the long entries before an entry as deleted; their number. [temp] is
    the buffer, which a failed read leaves as it is. *)
Fixpoint drop_long (fuel : nat) (dir : vfatFileData) (idx lfnCount : Z) (temp : list Z) : M D Z :=
  match fuel with
  | O => nofuel
  | S fuel =>
    let at_ := u32 (idx - lfnCount - 1) in
    temp ← read_entry fs dir temp at_;
    let ord := first_byte temp in
    if attributes_of temp =? 0xf then
      let temp := fill temp [deleted] in
      write_entry dir at_ temp ;;;
      if Z.land ord ORed =? 0 then drop_long fuel dir idx (lfnCount + 1) temp else mret (lfnCount + 1)
    else mret lfnCount
  end.

(** The short name: [to_upper] of the bytes before the first dot. *)
Definition short_name (name : list Z) : list Z :=
  padded 8 (map to_upper (take (Z.to_nat (xtGetShortNameLength name)) name)).

(** The extension, which only a directory gets. [_ext] points into the buffer
    of the name. *)
Definition extension {S} (name : list Z) (attributes : Z) : M S (list Z) :=
  _ext ← xtGetExtension (name_buffer name) (len name);
  c ← char_at (name_buffer name) _ext;
  if negb (c =? 0) && negb (Z.land attributes SUBDIR =? 0) then
    mret (padded 3 (map to_upper (until_zero (drop (Z.to_nat _ext) (name_buffer name)))))
  else mret (padded 3 []).

Fixpoint write_long (dir : vfatFileData) (es : list (Z * lfn_dir_entry)) : M D unit :=
  match es with
  | [] => mret tt
  | (i, e) :: es => write_entry dir i (lfn_bytes e) ;;; write_long dir es
  end.

Definition vfatSetFileInfo (fuel : nat) (file : vfatFileData) (info : XTFileInfo) : M D unit :=
  let dir := mkFileData (index file) EOC (parentCluster file) in
  b ← read_entry fs dir no_entry (index file);
  sfn ← vfatFileInfoToSFN (bytes_sfn b) info;
  let sfn := set_cluster (firstCluster file) (set_file_size (u32 (FileSize info)) sfn) in
  lfnCount ← drop_long fuel dir (index file) 0 no_entry;
  let free_index := u32 (index file - lfnCount) in
  ext ← extension (info_name info) (sfn_attributes sfn);
  let sfn := set_names (short_name (info_name info)) ext sfn in
  let cs := calc_checksum (sfn_name sfn ++ sfn_ext sfn) in
  wname ← out_or [] (xtUTF8toUTF16 (name_buffer (info_name info)));
  let wname := until_zero wname in
  write_long dir (lfn_entries wname cs free_index) ;;;
  write_entry dir (free_index + countOfLFNEntries wname) (sfn_bytes sfn).

(** The long entries before an entry, nearest first; more than 20 overrun the
    buffer. *)
Fixpoint collect_long (fuel : nat) (dir : vfatFileData) (idx : Z) (sfn : list Z) (lfnBuffer : list lfn_dir_entry) : M D (list lfn_dir_entry) :=
  match fuel with
  | O => nofuel
  | S fuel =>
    sfn ← read_entry fs dir sfn (u32 (idx - len lfnBuffer - 1));
    if attributes_of sfn =? 0xf then
      if 20 <=? len lfnBuffer then fault
      else
        let lfnBuffer := lfnBuffer ++ [bytes_lfn sfn] in
        if Z.land (first_byte sfn) ORed =? 0 then collect_long fuel dir idx sfn lfnBuffer else mret lfnBuffer
    else mret lfnBuffer
  end.

(** [FileSize] rounded up to whole clusters, and one more when it is a multiple. *)
Definition physical_size {S} (size : Z) : M S Z :=
  let csz := u32 (bytes_per_sector fs * sectors_per_cluster fs) in
  if csz =? 0 then fault else mret (u32 ((size / csz + 1) * csz)).

Definition vfatGetFileInfo (fuel : nat) (file : vfatFileData) (info : XTFileInfo) : M D XTFileInfo :=
  let dir := mkFileData (index file) EOC (parentCluster file) in
  b ← read_entry fs dir no_entry (index file);
  physical ← physical_size (file_size (bytes_sfn b));
  info ← vfatSFNtoFileInfo (bytes_sfn b) (set_sizes (file_size (bytes_sfn b)) physical info);
  lfnBuffer ← collect_long fuel dir (index file) b [];
  name ← long_name lfnBuffer;
  mret (set_info_name (until_zero name) info).

(** * Files *)

(** The entries of a new directory for itself and its parent. *)
Definition dot_entry (name : list Z) (cluster date time : Z) : list Z :=
  sfn_bytes (set_cluster cluster (mkSfn (padded 8 name) (padded 3 []) SUBDIR 0 0 time date 0 0 0 0 0 0)).

Fixpoint zero_sectors (n : nat) (i : Z) (cluster : Z) : M D unit :=
  match n with
  | O => mret tt
  | S n =>
    put_bytes (u64 (data_offset fs + u32 (cluster - 2) * cluster_size fs + u32 (i * SECTOR_SIZE))) (replicate 512 0) ;;;
    zero_sectors n (i + 1) cluster
  end.

(** The entries are written first, and then the sectors are cleared. *)
Definition make_dots (cluster parent date time : Z) : M D unit :=
  let dir := mkFileData 0 EOC cluster in
  write_entry dir 0 (dot_entry [46] cluster date time) ;;;
  write_entry dir 1 (dot_entry [46; 46] parent date time) ;;;
  zero_sectors (Z.to_nat (sectors_per_cluster fs)) 0 cluster.

Definition vfatCreateFile (fuel : nat) (garbage name : list Z) (flags now : Z) : M D unit :=
  r ← vfatFindFile fuel garbage name;
  match r with
  | None => fault
  | Some (left_, dir) =>
    match left_ with
    | [] => throw XT_FILE_ALREADY_EXISTS
    | _ =>
      if existsb is_separator left_ then throw XT_NOT_FOUND
      else
        tm ← out_or no_time (xtGetTimeFromUnix now);
        firstCluster ← find_free_cluster fs;
        set_next_cluster fs firstCluster EOC ;;;
        newIndex ← vfatFindFreeEntry fuel dir;
        if 256 <=? len left_ then fault
        else
          vfatSetFileInfo fuel (mkFileData newIndex (Vfat.firstCluster dir) firstCluster)
            (mkInfo left_ 0 0 now now now flags 0) ;;;
          if Z.land flags XT_FILE_ATTRIBUTE_DIRECTORY =? 0 then mret tt
          else make_dots firstCluster (Vfat.firstCluster dir) (dos_date tm) (dos_time tm)
    end
  end.

Definition vfatOpenFile (fuel : nat) (garbage name : list Z) : M D vfatFileData :=
  r ← vfatFindFile fuel garbage name;
  match r with
  | None => fault
  | Some (left_, parentDir) =>
    match left_ with
    | _ :: _ => throw XT_NOT_FOUND
    | [] =>
      sfn ← read_entry fs parentDir garbage (index parentDir);
      mret (mkFileData (index parentDir) (firstCluster parentDir) (sfn_cluster (bytes_sfn sfn)))
    end
  end.

(** Setting an entry to 0 is refused, see [set_next_cluster]. *)
Fixpoint free_chain (fuel : nat) (cluster : Z) : M D unit :=
  match fuel with
  | O => nofuel
  | S fuel =>
    cluster ← get_next_cluster fs cluster;
    set_next_cluster fs cluster 0 ;;;
    if cluster =? EOC then mret tt else free_chain fuel cluster
  end.

(** Whether the path was found is not looked at. *)
Definition vfatDeleteFile (fuel : nat) (garbage path : list Z) : M D unit :=
  r ← vfatFindFile fuel garbage path;
  match r with
  | None => fault
  | Some (_, dir) =>
    sfn ← read_entry fs dir garbage (index dir);
    let sfn := fill sfn [deleted] in
    write_entry dir (index dir) sfn ;;;
    drop_long fuel dir (index dir) 0 no_entry ;;;
    free_chain fuel (sfn_cluster (bytes_sfn sfn))
  end.

(** * Directories *)

(** [out->data]: the directory that holds the path's last component. *)
Definition vfatOpenDirectory (fuel : nat) (garbage path : list Z) : M D (option vfatFileData) :=
  r ← vfatFindFile fuel garbage path;
  mret (snd <$> r).

(** Reads on to the next entry that is no long entry; the index after it, its
    bytes and the long entries before it. *)
Fixpoint next_entry (fuel : nat) (dir : vfatFileData) (idx : Z) (sfn : list Z) (lfns : list lfn_dir_entry) : M D (Z * list Z * list lfn_dir_entry) :=
  match fuel with
  | O => nofuel
  | S fuel =>
    sfn ← read_entry fs dir sfn idx;
    if attributes_of sfn =? 0xf then next_entry fuel dir (idx + 1) sfn (lfns ++ [bytes_lfn sfn])
    else mret (idx + 1, sfn, lfns)
  end.

Fixpoint skip_entries (n fuel : nat) (dir : vfatFileData) (idx : Z) : M D Z :=
  match n with
  | O => mret idx
  | S n => '(idx, _, _) ← next_entry fuel dir idx no_entry []; skip_entries n fuel dir idx
  end.

(** More than 20 long entries before the one at [pos] overrun the buffer. *)
Definition vfatReadDirectory (fuel : nat) (dir : vfatFileData) (pos : Z) (info : XTFileInfo) : M D XTFileInfo :=
  idx ← skip_entries (Z.to_nat pos) fuel dir 0;
  '(_, sfn, lfnBuffer) ← next_entry fuel dir idx no_entry [];
  if 20 <? len lfnBuffer then fault
  else if first_byte sfn =? 0 then throw XT_END_OF_FILE
  else
    name ← long_name lfnBuffer;
    physical ← physical_size (file_size (bytes_sfn sfn));
    info ← vfatSFNtoFileInfo (bytes_sfn sfn) (set_sizes (file_size (bytes_sfn sfn)) physical (set_info_name (until_zero name) info));
    mret info.

End Dir.
