(* ===== verification/VfatDirProof.v ===== *)
(** Theorems on the directories of the VFAT driver. *)
From Stdlib Require Import ZArith Lia.
From stdpp Require Import base tactics list functions numbers.
From S2P Require Import Prelude Bytes Time Encodings CString VfatEntry Vfat VfatData VfatWrite VfatDir.

Open Scope Z_scope.

Section Proofs.
Context {D : Type} {B : BlockDevice D} {W : Watch D}.
Variables (fs : vfatFSData) (n size : Z).
Hypothesis G : geometry fs n size.
Implicit Types (d : D) (fat : Z -> Z) (clus : Z -> list Z).
Notation csz := (cluster_size fs).
Notation vol := (vol fs n size).

(** * Reading entries *)

(** The number of entries of a directory. *)
Definition entry_count (dcs : list Z) : Z := len dcs * csz / ENTRY.

Lemma entry_inside_iff i dcs : csz mod ENTRY = 0 -> i * ENTRY + ENTRY <= len dcs * csz <-> i < entry_count dcs.
Proof.
  intros Hm. unfold entry_count. assert ((len dcs * csz) mod ENTRY = 0) as Hm2.
  { rewrite <- Z.mul_mod_idemp_r, Hm, Z.mul_0_r by (unfold ENTRY; lia). done. }
  pose proof (Z.div_mod (len dcs * csz) ENTRY ltac:(unfold ENTRY; lia)) as H. rewrite Hm2 in H. unfold ENTRY in *. lia.
Qed.

Lemma read_code_ok d fat clus dcs dir i buf : csz mod ENTRY = 0 -> vol d fat clus -> file_ok n fat dcs -> head dcs = Some (firstCluster dir) ->
  0 <= i -> i * ENTRY + ENTRY < 2 ^ 32 -> length buf = 32%nat ->
  read_code fs dir buf i d =
    Ok (if i <? entry_count dcs then (XT_SUCCESS, entry_of i clus dcs) else (XT_END_OF_FILE, buf)) d.
Proof.
  intros Hm V F Hh Hi Hl Hb. pose proof (csz_bounds fs n size G) as Hz. pose proof (entry_inside_iff i dcs Hm) as Hin.
  unfold read_code. unfold ENTRY in *.
  assert (i * 32 / csz < 2 ^ 32) as Hq by (apply Z.div_lt_upper_bound; nia).
  rewrite (bind_Ok _ _ _ _ _ (vfat_read_ok fs n size G d fat clus dcs (firstCluster dir) dir (i * 32) 32 V F Hh eq_refl
    ltac:(lia) ltac:(lia) ltac:(lia) Hq)).
  pose proof F as (_ & _ & HF). pose proof (content_length fs n size G d fat clus dcs V HF) as Lc.
  unfold mret, M_ret. f_equal. destruct (i <? entry_count dcs) eqn:E; zbool.
  - rewrite (proj2 (Z.ltb_lt _ _)), (proj2 (Z.leb_le _ _)) by lia. cbn [andb]. f_equal. apply fill_all. unfold entry_of, ENTRY. rewrite slice_length; lia.
  - assert (len dcs * csz <= i * 32) as Hout.
    { assert (~ i * 32 + 32 <= len dcs * csz) by lia. assert ((len dcs * csz) mod 32 = 0) as Hm2.
      { rewrite <- Z.mul_mod_idemp_r, Hm, Z.mul_0_r by lia. done. }
      clear -H Hm2. set (x := len dcs * csz) in *. clearbody x. dlia. }
    rewrite (proj2 (Z.ltb_ge _ _)) by lia. cbn [andb]. f_equal. unfold slice. rewrite drop_ge by lia. rewrite take_nil. done.
Qed.

Lemma read_entry_code dir buf i d : read_entry fs dir buf i d = ('(_, b) ← read_code fs dir buf i; mret b) d.
Proof. unfold read_entry, read_code. rewrite bind_bind. unfold mbind, M_bind. destruct (vfatReadFile _ _ _ _ d) as [[??] ?| | |]; done. Qed.

Lemma read_entry_any d fat clus dcs dir i buf : csz mod ENTRY = 0 -> vol d fat clus -> file_ok n fat dcs -> head dcs = Some (firstCluster dir) ->
  0 <= i -> i * ENTRY + ENTRY < 2 ^ 32 -> length buf = 32%nat ->
  read_entry fs dir buf i d = Ok (if i <? entry_count dcs then entry_of i clus dcs else buf) d.
Proof.
  intros. rewrite read_entry_code. erewrite bind_Ok by (by eapply read_code_ok). by destruct (_ <? _).
Qed.

(** * The free entry *)

Definition entry_free (b : list Z) : Prop := first_byte b = 0 \/ first_byte b = deleted.

Lemma free_entry_ok d fat clus dcs dir : csz mod ENTRY = 0 -> vol d fat clus -> file_ok n fat dcs -> head dcs = Some (firstCluster dir) ->
  entry_count dcs * ENTRY + ENTRY < 2 ^ 32 ->
  forall fuel i, 0 <= i <= entry_count dcs -> (Z.to_nat (entry_count dcs - i) < fuel)%nat ->
    exists k, free_entry_loop fs fuel dir i d = Ok k d /\ i <= k <= entry_count dcs /\
      (k < entry_count dcs -> entry_free (entry_of k clus dcs)) /\ forall j, i <= j < k -> ~ entry_free (entry_of j clus dcs).
Proof.
  intros Hm V F Hh Hl fuel. unfold ENTRY in Hl. induction fuel as [|fuel IH]; intros i Hi Hf; [lia|]. cbn [free_entry_loop].
  rewrite (bind_Ok _ _ _ _ _ (read_entry_any d fat clus dcs dir i no_entry Hm V F Hh ltac:(lia) ltac:(unfold ENTRY; lia) eq_refl)).
  destruct (i <? entry_count dcs) eqn:E; zbool.
  - destruct ((first_byte (entry_of i clus dcs) =? 0) || (first_byte (entry_of i clus dcs) =? deleted)) eqn:E2; zbool.
    + exists i. split; [done|]. split; [lia|]. split; [|lia]. intros _. unfold entry_free. by destruct E2 as [?|?]; zbool; [left|right].
    + rewrite u32_small by lia. destruct (IH (i + 1)) as (k & R & Hk & K1 & K2); [lia|lia|]. exists k. split; [done|]. split; [lia|].
      split; [done|]. intros j Hj. destruct (decide (j = i)) as [->|]; [unfold entry_free; lia|apply K2; lia].
  - exists i. split; [done|]. split; [lia|]. split; lia.
Qed.

(** * Deleting *)

Lemma set_zero_refused c d : set_next_cluster fs c 0 d = Ok 0 d.
Proof. unfold set_next_cluster. by destruct (c <? 2). Qed.

Lemma free_chain_nothing d fat clus cs : vol d fat clus -> forall c, chain fat (c :: cs) -> Forall (fun c => 2 <= c < n) (c :: cs) ->
  free_chain fs (S (length cs)) c d = Ok tt d.
Proof.
  intros V. pose proof (g_clusters _ _ _ G) as Hn. fold (entries fs) in Hn. induction cs as [|c' cs IH]; intros c Hch HF; cbn [free_chain length].
  - apply list.Forall_cons in HF as [Hc _]. rewrite (bind_Ok _ _ _ _ _ (vol_next fs n size G d fat clus c V ltac:(lia))).
    apply chain_cons in Hch. rewrite Hch. by rewrite (bind_Ok _ _ _ _ _ (set_zero_refused EOC d)).
  - pose proof HF as [Hc HF']%list.Forall_cons. rewrite (bind_Ok _ _ _ _ _ (vol_next fs n size G d fat clus c V ltac:(lia))).
    apply chain_cons in Hch as [-> Hch]. pose proof HF' as [Hc' _]%list.Forall_cons.
    rewrite (bind_Ok _ _ _ _ _ (set_zero_refused c' d)).
    rewrite (proj2 (Z.eqb_neq c' EOC)) by lia. by apply IH.
Qed.

(** * New directories *)

Lemma dot_entry_length name c date time : len (dot_entry name c date time) = 32.
Proof. unfold dot_entry, sfn_bytes, set_cluster, padded. cbn [sfn_name sfn_ext]. rewrite !length_app, !le_length. cbn [length]. rewrite !length_take, !length_app, !length_replicate. lia. Qed.

Lemma write_entry_ok d fat clus dcs dir i b : vol d fat clus -> file_ok n fat dcs -> guarded fs n fat -> head dcs = Some (firstCluster dir) ->
  entry_ok fs i dcs -> len b = ENTRY ->
  exists d' fat' clus' dcs', write_entry fs dir i b d = Ok tt d' /\ vol d' fat' clus' /\ grows n fat dcs fat' dcs' /\
    (forall x, x ∉ dcs' -> clus' x = clus x) /\ content clus' dcs' = splice (i * ENTRY) b (content clus dcs').
Proof.
  intros V F Gd Hh [Hi Hin] Lb. pose proof (csz_bounds fs n size G) as Hz. unfold write_entry. unfold ENTRY in *.
  destruct (write_clusters_ok fs n size G d fat clus dcs (firstCluster dir) (i * 32) b V F (or_introl Gd) Hh)
    as (r & d' & fat' & clus' & dcs' & w' & R & V' & W' & O' & _); [lia|lia|apply Z.div_lt_upper_bound; nia|].
  rewrite (bind_Ok _ _ _ _ _ R). destruct W' as (G' & Fr & Bd & Lw & C). exists d', fat', clus', dcs'.
  split; [done|]. split; [done|]. split; [done|]. split; [done|].
  assert (w' = 32) as ->.
  { destruct r as [k|]; destruct O' as [O1 O']; [lia|]. destruct (grows_new _ _ _ _ _ G') as (new & E & _).
    assert (len dcs <= len dcs') by (rewrite E, length_app; lia). nia. }
  rewrite C, Z.add_0_r, Z.sub_0_r. f_equal. rewrite <- Lb. apply slice_all.
Qed.

Lemma zero_sectors_ok fat c : bytes_per_sector fs = 512 -> 2 <= c < n ->
  forall k i d clus, vol d fat clus -> 0 <= i -> i + Z.of_nat k = sectors_per_cluster fs ->
    (exists l, clus c = replicate (Z.to_nat (i * 512)) 0 ++ l) ->
    exists d' clus', zero_sectors fs k i c d = Ok tt d' /\ vol d' fat clus' /\ clus' c = replicate (Z.to_nat csz) 0 /\
      forall x, x <> c -> clus' x = clus x.
Proof.
  intros Hb Hc. pose proof (csz_eq fs n size G) as Ecsz. rewrite Hb in Ecsz. pose proof (csz_bounds fs n size G) as Hz.
  induction k as [|k IH]; intros i d clus V Hi Hk (l & El); cbn [zero_sectors].
  - exists d, clus. split; [done|]. split; [done|]. split; [|done]. pose proof (vol_clus_length fs n size G d fat clus c V Hc) as L.
    rewrite El in *. rewrite length_app, length_replicate in L. assert (length l = 0)%nat as ->%nil_length_inv by lia.
    rewrite app_nil_r. f_equal. lia.
  - pose proof (vol_clus_length fs n size G d fat clus c V Hc) as L.
    destruct (vol_write fs n size G d fat clus c (i * 512) (replicate 512 0) V Hc) as (d1 & R1 & V1); [lia|rewrite length_replicate; lia|rewrite length_replicate; nia|].
    unfold put_bytes. rewrite (u32_small (i * SECTOR_SIZE)) by (unfold SECTOR_SIZE; nia). unfold SECTOR_SIZE. fold (write_offset fs c (i * 512)).
    rewrite bind_bind, (bind_Ok _ _ _ _ _ (out_or_Ok _ _ _ _ _ R1)), bind_ret.
    destruct (IH (i + 1) d1 _ V1) as (d' & clus' & R' & V' & E' & Fr'); [lia|lia| |].
    + rewrite fn_lookup_insert. rewrite El in L |- *. rewrite length_app, length_replicate in L. exists (drop 512 l).
      unfold splice. rewrite take_app_ge by (rewrite length_replicate; lia). rewrite length_replicate.
      replace (Z.to_nat (i * 512) - Z.to_nat (i * 512))%nat with O by lia. rewrite take_0, app_nil_r.
      rewrite drop_app_ge by (rewrite !length_replicate; lia). rewrite !length_replicate.
      replace (Z.to_nat (i * 512) + 512 - Z.to_nat (i * 512))%nat with 512%nat by lia.
      rewrite app_assoc, <- replicate_add. do 2 f_equal. lia.
    + exists d', clus'. split; [done|]. split; [done|]. split; [done|]. intros x Hx. rewrite Fr' by done. by rewrite fn_lookup_insert_ne.
Qed.

End Proofs.

Section Theorems.
Context {D : Type} {B : BlockDevice D} {W : Watch D}.

(** [vfatDeleteFile] frees nothing: the loop over the file's clusters asks [set_next_cluster] to store 0, which it refuses, so the loop ends at the end of the chain with the device as it was. *)
Theorem delete_frees_nothing (fs : vfatFSData) (n size : Z) (d : D) (fat : Z -> Z) (clus : Z -> list Z) (c : Z) (cs : list Z) :
  geometry fs n size -> vol fs n size d fat clus -> file_ok n fat (c :: cs) -> free_chain fs (S (length cs)) c d = Ok tt d.
Proof. intros G V (Hch & _ & HF). by apply (free_chain_nothing fs n size G d fat clus). Qed.

(** [vfatFindFreeEntry] finds the first entry of a directory that was deleted or never used, or the place right behind the directory's last cluster when there is none. *)
Theorem find_free_entry_first (fs : vfatFSData) (n size : Z) (d : D) (fat : Z -> Z) (clus : Z -> list Z) (dcs : list Z) (dir : vfatFileData) :
  geometry fs n size -> vol fs n size d fat clus -> file_ok n fat dcs -> head dcs = Some (firstCluster dir) ->
  cluster_size fs mod ENTRY = 0 -> entry_count fs dcs * ENTRY + ENTRY < 2 ^ 32 ->
  exists k, vfatFindFreeEntry fs (S (Z.to_nat (entry_count fs dcs))) dir d = Ok k d /\ 0 <= k <= entry_count fs dcs /\
    (k < entry_count fs dcs -> entry_free (entry_of k clus dcs)) /\ forall j, 0 <= j < k -> ~ entry_free (entry_of j clus dcs).
Proof.
  intros G V F Hh Hm Hs. apply (free_entry_ok fs n size G d fat clus dcs dir Hm V F Hh Hs); [|lia].
  pose proof (csz_bounds fs n size G). split; [lia|]. apply Z.div_pos; unfold ENTRY; lia.
Qed.

(** A new directory has no entries for itself and its parent: [vfatCreateFile] writes them and then clears every sector of the cluster. *)
Theorem new_directory_has_no_dots (fs : vfatFSData) (n size : Z) (d : D) (fat : Z -> Z) (clus : Z -> list Z) (c parent date time : Z) :
  geometry fs n size -> vol fs n size d fat clus -> guarded fs n fat -> file_ok n fat [c] -> bytes_per_sector fs = 512 ->
  exists d' fat' clus', make_dots fs c parent date time d = Ok tt d' /\ vol fs n size d' fat' clus' /\
    clus' c = replicate (Z.to_nat (cluster_size fs)) 0.
Proof.
  intros G V Gd F Hb. pose proof (csz_eq fs n size G) as Ecsz. rewrite Hb in Ecsz. pose proof (csz_bounds fs n size G) as Hz. unfold make_dots.
  assert (forall i, 0 <= i <= 1 -> forall dcs, [c] `prefix_of` dcs -> entry_ok fs i dcs) as He.
  { intros i Hi dcs [l ->]. split; unfold ENTRY; [lia|]. rewrite length_app. cbn [length]. nia. }
  destruct (write_entry_ok fs n size G d fat clus [c] (mkFileData 0 EOC c) 0 (dot_entry [46] c date time) V F Gd eq_refl
    (He 0 ltac:(lia) [c] ltac:(done)) (dot_entry_length _ _ _ _)) as (d1 & fat1 & clus1 & dcs1 & R1 & V1 & G1 & _ & _).
  rewrite (bind_Ok _ _ _ _ _ R1). destruct (grows_new _ _ _ _ _ G1) as (new1 & E1 & _).
  assert (head dcs1 = Some c) as Hh1 by (by rewrite E1).
  destruct (write_entry_ok fs n size G d1 fat1 clus1 dcs1 (mkFileData 0 EOC c) 1 (dot_entry [46; 46] parent date time) V1 (grows_file _ _ _ _ _ G1)
    (grows_guarded fs n _ _ _ _ G1 Gd) Hh1 (He 1 ltac:(lia) dcs1 ltac:(by exists new1)) (dot_entry_length _ _ _ _)) as (d2 & fat2 & clus2 & dcs2 & R2 & V2 & G2 & _ & _).
  rewrite (bind_Ok _ _ _ _ _ R2). destruct F as (_ & _ & [Hc _]%list.Forall_cons).
  destruct (zero_sectors_ok fs n size G fat2 c Hb Hc (Z.to_nat (sectors_per_cluster fs)) 0 d2 clus2 V2) as (d3 & clus3 & R3 & V3 & E3 & _);
    [lia|nia|by exists (clus2 c)|]. by exists d3, fat2, clus3.
Qed.

End Theorems.

Lemma delete_frees_nothing_witness : free_chain small_fs 1 3 small_disk = Ok tt small_disk.
Proof. apply (delete_frees_nothing small_fs 6 384 small_disk small_fat small_clus 3 [] small_geometry small_vol (proj1 small_files)). Defined.

Lemma find_free_entry_first_witness :
  exists k, vfatFindFreeEntry small_fs 3 (mkFileData 0 EOC 2) small_disk = Ok k small_disk /\ 0 <= k <= 2 /\
    (k < 2 -> entry_free (entry_of k small_clus [2])) /\ forall j, 0 <= j < k -> ~ entry_free (entry_of j small_clus [2]).
Proof.
  apply (find_free_entry_first small_fs 6 384 small_disk small_fat small_clus [2] (mkFileData 0 EOC 2) small_geometry small_vol
    (proj1 (proj2 small_files)) eq_refl); by vm_compute.
Defined.

(** A volume with sectors of 512 bytes. *)
Definition wide_fs : vfatFSData := mkFSData 32 1 512 1 576 (mkFileData 0 EOC 2).

Definition wide_disk : list Z := replicate 512 0 ++ small_table ++ small_table ++ replicate (4 * 512) 1.

Lemma new_directory_has_no_dots_witness :
  exists d' fat' clus', make_dots wide_fs 3 2 0 0 wide_disk = Ok tt d' /\ vol wide_fs 6 2624 d' fat' clus' /\ clus' 3 = replicate 512 0.
Proof.
  apply (new_directory_has_no_dots wide_fs 6 2624 wide_disk (fun c => of_le (slice (fat_at wide_fs c) 4 wide_disk))
    (fun c => slice (cluster_at wide_fs c) (cluster_size wide_fs) wide_disk) 3 2 0 0).
  - split; repeat split; by vm_compute.
  - split; [by vm_compute|done|done|done].
  - intros c Hc. change (entries wide_fs) with 8 in Hc. assert (c = 6 \/ c = 7) as [-> | ->] by lia; by vm_compute.
  - split; [by split; [vm_compute|]|split; [apply NoDup_singleton|by apply list.Forall_singleton]].
  - done.
Defined.
