(* ===== verification/VfatLookup.v ===== *)
(** Looking a name up in a directory of the VFAT driver: each file is its long
    entries, which spell its name, and its short entry. *)
From Stdlib Require Import ZArith Lia.
From stdpp Require Import base tactics list functions numbers.
From S2P Require Import Prelude Bytes Time Encodings CString Paths VfatEntry Vfat VfatData VfatWrite VfatDir VfatDirProof.

Open Scope Z_scope.

(** * The specification *)

(** A file of a directory: the code points of its name, its long entries in the
    order in which they lie on the disk, and its short entry. *)
Record dir_file := mkDirFile { df_name : list Z; df_long : list lfn_dir_entry; df_sfn : list Z }.

Definition units (cps : list Z) : list Z := concat (map utf16_encode cps).

Definition utf8 (cps : list Z) : list Z := concat (map utf8_encode cps).

Definition df_entries (f : dir_file) : list (list Z) := map lfn_bytes (df_long f) ++ [df_sfn f].

(** At most 20 long entries, none marked as deleted, that spell the name: the
    13 units of the last of them on the disk come first, each entry's up to a 0
    or 0xFFFF. *)
Record spells (es : list lfn_dir_entry) (w : list Z) : Prop := mkSpells {
  spells_entries : Forall (fun e => lfn_ok e /\ lfn_attributes e = 0x0F /\ 0 < order e < 128) es;
  spells_count : len es <= 20;
  spells_units : concat (map (fun e => until_end (name0 e ++ name1 e ++ name2 e)) (rev es)) = w
}.

Record df_ok (f : dir_file) : Prop := mkDfOk {
  df_scalars : Forall scalar (df_name f);
  df_spells : spells (df_long f) (units (df_name f));
  df_length : len (units (df_name f)) <= 255 /\ len (utf8 (df_name f)) <= 255;
  df_short : first_byte (df_sfn f) <> 0 /\ first_byte (df_sfn f) <> deleted /\ attributes_of (df_sfn f) <> 0x0F
}.

(** The first file with the name: the index of its short entry, and the entry. *)
Fixpoint dir_lookup (name : list Z) (files : list dir_file) (i : Z) : option (Z * list Z) :=
  match files with
  | [] => None
  | f :: files =>
    if decide (name = utf8 (df_name f)) then Some (i + len (df_long f), df_sfn f)
    else dir_lookup name files (i + len (df_long f) + 1)
  end.

(** * Names *)

Lemma utf8_encode_nonzero cp : scalar cp -> Forall (fun b => b <> 0) (utf8_encode cp).
Proof. intros [Hs _]. unfold utf8_encode. repeat case_match; zbool; repeat constructor; dlia. Qed.

Lemma c_string_terminated l : Forall (fun b => b <> 0) l -> c_string (l ++ [0]) = Some l.
Proof. induction 1 as [|b l Hb _ IH]; [done|]. cbn [app c_string]. by rewrite (proj2 (Z.eqb_neq b 0)), IH. Qed.

Lemma utf8_nonzero cps : Forall scalar cps -> Forall (fun b => b <> 0) (utf8 cps).
Proof. unfold utf8. induction 1 as [|cp cps Hc _ IH]; [constructor|]. cbn [map concat]. apply list.Forall_app. split; [by apply utf8_encode_nonzero|done]. Qed.

Lemma name_equal_ok {S} name full (s : S) : Forall (fun b => b <> 0) name -> Forall (fun b => b <> 0) full -> len name <= 255 -> len full <= 255 ->
  name_equal name (full ++ [0]) s = Ok (bool_decide (name = full)) s.
Proof.
  intros H1 H2 L1 L2. unfold name_equal, attempt. unfold mbind, M_bind.
  rewrite (strcmp_ok (name ++ [0]) (full ++ [0]) name full 256 s (c_string_terminated _ H1) (c_string_terminated _ H2)) by lia.
  rewrite !take_ge by lia. destruct (decide (name = full)) as [E|E]; [by rewrite bool_decide_true|by rewrite bool_decide_false].
Qed.

Lemma long_name_ok {S} (f : dir_file) (s : S) : df_ok f -> long_name (df_long f) s = Ok (utf8 (df_name f) ++ [0]) s.
Proof.
  intros [Hs Hc [Hl1 Hl2] _]. unfold long_name.
  assert (lfn_name (df_long f) = units (df_name f)) as ->.
  { unfold lfn_name. rewrite fold_copy by (cbn; lia). cbn [app]. unfold lfn_chars. rewrite (spells_units _ _ Hc). apply take_ge. lia. }
  pose proof (utf16_string_ok (df_name f) [] s Hs) as E. rewrite app_nil_r in E. unfold utf16_string in E. fold (units (df_name f)) in E.
  rewrite (bind_Ok _ _ _ _ _ E). unfold utf8_string. fold (utf8 (df_name f)). rewrite length_app. cbn [length].
  rewrite Z.gtb_ltb, (proj2 (Z.ltb_ge _ _)) by lia. done.
Qed.

(** * Long entries *)

(** Their number and what marks them. *)
Lemma lfn_loop_marks wname cs count base : 0 <= count <= 20 -> forall fuel i pos, 1 <= i ->
  Forall (fun e => lfn_attributes e.2 = 0x0F /\ 0 < order e.2 < 128) (lfn_loop fuel wname cs count base i pos).
Proof.
  intros Hc fuel. induction fuel as [|fuel IH]; intros i pos Hi; cbn [lfn_loop]; [constructor|].
  destruct ((i <=? count) && (pos <? len wname)) eqn:E; zbool; [|constructor]. unfold make_lfn. constructor; [|apply IH; lia]. cbn [snd lfn_attributes order].
  split; [done|]. rewrite u8_small by lia. destruct (i =? 1); [|lia].
  assert (count - i + 1 = 1 \/ count - i + 1 = 2 \/ count - i + 1 = 3 \/ count - i + 1 = 4 \/ count - i + 1 = 5 \/ count - i + 1 = 6 \/ count - i + 1 = 7 \/
    count - i + 1 = 8 \/ count - i + 1 = 9 \/ count - i + 1 = 10 \/ 10 < count - i + 1 <= 20) as Hx by lia.
  unfold ORed. pose proof (lor_small (count - i + 1) 64 7 ltac:(lia) ltac:(lia) ltac:(lia)) as Hb.
  split; [|lia]. assert (Z.lor (count - i + 1) 64 <> 0); [|lia]. intros K%Z.lor_eq_0_iff. lia.
Qed.

(** What the driver writes for a name of up to 13 units spells it. *)
Lemma driver_spells w cs base : Forall name_char w -> len w <= 13 -> spells (map snd (rev (lfn_entries w cs base))) w.
Proof.
  intros Hc Hl. assert (0 <= countOfLFNEntries w <= 20) as Hn by (unfold countOfLFNEntries; dlia).
  destruct (lfn_loop_spec w cs base Hc ltac:(lia) (Z.to_nat (countOfLFNEntries w)) 1 ltac:(lia) ltac:(lia)) as [K1 K2].
  rewrite Z.min_l in K1, K2 by lia. change (lfn_loop _ _ _ _ _ 1 (11 * (1 - 1))) with (lfn_entries w cs base) in K1, K2.
  split.
  - apply Forall_map. apply Forall_rev. apply list.Forall_and. split.
    + apply (lfn_loop_ok w cs (countOfLFNEntries w) base Hc).
    + apply lfn_loop_marks; [done|lia].
  - rewrite length_map, length_rev. apply (f_equal length) in K1. rewrite !length_map, length_seq in K1. lia.
  - rewrite (map_rev snd), rev_involutive. unfold lfn_chars in K2. rewrite K2. transitivity (lfn_spelled w); [|by apply spelled_short]. unfold lfn_spelled.
    replace (countOfLFNEntries w + 1 - 1) with (countOfLFNEntries w) by lia. rewrite take_ge; [done|].
    transitivity (length (concat (map (fun k : nat => w) (seq 0 (Z.to_nat (countOfLFNEntries w)))))).
    + generalize (seq 0 (Z.to_nat (countOfLFNEntries w))). intros l. induction l as [|k l IH]; [done|]. cbn [map concat]. rewrite !length_app.
      unfold slice at 1. rewrite length_take, length_drop. lia.
    + assert (Z.to_nat (countOfLFNEntries w) <= 1)%nat as H1 by (unfold countOfLFNEntries; dlia).
      destruct (Z.to_nat (countOfLFNEntries w)) as [|[|k]]; cbn; rewrite ?length_app; cbn; lia.
Qed.

Lemma lfn_bytes_marks e : lfn_ok e -> first_byte (lfn_bytes e) = order e /\ attributes_of (lfn_bytes e) = lfn_attributes e.
Proof.
  intros H. destruct e as [o n0 a t cs n1 fc n2]. destruct H as [(H0 & H1 & H2) _]. cbn in H0, H1, H2. explode n0. unfold first_byte, attributes_of, lfn_bytes, words_bytes, slice.
  split; cbv -[Z.div Z.modulo Z.mul Z.add]; lia.
Qed.

Section Lookup.
Context {D : Type} {B : BlockDevice D} {W : Watch D}.
Variables (fs : vfatFSData) (n size : Z).
Hypothesis G : geometry fs n size.
Variables (d : D) (fat : Z -> Z) (clus : Z -> list Z) (dcs : list Z) (dir : vfatFileData).
Hypothesis V : vol fs n size d fat clus.
Hypothesis F : file_ok n fat dcs.
Hypothesis Hhead : head dcs = Some (firstCluster dir).
Hypothesis Hentries : cluster_size fs mod ENTRY = 0.
Hypothesis Hsmall : entry_count fs dcs * ENTRY + ENTRY < 2 ^ 32.

(** The entries from [i] on are [es]. *)
Definition entries_at (i : Z) (es : list (list Z)) : Prop :=
  0 <= i /\ i + len es <= entry_count fs dcs /\ forall k e, es !! k = Some e -> entry_of (i + Z.of_nat k) clus dcs = e.

Lemma entries_at_cons i e es : entries_at i (e :: es) -> entries_at (i + 1) es /\ i < entry_count fs dcs /\ entry_of i clus dcs = e.
Proof.
  intros (Hi & Hl & H). cbn [length] in Hl. split; [|split; [lia|]].
  - split; [lia|]. split; [lia|]. intros k x Hk. rewrite <- (H (S k) x Hk). f_equal. lia.
  - rewrite <- (H 0%nat e eq_refl). f_equal. lia.
Qed.

Lemma entries_at_app es1 : forall i es2, entries_at i (es1 ++ es2) -> entries_at (i + len es1) es2.
Proof.
  induction es1 as [|e es1 IH]; intros i es2 H; [by rewrite Z.add_0_r|]. cbn [app] in H. apply entries_at_cons in H as (H & _ & _).
  apply IH in H. cbn [length]. by replace (i + Z.of_nat (S (length es1))) with (i + 1 + len es1) by lia.
Qed.

Lemma read_at i sfn : i < entry_count fs dcs -> 0 <= i -> length sfn = 32%nat ->
  read_code fs dir sfn i d = Ok (XT_SUCCESS, entry_of i clus dcs) d /\ length (entry_of i clus dcs) = 32%nat.
Proof.
  intros Hi H0 Hs. split.
  - rewrite (read_code_ok fs n size G d fat clus dcs dir i sfn Hentries V F Hhead H0 ltac:(unfold ENTRY in *; lia) Hs).
    by rewrite (proj2 (Z.ltb_lt _ _)).
  - apply (entry_length fs n size G d fat); [done|done|]. split; [unfold ENTRY in *; lia|]. by apply entry_inside_iff.
Qed.

Lemma scan_long es : Forall (fun e => lfn_ok e /\ lfn_attributes e = 0x0F /\ 0 < order e < 128) es ->
  forall fuel name sfn i buf, entries_at i (map lfn_bytes es) -> len buf + len es <= 20 -> length sfn = 32%nat ->
    exists sfn', length sfn' = 32%nat /\
      scan fs (length es + fuel) dir name sfn i buf d = scan fs fuel dir name sfn' (i + len es) (buf ++ es) d.
Proof.
  induction 1 as [|e es (Hok & Ha & Ho) _ IH]; intros fuel name sfn i buf He Hl Hs.
  { exists sfn. split; [done|]. by rewrite app_nil_r, Z.add_0_r. }
  cbn [map] in He. pose proof He as (Hi & _ & _). apply entries_at_cons in He as (He & Hlt & E). cbn [length] in Hl.
  destruct (read_at i sfn Hlt Hi Hs) as [R L]. cbn [length Nat.add scan]. rewrite (bind_Ok _ _ _ _ _ R). rewrite Z.eqb_refl. cbn [negb].
  rewrite E in *. destruct (lfn_bytes_marks e Hok) as [-> ->]. rewrite Ha.
  rewrite (proj2 (Z.eqb_neq (order e) 0)) by lia. rewrite Z.eqb_refl, orb_true_r. rewrite (proj2 (Z.ltb_lt _ _)) by lia. cbn [andb].
  rewrite bytes_lfn_bytes by done.
  destruct (IH fuel name (lfn_bytes e) (i + 1) (buf ++ [e]) He) as (sfn' & L' & R'); [rewrite length_app; cbn [length]; lia|done|].
  exists sfn'. split; [done|]. rewrite R', <- app_assoc. cbn [length app]. f_equal. lia.
Qed.

Lemma scan_file f fuel name sfn i : df_ok f -> entries_at i (df_entries f) -> length sfn = 32%nat ->
  Forall (fun b => b <> 0) name -> len name <= 255 ->
  exists sfn', length sfn' = 32%nat /\
    scan fs (length (df_long f) + S fuel) dir name sfn i [] d =
      if decide (name = utf8 (df_name f)) then Ok (Some (i + len (df_long f), df_sfn f)) d
      else scan fs fuel dir name sfn' (i + len (df_long f) + 1) [] d.
Proof.
  intros Hf He Hs Hn Hnl. destruct (df_spells f Hf) as [Hlong Hl20 _].
  destruct (scan_long (df_long f) Hlong (S fuel) name sfn i []) as (sfn1 & L1 & R1); [|cbn [length]; lia|done|].
  { destruct He as (Hi & Hb & He). unfold df_entries in Hb. rewrite length_app, length_map in Hb. split; [done|]. split; [rewrite length_map; cbn in Hb; lia|]. intros k e Hk. apply He. unfold df_entries.
    rewrite lookup_app_l; [done|]. by eapply lookup_lt_Some. }
  exists (df_sfn f). pose proof He as (Hi & _ & _). apply entries_at_app in He. rewrite length_map in He.
  apply entries_at_cons in He as (_ & Hlt & E). destruct (read_at (i + len (df_long f)) sfn1 Hlt ltac:(lia) L1) as [R L]. rewrite E in L.
  split; [done|]. rewrite R1. cbn [app scan]. rewrite (bind_Ok _ _ _ _ _ R), Z.eqb_refl. cbn [negb]. rewrite E.
  destruct (df_short f Hf) as (S1 & S2 & S3). rewrite !(proj2 (Z.eqb_neq _ _)) by done. cbn [orb].
  rewrite (bind_Ok _ _ _ _ _ (long_name_ok f d Hf)).
  rewrite (bind_Ok _ _ _ _ _ (name_equal_ok name (utf8 (df_name f)) d Hn (utf8_nonzero _ (df_scalars f Hf)) Hnl (proj2 (df_length f Hf)))).
  destruct (decide (name = utf8 (df_name f))) as [H|H]; [by rewrite bool_decide_true|by rewrite bool_decide_false].
Qed.

Definition dir_entries (files : list dir_file) : list (list Z) := concat (map df_entries files).

(** Behind the files the directory ends: by its last cluster or by an entry that
    begins with 0. *)
Definition dir_end (i : Z) : Prop := i = entry_count fs dcs \/ (i < entry_count fs dcs /\ first_byte (entry_of i clus dcs) = 0).

Lemma scan_files files : Forall df_ok files -> forall fuel name sfn i, entries_at i (dir_entries files) -> dir_end (i + len (dir_entries files)) ->
  length sfn = 32%nat -> Forall (fun b => b <> 0) name -> len name <= 255 -> (length (dir_entries files) < fuel)%nat ->
  scan fs fuel dir name sfn i [] d = Ok (dir_lookup name files i) d.
Proof.
  induction 1 as [|f files Hf _ IH]; intros fuel name sfn i He Hend Hs Hn Hnl Hfuel.
  - cbn [dir_entries map concat length] in Hend. rewrite Z.add_0_r in Hend. pose proof He as (Hi & _ & _).
    destruct fuel as [|fuel]; [cbn in Hfuel; lia|]. cbn [scan dir_lookup].
    rewrite (bind_Ok _ _ _ _ _ (read_code_ok fs n size G d fat clus dcs dir i sfn Hentries V F Hhead Hi
      ltac:(unfold dir_end, ENTRY in *; lia) Hs)).
    destruct Hend as [->|[Hlt H0]]; [by rewrite Z.ltb_irrefl|]. rewrite (proj2 (Z.ltb_lt _ _)) by lia. rewrite Z.eqb_refl. cbn [negb]. by rewrite H0.
  - change (dir_entries (f :: files)) with (df_entries f ++ dir_entries files) in *. rewrite length_app in Hfuel, Hend.
    assert (length (df_entries f) = S (length (df_long f))) as Lf by (unfold df_entries; rewrite length_app, length_map; cbn; lia).
    assert (entries_at i (df_entries f)) as He1.
    { destruct He as (Hi & Hb & He). rewrite length_app in Hb. split; [done|]. split; [lia|]. intros k e Hk. apply He.
      rewrite lookup_app_l; [done|]. by eapply lookup_lt_Some. }
    destruct (scan_file f (fuel - S (length (df_long f))) name sfn i Hf He1 Hs Hn Hnl) as (sfn' & L' & R).
    replace (length (df_long f) + S (fuel - S (length (df_long f))))%nat with fuel in R by lia. rewrite R. cbn [dir_lookup].
    destruct (decide _); [done|]. apply entries_at_app in He. rewrite Lf in He.
    apply IH; try done; [|rewrite Lf in Hend|lia].
    + by replace (i + len (df_long f) + 1) with (i + Z.of_nat (S (length (df_long f)))) by lia.
    + by replace (i + len (df_long f) + 1 + len (dir_entries files)) with (i + Z.of_nat (S (length (df_long f)) + length (dir_entries files))) by lia.
Qed.

Lemma dir_lookup_at files : forall name i j sfn, entries_at i (dir_entries files) -> dir_lookup name files i = Some (j, sfn) ->
  0 <= j < entry_count fs dcs /\ entry_of j clus dcs = sfn.
Proof.
  induction files as [|f files IH]; intros name i j sfn He Hj; [done|]. cbn [dir_lookup] in Hj.
  change (dir_entries (f :: files)) with (df_entries f ++ dir_entries files) in He. destruct (decide _).
  - injection Hj as <- <-. unfold df_entries in He. rewrite <- app_assoc in He. pose proof He as (Hi & _ & _). apply entries_at_app in He. rewrite length_map in He.
    apply entries_at_cons in He as (_ & Hlt & E). split; [lia|done].
  - apply (IH name (i + len (df_long f) + 1)); [|done]. apply entries_at_app in He. unfold df_entries in He. rewrite length_app, length_map in He.
    cbn [length] in He. by replace (i + len (df_long f) + 1) with (i + Z.of_nat (length (df_long f) + 1)) by lia.
Qed.

End Lookup.

Lemma skip_name name : Forall (fun c => is_separator c = false) name -> skip_separators name = name.
Proof. intros H. destruct name as [|c name]; [done|]. apply list.Forall_cons in H as [H _]. cbn [skip_separators]. by rewrite H. Qed.

Section Open.
Context {D : Type} {B : BlockDevice D} {W : Watch D}.

(** C21: [vfatOpenFile] of a name in the root directory, which holds one file after another, each with at most 20 long entries that spell its name (as the driver writes them for names of up to 13 units, and other systems for all names) and its short entry: the file object has the index of the short entry of the first file with exactly that name, the cluster of the directory, and the first cluster from that entry; when no file has the name the result is [XT_NOT_FOUND]. The device is not changed. *)
Theorem open_root_file (fs : vfatFSData) (n size : Z) (d : D) (fat : Z -> Z) (clus : Z -> list Z) (dcs : list Z) (r : Z)
    (files : list dir_file) (name garbage : list Z) :
  geometry fs n size -> vol fs n size d fat clus -> rootDir fs = mkFileData 0 EOC r -> file_ok n fat dcs -> head dcs = Some r ->
  cluster_size fs mod ENTRY = 0 -> entry_count fs dcs * ENTRY + ENTRY < 2 ^ 32 ->
  Forall df_ok files -> entries_at fs clus dcs 0 (dir_entries files) -> dir_end fs clus dcs (len (dir_entries files)) ->
  name <> [] -> Forall (fun b => b <> 0 /\ is_separator b = false) name -> len name <= 255 -> length garbage = 32%nat ->
  vfatOpenFile fs (S (length (dir_entries files))) garbage name d =
    match dir_lookup name files 0 with
    | Some (i, sfn) => Ok (mkFileData i r (sfn_cluster (bytes_sfn sfn))) d
    | None => Err XT_NOT_FOUND d
    end.
Proof.
  intros G V Hr F Hh Hm Hs Hf He Hend Hne Hname Hl Hg. apply list.Forall_and in Hname as [Hn0 Hns].
  unfold vfatOpenFile, vfatFindFile. assert (exists k, length name = S k) as [k Ek] by (destruct name; [done|by eexists]). rewrite Ek.
  assert (find_loop fs (S k) (S (length (dir_entries files))) garbage name (rootDir fs) d =
    Ok (Some (match dir_lookup name files 0 with Some (i, _) => ([], mkFileData i EOC r) | None => (name, rootDir fs) end)) d) as R.
  { cbn [find_loop]. rewrite skip_name by done. destruct name as [|c t]; [done|].
    rewrite <- (app_nil_r (c :: t)), component_name by (done || lia). rewrite app_nil_r.
    rewrite (bind_Ok _ _ _ _ _ (scan_files fs n size G d fat clus dcs (rootDir fs) V F ltac:(by rewrite Hr) Hm Hs files Hf
      (S (length (dir_entries files))) (c :: t) garbage 0 He Hend Hg Hn0 Hl ltac:(lia))).
    destruct (dir_lookup (c :: t) files 0) as [[i sfn]|]; [|done]. cbn [skip_separators]. by rewrite Hr. }
  rewrite (bind_Ok _ _ _ _ _ R). destruct (dir_lookup name files 0) as [[i sfn]|] eqn:Ed.
  - destruct (dir_lookup_at fs clus dcs files name 0 i sfn He Ed) as [Hi E].
    rewrite (bind_Ok _ _ _ _ _ (read_entry_any fs n size G d fat clus dcs (mkFileData i EOC r) i garbage Hm V F Hh ltac:(lia)
      ltac:(unfold ENTRY in *; lia) Hg)).
    rewrite (proj2 (Z.ltb_lt _ _)) by lia. by rewrite E.
  - by destruct name.
Qed.

End Open.

(** * A directory with two files *)

Definition dir_fs : vfatFSData := mkFSData 32 1 128 1 192 (mkFileData 0 EOC 2).

(** A name of 14 units in two long entries, the end of it first. *)
Definition dir_name : list Z := map Z.of_nat (seq 97 14).

Definition dir_files : list dir_file :=
  [mkDirFile dir_name
     [mkLfn 0x42 (110 :: replicate 4 0) 0x0F 0 7 (replicate 6 0xFFFF) 0 (replicate 2 0xFFFF);
      mkLfn 1 (take 5 dir_name) 0x0F 0 7 (slice 5 6 dir_name) 0 (slice 11 2 dir_name)]
     (padded 8 [65] ++ padded 3 [66] ++ [0x20] ++ replicate 14 0 ++ [3; 0] ++ replicate 4 0)].

Definition dir_disk : list Z :=
  replicate 128 0 ++ small_table ++ small_table ++ take 128 (concat (dir_entries dir_files) ++ replicate 128 0) ++ replicate 384 1.

Definition dir_fat (c : Z) : Z := of_le (slice (fat_at dir_fs c) 4 dir_disk).

Definition dir_clus (c : Z) : list Z := slice (cluster_at dir_fs c) (cluster_size dir_fs) dir_disk.

Lemma dir_geometry : geometry dir_fs 6 704.
Proof. split; repeat split; by vm_compute. Qed.

Lemma dir_vol : vol dir_fs 6 704 dir_disk dir_fat dir_clus.
Proof. split; [reflexivity|done|done|done]. Qed.

Lemma dir_files_ok : Forall df_ok dir_files.
Proof.
  repeat constructor; cbn; unfold scalar, name_char, deleted; try lia; by vm_compute.
Qed.

Lemma dir_layout : entries_at dir_fs dir_clus [2] 0 (dir_entries dir_files).
Proof.
  split; [done|]. split; [by vm_compute|]. intros k e Hk. pose proof (lookup_lt_Some _ _ _ Hk) as Hl.
  change (length (dir_entries dir_files)) with 3%nat in Hl.
  destruct k as [|[|[|k]]]; [| | |lia]; injection Hk as <-; by vm_compute.
Qed.

Lemma open_root_file_witness :
  vfatOpenFile dir_fs 4 (replicate 32 9) (map Z.of_nat (seq 97 14)) dir_disk = Ok (mkFileData 2 2 3) dir_disk.
Proof.
  apply (open_root_file dir_fs 6 704 dir_disk dir_fat dir_clus [2] 2 dir_files (map Z.of_nat (seq 97 14)) (replicate 32 9) dir_geometry dir_vol eq_refl).
  - split; [by split; [vm_compute|]|split; [apply NoDup_singleton|by apply list.Forall_singleton]].
  - done.
  - done.
  - by vm_compute.
  - exact dir_files_ok.
  - exact dir_layout.
  - right. by vm_compute.
  - done.
  - repeat constructor; lia.
  - cbn. lia.
  - done.
Defined.
