(* ===== verification/Pipe.v ===== *)
(** Anonymous pipes: xtkernel/pipe.c. A ring buffer behind two file objects,
    with an event for each end. *)
From Stdlib Require Import ZArith Lia.
From stdpp Require Import base tactics list gmap fin_maps numbers.
From S2P Require Import Prelude Allocator Io.

Open Scope Z_scope.

(** * Data *)

Record XTPipeData := mkPipe {
  buffer : list Z;
  buffer_ptr : Z;
  psize : Z;
  head : Z;
  tail : Z;
  canWriteEvent : Z;
  canReadEvent : Z;
  writeClosed : bool;
  readClosed : bool;
  refCount : Z
}.

(** The two tables of operations, [pipeWriteIO] and [pipeReadIO]. *)
Inductive PipeIO := pipeWriteIO | pipeReadIO.

Record XTFile := mkFile { IO : PipeIO; data : Z; flags : Z }.

(** * The ring buffer *)

Definition pipeUsed (p : XTPipeData) : Z :=
  if head p >=? tail p then head p - tail p else psize p - (tail p - head p).

Definition pipeFree (p : XTPipeData) : Z := psize p - pipeUsed p.

(** [xtCopyMem] into the buffer at an offset; outside the buffer is a fault. *)
Definition splice (off : Z) (bytes buf : list Z) : option (list Z) :=
  if (0 <=? off) && (off + Z.of_nat (length bytes) <=? Z.of_nat (length buf))
  then Some (take (Z.to_nat off) buf ++ bytes ++ drop (Z.to_nat off + length bytes) buf)
  else None.

(** [xtCopyMem] out of the buffer. *)
Definition slice (off count : Z) (buf : list Z) : option (list Z) :=
  if (0 <=? off) && (off + count <=? Z.of_nat (length buf))
  then Some (take (Z.to_nat count) (drop (Z.to_nat off) buf))
  else None.

Definition set_ring (b : list Z) (h t : Z) (p : XTPipeData) : XTPipeData :=
  mkPipe b (buffer_ptr p) (psize p) h t (canWriteEvent p) (canReadEvent p) (writeClosed p) (readClosed p)
    (refCount p).

(** The bytes of [src] that fit are written; the count. *)
Definition pipeWriteToBuffer (src : list Z) (count : Z) : M XTPipeData Z := fun p =>
  let freeSpace := pipeFree p in
  if freeSpace =? 0 then Ok 0 p
  else
    let count := if count >? freeSpace then freeSpace else count in
    let firstPart := psize p - head p in
    let firstPart := if firstPart >? count then count else firstPart in
    match splice (head p) (take (Z.to_nat firstPart) src) (buffer p) with
    | None => Fault
    | Some b =>
      match (if count >? firstPart
             then splice 0 (take (Z.to_nat (count - firstPart)) (drop (Z.to_nat firstPart) src)) b
             else Some b) with
      | None => Fault
      | Some b => Ok count (set_ring b ((head p + count) mod psize p) (tail p) p)
      end
    end.

(** The bytes read, at most [count]. *)
Definition pipeReadFromBuffer (count : Z) : M XTPipeData (list Z) := fun p =>
  let used := pipeUsed p in
  if used =? 0 then Ok [] p
  else
    let count := if count >? used then used else count in
    let firstPart := psize p - tail p in
    let firstPart := if firstPart >? count then count else firstPart in
    match slice (tail p) firstPart (buffer p) with
    | None => Fault
    | Some d1 =>
      match (if count >? firstPart then slice 0 (count - firstPart) (buffer p) else Some []) with
      | None => Fault
      | Some d2 => Ok (d1 ++ d2) (set_ring (buffer p) (head p) ((tail p + count) mod psize p) p)
      end
    end.

(** * The file operations *)

Section Pipe.
Context {H : Type} {A : Allocator H}.

Record PipeState := mkPState {
  heap : H;
  pipes : gmap Z XTPipeData;
  events : gmap Z bool;
  files : gmap Z XTFile
}.

Definition on_heap {X} (m : M H X) : M PipeState X :=
  zoom heap (fun h s => mkPState h (pipes s) (events s) (files s)) m.

Definition on_pipes {X} (m : M (gmap Z XTPipeData) X) : M PipeState X :=
  zoom pipes (fun q s => mkPState (heap s) q (events s) (files s)) m.

Definition on_events {X} (m : M (gmap Z bool) X) : M PipeState X :=
  zoom events (fun e s => mkPState (heap s) (pipes s) e (files s)) m.

Definition on_files {X} (m : M (gmap Z XTFile) X) : M PipeState X :=
  zoom files (fun f s => mkPState (heap s) (pipes s) (events s) f) m.

(** An operation on the pipe behind a pointer. *)
Definition on_pipe {X} (p : Z) (m : M XTPipeData X) : M (gmap Z XTPipeData) X := fun ps =>
  match ps !! p with
  | None => Fault
  | Some d =>
    match m d with
    | Ok a d' => Ok a (<[p := d']> ps)
    | Err c d' => Err c (<[p := d']> ps)
    | Fault => Fault
    | OutOfFuel => OutOfFuel
    end
  end.

(** [xtSignalEvent], as far as the pipe sees it. *)
Definition signal (e : Z) : M PipeState unit := on_events (assign e (fun _ => true)).

(** [xtWaitForEvents] on one event without a timeout: what the other threads do
    while this one sleeps is [env]; a thread that is never woken is out of
    fuel. The rest of [env] is for the next wait. *)
Fixpoint wait (e : Z) (env : list (PipeState -> PipeState)) : M PipeState (list (PipeState -> PipeState)) :=
  signaled ← on_events (load e);
  if (signaled : bool) then on_events (assign e (fun _ => false)) ;;; mret env
  else match env with
       | [] => nofuel
       | f :: env => modify f ;;; wait e env
       end.

(** [while (remaining > 0)] of [pipeWriteFile]: the result code and [*written].
    Every round writes a byte, waits or returns. *)
Fixpoint write_loop (fuel : nat) (p fl : Z) (src : list Z) (written : Z) (env : list (PipeState -> PipeState))
    : M PipeState (Z * Z) :=
  match src with
  | [] => mret (XT_SUCCESS, written)
  | _ =>
    d ← on_pipes (load p);
    if readClosed d || writeClosed d then mret (XT_BROKEN_PIPE, written)
    else if pipeFree d =? 0 then
      if negb (Z.land fl XT_FILE_MODE_NONBLOCK =? 0)
      then mret (if written >? 0 then XT_SUCCESS else XT_WOULD_BLOCK, written)
      else
        env ← wait (canWriteEvent d) env;
        match fuel with O => nofuel | S fuel => write_loop fuel p fl src written env end
    else
      let remaining := Z.of_nat (length src) in
      let toWrite := if remaining <? pipeFree d then remaining else pipeFree d in
      wrote ← on_pipes (on_pipe p (pipeWriteToBuffer src toWrite));
      signal (canReadEvent d) ;;;
      match fuel with
      | O => nofuel
      | S fuel => write_loop fuel p fl (drop (Z.to_nat wrote) src) (written + wrote) env
      end
  end.

Definition pipeWriteFile (file : Z) (src : list Z) (env : list (PipeState -> PipeState)) : M PipeState (Z * Z) :=
  f ← on_files (load file);
  if data f =? NULL then throw XT_INVALID_PARAMETER
  else write_loop (length src + length env) (data f) (flags f) src 0 env.

(** [while (remaining > 0)] of [pipeReadFile]: the result code and the bytes. *)
Fixpoint read_loop (fuel : nat) (p fl count : Z) (env : list (PipeState -> PipeState)) : M PipeState (Z * list Z) :=
  if count =? 0 then mret (XT_SUCCESS, [])
  else
    d ← on_pipes (load p);
    if readClosed d then mret (XT_BROKEN_PIPE, [])
    else if pipeUsed d =? 0 then
      if writeClosed d then mret (XT_SUCCESS, [])
      else if negb (Z.land fl XT_FILE_MODE_NONBLOCK =? 0) then mret (XT_WOULD_BLOCK, [])
      else
        env ← wait (canReadEvent d) env;
        match fuel with O => nofuel | S fuel => read_loop fuel p fl count env end
    else
      let toRead := if count <? pipeUsed d then count else pipeUsed d in
      got ← on_pipes (on_pipe p (pipeReadFromBuffer toRead));
      signal (canWriteEvent d) ;;;
      mret (XT_SUCCESS, got).

Definition pipeReadFile (file count : Z) (env : list (PipeState -> PipeState)) : M PipeState (Z * list Z) :=
  f ← on_files (load file);
  if data f =? NULL then throw XT_INVALID_PARAMETER
  else read_loop (length env) (data f) (flags f) count env.

Definition set_closed (w r : bool) (p : XTPipeData) : XTPipeData :=
  mkPipe (buffer p) (buffer_ptr p) (psize p) (head p) (tail p) (canWriteEvent p) (canReadEvent p) w r (refCount p).

Definition set_refCount (n : Z) (p : XTPipeData) : XTPipeData :=
  mkPipe (buffer p) (buffer_ptr p) (psize p) (head p) (tail p) (canWriteEvent p) (canReadEvent p)
    (writeClosed p) (readClosed p) n.

Definition pipeCloseFile (file : Z) : M PipeState unit :=
  f ← on_files (load file);
  let p := data f in
  if p =? NULL then throw XT_INVALID_PARAMETER
  else
    d ← on_pipes (load p);
    (if negb (Z.land (flags f) XT_FILE_MODE_WRITE =? 0) then
       on_pipes (assign p (fun d => set_closed true (readClosed d) d)) ;;; signal (canReadEvent d)
     else mret tt) ;;;
    (if negb (Z.land (flags f) XT_FILE_MODE_READ =? 0) then
       on_pipes (assign p (fun d => set_closed (writeClosed d) true d)) ;;; signal (canWriteEvent d)
     else mret tt) ;;;
    on_pipes (assign p (fun d => set_refCount (refCount d - 1) d)) ;;;
    if refCount d - 1 =? 0 then
      out_or tt (on_heap (xtHeapFree (canWriteEvent d))) ;;; on_events (dispose (canWriteEvent d)) ;;;
      out_or tt (on_heap (xtHeapFree (canReadEvent d))) ;;; on_events (dispose (canReadEvent d)) ;;;
      out_or tt (on_heap (xtHeapFree (buffer_ptr d))) ;;;
      out_or tt (on_heap (xtHeapFree p)) ;;; on_pipes (dispose p)
    else mret tt.

(** [xtCreateEvent], as far as the pipe sees it. *)
Definition create_event : M PipeState Z :=
  e ← on_heap (xtHeapAlloc 16);
  on_events (create e false) ;;;
  mret e.

(** The information is cleared first; [info] is where it goes. *)
Definition pipeGetFileInfo (info : Z) : M PipeState XTFileInfo :=
  XT_CHECK_ARG_IS_NULL info ;;;
  mret (mkInfo [112; 105; 112; 101] 0 0 0 0 0 XT_PATH_NODE_TYPE_FILE 0).

(** [garbage] is what the fresh buffer holds. The two file objects. *)
Definition xtCreatePipe (garbage bufferSize : Z) : M PipeState (Z * Z) :=
  let bufferSize := if bufferSize =? 0 then 4096 else bufferSize in
  p ← on_heap (xtHeapAlloc 80);
  b ← on_heap (xtHeapAlloc bufferSize);
  we ← create_event;
  re ← create_event;
  on_pipes (create p (mkPipe (replicate (Z.to_nat bufferSize) garbage) b bufferSize 0 0 we re false false 2)) ;;;
  write ← on_heap (xtHeapAlloc 64);
  on_files (create write (mkFile pipeWriteIO p XT_FILE_MODE_WRITE)) ;;;
  read ← on_heap (xtHeapAlloc 64);
  on_files (create read (mkFile pipeReadIO p XT_FILE_MODE_READ)) ;;;
  mret (write, read).

End Pipe.

Arguments PipeState : clear implicits.

(** * The specification: a pipe is a queue of bytes *)

Definition ring_inv (p : XTPipeData) : Prop :=
  0 < psize p /\ Z.of_nat (length (buffer p)) = psize p /\ 0 <= head p < psize p /\ 0 <= tail p < psize p.

Definition at_ (b : list Z) (i : Z) : Z := nth (Z.to_nat i) b 0.

(** The bytes in the pipe, the oldest first. *)
Definition contents (p : XTPipeData) : list Z :=
  map (fun i => at_ (buffer p) ((tail p + Z.of_nat i) mod psize p)) (seq 0 (Z.to_nat (pipeUsed p))).

(** * Lemmas *)

Lemma used_bounds p : ring_inv p -> 0 <= pipeUsed p < psize p.
Proof. unfold ring_inv, pipeUsed. destruct (_ >=? _) eqn:E; rewrite Z.geb_leb in E; zbool; lia. Qed.

Lemma used_cases p :
  (tail p <= head p /\ pipeUsed p = head p - tail p) \/
  (head p < tail p /\ pipeUsed p = psize p - (tail p - head p)).
Proof. unfold pipeUsed. destruct (_ >=? _) eqn:E; rewrite Z.geb_leb in E; zbool; lia. Qed.

Lemma head_tail p : ring_inv p -> head p = (tail p + pipeUsed p) mod psize p.
Proof.
  intros H. unfold ring_inv, pipeUsed in *. destruct (_ >=? _) eqn:E; rewrite Z.geb_leb in E; zbool.
  - rewrite Z.mod_small; lia.
  - replace (tail p + _) with (head p + 1 * psize p) by lia. rewrite Z.mod_add, Z.mod_small; lia.
Qed.

Lemma contents_length p : length (contents p) = Z.to_nat (pipeUsed p).
Proof. unfold contents. by rewrite length_map, length_seq. Qed.

Lemma splice_at off bytes buf i b :
  splice off bytes buf = Some b -> 0 <= i ->
  length b = length buf /\
  at_ b i = if (off <=? i) && (i <? off + Z.of_nat (length bytes)) then at_ bytes (i - off) else at_ buf i.
Proof.
  unfold splice. destruct (_ && _) eqn:E; [|done]. intros [= <-] Hi. zbool. split.
  - rewrite !length_app, length_take, length_drop. lia.
  - unfold at_. destruct (off <=? i) eqn:E1; zbool; cbn [andb].
    + rewrite app_nth2 by (rewrite length_take; lia). rewrite length_take, Nat.min_l by lia.
      destruct (i <? _) eqn:E2; zbool.
      * rewrite app_nth1 by lia. f_equal. lia.
      * rewrite app_nth2 by lia. rewrite nth_skipn. f_equal. lia.
    + rewrite app_nth1 by (rewrite length_take; lia). rewrite nth_firstn.
      by replace (Z.to_nat i <? Z.to_nat off)%nat with true by (symmetry; apply Nat.ltb_lt; lia).
Qed.

Lemma splice_Some off bytes buf :
  0 <= off -> off + Z.of_nat (length bytes) <= Z.of_nat (length buf) -> is_Some (splice off bytes buf).
Proof. intros H1 H2. unfold splice. replace (_ && _) with true by lia. eauto. Qed.

Lemma take_map_at n (l : list Z) : (n <= length l)%nat -> take n l = map (fun j => at_ l (Z.of_nat j)) (seq 0 n).
Proof.
  revert l; induction n as [|n IH]; intros [|x l] H; cbn [length] in H; try lia; [done|done|].
  cbn [take firstn]. rewrite IH by lia. cbn [seq map]. f_equal. rewrite <- seq_shift, map_map.
  apply map_ext. intros j. unfold at_. by rewrite !Nat2Z.id.
Qed.

Lemma seq_from n k : seq n k = map (Nat.add n) (seq 0 k).
Proof. symmetry. etrans; [apply (fmap_add_seq n 0 k)|]. by rewrite Nat.add_0_r. Qed.

Lemma at_take l n i : 0 <= i < Z.of_nat n -> at_ (take n l) i = at_ l i.
Proof.
  intros H. unfold at_. rewrite nth_firstn.
  by replace (Z.to_nat i <? n)%nat with true by (symmetry; apply Nat.ltb_lt; lia).
Qed.

Lemma at_drop l n i : 0 <= i -> at_ (drop n l) i = at_ l (Z.of_nat n + i).
Proof. intros H. unfold at_. rewrite nth_skipn. f_equal. lia. Qed.

Lemma mod_two x n : 0 < n -> 0 <= x < 2 * n -> x mod n = if x <? n then x else x - n.
Proof.
  intros Hn Hx. destruct (x <? n) eqn:E; zbool; [apply Z.mod_small; lia|].
  replace x with (x - n + 1 * n) at 1 by lia. rewrite Z.mod_add, Z.mod_small; lia.
Qed.

(** The two copies of a write, seen as one modulo the size. *)
Lemma ring_write p src count :
  ring_inv p -> 0 < count <= Z.of_nat (length src) -> count <= pipeFree p ->
  exists b, pipeWriteToBuffer src count p = Ok count (set_ring b ((head p + count) mod psize p) (tail p) p) /\
    length b = length (buffer p) /\
    (forall j, 0 <= j < count -> at_ b ((head p + j) mod psize p) = at_ src j) /\
    (forall i, 0 <= i < pipeUsed p -> at_ b ((tail p + i) mod psize p) = at_ (buffer p) ((tail p + i) mod psize p)).
Proof.
  intros HI Hc Hf. pose proof (used_bounds p HI) as Hu. pose proof (head_tail p HI) as Hht.
  destruct HI as (Hs & Hl & Hh & Ht). unfold pipeFree in Hf.
  unfold pipeWriteToBuffer. replace (pipeFree p =? 0) with false by (unfold pipeFree; lia).
  replace (count >? pipeFree p) with false by (unfold pipeFree; lia).
  set (first := if psize p - head p >? count then count else psize p - head p).
  assert (0 <= first <= count /\ first <= psize p - head p /\ (first < count -> first = psize p - head p)) as (F1 & F2 & F3)
    by (subst first; destruct (_ >? _) eqn:E; zbool; lia).
  destruct (splice_Some (head p) (take (Z.to_nat first) src) (buffer p)) as [b1 E1];
    [lia|rewrite length_take; lia|].
  rewrite E1.
  assert (forall i, 0 <= i -> length b1 = length (buffer p) /\ at_ b1 i =
    if (head p <=? i) && (i <? head p + first) then at_ src (i - head p) else at_ (buffer p) i) as A1.
  { intros i Hi. destruct (splice_at _ _ _ i _ E1 Hi) as [L ->]. split; [done|].
    rewrite length_take, Nat.min_l, Z2Nat.id by lia. destruct (_ && _) eqn:E; [|done]. zbool.
    apply at_take. lia. }
  assert (exists b, (if count >? first then splice 0 (take (Z.to_nat (count - first)) (drop (Z.to_nat first) src)) b1
    else Some b1) = Some b /\ length b = length (buffer p) /\ forall i, 0 <= i ->
    at_ b i = if i <? count - first then at_ src (first + i) else at_ b1 i) as (b & E2 & L2 & A2).
  { destruct (count >? first) eqn:Ec; zbool.
    - destruct (splice_Some 0 (take (Z.to_nat (count - first)) (drop (Z.to_nat first) src)) b1) as [b E2].
      + lia.
      + rewrite length_take, length_drop. destruct (A1 0) as [-> _]; lia.
      + exists b. split; [done|]. split; [|intros i Hi].
        * destruct (splice_at _ _ _ 0 _ E2) as [-> _]; [lia|]. by destruct (A1 0) as [-> _].
        * destruct (splice_at _ _ _ i _ E2 Hi) as [_ ->].
          rewrite length_take, length_drop, Nat.min_l by lia.
          rewrite Z2Nat.id, Z.add_0_l, (proj2 (Z.leb_le 0 i) Hi) by lia. cbn [andb].
          destruct (i <? count - first) eqn:E; zbool; [|done].
          rewrite at_take, at_drop by lia. f_equal. lia.
    - exists b1. split; [done|]. split; [by destruct (A1 0) as [-> _]|]. intros i Hi.
      by replace (i <? count - first) with false by lia. }
  rewrite E2. exists b. split; [done|]. split; [done|]. split.
  - intros j Hj. rewrite mod_two by lia. destruct (head p + j <? psize p) eqn:E; zbool.
    + rewrite A2 by lia. replace (_ <? count - first) with false by lia.
      destruct (A1 (head p + j)) as [_ ->]; [lia|]. replace (_ && _) with true by lia. f_equal. lia.
    + rewrite A2 by lia. replace (_ <? count - first) with true by lia. f_equal. lia.
  - intros i Hi. rewrite mod_two in Hht by lia. rewrite mod_two by lia.
    destruct (tail p + pipeUsed p <? psize p) eqn:E0, (tail p + i <? psize p) eqn:E; zbool; try lia;
      (rewrite A2 by lia; replace (_ <? count - first) with false by lia;
       match goal with |- at_ b1 ?k = _ => destruct (A1 k) as [_ ->]; [lia|] end;
       by replace (_ && _) with false by lia).
Qed.

(** A write that leaves a byte free appends to the pipe. *)
Lemma write_appends p src count :
  ring_inv p -> 0 < count <= Z.of_nat (length src) -> count < pipeFree p ->
  exists p', pipeWriteToBuffer src count p = Ok count p' /\ ring_inv p' /\
    contents p' = contents p ++ take (Z.to_nat count) src /\ pipeFree p' = pipeFree p - count /\
    p' = set_ring (buffer p') (head p') (tail p') p.
Proof.
  intros HI Hc Hf. destruct (ring_write p src count HI Hc ltac:(lia)) as (b & R & Lb & W1 & W2).
  pose proof (used_bounds p HI) as Hu. pose proof (head_tail p HI) as Hht.
  eexists. split; [exact R|]. set (p' := set_ring b ((head p + count) mod psize p) (tail p) p).
  pose proof HI as (Hs & Hl & Hh & Ht). unfold pipeFree in Hf.
  assert (ring_inv p') as HI'.
  { subst p'. unfold ring_inv. cbn. rewrite Lb. pose proof (Z.mod_pos_bound (head p + count) (psize p) Hs). lia. }
  assert (pipeUsed p' = pipeUsed p + count) as EU.
  { pose proof (used_cases p) as Hcase. subst p'. unfold pipeUsed at 1. cbn [head tail psize set_ring].
    rewrite mod_two by lia. rewrite Z.geb_leb.
    destruct (head p + count <? psize p) eqn:E2; destruct (tail p <=? _) eqn:E3; zbool; lia. }
  split; [done|]. split; [|split; [unfold pipeFree; rewrite EU; change (psize p') with (psize p); lia|done]].
  unfold contents. rewrite EU, Z2Nat.inj_add by lia. rewrite seq_app, map_app. cbn [Nat.add]. f_equal.
  - apply map_ext_in. intros i Hi%in_seq. subst p'. cbn. apply W2. lia.
  - rewrite take_map_at by lia. rewrite seq_from, map_map. apply map_ext_in. intros j Hj%in_seq. subst p'.
    cbn [buffer tail psize set_ring]. rewrite Nat2Z.inj_add, Z2Nat.id by lia. rewrite <- (W1 (Z.of_nat j)) by lia.
    rewrite Hht, Z.add_mod_idemp_l by lia. do 2 f_equal. lia.
Qed.

(** A read takes the oldest bytes. *)
Lemma read_takes p count :
  ring_inv p -> 0 < count <= pipeUsed p ->
  exists p', pipeReadFromBuffer count p = Ok (take (Z.to_nat count) (contents p)) p' /\ ring_inv p' /\
    contents p' = drop (Z.to_nat count) (contents p) /\ pipeFree p' = pipeFree p + count /\
    p' = set_ring (buffer p') (head p') (tail p') p.
Proof.
  intros HI Hc. pose proof (used_bounds p HI) as Hu. pose proof (used_cases p) as Hcase.
  pose proof HI as (Hs & Hl & Hh & Ht).
  unfold pipeReadFromBuffer. replace (pipeUsed p =? 0) with false by lia.
  replace (count >? pipeUsed p) with false by lia.
  set (first := if psize p - tail p >? count then count else psize p - tail p).
  assert (0 <= first <= count /\ first <= psize p - tail p /\ (first < count -> first = psize p - tail p)) as (F1 & F2 & F3)
    by (subst first; destruct (_ >? _) eqn:E; zbool; lia).
  assert (slice (tail p) first (buffer p) = Some (map (fun j => at_ (buffer p) (tail p + Z.of_nat j)) (seq 0 (Z.to_nat first)))) as ->.
  { unfold slice. replace (_ && _) with true by lia. f_equal.
    rewrite take_map_at by (rewrite length_drop; lia). apply map_ext_in. intros j Hj%in_seq.
    rewrite at_drop by lia. f_equal. lia. }
  assert ((if count >? first then slice 0 (count - first) (buffer p) else Some []) =
    Some (map (fun j => at_ (buffer p) (Z.of_nat j)) (seq 0 (Z.to_nat (count - first))))) as ->.
  { destruct (count >? first) eqn:E; zbool.
    - unfold slice. replace (_ && _) with true by lia. f_equal. rewrite drop_0.
      apply take_map_at. lia.
    - by replace (count - first) with 0 by lia. }
  set (p' := set_ring (buffer p) (head p) ((tail p + count) mod psize p) p). exists p'.
  assert (pipeUsed p' = pipeUsed p - count) as EU.
  { subst p'. unfold pipeUsed at 1. cbn [head tail psize set_ring]. rewrite mod_two by lia. rewrite Z.geb_leb.
    destruct (tail p + count <? psize p) eqn:E2; destruct (_ <=? head p) eqn:E3; zbool; lia. }
  split; [|split; [|split; [|split; [|done]]]].
  - do 2 f_equal. unfold contents. rewrite firstn_map, take_seq.
    replace (Z.to_nat count) with (Z.to_nat first + Z.to_nat (count - first))%nat by lia.
    rewrite Nat.min_l by lia. rewrite seq_app, map_app. f_equal.
    + apply map_ext_in. intros j Hj%in_seq. rewrite mod_two by lia.
      destruct (_ <? psize p) eqn:E; zbool; [done|lia].
    + cbn [Nat.add]. rewrite (seq_from (Z.to_nat first)), map_map. apply map_ext_in. intros j Hj%in_seq.
      rewrite Nat2Z.inj_add, Z2Nat.id, mod_two by lia.
      destruct (_ <? psize p) eqn:E; zbool; [lia|]. f_equal. lia.
  - subst p'. unfold ring_inv. cbn. pose proof (Z.mod_pos_bound (tail p + count) (psize p) Hs). lia.
  - unfold contents. rewrite EU. replace (Z.to_nat (pipeUsed p)) with (Z.to_nat count + Z.to_nat (pipeUsed p - count))%nat by lia.
    rewrite seq_app, map_app. rewrite drop_app_ge by (rewrite length_map, length_seq; lia).
    rewrite length_map, length_seq, Nat.sub_diag, drop_0. cbn [Nat.add].
    rewrite (seq_from (Z.to_nat count)), map_map. apply map_ext_in. intros j Hj%in_seq. subst p'. cbn [buffer tail psize set_ring].
    rewrite Z.add_mod_idemp_l by lia. do 2 f_equal. lia.
  - unfold pipeFree. rewrite EU. change (psize p') with (psize p). lia.
Qed.

(** * The pipe behind its two files *)

(** Calls on the two ends, and the answers. *)
Inductive pipe_op := Write (bytes : list Z) | Read (count : Z).

Definition answer : Type := Z * Z * list Z.

Definition pipe_call {H} `{Allocator H} (w r : Z) (o : pipe_op) : M (PipeState H) answer :=
  match o with
  | Write bytes => '(c, n) ← pipeWriteFile w bytes []; mret (c, n, [])
  | Read count => '(c, bytes) ← pipeReadFile r count []; mret (c, Z.of_nat (length bytes), bytes)
  end.

Fixpoint pipe_calls {H} `{Allocator H} (w r : Z) (l : list pipe_op) : M (PipeState H) (list answer) :=
  match l with
  | [] => mret []
  | o :: l => a ← pipe_call w r o; rest ← pipe_calls w r l; mret (a :: rest)
  end.

(** The same calls on a queue of bytes. *)
Definition spec_call (o : pipe_op) (q : list Z) : answer * list Z :=
  match o with
  | Write bytes => ((XT_SUCCESS, Z.of_nat (length bytes), []), q ++ bytes)
  | Read count =>
    if count =? 0 then ((XT_SUCCESS, 0, []), q)
    else match q with
         | [] => ((XT_WOULD_BLOCK, 0, []), [])
         | _ => ((XT_SUCCESS, Z.of_nat (length (take (Z.to_nat count) q)), take (Z.to_nat count) q),
                 drop (Z.to_nat count) q)
         end
  end.

Fixpoint spec_calls (l : list pipe_op) (q : list Z) : list answer * list Z :=
  match l with
  | [] => ([], q)
  | o :: l => let '(a, q) := spec_call o q in let '(rest, q) := spec_calls l q in (a :: rest, q)
  end.

(** No write along the way fills the buffer to its last byte. *)
Fixpoint fits (size : Z) (l : list pipe_op) (q : list Z) : Prop :=
  match l with
  | [] => True
  | o :: l =>
    match o with
    | Write bytes => Z.of_nat (length q) + Z.of_nat (length bytes) < size
    | Read count => 0 <= count
    end /\ fits size l (spec_call o q).2
  end.

(** The files [w] and [r] (non-blocking) are the ends of an open pipe that
    holds [q]. *)
Definition is_pipe {H} (s : PipeState H) (w r size : Z) (q : list Z) : Prop :=
  exists p d fw fr, files s !! w = Some fw /\ files s !! r = Some fr /\ data fw = p /\ data fr = p /\ p <> NULL /\
    Z.land (flags fr) XT_FILE_MODE_NONBLOCK <> 0 /\
    pipes s !! p = Some d /\ ring_inv d /\ psize d = size /\ contents d = q /\
    writeClosed d = false /\ readClosed d = false /\
    is_Some (events s !! canReadEvent d) /\ is_Some (events s !! canWriteEvent d).

Section Calls.
Context {H : Type} {A : Allocator H}.
Implicit Types (s : PipeState H).

Lemma load_pipe_run s p d : pipes s !! p = Some d -> on_pipes (load p) s = Ok d s.
Proof. intros E. destruct s. cbn in *. unfold on_pipes, zoom. cbn. by rewrite (load_Ok _ _ _ E). Qed.

Lemma load_file_run s f x : files s !! f = Some x -> on_files (load f) s = Ok x s.
Proof. intros E. destruct s. cbn in *. unfold on_files, zoom. cbn. by rewrite (load_Ok _ _ _ E). Qed.

Lemma signal_run s e : is_Some (events s !! e) ->
  signal e s = Ok tt (mkPState (heap s) (pipes s) (<[e := true]> (events s)) (files s)).
Proof. intros [x E]. unfold signal, on_events, zoom. by rewrite (assign_Ok _ _ _ _ E). Qed.

Lemma on_pipe_run {X} s p d (m : M XTPipeData X) x d' :
  pipes s !! p = Some d -> m d = Ok x d' ->
  on_pipes (on_pipe p m) s = Ok x (mkPState (heap s) (<[p := d']> (pipes s)) (events s) (files s)).
Proof. intros E R. unfold on_pipes, zoom, on_pipe. by rewrite E, R. Qed.

(** A state with new ring contents and a signalled event is the pipe with those
    contents. *)
Lemma is_pipe_update s w r size q p d fw fr d' e q' :
  files s !! w = Some fw -> files s !! r = Some fr -> data fw = p -> data fr = p -> p <> NULL ->
  Z.land (flags fr) XT_FILE_MODE_NONBLOCK <> 0 ->
  pipes s !! p = Some d -> psize d = size -> writeClosed d = false -> readClosed d = false ->
  is_Some (events s !! canReadEvent d) -> is_Some (events s !! canWriteEvent d) ->
  contents d = q -> d' = set_ring (buffer d') (head d') (tail d') d -> ring_inv d' -> contents d' = q' ->
  is_pipe (mkPState (heap s) (<[p := d']> (pipes s)) (<[e := true]> (events s)) (files s)) w r size q'.
Proof.
  intros F1 F2 D1 D2 P0 NB Pd Sz Wc Rc E1 E2 Cq Ed Ri Cq'. exists p, d', fw, fr. cbn [files pipes events].
  assert (forall k, is_Some (events s !! k) -> is_Some (<[e := true]> (events s) !! k)) as K
    by (intros k Hk; apply lookup_insert_is_Some'; by right).
  assert (psize d' = size /\ writeClosed d' = false /\ readClosed d' = false /\
    canReadEvent d' = canReadEvent d /\ canWriteEvent d' = canWriteEvent d) as (-> & -> & -> & -> & ->)
    by (rewrite Ed; done).
  rewrite lookup_insert_eq. auto 20.
Qed.

Lemma write_call_ok s w r size q bytes :
  is_pipe s w r size q -> Z.of_nat (length q) + Z.of_nat (length bytes) < size ->
  exists s', pipe_call w r (Write bytes) s = Ok (XT_SUCCESS, Z.of_nat (length bytes), []) s' /\
    is_pipe s' w r size (q ++ bytes).
Proof.
  intros (p & d & fw & fr & F1 & F2 & D1 & D2 & P0 & NB & Pd & Ri & Sz & Cq & Wc & Rc & E1 & E2) Hfit.
  assert (pipeUsed d = Z.of_nat (length q)) as Hu
    by (rewrite <- Cq, contents_length, Z2Nat.id; [done|]; by apply used_bounds).
  cbn [pipe_call]. unfold pipeWriteFile. rewrite bind_bind, (bind_Ok _ _ _ _ _ (load_file_run s w fw F1)), D1.
  rewrite (proj2 (Z.eqb_neq _ _) P0). destruct bytes as [|b bytes].
  { exists s. cbn. rewrite app_nil_r. split; [done|]. exists p, d, fw, fr. auto 20. }
  set (src := b :: bytes) in *. assert (0 < Z.of_nat (length src)) as Hl by (subst src; cbn; lia).
  assert (pipeFree d = size - Z.of_nat (length q)) as Hf by (unfold pipeFree; lia).
  destruct (write_appends d src (Z.of_nat (length src)) Ri ltac:(lia) ltac:(lia))
    as (d' & R & Ri' & C' & _ & Ed).
  rewrite Nat2Z.id, take_ge in C' by done.
  exists (mkPState (heap s) (<[p := d']> (pipes s)) (<[canReadEvent d := true]> (events s)) (files s)).
  split; [|eapply is_pipe_update; try done; by rewrite C', Cq].
  rewrite (bind_Ok _ _ _ (XT_SUCCESS, Z.of_nat (length src)) (mkPState (heap s) (<[p := d']> (pipes s)) (<[canReadEvent d := true]> (events s)) (files s))); [done|].
  replace (length src + length [])%nat with (S (length bytes)) by (subst src; cbn; lia).
  unfold src at 1. cbn [write_loop]. fold src.
  rewrite (bind_Ok _ _ _ _ _ (load_pipe_run s p d Pd)), Rc, Wc. cbn [orb].
  replace (pipeFree d =? 0) with false by lia. replace (Z.of_nat (length src) <? pipeFree d) with true by lia.
  rewrite (bind_Ok _ _ _ _ _ (on_pipe_run s p d _ _ _ Pd R)).
  rewrite (bind_Ok _ _ _ _ _ (signal_run (mkPState (heap s) (<[p := d']> (pipes s)) (events s) (files s))
      (canReadEvent d) E1)). cbn [pipes events files heap].
  rewrite Nat2Z.id, drop_all. by destruct (length bytes).
Qed.

Lemma read_call_ok s w r size q count :
  is_pipe s w r size q -> 0 <= count ->
  exists s', pipe_call w r (Read count) s = Ok (spec_call (Read count) q).1 s' /\
    is_pipe s' w r size (spec_call (Read count) q).2.
Proof.
  intros HP Hc. pose proof HP as (p & d & fw & fr & F1 & F2 & D1 & D2 & P0 & NB & Pd & Ri & Sz & Cq & Wc & Rc & E1 & E2).
  assert (pipeUsed d = Z.of_nat (length q)) as Hu
    by (rewrite <- Cq, contents_length, Z2Nat.id; [done|]; by apply used_bounds).
  cbn [pipe_call spec_call]. unfold pipeReadFile. rewrite bind_bind, (bind_Ok _ _ _ _ _ (load_file_run s r fr F2)), D2.
  rewrite (proj2 (Z.eqb_neq _ _) P0). cbn [length read_loop].
  destruct (count =? 0) eqn:E0; zbool; [by exists s|].
  rewrite !bind_bind, (bind_Ok _ _ _ _ _ (load_pipe_run s p d Pd)), Rc.
  destruct q as [|x q].
  - exists s. replace (pipeUsed d =? 0) with true by (cbn in Hu; lia). rewrite Wc.
    by rewrite (proj2 (Z.eqb_neq _ _) NB).
  - set (l := x :: q) in *. assert (0 < Z.of_nat (length l)) as Hl by (subst l; cbn; lia).
    replace (pipeUsed d =? 0) with false by lia.
    set (n := if count <? pipeUsed d then count else pipeUsed d).
    assert (0 < n <= pipeUsed d) as Hn by (subst n; destruct (_ <? _) eqn:E; zbool; lia).
    destruct (read_takes d n Ri Hn) as (d' & R & Ri' & C' & _ & Ed). rewrite Cq in R, C'.
    assert (take (Z.to_nat n) l = take (Z.to_nat count) l /\ drop (Z.to_nat n) l = drop (Z.to_nat count) l) as [T1 T2].
    { subst n. destruct (_ <? _) eqn:E; zbool; [done|]. rewrite !take_ge, !drop_ge by lia. done. }
    rewrite T1 in R. rewrite T2 in C'.
    exists (mkPState (heap s) (<[p := d']> (pipes s)) (<[canWriteEvent d := true]> (events s)) (files s)).
    split; [|eapply is_pipe_update; try done].
    rewrite bind_bind, (bind_Ok _ _ _ _ _ (on_pipe_run s p d _ _ _ Pd R)).
    by rewrite bind_bind, (bind_Ok _ _ _ _ _ (signal_run (mkPState (heap s) (<[p := d']> (pipes s)) (events s) (files s))
      (canWriteEvent d) E2)).
Qed.

End Calls.

(** * Theorems *)

(** C12: A pipe is a first-in first-out queue of bytes: on every sequence of writes and non-blocking reads in which no write fills the buffer to its last byte, every write is taken whole and every read returns the oldest bytes. *)
Theorem pipe_refines_queue {H} `{Allocator H} (s : PipeState H) (w r size : Z) (q : list Z) (ops : list pipe_op) :
  is_pipe s w r size q -> fits size ops q ->
  exists s', pipe_calls w r ops s = Ok (spec_calls ops q).1 s' /\ is_pipe s' w r size (spec_calls ops q).2.
Proof.
  revert s q; induction ops as [|o ops IH]; intros s q HP HF; [by exists s|].
  cbn [fits] in HF. destruct HF as [H1 H2].
  assert (exists s1, pipe_call w r o s = Ok (spec_call o q).1 s1 /\ is_pipe s1 w r size (spec_call o q).2)
    as (s1 & R1 & HP1)
    by (destruct o; [by apply write_call_ok|by apply read_call_ok]).
  destruct (IH s1 _ HP1 H2) as (s2 & R2 & HP2). exists s2.
  cbn [pipe_calls spec_calls]. rewrite (bind_Ok _ _ _ _ _ R1), (bind_Ok _ _ _ _ _ R2).
  destruct (spec_call o q) as [a q1]. cbn [fst snd] in *. by destruct (spec_calls ops q1).
Qed.

(** A write that uses exactly the free space loses the whole pipe: a full ring looks empty, so all bytes in it, the new ones and those from before, can no longer be read. *)
Theorem full_pipe_is_empty (p : XTPipeData) (src : list Z) :
  ring_inv p -> Z.of_nat (length src) = pipeFree p ->
  exists p', pipeWriteToBuffer src (pipeFree p) p = Ok (pipeFree p) p' /\ contents p' = [] /\ pipeFree p' = psize p.
Proof.
  intros HI Hl. pose proof (used_bounds p HI) as Hu. pose proof (head_tail p HI) as Hht.
  assert (0 < pipeFree p) as Hf by (unfold pipeFree; lia).
  destruct (ring_write p src (pipeFree p) HI ltac:(lia) ltac:(lia)) as (b & R & _). pose proof HI as (Hs & Hb & Hh & Ht).
  eexists. split; [exact R|].
  assert ((head p + pipeFree p) mod psize p = tail p) as E.
  { rewrite Hht, Z.add_mod_idemp_l by lia. unfold pipeFree.
    replace (tail p + pipeUsed p + (psize p - pipeUsed p)) with (tail p + 1 * psize p) by lia.
    rewrite Z.mod_add, Z.mod_small; lia. }
  assert (pipeUsed (set_ring b ((head p + pipeFree p) mod psize p) (tail p) p) = 0) as U.
  { unfold pipeUsed. cbn [head tail psize set_ring]. rewrite E. replace (tail p >=? tail p) with true by lia. lia. }
  split; [unfold contents; by rewrite U|]. unfold pipeFree at 1. rewrite U. cbn. lia.
Qed.

(** An empty pipe of eight bytes; its reader does not block. *)
Definition demo_pipe : XTPipeData := mkPipe (replicate 8 0) 0x500 8 6 6 0x100 0x200 false false 2.

Definition demo_pipes : PipeState Bump :=
  mkPState bump_empty {[0x300 := demo_pipe]} {[0x100 := true; 0x200 := false]}
    {[0x10 := mkFile pipeWriteIO 0x300 0; 0x20 := mkFile pipeReadIO 0x300 XT_FILE_MODE_NONBLOCK]}.

Lemma demo_is_pipe : is_pipe demo_pipes 0x10 0x20 8 [].
Proof.
  exists 0x300, demo_pipe. eexists _, _. do 5 (split; [done|]). split; [done|]. split; [done|].
  split; [unfold ring_inv; cbn; lia|]. split; [done|]. split; [done|]. do 2 (split; [done|]). by split; eexists.
Qed.

Lemma pipe_refines_queue_witness :
  exists s', pipe_calls 0x10 0x20 [Write [1; 2; 3; 4]; Read 3; Write [5; 6]; Read 9; Read 1] demo_pipes =
    Ok [(XT_SUCCESS, 4, []); (XT_SUCCESS, 3, [1; 2; 3]); (XT_SUCCESS, 2, []); (XT_SUCCESS, 3, [4; 5; 6]); (XT_WOULD_BLOCK, 0, [])] s' /\
    is_pipe s' 0x10 0x20 8 [].
Proof.
  apply (pipe_refines_queue demo_pipes 0x10 0x20 8 [] [Write [1; 2; 3; 4]; Read 3; Write [5; 6]; Read 9; Read 1] demo_is_pipe). repeat split; done.
Defined.

Lemma full_pipe_is_empty_witness :
  exists p', pipeWriteToBuffer (replicate 8 7) (pipeFree demo_pipe) demo_pipe = Ok (pipeFree demo_pipe) p' /\
    contents p' = [] /\ pipeFree p' = psize p'.
Proof.
  destruct (full_pipe_is_empty demo_pipe (replicate 8 7)) as (p' & E & C & F); [unfold ring_inv; cbn; lia|done|].
  exists p'. split; [exact E|]. split; [exact C|]. vm_compute in E. injection E as <-. exact F.
Defined.
