(* ===== verification/Handles.v ===== *)
(** The handle table of a process: xtkernel/process.c, lines 13 to 147. Four
    levels of tables of 512 pointers; the last level points to descriptors. *)
From Stdlib Require Import ZArith Lia.
From stdpp Require Import base tactics list gmap fin_maps numbers.
From S2P Require Import Prelude Allocator.

Open Scope Z_scope.

(** * Data *)

Definition HANDLE_LEVEL_BITS : Z := 9.

Definition HANDLE_ENTRIES_PER_TABLE : nat := 512.

Definition HANDLE_LEVEL_MASK : Z := 511.

Definition HANDLE_LEVELS : nat := 4.

Record XTDescriptor := mkDescriptor { desc : Z; type : Z; access : Z }.

(** The tables and descriptors of one process and its root pointer. *)
Record HandleState (H : Type) := mkHState {
  heap : H;
  tables : gmap Z (list Z);
  descs : gmap Z XTDescriptor;
  descriptorRoot : Z
}.

Arguments mkHState {H} _ _ _ _.
Arguments heap {H} _.
Arguments tables {H} _.
Arguments descs {H} _.
Arguments descriptorRoot {H} _.

(** Where a table pointer is kept: [&process->descriptorRoot] or
    [&table->entries[i]]. *)
Inductive loc := Root | Slot (t : Z) (i : nat).

Section Handles.
Context {H : Type} {A : Allocator H}.

Definition on_heap {X} (m : M H X) : M (HandleState H) X :=
  zoom heap (fun h s => mkHState h (tables s) (descs s) (descriptorRoot s)) m.

Definition on_tables {X} (m : M (gmap Z (list Z)) X) : M (HandleState H) X :=
  zoom tables (fun t s => mkHState (heap s) t (descs s) (descriptorRoot s)) m.

Definition on_descs {X} (m : M (gmap Z XTDescriptor) X) : M (HandleState H) X :=
  zoom descs (fun d s => mkHState (heap s) (tables s) d (descriptorRoot s)) m.

(** [*current] and [*current = v]. *)
Definition read_loc (l : loc) : M (HandleState H) Z :=
  match l with
  | Root => gets descriptorRoot
  | Slot t i => deref (fun s => tables s !! t ≫= fun es => es !! i)
  end.

Definition write_loc (l : loc) (v : Z) : M (HandleState H) unit :=
  match l with
  | Root => modify (fun s => mkHState (heap s) (tables s) (descs s) v)
  | Slot t i => on_tables (assign t (fun es => <[i := v]> es))
  end.

(** * Resolving a handle *)

(** [(handle >> (i * HANDLE_LEVEL_BITS)) & HANDLE_LEVEL_MASK] *)
Definition index (handle : Z) (i : nat) : nat :=
  Z.to_nat (Z.land (Z.shiftr handle (Z.of_nat i * HANDLE_LEVEL_BITS)) HANDLE_LEVEL_MASK).

(** The table at a location, made when [create_] is set and there is none;
    [None] is the [NULL] the function returns. *)
Definition table_at (create_ : bool) (l : loc) : M (HandleState H) (option Z) :=
  p ← read_loc l;
  if p =? NULL then
    if negb create_ then mret None
    else
      newTable ← attempt (on_heap (xtHeapAlloc 4096));
      match newTable with
      | inr _ => mret None
      | inl newTable =>
        on_tables (create newTable (replicate HANDLE_ENTRIES_PER_TABLE 0)) ;;;
        write_loc l newTable ;;;
        mret (Some newTable)
      end
  else mret (Some p).

(** From the location of a table of some level down to the slot of the handle. *)
Fixpoint resolve_loop (create_ : bool) (handle : Z) (level : nat) (l : loc) : M (HandleState H) (option loc) :=
  r ← table_at create_ l;
  match r with
  | None => mret None
  | Some t =>
    match level with
    | O => mret (Some (Slot t (index handle 0)))
    | S level' => resolve_loop create_ handle level' (Slot t (index handle level))
    end
  end.

Definition xtResolveHandle (handle : Z) (create_ : bool) : M (HandleState H) (option loc) :=
  resolve_loop create_ handle (HANDLE_LEVELS - 1) Root.

(** [sign_ext] of a 64-bit value, as 64 bits. *)
Definition sign_ext (value bits : Z) : Z :=
  let m := 2 ^ (bits - 1) in u64 (Z.lxor value m - m).

Definition xtGetHandle (handle : Z) : M (HandleState H) Z :=
  if negb (handle =? sign_ext handle 35) then throw XT_INVALID_PARAMETER
  else
    entry ← xtResolveHandle handle false;
    match entry with
    | None => throw XT_NOT_FOUND
    | Some l => out ← read_loc l; if out =? NULL then throw XT_NOT_FOUND else mret out
    end.

Definition xtDuplicateHandle (handle access_ type_ desc_ : Z) : M (HandleState H) unit :=
  if negb (handle =? sign_ext handle 35) then throw XT_INVALID_PARAMETER
  else
    entry ← xtResolveHandle handle true;
    match entry with
    | None => throw XT_OUT_OF_MEMORY
    | Some l =>
      newDesc ← on_heap (xtHeapAlloc 16);
      on_descs (create newDesc (mkDescriptor desc_ type_ access_)) ;;;
      write_loc l newDesc
    end.

(** * A free handle *)

(** The first free slot of a table of the last level. *)
Fixpoint free_slot (es : list Z) (i prefix : Z) : Z :=
  match es with
  | [] => 2 ^ 64 - 1
  | e :: es => if e =? NULL then Z.lor (Z.shiftl prefix 9) i else free_slot es (i + 1) prefix
  end.

(** The scan of [find_free_recursive] over the entries of a table that is not
    of the last level; [rec] searches the table below. *)
Fixpoint scan_entries (rec : Z -> Z -> option Z) (rem : nat) (prefix : Z) (es : list Z) (i : Z) : option Z :=
  match es with
  | [] => Some (2 ^ 64 - 1)
  | e :: es =>
    if e =? NULL
    then Some (u64 (Z.shiftl (Z.lor (Z.shiftl prefix 9) i) (Z.of_nat (S rem) * HANDLE_LEVEL_BITS)))
    else
      result ← rec e (Z.lor (Z.shiftl prefix 9) i);
      if negb (result =? 0) then Some result else scan_entries rec rem prefix es (i + 1)
  end.

(** [find_free_recursive] with [rem] = [HANDLE_LEVELS - 1 - level] levels below
    this one. *)
Fixpoint find_free (rem : nat) (tabs : gmap Z (list Z)) (table prefix : Z) : option Z :=
  if table =? NULL then Some (u64 (Z.shiftl prefix (Z.of_nat (S rem) * HANDLE_LEVEL_BITS)))
  else
    es ← tabs !! table;
    match rem with
    | O => Some (u64 (free_slot es 0 prefix))
    | S rem => scan_entries (find_free rem tabs) rem prefix es 0
    end.

Definition xtFindFreeHandle : M (HandleState H) Z :=
  result ← deref (fun s => find_free (HANDLE_LEVELS - 1) (tables s) (descriptorRoot s) 0);
  if result =? 2 ^ 64 - 1 then throw XT_NOT_FOUND else mret result.

(** * Freeing the tree *)

(** [for (i = 0; i < 512; i++) if (table->entries[i]) ...] *)
Definition each_entry (f : Z -> M (HandleState H) unit) (es : list Z) : M (HandleState H) unit :=
  fold_right (fun e k => (if e =? NULL then mret tt else f e) ;;; k) (mret tt) es.

Fixpoint xtFreeDescriptorTree (level : nat) (node : Z) : M (HandleState H) unit :=
  if node =? NULL then mret tt
  else match level with
       | O => out_or tt (on_heap (xtHeapFree node))
       | S level =>
         es ← on_tables (load node);
         each_entry (xtFreeDescriptorTree level) es ;;;
         out_or tt (on_heap (xtHeapFree node))
       end.

End Handles.

(** * The specification: a map from handles to descriptors *)

(** The table of the last level that holds a handle, walking from [t] at a
    level. *)
Fixpoint walk (tabs : gmap Z (list Z)) (handle : Z) (level : nat) (t : Z) : option Z :=
  match level with
  | O => Some t
  | S level' =>
    es ← tabs !! t;
    e ← es !! index handle level;
    if e =? NULL then None else walk tabs handle level' e
  end.

(** The descriptor pointer of a handle, from the table [t] of a level. *)
Definition look (tabs : gmap Z (list Z)) (handle : Z) (level : nat) (t : Z) : option Z :=
  t0 ← walk tabs handle level t;
  es ← tabs !! t0;
  e ← es !! index handle 0;
  if e =? NULL then None else Some e.

Definition lookup_handle {H} (s : HandleState H) (handle : Z) : option Z :=
  if descriptorRoot s =? NULL then None else look (tables s) handle 3 (descriptorRoot s).

(** Every table is in one place of the tree: [own] gives its level and the
    handle bits that lead to it. *)
Definition labelled {H} (s : HandleState H) (own : gmap Z (nat * Z)) : Prop :=
  dom own = dom (tables s) /\
  (forall t es, tables s !! t = Some es -> length es = 512%nat /\ t <> NULL) /\
  (descriptorRoot s <> NULL -> own !! descriptorRoot s = Some (3%nat, 0)) /\
  (forall t es k p i e, tables s !! t = Some es -> own !! t = Some (S k, p) -> es !! i = Some e -> e <> NULL ->
     own !! e = Some (k, p * 512 + Z.of_nat i)) /\
  (forall t k p, own !! t = Some (k, p) -> 0 <= p).

Definition handles_ok {H} `{Allocator H} (s : HandleState H) (L : gset Z) : Prop :=
  heap_ok (heap s) L /\ dom (tables s) ∪ dom (descs s) ⊆ L /\ dom (tables s) ## dom (descs s) /\
  exists own, labelled s own.

(** The handle bits above a level: the label of the table the handle goes
    through there. *)
Definition prefix (handle : Z) (k : nat) : Z := handle mod 2 ^ 36 / 2 ^ (9 * (Z.of_nat k + 1)).

(** A handle with bit 34 clear. *)
Definition handle_ok (h : Z) : Prop := 0 <= h < 2 ^ 64 /\ Z.testbit h 34 = false.

(** * Lemmas *)

Lemma index_spec h i : index h i = Z.to_nat (h / 2 ^ (9 * Z.of_nat i) mod 512).
Proof.
  unfold index, HANDLE_LEVEL_BITS, HANDLE_LEVEL_MASK. rewrite shiftr_div by lia.
  change 511 with (2 ^ 9 - 1). rewrite land_low by lia. by rewrite Z.mul_comm.
Qed.

Lemma index_bound h i : (index h i < 512)%nat.
Proof. rewrite index_spec. pose proof (Z.mod_pos_bound (h / 2 ^ (9 * Z.of_nat i)) 512). lia. Qed.

Lemma prefix_top h : prefix h 3 = 0.
Proof. unfold prefix. change (2 ^ (9 * (Z.of_nat 3 + 1))) with (2 ^ 36). rewrite Z.div_small; [done|]. apply Z.mod_pos_bound. lia. Qed.

Lemma mod_div_mod h a b : 0 < a -> 0 < b -> h mod (a * b) / a = h / a mod b.
Proof. intros Ha Hb. rewrite Z.rem_mul_r by lia. rewrite Z.add_comm, Z.mul_comm, Z.div_add_l, (Z.div_small (h mod a)), Z.add_0_r; [done| |lia]. apply Z.mod_pos_bound. lia. Qed.

Lemma prefix_step h k : (k < 3)%nat -> prefix h k = prefix h (S k) * 512 + Z.of_nat (index h (S k)).
Proof.
  intros Hk. unfold prefix. rewrite index_spec.
  set (e := 9 * (Z.of_nat k + 1)). replace (9 * Z.of_nat (S k)) with e by lia.
  replace (9 * (Z.of_nat (S k) + 1)) with (e + 9) by lia.
  assert (h / 2 ^ e mod 512 = h mod 2 ^ 36 / 2 ^ e mod 512) as ->.
  { replace (2 ^ 36) with (2 ^ e * 2 ^ (36 - e)) by (rewrite <- Z.pow_add_r by lia; f_equal; lia).
    rewrite mod_div_mod by (apply Z.pow_pos_nonneg; lia).
    replace (2 ^ (36 - e)) with (512 * 2 ^ (27 - e)) by (change 512 with (2 ^ 9); rewrite <- Z.pow_add_r by lia; f_equal; lia).
    rewrite Z.rem_mul_r by (try apply Z.pow_nonzero; lia).
    rewrite (Z.mul_comm 512), Z.mod_add, Z.mod_mod by lia. done. }
  rewrite Z.pow_add_r by lia. change (2 ^ 9) with 512.
  rewrite <- Z.div_div by (try apply Z.pow_nonzero; lia).
  generalize (h mod 2 ^ 36 / 2 ^ e). intros x. dlia.
Qed.

(** Handles that agree in the prefix and the last index are the same handle. *)
Lemma handle_split h h' : prefix h 0 = prefix h' 0 -> index h 0 = index h' 0 -> h mod 2 ^ 36 = h' mod 2 ^ 36.
Proof.
  unfold prefix. rewrite !index_spec. change (2 ^ (9 * (Z.of_nat 0 + 1))) with 512.
  change (2 ^ (9 * Z.of_nat 0)) with 1. rewrite !Z.div_1_r. intros H1 H2. dlia.
Qed.

Section Tree.
Context {H : Type} (s : HandleState H) (own : gmap Z (nat * Z)).
Hypothesis Hl : labelled s own.

Lemma walk_label h : forall k t t0,
  (k <= 3)%nat -> own !! t = Some (k, prefix h k) -> walk (tables s) h k t = Some t0 ->
  own !! t0 = Some (0%nat, prefix h 0).
Proof.
  destruct Hl as (_ & _ & _ & Hc & _). induction k as [|k IH]; intros t t0 Hk Ht; cbn [walk].
  - by intros [= <-].
  - destruct (tables s !! t) as [es|] eqn:E1; [|done]. cbn [mbind option_bind].
    destruct (es !! index h (S k)) as [e|] eqn:E2; [|done]. cbn [mbind option_bind].
    destruct (e =? NULL) eqn:E3; [done|]. zbool. intros W. eapply IH; [lia| |exact W].
    rewrite prefix_step by lia. by eapply Hc.
Qed.

(** Changing a slot of the last level leaves the walks alone. *)
Lemma walk_leaf h t1 p1 v : forall k t,
  (k <= 3)%nat -> own !! t = Some (k, prefix h k) -> own !! t1 = Some (0%nat, p1) ->
  walk (<[t1 := v]> (tables s)) h k t = walk (tables s) h k t.
Proof.
  destruct Hl as (_ & _ & _ & Hc & _). induction k as [|k IH]; intros t Hk Ht H1; [done|]. cbn [walk].
  assert (t1 <> t) by (intros ->; congruence). rewrite lookup_insert_ne by done.
  destruct (tables s !! t) as [es|] eqn:E1; [|done]. cbn [mbind option_bind].
  destruct (es !! index h (S k)) as [e|] eqn:E2; [|done]. cbn [mbind option_bind].
  destruct (e =? NULL) eqn:E3; [done|]. zbool. apply IH; [lia| |done].
  rewrite prefix_step by lia. by eapply Hc.
Qed.

(** Writing a slot of the last level changes the handle of that slot only. *)
Lemma look_leaf h t1 h1 es1 v k t :
  (k <= 3)%nat -> own !! t = Some (k, prefix h k) -> tables s !! t1 = Some es1 ->
  own !! t1 = Some (0%nat, prefix h1 0) -> h mod 2 ^ 36 <> h1 mod 2 ^ 36 ->
  look (<[t1 := <[index h1 0 := v]> es1]> (tables s)) h k t = look (tables s) h k t.
Proof.
  intros Hk Ht E1 H1 Hne. unfold look. rewrite (walk_leaf h t1 (prefix h1 0)) by done.
  destruct (walk (tables s) h k t) as [t0|] eqn:W; [|done]. cbn [mbind option_bind].
  destruct (decide (t0 = t1)) as [->|N]; [|by rewrite lookup_insert_ne by done].
  rewrite lookup_insert_eq, E1. cbn [mbind option_bind]. rewrite list_lookup_insert_ne; [done|].
  intros E. apply Hne. apply handle_split; [|done].
  pose proof (walk_label h k t t1 Hk Ht W). congruence.
Qed.

(** Adding an empty table at an empty place changes no handle. *)
Lemma look_grow h k0 p0 t1 i1 es1 new : forall k t,
  (k <= 3)%nat -> own !! t = Some (k, prefix h k) -> tables s !! t1 = Some es1 -> es1 !! i1 = Some NULL ->
  own !! t1 = Some (S k0, p0) -> tables s !! new = None -> new <> NULL ->
  look (<[t1 := <[i1 := new]> es1]> (<[new := replicate 512 0]> (tables s))) h k t = look (tables s) h k t.
Proof.
  intros k t Hk Ht E1 Ei Ho Hn Hn0. assert (new <> t1) as Hne by congruence.
  destruct Hl as (Hdom & _ & _ & Hc & _).
  set (tabs' := <[t1 := <[i1 := new]> es1]> (<[new := replicate 512 0]> (tables s))).
  assert (forall k, look tabs' h k new = None) as Lnew.
  { intros j. unfold look. destruct j as [|j]; cbn [walk].
    - cbn [mbind option_bind]. subst tabs'. rewrite lookup_insert_ne, lookup_insert_eq by done. cbn [mbind option_bind].
      by rewrite lookup_replicate_2 by apply index_bound.
    - subst tabs'. rewrite lookup_insert_ne, lookup_insert_eq by done. cbn [mbind option_bind].
      by rewrite lookup_replicate_2 by apply index_bound. }
  revert t Hk Ht. induction k as [|k IH]; intros t Hk Ht.
  - unfold look. cbn [walk mbind option_bind]. assert (t <> t1) by (intros ->; congruence).
    assert (t <> new). { intros ->. apply (not_elem_of_dom (tables s)) in Hn. apply Hn. rewrite <- Hdom. apply elem_of_dom. eauto. }
    subst tabs'. by rewrite !lookup_insert_ne by done.
  - assert (forall tabs e, tabs !! t = Some e -> look tabs h (S k) t =
      match e !! index h (S k) with Some x => if x =? NULL then None else look tabs h k x | None => None end) as Step.
    { intros tabs es E. unfold look at 1. cbn [walk]. rewrite E. cbn [mbind option_bind].
      destruct (es !! index h (S k)) as [x|]; [|done]. cbn [mbind option_bind]. by destruct (x =? NULL). }
    assert (t <> new). { intros ->. apply (not_elem_of_dom (tables s)) in Hn. apply Hn. rewrite <- Hdom. apply elem_of_dom. eauto. }
    destruct (tables s !! t) as [es|] eqn:E.
    + destruct (decide (t = t1)) as [->|Ht1].
      * assert (tabs' !! t1 = Some (<[i1 := new]> es1)) as E' by apply lookup_insert_eq.
        rewrite (Step tabs' _ E'), (Step (tables s) _ E). assert (es = es1) as -> by congruence.
        destruct (decide (index h (S k) = i1)) as [->|Hi].
        -- rewrite list_lookup_insert_eq by (by eapply lookup_lt_Some). rewrite Ei, Lnew. cbn. by destruct (new =? NULL).
        -- rewrite list_lookup_insert_ne by done. destruct (es1 !! index h (S k)) as [x|] eqn:Ex; [|done].
           destruct (x =? NULL) eqn:E0; [done|]. zbool. apply IH; [lia|]. rewrite prefix_step by lia. by eapply Hc.
      * assert (tabs' !! t = Some es) as E' by (subst tabs'; by rewrite !lookup_insert_ne by done).
        rewrite (Step tabs' _ E'), (Step (tables s) _ E).
        destruct (es !! index h (S k)) as [x|] eqn:Ex; [|done].
        destruct (x =? NULL) eqn:E0; [done|]. zbool. apply IH; [lia|]. rewrite prefix_step by lia. by eapply Hc.
    + assert (t <> t1) by congruence.
      unfold look. cbn [walk]. subst tabs'. rewrite !lookup_insert_ne by done. by rewrite E.
Qed.

End Tree.

Section Resolve.
Context {H : Type} {A : Allocator H}.
Implicit Types (s : HandleState H) (L : gset Z) (own : gmap Z (nat * Z)).

(** The heap answers: with memory or with an error. *)
Hypothesis alloc_returns : forall n h,
  (exists p h', xtHeapAlloc n h = Ok p h') \/ (exists c h', xtHeapAlloc n h = Err c h').

Definition inv s L own : Prop :=
  heap_ok (heap s) L /\ dom (tables s) ∪ dom (descs s) ⊆ L /\ dom (tables s) ## dom (descs s) /\ labelled s own.

(** [l] is where the table of level [k] on the way to [h] is kept. *)
Definition loc_for s own (h : Z) (k : nat) (l : loc) : Prop :=
  match l with
  | Root => k = 3%nat
  | Slot t i => (k < 3)%nat /\ i = index h (S k) /\ own !! t = Some (S k, prefix h (S k)) /\ is_Some (tables s !! t)
  end.

(** What [l] holds. *)
Definition holds s (l : loc) : option Z :=
  match l with
  | Root => Some (descriptorRoot s)
  | Slot t i => es ← tables s !! t; es !! i
  end.

(** The tables above level [k + 1], and the root when [l] is not the root, are
    as they were. *)
Definition above_same s s' own (k : nat) (l : loc) : Prop :=
  (forall t j p, own !! t = Some (j, p) -> (S k < j)%nat -> tables s' !! t = tables s !! t) /\
  (l <> Root -> descriptorRoot s' = descriptorRoot s).

Definition same_handles s s' : Prop := forall h, lookup_handle s' h = lookup_handle s h.

Lemma read_loc_holds s l v : holds s l = Some v -> read_loc l s = Ok v s.
Proof.
  destruct l as [|t i]; cbn [holds read_loc].
  - by intros [= <-].
  - unfold deref. by intros ->.
Qed.

Lemma loc_holds s L own h k l : inv s L own -> loc_for s own h k l -> exists v, holds s l = Some v.
Proof.
  intros (_ & _ & _ & (_ & Hlen & _)) Hloc. destruct l as [|t i]; [eauto|]. destruct Hloc as (_ & -> & _ & es & Ht).
  cbn [holds]. rewrite Ht. cbn [mbind option_bind]. destruct (Hlen t es Ht) as [Hlen' _].
  apply lookup_lt_is_Some_2. rewrite Hlen'. apply index_bound.
Qed.

(** The root of a labelled tree has label 0 at the top level. *)
Lemma lookup_root s own h : labelled s own -> descriptorRoot s <> NULL ->
  own !! descriptorRoot s = Some (3%nat, prefix h 3).
Proof. intros (_ & _ & Hr & _) Hn. rewrite prefix_top. auto. Qed.

(** A state with a new empty table at an empty location. *)
Definition grown s (l : loc) (new : Z) (h' : H) : HandleState H :=
  match l with
  | Root => mkHState h' (<[new := replicate 512 0]> (tables s)) (descs s) new
  | Slot t i => mkHState h' (alter (fun es => <[i := new]> es) t (<[new := replicate 512 0]> (tables s))) (descs s)
                  (descriptorRoot s)
  end.

Lemma table_at_grows s L own h k l new h' :
  inv s L own -> loc_for s own h k l -> holds s l = Some NULL -> xtHeapAlloc 4096 (heap s) = Ok new h' ->
  table_at true l s = Ok (Some new) (grown s l new h').
Proof.
  intros (Hok & Hd & Hdd & (Hdom & _)) Hloc Hv Ha. unfold table_at.
  rewrite (bind_Ok _ _ _ _ _ (read_loc_holds s l NULL Hv)). cbn [Z.eqb NULL negb].
  rewrite (bind_Ok _ _ _ (inl new) (mkHState h' (tables s) (descs s) (descriptorRoot s)))
    by (unfold attempt, on_heap, zoom; by rewrite Ha).
  destruct (alloc_fresh _ _ _ _ _ Hok Ha) as (Hn0 & Hn & _).
  rewrite (bind_Ok _ _ _ tt (mkHState h' (<[new := replicate 512 0]> (tables s)) (descs s) (descriptorRoot s))) by done.
  destruct l as [|t i]; [done|]. cbn [write_loc grown]. destruct Hloc as (_ & _ & _ & es & Ht).
  assert (new <> t) by (intros ->; apply Hn, Hd, elem_of_union_l, elem_of_dom; eauto).
  rewrite (bind_Ok _ _ _ tt (mkHState h' (<[t := <[i := new]> es]> (<[new := replicate 512 0]> (tables s)))
    (descs s) (descriptorRoot s))).
  2: { unfold on_tables, zoom. cbn [tables]. by rewrite (assign_Ok _ _ _ es) by (by rewrite lookup_insert_ne). }
  cbv [mret M_ret]. do 2 f_equal. apply map_eq. intros j.
  destruct (decide (j = t)) as [->|].
  - by rewrite lookup_insert_eq, lookup_alter_eq, lookup_insert_ne, Ht by done.
  - by rewrite lookup_insert_ne, lookup_alter_ne by done.
Qed.

(** What growing at [l] gives: the invariant, the same handles, and an empty table at [l]. *)
Definition grows s L own h k l new s' : Prop :=
  inv s' ({[new]} ∪ L) (<[new := (k, prefix h k)]> own) /\ same_handles s s' /\ above_same s s' own k l /\
  holds s' l = Some new /\ own !! new = None /\ tables s' !! new = Some (replicate 512 0).

Lemma prefix_nonneg h k : 0 <= prefix h k.
Proof. unfold prefix. apply Z.div_pos; [apply Z.mod_pos_bound; lia|apply Z.pow_pos_nonneg; lia]. Qed.

(** The addresses of a new table. *)
Lemma new_table s L own new : inv s L own -> new ∉ L -> tables s !! new = None /\ own !! new = None.
Proof.
  intros (_ & Hd & _ & (Hdom & _)) Hn.
  assert (tables s !! new = None) as Hnt by (apply not_elem_of_dom; clear -Hd Hn; set_solver). split; [done|].
  apply not_elem_of_dom. rewrite Hdom. by apply not_elem_of_dom.
Qed.

Lemma label_fresh own new t (x v : nat * Z) : own !! new = None -> own !! t = Some x -> <[new := v]> own !! t = Some x.
Proof. intros Hn Ht. rewrite lookup_insert_ne; [done|]. intros ->. congruence. Qed.

Lemma grown_root s L own h new h' :
  inv s L own -> descriptorRoot s = NULL -> xtHeapAlloc 4096 (heap s) = Ok new h' ->
  grows s L own h 3 Root new (grown s Root new h').
Proof.
  intros HI Hroot Ha. pose proof HI as (Hok & Hd & Hdd & (Hdom & Hlen & Hr & Hc & Hp)).
  destruct (alloc_fresh _ _ _ _ _ Hok Ha) as (Hn0 & Hn & Hok').
  destruct (new_table s L own new HI Hn) as [Hnt Hno].
  split; [|split; [|split; [|split; [done|split; [done|apply lookup_insert_eq]]]]].
  - split; [done|]. cbn [grown tables descs]. rewrite dom_insert_L.
    split; [clear -Hd; set_solver|]. split; [clear -Hd Hdd Hn; set_solver|].
    split; [cbn [grown tables]; rewrite !dom_insert_L; by rewrite Hdom|].
    split; [|split; [|split]]; cbn [grown tables descriptorRoot].
    + intros t es. destruct (decide (t = new)) as [->|]; [rewrite lookup_insert_eq|].
      { intros E. assert (es = replicate 512 0) as -> by congruence. by rewrite length_replicate. }
      rewrite lookup_insert_ne by done. apply Hlen.
    + intros _. rewrite lookup_insert_eq. by rewrite prefix_top.
    + intros t es j p i e. destruct (decide (t = new)) as [->|].
      { rewrite !lookup_insert_eq. intros E _ He. assert (es = replicate 512 0) as -> by congruence. apply lookup_replicate in He as [-> _]. done. }
      rewrite !(lookup_insert_ne _ new t) by done. intros Ht Ho Hi He. apply label_fresh; eauto.
    + intros t j p. destruct (decide (t = new)) as [->|];
        [rewrite lookup_insert_eq; intros [= <- <-]; apply prefix_nonneg|].
      rewrite lookup_insert_ne by done. apply Hp.
  - intros h1. unfold lookup_handle. cbn [grown descriptorRoot tables]. rewrite Hroot. cbn [Z.eqb NULL].
    destruct (new =? NULL); [done|]. unfold look. cbn [walk]. rewrite lookup_insert_eq. cbn [mbind option_bind].
    by rewrite lookup_replicate_2 by apply index_bound.
  - split; [|done]. intros t j p Ho _. cbn. rewrite lookup_insert_ne; [done|]. intros ->. congruence.
Qed.

(** The tables after growing at a slot. *)
Lemma grown_slot_tables s t i new h' es : tables s !! t = Some es -> new <> t ->
  tables (grown s (Slot t i) new h') = <[t := <[i := new]> es]> (<[new := replicate 512 0]> (tables s)).
Proof.
  intros Ht Hn. cbn [grown tables]. apply map_eq. intros j. destruct (decide (j = t)) as [->|].
  - by rewrite lookup_insert_eq, lookup_alter_eq, lookup_insert_ne, Ht by done.
  - by rewrite lookup_insert_ne, lookup_alter_ne by done.
Qed.

Lemma grown_slot_case s t i new es x es' :
  (<[t := <[i := new]> es]> (<[new := replicate 512 0]> (tables s))) !! x = Some es' ->
  (x = new /\ es' = replicate 512 0) \/ (x = t /\ es' = <[i := new]> es) \/
  (x <> t /\ x <> new /\ tables s !! x = Some es').
Proof.
  destruct (decide (x = t)) as [->|]; [rewrite lookup_insert_eq; naive_solver|]. rewrite lookup_insert_ne by done.
  destruct (decide (x = new)) as [->|]; [rewrite lookup_insert_eq; naive_solver|]. rewrite lookup_insert_ne by done. auto.
Qed.

Lemma grown_slot_labelled s own h k t i new h' es :
  labelled s own -> (k < 3)%nat -> i = index h (S k) -> own !! t = Some (S k, prefix h (S k)) ->
  tables s !! t = Some es -> new <> NULL -> tables s !! new = None -> own !! new = None ->
  labelled (grown s (Slot t i) new h') (<[new := (k, prefix h k)]> own).
Proof.
  intros (Hdom & Hlen & Hr & Hc & Hp) Hk Ei Ho Ht Hn0 Hnt Hno. assert (new <> t) as Hne by congruence.
  destruct (Hlen t es Ht) as [Hes Ht0]. unfold labelled. rewrite (grown_slot_tables s t i new h' es Ht Hne).
  split; [|split; [|split; [|split]]].
  - rewrite !dom_insert_L, Hdom. assert (t ∈ dom (tables s)) as Hin by (apply elem_of_dom; eauto). clear -Hin. set_solver.
  - intros x es' [[-> ->]|[[-> ->]|(_ & _ & E)]]%grown_slot_case;
      [by rewrite length_replicate|by rewrite length_insert|by apply (Hlen x)].
  - cbn [grown descriptorRoot]. intros Hr0. apply label_fresh; auto.
  - intros x es' j p q e Hx Hox Hq He. apply grown_slot_case in Hx as [[-> ->]|[[-> ->]|(_ & Hxn & Hx)]].
    + apply lookup_replicate in Hq as [-> _]. done.
    + rewrite lookup_insert_ne in Hox by done. rewrite Ho in Hox. injection Hox as <- <-.
      destruct (decide (q = i)) as [->|Hqi].
      * rewrite list_lookup_insert_eq in Hq by (rewrite Hes, Ei; apply index_bound). injection Hq as <-.
        rewrite lookup_insert_eq. subst i. by rewrite prefix_step by lia.
      * rewrite list_lookup_insert_ne in Hq by done. apply label_fresh; eauto.
    + rewrite lookup_insert_ne in Hox by done. apply label_fresh; eauto.
  - intros x j p. destruct (decide (x = new)) as [->|];
      [rewrite lookup_insert_eq; intros [= <- <-]; apply prefix_nonneg|].
    rewrite lookup_insert_ne by done. apply Hp.
Qed.

Lemma grown_slot s L own h k t i new h' :
  inv s L own -> loc_for s own h k (Slot t i) -> holds s (Slot t i) = Some NULL ->
  xtHeapAlloc 4096 (heap s) = Ok new h' -> grows s L own h k (Slot t i) new (grown s (Slot t i) new h').
Proof.
  intros HI (Hk & Ei & Ho & es & Ht) Hv Ha. pose proof HI as (Hok & Hd & Hdd & Hl).
  destruct (alloc_fresh _ _ _ _ _ Hok Ha) as (Hn0 & Hn & Hok').
  destruct (new_table s L own new HI Hn) as [Hnt Hno]. assert (new <> t) as Hne by congruence.
  cbn [holds] in Hv. rewrite Ht in Hv. cbn in Hv.
  pose proof (grown_slot_tables s t i new h' es Ht Hne) as Etab.
  assert (length es = 512%nat) as Hes by (apply (proj1 (proj2 Hl) t es Ht)).
  assert (dom (tables (grown s (Slot t i) new h')) = {[new]} ∪ dom (tables s)) as Dtab.
  { rewrite Etab, !dom_insert_L. assert (t ∈ dom (tables s)) as Hin by (apply elem_of_dom; eauto). clear -Hin. set_solver. }
  split; [|split; [|split; [|split; [|split; [done|]]]]].
  - split; [done|]. rewrite Dtab. cbn [grown descs]. split; [clear -Hd; set_solver|].
    split; [clear -Hd Hdd Hn; set_solver|]. by eapply grown_slot_labelled.
  - intros h1. unfold lookup_handle. rewrite Etab. cbn [grown descriptorRoot].
    destruct (descriptorRoot s =? NULL) eqn:E0; [done|]. zbool.
    eapply (look_grow s own Hl h1 k (prefix h (S k))); try done. by apply lookup_root.
  - split; [|done]. intros x j p Hox Hj. rewrite Etab. rewrite !lookup_insert_ne; [done| |].
    + intros ->. congruence.
    + intros ->. rewrite Ho in Hox. injection Hox as <- <-. lia.
  - cbn [holds]. rewrite Etab, lookup_insert_eq. cbn [mbind option_bind].
    apply list_lookup_insert_eq. rewrite Hes, Ei. apply index_bound.
  - rewrite Etab, lookup_insert_ne, lookup_insert_eq by done. done.
Qed.

Lemma grown_tables s L own h k l new h' :
  inv s L own -> loc_for s own h k l -> holds s l = Some NULL -> xtHeapAlloc 4096 (heap s) = Ok new h' ->
  grows s L own h k l new (grown s l new h').
Proof.
  destruct l as [|t i]; [|apply grown_slot]. cbn [loc_for holds]. intros HI -> [= Hv]. by apply grown_root.
Qed.

(** Finding or making the table of one level. *)
Lemma table_at_ok s L own h k l :
  inv s L own -> loc_for s own h k l ->
  exists r s', table_at true l s = Ok r s' /\ same_handles s s' /\ descs s' = descs s /\
    match r with
    | None => True
    | Some t => exists L' own', inv s' L' own' /\ own ⊆ own' /\ above_same s s' own k l /\
        holds s' l = Some t /\ t <> NULL /\ own' !! t = Some (k, prefix h k) /\ is_Some (tables s' !! t)
    end.
Proof.
  intros HI Hloc. destruct (loc_holds s L own h k l HI Hloc) as [v Hv].
  pose proof HI as (Hok & Hd & Hdd & (Hdom & Hlen & Hr & Hc & Hp)).
  destruct (decide (v = NULL)) as [->|Hv0].
  - destruct (alloc_returns 4096 (heap s)) as [(new & h' & Ha)|(c & h' & Ha)].
    + rewrite (table_at_grows s L own h k l new h' HI Hloc Hv Ha).
      destruct (grown_tables s L own h k l new h' HI Hloc Hv Ha) as (G1 & G2 & G3 & G4 & G5 & G6).
      do 2 eexists. split; [reflexivity|]. split; [done|]. split; [by destruct l|].
      exists ({[new]} ∪ L), (<[new := (k, prefix h k)]> own). split; [done|].
      split; [by apply insert_subseteq|]. split; [done|]. split; [done|].
      destruct (alloc_fresh _ _ _ _ _ Hok Ha) as (Hn0 & _). split; [done|].
      split; [apply lookup_insert_eq|eauto].
    + exists None, (mkHState h' (tables s) (descs s) (descriptorRoot s)). split; [|by split].
      unfold table_at. rewrite (bind_Ok _ _ _ _ _ (read_loc_holds s l NULL Hv)). cbn [Z.eqb NULL negb].
      unfold attempt, on_heap, zoom, mbind, M_bind. by rewrite Ha.
  - exists (Some v), s. split.
    { unfold table_at. rewrite (bind_Ok _ _ _ _ _ (read_loc_holds s l v Hv)).
      by rewrite (proj2 (Z.eqb_neq _ _) Hv0). }
    split; [done|]. split; [done|]. exists L, own.
    assert (own !! v = Some (k, prefix h k)) as Ho.
    { destruct l as [|t i].
      - cbn in Hloc, Hv. subst k. injection Hv as <-. by apply (lookup_root s own).
      - destruct Hloc as (Hk & -> & Ho & es & Ht). cbn [holds] in Hv. rewrite Ht in Hv. cbn in Hv.
        rewrite prefix_step by lia. by eapply Hc. }
    split; [done|]. split; [done|]. split; [by split|]. split; [done|]. split; [done|]. split; [done|].
    apply elem_of_dom. rewrite <- Hdom. apply elem_of_dom. eauto.
Qed.

(** Resolving with creation finds the slot of the handle and changes no handle. *)
Lemma resolve_loop_ok h : forall k s L own l,
  inv s L own -> loc_for s own h k l ->
  exists r s', resolve_loop true h k l s = Ok r s' /\ same_handles s s' /\ descs s' = descs s /\
    match r with
    | None => True
    | Some l0 => exists L' own' t t0, inv s' L' own' /\ own ⊆ own' /\ above_same s s' own k l /\
        holds s' l = Some t /\ t <> NULL /\ own' !! t = Some (k, prefix h k) /\
        walk (tables s') h k t = Some t0 /\ l0 = Slot t0 (index h 0) /\
        own' !! t0 = Some (0%nat, prefix h 0) /\ is_Some (tables s' !! t0)
    end.
Proof.
  induction k as [|k IH]; intros s L own l HI Hloc;
    destruct (table_at_ok s L own h _ l HI Hloc) as ([t|] & s1 & R1 & S1 & D1 & C1); cbn [resolve_loop];
    rewrite (bind_Ok _ _ _ _ _ R1); try (by exists None, s1).
  - destruct C1 as (L' & own' & I1 & Sub & Ab & Hh & Ht0 & Ho & Hs).
    do 2 eexists. split; [reflexivity|]. split; [done|]. split; [done|]. exists L', own', t, t. auto 20.
  - destruct C1 as (L1 & own1 & I1 & Sub1 & [Ab1 Rt1] & Hh1 & Ht0 & Ho1 & Hs1).
    assert (S k <= 3)%nat as Hk3.
    { destruct l as [|tl il]; [by injection Hloc as <-|]. destruct Hloc as (? & _). lia. }
    destruct (IH s1 L1 own1 (Slot t (index h (S k)))) as (r & s2 & R2 & S2 & D2 & C2); [done|by repeat split|].
    exists r, s2. split; [done|]. split; [intros h1; by rewrite S2, S1|]. split; [congruence|].
    destruct r as [l0|]; [|done].
    destruct C2 as (L2 & own2 & t2 & t0 & I2 & Sub2 & [Ab2 Rt2] & Hh2 & Ht2 & Ho2 & W2 & El & Ho0 & Hs0).
    assert (forall x j p, own !! x = Some (j, p) -> (S (S k) <= j)%nat -> tables s2 !! x = tables s1 !! x) as K.
    { intros x j p Hx Hj. apply (Ab2 x j p); [|lia]. by eapply lookup_weaken. }
    exists L2, own2, t, t0. split; [done|]. split; [by etrans|].
    split; [split|].
    + intros x j p Hx Hj. rewrite (K x j p Hx) by lia. by eapply Ab1.
    + intros Hl. rewrite Rt2 by done. by apply Rt1.
    + split.
      { destruct l as [|tl il]; cbn [holds] in *.
        - rewrite Rt2 by done. done.
        - destruct Hloc as (_ & _ & Ho & _). by rewrite (K tl _ _ Ho). }
      split; [done|]. split; [by eapply lookup_weaken|]. split; [|done].
      cbn [walk]. cbn [holds] in Hh2. destruct (tables s2 !! t) as [es|]; [|done]. cbn [mbind option_bind] in *.
      rewrite Hh2. cbn [mbind option_bind]. by rewrite (proj2 (Z.eqb_neq _ _) Ht2).
Qed.

End Resolve.

Lemma sign_ext_spec h : 0 <= h < 2 ^ 64 -> (h =? sign_ext h 35) = negb (Z.testbit h 34).
Proof.
  intros Hh. unfold sign_ext. change (2 ^ (35 - 1)) with (2 ^ 34).
  destruct (Z.testbit h 34) eqn:E.
  - assert (Z.lxor h (2 ^ 34) = h - 2 ^ 34) as ->.
    { symmetry. rewrite Z.sub_nocarry_ldiff.
      - apply Z.bits_inj'. intros i Hi. rewrite Z.ldiff_spec, Z.lxor_spec, Z.pow2_bits_eqb by lia.
        destruct (34 =? i) eqn:Ei; zbool; [subst i; by rewrite E|by rewrite andb_true_r, xorb_false_r].
      - apply Z.bits_inj'. intros i Hi. rewrite Z.ldiff_spec, Z.bits_0, Z.pow2_bits_eqb by lia.
        destruct (34 =? i) eqn:Ei; zbool; [subst i; by rewrite E|done]. }
    unfold u64. cbn [negb]. apply Z.eqb_neq. dlia.
  - assert (Z.lxor h (2 ^ 34) = h + 2 ^ 34) as ->.
    { symmetry. apply Z.add_nocarry_lxor. apply Z.bits_inj'. intros i Hi.
      rewrite Z.land_spec, Z.bits_0, Z.pow2_bits_eqb by lia.
      destruct (34 =? i) eqn:Ei; zbool; [subst i; by rewrite E|apply andb_false_r]. }
    rewrite u64_small by lia. cbn [negb]. apply Z.eqb_eq. lia.
Qed.

(** [xtGetHandle] is the lookup of the specification. *)
Lemma get_handle_ok {H} `{Allocator H} (s : HandleState H) own h :
  labelled s own -> handle_ok h ->
  xtGetHandle h s = match lookup_handle s h with Some d => Ok d s | None => Err XT_NOT_FOUND s end.
Proof.
  intros Hl [Hh Hb]. unfold xtGetHandle. rewrite sign_ext_spec, Hb by done. cbn [negb].
  unfold xtResolveHandle, HANDLE_LEVELS. cbn [Nat.sub]. pose proof Hl as (Hdom & Hlen & Hr & Hc & _).
  assert (forall k l v, holds s l = Some v -> (v <> NULL -> own !! v = Some (k, prefix h k)) -> (k <= 3)%nat ->
    resolve_loop false h k l s =
      Ok (if v =? NULL then None else match walk (tables s) h k v with
            Some t0 => Some (Slot t0 (index h 0)) | None => None end) s) as R.
  { induction k as [|k IH]; intros l v Hv Ho Hk.
    - cbn [resolve_loop]. unfold table_at. rewrite bind_bind, (bind_Ok _ _ _ _ _ (read_loc_holds s l v Hv)).
      by destruct (v =? NULL).
    - cbn [resolve_loop]. unfold table_at at 1. rewrite bind_bind, (bind_Ok _ _ _ _ _ (read_loc_holds s l v Hv)).
      destruct (v =? NULL) eqn:E0; [done|]. zbool. rewrite bind_ret.
      assert (exists es, tables s !! v = Some es) as [es Et].
      { apply elem_of_dom. rewrite <- Hdom. apply elem_of_dom. eauto. }
      destruct (Hlen v es Et) as [Hle _].
      destruct (lookup_lt_is_Some_2 es (index h (S k))) as [e He]; [rewrite Hle; apply index_bound|].
      rewrite (IH (Slot v (index h (S k))) e).
      + cbn [walk]. rewrite Et. cbn [mbind option_bind]. rewrite He. cbn [mbind option_bind]. by destruct (e =? NULL).
      + cbn [holds]. rewrite Et. done.
      + intros He0. rewrite prefix_step by lia. eapply Hc; eauto.
      + lia. }
  rewrite (bind_Ok _ _ _ _ _ (R 3%nat Root (descriptorRoot s) eq_refl (lookup_root s own h Hl) ltac:(lia))).
  unfold lookup_handle. destruct (descriptorRoot s =? NULL) eqn:E0; [done|]. zbool. unfold look.
  destruct (walk (tables s) h 3 (descriptorRoot s)) as [t0|] eqn:W; [|done]. cbn [mbind option_bind].
  pose proof (walk_label s own Hl h 3 _ _ ltac:(lia) (lookup_root s own h Hl E0) W) as Ho.
  assert (exists es, tables s !! t0 = Some es) as [es Et].
  { apply elem_of_dom. rewrite <- Hdom. apply elem_of_dom. eauto. }
  destruct (Hlen t0 es Et) as [Hle _].
  destruct (lookup_lt_is_Some_2 es (index h 0)) as [e He]; [rewrite Hle; apply index_bound|].
  rewrite (bind_Ok _ _ _ e s); [|apply read_loc_holds; cbn [holds]; by rewrite Et].
  rewrite Et. cbn [mbind option_bind]. rewrite He. cbn [mbind option_bind]. by destruct (e =? NULL).
Qed.

(** * The properties *)

Section Correct.
Context {H : Type} {A : Allocator H}.
Implicit Types (s : HandleState H) (L : gset Z).

(** The heap answers: with memory or with an error. *)
Definition heap_answers : Prop := forall n h,
  (exists p h', xtHeapAlloc n h = Ok p h') \/ (exists c h', xtHeapAlloc n h = Err c h').

(** A new descriptor in a slot of the last level. *)
Definition with_descriptor s h' (t : Z) (i : nat) (es : list Z) (p : Z) (d : XTDescriptor) : HandleState H :=
  mkHState h' (<[t := <[i := p]> es]> (tables s)) (<[p := d]> (descs s)) (descriptorRoot s).

Lemma leaf_labelled s own h' t i es p d h :
  labelled s own -> tables s !! t = Some es -> own !! t = Some (0%nat, prefix h 0) ->
  labelled (with_descriptor s h' t i es p d) own.
Proof.
  intros (Hdom & Hlen & Hr & Hc & Hp) Ht Ho. unfold with_descriptor.
  split; [cbn; rewrite dom_insert_lookup_L; eauto|]. cbn [tables descriptorRoot].
  split; [|split; [done|split; [|done]]].
  - intros x es'. destruct (decide (x = t)) as [->|]; [rewrite lookup_insert_eq|rewrite lookup_insert_ne by done; apply Hlen].
    destruct (Hlen t es Ht). intros [= <-]. by rewrite length_insert.
  - intros x es' k q j e. destruct (decide (x = t)) as [->|]; [congruence|]. rewrite lookup_insert_ne by done. apply Hc.
Qed.

(** Writing the descriptor of a handle into the slot found for it. *)
Lemma leaf_written s L own h h' t t0 es p d :
  inv s L own -> descriptorRoot s <> NULL -> walk (tables s) h 3 (descriptorRoot s) = Some t0 -> t = t0 ->
  tables s !! t = Some es -> own !! t = Some (0%nat, prefix h 0) -> p <> NULL -> p ∉ L ->
  heap_ok h' ({[p]} ∪ L) ->
  let s' := with_descriptor s h' t (index h 0) es p d in
  handles_ok s' ({[p]} ∪ L) /\ labelled s' own /\ lookup_handle s' h = Some p /\
  forall h1, h1 mod 2 ^ 36 <> h mod 2 ^ 36 -> lookup_handle s' h1 = lookup_handle s h1.
Proof.
  intros (Hok & Hd & Hdd & Hl) Hr W -> Ht Ho Hp0 Hp Hok' s'.
  pose proof (leaf_labelled s own h' t0 (index h 0) es p d h Hl Ht Ho) as Hl'.
  assert (dom (tables s') = dom (tables s)) as Dt by (cbn; apply dom_insert_lookup_L; eauto).
  split; [|split; [done|split]].
  - split; [done|]. rewrite Dt. cbn [s' with_descriptor descs]. rewrite dom_insert_L.
    split; [clear -Hd; set_solver|]. split; [clear -Hd Hdd Hp; set_solver|]. eauto.
  - unfold lookup_handle. cbn [s' with_descriptor descriptorRoot tables]. rewrite (proj2 (Z.eqb_neq _ _) Hr).
    unfold look. rewrite (walk_leaf s own Hl h t0 (prefix h 0)) by (try done; by apply lookup_root).
    rewrite W. cbn [mbind option_bind]. rewrite lookup_insert_eq. cbn [mbind option_bind].
    destruct Hl as (_ & Hlen & _). destruct (Hlen t0 es Ht) as [Hes _].
    rewrite list_lookup_insert_eq by (rewrite Hes; apply index_bound). cbn [mbind option_bind].
    by rewrite (proj2 (Z.eqb_neq _ _) Hp0).
  - intros h1 Hne. unfold lookup_handle. cbn [s' with_descriptor descriptorRoot tables].
    destruct (descriptorRoot s =? NULL); [done|].
    eapply (look_leaf s own Hl h1 t0 h es); try done. by apply lookup_root.
Qed.

(** Creating a descriptor at the location found. *)
Lemma duplicate_at s1 t es (h acc ty d : Z) p h' :
  tables s1 !! t = Some es -> xtHeapAlloc 16 (heap s1) = Ok p h' ->
  (newDesc ← on_heap (xtHeapAlloc 16);
   on_descs (create newDesc (mkDescriptor d ty acc)) ;;; write_loc (Slot t (index h 0)) newDesc) s1 =
  Ok tt (with_descriptor s1 h' t (index h 0) es p (mkDescriptor d ty acc)).
Proof.
  intros Ht Ha. rewrite (bind_Ok _ _ _ p (mkHState h' (tables s1) (descs s1) (descriptorRoot s1)))
    by (unfold on_heap, zoom; by rewrite Ha).
  rewrite (bind_Ok _ _ _ tt (mkHState h' (tables s1) (<[p := mkDescriptor d ty acc]> (descs s1)) (descriptorRoot s1)))
    by done.
  cbn [write_loc]. unfold on_tables, zoom. cbn [tables]. by rewrite (assign_Ok _ _ _ es).
Qed.

(** [xtDuplicateHandle] binds the handle to the new descriptor: [xtGetHandle] then returns it, and every handle
    that differs in the low 36 bits is bound as before. When memory runs out no binding changes. *)
Theorem duplicate_handle_binds s L (h acc ty d : Z) :
  heap_answers -> handles_ok s L -> handle_ok h ->
  match xtDuplicateHandle h acc ty d s with
  | Ok _ s' => exists L' p, handles_ok s' L' /\
      descs s' = <[p := mkDescriptor d ty acc]> (descs s) /\ descs s !! p = None /\ xtGetHandle h s' = Ok p s' /\
      forall h1, h1 mod 2 ^ 36 <> h mod 2 ^ 36 -> lookup_handle s' h1 = lookup_handle s h1
  | Err _ s' => descs s' = descs s /\ forall h1, lookup_handle s' h1 = lookup_handle s h1
  | Fault | OutOfFuel => False
  end.
Proof.
  intros Ans (Hok & Hd & Hdd & own & Hl) Hh. pose proof Hh as [Hh64 Hb].
  destruct (resolve_loop_ok Ans h 3 s L own Root) as (r & s1 & R & Same & D1 & C); [done..|].
  unfold xtDuplicateHandle. rewrite sign_ext_spec, Hb by done. cbn [negb].
  unfold xtResolveHandle. change (HANDLE_LEVELS - 1)%nat with 3%nat. rewrite (bind_Ok _ _ _ _ _ R).
  destruct r as [l0|]; [|by split].
  destruct C as (L1 & own1 & t & t0 & I1 & _ & _ & Hroot & Ht & _ & W & -> & Ho & es & Hes).
  cbn [holds] in Hroot. injection Hroot as <-.
  destruct (Ans 16 (heap s1)) as [(p & h' & Ha)|(c & h' & Ha)].
  - rewrite (duplicate_at s1 t0 es h acc ty d p h' Hes Ha).
    destruct (alloc_fresh _ _ _ _ _ (proj1 I1) Ha) as (Hp0 & Hp & Hok').
    destruct (leaf_written s1 L1 own1 h h' t0 t0 es p (mkDescriptor d ty acc)) as (W1 & W2 & W3 & W4); [done..|].
    exists ({[p]} ∪ L1), p. split; [done|]. cbn [with_descriptor descs]. rewrite <- D1. split; [done|].
    destruct I1 as (_ & Hd1 & _). split; [|split].
    + apply not_elem_of_dom. clear -Hd1 Hp. set_solver.
    + rewrite (get_handle_ok _ own1) by done. by rewrite W3.
    + intros h1 Hne. rewrite W4 by done. apply Same.
  - unfold mbind, M_bind, on_heap, zoom. rewrite Ha. by split.
Qed.

(** Handles that agree in their low 36 bits are one handle. *)
Lemma index_low h1 h2 i : (i <= 3)%nat -> h1 mod 2 ^ 36 = h2 mod 2 ^ 36 -> index h1 i = index h2 i.
Proof.
  intros Hi E. rewrite !index_spec. f_equal.
  assert (forall h, h / 2 ^ (9 * Z.of_nat i) mod 512 = h mod 2 ^ 36 / 2 ^ (9 * Z.of_nat i) mod 512) as K; [|by rewrite (K h1), (K h2), E].
  intros h. set (e := 9 * Z.of_nat i).
  replace (2 ^ 36) with (2 ^ e * (512 * 2 ^ (27 - e)))
    by (change 512 with (2 ^ 9); rewrite <- !Z.pow_add_r by lia; f_equal; lia).
  rewrite mod_div_mod by (try apply Z.mul_pos_pos; try apply Z.pow_pos_nonneg; lia).
  rewrite Z.rem_mul_r by (try apply Z.pow_nonzero; lia). by rewrite (Z.mul_comm 512), Z.mod_add, Z.mod_mod by lia.
Qed.

Lemma resolve_loop_low h1 h2 : h1 mod 2 ^ 36 = h2 mod 2 ^ 36 -> forall k c l s, (k <= 3)%nat ->
  resolve_loop c h1 k l s = resolve_loop c h2 k l s.
Proof.
  intros E. induction k as [|k IH]; intros c l s Hk; cbn [resolve_loop]; unfold mbind, M_bind;
    destruct (table_at c l s) as [[t|] s1| | |]; try done.
  - by rewrite (index_low h1 h2 0).
  - rewrite (index_low h1 h2 (S k)) by (lia || done). apply IH. lia.
Qed.

Lemma bit34_low h : Z.testbit h 34 = Z.testbit (h mod 2 ^ 36) 34.
Proof. by rewrite Z.mod_pow2_bits_low by lia. Qed.

(** [sign_ext(handle, 35)] tests bit 34 only: two handles that agree in their low 36 bits read and write the same
    slot, so a handle above 2^35 is accepted and aliases a small one. *)
Theorem handles_alias s (h1 h2 : Z) :
  0 <= h1 < 2 ^ 64 -> 0 <= h2 < 2 ^ 64 -> h1 mod 2 ^ 36 = h2 mod 2 ^ 36 ->
  xtGetHandle h1 s = xtGetHandle h2 s /\
  forall acc ty d, xtDuplicateHandle h1 acc ty d s = xtDuplicateHandle h2 acc ty d s.
Proof.
  intros B1 B2 E. unfold xtGetHandle, xtDuplicateHandle, xtResolveHandle. rewrite !sign_ext_spec by done.
  rewrite (bit34_low h1), (bit34_low h2), E. destruct (Z.testbit _ 34); cbn [negb]; [done|].
  change (HANDLE_LEVELS - 1)%nat with 3%nat. unfold mbind, M_bind.
  split; [|intros acc ty d]; by rewrite (resolve_loop_low h1 h2 E) by lia.
Qed.

(** * Free handles *)

(** The first slot found empty is empty and the handle leads to it. *)
Lemma free_slot_ok p (es : list Z) : forall es0 i, 0 <= p -> 0 <= i -> i + Z.of_nat (length es0) = 512 ->
  (forall j e, es0 !! j = Some e -> es !! (Z.to_nat i + j)%nat = Some e) ->
  free_slot es0 i p = 2 ^ 64 - 1 \/
  exists j, 0 <= j < 512 /\ free_slot es0 i p = p * 512 + j /\ es !! Z.to_nat j = Some NULL.
Proof.
  induction es0 as [|e es0 IH]; intros i Hp Hi Hlen Hes; cbn [free_slot]; [by left|]. cbn [length] in Hlen.
  destruct (e =? NULL) eqn:E.
  - right. exists i. zbool. subst e. split; [lia|]. split.
    + rewrite shiftl_mul by lia. rewrite lor_add_shift; lia.
    + specialize (Hes 0%nat NULL eq_refl). by rewrite Nat.add_0_r in Hes.
  - apply IH; [done|lia|lia|]. intros j x Hj. specialize (Hes (S j) x Hj). rewrite <- Hes. f_equal. lia.
Qed.

(** A handle below the table labelled [p] of level [k]. *)
Definition below (k : nat) (p r : Z) : Prop :=
  p * 2 ^ (9 * (Z.of_nat k + 1)) <= r < (p + 1) * 2 ^ (9 * (Z.of_nat k + 1)).

Lemma below_index k p i r : 0 <= i < 512 -> below k (p * 512 + i) r -> below (S k) p r /\ index r (S k) = Z.to_nat i.
Proof.
  unfold below. rewrite index_spec. replace (9 * (Z.of_nat (S k) + 1)) with (9 * (Z.of_nat k + 1) + 9) by lia.
  replace (9 * Z.of_nat (S k)) with (9 * (Z.of_nat k + 1)) by lia.
  rewrite Z.pow_add_r by lia. set (q := 2 ^ (9 * (Z.of_nat k + 1))). assert (0 < q) by (apply Z.pow_pos_nonneg; lia).
  change (2 ^ 9) with 512. intros Hi Hr. split; [nia|].
  replace (r / q) with (p * 512 + i) by (apply Z.div_unique with (r - (p * 512 + i) * q); nia).
  f_equal. dlia.
Qed.

Lemma below_leaf p j : 0 <= j < 512 -> below 0 p (p * 512 + j) /\ index (p * 512 + j) 0 = Z.to_nat j.
Proof.
  intros Hj. unfold below. rewrite index_spec. change (2 ^ (9 * (Z.of_nat 0 + 1))) with 512.
  change (2 ^ (9 * Z.of_nat 0)) with 1. rewrite Z.div_1_r. split; [lia|]. f_equal. dlia.
Qed.

Lemma below_small k p r : (k <= 3)%nat -> 0 <= p < 2 ^ (9 * (3 - Z.of_nat k)) -> below k p r -> 0 <= r < 2 ^ 36.
Proof.
  unfold below. intros Hk Hp Hr. replace (2 ^ 36) with (2 ^ (9 * (3 - Z.of_nat k)) * 2 ^ (9 * (Z.of_nat k + 1)))
    by (rewrite <- Z.pow_add_r by lia; f_equal; lia).
  assert (0 < 2 ^ (9 * (Z.of_nat k + 1))) by (apply Z.pow_pos_nonneg; lia). nia.
Qed.

Lemma find_free_scan rem tabs t p : t <> NULL -> find_free (S rem) tabs t p =
  (es ← tabs !! t; scan_entries (find_free rem tabs) rem p es 0).
Proof. intros Ht. cbn [find_free]. rewrite (proj2 (Z.eqb_neq _ _) Ht). destruct (tabs !! t); done. Qed.

Lemma look_step tabs r k t es e : tabs !! t = Some es -> es !! index r (S k) = Some e ->
  look tabs r (S k) t = if e =? NULL then None else look tabs r k e.
Proof.
  intros Ht He. unfold look. cbn [walk]. rewrite Ht. cbn [mbind option_bind]. rewrite He. cbn [mbind option_bind].
  by destruct (e =? NULL).
Qed.

(** What a search below a table may answer: nothing found, or an unbound handle. *)
Definition answer (tabs : gmap Z (list Z)) (k : nat) (p t r : Z) : Prop :=
  r = 2 ^ 64 - 1 \/ (below k p r /\ look tabs r k t = None).

Lemma scan_ok tabs rec rem t p es : (rem < 3)%nat -> 0 <= p < 2 ^ (9 * (3 - Z.of_nat (S rem))) ->
  tabs !! t = Some es -> forall es0 i, 0 <= i -> i + Z.of_nat (length es0) = 512 ->
  (forall j e, es0 !! j = Some e -> es !! (Z.to_nat i + j)%nat = Some e) ->
  (forall j e, es !! j = Some e -> e <> NULL -> (j < 512)%nat ->
     exists r, rec e (p * 512 + Z.of_nat j) = Some r /\ answer tabs rem (p * 512 + Z.of_nat j) e r) ->
  exists r, scan_entries rec rem p es0 i = Some r /\ answer tabs (S rem) p t r.
Proof.
  intros Hrem Hp Ht. induction es0 as [|e es0 IH]; intros i Hi Hlen Hes Hrec; cbn [scan_entries].
  { eexists. split; [done|]. by left. }
  cbn [length] in Hlen. pose proof (Hes 0%nat e eq_refl) as He. rewrite Nat.add_0_r in He.
  rewrite (shiftl_mul p 9) by lia. rewrite lor_add_shift by lia. change (2 ^ 9) with 512.
  destruct (e =? NULL) eqn:E; zbool.
  - subst e. unfold HANDLE_LEVEL_BITS. rewrite shiftl_mul by lia.
    replace (Z.of_nat (S rem) * 9) with (9 * (Z.of_nat rem + 1)) by lia.
    set (r := (p * 512 + i) * 2 ^ (9 * (Z.of_nat rem + 1))).
    assert (below rem (p * 512 + i) r) as Hb.
    { unfold below, r. assert (0 < 2 ^ (9 * (Z.of_nat rem + 1))) by (apply Z.pow_pos_nonneg; lia). nia. }
    destruct (below_index rem p i r ltac:(lia) Hb) as [Hb' Hi'].
    rewrite u64_small by (pose proof (below_small (S rem) p r ltac:(lia) Hp Hb'); lia).
    eexists. split; [done|]. right. split; [done|]. erewrite look_step; [|done|by rewrite Hi'; exact He]. done.
  - destruct (Hrec _ e He E ltac:(lia)) as (r & Hr & Ha). rewrite Z2Nat.id in Hr, Ha by lia. rewrite Hr. cbn [mbind option_bind].
    destruct (r =? 0) eqn:E0; cbn [negb].
    + apply IH; [lia|lia| |done]. intros j x Hj. rewrite <- (Hes (S j) x Hj). f_equal. lia.
    + eexists. split; [done|]. destruct Ha as [->|[Hb Hlk]]; [by left|right].
      destruct (below_index rem p i r ltac:(lia) Hb) as [Hb' Hi']. split; [done|].
      erewrite look_step; [|done|by rewrite Hi'; exact He]. by rewrite (proj2 (Z.eqb_neq _ _) E).
Qed.

Lemma find_free_ok s own : labelled s own -> forall rem t p, (rem <= 3)%nat -> 0 <= p < 2 ^ (9 * (3 - Z.of_nat rem)) ->
  own !! t = Some (rem, p) ->
  exists r, find_free rem (tables s) t p = Some r /\ answer (tables s) rem p t r.
Proof.
  intros (Hdom & Hlen & Hr & Hc & _). induction rem as [|rem IH]; intros t p Hrem Hp Ho;
    (assert (exists es, tables s !! t = Some es) as [es Ht] by (apply elem_of_dom; rewrite <- Hdom; apply elem_of_dom; eauto));
    destruct (Hlen t es Ht) as [Hes Ht0].
  - cbn [find_free]. rewrite (proj2 (Z.eqb_neq _ _) Ht0), Ht. cbn [mbind option_bind].
    destruct (free_slot_ok p es es 0) as [-> | (j & Hj & -> & Hn)]; [lia|lia|lia|done|eexists; split; [done|by left]|].
    destruct (below_leaf p j Hj) as [Hb Hi]. eexists. split; [done|]. right.
    rewrite u64_small by (pose proof (below_small 0 p _ ltac:(lia) Hp Hb); lia). split; [done|].
    unfold look. cbn [walk mbind option_bind]. rewrite Ht. cbn [mbind option_bind]. by rewrite Hi, Hn.
  - rewrite find_free_scan, Ht by done. cbn [mbind option_bind].
    apply (scan_ok (tables s) _ rem t p es); [lia|done|done|lia|lia|done|].
    intros j e He He0 Hj. apply IH; [lia| |by eapply Hc].
    replace (9 * (3 - Z.of_nat rem)) with (9 * (3 - Z.of_nat (S rem)) + 9) by lia. rewrite Z.pow_add_r by lia.
    change (2 ^ 9) with 512. lia.
Qed.

(** [xtFindFreeHandle] always returns, and a handle it returns is not bound and fits the four levels. *)
Theorem find_free_handle_unbound s L :
  handles_ok s L ->
  (exists h, xtFindFreeHandle s = Ok h s /\ 0 <= h < 2 ^ 36 /\ lookup_handle s h = None) \/
  xtFindFreeHandle s = Err XT_NOT_FOUND s.
Proof.
  intros (_ & _ & _ & own & Hl). unfold xtFindFreeHandle. change (HANDLE_LEVELS - 1)%nat with 3%nat.
  destruct (decide (descriptorRoot s = NULL)) as [E|E].
  - left. exists 0. unfold mbind, M_bind, deref, lookup_handle. cbn [find_free]. by rewrite E.
  - destruct (find_free_ok s own Hl 3 (descriptorRoot s) 0) as (r & R & Ha); [lia|lia|by apply Hl|].
    rewrite (bind_Ok _ _ _ r s) by (unfold deref; by rewrite R).
    destruct (r =? 2 ^ 64 - 1) eqn:E1; zbool; [by right|]. destruct Ha as [?|[Hb Hlk]]; [done|]. left. exists r.
    split; [done|]. unfold below in Hb. cbn in Hb. split; [lia|].
    unfold lookup_handle. by rewrite (proj2 (Z.eqb_neq _ _) E).
Qed.

End Correct.

(** * The first leaf *)

(** A process whose first table of each level exists and whose first leaf holds [n] descriptors. *)
Definition first_leaf (n : nat) : HandleState Bump :=
  mkHState (mkBump 0x100000 {[0x1000; 0x2000; 0x3000; 0x4000]})
    (<[0x1000 := 0x2000 :: replicate 511 0]> (<[0x2000 := 0x3000 :: replicate 511 0]>
      (<[0x3000 := 0x4000 :: replicate 511 0]> {[0x4000 := replicate n 0x5000 ++ replicate (512 - n) 0]})))
    ∅ 0x1000.

(** When the 512 handles of the first leaf are bound, [xtFindFreeHandle] reports [XT_NOT_FOUND] although handle 512
    and all the following are free; with one slot left it finds that slot. *)
Theorem find_free_stops_at_full_leaf :
  xtFindFreeHandle (first_leaf 512) = Err XT_NOT_FOUND (first_leaf 512) /\
  lookup_handle (first_leaf 512) 512 = None /\
  xtFindFreeHandle (first_leaf 511) = Ok 511 (first_leaf 511).
Proof. by vm_compute. Qed.

Definition no_handles : HandleState Bump := mkHState bump_empty ∅ ∅ NULL.

(** [xtTerminateProcess] frees the tree with [level] 3, which takes the tables of the last level for descriptors: the
    descriptor of the only handle stays allocated. *)
Theorem free_tree_leaks_descriptors :
  match (xtDuplicateHandle 5 1 2 77 ;;; r ← gets descriptorRoot; xtFreeDescriptorTree (HANDLE_LEVELS - 1) r) no_handles with
  | Ok _ s => bump_live (heap s) = dom (descs s) /\ size (descs s) = 1%nat
  | _ => False
  end.
Proof. vm_compute. done. Qed.

Lemma no_handles_ok : handles_ok no_handles ∅.
Proof.
  split; [apply bump_empty_ok|]. split; [set_solver|]. split; [set_solver|]. exists ∅.
  split; [done|]. split; [set_solver|]. split; [done|]. split; [|set_solver]. intros t es k p i e Ht. set_solver.
Qed.

Lemma bump_answers : heap_answers (H := Bump).
Proof. intros n h. left. do 2 eexists. reflexivity. Qed.

Lemma duplicate_handle_binds_witness :
  match xtDuplicateHandle 5 1 2 77 no_handles with
  | Ok _ s' => exists L' p, handles_ok s' L' /\
      descs s' = <[p := mkDescriptor 77 2 1]> (descs no_handles) /\ descs no_handles !! p = None /\
      xtGetHandle 5 s' = Ok p s' /\
      forall h1, h1 mod 2 ^ 36 <> 5 mod 2 ^ 36 -> lookup_handle s' h1 = lookup_handle no_handles h1
  | Err _ s' => descs s' = descs no_handles /\ forall h1, lookup_handle s' h1 = lookup_handle no_handles h1
  | Fault | OutOfFuel => False
  end.
Proof. apply (duplicate_handle_binds no_handles ∅ 5 1 2 77 bump_answers no_handles_ok). by split; [lia|]. Defined.

Lemma handles_alias_witness : xtGetHandle 5 no_handles = xtGetHandle (5 + 2 ^ 40) no_handles /\
  forall acc ty d, xtDuplicateHandle 5 acc ty d no_handles = xtDuplicateHandle (5 + 2 ^ 40) acc ty d no_handles.
Proof. apply (handles_alias no_handles 5 (5 + 2 ^ 40)); [lia|lia|reflexivity]. Defined.

Lemma find_free_handle_unbound_witness :
  (exists h, xtFindFreeHandle no_handles = Ok h no_handles /\ 0 <= h < 2 ^ 36 /\ lookup_handle no_handles h = None) \/
  xtFindFreeHandle no_handles = Err XT_NOT_FOUND no_handles.
Proof. apply (find_free_handle_unbound no_handles ∅ no_handles_ok). Defined.
