(* ===== verification/Threads.v ===== *)
(** Threads and the scheduler: xtkernel/scheduler.c, xtkernel/spinlock.c and the
    thread and process objects of include/xt/scheduler.h. There is one CPU. *)
From Stdlib Require Import ZArith Lia.
From stdpp Require Import base tactics list gmap fin_maps numbers.
From S2P Require Import Prelude Allocator ListC.

Open Scope Z_scope.

(** * Data *)

Definition XT_THREAD_SLEEP_STATE : Z := 0.

Definition XT_THREAD_RUN_STATE : Z := 1.

Definition XT_THREAD_LOADED_STATE : Z := 2.

Definition XT_THREAD_TERMINATED_STATE : Z := 3.

Definition XT_THREAD_WAIT_STATE : Z := 4.

Definition XT_THREAD_USER : Z := 0x80.

Definition XT_PROCESS_TERMINATING : Z := 1.

(** A spinlock is its flag. *)
Record XTThread := mkThread {
  context : Z;
  result : Z;
  id : Z;
  state : Z;
  privilage : Z;
  ticks : Z;
  process : Z;
  kernelStack : Z;
  waitThreads : Z;
  lock : bool
}.

Definition set_state (v : Z) (t : XTThread) : XTThread :=
  mkThread (context t) (result t) (id t) v (privilage t) (ticks t) (process t) (kernelStack t) (waitThreads t) (lock t).

Definition set_ticks (v : Z) (t : XTThread) : XTThread :=
  mkThread (context t) (result t) (id t) (state t) (privilage t) v (process t) (kernelStack t) (waitThreads t) (lock t).

Definition set_result (v : Z) (t : XTThread) : XTThread :=
  mkThread (context t) v (id t) (state t) (privilage t) (ticks t) (process t) (kernelStack t) (waitThreads t) (lock t).

Definition set_waitThreads (v : Z) (t : XTThread) : XTThread :=
  mkThread (context t) (result t) (id t) (state t) (privilage t) (ticks t) (process t) (kernelStack t) v (lock t).

Definition set_lock (v : bool) (t : XTThread) : XTThread :=
  mkThread (context t) (result t) (id t) (state t) (privilage t) (ticks t) (process t) (kernelStack t) (waitThreads t) v.

(** The objects threads wait for: [XTMutex] of mutex.c, [XTRWLock] of
    include/xt/rwlock.h and [XTEvent] of include/xt/event.h. *)
Record XTMutex := mkMutex { mlock : bool; owner : Z; waitList : Z }.

Record XTRWLock := mkRW { spinlock : bool; readers : Z; waitReaders : Z; waitWriters : Z }.

Record XTEvent := mkEvent { elist : Z; elock : bool; isSignaled : bool }.

Record Objects := mkObjects { mutexes : gmap Z XTMutex; rwlocks : gmap Z XTRWLock; events : gmap Z XTEvent }.

(** The threads, their lists, the objects they wait for and the statics of the
    scheduler; [currentThread] is the per-CPU pointer and [interrupts] the
    interrupt flag of the CPU. *)
Record Kernel (H : Type) := mkKernel {
  mem : ListHeap H;
  thr : gmap Z XTThread;
  threads : Z;
  currentThreadIterator : Z;
  threadCount : Z;
  IdleThread : Z;
  currentThread : Z;
  interrupts : bool;
  objs : Objects
}.

Arguments mkKernel {H} _ _ _ _ _ _ _ _ _.
Arguments objs {H} _.
Arguments mem {H} _.
Arguments thr {H} _.
Arguments threads {H} _.
Arguments currentThreadIterator {H} _.
Arguments threadCount {H} _.
Arguments IdleThread {H} _.
Arguments currentThread {H} _.
Arguments interrupts {H} _.

Section Threads.
Context {H : Type} {A : Allocator H}.

Definition on_mem {X} (m : M (ListHeap H) X) : M (Kernel H) X :=
  zoom mem (fun l k => mkKernel l (thr k) (threads k) (currentThreadIterator k) (threadCount k) (IdleThread k)
                         (currentThread k) (interrupts k) (objs k)) m.

Definition on_list {X} (m : M Lists X) : M (Kernel H) X := on_mem (on_lists m).

Definition on_thr {X} (m : M (gmap Z XTThread) X) : M (Kernel H) X :=
  zoom thr (fun t k => mkKernel (mem k) t (threads k) (currentThreadIterator k) (threadCount k) (IdleThread k)
                         (currentThread k) (interrupts k) (objs k)) m.

Definition set_iterator (v : Z) (k : Kernel H) : Kernel H :=
  mkKernel (mem k) (thr k) (threads k) v (threadCount k) (IdleThread k) (currentThread k) (interrupts k) (objs k).

Definition set_current (v : Z) (k : Kernel H) : Kernel H :=
  mkKernel (mem k) (thr k) (threads k) (currentThreadIterator k) (threadCount k) (IdleThread k) v (interrupts k) (objs k).

Definition set_interrupts (v : bool) (k : Kernel H) : Kernel H :=
  mkKernel (mem k) (thr k) (threads k) (currentThreadIterator k) (threadCount k) (IdleThread k) (currentThread k) v (objs k).

(** * Spinlocks *)

(** A spinlock inside an object: how its flag is read and written. *)
Record SpinRef := mkSpin { test : M (Kernel H) bool; write : bool -> M (Kernel H) unit }.

Definition thread_lock (t : Z) : SpinRef :=
  mkSpin (on_thr (x ← load t; mret (lock x))) (fun b => on_thr (assign t (set_lock b))).

(** Interrupts are off and there is one CPU: a lock that is busy stays busy. *)
Definition acquire (l : SpinRef) : M (Kernel H) unit :=
  busy ← test l;
  write l true ;;;
  if (busy : bool) then nofuel else mret tt.

Definition release (l : SpinRef) : M (Kernel H) unit := write l false.

Definition xtInitSpinlock (l : SpinRef) : M (Kernel H) unit := write l false.

Definition xtLockSpinlock (l : SpinRef) : M (Kernel H) unit :=
  modify (set_interrupts false) ;;;
  acquire l.

Definition xtUnlockSpinlock (l : SpinRef) : M (Kernel H) unit :=
  release l ;;;
  modify (set_interrupts true).

(** * Sleeping and waking *)

(** [xtSwitchToThread] returns when this thread is scheduled again; what the
    others did in the meantime is the next entry of [env]. *)
Definition xtSwitchToThread (env : list (Kernel H -> Kernel H)) : M (Kernel H) (list (Kernel H -> Kernel H)) :=
  match env with
  | [] => nofuel
  | f :: env => modify f ;;; mret env
  end.

(** The spinlock of [thread] is taken before the check for [NULL]. *)
Definition sleep_mark (thread milliseconds : Z) : M (Kernel H) unit :=
  xtLockSpinlock (thread_lock thread) ;;;
  XT_CHECK_ARG_IS_NULL thread ;;;
  on_thr (assign thread (set_state XT_THREAD_SLEEP_STATE)) ;;;
  on_thr (assign thread (set_ticks milliseconds)) ;;;
  xtUnlockSpinlock (thread_lock thread).

Definition xtSleepThread (thread milliseconds : Z) (env : list (Kernel H -> Kernel H))
    : M (Kernel H) (list (Kernel H -> Kernel H)) :=
  sleep_mark thread milliseconds ;;;
  current ← gets currentThread;
  if current =? thread then xtSwitchToThread env else mret env.

Definition xtWakeUpThread (thread : Z) : M (Kernel H) unit :=
  xtLockSpinlock (thread_lock thread) ;;;
  on_thr (assign thread (fun t => set_state (Z.lor (Z.land (state t) 0x7f) XT_THREAD_RUN_STATE) t)) ;;;
  on_thr (assign thread (fun t => set_ticks (privilage t) t)) ;;;
  xtUnlockSpinlock (thread_lock thread).

(** [for (i = threads; i; xtGetNextList(i, &i))] *)
Fixpoint wake_loop (fuel : nat) (i : Z) : M (Kernel H) unit :=
  if i =? NULL then mret tt
  else
    thread ← out_or NULL (on_list (xtGetListData i));
    t ← on_thr (load thread);
    (if state t =? XT_THREAD_SLEEP_STATE then
       on_thr (assign thread (set_ticks (u64 (ticks t - 1)))) ;;;
       if u64 (ticks t - 1) =? 0 then xtWakeUpThread thread else mret tt
     else mret tt) ;;;
    i ← out_or i (on_list (xtGetNextList i));
    match fuel with O => nofuel | S fuel => wake_loop fuel i end.

(** A walk over a list that ends has fewer steps than there are nodes. *)
Definition list_fuel : M (Kernel H) nat := gets (fun k => size (lists (mem k))).

Definition xtWakeUpThreads : M (Kernel H) unit :=
  n ← list_fuel;
  i ← gets threads;
  wake_loop n i.

(** * The scheduler *)

Definition is_run (t : XTThread) : bool := Z.land (state t) 0xf =? XT_THREAD_RUN_STATE.

(** The iterator moves to the next node, from the last one to the first. *)
Definition advance : M (Kernel H) Z :=
  it ← gets currentThreadIterator;
  it ← out_or it (on_list (xtGetNextList it));
  modify (set_iterator it) ;;;
  (if it =? NULL then first ← gets threads; modify (set_iterator first) else mret tt) ;;;
  gets currentThreadIterator.

(** [while (1)]: the thread to run; [cur] is the variable [currentThread]. *)
Fixpoint pick_loop (fuel : nat) (start cur : Z) : M (Kernel H) Z :=
  it ← advance;
  thread ← out_or cur (on_list (xtGetListData it));
  t ← on_thr (load thread);
  if is_run t then mret thread
  else if it =? start then gets IdleThread
  else match fuel with O => nofuel | S fuel => pick_loop fuel start thread end.

Definition xtSchedule : M (Kernel H) unit :=
  xtWakeUpThreads ;;;
  current ← gets currentThread;
  t ← on_thr (load current);
  (if is_run t then on_thr (assign current (set_ticks (u64 (ticks t - 1)))) else mret tt) ;;;
  if is_run t && (0 <? u64 (ticks t - 1)) then mret tt
  else
    start ← gets currentThreadIterator;
    n ← list_fuel;
    next ← pick_loop n start current;
    on_thr (assign next (fun t => set_ticks (privilage t) t)) ;;;
    modify (set_current next).

End Threads.

(** * The specification *)

(** One tick of a thread: a sleeper whose time is up becomes runnable with a
    fresh quantum. *)
Definition tick (t : XTThread) : XTThread :=
  if state t =? XT_THREAD_SLEEP_STATE then
    let n := u64 (ticks t - 1) in
    if n =? 0 then set_ticks (privilage t) (set_state XT_THREAD_RUN_STATE t) else set_ticks n t
  else t.

Notation tick_all := (alter_all tick).

(** The threads the scheduler knows, as (list node, thread) pairs. *)
Definition sched_ok {H} (k : Kernel H) (l : list (Z * Z)) : Prop :=
  is_list (lists (mem k)) (threads k) l /\ currentThreadIterator k ∈ l.*1 /\
  (forall t, t ∈ l.*2 -> is_Some (thr k !! t)) /\
  is_Some (thr k !! IdleThread k) /\ is_Some (thr k !! currentThread k) /\
  (forall t x, thr k !! t = Some x -> lock x = false).

(** The nodes in the order the scheduler looks at them: those after the
    iterator, then from the first one to the iterator itself. *)
Fixpoint rotation (it : Z) (l pre : list (Z * Z)) : list (Z * Z) :=
  match l with
  | [] => []
  | (a, t) :: l => if a =? it then l ++ pre ++ [(a, t)] else rotation it l (pre ++ [(a, t)])
  end.

Definition runs (m : gmap Z XTThread) (x : Z * Z) : bool :=
  match m !! x.2 with Some t => is_run t | None => false end.

Definition choice (m : gmap Z XTThread) (rot : list (Z * Z)) : option (Z * Z) := List.find (runs m) rot.

(** * Lemmas *)

Lemma rotation_split it pre0 l1 th l2 : it ∉ l1.*1 ->
  rotation it (l1 ++ (it, th) :: l2) pre0 = l2 ++ pre0 ++ l1 ++ [(it, th)].
Proof.
  revert pre0. induction l1 as [|[a t] l1 IH]; intros pre0 Hn; cbn [app rotation].
  - by rewrite Z.eqb_refl.
  - cbn in Hn. apply not_elem_of_cons in Hn as [Ha Hn]. rewrite (proj2 (Z.eqb_neq a it)) by done.
    rewrite IH by done. by rewrite <- !app_assoc.
Qed.

Definition succ_node (m : Lists) (first p : Z) : option Z :=
  n ← m !! p; Some (if next n =? NULL then first else next n).

(** Stepping from [p] visits [rot]. *)
Fixpoint path (m : Lists) (first p : Z) (rot : list (Z * Z)) : Prop :=
  match rot with
  | [] => True
  | (a, t) :: rot => succ_node m first p = Some a /\ a <> NULL /\ (exists n, m !! a = Some n /\ data n = t) /\
      path m first a rot
  end.

Lemma path_seg m first p n l q : m !! p = Some n -> lseg m (next n) l q -> path m first p l.
Proof.
  revert p n. induction l as [|[a t] l IH]; intros p n Hp Hl; cbn [path]; [done|].
  destruct Hl as (Ea & Ha & k & Hk & Hd & Hc). split; [|split; [done|split; [eauto|by eapply IH]]].
  unfold succ_node. rewrite Hp. cbn. by rewrite Ea, (proj2 (Z.eqb_neq _ _) Ha).
Qed.

Lemma path_wrap m first p n l q : m !! p = Some n -> next n = NULL -> lseg m first l q -> path m first p l.
Proof.
  intros Hp Hn. destruct l as [|[a t] l]; [done|]. intros (-> & Ha & k & Hk & Hd & Hc). cbn [path].
  split; [unfold succ_node; rewrite Hp; cbn; by rewrite Hn|]. split; [done|]. split; [eauto|by eapply path_seg].
Qed.

Lemma path_app m first p n l r : m !! p = Some n -> lseg m (next n) l NULL ->
  (forall z k, m !! z = Some k -> next k = NULL -> path m first z r) -> path m first p (l ++ r).
Proof.
  revert p n. induction l as [|[a t] l IH]; intros p n Hp Hl Hr; cbn [app path]; [by eapply Hr|].
  destruct Hl as (Ea & Ha & k & Hk & Hd & Hc). split; [|split; [done|split; [eauto|by eapply IH]]].
  unfold succ_node. rewrite Hp. cbn. by rewrite Ea, (proj2 (Z.eqb_neq _ _) Ha).
Qed.

(** From the iterator the steps go once around. *)
Lemma path_rotation m first l1 it th l2 :
  is_list m first (l1 ++ (it, th) :: l2) -> path m first it (l2 ++ l1 ++ [(it, th)]).
Proof.
  intros [Hc _]. pose proof Hc as (r & H1 & -> & Hit & n & Hn & Hd & H2)%chain_app.
  eapply path_app; [done|exact H2|]. intros z k Hz Hk. eapply path_wrap; [done..|]. instantiate (1 := next n).
  apply chain_app. exists it. split; [done|]. cbn. eauto 10.
Qed.

Section Proofs.
Context {H : Type} {A : Allocator H}.
Implicit Types (k : Kernel H).

Definition with_thr k m : Kernel H :=
  mkKernel (mem k) m (threads k) (currentThreadIterator k) (threadCount k) (IdleThread k) (currentThread k) (interrupts k) (objs k).

Lemma on_thr_Ok {X} k (m : M (gmap Z XTThread) X) x t : m (thr k) = Ok x t -> on_thr m k = Ok x (with_thr k t).
Proof. intros E. unfold on_thr, zoom. by rewrite E. Qed.

Lemma on_list_Ok {X} k (m : M Lists X) x : m (lists (mem k)) = Ok x (lists (mem k)) -> on_list m k = Ok x k.
Proof. intros E. unfold on_list, on_mem, on_lists, zoom. rewrite E. by destruct k as [[]]. Qed.

Lemma with_thr_id k : with_thr k (thr k) = k.
Proof. by destruct k. Qed.

Lemma load_thr k t x : thr k !! t = Some x -> on_thr (load t) k = Ok x k.
Proof. intros E. rewrite (on_thr_Ok _ _ x (thr k)) by (by apply load_Ok). by rewrite with_thr_id. Qed.

Lemma assign_thr k t x f : thr k !! t = Some x -> on_thr (assign t f) k = Ok tt (with_thr k (<[t := f x]> (thr k))).
Proof. intros E. apply on_thr_Ok. by apply assign_Ok. Qed.

Lemma get_data_ok k a n : a <> NULL -> lists (mem k) !! a = Some n -> on_list (xtGetListData a) k = Ok (data n) k.
Proof. intros Ha E. apply on_list_Ok. unfold xtGetListData. rewrite check_then by done. by rewrite (bind_Ok _ _ _ _ _ (load_Ok _ _ _ E)). Qed.

Lemma get_next_ok k a n : a <> NULL -> lists (mem k) !! a = Some n -> on_list (xtGetNextList a) k = Ok (next n) k.
Proof. intros Ha E. apply on_list_Ok. unfold xtGetNextList. rewrite check_then by done. by rewrite (bind_Ok _ _ _ _ _ (load_Ok _ _ _ E)). Qed.

(** Locking and unlocking a free thread around a change of its other fields. *)
Lemma lock_thread k t x : thr k !! t = Some x -> lock x = false ->
  xtLockSpinlock (thread_lock t) k = Ok tt (set_interrupts false (with_thr k (<[t := set_lock true x]> (thr k)))).
Proof.
  intros Ht Hl. unfold xtLockSpinlock, acquire, thread_lock. cbn [test write].
  rewrite (bind_Ok _ _ _ tt (set_interrupts false k)) by done.
  rewrite (bind_Ok _ _ _ false (set_interrupts false k)).
  2: { unfold on_thr, zoom. cbn [thr set_interrupts]. rewrite (bind_Ok _ _ _ _ _ (load_Ok _ _ _ Ht)). cbn. by rewrite Hl. }
  by rewrite (bind_Ok _ _ _ _ _ (assign_thr (set_interrupts false k) t x _ Ht)).
Qed.

Lemma unlock_thread k t x : thr k !! t = Some x ->
  xtUnlockSpinlock (thread_lock t) k = Ok tt (set_interrupts true (with_thr k (<[t := set_lock false x]> (thr k)))).
Proof. intros Ht. unfold xtUnlockSpinlock, release, thread_lock. cbn [write]. by rewrite (bind_Ok _ _ _ _ _ (assign_thr k t x _ Ht)). Qed.

(** What [xtWakeUpThread] makes of a thread. *)
Definition woken (x : XTThread) : XTThread :=
  set_ticks (privilage x) (set_state (Z.lor (Z.land (state x) 0x7f) XT_THREAD_RUN_STATE) x).

Lemma wake_up_ok k t x : thr k !! t = Some x -> lock x = false ->
  xtWakeUpThread t k = Ok tt (set_interrupts true (with_thr k (<[t := woken x]> (thr k)))).
Proof.
  intros Ht Hl. unfold xtWakeUpThread. rewrite (bind_Ok _ _ _ _ _ (lock_thread k t x Ht Hl)).
  erewrite bind_Ok; [|apply assign_thr, lookup_insert_eq]. erewrite bind_Ok; [|apply assign_thr, lookup_insert_eq].
  erewrite unlock_thread by apply lookup_insert_eq. cbn [thr with_thr set_interrupts]. rewrite !insert_insert_eq.
  assert (set_lock false (set_ticks (privilage (set_state (Z.lor (Z.land (state (set_lock true x)) 0x7f) XT_THREAD_RUN_STATE)
    (set_lock true x))) (set_state (Z.lor (Z.land (state (set_lock true x)) 0x7f) XT_THREAD_RUN_STATE) (set_lock true x))) = woken x)
    as -> by (destruct x; cbn in *; by subst). done.
Qed.

(** ** The wake-up pass *)

Lemma tick_lock x : lock (tick x) = lock x.
Proof. unfold tick. destruct (state x =? _); [|done]. by destruct (_ =? 0). Qed.

Lemma alter_locks (m : gmap Z XTThread) t :
  (forall u x, m !! u = Some x -> lock x = false) -> forall u x, alter tick t m !! u = Some x -> lock x = false.
Proof.
  intros Hm u x. destruct (decide (u = t)) as [->|].
  - rewrite lookup_alter_eq. destruct (m !! t) as [y|] eqn:E; [|done]. intros [= <-]. rewrite tick_lock. eauto.
  - rewrite lookup_alter_ne by done. apply Hm.
Qed.

(** Does a tick wake a thread of the list? *)
Definition wakes (m : gmap Z XTThread) (t : Z) : bool :=
  match m !! t with Some x => (state x =? XT_THREAD_SLEEP_STATE) && (u64 (ticks x - 1) =? 0) | None => false end.

(** The interrupt flag after a pass: [xtUnlockSpinlock] in [xtWakeUpThread] sets it. *)
Fixpoint flag_after (ts : list Z) (m : gmap Z XTThread) (b : bool) : bool :=
  match ts with
  | [] => b
  | t :: ts => flag_after ts (alter tick t m) (wakes m t || b)
  end.

(** One thread of the pass. *)
Lemma tick_thread k t x : thr k !! t = Some x -> lock x = false ->
  (if state x =? XT_THREAD_SLEEP_STATE then
     on_thr (assign t (set_ticks (u64 (ticks x - 1)))) ;;;
     if u64 (ticks x - 1) =? 0 then xtWakeUpThread t else mret tt
   else mret tt) k =
  Ok tt (set_interrupts (wakes (thr k) t || interrupts k) (with_thr k (alter tick t (thr k)))).
Proof.
  intros Ht Hl. unfold wakes. rewrite Ht, <- (insert_alter _ t x tick Ht). unfold tick.
  destruct (state x =? XT_THREAD_SLEEP_STATE) eqn:E; cbn [andb orb].
  - rewrite (bind_Ok _ _ _ _ _ (assign_thr k t x _ Ht)). destruct (u64 (ticks x - 1) =? 0) eqn:E0; [|by destruct k].
    erewrite wake_up_ok; [|apply lookup_insert_eq|done]. cbn [thr with_thr]. rewrite insert_insert_eq.
    do 2 f_equal. unfold woken. zbool. destruct x; cbn in *. by subst.
  - rewrite insert_id by done. destruct k; done.
Qed.

Lemma wake_loop_ok : forall l fuel k p,
  lseg (lists (mem k)) p l NULL -> (length l <= fuel)%nat -> (forall t, t ∈ l.*2 -> is_Some (thr k !! t)) ->
  (forall t x, thr k !! t = Some x -> lock x = false) ->
  wake_loop fuel p k = Ok tt (set_interrupts (flag_after l.*2 (thr k) (interrupts k)) (with_thr k (tick_all l.*2 (thr k)))).
Proof.
  induction l as [|[a t] l IH]; intros fuel k p Hl Hf Ht Hlk.
  - cbn in Hl. subst p. destruct fuel; cbn; by destruct k.
  - destruct Hl as (-> & Ha & n & Hn & Hd & Hc). cbn [length] in Hf. destruct fuel as [|fuel]; [lia|].
    cbn [wake_loop]. rewrite (proj2 (Z.eqb_neq _ _) Ha).
    rewrite (bind_Ok _ _ _ t k) by (subst t; apply out_or_Ok, get_data_ok; done).
    destruct (Ht t) as [x Hx]; [set_solver|]. rewrite (bind_Ok _ _ _ _ _ (load_thr k t x Hx)).
    rewrite (bind_Ok _ _ _ _ _ (tick_thread k t x Hx (Hlk _ _ Hx))).
    set (k1 := set_interrupts _ _).
    rewrite (bind_Ok _ _ _ (next n) k1) by (apply out_or_Ok, get_next_ok; done).
    rewrite (IH fuel k1 (next n)); [done|done|lia| |].
    + intros u Hu. cbn. destruct (decide (u = t)) as [->|]; [rewrite lookup_alter_eq, Hx; eauto|].
      rewrite lookup_alter_ne by done. apply Ht. set_solver.
    + by apply alter_locks.
Qed.

Lemma list_fits (m : Lists) p l : is_list m p l -> (length l <= size m)%nat.
Proof. intros [Hc Hnd]. by eapply chain_length. Qed.

Lemma wake_up_threads_ok k l : sched_ok k l ->
  xtWakeUpThreads k =
  Ok tt (set_interrupts (flag_after l.*2 (thr k) (interrupts k)) (with_thr k (tick_all l.*2 (thr k)))).
Proof.
  intros (Hl & _ & Ht & _ & _ & Hlk). unfold xtWakeUpThreads, list_fuel, gets. cbn [mbind M_bind].
  apply wake_loop_ok; [apply Hl|by eapply list_fits|done|done].
Qed.

(** ** Picking the next thread *)

Lemma advance_ok k a : currentThreadIterator k <> NULL ->
  succ_node (lists (mem k)) (threads k) (currentThreadIterator k) = Some a -> advance k = Ok a (set_iterator a k).
Proof.
  unfold succ_node. intros Hit Hs. destruct (lists (mem k) !! currentThreadIterator k) as [it|] eqn:Eit; [|done].
  cbn in Hs. injection Hs as Hs. unfold advance. rewrite (bind_Ok _ _ _ (currentThreadIterator k) k) by done.
  rewrite (bind_Ok _ _ _ (next it) k) by (apply out_or_Ok, get_next_ok; done). unfold mbind, M_bind, modify.
  destruct (next it =? NULL); subst a; done.
Qed.

Lemma pick_loop_ok : forall rot fuel k cur start,
  path (lists (mem k)) (threads k) (currentThreadIterator k) rot -> rot <> [] -> currentThreadIterator k <> NULL ->
  (length rot <= S fuel)%nat -> (forall t, t ∈ rot.*2 -> is_Some (thr k !! t)) ->
  (exists r t, rot = r ++ [(start, t)] /\ start ∉ r.*1) ->
  pick_loop fuel start cur k =
    match choice (thr k) rot with
    | Some (a, t) => Ok t (set_iterator a k)
    | None => Ok (IdleThread k) (set_iterator start k)
    end.
Proof.
  induction rot as [|[a t] rot IH]; intros fuel k cur start Hp Hne Hit Hf Ht (r & u & Hr & Hnr); [done|].
  destruct Hp as (Hs & Ha & (n & Hn & Hd) & Hp). destruct (Ht t) as [x Hx]; [apply elem_of_cons; by left|].
  assert (pick_loop fuel start cur k = (if is_run x then mret t else if a =? start then gets IdleThread
    else match fuel with O => nofuel | S fuel => pick_loop fuel start t end) (set_iterator a k)) as ->.
  { destruct fuel; cbn [pick_loop]; rewrite (bind_Ok _ _ _ _ _ (advance_ok k a Hit Hs));
      (rewrite (bind_Ok _ _ _ t (set_iterator a k)) by (subst t; apply out_or_Ok, get_data_ok; done));
      by rewrite (bind_Ok _ _ _ _ _ (load_thr (set_iterator a k) t x Hx)). }
  unfold choice. cbn [List.find]. unfold runs at 1. cbn [snd]. rewrite Hx. destruct (is_run x); [done|].
  destruct r as [|[b v] r]; injection Hr as -> -> ->.
  - cbn [List.find]. by rewrite Z.eqb_refl.
  - cbn in Hnr. apply not_elem_of_cons in Hnr as [Hb Hnr]. rewrite (proj2 (Z.eqb_neq b start)) by done.
    destruct fuel as [|fuel]; [rewrite length_cons, length_app in Hf; cbn in Hf; lia|].
    rewrite (IH fuel (set_iterator b k) v start); [done|done|by destruct r|done| | |eauto].
    + rewrite length_cons in Hf. lia.
    + intros w Hw. apply Ht. cbn. apply elem_of_cons. by right.
Qed.

(** The state after a tick. *)
Definition ticked k (l : list (Z * Z)) : Kernel H :=
  set_interrupts (flag_after l.*2 (thr k) (interrupts k)) (with_thr k (tick_all l.*2 (thr k))).

Lemma iterator_split (l : list (Z * Z)) it : it ∈ l.*1 -> NoDup l.*1 ->
  exists l1 th l2, l = l1 ++ (it, th) :: l2 /\ it ∉ l1.*1 /\ it ∉ l2.*1.
Proof.
  intros ([a th] & -> & Hin)%list_elem_of_fmap Hnd. apply list_elem_of_split in Hin as (l1 & l2 & ->).
  exists l1, th, l2. split; [done|]. rewrite fmap_app in Hnd. apply list.NoDup_app in Hnd as (_ & Hd & Hnd).
  cbn in Hnd. apply list.NoDup_cons in Hnd as [Hn _]. split; [|done]. intros Hi. apply (Hd _ Hi). cbn. set_solver.
Qed.

(** The search of [xtSchedule]. *)
Lemma pick_ok k l m cur : sched_ok k l -> (forall t, is_Some (thr k !! t) -> is_Some (m !! t)) ->
  pick_loop (size (lists (mem k))) (currentThreadIterator k) cur (with_thr k m) =
    match choice m (rotation (currentThreadIterator k) l []) with
    | Some (a, t) => Ok t (set_iterator a (with_thr k m))
    | None => Ok (IdleThread k) (with_thr k m)
    end.
Proof.
  intros (Hl & Hit & Ht & _) Hm. pose proof (list_fits _ _ _ Hl) as Hf.
  destruct (iterator_split l _ Hit (proj2 Hl)) as (l1 & th & l2 & -> & H1 & H2).
  rewrite rotation_split by done. cbn [app].
  pose proof (path_rotation _ _ _ _ _ _ Hl) as Hp.
  rewrite (pick_loop_ok (l2 ++ l1 ++ [(currentThreadIterator k, th)]) _ (with_thr k m)).
  - cbn [thr with_thr]. by destruct (choice m _) as [[a t]|].
  - exact Hp.
  - destruct l2, l1; done.
  - cbn. destruct Hl as [Hc _]. apply (chain_addresses_nonnull next data) in Hc. intros E. by rewrite <- E in Hc.
  - rewrite !length_app in *. cbn in *. lia.
  - intros t Hin. apply Hm, Ht. clear -Hin. rewrite !fmap_app in *. cbn in *. set_solver.
  - exists (l2 ++ l1), th. rewrite app_assoc. split; [done|]. rewrite fmap_app. clear -H1 H2. set_solver.
Qed.

(** ** The properties *)

(** What [xtSchedule] does after the tick: the current thread keeps the CPU while it runs and has time left;
    otherwise the first runnable thread after the iterator, going around once, gets a fresh quantum, and the idle
    thread when none is runnable. *)
Definition scheduled k (l : list (Z * Z)) (x : XTThread) : Kernel H :=
  let k1 := ticked k l in
  let m := if is_run x then <[currentThread k := set_ticks (u64 (ticks x - 1)) x]> (thr k1) else thr k1 in
  if is_run x && (0 <? u64 (ticks x - 1)) then with_thr k1 m
  else
    let '(it, t) := default (currentThreadIterator k, IdleThread k)
                      (choice m (rotation (currentThreadIterator k) l [])) in
    set_current t (set_iterator it (with_thr k1 (alter (fun t => set_ticks (privilage t) t) t m))).

Lemma ticked_ok k l : sched_ok k l -> is_Some (thr (ticked k l) !! currentThread k).
Proof. intros (_ & _ & _ & _ & Hc & _). cbn. by apply alter_all_is_Some. Qed.

(** The thread the search ends with exists. *)
Lemma choice_in (m : gmap Z XTThread) rot a t : choice m rot = Some (a, t) -> (a, t) ∈ rot /\ runs m (a, t) = true.
Proof. unfold choice. intros [Hin Hr]%List.find_some. split; [by apply list_elem_of_In|done]. Qed.

Lemma schedule_tail k l (m : gmap Z XTThread) b : sched_ok k l -> (forall t, is_Some (thr k !! t) -> is_Some (m !! t)) ->
  let k1 := set_interrupts b (with_thr k m) in
  (start ← gets currentThreadIterator; n ← list_fuel; next ← pick_loop n start (currentThread k);
   on_thr (assign next (fun t => set_ticks (privilage t) t)) ;;; modify (set_current next)) k1 =
  let '(it, t) := default (currentThreadIterator k, IdleThread k)
                    (choice m (rotation (currentThreadIterator k) l [])) in
  Ok tt (set_current t (set_iterator it (with_thr k1 (alter (fun t => set_ticks (privilage t) t) t m)))).
Proof.
  intros Hok Hm k1. unfold gets at 1, list_fuel. rewrite (bind_Ok _ _ _ (currentThreadIterator k) k1) by done.
  rewrite (bind_Ok _ _ _ (size (lists (mem k))) k1) by done.
  assert (sched_ok (set_interrupts b k) l) as Hok' by (by destruct k).
  pose proof (pick_ok (set_interrupts b k) l m (currentThread k) Hok' Hm) as Hp.
  cbn [currentThreadIterator set_interrupts IdleThread] in Hp. change (with_thr (set_interrupts b k) m) with k1 in Hp.
  change (mem (set_interrupts b k)) with (mem k) in Hp.
  destruct Hok as (_ & _ & Ht & [i Hi] & _).
  destruct (choice m _) as [[a t]|] eqn:E; cbn [default]; rewrite (bind_Ok _ _ _ _ _ Hp).
  - apply choice_in in E as [_ E]. unfold runs in E. cbn [snd] in E. destruct (m !! t) as [y|] eqn:Ey; [|done].
    rewrite (bind_Ok _ _ _ _ _ (assign_thr (set_iterator a k1) t y _ Ey)). cbn [thr set_iterator k1 with_thr set_interrupts].
    by rewrite (insert_alter m t y (fun t => set_ticks (privilage t) t) Ey).
  - destruct (Hm (IdleThread k)) as [y Ey]; [eauto|].
    rewrite (bind_Ok _ _ _ _ _ (assign_thr k1 (IdleThread k) y _ Ey)). cbn [thr k1 with_thr set_interrupts].
    by rewrite (insert_alter m _ y (fun t => set_ticks (privilage t) t) Ey).
Qed.

Lemma schedule_ok k l :
  sched_ok k l -> exists x, thr (ticked k l) !! currentThread k = Some x /\ xtSchedule k = Ok tt (scheduled k l x).
Proof.
  intros Hok. destruct (ticked_ok k l Hok) as [x Hx]. exists x. split; [done|].
  unfold xtSchedule. rewrite (bind_Ok _ _ _ _ _ (wake_up_threads_ok k l Hok)). fold (ticked k l).
  rewrite (bind_Ok _ _ _ (currentThread k) (ticked k l)) by done.
  rewrite (bind_Ok _ _ _ _ _ (load_thr (ticked k l) _ x Hx)). unfold scheduled.
  assert (forall t, is_Some (thr k !! t) -> is_Some (thr (ticked k l) !! t)) as Hm by (intros t; apply alter_all_is_Some).
  destruct (is_run x) eqn:Er; cbn [andb].
  - rewrite (bind_Ok _ _ _ _ _ (assign_thr (ticked k l) _ x _ Hx)). destruct (0 <? _); [done|].
    pose proof (schedule_tail k l (<[currentThread k := set_ticks (u64 (ticks x - 1)) x]> (thr (ticked k l)))
      (interrupts (ticked k l)) Hok) as St. cbn zeta in St. refine (eq_trans (St _) _).
    + intros t Ht. destruct (decide (t = currentThread k)) as [->|]; [rewrite lookup_insert_eq; eauto|].
      rewrite lookup_insert_ne by done. auto.
    + by destruct (default _ _).
  - rewrite bind_ret. pose proof (schedule_tail k l (thr (ticked k l)) (interrupts (ticked k l)) Hok Hm) as St.
    refine (eq_trans St _). by destruct (default _ _).
Qed.

Lemma choice_None (m : gmap Z XTThread) rot : choice m rot = None -> Forall (fun y => runs m y = false) rot.
Proof.
  unfold choice. intros Hn. apply list.Forall_forall. intros y Hy. apply (List.find_none _ _ Hn). by apply list_elem_of_In.
Qed.

Lemma choice_Some (m : gmap Z XTThread) rot a t : choice m rot = Some (a, t) ->
  exists r1 r2, rot = r1 ++ (a, t) :: r2 /\ runs m (a, t) = true /\ Forall (fun y => runs m y = false) r1.
Proof.
  unfold choice. induction rot as [|y rot IH]; cbn [List.find]; [done|]. destruct (runs m y) eqn:E.
  - intros [= ->]. by exists [], rot.
  - intros (r1 & r2 & -> & H1 & H2)%IH. exists (y :: r1), r2. by repeat constructor.
Qed.

(** Taking a tick from the quantum of a thread does not change who is runnable. *)
Lemma runs_insert (m : gmap Z XTThread) c x n y : m !! c = Some x -> runs (<[c := set_ticks n x]> m) y = runs m y.
Proof.
  intros Hc. unfold runs. destruct (decide (y.2 = c)) as [->|].
  - by rewrite lookup_insert_eq, Hc.
  - by rewrite lookup_insert_ne by done.
Qed.

Lemma choice_insert (m : gmap Z XTThread) c x n rot : m !! c = Some x ->
  choice (<[c := set_ticks n x]> m) rot = choice m rot.
Proof.
  intros Hc. unfold choice. induction rot as [|y rot IH]; cbn [List.find]; [done|].
  rewrite runs_insert by done. by rewrite IH.
Qed.

(** The three outcomes of [xtSchedule]. *)
Definition keeps k k' x : Prop :=
  is_run x = true /\ 0 < u64 (ticks x - 1) /\ currentThread k' = currentThread k /\
  currentThreadIterator k' = currentThreadIterator k /\
  thr k' !! currentThread k = Some (set_ticks (u64 (ticks x - 1)) x).

Definition switches k k' l : Prop :=
  exists r1 a r2, rotation (currentThreadIterator k) l [] = r1 ++ (a, currentThread k') :: r2 /\
    runs (thr (ticked k l)) (a, currentThread k') = true /\
    Forall (fun y => runs (thr (ticked k l)) y = false) r1 /\ currentThreadIterator k' = a.

Definition idles k k' l : Prop :=
  Forall (fun y => runs (thr (ticked k l)) y = false) (rotation (currentThreadIterator k) l []) /\
  currentThread k' = IdleThread k /\ currentThreadIterator k' = currentThreadIterator k.

Lemma scheduled_cases k l x : thr (ticked k l) !! currentThread k = Some x ->
  let k' := scheduled k l x in keeps k k' x \/ switches k k' l \/ idles k k' l.
Proof.
  intros Hx. cbn zeta. unfold scheduled.
  assert (forall m, m = (if is_run x then <[currentThread k := set_ticks (u64 (ticks x - 1)) x]> (thr (ticked k l))
    else thr (ticked k l)) -> choice m (rotation (currentThreadIterator k) l []) =
      choice (thr (ticked k l)) (rotation (currentThreadIterator k) l [])) as Hc.
  { intros m ->. destruct (is_run x); [|done]. by apply choice_insert. }
  rewrite (Hc _ eq_refl). clear Hc. destruct (is_run x) eqn:Er; cbn [andb].
  1: destruct (0 <? u64 (ticks x - 1)) eqn:E0; zbool; [left; unfold keeps; cbn; rewrite lookup_insert_eq; auto|].
  all: right; destruct (choice _ _) as [[a t]|] eqn:E; cbn [default Datatypes.id];
    [left; apply choice_Some in E as (r1 & r2 & E1 & E2 & E3); by exists r1, a, r2
    |right; apply choice_None in E; by split].
Qed.

(** One call of [xtSchedule] (a timer tick): the current thread keeps the CPU with one tick less, or the first
    runnable thread after the iterator, going around once, takes over, or no thread is runnable and the idle
    thread runs. The call always returns. *)
Theorem schedule_round_robin k l :
  sched_ok k l -> exists x k', xtSchedule k = Ok tt k' /\ thr (ticked k l) !! currentThread k = Some x /\
    (keeps k k' x \/ switches k k' l \/ idles k k' l).
Proof.
  intros Hok. destruct (schedule_ok k l Hok) as (x & Hx & R). exists x, (scheduled k l x). split; [done|].
  split; [done|]. by apply scheduled_cases.
Qed.

(** Moving the iterator to a node of the rotation rotates further. *)
Lemma rotation_move it l r1 a t r2 : NoDup l.*1 -> it ∈ l.*1 -> rotation it l [] = r1 ++ (a, t) :: r2 ->
  rotation a l [] = r2 ++ r1 ++ [(a, t)].
Proof.
  intros Hnd Hit HR. destruct (iterator_split l it Hit Hnd) as (l1 & th & l2 & -> & H1 & H2).
  rewrite rotation_split in HR by done. cbn [app] in HR.
  assert (forall p q, l1 ++ (it, th) :: l2 = p ++ (a, t) :: q -> rotation a (l1 ++ (it, th) :: l2) [] = q ++ p ++ [(a, t)]) as K.
  { intros p q E. rewrite E in Hnd |- *. rewrite rotation_split; [done|]. rewrite fmap_app in Hnd.
    apply list.NoDup_app in Hnd as (_ & Hd & _). intros Hi. apply (Hd a Hi). cbn. apply elem_of_cons. by left. }
  assert (l2 ++ (l1 ++ [(it, th)]) = (r1 ++ [(a, t)]) ++ r2) as HR' by (rewrite HR, <- app_assoc; done).
  apply app_eq_inv in HR' as [(k & -> & ->)|(k & E1 & E2)].
  - rewrite (K (l1 ++ (it, th) :: r1) k); rewrite <- !app_assoc; done.
  - destruct (decide (k = [])) as [->|Hk].
    + rewrite app_nil_r in E1. subst l2. cbn in E2. subst r2.
      rewrite (K (l1 ++ (it, th) :: r1) []); rewrite <- !app_assoc; done.
    + destruct (list_snoc k Hk) as (k' & z & ->). rewrite app_assoc in E1. apply app_inj_tail in E1 as [-> <-].
      rewrite (K k' (r2 ++ l2)); [by rewrite <- !app_assoc|].
      change (l1 ++ (it, th) :: l2) with (l1 ++ [(it, th)] ++ l2). rewrite app_assoc, E2, <- !app_assoc. done.
Qed.

(** Another thread takes over: the thread at [u], or it is nearer now. *)
Lemma switch_nearer k k' l r1 b u r2 : sched_ok k l -> rotation (currentThreadIterator k) l [] = r1 ++ (b, u) :: r2 ->
  runs (thr (ticked k l)) (b, u) = true -> switches k k' l ->
  currentThread k' = u \/ exists r1' r2', rotation (currentThreadIterator k') l [] = r1' ++ (b, u) :: r2' /\ (length r1' < length r1)%nat.
Proof.
  intros Hok HR Hr (p & a & q & HR2 & Hra & Hp & Ha). rewrite Ha. destruct Hok as ((_ & Hnd) & Hit & _).
  pose proof (rotation_move _ _ _ _ _ _ Hnd Hit HR2) as HM. pose proof HR2 as HR3. rewrite HR in HR3.
  change ((b, u) :: r2) with ([(b, u)] ++ r2) in HR3. rewrite app_assoc in HR3.
  apply app_eq_inv in HR3 as [(c & E1 & E2)|(c & E1 & E2)].
  - destruct (decide (c = [])) as [->|Hc].
    + rewrite app_nil_r in E1. subst p. apply list.Forall_app in Hp as [_ Hp]. inversion Hp; subst. congruence.
    + destruct (list_snoc c Hc) as (c' & z & ->). rewrite app_assoc in E1. apply app_inj_tail in E1 as [-> <-].
      destruct c' as [|w c']; cbn [app] in E2; injection E2; [intros _ ? ?; by left|intros -> ?; right].
      exists c', (r2 ++ p ++ [(a, currentThread k')]). rewrite HM. subst w. split; [by rewrite <- !app_assoc|]. rewrite !length_app. cbn. lia.
  - subst p. rewrite !list.Forall_app in Hp. destruct Hp as [[_ Hp] _]. inversion Hp; subst. congruence.
Qed.

(** ** Progress *)

Lemma tick_run x : is_run x = true -> tick x = x.
Proof. unfold is_run, tick. intros Hr. destruct (state x =? XT_THREAD_SLEEP_STATE) eqn:E; zbool; [|done]. by rewrite E in Hr. Qed.

Lemma tick_fixed ts y : tick y = y -> forall (m : gmap Z XTThread) t, m !! t = Some y -> tick_all ts m !! t = Some y.
Proof.
  intros Hy. induction ts as [|u ts IH]; intros m t Hm; [done|]. rewrite alter_all_cons. apply IH.
  destruct (decide (t = u)) as [->|]; [by rewrite lookup_alter_eq, Hm; cbn; rewrite Hy|by rewrite lookup_alter_ne].
Qed.

Lemma ticked_thread (Pr : XTThread -> Prop) ts : (forall z, Pr z -> Pr (tick z)) -> forall (m : gmap Z XTThread) t y z,
  m !! t = Some y -> Pr y -> tick_all ts m !! t = Some z -> Pr z.
Proof.
  intros Hk. induction ts as [|u ts IH]; intros m t y z Hm Hy; [cbn; congruence|]. rewrite alter_all_cons.
  destruct (decide (t = u)) as [->|].
  - apply (IH _ _ (tick y)); [by rewrite lookup_alter_eq, Hm|auto].
  - apply (IH _ _ y); [by rewrite lookup_alter_ne|done].
Qed.

(** What ticks and new quanta leave true of every thread. *)
Definition stable (Pr : XTThread -> Prop) : Prop :=
  (forall z, Pr z -> Pr (tick z)) /\ forall n z, Pr z -> Pr (set_ticks n z).

Lemma tick_all_stable Pr ts : stable Pr -> forall m, map_Forall (fun _ => Pr) m -> map_Forall (fun _ => Pr) (tick_all ts m).
Proof.
  intros [Hk _]. induction ts as [|u ts IH]; intros m Hm; [done|]. rewrite alter_all_cons. apply IH. intros t z.
  destruct (decide (t = u)) as [->|]; [rewrite lookup_alter_eq|rewrite lookup_alter_ne by done; apply Hm].
  destruct (m !! u) as [y|] eqn:E; [|done]. intros [= <-]. by apply Hk, (Hm u).
Qed.

Lemma scheduled_stable Pr k l x : stable Pr -> map_Forall (fun _ => Pr) (thr k) -> thr (ticked k l) !! currentThread k = Some x ->
  map_Forall (fun _ => Pr) (thr (scheduled k l x)).
Proof.
  intros Hs Hm Hx. pose proof (tick_all_stable Pr l.*2 Hs _ Hm) as Ht. destruct Hs as [_ Hs]. change (tick_all l.*2 (thr k)) with (thr (ticked k l)) in Ht.
  assert (map_Forall (fun _ => Pr) (<[currentThread k := set_ticks (u64 (ticks x - 1)) x]> (thr (ticked k l)))) as Hi
    by (apply map_Forall_insert_2; [by apply Hs, (Ht _ _ Hx)|done]).
  assert (forall (m : gmap Z XTThread) t, map_Forall (fun _ => Pr) m -> map_Forall (fun _ => Pr) (alter (fun t => set_ticks (privilage t) t) t m)) as Ha.
  { intros m t Hm' u z. destruct (decide (u = t)) as [->|]; [rewrite lookup_alter_eq|rewrite lookup_alter_ne by done; apply Hm'].
    destruct (m !! t) as [y|] eqn:E; [|done]. intros [= <-]. by apply Hs, (Hm' t). }
  unfold scheduled. destruct (is_run x); cbn [andb]; [destruct (0 <? _); [done|]|]; destruct (default _ _); by apply Ha.
Qed.

(** No thread disappears, and one that could run still can. *)
Lemma scheduled_thread k l x t y : thr (ticked k l) !! currentThread k = Some x -> thr k !! t = Some y ->
  exists z, thr (scheduled k l x) !! t = Some z /\ (is_run y = true -> is_run z = true).
Proof.
  intros Hx Hy.
  assert (exists z, thr (ticked k l) !! t = Some z /\ (is_run y = true -> is_run z = true)) as (z & Hz & Hr).
  { destruct (is_run y) eqn:E; [exists y; split; [apply tick_fixed; [by apply tick_run|done]|done]|].
    destruct (alter_all_is_Some tick l.*2 (thr k) t) as [z Hz]; [eauto|]. by exists z. }
  assert (exists z', <[currentThread k := set_ticks (u64 (ticks x - 1)) x]> (thr (ticked k l)) !! t = Some z' /\ (is_run y = true -> is_run z' = true)) as (z' & Hz' & Hr').
  { destruct (decide (t = currentThread k)) as [->|]; [|by rewrite lookup_insert_ne; eauto].
    rewrite lookup_insert_eq. eexists. split; [done|]. assert (x = z) as -> by congruence. done. }
  assert (forall (m : gmap Z XTThread) v u, m !! t = Some v -> exists w, alter (fun t => set_ticks (privilage t) t) u m !! t = Some w /\ is_run w = is_run v) as Ha.
  { intros m v u Hv. destruct (decide (t = u)) as [->|]; [rewrite lookup_alter_eq, Hv; by eexists|rewrite lookup_alter_ne by done; eauto]. }
  unfold scheduled. destruct (is_run x); cbn [andb]; [destruct (0 <? _); [by exists z'|]|]; destruct (default _ _) as [it n]; cbn [thr with_thr set_iterator set_current].
  - destruct (Ha _ _ n Hz') as (w & Hw & E). exists w. rewrite E. by split.
  - destruct (Ha _ _ n Hz) as (w & Hw & E). exists w. rewrite E. by split.
Qed.

(** Who takes over has a fresh quantum. *)
Lemma scheduled_fresh k l x : sched_ok k l -> thr (ticked k l) !! currentThread k = Some x -> ~ keeps k (scheduled k l x) x ->
  exists z, thr (scheduled k l x) !! currentThread (scheduled k l x) = Some (set_ticks (privilage z) z).
Proof.
  intros Hok Hx Hk. assert (forall (m : gmap Z XTThread), (forall t, is_Some (thr k !! t) -> is_Some (m !! t)) ->
    let '(it, t) := default (currentThreadIterator k, IdleThread k) (choice m (rotation (currentThreadIterator k) l [])) in
    exists z, alter (fun t => set_ticks (privilage t) t) t m !! t = Some (set_ticks (privilage z) z)) as Ha.
  { intros m Hm. destruct (choice m _) as [[a t]|] eqn:E; cbn [default Datatypes.id].
    - apply choice_in in E as [_ E]. unfold runs in E. cbn [snd] in E. destruct (m !! t) as [y|] eqn:Ey; [|done]. exists y. by rewrite lookup_alter_eq, Ey.
    - destruct (Hm (IdleThread k)) as [y Ey]; [apply Hok|]. exists y. by rewrite lookup_alter_eq, Ey. }
  assert (forall t, is_Some (thr k !! t) -> is_Some (thr (ticked k l) !! t)) as Hm by (intros t; apply alter_all_is_Some).
  revert Hk. unfold scheduled. destruct (is_run x) eqn:Er; cbn [andb].
  - destruct (0 <? _) eqn:E0; zbool; [intros Hk; destruct Hk; unfold keeps; cbn; rewrite lookup_insert_eq; auto|].
    intros _. specialize (Ha (<[currentThread k := set_ticks (u64 (ticks x - 1)) x]> (thr (ticked k l)))). destruct (default _ _). apply Ha.
    intros t Ht. destruct (decide (t = currentThread k)) as [->|]; [rewrite lookup_insert_eq; eauto|rewrite lookup_insert_ne by done; auto].
  - intros _. specialize (Ha _ Hm). by destruct (default _ _).
Qed.

Lemma scheduled_same k l x : lists (mem (scheduled k l x)) = lists (mem k) /\ threads (scheduled k l x) = threads k /\
  IdleThread (scheduled k l x) = IdleThread k.
Proof. unfold scheduled. destruct (_ && _); [done|]. by destruct (default _ _). Qed.

Lemma scheduled_sched_ok k l x : sched_ok k l -> thr (ticked k l) !! currentThread k = Some x -> sched_ok (scheduled k l x) l.
Proof.
  intros Hok Hx. destruct (scheduled_same k l x) as (E1 & E2 & E3). pose proof (scheduled_cases k l x Hx) as Hc.
  pose proof Hok as (Hl & Hit & Ht & [i Hi] & [c Hcur] & Hlk). unfold sched_ok. rewrite E1, E2, E3. split; [done|].
  assert (forall t, is_Some (thr k !! t) -> is_Some (thr (scheduled k l x) !! t)) as Hs
    by (intros t [y Hy]; destruct (scheduled_thread k l x t y Hx Hy) as (z & Hz & _); eauto).
  assert (currentThreadIterator (scheduled k l x) ∈ l.*1 /\ is_Some (thr (scheduled k l x) !! currentThread (scheduled k l x))) as [Hi' Hc'].
  { destruct Hc as [(_ & _ & Ec & Ei & _)|[(r1 & a & r2 & HR & _ & _ & Ea)|(_ & Ec & Ei)]].
    - rewrite Ec, Ei. split; [done|]. apply Hs. eauto.
    - assert ((a, currentThread (scheduled k l x)) ∈ l) as Hin.
      { destruct (iterator_split l _ Hit (proj2 Hl)) as (l1 & th & l2 & -> & H1 & _). rewrite rotation_split in HR by done. cbn [app] in HR.
        assert ((a, currentThread (scheduled k (l1 ++ (currentThreadIterator k, th) :: l2) x)) ∈ l2 ++ l1 ++ [(currentThreadIterator k, th)]) as Hin
          by (rewrite HR; apply elem_of_app; right; by left).
        rewrite !elem_of_app, list_elem_of_singleton in Hin. rewrite elem_of_app, elem_of_cons. tauto. }
      rewrite Ea. split; [by apply (list_elem_of_fmap_2 fst) in Hin|]. apply Hs, Ht. by apply (list_elem_of_fmap_2 snd) in Hin.
    - rewrite Ec, Ei. split; [done|]. apply Hs. eauto. }
  split; [done|]. split; [eauto|]. split; [apply Hs; eauto|]. split; [done|].
  intros t z Hz. refine (scheduled_stable (fun z => lock z = false) k l x _ _ Hx t z Hz); [|done].
  split; [intros y Hy; by rewrite tick_lock|done].
Qed.

Fixpoint schedule_times (n : nat) : M (Kernel H) unit :=
  match n with
  | O => mret tt
  | S n => xtSchedule ;;; schedule_times n
  end.

(** The quantum that is left to the current thread; a full one when it does not run. *)
Definition quantum_left Q k : Z :=
  match thr k !! currentThread k with Some x => if is_run x then ticks x else Q | None => Q end.

Definition quanta Q k : Prop :=
  map_Forall (fun _ z => 1 <= privilage z <= Q) (thr k) /\ 1 <= quantum_left Q k <= Q.

Lemma keeps_left Q k l x : sched_ok k l -> quanta Q k -> Q < 2 ^ 64 -> thr (ticked k l) !! currentThread k = Some x -> is_run x = true ->
  1 <= ticks x <= Q /\ u64 (ticks x - 1) < quantum_left Q k.
Proof.
  intros (_ & _ & _ & _ & [c Hc] & _) [Hp Hq] HQ Hx Hr. unfold quantum_left in *. rewrite Hc in *. pose proof (Hp _ _ Hc) as Hpc. cbn beta in Hpc.
  destruct (is_run c) eqn:Er.
  - assert (x = c) as -> by (cbn in Hx; rewrite (tick_fixed _ c (tick_run c Er) _ _ Hc) in Hx; congruence). split; [lia|]. rewrite u64_small by lia. lia.
  - assert (privilage x = privilage c /\ (is_run x = true -> ticks x = privilage x)) as [Ex Et].
    { refine (ticked_thread (fun z => privilage z = privilage c /\ (is_run z = true -> ticks z = privilage z)) _ _ _ _ c x Hc _ Hx).
      - intros z [E Hz]. unfold tick. destruct (state z =? XT_THREAD_SLEEP_STATE) eqn:Es; zbool; [|done].
        destruct (_ =? 0); [done|]. split; [done|]. unfold is_run. cbn [state set_ticks]. by rewrite Es.
      - split; [done|congruence]. }
    rewrite (Et Hr), Ex. split; [lia|]. rewrite u64_small by lia. lia.
Qed.

(** One call uses up a tick, or the thread comes nearer. *)
Lemma schedule_progress Q k l x r1 b u r2 : sched_ok k l -> quanta Q k -> Q < 2 ^ 64 -> thr (ticked k l) !! currentThread k = Some x ->
  rotation (currentThreadIterator k) l [] = r1 ++ (b, u) :: r2 -> runs (thr k) (b, u) = true ->
  let k' := scheduled k l x in
  quanta Q k' /\ runs (thr k') (b, u) = true /\
  (currentThread k' = u \/ exists r1' r2', rotation (currentThreadIterator k') l [] = r1' ++ (b, u) :: r2' /\
     quantum_left Q k' + Q * Z.of_nat (length r1') < quantum_left Q k + Q * Z.of_nat (length r1)).
Proof.
  intros Hok Hqu HQ Hx HR Hr k'. pose proof Hqu as [Hp Hq].
  assert (map_Forall (fun _ z => 1 <= privilage z <= Q) (thr k')) as Hp'.
  { apply (scheduled_stable (fun z => 1 <= privilage z <= Q)); [|done|done]. split; [|done]. intros z Hz. unfold tick. by destruct (_ =? _); [destruct (_ =? _)|]. }
  assert (exists y, thr (ticked k l) !! u = Some y /\ is_run y = true) as (y & Hy & Hyr).
  { unfold runs in Hr. cbn [snd] in Hr. destruct (thr k !! u) as [y|] eqn:Ey; [|done]. exists y. split; [|done]. apply tick_fixed; [by apply tick_run|done]. }
  assert (runs (thr k') (b, u) = true) as Hr'.
  { unfold runs in *. cbn [snd] in *. destruct (thr k !! u) as [z|] eqn:Ez; [|done]. destruct (scheduled_thread k l x u z Hx Ez) as (w & Ew & Hw). fold k' in Ew. rewrite Ew. auto. }
  destruct (is_run x && (0 <? u64 (ticks x - 1))) eqn:Eb.
  - assert (keeps k k' x) as (_ & E0 & Ec & Ei & Et).
    { unfold k', scheduled. rewrite Eb. apply andb_prop in Eb as [Er E0]. rewrite Er. zbool. unfold keeps. cbn. rewrite lookup_insert_eq. auto. }
    apply andb_prop in Eb as [Er _]. destruct (keeps_left Q k l x Hok Hqu HQ Hx Er) as [Ht Hlt].
    assert (quantum_left Q k' = u64 (ticks x - 1)) as El by (unfold quantum_left; rewrite Ec, Et; by rewrite (Er : is_run (set_ticks _ x) = true)).
    split; [split; [done|lia]|]. split; [done|]. right. exists r1, r2. rewrite Ei, El. split; [done|lia].
  - assert (~ keeps k k' x) as Hn by (intros (Er & E0 & _); rewrite Er, (proj2 (Z.ltb_lt _ _) E0) in Eb; done).
    destruct (scheduled_fresh k l x Hok Hx Hn) as [z Hz]. fold k' in Hz.
    assert (1 <= quantum_left Q k' <= Q) as Hq'.
    { pose proof (Hp' _ _ Hz) as Hpz. unfold quantum_left. rewrite Hz. cbn in Hpz.
      change (ticks (set_ticks (privilage z) z)) with (privilage z). case_match; lia. }
    split; [by split|]. split; [done|]. destruct (scheduled_cases k l x Hx) as [?|[Hs|[Hi _]]]; [done| |].
    + destruct (switch_nearer k k' l r1 b u r2 Hok HR ltac:(unfold runs; cbn [snd]; by rewrite Hy) Hs) as [?|(r1' & r2' & E & Hl)]; [by left|].
      right. exists r1', r2'. split; [done|]. nia.
    + rewrite HR in Hi. apply list.Forall_app in Hi as [_ [Hi _]%list.Forall_cons]. unfold runs in Hi. cbn [snd] in Hi. rewrite Hy in Hi. congruence.
Qed.

(** C9: No runnable thread waits for ever: when every quantum is between 1 and [Q] ticks, a thread that can run and stands behind [length r1] others in the order of the scheduler is the current one after at most [Q * (length r1 + 1)] calls of [xtSchedule], as long as nothing but the timer acts on the threads. *)
Theorem schedule_bounded_wait (Q : Z) k l r1 b u r2 :
  sched_ok k l -> quanta Q k -> Q < 2 ^ 64 ->
  rotation (currentThreadIterator k) l [] = r1 ++ (b, u) :: r2 -> runs (thr k) (b, u) = true ->
  exists n k', 1 <= Z.of_nat n <= Q * (Z.of_nat (length r1) + 1) /\ schedule_times n k = Ok tt k' /\ currentThread k' = u.
Proof.
  intros Hok Hq HQ HR Hr.
  assert (exists n k', 1 <= Z.of_nat n <= quantum_left Q k + Q * Z.of_nat (length r1) /\ schedule_times n k = Ok tt k' /\ currentThread k' = u) as (n & k' & Hn & HT);
    [|exists n, k'; destruct Hq as [_ Hq]; split; [lia|done]].
  remember (Z.to_nat (quantum_left Q k + Q * Z.of_nat (length r1))) as m eqn:Em. revert k r1 r2 Hok Hq HR Hr Em.
  induction m as [m IH] using lt_wf_ind; intros k r1 r2 Hok Hq HR Hr ->. pose proof Hq as [_ Hb].
  destruct (schedule_ok k l Hok) as (x & Hx & R).
  destruct (schedule_progress Q k l x r1 b u r2 Hok Hq HQ Hx HR Hr) as (Hq' & Hr' & [Hu|(r1' & r2' & HR' & Hlt)]).
  - exists 1%nat, (scheduled k l x). split; [nia|]. split; [|done]. cbn [schedule_times]. by rewrite (bind_Ok _ _ _ _ _ R).
  - pose proof Hq' as [_ Hb']. destruct (IH (Z.to_nat (quantum_left Q (scheduled k l x) + Q * Z.of_nat (length r1'))) ltac:(nia) (scheduled k l x) r1' r2'
      (scheduled_sched_ok k l x Hok Hx) Hq' HR' Hr' eq_refl) as (n & k' & Hn & Rn & Hc).
    exists (S n), k'. split; [lia|]. split; [|done]. cbn [schedule_times]. by rewrite (bind_Ok _ _ _ _ _ R).
Qed.

(** ** Sleeping *)

Fixpoint wake_times (n : nat) : M (Kernel H) unit :=
  match n with
  | O => mret tt
  | S n => xtWakeUpThreads ;;; wake_times n
  end.

(** The ticks a sleeper has to wait: a count of 0 wraps around. *)
Definition sleep_time (n : Z) : Z := if n =? 0 then 2 ^ 64 else n.

Lemma sleep_time_bound n : 0 <= n < 2 ^ 64 -> 1 <= sleep_time n <= 2 ^ 64.
Proof. unfold sleep_time. destruct (n =? 0) eqn:E; zbool; lia. Qed.

Lemma tick_sleeper x n : state x = XT_THREAD_SLEEP_STATE -> ticks x = n -> 0 <= n < 2 ^ 64 -> 1 < sleep_time n ->
  tick x = set_ticks (sleep_time n - 1) x.
Proof.
  intros Hs <- Hn. unfold tick, sleep_time. rewrite Hs. cbn [Z.eqb XT_THREAD_SLEEP_STATE].
  destruct (ticks x =? 0) eqn:E; zbool; intros H1.
  - rewrite E. done.
  - rewrite u64_small by lia. by rewrite (proj2 (Z.eqb_neq (ticks x - 1) 0)) by lia.
Qed.

Lemma ticked_sched_ok k l : sched_ok k l -> sched_ok (ticked k l) l.
Proof.
  intros (Hl & Hit & Ht & Hi & Hc & Hlk). split; [done|]. split; [done|]. cbn.
  split; [intros t Hin; apply alter_all_is_Some; auto|]. split; [by apply alter_all_is_Some|]. split; [by apply alter_all_is_Some|].
  clear -Hlk. generalize l.*2 as ts. intros ts. revert Hlk. generalize (thr k) as m. induction ts as [|t ts IH]; intros m Hlk; [done|].
  rewrite alter_all_cons. apply IH. by apply alter_locks.
Qed.

(** A thread put to sleep for [n] ticks is still asleep after fewer ticks and is runnable, with a full quantum, after
    [n] ticks. A sleep of 0 lasts 2^64 ticks. *)
Theorem sleep_wakes_on_time k l t x (j : nat) :
  sched_ok k l -> NoDup l.*2 -> t ∈ l.*2 -> thr k !! t = Some x -> state x = XT_THREAD_SLEEP_STATE ->
  0 <= ticks x < 2 ^ 64 -> Z.of_nat j <= sleep_time (ticks x) ->
  exists k', wake_times j k = Ok tt k' /\
    thr k' !! t = Some (if Z.of_nat j =? 0 then x
                        else if Z.of_nat j <? sleep_time (ticks x) then set_ticks (sleep_time (ticks x) - Z.of_nat j) x
                        else set_ticks (privilage x) (set_state XT_THREAD_RUN_STATE x)).
Proof.
  revert k x. induction j as [|j IH]; intros k x Hok Hnd Hin Hx Hs Hb Hj; [by exists k|].
  cbn [wake_times]. rewrite (bind_Ok _ _ _ _ _ (wake_up_threads_ok k l Hok)). fold (ticked k l).
  assert (thr (ticked k l) !! t = Some (tick x)) as Hx' by (cbn; rewrite alter_all_in, Hx; done).
  rewrite (proj2 (Z.eqb_neq (Z.of_nat (S j)) 0)) by lia.
  destruct (decide (sleep_time (ticks x) = 1)) as [E|E].
  - assert (j = 0%nat) as -> by lia. cbn [wake_times]. exists (ticked k l). split; [done|]. rewrite Hx', E. cbn [Z.ltb Z.compare Z.of_nat Pos.of_succ_nat Pos.compare Pos.compare_cont].
    unfold tick. rewrite Hs. cbn [Z.eqb XT_THREAD_SLEEP_STATE].
    assert (ticks x = 1) as Ht by (unfold sleep_time in E; destruct (ticks x =? 0); lia). by rewrite Ht.
  - pose proof (sleep_time_bound _ Hb).
    rewrite (tick_sleeper x (ticks x)) in Hx' by (done || lia). set (y := set_ticks _ x) in Hx'.
    assert (sleep_time (ticks y) = sleep_time (ticks x) - 1) as Ey.
    { cbn. unfold sleep_time at 1. by rewrite (proj2 (Z.eqb_neq _ _)) by lia. }
    destruct (IH (ticked k l) y) as (k' & R & Hk'); [by apply ticked_sched_ok|done|done|done|done|cbn; lia|lia|].
    exists k'. split; [done|]. rewrite Hk', Ey. destruct (Z.of_nat j =? 0) eqn:E0; zbool.
    + rewrite (proj2 (Z.ltb_lt _ _)) by lia. subst y. do 2 f_equal. lia.
    + destruct (Z.of_nat (S j) <? _) eqn:E1; zbool.
      * rewrite (proj2 (Z.ltb_lt _ _)) by lia. subst y. cbn. unfold set_ticks. cbn. do 2 f_equal. lia.
      * rewrite (proj2 (Z.ltb_ge _ _)) by lia. done.
Qed.

(** [xtWakeUpThread] makes a thread runnable exactly when it slept or was running: a waiting (4) or a loaded (2)
    thread becomes 5 or 3, which no scheduler pass picks, and the user flag is lost. *)
Theorem wake_up_runnable k t x :
  thr k !! t = Some x -> lock x = false -> 0 <= state x < 256 ->
  exists k' y, xtWakeUpThread t k = Ok tt k' /\ thr k' !! t = Some y /\ is_run y = (Z.land (state x) 0xe =? 0) /\
    Z.land (state y) XT_THREAD_USER = 0.
Proof.
  intros Hx Hl Hb. do 2 eexists. split; [by apply wake_up_ok|]. split; [apply lookup_insert_eq|].
  unfold is_run, woken. cbn [state set_ticks set_state].
  assert (forall n, n ∈ seqZ 0 256 -> (Z.land (Z.lor (Z.land n 0x7f) XT_THREAD_RUN_STATE) 0xf =? XT_THREAD_RUN_STATE) =
    (Z.land n 0xe =? 0) /\ Z.land (Z.lor (Z.land n 0x7f) XT_THREAD_RUN_STATE) XT_THREAD_USER = 0) as K.
  { apply list.Forall_forall. vm_compute. repeat constructor. }
  apply K, elem_of_seqZ. lia.
Qed.

End Proofs.

(** * Two threads *)

Definition sample_thread (st q : Z) : XTThread := mkThread 0 0 0 st 20 q 0 0 0 false.

(** The idle thread 0x3000 is not in the list; thread 0x2000 sleeps for 2 ticks and 0x1000 runs on its last tick. *)
Definition two_threads : Kernel Bump :=
  mkKernel (mkListHeap bump_empty {[0x100 := mkList 0x1000 0x200; 0x200 := mkList 0x2000 NULL]})
    {[0x1000 := sample_thread 1 1; 0x2000 := sample_thread 0 2; 0x3000 := sample_thread 1 20]}
    0x100 0x100 1 0x3000 0x1000 true (mkObjects ∅ ∅ ∅).

Definition two_nodes : list (Z * Z) := [(0x100, 0x1000); (0x200, 0x2000)].

Lemma two_threads_ok : sched_ok two_threads two_nodes.
Proof.
  split; [split|].
  - cbn. split; [done|]. split; [done|]. exists (mkList 0x1000 0x200). split; [done|]. split; [done|].
    split; [done|]. split; [done|]. exists (mkList 0x2000 NULL). done.
  - cbn. apply NoDup_ListNoDup. repeat constructor; set_solver.
  - split; [cbn; set_solver|]. split; [|split; [done|split; [done|]]].
    + intros t [->|[->|Ht]%elem_of_cons]%elem_of_cons; [done|done|set_solver].
    + intros t x. cbn. rewrite !lookup_insert_Some, lookup_singleton_Some. naive_solver.
Qed.

Lemma schedule_round_robin_witness :
  exists x k', xtSchedule two_threads = Ok tt k' /\ thr (ticked two_threads two_nodes) !! 0x1000 = Some x /\
    (keeps two_threads k' x \/ switches two_threads k' two_nodes \/ idles two_threads k' two_nodes).
Proof. apply (schedule_round_robin two_threads two_nodes two_threads_ok). Defined.

Lemma two_threads_quanta : quanta 20 two_threads.
Proof. split; [|by vm_compute]. intros t x. cbn. rewrite !lookup_insert_Some, lookup_singleton_Some. naive_solver lia. Qed.

Lemma schedule_bounded_wait_witness :
  exists n k', 1 <= Z.of_nat n <= 20 * (Z.of_nat (length [(0x200, 0x2000)]) + 1) /\ schedule_times n two_threads = Ok tt k' /\ currentThread k' = 0x1000.
Proof.
  apply (schedule_bounded_wait 20 two_threads two_nodes [(0x200, 0x2000)] 0x100 0x1000 [] two_threads_ok two_threads_quanta); (reflexivity || lia).
Defined.

Lemma sleep_wakes_on_time_witness :
  exists k', wake_times 2 two_threads = Ok tt k' /\ thr k' !! 0x2000 = Some (sample_thread 1 20).
Proof.
  apply (sleep_wakes_on_time two_threads two_nodes 0x2000 (sample_thread 0 2) 2 two_threads_ok).
  - cbn. apply NoDup_ListNoDup. repeat constructor; set_solver.
  - cbn. set_solver.
  - reflexivity.
  - reflexivity.
  - cbn. lia.
  - cbn. lia.
Defined.

Lemma wake_up_runnable_witness :
  exists k' y, xtWakeUpThread 0x2000 two_threads = Ok tt k' /\ thr k' !! 0x2000 = Some y /\
    is_run y = (Z.land 0 0xe =? 0) /\ Z.land (state y) XT_THREAD_USER = 0.
Proof. apply (wake_up_runnable two_threads 0x2000 (sample_thread 0 2)); [reflexivity|reflexivity|cbn; lia]. Defined.
