(* ===== verification/Sync.v ===== *)
(** Mutexes, reader-writer locks and events: xtkernel/mutex.c, rwlock.c and
    event.c. Every function is a sequence of sections that run under the
    object's spinlock, with interrupts off; the threads interleave between
    sections. *)
From Stdlib Require Import ZArith Lia.
From stdpp Require Import base tactics list gmap fin_maps numbers.
From S2P Require Import Prelude Allocator ListC Threads.

Open Scope Z_scope.

Definition UINT64_MAX : Z := 2 ^ 64 - 1.

Definition XT_WAIT_FOR_ALL : Z := 1.

Section Sync.
Context {H : Type} {A : Allocator H}.

Definition set_objs (o : Objects) (k : Kernel H) : Kernel H :=
  mkKernel (mem k) (thr k) (threads k) (currentThreadIterator k) (threadCount k) (IdleThread k) (currentThread k)
    (interrupts k) o.

Definition on_mutexes {X} (m : M (gmap Z XTMutex) X) : M (Kernel H) X :=
  zoom (fun k => mutexes (objs k)) (fun x k => set_objs (mkObjects x (rwlocks (objs k)) (events (objs k))) k) m.

Definition on_rwlocks {X} (m : M (gmap Z XTRWLock) X) : M (Kernel H) X :=
  zoom (fun k => rwlocks (objs k)) (fun x k => set_objs (mkObjects (mutexes (objs k)) x (events (objs k))) k) m.

Definition on_events {X} (m : M (gmap Z XTEvent) X) : M (Kernel H) X :=
  zoom (fun k => events (objs k)) (fun x k => set_objs (mkObjects (mutexes (objs k)) (rwlocks (objs k)) x) k) m.

Definition mutex_lock (m : Z) : SpinRef :=
  mkSpin (on_mutexes (x ← load m; mret (mlock x)))
    (fun b => on_mutexes (assign m (fun x => mkMutex b (owner x) (waitList x)))).

Definition rw_lock (l : Z) : SpinRef :=
  mkSpin (on_rwlocks (x ← load l; mret (spinlock x)))
    (fun b => on_rwlocks (assign l (fun x => mkRW b (readers x) (waitReaders x) (waitWriters x)))).

Definition event_lock (e : Z) : SpinRef :=
  mkSpin (on_events (x ← load e; mret (elock x)))
    (fun b => on_events (assign e (fun x => mkEvent (elist x) b (isSignaled x)))).

(** A wait queue inside an object: how its head is read and written. *)
Record QueueRef := mkQueue { head_of : M (Kernel H) Z; set_head : Z -> M (Kernel H) unit }.

Definition mutex_queue (m : Z) : QueueRef :=
  mkQueue (on_mutexes (x ← load m; mret (waitList x)))
    (fun v => on_mutexes (assign m (fun x => mkMutex (mlock x) (owner x) v))).

Definition reader_queue (l : Z) : QueueRef :=
  mkQueue (on_rwlocks (x ← load l; mret (waitReaders x)))
    (fun v => on_rwlocks (assign l (fun x => mkRW (spinlock x) (readers x) v (waitWriters x)))).

Definition writer_queue (l : Z) : QueueRef :=
  mkQueue (on_rwlocks (x ← load l; mret (waitWriters x)))
    (fun v => on_rwlocks (assign l (fun x => mkRW (spinlock x) (readers x) (waitReaders x) v))).

Definition event_queue (e : Z) : QueueRef :=
  mkQueue (on_events (x ← load e; mret (elist x)))
    (fun v => on_events (assign e (fun x => mkEvent v (elock x) (isSignaled x)))).

(** [if (!q) q = node; else xtAppendList(q, node);] *)
Definition enqueue (q : QueueRef) (node : Z) : M (Kernel H) unit :=
  head ← head_of q;
  if head =? NULL then set_head q node else out_or tt (on_list (xtAppendList head node)).

(** * Mutexes *)

(** The section of [xtLockMutex] from taking the spinlock to releasing it: has
    the mutex been taken? Otherwise the thread is registered. *)
Definition lock_mutex_try (m current : Z) : M (Kernel H) bool :=
  xtLockSpinlock (mutex_lock m) ;;;
  x ← on_mutexes (load m);
  if owner x =? NULL then
    on_mutexes (assign m (fun x => mkMutex (mlock x) current (waitList x))) ;;;
    xtUnlockSpinlock (mutex_lock m) ;;;
    mret true
  else
    node ← out_or NULL (on_mem (xtCreateList current));
    enqueue (mutex_queue m) node ;;;
    xtUnlockSpinlock (mutex_lock m) ;;;
    mret false.

(** [while (m->owner != NULL)]; every round but the last is a sleep. *)
Fixpoint lock_mutex_loop (fuel : nat) (m current : Z) (env : list (Kernel H -> Kernel H)) : M (Kernel H) unit :=
  taken ← lock_mutex_try m current;
  if (taken : bool) then mret tt
  else
    env ← out_or env (xtSleepThread current UINT64_MAX env);
    match fuel with O => nofuel | S fuel => lock_mutex_loop fuel m current env end.

Definition xtLockMutex (m : Z) (env : list (Kernel H -> Kernel H)) : M (Kernel H) unit :=
  current ← gets currentThread;
  lock_mutex_loop (length env) m current env.

(** Until the spinlock of the mutex is released. *)
Definition unlock_mutex_body (m : Z) : M (Kernel H) unit :=
  xtLockSpinlock (mutex_lock m) ;;;
  on_mutexes (assign m (fun x => mkMutex (mlock x) NULL (waitList x))) ;;;
  x ← on_mutexes (load m);
  if negb (waitList x =? NULL) then
    next ← out_or NULL (on_list (xtGetListData (waitList x)));
    rest ← out_or NULL (on_list (xtGetNextList (waitList x)));
    out_or tt (on_mem (xtDestroyList (waitList x))) ;;;
    set_head (mutex_queue m) rest ;;;
    xtWakeUpThread next
  else mret tt.

Definition xtUnlockMutex (m : Z) : M (Kernel H) unit :=
  unlock_mutex_body m ;;;
  xtUnlockSpinlock (mutex_lock m).

(** * Reader-writer locks *)

Definition xtInitRWLock (l : Z) : M (Kernel H) unit :=
  xtInitSpinlock (rw_lock l) ;;;
  on_rwlocks (assign l (fun x => mkRW (spinlock x) 0 NULL NULL)).

Definition rwSleep (q : QueueRef) : M (Kernel H) unit :=
  current ← gets currentThread;
  node ← on_mem (xtCreateList current);
  enqueue q node ;;;
  on_thr (assign current (fun t => set_state (Z.lor (Z.land (state t) 0x80) XT_THREAD_WAIT_STATE) t)).

(** [t->state = (t->state & 0x80) | XT_THREAD_RUN_STATE] *)
Definition rw_wake (t : Z) : M (Kernel H) unit :=
  on_thr (assign t (fun t => set_state (Z.lor (Z.land (state t) 0x80) XT_THREAD_RUN_STATE) t)).

(** [for (i = *queue; i; xtGetNextList(i, &i))] *)
Fixpoint wake_all_loop (fuel : nat) (i : Z) : M (Kernel H) unit :=
  if i =? NULL then mret tt
  else
    t ← out_or NULL (on_list (xtGetListData i));
    rw_wake t ;;;
    i ← out_or i (on_list (xtGetNextList i));
    match fuel with O => nofuel | S fuel => wake_all_loop fuel i end.

Definition rwWakeAll (q : QueueRef) : M (Kernel H) unit :=
  i ← head_of q;
  n ← list_fuel;
  wake_all_loop n i ;;;
  set_head q NULL.

Definition rwWakeOne (q : QueueRef) : M (Kernel H) unit :=
  i ← head_of q;
  if i =? NULL then mret tt
  else
    t ← out_or NULL (on_list (xtGetListData i));
    rw_wake t ;;;
    next ← out_or NULL (on_list (xtGetNextList i));
    out_or tt (on_mem (xtDestroyList i)) ;;;
    set_head q next.

Definition set_readers (l : Z) (f : Z -> Z) : M (Kernel H) unit :=
  on_rwlocks (assign l (fun x => mkRW (spinlock x) (f (readers x)) (waitReaders x) (waitWriters x))).

(** The sections of [xtAcquireRead] and [xtAcquireWrite]: has the lock been
    taken? Otherwise the thread is in the queue and marked as waiting. An error
    of [rwSleep] leaves the function with the spinlock held. *)
Definition acquire_read_try (l : Z) : M (Kernel H) bool :=
  xtLockSpinlock (rw_lock l) ;;;
  x ← on_rwlocks (load l);
  if (readers x =? -1) || negb (waitWriters x =? NULL) then
    rwSleep (reader_queue l) ;;;
    xtUnlockSpinlock (rw_lock l) ;;;
    mret false
  else
    set_readers l (fun n => s32 (n + 1)) ;;;
    xtUnlockSpinlock (rw_lock l) ;;;
    mret true.

Definition acquire_write_try (l : Z) : M (Kernel H) bool :=
  xtLockSpinlock (rw_lock l) ;;;
  x ← on_rwlocks (load l);
  if negb (readers x =? 0) then
    rwSleep (writer_queue l) ;;;
    xtUnlockSpinlock (rw_lock l) ;;;
    mret false
  else
    set_readers l (fun _ => -1) ;;;
    xtUnlockSpinlock (rw_lock l) ;;;
    mret true.

(** The loops around the sections; [xtSwitchToThread] uses one entry of [env]. *)
Fixpoint acquire_loop (try_ : M (Kernel H) bool) (fuel : nat) (env : list (Kernel H -> Kernel H)) : M (Kernel H) unit :=
  taken ← try_;
  if (taken : bool) then mret tt
  else
    env ← xtSwitchToThread env;
    match fuel with O => nofuel | S fuel => acquire_loop try_ fuel env end.

Definition xtAcquireRead (l : Z) (env : list (Kernel H -> Kernel H)) : M (Kernel H) unit :=
  acquire_loop (acquire_read_try l) (length env) env.

Definition xtAcquireWrite (l : Z) (env : list (Kernel H -> Kernel H)) : M (Kernel H) unit :=
  acquire_loop (acquire_write_try l) (length env) env.

Definition xtReleaseRead (l : Z) : M (Kernel H) unit :=
  xtLockSpinlock (rw_lock l) ;;;
  set_readers l (fun n => s32 (n - 1)) ;;;
  x ← on_rwlocks (load l);
  (if readers x =? 0 then rwWakeOne (writer_queue l) else mret tt) ;;;
  xtUnlockSpinlock (rw_lock l).

Definition xtReleaseWrite (l : Z) : M (Kernel H) unit :=
  xtLockSpinlock (rw_lock l) ;;;
  set_readers l (fun _ => 0) ;;;
  x ← on_rwlocks (load l);
  (if negb (waitWriters x =? NULL) then rwWakeOne (writer_queue l) else rwWakeAll (reader_queue l)) ;;;
  xtUnlockSpinlock (rw_lock l).

(** * Events *)

Definition xtCreateEvent : M (Kernel H) Z :=
  result ← on_mem (on_heap (xtHeapAlloc 16));
  on_events (create result (mkEvent NULL false false)) ;;;
  mret result.

Definition set_signaled (e : Z) (b : bool) : M (Kernel H) unit :=
  on_events (assign e (fun x => mkEvent (elist x) (elock x) b)).

Definition xtResetEvent (e : Z) : M (Kernel H) unit :=
  XT_CHECK_ARG_IS_NULL e ;;;
  xtLockSpinlock (event_lock e) ;;;
  set_signaled e false ;;;
  xtUnlockSpinlock (event_lock e).

(** [while (event->list)] *)
Fixpoint signal_loop (fuel : nat) (e : Z) : M (Kernel H) unit :=
  i ← head_of (event_queue e);
  if i =? NULL then mret tt
  else
    thread ← out_or NULL (on_list (xtGetListData i));
    xtWakeUpThread thread ;;;
    next ← out_or NULL (on_list (xtGetNextList i));
    out_or tt (on_mem (xtDestroyList i)) ;;;
    set_head (event_queue e) next ;;;
    match fuel with O => nofuel | S fuel => signal_loop fuel e end.

Definition xtSignalEvent (e : Z) : M (Kernel H) unit :=
  XT_CHECK_ARG_IS_NULL e ;;;
  xtLockSpinlock (event_lock e) ;;;
  set_signaled e true ;;;
  n ← list_fuel;
  signal_loop n e ;;;
  xtUnlockSpinlock (event_lock e).

(** [while (cur)] of [removeFromAllEvents]. *)
Fixpoint remove_waiter_loop (fuel : nat) (e thread prev cur : Z) : M (Kernel H) unit :=
  if cur =? NULL then mret tt
  else
    t ← out_or NULL (on_list (xtGetListData cur));
    next ← out_or NULL (on_list (xtGetNextList cur));
    if t =? thread then
      (if prev =? NULL then set_head (event_queue e) next else out_or tt (on_list (xtSetNextList prev next))) ;;;
      out_or tt (on_mem (xtDestroyList cur))
    else match fuel with O => nofuel | S fuel => remove_waiter_loop fuel e thread cur next end.

Fixpoint removeFromAllEvents (es : list Z) (thread : Z) : M (Kernel H) unit :=
  match es with
  | [] => mret tt
  | e :: es =>
    xtLockSpinlock (event_lock e) ;;;
    cur ← head_of (event_queue e);
    n ← list_fuel;
    remove_waiter_loop n e thread NULL cur ;;;
    xtUnlockSpinlock (event_lock e) ;;;
    removeFromAllEvents es thread
  end.

(** [for (i = 0; i < count; ++i) f(events[i])] *)
Fixpoint each_event (f : Z -> M (Kernel H) unit) (es : list Z) : M (Kernel H) unit :=
  match es with
  | [] => mret tt
  | e :: es => f e ;;; each_event f es
  end.

(** The index of the first signaled event. *)
Fixpoint first_signaled (es : list Z) (i : Z) : M (Kernel H) (option (Z * Z)) :=
  match es with
  | [] => mret None
  | e :: es => x ← on_events (load e); if isSignaled x then mret (Some (i, e)) else first_signaled es (i + 1)
  end.

Fixpoint all_signaled (es : list Z) : M (Kernel H) bool :=
  match es with
  | [] => mret true
  | e :: es => x ← on_events (load e); if isSignaled x then all_signaled es else mret false
  end.

(** The section of [xtWaitForEvents] under the spinlocks of all the events: the
    index reported ([count] for all of them), or the thread is registered. *)
Definition wait_try (es : list Z) (flags current : Z) : M (Kernel H) (option Z) :=
  each_event (fun e => xtLockSpinlock (event_lock e)) es ;;;
  r ← (if negb (Z.land flags XT_WAIT_FOR_ALL =? 0) then
         all ← all_signaled es;
         if (all : bool) then
           each_event (fun e => set_signaled e false ;;; xtUnlockSpinlock (event_lock e)) es ;;;
           mret (Some (Z.of_nat (length es)))
         else mret None
       else
         s ← first_signaled es 0;
         match s with
         | Some (i, e) =>
           set_signaled e false ;;;
           each_event (fun e => xtUnlockSpinlock (event_lock e)) es ;;;
           mret (Some i)
         | None => mret None
         end);
  match r with
  | Some i => mret (Some i)
  | None =>
    each_event (fun e => node ← out_or NULL (on_mem (xtCreateList current)); enqueue (event_queue e) node) es ;;;
    each_event (fun e => xtUnlockSpinlock (event_lock e)) es ;;;
    mret None
  end.

(** [while (1)]; every round but the last one leaves the CPU. *)
Fixpoint wait_loop (fuel : nat) (es : list Z) (flags milliseconds current : Z) (env : list (Kernel H -> Kernel H))
    : M (Kernel H) Z :=
  r ← wait_try es flags current;
  match r with
  | Some i => mret i
  | None =>
    env ← (if negb (milliseconds =? UINT64_MAX) then out_or env (xtSleepThread current milliseconds env)
           else out_or env (xtSwitchToThread env));
    removeFromAllEvents es current ;;;
    t ← on_thr (load current);
    if negb (milliseconds =? UINT64_MAX) && (ticks t =? 0) then throw XT_TIMEOUT
    else match fuel with O => nofuel | S fuel => wait_loop fuel es flags milliseconds current env end
  end.

Definition xtWaitForEvents (es : list Z) (flags milliseconds : Z) (env : list (Kernel H -> Kernel H)) : M (Kernel H) Z :=
  match es with
  | [] => mret 0
  | _ =>
    current ← gets currentThread;
    wait_loop (length env) es flags milliseconds current env
  end.

End Sync.
