(* ===== verification/Vfs.v ===== *)
(** The virtual file system (xtkernel/fs.c) and the device file system
    (xtkernel/devfs.c). The handlers of the file systems and of the files are
    function pointers: two tables of optional functions, by the address of the
    table. A C string is the list of its bytes; where the code may run over the
    terminator it is the memory from the pointer on. *)
From Stdlib Require Import ZArith Lia.
From stdpp Require Import base tactics list gmap fin_maps numbers.
From S2P Require Import Prelude Allocator SharedPtr ListC CString Paths Io Threads Sync.

Open Scope Z_scope.

(** * Data *)

Record XTPathNode := mkPathNode { node_mp : Z; node_name : list Z; node_nodes : Z }.

Record XTMountPoint := mkMount { mp_fs : Z; mp_device : Z; mp_data : Z }.

(** [lock] is the address of the lock inside the file. *)
Record XTFile := mkXTFile { mountPoint : Z; file_IO : Z; file_data : Z; file_flags : Z; file_lock : Z; file_event : Z }.

Record XTFileSystem := mkFileSystem { fs_Name : list Z; fs_IO : Z }.

Record XTDirectory := mkDirectory { dir_node : Z; dir_data : Z; dir_pos : Z }.

Record XTOpenedFileEntry := mkOpened { opened_path : list Z; opened_file : Z }.

Record XTDevice := mkDevice { dev_name : list Z; dev_file : Z }.

(** The statics of the two files and the objects they point to; the shared
    pointers of the opened files live in [shared]. *)
Record World (H : Type) := mkWorld {
  kern : Kernel H;
  path_nodes : gmap Z XTPathNode;
  mounts : gmap Z XTMountPoint;
  file_objs : gmap Z XTFile;
  fs_objs : gmap Z XTFileSystem;
  dirs : gmap Z XTDirectory;
  opened : gmap Z XTOpenedFileEntry;
  shared : gmap Z XTSharedPtr;
  dev_objs : gmap Z XTDevice;
  root : Z;
  filesystems : Z;
  openedFiles : Z;
  openedFilesLock : bool;
  devices : Z;
  devLock : bool
}.

Arguments mkWorld {H} _ _ _ _ _ _ _ _ _ _ _ _ _ _ _.
Arguments kern {H} _.
Arguments path_nodes {H} _.
Arguments mounts {H} _.
Arguments file_objs {H} _.
Arguments fs_objs {H} _.
Arguments dirs {H} _.
Arguments opened {H} _.
Arguments shared {H} _.
Arguments dev_objs {H} _.
Arguments root {H} _.
Arguments filesystems {H} _.
Arguments openedFiles {H} _.
Arguments openedFilesLock {H} _.
Arguments devices {H} _.
Arguments devLock {H} _.

(** The handlers of a file and of a file system. A read gives the code and the
    bytes, a write the code and the count. *)
Record XTFileIO (H : Type) := mkFileIO {
  WriteFile : option (Z -> list Z -> Z -> M (World H) (Z * Z));
  ReadFile : option (Z -> Z -> Z -> M (World H) (Z * list Z));
  MapFile : option (Z -> Z -> M (World H) (Z * Z));
  UnmapFile : option (Z -> Z -> Z -> Z -> M (World H) unit);
  CloseFile : option (Z -> Z -> M (World H) unit);
  GetFileInfo : option (Z -> XTFileInfo -> M (World H) XTFileInfo);
  SetFileInfo : option (Z -> XTFileInfo -> M (World H) unit)
}.

Arguments WriteFile {H} _.
Arguments ReadFile {H} _.
Arguments MapFile {H} _.
Arguments UnmapFile {H} _.
Arguments CloseFile {H} _.
Arguments GetFileInfo {H} _.
Arguments SetFileInfo {H} _.

(** A name that the code passes may be NULL. *)
Record XTFileSystemIO (H : Type) := mkFSIO {
  OpenDirectory : option (Z -> option (list Z) -> Z -> M (World H) unit);
  ReadDirectory : option (Z -> XTFileInfo -> M (World H) XTFileInfo);
  OpenFile : option (Z -> option (list Z) -> Z -> M (World H) Z);
  CreateFile : option (Z -> option (list Z) -> Z -> M (World H) unit);
  Mount : option (Z -> M (World H) unit);
  Unmount : option (Z -> M (World H) unit);
  MakeFS : option (Z -> M (World H) unit);
  DeleteFile : option (Z -> option (list Z) -> M (World H) unit)
}.

Arguments OpenDirectory {H} _.
Arguments ReadDirectory {H} _.
Arguments OpenFile {H} _.
Arguments CreateFile {H} _.
Arguments Mount {H} _.
Arguments Unmount {H} _.
Arguments MakeFS {H} _.
Arguments DeleteFile {H} _.

Section Vfs.
Context {H : Type} {A : Allocator H}.

(** * Parts of the state *)

Definition on_kern {X} (m : M (Kernel H) X) : M (World H) X :=
  zoom kern (fun k w => mkWorld k (path_nodes w) (mounts w) (file_objs w) (fs_objs w) (dirs w) (opened w) (shared w) (dev_objs w) (root w)
    (filesystems w) (openedFiles w) (openedFilesLock w) (devices w) (devLock w)) m.

Definition on_nodes {X} (m : M (gmap Z XTPathNode) X) : M (World H) X :=
  zoom path_nodes (fun x w => mkWorld (kern w) x (mounts w) (file_objs w) (fs_objs w) (dirs w) (opened w) (shared w) (dev_objs w) (root w)
    (filesystems w) (openedFiles w) (openedFilesLock w) (devices w) (devLock w)) m.

Definition on_mounts {X} (m : M (gmap Z XTMountPoint) X) : M (World H) X :=
  zoom mounts (fun x w => mkWorld (kern w) (path_nodes w) x (file_objs w) (fs_objs w) (dirs w) (opened w) (shared w) (dev_objs w) (root w)
    (filesystems w) (openedFiles w) (openedFilesLock w) (devices w) (devLock w)) m.

Definition on_file_objs {X} (m : M (gmap Z XTFile) X) : M (World H) X :=
  zoom file_objs (fun x w => mkWorld (kern w) (path_nodes w) (mounts w) x (fs_objs w) (dirs w) (opened w) (shared w) (dev_objs w) (root w)
    (filesystems w) (openedFiles w) (openedFilesLock w) (devices w) (devLock w)) m.

Definition on_dirs {X} (m : M (gmap Z XTDirectory) X) : M (World H) X :=
  zoom dirs (fun x w => mkWorld (kern w) (path_nodes w) (mounts w) (file_objs w) (fs_objs w) x (opened w) (shared w) (dev_objs w) (root w)
    (filesystems w) (openedFiles w) (openedFilesLock w) (devices w) (devLock w)) m.

Definition on_opened {X} (m : M (gmap Z XTOpenedFileEntry) X) : M (World H) X :=
  zoom opened (fun x w => mkWorld (kern w) (path_nodes w) (mounts w) (file_objs w) (fs_objs w) (dirs w) x (shared w) (dev_objs w) (root w)
    (filesystems w) (openedFiles w) (openedFilesLock w) (devices w) (devLock w)) m.

Definition on_devs {X} (m : M (gmap Z XTDevice) X) : M (World H) X :=
  zoom dev_objs (fun x w => mkWorld (kern w) (path_nodes w) (mounts w) (file_objs w) (fs_objs w) (dirs w) (opened w) (shared w) x (root w)
    (filesystems w) (openedFiles w) (openedFilesLock w) (devices w) (devLock w)) m.

Definition set_root (v : Z) (w : World H) : World H :=
  mkWorld (kern w) (path_nodes w) (mounts w) (file_objs w) (fs_objs w) (dirs w) (opened w) (shared w) (dev_objs w) v
    (filesystems w) (openedFiles w) (openedFilesLock w) (devices w) (devLock w).

Definition set_filesystems (v : Z) (w : World H) : World H :=
  mkWorld (kern w) (path_nodes w) (mounts w) (file_objs w) (fs_objs w) (dirs w) (opened w) (shared w) (dev_objs w) (root w)
    v (openedFiles w) (openedFilesLock w) (devices w) (devLock w).

Definition set_openedFiles (v : Z) (w : World H) : World H :=
  mkWorld (kern w) (path_nodes w) (mounts w) (file_objs w) (fs_objs w) (dirs w) (opened w) (shared w) (dev_objs w) (root w)
    (filesystems w) v (openedFilesLock w) (devices w) (devLock w).

Definition set_openedFilesLock (v : bool) (w : World H) : World H :=
  mkWorld (kern w) (path_nodes w) (mounts w) (file_objs w) (fs_objs w) (dirs w) (opened w) (shared w) (dev_objs w) (root w)
    (filesystems w) (openedFiles w) v (devices w) (devLock w).

Definition set_devices (v : Z) (w : World H) : World H :=
  mkWorld (kern w) (path_nodes w) (mounts w) (file_objs w) (fs_objs w) (dirs w) (opened w) (shared w) (dev_objs w) (root w)
    (filesystems w) (openedFiles w) (openedFilesLock w) v (devLock w).

Definition set_devLock (v : bool) (w : World H) : World H :=
  mkWorld (kern w) (path_nodes w) (mounts w) (file_objs w) (fs_objs w) (dirs w) (opened w) (shared w) (dev_objs w) (root w)
    (filesystems w) (openedFiles w) (openedFilesLock w) (devices w) v.

(** The shared pointers with the kernel's heap. *)
Definition on_shared {X} (m : M (Shared H) X) : M (World H) X :=
  zoom (fun w => mkSharedHeap (heap (mem (kern w))) (shared w))
    (fun s w => let k := kern w in
       mkWorld (mkKernel (mkListHeap (sheap s) (lists (mem k))) (thr k) (threads k) (currentThreadIterator k) (threadCount k) (IdleThread k)
                  (currentThread k) (interrupts k) (objs k))
         (path_nodes w) (mounts w) (file_objs w) (fs_objs w) (dirs w) (opened w) (pointers s) (dev_objs w) (root w)
         (filesystems w) (openedFiles w) (openedFilesLock w) (devices w) (devLock w)) m.

Definition alloc (size : Z) : M (World H) Z := on_kern (on_mem (on_heap (xtHeapAlloc size))).

Definition free (p : Z) : M (World H) unit := on_kern (on_mem (on_heap (xtHeapFree p))).

Definition create_list (d : Z) : M (World H) Z := on_kern (on_mem (xtCreateList d)).

Definition list_data (l : Z) : M (World H) Z := out_or NULL (on_kern (on_list (xtGetListData l))).

(** [xtGetNextList(l, &l)] *)
Definition list_next (l : Z) : M (World H) Z := out_or l (on_kern (on_list (xtGetNextList l))).

Definition walk_fuel : M (World H) nat := gets (fun w => size (lists (mem (kern w)))).

(** A static spinlock, with interrupts off while it is held. *)
Definition lock_static (test_ : World H -> bool) (set_ : bool -> World H -> World H) : M (World H) unit :=
  on_kern (modify (set_interrupts false)) ;;;
  busy ← gets test_;
  modify (set_ true) ;;;
  match busy with true => nofuel | false => mret tt end.

Definition unlock_static (set_ : bool -> World H -> World H) : M (World H) unit :=
  modify (set_ false) ;;;
  on_kern (modify (set_interrupts true)).

(** [if (!head) head = l; else xtAppendList(head, l);] *)
Definition enlist (head_ : World H -> Z) (set_ : Z -> World H -> World H) (l : Z) : M (World H) unit :=
  h ← gets head_;
  if h =? NULL then modify (set_ l) else out_or tt (on_kern (on_list (xtAppendList h l))).

(** The value of a call whose code was stored, or its error. *)
Definition give {X} (r : X + Z) : M (World H) X := match r with inl x => mret x | inr c => throw c end.

Definition same_name (a b : list Z) (max : Z) : M (World H) bool :=
  r ← attempt (xtStringCmp (a ++ [0]) (b ++ [0]) max);
  mret (match r with inl _ => true | inr _ => false end).

Definition same_iname (a b : list Z) (max : Z) : M (World H) bool :=
  r ← attempt (xtStringICmp (a ++ [0]) (b ++ [0]) max);
  mret (match r with inl _ => true | inr _ => false end).

(** * Path nodes *)

(** The component of [xtFindPathNode] in memory: it ends at a separator, at the
    terminator or after 255 bytes. *)
Fixpoint take_name (count : nat) (p : list Z) : M (World H) (list Z * list Z) :=
  match p with
  | [] => fault
  | c :: q =>
    if is_separator c || (c =? 0) then mret ([], p)
    else match count with O => mret ([], p) | S count => '(n, r) ← take_name count q; mret (c :: n, r) end
  end.

(** [for (pathl = pathi->nodes; pathl; xtGetNextList(pathl, &pathl))] *)
Fixpoint find_child (fuel : nat) (pathl : Z) (name : list Z) : M (World H) (option Z) :=
  if pathl =? NULL then mret None
  else
    node ← list_data pathl;
    n ← on_nodes (load node);
    same ← same_name (node_name n) name 256;
    match same with
    | true => mret (Some node)
    | false => next ← list_next pathl; match fuel with O => nofuel | S fuel => find_child fuel next name end
    end.

(** The node and [*left] as it is then; the step [++path] comes even at the
    terminator. *)
Fixpoint find_loop (fuel : nat) (path : list Z) (pathi : Z) (left_ : option (list Z)) : M (World H) (Z * option (list Z)) :=
  match path with
  | [] => fault
  | c :: _ =>
    if c =? 0 then mret (pathi, left_)
    else match fuel with
         | O => nofuel
         | S fuel =>
           '(name, rest) ← take_name 255 path;
           match name with
           | [] => find_loop fuel (tl rest) pathi (Some (tl rest))
           | _ =>
             n ← on_nodes (load pathi);
             k ← walk_fuel;
             found ← find_child k (node_nodes n) name;
             match found with
             | Some node => find_loop fuel (tl rest) node (Some rest)
             | None => mret (pathi, Some path)
             end
           end
         end
  end.

Definition xtFindPathNode (path : list Z) : M (World H) (Z * option (list Z)) :=
  r ← gets root;
  find_loop (length path) path r None.

Definition PATH_NODE : Z := 24.

(** The name of a node is a copy. *)
Definition xtCreatePathNode (name : list Z) (mp : Z) : M (World H) Z :=
  node ← alloc PATH_NODE;
  on_kern (on_mem (on_heap (xtDuplicateString 0 (name ++ [0])))) ;;;
  on_nodes (create node (mkPathNode mp name NULL)) ;;;
  mret node.

Definition xtAppendPathNode (parent child : Z) : M (World H) unit :=
  XT_CHECK_ARG_IS_NULL parent ;;;
  XT_CHECK_ARG_IS_NULL child ;;;
  childList ← out_or NULL (create_list child);
  p ← on_nodes (load parent);
  if node_nodes p =? NULL
  then on_nodes (assign parent (fun p => mkPathNode (node_mp p) (node_name p) childList))
  else out_or tt (on_kern (on_list (xtAppendList (node_nodes p) childList))).

(** [rootMP] is the address of the static mount point. *)
Definition xtFileSystemInit (rootMP : Z) : M (World H) unit :=
  modify (set_openedFilesLock false) ;;;
  node ← xtCreatePathNode [] rootMP;
  modify (set_root node).

Definition xtRegisterFileSystem (fs : Z) : M (World H) unit :=
  fsList ← create_list fs;
  h ← gets filesystems;
  if h =? NULL then modify (set_filesystems fsList) else on_kern (on_list (xtAppendList h fsList)).

(** * The opened files *)

Fixpoint find_file_loop (fuel : nat) (i : Z) (path : list Z) : M (World H) Z :=
  if i =? NULL then unlock_static set_openedFilesLock ;;; throw XT_NOT_FOUND
  else
    sp ← list_data i;
    e ← out_or NULL (on_shared (xtSharedPtrGetData sp));
    entry ← on_opened (load e);
    same ← same_iname path (opened_path entry) 4096;
    match same with
    | true =>
      out_or tt (on_shared (xtIncrementReference sp)) ;;;
      unlock_static set_openedFilesLock ;;;
      mret (opened_file entry)
    | false => next ← list_next i; match fuel with O => nofuel | S fuel => find_file_loop fuel next path end
    end.

Definition xtFindFile (path : list Z) : M (World H) Z :=
  lock_static openedFilesLock set_openedFilesLock ;;;
  n ← walk_fuel;
  i ← gets openedFiles;
  find_file_loop n i path.

Definition OPENED : Z := 4104.

(** No caller; the function has no [return]. *)
Definition xtAppendFile (path : list Z) (file : Z) : M (World H) unit :=
  fileEntry ← out_or NULL (alloc OPENED);
  if fileEntry =? NULL then fault
  else
    copy ← xtCopyString (replicate 4096 0) (path ++ [0]) 4096;
    on_opened (create fileEntry (mkOpened path file)) ;;;
    sharedPtr ← out_or NULL (on_shared (xtCreateSharedPtr fileEntry NULL));
    fileEntryList ← out_or NULL (create_list sharedPtr);
    lock_static openedFilesLock set_openedFilesLock ;;;
    enlist openedFiles set_openedFiles fileEntryList ;;;
    unlock_static set_openedFilesLock.

(** * Locking a file *)

(** [env] is what the other threads do while this one waits. *)
Definition xtLockFile (file lockType : Z) (env : list (Kernel H -> Kernel H)) : M (World H) unit :=
  XT_CHECK_ARG_IS_NULL file ;;;
  f ← on_file_objs (load file);
  let l := file_lock f in
  (if Z.land (file_flags f) XT_FILE_MODE_NONBLOCK =? 0 then mret tt
   else
     on_kern (xtLockSpinlock (rw_lock l)) ;;;
     x ← on_kern (on_rwlocks (load l));
     on_kern (xtUnlockSpinlock (rw_lock l)) ;;;
     let canLock := if lockType =? XT_LOCK_READ then (readers x >=? 0) && (waitWriters x =? NULL) else readers x =? 0 in
     if canLock then mret tt else throw XT_WOULD_BLOCK) ;;;
  if lockType =? XT_LOCK_READ then on_kern (xtAcquireRead l env)
  else if lockType =? XT_LOCK_WRITE then on_kern (xtAcquireWrite l env)
  else throw XT_INVALID_PARAMETER.

Definition xtUnlockFile (file lockType : Z) : M (World H) unit :=
  XT_CHECK_ARG_IS_NULL file ;;;
  f ← on_file_objs (load file);
  if lockType =? XT_LOCK_READ then on_kern (xtReleaseRead (file_lock f))
  else if lockType =? XT_LOCK_WRITE then on_kern (xtReleaseWrite (file_lock f))
  else throw XT_INVALID_PARAMETER.

(** * Files *)

Section Tables.
Variables (file_io : Z -> option (XTFileIO H)) (fs_io : Z -> option (XTFileSystemIO H)).

(** [file->IO] and one of its entries; either may be NULL. *)
Definition handler {X} (file : Z) (entry : XTFileIO H -> option X) : M (World H) X :=
  f ← on_file_objs (load file);
  match file_io (file_IO f) with
  | None => throw XT_NOT_IMPLEMENTED
  | Some io => match entry io with None => throw XT_NOT_IMPLEMENTED | Some h => mret h end
  end.

(** [data] is [None] for NULL. The count is what [*written] is afterwards. *)
Definition xtWriteFile (file : Z) (data : option (list Z)) (offset : Z) (env : list (Kernel H -> Kernel H)) : M (World H) (Z * Z) :=
  XT_CHECK_ARG_IS_NULL file ;;;
  match data with
  | None => throw XT_INVALID_PARAMETER
  | Some bs =>
    h ← handler file WriteFile;
    xtLockFile file XT_LOCK_WRITE env ;;;
    result ← attempt (h file bs offset);
    f ← on_file_objs (load file);
    out_or tt (on_kern (xtSignalEvent (file_event f))) ;;;
    out_or tt (xtUnlockFile file XT_LOCK_WRITE) ;;;
    give result
  end.

Definition xtReadFile (file : Z) (data : Z) (offset size : Z) (env : list (Kernel H -> Kernel H)) : M (World H) (Z * list Z) :=
  XT_CHECK_ARG_IS_NULL file ;;;
  XT_CHECK_ARG_IS_NULL data ;;;
  f ← on_file_objs (load file);
  out_or tt (on_kern (xtResetEvent (file_event f))) ;;;
  h ← handler file ReadFile;
  xtLockFile file XT_LOCK_READ env ;;;
  result ← attempt (h file offset size);
  out_or tt (xtUnlockFile file XT_LOCK_READ) ;;;
  give result.

Definition xtGetFileInfo (file : Z) (info : XTFileInfo) : M (World H) XTFileInfo :=
  XT_CHECK_ARG_IS_NULL file ;;;
  h ← handler file GetFileInfo;
  h file info.

Definition xtSetFileInfo (file : Z) (info : XTFileInfo) : M (World H) unit :=
  XT_CHECK_ARG_IS_NULL file ;;;
  h ← handler file SetFileInfo;
  h file info.

(** The size that is reported and the address. *)
Definition xtMapFile (file offset : Z) : M (World H) (Z * Z) :=
  XT_CHECK_ARG_IS_NULL file ;;;
  h ← handler file MapFile;
  h file offset.

(** A size of 0 is refused as if it were a pointer. *)
Definition xtUnmapFile (file offset ptr size : Z) : M (World H) unit :=
  XT_CHECK_ARG_IS_NULL file ;;;
  XT_CHECK_ARG_IS_NULL size ;;;
  XT_CHECK_ARG_IS_NULL ptr ;;;
  h ← handler file UnmapFile;
  h file offset ptr size.

Definition xtCloseFile (file : Z) : M (World H) unit :=
  XT_CHECK_ARG_IS_NULL file ;;;
  h ← handler file CloseFile;
  f ← on_file_objs (load file);
  h (mountPoint f) file.

(** The IO table of the mount point of a node. *)
Definition mount_io (pathNode : Z) : M (World H) (Z * XTFileSystemIO H) :=
  n ← on_nodes (load pathNode);
  if node_mp n =? NULL then throw XT_NOT_IMPLEMENTED
  else
    m ← on_mounts (load (node_mp n));
    if mp_fs m =? NULL then throw XT_NOT_IMPLEMENTED
    else
      fs ← (fun w => deref (fun w => fs_objs w !! mp_fs m) w);
      match fs_io (fs_IO fs) with None => throw XT_NOT_IMPLEMENTED | Some io => mret (node_mp n, io) end.

(** A function of the table, [XT_NOT_IMPLEMENTED] for NULL. *)
Definition entry_of {X} (f : option X) : M (World H) X := match f with None => throw XT_NOT_IMPLEMENTED | Some h => mret h end.

(** A call through a pointer that is not checked. *)
Definition unchecked {X} (f : option X) : M (World H) X := match f with None => fault | Some h => mret h end.

(** [flags & ~XT_FILE_MODE_CREATE] *)
Definition open_flags (flags : Z) : Z := Z.land flags (2 ^ 64 - 1 - XT_FILE_MODE_CREATE).

(** The name that is passed on, from the memory behind the pointer. *)
Fixpoint to_string (p : list Z) : list Z :=
  match p with
  | [] => []
  | c :: p => if c =? 0 then [] else c :: to_string p
  end.

(** The lock, the flags and the event of a file that was opened. *)
Definition prepare_file (file flags : Z) : M (World H) Z :=
  f ← on_file_objs (load file);
  on_kern (xtInitRWLock (file_lock f)) ;;;
  on_file_objs (assign file (fun f => mkXTFile (mountPoint f) (file_IO f) (file_data f) (open_flags flags) (file_lock f) (file_event f))) ;;;
  e ← attempt (on_kern xtCreateEvent);
  (match e with
   | inl e => on_file_objs (assign file (fun f => mkXTFile (mountPoint f) (file_IO f) (file_data f) (file_flags f) (file_lock f) e))
   | inr _ => mret tt
   end) ;;;
  mret file.

(** [buff] is the uninitialised buffer on the stack. *)
Definition xtOpenFile (buff path : list Z) (flags : Z) : M (World H) Z :=
  buff ← xtNormalizePath path buff 4096;
  r ← attempt (xtFindFile (to_string buff));
  match r with
  | inl file => mret file
  | inr _ =>
    '(pathNode, left_) ← xtFindPathNode buff;
    if pathNode =? NULL then throw XT_NOT_IMPLEMENTED
    else
      '(mp, io) ← mount_io pathNode;
      open ← entry_of (OpenFile io);
      (if Z.land flags XT_FILE_MODE_CREATE =? 0 then mret tt
       else create ← entry_of (CreateFile io); out_or tt (create mp (to_string <$> left_) (open_flags flags))) ;;;
      file ← open mp (to_string <$> left_) (open_flags flags);
      prepare_file file flags
  end.

Definition xtDeleteFile (buff path : list Z) : M (World H) unit :=
  buff ← xtNormalizePath path buff 4096;
  '(pathNode, left_) ← xtFindPathNode buff;
  if pathNode =? NULL then throw XT_NOT_IMPLEMENTED
  else
    '(mp, io) ← mount_io pathNode;
    delete ← entry_of (DeleteFile io);
    delete mp (to_string <$> left_).

(** [while (count)], a block of 512 bytes at a time; the codes are dropped. [buff] is
    the address of the buffer on the stack. *)
Fixpoint copy_loop (fuel : nat) (buff fsource fdest pos count : Z) (block : list Z) (env : list (Kernel H -> Kernel H)) : M (World H) unit :=
  if count =? 0 then mret tt
  else match fuel with
       | O => nofuel
       | S fuel =>
         let temp := if count <? 512 then count else 512 in
         '(_, bs) ← out_or (0, []) (xtReadFile fsource buff pos temp env);
         let block := bs ++ drop (length bs) block in
         out_or (0, 0) (xtWriteFile fdest (Some (take (Z.to_nat temp) block)) pos env) ;;;
         copy_loop fuel buff fsource fdest (u64 (pos + temp)) (u64 (count - temp)) (replicate 512 0) env
       end.

(** [buff] is the buffer for paths, [block] that for the data, at the address
    [at_]. The first file stays open when the second cannot be opened. *)
Definition xtCopyFile (buff block source dest : list Z) (at_ : Z) (env : list (Kernel H -> Kernel H)) : M (World H) unit :=
  fsource ← xtOpenFile buff source XT_FILE_MODE_READ;
  fdest ← xtOpenFile buff dest XT_FILE_MODE_WRITE;
  info ← out_or no_info (xtGetFileInfo fsource no_info);
  copy_loop (Z.to_nat (FileSize info)) at_ fsource fdest 0 (FileSize info) block env ;;;
  out_or tt (xtCloseFile fsource) ;;;
  out_or tt (xtCloseFile fdest).

(** * Directories *)

Definition DIRECTORY : Z := 24.

(** The path is not normalised, and the directory is not freed on an error. *)
Definition xtOpenDirectory (path : list Z) : M (World H) Z :=
  '(pathNode, left_) ← xtFindPathNode path;
  newDir ← alloc DIRECTORY;
  on_dirs (create newDir (mkDirectory pathNode 0 0)) ;;;
  '(mp, io) ← mount_io pathNode;
  open ← entry_of (OpenDirectory io);
  open mp (to_string <$> left_) newDir ;;;
  mret newDir.

Definition set_pos (dir : Z) (f : Z -> Z) : M (World H) unit :=
  on_dirs (assign dir (fun d => mkDirectory (dir_node d) (dir_data d) (u64 (f (dir_pos d))))).

(** The nodes mounted below come first, then what the file system has. *)
Definition xtReadDirectory (dir : Z) (info : XTFileInfo) : M (World H) XTFileInfo :=
  XT_CHECK_ARG_IS_NULL dir ;;;
  d ← on_dirs (load dir);
  n ← on_nodes (load (dir_node d));
  r ← attempt (on_kern (on_list (xtIndexList (node_nodes n) (dir_pos d))));
  match r with
  | inr _ =>
    listLength ← out_or 0 (on_kern (on_list (xtListLength (node_nodes n))));
    set_pos dir (fun p => p - listLength) ;;;
    m ← on_mounts (load (node_mp n));
    fs ← (fun w => deref (fun w => fs_objs w !! mp_fs m) w);
    io ← unchecked (fs_io (fs_IO fs));
    read ← unchecked (ReadDirectory io);
    result ← attempt (read dir info);
    set_pos dir (fun p => p + (listLength + 1)) ;;;
    give result
  | inl l =>
    lNode ← on_kern (on_list (xtGetListData l));
    ln ← on_nodes (load lNode);
    name ← xtCopyString (replicate 256 0) (node_name ln ++ [0]) 256;
    set_pos dir (fun p => p + 1) ;;;
    mret (set_info_name (to_string name) info)
  end.

(** * Mounting *)

(** The last file system of the list with the name. *)
Fixpoint find_fs (fuel : nat) (l : Z) (name : list Z) (fs : Z) : M (World H) Z :=
  if l =? NULL then mret fs
  else
    fsI ← list_data l;
    x ← (fun w => deref (fun w => fs_objs w !! fsI) w);
    same ← same_name (fs_Name x) name 256;
    next ← list_next l;
    match fuel with O => nofuel | S fuel => find_fs fuel next name (match same with true => fsI | false => fs end) end.

(** The result of the search is not checked. *)
Definition xtMakeFS (file : Z) (name : list Z) : M (World H) unit :=
  XT_CHECK_ARG_IS_NULL file ;;;
  n ← walk_fuel;
  l ← gets filesystems;
  fs ← find_fs n l name NULL;
  x ← (fun w => deref (fun w => if fs =? NULL then None else fs_objs w !! fs) w);
  io ← unchecked (fs_io (fs_IO x));
  make ← unchecked (MakeFS io);
  make file.

Definition MOUNT : Z := 24.

(** Mounting over a node that exists replaces its file system; otherwise a node is
    made for the last name of the path. *)
Definition xtMount (path name : list Z) (dev : Z) : M (World H) unit :=
  n ← walk_fuel;
  l ← gets filesystems;
  fs ← find_fs n l name NULL;
  if fs =? NULL then throw XT_NOT_FOUND
  else
    r ← gets root;
    '(pathNode, left_) ← (if r =? NULL then mret (NULL, None) else xtFindPathNode path);
    x ← (fun w => deref (fun w => fs_objs w !! fs) w);
    if negb (r =? NULL) && (match to_string <$> left_ with None | Some [] => true | _ => false end) then
      p ← on_nodes (load pathNode);
      on_mounts (assign (node_mp p) (fun m => mkMount fs dev (mp_data m))) ;;;
      io ← unchecked (fs_io (fs_IO x));
      mount ← unchecked (Mount io);
      mount (node_mp p)
    else
      let left_ := match left_ with Some l => to_string l | None => [] end in
      (if r =? NULL then mret tt else xtCheckName left_) ;;;
      mp ← alloc MOUNT;
      on_mounts (create mp (mkMount fs dev NULL)) ;;;
      io ← unchecked (fs_io (fs_IO x));
      mount ← entry_of (Mount io);
      resultOfMount ← attempt (mount mp);
      newPath ← xtCreatePathNode left_ mp;
      match resultOfMount with
      | inr code => out_or tt (free mp) ;;; throw code
      | inl _ => if r =? NULL then modify (set_root newPath) else out_or tt (xtAppendPathNode pathNode newPath)
      end.

(** Only a path that is empty leaves [left] NULL; the function has no [return] after
    the call. *)
Definition xtUnmount (path : list Z) : M (World H) unit :=
  '(pathNode, left_) ← xtFindPathNode path;
  match left_ with
  | Some _ => throw XT_NOT_FOUND
  | None =>
    '(mp, io) ← (n ← on_nodes (load pathNode);
                 m ← on_mounts (load (node_mp n));
                 fs ← (fun w => deref (fun w => fs_objs w !! mp_fs m) w);
                 io ← unchecked (fs_io (fs_IO fs));
                 mret (node_mp n, io));
    unmount ← unchecked (Unmount io);
    out_or tt (unmount mp)
  end.

(** ramdisk.c: [tarfs], [initrd], [initrdIO] and [initrdData] are the addresses of
    its statics. *)
Definition xtRamDiskInit (tarfs initrd initrdIO initrdData : Z) : M (World H) unit :=
  xtRegisterFileSystem tarfs ;;;
  on_file_objs (assign initrd (fun f => mkXTFile (mountPoint f) initrdIO initrdData (file_flags f) (file_lock f) (file_event f))) ;;;
  xtMount [47; 0] [116; 97; 114; 102; 115] initrd.

End Tables.

(** * Devices *)

Fixpoint find_device_loop (fuel : nat) (i : Z) (name : list Z) : M (World H) (Z * Z) :=
  if i =? NULL then throw XT_NOT_FOUND
  else
    dev ← list_data i;
    d ← on_devs (load dev);
    same ← same_iname (dev_name d) name 4096;
    match same with
    | true => mret (i, dev)
    | false => next ← list_next i; match fuel with O => nofuel | S fuel => find_device_loop fuel next name end
    end.

(** The loop between taking and releasing the lock. *)
Definition find_device (name : list Z) : M (World H) (Z * Z) :=
  lock_static devLock set_devLock ;;;
  n ← walk_fuel;
  i ← gets devices;
  r ← attempt (find_device_loop n i name);
  unlock_static set_devLock ;;;
  give r.

Definition xtFindDevice (name : list Z) : M (World H) Z := '(_, dev) ← find_device name; mret dev.

Definition DEVICE : Z := 16.

Definition XTFILE : Z := 72.

(** On an error the parts that were made are freed; the last error is reported as
    success. The file object is a copy; [lock p] is the address of the lock inside
    the file at [p]. *)
Definition xtRegisterDevice (lock : Z -> Z) (name : list Z) (file : Z) : M (World H) unit :=
  XT_CHECK_ARG_IS_NULL file ;;;
  r ← attempt (xtFindDevice name);
  match r with
  | inl _ => throw XT_FILE_ALREADY_EXISTS
  | inr _ =>
    dev ← alloc DEVICE;
    r ← attempt (on_kern (on_mem (on_heap (xtDuplicateString 0 (name ++ [0])))));
    match r with
    | inr code => out_or tt (free dev) ;;; throw code
    | inl (copy, _) =>
      r ← attempt (alloc XTFILE);
      match r with
      | inr code => out_or tt (free copy) ;;; out_or tt (free dev) ;;; throw code
      | inl newFile =>
        f ← on_file_objs (load file);
        on_kern (on_rwlocks (modify (fun m => match m !! file_lock f with Some x => <[lock newFile := x]> m | None => m end))) ;;;
        on_file_objs (create newFile (mkXTFile (mountPoint f) (file_IO f) (file_data f) (file_flags f) (lock newFile) (file_event f))) ;;;
        on_devs (create dev (mkDevice name newFile)) ;;;
        r ← attempt (create_list dev);
        match r with
        | inr _ => out_or tt (free newFile) ;;; out_or tt (free copy) ;;; out_or tt (free dev) ;;; mret tt
        | inl l =>
          lock_static devLock set_devLock ;;;
          enlist devices set_devices l ;;;
          unlock_static set_devLock
        end
      end
    end
  end.

Definition xtUnregisterDevice (name : list Z) : M (World H) unit :=
  lock_static devLock set_devLock ;;;
  n ← walk_fuel;
  i ← gets devices;
  r ← attempt (find_device_loop n i name);
  match r with
  | inl (l, _) =>
    out_or tt (on_kern (on_mem (xtRemoveFromList i l))) ;;;
    unlock_static set_devLock
  | inr _ => unlock_static set_devLock ;;; throw XT_NOT_FOUND
  end.

(** Each opening gets a file object of its own, cleared first. *)
Definition devfsOpenFile (lock : Z -> Z) (mp : Z) (name : list Z) (flags : Z) : M (World H) Z :=
  dev ← xtFindDevice name;
  newFile ← alloc XTFILE;
  d ← on_devs (load dev);
  f ← on_file_objs (load (dev_file d));
  on_kern (on_rwlocks (create (lock newFile) (mkRW false 0 NULL NULL))) ;;;
  on_file_objs (create newFile (mkXTFile mp (file_IO f) (file_data f) flags (lock newFile) NULL)) ;;;
  mret newFile.

Definition devfsMount (mp : Z) : M (World H) unit := mret tt.

Definition devfsUnmount (mp : Z) : M (World H) unit := mret tt.

(** [fs] is the address of the static structure. *)
Definition xtDeviceFilesystemInit (fs : Z) : M (World H) unit :=
  modify (set_devLock false) ;;;
  xtRegisterFileSystem fs.

End Vfs.
