(* ===== verification/FileLock.v ===== *)
(** The lock of a file (xtLockFile of xtkernel/fs.c) asked for by the thread that
    holds it for writing: what [Vfat.lock_again] takes for granted. *)
From Stdlib Require Import ZArith Lia.
From stdpp Require Import base tactics list gmap numbers.
From S2P Require Import Prelude Io Allocator ListC Threads Sync Vfs.

Open Scope Z_scope.

Section Held.
Context {H : Type} {A : Allocator H}.
Variable l : Z.
Implicit Types (k : Kernel H) (w : World H).

(** A writer holds the lock. *)
Definition held k : Prop := exists x, rwlocks (objs k) !! l = Some x /\ readers x = -1.

(** The operation leaves it held. *)
Definition holding {X} (m : M (Kernel H) X) : Prop :=
  forall k, held k -> match m k with Ok _ k' | Err _ k' => held k' | _ => True end.

Lemma holding_bind {X Y} (m : M (Kernel H) X) (f : X -> M (Kernel H) Y) : holding m -> (forall x, holding (f x)) -> holding (m ≫= f).
Proof. intros Hm Hf k Hk. specialize (Hm k Hk). unfold mbind, M_bind. destruct (m k); [by apply Hf|done..]. Qed.

Lemma holding_ret {X} (x : X) : holding (mret x).
Proof. by intros k Hk. Qed.

Lemma holding_throw {X} c : holding (throw (A := X) c).
Proof. by intros k Hk. Qed.

Lemma holding_nofuel {X} : holding (nofuel (A := X)).
Proof. by intros k Hk. Qed.

Lemma holding_gets {X} (f : Kernel H -> X) : holding (gets f).
Proof. by intros k Hk. Qed.

Lemma holding_modify f : (forall k, objs (f k) = objs k) -> holding (modify f).
Proof. intros Hf k Hk. unfold modify, held. by rewrite Hf. Qed.

Lemma holding_out {X} d (m : M (Kernel H) X) : holding m -> holding (out_or d m).
Proof. intros Hm k Hk. specialize (Hm k Hk). unfold out_or. by destruct (m k). Qed.

Lemma holding_zoom {T X} (g : Kernel H -> T) u (m : M T X) : (forall t k, objs (u t k) = objs k) -> holding (zoom g u m).
Proof. intros Hu k Hk. unfold zoom, held. destruct (m (g k)); rewrite ?Hu; done. Qed.

Lemma holding_mem {X} (m : M (ListHeap H) X) : holding (on_mem m).
Proof. by apply holding_zoom. Qed.

Lemma holding_thr {X} (m : M (gmap Z XTThread) X) : holding (on_thr m).
Proof. by apply holding_zoom. Qed.

Lemma holding_load {X} (f : XTRWLock -> M (gmap Z XTRWLock) X) : (forall x m, match f x m with Ok _ m' => m' = m | Err _ _ => False | _ => True end) ->
  holding (on_rwlocks (x ← load l; f x)).
Proof.
  intros Hf k Hk. unfold on_rwlocks, zoom, load, deref, mbind, M_bind. destruct (rwlocks (objs k) !! l) as [x|] eqn:E; [|done].
  specialize (Hf x (rwlocks (objs k))). destruct (f x _); try done. subst. destruct k as [? ? ? ? ? ? ? ? []]. exact Hk.
Qed.

Lemma holding_assign f : (forall x, readers (f x) = readers x) -> holding (on_rwlocks (assign l f)).
Proof.
  intros Hf k (x & Hx & Hr). unfold on_rwlocks, zoom, assign. rewrite Hx. exists (f x). split; [|by rewrite Hf].
  cbn. by rewrite lookup_insert_eq.
Qed.

Lemma holding_lock : holding (xtLockSpinlock (rw_lock l)).
Proof.
  unfold xtLockSpinlock, acquire. apply holding_bind; [by apply holding_modify|intros _].
  apply holding_bind; [by apply holding_load|intros b]. apply holding_bind; [by apply holding_assign|intros _].
  destruct b; [apply holding_nofuel|apply holding_ret].
Qed.

Lemma holding_unlock : holding (xtUnlockSpinlock (rw_lock l)).
Proof. apply holding_bind; [by apply holding_assign|intros _; by apply holding_modify]. Qed.

Lemma holding_sleep q : holding (head_of q) -> (forall v, holding (set_head q v)) -> holding (rwSleep q).
Proof.
  intros Hh Hs. unfold rwSleep. apply holding_bind; [apply holding_gets|intros c]. apply holding_bind; [apply holding_mem|intros node].
  apply holding_bind; [|intros _; apply holding_thr]. unfold enqueue. apply holding_bind; [done|intros h].
  destruct (h =? NULL); [apply Hs|apply holding_out, holding_mem].
Qed.

(** The sections of the two functions do not take the lock, and leave it held. *)
Definition refused (try_ : M (Kernel H) bool) : Prop :=
  forall k, held k -> match try_ k with Ok b k' => b = false /\ held k' | _ => True end.

Lemma refused_section q (test : XTRWLock -> bool) (take : M (Kernel H) unit) :
  (forall x, readers x = -1 -> test x = true) -> holding (head_of q) -> (forall v, holding (set_head q v)) ->
  refused (xtLockSpinlock (rw_lock l) ;;; x ← on_rwlocks (load l);
    if test x then rwSleep q ;;; xtUnlockSpinlock (rw_lock l) ;;; mret false else take ;;; xtUnlockSpinlock (rw_lock l) ;;; mret true).
Proof.
  intros Ht Hh Hs k Hk. pose proof (holding_lock k Hk) as K1. unfold mbind, M_bind. destruct (xtLockSpinlock _ k) as [[] k1| | |]; try done.
  destruct K1 as (x & Hx & Hr). unfold on_rwlocks at 1, zoom, load, deref. rewrite Hx, Ht by done.
  set (k2 := set_objs _ k1). assert (held k2) as K2 by (exists x; by split). pose proof (holding_sleep q Hh Hs k2 K2) as K3.
  destruct (rwSleep q k2) as [[] k3| | |]; try done. pose proof (holding_unlock k3 K3) as K4.
  by destruct (xtUnlockSpinlock _ k3) as [[] k4| | |].
Qed.

Lemma refused_read : refused (acquire_read_try l).
Proof.
  apply refused_section; [by intros x ->|by apply holding_load|intros v; by apply holding_assign].
Qed.

Lemma refused_write : refused (acquire_write_try l).
Proof.
  apply refused_section; [by intros x ->|by apply holding_load|intros v; by apply holding_assign].
Qed.

Lemma refused_loop try_ fuel : refused try_ -> forall env k, held k -> Forall (fun g => forall k, held k -> held (g k)) env ->
  forall k', acquire_loop try_ fuel env k <> Ok tt k'.
Proof.
  intros Ht. induction fuel as [|fuel IH]; intros env k Hk He k'; cbn [acquire_loop]; unfold mbind, M_bind; specialize (Ht k Hk);
    (destruct (try_ k) as [b k1| | |]; try done); destruct Ht as [-> K1]; (destruct env as [|g env]; [done|]); cbn [xtSwitchToThread].
  - done.
  - apply list.Forall_cons in He as [Hg He]. apply (IH env (g k1)); [by apply Hg|done].
Qed.

Lemma lock_ok k x : rwlocks (objs k) !! l = Some x -> spinlock x = false ->
  exists k1 x1, xtLockSpinlock (rw_lock l) k = Ok tt k1 /\ rwlocks (objs k1) !! l = Some x1 /\ readers x1 = readers x.
Proof.
  intros Hx Hs. destruct k as [me th ths lt nx cu ct it [mu rw ev]]. cbn in Hx. unfold xtLockSpinlock, acquire.
  rewrite (bind_Ok _ _ _ tt (mkKernel me th ths lt nx cu ct false (mkObjects mu rw ev))) by done.
  erewrite bind_Ok by (unfold rw_lock, on_rwlocks, zoom, load, deref, mbind, M_bind; cbn; by rewrite Hx).
  erewrite bind_Ok by (unfold rw_lock, on_rwlocks, zoom, assign; cbn; by rewrite Hx). rewrite Hs.
  eexists _, _. split; [done|]. cbn. by rewrite lookup_insert_eq.
Qed.

Lemma unlock_ok k x : rwlocks (objs k) !! l = Some x -> exists k1, xtUnlockSpinlock (rw_lock l) k = Ok tt k1.
Proof.
  intros Hx. unfold xtUnlockSpinlock, release. erewrite bind_Ok by (unfold rw_lock, on_rwlocks, zoom, assign; cbn; by rewrite Hx). by eexists.
Qed.

(** With the lock held for writing by the calling thread, so that nobody else gives it back while it waits, [xtLockFile] never succeeds: an object in the mode that does not wait is refused, any other waits for good. (If there is no memory for its place in the queue it returns with an error and leaves the spinlock taken, on which the next call stops.) *)
Theorem lock_not_again w (file lockType : Z) (f : XTFile) (x : XTRWLock) (env : list (Kernel H -> Kernel H)) :
  file <> NULL -> file_objs w !! file = Some f -> file_lock f = l -> rwlocks (objs (kern w)) !! l = Some x -> readers x = -1 -> spinlock x = false ->
  lockType = XT_LOCK_READ \/ lockType = XT_LOCK_WRITE -> Forall (fun g => forall k, held k -> held (g k)) env ->
  if Z.land (file_flags f) XT_FILE_MODE_NONBLOCK =? 0 then forall w', xtLockFile file lockType env w <> Ok tt w'
  else exists w', xtLockFile file lockType env w = Err XT_WOULD_BLOCK w'.
Proof.
  intros Hn Hf Hl Hx Hr Hs Ht He. unfold xtLockFile. rewrite check_then by done.
  destruct w as [k pn mo fo fso dr opd sh dv rt fsy ofs ol dvs dl]. cbn in Hf, Hx.
  erewrite bind_Ok by (unfold on_file_objs, zoom, load, deref; cbn; by rewrite Hf). rewrite Hl.
  destruct (Z.land (file_flags f) XT_FILE_MODE_NONBLOCK =? 0).
  - rewrite bind_ret. intros w'. assert (held k) as Hk by (by exists x). unfold on_kern, zoom. cbn [kern].
    destruct Ht as [-> | ->]; [change (XT_LOCK_READ =? XT_LOCK_READ) with true|change (XT_LOCK_WRITE =? XT_LOCK_READ) with false; change (XT_LOCK_WRITE =? XT_LOCK_WRITE) with true]; cbv iota.
    + pose proof (refused_loop _ (length env) refused_read env k Hk He) as K. unfold xtAcquireRead. cbn [kern].
      destruct (acquire_loop _ _ _ k) as [[] k'| | |]; [|done..]. by destruct (K k').
    + pose proof (refused_loop _ (length env) refused_write env k Hk He) as K. unfold xtAcquireWrite. cbn [kern].
      destruct (acquire_loop _ _ _ k) as [[] k'| | |]; [|done..]. by destruct (K k').
  - destruct (lock_ok k x Hx Hs) as (k1 & x1 & R1 & H1 & Hr1).
    set (k2 := set_objs (mkObjects (mutexes (objs k1)) (rwlocks (objs k1)) (events (objs k1))) k1).
    assert (rwlocks (objs k2) !! l = Some x1) as H2 by done. destruct (unlock_ok k2 x1 H2) as (k3 & R3).
    erewrite bind_Err; [by eexists|]. erewrite bind_Ok by (unfold on_kern, zoom; cbn [kern]; by rewrite R1).
    erewrite bind_Ok by (unfold on_kern, zoom; cbn [kern]; unfold on_rwlocks, zoom, load, deref; by rewrite H1). fold k2.
    erewrite bind_Ok by (unfold on_kern, zoom; cbn [kern]; by rewrite R3). rewrite Hr1, Hr.
    assert ((if lockType =? XT_LOCK_READ then (-1 >=? 0) && (waitWriters x1 =? NULL) else -1 =? 0) = false) as -> by (by destruct (lockType =? XT_LOCK_READ)).
    reflexivity.
Qed.

End Held.

(** * A file that is written to *)

Definition written_world : World Bump :=
  mkWorld (mkKernel (mkListHeap bump_empty ∅) ∅ 0 0 0 0 48 true (mkObjects ∅ {[710 := mkRW false (-1) NULL NULL]} ∅)) ∅ ∅
    {[700 := mkXTFile 300 500 0 1 710 0; 701 := mkXTFile 300 500 0 (Z.lor 1 XT_FILE_MODE_NONBLOCK) 710 0]} ∅ ∅ ∅ ∅ ∅ 0 0 0 false 0 false.

Lemma lock_not_again_witness :
  (forall w', xtLockFile 700 XT_LOCK_READ [] written_world <> Ok tt w') /\ exists w', xtLockFile 701 XT_LOCK_WRITE [] written_world = Err XT_WOULD_BLOCK w'.
Proof.
  split.
  - exact (lock_not_again 710 written_world 700 XT_LOCK_READ (mkXTFile 300 500 0 1 710 0) (mkRW false (-1) NULL NULL) [] ltac:(discriminate)
      eq_refl eq_refl eq_refl eq_refl eq_refl (or_introl eq_refl) (list.Forall_nil_2 _)).
  - exact (lock_not_again 710 written_world 701 XT_LOCK_WRITE (mkXTFile 300 500 0 (Z.lor 1 XT_FILE_MODE_NONBLOCK) 710 0) (mkRW false (-1) NULL NULL) []
      ltac:(discriminate) eq_refl eq_refl eq_refl eq_refl eq_refl (or_intror eq_refl) (list.Forall_nil_2 _)).
Defined.
