(* ===== verification/VfsProof.v ===== *)
(** Finding path nodes in the virtual file system. *)
From Stdlib Require Import ZArith Lia.
From stdpp Require Import base tactics list gmap fin_maps numbers.
From S2P Require Import Prelude Allocator SharedPtr ListC CString Paths Io Threads Sync Vfs.

Open Scope Z_scope.

Section Find.
Context {H : Type} {A : Allocator H}.
Implicit Types w : World H.

(** * The specification: a tree of names *)

Variables (kids : Z -> list (Z * Z)) (names : Z -> list Z) (N : gset Z).

(** The nodes in [N] have the names [names] and the children [kids], each with the
    cell of the list that points to it. *)
Record tree_ok w : Prop := mkTree {
  tree_root : root w ∈ N;
  tree_node node : node ∈ N -> exists n, path_nodes w !! node = Some n /\ node_name n = names node /\
    lseg (lists (mem (kern w))) (node_nodes n) (kids node) NULL /\ NoDup (kids node).*1;
  tree_kids node a c : node ∈ N -> (a, c) ∈ kids node -> c ∈ N;
  tree_names node : node ∈ N -> Forall (fun b => b <> 0) (names node) /\ (length (names node) <= 255)%nat
}.

(** The first child with a name. *)
Fixpoint pick (l : list (Z * Z)) (name : list Z) : option Z :=
  match l with
  | [] => None
  | (_, c) :: l => if decide (names c = name) then Some c else pick l name
  end.

(** The deepest node on the way, and the names that are left. *)
Fixpoint descend (node : Z) (path : list (list Z)) : Z * list (list Z) :=
  match path with
  | [] => (node, [])
  | name :: path => match pick (kids node) name with Some c => descend c path | None => (node, name :: path) end
  end.

(** Names with slashes between them. *)
Definition join (path : list (list Z)) : list Z := match path with [] => [] | name :: path => name ++ concat (map (cons SLASH) path) end.

(** * Lemmas *)

Lemma zoom_read {S T X} (g : S -> T) p (m : M T X) s a : (p (g s) s = s) -> m (g s) = Ok a (g s) -> zoom g p m s = Ok a s.
Proof. intros Hp E. unfold zoom. by rewrite E, Hp. Qed.

Lemma kern_id w : mkWorld (kern w) (path_nodes w) (mounts w) (file_objs w) (fs_objs w) (dirs w) (opened w) (shared w) (dev_objs w) (root w)
    (filesystems w) (openedFiles w) (openedFilesLock w) (devices w) (devLock w) = w.
Proof. by destruct w. Qed.

Lemma on_nodes_read {X} (m : M (gmap Z XTPathNode) X) w a : m (path_nodes w) = Ok a (path_nodes w) -> on_nodes m w = Ok a w.
Proof. intros E. unfold on_nodes. apply zoom_read; [apply kern_id|done]. Qed.

Lemma on_lists_read {X} (m : M Lists X) w a : m (lists (mem (kern w))) = Ok a (lists (mem (kern w))) -> on_kern (on_list m) w = Ok a w.
Proof.
  intros E. unfold on_kern. apply zoom_read; [apply kern_id|]. unfold on_list, on_mem. apply zoom_read; [by destruct (kern w)|].
  unfold on_lists. apply zoom_read; [by destruct (mem (kern w))|done].
Qed.

Lemma list_data_ok w l n : l <> NULL -> lists (mem (kern w)) !! l = Some n -> list_data l w = Ok (data n) w.
Proof.
  intros Hl E. unfold list_data. apply out_or_Ok, on_lists_read. unfold xtGetListData. rewrite check_then by done.
  by rewrite (bind_Ok _ _ _ _ _ (load_Ok _ _ _ E)).
Qed.

Lemma list_next_ok w l n : l <> NULL -> lists (mem (kern w)) !! l = Some n -> list_next l w = Ok (next n) w.
Proof.
  intros Hl E. unfold list_next. apply out_or_Ok, on_lists_read. unfold xtGetNextList. rewrite check_then by done.
  by rewrite (bind_Ok _ _ _ _ _ (load_Ok _ _ _ E)).
Qed.

Lemma same_name_ok a b w : Forall (fun c => c <> 0) a -> Forall (fun c => c <> 0) b -> (length a <= 255)%nat -> (length b <= 255)%nat ->
  same_name a b 256 w = Ok (bool_decide (a = b)) w.
Proof.
  intros Ha Hb La Lb. unfold same_name, attempt, mbind, M_bind, xtStringCmp. change (256 =? 0) with false. cbn iota.
  rewrite (strcmp_loop_ok (@Datatypes.id Z)) by (done || (change (Z.to_nat 256) with 256%nat; lia)). rewrite !map_id.
  destruct (decide (a = b)); [by rewrite bool_decide_true|by rewrite bool_decide_false].
Qed.

Lemma load_fs_node w node n : path_nodes w !! node = Some n -> on_nodes (load node) w = Ok n w.
Proof. intros E. by apply on_nodes_read, load_Ok. Qed.

Lemma find_child_ok w name l : forall fuel p, tree_ok w -> Forall (fun c => c <> 0) name -> (length name <= 255)%nat ->
  lseg (lists (mem (kern w))) p l NULL -> (forall a c, (a, c) ∈ l -> c ∈ N) -> (length l <= fuel)%nat ->
  find_child fuel p name w = Ok (pick l name) w.
Proof.
  intros fuel p T Hn Ln. revert fuel p. induction l as [|[a c] l IH]; intros fuel p Hs HN Hf.
  - cbn in Hs. subst p. destruct fuel; done.
  - cbn [lseg chain] in Hs. destruct Hs as (-> & Ha & n & Hm & <- & Hs). cbn [length] in Hf.
    assert (data n ∈ N) as Hc by (eapply HN; by left). destruct (tree_node w T (data n) Hc) as (cn & Hcn & En & _).
    destruct (tree_names w T (data n) Hc) as [Hz Hlen]. cbn [pick].
    destruct fuel as [|fuel]; [lia|]. cbn [find_child]. rewrite (proj2 (Z.eqb_neq _ _) Ha).
    rewrite (bind_Ok _ _ _ _ _ (list_data_ok w a n Ha Hm)), (bind_Ok _ _ _ _ _ (load_fs_node w _ _ Hcn)), En.
    rewrite (bind_Ok _ _ _ _ _ (same_name_ok (names (data n)) name w Hz Hn Hlen Ln)).
    destruct (decide (names (data n) = name)) as [E|E]; [by rewrite bool_decide_true|rewrite bool_decide_false by done].
    rewrite (bind_Ok _ _ _ _ _ (list_next_ok w a n Ha Hm)). apply IH; [done| |lia]. intros b d Hin. eapply HN. by right.
Qed.

Lemma pick_in l name c : pick l name = Some c -> exists a, (a, c) ∈ l.
Proof.
  induction l as [|[a d] l IH]; [done|]. cbn [pick]. destruct (decide _); [intros [= <-]; exists a; by left|].
  intros (b & Hb)%IH. exists b. by right.
Qed.

(** A component before a separator or the end. *)
Lemma take_name_ok name w : forall count rest, Forall (fun c => c <> 0 /\ is_separator c = false) name -> (length name <= count)%nat ->
  (exists c q, rest = c :: q /\ (is_separator c || (c =? 0)) = true) -> take_name count (name ++ rest) w = Ok (name, rest) w.
Proof.
  induction name as [|c name IH]; intros count rest Hn Hl (x & q & -> & Hx).
  - cbn [app]. destruct count; cbn [take_name]; by rewrite Hx.
  - apply list.Forall_cons in Hn as [[Hc Hs] Hn]. cbn [length] in Hl. destruct count as [|count]; [lia|]. cbn [app take_name].
    rewrite Hs, (proj2 (Z.eqb_neq c 0) Hc). cbn [orb]. rewrite (bind_Ok _ _ _ _ _ (IH count (x :: q) Hn ltac:(lia) ltac:(eauto))). done.
Qed.

(** The walk over the components of a canonical path, from the slash before the
    first one on; [stop] is the terminator and what is behind it. *)
Definition rest_path (path : list (list Z)) (stop : list Z) : list Z := concat (map (cons SLASH) path) ++ stop.

Lemma find_loop_slash fuel q node left_ w : find_loop (S fuel) (SLASH :: q) node left_ w = find_loop fuel q node (Some q) w.
Proof. done. Qed.

Lemma find_loop_name fuel w node left_ name path stop : tree_ok w -> node ∈ N -> name_ok name ->
  find_loop (S fuel) (name ++ rest_path path (0 :: stop)) node left_ w =
    match pick (kids node) name with
    | Some c => find_loop fuel (tl (rest_path path (0 :: stop))) c (Some (rest_path path (0 :: stop))) w
    | None => Ok (node, Some (name ++ rest_path path (0 :: stop))) w
    end.
Proof.
  intros T HN (Hne & Hn & Hl). destruct (tree_node w T node HN) as (n & En & _ & Hs & Hnd).
  assert (exists c q, rest_path path (0 :: stop) = c :: q /\ (is_separator c || (c =? 0)) = true) as Hr.
  { unfold rest_path. destruct path as [|x path]; cbn [map concat app]; eauto. }
  assert (find_loop (S fuel) (name ++ rest_path path (0 :: stop)) node left_ w =
    ('(nm, rest) ← take_name 255 (name ++ rest_path path (0 :: stop));
     match nm with
     | [] => find_loop fuel (tl rest) node (Some (tl rest))
     | _ =>
       n ← on_nodes (load node);
       k ← walk_fuel;
       found ← find_child k (node_nodes n) nm;
       match found with
       | Some c => find_loop fuel (tl rest) c (Some rest)
       | None => mret (node, Some (name ++ rest_path path (0 :: stop)))
       end
     end) w) as ->.
  { destruct name as [|c name]; [done|]. apply list.Forall_cons in Hn as [[Hc _] _]. cbn [app find_loop]. by rewrite (proj2 (Z.eqb_neq c 0) Hc). }
  rewrite (bind_Ok _ _ _ _ _ (take_name_ok name w 255 _ Hn Hl Hr)). destruct name as [|c name]; [done|].
  rewrite (bind_Ok _ _ _ _ _ (load_fs_node w node n En)).
  assert (walk_fuel w = Ok (size (lists (mem (kern w)))) w) as Rw by done. rewrite (bind_Ok _ _ _ _ _ Rw).
  rewrite (bind_Ok _ _ _ _ _ (find_child_ok w (c :: name) (kids node) (size (lists (mem (kern w)))) (node_nodes n) T ltac:(eapply list.Forall_impl; [exact Hn|by intros ? [? _]]) Hl Hs
    ltac:(intros a d Hin; exact (tree_kids w T node a d HN Hin)) ltac:(eapply chain_length; [exact Hs|exact Hnd]))).
  by destruct (pick (kids node) (c :: name)).
Qed.

Lemma find_loop_names w stop : tree_ok w -> forall path fuel node left_ name, node ∈ N -> Forall name_ok (name :: path) -> (length path < fuel)%nat ->
  find_loop fuel (name ++ rest_path path (0 :: stop)) node left_ w =
    match descend node (name :: path) with
    | (nd, []) => find_loop (fuel - S (length path)) stop nd (Some (0 :: stop)) w
    | (nd, r) => Ok (nd, Some (join r ++ 0 :: stop)) w
    end.
Proof.
  intros T. induction path as [|name2 path IH]; intros fuel node left_ name HN Hok Hf; apply list.Forall_cons in Hok as [Hname Hok];
    (destruct fuel as [|fuel]; [cbn [length] in Hf; lia|]); rewrite (find_loop_name fuel w node left_ name _ stop T HN Hname); cbn [descend].
  - destruct (pick (kids node) name) as [c|] eqn:Ep.
    + unfold rest_path. cbn [map concat app tl length]. by replace (S fuel - 1)%nat with fuel by lia.
    + unfold rest_path, join. by rewrite <- app_assoc.
  - destruct (pick (kids node) name) as [c|] eqn:Ep.
    + destruct (pick_in _ _ _ Ep) as [a Ha]. pose proof (tree_kids w T node a c HN Ha) as Hc.
      unfold rest_path at 1. cbn [map concat app tl]. rewrite <- app_assoc. fold (rest_path path (0 :: stop)).
      rewrite (IH fuel c _ name2 Hc Hok) by (cbn [length] in Hf; lia). cbn [length]. by replace (S fuel - S (S (length path)))%nat with (fuel - S (length path))%nat by lia.
    + unfold rest_path, join. by rewrite <- app_assoc.
Qed.

Lemma descend_in w : tree_ok w -> forall path node, node ∈ N -> (descend node path).1 ∈ N.
Proof.
  intros T path. induction path as [|name path IH]; intros node HN; [done|]. cbn [descend]. destruct (pick (kids node) name) as [c|] eqn:E; [|done].
  destruct (pick_in _ _ _ E) as [a Ha]. apply IH. by apply (tree_kids w T node a).
Qed.

Lemma find_path_ok w path stop : tree_ok w -> Forall name_ok path -> path <> [] ->
  xtFindPathNode (SLASH :: join path ++ 0 :: stop) w =
    match descend (root w) path with
    | (nd, []) => find_loop (length (join path ++ 0 :: stop) - length path) stop nd (Some (0 :: stop)) w
    | (nd, r) => Ok (nd, Some (join r ++ 0 :: stop)) w
    end.
Proof.
  intros T Hok Hne. unfold xtFindPathNode. assert (gets root w = Ok (root w) w) as R by done. rewrite (bind_Ok _ _ _ _ _ R). cbn [length].
  rewrite find_loop_slash. destruct path as [|name path]; [done|]. cbn [join]. rewrite <- app_assoc. fold (rest_path path (0 :: stop)).
  assert (forall l, Forall name_ok l -> (length l <= length (concat (map (cons SLASH) l)))%nat) as Hlen.
  { induction 1 as [|x l _ _ IH]; [done|]. cbn [map concat length app]. rewrite length_app. lia. }
  pose proof (Forall_inv_tail Hok) as Hok2. rewrite (find_loop_names w stop T path _ (root w) _ name (tree_root w T) Hok).
  2:{ unfold rest_path. rewrite !length_app. cbn [length]. specialize (Hlen path Hok2). lia. }
  cbn [length]. done.
Qed.

Lemma string_end (l junk : list Z) : Forall (fun b => b <> 0) l -> to_string (l ++ 0 :: junk) = l.
Proof. induction 1 as [|b l Hb _ IH]; [done|]. cbn [app to_string]. by rewrite (proj2 (Z.eqb_neq b 0)), IH. Qed.

Lemma join_nonzero path : Forall name_ok path -> Forall (fun b => b <> 0) (join path).
Proof.
  intros Hp0. destruct Hp0 as [|name path (_ & Hn & _) Hp]; [constructor|]. cbn [join]. apply list.Forall_app. split.
  - eapply list.Forall_impl; [exact Hn|]. by intros ? [? _].
  - induction Hp as [|x path (_ & Hx & _) _ IH]; [constructor|]. cbn [map concat]. apply list.Forall_app. split; [|done]. constructor; [done|].
    eapply list.Forall_impl; [exact Hx|]. by intros ? [? _].
Qed.

Lemma descend_rest path : forall node, Forall name_ok path -> Forall name_ok (descend node path).2.
Proof.
  induction path as [|name path IH]; intros node Hok; [done|]. cbn [descend]. destruct (pick (kids node) name); [|done]. apply IH. by apply list.Forall_cons in Hok as [_ Hok].
Qed.

Lemma find_path_deepest w path junk : tree_ok w -> Forall name_ok path ->
  exists l, xtFindPathNode (SLASH :: join path ++ 0 :: 0 :: junk) w = Ok ((descend (root w) path).1, Some l) w /\
    to_string l = join (descend (root w) path).2.
Proof.
  intros T Hok. destruct path as [|name path].
  { exists (0 :: 0 :: junk). split; [|done]. reflexivity. }
  rewrite (find_path_ok w (name :: path) (0 :: junk) T Hok ltac:(done)). pose proof (descend_rest (name :: path) (root w) Hok) as Hr.
  destruct (descend (root w) (name :: path)) as [nd r]. cbn [fst snd] in *. destruct r as [|x r].
  - exists (0 :: 0 :: junk). split; [|done]. by destruct (_ - _)%nat.
  - eexists. split; [done|]. apply string_end. by apply join_nonzero.
Qed.

(** * Opening *)

Lemma render_join st : render st = SLASH :: join (rev st).
Proof.
  destruct st as [|x st]; [done|]. unfold render. destruct (rev (x :: st)) as [|y l] eqn:E; [cbn [rev] in E; by destruct (rev st)|]. done.
Qed.

(** The state after a search of the opened files that found none. *)
Definition searched w : World H := set_openedFilesLock false
  (mkWorld (set_interrupts true (kern w)) (path_nodes w) (mounts w) (file_objs w) (fs_objs w) (dirs w) (opened w) (shared w) (dev_objs w) (root w)
    (filesystems w) (openedFiles w) (openedFilesLock w) (devices w) (devLock w)).

Lemma find_file_end fuel path w : find_file_loop fuel NULL path w = (unlock_static set_openedFilesLock ;;; throw XT_NOT_FOUND) w.
Proof. by destruct fuel. Qed.

Lemma find_file_none w path : openedFiles w = NULL -> openedFilesLock w = false -> xtFindFile path w = Err XT_NOT_FOUND (searched w).
Proof.
  intros E1 E2. unfold xtFindFile, walk_fuel, gets. destruct w as [k a b c d e f g h i j l m o p]. cbn in E1, E2. subst l m. destruct k.
  erewrite bind_Ok by reflexivity. cbv [mbind M_bind]. cbn [openedFiles]. rewrite find_file_end. reflexivity.
Qed.

Lemma searched_tree w : tree_ok w -> tree_ok (searched w).
Proof. intros T. destruct T as [T1 T2 T3 T4]. by split. Qed.

(** The mount point of a node, with its table. *)
Record mounted (fs_io : Z -> option (XTFileSystemIO H)) w (node mp : Z) (io : XTFileSystemIO H) : Prop := mkMounted {
  mounted_node : exists n, path_nodes w !! node = Some n /\ node_mp n = mp;
  mounted_mp : mp <> NULL /\ exists m fs, mounts w !! mp = Some m /\ mp_fs m <> NULL /\ fs_objs w !! mp_fs m = Some fs /\ fs_io (fs_IO fs) = Some io
}.

Lemma mount_io_ok fs_io w node mp io : mounted fs_io w node mp io -> mount_io fs_io node w = Ok (mp, io) w.
Proof.
  intros [(n & En & <-) (Hmp & m & fs & Em & Hfs & Ef & Eio)]. unfold mount_io. rewrite (bind_Ok _ _ _ _ _ (load_fs_node w node n En)).
  rewrite (proj2 (Z.eqb_neq _ _) Hmp). assert (on_mounts (load (node_mp n)) w = Ok m w) as R.
  { unfold on_mounts. apply zoom_read; [apply kern_id|]. by apply load_Ok. }
  rewrite (bind_Ok _ _ _ _ _ R). rewrite (proj2 (Z.eqb_neq _ _) Hfs).
  erewrite bind_Ok by (by apply deref_Some). by rewrite Eio.
Qed.

Lemma open_dispatch_ok fs_io w buff path flags c q node mp io open r : tree_ok w -> openedFiles w = NULL -> openedFilesLock w = false ->
  path = c :: q -> is_separator c = true -> Forall (fun b => b <> 0) path -> 4096 <= Z.of_nat (length buff) ->
  Forall (fits 4096) (stacks [] (components (length path) path)) ->
  descend (root w) (rev (final (components (length path) path))) = (node, r) -> r <> [] -> node <> NULL ->
  mounted fs_io w node mp io -> OpenFile io = Some open ->
  xtOpenFile fs_io buff path flags w =
    ((if Z.land flags XT_FILE_MODE_CREATE =? 0 then mret tt
      else create ← entry_of (CreateFile io); out_or tt (create mp (Some (join r)) (open_flags flags))) ;;;
     file ← open mp (Some (join r)) (open_flags flags); prepare_file file flags) (searched w).
Proof.
  intros T E1 E2 Ep Hc Hp Hb Hfit Hd Hr Hnn Hm Ho. unfold xtOpenFile.
  pose proof (normalize_ok path buff 4096 c q w Ep Hc Hp ltac:(lia)) as K. cbn zeta in K. rewrite decide_True in K by done.
  destruct K as (rest & R & Hnames). rewrite (bind_Ok _ _ _ _ _ R).
  set (st := final (components (length path) path)) in *. set (bytes := render st ++ 0 :: rest).
  assert (attempt (xtFindFile (to_string bytes)) w = Ok (inr XT_NOT_FOUND) (searched w)) as Rf by (unfold attempt; by rewrite find_file_none).
  rewrite (bind_Ok _ _ _ _ _ Rf). unfold bytes. rewrite render_join. cbn [app].
  assert (Forall name_ok (rev st)) as Hok by (apply Forall_rev; eapply list.Forall_impl; [exact Hnames|]; by intros ? [? _]).
  assert (rev st <> []) as Hne by (intros E; rewrite E in Hd; cbn in Hd; by injection Hd as _ <-).
  rewrite (bind_Ok _ _ (searched w) (node, Some (join r ++ 0 :: rest)) (searched w)).
  2:{ rewrite (find_path_ok (searched w) (rev st) rest (searched_tree w T) Hok Hne). change (root (searched w)) with (root w). rewrite Hd. by destruct r. }
  rewrite (proj2 (Z.eqb_neq node NULL) Hnn).
  assert (mounted fs_io (searched w) node mp io) as Hm' by (destruct Hm as [M1 M2]; by split).
  rewrite (bind_Ok _ _ _ _ _ (mount_io_ok fs_io (searched w) node mp io Hm')). rewrite Ho. cbn [entry_of]. rewrite bind_ret.
  cbn [fmap option_fmap option_map]. rewrite string_end; [done|]. pose proof (descend_rest (rev st) (root w) Hok) as Hj. rewrite Hd in Hj. by apply join_nonzero.
Qed.

Lemma open_flags_ldiff flags : 0 <= flags < 2 ^ 64 -> open_flags flags = Z.ldiff flags XT_FILE_MODE_CREATE.
Proof.
  intros Hf. unfold open_flags. apply Z.bits_inj'. intros i Hi. rewrite Z.land_spec, Z.ldiff_spec.
  destruct (decide (i < 64)) as [Hlt|Hge].
  - f_equal. assert (2 ^ 64 - 1 - XT_FILE_MODE_CREATE = Z.ldiff (Z.ones 64) XT_FILE_MODE_CREATE) as -> by reflexivity.
    by rewrite Z.ldiff_spec, Z.ones_spec_low by lia.
  - rewrite (Z.bits_above_log2 flags i); [done|lia|]. destruct (decide (flags = 0)) as [->|]; [cbn; lia|].
    assert (Z.log2 flags < 64); [apply Z.log2_lt_pow2; lia|lia].
Qed.

Lemma create_bit flags : (Z.land flags XT_FILE_MODE_CREATE =? 0) = negb (Z.testbit flags 2).
Proof.
  assert (Z.land flags XT_FILE_MODE_CREATE = if Z.testbit flags 2 then XT_FILE_MODE_CREATE else 0) as ->.
  { apply Z.bits_inj'. intros i Hi. rewrite Z.land_spec. assert (forall j, Z.testbit XT_FILE_MODE_CREATE j = (j =? 2)) as Hb.
    { intros j. change XT_FILE_MODE_CREATE with (2 ^ 2). by rewrite Z.pow2_bits_eqb, Z.eqb_sym by lia. }
    rewrite Hb. destruct (Z.eqb_spec i 2) as [->|Hne]; destruct (Z.testbit flags 2) eqn:Eb; rewrite ?andb_false_r, ?Hb, ?Z.bits_0, ?Eb; try done.
    by rewrite (proj2 (Z.eqb_neq _ _) Hne). }
  by destruct (Z.testbit flags 2).
Qed.

(** What a file that was opened gets: the flags, a free lock that nobody waits for, and an event that is not signalled, if there is memory for one. *)
Record prepared w (file : Z) (f : XTFile) (fl : Z) w' : Prop := mkPrepared {
  prepared_file : exists f', file_objs w' !! file = Some f' /\ file_flags f' = fl /\ mountPoint f' = mountPoint f /\ file_IO f' = file_IO f /\
    file_data f' = file_data f /\ file_lock f' = file_lock f /\
    match xtHeapAlloc 16 (ListC.heap (mem (kern w))) with
    | Ok e _ => file_event f' = e /\ events (objs (kern w')) !! e = Some (mkEvent NULL false false)
    | _ => file_event f' = file_event f
    end;
  prepared_lock : rwlocks (objs (kern w')) !! file_lock f = Some (mkRW false 0 NULL NULL);
  prepared_others : forall g, g <> file -> file_objs w' !! g = file_objs w !! g
}.

Lemma init_rwlock_ok (k : Kernel H) l x : rwlocks (objs k) !! l = Some x ->
  xtInitRWLock l k = Ok tt (set_objs (mkObjects (mutexes (objs k)) (<[l := mkRW false 0 NULL NULL]> (rwlocks (objs k))) (events (objs k))) k).
Proof.
  intros Hx. destruct k as [me th ths lt nx cu ct it [mu rw ev]]. cbn in Hx. unfold xtInitRWLock.
  erewrite bind_Ok by (unfold xtInitSpinlock, rw_lock, on_rwlocks, zoom, assign; cbn; by rewrite Hx).
  unfold on_rwlocks, zoom, assign. cbn. rewrite lookup_insert_eq. cbn. by rewrite insert_insert_eq.
Qed.

Lemma prepare_file_ok w file f x flags : file_objs w !! file = Some f -> rwlocks (objs (kern w)) !! file_lock f = Some x ->
  match xtHeapAlloc 16 (ListC.heap (mem (kern w))) with Ok _ _ | Err _ _ => True | _ => False end ->
  exists w', prepare_file file flags w = Ok file w' /\ prepared w file f (open_flags flags) w'.
Proof.
  intros Hf Hx Hr. destruct w as [k pn mo fo fso dr opd sh dv rt fsy ofs ol dvs dl]. cbn in Hf, Hx, Hr. unfold prepare_file.
  erewrite bind_Ok by (unfold on_file_objs, zoom, load, deref; cbn; by rewrite Hf).
  erewrite bind_Ok by (unfold on_kern, zoom; cbn [kern]; by rewrite (init_rwlock_ok _ _ _ Hx)).
  erewrite bind_Ok by (unfold on_file_objs, zoom, assign; cbn; by rewrite Hf).
  unfold attempt, on_kern, zoom, xtCreateEvent, on_mem, on_heap, zoom. cbn. unfold mbind, M_bind. cbn.
  destruct k as [[hp nd] th ths lt nx cu ct it [mu rw ev]]. cbn in *. destruct (xtHeapAlloc 16 hp) as [e h'|c h'| |] eqn:E; [| |done..]; cbn.
  - unfold on_file_objs, zoom, assign. cbn. rewrite lookup_insert_eq. cbn. eexists. split; [done|]. split; cbn.
    + eexists. split; [by rewrite lookup_insert_eq|]. do 5 (split; [done|]). rewrite E. split; [done|]. by rewrite lookup_insert_eq.
    + by rewrite lookup_insert_eq.
    + intros g Hg. by rewrite !lookup_insert_ne.
  - eexists. split; [done|]. split; cbn.
    + eexists. split; [by rewrite lookup_insert_eq|]. do 5 (split; [done|]). by rewrite E.
    + by rewrite lookup_insert_eq.
    + intros g Hg. by rewrite !lookup_insert_ne.
Qed.

End Find.

Section Theorems.
Context {H : Type} {A : Allocator H}.

(** C27: [xtFindPathNode] of a canonical path gives the deepest node of the tree whose path is a prefix of it, and the names that are left, provided another 0 byte follows the terminator in memory. The state is not changed. *)
Theorem find_path_node_deepest (kids : Z -> list (Z * Z)) (names : Z -> list Z) (N : gset Z) (w : World H) (path : list (list Z)) (junk : list Z) :
  tree_ok kids names N w -> Forall name_ok path ->
  exists l, xtFindPathNode (SLASH :: join path ++ 0 :: 0 :: junk) w = Ok ((descend kids names (root w) path).1, Some l) w /\
    to_string l = join (descend kids names (root w) path).2.
Proof. apply find_path_deepest. Qed.

(** When every name of the path is a node, [xtFindPathNode] steps over the terminator and takes what lies behind it for more path: an old name there is what it reports as left. *)
Theorem find_path_node_overruns (kids : Z -> list (Z * Z)) (names : Z -> list Z) (N : gset Z) (w : World H) (path : list (list Z)) (node : Z) (old junk : list Z) :
  tree_ok kids names N w -> Forall name_ok path -> path <> [] -> descend kids names (root w) path = (node, []) -> name_ok old -> pick names (kids node) old = None ->
  exists l, xtFindPathNode (SLASH :: join path ++ 0 :: (old ++ 0 :: junk)) w = Ok (node, Some l) w /\ to_string l = old.
Proof.
  intros T Hok Hne Hd Hold Hp. rewrite (find_path_ok kids names N w path (old ++ 0 :: junk) T Hok Hne), Hd.
  assert (node ∈ N) as HN by (pose proof (descend_in kids names N w T path (root w) (tree_root _ _ _ _ T)) as K; by rewrite Hd in K).
  assert (length path <= length (join path))%nat as Hl.
  { destruct Hok as [|name path (Hn & _) Hok]; [done|]. cbn [join length]. rewrite length_app. destruct name; [done|]. cbn [length].
    assert (length path <= length (concat (map (cons SLASH) path)))%nat; [|lia]. clear. induction path as [|x path IH]; [done|]. cbn [map concat length app]. rewrite length_app. lia. }
  match goal with |- context [find_loop ?f] => destruct f as [|fuel] eqn:Ef end; [rewrite length_app in Ef; cbn [length] in Ef; lia|].
  change (old ++ 0 :: junk) with (old ++ rest_path [] (0 :: junk)).
  rewrite (find_loop_name kids names N fuel w node _ old [] junk T HN Hold), Hp. eexists. split; [done|].
  apply string_end. destruct Hold as (_ & Ho & _). eapply list.Forall_impl; [exact Ho|]. by intros ? [? _].
Qed.

(** The directory entry is made first when the flags ask for it; its error is dropped. *)
Definition created_first (io : XTFileSystemIO H) (mp : Z) (left_ : list Z) (flags : Z) (w w' : World H) : Prop :=
  if Z.testbit flags 2 then exists create, CreateFile io = Some create /\
      (create mp (Some left_) (Z.ldiff flags XT_FILE_MODE_CREATE) w = Ok tt w' \/ exists e, create mp (Some left_) (Z.ldiff flags XT_FILE_MODE_CREATE) w = Err e w')
  else w' = w.

(** C26: Opening a file that is not open, by any absolute path below a mount point: the path is normalised, the deepest mounted node is found, and the file system mounted there gets what is left of the path and the flags less [XT_FILE_MODE_CREATE]: if that bit is set it is asked to make the file first (a file system that cannot is an error, its own error is dropped), and then it is asked to open it. An error of the opening is the result; a file that is opened keeps its mount point, operations and data, and gets those flags, a lock that is free and that nobody waits for, and a new event that is not signalled; no other file changes. *)
Theorem open_file_dispatch (fs_io : Z -> option (XTFileSystemIO H)) (kids : Z -> list (Z * Z)) (names : Z -> list Z) (N : gset Z) (w : World H)
    (buff path : list Z) (flags c : Z) (q : list Z) (node mp : Z) (io : XTFileSystemIO H) (open : Z -> option (list Z) -> Z -> M (World H) Z) (r : list (list Z)) :
  tree_ok kids names N w -> openedFiles w = NULL -> openedFilesLock w = false ->
  path = c :: q -> is_separator c = true -> Forall (fun b => b <> 0) path -> 4096 <= Z.of_nat (length buff) ->
  Forall (fits 4096) (stacks [] (components (length path) path)) ->
  descend kids names (root w) (rev (final (components (length path) path))) = (node, r) -> r <> [] -> node <> NULL ->
  mounted fs_io w node mp io -> OpenFile io = Some open -> 0 <= flags < 2 ^ 64 ->
  (Z.testbit flags 2 = true -> CreateFile io = None -> xtOpenFile fs_io buff path flags w = Err XT_NOT_IMPLEMENTED (searched w)) /\
  forall w1, created_first io mp (join r) flags (searched w) w1 ->
    match open mp (Some (join r)) (Z.ldiff flags XT_FILE_MODE_CREATE) w1 with
    | Ok file w2 => forall f x, file_objs w2 !! file = Some f -> rwlocks (objs (kern w2)) !! file_lock f = Some x ->
        match xtHeapAlloc 16 (ListC.heap (mem (kern w2))) with Ok _ _ | Err _ _ => True | _ => False end ->
        exists w3, xtOpenFile fs_io buff path flags w = Ok file w3 /\ prepared w2 file f (Z.ldiff flags XT_FILE_MODE_CREATE) w3
    | r => xtOpenFile fs_io buff path flags w = r
    end.
Proof.
  intros T E1 E2 Ep Hc Hp Hb Hfit Hd Hr Hnn Hm Ho Hfl.
  rewrite (open_dispatch_ok kids names N fs_io w buff path flags c q node mp io open r) by done.
  assert ((Z.land flags XT_FILE_MODE_CREATE =? 0) = negb (Z.testbit flags 2)) as -> by apply create_bit.
  rewrite open_flags_ldiff by done. unfold created_first.
  split.
  - intros -> ->. done.
  - intros w1 Hw. set (m := if negb _ then _ else _). assert (m (searched w) = Ok tt w1) as Rm.
    { unfold m. destruct (Z.testbit flags 2); cbn [negb]; [|by rewrite Hw]. destruct Hw as (create & -> & Hw). cbn [entry_of]. rewrite bind_ret. unfold out_or.
      destruct Hw as [->|(e & ->)]; done. }
    rewrite (bind_Ok _ _ _ _ _ Rm). destruct (open _ _ _ w1) as [file w2|e w2| |] eqn:Eo.
    + intros f x Hf Hx Ha. rewrite (bind_Ok _ _ _ _ _ Eo), <- open_flags_ldiff by done. by apply prepare_file_ok with x.
    + unfold mbind, M_bind. by rewrite Eo.
    + unfold mbind, M_bind. by rewrite Eo.
    + unfold mbind, M_bind. by rewrite Eo.
Qed.

End Theorems.

(** * A tree with one mounted node *)

Definition demo_kernel : Kernel Bump := mkKernel (mkListHeap bump_empty {[200 := mkList 101 NULL]}) ∅ 0 0 0 0 0 true (mkObjects ∅ ∅ ∅).

Definition demo_world : World Bump :=
  mkWorld demo_kernel {[100 := mkPathNode 0 [] 200; 101 := mkPathNode 300 [100; 101; 118] NULL]} {[300 := mkMount 400 0 0]} ∅
    {[400 := mkFileSystem [102] 500]} ∅ ∅ ∅ ∅ 100 0 0 false 0 false.

Definition demo_kids (node : Z) : list (Z * Z) := if node =? 100 then [(200, 101)] else [].

Definition demo_names (node : Z) : list Z := if node =? 101 then [100; 101; 118] else [].

Definition demo_nodes : gset Z := {[100; 101]}.

Lemma demo_tree : tree_ok demo_kids demo_names demo_nodes demo_world.
Proof.
  split.
  - by apply elem_of_union_l, elem_of_singleton.
  - intros node [->%elem_of_singleton| ->%elem_of_singleton]%elem_of_union; eexists; (split; [reflexivity|]); split; try done.
    + split; [|apply NoDup_singleton]. split; [done|]. split; [done|]. by eexists.
    + split; [done|constructor].
  - intros node a c [->%elem_of_singleton| ->%elem_of_singleton]%elem_of_union Hin; cbn in Hin.
    + apply list_elem_of_singleton in Hin as [= -> ->]. by apply elem_of_union_r, elem_of_singleton.
    + by apply not_elem_of_nil in Hin.
  - intros node [->%elem_of_singleton| ->%elem_of_singleton]%elem_of_union; cbn; (split; [repeat constructor; lia|lia]).
Qed.

(** A file system with one name; making the file leaves its lock and event as the memory was. *)
Definition demo_create (mp : Z) (left_ : option (list Z)) (fl : Z) : M (World Bump) unit :=
  on_file_objs (create 700 (mkXTFile mp 500 0 0 710 0)) ;;; on_kern (on_rwlocks (create 710 (mkRW true 5 9 9))).

Definition demo_open (mp : Z) (left_ : option (list Z)) (fl : Z) : M (World Bump) Z :=
  files ← gets file_objs; if decide (is_Some (files !! 700) /\ left_ = Some [120]) then mret 700 else throw XT_NOT_FOUND.

Definition demo_io : XTFileSystemIO Bump := mkFSIO _ None None (Some demo_open) (Some demo_create) None None None None.

Definition demo_fs_io (p : Z) : option (XTFileSystemIO Bump) := if p =? 500 then Some demo_io else None.

(** "/dev/x" and "/dev". *)
Lemma find_path_node_deepest_witness :
  exists l, xtFindPathNode (SLASH :: join [[100; 101; 118]; [120]] ++ 0 :: 0 :: [7]) demo_world = Ok (101, Some l) demo_world /\ to_string l = [120].
Proof.
  apply (find_path_node_deepest demo_kids demo_names demo_nodes demo_world [[100; 101; 118]; [120]] [7] demo_tree).
  repeat constructor; (done || cbn; lia).
Defined.

Lemma find_path_node_overruns_witness :
  exists l, xtFindPathNode (SLASH :: join [[100; 101; 118]] ++ 0 :: ([120] ++ 0 :: [7])) demo_world = Ok (101, Some l) demo_world /\ to_string l = [120].
Proof.
  apply (find_path_node_overruns demo_kids demo_names demo_nodes demo_world [[100; 101; 118]] 101 [120] [7] demo_tree); try done;
    repeat constructor; (done || cbn; lia).
Defined.

Lemma open_file_dispatch_witness :
  let path := [47; 100; 101; 118; 47; 120] in let buff := replicate (Z.to_nat 4096) 9 in
  (exists w', xtOpenFile demo_fs_io buff path 5 demo_world = Ok 700 w' /\
    rwlocks (objs (kern w')) !! 710 = Some (mkRW false 0 NULL NULL) /\ exists f, file_objs w' !! 700 = Some f /\ file_flags f = 1) /\
  xtOpenFile demo_fs_io buff path 1 demo_world = Err XT_NOT_FOUND (searched demo_world).
Proof.
  assert (forall flags, 0 <= flags < 2 ^ 64 -> forall w1, created_first demo_io 300 [120] flags (searched demo_world) w1 ->
    match demo_open 300 (Some [120]) (Z.ldiff flags XT_FILE_MODE_CREATE) w1 with
    | Ok file w2 => forall f x, file_objs w2 !! file = Some f -> rwlocks (objs (kern w2)) !! file_lock f = Some x ->
        match xtHeapAlloc 16 (ListC.heap (mem (kern w2))) with Ok _ _ | Err _ _ => True | _ => False end ->
        exists w3, xtOpenFile demo_fs_io (replicate (Z.to_nat 4096) 9) [47; 100; 101; 118; 47; 120] flags demo_world = Ok file w3 /\
          prepared w2 file f (Z.ldiff flags XT_FILE_MODE_CREATE) w3
    | r => xtOpenFile demo_fs_io (replicate (Z.to_nat 4096) 9) [47; 100; 101; 118; 47; 120] flags demo_world = r
    end) as K.
  { intros flags Hf.
    refine (proj2 (open_file_dispatch demo_fs_io demo_kids demo_names demo_nodes demo_world (replicate (Z.to_nat 4096) 9) [47; 100; 101; 118; 47; 120] flags 47
      [100; 101; 118; 47; 120] 101 300 demo_io demo_open [[120]] demo_tree _ _ _ _ _ _ _ _ _ _ _ _ Hf)); try done.
    - repeat constructor; lia.
    - repeat constructor; by vm_compute.
    - split; [by eexists|]. split; [done|]. by eexists _, _. }
  cbv zeta. split.
  - destruct (demo_create 300 (Some [120]) 1 (searched demo_world)) as [[] w1|? ?| |] eqn:E1; [|vm_compute in E1; discriminate..].
    assert (exists f x, demo_open 300 (Some [120]) 1 w1 = Ok 700 w1 /\ file_objs w1 !! 700 = Some f /\ file_lock f = 710 /\
      rwlocks (objs (kern w1)) !! 710 = Some x) as (f & x & E2 & Hf & Hl & Hx) by (vm_compute in E1; injection E1 as <-; by repeat eexists).
    pose proof (K 5 ltac:(lia) w1) as G. change (Z.ldiff 5 XT_FILE_MODE_CREATE) with 1 in G. rewrite E2 in G.
    destruct (G (ex_intro _ demo_create (conj eq_refl (or_introl E1))) f x Hf) as (w3 & R & [P1 P2 _]); [by rewrite Hl|done|].
    exists w3. split; [exact R|]. split; [by rewrite Hl in P2|]. destruct P1 as (f' & H1 & H2 & _). by exists f'.
  - pose proof (K 1 ltac:(lia) (searched demo_world) eq_refl) as G. exact G.
Defined.
