(* ===== verification/Host.v ===== *)
(** The host's side of the tools: tools/win32.c, the host's files as a file
    system of Vfs.v, and xtRecursiveCopy of tools/mkimage.c. What Windows and
    the C library do is a parameter ([HostApi]). *)
From Stdlib Require Import ZArith Lia.
From stdpp Require Import base tactics list gmap fin_maps numbers.
From S2P Require Import Prelude Bytes Allocator Encodings CString Paths Io Threads Vfs Vsnprintf.

Open Scope Z_scope.

(** * The interface of the host *)

(** [BY_HANDLE_FILE_INFORMATION]: three times in units of 100 ns since 1601 and
    the attributes. *)
Record HostInfo := mkHostInfo { ftCreationTime : Z; ftLastAccessTime : Z; ftLastWriteTime : Z; dwFileAttributes : Z }.

(** [WIN32_FIND_DATAW] *)
Record FindData := mkFindData { find_info : HostInfo; nFileSize : Z; cFileName : list Z }.

Definition INVALID_HANDLE_VALUE : Z := 2 ^ 64 - 1.

(** A call that fails gives INVALID_HANDLE_VALUE, [None], or changes nothing. A
    file has contents and a pointer; SetFilePointer without a high part moves
    it to a signed 32-bit offset, and fails for a negative one. *)
Class HostApi (W : Type) := {
  CreateFileW : list Z -> Z -> Z -> Z -> W -> Z * W;
  CloseHandle : Z -> W -> W;
  SetFilePointer : Z -> Z -> W -> W;
  HostReadFile : Z -> Z -> W -> option (list Z) * W;
  HostWriteFile : Z -> list Z -> W -> option Z * W;
  GetFileSizeEx : Z -> W -> option Z;
  GetFileInformationByHandle : Z -> W -> option HostInfo;
  GetFinalPathNameByHandleW : Z -> W -> list Z;
  FindFirstFileW : list Z -> W -> Z * FindData * W;
  FindNextFileW : Z -> W -> option FindData * W;
  host_file : W -> Z -> option (list Z * Z);
  set_pointer_law h p w l q : host_file w h = Some (l, q) ->
    host_file (SetFilePointer h p w) h = Some (l, if p <? 0 then q else p);
  read_law h n w l p : host_file w h = Some (l, p) -> 0 <= n -> 0 <= p ->
    let bs := take (Z.to_nat n) (drop (Z.to_nat p) l) in
    (HostReadFile h n w).1 = Some bs /\ host_file (HostReadFile h n w).2 h = Some (l, p + len bs);
  write_law h bs w l p : host_file w h = Some (l, p) -> 0 <= p <= len l ->
    (HostWriteFile h bs w).1 = Some (len bs) /\
    host_file (HostWriteFile h bs w).2 h = Some (take (Z.to_nat p) l ++ bs ++ drop (Z.to_nat (p + len bs)) l, p + len bs)
}.

(** An entry of a directory that is read, and the host with the entries the
    tool keeps in its heap. *)
Record win32DirEntry := mkDirEntry { hFile : Z; findData : FindData; firstCall : bool }.

Record HostHeap (W : Type) := mkHostHeap { host : W; entries : gmap Z win32DirEntry }.

Arguments mkHostHeap {W} _ _.
Arguments host {W} _.
Arguments entries {W} _.

(** * Constants *)

Definition TICKS_PER_SECOND : Z := 10000000.

Definition EPOCH_DIFFERENCE : Z := 11644473600.

(** [ntTime] is the two halves of a FILETIME together. *)
Definition nt2unixTime (ntTime : Z) : Z := u64 (u64 ntTime / TICKS_PER_SECOND - EPOCH_DIFFERENCE).

(** Values of the headers of Windows and of io.h. *)
Definition GENERIC_READ : Z := 0x80000000.

Definition GENERIC_WRITE : Z := 0x40000000.

Definition GENERIC_ALL : Z := 0x10000000.

Definition CREATE_NEW : Z := 1.

Definition OPEN_ALWAYS : Z := 4.

Definition FILE_ATTRIBUTE_DIRECTORY : Z := 16.

Definition XT_FILE_SHARE_DELETE : Z := 0x10.

Definition XT_FILE_SHARE_READ : Z := 0x20.

Definition XT_FILE_SHARE_WRITE : Z := 0x40.

Definition FILE_SHARE_READ : Z := 1.

Definition FILE_SHARE_WRITE : Z := 2.

Definition FILE_SHARE_DELETE : Z := 4.

Section Host.
Context {W : Type} {A : Allocator (HostHeap W)} {Api : HostApi W}.

Notation H := (HostHeap W).
Notation HM := (M (World H)).

Definition on_host {X} (f : W -> X * W) : HM X :=
  on_kern (on_mem (ListC.on_heap (zoom host (fun w h => mkHostHeap w (entries h)) (fun w => Ok (f w).1 (f w).2)))).

Definition on_entries {X} (m : M (gmap Z win32DirEntry) X) : HM X :=
  on_kern (on_mem (ListC.on_heap (zoom entries (fun e h => mkHostHeap (host h) e) m))).

(** * The kernel's services on the host *)

(** The tool has one thread: locks and events do nothing. *)
Definition host_lock : HM unit := mret tt.

Definition xtSetTime : HM unit := throw XT_NOT_IMPLEMENTED.

(** Two calls of [rand]. *)
Definition host_random (randomLow randomHigh : Z) : Z := Z.lor (u32 randomLow) (Z.shiftl (u32 randomHigh) 32).

(** * Files *)

Definition file_handle (file : Z) : HM Z := f ← on_file_objs (load file); mret (file_data f).

(** [(FileSize >> 12) + 1) << 12] *)
Definition physical_size (size : Z) : Z := u64 (Z.shiftl (Z.shiftr size 12 + 1) 12).

Definition directory_flag (attributes : Z) : Z :=
  if negb (Z.land attributes FILE_ATTRIBUTE_DIRECTORY =? 0) then XT_FILE_ATTRIBUTE_DIRECTORY else 0.

(** Information that cannot be had is that of the zeroed structure. *)
Definition win32GetFileInfo (file : Z) (info : XTFileInfo) : HM XTFileInfo :=
  h ← file_handle file;
  size ← on_host (fun w => (GetFileSizeEx h w, w));
  let size := default (FileSize info) size in
  by_ ← on_host (fun w => (GetFileInformationByHandle h w, w));
  let by_ := default (mkHostInfo 0 0 0 0) by_ in
  wname ← on_host (fun w => (GetFinalPathNameByHandleW h w, w));
  name ← xtUTF16toUTF8 wname;
  mret (mkInfo (to_string name) size (physical_size size) (nt2unixTime (ftCreationTime by_)) (nt2unixTime (ftLastAccessTime by_))
    (nt2unixTime (ftLastWriteTime by_)) (Z.lor (directory_flag (dwFileAttributes by_)) (Z.lor XT_FILE_MODE_READ XT_FILE_MODE_WRITE)) (userOwnerId info)).

(** [SetFilePointer(hFile, offset & 0xffffffff, offset >> 32, FILE_BEGIN)]: the
    third argument is a pointer to the high part, so only NULL can be used. *)
Definition seek (h offset : Z) : HM unit :=
  if Z.shiftr offset 32 =? 0 then on_host (fun w => (tt, SetFilePointer h (signed 32 (Z.land offset 0xffffffff)) w)) else fault.

Definition win32Read (file offset count : Z) : HM (Z * list Z) :=
  h ← file_handle file;
  seek h offset ;;;
  r ← on_host (HostReadFile h (u32 count));
  match r with
  | None => throw XT_UNKNOWN_ERROR
  | Some bs => if len bs =? 0 then throw XT_END_OF_FILE else mret (XT_SUCCESS, bs)
  end.

(** The count of the call is cut to 32 bits. *)
Definition win32Write (file : Z) (data : list Z) (offset : Z) : HM (Z * Z) :=
  h ← file_handle file;
  seek h offset ;;;
  r ← on_host (HostWriteFile h (take (Z.to_nat (u32 (len data))) data));
  match r with
  | None => throw XT_UNKNOWN_ERROR
  | Some n => if n =? 0 then throw XT_END_OF_FILE else mret (XT_SUCCESS, n)
  end.

Definition win32Close (mp file : Z) : HM unit :=
  h ← file_handle file;
  on_host (fun w => (tt, CloseHandle h w)).

Definition win32IO : XTFileIO H :=
  mkFileIO _ (Some win32Write) (Some win32Read) None None (Some win32Close) (Some win32GetFileInfo) None.

(** * The file system *)

(** A name in a buffer of [room] 16-bit characters. *)
Definition wide_name (room : Z) (name : option (list Z)) : HM (list Z) :=
  match name with
  | None => fault
  | Some name => wname ← xtUTF8toUTF16 (name ++ [0]); if room <? len wname then fault else mret wname
  end.

Definition win32CreateFile (mp : Z) (name : option (list Z)) (flags : Z) : HM unit :=
  wname ← wide_name 256 name;
  h ← on_host (CreateFileW wname GENERIC_ALL 0 CREATE_NEW);
  if h =? NULL then throw XT_ACCESS_DENIED else on_host (fun w => (tt, CloseHandle h w)).

Definition win32OpenDirectory (mp : Z) (path : option (list Z)) (out : Z) : HM unit :=
  wname ← wide_name 258 path;
  let new_wname := removelast wname ++ [47; 42; 0] in
  dirEntry ← out_or NULL (alloc 608);
  if dirEntry =? NULL then fault
  else
    '(h, d) ← on_host (FindFirstFileW new_wname);
    on_entries (create dirEntry (mkDirEntry h d true)) ;;;
    on_dirs (assign out (fun x => mkDirectory (dir_node x) dirEntry (dir_pos x))).

Definition win32ReadDirectory (dir : Z) (info : XTFileInfo) : HM XTFileInfo :=
  d ← on_dirs (load dir);
  e ← on_entries (load (dir_data d));
  if hFile e =? NULL then throw XT_END_OF_FILE
  else
    found ← (if firstCall e then mret (Some (findData e)) else on_host (FindNextFileW (hFile e)));
    match found with
    | None => throw XT_END_OF_FILE
    | Some fd =>
      on_entries (assign (dir_data d) (fun e => mkDirEntry (hFile e) fd false)) ;;;
      name ← xtUTF16toUTF8 (cFileName fd);
      let i := find_info fd in
      mret (mkInfo (to_string name) (nFileSize fd) (physical_size (nFileSize fd)) (nt2unixTime (ftCreationTime i)) (nt2unixTime (ftLastAccessTime i))
        (nt2unixTime (ftLastWriteTime i)) (directory_flag (dwFileAttributes i)) (userOwnerId info))
    end.

Definition win32Mount (mp : Z) : HM unit := mret tt.

(** [if (flags & a) v |= b;] *)
Definition or_flag (flags a b v : Z) : Z := if Z.land flags a =? 0 then v else Z.lor v b.

Definition win32_access (flags : Z) : Z := or_flag flags XT_FILE_MODE_WRITE GENERIC_WRITE (or_flag flags XT_FILE_MODE_READ GENERIC_READ 0).

Definition win32_share (flags : Z) : Z :=
  or_flag flags XT_FILE_SHARE_WRITE FILE_SHARE_WRITE (or_flag flags XT_FILE_SHARE_READ FILE_SHARE_READ (or_flag flags XT_FILE_SHARE_DELETE FILE_SHARE_DELETE 0)).

(** [win32IO_] is the address of [win32IO], [lock] that of the lock in a file,
    [junk] what a fresh file holds. *)
Definition win32OpenFile (win32IO_ : Z) (lock : Z -> Z) (junk : XTFile) (mp : Z) (name : option (list Z)) (flags : Z) : HM Z :=
  let disposition := if Z.land flags XT_FILE_MODE_CREATE =? 0 then OPEN_ALWAYS else CREATE_NEW in
  wname ← wide_name 256 name;
  h ← on_host (CreateFileW wname (win32_access flags) (win32_share flags) disposition);
  if h =? NULL then throw XT_ACCESS_DENIED
  else
    file ← alloc XTFILE;
    on_file_objs (create file (mkXTFile mp win32IO_ h (file_flags junk) (lock file) (file_event junk))) ;;;
    mret file.

Definition win32fsIO (win32IO_ : Z) (lock : Z -> Z) (junk : XTFile) : XTFileSystemIO H :=
  mkFSIO _ (Some win32OpenDirectory) (Some win32ReadDirectory) (Some (win32OpenFile win32IO_ lock junk)) (Some win32CreateFile) (Some win32Mount)
    None None None.

(** * mkimage *)

Section Copy.
Variables (file_io : Z -> option (XTFileIO H)) (fs_io : Z -> option (XTFileSystemIO H)).

(** "/platform" and "win32fs" *)
Definition xtPlatformInit (win32fs : Z) : HM unit :=
  xtRegisterFileSystem win32fs ;;;
  xtMount fs_io [47; 112; 108; 97; 116; 102; 111; 114; 109; 0] [119; 105; 110; 51; 50; 102; 115; 0] NULL.

(** The bytes that are put together for a name below a directory. *)
Definition below (path name : list Z) : list Z := path ++ [SLASH] ++ name ++ [0].

(** The file at [name], which is made if it is not there: NULL when that fails. *)
Definition open_or_create (buff name : list Z) (flags : Z) : HM Z :=
  result ← attempt (xtOpenFile fs_io buff name flags);
  match result with
  | inl file => mret file
  | inr c => if c =? XT_NOT_FOUND then out_or NULL (xtOpenFile fs_io buff name (Z.lor flags XT_FILE_MODE_CREATE)) else mret NULL
  end.

Section Directory.
Variables (buff block : list Z) (at_ : Z) (env : list (Kernel H -> Kernel H)).

(** One entry of a directory. [recurse] copies a directory below. The file that
    was opened for its information stays open. *)
Definition copy_entry (recurse : list Z -> list Z -> HM unit) (source dest : list Z) (info : XTFileInfo) : HM unit :=
  dot ← attempt (xtStringCmp (info_name info ++ [0]) [46; 0] 256);
  dots ← attempt (xtStringCmp (info_name info ++ [0]) [46; 46; 0] 256);
  match dot, dots with
  | inl _, _ | _, inl _ => mret tt
  | _, _ =>
    newDestName ← out_or NULL (alloc (u64 (len dest + len (info_name info) + 2)));
    newSourceName ← out_or NULL (alloc (u64 (len source + len (info_name info) + 2)));
    if (newDestName =? NULL) || (newSourceName =? NULL) then fault
    else
      newfile ← open_or_create buff (below dest (info_name info)) (info_flags info);
      out_or no_info (xtGetFileInfo file_io newfile no_info) ;;;
      (if negb (Z.land (info_flags info) XT_FILE_ATTRIBUTE_DIRECTORY =? 0)
       then out_or tt (recurse (source ++ [SLASH] ++ info_name info) (dest ++ [SLASH] ++ info_name info))
       else out_or tt (xtCopyFile file_io fs_io buff block (below source (info_name info)) (below dest (info_name info)) at_ env)) ;;;
      out_or tt (free newDestName) ;;;
      out_or tt (free newSourceName)
  end.

(** [while (xtReadDirectory(dsource, &info) == XT_SUCCESS)]; [fuel] bounds the
    entries on the way down and along. Paths are without their terminators. *)
Fixpoint copy_directory (fuel : nat) (dsource : Z) (info : XTFileInfo) (source dest : list Z) : HM unit :=
  match fuel with
  | O => nofuel
  | S fuel =>
    r ← attempt (xtReadDirectory fs_io dsource info);
    match r with
    | inr _ => mret tt
    | inl info =>
      copy_entry (fun source dest => dsource ← out_or NULL (xtOpenDirectory fs_io (source ++ [0])); copy_directory fuel dsource no_info source dest)
        source dest info ;;;
      copy_directory fuel dsource info source dest
    end
  end.

Definition xtRecursiveCopy (fuel : nat) (source dest : list Z) : HM unit :=
  dsource ← out_or NULL (xtOpenDirectory fs_io (source ++ [0]));
  copy_directory fuel dsource no_info source dest.

End Directory.
End Copy.
End Host.

(** * Lemmas *)

Section Proofs.
Context {W : Type} {A : Allocator (HostHeap W)} {Api : HostApi W}.

Notation H := (HostHeap W).
Implicit Types w : World H.

Definition hostw w : W := host (ListC.heap (mem (kern w))).

Definition set_hostw (x : W) w : World H :=
  let k := kern w in
  let k := mkKernel (ListC.mkListHeap (mkHostHeap x (entries (ListC.heap (mem k)))) (ListC.lists (mem k))) (thr k) (threads k) (currentThreadIterator k)
             (threadCount k) (IdleThread k) (currentThread k) (interrupts k) (objs k) in
  mkWorld k (path_nodes w) (mounts w) (file_objs w) (fs_objs w) (dirs w) (opened w) (shared w) (dev_objs w) (root w)
    (filesystems w) (openedFiles w) (openedFilesLock w) (devices w) (devLock w).

Lemma on_host_Ok {X} (f : W -> X * W) w : on_host f w = Ok (f (hostw w)).1 (set_hostw (f (hostw w)).2 w).
Proof. done. Qed.

Lemma host_set x w : hostw (set_hostw x w) = x.
Proof. done. Qed.

Lemma file_handle_ok w file f : file_objs w !! file = Some f -> file_handle file w = Ok (file_data f) w.
Proof. intros E. unfold file_handle, on_file_objs, zoom, load, deref, mbind, M_bind. rewrite E. by destruct w. Qed.

(** Where the host's own offsets have a sign, a file can be reached. *)
Lemma host_seek_ok w h offset l q : host_file (hostw w) h = Some (l, q) -> 0 <= offset < 2 ^ 31 ->
  exists x, seek h offset w = Ok tt (set_hostw x w) /\ host_file x h = Some (l, offset).
Proof.
  intros E Ho. exists (SetFilePointer h offset (hostw w)). unfold seek. rewrite shiftr_div, Z.div_small by lia. cbn [Z.eqb].
  change 0xffffffff with (2 ^ 32 - 1). rewrite land_low, Z.mod_small by lia. rewrite on_host_Ok.
  replace (signed 32 offset) with offset by (unfold signed; rewrite Z.mod_small by lia; lia). split; [done|].
  rewrite (set_pointer_law _ _ _ _ _ E), (proj2 (Z.ltb_ge _ _)) by lia. done.
Qed.

(** * Theorems *)

(** What the tool writes to a file of the host it reads back, below the offset of 2 GB. *)
Theorem win32_write_read w file f l q offset bs :
  file_objs w !! file = Some f -> host_file (hostw w) (file_data f) = Some (l, q) ->
  0 <= offset <= len l -> offset < 2 ^ 31 -> 0 < len bs < 2 ^ 32 ->
  exists w' w'', win32Write file bs offset w = Ok (XT_SUCCESS, len bs) w' /\ win32Read file offset (len bs) w' = Ok (XT_SUCCESS, bs) w''.
Proof.
  intros Ef Eh Ho Hs Hb. destruct (host_seek_ok w _ offset _ _ Eh ltac:(lia)) as (x & E1 & Hx).
  destruct (write_law _ bs x _ _ Hx Ho) as [W1 W2]. set (l' := take _ l ++ bs ++ _) in W2.
  set (w' := set_hostw (HostWriteFile (file_data f) bs x).2 w).
  assert (Ew : win32Write file bs offset w = Ok (XT_SUCCESS, len bs) w').
  { unfold win32Write. rewrite (bind_Ok _ _ _ _ _ (file_handle_ok _ _ _ Ef)), (bind_Ok _ _ _ _ _ E1).
    rewrite u32_small by lia. rewrite take_ge by lia. rewrite (bind_Ok _ _ _ _ _ (on_host_Ok _ _)), host_set, W1.
    rewrite (proj2 (Z.eqb_neq _ _)) by lia. done. }
  destruct (host_seek_ok w' (file_data f) offset _ _ W2 ltac:(lia)) as (y & E2 & Hy).
  destruct (read_law _ (len bs) y _ _ Hy ltac:(lia) ltac:(lia)) as [R1 R2].
  assert (El : take (Z.to_nat (len bs)) (drop (Z.to_nat offset) l') = bs).
  { unfold l'. rewrite drop_app_ge, length_take, Nat2Z.id by (rewrite length_take; lia).
    replace (Z.to_nat offset - _)%nat with O by lia. cbn [drop]. apply take_app_length. }
  rewrite El in R1. exists w', (set_hostw (HostReadFile (file_data f) (len bs) y).2 w'). split; [done|].
  unfold win32Read. rewrite (bind_Ok _ _ _ _ _ (file_handle_ok w' _ _ Ef)), (bind_Ok _ _ _ _ _ E2), u32_small by lia.
  rewrite (bind_Ok _ _ _ _ _ (on_host_Ok _ _)), host_set, R1. rewrite (proj2 (Z.eqb_neq _ _)) by lia. done.
Qed.

(** From 4 GB on the high part of the offset is taken for an address. *)
Theorem win32_large_offset_faults w file f offset count :
  file_objs w !! file = Some f -> 2 ^ 32 <= offset < 2 ^ 64 -> win32Read file offset count w = Fault.
Proof.
  intros Ef Ho. unfold win32Read. rewrite (bind_Ok _ _ _ _ _ (file_handle_ok _ _ _ Ef)). unfold seek.
  rewrite shiftr_div by lia. rewrite (proj2 (Z.eqb_neq _ _)); [done|]. assert (1 <= offset / 2 ^ 32); [|lia]. apply Z.div_le_lower_bound; lia.
Qed.

(** A file that Windows does not open is opened all the same: its failure is not NULL. *)
Theorem win32_open_not_denied w io lock junk mp name wname flags p w' :
  xtUTF8toUTF16 (S := World H) (name ++ [0]) w = Ok wname w -> len wname <= 256 ->
  let open_ := CreateFileW wname (win32_access flags) (win32_share flags) (if Z.land flags XT_FILE_MODE_CREATE =? 0 then OPEN_ALWAYS else CREATE_NEW) (hostw w) in
  open_.1 = INVALID_HANDLE_VALUE -> alloc XTFILE (set_hostw open_.2 w) = Ok p w' ->
  exists w'', win32OpenFile io lock junk mp (Some name) flags w = Ok p w'' /\ (file_data <$> file_objs w'' !! p) = Some INVALID_HANDLE_VALUE.
Proof.
  intros Hn Hl open_ Ho Ha. unfold win32OpenFile, wide_name. unfold mbind at 1, M_bind at 1.
  rewrite (bind_Ok _ _ _ _ _ Hn), (proj2 (Z.ltb_ge _ _)) by lia. cbn [mret M_ret].
  rewrite (bind_Ok _ _ _ _ _ (on_host_Ok _ _)). fold open_. rewrite Ho. change (INVALID_HANDLE_VALUE =? NULL) with false. cbn iota.
  rewrite (bind_Ok _ _ _ _ _ Ha). eexists. split; [reflexivity|]. cbn. by rewrite lookup_insert_eq.
Qed.

End Proofs.

(** * A host of open files *)

Record OpenFiles := mkOpenFiles { of_bump : Bump; of_files : gmap Z (list Z * Z) }.

Definition with_file (h : Z) (x : list Z * Z) (w : OpenFiles) : OpenFiles := mkOpenFiles (of_bump w) (<[h := x]> (of_files w)).

Definition files_seek (h p : Z) (w : OpenFiles) : OpenFiles :=
  match of_files w !! h with Some (l, q) => with_file h (l, if p <? 0 then q else p) w | None => w end.

Definition files_read (h n : Z) (w : OpenFiles) : option (list Z) * OpenFiles :=
  match of_files w !! h with
  | Some (l, p) => let bs := take (Z.to_nat n) (drop (Z.to_nat p) l) in (Some bs, with_file h (l, p + len bs) w)
  | None => (None, w)
  end.

Definition files_write (h : Z) (bs : list Z) (w : OpenFiles) : option Z * OpenFiles :=
  match of_files w !! h with
  | Some (l, p) => (Some (len bs), with_file h (take (Z.to_nat p) l ++ bs ++ drop (Z.to_nat (p + len bs)) l, p + len bs) w)
  | None => (None, w)
  end.

(** No other file can be opened, and directories are empty. *)
#[export, program] Instance OpenFiles_Api : HostApi OpenFiles := {|
  CreateFileW := fun _ _ _ _ w => (INVALID_HANDLE_VALUE, w);
  CloseHandle := fun h w => mkOpenFiles (of_bump w) (delete h (of_files w));
  SetFilePointer := files_seek;
  HostReadFile := files_read;
  HostWriteFile := files_write;
  GetFileSizeEx := fun h w => x ← of_files w !! h; Some (len x.1);
  GetFileInformationByHandle := fun _ _ => None;
  GetFinalPathNameByHandleW := fun _ _ => [0];
  FindFirstFileW := fun _ w => (INVALID_HANDLE_VALUE, mkFindData (mkHostInfo 0 0 0 0) 0 [0], w);
  FindNextFileW := fun _ w => (None, w);
  host_file := fun w h => of_files w !! h
|}.
Next Obligation. intros h p w l q E. unfold files_seek. rewrite E. cbn. by rewrite lookup_insert_eq. Qed.
Next Obligation. intros h n w l p E _ _. unfold files_read. rewrite E. cbn. by rewrite lookup_insert_eq. Qed.
Next Obligation. intros h bs w l p E _. unfold files_write. rewrite E. cbn. by rewrite lookup_insert_eq. Qed.

Definition files_bump : HostHeap OpenFiles -> Bump := fun h => of_bump (host h).

Definition files_with_bump (b : Bump) (h : HostHeap OpenFiles) : HostHeap OpenFiles := mkHostHeap (mkOpenFiles b (of_files (host h))) (entries h).

#[export, program] Instance OpenFiles_Allocator : Allocator (HostHeap OpenFiles) := {|
  xtHeapAlloc := fun n => zoom files_bump files_with_bump (xtHeapAlloc n);
  xtHeapFree := fun p => zoom files_bump files_with_bump (xtHeapFree p);
  heap_ok := fun h L => heap_ok (files_bump h) L
|}.
Next Obligation.
  intros h L n p h' Hk. unfold zoom. destruct (xtHeapAlloc n (files_bump h)) as [q b| | |] eqn:E; [|done..]. intros [= <- <-].
  exact (alloc_fresh _ _ _ _ _ Hk E).
Qed.
Next Obligation.
  intros h L p Hk Hp. destruct (free_live _ _ _ Hk Hp) as (b & E & Hb). exists (files_with_bump b h). unfold zoom. by rewrite E.
Qed.
Next Obligation. intros [[b fs] es]. done. Qed.

(** The file 700 is open with the handle 5. *)
Definition host_world : World (HostHeap OpenFiles) :=
  mkWorld (mkKernel (ListC.mkListHeap (mkHostHeap (mkOpenFiles bump_empty {[5 := ([1; 2; 3; 4], 0)]}) ∅) ∅) ∅ NULL NULL 0 NULL NULL true (mkObjects ∅ ∅ ∅))
    ∅ ∅ {[700 := mkXTFile NULL NULL 5 0 701 NULL]} ∅ ∅ ∅ ∅ ∅ NULL NULL NULL false NULL false.

Lemma win32_write_read_witness : exists w' w'',
  win32Write 700 [8; 9; 10] 2 host_world = Ok (XT_SUCCESS, 3) w' /\ win32Read 700 2 3 w' = Ok (XT_SUCCESS, [8; 9; 10]) w''.
Proof. apply (win32_write_read host_world 700 (mkXTFile NULL NULL 5 0 701 NULL) [1; 2; 3; 4] 0 2 [8; 9; 10]); done. Defined.

Lemma win32_large_offset_faults_witness : win32Read 700 0x100000000 512 host_world = Fault.
Proof. apply (win32_large_offset_faults host_world 700 (mkXTFile NULL NULL 5 0 701 NULL)); [done|lia]. Defined.

Lemma win32_open_not_denied_witness : exists w'',
  win32OpenFile 800 (fun p => p + 24) (mkXTFile NULL NULL NULL 0 0 NULL) NULL (Some [97]) XT_FILE_MODE_READ host_world = Ok 16 w'' /\
  (file_data <$> file_objs w'' !! 16) = Some INVALID_HANDLE_VALUE.
Proof. eapply (win32_open_not_denied host_world 800 _ _ NULL [97] [97; 0]); [done|done|done|vm_compute; reflexivity]. Defined.
