(* ===== verification/RwLock.v ===== *)
(** Reader-writer locks (xtkernel/rwlock.c): the interleavings of any number of
    threads that acquire and release one lock. *)
From Stdlib Require Import ZArith Lia.
From stdpp Require Import base tactics list gmap fin_maps numbers.
From S2P Require Import Prelude Allocator ListC Threads Sync.

Open Scope Z_scope.

(** * The threads *)

(** Where a thread is: outside, in the loop of [xtAcquireRead] after having
    been queued, reading, in the loop of [xtAcquireWrite], writing. *)
Inductive Pc := Out | RWait | Reading | WWait | Writing.

#[export] Instance Pc_eq_dec : EqDecision Pc.
Proof. solve_decision. Defined.

Notation Pcs := (gmap Z Pc).

(** The thread [t] can have the CPU: the scheduler picks runnable threads only. *)
Definition on_cpu (th : gmap Z XTThread) (t : Z) : Prop := exists y, th !! t = Some y /\ is_run y = true.

Definition waits (th : gmap Z XTThread) (t : Z) : Prop :=
  exists y, th !! t = Some y /\ Z.land (state y) 0xf = XT_THREAD_WAIT_STATE.

Section RwLock.
Context {H : Type} {A : Allocator H}.
Variable l : Z.

(** One section of one thread. *)
Inductive step : Kernel H * Pcs -> Kernel H * Pcs -> Prop :=
| step_acquire_read k pcs t pc b k' :
    pcs !! t = Some pc -> pc = Out \/ pc = RWait -> on_cpu (thr k) t ->
    acquire_read_try l (set_current t k) = Ok b k' ->
    step (k, pcs) (k', <[t := if b then Reading else RWait]> pcs)
| step_release_read k pcs t k' :
    pcs !! t = Some Reading -> on_cpu (thr k) t ->
    xtReleaseRead l (set_current t k) = Ok tt k' ->
    step (k, pcs) (k', <[t := Out]> pcs)
| step_acquire_write k pcs t pc b k' :
    pcs !! t = Some pc -> pc = Out \/ pc = WWait -> on_cpu (thr k) t ->
    acquire_write_try l (set_current t k) = Ok b k' ->
    step (k, pcs) (k', <[t := if b then Writing else WWait]> pcs)
| step_release_write k pcs t k' :
    pcs !! t = Some Writing -> on_cpu (thr k) t ->
    xtReleaseWrite l (set_current t k) = Ok tt k' ->
    step (k, pcs) (k', <[t := Out]> pcs).

(** * The invariant *)

Definition count (p : Pc) (pcs : Pcs) : nat := size (filter (fun x => x.2 = p) pcs).

(** The counter tells who is inside. *)
Definition counts (n : Z) (pcs : Pcs) : Prop :=
  (count Writing pcs = 0%nat /\ n = Z.of_nat (count Reading pcs)) \/
  (count Writing pcs = 1%nat /\ count Reading pcs = 0%nat /\ n = -1).

(** The queue [q] holds the threads at [p] that wait. *)
Definition queue_ok (m : Lists) (th : gmap Z XTThread) (pcs : Pcs) (p : Pc) (h : Z) (q : list (Z * Z)) : Prop :=
  is_list m h q /\ NoDup q.*2 /\ forall t, t ∈ q.*2 <-> pcs !! t = Some p /\ waits th t.

(** A writer that has been woken and has not yet tried again. *)
Definition woken_writer (th : gmap Z XTThread) (pcs : Pcs) : Prop := exists t, pcs !! t = Some WWait /\ on_cpu th t.

(** The heap, the queues and the threads fit together; [L] are the addresses
    the heap has handed out. *)
Record parts_ok (lh : ListHeap H) (th : gmap Z XTThread) (pcs : Pcs) (x : XTRWLock) (L : gset Z)
    (lr lw : list (Z * Z)) : Prop := mkParts {
  parts_heap : heap_ok (heap lh) L;
  parts_dom : dom (lists lh) ⊆ L;
  parts_counts : counts (readers x) pcs;
  parts_size : Z.of_nat (size pcs) < 2 ^ 31;
  parts_readers : queue_ok (lists lh) th pcs RWait (waitReaders x) lr;
  parts_writers : queue_ok (lists lh) th pcs WWait (waitWriters x) lw;
  parts_disjoint : forall a, a ∈ lr.*1 -> a ∉ lw.*1;
  parts_threads : forall t pc, pcs !! t = Some pc -> on_cpu th t \/ (waits th t /\ (pc = RWait \/ pc = WWait));
  parts_free_readers : readers x <> -1 -> lr <> [] -> lw <> [] \/ woken_writer th pcs;
  parts_free_writers : readers x = 0 -> lw <> [] -> woken_writer th pcs
}.

Definition rw_inv (c : Kernel H * Pcs) : Prop :=
  exists x L lr lw, rwlocks (objs c.1) !! l = Some x /\ spinlock x = false /\
    parts_ok (mem c.1) (thr c.1) c.2 x L lr lw.

(** Before the first call: the lock is initialised and every thread is outside. *)
Definition rw_init (c : Kernel H * Pcs) : Prop :=
  rwlocks (objs c.1) !! l = Some (mkRW false 0 NULL NULL) /\
  (exists L, heap_ok (heap (mem c.1)) L /\ dom (lists (mem c.1)) ⊆ L) /\
  Z.of_nat (size c.2) < 2 ^ 31 /\ forall t pc, c.2 !! t = Some pc -> pc = Out /\ on_cpu (thr c.1) t.

End RwLock.

(** * Counting *)

Lemma count_insert p pcs t p0 p1 : pcs !! t = Some p0 ->
  Z.of_nat (count p (<[t := p1]> pcs)) =
  Z.of_nat (count p pcs) - (if decide (p0 = p) then 1 else 0) + (if decide (p1 = p) then 1 else 0).
Proof.
  intros Ht. unfold count. assert (pcs = <[t := p0]> (delete t pcs)) as E by (by rewrite insert_delete_id).
  rewrite E at 2. rewrite insert_delete_eq in *. rewrite <- (insert_delete_eq pcs t p1).
  assert (forall q, Z.of_nat (size (filter (fun x : Z * Pc => x.2 = p) (<[t := q]> (delete t pcs)))) =
    Z.of_nat (size (filter (fun x : Z * Pc => x.2 = p) (delete t pcs))) + (if decide (q = p) then 1 else 0)) as K.
  { intros q. destruct (decide (q = p)) as [->|Hq].
    - rewrite map_filter_insert_True by done. rewrite map_size_insert_None; [lia|].
      apply map_lookup_filter_None. left. apply lookup_delete_eq.
    - rewrite map_filter_insert_False by done. rewrite delete_delete_eq. lia. }
  rewrite !K. rewrite <- (insert_delete_eq pcs t p0). rewrite K. lia.
Qed.

(** What queueing up and waking make of a thread. *)
Definition waiting (y : XTThread) : XTThread := set_state (Z.lor (Z.land (state y) 0x80) XT_THREAD_WAIT_STATE) y.

Definition awake (y : XTThread) : XTThread := set_state (Z.lor (Z.land (state y) 0x80) XT_THREAD_RUN_STATE) y.

Notation awake_all := (alter_all awake).

(** * The sections *)

Section Sections.
Context {H : Type} {A : Allocator H}.
Variable l : Z.
Implicit Types (k : Kernel H) (x : XTRWLock) (th : gmap Z XTThread) (m : Lists).

(** [k] with the parts the sections change. *)
Definition st k (c : Z) (lh : ListHeap H) th (b : bool) x : Kernel H :=
  mkKernel lh th (threads k) (currentThreadIterator k) (threadCount k) (IdleThread k) c b
    (mkObjects (mutexes (objs k)) (<[l := x]> (rwlocks (objs k))) (events (objs k))).

Lemma st_of k x c : rwlocks (objs k) !! l = Some x -> set_current c k = st k c (mem k) (thr k) (interrupts k) x.
Proof. intros E. unfold st. rewrite insert_id by done. by destruct k as [? ? ? ? ? ? ? ? []]. Qed.

Lemma on_rw_Ok {X} k c lh th b x (f : M (gmap Z XTRWLock) X) v y :
  (forall o : gmap Z XTRWLock, o !! l = Some x -> f o = Ok v (<[l := y]> o)) ->
  on_rwlocks f (st k c lh th b x) = Ok v (st k c lh th b y).
Proof.
  intros Hf. unfold on_rwlocks, zoom. cbn [objs st rwlocks]. rewrite Hf by apply lookup_insert_eq.
  rewrite insert_insert_eq. done.
Qed.

Lemma load_rw k c lh th b x : on_rwlocks (load l) (st k c lh th b x) = Ok x (st k c lh th b x).
Proof. apply on_rw_Ok. intros m E. rewrite (load_Ok _ _ _ E). by rewrite insert_id. Qed.

Lemma assign_rw k c lh th b x f : on_rwlocks (assign l f) (st k c lh th b x) = Ok tt (st k c lh th b (f x)).
Proof. apply on_rw_Ok. intros m E. by rewrite (assign_Ok _ _ _ _ E). Qed.

Lemma lock_rw k c lh th b n r w :
  xtLockSpinlock (rw_lock l) (st k c lh th b (mkRW false n r w)) = Ok tt (st k c lh th false (mkRW true n r w)).
Proof.
  unfold xtLockSpinlock, acquire, rw_lock. cbn [test write].
  rewrite (bind_Ok _ _ _ tt (st k c lh th false (mkRW false n r w))) by done.
  rewrite (bind_Ok _ _ _ false (st k c lh th false (mkRW false n r w))).
  2: { apply on_rw_Ok. intros m E. rewrite (bind_Ok _ _ _ _ _ (load_Ok _ _ _ E)). by rewrite insert_id. }
  by rewrite (bind_Ok _ _ _ _ _ (assign_rw k c lh th false _ _)).
Qed.

Lemma unlock_rw k c lh th b n r w :
  xtUnlockSpinlock (rw_lock l) (st k c lh th b (mkRW true n r w)) = Ok tt (st k c lh th true (mkRW false n r w)).
Proof. unfold xtUnlockSpinlock, release, rw_lock. cbn [write]. by rewrite (bind_Ok _ _ _ _ _ (assign_rw k c lh th b _ _)). Qed.

(** A queue of the lock: its head is a field of it. *)
Record queue_law (q : QueueRef (H := H)) (g : XTRWLock -> Z) (s : Z -> XTRWLock -> XTRWLock) : Prop := {
  law_head k c lh th b x : head_of q (st k c lh th b x) = Ok (g x) (st k c lh th b x);
  law_set k c lh th b x v : set_head q v (st k c lh th b x) = Ok tt (st k c lh th b (s v x));
  law_same x : s (g x) x = x
}.

Definition set_wr (v : Z) x : XTRWLock := mkRW (spinlock x) (readers x) v (waitWriters x).

Definition set_ww (v : Z) x : XTRWLock := mkRW (spinlock x) (readers x) (waitReaders x) v.

Lemma reader_law : queue_law (reader_queue l) waitReaders set_wr.
Proof.
  split; [|intros; apply assign_rw|by intros []]. intros. cbn [head_of reader_queue]. apply on_rw_Ok.
  intros m E. rewrite (bind_Ok _ _ _ _ _ (load_Ok _ _ _ E)). by rewrite insert_id.
Qed.

Lemma writer_law : queue_law (writer_queue l) waitWriters set_ww.
Proof.
  split; [|intros; apply assign_rw|by intros []]. intros. cbn [head_of writer_queue]. apply on_rw_Ok.
  intros m E. rewrite (bind_Ok _ _ _ _ _ (load_Ok _ _ _ E)). by rewrite insert_id.
Qed.

Lemma fresh_tail m h q node (c : Z) : is_list m h q -> m !! node = None -> node <> NULL ->
  is_list (<[node := mkList c NULL]> m) h q /\ is_list (<[node := mkList c NULL]> m) node [(node, c)] /\
  NoDup (q ++ [(node, c)]).*1.
Proof.
  intros [Hc Hnd] Hn H0. assert (node ∉ q.*1) as Hnq.
  { intros Hi. eapply chain_dom in Hi; [|exact Hc]. by apply not_elem_of_dom in Hn. }
  split; [split; [by apply chain_insert|done]|]. split.
  - split; [|apply NoDup_singleton]. cbn. split; [done|]. split; [done|]. eexists. rewrite lookup_insert_eq. done.
  - rewrite fmap_app. apply list.NoDup_app. split; [done|]. split; [|apply NoDup_singleton]. cbn. set_solver.
Qed.

(** Appending the node of the current thread to a queue. *)
Lemma enqueue_ok q g s k c h m th b x ql node : queue_law q g s -> is_list m (g x) ql ->
  m !! node = None -> node <> NULL ->
  exists m' hd, enqueue q node (st k c (mkListHeap h (<[node := mkList c NULL]> m)) th b x) =
      Ok tt (st k c (mkListHeap h m') th b (s hd x)) /\
    is_list m' hd (ql ++ [(node, c)]) /\ (forall a, a ∉ ql.*1 -> a <> node -> m' !! a = m !! a) /\
    dom m' = {[node]} ∪ dom m.
Proof.
  intros Lw Hq Hn H0. destruct (fresh_tail m (g x) ql node c Hq Hn H0) as (F1 & F2 & F3). unfold enqueue.
  rewrite (bind_Ok _ _ _ _ _ (law_head q g s Lw _ _ _ _ _ _)). destruct (decide (ql = [])) as [->|Hne].
  - destruct Hq as [Hq _]. cbn in Hq. rewrite Hq. cbn [Z.eqb NULL]. rewrite (law_set q g s Lw).
    exists (<[node := mkList c NULL]> m), node. split; [done|]. split; [done|].
    split; [intros a _ Ha; by rewrite lookup_insert_ne|apply dom_insert_L].
  - assert (g x <> NULL) as Hg by (eapply chain_nonnull; [apply Hq|done]). rewrite (proj2 (Z.eqb_neq _ _) Hg).
    destruct (xtAppendList_spec _ _ _ _ _ F1 F2 Hne ltac:(done) F3) as (m' & R & Hl & Hf).
    exists m', (g x). rewrite (law_same q g s Lw). split; [|split; [done|split]].
    + unfold out_or, on_list, on_mem, on_lists, zoom. cbn [mem st lists]. rewrite R. done.
    + intros a Ha Han. rewrite Hf by done. by rewrite lookup_insert_ne.
    + apply set_eq. intros a. rewrite <- dom_insert_L with (x := mkList c NULL). destruct (decide (a ∈ ql.*1)) as [Ha|Ha].
      * split; intros _; [eapply chain_dom; [apply F1|done]|].
        eapply chain_dom; [apply Hl|]. rewrite fmap_app. set_solver.
      * rewrite !elem_of_dom. by rewrite Hf.
Qed.

(** [rwSleep] when the heap has a node for it. *)
Lemma rwSleep_ok q g s k c h m th b x ql L y r k' : queue_law q g s -> is_list m (g x) ql ->
  heap_ok h L -> dom m ⊆ L -> th !! c = Some y ->
  rwSleep q (st k c (mkListHeap h m) th b x) = Ok r k' ->
  exists h' m' hd node, k' = st k c (mkListHeap h' m') (<[c := waiting y]> th) b (s hd x) /\
    heap_ok h' ({[node]} ∪ L) /\ is_list m' hd (ql ++ [(node, c)]) /\ m !! node = None /\
    (forall a, a ∉ ql.*1 -> a <> node -> m' !! a = m !! a) /\ dom m' = {[node]} ∪ dom m.
Proof.
  intros Lw Hq Hok Hd Hy. unfold rwSleep. unfold gets. rewrite (bind_Ok _ _ _ c (st k c (mkListHeap h m) th b x)) by done.
  destruct (xtHeapAlloc 16 h) as [node h'| | |] eqn:Ea;
    try (unfold mbind, M_bind, on_mem, xtCreateList, on_heap, zoom; cbn [mem st heap]; unfold mbind, M_bind, zoom; cbn [heap];
         rewrite Ea; done).
  destruct (alloc_fresh _ _ _ _ _ Hok Ea) as (Hn0 & Hn & Hok').
  assert (m !! node = None) as Hm by (apply not_elem_of_dom; set_solver).
  rewrite (bind_Ok _ _ _ node (st k c (mkListHeap h' (<[node := mkList c NULL]> m)) th b x)).
  2: { unfold on_mem, xtCreateList, on_heap, zoom; cbn [mem st]; unfold mbind, M_bind, zoom; cbn [heap]. by rewrite Ea. }
  destruct (enqueue_ok q g s k c h' m th b x ql node Lw Hq Hm Hn0) as (m' & hd & R & E1 & E2 & E3).
  rewrite (bind_Ok _ _ _ _ _ R). rewrite (assign_thr _ c y) by done. intros [= <- <-].
  exists h', m', hd, node. cbn. eauto 10.
Qed.

Lemma st_data k c h m th b x a n : a <> NULL -> m !! a = Some n ->
  out_or NULL (on_list (xtGetListData a)) (st k c (mkListHeap h m) th b x) = Ok (data n) (st k c (mkListHeap h m) th b x).
Proof. intros Ha E. apply out_or_Ok. by apply get_data_ok. Qed.

Lemma st_next k c h m th b x a d n : a <> NULL -> m !! a = Some n ->
  out_or d (on_list (xtGetNextList a)) (st k c (mkListHeap h m) th b x) = Ok (next n) (st k c (mkListHeap h m) th b x).
Proof. intros Ha E. apply out_or_Ok. by apply get_next_ok. Qed.

Lemma st_wake k c lh th b x t y : th !! t = Some y -> rw_wake t (st k c lh th b x) = Ok tt (st k c lh (<[t := awake y]> th) b x).
Proof. intros Ht. unfold rw_wake. by rewrite (assign_thr _ t y). Qed.

Lemma st_destroy k c h m th b x a h' : a <> NULL -> xtHeapFree a h = Ok tt h' ->
  out_or tt (on_mem (xtDestroyList a)) (st k c (mkListHeap h m) th b x) =
  Ok tt (st k c (mkListHeap h' (delete a m)) th b x).
Proof.
  intros Ha E. apply out_or_Ok. unfold on_mem, zoom. cbn [mem st]. unfold xtDestroyList. rewrite check_then by done.
  rewrite (bind_Ok _ _ _ tt (mkListHeap h' m)) by (unfold on_heap, zoom; cbn [heap]; by rewrite E). done.
Qed.

Lemma rwWakeOne_ok q g s k c h m th b x ql L : queue_law q g s -> is_list m (g x) ql ->
  heap_ok h L -> dom m ⊆ L -> (forall t, t ∈ ql.*2 -> is_Some (th !! t)) ->
  match ql with
  | [] => rwWakeOne q (st k c (mkListHeap h m) th b x) = Ok tt (st k c (mkListHeap h m) th b x)
  | (a, t) :: ql' => exists h' hd y, th !! t = Some y /\
      rwWakeOne q (st k c (mkListHeap h m) th b x) =
        Ok tt (st k c (mkListHeap h' (delete a m)) (<[t := awake y]> th) b (s hd x)) /\
      heap_ok h' (L ∖ {[a]}) /\ is_list (delete a m) hd ql'
  end.
Proof.
  intros Lw [Hc Hnd] Hok Hd Ht. destruct ql as [|[a t] ql]; unfold rwWakeOne;
    rewrite (bind_Ok _ _ _ _ _ (law_head q g s Lw _ _ _ _ _ _)).
  - cbn in Hc. by rewrite Hc.
  - destruct Hc as (-> & Ha & n & Hn & Hdt & Hc). rewrite (proj2 (Z.eqb_neq _ _) Ha).
    destruct (Ht t) as [y Hy]; [apply elem_of_cons; by left|].
    destruct (free_live h L a) as (h' & Hf & Hok'); [done|apply Hd, elem_of_dom; eauto|].
    exists h', (next n), y. split; [done|]. split.
    + rewrite (bind_Ok _ _ _ _ _ (st_data k c h m th b x _ n Ha Hn)). rewrite Hdt.
      rewrite (bind_Ok _ _ _ _ _ (st_wake k c (mkListHeap h m) th b x t y Hy)).
      rewrite (bind_Ok _ _ _ _ _ (st_next k c h m _ b x _ NULL n Ha Hn)).
      rewrite (bind_Ok _ _ _ _ _ (st_destroy k c h m _ b x _ h' Ha Hf)). by rewrite (law_set q g s Lw).
    + split; [done|]. cbn in Hnd. apply list.NoDup_cons in Hnd as [Hni Hnd]. split; [|done]. by apply chain_delete.
Qed.

Lemma wake_all_loop_ok : forall ql fuel k c h m th b x p, lseg m p ql NULL -> (length ql <= fuel)%nat ->
  (forall t, t ∈ ql.*2 -> is_Some (th !! t)) ->
  wake_all_loop fuel p (st k c (mkListHeap h m) th b x) = Ok tt (st k c (mkListHeap h m) (awake_all ql.*2 th) b x).
Proof.
  induction ql as [|[a t] ql IH]; intros fuel k c h m th b x p Hc Hf Ht.
  - cbn in Hc. subst p. by destruct fuel.
  - destruct Hc as (-> & Ha & n & Hn & Hdt & Hc). cbn [length] in Hf. destruct fuel as [|fuel]; [lia|].
    cbn [wake_all_loop]. rewrite (proj2 (Z.eqb_neq _ _) Ha). destruct (Ht t) as [y Hy]; [apply elem_of_cons; by left|].
    rewrite (bind_Ok _ _ _ _ _ (st_data k c h m th b x _ n Ha Hn)). rewrite Hdt.
    rewrite (bind_Ok _ _ _ _ _ (st_wake k c (mkListHeap h m) th b x t y Hy)).
    rewrite (bind_Ok _ _ _ _ _ (st_next k c h m _ b x _ _ n Ha Hn)).
    rewrite (IH fuel); [|done|lia|].
    + cbn [fmap list_fmap snd]. by rewrite alter_all_cons, (insert_alter th t y awake Hy).
    + intros u Hu. destruct (decide (u = t)) as [->|]; [rewrite lookup_insert_eq; eauto|].
      rewrite lookup_insert_ne by done. apply Ht. apply elem_of_cons. by right.
Qed.

Lemma rwWakeAll_ok q g s k c h m th b x ql : queue_law q g s -> is_list m (g x) ql ->
  (forall t, t ∈ ql.*2 -> is_Some (th !! t)) ->
  rwWakeAll q (st k c (mkListHeap h m) th b x) = Ok tt (st k c (mkListHeap h m) (awake_all ql.*2 th) b (s NULL x)).
Proof.
  intros Lw Hq Ht. unfold rwWakeAll. rewrite (bind_Ok _ _ _ _ _ (law_head q g s Lw _ _ _ _ _ _)).
  unfold list_fuel, gets. rewrite (bind_Ok _ _ _ (size m) (st k c (mkListHeap h m) th b x)) by done.
  rewrite (bind_Ok _ _ _ _ _ (wake_all_loop_ok ql (size m) k c h m th b x (g x) (proj1 Hq) (list_fits _ _ _ Hq) Ht)).
  by rewrite (law_set q g s Lw).
Qed.

End Sections.

(** * Preservation *)

Lemma on_cpu_not_waits th t : on_cpu th t -> ~ waits th t.
Proof.
  intros (y & Hy & Hr) (z & Hz & Hw). assert (y = z) as -> by congruence. unfold is_run in Hr. rewrite Hw in Hr. done.
Qed.

Lemma land_flag s v : 0 <= v < 16 -> Z.land (Z.lor (Z.land s 0x80) v) 0xf = v.
Proof.
  intros Hv. rewrite Z.land_lor_distr_l, <- Z.land_assoc. change (Z.land 0x80 0xf) with 0. rewrite Z.land_0_r, Z.lor_0_l.
  change 0xf with (2 ^ 4 - 1). rewrite land_low by lia. apply Z.mod_small. lia.
Qed.

Lemma awake_runs y : is_run (awake y) = true.
Proof. unfold is_run, awake. cbn [state set_state]. by rewrite land_flag by (unfold XT_THREAD_RUN_STATE; lia). Qed.

Lemma waiting_waits y : Z.land (state (waiting y)) 0xf = XT_THREAD_WAIT_STATE.
Proof. unfold waiting. cbn [state set_state]. by rewrite land_flag by (unfold XT_THREAD_WAIT_STATE; lia). Qed.

(** A thread that has the CPU moves: the queues stay. *)
Lemma queue_move m th pcs p h q t p1 : on_cpu th t -> queue_ok m th pcs p h q -> queue_ok m th (<[t := p1]> pcs) p h q.
Proof.
  intros Ht (H1 & H2 & H3). split; [done|]. split; [done|]. intros u. rewrite H3.
  pose proof (on_cpu_not_waits th t Ht). destruct (decide (u = t)) as [->|]; [naive_solver|].
  by rewrite lookup_insert_ne by done.
Qed.

Lemma threads_move (th : gmap Z XTThread) (pcs : Pcs) t p1 : on_cpu th t ->
  (forall t pc, pcs !! t = Some pc -> on_cpu th t \/ (waits th t /\ (pc = RWait \/ pc = WWait))) ->
  forall u pc, <[t := p1]> pcs !! u = Some pc -> on_cpu th u \/ (waits th u /\ (pc = RWait \/ pc = WWait)).
Proof.
  intros Ht Hth u pc. destruct (decide (u = t)) as [->|]; [auto|]. rewrite lookup_insert_ne by done. apply Hth.
Qed.

Lemma woken_move th pcs t p0 p1 : pcs !! t = Some p0 -> p0 <> WWait -> woken_writer th pcs ->
  woken_writer th (<[t := p1]> pcs).
Proof.
  intros Ht Hp (u & Hu & Hc). exists u. split; [|done]. rewrite lookup_insert_ne; [done|]. intros ->. congruence.
Qed.

Lemma size_move (pcs : Pcs) t p0 p1 : pcs !! t = Some p0 -> size (<[t := p1]> pcs) = size pcs.
Proof. intros Ht. apply map_size_insert_Some. eauto. Qed.

Lemma count_le p (pcs : Pcs) : (count p pcs <= size pcs)%nat.
Proof. unfold count. apply map_subseteq_size. apply map_filter_subseteq. Qed.

Lemma waits_waiting th t y u : waits (<[t := waiting y]> th) u <-> u = t \/ waits th u.
Proof.
  unfold waits. destruct (decide (u = t)) as [->|].
  - rewrite lookup_insert_eq. split; [auto|]. intros _. eexists. split; [done|]. apply waiting_waits.
  - rewrite lookup_insert_ne by done. naive_solver.
Qed.

Lemma on_cpu_waiting th t y u : u <> t -> on_cpu th u -> on_cpu (<[t := waiting y]> th) u.
Proof. intros Hu. unfold on_cpu. by rewrite lookup_insert_ne by done. Qed.

Lemma waits_awake th w y u : waits (<[w := awake y]> th) u <-> u <> w /\ waits th u.
Proof.
  unfold waits. destruct (decide (u = w)) as [->|].
  - rewrite lookup_insert_eq. split; [|naive_solver]. intros (z & [= <-] & Hz). exfalso.
    pose proof (awake_runs y) as Hr. unfold is_run in Hr. rewrite Hz in Hr. done.
  - rewrite lookup_insert_ne by done. naive_solver.
Qed.

Lemma on_cpu_awake th w y u : u = w \/ on_cpu th u -> on_cpu (<[w := awake y]> th) u.
Proof.
  unfold on_cpu. destruct (decide (u = w)) as [->|].
  - intros _. rewrite lookup_insert_eq. eexists. split; [done|]. apply awake_runs.
  - rewrite lookup_insert_ne by done. naive_solver.
Qed.

(** The queue a thread joins, and the other one. *)
Lemma queue_enqueue m m' th pcs p h hd q t y node : on_cpu th t -> queue_ok m th pcs p h q ->
  is_list m' hd (q ++ [(node, t)]) ->
  queue_ok m' (<[t := waiting y]> th) (<[t := p]> pcs) p hd (q ++ [(node, t)]).
Proof.
  intros Ht (_ & H2 & H3) Hl. pose proof (on_cpu_not_waits th t Ht) as Hn. split; [done|]. rewrite fmap_app. cbn [fmap list_fmap snd].
  assert (t ∉ q.*2) as Hq by (rewrite H3; naive_solver). split.
  - apply list.NoDup_app. split; [done|]. split; [|apply NoDup_singleton]. intros u Hu ->%list_elem_of_singleton. done.
  - intros u. rewrite elem_of_app, list_elem_of_singleton, H3, waits_waiting.
    destruct (decide (u = t)) as [->|]; [rewrite lookup_insert_eq; naive_solver|]. rewrite lookup_insert_ne by done. naive_solver.
Qed.

Lemma queue_frame m m' th pcs p p' h q t y : p <> p' -> on_cpu th t -> queue_ok m th pcs p h q ->
  (forall a, a ∈ q.*1 -> m' !! a = m !! a) ->
  queue_ok m' (<[t := waiting y]> th) (<[t := p']> pcs) p h q.
Proof.
  intros Hp Ht ((Hc & Hnd) & H2 & H3) Hf. pose proof (on_cpu_not_waits th t Ht) as Hn.
  split; [split; [by eapply chain_frame|done]|]. split; [done|]. intros u. rewrite H3, waits_waiting.
  destruct (decide (u = t)) as [->|]; [rewrite lookup_insert_eq; naive_solver|]. rewrite lookup_insert_ne by done. naive_solver.
Qed.

(** The queue whose first thread is woken, and the other one. *)
Lemma queue_dequeue m m' th pcs p h hd a w q y : queue_ok m th pcs p h ((a, w) :: q) -> is_list m' hd q ->
  queue_ok m' (<[w := awake y]> th) pcs p hd q.
Proof.
  intros (_ & H2 & H3) Hl. cbn in H2. apply list.NoDup_cons in H2 as [Hw H2]. split; [done|]. split; [done|].
  intros u. rewrite waits_awake. specialize (H3 u). cbn in H3. rewrite elem_of_cons in H3.
  split; [|naive_solver]. intros Hu. split; [naive_solver|]. split; [|naive_solver]. intros ->. done.
Qed.

Lemma queue_wake_other m m' th pcs p p' h q w y : p <> p' -> pcs !! w = Some p' -> queue_ok m th pcs p h q ->
  (forall a, a ∈ q.*1 -> m' !! a = m !! a) -> queue_ok m' (<[w := awake y]> th) pcs p h q.
Proof.
  intros Hp Hw ((Hc & Hnd) & H2 & H3) Hf. split; [split; [by eapply chain_frame|done]|]. split; [done|].
  intros u. rewrite H3, waits_awake. split; [|naive_solver]. intros [Hu Hwt]. split; [done|]. split; [|done]. intros ->. congruence.
Qed.

Section Preserve.
Context {H : Type} {A : Allocator H}.
Variable l : Z.

Lemma read_enter lh th pcs x L lr lw t pc sp :
  parts_ok (H := H) lh th pcs x L lr lw -> pcs !! t = Some pc -> pc = Out \/ pc = RWait -> on_cpu th t ->
  readers x <> -1 -> waitWriters x = NULL ->
  parts_ok lh th (<[t := Reading]> pcs) (mkRW sp (s32 (readers x + 1)) (waitReaders x) (waitWriters x)) L lr lw.
Proof.
  intros [P1 P2 P3 P4 P5 P6 P7 P8 P9 P10] Ht Hpc Hc Hr Hw.
  assert (pc <> Reading /\ pc <> Writing /\ pc <> WWait) as (N1 & N2 & N3) by naive_solver.
  pose proof (count_insert Reading pcs t pc Reading Ht) as C1.
  pose proof (count_insert Writing pcs t pc Reading Ht) as C2.
  rewrite decide_False, decide_True in C1 by done. rewrite !decide_False in C2 by done.
  pose proof (count_le Reading (<[t := Reading]> pcs)) as C3. rewrite (size_move pcs t pc Reading Ht) in C3.
  assert (s32 (readers x + 1) = readers x + 1) as Es.
  { unfold s32. destruct P3 as [[? ->]|(? & ? & ?)]; [|done]. rewrite Z.mod_small; lia. }
  split; cbn [readers waitReaders waitWriters]; rewrite ?Es; try done.
  - destruct P3 as [[? ?]|(? & ? & ?)]; [|done]. left. lia.
  - by rewrite (size_move pcs t pc Reading Ht).
  - by apply queue_move.
  - by apply queue_move.
  - by apply threads_move.
  - intros _ Hlr. right. destruct P6 as ((Hcw & _) & _). assert (lw = []) as ->.
    { destruct lw; [done|]. exfalso. by apply (chain_nonnull next data) in Hcw. }
    destruct (P9 Hr Hlr) as [?|Hww]; [done|]. by eapply woken_move.
  - intros Hz. destruct P3 as [[? Hn]|(? & ? & ?)]; lia.
Qed.

Lemma write_enter lh th pcs x L lr lw t pc sp :
  parts_ok (H := H) lh th pcs x L lr lw -> pcs !! t = Some pc -> pc = Out \/ pc = WWait -> on_cpu th t ->
  readers x = 0 ->
  parts_ok lh th (<[t := Writing]> pcs) (mkRW sp (-1) (waitReaders x) (waitWriters x)) L lr lw.
Proof.
  intros [P1 P2 P3 P4 P5 P6 P7 P8 P9 P10] Ht Hpc Hc Hr.
  assert (pc <> Reading /\ pc <> Writing) as (N1 & N2) by naive_solver.
  pose proof (count_insert Reading pcs t pc Writing Ht) as C1.
  pose proof (count_insert Writing pcs t pc Writing Ht) as C2. rewrite !decide_False in C1 by done.
  rewrite decide_False, decide_True in C2 by done.
  split; cbn [readers waitReaders waitWriters]; try done.
  - right. destruct P3 as [[? ?]|(? & ? & ?)]; lia.
  - by rewrite (size_move pcs t pc Writing Ht).
  - by apply queue_move.
  - by apply queue_move.
  - by apply threads_move.
Qed.

(** What [rwSleep] leaves of the heap and the lists. *)
Definition slept (h : H) (m : Lists) (L : gset Z) (q : list (Z * Z)) (t : Z) (h' : H) (m' : Lists) (hd node : Z) : Prop :=
  heap_ok h' ({[node]} ∪ L) /\ is_list m' hd (q ++ [(node, t)]) /\ m !! node = None /\
  (forall a, a ∉ q.*1 -> a <> node -> m' !! a = m !! a) /\ dom m' = {[node]} ∪ dom m.

Lemma node_fresh (m : Lists) h q node : is_list m h q -> m !! node = None -> node ∉ q.*1.
Proof. intros [Hc _] Hn Hi. eapply chain_dom in Hi; [|exact Hc]. by apply not_elem_of_dom in Hn. Qed.

Lemma threads_sleep (th : gmap Z XTThread) (pcs : Pcs) t y p1 : p1 = RWait \/ p1 = WWait ->
  (forall t pc, pcs !! t = Some pc -> on_cpu th t \/ (waits th t /\ (pc = RWait \/ pc = WWait))) ->
  forall u pc, <[t := p1]> pcs !! u = Some pc ->
    on_cpu (<[t := waiting y]> th) u \/ (waits (<[t := waiting y]> th) u /\ (pc = RWait \/ pc = WWait)).
Proof.
  intros Hp Hth u pc. rewrite waits_waiting. destruct (decide (u = t)) as [->|Hu].
  - rewrite lookup_insert_eq. intros [= <-]. auto.
  - rewrite lookup_insert_ne by done. intros [Hc|[Hw ?]]%Hth; [left; by apply on_cpu_waiting|auto].
Qed.

Lemma counts_move n (pcs : Pcs) t p0 p1 : pcs !! t = Some p0 -> p0 <> Reading -> p0 <> Writing ->
  p1 <> Reading -> p1 <> Writing -> counts n pcs -> counts n (<[t := p1]> pcs).
Proof.
  intros Ht N1 N2 N3 N4. unfold counts. pose proof (count_insert Reading pcs t p0 p1 Ht) as C1.
  pose proof (count_insert Writing pcs t p0 p1 Ht) as C2. rewrite !decide_False in C1 by done.
  rewrite !decide_False in C2 by done. lia.
Qed.

Lemma woken_sleep th pcs t p0 p1 y : pcs !! t = Some p0 -> p0 <> WWait -> woken_writer th pcs ->
  woken_writer (<[t := waiting y]> th) (<[t := p1]> pcs).
Proof.
  intros Ht Hp (u & Hu & Hc). assert (u <> t) by (intros ->; congruence). exists u.
  rewrite lookup_insert_ne by done. split; [done|]. by apply on_cpu_waiting.
Qed.

Lemma read_sleep h m th pcs x L lr lw t pc y h' m' hd node sp :
  parts_ok (mkListHeap h m) th pcs x L lr lw -> pcs !! t = Some pc -> pc = Out \/ pc = RWait -> on_cpu th t ->
  readers x = -1 \/ waitWriters x <> NULL -> slept h m L lr t h' m' hd node ->
  parts_ok (mkListHeap h' m') (<[t := waiting y]> th) (<[t := RWait]> pcs)
    (mkRW sp (readers x) hd (waitWriters x)) ({[node]} ∪ L) (lr ++ [(node, t)]) lw.
Proof.
  intros [P1 P2 P3 P4 P5 P6 P7 P8 P9 P10] Ht Hpc Hc Hr (S1 & S2 & S3 & S4 & S5). cbn [heap lists] in *.
  assert (node ∉ lw.*1) as Hnw by (eapply node_fresh; [apply P6|done]).
  assert (waitWriters x <> NULL -> lw <> []) as Hlw by (intros Hn ->; destruct P6 as ((E & _) & _); done).
  split; cbn [heap lists readers waitReaders waitWriters]; try done.
  - rewrite S5. clear -P2. set_solver.
  - apply (counts_move _ _ t pc); [done|naive_solver..|done].
  - by rewrite (size_move pcs t pc RWait Ht).
  - by eapply queue_enqueue.
  - apply (queue_frame m); [done|done|done|]. intros a Ha. apply S4; [|by intros ->]. intros Ha'. by apply (P7 a).
  - intros a. rewrite fmap_app, elem_of_app. cbn. rewrite list_elem_of_singleton. intros [Ha| ->]; auto.
  - apply threads_sleep; auto.
  - intros Hn _. left. naive_solver.
  - intros Hz Hne. apply (woken_sleep th pcs t pc); [done|naive_solver|]. auto.
Qed.

Lemma write_sleep h m th pcs x L lr lw t pc y h' m' hd node sp :
  parts_ok (mkListHeap h m) th pcs x L lr lw -> pcs !! t = Some pc -> pc = Out \/ pc = WWait -> on_cpu th t ->
  readers x <> 0 -> slept h m L lw t h' m' hd node ->
  parts_ok (mkListHeap h' m') (<[t := waiting y]> th) (<[t := WWait]> pcs)
    (mkRW sp (readers x) (waitReaders x) hd) ({[node]} ∪ L) lr (lw ++ [(node, t)]).
Proof.
  intros [P1 P2 P3 P4 P5 P6 P7 P8 P9 P10] Ht Hpc Hc Hr (S1 & S2 & S3 & S4 & S5). cbn [heap lists] in *.
  assert (node ∉ lr.*1) as Hnw by (eapply node_fresh; [apply P5|done]).
  split; cbn [heap lists readers waitReaders waitWriters]; try done.
  - rewrite S5. clear -P2. set_solver.
  - apply (counts_move _ _ t pc); [done|naive_solver..|done].
  - by rewrite (size_move pcs t pc WWait Ht).
  - apply (queue_frame m); [done|done|done|]. intros a Ha. apply S4; [|by intros ->]. by apply P7.
  - by eapply queue_enqueue.
  - intros a Ha. rewrite fmap_app, elem_of_app. cbn. rewrite list_elem_of_singleton. intros [Ha'| ->]; [|done]. by apply (P7 a).
  - apply threads_sleep; auto.
  - intros _ _. left. by destruct lw.
Qed.

(** A reader or writer leaves, nobody is woken. *)
Lemma leave lh th pcs x L lr lw t p0 n :
  parts_ok (H := H) lh th pcs x L lr lw -> pcs !! t = Some p0 -> p0 = Reading \/ p0 = Writing -> on_cpu th t ->
  counts n (<[t := Out]> pcs) -> (n = 0 -> lw = []) -> readers x <> -1 \/ lr = [] \/ lw <> [] ->
  parts_ok lh th (<[t := Out]> pcs) (mkRW false n (waitReaders x) (waitWriters x)) L lr lw.
Proof.
  intros [P1 P2 P3 P4 P5 P6 P7 P8 P9 P10] Ht Hp Hc Hn Hw Hr.
  split; cbn [heap lists readers waitReaders waitWriters]; try done.
  - by rewrite (size_move pcs t p0 Out Ht).
  - by apply queue_move.
  - by apply queue_move.
  - by apply threads_move.
  - intros _ Hlr. destruct Hr as [Hr|[?|?]]; [|done|by left].
    destruct (P9 Hr Hlr) as [?|?]; [by left|right]. eapply woken_move; [done|naive_solver|done].
  - naive_solver.
Qed.

(** A reader or writer leaves and the first waiting writer is woken. *)
Lemma leave_waking h m th pcs x L lr a w lw t p0 n y h' hd :
  parts_ok (mkListHeap h m) th pcs x L lr ((a, w) :: lw) -> pcs !! t = Some p0 -> p0 = Reading \/ p0 = Writing ->
  on_cpu th t -> counts n (<[t := Out]> pcs) -> heap_ok h' (L ∖ {[a]}) -> is_list (delete a m) hd lw ->
  parts_ok (mkListHeap h' (delete a m)) (<[w := awake y]> th) (<[t := Out]> pcs)
    (mkRW false n (waitReaders x) hd) (L ∖ {[a]}) lr lw.
Proof.
  intros [P1 P2 P3 P4 P5 P6 P7 P8 P9 P10] Ht Hp Hc Hn Hok Hl. cbn [heap lists] in *.
  assert (pcs !! w = Some WWait /\ waits th w) as [Hw Hww] by (apply P6; cbn; set_solver).
  assert (w <> t) as Hwt by (intros ->; by apply (on_cpu_not_waits th t)).
  assert (<[t := Out]> pcs !! w = Some WWait) as Hw' by (by rewrite lookup_insert_ne).
  assert (woken_writer (<[w := awake y]> th) (<[t := Out]> pcs)) as Hwk by (exists w; split; [done|apply on_cpu_awake; auto]).
  split; cbn [heap lists readers waitReaders waitWriters]; try done.
  - rewrite dom_delete_L. clear -P2. set_solver.
  - by rewrite (size_move pcs t p0 Out Ht).
  - apply (queue_wake_other m _ th _ RWait WWait); [done|exact Hw'|by apply queue_move|]. intros b Hb. rewrite lookup_delete_ne; [done|].
    intros ->. apply (P7 b Hb). cbn. apply elem_of_cons. by left.
  - eapply queue_dequeue; [by apply queue_move|done].
  - intros b Hb Hb'. apply (P7 b Hb). cbn. apply elem_of_cons. by right.
  - intros u pc Hu. destruct (threads_move th pcs t Out Hc P8 u pc Hu) as [?|[? ?]]; [left; apply on_cpu_awake; auto|].
    destruct (decide (u = w)) as [->|]; [left; apply on_cpu_awake; auto|right]. by rewrite waits_awake.
  - auto.
Qed.

(** A writer leaves, no writer waits and all readers are woken; their nodes stay allocated. *)
Lemma leave_waking_all lh th pcs x L lr t :
  parts_ok (H := H) lh th pcs x L lr [] -> pcs !! t = Some Writing -> on_cpu th t -> counts 0 (<[t := Out]> pcs) ->
  parts_ok lh (awake_all lr.*2 th) (<[t := Out]> pcs) (mkRW false 0 NULL (waitWriters x)) L [] [].
Proof.
  intros [P1 P2 P3 P4 P5 P6 P7 P8 P9 P10] Ht Hc Hn. pose proof P5 as (_ & Hnd & Hlr).
  assert (forall u, waits (awake_all lr.*2 th) u -> u ∉ lr.*2 /\ waits th u) as Hw.
  { intros u (z & Hz & Hs). destruct (decide (u ∈ lr.*2)) as [Hu|Hu].
    - rewrite alter_all_in in Hz by done. destruct (th !! u) as [z0|]; [|done]. injection Hz as <-.
      pose proof (awake_runs z0) as Hr. unfold is_run in Hr. by rewrite Hs in Hr.
    - rewrite alter_all_other in Hz by done. split; [done|]. by exists z. }
  assert (forall u, on_cpu th u \/ u ∈ lr.*2 -> on_cpu (awake_all lr.*2 th) u) as Hcpu.
  { intros u Hu. destruct (decide (u ∈ lr.*2)) as [Hi|Hi].
    - unfold on_cpu. rewrite alter_all_in by done. destruct (proj1 (Hlr u) Hi) as (_ & z & -> & _).
      cbn. eexists. split; [done|]. apply awake_runs.
    - unfold on_cpu. rewrite alter_all_other by done. naive_solver. }
  split; cbn [readers waitReaders waitWriters]; try done.
  - by rewrite (size_move pcs t Writing Out Ht).
  - split; [split; [done|apply NoDup_nil_2]|]. split; [apply NoDup_nil_2|]. intros u. split; [set_solver|].
    intros [Hu (Hu1 & Hu2)%Hw]. exfalso. apply Hu1, Hlr. split; [|done].
    destruct (decide (u = t)) as [->|]; [by rewrite lookup_insert_eq in Hu|]. by rewrite lookup_insert_ne in Hu.
  - destruct P6 as (Q1 & Q2 & Q3). split; [done|]. split; [done|]. intros u. split; [set_solver|].
    intros [Hu (_ & Hu2)%Hw]. apply Q3. split; [|done].
    destruct (decide (u = t)) as [->|]; [by rewrite lookup_insert_eq in Hu|]. by rewrite lookup_insert_ne in Hu.
  - cbn. set_solver.
  - intros u pc Hu. left. apply Hcpu. destruct (decide (u = t)) as [->|]; [auto|]. rewrite lookup_insert_ne in Hu by done.
    destruct (P8 u pc Hu) as [?|[Hwu [->| ->]]]; [auto|right; by apply Hlr|].
    exfalso. assert (u ∈ ([] : list (Z * Z)).*2) as Hx by (by apply P6). set_solver.
Qed.

(** ** The steps *)

Lemma read_try_ok k c lh th b n r w lr lw L pcs y v k' :
  parts_ok lh th pcs (mkRW false n r w) L lr lw -> th !! c = Some y ->
  acquire_read_try l (st l k c lh th b (mkRW false n r w)) = Ok v k' ->
  if v then n <> -1 /\ w = NULL /\ k' = st l k c lh th true (mkRW false (s32 (n + 1)) r w)
  else (n = -1 \/ w <> NULL) /\ exists h' m' hd node, slept (heap lh) (lists lh) L lr c h' m' hd node /\
    k' = st l k c (mkListHeap h' m') (<[c := waiting y]> th) true (mkRW false n hd w).
Proof.
  intros P Hy. destruct lh as [h m]. unfold acquire_read_try. rewrite (bind_Ok _ _ _ _ _ (lock_rw l k c _ th b n r w)).
  rewrite (bind_Ok _ _ _ _ _ (load_rw l k c _ th false _)). cbn [readers waitWriters].
  destruct ((n =? -1) || negb (w =? NULL)) eqn:E.
  - intros ([] & k1 & R1 & R2)%bind_Ok_inv.
    eapply rwSleep_ok in R1 as (h' & m' & hd & node & Ek & S1 & S2 & S3 & S4 & S5);
      [|apply reader_law|apply (parts_readers _ _ _ _ _ _ _ P)|apply (parts_heap _ _ _ _ _ _ _ P)|apply (parts_dom _ _ _ _ _ _ _ P)|done].
    rewrite Ek in R2. unfold set_wr in R2. cbn [spinlock readers waitWriters] in R2.
    rewrite (bind_Ok _ _ _ _ _ (unlock_rw l k c _ _ false n hd w)) in R2.
    injection R2 as <- <-. split; [destruct (n =? -1) eqn:E1; zbool; [by left|right; naive_solver]|].
    exists h', m', hd, node. done.
  - unfold set_readers. rewrite (bind_Ok _ _ _ _ _ (assign_rw l k c _ th false _ _)). cbn [spinlock readers waitReaders waitWriters].
    rewrite (bind_Ok _ _ _ _ _ (unlock_rw l k c _ th false _ r w)). intros [= <- <-]. zbool. done.
Qed.

Lemma write_try_ok k c lh th b n r w lr lw L pcs y v k' :
  parts_ok lh th pcs (mkRW false n r w) L lr lw -> th !! c = Some y ->
  acquire_write_try l (st l k c lh th b (mkRW false n r w)) = Ok v k' ->
  if v then n = 0 /\ k' = st l k c lh th true (mkRW false (-1) r w)
  else n <> 0 /\ exists h' m' hd node, slept (heap lh) (lists lh) L lw c h' m' hd node /\
    k' = st l k c (mkListHeap h' m') (<[c := waiting y]> th) true (mkRW false n r hd).
Proof.
  intros P Hy. destruct lh as [h m]. unfold acquire_write_try. rewrite (bind_Ok _ _ _ _ _ (lock_rw l k c _ th b n r w)).
  rewrite (bind_Ok _ _ _ _ _ (load_rw l k c _ th false _)). cbn [readers waitWriters].
  destruct (n =? 0) eqn:E; cbn [negb]; zbool.
  - unfold set_readers. rewrite (bind_Ok _ _ _ _ _ (assign_rw l k c _ th false _ _)). cbn [spinlock readers waitReaders waitWriters].
    rewrite (bind_Ok _ _ _ _ _ (unlock_rw l k c _ th false _ r w)). intros [= <- <-]. done.
  - intros ([] & k1 & R1 & R2)%bind_Ok_inv.
    eapply rwSleep_ok in R1 as (h' & m' & hd & node & Ek & S1 & S2 & S3 & S4 & S5);
      [|apply writer_law|apply (parts_writers _ _ _ _ _ _ _ P)|apply (parts_heap _ _ _ _ _ _ _ P)|apply (parts_dom _ _ _ _ _ _ _ P)|done].
    rewrite Ek in R2. unfold set_ww in R2. cbn [spinlock readers waitReaders] in R2. rewrite (bind_Ok _ _ _ _ _ (unlock_rw l k c _ _ false n r hd)) in R2.
    injection R2 as <- <-. split; [done|]. exists h', m', hd, node. done.
Qed.

Lemma queue_threads m th pcs p h q : queue_ok m th pcs p h q -> forall t, t ∈ q.*2 -> is_Some (th !! t).
Proof. intros (_ & _ & Hq) t Ht. destruct (proj1 (Hq t) Ht) as (_ & y & Hy & _). eauto. Qed.

Lemma release_read_ok k c h m th b n r w lr lw L pcs :
  parts_ok (mkListHeap h m) th pcs (mkRW false n r w) L lr lw ->
  let n' := s32 (n - 1) in
  match (if n' =? 0 then lw else []) with
  | [] => xtReleaseRead l (st l k c (mkListHeap h m) th b (mkRW false n r w)) =
            Ok tt (st l k c (mkListHeap h m) th true (mkRW false n' r w))
  | (a, t) :: lw' => exists h' hd y,
      xtReleaseRead l (st l k c (mkListHeap h m) th b (mkRW false n r w)) =
        Ok tt (st l k c (mkListHeap h' (delete a m)) (<[t := awake y]> th) true (mkRW false n' r hd)) /\
      heap_ok h' (L ∖ {[a]}) /\ is_list (delete a m) hd lw'
  end.
Proof.
  intros P n'. pose proof (parts_writers _ _ _ _ _ _ _ P) as Hw. unfold xtReleaseRead, set_readers.
  rewrite (bind_Ok _ _ _ _ _ (lock_rw l k c _ th b n r w)).
  rewrite (bind_Ok _ _ _ _ _ (assign_rw l k c _ th false _ _)). cbn [spinlock readers waitReaders waitWriters].
  fold n'. rewrite (bind_Ok _ _ _ _ _ (load_rw l k c _ th false _)). cbn [readers].
  destruct (n' =? 0) eqn:E.
  2: { rewrite bind_ret. apply unlock_rw. }
  pose proof (rwWakeOne_ok l (writer_queue l) waitWriters set_ww k c h m th false (mkRW true n' r w) lw L
    (writer_law l) (proj1 Hw) (parts_heap _ _ _ _ _ _ _ P) (parts_dom _ _ _ _ _ _ _ P) (queue_threads _ _ _ _ _ _ Hw)) as R.
  destruct lw as [|[a t] lw].
  - rewrite (bind_Ok _ _ _ _ _ R). apply unlock_rw.
  - destruct R as (h' & hd & y & _ & R & R2 & R3). exists h', hd, y. split; [|done].
    rewrite (bind_Ok _ _ _ _ _ R). apply unlock_rw.
Qed.

Lemma release_write_ok k c h m th b n r w lr lw L pcs :
  parts_ok (mkListHeap h m) th pcs (mkRW false n r w) L lr lw ->
  match lw with
  | [] => xtReleaseWrite l (st l k c (mkListHeap h m) th b (mkRW false n r w)) =
            Ok tt (st l k c (mkListHeap h m) (awake_all lr.*2 th) true (mkRW false 0 NULL w))
  | (a, t) :: lw' => exists h' hd y,
      xtReleaseWrite l (st l k c (mkListHeap h m) th b (mkRW false n r w)) =
        Ok tt (st l k c (mkListHeap h' (delete a m)) (<[t := awake y]> th) true (mkRW false 0 r hd)) /\
      heap_ok h' (L ∖ {[a]}) /\ is_list (delete a m) hd lw'
  end.
Proof.
  intros P. pose proof (parts_writers _ _ _ _ _ _ _ P) as Hw. pose proof (parts_readers _ _ _ _ _ _ _ P) as Hr.
  unfold xtReleaseWrite, set_readers. rewrite (bind_Ok _ _ _ _ _ (lock_rw l k c _ th b n r w)).
  rewrite (bind_Ok _ _ _ _ _ (assign_rw l k c _ th false _ _)). cbn [spinlock readers waitReaders waitWriters].
  rewrite (bind_Ok _ _ _ _ _ (load_rw l k c _ th false _)). cbn [waitWriters].
  pose proof (rwWakeOne_ok l (writer_queue l) waitWriters set_ww k c h m th false (mkRW true 0 r w) lw L
    (writer_law l) (proj1 Hw) (parts_heap _ _ _ _ _ _ _ P) (parts_dom _ _ _ _ _ _ _ P) (queue_threads _ _ _ _ _ _ Hw)) as R.
  destruct lw as [|[a t] lw].
  - assert (w = NULL) as -> by (by destruct Hw as ((E & _) & _)). cbn [Z.eqb NULL negb].
    rewrite (bind_Ok _ _ _ _ _ (rwWakeAll_ok l (reader_queue l) waitReaders set_wr k c h m th false (mkRW true 0 r NULL) lr
      (reader_law l) (proj1 Hr) (queue_threads _ _ _ _ _ _ Hr))). apply unlock_rw.
  - assert (w <> NULL) as Hw0 by (destruct Hw as ((E & _) & _); by apply (chain_nonnull next data) in E).
    rewrite (proj2 (Z.eqb_neq _ _) Hw0). cbn [negb].
    destruct R as (h' & hd & y & _ & R & R2 & R3). exists h', hd, y. split; [|done].
    rewrite (bind_Ok _ _ _ _ _ R). apply unlock_rw.
Qed.

Lemma inv_st k c lh th b n r w pcs L lr lw :
  parts_ok lh th pcs (mkRW false n r w) L lr lw -> rw_inv l (st l k c lh th b (mkRW false n r w), pcs).
Proof. intros P. exists (mkRW false n r w), L, lr, lw. split; [apply lookup_insert_eq|]. by split. Qed.

Lemma leave_counts (pcs : Pcs) t n : pcs !! t = Some Reading -> Z.of_nat (size pcs) < 2 ^ 31 -> counts n pcs ->
  counts (s32 (n - 1)) (<[t := Out]> pcs) /\ n <> -1.
Proof.
  intros Ht Hs Hn. pose proof (count_insert Reading pcs t Reading Out Ht) as C1.
  pose proof (count_insert Writing pcs t Reading Out Ht) as C2. rewrite decide_True, decide_False in C1 by done.
  rewrite !decide_False in C2 by done. pose proof (count_le Reading pcs).
  unfold counts in *. assert (s32 (n - 1) = n - 1) as -> by (unfold s32; rewrite Z.mod_small; lia). lia.
Qed.

Lemma leave_write_counts (pcs : Pcs) t n : pcs !! t = Some Writing -> counts n pcs -> counts 0 (<[t := Out]> pcs) /\ n = -1.
Proof.
  intros Ht Hn. pose proof (count_insert Reading pcs t Writing Out Ht) as C1.
  pose proof (count_insert Writing pcs t Writing Out Ht) as C2. rewrite !decide_False in C1 by done.
  rewrite decide_True, decide_False in C2 by done. unfold counts in *. lia.
Qed.

Lemma step_inv c c' : rw_inv l c -> step l c c' -> rw_inv l c'.
Proof.
  intros (x & L & lr & lw & Hx & Hs & P) Hst. destruct x as [sp n r w]. cbn in Hs. subst sp.
  destruct Hst as [k pcs t pc b k' Ht Hpc Hc R|k pcs t k' Ht Hc R|k pcs t pc b k' Ht Hpc Hc R|k pcs t k' Ht Hc R];
    cbn [fst snd] in *; rewrite (st_of l k _ t Hx) in R; pose proof Hc as (y & Hy & _); destruct (mem k) as [h m].
  - eapply read_try_ok in R; [|done|done]. destruct b.
    + destruct R as (R1 & R2 & ->). eapply inv_st. by apply (read_enter _ _ _ (mkRW false n r w) _ _ _ t pc).
    + destruct R as (R1 & h' & m' & hd & node & Sl & ->). eapply inv_st.
      by apply (read_sleep h m (thr k) pcs (mkRW false n r w) L lr lw t pc).
  - pose proof (parts_counts _ _ _ _ _ _ _ P) as Hn. cbn [readers] in Hn.
    destruct (leave_counts pcs t n Ht (parts_size _ _ _ _ _ _ _ P) Hn) as [Hn' Hn1].
    pose proof (release_read_ok k t h m (thr k) (interrupts k) n r w lr lw L pcs P) as K. cbn zeta in K.
    destruct (s32 (n - 1) =? 0) eqn:E; [destruct lw as [|[a u] lw]|]; zbool.
    + rewrite K in R. injection R as <-. eapply inv_st. apply (leave _ _ _ (mkRW false n r w) _ _ _ t Reading); [done|done|by left|done|done|done|by left].
    + destruct K as (h' & hd & z & K & K2 & K3). rewrite K in R. injection R as <-. eapply inv_st.
      apply (leave_waking h m (thr k) pcs (mkRW false n r w) L lr a u lw t Reading); auto.
    + rewrite K in R. injection R as <-. eapply inv_st. apply (leave _ _ _ (mkRW false n r w) _ _ _ t Reading); [done|done|by left|done|done|done|by left].
  - eapply write_try_ok in R; [|done|done]. destruct b.
    + destruct R as (R1 & ->). eapply inv_st. by apply (write_enter _ _ _ (mkRW false n r w) _ _ _ t pc).
    + destruct R as (R1 & h' & m' & hd & node & Sl & ->). eapply inv_st.
      by apply (write_sleep h m (thr k) pcs (mkRW false n r w) L lr lw t pc).
  - pose proof (parts_counts _ _ _ _ _ _ _ P) as Hn. destruct (leave_write_counts pcs t n Ht Hn) as [Hn' ->].
    pose proof (release_write_ok k t h m (thr k) (interrupts k) (-1) r w lr lw L pcs P) as K.
    destruct lw as [|[a u] lw].
    + rewrite K in R. injection R as <-. eapply inv_st. by apply (leave_waking_all _ _ _ (mkRW false (-1) r w)).
    + destruct K as (h' & hd & z & K & K2 & K3). rewrite K in R. injection R as <-. eapply inv_st.
      apply (leave_waking h m (thr k) pcs (mkRW false (-1) r w) L lr a u lw t Writing); auto.
Qed.

Lemma init_inv c : rw_init l c -> rw_inv l c.
Proof.
  intros (Hx & (L & HL & Hd) & Hs & Hpc). exists (mkRW false 0 NULL NULL), L, [], []. split; [done|]. split; [done|].
  assert (forall p, p <> Out -> count p c.2 = 0%nat) as C.
  { intros p Hp. apply map_size_empty_iff, map_empty_filter_2. intros t pc Ht. cbn. destruct (Hpc t pc Ht). naive_solver. }
  assert (forall p, p <> Out -> queue_ok (lists (mem c.1)) (thr c.1) c.2 p NULL []) as Q.
  { intros p Hp. split; [split; [done|apply NoDup_nil_2]|]. split; [apply NoDup_nil_2|]. intros t. split; [cbn; set_solver|].
    intros [Ht _]. destruct (Hpc t p Ht). done. }
  split; cbn [readers waitReaders waitWriters]; try done; [left; rewrite !C by done; done|by apply Q|by apply Q|cbn; set_solver|].
  intros t pc Ht. left. by destruct (Hpc t pc Ht).
Qed.

Lemma reachable_inv c0 c : rw_init l c0 -> rtc (step l) c0 c -> rw_inv l c.
Proof. intros H0 Hr. apply init_inv in H0. induction Hr; [done|]. eauto using step_inv. Qed.

(** ** The properties *)

Lemma count_pos p (pcs : Pcs) t : pcs !! t = Some p -> (1 <= count p pcs)%nat.
Proof.
  intros Ht. unfold count. destruct (decide (size (filter (fun x : Z * Pc => x.2 = p) pcs) = 0%nat)) as [E|]; [|lia].
  apply map_size_empty_iff in E. exfalso. by apply (map_filter_empty_not_lookup _ pcs t p) in E.
Qed.

Lemma count_two p (pcs : Pcs) t u : p <> Out -> pcs !! t = Some p -> pcs !! u = Some p -> t <> u -> (2 <= count p pcs)%nat.
Proof.
  intros Hp Ht Hu Hne. pose proof (count_insert p pcs t p Out Ht) as C. rewrite decide_True, decide_False in C by done.
  assert (1 <= count p (<[t := Out]> pcs))%nat by (apply (count_pos p _ u); by rewrite lookup_insert_ne). lia.
Qed.

Lemma count_some p (pcs : Pcs) : (0 < count p pcs)%nat -> exists t, pcs !! t = Some p.
Proof.
  intros Hc. unfold count in Hc. assert (filter (fun x : Z * Pc => x.2 = p) pcs <> ∅) as Hne.
  { intros E. rewrite E in Hc. rewrite map_size_empty in Hc. lia. }
  apply map_choose in Hne as (t & q & Hq). apply map_lookup_filter_Some in Hq as [Hq Hp]. cbn in Hp. subst q. eauto.
Qed.

(** C8: Mutual exclusion: in every interleaving, while a thread writes no other thread reads or writes. *)
Theorem rw_mutual_exclusion c0 c t u pc :
  rw_init l c0 -> rtc (step l) c0 c -> c.2 !! t = Some Writing -> c.2 !! u = Some pc -> u <> t ->
  pc <> Reading /\ pc <> Writing.
Proof.
  intros H0 Hr Ht Hu Hne. destruct (reachable_inv c0 c H0 Hr) as (x & L & lr & lw & _ & _ & P).
  destruct (parts_counts _ _ _ _ _ _ _ P) as [(C1 & _)|(C1 & C2 & _)].
  - pose proof (count_pos Writing c.2 t Ht). lia.
  - split; intros ->.
    + pose proof (count_pos Reading c.2 u Hu). lia.
    + pose proof (count_two Writing c.2 t u ltac:(done) Ht Hu ltac:(done)). lia.
Qed.

(** C13: No wake-up is lost: whenever a thread waits in a queue of the lock, another thread can run that holds the lock or
    is a writer about to try again. *)
Theorem rw_no_lost_wakeup c0 c t pc :
  rw_init l c0 -> rtc (step l) c0 c -> c.2 !! t = Some pc -> waits (thr c.1) t ->
  exists u, on_cpu (thr c.1) u /\ (c.2 !! u = Some Reading \/ c.2 !! u = Some Writing \/ c.2 !! u = Some WWait).
Proof.
  intros H0 Hr Ht Hw. destruct (reachable_inv c0 c H0 Hr) as (x & L & lr & lw & _ & _ & P).
  assert (forall u p, c.2 !! u = Some p -> p = Reading \/ p = Writing -> on_cpu (thr c.1) u) as Hin.
  { intros u p Hu Hp. destruct (parts_threads _ _ _ _ _ _ _ P u p Hu) as [?|[_ ?]]; [done|naive_solver]. }
  assert (woken_writer (thr c.1) c.2 -> exists u, on_cpu (thr c.1) u /\
    (c.2 !! u = Some Reading \/ c.2 !! u = Some Writing \/ c.2 !! u = Some WWait)) as Hww by (intros (u & ? & ?); eauto).
  destruct (parts_counts _ _ _ _ _ _ _ P) as [(C1 & C2)|(C1 & C2 & C3)].
  - destruct (decide (count Reading c.2 = 0%nat)) as [E|E].
    + apply Hww. assert (readers x = 0) as Hz by lia.
      assert (lw <> [] -> woken_writer (thr c.1) c.2) as K by (by apply (parts_free_writers _ _ _ _ _ _ _ P)).
      destruct (parts_threads _ _ _ _ _ _ _ P t pc Ht) as [Hc|[_ [-> | ->]]]; [by apply on_cpu_not_waits in Hc| |].
      * assert (t ∈ lr.*2) as Hin2 by (by apply (parts_readers _ _ _ _ _ _ _ P)).
        destruct (parts_free_readers _ _ _ _ _ _ _ P) as [?|?]; [lia|intros ->; clear -Hin2; set_solver|auto|done].
      * apply K. assert (t ∈ lw.*2) as Hin2 by (by apply (parts_writers _ _ _ _ _ _ _ P)). intros ->. clear -Hin2. set_solver.
    + destruct (count_some Reading c.2) as [u Hu]; [lia|]. exists u. split; [apply (Hin u Reading); auto|auto].
  - destruct (count_some Writing c.2) as [u Hu]; [lia|]. exists u. split; [apply (Hin u Writing); auto|auto].
Qed.

(** When the node of the wait queue cannot be allocated, [xtAcquireRead] returns the error with the spinlock held and
    interrupts off; the next call on the lock spins for ever. *)
Theorem rw_acquire_oom_keeps_spinlock (k : Kernel H) r w e h' env :
  rwlocks (objs k) !! l = Some (mkRW false (-1) r w) -> xtHeapAlloc 16 (heap (mem k)) = Err e h' ->
  exists k', xtAcquireRead l env k = Err e k' /\ rwlocks (objs k') !! l = Some (mkRW true (-1) r w) /\
    interrupts k' = false /\ xtReleaseWrite l k' = OutOfFuel.
Proof.
  intros Hx Ha. assert (k = st l k (currentThread k) (mem k) (thr k) (interrupts k) (mkRW false (-1) r w)) as Ek.
  { pose proof (st_of l k _ (currentThread k) Hx) as E. by destruct k. }
  destruct (mem k) as [h m] eqn:Em. cbn [heap] in Ha.
  set (c := currentThread k) in *. set (th := thr k) in *.
  assert (acquire_read_try l k = Err e (st l k c (mkListHeap h' m) th false (mkRW true (-1) r w))) as R.
  { rewrite Ek at 1. unfold acquire_read_try. rewrite (bind_Ok _ _ _ _ _ (lock_rw l k c _ th _ (-1) r w)).
    rewrite (bind_Ok _ _ _ _ _ (load_rw l k c _ th false _)). cbn [readers waitWriters Z.eqb Pos.eqb orb].
    apply bind_Err. unfold rwSleep, gets. rewrite (bind_Ok _ _ _ c (st l k c (mkListHeap h m) th false (mkRW true (-1) r w))) by done.
    apply bind_Err. unfold on_mem, zoom. cbn [mem st]. unfold xtCreateList, mbind, M_bind, on_heap, zoom. cbn [heap]. by rewrite Ha. }
  exists (st l k c (mkListHeap h' m) th false (mkRW true (-1) r w)). split; [|split; [apply lookup_insert_eq|split; [done|]]].
  - unfold xtAcquireRead. destruct env; cbn [acquire_loop length]; by apply bind_Err.
  - unfold xtReleaseWrite, xtLockSpinlock, acquire, rw_lock, mbind, M_bind, modify. cbn [test write].
    unfold on_rwlocks, zoom. cbn [objs st set_interrupts rwlocks]. unfold mbind, M_bind, load, deref, assign.
    rewrite lookup_insert_eq. cbn [mret M_ret spinlock objs set_objs rwlocks]. by rewrite lookup_insert_eq.
Qed.

End Preserve.

(** * Two threads and a lock *)

Definition two_pcs : Pcs := {[1 := Out; 2 := Out]}.

(** The lock is at 0x500. *)
Definition lock_kernel : Kernel Bump :=
  mkKernel (mkListHeap bump_empty ∅) {[1 := sample_thread 1 20; 2 := sample_thread 1 20]} 0 0 0 0 1 true
    (mkObjects ∅ {[0x500 := mkRW false 0 NULL NULL]} ∅).

Definition run_step {X} (m : M (Kernel Bump) X) (k : Kernel Bump) : Kernel Bump :=
  match m k with Ok _ k' => k' | _ => k end.

(** Thread 1 writes and thread 2 has queued up for reading. *)
Definition conf1 : Kernel Bump * Pcs :=
  (run_step (acquire_write_try 0x500) (set_current 1 lock_kernel), <[1 := Writing]> two_pcs).

Definition conf2 : Kernel Bump * Pcs :=
  (run_step (acquire_read_try 0x500) (set_current 2 conf1.1), <[2 := RWait]> conf1.2).

Lemma lock_init : rw_init 0x500 (lock_kernel, two_pcs).
Proof.
  split; [done|]. split; [exists ∅; split; [apply bump_empty_ok|set_solver]|]. split; [done|].
  intros t pc. cbn. unfold two_pcs. rewrite lookup_insert_Some, lookup_singleton_Some.
  intros [[<- <-]|[_ [<- <-]]]; (split; [done|]; eexists; split; [reflexivity|done]).
Qed.

Lemma conf2_reachable : rtc (step 0x500) (lock_kernel, two_pcs) conf2.
Proof.
  apply (rtc_l _ _ conf1).
  - apply (step_acquire_write 0x500 lock_kernel two_pcs 1 Out true); [done|auto| |by vm_compute].
    eexists. split; [reflexivity|done].
  - apply rtc_once. apply (step_acquire_read 0x500 conf1.1 conf1.2 2 Out false); [done|auto| |by vm_compute].
    eexists. split; [reflexivity|done].
Qed.

Lemma rw_mutual_exclusion_witness : RWait <> Reading /\ RWait <> Writing.
Proof.
  apply (rw_mutual_exclusion 0x500 (lock_kernel, two_pcs) conf2 1 2 RWait lock_init conf2_reachable);
    [reflexivity|reflexivity|discriminate].
Defined.

Lemma rw_no_lost_wakeup_witness :
  exists u, on_cpu (thr conf2.1) u /\ (conf2.2 !! u = Some Reading \/ conf2.2 !! u = Some Writing \/ conf2.2 !! u = Some WWait).
Proof.
  apply (rw_no_lost_wakeup 0x500 (lock_kernel, two_pcs) conf2 2 RWait lock_init conf2_reachable); [reflexivity|].
  eexists. split; [reflexivity|reflexivity].
Defined.

(** A heap with no memory left. *)
Definition full_free (p : Z) : M unit unit := if p =? NULL then throw XT_INVALID_PARAMETER else mret tt.

Definition full_ok (_ : unit) (L : gset Z) : Prop := NULL ∉ L.

Lemma full_alloc_fresh (h : unit) L (n p : Z) h' : full_ok h L -> throw (S := unit) (A := Z) XT_OUT_OF_MEMORY h = Ok p h' ->
  p <> NULL /\ (p ∉ L) /\ full_ok h' ({[p]} ∪ L).
Proof. done. Qed.

Lemma full_free_live (h : unit) L p : full_ok h L -> p ∈ L -> exists h', full_free p h = Ok tt h' /\ full_ok h' (L ∖ {[p]}).
Proof.
  unfold full_ok, full_free. intros HL Hp. exists tt. rewrite (proj2 (Z.eqb_neq p NULL)) by (intros ->; done).
  destruct h. split; [done|set_solver].
Qed.

Definition Full_Allocator : Allocator unit := {|
  xtHeapAlloc := fun _ => throw XT_OUT_OF_MEMORY;
  xtHeapFree := full_free;
  heap_ok := full_ok;
  alloc_fresh := full_alloc_fresh;
  free_live := full_free_live;
  free_null := fun h => eq_refl
|}.

Definition full_kernel : Kernel unit :=
  mkKernel (mkListHeap tt ∅) {[1 := sample_thread 1 20]} 0 0 0 0 1 true (mkObjects ∅ {[0x500 := mkRW false (-1) NULL NULL]} ∅).

Lemma rw_acquire_oom_keeps_spinlock_witness :
  exists k', xtAcquireRead (A := Full_Allocator) 0x500 [] full_kernel = Err XT_OUT_OF_MEMORY k' /\
    rwlocks (objs k') !! 0x500 = Some (mkRW true (-1) NULL NULL) /\ interrupts k' = false /\
    xtReleaseWrite (A := Full_Allocator) 0x500 k' = OutOfFuel.
Proof.
  apply (rw_acquire_oom_keeps_spinlock (A := Full_Allocator) 0x500 full_kernel NULL NULL XT_OUT_OF_MEMORY tt []);
    reflexivity.
Defined.
