(* ===== verification/Mutex.v ===== *)
(** Mutexes and events (xtkernel/mutex.c, event.c): the interleavings of the
    threads that lock one mutex, and what waiting for events returns. *)
From Stdlib Require Import ZArith Lia.
From stdpp Require Import base tactics list gmap fin_maps numbers.
From S2P Require Import Prelude Allocator ListC Threads Sync RwLock.

Open Scope Z_scope.

(** Where a thread is: outside, registered in [xtLockMutex] but not yet asleep,
    in [xtSleepThread], holding the mutex. *)
Inductive MPc := MOut | MQueued | MAsleep | MHolding.

Notation MPcs := (gmap Z MPc).

Create HintDb keep.

Section Mutex.
Context {H : Type} {A : Allocator H}.
Variable m : Z.

(** One section of one thread. *)
Inductive mstep : Kernel H * MPcs -> Kernel H * MPcs -> Prop :=
| mstep_try k pcs t pc b k' :
    pcs !! t = Some pc -> pc = MOut \/ pc = MAsleep -> on_cpu (thr k) t ->
    lock_mutex_try m t (set_current t k) = Ok b k' ->
    mstep (k, pcs) (k', <[t := if b then MHolding else MQueued]> pcs)
| mstep_sleep k pcs t k' :
    pcs !! t = Some MQueued -> on_cpu (thr k) t ->
    sleep_mark t UINT64_MAX (set_current t k) = Ok tt k' ->
    mstep (k, pcs) (k', <[t := MAsleep]> pcs)
| mstep_unlock k pcs t k' :
    pcs !! t = Some MHolding -> on_cpu (thr k) t ->
    xtUnlockMutex m (set_current t k) = Ok tt k' ->
    mstep (k, pcs) (k', <[t := MOut]> pcs).

(** * What a call leaves alone *)

(** A field of the mutex. *)
Definition field {X} (g : XTMutex -> X) (k : Kernel H) : option X := g <$> mutexes (objs k) !! m.

Definition keeps_field {X B} (g : XTMutex -> X) (f : M (Kernel H) B) : Prop :=
  forall k a k', f k = Ok a k' -> field g k' = field g k.

Lemma keeps_bind {X B C} (g : XTMutex -> X) (f : M (Kernel H) B) (h : B -> M (Kernel H) C) :
  keeps_field g f -> (forall b, keeps_field g (h b)) -> keeps_field g (f ≫= h).
Proof. intros Hf Hh k c k' (b & k1 & R1 & R2)%bind_Ok_inv. rewrite (Hh _ _ _ _ R2). by eapply Hf. Qed.

Lemma keeps_ret {X B} (g : XTMutex -> X) (b : B) : keeps_field g (mret b).
Proof. by intros k a k' [= _ <-]. Qed.

Lemma keeps_gets {X B} (g : XTMutex -> X) (f : Kernel H -> B) : keeps_field g (gets f).
Proof. by intros k a k' [= _ <-]. Qed.

Lemma keeps_throw {X B} (g : XTMutex -> X) c : keeps_field g (throw (A := B) c).
Proof. done. Qed.

Lemma keeps_nofuel {X B} (g : XTMutex -> X) : keeps_field g (nofuel (A := B)).
Proof. done. Qed.

Lemma keeps_interrupts {X} (g : XTMutex -> X) b : keeps_field g (modify (set_interrupts b)).
Proof. by intros k a k' [= _ <-]. Qed.

Lemma keeps_on_mem {X B} (g : XTMutex -> X) (f : M (ListHeap H) B) : keeps_field g (on_mem f).
Proof. intros k a k'. unfold on_mem, zoom. destruct (f _); intros E; simplify_eq; done. Qed.

Lemma keeps_out_mem {X B} (g : XTMutex -> X) (d : B) (f : M (ListHeap H) B) : keeps_field g (out_or d (on_mem f)).
Proof. intros k a k'. unfold out_or, on_mem, zoom. destruct (f _); intros E; simplify_eq; done. Qed.

Lemma keeps_on_thr {X B} (g : XTMutex -> X) (f : M (gmap Z XTThread) B) : keeps_field g (on_thr f).
Proof. intros k a k'. unfold on_thr, zoom. destruct (f _); intros E; simplify_eq; done. Qed.

Lemma keeps_load {X} (g : XTMutex -> X) : keeps_field g (on_mutexes (load m)).
Proof.
  intros k a k'. unfold on_mutexes, zoom. destruct (load m _) as [x y| | |] eqn:E; intros E2; simplify_eq.
  by apply load_inv in E as [-> _].
Qed.

Lemma keeps_assign {X} (g : XTMutex -> X) f : (forall x, g (f x) = g x) -> keeps_field g (on_mutexes (assign m f)).
Proof.
  intros Hg k a k'. unfold on_mutexes, zoom, assign, field. destruct (_ !! m) as [x|] eqn:E; [|done].
  intros [= _ <-]. cbn. rewrite lookup_insert_eq. cbn. by rewrite Hg.
Qed.

Lemma assign_field {X} (g : XTMutex -> X) f k a k' : on_mutexes (assign m f) k = Ok a k' ->
  exists x, mutexes (objs k) !! m = Some x /\ field g k' = Some (g (f x)).
Proof.
  unfold on_mutexes, zoom, assign, field. destruct (_ !! m) as [x|] eqn:E; [|done]. intros [= _ <-]. exists x.
  split; [done|]. cbn. by rewrite lookup_insert_eq.
Qed.

Hint Resolve keeps_ret keeps_gets keeps_throw keeps_nofuel keeps_interrupts keeps_on_mem keeps_out_mem keeps_on_thr keeps_load : keep.

Ltac keep := repeat lazymatch goal with |- keeps_field _ (mbind _ _) => apply keeps_bind; [|intros ?] end; eauto with keep.

Lemma keeps_wake {X} (g : XTMutex -> X) t : keeps_field g (xtWakeUpThread t).
Proof.
  unfold xtWakeUpThread, xtLockSpinlock, xtUnlockSpinlock, acquire, release, thread_lock. cbn [test write]. keep.
  match goal with |- context [if ?b then _ else _] => destruct b end; auto with keep.
Qed.

Lemma keeps_sleep_mark {X} (g : XTMutex -> X) t n : keeps_field g (sleep_mark t n).
Proof.
  unfold sleep_mark, XT_CHECK_ARG_IS_NULL, xtLockSpinlock, xtUnlockSpinlock, acquire, release, thread_lock.
  cbn [test write]. keep; match goal with |- context [if ?b then _ else _] => destruct b end; auto with keep.
Qed.

Lemma keeps_read_lock {X} (g : XTMutex -> X) : keeps_field g (on_mutexes (x ← load m; mret (mlock x))).
Proof.
  intros k a k'. unfold on_mutexes, zoom. intros E. destruct ((x ← load m; mret (mlock x)) _) as [z o| | |] eqn:E2; try done.
  apply bind_Ok_inv in E2 as (x & o' & [-> _]%load_inv & [= <- <-]). by injection E as <- <-.
Qed.

Lemma keeps_lock_owner : keeps_field owner (xtLockSpinlock (mutex_lock m)).
Proof.
  unfold xtLockSpinlock, acquire, mutex_lock. cbn [test write]. keep.
  - apply keeps_read_lock.
  - by apply keeps_assign.
  - match goal with |- context [if ?b then _ else _] => destruct b end; auto with keep.
Qed.

Lemma keeps_unlock_owner : keeps_field owner (xtUnlockSpinlock (mutex_lock m)).
Proof. unfold xtUnlockSpinlock, release, mutex_lock. cbn [write]. keep. by apply keeps_assign. Qed.

Lemma keeps_enqueue_owner node : keeps_field owner (enqueue (mutex_queue m) node).
Proof.
  unfold enqueue. cbn [head_of set_head mutex_queue]. keep.
  - intros k a k'. unfold on_mutexes, zoom. intros E. destruct ((x ← load m; mret (waitList x)) _) as [z o| | |] eqn:E2; try done.
    apply bind_Ok_inv in E2 as (x & o' & [-> _]%load_inv & [= <- <-]). by injection E as <- <-.
  - match goal with |- context [if ?b then _ else _] => destruct b end; [by apply keeps_assign|]. apply keeps_out_mem.
Qed.

Lemma load_field (k : Kernel H) x (k' : Kernel H) : on_mutexes (load m) k = Ok x k' -> k' = k /\ mutexes (objs k) !! m = Some x.
Proof.
  unfold on_mutexes, zoom. destruct (load m _) as [y o| | |] eqn:E; intros R; try done. apply load_inv in E as [-> E].
  injection R as <- <-. split; [|done]. by destruct k as [? ? ? ? ? ? ? ? []].
Qed.

(** * The owner *)

Lemma try_owner t k b k' : lock_mutex_try m t k = Ok b k' ->
  if b then field owner k = Some NULL /\ field owner k' = Some t else field owner k' = field owner k.
Proof.
  unfold lock_mutex_try. intros ([] & k1 & R1 & R2)%bind_Ok_inv. apply keeps_lock_owner in R1.
  apply bind_Ok_inv in R2 as (x & k2 & R2 & R3).
  apply load_field in R2 as [-> Hx].
  destruct (owner x =? NULL) eqn:E; zbool.
  - apply bind_Ok_inv in R3 as (u & k3 & R3 & R4). apply (assign_field owner) in R3 as (x' & Hx' & R3).
    apply bind_Ok_inv in R4 as (v & k4 & R4%keeps_unlock_owner & [= <- <-]). cbn in R3. rewrite R4, R3, <- R1.
    unfold field. rewrite Hx. cbn. by rewrite E.
  - apply bind_Ok_inv in R3 as (node & k3 & R3%(keeps_out_mem owner) & R4).
    apply bind_Ok_inv in R4 as ([] & k4 & R4%keeps_enqueue_owner & R5).
    apply bind_Ok_inv in R5 as (v & k5 & R5%keeps_unlock_owner & [= <- <-]). by rewrite R5, R4, R3.
Qed.

Lemma unlock_body_owner k k' : unlock_mutex_body m k = Ok tt k' -> field owner k' = Some NULL.
Proof.
  unfold unlock_mutex_body. intros ([] & k1 & R1 & R2)%bind_Ok_inv.
  apply bind_Ok_inv in R2 as ([] & k2 & R2 & R3). apply (assign_field owner) in R2 as (x & Hx & R2). cbn in R2.
  rewrite <- R2. revert R3. apply (keeps_bind owner); [apply keeps_load|]. intros y.
  destruct (negb _); [|apply keeps_ret]. keep; [|apply keeps_wake]. cbn [set_head mutex_queue]. by apply keeps_assign.
Qed.

(** ** Mutual exclusion *)

Definition mutex_inv (c : Kernel H * MPcs) : Prop :=
  c.2 !! NULL = None /\ forall t, c.2 !! t = Some MHolding -> field owner c.1 = Some t.

(** Before the first call: the mutex is free and every thread is outside. *)
Definition mutex_init (c : Kernel H * MPcs) : Prop :=
  c.2 !! NULL = None /\ forall t pc, c.2 !! t = Some pc -> pc = MOut.

Lemma mstep_inv c c' : mutex_inv c -> mstep c c' -> mutex_inv c'.
Proof.
  intros [Hn Hi] Hst.
  destruct Hst as [k pcs t pc b k' Ht Hpc Hc R|k pcs t k' Ht Hc R|k pcs t k' Ht Hc R]; cbn [fst snd] in *;
    (assert (t <> NULL) as Ht0 by (intros ->; congruence)); (split; cbn [fst snd]; [by rewrite lookup_insert_ne by done|]);
    intros u; destruct (decide (u = t)) as [->|Hu]; rewrite ?lookup_insert_eq, ?lookup_insert_ne by done.
  - apply try_owner in R. destruct b; [|done]. intros _. apply R.
  - apply try_owner in R. intros Hh. pose proof (Hi u Hh) as Ho. destruct b; [|rewrite R; exact Ho].
    destruct R as [R _]. change (field owner (set_current t k)) with (field owner k) in R. exfalso.
    assert (u = NULL) as -> by congruence. congruence.
  - done.
  - intros Hh. rewrite (keeps_sleep_mark owner t UINT64_MAX _ _ _ R). exact (Hi u Hh).
  - done.
  - intros Hh. pose proof (Hi u Hh). pose proof (Hi t Ht). congruence.
Qed.

(** C39: At most one thread holds the mutex, in every interleaving. *)
Theorem mutex_mutual_exclusion c0 c t u :
  mutex_init c0 -> rtc mstep c0 c -> c.2 !! t = Some MHolding -> c.2 !! u = Some MHolding -> t = u.
Proof.
  intros [Hn H0] Hr Ht Hu. assert (mutex_inv c0) as Hi by (split; [done|]; intros v Hv; by apply H0 in Hv).
  assert (mutex_inv c) as [_ Hc] by (clear -Hi Hr; induction Hr; eauto using mstep_inv).
  pose proof (Hc t Ht). pose proof (Hc u Hu). congruence.
Qed.

(** ** Interrupts inside the unlock *)

Lemma wake_interrupts t (k k' : Kernel H) : xtWakeUpThread t k = Ok tt k' -> interrupts k' = true.
Proof.
  unfold xtWakeUpThread, xtUnlockSpinlock. intros (a & k1 & _ & R)%bind_Ok_inv.
  apply bind_Ok_inv in R as (b & k2 & _ & R). apply bind_Ok_inv in R as (c & k3 & _ & R).
  apply bind_Ok_inv in R as (d & k4 & _ & [= <-]). done.
Qed.

Lemma keeps_lock_queue : keeps_field waitList (xtLockSpinlock (mutex_lock m)).
Proof.
  unfold xtLockSpinlock, acquire, mutex_lock. cbn [test write]. keep; [apply keeps_read_lock|by apply keeps_assign|].
  match goal with |- context [if ?b then _ else _] => destruct b end; auto with keep.
Qed.

(** A thread that finds the spinlock busy spins for ever. *)
Lemma lock_spins fuel t env k : field mlock k = Some true -> lock_mutex_loop fuel m t env k = OutOfFuel.
Proof.
  unfold field. intros Hf. destruct (mutexes (objs k) !! m) as [x|] eqn:E; [|done]. cbn in Hf. injection Hf as Hf.
  assert (xtLockSpinlock (mutex_lock m) k = OutOfFuel) as R.
  { unfold xtLockSpinlock, acquire, mutex_lock, mbind, M_bind, modify. cbn [test write]. unfold on_mutexes, zoom, mbind, M_bind, load, deref, assign.
    cbn [objs set_interrupts]. rewrite E. cbn. rewrite E, Hf. done. }
  destruct fuel; cbn [lock_mutex_loop]; unfold mbind at 1, M_bind at 1, lock_mutex_try; unfold mbind at 1, M_bind at 1; by rewrite R.
Qed.

Lemma keeps_set_queue v : keeps_field mlock (set_head (mutex_queue m) v).
Proof. by apply keeps_assign. Qed.

Lemma lock_sets k k' : xtLockSpinlock (mutex_lock m) k = Ok tt k' -> field mlock k' = Some true.
Proof.
  unfold xtLockSpinlock, acquire, mutex_lock. cbn [test write]. intros (a & k1 & _ & R)%bind_Ok_inv.
  apply bind_Ok_inv in R as (b & k2 & _ & R). apply bind_Ok_inv in R as ([] & k3 & R & R2).
  apply (assign_field mlock) in R as (x & _ & R). destruct b; [done|]. injection R2 as <-. done.
Qed.

(** [xtWakeUpThread] in [xtUnlockMutex] turns interrupts on while the spinlock of the mutex is still held: a thread
    that preempts it there and locks the mutex spins for ever. *)
Theorem mutex_unlock_window (k k' : Kernel H) env x :
  unlock_mutex_body m k = Ok tt k' -> mutexes (objs k) !! m = Some x -> waitList x <> NULL ->
  interrupts k' = true /\ field mlock k' = Some true /\ xtLockMutex m env k' = OutOfFuel.
Proof.
  intros R Hx Hw. unfold unlock_mutex_body in R.
  apply bind_Ok_inv in R as ([] & k1 & R1 & R). pose proof (lock_sets _ _ R1) as Hl. apply keeps_lock_queue in R1.
  apply bind_Ok_inv in R as ([] & k2 & R2 & R). pose proof R2 as R2'.
  apply (keeps_assign mlock) in R2'; [|done]. apply (keeps_assign waitList) in R2; [|done].
  apply bind_Ok_inv in R as (y & k3 & R3 & R). apply load_field in R3 as [-> Hy].
  assert (waitList y = waitList x) as Ey.
  { assert (field waitList k2 = field waitList k) as E by congruence. unfold field in E. rewrite Hx, Hy in E. by injection E. }
  rewrite Ey, (proj2 (Z.eqb_neq _ _) Hw) in R. cbn [negb] in R.
  apply bind_Ok_inv in R as (nx & k4 & R4%(keeps_out_mem mlock) & R). apply bind_Ok_inv in R as (rest & k5 & R5%(keeps_out_mem mlock) & R).
  apply bind_Ok_inv in R as ([] & k6 & R6%(keeps_out_mem mlock) & R). apply bind_Ok_inv in R as ([] & k7 & R7%keeps_set_queue & R).
  pose proof (wake_interrupts _ _ _ R) as Hi. apply (keeps_wake mlock) in R.
  assert (field mlock k' = Some true) as Hm by congruence. split; [done|]. split; [done|].
  unfold xtLockMutex, gets. unfold mbind at 1. unfold M_bind. by apply lock_spins.
Qed.

End Mutex.

(** * Two threads and a mutex *)

(** The mutex is at 0x600. *)
Definition mutex_kernel : Kernel Bump :=
  mkKernel (mkListHeap bump_empty ∅) {[1 := sample_thread 1 20; 2 := sample_thread 1 20]} 0 0 0 0 1 true
    (mkObjects {[0x600 := mkMutex false NULL NULL]} ∅ ∅).

Definition mutex_start : Kernel Bump * MPcs := (mutex_kernel, {[1 := MOut; 2 := MOut]}).

(** Thread [t] runs a section. *)
Definition run {X} (t : Z) (f : M (Kernel Bump) X) (pc : MPc) (c : Kernel Bump * MPcs) : Kernel Bump * MPcs :=
  (run_step f (set_current t c.1), <[t := pc]> c.2).

(** Thread 1 locks; thread 2 registers; thread 1 unlocks and wakes thread 2, which is not yet asleep; thread 2 goes to
    sleep. *)
Definition trace1 := Eval vm_compute in run 1 (lock_mutex_try 0x600 1) MHolding mutex_start.

Definition trace2 := Eval vm_compute in run 2 (lock_mutex_try 0x600 2) MQueued trace1.

Definition trace3 := Eval vm_compute in run 1 (xtUnlockMutex 0x600) MOut trace2.

Definition trace4 := Eval vm_compute in run 2 (sleep_mark 2 UINT64_MAX) MAsleep trace3.

(** Later thread 1 can only lock and unlock. *)
Definition trace5 := Eval vm_compute in run 1 (lock_mutex_try 0x600 1) MHolding trace4.

Definition trace6 := Eval vm_compute in run 1 (xtUnlockMutex 0x600) MOut trace5.

Lemma run_cpu t st (k : Kernel Bump) q : thr k !! t = Some (sample_thread st q) -> st = 1 -> on_cpu (thr k) t.
Proof. intros Ht ->. eexists. by split. Qed.

(** The traces are made of steps. *)
Lemma try_run (c c1 : Kernel Bump * MPcs) t pc b : c.2 !! t = Some pc -> pc = MOut \/ pc = MAsleep -> on_cpu (thr c.1) t ->
  match lock_mutex_try 0x600 t (set_current t c.1) with Ok b' _ => b' = b | _ => False end ->
  run t (lock_mutex_try 0x600 t) (if b then MHolding else MQueued) c = c1 -> mstep 0x600 c c1.
Proof.
  destruct c as [k pcs]. unfold run, run_step. cbn [fst snd]. intros H1 H2 H3 Hb <-.
  destruct (lock_mutex_try 0x600 t _) as [b' k'| | |] eqn:R; try done. subst b'. by eapply mstep_try.
Qed.

Lemma unlock_run (c c1 : Kernel Bump * MPcs) t : c.2 !! t = Some MHolding -> on_cpu (thr c.1) t ->
  match xtUnlockMutex 0x600 (set_current t c.1) with Ok _ _ => True | _ => False end ->
  run t (xtUnlockMutex 0x600) MOut c = c1 -> mstep 0x600 c c1.
Proof.
  destruct c as [k pcs]. unfold run, run_step. cbn [fst snd]. intros H1 H2 Hb <-.
  destruct (xtUnlockMutex 0x600 _) as [[] k'| | |] eqn:R; try done. by eapply mstep_unlock.
Qed.

Lemma sleep_run (c c1 : Kernel Bump * MPcs) t : c.2 !! t = Some MQueued -> on_cpu (thr c.1) t ->
  match sleep_mark t UINT64_MAX (set_current t c.1) with Ok _ _ => True | _ => False end ->
  run t (sleep_mark t UINT64_MAX) MAsleep c = c1 -> mstep 0x600 c c1.
Proof.
  destruct c as [k pcs]. unfold run, run_step. cbn [fst snd]. intros H1 H2 Hb <-.
  destruct (sleep_mark t UINT64_MAX _) as [[] k'| | |] eqn:R; try done. by eapply mstep_sleep.
Qed.

Lemma trace1_step : mstep 0x600 mutex_start trace1.
Proof. apply (try_run _ _ 1 MOut true); [by vm_compute|auto|by apply (run_cpu 1 1 _ 20)|by vm_compute|by vm_compute]. Qed.

Lemma trace_reachable : rtc (mstep 0x600) mutex_start trace4.
Proof.
  apply (rtc_l _ _ trace1); [apply trace1_step|apply (rtc_l _ _ trace2); [|apply (rtc_l _ _ trace3); [|apply rtc_once]]].
  - apply (try_run _ _ 2 MOut false); [by vm_compute|auto|by apply (run_cpu 2 1 _ 20)|by vm_compute|by vm_compute].
  - apply (unlock_run _ _ 1); [by vm_compute|by apply (run_cpu 1 1 _ 20)|by vm_compute|by vm_compute].
  - apply (sleep_run _ _ 2); [by vm_compute|by apply (run_cpu 2 1 _ 20)|by vm_compute|by vm_compute].
Qed.

(** A configuration where thread 1 alone can move: thread 2 sleeps. *)
Definition only_one (c : Kernel Bump * MPcs) (p : MPc) : Prop :=
  c.2 = {[1 := p; 2 := MAsleep]} /\ ~ on_cpu (thr c.1) 2.

Lemma only_one_step c p t pc : only_one c p -> c.2 !! t = Some pc -> on_cpu (thr c.1) t -> t = 1 /\ pc = p.
Proof.
  intros [-> Hn]. rewrite lookup_insert_Some, lookup_singleton_Some. intros [[<- <-]|[_ [<- _]]] Hc; done.
Qed.

Lemma asleep_not_cpu th : th !! 2 = Some (sample_thread 0 UINT64_MAX) -> ~ on_cpu th 2.
Proof. intros E (y & Ey & Hy). rewrite E in Ey. injection Ey as <-. done. Qed.

(** From [c] thread 1 locks the free mutex. *)
Lemma free_step c c' : only_one c MOut -> run 1 (lock_mutex_try 0x600 1) MHolding c = trace5 ->
  (match lock_mutex_try 0x600 1 (set_current 1 c.1) with Ok true _ => true | _ => false end) = true ->
  mstep 0x600 c c' -> c' = trace5.
Proof.
  intros Ho Ht Hok Hst. destruct Hst as [k pcs t pc b k' E Hpc Hc R|k pcs t k' E Hc R|k pcs t k' E Hc R];
    destruct (only_one_step _ _ _ _ Ho E Hc) as [-> Hp]; try done.
  cbn [fst] in Hok. rewrite R in Hok. destruct b; [|done]. rewrite <- Ht. unfold run, run_step. cbn [fst snd]. by rewrite R.
Qed.

Lemma held_step c c' : only_one c MHolding -> run 1 (xtUnlockMutex 0x600) MOut c = trace6 ->
  mstep 0x600 c c' -> c' = trace6.
Proof.
  intros Ho Ht Hst.
  destruct Hst as [k pcs t pc b k' E Hpc Hc R|k pcs t k' E Hc R|k pcs t k' E Hc R];
    destruct (only_one_step _ _ _ _ Ho E Hc) as [-> Hp]; try done; [subst pc; by destruct Hpc|].
  rewrite <- Ht. unfold run, run_step. cbn [fst snd]. by rewrite R.
Qed.

Lemma stuck c : c = trace4 \/ c = trace5 \/ c = trace6 -> forall c', rtc (mstep 0x600) c c' ->
  c' = trace4 \/ c' = trace5 \/ c' = trace6.
Proof.
  intros Hc c' Hr. revert Hc. induction Hr as [c|c c1 c2 Hs _ IH]; [done|]. intros Hc. apply IH. right.
  destruct Hc as [->|[->| ->]].
  - left. apply (free_step trace4 c1); [split; [by vm_compute|by apply asleep_not_cpu]|by vm_compute|by vm_compute|done].
  - right. apply (held_step trace5 c1); [split; [by vm_compute|by apply asleep_not_cpu]|by vm_compute|done].
  - left. apply (free_step trace6 c1); [split; [by vm_compute|by apply asleep_not_cpu]|by vm_compute|by vm_compute|done].
Qed.

(** A wake-up is lost: an unlock between the registration in [xtLockMutex] and [xtSleepThread] wakes nobody, and the
    thread sleeps for ever although the mutex is free. *)
Theorem mutex_lost_wakeup :
  exists c, rtc (mstep 0x600) mutex_start c /\ field 0x600 owner c.1 = Some NULL /\
    forall c', rtc (mstep 0x600) c c' -> c'.2 !! 2 = Some MAsleep /\ ~ on_cpu (thr c'.1) 2.
Proof.
  exists trace4. split; [apply trace_reachable|]. split; [by vm_compute|]. intros c' Hr.
  destruct (stuck trace4 (or_introl eq_refl) c' Hr) as [->|[->| ->]]; (split; [by vm_compute|by apply asleep_not_cpu]).
Qed.

Lemma mutex_mutual_exclusion_witness : 1 = 1.
Proof.
  apply (mutex_mutual_exclusion 0x600 mutex_start trace1 1 1).
  - split; [done|]. intros t pc. cbn. rewrite lookup_insert_Some, lookup_singleton_Some. naive_solver.
  - apply rtc_once, trace1_step.
  - reflexivity.
  - reflexivity.
Defined.

Lemma mutex_unlock_window_witness :
  let k' := run_step (unlock_mutex_body 0x600) (set_current 1 trace2.1) in
  interrupts k' = true /\ field 0x600 mlock k' = Some true /\ xtLockMutex 0x600 [] k' = OutOfFuel.
Proof.
  apply (mutex_unlock_window 0x600 (set_current 1 trace2.1) (run_step (unlock_mutex_body 0x600) (set_current 1 trace2.1)) []
    (mkMutex false 1 16)); [by vm_compute|by vm_compute|discriminate].
Defined.
