(* ===== verification/Events.v ===== *)
(** Events (xtkernel/event.c): what [xtWaitForEvents] takes and what it can
    return. *)
From Stdlib Require Import ZArith Lia.
From stdpp Require Import base tactics list gmap fin_maps numbers.
From S2P Require Import Prelude Allocator ListC Threads Sync.

Open Scope Z_scope.

Notation EventMap := (gmap Z XTEvent).

Create HintDb quiet.

Definition lock_ev (b : bool) (x : XTEvent) : XTEvent := mkEvent (elist x) b (isSignaled x).

Definition clear_ev (x : XTEvent) : XTEvent := mkEvent (elist x) (elock x) false.

(** An event nobody is working on. *)
Definition free_event (ev : EventMap) (e : Z) : Prop := exists x, ev !! e = Some x /\ elock x = false.

Definition signaled (ev : EventMap) (e : Z) : bool := match ev !! e with Some x => isSignaled x | None => false end.

Section Events.
Context {H : Type} {A : Allocator H}.
Implicit Types (k : Kernel H) (ev : EventMap).

(** [k] with other events. *)
Definition ek k ev (b : bool) : Kernel H :=
  mkKernel (mem k) (thr k) (threads k) (currentThreadIterator k) (threadCount k) (IdleThread k) (currentThread k) b
    (mkObjects (mutexes (objs k)) (rwlocks (objs k)) ev).

Lemma ek_id k : k = ek k (events (objs k)) (interrupts k).
Proof. by destruct k as [? ? ? ? ? ? ? ? []]. Qed.

Lemma on_events_Ok {X} k ev b (f : M EventMap X) v ev' : f ev = Ok v ev' -> on_events f (ek k ev b) = Ok v (ek k ev' b).
Proof. intros E. unfold on_events, zoom. cbn [objs ek events]. by rewrite E. Qed.

Lemma load_event k ev b e x : ev !! e = Some x -> on_events (load e) (ek k ev b) = Ok x (ek k ev b).
Proof. intros E. by apply on_events_Ok, load_Ok. Qed.

Lemma assign_event k ev b e x f : ev !! e = Some x -> on_events (assign e f) (ek k ev b) = Ok tt (ek k (alter f e ev) b).
Proof. intros E. apply on_events_Ok. rewrite (assign_Ok _ _ _ _ E). by rewrite (insert_alter ev e x f). Qed.

Lemma lock_event k ev b e x : ev !! e = Some x -> elock x = false ->
  xtLockSpinlock (event_lock e) (ek k ev b) = Ok tt (ek k (alter (lock_ev true) e ev) false).
Proof.
  intros E Hl. unfold xtLockSpinlock, acquire, event_lock. cbn [test write].
  rewrite (bind_Ok _ _ _ tt (ek k ev false)) by done.
  rewrite (bind_Ok _ _ _ false (ek k ev false)).
  2: { apply on_events_Ok. rewrite (bind_Ok _ _ _ _ _ (load_Ok _ _ _ E)). cbn. by rewrite Hl. }
  by rewrite (bind_Ok _ _ _ _ _ (assign_event k ev false e x _ E)).
Qed.

Lemma unlock_event k ev b e x : ev !! e = Some x ->
  xtUnlockSpinlock (event_lock e) (ek k ev b) = Ok tt (ek k (alter (lock_ev false) e ev) true).
Proof.
  intros E. unfold xtUnlockSpinlock, release, event_lock. cbn [write].
  by rewrite (bind_Ok _ _ _ _ _ (assign_event k ev b e x _ E)).
Qed.

(** A loop over distinct events applies the change of its body to each of them. *)
Lemma each_event_ok k (op : Z -> M (Kernel H) unit) (g : XTEvent -> XTEvent) (P : XTEvent -> Prop) (c : bool) :
  (forall ev b e x, ev !! e = Some x -> P x -> op e (ek k ev b) = Ok tt (ek k (alter g e ev) c)) ->
  forall es ev b, NoDup es -> (forall e, e ∈ es -> exists x, ev !! e = Some x /\ P x) ->
  each_event op es (ek k ev b) = Ok tt (ek k (alter_all g es ev) (match es with [] => b | _ => c end)).
Proof.
  intros Hop. induction es as [|e es IH]; intros ev b Hnd Hes; [done|]. apply list.NoDup_cons in Hnd as [Hn Hnd].
  cbn [each_event]. destruct (Hes e) as (x & Hx & HP); [apply elem_of_cons; by left|].
  rewrite (bind_Ok _ _ _ _ _ (Hop ev b e x Hx HP)), alter_all_cons, IH; [by destruct es|done|].
  intros u Hu. assert (u <> e) by (intros ->; done). rewrite lookup_alter_ne by done. apply Hes. apply elem_of_cons. by right.
Qed.

Lemma first_signaled_ok k ev b : forall pre i e post, (forall u, u ∈ pre ++ e :: post -> is_Some (ev !! u)) ->
  Forall (fun u => signaled ev u = false) pre -> signaled ev e = true ->
  first_signaled (pre ++ e :: post) i (ek k ev b) = Ok (Some (i + Z.of_nat (length pre), e)) (ek k ev b).
Proof.
  induction pre as [|u pre IH]; intros i e post Hs Hp He; cbn [app first_signaled length].
  - destruct (Hs e) as [x Hx]; [apply elem_of_cons; by left|]. rewrite (bind_Ok _ _ _ _ _ (load_event k ev b e x Hx)).
    unfold signaled in He. rewrite Hx in He. rewrite He. cbn. by rewrite Z.add_0_r.
  - destruct (Hs u) as [x Hx]; [apply elem_of_cons; by left|]. rewrite (bind_Ok _ _ _ _ _ (load_event k ev b u x Hx)).
    apply list.Forall_cons in Hp as [Hu Hp]. unfold signaled in Hu. rewrite Hx in Hu. rewrite Hu.
    rewrite IH; [do 3 f_equal; lia| |done|done]. intros v Hv. apply Hs. apply elem_of_cons. by right.
Qed.

Lemma all_signaled_ok k ev b es : (forall u, u ∈ es -> is_Some (ev !! u)) ->
  Forall (fun u => signaled ev u = true) es -> all_signaled es (ek k ev b) = Ok true (ek k ev b).
Proof.
  induction es as [|u es IH]; intros Hs Hp; cbn [all_signaled]; [done|].
  destruct (Hs u) as [x Hx]; [apply elem_of_cons; by left|]. rewrite (bind_Ok _ _ _ _ _ (load_event k ev b u x Hx)).
  apply list.Forall_cons in Hp as [Hu Hp]. unfold signaled in Hu. rewrite Hx in Hu. rewrite Hu.
  apply IH; [|done]. intros v Hv. apply Hs. apply elem_of_cons. by right.
Qed.

Lemma lock_all_ok k es : NoDup es -> es <> [] -> (forall e, e ∈ es -> free_event (events (objs k)) e) ->
  each_event (fun e => xtLockSpinlock (event_lock e)) es k = Ok tt (ek k (alter_all (lock_ev true) es (events (objs k))) false).
Proof.
  intros Hnd Hne Hf. rewrite (ek_id k) at 1. rewrite (each_event_ok k _ (lock_ev true) (fun x => elock x = false) false);
    [by destruct es|intros; by eapply lock_event|done|done].
Qed.

(** The maps of the two ways out. *)
Lemma taken_any es ev e : NoDup es -> e ∈ es -> (forall u, u ∈ es -> free_event ev u) ->
  alter_all (lock_ev false) es (alter clear_ev e (alter_all (lock_ev true) es ev)) = alter clear_ev e ev.
Proof.
  intros Hnd He Hf. apply map_eq. intros u. destruct (decide (u ∈ es)) as [Hu|Hu].
  - rewrite alter_all_in by done. destruct (Hf u Hu) as (x & Hx & Hl). destruct (decide (u = e)) as [->|].
    + rewrite !lookup_alter_eq, alter_all_in, Hx by done. by destruct x; cbn in *; subst.
    + rewrite !lookup_alter_ne, alter_all_in, Hx by done. by destruct x; cbn in *; subst.
  - assert (u <> e) by (intros ->; done). rewrite alter_all_other by done. rewrite !lookup_alter_ne by done.
    by rewrite alter_all_other by done.
Qed.

Lemma taken_all es ev : NoDup es -> (forall u, u ∈ es -> free_event ev u) ->
  alter_all (fun x => lock_ev false (clear_ev x)) es (alter_all (lock_ev true) es ev) = alter_all clear_ev es ev.
Proof.
  intros Hnd Hf. apply map_eq. intros u. destruct (decide (u ∈ es)) as [Hu|Hu].
  - rewrite !alter_all_in by done. destruct (Hf u Hu) as (x & -> & Hl). by destruct x; cbn in *; subst.
  - by rewrite !alter_all_other by done.
Qed.

Lemma locked_some es ev u : u ∈ es -> (forall u, u ∈ es -> free_event ev u) -> is_Some (alter_all (lock_ev true) es ev !! u).
Proof. intros Hu Hf. apply alter_all_is_Some. destruct (Hf u Hu) as (x & Hx & _). eauto. Qed.

Lemma locked_signaled es ev u : NoDup es -> u ∈ es -> signaled (alter_all (lock_ev true) es ev) u = signaled ev u.
Proof. intros Hnd Hu. unfold signaled. rewrite alter_all_in by done. by destruct (ev !! u). Qed.

(** Waiting for any of several events, one of them signaled: [xtWaitForEvents] returns at once with the first signaled
    one, which it resets, and changes nothing else; the spinlocks are free again. *)
Theorem wait_for_any_takes_first k pre e post flags ms env :
  let es := pre ++ e :: post in
  NoDup es -> (forall u, u ∈ es -> free_event (events (objs k)) u) -> Z.land flags XT_WAIT_FOR_ALL = 0 ->
  Forall (fun u => signaled (events (objs k)) u = false) pre -> signaled (events (objs k)) e = true ->
  xtWaitForEvents es flags ms env k = Ok (Z.of_nat (length pre)) (ek k (alter clear_ev e (events (objs k))) true).
Proof.
  intros es Hnd Hf Hfl Hpre He. assert (es <> []) as Hne by (by destruct pre). assert (e ∈ es) as Hin by (apply elem_of_app; right; apply elem_of_cons; by left).
  assert (wait_try es flags (currentThread k) k = Ok (Some (Z.of_nat (length pre))) (ek k (alter clear_ev e (events (objs k))) true)) as R.
  { unfold wait_try. rewrite (bind_Ok _ _ _ _ _ (lock_all_ok k es Hnd Hne Hf)). rewrite Hfl. cbn [Z.eqb negb].
    set (ev1 := alter_all (lock_ev true) es (events (objs k))).
    assert (first_signaled es 0 (ek k ev1 false) = Ok (Some (0 + Z.of_nat (length pre), e)) (ek k ev1 false)) as R1.
    { apply first_signaled_ok; [intros u Hu; by apply locked_some| |].
      - eapply list.Forall_impl; [|intros u Hu; exact Hu]. apply list.Forall_forall. intros u Hu. unfold ev1. rewrite locked_signaled; [|done|].
        + by apply (proj1 (list.Forall_forall _ _) Hpre).
        + apply elem_of_app. by left.
      - unfold ev1. by rewrite locked_signaled. }
    rewrite bind_bind, (bind_Ok _ _ _ _ _ R1). destruct (locked_some es _ e Hin Hf) as [x Hx]. fold ev1 in Hx.
    unfold set_signaled at 1. rewrite bind_bind, (bind_Ok _ _ _ _ _ (assign_event k ev1 false e x _ Hx)). rewrite bind_bind.
    rewrite (bind_Ok _ _ _ tt (ek k (alter clear_ev e (events (objs k))) true)); [done|].
    rewrite (each_event_ok k _ (lock_ev false) (fun _ => True) true); [|intros; by eapply unlock_event|done|].
    - change (fun x0 : XTEvent => mkEvent (elist x0) (elock x0) false) with clear_ev. unfold ev1. rewrite taken_any by done. by destruct es.
    - intros u Hu. destruct (locked_some es _ u Hu Hf) as [z Hz]. fold ev1 in Hz. destruct (decide (u = e)) as [->|].
      + rewrite lookup_alter_eq, Hz. eauto.
      + rewrite lookup_alter_ne by done. eauto. }
  unfold xtWaitForEvents. destruct es as [|u es']; [done|]. unfold gets. rewrite (bind_Ok _ _ _ (currentThread k) k) by done.
  destruct (length env); cbn [wait_loop]; by rewrite (bind_Ok _ _ _ _ _ R).
Qed.

(** Waiting for all of several events, all of them signaled: they are all reset. *)
Theorem wait_for_all_takes_all k es flags ms env :
  NoDup es -> es <> [] -> (forall u, u ∈ es -> free_event (events (objs k)) u) -> Z.land flags XT_WAIT_FOR_ALL <> 0 ->
  Forall (fun u => signaled (events (objs k)) u = true) es ->
  xtWaitForEvents es flags ms env k = Ok (Z.of_nat (length es)) (ek k (alter_all clear_ev es (events (objs k))) true).
Proof.
  intros Hnd Hne Hf Hfl Hs.
  assert (wait_try es flags (currentThread k) k = Ok (Some (Z.of_nat (length es))) (ek k (alter_all clear_ev es (events (objs k))) true)) as R.
  { unfold wait_try. rewrite (bind_Ok _ _ _ _ _ (lock_all_ok k es Hnd Hne Hf)). rewrite (proj2 (Z.eqb_neq _ _) Hfl). cbn [negb].
    set (ev1 := alter_all (lock_ev true) es (events (objs k))). rewrite bind_bind.
    rewrite (bind_Ok _ _ _ true (ek k ev1 false)).
    2: { apply all_signaled_ok; [intros u Hu; by apply locked_some|]. apply list.Forall_forall. intros u Hu. unfold ev1.
         rewrite locked_signaled by done. by apply (proj1 (list.Forall_forall _ _) Hs). }
    rewrite bind_bind. rewrite (bind_Ok _ _ _ tt (ek k (alter_all clear_ev es (events (objs k))) true)); [done|].
    rewrite (each_event_ok k _ (fun x => lock_ev false (clear_ev x)) (fun _ => True) true); [| |done|].
    - unfold ev1. rewrite taken_all by done. by destruct es.
    - intros ev b u x Hx _. unfold set_signaled. rewrite (bind_Ok _ _ _ _ _ (assign_event k ev b u x _ Hx)).
      rewrite (unlock_event k _ b u (clear_ev x)) by (by rewrite lookup_alter_eq, Hx). by rewrite alter_alter_eq.
    - intros u Hu. destruct (locked_some es _ u Hu Hf) as [z Hz]. eauto. }
  unfold xtWaitForEvents. destruct es as [|u es']; [done|]. unfold gets. rewrite (bind_Ok _ _ _ (currentThread k) k) by done.
  destruct (length env); cbn [wait_loop]; by rewrite (bind_Ok _ _ _ _ _ R).
Qed.

(** ** Timeouts *)

(** A computation that reports no error and keeps [p] of the state. *)
Definition quiet {X B} (p : Kernel H -> X) (f : M (Kernel H) B) : Prop :=
  forall k, match f k with Ok _ k' => p k' = p k | Err _ _ => False | _ => True end.

Definition cpu k : Z := currentThread k.

Definition cpu_thr k : Z * gmap Z XTThread := (currentThread k, thr k).

Lemma quiet_bind {X B C} (p : Kernel H -> X) (f : M (Kernel H) B) (h : B -> M (Kernel H) C) :
  quiet p f -> (forall b, quiet p (h b)) -> quiet p (f ≫= h).
Proof.
  intros Hf Hh k. unfold mbind, M_bind. specialize (Hf k). destruct (f k) as [b k1| | |]; try done.
  specialize (Hh b k1). destruct (h b k1); congruence.
Qed.

Lemma quiet_ret {X B} (p : Kernel H -> X) (b : B) : quiet p (mret b).
Proof. done. Qed.

Lemma quiet_gets {X B} (p : Kernel H -> X) (f : Kernel H -> B) : quiet p (gets f).
Proof. done. Qed.

Lemma quiet_nofuel {X B} (p : Kernel H -> X) : quiet p (nofuel (A := B)).
Proof. done. Qed.

Lemma quiet_out_mem {B} (d : B) (f : M (ListHeap H) B) : quiet cpu_thr (out_or d (on_mem f)).
Proof. intros k. unfold out_or, on_mem, zoom. by destruct (f _). Qed.

Lemma quiet_interrupts b : quiet cpu_thr (modify (set_interrupts b)).
Proof. done. Qed.

Lemma quiet_load_event e : quiet cpu_thr (on_events (load e)).
Proof. intros k. unfold on_events, zoom, load, deref. by destruct (_ !! e). Qed.

Lemma quiet_assign_event e f : quiet cpu_thr (on_events (assign e f)).
Proof. intros k. unfold on_events, zoom, assign. by destruct (_ !! e). Qed.

Lemma quiet_read_event {B} e (g : XTEvent -> B) : quiet cpu_thr (on_events (x ← load e; mret (g x))).
Proof. intros k. unfold on_events, zoom, mbind, M_bind, load, deref. by destruct (_ !! e). Qed.

Hint Resolve quiet_ret quiet_gets quiet_nofuel quiet_out_mem quiet_interrupts quiet_load_event quiet_assign_event quiet_read_event : quiet.

Ltac quiet :=
    repeat lazymatch goal with
    | |- quiet _ (mbind _ _) => apply quiet_bind; [|intros ?]
    | |- quiet _ (if ?b then _ else _) => destruct b
    end; auto with quiet.

Lemma quiet_lock e : quiet cpu_thr (xtLockSpinlock (event_lock e)).
Proof. unfold xtLockSpinlock, acquire, event_lock. cbn [test write]. quiet. Qed.

Lemma quiet_unlock e : quiet cpu_thr (xtUnlockSpinlock (event_lock e)).
Proof. unfold xtUnlockSpinlock, release, event_lock. cbn [write]. quiet. Qed.

Hint Resolve quiet_lock quiet_unlock : quiet.

Lemma quiet_each op es : (forall e, quiet cpu_thr (op e)) -> quiet cpu_thr (each_event op es).
Proof. intros Hop. induction es as [|e es IH]; cbn [each_event]; [apply quiet_ret|]. by apply quiet_bind. Qed.

Lemma quiet_first es : forall i, quiet cpu_thr (first_signaled es i).
Proof. induction es as [|e es IH]; intros i; cbn [first_signaled]; quiet. Qed.

Lemma quiet_all es : quiet cpu_thr (all_signaled es).
Proof. induction es as [|e es IH]; cbn [all_signaled]; quiet. Qed.

Lemma quiet_try es flags c : quiet cpu_thr (wait_try es flags c).
Proof.
  unfold wait_try. apply quiet_bind; [apply quiet_each; auto with quiet|intros _]. apply quiet_bind.
  - destruct (negb _); (apply quiet_bind; [apply quiet_all || apply quiet_first|intros []]); auto with quiet.
    + apply quiet_bind; [apply quiet_each; intros e; unfold set_signaled; quiet|auto with quiet].
    + destruct p as [i e]. unfold set_signaled. quiet. apply quiet_each. auto with quiet.
  - intros [i|]; [auto with quiet|]. apply quiet_bind; [|intros _; apply quiet_bind; [apply quiet_each; auto with quiet|auto with quiet]].
    apply quiet_each. intros e. unfold enqueue, on_list. cbn [head_of set_head event_queue]. quiet.
Qed.

Lemma quiet_remove_loop e t : forall fuel prev cur, quiet cpu_thr (remove_waiter_loop fuel e t prev cur).
Proof. induction fuel as [|fuel IH]; intros prev cur; cbn [remove_waiter_loop set_head event_queue]; unfold on_list; quiet. Qed.

Lemma quiet_remove es t : quiet cpu_thr (removeFromAllEvents es t).
Proof.
  induction es as [|e es IH]; cbn [removeFromAllEvents head_of event_queue]; [apply quiet_ret|]. unfold list_fuel. quiet.
  apply quiet_remove_loop.
Qed.

(** The thread [c] is scheduled again, with ticks left: [xtWakeUpThread] and [xtSchedule] set them to [privilage]. *)
Definition resumes (c : Z) (f : Kernel H -> Kernel H) : Prop :=
  forall k, currentThread (f k) = c /\ exists t, thr (f k) !! c = Some t /\ ticks t <> 0.

Lemma quiet_thr {B} (f : M (gmap Z XTThread) B) : (forall m, match f m with Err _ _ => False | _ => True end) -> quiet cpu (on_thr f).
Proof. intros Hf k. unfold on_thr, zoom. specialize (Hf (thr k)). by destruct (f _). Qed.

Lemma quiet_sleep c ms : c <> NULL -> quiet cpu (sleep_mark c ms).
Proof.
  intros Hc. assert (forall f, quiet cpu (on_thr (assign c f))) as Ha.
  { intros f. apply quiet_thr. intros m. unfold assign. by destruct (m !! c). }
  assert (quiet cpu (on_thr (x ← load c; mret (lock x)))) as Hl.
  { apply quiet_thr. intros m. unfold mbind, M_bind, load, deref. by destruct (m !! c). }
  assert (forall b, quiet cpu (modify (set_interrupts b))) as Hi by done.
  unfold sleep_mark, xtLockSpinlock, xtUnlockSpinlock, acquire, release, thread_lock, XT_CHECK_ARG_IS_NULL. cbn [test write].
  rewrite (proj2 (Z.eqb_neq _ _) Hc). quiet.
Qed.

Lemma sleep_switches c ms env k : c <> NULL -> currentThread k = c ->
  match out_or env (xtSleepThread c ms env) k with
  | Ok env' k' => exists f k1, env = f :: env' /\ k' = f k1
  | Err _ _ => False
  | _ => True
  end.
Proof.
  intros Hc Hk. unfold out_or, xtSleepThread. unfold mbind at 1, M_bind at 1. pose proof (quiet_sleep c ms Hc k) as Q.
  destruct (sleep_mark c ms k) as [[] k1| | |]; try done. unfold cpu in Q. unfold gets, mbind, M_bind.
  rewrite Q, Hk, Z.eqb_refl. destruct env as [|f env]; cbn; [done|]. by exists f, k1.
Qed.

Lemma switch_quiet (env : list (Kernel H -> Kernel H)) k :
  match out_or env (xtSwitchToThread env) k with
  | Ok env' k' => exists f k1, env = f :: env' /\ k' = f k1
  | Err _ _ => False
  | _ => True
  end.
Proof. destruct env as [|f env]; cbn; [done|]. by exists f, k. Qed.

(** One round: the loop ends without an error, or goes on with fewer entries of [env]. *)
Lemma wait_round c es flags ms (next : list (Kernel H -> Kernel H) -> M (Kernel H) Z) env k e k' :
  c <> NULL -> Forall (resumes c) env -> currentThread k = c ->
  (forall env k, Forall (resumes c) env -> currentThread k = c -> next env k <> Err e k') ->
  (r ← wait_try es flags c;
   match r with
   | Some i => mret i
   | None =>
     env ← (if negb (ms =? UINT64_MAX) then out_or env (xtSleepThread c ms env) else out_or env (xtSwitchToThread env));
     removeFromAllEvents es c ;;;
     t ← on_thr (load c);
     if negb (ms =? UINT64_MAX) && (ticks t =? 0) then throw XT_TIMEOUT else next env
   end) k <> Err e k'.
Proof.
  intros Hc Henv Hk Hnext. unfold mbind at 1, M_bind at 1. pose proof (quiet_try es flags c k) as Q.
  destruct (wait_try es flags c k) as [[i|] k1| | |]; try done. injection Q as Q1 Q2. rewrite Hk in Q1.
  unfold mbind at 1, M_bind at 1.
  assert (match (if negb (ms =? UINT64_MAX) then out_or env (xtSleepThread c ms env) else out_or env (xtSwitchToThread env)) k1 with
    | Ok env' k' => exists f k1, env = f :: env' /\ k' = f k1 | Err _ _ => False | _ => True end) as S
    by (destruct (negb _); [by apply sleep_switches|apply switch_quiet]).
  set (sw := if negb (ms =? UINT64_MAX) then _ else _) in *. clearbody sw.
  destruct (sw k1) as [env' k2| | |]; try done. destruct S as (f & k0 & -> & ->).
  apply list.Forall_cons in Henv as [Hf Henv]. destruct (Hf k0) as (Hc' & t & Ht & Hn).
  unfold mbind at 1, M_bind at 1. pose proof (quiet_remove es c (f k0)) as Q.
  destruct (removeFromAllEvents es c (f k0)) as [[] k3| | |]; try done. injection Q as Q3 Q4.
  rewrite <- Q4 in Ht. rewrite (bind_Ok _ _ _ _ _ (load_thr k3 c t Ht)). rewrite (proj2 (Z.eqb_neq _ _) Hn), andb_false_r.
  apply Hnext; [done|congruence].
Qed.

Lemma wait_loop_no_error c es flags ms e k' : c <> NULL -> forall fuel env k, Forall (resumes c) env -> currentThread k = c ->
  wait_loop fuel es flags ms c env k <> Err e k'.
Proof.
  intros Hc fuel. induction fuel as [|fuel IH]; intros env k Henv Hk; cbn [wait_loop].
  - by apply (wait_round c es flags ms (fun _ => nofuel)).
  - by apply (wait_round c es flags ms (fun env => wait_loop fuel es flags ms c env)).
Qed.

(** [XT_TIMEOUT] is never returned: a thread whose sleep is over has been given a fresh quantum before it looks at its
    ticks, so the wait starts again. *)
Theorem wait_never_times_out k es flags ms env k' :
  currentThread k <> NULL -> Forall (resumes (currentThread k)) env ->
  xtWaitForEvents es flags ms env k <> Err XT_TIMEOUT k'.
Proof.
  intros Hc Henv. unfold xtWaitForEvents. destruct es as [|e es]; [done|]. unfold gets.
  rewrite (bind_Ok _ _ _ (currentThread k) k) by done. by apply wait_loop_no_error.
Qed.

End Events.

(** * Two events *)

(** Event 0x700 is not signaled, event 0x710 is. *)
Definition event_kernel : Kernel Bump :=
  mkKernel (mkListHeap bump_empty ∅) {[1 := sample_thread 1 20]} 0 0 0 0 1 true
    (mkObjects ∅ ∅ {[0x700 := mkEvent NULL false false; 0x710 := mkEvent NULL false true]}).

Lemma two_events_free u : u ∈ [0x700; 0x710] -> free_event (events (objs event_kernel)) u.
Proof. intros [->|[->|Hu]%elem_of_cons]%elem_of_cons; [by eexists|by eexists|set_solver]. Qed.

Lemma two_events_nodup : NoDup [0x700; 0x710].
Proof. apply NoDup_ListNoDup. repeat constructor; set_solver. Qed.

Lemma wait_for_any_takes_first_witness :
  xtWaitForEvents [0x700; 0x710] 0 5 [] event_kernel =
  Ok 1 (ek event_kernel (alter clear_ev 0x710 (events (objs event_kernel))) true).
Proof.
  apply (wait_for_any_takes_first event_kernel [0x700] 0x710 [] 0 5 []);
    [apply two_events_nodup|apply two_events_free|reflexivity|by repeat constructor|reflexivity].
Defined.

Lemma wait_for_all_takes_all_witness :
  xtWaitForEvents [0x710] 1 5 [] event_kernel =
  Ok 1 (ek event_kernel (alter_all clear_ev [0x710] (events (objs event_kernel))) true).
Proof.
  apply (wait_for_all_takes_all event_kernel [0x710] 1 5 []); [apply NoDup_singleton|discriminate| |discriminate|by repeat constructor].
  intros u Hu. apply two_events_free. apply elem_of_cons. by right.
Defined.

(** The timer wakes the sleeper after its 5 ticks and the scheduler picks it. *)
Definition timer_env (k : Kernel Bump) : Kernel Bump :=
  mkKernel (mem k) (<[1 := sample_thread 1 20]> (thr k)) 0 0 0 0 1 true (objs k).

Lemma wait_never_times_out_witness :
  xtWaitForEvents [0x700] 0 5 [timer_env; timer_env] event_kernel <> Err XT_TIMEOUT event_kernel.
Proof.
  apply (wait_never_times_out event_kernel [0x700] 0 5 [timer_env; timer_env] event_kernel); [discriminate|].
  repeat constructor; intros; eexists; (split; [apply lookup_insert_eq|discriminate]).
Defined.
