(* ===== verification/Pe.v ===== *)
(** Executable images: the headers of include/xt/pe.h and the functions of
    xtkernel/linker.c that work on one image in memory: relocation, exports,
    sections and the entry point. An image is its list of bytes; an access
    outside it is a fault. *)
From Stdlib Require Import ZArith Lia.
From stdpp Require Import base tactics list numbers.
From S2P Require Import Prelude Bytes CString.

Open Scope Z_scope.

Notation Image := (list Z).

(** * Reading and writing an image *)

Definition rd (n : nat) (off : Z) : M Image Z := fun img =>
  if (0 <=? off) && (off + Z.of_nat n <=? len img) then Ok (of_le (slice off (Z.of_nat n) img)) img else Fault.

Definition wr (n : nat) (off v : Z) : M Image unit := fun img =>
  if (0 <=? off) && (off + Z.of_nat n <=? len img) then Ok tt (splice off (le n v) img) else Fault.

(** The bytes from an address of the image on. *)
Definition bytes_at (off : Z) : M Image (list Z) := fun img =>
  if (0 <=? off) && (off <=? len img) then Ok (drop (Z.to_nat off) img) img else Fault.

(** * Headers: the offsets of the fields that are used *)

Definition DOS_e_lfanew : Z := 60.

(** [IMAGE_NT_HEADERS64]: the file header is at 4, the optional header at 24. *)
Definition NT_NumberOfSections : Z := 4 + 2.

Definition NT_SizeOfOptionalHeader : Z := 4 + 16.

Definition NT_Characteristics : Z := 4 + 18.

Definition NT_OptionalHeader : Z := 24.

Definition OPT_AddressOfEntryPoint : Z := 16.

Definition OPT_ImageBase : Z := 24.

Definition OPT_SizeOfImage : Z := 56.

Definition OPT_SizeOfHeaders : Z := 60.

Definition OPT_DataDirectory : Z := 112.

Definition IMAGE_SIZEOF_NT_OPTIONAL64_HEADER : Z := 240.

Definition IMAGE_SIZEOF_FILE_HEADER : Z := 20.

Definition IMAGE_FILE_DLL : Z := 0x2000.

Definition IMAGE_DIRECTORY_ENTRY_EXPORT : Z := 0.

Definition IMAGE_DIRECTORY_ENTRY_IMPORT : Z := 1.

Definition IMAGE_DIRECTORY_ENTRY_BASERELOC : Z := 5.

(** [IMAGE_SECTION_HEADER] *)
Definition IMAGE_SIZEOF_SECTION_HEADER : Z := 40.

Definition SEC_VirtualAddress : Z := 12.

Definition SEC_SizeOfRawData : Z := 16.

Definition SEC_PointerToRawData : Z := 20.

Definition SEC_Characteristics : Z := 36.

Definition IMAGE_SCN_MEM_EXECUTE : Z := 0x20000000.

Definition IMAGE_SCN_MEM_READ : Z := 0x40000000.

Definition IMAGE_SCN_MEM_WRITE : Z := 0x80000000.

(** [IMAGE_EXPORT_DIRECTORY] *)
Definition EXP_NumberOfNames : Z := 24.

Definition EXP_AddressOfFunctions : Z := 28.

Definition EXP_AddressOfNames : Z := 32.

Definition EXP_AddressOfNameOrdinals : Z := 36.

(** [(IMAGE_NT_HEADERS* ) (image + dos->e_lfanew)]; [LONG] has 32 bits. *)
Definition nt_headers : M Image Z :=
  e ← rd 4 DOS_e_lfanew;
  mret (s32 e).

Definition opt (nt off : Z) (n : nat) : M Image Z := rd n (nt + NT_OptionalHeader + off).

(** [DataDirectory[i].VirtualAddress] *)
Definition directory (nt i : Z) : M Image Z := opt nt (OPT_DataDirectory + 8 * i) 4.

(** [IMAGE_FIRST_SECTION(nt)] *)
Definition first_section (nt : Z) : M Image Z :=
  n ← rd 2 (nt + NT_SizeOfOptionalHeader);
  mret (nt + NT_OptionalHeader + n).

(** * Relocation *)

(** [for (i = 0; i < count; i++)] over the entries of one block. *)
Fixpoint entries_loop (fuel : nat) (reloc count i delta : Z) : M Image unit :=
  if i <? count then
    e ← rd 2 (reloc + 8 + 2 * i);
    let type := Z.shiftr e 12 in
    let offset := Z.land e 0xFFF in
    (if type =? 10 then
       va ← rd 4 reloc;
       v ← rd 8 (va + offset);
       wr 8 (va + offset) (u64 (v + delta))
     else mret tt) ;;;
    match fuel with O => nofuel | S fuel => entries_loop fuel reloc count (i + 1) delta end
  else mret tt.

(** [while (reloc->VirtualAddress != 0)]; the count of the entries has 32 bits. *)
Fixpoint blocks_loop (fuel : nat) (reloc delta : Z) : M Image unit :=
  va ← rd 4 reloc;
  if va =? 0 then mret tt
  else
    size ← rd 4 (reloc + 4);
    n ← gets length;
    entries_loop n reloc (u32 (u64 (size - 8) / 2)) 0 delta ;;;
    size ← rd 4 (reloc + 4);
    match fuel with O => nofuel | S fuel => blocks_loop fuel (reloc + size) delta end.

(** Both walks move forward in the image, so its length is fuel enough. *)
Definition ApplyRelocations (virtualImage preferredBase : Z) : M Image unit :=
  nt ← nt_headers;
  relocAddr ← directory nt IMAGE_DIRECTORY_ENTRY_BASERELOC;
  if relocAddr =? 0 then mret tt
  else
    n ← gets length;
    blocks_loop n relocAddr (u64 (virtualImage - preferredBase)).

(** * Exports, sections, entry point *)

Definition xtIsDllFile : M Image bool :=
  nt ← nt_headers;
  c ← rd 2 (nt + NT_Characteristics);
  mret (negb (Z.land c IMAGE_FILE_DLL =? 0)).

Definition xtGetEntryPoint (virtualImage : Z) : M Image Z :=
  nt ← nt_headers;
  e ← opt nt OPT_AddressOfEntryPoint 4;
  mret (u64 (virtualImage + e)).

(** [xtStringCmp(...) == 0] *)
Definition same_string (left right : list Z) (max : Z) : M Image bool :=
  r ← attempt (xtStringCmp left right max);
  mret (match r with inl _ => true | inr _ => false end).

Fixpoint export_loop (fuel : nat) (exports names ordinals functions i virtualImage : Z) (funcName : list Z) : M Image Z :=
  count ← rd 4 (exports + EXP_NumberOfNames);
  if i <? count then
    a ← rd 4 (names + 4 * i);
    name ← bytes_at a;
    same ← same_string name funcName 4096;
    if (same : bool) then
      o ← rd 2 (ordinals + 2 * i);
      funcRVA ← rd 4 (functions + 4 * o);
      mret (u64 (virtualImage + funcRVA))
    else match fuel with
         | O => nofuel
         | S fuel => export_loop fuel exports names ordinals functions (u32 (i + 1)) virtualImage funcName
         end
  else throw XT_NOT_FOUND.

Definition xtGetProcAddress (virtualImage : Z) (funcName : list Z) : M Image Z :=
  nt ← nt_headers;
  exports ← directory nt IMAGE_DIRECTORY_ENTRY_EXPORT;
  if exports =? 0 then throw XT_NOT_FOUND
  else
    names ← rd 4 (exports + EXP_AddressOfNames);
    ordinals ← rd 4 (exports + EXP_AddressOfNameOrdinals);
    functions ← rd 4 (exports + EXP_AddressOfFunctions);
    n ← gets length;
    export_loop n exports names ordinals functions 0 virtualImage funcName.

Fixpoint section_loop (fuel : nat) (nt sections i image : Z) (sectionName : list Z) : M Image Z :=
  count ← rd 2 (nt + NT_NumberOfSections);
  if i <? count then
    name ← bytes_at (sections + IMAGE_SIZEOF_SECTION_HEADER * i);
    same ← same_string name sectionName 8;
    if (same : bool) then
      va ← rd 4 (sections + IMAGE_SIZEOF_SECTION_HEADER * i + SEC_VirtualAddress);
      mret (u64 (va + image))
    else match fuel with O => nofuel | S fuel => section_loop fuel nt sections (i + 1) image sectionName end
  else throw XT_NOT_FOUND.

(** The sections are looked for behind an optional header of 240 bytes, whatever
    its size in the file header. *)
Definition xtFindSection (image : Z) (sectionName : list Z) : M Image Z :=
  XT_CHECK_ARG_IS_NULL image ;;;
  nt ← nt_headers;
  let sections := nt + IMAGE_SIZEOF_NT_OPTIONAL64_HEADER + IMAGE_SIZEOF_FILE_HEADER + 4 in
  n ← gets length;
  section_loop n nt sections 0 image sectionName.

(** * Loading: from the layout of the file to that of the image *)

(** [xtCopyMem] into the image at [off]. *)
Definition copy_to (off : Z) (src : list Z) (size : Z) : M Image unit :=
  dst ← bytes_at off;
  dst ← xtCopyMem dst src size;
  modify (fun img => take (Z.to_nat off) img ++ dst).

(** Reading the file while the image is filled. *)
Definition peek {X} (src : Image) (m : M Image X) : M Image X := fun img =>
  match m src with
  | Ok x _ => Ok x img
  | Err c _ => Err c img
  | Fault => Fault
  | OutOfFuel => OutOfFuel
  end.

Record Section_ := mkSection { sec_va : Z; sec_size : Z; sec_raw : Z; sec_flags : Z }.

(** [sections[i]] *)
Definition section_at (sections i : Z) : M Image Section_ :=
  let s := sections + IMAGE_SIZEOF_SECTION_HEADER * i in
  va ← rd 4 (s + SEC_VirtualAddress);
  size ← rd 4 (s + SEC_SizeOfRawData);
  raw ← rd 4 (s + SEC_PointerToRawData);
  flags ← rd 4 (s + SEC_Characteristics);
  mret (mkSection va size raw flags).

(** [for (i = 0; i < NumberOfSections; i++)]: [n] sections from [i] on. *)
Fixpoint copy_sections (src : Image) (n : nat) (sections i : Z) : M Image unit :=
  match n with
  | O => mret tt
  | S n =>
    s ← peek src (section_at sections i);
    data ← peek src (bytes_at (sec_raw s));
    copy_to (sec_va s) data (sec_size s) ;;;
    copy_sections src n sections (i + 1)
  end.

(** The headers and the sections of the file [src] are copied into the image. *)
Definition load_image (src : Image) : M Image unit :=
  nt ← peek src nt_headers;
  headers ← peek src (opt nt OPT_SizeOfHeaders 4);
  copy_to 0 src headers ;;;
  sections ← peek src (first_section nt);
  count ← peek src (rd 2 (nt + NT_NumberOfSections));
  copy_sections src (Z.to_nat count) sections 0.
