(* ===== verification/PeProof.v ===== *)
(** What relocating an image does, and which function an export lookup finds. *)
From Stdlib Require Import ZArith Lia.
From stdpp Require Import base tactics list numbers.
From S2P Require Import Prelude Bytes CString Pe.

Open Scope Z_scope.

(** * Reading and writing *)

Lemma rd_ok n off img : 0 <= off -> off + Z.of_nat n <= len img -> rd n off img = Ok (of_le (slice off (Z.of_nat n) img)) img.
Proof. intros. unfold rd. by rewrite !(proj2 (Z.leb_le _ _)) by lia. Qed.

Lemma wr_ok n off v img : 0 <= off -> off + Z.of_nat n <= len img -> wr n off v img = Ok tt (splice off (le n v) img).
Proof. intros. unfold wr. by rewrite !(proj2 (Z.leb_le _ _)) by lia. Qed.

(** [bs] lies in the image at [off]. *)
Definition lies (off : Z) (bs img : list Z) : Prop := 0 <= off /\ off + len bs <= len img /\ slice off (len bs) img = bs.

Lemma lies_app off a b img : lies off (a ++ b) img <-> lies off a img /\ lies (off + len a) b img.
Proof.
  unfold lies. rewrite length_app, Nat2Z.inj_add. split.
  - intros (Ho & Hl & E). rewrite slice_app in E by lia. apply app_inj_1 in E as [E1 E2]; [|rewrite slice_length; lia].
    split_and!; [lia..|done|lia|lia|done].
  - intros [(Ho & Hl & E1) (Ho' & Hl' & E2)]. split; [done|]. split; [lia|]. by rewrite slice_app, E1, E2 by lia.
Qed.

Lemma lies_rd off bs img n : lies off bs img -> length bs = n -> rd n off img = Ok (of_le bs) img.
Proof. intros (Ho & Hl & E) <-. rewrite rd_ok by lia. by rewrite E. Qed.

Lemma lies_rd_le off n v img : lies off (le n v) img -> 0 <= v < 2 ^ (8 * Z.of_nat n) -> rd n off img = Ok v img.
Proof. intros Hl Hv. rewrite (lies_rd off (le n v) img n Hl (le_length n v)). by rewrite of_le_small. Qed.

Lemma bytes_at_ok a img : 0 <= a <= len img -> bytes_at a img = Ok (drop (Z.to_nat a) img) img.
Proof. intros. unfold bytes_at. by rewrite !(proj2 (Z.leb_le _ _)) by lia. Qed.

Lemma lies_splice o b off bs img : lies o b img -> 0 <= off -> off + len bs <= len img -> o + len b <= off \/ off + len bs <= o -> lies o b (splice off bs img).
Proof.
  intros (Ho & Hl & E) Hoff Hlen Hd. unfold lies. rewrite splice_length by lia. split; [done|]. split; [done|]. by rewrite slice_splice_ne.
Qed.

Lemma lies_splice_eq off bs img : 0 <= off -> off + len bs <= len img -> lies off bs (splice off bs img).
Proof. intros. unfold lies. rewrite splice_length by lia. split; [done|]. split; [done|]. by apply slice_splice_eq. Qed.

Lemma copy_to_ok off src size img : 0 <= off -> 0 <= size <= len src -> off + size <= len img ->
  copy_to off src size img = Ok tt (splice off (take (Z.to_nat size) src) img).
Proof.
  intros Ho Hs Hl. unfold copy_to. rewrite (bind_Ok _ _ _ _ _ (bytes_at_ok off img ltac:(lia))).
  set (d := drop (Z.to_nat off) img). set (n := Z.to_nat size).
  assert (length d = (length img - Z.to_nat off)%nat) as Ld by (unfold d; by rewrite length_drop).
  rewrite (bind_Ok _ _ _ (take n src ++ drop n d) img).
  - unfold modify. f_equal. unfold splice, d. rewrite drop_drop. repeat f_equal. rewrite length_take. lia.
  - unfold xtCopyMem. fold n. rewrite <- (take_drop n d) at 1. rewrite <- (take_drop n src) at 1.
    replace n with (length (take n src)) at 1 by (rewrite length_take; lia). apply copy_mem_ok. rewrite !length_take. lia.
Qed.

(** * The relocation table *)

(** A block: its page and its entries of 16 bits. *)
Record Block := mkBlock { page : Z; entries : list Z }.

Definition block_size (b : Block) : Z := 8 + 2 * Z.of_nat (length (entries b)).

Definition entry_bytes (es : list Z) : list Z := concat (map (le 2) es).

Definition block_bytes (b : Block) : list Z := le 4 (page b) ++ le 4 (block_size b) ++ entry_bytes (entries b).

Definition table_bytes (bs : list Block) : list Z := concat (map block_bytes bs) ++ le 4 0.

Definition is_dir64 (e : Z) : bool := Z.shiftr e 12 =? 10.

(** The 64-bit slots the table lists. *)
Definition block_slots (b : Block) : list Z := map (fun e => page b + Z.land e 0xFFF) (List.filter is_dir64 (entries b)).

Definition slots (bs : list Block) : list Z := concat (map block_slots bs).

Definition block_ok (b : Block) : Prop :=
  0 < page b < 2 ^ 32 /\ block_size b < 2 ^ 32 /\ Forall (fun e => 0 <= e < 2 ^ 16) (entries b).

(** One slot moved. *)
Definition word (a : Z) (img : list Z) : Z := of_le (slice a 8 img).

Definition patch (delta : Z) (img : list Z) (a : Z) : list Z := splice a (le 8 (u64 (word a img + delta))) img.

Definition patches (delta : Z) (img : list Z) (l : list Z) : list Z := fold_left (patch delta) l img.

(** The slot does not touch the bytes from [off] on. *)
Definition off_limits (off n : Z) (img : list Z) (a : Z) : Prop := 0 <= a /\ a + 8 <= len img /\ (a + 8 <= off \/ off + n <= a).

Lemma patch_length delta img a : 0 <= a -> a + 8 <= len img -> length (patch delta img a) = length img.
Proof. intros. unfold patch. apply splice_length; rewrite ?le_length; lia. Qed.

Lemma patches_length delta l : forall img, Forall (fun a => 0 <= a /\ a + 8 <= len img) l -> length (patches delta img l) = length img.
Proof.
  induction l as [|a l IH]; intros img Hl; [done|]. apply list.Forall_cons in Hl as [Ha Hl]. unfold patches. cbn [fold_left].
  fold (patches delta (patch delta img a) l). pose proof (patch_length delta img a ltac:(lia) ltac:(lia)) as E.
  rewrite IH; [done|]. by rewrite E.
Qed.

Lemma lies_patch delta off bs img a : lies off bs img -> off_limits off (len bs) img a -> lies off bs (patch delta img a).
Proof.
  intros (Ho & Hl & E) (Ha & Hal & Hd). unfold lies. rewrite patch_length by lia. split; [done|]. split; [done|].
  unfold patch. rewrite slice_splice_ne; [done|lia|lia|rewrite le_length; lia|rewrite le_length; lia].
Qed.

Lemma lies_patches delta off bs l : forall img, lies off bs img -> Forall (off_limits off (len bs) img) l -> lies off bs (patches delta img l).
Proof.
  induction l as [|a l IH]; intros img Hb Hl; [done|]. apply list.Forall_cons in Hl as [Ha Hl]. unfold patches. cbn [fold_left].
  apply IH; [by apply lies_patch|]. eapply list.Forall_impl; [exact Hl|]. intros b Hb'. unfold off_limits in *.
  rewrite patch_length by lia. done.
Qed.

Lemma entry_bytes_length es : len (entry_bytes es) = 2 * len es.
Proof. induction es as [|e es IH]; [done|]. unfold entry_bytes in *. cbn [map concat]. rewrite length_app, le_length. cbn [length]. lia. Qed.

Lemma block_bytes_length b : len (block_bytes b) = block_size b.
Proof. unfold block_bytes, block_size. rewrite !length_app, !le_length. pose proof (entry_bytes_length (entries b)). lia. Qed.

(** The slots of some entries of a page. *)
Definition entry_slots (pg : Z) (es : list Z) : list Z := map (fun e => pg + Z.land e 0xFFF) (List.filter is_dir64 es).

(** The loop over the entries behind the first [length done]. *)
Lemma entries_loop_ok reloc pg count delta : forall es fuel i img,
  lies reloc (le 4 pg) img -> 0 <= pg < 2 ^ 32 -> 0 <= i -> i + len es = count -> (length es <= fuel)%nat ->
  lies (reloc + 8 + 2 * i) (entry_bytes es) img -> Forall (fun e => 0 <= e < 2 ^ 16) es ->
  Forall (fun a => off_limits reloc 4 img a /\ off_limits (reloc + 8 + 2 * i) (2 * len es) img a) (entry_slots pg es) ->
  entries_loop fuel reloc count i delta img = Ok tt (patches delta img (entry_slots pg es)).
Proof.
  induction es as [|e es IH]; intros fuel i img Hp Hpg Hi Hc Hf Hb Hes Hs.
  - cbn [length] in Hc. destruct fuel; cbn [entries_loop]; replace (i <? count) with false by lia; done.
  - cbn [length] in *. destruct fuel as [|fuel]; [lia|]. cbn [entries_loop]. replace (i <? count) with true by lia.
    change (entry_bytes (e :: es)) with (le 2 e ++ entry_bytes es) in Hb. apply lies_app in Hb as [Hb1 Hb2]. rewrite le_length in Hb2.
    apply list.Forall_cons in Hes as [He Hes].
    rewrite (bind_Ok _ _ _ _ _ (lies_rd_le _ _ _ _ Hb1 He)). cbn zeta.
    replace (reloc + 8 + 2 * i + Z.of_nat 2) with (reloc + 8 + 2 * (i + 1)) in Hb2 by lia.
    unfold entry_slots in *. cbn [List.filter] in *. change (Z.shiftr e 12 =? 10) with (is_dir64 e). destruct (is_dir64 e).
    + cbn [map] in *. apply list.Forall_cons in Hs as [[Ha Ha'] Hs]. set (a := pg + Z.land e 0xFFF) in *.
      rewrite bind_bind, (bind_Ok _ _ _ _ _ (lies_rd_le _ _ _ _ Hp Hpg)). fold a. destruct Ha as (Ha1 & Ha2 & Ha3).
      rewrite bind_bind, (bind_Ok _ _ _ _ _ (rd_ok 8 a img ltac:(lia) ltac:(lia))), (bind_Ok _ _ _ _ _ (wr_ok 8 a _ img ltac:(lia) ltac:(lia))).
      change (splice a _ img) with (patch delta img a). unfold patches. cbn [fold_left].
      pose proof (patch_length delta img a ltac:(lia) ltac:(lia)) as L. unfold off_limits in *.
      apply IH; [apply lies_patch; [done|unfold off_limits; rewrite le_length; lia]|done|lia|lia|lia| |done|].
      * apply lies_patch; [done|]. unfold off_limits. rewrite entry_bytes_length. lia.
      * eapply list.Forall_impl; [exact Hs|]. intros b Hb. cbn beta in Hb. unfold off_limits. rewrite L. lia.
    + rewrite bind_ret. apply IH; [done|done|lia|lia|lia|done|done|].
      eapply list.Forall_impl; [exact Hs|]. intros b Hb. cbn beta in Hb. unfold off_limits in *. lia.
Qed.

Lemma off_limits_sub off n off' n' img a : off_limits off n img a -> off <= off' -> off' + n' <= off + n -> off_limits off' n' img a.
Proof. unfold off_limits. lia. Qed.

Lemma off_limits_patches off n delta l img a : Forall (fun a => 0 <= a /\ a + 8 <= len img) l ->
  off_limits off n (patches delta img l) a <-> off_limits off n img a.
Proof. intros Hl. unfold off_limits. by rewrite patches_length. Qed.

Lemma table_bytes_cons b bs : table_bytes (b :: bs) = block_bytes b ++ table_bytes bs.
Proof. unfold table_bytes. cbn [map concat]. by rewrite app_assoc. Qed.

Lemma patches_app delta l1 l2 img : patches delta img (l1 ++ l2) = patches delta (patches delta img l1) l2.
Proof. apply fold_left_app. Qed.

Lemma within off n l img : Forall (off_limits off n img) l -> Forall (fun a => 0 <= a /\ a + 8 <= len img) l.
Proof. intros Hs. eapply list.Forall_impl; [exact Hs|]. unfold off_limits. lia. Qed.

Lemma entry_count b : block_ok b -> u32 (u64 (block_size b - 8) / 2) = len (entries b).
Proof.
  intros (_ & Hs & _). unfold block_size in *. replace (8 + 2 * len (entries b) - 8) with (len (entries b) * 2) by lia.
  rewrite u64_small, Z.div_mul, u32_small by lia. done.
Qed.

Lemma blocks_loop_ok delta : forall bs fuel reloc img,
  lies reloc (table_bytes bs) img -> Forall block_ok bs -> Forall (off_limits reloc (len (table_bytes bs)) img) (slots bs) ->
  (length bs <= fuel)%nat -> blocks_loop fuel reloc delta img = Ok tt (patches delta img (slots bs)).
Proof.
  induction bs as [|b bs IH]; intros fuel reloc img Hb Hok Hs Hf.
  - change (table_bytes []) with (le 4 0) in Hb. destruct fuel; cbn [blocks_loop];
      by rewrite (bind_Ok _ _ _ _ _ (lies_rd_le _ _ _ _ Hb ltac:(lia))).
  - apply list.Forall_cons in Hok as [Hbk Hok]. pose proof Hbk as (Hpg & Hsz & Hes). destruct fuel as [|fuel]; [cbn in Hf; lia|].
    rewrite table_bytes_cons in *. rewrite length_app, Nat2Z.inj_add in Hs. pose proof (block_bytes_length b) as Lb.
    apply lies_app in Hb as [Hb Hbs]. rewrite Lb in *. unfold block_bytes in Hb.
    apply lies_app in Hb as [Hp Hb]. rewrite le_length in Hb. apply lies_app in Hb as [Hz He]. rewrite le_length in He.
    change (slots (b :: bs)) with (entry_slots (page b) (entries b) ++ slots bs) in *. apply list.Forall_app in Hs as [Hs1 Hs2].
    assert (8 <= block_size b) as Hb8 by (unfold block_size; lia).
    pose proof (entry_bytes_length (entries b)) as Le.
    cbn [blocks_loop]. rewrite (bind_Ok _ _ _ _ _ (lies_rd_le _ _ _ _ Hp ltac:(lia))). rewrite (proj2 (Z.eqb_neq _ _)) by lia.
    rewrite (bind_Ok _ _ _ _ _ (lies_rd_le _ _ _ _ Hz ltac:(lia))). unfold gets. rewrite (bind_Ok _ _ img (length img) img) by done.
    rewrite entry_count by done.
    rewrite (bind_Ok _ _ _ tt (patches delta img (entry_slots (page b) (entries b)))).
    2: { apply (entries_loop_ok reloc (page b)); [done|lia|lia|lia| | |done|].
         - destruct He as (He0 & He & _). lia.
         - by replace (reloc + 8 + 2 * 0) with (reloc + Z.of_nat 4 + Z.of_nat 4) by lia.
         - eapply list.Forall_impl; [exact Hs1|]. intros a Ha. cbn beta in Ha. unfold block_size in *.
           split; eapply off_limits_sub; try exact Ha; lia. }
    set (img1 := patches delta img _). pose proof (within _ _ _ _ Hs1) as W.
    assert (lies (reloc + 4) (le 4 (block_size b)) img1) as Hz1.
    { apply lies_patches; [done|]. eapply list.Forall_impl; [exact Hs1|]. intros a Ha. rewrite le_length. eapply off_limits_sub; [exact Ha|lia|lia]. }
    rewrite (bind_Ok _ _ _ _ _ (lies_rd_le _ _ _ _ Hz1 ltac:(lia))).
    rewrite IH; [by rewrite patches_app| |done| |cbn in Hf; lia].
    + apply lies_patches; [done|]. eapply list.Forall_impl; [exact Hs1|]. intros a Ha. eapply off_limits_sub; [exact Ha|lia|lia].
    + eapply list.Forall_impl; [exact Hs2|]. intros a Ha. apply off_limits_patches; [exact W|]. eapply off_limits_sub; [exact Ha|lia|lia].
Qed.

(** * What the patches do *)

(** The slots do not touch each other. *)
Definition disjoint_slots (l : list Z) : Prop := forall i j a b, l !! i = Some a -> l !! j = Some b -> i <> j -> a + 8 <= b \/ b + 8 <= a.

Lemma disjoint_slots_cons a l : disjoint_slots (a :: l) -> disjoint_slots l /\ Forall (fun b => a + 8 <= b \/ b + 8 <= a) l.
Proof.
  intros Hd. split.
  - intros i j x y Hi Hj Hne. apply (Hd (S i) (S j)); [done|done|lia].
  - apply list.Forall_forall. intros b Hb. apply list_elem_of_lookup_1 in Hb as [j Hj]. by apply (Hd 0%nat (S j) a b).
Qed.

Lemma word_patch_eq delta img a : 0 <= a -> a + 8 <= len img -> word a (patch delta img a) = u64 (word a img + delta).
Proof.
  intros Ha Hl. unfold word, patch. change 8 with (len (le 8 (u64 (of_le (slice a 8 img) + delta)))) at 1.
  rewrite slice_splice_eq by (rewrite ?le_length; lia). apply of_le_small. apply u64_bound.
Qed.

Lemma word_patch_ne delta img a b : 0 <= a -> 0 <= b -> b + 8 <= len img -> a + 8 <= b \/ b + 8 <= a -> word a (patch delta img b) = word a img.
Proof. intros. unfold word, patch. rewrite slice_splice_ne by (rewrite ?le_length; lia). done. Qed.

Definition slot_ok (img : list Z) (a : Z) : Prop := 0 <= a /\ a + 8 <= len img.

Lemma word_patches_ne delta a l : forall img, Forall (slot_ok img) l -> Forall (fun b => a + 8 <= b \/ b + 8 <= a) l -> 0 <= a ->
  word a (patches delta img l) = word a img.
Proof.
  induction l as [|b l IH]; intros img Hl Hd Ha; [done|]. apply list.Forall_cons in Hl as [[Hb1 Hb2] Hl]. apply list.Forall_cons in Hd as [Hb Hd].
  unfold patches. cbn [fold_left]. fold (patches delta (patch delta img b) l). rewrite IH; [by apply word_patch_ne| |done|done].
  eapply list.Forall_impl; [exact Hl|]. intros c Hc. unfold slot_ok in *. by rewrite patch_length.
Qed.

Lemma word_patches_in delta l : forall img a, Forall (slot_ok img) l -> disjoint_slots l -> a ∈ l ->
  word a (patches delta img l) = u64 (word a img + delta).
Proof.
  induction l as [|b l IH]; intros img a Hl Hd Ha; [by apply elem_of_nil in Ha|].
  apply list.Forall_cons in Hl as [[Hb1 Hb2] Hl]. apply disjoint_slots_cons in Hd as [Hd Hb].
  unfold patches. cbn [fold_left]. fold (patches delta (patch delta img b) l).
  assert (Forall (slot_ok (patch delta img b)) l) as Hl'.
  { eapply list.Forall_impl; [exact Hl|]. intros c Hc. unfold slot_ok in *. by rewrite patch_length. }
  apply elem_of_cons in Ha as [->|Ha].
  - rewrite word_patches_ne by done. by apply word_patch_eq.
  - rewrite IH by done. rewrite word_patch_ne; [done| |done|done|].
    + rewrite list.Forall_forall in Hl. by apply Hl.
    + rewrite list.Forall_forall in Hb. specialize (Hb a Ha). lia.
Qed.

Lemma patches_outside delta l i : forall img, Forall (slot_ok img) l -> Forall (fun b => Z.of_nat i < b \/ b + 8 <= Z.of_nat i) l ->
  patches delta img l !! i = img !! i.
Proof.
  induction l as [|b l IH]; intros img Hl Hd; [done|]. apply list.Forall_cons in Hl as [[Hb1 Hb2] Hl]. apply list.Forall_cons in Hd as [Hb Hd].
  unfold patches. cbn [fold_left]. fold (patches delta (patch delta img b) l). rewrite IH; [|shelve|done].
  unfold patch. rewrite splice_lookup by lia. rewrite le_length. destruct (decide _); [done|]. by rewrite decide_False by lia.
  Unshelve. eapply list.Forall_impl; [exact Hl|]. intros c Hc. unfold slot_ok in *. by rewrite patch_length.
Qed.

(** * Relocating *)

(** An image whose headers point to the relocation table [bs], and whose slots
    lie apart from each other and from the table. *)
Record relocatable (img : list Z) (relocAddr : Z) (bs : list Block) : Prop := mkRelocatable {
  reloc_headers : exists nt, nt_headers img = Ok nt img /\ directory nt IMAGE_DIRECTORY_ENTRY_BASERELOC img = Ok relocAddr img /\
    Forall (fun a => 64 <= a /\ nt + 264 <= a) (slots bs);
  reloc_table : lies relocAddr (table_bytes bs) img;
  reloc_nonzero : relocAddr <> 0;
  reloc_blocks : Forall block_ok bs;
  reloc_slots : Forall (off_limits relocAddr (len (table_bytes bs)) img) (slots bs);
  reloc_apart : disjoint_slots (slots bs)
}.

Lemma table_longer bs : (length bs <= length (table_bytes bs))%nat.
Proof.
  induction bs as [|b bs IH]; [cbn; lia|]. rewrite table_bytes_cons, length_app. pose proof (block_bytes_length b). unfold block_size in *. cbn. lia.
Qed.

Lemma relocations_ok img relocAddr bs virtualImage preferredBase : relocatable img relocAddr bs ->
  ApplyRelocations virtualImage preferredBase img = Ok tt (patches (u64 (virtualImage - preferredBase)) img (slots bs)).
Proof.
  intros [(nt & Hn & Hd & _) Ht H0 Hb Hs Ha]. unfold ApplyRelocations. rewrite (bind_Ok _ _ _ _ _ Hn), (bind_Ok _ _ _ _ _ Hd).
  rewrite (proj2 (Z.eqb_neq _ _) H0). unfold gets. rewrite (bind_Ok _ _ img (length img) img) by done.
  apply blocks_loop_ok; [done|done|done|]. pose proof (table_longer bs). destruct Ht as (Ht0 & Ht & _). lia.
Qed.

Lemma slots_in_image img relocAddr bs : relocatable img relocAddr bs -> Forall (slot_ok img) (slots bs).
Proof. intros R. eapply list.Forall_impl; [exact (reloc_slots _ _ _ R)|]. unfold off_limits, slot_ok. lia. Qed.

(** C6: Relocation moves every 64-bit slot of the table by the distance between the two bases, modulo 2^64, and leaves every other byte of the image, and so the table, as it was. *)
Theorem apply_relocations_moves (img : list Z) (relocAddr : Z) (bs : list Block) (virtualImage preferredBase : Z) :
  relocatable img relocAddr bs ->
  exists img', ApplyRelocations virtualImage preferredBase img = Ok tt img' /\ length img' = length img /\
    (forall a, a ∈ slots bs -> word a img' = u64 (word a img + (virtualImage - preferredBase))) /\
    (forall i, Forall (fun a => Z.of_nat i < a \/ a + 8 <= Z.of_nat i) (slots bs) -> img' !! i = img !! i) /\
    lies relocAddr (table_bytes bs) img'.
Proof.
  intros R. pose proof (slots_in_image _ _ _ R) as Hs. eexists. split; [exact (relocations_ok img relocAddr bs _ _ R)|]. split; [by apply patches_length|].
  split; [|split].
  - intros a Ha. rewrite word_patches_in; [|done|by apply (reloc_apart _ _ _ R)|done]. unfold u64. apply Zplus_mod_idemp_r.
  - intros i Hi. by apply patches_outside.
  - apply lies_patches; [by apply (reloc_table _ _ _ R)|by apply (reloc_slots _ _ _ R)].
Qed.

Lemma rd_outside delta n off img l : Forall (slot_ok img) l -> Forall (fun a => off + Z.of_nat n <= a) l -> 
  forall v, rd n off img = Ok v img -> rd n off (patches delta img l) = Ok v (patches delta img l).
Proof.
  intros Hl Ho v. unfold rd. rewrite patches_length by done. destruct ((0 <=? off) && _) eqn:E; [|done]. intros [= <-]. f_equal. f_equal.
  apply andb_true_iff in E as [E1%Z.leb_le E2%Z.leb_le]. apply list_eq. intros i. rewrite !slice_lookup. destruct (decide _); [|done].
  apply patches_outside; [done|]. eapply list.Forall_impl; [exact Ho|]. cbn. lia.
Qed.

(** An image stays relocatable. *)
Lemma relocatable_again delta img relocAddr bs : relocatable img relocAddr bs -> relocatable (patches delta img (slots bs)) relocAddr bs.
Proof.
  intros R. pose proof (slots_in_image _ _ _ R) as Hs. destruct R as [(nt & Hn & Hd & Hh) Ht H0 Hb Ho Ha].
  assert (exists e, rd 4 DOS_e_lfanew img = Ok e img /\ s32 e = nt) as (e & He & <-).
  { unfold nt_headers, mbind, M_bind in Hn. destruct (rd 4 DOS_e_lfanew img) as [e i| | |] eqn:E; try done. unfold rd in E.
    destruct (_ && _); [|done]. injection E as <- <-. injection Hn as <-. eauto. }
  split; [|by apply lies_patches|done|done| |done].
  - exists (s32 e). split; [|split; [|done]].
    + unfold nt_headers. erewrite bind_Ok; [done|]. apply rd_outside; [done| |done]. eapply list.Forall_impl; [exact Hh|]. cbn. unfold DOS_e_lfanew. lia.
    + unfold directory, opt in *. apply rd_outside; [done| |done]. eapply list.Forall_impl; [exact Hh|]. cbn.
      unfold NT_OptionalHeader, OPT_DataDirectory, IMAGE_DIRECTORY_ENTRY_BASERELOC. lia.
  - eapply list.Forall_impl; [exact Ho|]. intros a. by apply off_limits_patches.
Qed.

(** One image relocated for two processes at different bases: every slot carries both distances, so it is wrong for the second one unless the first was at the preferred base. *)
Theorem relocated_twice (img : list Z) (relocAddr : Z) (bs : list Block) (base1 base2 preferredBase a : Z) :
  relocatable img relocAddr bs -> a ∈ slots bs ->
  exists img1 img2, ApplyRelocations base1 preferredBase img = Ok tt img1 /\ ApplyRelocations base2 preferredBase img1 = Ok tt img2 /\
    word a img2 = u64 (word a img + (base2 - preferredBase) + (base1 - preferredBase)) /\
    (word a img2 = u64 (word a img + (base2 - preferredBase)) <-> u64 (base1 - preferredBase) = 0).
Proof.
  intros R Ha. pose proof (slots_in_image _ _ _ R) as Hs. do 2 eexists. split; [exact (relocations_ok img relocAddr bs _ _ R)|].
  set (d1 := u64 (base1 - preferredBase)). pose proof (relocatable_again d1 _ _ _ R) as R1.
  split; [exact (relocations_ok _ relocAddr bs _ _ R1)|]. set (d2 := u64 (base2 - preferredBase)).
  rewrite !word_patches_in; [|done|by apply (reloc_apart _ _ _ R)|done|by apply (slots_in_image _ _ _ R1)|by apply (reloc_apart _ _ _ R)|done].
  fold d1. assert (u64 (u64 (word a img + d1) + d2) = u64 (word a img + (base2 - preferredBase) + (base1 - preferredBase))) as ->.
  { unfold d1, d2, u64. rewrite Zplus_mod_idemp_l, Zplus_mod_idemp_r, <- Z.add_assoc, (Z.add_comm ((_ - _) mod _)), Z.add_assoc, Zplus_mod_idemp_r. done. }
  split; [done|]. unfold d1, u64. split; intros E.
  - set (x := word a img + (base2 - preferredBase)) in *. apply Z.mod_divide; [lia|].
    replace (base1 - preferredBase) with ((x + (base1 - preferredBase)) - x) by lia. apply Z.mod_divide; [lia|].
    rewrite Zminus_mod, E, Z.sub_diag. done.
  - by rewrite <- Zplus_mod_idemp_r, E, Z.add_0_r.
Qed.

(** * Exports *)

(** The export directory lists the functions [xs], by name, with their
    addresses in the image. *)
Definition exports (img : list Z) (xs : list (list Z * Z)) : Prop := exists nt ex names ordinals functions,
  nt_headers img = Ok nt img /\ directory nt IMAGE_DIRECTORY_ENTRY_EXPORT img = Ok ex img /\ ex <> 0 /\
  rd 4 (ex + EXP_NumberOfNames) img = Ok (len xs) img /\ rd 4 (ex + EXP_AddressOfNames) img = Ok names img /\
  rd 4 (ex + EXP_AddressOfNameOrdinals) img = Ok ordinals img /\ rd 4 (ex + EXP_AddressOfFunctions) img = Ok functions img /\
  0 <= names /\ len xs < 2 ^ 32 /\
  forall i name rva, xs !! i = Some (name, rva) -> (length name < 4096)%nat /\ exists a o,
    rd 4 (names + 4 * Z.of_nat i) img = Ok a img /\ 0 <= a <= len img /\ c_string (drop (Z.to_nat a) img) = Some name /\
    rd 2 (ordinals + 2 * Z.of_nat i) img = Ok o img /\ rd 4 (functions + 4 * o) img = Ok rva img.

Lemma rd_within n off img v : rd n off img = Ok v img -> 0 <= off /\ off + Z.of_nat n <= len img.
Proof. unfold rd. destruct ((0 <=? off) && _) eqn:E; [|done]. intros _. apply andb_true_iff in E as [E1%Z.leb_le E2%Z.leb_le]. done. Qed.

Lemma same_string_ok l r ls rs max (img : list Z) : c_string l = Some ls -> c_string r = Some rs -> 0 <= max ->
  (length ls < Z.to_nat max)%nat -> (length rs < Z.to_nat max)%nat -> same_string l r max img = Ok (bool_decide (ls = rs)) img.
Proof.
  intros Hl Hr Hm Ll Lr. unfold same_string. unfold attempt, mbind, M_bind. rewrite (strcmp_ok l r ls rs max img Hl Hr Hm).
  rewrite !take_ge by lia. destruct (decide (ls = rs)); [by rewrite bool_decide_true|by rewrite bool_decide_false].
Qed.

Lemma export_loop_ok img ex names ordinals functions virtualImage funcName f (xs : list (list Z * Z)) :
  c_string funcName = Some f -> (length f < 4096)%nat -> rd 4 (ex + EXP_NumberOfNames) img = Ok (len xs) img -> len xs < 2 ^ 32 ->
  (forall i name rva, xs !! i = Some (name, rva) -> (length name < 4096)%nat /\ exists a o,
    rd 4 (names + 4 * Z.of_nat i) img = Ok a img /\ 0 <= a <= len img /\ c_string (drop (Z.to_nat a) img) = Some name /\
    rd 2 (ordinals + 2 * Z.of_nat i) img = Ok o img /\ rd 4 (functions + 4 * o) img = Ok rva img) ->
  forall ys i fuel, drop i xs = ys -> (i <= length xs)%nat -> (length ys <= fuel)%nat ->
  export_loop fuel ex names ordinals functions (Z.of_nat i) virtualImage funcName img =
    match List.find (fun x => bool_decide (x.1 = f)) ys with
    | Some (_, rva) => Ok (u64 (virtualImage + rva)) img
    | None => Err XT_NOT_FOUND img
    end.
Proof.
  intros Hf Lf Hn Hlen Hx. induction ys as [|[name rva] ys IH]; intros i fuel Hd Hi Hfu.
  - assert (i = length xs) as -> by (apply (f_equal length) in Hd; rewrite length_drop in Hd; cbn in Hd; lia).
    destruct fuel; cbn [export_loop]; rewrite (bind_Ok _ _ _ _ _ Hn); by rewrite Z.ltb_irrefl.
  - assert (xs !! i = Some (name, rva)) as Hxi.
    { replace i with (i + 0)%nat by lia. by rewrite <- lookup_drop, Hd. }
    pose proof (lookup_lt_Some _ _ _ Hxi). destruct fuel as [|fuel]; [cbn in Hfu; lia|]. cbn [export_loop].
    destruct (Hx i name rva Hxi) as (Ln & a & o & Ha & Hab & Hc & Ho & Hr).
    rewrite (bind_Ok _ _ _ _ _ Hn). replace (Z.of_nat i <? len xs) with true by lia.
    rewrite (bind_Ok _ _ _ _ _ Ha), (bind_Ok _ _ _ _ _ (bytes_at_ok a img Hab)).
    rewrite (bind_Ok _ _ _ _ _ (same_string_ok _ _ _ _ 4096 img Hc Hf ltac:(lia) ltac:(lia) ltac:(lia))).
    cbn [List.find fst]. destruct (bool_decide (name = f)).
    + by rewrite (bind_Ok _ _ _ _ _ Ho), (bind_Ok _ _ _ _ _ Hr).
    + rewrite u32_small by lia. replace (Z.of_nat i + 1) with (Z.of_nat (S i)) by lia. apply IH; [|lia|cbn in Hfu; lia].
      replace (S i) with (i + 1)%nat by lia. by rewrite <- drop_drop, Hd.
Qed.

(** C29: A function is found by its name: the address in the image of the first export of that name, moved to where the image is; [XT_NOT_FOUND] when there is none. *)
Theorem get_proc_address (img funcName f : list Z) (xs : list (list Z * Z)) (virtualImage : Z) :
  exports img xs -> c_string funcName = Some f -> (length f < 4096)%nat ->
  xtGetProcAddress virtualImage funcName img =
    match List.find (fun x => bool_decide (x.1 = f)) xs with
    | Some (_, rva) => Ok (u64 (virtualImage + rva)) img
    | None => Err XT_NOT_FOUND img
    end.
Proof.
  intros (nt & ex & names & ordinals & functions & Hnt & Hd & Hex & Hn & Hna & Hor & Hfu & Hnn & Hlen & Hx) Hf Lf.
  unfold xtGetProcAddress. rewrite (bind_Ok _ _ _ _ _ Hnt), (bind_Ok _ _ _ _ _ Hd). rewrite (proj2 (Z.eqb_neq _ _) Hex).
  rewrite (bind_Ok _ _ _ _ _ Hna), (bind_Ok _ _ _ _ _ Hor), (bind_Ok _ _ _ _ _ Hfu). unfold gets. rewrite (bind_Ok _ _ img (length img) img) by done.
  apply (export_loop_ok img ex names ordinals functions virtualImage funcName f xs Hf Lf Hn Hlen Hx xs 0); [done|lia|].
  destruct (decide (xs = [])) as [->|Hne]; [cbn; lia|]. destruct (list_snoc xs Hne) as (l & [name rva] & ->).
  destruct (Hx (length l) name rva) as (_ & a & _ & Ha & _); [by apply list_lookup_middle|]. apply rd_within in Ha.
  rewrite length_app. cbn [length]. lia.
Qed.

(** * An image with a relocation table and an export *)

(** The headers are at 64, the relocation table at 344, one slot at 368 and the
    exports at 376. *)
Definition demo_block : Block := mkBlock 0x100 [0xA070; 0].

Definition demo_exports : list Z :=
  replicate 24 0 ++ le 4 1 ++ le 4 416 ++ le 4 420 ++ le 4 424 ++ le 4 0x1000 ++ le 4 426 ++ le 2 0 ++ [102; 0].

Definition demo_image : Image :=
  replicate 60 0 ++ le 4 64 ++ replicate 136 0 ++ le 4 376 ++ le 4 0 ++ replicate 32 0 ++ le 4 344 ++ le 4 0 ++ replicate 96 0 ++
  table_bytes [demo_block] ++ replicate 8 0 ++ le 8 0x140001234 ++ demo_exports.

Lemma demo_relocatable : relocatable demo_image 344 [demo_block].
Proof.
  split.
  - exists 64. split; [by vm_compute|]. split; [by vm_compute|]. apply list.Forall_singleton. by vm_compute.
  - split; [lia|]. split; [by vm_compute|by vm_compute].
  - lia.
  - apply list.Forall_singleton. split; [by vm_compute|]. split; [by vm_compute|]. repeat constructor; by vm_compute.
  - apply list.Forall_singleton. split; [by vm_compute|]. split; [by vm_compute|]. right. by vm_compute.
  - intros [|i] [|j] a b; cbn; try done.
Qed.

Lemma apply_relocations_moves_witness :
  exists img', ApplyRelocations 0x7f0000000000 0x140000000 demo_image = Ok tt img' /\ length img' = length demo_image /\
    (forall a, a ∈ slots [demo_block] -> word a img' = u64 (word a demo_image + (0x7f0000000000 - 0x140000000))) /\
    (forall i, Forall (fun a => Z.of_nat i < a \/ a + 8 <= Z.of_nat i) (slots [demo_block]) -> img' !! i = demo_image !! i) /\
    lies 344 (table_bytes [demo_block]) img'.
Proof. apply (apply_relocations_moves demo_image 344 [demo_block] 0x7f0000000000 0x140000000). exact demo_relocatable. Defined.

Lemma relocated_twice_witness :
  exists img1 img2, ApplyRelocations 0x7f0000000000 0x140000000 demo_image = Ok tt img1 /\ ApplyRelocations 0x7f0000001000 0x140000000 img1 = Ok tt img2 /\
    word 368 img2 = u64 (word 368 demo_image + (0x7f0000001000 - 0x140000000) + (0x7f0000000000 - 0x140000000)) /\
    (word 368 img2 = u64 (word 368 demo_image + (0x7f0000001000 - 0x140000000)) <-> u64 (0x7f0000000000 - 0x140000000) = 0).
Proof.
  apply (relocated_twice demo_image 344 [demo_block] 0x7f0000000000 0x7f0000001000 0x140000000 368); [exact demo_relocatable|].
  cbn. by apply list_elem_of_singleton.
Defined.

Lemma get_proc_address_witness : xtGetProcAddress 0x7f0000000000 [102; 0] demo_image = Ok 0x7f0000001000 demo_image.
Proof.
  apply (get_proc_address demo_image [102; 0] [102] [([102], 0x1000)] 0x7f0000000000).
  - exists 64, 376, 420, 424, 416. do 7 (split; [by vm_compute|]). split; [lia|]. split; [by vm_compute|].
    intros [|i] name rva; [|done]. intros [= <- <-]. split; [cbn; lia|]. exists 426, 0. split; [by vm_compute|].
    split; [by vm_compute|]. by repeat split; vm_compute.
  - done.
  - cbn. lia.
Defined.
