(* ===== verification/Args.v ===== *)
(** The parameters of a new program: the block that [xtPassArgs] of
    xtkernel/linker.c fills, and what the program reads in it. *)
From Stdlib Require Import ZArith Lia.
From stdpp Require Import base tactics list numbers.
From S2P Require Import Prelude Bytes CString Pe PeProof.

Open Scope Z_scope.

(** * Filling the block *)

(** [sizeof(XTUserParameters)], and its fields. *)
Definition PARAMS_SIZE : Z := 32.

Definition PARAMS_argc : Z := 0.

Definition PARAMS_argv : Z := 8.

Definition PARAMS_envp : Z := 16.

Definition PARAMS_imageBase : Z := 24.

(** [for (a = args; *a; ++a)]: the bytes of the strings with their terminators. *)
Fixpoint strings_total {S} (args : list (list Z)) (total : Z) : M S Z :=
  match args with
  | [] => mret total
  | a :: args => n ← xtGetStringLength a; strings_total args (u64 (total + (n + 1)))
  end.

(** The strings from [str] on, their addresses in the process in the slots from
    [slot] on. [va] is the address in the process of [str]. *)
Fixpoint put_strings (args : list (list Z)) (slot str va : Z) : M Image (Z * Z) :=
  match args with
  | [] => mret (str, va)
  | a :: args =>
    n ← xtGetStringLength a;
    copy_to str a (n + 1) ;;;
    wr 8 slot va ;;;
    put_strings args (slot + 8) (str + (n + 1)) (u64 (va + (n + 1)))
  end.

(** The size of the block, whole pages. *)
Definition block_total (argc envc args_total env_total : Z) : Z :=
  let total := u64 (PARAMS_SIZE + (argc + 1) * 8 + (envc + 1) * 8 + args_total + env_total) in
  Z.land (u64 (total + 4095)) (2 ^ 64 - 4096).

Definition fill_header (argc argv envp imageBase : Z) : M Image unit :=
  wr 8 PARAMS_argc argc ;;;
  wr 8 PARAMS_argv argv ;;;
  wr 8 PARAMS_envp envp ;;;
  wr 8 PARAMS_imageBase imageBase.

(** The block at [va_base]; [envp] is NULL or the environment. *)
Definition fill_block (args : list (list Z)) (envp : option (list (list Z))) (va_base imageBase : Z) : M Image unit :=
  let argc := len args in
  let envc := match envp with Some es => len es | None => 0 end in
  let argv := PARAMS_SIZE in
  let env := argv + (argc + 1) * 8 in
  let strs := env + (envc + 1) * 8 in
  fill_header argc (u64 (va_base + argv)) (if envc =? 0 then NULL else u64 (va_base + env)) imageBase ;;;
  '(str, va) ← put_strings args argv strs (u64 (va_base + strs));
  wr 8 (argv + 8 * argc) NULL ;;;
  match envp with
  | None => mret tt
  | Some es =>
    put_strings es env str va ;;;
    wr 8 (env + 8 * envc) NULL
  end.

(** * What the program reads *)

(** The string at an address of the process. *)
Definition user_string (va_base : Z) (img : Image) (p : Z) : option (list Z) := c_string (drop (Z.to_nat (p - va_base)) img).

(** The array of pointers to strings at [p], up to its NULL. *)
Fixpoint user_strings (fuel : nat) (va_base : Z) (img : Image) (p : Z) : option (list (list Z)) :=
  match fuel with
  | O => None
  | S fuel =>
    let a := word (p - va_base) img in
    if a =? NULL then Some []
    else cs ← user_string va_base img a; rest ← user_strings fuel va_base img (p + 8); Some (cs :: rest)
  end.

(** * Lemmas *)

Lemma lies_word a v img : lies a (le 8 v) img -> 0 <= v < 2 ^ 64 -> word a img = v.
Proof. intros (_ & _ & E) Hv. unfold word. rewrite le_length in E. change 8 with (Z.of_nat 8). rewrite E. by apply of_le_small. Qed.

(** A string in memory. *)
Definition string_ok (a : list Z) (cs : list Z) : Prop := c_string a = Some cs /\ len cs < 2 ^ 63.

Definition texts (css : list (list Z)) : list Z := concat (map (fun cs => cs ++ [0]) css).

Fixpoint addresses (va : Z) (css : list (list Z)) : list Z :=
  match css with [] => [] | cs :: css => va :: addresses (va + (len cs + 1)) css end.

Definition pointers (ps : list Z) : list Z := concat (map (le 8) ps).

Lemma addresses_length va css : length (addresses va css) = length css.
Proof. revert va; induction css as [|cs css IH]; intros va; cbn; [done|]. by rewrite IH. Qed.

Lemma pointers_length ps : len (pointers ps) = 8 * len ps.
Proof. induction ps as [|p ps IH]; [done|]. unfold pointers in *. cbn [map concat]. rewrite length_app, le_length. cbn [length]. lia. Qed.

Lemma strlen_string a cs (img : Image) : string_ok a cs -> xtGetStringLength a img = Ok (len cs) img.
Proof. intros [Hc Hl]. unfold xtGetStringLength. rewrite (strlen_loop_ok a cs 0) by (done || lia). done. Qed.

Lemma take_string a cs : c_string a = Some cs -> take (Z.to_nat (len cs + 1)) a = cs ++ [0].
Proof.
  intros Hc. destruct (c_string_app a cs Hc) as (rest & -> & _). replace (Z.to_nat (len cs + 1)) with (length cs + 1)%nat by lia.
  by rewrite take_app_add.
Qed.

Lemma put_strings_ok : forall args css slot str va img, Forall2 string_ok args css -> 0 <= slot -> 0 <= va ->
  slot + 8 * len css <= str -> str + len (texts css) <= len img -> va + len (texts css) < 2 ^ 64 ->
  exists img', put_strings args slot str va img = Ok (str + len (texts css), va + len (texts css)) img' /\ length img' = length img /\
    lies slot (pointers (addresses va css)) img' /\ lies str (texts css) img' /\
    forall o b, lies o b img -> o + len b <= slot \/ (slot + 8 * len css <= o /\ o + len b <= str) \/ str + len (texts css) <= o -> lies o b img'.
Proof.
  induction args as [|a args IH]; intros css slot str va img Ha Hs Hva Hsl Hst Hv.
  - apply Forall2_nil_inv_l in Ha as ->. cbn in *. exists img. rewrite !Z.add_0_r. split; [done|]. split; [done|].
    assert (forall o, 0 <= o <= len img -> lies o [] img) as Hnil by (intros o Ho; unfold lies; cbn; split_and!; [lia|lia|by unfold slice]).
    split; [apply Hnil; lia|]. split; [apply Hnil; lia|done].
  - apply Forall2_cons_inv_l in Ha as (cs & css' & Hok & Ha & ->). pose proof Hok as [Hc Hl].
    change (texts (cs :: css')) with ((cs ++ [0]) ++ texts css') in *.
    assert (len (cs ++ [0]) = len cs + 1) as Lc by (rewrite length_app; cbn; lia).
    assert (len ((cs ++ [0]) ++ texts css') = len cs + 1 + len (texts css')) as Lt by (rewrite length_app; lia). rewrite Lt in *.
    assert (len (cs :: css') = 1 + len css') as Ls by (cbn [length]; lia). rewrite Ls in *.
    assert (len cs + 1 <= len a) as La.
    { destruct (c_string_app a cs Hc) as (rest & -> & _). rewrite length_app. cbn [length]. lia. }
    cbn [put_strings]. rewrite (bind_Ok _ _ _ _ _ (strlen_string a cs img Hok)).
    rewrite (bind_Ok _ _ _ _ _ (copy_to_ok str a (len cs + 1) img ltac:(lia) ltac:(lia) ltac:(lia))), (take_string a cs Hc).
    set (img1 := splice str (cs ++ [0]) img). assert (length img1 = length img) as L1 by (apply splice_length; lia).
    rewrite (bind_Ok _ _ _ _ _ (wr_ok 8 slot va img1 ltac:(lia) ltac:(lia))).
    set (img2 := splice slot (le 8 va) img1). assert (length img2 = length img) as L2 by (unfold img2; rewrite splice_length; rewrite ?le_length; lia).
    rewrite u64_small by lia.
    destruct (IH css' (slot + 8) (str + (len cs + 1)) (va + (len cs + 1)) img2 Ha) as (img' & R & Li & Hp & Ht & Hk); [lia..|].
    exists img'. rewrite R, Li. split; [f_equal; f_equal; lia|]. split; [done|]. split; [|split].
    + change (pointers (addresses va (cs :: css'))) with (le 8 va ++ pointers (addresses (va + (len cs + 1)) css')).
      apply lies_app. split; [|by rewrite le_length]. apply Hk; [|rewrite le_length; lia].
      apply lies_splice_eq; rewrite ?le_length; lia.
    + apply lies_app. rewrite Lc. split; [|done]. apply Hk; [|rewrite Lc; lia].
      apply lies_splice; rewrite ?le_length; [|lia..]. apply lies_splice_eq; lia.
    + intros o b Hb Hd. apply Hk; [|lia]. apply lies_splice; rewrite ?le_length; [|lia..]. apply lies_splice; [done|lia..].
Qed.

Lemma c_string_plain cs rest : Forall (fun c => c <> 0) cs -> c_string (cs ++ 0 :: rest) = Some cs.
Proof.
  induction 1 as [|c cs Hc _ IH]; cbn [app c_string]; [done|]. rewrite (proj2 (Z.eqb_neq _ _) Hc). by rewrite IH.
Qed.

Lemma lies_string off cs img : lies off (cs ++ [0]) img -> Forall (fun c => c <> 0) cs -> c_string (drop (Z.to_nat off) img) = Some cs.
Proof.
  intros (Ho & Hl & E) Hn. unfold slice in E. rewrite <- (take_drop (Z.to_nat (len (cs ++ [0]))) (drop (Z.to_nat off) img)), E, <- app_assoc.
  by apply c_string_plain.
Qed.

Lemma user_strings_ok va_base img : forall css p va, Forall (Forall (fun c => c <> 0)) css -> va_base < va -> 0 <= va_base ->
  va + len (texts css) < 2 ^ 64 ->
  lies (p - va_base) (pointers (addresses va css) ++ le 8 NULL) img -> lies (va - va_base) (texts css) img ->
  user_strings (S (length css)) va_base img p = Some css.
Proof.
  induction css as [|cs css IH]; intros p va Hn Hva Hb Hv Hp Ht.
  - cbn [length user_strings]. change (pointers (addresses va []) ++ le 8 NULL) with (le 8 NULL) in Hp.
    rewrite (lies_word _ _ _ Hp) by (unfold NULL; lia). done.
  - apply list.Forall_cons in Hn as [Hc Hn]. change (texts (cs :: css)) with ((cs ++ [0]) ++ texts css) in *.
    assert (len (cs ++ [0]) = len cs + 1) as Lc by (rewrite length_app; cbn; lia). rewrite length_app, Nat2Z.inj_add, Lc in Hv.
    change (pointers (addresses va (cs :: css)) ++ le 8 NULL) with (le 8 va ++ (pointers (addresses (va + (len cs + 1)) css) ++ le 8 NULL)) in Hp.
    apply lies_app in Hp as [Hp1 Hp2]. rewrite le_length in Hp2. apply lies_app in Ht as [Ht1 Ht2]. rewrite Lc in Ht2.
    cbn [length]. remember (S (length css)) as n. cbn [user_strings]. rewrite (lies_word _ _ _ Hp1) by lia.
    assert (va <> NULL) as Hvn by (unfold NULL; lia).
    rewrite (proj2 (Z.eqb_neq _ _) Hvn). unfold user_string. rewrite (lies_string _ _ _ Ht1 Hc). cbn [mbind option_bind]. subst n.
    rewrite (IH (p + 8) (va + (len cs + 1))); [done|done|lia|done|lia| |].
    + by replace (p + 8 - va_base) with (p - va_base + Z.of_nat 8) by lia.
    + by replace (va + (len cs + 1) - va_base) with (va - va_base + (len cs + 1)) by lia.
Qed.

Lemma strings_nonzero args css : Forall2 string_ok args css -> Forall (Forall (fun c => c <> 0)) css.
Proof. induction 1 as [|a cs args css [Hc _] _ IH]; constructor; [|done]. by destruct (c_string_app a cs Hc) as (_ & _ & ?). Qed.

(** Four words of the header. *)
Lemma header_ok img a b c d : 32 <= len img -> 0 <= a < 2 ^ 64 -> 0 <= b < 2 ^ 64 -> 0 <= c < 2 ^ 64 -> 0 <= d < 2 ^ 64 ->
  exists img', fill_header a b c d img = Ok tt img' /\
    length img' = length img /\ lies 0 (le 8 a) img' /\ lies 8 (le 8 b) img' /\ lies 16 (le 8 c) img' /\ lies 24 (le 8 d) img'.
Proof.
  intros Hl Ha Hb Hc Hd. unfold fill_header, PARAMS_argc, PARAMS_argv, PARAMS_envp, PARAMS_imageBase.
  set (i1 := splice 0 (le 8 a) img). set (i2 := splice 8 (le 8 b) i1). set (i3 := splice 16 (le 8 c) i2). set (i4 := splice 24 (le 8 d) i3).
  assert (length i1 = length img) as L1 by (apply splice_length; rewrite ?le_length; lia).
  assert (length i2 = length img) as L2 by (unfold i2; rewrite splice_length; rewrite ?le_length; lia).
  assert (length i3 = length img) as L3 by (unfold i3; rewrite splice_length; rewrite ?le_length; lia).
  assert (length i4 = length img) as L4 by (unfold i4; rewrite splice_length; rewrite ?le_length; lia).
  exists i4. split.
  { rewrite (bind_Ok _ _ _ _ _ (wr_ok 8 0 a img ltac:(lia) ltac:(lia))), (bind_Ok _ _ _ _ _ (wr_ok 8 8 b i1 ltac:(lia) ltac:(lia))),
      (bind_Ok _ _ _ _ _ (wr_ok 8 16 c i2 ltac:(lia) ltac:(lia))). exact (wr_ok 8 24 d i3 ltac:(lia) ltac:(lia)). }
  split; [done|].
  assert (lies 0 (le 8 a) i1) as A1 by (apply lies_splice_eq; rewrite ?le_length; lia).
  assert (lies 8 (le 8 b) i2) as B2 by (apply lies_splice_eq; rewrite ?le_length; lia).
  assert (lies 16 (le 8 c) i3) as C3 by (apply lies_splice_eq; rewrite ?le_length; lia).
  assert (lies 24 (le 8 d) i4) as D4 by (apply lies_splice_eq; rewrite ?le_length; lia).
  assert (lies 0 (le 8 a) i2) as A2 by (apply lies_splice; rewrite ?le_length; [done|lia..]).
  assert (lies 0 (le 8 a) i3) as A3 by (apply lies_splice; rewrite ?le_length; [done|lia..]).
  assert (lies 8 (le 8 b) i3) as B3 by (apply lies_splice; rewrite ?le_length; [done|lia..]).
  split_and!; [apply lies_splice|apply lies_splice|apply lies_splice|done]; rewrite ?le_length; (done || lia).
Qed.

Definition env_strings (envp : option (list (list Z))) : list (list Z) := default [] envp.

(** A table of pointers and the NULL that ends it. *)
Lemma ended_table (t : Z) (ptrs : list Z) (i : Image) (e : Z) :
  e = t + len ptrs -> 0 <= t -> e + 8 <= len i -> lies t ptrs i -> lies t (ptrs ++ le 8 NULL) (splice e (le 8 NULL) i).
Proof.
  intros -> Ht Hl H. apply lies_app. split; [apply lies_splice; rewrite ?le_length; [done|lia..]|].
  apply lies_splice_eq; rewrite ?le_length; lia.
Qed.

(** C22: A program reads in its parameters what its caller passed: the number of arguments, the base of the image, the arguments themselves and, when there is one, the environment. *)
Theorem args_reach_program (args css : list (list Z)) (envp : option (list (list Z))) (ecs : list (list Z)) (va_base imageBase : Z) (img : Image) :
  Forall2 string_ok args css -> Forall2 string_ok (env_strings envp) ecs -> 0 < va_base -> 0 <= imageBase < 2 ^ 64 ->
  let argv := PARAMS_SIZE in
  let env := argv + (len args + 1) * 8 in
  let strs := env + (len (env_strings envp) + 1) * 8 in
  strs + len (texts css) + len (texts ecs) <= len img -> va_base + len img < 2 ^ 64 ->
  exists img', fill_block args envp va_base imageBase img = Ok tt img' /\ length img' = length img /\
    word PARAMS_argc img' = len args /\ word PARAMS_imageBase img' = imageBase /\
    user_strings (S (length css)) va_base img' (word PARAMS_argv img') = Some css /\
    match env_strings envp with
    | [] => word PARAMS_envp img' = NULL
    | _ => user_strings (S (length ecs)) va_base img' (word PARAMS_envp img') = Some ecs
    end.
Proof.
  intros Ha He Hv Hi argv env strs Hl Hw. assert (length args = length css) as La by by eapply Forall2_length.
  assert (length (env_strings envp) = length ecs) as Le by by eapply Forall2_length.
  assert (match envp with Some es => len es | None => 0 end = len (env_strings envp)) as Ec by by destruct envp.
  unfold fill_block. rewrite Ec. fold argv. fold env. fold strs. set (ne := len (env_strings envp)) in *. set (na := len args) in *.
  unfold PARAMS_SIZE in argv. rewrite !u64_small by lia.
  destruct (header_ok img na (va_base + argv) (if ne =? 0 then NULL else va_base + env) imageBase) as (i1 & R1 & L1 & A1 & B1 & C1 & D1);
    [lia|lia|lia|destruct (ne =? 0); unfold NULL; lia|done|].
  rewrite (bind_Ok _ _ _ _ _ R1).
  destruct (put_strings_ok args css argv strs (va_base + strs) i1 Ha) as (i2 & R2 & L2 & P2 & T2 & K2); [lia..|].
  rewrite (bind_Ok _ _ _ _ _ R2). cbn iota beta zeta.
  rewrite (bind_Ok _ _ _ _ _ (wr_ok 8 (argv + 8 * na) NULL i2 ltac:(lia) ltac:(lia))). set (i3 := splice (argv + 8 * na) (le 8 NULL) i2).
  assert (length i3 = length img) as L3 by (unfold i3; rewrite splice_length; rewrite ?le_length; lia).
  pose proof (pointers_length (addresses (va_base + strs) css)) as Lp. rewrite addresses_length in Lp.
  set (ptrs := pointers (addresses (va_base + strs) css)) in *. set (envp_ := if ne =? 0 then NULL else va_base + env) in *.
  assert (0 <= envp_ < 2 ^ 64) as He_ by (unfold envp_; destruct (ne =? 0); unfold NULL; lia).
  (* What has been written, and stays written. *)
  assert (forall i, length i = length img -> (forall o b, lies o b i3 -> o + len b <= env \/ strs <= o /\ o + len b <= strs + len (texts css) -> lies o b i) ->
    word PARAMS_argc i = na /\ word PARAMS_imageBase i = imageBase /\
    user_strings (S (length css)) va_base i (word PARAMS_argv i) = Some css /\ word PARAMS_envp i = envp_) as G.
  { intros i Li K. assert (forall o v, o + 8 <= argv -> lies o (le 8 v) i1 -> lies o (le 8 v) i) as Kh.
    { intros o v Ho Hb. apply K; rewrite ?le_length; [|lia]. apply lies_splice; rewrite ?le_length; [|lia..]. apply K2; [done|rewrite le_length; lia]. }
    split; [apply lies_word; [by apply Kh|lia]|]. split; [apply lies_word; [by apply Kh|lia]|].
    split; [|apply lies_word; [by apply Kh|lia]].
    unfold PARAMS_argv. rewrite (lies_word 8 (va_base + argv) i) by (by apply Kh || lia).
    apply (user_strings_ok va_base i css (va_base + argv) (va_base + strs)); [by eapply strings_nonzero|lia|lia|lia| |].
    - replace (va_base + argv - va_base) with argv by lia. apply K; [|rewrite length_app, le_length; fold ptrs; lia].
      fold ptrs. apply ended_table; [lia..|done].
    - replace (va_base + strs - va_base) with strs by lia. apply K; [|lia]. apply lies_splice; rewrite ?le_length; [done|lia..]. }
  destruct envp as [es|]; cbn [env_strings default id] in *.
  - destruct (put_strings_ok es ecs env (strs + len (texts css)) (va_base + strs + len (texts css)) i3 He) as (i4 & R4 & L4 & P4 & T4 & K4); [lia..|].
    rewrite (bind_Ok _ _ _ _ _ R4). set (i5 := splice (env + 8 * ne) (le 8 NULL) i4).
    assert (length i5 = length img) as L5 by (unfold i5; rewrite splice_length; rewrite ?le_length; lia).
    exists i5. split; [exact (wr_ok 8 (env + 8 * ne) NULL i4 ltac:(lia) ltac:(lia))|]. split; [done|].
    destruct (G i5 L5) as (G1 & G2 & G3 & G4).
    { intros o b Hb Hd. apply lies_splice; rewrite ?le_length; [|lia..]. apply K4; [done|lia]. }
    split; [done|]. split; [done|]. split; [done|]. rewrite G4. unfold envp_, ne. destruct es as [|e es]; [done|]. cbn [length Z.of_nat].
    change (Z.pos (Pos.of_succ_nat (length es)) =? 0) with false. cbn iota.
    apply (user_strings_ok va_base i5 ecs (va_base + env) (va_base + strs + len (texts css))); [by eapply strings_nonzero|lia|lia|lia| |].
    + replace (va_base + env - va_base) with env by lia. pose proof (pointers_length (addresses (va_base + strs + len (texts css)) ecs)) as Lq.
      rewrite addresses_length in Lq. apply ended_table; [lia..|done].
    + replace (va_base + strs + len (texts css) - va_base) with (strs + len (texts css)) by lia. apply lies_splice; rewrite ?le_length; [done|lia..].
  - exists i3. split; [done|]. split; [done|]. by apply (G i3 L3).
Qed.

Lemma args_reach_program_witness :
  exists img', fill_block [[47; 97; 0]; [98; 0; 7]] (Some [[99; 0]]) 0x1000 0x7000 (replicate 100 0) = Ok tt img' /\ length img' = 100%nat /\
    word PARAMS_argc img' = 2 /\ word PARAMS_imageBase img' = 0x7000 /\
    user_strings 3 0x1000 img' (word PARAMS_argv img') = Some [[47; 97]; [98]] /\
    user_strings 2 0x1000 img' (word PARAMS_envp img') = Some [[99]].
Proof.
  apply (args_reach_program [[47; 97; 0]; [98; 0; 7]] [[47; 97]; [98]] (Some [[99; 0]]) [[99]] 0x1000 0x7000 (replicate 100 0)).
  - repeat constructor.
  - repeat constructor.
  - lia.
  - lia.
  - vm_compute. discriminate.
  - vm_compute. reflexivity.
Defined.
