(* ===== verification/LoadProof.v ===== *)
(** Loading an executable file: where its headers and sections end up. *)
From Stdlib Require Import ZArith Lia.
From stdpp Require Import base tactics list numbers.
From S2P Require Import Prelude Bytes Pe PeProof.

Open Scope Z_scope.

(** The headers of a file: how many bytes they take and the sections they list. *)
Definition file_headers (src : Image) (headers : Z) (secs : list Section_) : Prop := exists nt sections,
  nt_headers src = Ok nt src /\ opt nt OPT_SizeOfHeaders 4 src = Ok headers src /\ first_section nt src = Ok sections src /\
  rd 2 (nt + NT_NumberOfSections) src = Ok (len secs) src /\ 0 <= headers <= len src /\
  forall i s, secs !! i = Some s -> section_at sections (Z.of_nat i) src = Ok s src.

(** The section comes from within the file and fits the image. *)
Definition section_ok (src img : Image) (s : Section_) : Prop :=
  0 <= sec_va s /\ 0 <= sec_size s /\ 0 <= sec_raw s /\ sec_raw s + sec_size s <= len src /\ sec_va s + sec_size s <= len img.

Definition sections_apart (s t : Section_) : Prop := sec_va s + sec_size s <= sec_va t \/ sec_va t + sec_size t <= sec_va s.

(** The bytes of the section in the file. *)
Definition section_bytes (src : Image) (s : Section_) : list Z := slice (sec_raw s) (sec_size s) src.

Lemma peek_ok {X} (src : Image) (m : M Image X) x img : m src = Ok x src -> peek src m img = Ok x img.
Proof. intros E. unfold peek. by rewrite E. Qed.

Lemma section_bytes_length src img s : section_ok src img s -> len (section_bytes src s) = sec_size s.
Proof. intros (Hv & Hs & Hr & Hf & Hi). unfold section_bytes. rewrite slice_length by lia. lia. Qed.

Lemma copy_sections_ok src sections : forall secs i img,
  (forall j s, secs !! j = Some s -> section_at sections (i + Z.of_nat j) src = Ok s src) ->
  Forall (section_ok src img) secs ->
  exists img', copy_sections src (length secs) sections i img = Ok tt img' /\ length img' = length img /\
    (ForallOrdPairs sections_apart secs -> forall s, s ∈ secs -> lies (sec_va s) (section_bytes src s) img') /\
    (forall o b, lies o b img -> Forall (fun s => o + len b <= sec_va s \/ sec_va s + sec_size s <= o) secs -> lies o b img').
Proof.
  induction secs as [|s secs IH]; intros i img Hat Hok.
  - exists img. split; [done|]. split; [done|]. split; [|done]. intros _ s Hs. by apply elem_of_nil in Hs.
  - apply list.Forall_cons in Hok as [Hs Hok]. pose proof (Hat 0%nat s eq_refl) as E. replace (i + Z.of_nat 0) with i in E by lia.
    pose proof Hs as (Hv & Hz & Hr & Hf & Hi). pose proof (section_bytes_length src img s Hs) as L.
    cbn [length copy_sections]. rewrite (bind_Ok _ _ _ _ _ (peek_ok src _ s img E)).
    rewrite (bind_Ok _ _ _ _ _ (peek_ok src _ _ img (bytes_at_ok (sec_raw s) src ltac:(lia)))).
    rewrite (bind_Ok _ _ _ _ _ (copy_to_ok (sec_va s) (drop (Z.to_nat (sec_raw s)) src) (sec_size s) img ltac:(lia) ltac:(rewrite length_drop; lia) ltac:(lia))).
    change (take _ (drop _ src)) with (section_bytes src s). set (img1 := splice _ _ img).
    assert (length img1 = length img) as L1 by (apply splice_length; lia).
    destruct (IH (i + 1) img1) as (img' & R & L' & Hin & Hout).
    { intros j t Hj. replace (i + 1 + Z.of_nat j) with (i + Z.of_nat (S j)) by lia. by apply Hat. }
    { eapply list.Forall_impl; [exact Hok|]. intros t. unfold section_ok. by rewrite L1. }
    exists img'. split; [done|]. split; [congruence|]. split.
    + intros Hap t Ht. inversion Hap as [|? ? Hone Hrest]; subst. apply elem_of_cons in Ht as [->|Ht]; [|by apply Hin].
      apply Hout; [apply lies_splice_eq; lia|]. rewrite L. eapply list.Forall_impl; [exact Hone|]. done.
    + intros o b Hb Hd. apply list.Forall_cons in Hd as [Hd Hds]. apply Hout; [|done]. apply lies_splice; [done|lia..].
Qed.

(** C19: A loaded image holds the headers of the file at its start and every section of the file at its virtual address; the rest is as it was. *)
Theorem load_image_layout (src img : Image) (headers : Z) (secs : list Section_) :
  file_headers src headers secs -> Forall (section_ok src img) secs -> headers <= len img ->
  ForallOrdPairs sections_apart secs -> Forall (fun s => headers <= sec_va s) secs ->
  exists img', load_image src img = Ok tt img' /\ length img' = length img /\ lies 0 (take (Z.to_nat headers) src) img' /\
    (forall s, s ∈ secs -> lies (sec_va s) (section_bytes src s) img') /\
    (forall o b, lies o b img -> headers <= o -> Forall (fun s => o + len b <= sec_va s \/ sec_va s + sec_size s <= o) secs -> lies o b img').
Proof.
  intros (nt & sections & Hn & Hh & Hf & Hc & Hhl & Hat) Hok Hhi Hap Hab. unfold load_image.
  rewrite (bind_Ok _ _ _ _ _ (peek_ok src _ _ img Hn)), (bind_Ok _ _ _ _ _ (peek_ok src _ _ img Hh)).
  rewrite (bind_Ok _ _ _ _ _ (copy_to_ok 0 src headers img ltac:(lia) Hhl ltac:(lia))).
  set (hb := take (Z.to_nat headers) src). assert (len hb = headers) as Lh by (unfold hb; rewrite length_take; lia).
  set (img1 := splice 0 hb img). assert (length img1 = length img) as L1 by (apply splice_length; lia).
  rewrite (bind_Ok _ _ _ _ _ (peek_ok src _ _ img1 Hf)), (bind_Ok _ _ _ _ _ (peek_ok src _ _ img1 Hc)), Nat2Z.id.
  destruct (copy_sections_ok src sections secs 0 img1) as (img' & R & L' & Hin & Hout).
  { intros j s Hj. by apply Hat. }
  { eapply list.Forall_impl; [exact Hok|]. intros t. unfold section_ok. by rewrite L1. }
  exists img'. split; [done|]. split; [congruence|]. split; [|split; [by apply Hin|]].
  - apply Hout; [apply lies_splice_eq; lia|]. rewrite Lh. eapply list.Forall_impl; [exact Hab|]. cbn. lia.
  - intros o b Hb Ho Hd. apply Hout; [|done]. apply lies_splice; [done|lia..].
Qed.

(** * A file with two sections *)

(** Headers of 400 bytes: a section of 4 bytes at 400 that goes to 512, and one
    of 2 bytes at 404 that goes to 600. *)
Definition demo_section (va size raw flags : Z) : list Z := replicate 12 0 ++ le 4 va ++ le 4 size ++ le 4 raw ++ replicate 12 0 ++ le 4 flags.

Definition demo_file : Image :=
  replicate 60 0 ++ le 4 64 ++ replicate 6 0 ++ le 2 2 ++ replicate 12 0 ++ le 2 200 ++ replicate 62 0 ++ le 4 400 ++ replicate 136 0 ++
  demo_section 512 4 400 IMAGE_SCN_MEM_EXECUTE ++ demo_section 600 2 404 IMAGE_SCN_MEM_WRITE ++ replicate 32 0 ++ [1; 2; 3; 4; 5; 6].

Definition demo_sections : list Section_ := [mkSection 512 4 400 IMAGE_SCN_MEM_EXECUTE; mkSection 600 2 404 IMAGE_SCN_MEM_WRITE].

Lemma demo_file_headers : file_headers demo_file 400 demo_sections.
Proof.
  exists 64, 288. split; [by vm_compute|]. split; [by vm_compute|]. split; [by vm_compute|]. split; [by vm_compute|]. split; [by vm_compute|].
  intros [|[|i]] s; [intros [= <-]; by vm_compute..|done].
Qed.

Lemma load_image_layout_witness :
  exists img', load_image demo_file (replicate 700 0) = Ok tt img' /\ length img' = 700%nat /\ lies 0 (take 400 demo_file) img' /\
    (forall s, s ∈ demo_sections -> lies (sec_va s) (section_bytes demo_file s) img') /\
    (forall o b, lies o b (replicate 700 0) -> 400 <= o -> Forall (fun s => o + len b <= sec_va s \/ sec_va s + sec_size s <= o) demo_sections -> lies o b img').
Proof.
  apply (load_image_layout demo_file (replicate 700 0) 400 demo_sections).
  - exact demo_file_headers.
  - repeat constructor; vm_compute; discriminate.
  - vm_compute. discriminate.
  - apply FOP_cons; [apply list.Forall_singleton; left; by vm_compute|]. by repeat constructor.
  - repeat constructor; vm_compute; discriminate.
Defined.
