(* ===== verification/Ports.v ===== *)
(** The ports of the machine and the chips behind them: the port functions of
    xtkernel/arch/x86_64/io.c, the interrupt controllers and the timer of
    xtkernel/arch/x86_64/pit.c and the serial port of
    xtkernel/arch/x86_64/serial.c. *)
From Stdlib Require Import ZArith Lia.
From stdpp Require Import base tactics list numbers.
From S2P Require Import Prelude.

Open Scope Z_scope.

(** * The bus *)

(** What the instructions [in] and [out] do to the devices: [width] is the
    number of bytes, then the port. Device registers in memory are read and
    written in the same way by their address. *)
Class Bus (D : Type) := {
  bus_in : Z -> Z -> D -> Z * D;
  bus_out : Z -> Z -> Z -> D -> D;
  mmio_in : Z -> Z -> D -> Z * D;
  mmio_out : Z -> Z -> Z -> D -> D
}.

Definition PIC1_OFFSET : Z := 0x20.

Definition PIC2_OFFSET : Z := 0x28.

Definition PIC1_COMMAND : Z := 0x20.

Definition PIC1_DATA : Z := 0x21.

Definition PIC2_COMMAND : Z := 0xA0.

Definition PIC2_DATA : Z := 0xA1.

Definition ICW1_ICW4 : Z := 0x01.

Definition ICW1_INIT : Z := 0x10.

Definition ICW4_8086 : Z := 0x01.

Definition PIT_CHANNEL0 : Z := 0x40.

Definition PIT_COMMAND : Z := 0x43.

Definition PIT_BASE_FREQ : Z := 1193182.

Definition PIT_FREQUENCY_HZ : Z := 1000.

Definition PIC_EOI : Z := 0x20.

Section Ports.
Context {D : Type} {B : Bus D}.

(** * io.c *)

Definition xtOutB (port data : Z) : M D unit := modify (bus_out 1 (u16 port) (u8 data)).

Definition xtOutW (port data : Z) : M D unit := modify (bus_out 2 (u16 port) (u16 data)).

Definition xtOutL (port data : Z) : M D unit := modify (bus_out 4 (u16 port) (u32 data)).

Definition xtInB (port : Z) : M D Z := fun d => let '(v, d) := bus_in 1 (u16 port) d in Ok (u8 v) d.

Definition xtInW (port : Z) : M D Z := fun d => let '(v, d) := bus_in 2 (u16 port) d in Ok (u16 v) d.

Definition xtInL (port : Z) : M D Z := fun d => let '(v, d) := bus_in 4 (u16 port) d in Ok (u32 v) d.

(** * pit.c *)

Definition io_wait : M D unit := xtOutB 0x80 0.

Definition xtInitializePIC : M D unit :=
  xtInB PIC1_DATA ;;;
  xtInB PIC2_DATA ;;;
  xtOutB PIC1_COMMAND (Z.lor ICW1_INIT ICW1_ICW4) ;;;
  io_wait ;;;
  xtOutB PIC2_COMMAND (Z.lor ICW1_INIT ICW1_ICW4) ;;;
  io_wait ;;;
  xtOutB PIC1_DATA PIC1_OFFSET ;;;
  io_wait ;;;
  xtOutB PIC2_DATA PIC2_OFFSET ;;;
  io_wait ;;;
  xtOutB PIC1_DATA 4 ;;;
  io_wait ;;;
  xtOutB PIC2_DATA 2 ;;;
  io_wait ;;;
  xtOutB PIC1_DATA ICW4_8086 ;;;
  io_wait ;;;
  xtOutB PIC2_DATA ICW4_8086 ;;;
  io_wait ;;;
  xtOutB PIC1_DATA 0xFE ;;;
  xtOutB PIC2_DATA 0xFF.

Definition pit_divisor : Z := PIT_BASE_FREQ / PIT_FREQUENCY_HZ.

Definition xtInitializePIT : M D unit :=
  let divisor := pit_divisor in
  if divisor >? 65535 then throw XT_INVALID_PARAMETER
  else
    xtOutB PIT_COMMAND 0x36 ;;;
    io_wait ;;;
    xtOutB PIT_CHANNEL0 (Z.land divisor 0xFF) ;;;
    io_wait ;;;
    xtOutB PIT_CHANNEL0 (Z.land (Z.shiftr divisor 8) 0xFF).

(** The data port of the chip of a line, and the number of the line there. *)
Definition line_port (irq : Z) : Z * Z := if irq <? 8 then (PIC1_DATA, irq) else (PIC2_DATA, irq - 8).

(** [1 << irq], where [1] is an [int]. *)
Definition line_bit (irq : Z) : M D Z := if irq >=? 31 then fault else mret (Z.shiftl 1 irq).

Definition xtUnmaskIRQ (irq : Z) : M D unit :=
  let '(port, irq) := line_port irq in
  value ← xtInB port;
  bit ← line_bit irq;
  xtOutB port (u8 (Z.ldiff value bit)).

Definition xtMaskIRQ (irq : Z) : M D unit :=
  let '(port, irq) := line_port irq in
  value ← xtInB port;
  bit ← line_bit irq;
  xtOutB port (u8 (Z.lor value bit)).

Definition xtPicSendEOI (irq : Z) : M D unit :=
  (if irq >=? 8 then xtOutB PIC2_COMMAND PIC_EOI else mret tt) ;;;
  xtOutB PIC1_COMMAND PIC_EOI.

Definition xtSendEOI : M D unit := out_or tt (xtPicSendEOI 0).

Definition xtPITInit : M D unit :=
  out_or tt xtInitializePIC ;;;
  out_or tt xtInitializePIT.

(** * serial.c *)

(** [data] is what the pointer points to. The count that is written is never
    reported. *)
Fixpoint serial_loop (count : nat) (data : list Z) : M D unit :=
  match count with
  | O => mret tt
  | S count =>
    match data with
    | [] => fault
    | b :: data => xtOutB 0x3f8 b ;;; serial_loop count data
    end
  end.

Definition xtSerialWrite (data : list Z) (offset count : Z) : M D unit := serial_loop (Z.to_nat count) data.

End Ports.

(** * The interrupt controllers *)

(** The documented state of an 8259: the initialisation words it still waits
    for, the first vector, the wiring of the cascade, the mode and the mask. *)
Record Chip := mkChip { awaited : nat; vector : Z; cascade : Z; mode : Z; imr : Z }.

(** A word with bit 4 to the command port starts an initialisation of four
    words; the data port takes the other three, then masks. *)
Definition command_step (v : Z) (c : Chip) : Chip :=
  if Z.testbit v 4 then mkChip 3 (vector c) (cascade c) (mode c) 0 else c.

Definition data_step (v : Z) (c : Chip) : Chip :=
  match awaited c with
  | 3%nat => mkChip 2 (Z.land v 0xF8) (cascade c) (mode c) (imr c)
  | 2%nat => mkChip 1 (vector c) v (mode c) (imr c)
  | 1%nat => mkChip 0 (vector c) (cascade c) v (imr c)
  | _ => mkChip 0 (vector c) (cascade c) (mode c) v
  end.

(** A bus with the two controllers on it, [true] the master. *)
Class PicBus (D : Type) {B : Bus D} := {
  chip : bool -> D -> Chip;
  chip_command m v d : 0 <= v < 256 ->
    forall n, chip n (bus_out 1 (if m : bool then PIC1_COMMAND else PIC2_COMMAND) v d) =
      if Bool.eqb n m then command_step v (chip n d) else chip n d;
  chip_data m v d : 0 <= v < 256 ->
    forall n, chip n (bus_out 1 (if m : bool then PIC1_DATA else PIC2_DATA) v d) =
      if Bool.eqb n m then data_step v (chip n d) else chip n d;
  chip_delay v d : forall n, chip n (bus_out 1 0x80 v d) = chip n d;
  chip_mask m d : awaited (chip m d) = 0%nat -> 0 <= imr (chip m d) < 256 ->
    fst (bus_in 1 (if m : bool then PIC1_DATA else PIC2_DATA) d) = imr (chip m d);
  chip_in m d : forall n, chip n (snd (bus_in 1 (if m : bool then PIC1_DATA else PIC2_DATA) d)) = chip n d
}.

Section Controllers.
Context {D : Type} {B : Bus D} {I : PicBus D}.

(** A line is masked when its bit in the mask of its chip is set. *)
Definition masked (irq : Z) (d : D) : bool := Z.testbit (imr (chip (irq <? 8) d)) (irq mod 8).

(** Both controllers take masks, which are bytes. *)
Definition pics_ready (d : D) : Prop := forall n, awaited (chip n d) = 0%nat /\ 0 <= imr (chip n d) < 256.

Lemma lines16 (Q : Z -> Prop) :
  Forall Q [0; 1; 2; 3; 4; 5; 6; 7; 8; 9; 10; 11; 12; 13; 14; 15] -> forall irq, 0 <= irq < 16 -> Q irq.
Proof.
  change [0; 1; 2; 3; 4; 5; 6; 7; 8; 9; 10; 11; 12; 13; 14; 15] with (seqZ 0 16). intros HQ irq Hi.
  rewrite list.Forall_forall in HQ. apply HQ. apply elem_of_seqZ. lia.
Qed.

(** ** The controllers one byte at a time *)

Lemma out_command m v (k : M D unit) d : 0 <= v < 256 ->
  exists d', (xtOutB (if m : bool then PIC1_COMMAND else PIC2_COMMAND) v ;;; k) d = k d' /\
    forall n, chip n d' = if Bool.eqb n m then command_step v (chip n d) else chip n d.
Proof.
  intros Hv. eexists. split; [reflexivity|]. intros n.
  rewrite u8_small by lia. destruct m; [exact (chip_command true v d Hv n)|exact (chip_command false v d Hv n)].
Qed.

Lemma out_data m v (k : M D unit) d : 0 <= v < 256 ->
  exists d', (xtOutB (if m : bool then PIC1_DATA else PIC2_DATA) v ;;; k) d = k d' /\
    forall n, chip n d' = if Bool.eqb n m then data_step v (chip n d) else chip n d.
Proof.
  intros Hv. eexists. split; [reflexivity|]. intros n.
  rewrite u8_small by lia. destruct m; [exact (chip_data true v d Hv n)|exact (chip_data false v d Hv n)].
Qed.

Lemma out_data_last m v d : 0 <= v < 256 ->
  exists d', xtOutB (if m : bool then PIC1_DATA else PIC2_DATA) v d = Ok tt d' /\
    forall n, chip n d' = if Bool.eqb n m then data_step v (chip n d) else chip n d.
Proof.
  intros Hv. eexists. split; [reflexivity|]. intros n.
  rewrite u8_small by lia. destruct m; [exact (chip_data true v d Hv n)|exact (chip_data false v d Hv n)].
Qed.

Lemma out_delay (k : M D unit) d :
  exists d', (io_wait ;;; k) d = k d' /\ forall n, chip n d' = chip n d.
Proof. eexists. split; [reflexivity|]. intros n. apply chip_delay. Qed.

Lemma in_data m (k : M D unit) d :
  exists d', (xtInB (if m : bool then PIC1_DATA else PIC2_DATA) ;;; k) d = k d' /\ forall n, chip n d' = chip n d.
Proof.
  assert (forall p : Z, (xtInB p ;;; k) d = k (snd (bus_in 1 (u16 p) d))) as E.
  { intros p. unfold mbind, M_bind, xtInB. by destruct (bus_in 1 (u16 p) d). }
  rewrite E. eexists. split; [reflexivity|]. intros n. destruct m; [exact (chip_in true d n)|exact (chip_in false d n)].
Qed.

End Controllers.

(** Passes one access of the controllers and keeps what it did to both chips. *)
Ltac pic_step :=
  let d := fresh "d" in let E := fresh "E" in let F := fresh "F" in
  match goal with
  | |- exists d', (xtOutB PIC1_COMMAND ?v ;;; ?k) ?s = _ /\ _ => destruct (out_command true v k s ltac:(vm_compute; split; congruence)) as (d & E & F)
  | |- exists d', (xtOutB PIC2_COMMAND ?v ;;; ?k) ?s = _ /\ _ => destruct (out_command false v k s ltac:(vm_compute; split; congruence)) as (d & E & F)
  | |- exists d', (xtOutB PIC1_DATA ?v ;;; ?k) ?s = _ /\ _ => destruct (out_data true v k s ltac:(vm_compute; split; congruence)) as (d & E & F)
  | |- exists d', (xtOutB PIC2_DATA ?v ;;; ?k) ?s = _ /\ _ => destruct (out_data false v k s ltac:(vm_compute; split; congruence)) as (d & E & F)
  | |- exists d', xtOutB PIC2_DATA ?v ?s = _ /\ _ => destruct (out_data_last false v s ltac:(vm_compute; split; congruence)) as (d & E & F)
  | |- exists d', (io_wait ;;; ?k) ?s = _ /\ _ => destruct (out_delay k s) as (d & E & F)
  | |- exists d', (xtInB PIC1_DATA ;;; ?k) ?s = _ /\ _ => destruct (in_data true k s) as (d & E & F)
  | |- exists d', (xtInB PIC2_DATA ;;; ?k) ?s = _ /\ _ => destruct (in_data false k s) as (d & E & F)
  end;
  cbv zeta in E; rewrite E; clear E.

Section Theorems.
Context {D : Type} {B : Bus D} {I : PicBus D}.

(** Whatever state the two controllers are in, after [xtInitializePIC] they deliver the lines 0 to 7 as the vectors from 0x20 on and the lines 8 to 15 as those from 0x28 on, clear of the exceptions of the processor, are wired as master and slave at line 2, and let through only the timer. *)
Theorem initialize_pic (d : D) :
  exists d', xtInitializePIC d = Ok tt d' /\
    chip true d' = mkChip 0 PIC1_OFFSET 4 ICW4_8086 0xFE /\ chip false d' = mkChip 0 PIC2_OFFSET 2 ICW4_8086 0xFF /\
    forall irq, 0 <= irq < 16 -> masked irq d' = negb (irq =? 0).
Proof.
  unfold xtInitializePIC. repeat pic_step.
  match goal with |- exists d', Ok tt ?s = _ /\ _ => exists s; split; [reflexivity|]; set (s' := s) in * end.
  assert (chip true s' = mkChip 0 PIC1_OFFSET 4 ICW4_8086 0xFE) as Ht.
  { repeat match goal with F : forall n, chip n ?d = _ |- context [chip true ?d] => rewrite (F true); clear F; cbn [Bool.eqb] end.
    reflexivity. }
  assert (chip false s' = mkChip 0 PIC2_OFFSET 2 ICW4_8086 0xFF) as Hf.
  { repeat match goal with F : forall n, chip n ?d = _ |- context [chip false ?d] => rewrite (F false); clear F; cbn [Bool.eqb] end.
    reflexivity. }
  split_and!; [done..|]. intros irq Hi. unfold masked.
  revert irq Hi. apply lines16. 
  repeat (apply list.Forall_cons; split; [cbn; rewrite ?Ht, ?Hf; reflexivity|]). constructor.
Qed.


Lemma in_mask (m : bool) (d : D) : awaited (chip m d) = 0%nat -> 0 <= imr (chip m d) < 256 ->
  exists d1, xtInB (if m : bool then PIC1_DATA else PIC2_DATA) d = Ok (imr (chip m d)) d1 /\ forall n, chip n d1 = chip n d.
Proof.
  intros H0 Hb. pose proof (chip_mask m d H0 Hb) as E. pose proof (chip_in m d) as F. unfold xtInB.
  replace (u16 (if m then PIC1_DATA else PIC2_DATA)) with (if m then PIC1_DATA else PIC2_DATA) by by destruct m.
  destruct (bus_in 1 (if m then PIC1_DATA else PIC2_DATA) d) as [v d1]. cbn in E, F. subst v.
  exists d1. by rewrite u8_small.
Qed.

(** A mask is read, changed by [f] and written back. *)
Lemma remask (f : Z -> Z) (m : bool) (d : D) : pics_ready d ->
  exists d', (value ← xtInB (if m : bool then PIC1_DATA else PIC2_DATA); xtOutB (if m then PIC1_DATA else PIC2_DATA) (u8 (f value))) d = Ok tt d' /\
    imr (chip m d') = u8 (f (imr (chip m d))) /\ imr (chip (negb m) d') = imr (chip (negb m) d).
Proof.
  intros Hr. destruct (Hr m) as [H0 Hb]. destruct (in_mask m d H0 Hb) as (d1 & E1 & F1).
  destruct (out_data_last m (u8 (f (imr (chip m d)))) d1 (u8_bound _)) as (d2 & E2 & F2).
  exists d2. erewrite bind_Ok by exact E1. rewrite E2. split; [done|].
  rewrite !F2, !F1. rewrite eqb_reflx. replace (Bool.eqb (negb m) m) with false by by destruct m.
  split; [|done]. unfold data_step. by rewrite H0.
Qed.

Lemma line_port_spec irq : 0 <= irq < 16 ->
  line_port irq = (if irq <? 8 then PIC1_DATA else PIC2_DATA, irq mod 8).
Proof. revert irq. apply lines16. by repeat constructor. Qed.

Lemma u8_testbit z i : 0 <= i < 8 -> Z.testbit (u8 z) i = Z.testbit z i.
Proof. intros H. unfold u8. apply Z.mod_pow2_bits_low. lia. Qed.

Lemma testbit_one_line i j : 0 <= i -> Z.testbit (Z.shiftl 1 i) j = (j =? i).
Proof.
  intros Hi. rewrite Z.shiftl_1_l. destruct (j =? i) eqn:E; zbool; [subst; by apply Z.pow2_bits_true|by apply Z.pow2_bits_false].
Qed.

(** The line and the chip of two interrupts agree only when they are the same. *)
Lemma same_line i j : (i <? 8) = (j <? 8) -> 0 <= i < 16 -> 0 <= j < 16 -> (i mod 8 =? j mod 8) = (i =? j).
Proof.
  intros H Hi Hj. assert (i / 8 = j / 8) by (destruct (i <? 8) eqn:E1, (j <? 8) eqn:E2; zbool; dlia).
  destruct (i =? j) eqn:E; zbool; [subst; apply Z.eqb_refl|]. apply Z.eqb_neq. dlia.
Qed.

(** Masking and unmasking a line, in one lemma: [g] is what happens to a bit of
    the mask at the line and [f] what the code does to the mask. *)
Lemma remask_line (f : Z -> Z -> Z) (g : bool -> bool) irq (d : D) :
  pics_ready d -> 0 <= irq < 16 ->
  (forall v i j, 0 <= i -> Z.testbit (f v (Z.shiftl 1 i)) j = if j =? i then g (Z.testbit v j) else Z.testbit v j) ->
  exists d', (let '(port, line) := line_port irq in value ← xtInB port; bit ← line_bit line; xtOutB port (u8 (f value bit))) d = Ok tt d' /\
    forall j, 0 <= j < 16 -> masked j d' = if j =? irq then g (masked j d) else masked j d.
Proof.
  intros Hr Hi Hf. rewrite line_port_spec by done. cbv beta iota.
  assert (0 <= irq mod 8 < 8) as Hm by (apply Z.mod_pos_bound; lia).
  assert (line_bit (irq mod 8) = mret (Z.shiftl 1 (irq mod 8)) :> M D Z) as ->
    by (unfold line_bit; by replace (irq mod 8 >=? 31) with false by lia).
  destruct (remask (fun v => f v (Z.shiftl 1 (irq mod 8))) (irq <? 8) d Hr) as (d' & E & F1 & F2).
  exists d'. split; [exact E|]. intros j Hj. unfold masked.
  assert (0 <= j mod 8 < 8) as Hjm by (apply Z.mod_pos_bound; lia).
  destruct (Bool.eqb (j <? 8) (irq <? 8)) eqn:Es.
  - apply eqb_prop in Es. rewrite Es, F1, u8_testbit, Hf by lia. by rewrite same_line.
  - replace (j <? 8) with (negb (irq <? 8)) by (destruct (irq <? 8), (j <? 8); done).
    rewrite F2. destruct (j =? irq) eqn:E'; [|done]. zbool. subst. by rewrite eqb_reflx in Es.
Qed.

(** Masking a line stops it and unmasking lets it through, on the controller it belongs to, and none of the other fifteen lines changes. *)
Theorem mask_irq_lines (irq : Z) (d : D) : pics_ready d -> 0 <= irq < 16 ->
  (exists d', xtMaskIRQ irq d = Ok tt d' /\
    forall j, 0 <= j < 16 -> masked j d' = if j =? irq then true else masked j d) /\
  (exists d', xtUnmaskIRQ irq d = Ok tt d' /\
    forall j, 0 <= j < 16 -> masked j d' = if j =? irq then false else masked j d).
Proof.
  intros Hr Hi. split.
  - apply (remask_line Z.lor (fun _ => true)); [done..|]. intros v i j H0.
    rewrite Z.lor_spec, testbit_one_line by done. destruct (j =? i); [apply orb_true_r|apply orb_false_r].
  - apply (remask_line Z.ldiff (fun _ => false)); [done..|]. intros v i j H0.
    rewrite Z.ldiff_spec, testbit_one_line by done. destruct (j =? i); [apply andb_false_r|apply andb_true_r].
Qed.

End Theorems.

(** * A machine with just the two controllers *)

Definition Pics : Type := Chip * Chip.

Definition pics_out (width port v : Z) (d : Pics) : Pics :=
  let '(m, s) := d in
  if port =? PIC1_COMMAND then (command_step v m, s)
  else if port =? PIC2_COMMAND then (m, command_step v s)
  else if port =? PIC1_DATA then (data_step v m, s)
  else if port =? PIC2_DATA then (m, data_step v s)
  else d.

Definition pics_in (width port : Z) (d : Pics) : Z * Pics :=
  (if port =? PIC1_DATA then imr (fst d) else if port =? PIC2_DATA then imr (snd d) else 0xFF, d).

#[export] Instance pics_bus : Bus Pics :=
  {| bus_in := pics_in; bus_out := pics_out; mmio_in _ _ d := (0, d); mmio_out _ _ _ d := d |}.

#[export, program] Instance pics_pic : PicBus Pics := {| chip n d := if n : bool then fst d else snd d |}.
Next Obligation. intros [] v [m s] _ []; done. Qed.
Next Obligation. intros [] v [m s] _ []; done. Qed.
Next Obligation. intros v [m s] []; done. Qed.
Next Obligation. intros [] [m s] _ _; done. Qed.
Next Obligation. intros [] [m s] []; done. Qed.

Lemma mask_irq_lines_witness :
  (exists d', xtMaskIRQ 12 (mkChip 0 0x20 4 1 0xFE, mkChip 0 0x28 2 1 0xEF) = Ok tt d' /\
    forall j, 0 <= j < 16 -> masked j d' = if j =? 12 then true else masked j (mkChip 0 0x20 4 1 0xFE, mkChip 0 0x28 2 1 0xEF)) /\
  (exists d', xtUnmaskIRQ 12 (mkChip 0 0x20 4 1 0xFE, mkChip 0 0x28 2 1 0xEF) = Ok tt d' /\
    forall j, 0 <= j < 16 -> masked j d' = if j =? 12 then false else masked j (mkChip 0 0x20 4 1 0xFE, mkChip 0 0x28 2 1 0xEF)).
Proof. apply mask_irq_lines; [intros []; cbn; lia|lia]. Defined.
