(* ===== verification/Cmos.v ===== *)
(** The registers of the CMOS clock: how xtCMOSInit of
    xtkernel/arch/x86_64/arch.c reads them through two ports. What it makes of
    them is in Time.v. *)
From Stdlib Require Import ZArith Lia.
From stdpp Require Import base tactics list gmap fin_maps numbers.
From S2P Require Import Prelude Time Ports.

Open Scope Z_scope.

Section Cmos.
Context {D : Type} {B : Bus D}.

(** * Registers *)

Definition getUpdateInProgress : M D Z :=
  xtOutB 0x70 0x0a ;;;
  data ← xtInB 0x71;
  mret (Z.land data 0x80).

Definition getRTCRegister (reg : Z) : M D Z :=
  xtOutB 0x70 reg ;;;
  xtInB 0x71.

(** [while (getUpdateInProgress());] *)
Fixpoint wait_update (fuel : nat) : M D unit :=
  busy ← getUpdateInProgress;
  if busy =? 0 then mret tt else match fuel with O => nofuel | S fuel => wait_update fuel end.

(** One reading of the six registers; there is no century register. *)
Definition read_rtc (fuel : nat) : M D RtcRegs :=
  wait_update fuel ;;;
  second ← getRTCRegister 0x00;
  minute ← getRTCRegister 0x02;
  hour ← getRTCRegister 0x04;
  day ← getRTCRegister 0x07;
  month ← getRTCRegister 0x08;
  year ← getRTCRegister 0x09;
  mret (mkRtc second minute hour day month year).

(** The loop until two readings in a row agree, as [rtc_settle] does it. *)
Fixpoint read_settled (fuel n : nat) (cur : RtcRegs) : M D RtcRegs :=
  match n with
  | O => nofuel
  | S n => r ← read_rtc fuel; if decide (cur = r) then mret r else read_settled fuel n r
  end.

(** The clock at the start: what goes to [xtMakeTime]. *)
Definition read_time (fuel n : nat) : M D XTTime :=
  first ← read_rtc fuel;
  r ← read_settled fuel n first;
  registerB ← getRTCRegister 0x0B;
  mret (rtc_decode r registerB).

End Cmos.

(** * The chip *)

(** A bus with the chip: a write to the index port selects a register, a read of
    the data port gives it. The registers change from one reading to the next:
    [later r] is the chip after a reading of [r]. *)
Class CmosBus (D : Type) `{Bus D} := {
  register : D -> Z -> Z;
  later : Z -> D -> D;
  register_bound d r : 0 <= register d r < 2 ^ 8;
  select_law r d : 0 <= r < 128 -> bus_in 1 0x71 (bus_out 1 0x70 r d) = (register d r, later r d)
}.

Section Chip.
Context {D : Type} {B : Bus D} {C : CmosBus D}.

Lemma get_register r (d : D) : 0 <= r < 128 -> getRTCRegister r d = Ok (register d r) (later r d).
Proof.
  intros Hr. unfold getRTCRegister, xtOutB, xtInB, mbind, M_bind, modify. rewrite (u16_small 0x70), (u16_small 0x71), u8_small by lia.
  rewrite select_law by done. by rewrite u8_small by apply register_bound.
Qed.

(** Reads the next register of the program. *)
Ltac reg_step := match goal with |- context [(getRTCRegister ?r ≫= _) _] => rewrite (bind_Ok _ _ _ _ _ (get_register r _ ltac:(lia))) end.

Lemma get_update (d : D) : getUpdateInProgress d = Ok (Z.land (register d 0x0a) 0x80) (later 0x0a d).
Proof.
  assert (E : getUpdateInProgress d = (data ← getRTCRegister 0x0a; mret (Z.land data 0x80)) d).
  { unfold getRTCRegister, getUpdateInProgress, mbind, M_bind. by destruct (xtOutB 0x70 0x0a d). }
  rewrite E. by rewrite (bind_Ok _ _ _ _ _ (get_register 0x0a d ltac:(lia))).
Qed.

(** A chip whose registers stand still while they are read. *)
Definition still (d : D) : Prop := forall read r, 0 <= r < 128 -> register (foldr later d read) r = register d r.

Definition regs (d : D) : RtcRegs :=
  mkRtc (register d 0x00) (register d 0x02) (register d 0x04) (register d 0x07) (register d 0x08) (register d 0x09).

Lemma still_later read d : still d -> still (foldr later d read).
Proof. intros H read' r Hr. rewrite <- foldr_app. by rewrite !H by done. Qed.

(** The registers that are read, the last one first. *)
Definition reads : list Z := [0x09; 0x08; 0x07; 0x04; 0x02; 0x00; 0x0a].

Lemma read_rtc_still fuel d : still d -> Z.land (register d 0x0a) 0x80 = 0 -> read_rtc fuel d = Ok (regs d) (foldr later d reads).
Proof.
  intros Hs Hu. unfold read_rtc.
  assert (Hw : wait_update fuel d = Ok tt (later 0x0a d)).
  { destruct fuel; cbn [wait_update]; by rewrite (bind_Ok _ _ _ _ _ (get_update d)), Hu. }
  rewrite (bind_Ok _ _ _ _ _ Hw). do 6 reg_step.
  unfold regs, reads, mret, M_ret. cbn [foldr]. pose proof (Hs [0x0a]) as H1. pose proof (Hs [0x00; 0x0a]) as H2. pose proof (Hs [0x02; 0x00; 0x0a]) as H3.
  pose proof (Hs [0x04; 0x02; 0x00; 0x0a]) as H4. pose proof (Hs [0x07; 0x04; 0x02; 0x00; 0x0a]) as H5.
  pose proof (Hs [0x08; 0x07; 0x04; 0x02; 0x00; 0x0a]) as H6. cbn [foldr] in *.
  by rewrite H1, H2, H3, H4, H5, H6 by lia.
Qed.

(** From a chip that stands still the time is the one of its registers, after two readings. *)
Theorem read_time_still (fuel n : nat) (d : D) : still d -> Z.land (register d 0x0a) 0x80 = 0 -> (0 < n)%nat ->
  exists d', read_time fuel n d = Ok (rtc_decode (regs d) (register d 0x0B)) d'.
Proof.
  intros Hs Hu Hn. eexists. unfold read_time. rewrite (bind_Ok _ _ _ _ _ (read_rtc_still fuel d Hs Hu)). destruct n as [|n]; [lia|].
  cbn [read_settled]. set (d7 := foldr later d reads). assert (Hs7 : still d7) by by apply still_later.
  assert (Hr : forall r, 0 <= r < 128 -> register d7 r = register d r) by (intros r Hr; by apply Hs).
  assert (E : regs d7 = regs d) by (unfold regs; by rewrite !Hr by lia).
  rewrite (bind_Ok _ _ _ (regs d) (foldr later d7 reads)).
  - reg_step. rewrite (Hs7 reads), Hr by lia. reflexivity.
  - rewrite (bind_Ok _ _ _ _ _ (read_rtc_still fuel d7 Hs7 ltac:(rewrite Hr by lia; exact Hu))), E. by rewrite decide_True.
Qed.

End Chip.

(** * A chip with fixed registers *)

(** The selected register and the registers. *)
Definition Cmos : Type := Z * (Z -> Z).

#[export] Instance cmos_bus : Bus Cmos :=
  {| bus_in _ port d := (if port =? 0x71 then u8 (snd d (fst d)) else 0xFF, d);
     bus_out _ port v d := if port =? 0x70 then (v, snd d) else d;
     mmio_in _ _ d := (0, d); mmio_out _ _ _ d := d |}.

#[export, program] Instance cmos_chip : CmosBus Cmos :=
  {| register d r := u8 (snd d r); later r d := (r, snd d) |}.
Next Obligation. intros d r. apply u8_bound. Qed.
Next Obligation. intros r d _. done. Qed.

(** Nineteen minutes past eleven in the evening of the second of May 2026, in packed decimal. *)
Definition evening : Cmos := (0, fun r =>
  if r =? 0x02 then 0x19 else if r =? 0x04 then 0x23 else if r =? 0x07 then 0x02 else if r =? 0x08 then 0x05 else if r =? 0x09 then 0x26
  else if r =? 0x0B then 0x02 else 0).

Lemma read_time_still_witness : exists d', read_time 1 1 evening = Ok (mkTime 0 19 23 2 0 5 0 2026) d'.
Proof.
  change (mkTime 0 19 23 2 0 5 0 2026) with (rtc_decode (regs evening) (register evening 0x0B)). apply (read_time_still 1 1 evening); [|done|lia]. intros read r _. cbn. f_equal. induction read as [|x read IH]; [done|]. exact IH.
Defined.
