(* ===== verification/Radix.v ===== *)
(** Radix trees of tables with 512 entries, indexed by 9 bits of a key per
    level: the shape of the page tables of the CPU. *)
From Stdlib Require Import ZArith Lia.
From stdpp Require Import base tactics list gmap fin_maps numbers.
From S2P Require Import Prelude.

Open Scope Z_scope.

(** The index of a key at a level, and the key bits above the level. *)
Definition index (h : Z) (k : nat) : nat := Z.to_nat (h / 2 ^ (9 * Z.of_nat k) mod 512).

Definition above (h : Z) (k : nat) : Z := h / 2 ^ (9 * (Z.of_nat k + 1)).

Lemma radix_index_bound h k : (index h k < 512)%nat.
Proof. unfold index. pose proof (Z.mod_pos_bound (h / 2 ^ (9 * Z.of_nat k)) 512). lia. Qed.

Lemma above_step h k : above h k = above h (S k) * 512 + Z.of_nat (index h (S k)).
Proof.
  unfold above, index. set (e := 9 * (Z.of_nat k + 1)). replace (9 * (Z.of_nat (S k) + 1)) with (e + 9) by lia.
  replace (9 * Z.of_nat (S k)) with e by lia. rewrite Z.pow_add_r by lia. change (2 ^ 9) with 512.
  rewrite <- Z.div_div by (try apply Z.pow_nonzero; lia). generalize (h / 2 ^ e). intros x. dlia.
Qed.

Lemma above_nonneg h k : 0 <= h -> 0 <= above h k.
Proof. intros Hh. apply Z.div_pos; [done|apply Z.pow_pos_nonneg; lia]. Qed.

(** Keys that agree above the last level and in the last index are equal. *)
Lemma key_split h h' : above h 0 = above h' 0 -> index h 0 = index h' 0 -> h = h'.
Proof.
  unfold above, index. change (2 ^ (9 * (Z.of_nat 0 + 1))) with 512. change (2 ^ (9 * Z.of_nat 0)) with 1.
  rewrite !Z.div_1_r. intros H1 H2. dlia.
Qed.

Lemma above_agree h h1 k : above h k = above h1 k ->
  above h (S k) = above h1 (S k) /\ index h (S k) = index h1 (S k).
Proof.
  rewrite (above_step h k), (above_step h1 k). pose proof (radix_index_bound h (S k)). pose proof (radix_index_bound h1 (S k)). lia.
Qed.

Lemma index_agree h h1 k j : above h k = above h1 k -> (k < j)%nat -> index h j = index h1 j.
Proof.
  intros Ha Hj. assert (forall n, above h (k + n) = above h1 (k + n)) as K.
  { intros n. induction n as [|n IH]; [by rewrite Nat.add_0_r|]. rewrite Nat.add_succ_r. by apply above_agree. }
  replace j with (S (k + (j - S k))) by lia. by apply above_agree.
Qed.

Section Radix.
(** The table an entry points to, if it does. *)
Variable child : Z -> option Z.
Implicit Types (tabs : gmap Z (list Z)) (own : gmap Z (nat * Z)).

(** The entry where the walk for a key stops, and its level. *)
Fixpoint look tabs (h : Z) (k : nat) (t : Z) : option (nat * Z) :=
  es ← tabs !! t;
  e ← es !! index h k;
  match k with
  | O => Some (0%nat, e)
  | S k' => match child e with Some t' => look tabs h k' t' | None => Some (S k', e) end
  end.

(** [own] labels each table of the tree with its level and the key bits that
    lead to it; every table is in one place. *)
Definition labelled tabs own : Prop :=
  (forall t k p, own !! t = Some (k, p) -> exists es, tabs !! t = Some es /\ length es = 512%nat) /\
  (forall t k p es i e t', own !! t = Some (S k, p) -> tabs !! t = Some es -> es !! i = Some e -> child e = Some t' ->
     own !! t' = Some (k, p * 512 + Z.of_nat i)).

Lemma radix_look_step tabs h k t es e : tabs !! t = Some es -> es !! index h k = Some e ->
  look tabs h k t = match k with O => Some (0%nat, e) | S k' => match child e with Some t' => look tabs h k' t' | None => Some (S k', e) end end.
Proof. intros Ht He. destruct k; cbn [look]; rewrite Ht; cbn [mbind option_bind]; rewrite He; done. Qed.

(** The entry of a labelled table. *)
Lemma entry_at tabs own t k h : labelled tabs own -> own !! t = Some (k, above h k) ->
  exists es e, tabs !! t = Some es /\ length es = 512%nat /\ es !! index h k = Some e.
Proof.
  intros [Ht _] Ho. destruct (Ht t k _ Ho) as (es & He & Hl).
  destruct (lookup_lt_is_Some_2 es (index h k)) as [e Hi]; [rewrite Hl; apply radix_index_bound|]. eauto.
Qed.

Lemma child_label tabs own t k h es e t' : labelled tabs own -> own !! t = Some (S k, above h (S k)) ->
  tabs !! t = Some es -> es !! index h (S k) = Some e -> child e = Some t' -> own !! t' = Some (k, above h k).
Proof. intros [_ Hc] Ho Ht He Hch. rewrite above_step. by eapply Hc. Qed.

(** A walk sees the tables of the tree only. *)
Lemma look_frame tabs tabs' own h : labelled tabs own -> (forall t, t ∈ dom own -> tabs' !! t = tabs !! t) ->
  forall k t, own !! t = Some (k, above h k) -> look tabs' h k t = look tabs h k t.
Proof.
  intros Hl Hf. induction k as [|k IH]; intros t Ho;
    (destruct (entry_at tabs own t _ h Hl Ho) as (es & e & Ht & _ & He));
    (assert (tabs' !! t = Some es) as Ht' by (rewrite Hf; [done|]; apply elem_of_dom; eauto));
    rewrite (radix_look_step tabs' h _ t es e Ht' He), (radix_look_step tabs h _ t es e Ht He); [done|].
  destruct (child e) as [t'|] eqn:Hch; [|done]. apply IH. by eapply child_label.
Qed.

(** Changing one entry that is not a link, at level [k1] on the way to [h1]. *)
Definition updated tabs t1 (es1 : list Z) h1 k1 v : gmap Z (list Z) := <[t1 := <[index h1 k1 := v]> es1]> tabs.

Lemma updated_entry tabs t1 es1 h1 k1 v t es h k e own : tabs !! t1 = Some es1 -> own !! t1 = Some (k1, above h1 k1) ->
  own !! t = Some (k, above h k) -> (above h k1 <> above h1 k1 \/ index h k1 <> index h1 k1) ->
  tabs !! t = Some es -> es !! index h k = Some e ->
  exists es', updated tabs t1 es1 h1 k1 v !! t = Some es' /\ es' !! index h k = Some e.
Proof.
  intros H1 Ho1 Ho Hne Ht He. unfold updated. destruct (decide (t = t1)) as [->|]; [|rewrite lookup_insert_ne by done; eauto].
  rewrite lookup_insert_eq. eexists. split; [done|]. rewrite Ho1 in Ho. injection Ho as -> E.
  rewrite list_lookup_insert_ne; [congruence|]. intros Ei. destruct Hne as [?|?]; congruence.
Qed.

(** Keys that do not go through the entry are not affected. *)
Lemma look_other tabs own t1 es1 h1 k1 v h : labelled tabs own -> tabs !! t1 = Some es1 ->
  own !! t1 = Some (k1, above h1 k1) -> (above h k1 <> above h1 k1 \/ index h k1 <> index h1 k1) ->
  forall k t, own !! t = Some (k, above h k) -> look (updated tabs t1 es1 h1 k1 v) h k t = look tabs h k t.
Proof.
  intros Hl H1 Ho1 Hne. induction k as [|k IH]; intros t Ho;
    destruct (entry_at tabs own t _ h Hl Ho) as (es & e & Ht & Hlen & He); rewrite (radix_look_step tabs h _ t es e Ht He);
    destruct (updated_entry tabs t1 es1 h1 k1 v t es h _ e own H1 Ho1 Ho Hne Ht He) as (es' & Ht' & He');
    rewrite (radix_look_step _ h _ t es' e Ht' He'); [done|].
  destruct (child e) as [t'|] eqn:Hch; [|done]. apply IH. by eapply child_label.
Qed.

(** [t1] is the table of level [k1] on the way from [t] to [h]. *)
Fixpoint reaches tabs (h : Z) (k : nat) (t : Z) (k1 : nat) (t1 : Z) : Prop :=
  (k = k1 /\ t = t1) \/
  match k with
  | O => False
  | S k' => exists es e t', tabs !! t = Some es /\ es !! index h (S k') = Some e /\ child e = Some t' /\
      reaches tabs h k' t' k1 t1
  end.

Lemma reaches_level tabs h : forall k t k1 t1, reaches tabs h k t k1 t1 -> (k1 <= k)%nat.
Proof.
  induction k as [|k IH]; intros t k1 t1; cbn [reaches]; [intros [[-> _]|[]]; done|].
  intros [[-> _]|(es & e & t' & _ & _ & _ & Hr)]; [done|]. apply IH in Hr. lia.
Qed.

(** The key itself ends at the entry, before and after. *)
Lemma look_reaches tabs h : forall k t k1 t1, reaches tabs h k t k1 t1 -> look tabs h k t = look tabs h k1 t1.
Proof.
  induction k as [|k IH]; intros t k1 t1; cbn [reaches].
  - by intros [[<- <-]|[]].
  - intros [[<- <-]|(es & e & t' & Ht & He & Hc & Hr)]; [done|].
    rewrite (radix_look_step tabs h _ t es e Ht He), Hc. by apply IH.
Qed.

(** Walks down to a level are not affected by a change at or below it. *)
Lemma reaches_updated tabs own t1 es1 h1 k1 v h : labelled tabs own -> tabs !! t1 = Some es1 ->
  own !! t1 = Some (k1, above h1 k1) ->
  forall k t k2 t2, own !! t = Some (k, above h k) -> (k1 <= k2)%nat -> reaches tabs h k t k2 t2 ->
  reaches (updated tabs t1 es1 h1 k1 v) h k t k2 t2.
Proof.
  intros Hl H1 Ho1. induction k as [|k IH]; intros t k2 t2 Ho Hk; cbn [reaches]; [auto|].
  intros [?|(es & e & t' & Ht & He & Hc & Hr)]; [by left|right].
  pose proof (reaches_level _ _ _ _ _ _ Hr). assert (t <> t1) by (intros ->; rewrite Ho1 in Ho; injection Ho; lia).
  exists es, e, t'. unfold updated. rewrite lookup_insert_ne by done. split; [done|]. split; [done|]. split; [done|].
  apply IH; [by eapply child_label|done|done].
Qed.

Lemma reaches_label tabs own h : labelled tabs own -> forall k t k1 t1, own !! t = Some (k, above h k) ->
  reaches tabs h k t k1 t1 -> own !! t1 = Some (k1, above h k1).
Proof.
  intros Hl. induction k as [|k IH]; intros t k1 t1 Ho; cbn [reaches].
  - by intros [[<- <-]|[]].
  - intros [[<- <-]|(es & e & t' & Ht & He & Hc & Hr)]; [done|]. eapply IH; [|exact Hr]. by eapply child_label.
Qed.

(** The labels after an entry becomes a value (no link). *)
Lemma labelled_value tabs own t1 es1 h1 k1 v : labelled tabs own -> tabs !! t1 = Some es1 ->
  (k1 = 0%nat \/ child v = None) -> own !! t1 = Some (k1, above h1 k1) -> labelled (updated tabs t1 es1 h1 k1 v) own.
Proof.
  intros [Hl Hc] H1 Hv Ho1. destruct (Hl _ _ _ Ho1) as (es1' & E & Hlen). assert (es1' = es1) as -> by congruence.
  unfold updated. split.
  - intros t k p Ho. destruct (decide (t = t1)) as [->|].
    + rewrite lookup_insert_eq. eexists. split; [done|]. by rewrite length_insert.
    + rewrite lookup_insert_ne by done. by eapply Hl.
  - intros t k p es i e t' Ho Ht He Hch. destruct (decide (t = t1)) as [->|].
    + rewrite lookup_insert_eq in Ht. injection Ht as <-. rewrite Ho in Ho1. injection Ho1 as <- ->.
      destruct Hv as [?|Hv]; [done|]. destruct (decide (i = index h1 (S k))) as [->|].
      * rewrite list_lookup_insert_eq in He by (rewrite Hlen; apply radix_index_bound). congruence.
      * rewrite list_lookup_insert_ne in He by done. by eapply Hc.
    + rewrite lookup_insert_ne in Ht by done. by eapply Hc.
Qed.

(** The labels after an entry becomes a link to a new table without links. *)
Lemma labelled_link tabs own t1 es1 h1 k1 v new zs : labelled tabs own -> tabs !! t1 = Some es1 -> 
  own !! t1 = Some (S k1, above h1 (S k1)) -> child v = Some new -> own !! new = None -> tabs !! new = Some zs ->
  length zs = 512%nat -> (forall e, e ∈ zs -> child e = None) ->
  labelled (updated tabs t1 es1 h1 (S k1) v) (<[new := (k1, above h1 k1)]> own).
Proof.
  intros [Hl Hc] H1 Ho1 Hv Hn Hz Hzl Hzs. destruct (Hl _ _ _ Ho1) as (es1' & E & Hlen). assert (es1' = es1) as -> by congruence.
  assert (new <> t1) as Hne by congruence. unfold updated. split.
  - intros t k p. destruct (decide (t = new)) as [->|]; [intros _; rewrite lookup_insert_ne by done; eauto|]. rewrite (lookup_insert_ne own) by done. intros Ho.
    destruct (decide (t = t1)) as [->|]; [rewrite lookup_insert_eq; eexists; split; [done|]; by rewrite length_insert|].
    rewrite lookup_insert_ne by done. by eapply Hl.
  - intros t k p es i e t' Ho Ht He Hch.
    assert (forall x, own !! t' = Some x -> <[new := (k1, above h1 k1)]> own !! t' = Some x) as Hx
      by (intros x Hx; rewrite lookup_insert_ne; [done|]; intros ->; congruence).
    destruct (decide (t = new)) as [->|].
    + rewrite lookup_insert_ne in Ht by done. assert (es = zs) as -> by congruence. rewrite (Hzs e) in Hch; [done|]. by eapply list_elem_of_lookup_2.
    + rewrite lookup_insert_ne in Ho by done. destruct (decide (t = t1)) as [->|].
      * rewrite lookup_insert_eq in Ht. injection Ht as <-. rewrite Ho in Ho1. injection Ho1 as <- ->.
        destruct (decide (i = index h1 (S k))) as [->|].
        -- rewrite list_lookup_insert_eq in He by (rewrite Hlen; apply radix_index_bound). injection He as <-.
           assert (t' = new) as -> by congruence. rewrite lookup_insert_eq. by rewrite above_step.
        -- rewrite list_lookup_insert_ne in He by done. apply Hx. by eapply Hc.
      * rewrite lookup_insert_ne in Ht by done. apply Hx. by eapply Hc.
Qed.

(** Keys that agree above a level are on the same path down to it. *)
Lemma reaches_agree tabs h h1 : forall k t k1 t1, above h k1 = above h1 k1 -> reaches tabs h1 k t k1 t1 -> reaches tabs h k t k1 t1.
Proof.
  induction k as [|k IH]; intros t k1 t1 Ha; cbn [reaches]; [done|].
  intros [?|(es & e & t' & Ht & He & Hc & Hr)]; [by left|right]. pose proof (reaches_level _ _ _ _ _ _ Hr) as Hk.
  exists es, e, t'. rewrite (index_agree h h1 k1 (S k)) by (done || lia). split; [done|]. split; [done|]. split; [done|]. by apply IH.
Qed.

Lemma reaches_snoc tabs h : forall k t k1 t1 es e t', reaches tabs h k t (S k1) t1 -> tabs !! t1 = Some es ->
  es !! index h (S k1) = Some e -> child e = Some t' -> reaches tabs h k t k1 t'.
Proof.
  induction k as [|k IH]; intros t k1 t1 es e t' Hr Ht He Hc; cbn [reaches] in Hr.
  - by destruct Hr as [[? _]|[]].
  - destruct Hr as [[[= ->] ->]|(es0 & e0 & t0 & Ht0 & He0 & Hc0 & Hr)]; right.
    + exists es, e, t'. repeat (split; [done|]). destruct k1; by left.
    + exists es0, e0, t0. repeat (split; [done|]). by eapply IH.
Qed.

End Radix.
