(* ===== verification/Paging.v ===== *)
(** Page tables: xtkernel/arch/x86_64/memory.c. *)
From Stdlib Require Import ZArith Lia.
From stdpp Require Import base tactics list gmap fin_maps numbers.
From S2P Require Import Prelude Radix.

Open Scope Z_scope.

(** * Constants *)

Definition P_PRESENT : Z := 1.

Definition P_RW : Z := 2.

Definition P_US : Z := 4.

Definition P_PS : Z := 128.

Definition P_NX : Z := 2 ^ 63.

Definition ADDR_MASK : Z := 0x000ffffffffff000.

(** [0x7FF | ~P_NX]: every bit but the last. *)
Definition PTE_FLAGS_MASK : Z := Z.lor 0x7FF (2 ^ 64 - 1 - P_NX).

Definition PAGE_4KB : Z := 0x1000.

Definition PAGE_2MB : Z := 0x200000.

Definition PAGE_1GB : Z := 0x40000000.

Definition XT_MEM_SHARED : Z := 0x0100.

Definition XT_MEM_USER : Z := 0x0200.

Definition XT_MEM_READ : Z := 0x0400.

Definition XT_MEM_WRITE : Z := 0x0800.

Definition XT_MEM_EXEC : Z := 0x1000.

Definition HIGH_HALF : Z := 0xffff800000000000.

Definition HIGHER_HALF_MEM (x : Z) : Z := Z.lor x HIGH_HALF.

(** * The page allocator the tables come from *)

(** [pages_ok p F]: the allocator is sound and [F] are its free pages. *)
Class PageAllocator (P : Type) := {
  xtAllocatePages : Z -> Z -> M P Z;
  xtFreePages : Z -> Z -> M P unit;
  pages_ok : P -> gset Z -> Prop;
  page_fresh p F a p' : pages_ok p F -> xtAllocatePages NULL 0x1000 p = Ok a p' ->
    a ∈ F /\ 0 < a < 2 ^ 47 /\ a mod 4096 = 0 /\ pages_ok p' (F ∖ {[a]})
}.

(** Pages from a free list, for the witnesses. *)
Definition list_page (ptr size : Z) : M (list Z) Z := fun l =>
  match l with a :: l => Ok a l | [] => Err XT_OUT_OF_MEMORY l end.

Definition list_pages (l : list Z) (F : gset Z) : Prop :=
  F = list_to_set l /\ NoDup l /\ Forall (fun a => 0 < a < 2 ^ 47 /\ a mod 4096 = 0) l.

Lemma list_page_fresh p F a p' : list_pages p F -> list_page NULL 0x1000 p = Ok a p' ->
  a ∈ F /\ 0 < a < 2 ^ 47 /\ a mod 4096 = 0 /\ list_pages p' (F ∖ {[a]}).
Proof.
  destruct p as [|b l]; [done|]. intros (-> & Hnd & Hb) [= -> ->].
  apply list.NoDup_cons in Hnd as [Hn Hnd]. apply list.Forall_cons in Hb as [[Hb1 Hb2] Hb].
  split; [set_solver|]. split; [done|]. split; [done|]. split; [|done]. cbn.
  rewrite difference_union_distr_l_L, difference_diag_L, union_empty_l_L. apply set_eq. intros x.
  rewrite elem_of_difference, elem_of_list_to_set, elem_of_singleton. naive_solver.
Qed.

#[export] Instance List_Pages : PageAllocator (list Z) := {
  xtAllocatePages := list_page;
  xtFreePages := fun a _ => modify (cons a);
  pages_ok := list_pages;
  page_fresh := list_page_fresh
}.

(** * Page tables in memory *)

(** The allocator and the memory, a page of 512 entries at each physical
    address. Physical memory is mapped one to one, and again at [HIGH_HALF]. *)
Record Paging (P : Type) := mkPaging { frames : P; ram : gmap Z (list Z) }.

Arguments mkPaging {P} _ _.
Arguments frames {P} _.
Arguments ram {P} _.

(** The physical address behind a pointer. *)
Definition phys (p : Z) : Z := Z.land p (2 ^ 47 - 1).

Section Paging.
Context {P : Type} {A : PageAllocator P}.

Definition on_frames {X} (m : M P X) : M (Paging P) X := zoom frames (fun f s => mkPaging f (ram s)) m.

(** [table->entries[index]] *)
Definition entry (table : Z) (i : nat) : M (Paging P) Z := deref (fun s => ram s !! phys table ≫= fun es => es !! i).

Definition set_entry (table : Z) (i : nat) (v : Z) : M (Paging P) unit := fun s =>
  match ram s !! phys table with
  | Some es => Ok tt (mkPaging (frames s) (<[phys table := <[i := v]> es]> (ram s)))
  | None => Fault
  end.

Definition present (e : Z) : bool := negb (Z.land e P_PRESENT =? 0).

Definition large (e : Z) : bool := negb (Z.land e P_PS =? 0).

Definition xtGetPageTable (pageTable : Z) (i : nat) : M (Paging P) Z :=
  XT_CHECK_ARG_IS_NULL pageTable ;;;
  e ← entry pageTable i;
  mret (HIGHER_HALF_MEM (Z.land e ADDR_MASK)).

(** The new page is not cleared. *)
Definition xtGetOrMakePageTable (pageTable : Z) (i : nat) (flags : Z) : M (Paging P) Z :=
  XT_CHECK_ARG_IS_NULL pageTable ;;;
  let _pageTable := HIGHER_HALF_MEM pageTable in
  e ← entry _pageTable i;
  if negb (present e) || large e then
    NewPage ← on_frames (xtAllocatePages NULL 0x1000);
    set_entry _pageTable i (Z.lor (Z.lor NewPage (Z.land e PTE_FLAGS_MASK)) flags) ;;;
    mret (HIGHER_HALF_MEM NewPage)
  else mret (HIGHER_HALF_MEM (Z.land e ADDR_MASK)).

(** [(va64 >> (12 + 9 * level)) & 0x1ff] *)
Definition va_index (va64 : Z) (level : nat) : nat :=
  Z.to_nat (Z.land (Z.shiftr va64 (12 + 9 * Z.of_nat level)) 0x1ff).

Definition xtGetPhysicalAddress (pageTable virtualAddress : Z) : M (Paging P) Z :=
  XT_CHECK_ARG_IS_NULL pageTable ;;;
  let va64 := virtualAddress in
  pdpte ← entry (HIGHER_HALF_MEM pageTable) (va_index va64 3);
  if negb (present pdpte) then throw XT_NOT_FOUND
  else
    pdpe ← entry (HIGHER_HALF_MEM (Z.land pdpte ADDR_MASK)) (va_index va64 2);
    if negb (present pdpe) then throw XT_NOT_FOUND
    else if large pdpe then mret (Z.lor (Z.land pdpe ADDR_MASK) (Z.land va64 (2 ^ 30 - 1)))
    else
      pde ← entry (HIGHER_HALF_MEM (Z.land pdpe ADDR_MASK)) (va_index va64 1);
      if negb (present pde) then throw XT_NOT_FOUND
      else if large pde then mret (Z.lor (Z.land pde ADDR_MASK) (Z.land va64 (2 ^ 21 - 1)))
      else
        pte ← entry (HIGHER_HALF_MEM (Z.land pde ADDR_MASK)) (va_index va64 0);
        if negb (present pte) then throw XT_NOT_FOUND
        else mret (Z.lor (Z.land pte ADDR_MASK) (Z.land va64 (2 ^ 12 - 1))).

Definition xtBuildFlags (attr : Z) : Z :=
  let flags := 1 in
  let flags := if negb (Z.land attr XT_MEM_USER =? 0) then Z.lor flags P_US else flags in
  let flags := if negb (Z.land attr XT_MEM_WRITE =? 0) then Z.lor flags P_RW else flags in
  if Z.land attr XT_MEM_EXEC =? 0 then Z.lor flags P_NX else flags.

(** [pa64 == -1] stands for the entry that is there. *)
Definition page_address (table : Z) (i : nat) (pa64 : Z) : M (Paging P) Z :=
  if pa64 =? 2 ^ 64 - 1 then entry table i else mret pa64.

(** The page size of one round. *)
Definition choose_size (va64 pa64 size : Z) : Z :=
  if (va64 mod 2 ^ 30 =? 0) && (pa64 mod 2 ^ 30 =? 0) && (size >=? 2 ^ 30) then 2 ^ 30
  else if (va64 mod 2 ^ 21 =? 0) && (pa64 mod 2 ^ 21 =? 0) && (size >=? 2 ^ 21) then 2 ^ 21
  else 2 ^ 12.

(** One round of [while (size)]: one page of any size is entered. *)
Definition set_page (pml4 va64 pa64 flags page_size : Z) : M (Paging P) unit :=
  let directory_flags := 0x07 in
  pdpt ← xtGetOrMakePageTable pml4 (va_index va64 3) directory_flags;
  if page_size =? 2 ^ 30 then
    _pa64 ← page_address pdpt (va_index va64 2) pa64;
    set_entry pdpt (va_index va64 2) (Z.lor (Z.lor (Z.land _pa64 ADDR_MASK) flags) P_PS)
  else
    pd ← xtGetOrMakePageTable pdpt (va_index va64 2) directory_flags;
    _pa64 ← page_address pd (va_index va64 1) pa64;
    if page_size =? 2 ^ 21 then
      set_entry pd (va_index va64 1) (Z.lor (Z.lor (Z.land _pa64 ADDR_MASK) flags) P_PS)
    else
      pt ← xtGetOrMakePageTable pd (va_index va64 1) directory_flags;
      _pa64 ← page_address pt (va_index va64 0) pa64;
      set_entry pt (va_index va64 0) (Z.lor (Z.land _pa64 ADDR_MASK) flags).

Fixpoint set_loop (fuel : nat) (pml4 va64 pa64 size flags : Z) : M (Paging P) unit :=
  if size =? 0 then mret tt
  else
    let page_size := choose_size va64 pa64 size in
    set_page pml4 va64 pa64 flags page_size ;;;
    match fuel with
    | O => nofuel
    | S fuel => set_loop fuel pml4 (u64 (va64 + page_size)) (u64 (pa64 + page_size)) (u64 (size - page_size)) flags
    end.

(** A size that is a multiple of 4096 needs at most that many rounds. *)
Definition xtSetPages (pageTable virtual_address physical_address size attributes : Z) : M (Paging P) unit :=
  XT_CHECK_ARG_IS_NULL pageTable ;;;
  set_loop (Z.to_nat (size / 4096)) pageTable virtual_address physical_address size (xtBuildFlags attributes).

(** * Removing pages *)

Definition xtIsTableEmpty (table : Z) : M (Paging P) bool :=
  es ← deref (fun s => ram s !! phys table);
  mret (negb (existsb present es)).

(** Frees a table that has become empty and clears the entry it hangs on. *)
Definition drop_empty (table parent : Z) (i : nat) : M (Paging P) unit :=
  empty ← xtIsTableEmpty table;
  if (empty : bool) then
    out_or tt (on_frames (xtFreePages table PAGE_4KB)) ;;;
    set_entry parent i 0
  else mret tt.

(** [PAGE_1GB * 512] is an [int] product, 2^39, which does not fit: 0. *)
Definition skip_512GB : Z := (PAGE_1GB * 512 + 2 ^ 31) mod 2 ^ 32 - 2 ^ 31.

(** One round of [while (size)]: the step to the next address. *)
Definition unset_page (pml4 va64 : Z) : M (Paging P) Z :=
  e4 ← entry pml4 (va_index va64 3);
  if negb (present e4) then mret skip_512GB
  else
    let pdpt := Z.land e4 ADDR_MASK in
    e3 ← entry pdpt (va_index va64 2);
    if negb (present e3) then mret PAGE_1GB
    else if large e3 then
      set_entry pdpt (va_index va64 2) 0 ;;;
      drop_empty pdpt pml4 (va_index va64 3) ;;;
      mret PAGE_1GB
    else
      let pd := Z.land e3 ADDR_MASK in
      e2 ← entry pd (va_index va64 1);
      if negb (present e2) then mret PAGE_2MB
      else
        page_size ← (if large e2 then set_entry pd (va_index va64 1) 0 ;;; mret PAGE_2MB
                     else
                       let pt := Z.land e2 ADDR_MASK in
                       set_entry pt (va_index va64 0) 0 ;;;
                       drop_empty pt pd (va_index va64 1) ;;;
                       mret PAGE_4KB);
        drop_empty pd pdpt (va_index va64 2) ;;;
        drop_empty pdpt pml4 (va_index va64 3) ;;;
        mret page_size.

Fixpoint unset_loop (fuel : nat) (pml4 va64 size : Z) : M (Paging P) unit :=
  if size =? 0 then mret tt
  else
    page_size ← unset_page pml4 va64;
    match fuel with
    | O => nofuel
    | S fuel => unset_loop fuel pml4 (u64 (va64 + page_size)) (if size >=? page_size then size - page_size else 0)
    end.

Definition xtUnsetPages (fuel : nat) (pageTable virtual_address size : Z) : M (Paging P) unit :=
  XT_CHECK_ARG_IS_NULL pageTable ;;;
  unset_loop fuel pageTable virtual_address size.

End Paging.

(** * The specification: a map from pages to frames *)

(** The table behind an entry that is a link. *)
Definition child (e : Z) : option Z := if present e && negb (large e) then Some (Z.land e ADDR_MASK) else None.

(** The page number of a virtual address: bits 12 to 47. *)
Definition vpn (va : Z) : Z := va mod 2 ^ 48 / 4096.

(** What an entry at a level translates an address to. *)
Definition value (va : Z) (ke : nat * Z) : option Z :=
  let '(k, e) := ke in
  if present e then Some (Z.lor (Z.land e ADDR_MASK) (Z.land va (2 ^ (12 + 9 * Z.of_nat k) - 1))) else None.

Definition translate (tabs : gmap Z (list Z)) (root va : Z) : option Z :=
  look child tabs (vpn va) 3 root ≫= value va.

(** A cleared page. *)
Definition zero_table : list Z := replicate 512 0.

Lemma zero_table_elem e : e ∈ zero_table -> e = 0.
Proof. by intros [-> _]%elem_of_replicate. Qed.

Definition table_ok (t : Z) : Prop := 0 < t < 2 ^ 47 /\ t mod 4096 = 0.

(** The tables below [root] form a tree, an entry that is not present is 0, free
    pages are cleared, and the top table has no large pages. *)
Record tables_ok {P} `{PageAllocator P} (s : Paging P) (F : gset Z) (own : gmap Z (nat * Z)) (root : Z) : Prop := mkTablesOk {
  tables_tree : labelled child (ram s) own;
  tables_root : own !! root = Some (3%nat, 0);
  tables_addr : forall t, t ∈ dom own -> table_ok t /\ (t ∉ F);
  tables_pages : pages_ok (frames s) F;
  tables_free : forall a, a ∈ F -> ram s !! a = Some zero_table;
  tables_clean : forall t es e, t ∈ dom own -> ram s !! t = Some es -> e ∈ es -> present e = false -> e = 0;
  tables_top : forall es e, ram s !! root = Some es -> e ∈ es -> large e = false
}.

(** * Lemmas *)

Lemma phys_low t : 0 <= t < 2 ^ 47 -> phys t = t.
Proof. intros Ht. unfold phys. rewrite land_low by lia. apply Z.mod_small. lia. Qed.

Lemma phys_high t : phys (HIGHER_HALF_MEM t) = phys t.
Proof.
  unfold phys, HIGHER_HALF_MEM. rewrite Z.land_lor_distr_l. change (Z.land HIGH_HALF (2 ^ 47 - 1)) with 0. apply Z.lor_0_r.
Qed.

Lemma high_nonnull t : 0 <= t -> HIGHER_HALF_MEM t <> NULL.
Proof. intros Ht E. apply Z.lor_eq_0_iff in E as [_ E]. done. Qed.

Lemma va_index_spec va k : (k <= 3)%nat -> va_index va k = index (vpn va) k.
Proof.
  intros Hk. unfold va_index, index, vpn. rewrite shiftr_div by lia. change 0x1ff with (2 ^ 9 - 1). rewrite land_low by lia.
  change (2 ^ 9) with 512. f_equal. rewrite Z.pow_add_r by lia. change (2 ^ 12) with 4096. set (q := 2 ^ (9 * Z.of_nat k)).
  assert (0 < q) by (apply Z.pow_pos_nonneg; lia).
  assert (2 ^ 48 = 4096 * (q * (512 * 2 ^ (27 - 9 * Z.of_nat k)))) as ->.
  { unfold q. change 4096 with (2 ^ 12). change 512 with (2 ^ 9). rewrite <- !Z.pow_add_r by lia. f_equal. lia. }
  assert (0 < 2 ^ (27 - 9 * Z.of_nat k)) by (apply Z.pow_pos_nonneg; lia).
  rewrite <- Z.div_div by lia. rewrite Z.rem_mul_r by nia. 
  rewrite (Z.mul_comm 4096), Z.div_add, (Z.div_small (va mod 4096)), Z.add_0_l by (try apply Z.mod_pos_bound; lia).
  rewrite Z.rem_mul_r by nia. rewrite (Z.mul_comm q), Z.div_add, (Z.div_small (_ mod q)), Z.add_0_l by (try apply Z.mod_pos_bound; lia).
  rewrite Z.rem_mul_r by lia. by rewrite (Z.mul_comm 512), Z.mod_add, Z.mod_mod by lia.
Qed.

(** Masking with [ADDR_MASK] keeps bits 12 to 51. *)
Lemma land_addr_spec x : Z.land x ADDR_MASK = x / 4096 mod 2 ^ 40 * 4096.
Proof.
  change ADDR_MASK with (Z.ones 40 * 2 ^ 12). change 4096 with (2 ^ 12). apply Z.bits_inj'. intros i Hi.
  rewrite Z.land_spec. destruct (decide (i < 12)).
  - by rewrite !Z.mul_pow2_bits_low, andb_false_r by lia.
  - rewrite !Z.mul_pow2_bits by lia. destruct (decide (i < 52)).
    + rewrite Z.ones_spec_low, andb_true_r, Z.mod_pow2_bits_low by lia. rewrite Z.div_pow2_bits by lia. f_equal. lia.
    + rewrite Z.ones_spec_high, andb_false_r, Z.mod_pow2_bits_high by lia. done.
Qed.

Lemma land_addr a : 0 <= a < 2 ^ 52 -> a mod 4096 = 0 -> Z.land a ADDR_MASK = a.
Proof. intros Ha Hm. rewrite land_addr_spec, Z.mod_small by dlia. dlia. Qed.

(** The flags of an entry do not touch its address. *)
Lemma build_flags_cases attr : exists b1 b2 b3 : bool,
  xtBuildFlags attr = 1 + (if b1 then 4 else 0) + (if b2 then 2 else 0) + (if b3 then 2 ^ 63 else 0).
Proof.
  unfold xtBuildFlags. exists (negb (Z.land attr XT_MEM_USER =? 0)), (negb (Z.land attr XT_MEM_WRITE =? 0)), (Z.land attr XT_MEM_EXEC =? 0).
  by destruct (negb (Z.land attr XT_MEM_USER =? 0)), (negb (Z.land attr XT_MEM_WRITE =? 0)), (Z.land attr XT_MEM_EXEC =? 0).
Qed.

(** An aligned address with small flags (bit 0 set, bit 7 clear). *)
Definition small_flags (f : Z) : Prop := Z.land f ADDR_MASK = 0 /\ Z.land f 1 = 1 /\ Z.land f 128 = 0.

Lemma build_flags_small attr : small_flags (xtBuildFlags attr).
Proof. destruct (build_flags_cases attr) as (b1 & b2 & b3 & ->). by destruct b1, b2, b3. Qed.

Lemma aligned_low a n : 0 <= n < 4096 -> a mod 4096 = 0 -> Z.land a n = 0.
Proof.
  intros Hn Ha. replace a with (a / 4096 * 2 ^ 12) by (change (2 ^ 12) with 4096; dlia).
  apply Z.bits_inj'. intros i Hi. rewrite Z.land_spec, Z.bits_0. destruct (decide (i < 12)).
  - by rewrite Z.mul_pow2_bits_low by lia.
  - rewrite (testbit_small n 12 i) by lia. apply andb_false_r.
Qed.

Lemma entry_flags a f : a mod 4096 = 0 -> 0 <= a < 2 ^ 52 -> small_flags f ->
  Z.land (Z.lor a f) ADDR_MASK = a /\ present (Z.lor a f) = true /\ large (Z.lor a f) = false.
Proof.
  intros Ha Hb (F1 & F2 & F3). unfold present, large, P_PRESENT, P_PS. rewrite !Z.land_lor_distr_l.
  rewrite F1, F2, F3, (land_addr a) by done. rewrite !(aligned_low a) by (done || lia). by rewrite Z.lor_0_r.
Qed.

Lemma land_offset va k : (k <= 3)%nat -> Z.land va (2 ^ (12 + 9 * Z.of_nat k) - 1) = va mod 2 ^ (12 + 9 * Z.of_nat k).
Proof. intros Hk. apply land_low. lia. Qed.

Section Proofs.
Context {P : Type} {A : PageAllocator P}.
Implicit Types (s : Paging P) (F : gset Z) (own : gmap Z (nat * Z)).

Lemma entry_ok s p t es i e : phys p = t -> ram s !! t = Some es -> es !! i = Some e -> entry p i s = Ok e s.
Proof. intros <- Ht He. unfold entry, deref. rewrite Ht. cbn [mbind option_bind]. by rewrite He. Qed.

Lemma set_entry_ok s p t es i v : phys p = t -> ram s !! t = Some es ->
  set_entry p i v s = Ok tt (mkPaging (frames s) (<[t := <[i := v]> es]> (ram s))).
Proof. intros <- Ht. unfold set_entry. by rewrite Ht. Qed.

Lemma above_top va : above (vpn va) 3 = 0.
Proof. unfold above, vpn. change (2 ^ (9 * (Z.of_nat 3 + 1))) with (2 ^ 36). apply Z.div_small.
  pose proof (Z.mod_pos_bound va (2 ^ 48) ltac:(lia)) as Hb. revert Hb. generalize (va mod 2 ^ 48). intros x Hb. dlia. Qed.

(** The table of level [k] for an address: its entry, where the walk goes on, and
    the pointers to it. *)
Record at_level s own (va : Z) (k : nat) (t : Z) (es : list Z) (e : Z) : Prop := mkAt {
  at_label : own !! t = Some (k, above (vpn va) k);
  at_table : ram s !! t = Some es;
  at_length : length es = 512%nat;
  at_entry : es !! index (vpn va) k = Some e;
  at_addr : table_ok t
}.

Lemma at_level_of s F own root va k t : tables_ok s F own root -> own !! t = Some (k, above (vpn va) k) ->
  exists es e, at_level s own va k t es e.
Proof.
  intros T Ho. destruct (entry_at child (ram s) own t k (vpn va) (tables_tree _ _ _ _ T) Ho) as (es & e & R & L & E).
  exists es, e. split; try done. apply (tables_addr _ _ _ _ T), elem_of_dom. eauto.
Qed.

Lemma at_root s F own root va : tables_ok s F own root -> exists es e, at_level s own va 3 root es e /\ large e = false.
Proof.
  intros T. destruct (at_level_of s F own root va 3 root T) as (es & e & L).
  { rewrite (tables_root _ _ _ _ T). by rewrite above_top. }
  exists es, e. split; [done|]. eapply (tables_top _ _ _ _ T); [apply (at_table _ _ _ _ _ _ _ L)|].
  eapply list_elem_of_lookup_2, (at_entry _ _ _ _ _ _ _ L).
Qed.

Lemma at_read s own va k t es e p : (k <= 3)%nat -> at_level s own va k t es e -> phys p = t ->
  entry p (va_index va k) s = Ok e s.
Proof. intros Hk [_ R _ E _] Hp. rewrite va_index_spec by done. by eapply entry_ok. Qed.

Lemma at_pointer s own va k t es e : at_level s own va k t es e ->
  phys t = t /\ phys (HIGHER_HALF_MEM t) = t /\ HIGHER_HALF_MEM t <> NULL /\ t <> NULL.
Proof.
  intros [_ _ _ _ [Hb _]]. rewrite phys_high, phys_low by lia. split; [done|]. split; [done|].
  split; [apply high_nonnull; lia|unfold NULL; lia].
Qed.

Lemma at_look s own va k t es e : at_level s own va k t es e ->
  look child (ram s) (vpn va) k t =
    match k with O => Some (0%nat, e) | S k' => match child e with Some t' => look child (ram s) (vpn va) k' t' | None => Some (S k', e) end end.
Proof. intros [_ R _ E _]. by apply radix_look_step with es. Qed.

Lemma at_down s F own root va k t es e : tables_ok s F own root -> at_level s own va (S k) t es e ->
  present e = true -> large e = false ->
  child e = Some (Z.land e ADDR_MASK) /\ exists es' e', at_level s own va k (Z.land e ADDR_MASK) es' e'.
Proof.
  intros T [O R L E B] Hp Hl. assert (child e = Some (Z.land e ADDR_MASK)) as Hc by (unfold child; by rewrite Hp, Hl).
  split; [done|]. apply (at_level_of s F own root); [done|]. by eapply child_label; [apply (tables_tree _ _ _ _ T)|..].
Qed.

(** [xtGetPhysicalAddress] is the translation. *)
Lemma get_physical_ok s F own root va : tables_ok s F own root ->
  xtGetPhysicalAddress root va s = match translate (ram s) root va with Some p => Ok p s | None => Err XT_NOT_FOUND s end.
Proof.
  intros T. destruct (at_root s F own root va T) as (es3 & e3 & A3 & L3). destruct (at_pointer _ _ _ _ _ _ _ A3) as (_ & Q3 & _ & N3).
  unfold xtGetPhysicalAddress, translate. rewrite check_then by done. rewrite (at_look _ _ _ _ _ _ _ A3).
  rewrite (bind_Ok _ _ _ _ _ (at_read _ _ _ 3 _ _ _ _ ltac:(lia) A3 Q3)).
  destruct (present e3) eqn:P3; cbn [negb]; [|unfold child; rewrite P3; cbn; by rewrite P3].
  destruct (at_down _ _ _ _ _ _ _ _ _ T A3 P3 L3) as (C3 & es2 & e2 & A2). rewrite C3.
  destruct (at_pointer _ _ _ _ _ _ _ A2) as (_ & Q2 & _). rewrite (at_look _ _ _ _ _ _ _ A2).
  rewrite (bind_Ok _ _ _ _ _ (at_read _ _ _ 2 _ _ _ _ ltac:(lia) A2 Q2)).
  destruct (present e2) eqn:P2; cbn [negb]; [|unfold child; rewrite P2; cbn; by rewrite P2].
  destruct (large e2) eqn:L2; [unfold child; rewrite P2, L2; cbn; by rewrite P2|].
  destruct (at_down _ _ _ _ _ _ _ _ _ T A2 P2 L2) as (C2 & es1 & e1 & A1). rewrite C2.
  destruct (at_pointer _ _ _ _ _ _ _ A1) as (_ & Q1 & _). rewrite (at_look _ _ _ _ _ _ _ A1).
  rewrite (bind_Ok _ _ _ _ _ (at_read _ _ _ 1 _ _ _ _ ltac:(lia) A1 Q1)).
  destruct (present e1) eqn:P1; cbn [negb]; [|unfold child; rewrite P1; cbn; by rewrite P1].
  destruct (large e1) eqn:L1; [unfold child; rewrite P1, L1; cbn; by rewrite P1|].
  destruct (at_down _ _ _ _ _ _ _ _ _ T A1 P1 L1) as (C1 & es0 & e0 & A0). rewrite C1.
  destruct (at_pointer _ _ _ _ _ _ _ A0) as (_ & Q0 & _). rewrite (at_look _ _ _ _ _ _ _ A0).
  rewrite (bind_Ok _ _ _ _ _ (at_read _ _ _ 0 _ _ _ _ ltac:(lia) A0 Q0)). cbn. by destruct (present e0).
Qed.

(** ** Making a table *)

(** The state with a new table for an address below the table [t] of level [S k]. *)
Definition with_table s (frames' : P) t es h (k : nat) v : Paging P :=
  mkPaging frames' (updated (ram s) t es h (S k) v).

Lemma child_zero : child 0 = None.
Proof. done. Qed.

Lemma with_table_ok s F own root va k t es a p' : tables_ok s F own root -> at_level s own va (S k) t es 0 ->
  a ∈ F -> table_ok a -> pages_ok p' (F ∖ {[a]}) ->
  tables_ok (with_table s p' t es (vpn va) k (Z.lor a 7)) (F ∖ {[a]}) (<[a := (k, above (vpn va) k)]> own) root.
Proof.
  intros T [O R L E B] Ha [Hab Ham] Hp.
  assert (small_flags 7) as F7 by done. destruct (entry_flags a 7 Ham ltac:(lia) F7) as (V1 & V2 & V3).
  assert (own !! a = None) as Hna by (apply not_elem_of_dom; intros Hd; by apply (tables_addr _ _ _ _ T) in Hd as [_ ?]).
  assert (a <> root) as Hroot by (intros ->; by rewrite (tables_root _ _ _ _ T) in Hna).
  assert (a <> t) as Hat by (intros ->; congruence).
  assert (child (Z.lor a 7) = Some a) as Hc by (unfold child; rewrite V2, V3; cbn; by rewrite V1).
  pose proof (tables_free _ _ _ _ T a Ha) as Hz.
  unfold with_table. split; cbn [ram frames].
  - eapply labelled_link; try done; [apply (tables_tree _ _ _ _ T)|].
    intros e He. by apply zero_table_elem in He as ->.
  - rewrite lookup_insert_ne by done. apply (tables_root _ _ _ _ T).
  - intros x Hx. rewrite dom_insert_L in Hx. apply elem_of_union in Hx as [->%elem_of_singleton|Hx].
    + split; [done|]. set_solver.
    + destruct (tables_addr _ _ _ _ T x Hx) as [? ?]. split; [done|]. set_solver.
  - done.
  - intros x Hx. assert (x ∈ F) as HxF by set_solver. unfold updated.
    assert (x <> t) by (intros ->; destruct (tables_addr _ _ _ _ T t) as [_ ?]; [apply elem_of_dom; eauto|done]).
    rewrite lookup_insert_ne by done. by apply (tables_free _ _ _ _ T).
  - intros x es' e Hx. unfold updated. rewrite dom_insert_L in Hx.
    destruct (decide (x = t)) as [->|Hxt].
    + rewrite lookup_insert_eq. intros [= <-] He Hpr. apply list_elem_of_lookup_1 in He as [i He].
      destruct (decide (i = index (vpn va) (S k))) as [->|].
      * rewrite list_lookup_insert_eq in He by (rewrite L; apply radix_index_bound). congruence.
      * rewrite list_lookup_insert_ne in He by done. eapply (tables_clean _ _ _ _ T t es); [apply elem_of_dom; eauto|done|by eapply list_elem_of_lookup_2|done].
    + rewrite lookup_insert_ne by done. apply elem_of_union in Hx as [->%elem_of_singleton|Hx].
      * rewrite Hz. intros [= <-] He _. by apply zero_table_elem in He as ->.
      * by apply (tables_clean _ _ _ _ T).
  - intros es' e. unfold updated. destruct (decide (root = t)) as [<-|Hrt].
    + rewrite lookup_insert_eq. intros [= <-] He. apply list_elem_of_lookup_1 in He as [i He].
      destruct (decide (i = index (vpn va) (S k))) as [->|].
      * rewrite list_lookup_insert_eq in He by (rewrite L; apply radix_index_bound). congruence.
      * rewrite list_lookup_insert_ne in He by done. eapply (tables_top _ _ _ _ T); [done|by eapply list_elem_of_lookup_2].
    + rewrite lookup_insert_ne by done. apply (tables_top _ _ _ _ T).
Qed.

(** No large page translates the address. *)
Definition no_large (tabs : gmap Z (list Z)) root va : Prop :=
  forall j e, look child tabs (vpn va) 3 root = Some (j, e) -> j = 0%nat \/ present e = false.

(** The new table and the walks through it. *)
Lemma with_table_look s F own root va k t es a p' h : tables_ok s F own root -> at_level s own va (S k) t es 0 ->
  a ∈ F -> table_ok a -> reaches child (ram s) h 3 root (S k) t -> index h (S k) = index (vpn va) (S k) ->
  own !! root = Some (3%nat, above h 3) -> own !! t = Some (S k, above h (S k)) ->
  let s' := with_table s p' t es (vpn va) k (Z.lor a 7) in
  look child (ram s) h 3 root = Some (S k, 0) /\ look child (ram s') h 3 root = Some (k, 0) /\
  reaches child (ram s') h 3 root k a.
Proof.
  intros T [O R L E B] Ha [Hab Ham] Hr Hi Hroot Hot s'.
  destruct (entry_flags a 7 Ham ltac:(lia) ltac:(done)) as (V1 & V2 & V3).
  assert (child (Z.lor a 7) = Some a) as Hc by (unfold child; rewrite V2, V3; cbn; by rewrite V1).
  assert (a <> t) as Hat by (intros ->; destruct (tables_addr _ _ _ _ T t) as [_ ?]; [apply elem_of_dom; eauto|done]).
  assert (ram s' !! t = Some (<[index (vpn va) (S k) := Z.lor a 7]> es)) as R' by apply lookup_insert_eq.
  assert (<[index (vpn va) (S k) := Z.lor a 7]> es !! index h (S k) = Some (Z.lor a 7)) as E'
    by (rewrite Hi; apply list_lookup_insert_eq; rewrite L; apply radix_index_bound).
  assert (ram s' !! a = Some zero_table) as Ra.
  { unfold s', with_table, updated. cbn [ram]. rewrite lookup_insert_ne by done. by apply (tables_free _ _ _ _ T). }
  assert (zero_table !! index h k = Some 0) as Ez by (apply lookup_replicate_2, radix_index_bound).
  assert (reaches child (ram s') h 3 root (S k) t) as Hr' by (eapply reaches_updated; eauto; apply (tables_tree _ _ _ _ T)).
  split; [|split].
  - rewrite (look_reaches child _ h 3 root _ _ Hr). rewrite (radix_look_step child _ h (S k) t es 0) by (by rewrite ?Hi). done.
  - rewrite (look_reaches child _ h 3 root _ _ Hr'). rewrite (radix_look_step child _ h (S k) t _ _ R' E'), Hc.
    rewrite (radix_look_step child _ h k a _ _ Ra Ez). by destruct k.
  - by eapply reaches_snoc.
Qed.

Lemma with_table_translate s F own root va k t es a p' va' : tables_ok s F own root -> at_level s own va (S k) t es 0 ->
  a ∈ F -> table_ok a -> reaches child (ram s) (vpn va) 3 root (S k) t ->
  translate (ram (with_table s p' t es (vpn va) k (Z.lor a 7))) root va' = translate (ram s) root va'.
Proof.
  intros T L Ha Hb Hr. unfold translate. pose proof (tables_root _ _ _ _ T) as Hroot.
  assert (own !! root = Some (3%nat, above (vpn va') 3)) as Hroot' by (by rewrite above_top).
  destruct (decide (above (vpn va') (S k) = above (vpn va) (S k) /\ index (vpn va') (S k) = index (vpn va) (S k))) as [[Ea Ei]|N].
  - destruct (with_table_look s F own root va k t es a p' (vpn va') T L Ha Hb) as (L1 & L2 & _);
      [by apply (reaches_agree _ _ _ (vpn va))|done|done|rewrite Ea; apply L|].
    rewrite L1, L2. done.
  - unfold with_table. cbn [ram]. rewrite (look_other child (ram s) own); [done|apply (tables_tree _ _ _ _ T)|apply L|apply L| |done].
    destruct (decide (above (vpn va') (S k) = above (vpn va) (S k))); [right|by left]. naive_solver.
Qed.

Lemma with_table_no_large s F own root va k t es a p' va' : tables_ok s F own root -> at_level s own va (S k) t es 0 ->
  a ∈ F -> table_ok a -> reaches child (ram s) (vpn va) 3 root (S k) t -> no_large (ram s) root va' ->
  no_large (ram (with_table s p' t es (vpn va) k (Z.lor a 7))) root va'.
Proof.
  intros T L Ha Hb Hr Hn. unfold no_large. assert (own !! root = Some (3%nat, above (vpn va') 3)) as Hroot
    by (rewrite above_top; apply (tables_root _ _ _ _ T)).
  destruct (decide (above (vpn va') (S k) = above (vpn va) (S k) /\ index (vpn va') (S k) = index (vpn va) (S k))) as [[Ea Ei]|N].
  - destruct (with_table_look s F own root va k t es a p' (vpn va') T L Ha Hb) as (_ & L2 & _);
      [by apply (reaches_agree _ _ _ (vpn va))|done|done|rewrite Ea; apply L|].
    rewrite L2. intros j e [= <- <-]. by right.
  - unfold with_table. cbn [ram]. rewrite (look_other child (ram s) own); [done|apply (tables_tree _ _ _ _ T)|apply L|apply L| |done].
    destruct (decide (above (vpn va') (S k) = above (vpn va) (S k))); [right|by left]. naive_solver.
Qed.

(** The allocator answers: with a page or with an error. *)
Definition frames_answer : Prop := forall n (p : P),
  (exists a p', xtAllocatePages NULL n p = Ok a p') \/ (exists c p', xtAllocatePages NULL n p = Err c p').

(** How many tables an address still lacks: the level at which its walk ends. *)
Definition missing (tabs : gmap Z (list Z)) root va : nat :=
  match look child tabs (vpn va) 3 root with Some (j, _) => j | None => 0%nat end.

(** The allocator gives [k] pages, one after the other. *)
Fixpoint supply (k : nat) (f : P) : Prop :=
  match k with
  | O => True
  | S k => exists a f', xtAllocatePages NULL 0x1000 f = Ok a f' /\ supply k f'
  end.

Lemma supply_took k f a f' : xtAllocatePages NULL 0x1000 f = Ok a f' -> supply (S k) f <-> supply k f'.
Proof. intros E. cbn [supply]. split; [intros (b & f2 & E2 & Hs); congruence|eauto]. Qed.

Lemma supply_refused k f c f' : xtAllocatePages NULL 0x1000 f = Err c f' -> ~ supply (S k) f.
Proof. intros E (a & f2 & E2 & _). congruence. Qed.

(** Pages enough for the tables of an address. *)
Definition enough s root va : Prop := supply (missing (ram s) root va) (frames s).

Lemma missing_at s own root va k t es e : at_level s own va k t es e -> reaches child (ram s) (vpn va) 3 root k t ->
  k = 0%nat \/ child e = None -> missing (ram s) root va = k.
Proof.
  intros L Hr Hk. unfold missing. rewrite (look_reaches child _ _ 3 root _ _ Hr), (at_look _ _ _ _ _ _ _ L).
  destruct k as [|k]; [done|]. by destruct Hk as [| ->].
Qed.

Lemma get_or_make_ok s F own root va k t es e p : frames_answer -> tables_ok s F own root -> (k < 3)%nat ->
  at_level s own va (S k) t es e -> reaches child (ram s) (vpn va) 3 root (S k) t -> phys (HIGHER_HALF_MEM p) = t -> p <> NULL ->
  no_large (ram s) root va ->
  match xtGetOrMakePageTable p (va_index va (S k)) 7 s with
  | Ok q s' => exists F' own' t' es' e', q = HIGHER_HALF_MEM t' /\ tables_ok s' F' own' root /\ at_level s' own' va k t' es' e' /\
      reaches child (ram s') (vpn va) 3 root k t' /\ (forall va', no_large (ram s) root va' -> no_large (ram s') root va') /\
      (forall va', translate (ram s') root va' = translate (ram s) root va') /\ (enough s root va <-> enough s' root va)
  | Err _ s' => ram s' = ram s /\ ~ enough s root va
  | Fault | OutOfFuel => False
  end.
Proof.
  intros Ans T Hk L Hr Hp Hp0 Hnl. unfold xtGetOrMakePageTable. rewrite check_then by done.
  rewrite (bind_Ok _ _ _ _ _ (at_read s own va (S k) t es e _ ltac:(lia) L Hp)).
  pose proof (look_reaches child _ _ 3 root _ _ Hr) as Hlook. rewrite (at_look _ _ _ _ _ _ _ L) in Hlook.
  destruct (present e) eqn:Ep; cbn [negb orb].
  - destruct (large e) eqn:El.
    { assert (child e = None) as Hc by (unfold child; by rewrite Ep, El). rewrite Hc in Hlook.
      destruct (Hnl _ _ Hlook); congruence. }
    destruct (at_down s F own root va k t es e T L Ep El) as (Hc & es' & e' & L').
    exists F, own, (Z.land e ADDR_MASK), es', e'. do 3 (split; [done|]). split; [|by split].
    eapply reaches_snoc; [exact Hr|apply L|apply L|done].
  - assert (e = 0) as -> by (eapply (tables_clean _ _ _ _ T t es); [apply elem_of_dom; eexists; apply L|apply L| |done];
      eapply list_elem_of_lookup_2, (at_entry _ _ _ _ _ _ _ L)).
    destruct (Ans 0x1000 (frames s)) as [(a & p' & Ha)|(c & p' & Ha)].
    + destruct (page_fresh _ _ _ _ (tables_pages _ _ _ _ T) Ha) as (HaF & Hab & Ham & Hok).
      rewrite (bind_Ok _ _ _ a (mkPaging p' (ram s))) by (unfold on_frames, zoom; by rewrite Ha).
      rewrite Z.land_0_l, Z.lor_0_r. rewrite va_index_spec by lia.
      rewrite (bind_Ok _ _ _ tt (with_table s p' t es (vpn va) k (Z.lor a 7)))
        by (rewrite (set_entry_ok _ _ t es _ _ Hp); [done|apply L]).
      pose proof (with_table_ok s F own root va k t es a p' T L HaF (conj Hab Ham) Hok) as T'.
      assert (own !! root = Some (3%nat, above (vpn va) 3)) as Hroot by (rewrite above_top; apply (tables_root _ _ _ _ T)).
      destruct (with_table_look s F own root va k t es a p' (vpn va) T L HaF (conj Hab Ham) Hr eq_refl Hroot) as (_ & _ & Hr'); [apply L|].
      destruct (at_level_of _ _ _ root va k a T') as (es' & e' & L'); [apply lookup_insert_eq|].
      eexists _, _, a, es', e'. split; [done|]. split; [exact T'|]. split; [done|]. split; [done|]. split.
      * intros va' Hn'. by eapply with_table_no_large.
      * split; [intros va'; by eapply with_table_translate|]. unfold enough.
        rewrite (missing_at s own root va (S k) t es 0 L Hr) by (by right).
        assert (e' = 0) as ->.
        { pose proof (at_table _ _ _ _ _ _ _ L') as Ht. unfold with_table, updated in Ht. cbn [ram] in Ht.
          rewrite lookup_insert_ne, (tables_free _ _ _ _ T a HaF) in Ht; [injection Ht as <-|].
          - eapply zero_table_elem, list_elem_of_lookup_2, (at_entry _ _ _ _ _ _ _ L').
          - intros ->. destruct (tables_addr _ _ _ _ T a) as [_ ?]; [apply elem_of_dom; eexists; apply L|done]. }
        rewrite (missing_at _ _ root va k a es' 0 L' Hr') by (by right). by apply supply_took with a.
    + rewrite (bind_Err _ _ _ c (mkPaging p' (ram s))) by (unfold on_frames, zoom; by rewrite Ha). split; [done|].
      unfold enough. rewrite (missing_at s own root va (S k) t es 0 L Hr) by (by right). by eapply supply_refused.
Qed.

(** ** Entering a page *)

Lemma leaf_tables_ok s F own root va t es e v : tables_ok s F own root -> at_level s own va 0 t es e ->
  present v = true -> tables_ok (mkPaging (frames s) (updated (ram s) t es (vpn va) 0 v)) F own root.
Proof.
  intros T [O R L E B] Hv.
  assert (root <> t) as Hrt by (intros ->; pose proof (tables_root _ _ _ _ T); congruence).
  split; cbn [ram frames].
  - eapply labelled_value; [apply (tables_tree _ _ _ _ T)|done|by left|done].
  - apply (tables_root _ _ _ _ T).
  - apply (tables_addr _ _ _ _ T).
  - apply (tables_pages _ _ _ _ T).
  - intros a Ha. unfold updated. assert (a <> t) by (intros ->; destruct (tables_addr _ _ _ _ T t) as [_ ?]; [apply elem_of_dom; eauto|done]).
    rewrite lookup_insert_ne by done. by apply (tables_free _ _ _ _ T).
  - intros x es' e' Hx. unfold updated. destruct (decide (x = t)) as [->|Hxt].
    + rewrite lookup_insert_eq. intros [= <-] He Hpr. apply list_elem_of_lookup_1 in He as [i He].
      destruct (decide (i = index (vpn va) 0)) as [->|].
      * rewrite list_lookup_insert_eq in He by (rewrite L; apply radix_index_bound). congruence.
      * rewrite list_lookup_insert_ne in He by done. eapply (tables_clean _ _ _ _ T t es); [done|done|by eapply list_elem_of_lookup_2|done].
    + rewrite lookup_insert_ne by done. by apply (tables_clean _ _ _ _ T).
  - intros es' e'. unfold updated. rewrite lookup_insert_ne by done. apply (tables_top _ _ _ _ T).
Qed.

Lemma leaf_translate s F own root va t es e v : tables_ok s F own root -> at_level s own va 0 t es e ->
  reaches child (ram s) (vpn va) 3 root 0 t ->
  let tabs' := updated (ram s) t es (vpn va) 0 v in
  (forall va', vpn va' = vpn va -> translate tabs' root va' = value va' (0%nat, v)) /\
  (forall va', vpn va' <> vpn va -> translate tabs' root va' = translate (ram s) root va') /\
  (forall va', no_large (ram s) root va' -> no_large tabs' root va').
Proof.
  intros T [O R L E B] Hr tabs'. pose proof (tables_root _ _ _ _ T) as Hroot. pose proof (tables_tree _ _ _ _ T) as Ht.
  assert (look child tabs' (vpn va) 3 root = Some (0%nat, v)) as Hv.
  { assert (reaches child tabs' (vpn va) 3 root 0 t) as Hr' by (eapply reaches_updated; eauto; by rewrite above_top).
    rewrite (look_reaches child _ _ 3 root _ _ Hr').
    rewrite (radix_look_step child tabs' (vpn va) 0 t (<[index (vpn va) 0 := v]> es) v); [done|apply lookup_insert_eq|].
    apply list_lookup_insert_eq. rewrite L. apply radix_index_bound. }
  assert (forall va', vpn va' <> vpn va -> look child tabs' (vpn va') 3 root = look child (ram s) (vpn va') 3 root) as Ho.
  { intros va' Hva. unfold tabs'. rewrite (look_other child (ram s) own); [done|done|done|done| |by rewrite above_top].
    destruct (decide (above (vpn va') 0 = above (vpn va) 0)); [right|by left]. intros Ei. apply Hva. by apply key_split. }
  split; [|split]; intros va' Hva.
  - unfold translate. by rewrite Hva, Hv.
  - unfold translate. by rewrite Ho.
  - unfold no_large. destruct (decide (vpn va' = vpn va)) as [->|]; [|by rewrite Ho].
    rewrite Hv. intros j e' [= <- <-]. by left.
Qed.

Lemma vpn_offset va off : va mod 4096 = 0 -> 0 <= off < 4096 -> 0 <= va -> vpn (va + off) = vpn va /\ (va + off) mod 4096 = off.
Proof.
  intros Hm Ho Hv. unfold vpn. split; [|dlia]. change (2 ^ 48) with (4096 * 2 ^ 36). rewrite !Z.rem_mul_r by lia.
  assert ((va + off) mod 4096 = off) as -> by dlia. assert ((va + off) / 4096 = va / 4096) as -> by dlia. rewrite Hm.
  generalize (va / 4096 mod 2 ^ 36). intros x. dlia.
Qed.

(** What mapping a page promises of the outcome. *)
Definition maps_page s F root va pa (r : outcome (Paging P) unit) : Prop :=
  match r with
  | Ok _ s' => exists F' own', tables_ok s' F' own' root /\
      (forall va', vpn va' = vpn va -> translate (ram s') root va' = Some (Z.lor pa (va' mod 4096))) /\
      (forall va', vpn va' <> vpn va -> translate (ram s') root va' = translate (ram s) root va') /\
      (forall va', no_large (ram s) root va' -> no_large (ram s') root va') /\ enough s root va
  | Err _ s' => (forall va', translate (ram s') root va' = translate (ram s) root va') /\ ~ enough s root va
  | Fault | OutOfFuel => False
  end.

Lemma maps_page_since s0 s F0 F root va pa r : (forall va', translate (ram s0) root va' = translate (ram s) root va') ->
  (forall va', no_large (ram s) root va' -> no_large (ram s0) root va') -> (enough s root va <-> enough s0 root va) ->
  maps_page s0 F0 root va pa r -> maps_page s F root va pa r.
Proof.
  intros E N K. destruct r as [[] s'|c s'| |]; cbn -[translate]; [|intros [G Hk]; split; [intros va'; by rewrite G|by rewrite K]|done..].
  intros (F' & own' & T' & G1 & G2 & G3 & G4). exists F', own'. split; [done|]. split; [done|]. split; [intros va' Hva; by rewrite G2|].
  split; [by eauto|by apply K].
Qed.

(** Once the last table is there. *)
Lemma set_leaf s F own root va pa flags t es e q : tables_ok s F own root -> at_level s own va 0 t es e ->
  reaches child (ram s) (vpn va) 3 root 0 t -> phys q = t -> 0 <= pa < 2 ^ 52 -> pa mod 4096 = 0 -> small_flags flags ->
  maps_page s F root va pa
    ((_pa64 ← page_address q (va_index va 0) pa; set_entry q (va_index va 0) (Z.lor (Z.land _pa64 ADDR_MASK) flags)) s).
Proof.
  intros T L Hr Hq Hpa Hpm Hf. unfold page_address. rewrite (proj2 (Z.eqb_neq pa (2 ^ 64 - 1))) by dlia.
  rewrite bind_ret, land_addr by done. destruct (entry_flags pa flags Hpm Hpa Hf) as (V1 & V2 & V3).
  rewrite va_index_spec by lia. rewrite (set_entry_ok s q t es) by (done || apply L).
  destruct (leaf_translate s F own root va t es e (Z.lor pa flags) T L Hr) as (H1 & H2 & H3).
  exists F, own. split; [by eapply leaf_tables_ok|]. split; [|split; [done|]; split; [done|]; unfold enough; by rewrite (missing_at s own root va 0 t es e L Hr) by (by left)].
  intros va' Hva. cbn [ram]. rewrite H1 by done. cbn [value].
  rewrite V2, V1. do 2 f_equal. change (12 + 9 * Z.of_nat 0) with 12. by rewrite land_low by lia.
Qed.

Lemma set_page_ok s F own root va pa flags : frames_answer -> tables_ok s F own root -> 
  0 <= pa < 2 ^ 52 -> pa mod 4096 = 0 -> small_flags flags -> no_large (ram s) root va ->
  maps_page s F root va pa (set_page root va pa flags (2 ^ 12) s).
Proof.
  intros Ans T Hpa Hpm Hf Hnl. destruct (at_root s F own root va T) as (es3 & e3 & A3 & _).
  destruct (at_pointer _ _ _ _ _ _ _ A3) as (_ & Q3 & _ & N3).
  assert (reaches child (ram s) (vpn va) 3 root 3 root) as R3 by (by left).
  unfold set_page. change (2 ^ 12 =? 2 ^ 30) with false. change (2 ^ 12 =? 2 ^ 21) with false. cbn iota zeta.
  unfold mbind at 1, M_bind at 1. pose proof (get_or_make_ok s F own root va 2 root es3 e3 root Ans T ltac:(lia) A3 R3 Q3 N3 Hnl) as G.
  destruct (xtGetOrMakePageTable root (va_index va 3) 7 s) as [q2 s2|c s2| |]; [|destruct G as [G K]; split; [intros ?; by rewrite G|done]|done..].
  destruct G as (F2 & own2 & t2 & es2 & e2 & -> & T2 & A2 & R2 & Hnl2 & Tr2 & K2).
  destruct (at_pointer _ _ _ _ _ _ _ A2) as (_ & Q2 & N2 & _). rewrite <- phys_high in Q2.
  unfold mbind at 1, M_bind at 1. pose proof (get_or_make_ok s2 F2 own2 root va 1 t2 es2 e2 _ Ans T2 ltac:(lia) A2 R2 Q2 N2 (Hnl2 _ Hnl)) as G.
  destruct (xtGetOrMakePageTable (HIGHER_HALF_MEM t2) (va_index va 2) 7 s2) as [q1 s1|c s1| |]; [|destruct G as [G K]; split; [intros ?; by rewrite G, Tr2|by rewrite K2]|done..].
  destruct G as (F1 & own1 & t1 & es1 & e1 & -> & T1 & A1 & R1 & Hnl1 & Tr1 & K1).
  destruct (at_pointer _ _ _ _ _ _ _ A1) as (_ & Q1 & N1 & _). rewrite <- phys_high in Q1.
  rewrite (bind_Ok _ _ s1 pa s1) by (unfold page_address; by rewrite (proj2 (Z.eqb_neq pa (2 ^ 64 - 1))) by dlia).
  unfold mbind at 1, M_bind at 1. pose proof (get_or_make_ok s1 F1 own1 root va 0 t1 es1 e1 _ Ans T1 ltac:(lia) A1 R1 Q1 N1 (Hnl1 _ (Hnl2 _ Hnl))) as G.
  destruct (xtGetOrMakePageTable (HIGHER_HALF_MEM t1) (va_index va 1) 7 s1) as [q0 s0|c s0| |];
    [|destruct G as [G K]; split; [intros ?; by rewrite G, Tr1, Tr2|by rewrite K2, K1]|done..].
  destruct G as (F0 & own0 & t0 & es0 & e0 & -> & T0 & A0 & R0 & Hnl0 & Tr0 & K0).
  destruct (at_pointer _ _ _ _ _ _ _ A0) as (P0 & Q0 & N0 & _).
  pose proof (set_leaf s0 F0 own0 root va pa flags t0 es0 e0 _ T0 A0 R0 Q0 Hpa Hpm Hf) as G.
  eapply maps_page_since; [| | |exact G]; [intros va'; by rewrite Tr0, Tr1, Tr2|by eauto|by rewrite K2, K1].
Qed.

(** [n] pages from [va] are mapped to the frames from [pa], and nothing else
    has changed. *)
Definition maps_range (tabs tabs' : gmap Z (list Z)) root va pa n : Prop :=
  (forall i va', 0 <= i < n -> vpn va' = vpn va + i -> translate tabs' root va' = Some (Z.lor (pa + 4096 * i) (va' mod 4096))) /\
  (forall va', (forall i, 0 <= i < n -> vpn va' <> vpn va + i) -> translate tabs' root va' = translate tabs root va').

Lemma maps_none tabs root va pa : maps_range tabs tabs root va pa 0.
Proof. split; [lia|done]. Qed.

Lemma maps_cons tabs1 tabs2 tabs3 root va va2 pa n : 0 <= n -> (0 < n -> vpn va2 = vpn va + 1) ->
  (forall va', vpn va' = vpn va -> translate tabs2 root va' = Some (Z.lor pa (va' mod 4096))) ->
  (forall va', vpn va' <> vpn va -> translate tabs2 root va' = translate tabs1 root va') ->
  maps_range tabs2 tabs3 root va2 (pa + 4096) n -> maps_range tabs1 tabs3 root va pa (n + 1).
Proof.
  intros Hn Hv G1 G2 [H1 H2]. split.
  - intros i va' Hi Hva. destruct (decide (i = 0)) as [->|].
    + rewrite H2 by (intros j Hj; rewrite Hv by lia; lia). rewrite G1 by lia. do 2 f_equal. lia.
    + rewrite (H1 (i - 1)); [do 2 f_equal; lia|lia|]. rewrite Hv by lia. lia.
  - intros va' Hva. rewrite H2, G2; [done| |].
    + intros E. apply (Hva 0); lia.
    + intros i Hi E. rewrite Hv in E by lia. apply (Hva (i + 1)); lia.
Qed.

Lemma next_page va n : 0 <= va < 2 ^ 64 -> va mod 2 ^ 48 + 4096 * (n + 1) <= 2 ^ 48 -> 0 < n -> va mod 4096 = 0 ->
  u64 (va + 4096) = va + 4096 /\ (va + 4096) mod 2 ^ 48 = va mod 2 ^ 48 + 4096 /\ vpn (va + 4096) = vpn va + 1.
Proof.
  intros Hb Hr Hn Hm. unfold u64, vpn. assert ((va + 4096) mod 2 ^ 48 = va mod 2 ^ 48 + 4096) as -> by dlia.
  split; [|split; [done|]]; [dlia|]. rewrite <- (Z.div_add _ 1 4096) by lia. f_equal.
Qed.

Lemma vpn_add va i n : 0 <= i < n -> va mod 2 ^ 48 + 4096 * n <= 2 ^ 48 -> vpn (va + 4096 * i) = vpn va + i.
Proof.
  intros Hi Hr. unfold vpn. assert ((va + 4096 * i) mod 2 ^ 48 = va mod 2 ^ 48 + 4096 * i) as -> by dlia.
  rewrite <- (Z.div_add _ i 4096) by lia. f_equal. lia.
Qed.

Lemma set_loop_ok root flags : frames_answer -> small_flags flags -> forall (n : nat) s F own va pa,
  tables_ok s F own root -> 0 <= va < 2 ^ 64 -> va mod 2 ^ 48 + 4096 * Z.of_nat n <= 2 ^ 48 -> va mod 4096 = 0 ->
  0 <= pa -> pa + 4096 * Z.of_nat n <= 2 ^ 52 -> pa mod 4096 = 0 -> 4096 * Z.of_nat n < 2 ^ 21 ->
  (forall i, 0 <= i < Z.of_nat n -> no_large (ram s) root (va + 4096 * i)) ->
  match set_loop n root va pa (4096 * Z.of_nat n) flags s with
  | Ok _ s' => (exists F' own', tables_ok s' F' own' root) /\ maps_range (ram s) (ram s') root va pa (Z.of_nat n) /\
      forall m, (m < n)%nat -> exists s2, set_loop m root va pa (4096 * Z.of_nat m) flags s = Ok tt s2 /\ enough s2 root (va + 4096 * Z.of_nat m)
  | Err _ s' => exists m s2, (m < n)%nat /\ set_loop m root va pa (4096 * Z.of_nat m) flags s = Ok tt s2 /\
      ~ enough s2 root (va + 4096 * Z.of_nat m) /\ maps_range (ram s) (ram s') root va pa (Z.of_nat m)
  | Fault | OutOfFuel => False
  end.
Proof.
  intros Ans Hf n. induction n as [|n IH]; intros s F own va pa T Hva Hvr Hvm Hpa Hpr Hpm Hs Hnl.
  { cbn. split; [eauto|]. split; [apply maps_none|lia]. }
  assert (forall k, (k <= n)%nat -> set_loop (S k) root va pa (4096 * Z.of_nat (S k)) flags s =
    (set_page root va pa flags (2 ^ 12) ;;; set_loop k root (u64 (va + 4096)) (u64 (pa + 4096)) (4096 * Z.of_nat k) flags) s) as Hround.
  { intros k Hk. assert (4096 * Z.of_nat (S k) < 2 ^ 21) as Hsk by lia. cbn [set_loop]. rewrite (proj2 (Z.eqb_neq (4096 * Z.of_nat (S k)) 0)) by lia.
    assert (choose_size va pa (4096 * Z.of_nat (S k)) = 2 ^ 12) as ->.
    { unfold choose_size. rewrite !Z.geb_leb. rewrite (proj2 (Z.leb_gt (2 ^ 30) _)) by lia. rewrite (proj2 (Z.leb_gt (2 ^ 21) _)) by lia. by rewrite !andb_false_r. }
    assert (u64 (4096 * Z.of_nat (S k) - 2 ^ 12) = 4096 * Z.of_nat k) as -> by (unfold u64; rewrite Z.mod_small by lia; lia). done. }
  rewrite Hround by done.
  pose proof (set_page_ok s F own root va pa flags Ans T ltac:(lia) Hpm Hf) as G.
  ospecialize (G _); [replace va with (va + 4096 * 0) by lia; apply Hnl; lia|].
  unfold mbind, M_bind. destruct (set_page root va pa flags (2 ^ 12) s) as [[] s1|c s1| |] eqn:E1; [|..|done|done].
  2:{ exists O, s. split; [lia|]. split; [done|]. rewrite Z.mul_0_r, Z.add_0_r. split; [apply G|]. split; [lia|]. intros va' _. apply G. }
  destruct G as (F1 & own1 & T1 & G1 & G2 & G3 & G4).
  assert (u64 (pa + 4096) = pa + 4096) as -> by (unfold u64; rewrite Z.mod_small by lia; lia).
  replace (Z.of_nat (S n)) with (Z.of_nat n + 1) in * by lia.
  assert (forall m tabs3, 0 <= m <= Z.of_nat n -> maps_range (ram s1) tabs3 root (u64 (va + 4096)) (pa + 4096) m ->
            maps_range (ram s) tabs3 root va pa (m + 1)) as Hcons.
  { intros m tabs3 Hm. apply maps_cons; [lia| |done|done]. intros Hm0.
    destruct (next_page va (Z.of_nat n)) as (E2 & _ & E3); [done|lia|lia|done|]. by rewrite E2. }
  assert (forall m s2, (m < n)%nat -> set_loop m root (u64 (va + 4096)) (pa + 4096) (4096 * Z.of_nat m) flags s1 = Ok tt s2 ->
    set_loop (S m) root va pa (4096 * Z.of_nat (S m)) flags s = Ok tt s2 /\
    va + 4096 * Z.of_nat (S m) = u64 (va + 4096) + 4096 * Z.of_nat m) as Hpre.
  { intros m s2 Hm R. split.
    - rewrite Hround by lia. unfold mbind, M_bind. rewrite E1. unfold u64 at 2. by rewrite (Z.mod_small (pa + 4096)) by lia.
    - destruct (next_page va (Z.of_nat n)) as (E2 & _); [done|lia|lia|done|]. rewrite E2. lia. }
  specialize (IH s1 F1 own1 (u64 (va + 4096)) (pa + 4096) T1). ospecialize (IH _ _ _ _ _ _ _ _).
  - unfold u64. apply Z.mod_pos_bound. lia.
  - destruct n as [|n']; [pose proof (Z.mod_pos_bound (u64 (va + 4096)) (2 ^ 48)); lia|].
    destruct (next_page va (Z.of_nat (S n'))) as (E2 & E3 & _); [done|lia|lia|done|]. rewrite E2, E3. lia.
  - unfold u64. dlia.
  - lia.
  - lia.
  - dlia.
  - lia.
  - intros i Hi. destruct (next_page va (Z.of_nat n)) as (E2 & _); [done|lia|lia|done|]. rewrite E2. apply G3.
    replace (va + 4096 + 4096 * i) with (va + 4096 * (i + 1)) by lia. apply Hnl. lia.
  - destruct (set_loop _ _ _ _ _ _ _) as [[] s'|c s'| |]; [..|done|done].
    + destruct IH as (T' & M & K). split; [done|]. split; [apply Hcons; [lia|done]|]. intros [|m] Hm.
      { exists s. rewrite Z.mul_0_r, Z.add_0_r. by split. }
      destruct (K m ltac:(lia)) as (s2 & R & Hk). exists s2.
      destruct (Hpre m s2 ltac:(lia) R) as [R' E']. by rewrite E'.
    + destruct IH as (m & s2 & Hm & R & Hk & M). exists (S m), s2. split; [lia|].
      destruct (Hpre m s2 Hm R) as [R' E']. split; [done|]. rewrite E'. split; [done|].
      replace (Z.of_nat (S m)) with (Z.of_nat m + 1) by lia. apply Hcons; [lia|done].
Qed.

(** C4: [xtSetPages] maps a range that is smaller than 2 MB and in which no large page lies, with the free pages cleared (the driver does not clear them): from then on an address in the range translates into the frame at the same offset, all other addresses translate as before, and the tables stay well formed. It fails exactly at the first page for which fewer pages are left than it lacks tables; the pages before are mapped, as by a call for just those, and nothing else has changed. *)
Theorem set_pages_maps s F own root va pa n attr :
  frames_answer -> tables_ok s F own root ->
  0 <= va < 2 ^ 64 -> va mod 2 ^ 48 + 4096 * Z.of_nat n <= 2 ^ 48 -> va mod 4096 = 0 ->
  0 <= pa -> pa + 4096 * Z.of_nat n <= 2 ^ 52 -> pa mod 4096 = 0 -> 4096 * Z.of_nat n < 2 ^ 21 ->
  (forall i, 0 <= i < Z.of_nat n -> no_large (ram s) root (va + 4096 * i)) ->
  match xtSetPages root va pa (4096 * Z.of_nat n) attr s with
  | Ok _ s' => (exists F' own', tables_ok s' F' own' root) /\
      (forall m, (m < n)%nat -> exists s2, xtSetPages root va pa (4096 * Z.of_nat m) attr s = Ok tt s2 /\ enough s2 root (va + 4096 * Z.of_nat m)) /\
      (forall i off, 0 <= i < Z.of_nat n -> 0 <= off < 4096 ->
         xtGetPhysicalAddress root (va + 4096 * i + off) s' = Ok (pa + 4096 * i + off) s') /\
      (forall va', (forall i, 0 <= i < Z.of_nat n -> vpn va' <> vpn va + i) ->
         translate (ram s') root va' = translate (ram s) root va')
  | Err _ s' => exists m s2, (m < n)%nat /\ xtSetPages root va pa (4096 * Z.of_nat m) attr s = Ok tt s2 /\
      ~ enough s2 root (va + 4096 * Z.of_nat m) /\ maps_range (ram s) (ram s') root va pa (Z.of_nat m)
  | Fault | OutOfFuel => False
  end.
Proof.
  intros Ans T Hva Hvr Hvm Hpa Hpr Hpm Hs Hnl. destruct (at_root s F own root va T) as (es3 & e3 & A3 & _).
  destruct (at_pointer _ _ _ _ _ _ _ A3) as (_ & _ & _ & N3).
  assert (forall k, xtSetPages root va pa (4096 * Z.of_nat k) attr s = set_loop k root va pa (4096 * Z.of_nat k) (xtBuildFlags attr) s) as Hcall.
  { intros k. unfold xtSetPages. rewrite check_then by done. by rewrite (Z.mul_comm 4096), Z.div_mul, Nat2Z.id by lia. }
  rewrite Hcall.
  pose proof (set_loop_ok root (xtBuildFlags attr) Ans (build_flags_small attr) n s F own va pa T Hva Hvr Hvm Hpa Hpr Hpm Hs Hnl) as G.
  destruct (set_loop _ _ _ _ _ _ _) as [[] s'|c s'| |]; [| |done..].
  2:{ destruct G as (m & s2 & Hm & R & G). exists m, s2. by rewrite Hcall. }
  destruct G as ((F' & own' & T') & [G1 G2] & K). split; [eauto|]. split; [intros m Hm; rewrite Hcall; by apply K|]. split; [|done]. intros i off Hi Ho.
  rewrite (get_physical_ok s' F' own') by done. destruct (vpn_offset (va + 4096 * i) off) as [E1 E2]; [dlia|done|lia|].
  rewrite (G1 i), E2; [|done|rewrite E1; by eapply vpn_add].
  f_equal. replace (pa + 4096 * i) with ((pa + 4096 * i) / 4096 * 2 ^ 12) by (change (2 ^ 12) with 4096; dlia). by apply lor_add_shift.
Qed.

End Proofs.

(** * Concrete tables *)

Definition demo_root : Z := 0x1000.

Definition demo_tables : Paging (list Z) := mkPaging [0x2000; 0x3000; 0x4000; 0x5000]
  (<[0x1000 := zero_table]> (<[0x2000 := zero_table]> (<[0x3000 := zero_table]> (<[0x4000 := zero_table]> {[0x5000 := zero_table]})))).

Lemma list_frames_answer : frames_answer (P := list Z).
Proof. intros n [|a l]; [right|left]; cbn; eauto. Qed.

Lemma demo_tables_ok : tables_ok demo_tables {[0x2000; 0x3000; 0x4000; 0x5000]} {[demo_root := (3%nat, 0)]} demo_root.
Proof.
  assert (forall es e, ram demo_tables !! demo_root = Some es -> e ∈ es -> e = 0) as Hz.
  { intros es e [= <-] He. by apply zero_table_elem. }
  split.
  - split.
    + intros t k p [<- [= <- <-]]%lookup_singleton_Some. by exists zero_table.
    + intros t k p es i e t' [<- [= <- <-]]%lookup_singleton_Some Ht He. eapply list_elem_of_lookup_2, Hz in He as ->; done.
  - done.
  - intros t. rewrite dom_singleton_L. intros ->%elem_of_singleton. split; [done|]. by vm_compute.
  - cbn. split; [by vm_compute|]. split; [|by repeat constructor].
    apply (bool_decide_unpack _). by vm_compute.
  - intros a Ha. rewrite !elem_of_union, !elem_of_singleton in Ha. by destruct Ha as [[[-> | ->] | ->] | ->].
  - intros t es e. rewrite dom_singleton_L. intros ->%elem_of_singleton Ht He _. by eapply Hz.
  - intros es e Ht He. by rewrite (Hz es e Ht He).
Qed.

Lemma set_pages_maps_witness :
  match xtSetPages demo_root 0x400000 0x9000 (4096 * 2) XT_MEM_WRITE demo_tables with
  | Ok _ s' => xtGetPhysicalAddress demo_root (0x400000 + 4096 * 1 + 5) s' = Ok 0xa005 s'
  | _ => False
  end.
Proof.
  assert (forall i, 0 <= i < Z.of_nat 2 -> no_large (ram demo_tables) demo_root (0x400000 + 4096 * i)) as Hnl.
  { intros i Hi. assert (i = 0 \/ i = 1) as [-> | ->] by lia; intros j e He; right; vm_compute in He; by injection He as <- <-. }
  pose proof (set_pages_maps demo_tables _ _ demo_root 0x400000 0x9000 2 XT_MEM_WRITE list_frames_answer demo_tables_ok
    ltac:(lia) ltac:(vm_compute; discriminate) eq_refl ltac:(lia) ltac:(lia) eq_refl ltac:(lia) Hnl) as G.
  change (4096 * Z.of_nat 2) with (4096 * 2) in G.
  destruct (xtSetPages _ _ _ _ _ _) as [[] s'|c s'| |] eqn:E; [|by vm_compute in E..].
  destruct G as (_ & _ & G & _). apply (G 1 5); lia.
Defined.

(** * Other behaviour *)

(** [PAGE_1GB * 512] is 0 as an [int]: on an address whose top-level entry is
    not present, [xtUnsetPages] goes round for ever. *)
Theorem unset_unmapped_never_ends {P} `{PageAllocator P} (s : Paging P) pml4 es e va size : 
  pml4 <> NULL -> ram s !! phys pml4 = Some es -> es !! va_index va 3 = Some e -> present e = false -> size <> 0 -> 0 <= va < 2 ^ 64 ->
  forall fuel, 0 <= size -> xtUnsetPages fuel pml4 va size s = OutOfFuel.
Proof.
  intros Hp Ht He Hpr Hs Hva fuel Hs0. unfold xtUnsetPages. rewrite check_then by done.
  assert (unset_page pml4 va s = Ok 0 s) as U.
  { unfold unset_page. by rewrite (bind_Ok _ _ _ e s), Hpr by by eapply entry_ok. }
  induction fuel as [|fuel IH]; cbn [unset_loop]; rewrite (proj2 (Z.eqb_neq size 0)) by done;
    rewrite (bind_Ok _ _ _ _ _ U); [done|].
  rewrite Z.add_0_r, Z.sub_0_r. replace (u64 va) with va by (unfold u64; by rewrite Z.mod_small).
  rewrite Z.geb_leb, (proj2 (Z.leb_le 0 size)) by done. exact IH.
Qed.

Lemma unset_unmapped_never_ends_witness : xtUnsetPages 1000 demo_root 0x400000 4096 demo_tables = OutOfFuel.
Proof. by apply (unset_unmapped_never_ends demo_tables demo_root zero_table 0). Defined.

Definition stale_tables : Paging (list Z) := mkPaging [0x2000; 0x3000; 0x4000]
  (<[0x1000 := zero_table]> (<[0x2000 := zero_table]> (<[0x3000 := zero_table]> {[0x4000 := replicate 512 0xdead001]}))).

(** The pages of new tables are not cleared: what they held before becomes
    entries. After one page has been mapped, an address that was never mapped
    translates to a frame. *)
Theorem new_tables_not_cleared :
  xtGetPhysicalAddress demo_root 0x401234 stale_tables = Err XT_NOT_FOUND stale_tables /\
  match xtSetPages demo_root 0x400000 0x9000 4096 XT_MEM_WRITE stale_tables with
  | Ok _ s' => xtGetPhysicalAddress demo_root 0x401234 s' = Ok 0xdead234 s'
  | _ => False
  end.
Proof. split; by vm_compute. Qed.

(** Mapping a page inside a large page: [PTE_FLAGS_MASK] keeps every bit but the
    last, so the new link holds the address of the new table or-ed with the
    frame of the large page, and still has the bit of a large page. *)
Theorem split_large_page_broken (s : Paging (list Z)) pml i es e a l : pml <> NULL ->
  ram s !! phys (HIGHER_HALF_MEM pml) = Some es -> es !! i = Some e -> present e = true -> large e = true -> frames s = a :: l ->
  xtGetOrMakePageTable pml i 7 s =
    Ok (HIGHER_HALF_MEM a) (mkPaging l (<[phys (HIGHER_HALF_MEM pml) := <[i := Z.lor (Z.lor a (Z.land e PTE_FLAGS_MASK)) 7]> es]> (ram s))) /\
  large (Z.lor (Z.lor a (Z.land e PTE_FLAGS_MASK)) 7) = true /\
  Z.land (Z.lor (Z.lor a (Z.land e PTE_FLAGS_MASK)) 7) ADDR_MASK = Z.lor (Z.land a ADDR_MASK) (Z.land e ADDR_MASK).
Proof.
  intros Hp Ht He Hpr Hl Hf. split; [|split].
  - unfold xtGetOrMakePageTable. rewrite check_then by done. rewrite (bind_Ok _ _ _ e s) by by eapply entry_ok.
    rewrite Hpr, Hl. cbn [negb orb]. rewrite (bind_Ok _ _ _ a (mkPaging l (ram s))) by (unfold on_frames, zoom; by rewrite Hf).
    by rewrite (bind_Ok _ _ _ _ _ (set_entry_ok (mkPaging l (ram s)) _ _ es _ _ eq_refl Ht)).
  - unfold large in *. rewrite !Z.land_lor_distr_l, <- Z.land_assoc. change (Z.land PTE_FLAGS_MASK P_PS) with P_PS.
    apply negb_true_iff, Z.eqb_neq in Hl. apply negb_true_iff, Z.eqb_neq.
    intros [[_ E]%Z.lor_eq_0_iff _]%Z.lor_eq_0_iff. done.
  - rewrite !Z.land_lor_distr_l, <- Z.land_assoc. change (Z.land PTE_FLAGS_MASK ADDR_MASK) with ADDR_MASK.
    change (Z.land 7 ADDR_MASK) with 0. by rewrite Z.lor_0_r.
Qed.

Lemma split_large_page_broken_witness :
  let s := mkPaging [0x2000] {[0x1000 := replicate 512 0x40000083]} in
  xtGetOrMakePageTable 0x1000 0 7 s =
    Ok (HIGHER_HALF_MEM 0x2000) (mkPaging [] {[0x1000 := <[0%nat := 0x40002087]> (replicate 512 0x40000083)]}).
Proof.
  intros s. refine (proj1 (split_large_page_broken s 0x1000 0 (replicate 512 0x40000083) 0x40000083 0x2000 [] _ _ _ _ _ _)); done.
Defined.
