(* ===== verification/Boot.v ===== *)
(** The boot loader: the page tables of xtboot/arch/x86_64/arch.c that the
    kernel starts with. *)
From Stdlib Require Import ZArith Lia.
From stdpp Require Import base tactics list gmap fin_maps numbers.
From S2P Require Import Prelude Radix Paging.

Open Scope Z_scope.

(** * The services of the firmware *)

(** [AllocatePages(AllocateAnyPages, ...)] for a number of pages and
    [SetMem(page, 4096, 0)], as the UEFI specification describes them: the pages
    are aligned, in a row, and were free. [FreePages] returns one way or the
    other. *)
Class BootServices (P : Type) := {
  AllocatePages : Z -> M P Z;
  FreePages : Z -> Z -> M P unit;
  clear_page : Z -> M (gmap Z (list Z)) unit;
  page_free : P -> Z -> Prop;
  free_answers p a n : (exists p', FreePages a n p = Ok tt p') \/ exists c p', FreePages a n p = Err c p';
  clear_page_ok a m : clear_page a m = Ok tt (<[a := zero_table]> m);
  allocate_ok p n a p' : 0 < n -> AllocatePages n p = Ok a p' ->
    0 < a /\ a mod 4096 = 0 /\ a + 4096 * n <= 2 ^ 47 /\ (forall k, 0 <= k < n -> page_free p (a + 4096 * k)) /\
    forall q, page_free p' q -> page_free p q /\ (q < a \/ a + 4096 * n <= q)
}.

(** Pages handed out in a row, for the witnesses. *)
Definition row_allocate (n : Z) : M Z Z := fun next =>
  if (0 <? next) && (next mod 4096 =? 0) && (next + 4096 * n <=? 2 ^ 47) then Ok next (next + 4096 * n) else Err XT_OUT_OF_MEMORY next.

Lemma row_allocate_ok (p n a p' : Z) : 0 < n -> row_allocate n p = Ok a p' ->
  0 < a /\ a mod 4096 = 0 /\ a + 4096 * n <= 2 ^ 47 /\ (forall k, 0 <= k < n -> p <= a + 4096 * k) /\
  forall q, p' <= q -> p <= q /\ (q < a \/ a + 4096 * n <= q).
Proof.
  unfold row_allocate. destruct (_ && _) eqn:E; [|done]. intros Hn [= <- <-].
  apply andb_true_iff in E as [[E1%Z.ltb_lt E2%Z.eqb_eq]%andb_true_iff E3%Z.leb_le].
  split; [done|]. split; [done|]. split; [done|]. split; [intros k Hk; lia|]. intros q Hq. lia.
Qed.

#[export] Instance Row_Services : BootServices Z := {
  AllocatePages := row_allocate;
  FreePages := fun _ _ => mret tt;
  clear_page := fun a => modify (insert a zero_table);
  page_free := fun p q => p <= q;
  free_answers := fun p _ _ => or_introl (ex_intro _ p eq_refl);
  clear_page_ok := fun _ _ => eq_refl;
  allocate_ok := row_allocate_ok
}.

(** * The tables *)

Definition KERNEL_IMAGE_BASE : Z := 0xffffffff80000000.

Section Boot.
Context {P : Type} {B : BootServices P}.
Notation BM := (M (Paging P)).

(** [EfiAssert]: an error is printed, and the loader stays in a loop. *)
Definition EfiAssert {X} (m : BM X) : BM X := fun s =>
  match m s with Err _ _ => OutOfFuel | r => r end.

Definition efi_pages (n : Z) : BM Z := EfiAssert (zoom frames (fun f s => mkPaging f (ram s)) (AllocatePages n)).

Definition SetMem_page (a : Z) : BM unit := zoom ram (fun r s => mkPaging (frames s) r) (clear_page a).

(** A page for a table, cleared. *)
Definition new_table : BM Z := t ← efi_pages 1; SetMem_page t ;;; mret t.

(** [SET_PAGE_TABLE]; an index behind the table is another's memory. *)
Definition SET_PAGE_TABLE (page_table : Z) (pos : nat) (e flags : Z) : BM unit := fun s =>
  match ram s !! page_table with
  | Some es => if (pos <? length es)%nat then Ok tt (mkPaging (frames s) (<[page_table := <[pos := Z.lor e flags]> es]> (ram s))) else Fault
  | None => Fault
  end.

(** [n] entries from [pos + i] on, [step] apart. *)
Fixpoint fill_entries (n : nat) (table : Z) (pos : nat) (base step flags : Z) (i : nat) : BM unit :=
  match n with
  | O => mret tt
  | S n =>
    SET_PAGE_TABLE table (pos + i) (base + Z.of_nat i * step) flags ;;;
    fill_entries n table pos base step flags (S i)
  end.

Definition MapHighHalf (image SizeOfImage : Z) : BM Z :=
  pml4 ← new_table;
  pdp1 ← new_table;
  fill_entries 512 pdp1 0 0 (2 ^ 30) 0x87 0 ;;;
  SET_PAGE_TABLE pml4 0 pdp1 0x07 ;;;
  SET_PAGE_TABLE pml4 256 pdp1 0x03 ;;;
  StackPtr ← efi_pages 0x20;
  SetMem_page StackPtr ;;;
  pdp2 ← new_table;
  ptStack ← new_table;
  fill_entries 32 ptStack 480 StackPtr 4096 0x03 0 ;;;
  pd1 ← new_table;
  SET_PAGE_TABLE pd1 511 ptStack 0x03 ;;;
  SET_PAGE_TABLE pdp2 509 pd1 0x03 ;;;
  pd2 ← new_table;
  ptKernel ← new_table;
  fill_entries (Z.to_nat (SizeOfImage / 4096)) ptKernel 0 image 4096 0x03 0 ;;;
  SET_PAGE_TABLE pd2 0 ptKernel 0x03 ;;;
  SET_PAGE_TABLE pdp2 510 pd2 0x03 ;;;
  SET_PAGE_TABLE pml4 511 pdp2 0x03 ;;;
  mret pml4.

End Boot.

(** * What the tables say *)

(** Physical memory one to one in the first 512 GB and again at [HIGH_HALF], the
    image at [KERNEL_IMAGE_BASE] with the stack below it. *)
Definition boot_translation (image pages stack va : Z) : option Z :=
  if va <? 2 ^ 39 then Some va
  else if (HIGH_HALF <=? va) && (va <? HIGH_HALF + 2 ^ 39) then Some (va - HIGH_HALF)
  else if (KERNEL_IMAGE_BASE <=? va) && (va <? KERNEL_IMAGE_BASE + 4096 * pages) then Some (image + (va - KERNEL_IMAGE_BASE))
  else if (KERNEL_IMAGE_BASE - 0x20000 <=? va) && (va <? KERNEL_IMAGE_BASE) then Some (stack + (va - (KERNEL_IMAGE_BASE - 0x20000)))
  else None.

(** The addresses the CPU accepts. *)
Definition canonical (va : Z) : Prop := 0 <= va < 2 ^ 47 \/ 2 ^ 64 - 2 ^ 47 <= va < 2 ^ 64.

(** Several allocations in a row: the addresses of the pages. *)
Fixpoint efi_allocs {P} {B : BootServices P} (ns : list Z) : M P (list Z) :=
  match ns with
  | [] => mret []
  | n :: ns => a ← AllocatePages n; l ← efi_allocs ns; mret (a :: l)
  end.

(** * Building the tables *)

Section Build.
Context {P : Type} {B : BootServices P}.
Implicit Types (p : P) (m : gmap Z (list Z)).

(** An address that can be in an entry. *)
Definition frame (a : Z) : Prop := 0 < a < 2 ^ 47 /\ a mod 4096 = 0.

Lemma efi_allocs_ok : forall ns p l p', efi_allocs ns p = Ok l p' -> Forall (fun n => 0 < n) ns ->
  Forall frame l /\ Forall (page_free p) l /\ NoDup l /\ (forall q, page_free p' q -> page_free p q).
Proof.
  induction ns as [|n ns IH]; intros p l p' R F; cbn [efi_allocs] in R.
  - injection R as <- <-. repeat split; try constructor. done.
  - apply list.Forall_cons in F as [Hn F]. apply bind_Ok_inv in R as (a & p1 & Ra & R). apply bind_Ok_inv in R as (l1 & p2 & Rl & [= <- <-]).
    destruct (allocate_ok p n a p1 Hn Ra) as (A1 & A2 & A3 & A4 & A5). destruct (IH _ _ _ Rl F) as (F1 & F2 & F3 & F4).
    split; [constructor; [split; lia|done]|]. split; [|split].
    + constructor; [specialize (A4 0 ltac:(lia)); by rewrite Z.add_0_r in A4|].
      eapply list.Forall_impl; [exact F2|]. intros q Hq. apply (proj1 (A5 q Hq)).
    + constructor; [|done]. intros Hin. rewrite list.Forall_forall in F2. destruct (proj2 (A5 a (F2 _ Hin))); lia.
    + intros q Hq. apply (proj1 (A5 q (F4 q Hq))).
Qed.

Lemma efi_allocs_cons n ns p a l p' : efi_allocs (n :: ns) p = Ok (a :: l) p' ->
  exists p1, AllocatePages n p = Ok a p1 /\ efi_allocs ns p1 = Ok l p'.
Proof.
  cbn [efi_allocs]. intros (b & p1 & R1 & R)%bind_Ok_inv. apply bind_Ok_inv in R as (l1 & p2 & R2 & [= <- <- <-]). eauto.
Qed.

Lemma efi_pages_ok p n a p' m : AllocatePages n p = Ok a p' -> efi_pages n (mkPaging p m) = Ok a (mkPaging p' m).
Proof. intros R. unfold efi_pages, EfiAssert, zoom. cbn [frames]. by rewrite R. Qed.

Lemma SetMem_page_ok p m a : SetMem_page a (mkPaging p m) = Ok tt (mkPaging p (<[a := zero_table]> m)).
Proof. unfold SetMem_page, zoom. cbn [ram]. by rewrite clear_page_ok. Qed.

Lemma new_table_ok p a p' m : AllocatePages 1 p = Ok a p' -> new_table (mkPaging p m) = Ok a (mkPaging p' (<[a := zero_table]> m)).
Proof.
  intros R. unfold new_table. rewrite (bind_Ok _ _ _ _ _ (efi_pages_ok _ _ _ _ _ R)). by rewrite (bind_Ok _ _ _ _ _ (SetMem_page_ok _ _ _)).
Qed.

Lemma SET_PAGE_TABLE_ok p m t es pos e flags : m !! t = Some es -> (pos < length es)%nat ->
  SET_PAGE_TABLE t pos e flags (mkPaging p m) = Ok tt (mkPaging p (<[t := <[pos := Z.lor e flags]> es]> m)).
Proof. intros Ht Hp. unfold SET_PAGE_TABLE. cbn [ram frames]. rewrite Ht. by rewrite (proj2 (Nat.ltb_lt _ _)). Qed.

(** The entries [lo] to [hi] of [es'] are those of a row, the others are [es]'s. *)
Definition filled (es es' : list Z) (lo hi : nat) (f : nat -> Z) : Prop :=
  length es' = length es /\ forall k, es' !! k = if decide (lo <= k < hi)%nat then Some (f k) else es !! k.

Lemma fill_entries_ok p t pos base step flags : forall n i m es, m !! t = Some es -> (pos + i + n <= length es)%nat ->
  exists es', fill_entries n t pos base step flags i (mkPaging p m) = Ok tt (mkPaging p (<[t := es']> m)) /\
    filled es es' (pos + i) (pos + i + n) (fun k => Z.lor (base + Z.of_nat (k - pos) * step) flags).
Proof.
  induction n as [|n IH]; intros i m es Ht Hl; cbn [fill_entries].
  - exists es. rewrite insert_id by done. split; [done|]. split; [done|]. intros k. by rewrite decide_False by lia.
  - rewrite (bind_Ok _ _ _ _ _ (SET_PAGE_TABLE_ok p m t es (pos + i) _ flags Ht ltac:(lia))).
    set (es1 := <[(pos + i)%nat := _]> es). assert (length es1 = length es) as L1 by apply length_insert.
    destruct (IH (S i) (<[t := es1]> m) es1 (lookup_insert_eq _ _ _)) as (es' & R & L & K); [lia|].
    exists es'. rewrite insert_insert_eq in R. split; [done|]. split; [lia|].
    intros k. rewrite K. unfold es1. destruct (decide (k = pos + i)%nat) as [->|Hk].
    + rewrite decide_False, decide_True, list_lookup_insert_eq by lia. do 4 f_equal. lia.
    + rewrite list_lookup_insert_ne by done. destruct (decide _), (decide _); lia || done.
Qed.

(** The tables in memory, entry by entry: what hangs on the root and on the
    table of the last 512 GB, the rows of pages, and nothing else. *)
Record boot_tables m (image : Z) (pages : nat) (pml4 pdp1 stack pdp2 ptStack pd1 pd2 ptKernel : Z) : Prop := mkBootTables {
  bt_pml4 : exists es, m !! pml4 = Some es /\ forall k, (k < 512)%nat -> es !! k =
    Some (if decide (k = 0)%nat then Z.lor pdp1 7 else if decide (k = 256)%nat then Z.lor pdp1 3
          else if decide (k = 511)%nat then Z.lor pdp2 3 else 0);
  bt_pdp1 : exists es, m !! pdp1 = Some es /\ forall k, (k < 512)%nat -> es !! k = Some (Z.lor (Z.of_nat k * 2 ^ 30) 0x87);
  bt_pdp2 : exists es, m !! pdp2 = Some es /\ forall k, (k < 512)%nat -> es !! k =
    Some (if decide (k = 509)%nat then Z.lor pd1 3 else if decide (k = 510)%nat then Z.lor pd2 3 else 0);
  bt_pd1 : exists es, m !! pd1 = Some es /\ forall k, (k < 512)%nat -> es !! k =
    Some (if decide (k = 511)%nat then Z.lor ptStack 3 else 0);
  bt_pd2 : exists es, m !! pd2 = Some es /\ forall k, (k < 512)%nat -> es !! k =
    Some (if decide (k = 0)%nat then Z.lor ptKernel 3 else 0);
  bt_stack : exists es, m !! ptStack = Some es /\ forall k, (k < 512)%nat -> es !! k =
    Some (if decide (480 <= k)%nat then Z.lor (stack + Z.of_nat (k - 480) * 4096) 3 else 0);
  bt_kernel : exists es, m !! ptKernel = Some es /\ forall k, (k < 512)%nat -> es !! k =
    Some (if decide (k < pages)%nat then Z.lor (image + Z.of_nat k * 4096) 3 else 0)
}.

Lemma zero_entry k : (k < 512)%nat -> zero_table !! k = Some 0.
Proof. intros Hk. unfold zero_table. by rewrite lookup_replicate_2. Qed.

(** The entries of a cleared table after a few of them were set. *)
Ltac by_entries := intros k Hk; repeat (destruct (decide _); subst; try lia);
  repeat first [rewrite list_lookup_insert_ne by lia
    | rewrite list_lookup_insert_eq by (rewrite ?length_insert; apply Nat.ltb_lt; reflexivity)];
  try done; by apply zero_entry.

(** Finding a table among those that were written after it. *)
Ltac look := repeat first [rewrite lookup_insert_eq; reflexivity | rewrite lookup_insert_ne by congruence].

(** The room of a table. *)
Ltac room := rewrite (eq_refl : length zero_table = 512%nat); apply Nat.leb_le; reflexivity.

Ltac set_entry_step t e f := erewrite (bind_Ok (SET_PAGE_TABLE t _ e f)); [|apply SET_PAGE_TABLE_ok; [look|rewrite ?length_insert; apply Nat.ltb_lt; reflexivity]].

Lemma MapHighHalf_ok p p' m image size pml4 pdp1 stack pdp2 ptStack pd1 pd2 ptKernel :
  efi_allocs [1; 1; 0x20; 1; 1; 1; 1; 1] p = Ok [pml4; pdp1; stack; pdp2; ptStack; pd1; pd2; ptKernel] p' ->
  0 <= size -> size / 4096 <= 512 ->
  exists m', MapHighHalf image size (mkPaging p m) = Ok pml4 (mkPaging p' m') /\
    boot_tables m' image (Z.to_nat (size / 4096)) pml4 pdp1 stack pdp2 ptStack pd1 pd2 ptKernel /\
    forall q, q ∉ [pml4; pdp1; stack; pdp2; ptStack; pd1; pd2; ptKernel] -> m' !! q = m !! q.
Proof.
  intros R H0 Hs. assert (0 + 0 + Z.to_nat (size / 4096) <= length zero_table)%nat as Hn by (change (length zero_table) with 512%nat; lia).
  destruct (efi_allocs_ok _ _ _ _ R ltac:(repeat constructor; lia)) as (_ & _ & ND & _).
  apply efi_allocs_cons in R as (p1 & R1 & R). apply efi_allocs_cons in R as (p2 & R2 & R). apply efi_allocs_cons in R as (p3 & R3 & R).
  apply efi_allocs_cons in R as (p4 & R4 & R). apply efi_allocs_cons in R as (p5 & R5 & R). apply efi_allocs_cons in R as (p6 & R6 & R).
  apply efi_allocs_cons in R as (p7 & R7 & R). apply efi_allocs_cons in R as (p8 & R8 & [= <-]).
  repeat (apply list.NoDup_cons in ND as [?N ND]). rewrite !not_elem_of_cons in *. destruct_and!.
  unfold MapHighHalf. assert (length zero_table = 512%nat) as Lz by done.
  rewrite (bind_Ok _ _ _ _ _ (new_table_ok _ _ _ _ R1)), (bind_Ok _ _ _ _ _ (new_table_ok _ _ _ _ R2)).
  set (m2 := <[pdp1 := zero_table]> _).
  assert (m2 !! pdp1 = Some zero_table) as Hm by apply lookup_insert_eq.
  destruct (fill_entries_ok p2 pdp1 0 0 (2 ^ 30) 0x87 512 0 m2 zero_table Hm) as (es1 & F1 & L1 & K1); [room|]. clear Hm.
  rewrite (bind_Ok _ _ _ _ _ F1). subst m2.
  set_entry_step pml4 pdp1 7. set_entry_step pml4 pdp1 3.
  rewrite (bind_Ok _ _ _ _ _ (efi_pages_ok _ _ _ _ _ R3)), (bind_Ok _ _ _ _ _ (SetMem_page_ok _ _ _)).
  rewrite (bind_Ok _ _ _ _ _ (new_table_ok _ _ _ _ R4)), (bind_Ok _ _ _ _ _ (new_table_ok _ _ _ _ R5)).
  set (m2 := <[ptStack := zero_table]> _).
  assert (m2 !! ptStack = Some zero_table) as Hm by apply lookup_insert_eq.
  destruct (fill_entries_ok p5 ptStack 480 stack 4096 3 32 0 m2 zero_table Hm) as (es2 & F2 & L2 & K2); [room|]. clear Hm.
  rewrite (bind_Ok _ _ _ _ _ F2). subst m2.
  rewrite (bind_Ok _ _ _ _ _ (new_table_ok _ _ _ _ R6)).
  set_entry_step pd1 ptStack 3. set_entry_step pdp2 pd1 3.
  rewrite (bind_Ok _ _ _ _ _ (new_table_ok _ _ _ _ R7)), (bind_Ok _ _ _ _ _ (new_table_ok _ _ _ _ R8)).
  set (m2 := <[ptKernel := zero_table]> _).
  assert (m2 !! ptKernel = Some zero_table) as Hm by apply lookup_insert_eq.
  destruct (fill_entries_ok p8 ptKernel 0 image 4096 3 (Z.to_nat (size / 4096)) 0 m2 zero_table Hm) as (es3 & F3 & L3 & K3); [exact Hn|]. clear Hm.
  rewrite (bind_Ok _ _ _ _ _ F3). subst m2.
  set_entry_step pd2 ptKernel 3. set_entry_step pdp2 pd2 3. set_entry_step pml4 pdp2 3.
  eexists. split; [reflexivity|]. split; [|intros q Hq; rewrite !not_elem_of_cons in Hq; destruct_and!; look; done].
  split; (eexists; split; [look|]); clear - K1 K2 K3.
  - by_entries.
  - intros k Hk. rewrite K1, decide_True by lia. by rewrite Nat.sub_0_r.
  - by_entries.
  - by_entries.
  - by_entries.
  - intros k Hk. rewrite K2. destruct (decide _), (decide _); try lia; [done|by apply zero_entry].
  - intros k Hk. rewrite K3. destruct (decide _), (decide _); try lia; [by rewrite Nat.sub_0_r|by apply zero_entry].
Qed.

(** * Walking the tables *)

Lemma va_index_div va k : (k <= 3)%nat -> va_index va k = Z.to_nat (va / 2 ^ (12 + 9 * Z.of_nat k) mod 512).
Proof. intros Hk. unfold va_index. rewrite shiftr_div by lia. change 0x1ff with (2 ^ 9 - 1). by rewrite land_low by lia. Qed.

(** The parts of an address: the sign extension, four indices and the offset. *)
Record parts (va b i3 i2 i1 i0 off : Z) : Prop := mkParts {
  p_sum : va = b * 0xffff000000000000 + i3 * 2 ^ 39 + i2 * 2 ^ 30 + i1 * 2 ^ 21 + i0 * 2 ^ 12 + off;
  p_bounds : 0 <= i3 < 512 /\ 0 <= i2 < 512 /\ 0 <= i1 < 512 /\ 0 <= i0 < 512 /\ 0 <= off < 4096;
  p_sign : b = 0 /\ i3 < 256 \/ b = 1 /\ 256 <= i3;
  p_index : va_index va 3 = Z.to_nat i3 /\ va_index va 2 = Z.to_nat i2 /\ va_index va 1 = Z.to_nat i1 /\ va_index va 0 = Z.to_nat i0;
  p_low : va mod 2 ^ 30 = i1 * 2 ^ 21 + i0 * 2 ^ 12 + off /\ va mod 2 ^ 12 = off
}.

Lemma canonical_parts va : canonical va -> exists b i3 i2 i1 i0 off, parts va b i3 i2 i1 i0 off.
Proof.
  intros Hc. exists (if va <? 2 ^ 47 then 0 else 1), (va / 2 ^ 39 mod 512), (va / 2 ^ 30 mod 512), (va / 2 ^ 21 mod 512), (va / 2 ^ 12 mod 512), (va mod 2 ^ 12).
  pose proof (Z.mod_pos_bound (va / 2 ^ 39) 512). pose proof (Z.mod_pos_bound (va / 2 ^ 30) 512). pose proof (Z.mod_pos_bound (va / 2 ^ 21) 512).
  pose proof (Z.mod_pos_bound (va / 2 ^ 12) 512). pose proof (Z.mod_pos_bound va (2 ^ 12)).
  unfold canonical in Hc. destruct (Z.ltb_spec va (2 ^ 47)); (split; [dlia|lia|dlia| |split; [dlia|done]]); by rewrite !va_index_div by lia.
Qed.

Lemma flags_3 : small_flags 3.
Proof. done. Qed.

Lemma flags_7 : small_flags 7.
Proof. done. Qed.

(** An entry of 1 GB. *)
Lemma huge_entry k : 0 <= k < 512 ->
  Z.land (Z.lor (k * 2 ^ 30) 0x87) ADDR_MASK = k * 2 ^ 30 /\ present (Z.lor (k * 2 ^ 30) 0x87) = true /\ large (Z.lor (k * 2 ^ 30) 0x87) = true.
Proof.
  intros Hk. assert ((k * 2 ^ 30) mod 4096 = 0) as Hm by dlia. unfold present, large, P_PRESENT, P_PS. rewrite !Z.land_lor_distr_l.
  rewrite land_addr by lia. rewrite !(aligned_low (k * 2 ^ 30)) by (done || lia). split; [apply Z.lor_0_r|done].
Qed.

(** Reading an entry of a table the kernel way. *)
Lemma read_entry p m t es i e : frame t -> m !! t = Some es -> es !! i = Some e ->
  entry (HIGHER_HALF_MEM t) i (mkPaging p m) = Ok e (mkPaging p m).
Proof. intros [Ht _]. apply (entry_ok (mkPaging p m) _ t). rewrite phys_high. apply phys_low. lia. Qed.

(** One level down, through an entry that links a table. *)
Ltac follow Hr M E Ht Hf :=
  let V1 := fresh in let V2 := fresh in let V3 := fresh in
  destruct (entry_flags _ _ (proj2 Ht) ltac:(destruct (proj1 Ht); lia) Hf) as (V1 & V2 & V3);
  rewrite (bind_Ok _ _ _ _ _ (read_entry _ _ _ _ _ _ Hr M E)), V2; cbn [negb]; rewrite ?V3, V1; clear V1 V2 V3.

Ltac start Hr := unfold xtGetPhysicalAddress; rewrite check_then by (destruct Hr; unfold NULL; lia).

(** A walk that ends in the table of 1 GB pages. *)
Lemma walk_direct p m root e4 pdp es f va : frame root -> frame pdp -> small_flags f -> m !! root = Some e4 -> m !! pdp = Some es ->
  e4 !! va_index va 3 = Some (Z.lor pdp f) -> es !! va_index va 2 = Some (Z.lor (Z.of_nat (va_index va 2) * 2 ^ 30) 0x87) -> (va_index va 2 < 512)%nat ->
  xtGetPhysicalAddress root va (mkPaging p m) = Ok (Z.of_nat (va_index va 2) * 2 ^ 30 + va mod 2 ^ 30) (mkPaging p m).
Proof.
  intros Hr Hp Hf M4 M3 E4 E3 Hi. start Hr. follow Hr M4 E4 Hp Hf.
  destruct (huge_entry (Z.of_nat (va_index va 2)) ltac:(lia)) as (H1 & H2 & H3).
  rewrite (bind_Ok _ _ _ _ _ (read_entry p m _ _ _ _ Hp M3 E3)), H2, H3, H1. cbn [negb]. rewrite land_low by lia.
  by rewrite lor_add_shift by (try apply Z.mod_pos_bound; lia).
Qed.

(** A walk that ends at a missing entry. *)
Lemma walk_none3 p m root e4 va : frame root -> m !! root = Some e4 -> e4 !! va_index va 3 = Some 0 ->
  xtGetPhysicalAddress root va (mkPaging p m) = Err XT_NOT_FOUND (mkPaging p m).
Proof. intros Hr M4 E4. start Hr. by rewrite (bind_Ok _ _ _ _ _ (read_entry p m _ _ _ _ Hr M4 E4)). Qed.

Lemma walk_none2 p m root e4 pdp es va : frame root -> frame pdp -> m !! root = Some e4 -> m !! pdp = Some es ->
  e4 !! va_index va 3 = Some (Z.lor pdp 3) -> es !! va_index va 2 = Some 0 ->
  xtGetPhysicalAddress root va (mkPaging p m) = Err XT_NOT_FOUND (mkPaging p m).
Proof.
  intros Hr Hp M4 M3 E4 E3. start Hr. follow Hr M4 E4 Hp flags_3. by rewrite (bind_Ok _ _ _ _ _ (read_entry p m _ _ _ _ Hp M3 E3)).
Qed.

Lemma walk_none1 p m root e4 pdp es pd ed va : frame root -> frame pdp -> frame pd -> m !! root = Some e4 -> m !! pdp = Some es -> m !! pd = Some ed ->
  e4 !! va_index va 3 = Some (Z.lor pdp 3) -> es !! va_index va 2 = Some (Z.lor pd 3) -> ed !! va_index va 1 = Some 0 ->
  xtGetPhysicalAddress root va (mkPaging p m) = Err XT_NOT_FOUND (mkPaging p m).
Proof.
  intros Hr Hp Hd M4 M3 M2 E4 E3 E2. start Hr. follow Hr M4 E4 Hp flags_3. follow Hp M3 E3 Hd flags_3.
  by rewrite (bind_Ok _ _ _ _ _ (read_entry p m _ _ _ _ Hd M2 E2)).
Qed.

(** A walk to the last level: a page, or none. *)
Lemma walk_page p m root e4 pdp es pd ed pt et va e : frame root -> frame pdp -> frame pd -> frame pt ->
  m !! root = Some e4 -> m !! pdp = Some es -> m !! pd = Some ed -> m !! pt = Some et ->
  e4 !! va_index va 3 = Some (Z.lor pdp 3) -> es !! va_index va 2 = Some (Z.lor pd 3) -> ed !! va_index va 1 = Some (Z.lor pt 3) ->
  et !! va_index va 0 = Some (match e with Some a => Z.lor a 3 | None => 0 end) ->
  match e with Some a => 0 <= a < 2 ^ 52 /\ a mod 4096 = 0 | None => True end ->
  xtGetPhysicalAddress root va (mkPaging p m) =
    match e with Some a => Ok (a + va mod 2 ^ 12) (mkPaging p m) | None => Err XT_NOT_FOUND (mkPaging p m) end.
Proof.
  intros Hr Hp Hd Ht M4 M3 M2 M1 E4 E3 E2 E1 He. start Hr. follow Hr M4 E4 Hp flags_3. follow Hp M3 E3 Hd flags_3. follow Hd M2 E2 Ht flags_3.
  rewrite (bind_Ok _ _ _ _ _ (read_entry p m _ _ _ _ Ht M1 E1)). destruct e as [a|]; [|done]. destruct He as [Ha Hm].
  destruct (entry_flags a 3 Hm Ha flags_3) as (V1 & V2 & V3). rewrite V2, V1. cbn [negb]. rewrite land_low by lia.
  replace a with (a / 2 ^ 12 * 2 ^ 12) at 1 2 by (change (2 ^ 12) with 4096; dlia).
  by rewrite lor_add_shift by (try apply Z.mod_pos_bound; lia).
Qed.

Lemma boot_translate p m image pages pml4 pdp1 stack pdp2 ptStack pd1 pd2 ptKernel va :
  boot_tables m image pages pml4 pdp1 stack pdp2 ptStack pd1 pd2 ptKernel ->
  Forall frame [pml4; pdp1; stack; pdp2; ptStack; pd1; pd2; ptKernel] ->
  0 <= image -> image mod 4096 = 0 -> image + 2 ^ 21 <= 2 ^ 52 -> (pages <= 512)%nat -> canonical va ->
  xtGetPhysicalAddress pml4 va (mkPaging p m) = match boot_translation image (Z.of_nat pages) stack va with
                                              | Some a => Ok a (mkPaging p m) | None => Err XT_NOT_FOUND (mkPaging p m) end.
Proof.
  intros T F Hi Him Hib Hpg Hva.
  apply list.Forall_cons in F as [G4 F]. apply list.Forall_cons in F as [G1 F]. apply list.Forall_cons in F as [Gs F].
  apply list.Forall_cons in F as [G2 F]. apply list.Forall_cons in F as [Gt F]. apply list.Forall_cons in F as [Gd1 F].
  apply list.Forall_cons in F as [Gd2 F]. apply list.Forall_cons in F as [Gk _].
  destruct (canonical_parts va Hva) as (b & i3 & i2 & i1 & i0 & off & [E Bd S (X3 & X2 & X1 & X0) [L1 L2]]).
  destruct T as [(e4 & M4 & K4) (e1 & M1 & K1) (e2 & M2 & K2) (ed1 & Md1 & Kd1) (ed2 & Md2 & Kd2) (es & Ms & Ks) (ek & Mk & Kk)].
  specialize (K4 (va_index va 3) ltac:(lia)). specialize (K1 (va_index va 2) ltac:(lia)). specialize (K2 (va_index va 2) ltac:(lia)).
  specialize (Kd1 (va_index va 1) ltac:(lia)). specialize (Kd2 (va_index va 1) ltac:(lia)).
  specialize (Ks (va_index va 0) ltac:(lia)). specialize (Kk (va_index va 0) ltac:(lia)).
  unfold boot_translation. change HIGH_HALF with (0xffff000000000000 + 256 * 2 ^ 39).
  change KERNEL_IMAGE_BASE with (0xffff000000000000 + 511 * 2 ^ 39 + 510 * 2 ^ 30).
  destruct (decide (va_index va 3 = 0)%nat) as [E3|N0]; [|destruct (decide (va_index va 3 = 256)%nat) as [E3|N256]; [|destruct (decide (va_index va 3 = 511)%nat) as [E3|N511]]].
  - rewrite (walk_direct p m pml4 e4 pdp1 e1 7 va G4 G1 flags_7 M4 M1 K4 K1) by lia. zcases; f_equal; lia.
  - rewrite (walk_direct p m pml4 e4 pdp1 e1 3 va G4 G1 flags_3 M4 M1 K4 K1) by lia. zcases; f_equal; lia.
  - destruct (decide (va_index va 2 = 509)%nat) as [E2|N509]; [|destruct (decide (va_index va 2 = 510)%nat) as [E2|N510]].
    + destruct (decide (va_index va 1 = 511)%nat) as [E1|N1].
      * destruct (decide (480 <= va_index va 0)%nat) as [E0|E0].
        -- rewrite (walk_page p m pml4 e4 pdp2 e2 pd1 ed1 ptStack es va (Some _) G4 G2 Gd1 Gt M4 M2 Md1 Ms K4 K2 Kd1 Ks)
             by (destruct Gs; split; [lia|rewrite Z_mod_plus_full; done]).
           zcases; f_equal; lia.
        -- rewrite (walk_page p m pml4 e4 pdp2 e2 pd1 ed1 ptStack es va None G4 G2 Gd1 Gt M4 M2 Md1 Ms K4 K2 Kd1 Ks I). zcases.
      * rewrite (walk_none1 p m pml4 e4 pdp2 e2 pd1 ed1 va G4 G2 Gd1 M4 M2 Md1 K4 K2 Kd1). zcases.
    + destruct (decide (va_index va 1 = 0)%nat) as [E1|N1].
      * destruct (decide (va_index va 0 < pages)%nat) as [E0|E0].
        -- rewrite (walk_page p m pml4 e4 pdp2 e2 pd2 ed2 ptKernel ek va (Some _) G4 G2 Gd2 Gk M4 M2 Md2 Mk K4 K2 Kd2 Kk)
             by (split; [lia|rewrite Z_mod_plus_full; done]).
           zcases; f_equal; lia.
        -- rewrite (walk_page p m pml4 e4 pdp2 e2 pd2 ed2 ptKernel ek va None G4 G2 Gd2 Gk M4 M2 Md2 Mk K4 K2 Kd2 Kk I). zcases.
      * rewrite (walk_none1 p m pml4 e4 pdp2 e2 pd2 ed2 va G4 G2 Gd2 M4 M2 Md2 K4 K2 Kd2). zcases.
    + rewrite (walk_none2 p m pml4 e4 pdp2 e2 va G4 G2 M4 M2 K4 K2). zcases.
  - rewrite (walk_none3 p m pml4 e4 va G4 M4 K4). zcases.
Qed.

(** A row that does not fit in the table. *)
Lemma fill_entries_overrun p t pos base step flags : forall n i m es, m !! t = Some es -> (pos + i <= length es < pos + i + n)%nat ->
  fill_entries n t pos base step flags i (mkPaging p m) = Fault.
Proof.
  induction n as [|n IH]; intros i m es Ht Hl; [lia|]. cbn [fill_entries]. destruct (decide (pos + i < length es)%nat) as [Hi|Hi].
  - rewrite (bind_Ok _ _ _ _ _ (SET_PAGE_TABLE_ok p m t es (pos + i) _ flags Ht Hi)).
    apply (IH (S i) _ (<[(pos + i)%nat := Z.lor (base + Z.of_nat i * step) flags]> es)); [apply lookup_insert_eq|rewrite length_insert; lia].
  - unfold mbind, M_bind, SET_PAGE_TABLE. cbn [ram]. rewrite Ht. by rewrite (proj2 (Nat.ltb_ge _ _)) by lia.
Qed.

(** C7: The kernel starts in the address space it is written for: for an image of at most 512 pages (2 MB), and with the pages the firmware gives, [MapHighHalf] ends, and the kernel's own walk translates every address the CPU accepts as planned: the first 512 GB one to one and again at [HIGH_HALF], the image at [KERNEL_IMAGE_BASE], 128 KB of stack below it, and nothing else. Only free pages are written. *)
Theorem boot_map p p' m image size pml4 pdp1 stack pdp2 ptStack pd1 pd2 ptKernel :
  efi_allocs [1; 1; 0x20; 1; 1; 1; 1; 1] p = Ok [pml4; pdp1; stack; pdp2; ptStack; pd1; pd2; ptKernel] p' ->
  0 <= size -> size / 4096 <= 512 -> 0 <= image -> image mod 4096 = 0 -> image + 2 ^ 21 <= 2 ^ 52 ->
  exists m', MapHighHalf image size (mkPaging p m) = Ok pml4 (mkPaging p' m') /\
    (forall va, canonical va -> xtGetPhysicalAddress pml4 va (mkPaging p' m') =
      match boot_translation image (size / 4096) stack va with
      | Some a => Ok a (mkPaging p' m') | None => Err XT_NOT_FOUND (mkPaging p' m') end) /\
    forall q, m' !! q <> m !! q -> page_free p q.
Proof.
  intros R H0 Hs Hi Him Hib. destruct (MapHighHalf_ok p p' m image size pml4 pdp1 stack pdp2 ptStack pd1 pd2 ptKernel R H0 Hs) as (m' & R' & T & O).
  destruct (efi_allocs_ok _ _ _ _ R ltac:(repeat constructor; lia)) as (F & Fr & _ & _).
  exists m'. split; [done|]. split.
  - intros va Hva. rewrite (boot_translate p' m' image (Z.to_nat (size / 4096)) pml4 pdp1 stack pdp2 ptStack pd1 pd2 ptKernel) by (done || lia).
    by rewrite Z2Nat.id by (apply Z.div_pos; lia).
  - intros q Hq. rewrite list.Forall_forall in Fr. apply Fr. destruct (decide (q ∈ [pml4; pdp1; stack; pdp2; ptStack; pd1; pd2; ptKernel])); [done|].
    by destruct Hq; apply O.
Qed.

End Build.

(** Pages from 1 MB on, an image of 64 KB at 16 MB. *)
Lemma boot_map_witness :
  exists m', MapHighHalf 0x1000000 0x10000 (mkPaging 0x100000 ∅) = Ok 0x100000 (mkPaging 0x127000 m') /\
    xtGetPhysicalAddress 0x100000 (KERNEL_IMAGE_BASE + 0x1234) (mkPaging 0x127000 m') = Ok 0x1001234 (mkPaging 0x127000 m').
Proof.
  destruct (boot_map (P := Z) 0x100000 0x127000 ∅ 0x1000000 0x10000 0x100000 0x101000 0x102000 0x122000 0x123000 0x124000 0x125000 0x126000)
    as (m' & R & T & _); [by vm_compute|done..|].
  exists m'. split; [exact R|]. rewrite T; [done|]. right. unfold KERNEL_IMAGE_BASE. lia.
Defined.
