(* ===== verification/BootLoad.v ===== *)
(** The boot loader: reading the kernel into memory and what it is told
    (xtboot/main.c). *)
From Stdlib Require Import ZArith Lia.
From stdpp Require Import base tactics list numbers.
From S2P Require Import Prelude Bytes Pe PeProof LoadProof Radix Paging Boot.

Open Scope Z_scope.

(** * Files of the firmware *)

(** [EFI_FILE_PROTOCOL] as the UEFI specification describes it: reading gives
    the bytes from the position on, as many as asked for and there are. *)
Class EfiFile (F : Type) := {
  file_read : Z -> M F (list Z);
  file_seek : Z -> M F unit;
  contents : F -> list Z;
  position : F -> Z;
  file_read_ok f n : 0 <= n -> 0 <= position f -> exists f', file_read n f = Ok (slice (position f) n (contents f)) f' /\ contents f' = contents f;
  file_seek_ok f o : 0 <= o -> exists f', file_seek o f = Ok tt f' /\ contents f' = contents f /\ position f' = o
}.

(** A file in memory. *)
Definition mem_read (n : Z) : M (list Z * Z) (list Z) := fun f =>
  let bs := slice f.2 n f.1 in Ok bs (f.1, f.2 + len bs).

Lemma mem_read_ok (f : list Z * Z) n : 0 <= n -> 0 <= f.2 -> exists f', mem_read n f = Ok (slice f.2 n f.1) f' /\ f'.1 = f.1.
Proof. intros. eexists. split; [reflexivity|done]. Qed.

Lemma mem_seek_ok (f : list Z * Z) o : 0 <= o -> exists f', (modify (fun f => (f.1, o)) f = Ok tt f' :> outcome (list Z * Z) unit) /\ f'.1 = f.1 /\ f'.2 = o.
Proof. intros. eexists. split; [reflexivity|done]. Qed.

#[export] Instance Mem_File : EfiFile (list Z * Z) := {
  file_read := mem_read;
  file_seek := fun o => modify (fun f => (f.1, o));
  contents := fst;
  position := snd;
  file_read_ok := mem_read_ok;
  file_seek_ok := mem_seek_ok
}.

(** * Loading the kernel *)

Section Load.
Context {P F : Type} {B : BootServices P} {E : EfiFile F}.

(** The pages and the open file. *)
Record Loader := mkLoader { pages : P; file : F }.

Notation LM := (M Loader).

Definition on_pages {X} (m : M P X) : LM X := zoom pages (fun p s => mkLoader p (file s)) m.

Definition on_kernel {X} (m : M F X) : LM X := zoom file (fun f s => mkLoader (pages s) f) m.

(** A value from a buffer that is only read. *)
Definition from {X} (buf : Image) (m : M Image X) : LM X := fun s =>
  match m buf with Ok x _ => Ok x s | Err c _ => Err c s | Fault => Fault | OutOfFuel => OutOfFuel end.

(** [kernelFile->Read(kernelFile, &BuffSize, offset)] into the image. *)
Definition place (off : Z) (bs : list Z) (image : Image) : LM Image :=
  if (0 <=? off) && (off + len bs <=? len image) then mret (splice off bs image) else fault.

Fixpoint load_sections (headers : Image) (n : nat) (sections i : Z) (image : Image) : LM Image :=
  match n with
  | O => mret image
  | S n =>
    s ← from headers (section_at sections i);
    if sec_size s =? 0 then load_sections headers n sections (i + 1) image
    else
      on_kernel (file_seek (sec_raw s)) ;;;
      bs ← on_kernel (file_read (sec_size s));
      image ← place (sec_va s) bs image;
      load_sections headers n sections (i + 1) image
  end.

(** The address of the image, its bytes, the entry point and the size. [junk] is
    what fresh pages hold. [file] is the kernel's file, opened. The result of
    reading the headers is dropped. *)
Definition EfiLoadKernel (junk : Z -> Z -> list Z) : LM (Z * Image * Z * Z) :=
  headers ← on_pages (AllocatePages 1);
  bs ← out_or [] (on_kernel (file_read 4096));
  let page := fill (junk headers 4096) bs in
  nt ← from page nt_headers;
  SizeOfImage ← from page (opt nt OPT_SizeOfImage 4);
  kernelImage ← on_pages (AllocatePages (SizeOfImage / 4096));
  let image := junk kernelImage (SizeOfImage / 4096 * 4096) in
  image ← place 0 (replicate (Z.to_nat SizeOfImage) 0) image;
  image ← place 0 page image;
  let sections := nt + IMAGE_SIZEOF_NT_OPTIONAL64_HEADER + IMAGE_SIZEOF_FILE_HEADER + 4 in
  count ← from page (rd 2 (nt + NT_NumberOfSections));
  image ← load_sections page (Z.to_nat count) sections 0 image;
  entry ← from page (opt nt OPT_AddressOfEntryPoint 4);
  out_or tt (on_pages (FreePages headers 1)) ;;;
  mret (kernelImage, image, entry, SizeOfImage).

End Load.

Arguments Loader P F : clear implicits.

(** * What the kernel is told *)

Record KernelBootInfo := mkBootInfo {
  MemoryMapSize : Z;
  DescSize : Z;
  RT : Z;
  TablePtr : Z;
  CountTables : Z;
  initrd : Z;
  initrdSize : Z;
  framebuffer : Z;
  width : Z;
  height : Z
}.

(** The assignments to [bootInfo]. The number of tables goes through
    [HIGHER_HALF_MEM] as if it were a pointer, the pointer to them does not. *)
Definition fill_boot_info (MemoryMapBuffSize DescSize RT ConfigurationTable NumberOfTableEntries initrd FileSize framebuffer width height : Z) : KernelBootInfo :=
  mkBootInfo MemoryMapBuffSize DescSize (HIGHER_HALF_MEM RT) ConfigurationTable (HIGHER_HALF_MEM NumberOfTableEntries)
    (HIGHER_HALF_MEM initrd) FileSize (HIGHER_HALF_MEM framebuffer) width height.

(** [mainFunc] and [StackTop]. *)
Definition kernel_entry (AddressOfEntryPoint : Z) : Z := u64 (AddressOfEntryPoint + KERNEL_IMAGE_BASE).

Definition StackTop : Z := KERNEL_IMAGE_BASE - 8.

(** * Where the kernel ends up *)

Section Layout.
Context {P F : Type} {B : BootServices P} {E : EfiFile F}.
Implicit Types (s : Loader P F) (f : F).

(** The first page of the file: the size of the image, its entry point and the
    sections. *)
Definition kernel_headers (page : Image) (size entry : Z) (secs : list Section_) : Prop := exists nt,
  nt_headers page = Ok nt page /\ opt nt OPT_SizeOfImage 4 page = Ok size page /\ opt nt OPT_AddressOfEntryPoint 4 page = Ok entry page /\
  rd 2 (nt + NT_NumberOfSections) page = Ok (len secs) page /\
  forall i x, secs !! i = Some x ->
    section_at (nt + IMAGE_SIZEOF_NT_OPTIONAL64_HEADER + IMAGE_SIZEOF_FILE_HEADER + 4) (Z.of_nat i) page = Ok x page.

Lemma from_ok {X} buf (m : M Image X) x s : m buf = Ok x buf -> from buf m s = Ok x s.
Proof. intros R. unfold from. by rewrite R. Qed.

Lemma place_ok s off bs (image : Image) : 0 <= off -> off + len bs <= len image -> place (P := P) (F := F) off bs image s = Ok (splice off bs image) s.
Proof. intros. unfold place. by rewrite !(proj2 (Z.leb_le _ _)) by lia. Qed.

(** One section, whether it is empty or not. *)
Lemma load_section_ok page sections src x n i image s : section_at sections i page = Ok x page ->
  contents (file s) = src -> section_ok src image x ->
  exists f1, load_sections page (S n) sections i image s =
    load_sections page n sections (i + 1) (splice (sec_va x) (section_bytes src x) image) (mkLoader (pages s) f1) /\ contents f1 = src.
Proof.
  intros Ex Hf Hx. pose proof Hx as (Hv & Hz & Hr & Hs & Hi). pose proof (section_bytes_length src image x Hx) as L.
  cbn [load_sections]. rewrite (bind_Ok _ _ _ _ _ (from_ok page _ x s Ex)). destruct (Z.eqb_spec (sec_size x) 0) as [E0|E0].
  - exists (file s). split; [|done]. rewrite (nil_length_inv (section_bytes src x)) by lia. rewrite splice_nil. by destruct s.
  - destruct (file_seek_ok (file s) (sec_raw x) Hr) as (f1 & R1 & C1 & P1).
    destruct (file_read_ok f1 (sec_size x)) as (f2 & R2 & C2); [lia|lia|].
    exists f2. split; [|congruence]. rewrite (bind_Ok _ _ _ tt (mkLoader (pages s) f1)) by (unfold on_kernel, zoom; by rewrite R1).
    rewrite (bind_Ok _ _ _ (section_bytes src x) (mkLoader (pages s) f2)).
    2:{ unfold on_kernel, zoom, section_bytes. cbn [file pages]. rewrite R2. by rewrite P1, C1, Hf. }
    by rewrite (bind_Ok _ _ _ _ _ (place_ok _ (sec_va x) (section_bytes src x) image ltac:(lia) ltac:(lia))).
Qed.

Lemma load_sections_ok page sections src : forall secs i image s,
  (forall j x, secs !! j = Some x -> section_at sections (i + Z.of_nat j) page = Ok x page) ->
  contents (file s) = src -> Forall (section_ok src image) secs ->
  exists image' f', load_sections page (length secs) sections i image s = Ok image' (mkLoader (pages s) f') /\ length image' = length image /\
    (ForallOrdPairs sections_apart secs -> forall x, x ∈ secs -> lies (sec_va x) (section_bytes src x) image') /\
    (forall o b, lies o b image -> Forall (fun x => o + len b <= sec_va x \/ sec_va x + sec_size x <= o) secs -> lies o b image').
Proof.
  induction secs as [|x secs IH]; intros i image s Hat Hf Hok.
  - exists image, (file s). split; [by destruct s|]. split; [done|]. split; [|done]. intros _ y Hy. by apply elem_of_nil in Hy.
  - apply list.Forall_cons in Hok as [Hx Hok]. pose proof (Hat 0%nat x eq_refl) as Ex. replace (i + Z.of_nat 0) with i in Ex by lia.
    pose proof Hx as (Hv & Hz & Hr & Hs & Hi). pose proof (section_bytes_length src image x Hx) as L.
    destruct (load_section_ok page sections src x (length secs) i image s Ex Hf Hx) as (f1 & R & Hf1).
    set (image1 := splice _ _ image) in *. assert (length image1 = length image) as L1 by (apply splice_length; lia).
    destruct (IH (i + 1) image1 (mkLoader (pages s) f1)) as (image' & f' & R' & L' & Hin & Hout); [|done| |].
    { intros j y Hj. replace (i + 1 + Z.of_nat j) with (i + Z.of_nat (S j)) by lia. by apply Hat. }
    { eapply list.Forall_impl; [exact Hok|]. intros y. unfold section_ok. by rewrite L1. }
    exists image', f'. cbn [length]. split; [by rewrite R|]. split; [congruence|]. split.
    + intros Hap y Hy. inversion Hap as [|? ? Hone Hrest]; subst. apply elem_of_cons in Hy as [->|Hy]; [|by apply Hin].
      apply Hout; [apply lies_splice_eq; lia|]. rewrite L. eapply list.Forall_impl; [exact Hone|]. done.
    + intros o b Hb Hd. apply list.Forall_cons in Hd as [Hd Hds]. apply Hout; [|done]. apply lies_splice; [done|lia..].
Qed.

Lemma on_pages_ok {X} (m : M P X) p x p' f : m p = Ok x p' -> on_pages m (mkLoader p f) = Ok x (mkLoader p' f).
Proof. intros R. unfold on_pages, zoom. cbn [pages]. by rewrite R. Qed.

(** Freeing the page of the headers, whatever it answers. *)
Lemma free_headers p a f : exists p', out_or tt (on_pages (FreePages a 1)) (mkLoader p f) = Ok tt (mkLoader p' f).
Proof.
  unfold out_or, on_pages, zoom. cbn [pages]. destruct (free_answers p a 1) as [(p' & ->)|(c & p' & ->)]; by exists p'.
Qed.

Lemma load_kernel_ok junk p p1 p2 f src page hd addr size entry secs :
  (forall a n, 0 <= n -> len (junk a n) = n) -> AllocatePages 1 p = Ok hd p1 -> AllocatePages (size / 4096) p1 = Ok addr p2 ->
  contents f = src -> position f = 0 -> 4096 <= len src -> page = slice 0 4096 src -> kernel_headers page size entry secs ->
  4096 <= size -> size mod 4096 = 0 -> (forall img, len img = size -> Forall (section_ok src img) secs) ->
  exists image s', EfiLoadKernel junk (mkLoader p f) = Ok (addr, image, entry, size) s' /\ len image = size /\
    (Forall (fun x => 4096 <= sec_va x) secs -> lies 0 page image) /\
    (ForallOrdPairs sections_apart secs -> forall x, x ∈ secs -> lies (sec_va x) (section_bytes src x) image) /\
    forall o k, 4096 <= o -> o + Z.of_nat k <= size -> Forall (fun x => o + Z.of_nat k <= sec_va x \/ sec_va x + sec_size x <= o) secs -> lies o (replicate k 0) image.
Proof.
  intros Hj A1 A2 Hf H0 Hl Hp (nt & N1 & N2 & N3 & N4 & N5) Hs Hm Hok.
  assert (len page = 4096) as Lp by (rewrite Hp, slice_length; lia).
  destruct (file_read_ok f 4096) as (f1 & R1 & C1); [lia|lia|]. unfold EfiLoadKernel.
  rewrite (bind_Ok _ _ _ _ _ (on_pages_ok _ _ _ _ f A1)).
  rewrite (bind_Ok _ _ _ page (mkLoader p1 f1)) by (apply out_or_Ok; unfold on_kernel, zoom; cbn [file pages]; by rewrite R1, H0, Hf, <- Hp).
  rewrite (fill_all _ page) by (specialize (Hj hd 4096); lia).
  rewrite (bind_Ok _ _ _ _ _ (from_ok page _ nt _ N1)), (bind_Ok _ _ _ _ _ (from_ok page _ size _ N2)), (bind_Ok _ _ _ _ _ (on_pages_ok _ _ _ _ f1 A2)).
  assert (size / 4096 * 4096 = size) as -> by dlia. pose proof (Hj addr size ltac:(lia)) as Lj. set (z := replicate (Z.to_nat size) 0).
  assert (len z = size) as Lz by (unfold z; rewrite length_replicate; lia).
  rewrite (bind_Ok _ _ _ _ _ (place_ok _ 0 z (junk addr size) ltac:(lia) ltac:(lia))).
  assert (splice 0 z (junk addr size) = z) as -> by (unfold splice; rewrite take_0, drop_ge, app_nil_r by lia; done).
  rewrite (bind_Ok _ _ _ _ _ (place_ok _ 0 page z ltac:(lia) ltac:(lia))), (bind_Ok _ _ _ _ _ (from_ok page _ _ _ N4)), Nat2Z.id.
  assert (length (splice 0 page z) = length z) as L1 by (apply splice_length; lia).
  destruct (load_sections_ok page (nt + IMAGE_SIZEOF_NT_OPTIONAL64_HEADER + IMAGE_SIZEOF_FILE_HEADER + 4) src secs 0 (splice 0 page z) (mkLoader p2 f1))
    as (image & f2 & R & L2 & Hin & Hout); [intros j x Hj'; by apply N5|cbn [file]; by rewrite C1|apply Hok; lia|].
  rewrite (bind_Ok _ _ _ _ _ R), (bind_Ok _ _ _ _ _ (from_ok page _ entry _ N3)). cbn [pages].
  destruct (free_headers p2 hd f2) as (p3 & R3). rewrite (bind_Ok _ _ _ _ _ R3).
  exists image, (mkLoader p3 f2). split; [done|]. split; [lia|]. split; [|split; [done|]].
  - intros Hva. apply Hout; [apply lies_splice_eq; lia|]. eapply list.Forall_impl; [exact Hva|]. cbn. lia.
  - intros o k Ho Hk Hd. apply Hout; [|by rewrite length_replicate]. apply lies_splice; rewrite ?length_replicate; [|lia..].
    split; [lia|]. rewrite length_replicate. split; [lia|]. unfold z, slice. rewrite drop_replicate, take_replicate. f_equal. lia.
Qed.

Lemma kernel_entry_translates addr size stack o : 0 <= o < size -> size mod 4096 = 0 -> size <= 2 ^ 21 ->
  canonical (kernel_entry o) /\ boot_translation addr (size / 4096) stack (kernel_entry o) = Some (addr + o).
Proof.
  intros Ho Hm Hs. unfold kernel_entry. assert (KERNEL_IMAGE_BASE = 2 ^ 64 - 2 ^ 31) as -> by done. rewrite u64_small by lia.
  split; [right; lia|]. unfold boot_translation, HIGH_HALF. assert (KERNEL_IMAGE_BASE = 2 ^ 64 - 2 ^ 31) as -> by done.
  assert (4096 * (size / 4096) = size) as -> by dlia. zcases. f_equal. lia.
Qed.

(** The first push of the kernel goes to the last word of the stack's pages. *)
Lemma stack_top_mapped image pages stack : 0 <= pages -> boot_translation image pages stack StackTop = Some (stack + 0x1fff8).
Proof.
  intros Hp. unfold boot_translation, StackTop, KERNEL_IMAGE_BASE, HIGH_HALF. zcases.
Qed.

(** C15: The kernel is loaded and mapped where it expects itself: its headers and sections lie at their virtual addresses in an image that is zero elsewhere, and with the page table that [MapHighHalf] builds for it the address [KERNEL_IMAGE_BASE + o], the entry point among them, is byte [o] of the image. *)
Theorem kernel_in_place junk p p1 p2 f src hd addr size entry secs :
  (forall a n, 0 <= n -> len (junk a n) = n) -> AllocatePages 1 p = Ok hd p1 -> AllocatePages (size / 4096) p1 = Ok addr p2 ->
  contents f = src -> position f = 0 -> 4096 <= len src -> kernel_headers (slice 0 4096 src) size entry secs ->
  4096 <= size <= 2 ^ 21 -> size mod 4096 = 0 -> (forall img, len img = size -> Forall (section_ok src img) secs) ->
  ForallOrdPairs sections_apart secs -> Forall (fun x => 4096 <= sec_va x) secs ->
  exists image s', EfiLoadKernel junk (mkLoader p f) = Ok (addr, image, entry, size) s' /\ len image = size /\ lies 0 (slice 0 4096 src) image /\
    (forall x, x ∈ secs -> lies (sec_va x) (section_bytes src x) image) /\
    (forall o k, 4096 <= o -> o + Z.of_nat k <= size -> Forall (fun x => o + Z.of_nat k <= sec_va x \/ sec_va x + sec_size x <= o) secs -> lies o (replicate k 0) image) /\
    forall q pml4 pdp1 stack pdp2 ptStack pd1 pd2 ptKernel m,
      efi_allocs [1; 1; 0x20; 1; 1; 1; 1; 1] (pages s') = Ok [pml4; pdp1; stack; pdp2; ptStack; pd1; pd2; ptKernel] q ->
      exists m', MapHighHalf addr size (mkPaging (pages s') m) = Ok pml4 (mkPaging q m') /\
        forall o, 0 <= o < size -> xtGetPhysicalAddress pml4 (kernel_entry o) (mkPaging q m') = Ok (addr + o) (mkPaging q m').
Proof.
  intros Hj A1 A2 Hf H0 Hl Hh Hs Hm Hok Hap Hva.
  destruct (load_kernel_ok junk p p1 p2 f src _ hd addr size entry secs Hj A1 A2 Hf H0 Hl eq_refl Hh (proj1 Hs) Hm Hok) as (image & s' & R & Li & L0 & Ls & Lz).
  exists image, s'. split; [done|]. split; [done|]. split; [by apply L0|]. split; [by apply Ls|]. split; [done|].
  intros q pml4 pdp1 stack pdp2 ptStack pd1 pd2 ptKernel m RA.
  assert (0 < size / 4096 <= 512) as Hn by dlia. destruct (allocate_ok p1 (size / 4096) addr p2 (proj1 Hn) A2) as (B1 & B2 & B3 & _ & _).
  destruct (MapHighHalf_ok (pages s') q m addr size pml4 pdp1 stack pdp2 ptStack pd1 pd2 ptKernel RA ltac:(lia) (proj2 Hn)) as (m' & R' & T & _).
  destruct (efi_allocs_ok _ _ _ _ RA ltac:(repeat constructor; lia)) as (Fr & _ & _ & _).
  exists m'. split; [done|]. intros o Ho. destruct (kernel_entry_translates addr size stack o Ho Hm (proj2 Hs)) as [Hc Ht].
  rewrite (boot_translate q m' addr (Z.to_nat (size / 4096)) pml4 pdp1 stack pdp2 ptStack pd1 pd2 ptKernel) by (done || lia || dlia).
  rewrite Z2Nat.id by lia. by rewrite Ht.
Qed.

End Layout.

(** * A kernel of one section *)

Definition demo_kernel : list Z :=
  replicate 60 0 ++ le 4 64 ++ replicate 6 0 ++ le 2 1 ++ replicate 32 0 ++ le 4 0x1000 ++ replicate 36 0 ++ le 4 8192 ++ replicate 180 0 ++
  demo_section 4096 4 4096 0 ++ replicate 3728 0 ++ [1; 2; 3; 4].

Lemma demo_kernel_headers : kernel_headers (slice 0 4096 demo_kernel) 8192 0x1000 [mkSection 4096 4 4096 0].
Proof.
  exists 64. split; [by vm_compute|]. split; [by vm_compute|]. split; [by vm_compute|]. split; [by vm_compute|].
  intros [|i] x; [intros [= <-]; by vm_compute|done].
Qed.

Lemma kernel_in_place_witness : exists image s', EfiLoadKernel (fun _ n => replicate (Z.to_nat n) 7) (mkLoader 0x100000 (demo_kernel, 0)) =
    Ok (0x101000, image, 0x1000, 8192) s' /\ lies 4096 [1; 2; 3; 4] image.
Proof.
  destruct (kernel_in_place (P := Z) (F := list Z * Z) (fun _ n => replicate (Z.to_nat n) 7) 0x100000 0x101000 0x103000 (demo_kernel, 0) demo_kernel
    0x100000 0x101000 8192 0x1000 [mkSection 4096 4 4096 0]) as (image & s' & R & _ & _ & Ls & _).
  - intros a n Hn. rewrite length_replicate. lia.
  - by vm_compute.
  - by vm_compute.
  - done.
  - done.
  - by vm_compute.
  - exact demo_kernel_headers.
  - lia.
  - done.
  - intros img Hi. apply list.Forall_singleton. unfold section_ok. cbn [sec_va sec_size sec_raw]. rewrite Hi. repeat split; by vm_compute.
  - apply FOP_cons; [constructor|constructor].
  - apply list.Forall_singleton. done.
  - exists image, s'. split; [exact R|]. apply (Ls (mkSection 4096 4 4096 0)). by apply list_elem_of_singleton.
Defined.

(** The kernel is told of more tables than there are: it never stops looking
    for one that is missing. *)
Lemma count_tables_wrong map_size desc_size rt tables n initrd_ size fb w h : 0 <= n < 2 ^ 47 ->
  CountTables (fill_boot_info map_size desc_size rt tables n initrd_ size fb w h) = n + HIGH_HALF.
Proof.
  intros Hn. cbn [fill_boot_info CountTables]. unfold HIGHER_HALF_MEM. rewrite Z.lor_comm. assert (HIGH_HALF = (2 ^ 17 - 1) * 2 ^ 47) as -> by done.
  rewrite lor_add_shift by lia. lia.
Qed.
