(* ===== verification/BootMain.v ===== *)
(** The boot loader from its entry to the kernel's: UefiMain of
    xtboot/main.c and the assertion of xtboot/assert.c. What the firmware does
    is a parameter ([Firmware], beside [BootServices] and [EfiFile]). *)
From Stdlib Require Import ZArith Lia Ascii String.
From stdpp Require Import base tactics list gmap numbers.
From S2P Require Import Prelude Bytes Pe PeProof LoadProof Radix Paging Boot BootLoad Printf Vsnprintf PrintfProof Wprintf.

Open Scope Z_scope.

(** * assert.c *)

(** The highest bit of a status is that of an error, in the UEFI specification;
    efi/efi.h is not part of the repository. *)
Definition EFI_ERROR_MASK : Z := 2 ^ 63.

Definition EFI_ERROR (status : Z) : bool := negb (Z.land status EFI_ERROR_MASK =? 0).

Definition str_Error : list string :=
  ["SUCCESS"; "LOAD_ERROR"; "INVALID_PARAMETER"; "UNSUPPORTED"; "BAD_BUFFER_SIZE"; "BUFFER_TOO_SMALL"; "NOT_READY"; "DEVICE_ERROR";
   "WRITE_PROTECTED"; "OUT_OF_RESOURCES"; "VOLUME_CORRUPTED"; "VOLUME_FULL"; "NO_MEDIA"; "MEDIA_CHANGED"; "NOT_FOUND"; "ACCESS_DENIED";
   "NO_RESPONSE"; "NO_MAPPING"; "TIMEOUT"; "NOT_STARTED"; "ALREADY_STARTED"; "ABORTED"; "ICMP_ERROR"; "TFTP_ERROR"; "PROTOCOL_ERROR";
   "INCOMPATIBLE_VERSION"; "SECURITY_VIOLATION"; "CRC_ERROR"; "END_OF_MEDIA"; "END_OF_FILE"; "INVALID_LANGUAGE"; "COMPROMISED_DATA";
   "IP_ADDRESS_CONFLICT"; "HTTP_ERROR"]%string.

(** The text of a failed assertion; the strings are literals of ASCII. *)
Fixpoint output_all (l : list string) : M (list Z) unit :=
  match l with [] => mret tt | s :: l => EfiOutputString (bytes_of s) ;;; output_all l end.

Definition assert_text (lineno file expr : string) (status : Z) : M (list Z) unit :=
  output_all [file; ":"; lineno; ":"; expr; ":"]%string ;;;
  name ← deref (fun _ => str_Error !! Z.to_nat (Z.ldiff status EFI_ERROR_MASK));
  output_all [name] ;;;
  EfiOutputString [10; 13; 0].

(** After the text the loader stays in a loop. *)
Definition _EfiAssert (lineno file expr : string) (status : Z) : M (list Z) unit :=
  if negb (EFI_ERROR status) then mret tt else assert_text lineno file expr status ;;; nofuel.

Example assert_says : assert_text "98" "main.c" "x" (EFI_ERROR_MASK + 14) [] = Ok tt (removelast (bytes_of "main.c:98:x:NOT_FOUND") ++ [10; 13]).
Proof. vm_compute. reflexivity. Qed.

(** * The firmware *)

Definition EFI_SIMPLE_FILE_SYSTEM_PROTOCOL : Z := 1.

Definition EFI_GRAPHICS_OUTPUT_PROTOCOL : Z := 2.

(** The calls of UefiMain, as the UEFI specification describes them; an
    interface is its address, a protocol one of the two numbers above.
    [map_bytes] and [map_key] are the memory map of the firmware and its key:
    GetMemoryMap gives both if the buffer is large enough, and the boot services
    can be left with the key of the map as it is then. *)
Class Firmware (W F : Type) := {
  LocateProtocol : Z -> M W Z;
  OpenVolume : Z -> M W Z;
  OpenFile : Z -> string -> M W F;
  CloseFile : F -> M W unit;
  InfoSize : F -> M W Z;
  FileSize : F -> M W Z;
  AllocatePool : Z -> M W Z;
  gop_mode : Z -> W -> Z * Z * Z;
  GetMemoryMap : Z -> M W (list Z * Z * Z);
  ExitBootServices : Z -> M W unit;
  system_table : W -> Z * Z * Z;
  map_bytes : W -> list Z;
  map_key : W -> Z;
  desc_size : W -> Z;
  get_map_ok n w : len (map_bytes w) <= n -> GetMemoryMap n w = Ok (map_bytes w, map_key w, desc_size w) w;
  get_map_small n w : n < len (map_bytes w) -> exists c, GetMemoryMap n w = Err c w;
  exit_ok w : exists w', ExitBootServices (map_key w) w = Ok tt w'
}.

Section Main.
Context {P F W : Type} {B : BootServices P} {E : EfiFile F} {U : Firmware W F}.

(** The pages and the tables in memory, and the rest of the firmware. *)
Record Booting := mkBooting { paging : Paging P; firmware : W }.

Notation BM := (M Booting).

Definition on_paging {X} (m : M (Paging P) X) : BM X := zoom paging (fun p s => mkBooting p (firmware s)) m.

Definition on_fw {X} (m : M W X) : BM X := zoom firmware (fun w s => mkBooting (paging s) w) m.

Definition on_free {X} (m : M P X) : BM X := on_paging (zoom frames (fun f s => mkPaging f (ram s)) m).

(** [EfiAssert(x)]; what it prints is [assert_text]. *)
Definition asserted {X} (m : BM X) : BM X := fun s => match m s with Err _ _ => OutOfFuel | r => r end.

(** EfiLoadKernel with an open file; the file is closed at the end. *)
Definition load_kernel (junk : Z -> Z -> list Z) (kernelFile : F) : BM (Z * Image * Z * Z) := fun s =>
  match EfiLoadKernel junk (mkLoader (frames (paging s)) kernelFile) with
  | Ok r l => (out_or tt (on_fw (CloseFile (file l))) ;;; mret r) (mkBooting (mkPaging (pages l) (ram (paging s))) (firmware s))
  | Err c l => Err c (mkBooting (mkPaging (pages l) (ram (paging s))) (firmware s))
  | Fault => Fault
  | OutOfFuel => OutOfFuel
  end.

(** [initrdFile->Read(initrdFile, &fileInfo->FileSize, initrd)], the size that
    is left in the information, and the memory of the RAM disk. *)
Definition read_initrd (junk : Z -> Z -> list Z) (f : F) (size initrd_ pages_ : Z) : BM (Z * list Z) := fun s =>
  match file_read size f with
  | Ok bs _ => if len bs <=? 4096 * pages_ then Ok (len bs, fill (junk initrd_ (4096 * pages_)) bs) s else Fault
  | Err _ _ => Ok (size, junk initrd_ (4096 * pages_)) s
  | Fault => Fault
  | OutOfFuel => OutOfFuel
  end.

Definition sizeof_KernelBootInfo : Z := 112.

(** What the jump to the kernel finds: the page table, the stack pointer, the
    address that is jumped to, its argument with the memory map behind it, the
    image and the RAM disk, each with its address. *)
Record Handover := mkHandover {
  cr3 : Z;
  rsp : Z;
  rip : Z;
  bootInfo_at : Z;
  bootInfo : KernelBootInfo;
  descs : list Z;
  image_at : Z;
  image_bytes : Image;
  initrd_at : Z;
  initrd_bytes : list Z
}.

Definition initrd_pages (FileSize_ : Z) : Z := Z.land (u64 (FileSize_ + 0xfff)) (2 ^ 64 - 1 - 0xfff) / 4096.

(** The end of UefiMain, from the memory map on. The buffer for the map has the
    size that the map had before the buffer was allocated. *)
Definition leave_boot_services (mainFunc pageTable framebuffer_ width_ height_ image : Z) (bytes : Image) (initrd_ FileSize_ : Z) (disk : list Z) : BM Handover :=
  MemoryMapBuffSize ← on_fw (gets (fun w => len (map_bytes w)));
  info ← asserted (on_fw (AllocatePool (MemoryMapBuffSize + sizeof_KernelBootInfo)));
  '(map_, MapKey, DescSize_) ← asserted (on_fw (GetMemoryMap MemoryMapBuffSize));
  '(RT_, TablePtr_, NumberOfTableEntries) ← on_fw (gets system_table);
  asserted (on_fw (ExitBootServices MapKey)) ;;;
  mret (mkHandover pageTable StackTop (kernel_entry mainFunc) info
    (fill_boot_info (len map_) DescSize_ RT_ TablePtr_ NumberOfTableEntries initrd_ FileSize_ framebuffer_ width_ height_) map_
    image bytes initrd_ disk).

(** The information about the RAM disk is what the pool held if it cannot be
    had: [old]. *)
Definition UefiMain (junk : Z -> Z -> list Z) (old : Z) : BM Handover :=
  simpleFS ← asserted (on_fw (LocateProtocol EFI_SIMPLE_FILE_SYSTEM_PROTOCOL));
  root ← asserted (on_fw (OpenVolume simpleFS));
  '(image, bytes, mainFunc, SizeOfImage) ← asserted (kernelFile ← on_fw (OpenFile root "\XT\XTKERNEL.XTE"); load_kernel junk kernelFile);
  initrdFile ← asserted (on_fw (OpenFile root "\XT\XTINITRD"));
  BufferSize ← out_or 0 (on_fw (InfoSize initrdFile));
  fileInfo ← asserted (on_fw (AllocatePool BufferSize));
  FileSize_ ← out_or old (on_fw (FileSize initrdFile));
  initrd_ ← asserted (on_free (AllocatePages (initrd_pages FileSize_)));
  '(FileSize_, disk) ← read_initrd junk initrdFile FileSize_ initrd_ (initrd_pages FileSize_);
  gop ← asserted (on_fw (LocateProtocol EFI_GRAPHICS_OUTPUT_PROTOCOL));
  '(framebuffer_, width_, height_) ← on_fw (gets (gop_mode gop));
  pageTable ← on_paging (MapHighHalf image SizeOfImage);
  leave_boot_services mainFunc pageTable framebuffer_ width_ height_ image bytes initrd_ FileSize_ disk.

(** * From the loader to the kernel *)

(** A firmware that has the two protocols, the two files and memory. *)
Record cooperative (root size_ : Z) (kernelFile initrdFile : F) : Prop := {
  coop_volume w : exists fs w1 w2, LocateProtocol EFI_SIMPLE_FILE_SYSTEM_PROTOCOL w = Ok fs w1 /\ OpenVolume fs w1 = Ok root w2;
  coop_kernel w : exists w', OpenFile root "\XT\XTKERNEL.XTE" w = Ok kernelFile w';
  coop_close f w : exists w', out_or tt (CloseFile f) w = Ok tt w';
  coop_initrd w : exists w', OpenFile root "\XT\XTINITRD" w = Ok initrdFile w';
  coop_info w : exists n w', out_or 0 (InfoSize initrdFile) w = Ok n w';
  coop_size w : exists w', FileSize initrdFile w = Ok size_ w';
  coop_gop w : exists gop w', LocateProtocol EFI_GRAPHICS_OUTPUT_PROTOCOL w = Ok gop w';
  coop_pool n w : exists a w', AllocatePool n w = Ok a w'
}.

Lemma on_fw_Ok {X} (m : M W X) p w x w' : m w = Ok x w' -> on_fw m (mkBooting p w) = Ok x (mkBooting p w').
Proof. intros E0. unfold on_fw, zoom. cbn. by rewrite E0. Qed.

Lemma out_fw_Ok {X} (d : X) (m : M W X) p w x w' : out_or d m w = Ok x w' -> out_or d (on_fw m) (mkBooting p w) = Ok x (mkBooting p w').
Proof. unfold out_or, on_fw, zoom. cbn. by destruct (m w) as [? ?|? ?| |]; [intros [= <- <-]|intros [= <- <-]|..]. Qed.

Lemma asserted_Ok {X} (m : BM X) s x s' : m s = Ok x s' -> asserted m s = Ok x s'.
Proof. intros E0. unfold asserted. by rewrite E0. Qed.

Lemma asserted_fw {X} (m : M W X) p w x w' : m w = Ok x w' -> asserted (on_fw m) (mkBooting p w) = Ok x (mkBooting p w').
Proof. intros E0. by apply asserted_Ok, on_fw_Ok. Qed.

(** The image lies in pages of the firmware. *)
Lemma load_kernel_addr junk p f addr image entry_ size_ l : EfiLoadKernel junk (mkLoader p f) = Ok (addr, image, entry_, size_) l ->
  4096 <= size_ -> 0 < addr /\ addr mod 4096 = 0 /\ addr + 2 ^ 21 <= 2 ^ 52.
Proof.
  intros R Hs. unfold EfiLoadKernel in R. apply bind_Ok_inv in R as (hd & s1 & _ & R). apply bind_Ok_inv in R as (bs & s2 & _ & R).
  apply bind_Ok_inv in R as (nt & s3 & _ & R). apply bind_Ok_inv in R as (sz & s4 & _ & R). apply bind_Ok_inv in R as (a & s5 & Ra & R).
  apply bind_Ok_inv in R as (i1 & s6 & _ & R). apply bind_Ok_inv in R as (i2 & s7 & _ & R). apply bind_Ok_inv in R as (n & s8 & _ & R).
  apply bind_Ok_inv in R as (i3 & s9 & _ & R). apply bind_Ok_inv in R as (e & s10 & _ & R). apply bind_Ok_inv in R as ([] & s11 & _ & R).
  injection R as -> _ _ -> _. unfold on_pages, zoom in Ra. destruct (AllocatePages (size_ / 4096) (pages s4)) as [a' p'| | |] eqn:Ea; [|done..].
  injection Ra as -> _. assert (Hn : 0 < size_ / 4096) by dlia. destruct (allocate_ok _ _ _ _ Hn Ea) as (H1 & H2 & H3 & _). repeat split; [done..|]. assert (0 <= size_ / 4096) by dlia. lia.
Qed.

Section Takeover.
Context (junk : Z -> Z -> list Z) (old : Z) (p : P) (m : gmap Z (list Z)) (w : W) (root : Z) (disk : list Z) (kernelFile initrdFile : F).
Context (addr : Z) (image : Image) (entry_ size_ : Z) (l : Loader P F) (initrd_ : Z) (q1 q : P) (pml4 pdp1 stack pdp2 ptStack pd1 pd2 ptKernel : Z).
Context (Hc : cooperative root (len disk) kernelFile initrdFile) (Hdisk : contents initrdFile = disk) (Hpos : position initrdFile = 0).
Context (Hload : EfiLoadKernel junk (mkLoader p kernelFile) = Ok (addr, image, entry_, size_) l) (Hsize : 4096 <= size_ <= 2 ^ 21).
Context (Hlen : 0 < len disk < 2 ^ 39).
Context (Hq1 : AllocatePages (initrd_pages (len disk)) (pages l) = Ok initrd_ q1).
Context (Hq : efi_allocs [1; 1; 0x20; 1; 1; 1; 1; 1] q1 = Ok [pml4; pdp1; stack; pdp2; ptStack; pd1; pd2; ptKernel] q).

Lemma initrd_pages_ok n : 0 <= n < 2 ^ 39 -> n <= 4096 * initrd_pages n /\ 0 <= initrd_pages n /\ (0 < n -> 0 < initrd_pages n).
Proof.
  intros Hn. unfold initrd_pages. rewrite u64_small by lia.
  assert (E0 : Z.land (n + 0xfff) (2 ^ 64 - 1 - 0xfff) = (n + 0xfff) / 4096 * 4096).
  { change (2 ^ 64 - 1 - 0xfff) with (Z.shiftl (2 ^ 52 - 1) 12). change 4096 with (2 ^ 12). rewrite <- Z.shiftl_mul_pow2, <- Z.shiftr_div_pow2 by lia.
    apply Z.bits_inj'. intros i Hi. rewrite Z.land_spec. destruct (Z.ltb_spec i 12).
    - rewrite !(Z.shiftl_spec_low _ _ i) by lia. by rewrite andb_false_r.
    - rewrite !Z.shiftl_spec, Z.shiftr_spec by lia. replace (i - 12 + 12) with i by lia. change (2 ^ 52 - 1) with (Z.ones 52).
      destruct (Z.ltb_spec (i - 12) 52); [rewrite Z.ones_spec_low by lia; by rewrite andb_true_r|].
      rewrite (Z.bits_above_log2 (n + 0xfff) i); [done|lia|]. apply Z.log2_lt_pow2; [lia|]. eapply Z.lt_le_trans; [|apply (Z.pow_le_mono_r 2 64 i)]; lia. }
  rewrite E0, Z.div_mul by lia. dlia.
Qed.
(** Everything up to the memory map. *)
Lemma boots_to_map : exists m' w' fb wd ht bs,
  UefiMain junk old (mkBooting (mkPaging p m) w) =
    leave_boot_services entry_ pml4 fb wd ht addr image initrd_ (len disk) bs (mkBooting (mkPaging q m') w') /\
  boot_tables m' addr (Z.to_nat (size_ / 4096)) pml4 pdp1 stack pdp2 ptStack pd1 pd2 ptKernel /\ take (length disk) bs = disk.
Proof.
  destruct (initrd_pages_ok (len disk) ltac:(lia)) as (Hn & Hn0 & _).
  destruct (coop_volume _ _ _ _ Hc w) as (fs & w1 & w2 & E1 & E2). destruct (coop_kernel _ _ _ _ Hc w2) as (w3 & E3).
  destruct (coop_close _ _ _ _ Hc (file l) w3) as (w4 & E4). destruct (coop_initrd _ _ _ _ Hc w4) as (w5 & E5).
  destruct (coop_info _ _ _ _ Hc w5) as (n & w6 & E6). destruct (coop_pool _ _ _ _ Hc n w6) as (fi & w7 & E7).
  destruct (coop_size _ _ _ _ Hc w7) as (w8 & E8). destruct (coop_gop _ _ _ _ Hc w8) as (gop & w9 & E9).
  destruct (MapHighHalf_ok q1 q m addr size_ pml4 pdp1 stack pdp2 ptStack pd1 pd2 ptKernel Hq ltac:(lia) ltac:(dlia)) as (m' & Rm & T & _).
  destruct (gop_mode gop w9) as [[fb wd] ht] eqn:Eg.
  destruct (file_read_ok initrdFile (len disk) ltac:(lia) ltac:(rewrite Hpos; lia)) as (f' & Rf & _). rewrite Hpos, Hdisk in Rf.
  assert (Hs : slice 0 (len disk) disk = disk) by (unfold slice; rewrite Nat2Z.id; apply take_ge; cbn; lia). rewrite Hs in Rf.
  exists m', w9, fb, wd, ht, (fill (junk initrd_ (4096 * initrd_pages (len disk))) disk).
  split; [|split; [done|unfold fill; apply take_app_length]]. unfold UefiMain.
  rewrite (bind_Ok _ _ _ _ _ (asserted_fw _ _ _ _ _ E1)), (bind_Ok _ _ _ _ _ (asserted_fw _ _ _ _ _ E2)).
  assert (El : asserted (kernelFile ← on_fw (OpenFile root "\XT\XTKERNEL.XTE"); load_kernel junk kernelFile) (mkBooting (mkPaging p m) w2) =
    Ok (addr, image, entry_, size_) (mkBooting (mkPaging (pages l) m) w4)).
  { apply asserted_Ok. rewrite (bind_Ok _ _ _ _ _ (on_fw_Ok _ _ _ _ _ E3)). unfold load_kernel. cbn [paging frames ram firmware]. rewrite Hload.
    by rewrite (bind_Ok _ _ _ _ _ (out_fw_Ok tt _ _ _ _ _ E4)). }
  rewrite (bind_Ok _ _ _ _ _ El), (bind_Ok _ _ _ _ _ (asserted_fw _ _ _ _ _ E5)), (bind_Ok _ _ _ _ _ (out_fw_Ok 0 _ _ _ _ _ E6)).
  rewrite (bind_Ok _ _ _ _ _ (asserted_fw _ _ _ _ _ E7)), (bind_Ok _ _ _ _ _ (out_fw_Ok old _ _ _ _ _ (out_or_Ok _ _ _ _ _ E8))).
  rewrite (bind_Ok _ _ _ initrd_ (mkBooting (mkPaging q1 m) w8)).
  2:{ apply asserted_Ok. unfold on_free, on_paging, zoom. cbn. by rewrite Hq1. }
  rewrite (bind_Ok _ _ _ (len disk, fill (junk initrd_ (4096 * initrd_pages (len disk))) disk) (mkBooting (mkPaging q1 m) w8)).
  2:{ unfold read_initrd. rewrite Rf. by rewrite (proj2 (Z.leb_le _ _) Hn). }
  rewrite (bind_Ok _ _ _ _ _ (asserted_fw _ _ _ _ _ E9)), (bind_Ok _ _ _ (fb, wd, ht) (mkBooting (mkPaging q1 m) w9)).
  2:{ apply on_fw_Ok. unfold gets. by rewrite Eg. }
  rewrite (bind_Ok _ _ _ pml4 (mkBooting (mkPaging q m') w9)); [done|]. unfold on_paging, zoom. cbn. by rewrite Rm.
Qed.

(** What the page tables say at the end. *)
Lemma handed_tables m' : boot_tables m' addr (Z.to_nat (size_ / 4096)) pml4 pdp1 stack pdp2 ptStack pd1 pd2 ptKernel ->
  0 <= addr -> addr mod 4096 = 0 -> addr + 2 ^ 21 <= 2 ^ 52 -> forall va, canonical va ->
  xtGetPhysicalAddress pml4 va (mkPaging q m') = match boot_translation addr (size_ / 4096) stack va with
                                                 | Some a => Ok a (mkPaging q m') | None => Err XT_NOT_FOUND (mkPaging q m') end.
Proof.
  intros T Ha Hm Hb va Hva. destruct (efi_allocs_ok _ _ _ _ Hq ltac:(repeat constructor; lia)) as (Fr & _ & _ & _).
  rewrite (boot_translate q m' addr (Z.to_nat (size_ / 4096)) pml4 pdp1 stack pdp2 ptStack pd1 pd2 ptKernel) by (done || dlia).
  by rewrite Z2Nat.id by dlia.
Qed.

(** C14: The kernel takes over, for an image of 4096 bytes to 2 MB in whole pages with its entry point inside, and a RAM disk that is not empty and ends below 2^39: with a firmware that has what the loader asks for, and a memory map that does not grow when the loader allocates its buffer, UefiMain ends in the jump. The program counter is the entry point of the image, and each address from [KERNEL_IMAGE_BASE] on translates to the byte of the image there; the image holds the headers and the sections of the kernel's file, each section where the file asks for it; the stack pointer is in the pages of the stack; the RAM disk is in memory byte for byte, and mapped where the information says, with its size; and the memory map that is handed over, with the sizes in the information, is the one whose key the firmware accepted when the boot services were left, not an earlier one. *)
Theorem kernel_takes_over p' p'' src hd secs :
  (forall a n, 0 <= n -> len (junk a n) = n) -> AllocatePages 1 p = Ok hd p' -> AllocatePages (size_ / 4096) p' = Ok addr p'' ->
  contents kernelFile = src -> position kernelFile = 0 -> 4096 <= len src -> kernel_headers (slice 0 4096 src) size_ entry_ secs ->
  (forall img, len img = size_ -> Forall (section_ok src img) secs) -> ForallOrdPairs sections_apart secs -> Forall (fun x => 4096 <= sec_va x) secs ->
  (forall n w a w', AllocatePool n w = Ok a w' -> len (map_bytes w') <= len (map_bytes w)) ->
  size_ mod 4096 = 0 -> 0 <= entry_ < size_ -> initrd_ + len disk <= 2 ^ 39 ->
  exists h m' w', UefiMain junk old (mkBooting (mkPaging p m) w) = Ok h (mkBooting (mkPaging q m') w') /\
    let translates va a := xtGetPhysicalAddress (cr3 h) va (mkPaging q m') = Ok a (mkPaging q m') in
    rip h = KERNEL_IMAGE_BASE + entry_ /\
    (forall o, 0 <= o < size_ -> translates (KERNEL_IMAGE_BASE + o) (image_at h + o)) /\
    lies 0 (slice 0 4096 src) (image_bytes h) /\ (forall x, x ∈ secs -> lies (sec_va x) (section_bytes src x) (image_bytes h)) /\
    translates (rsp h) (stack + 0x1fff8) /\
    initrdSize (bootInfo h) = len disk /\ take (length disk) (initrd_bytes h) = disk /\
    (forall o, 0 <= o < len disk -> translates (initrd (bootInfo h) + o) (initrd_at h + o)) /\
    exists w2, ExitBootServices (map_key w2) w2 = Ok tt w' /\ descs h = map_bytes w2 /\
      MemoryMapSize (bootInfo h) = len (map_bytes w2) /\ DescSize (bootInfo h) = desc_size w2.
Proof.
  intros Hj A1 A2 Hsrc Hp0 Hlen0 Hhd Hsec Hap Hva Hpool Hm He Hi. destruct boots_to_map as (m' & w1 & fb & wd & ht & bs & R & T & Hbs).
  destruct (load_kernel_ok junk p p' p'' kernelFile src _ hd addr size_ entry_ secs Hj A1 A2 Hsrc Hp0 Hlen0 eq_refl Hhd (proj1 Hsize) Hm Hsec) as (i2 & l2 & L1 & _ & L2 & L3 & _).
  rewrite Hload in L1. injection L1 as <- <-. specialize (L2 Hva). specialize (L3 Hap).
  destruct (load_kernel_addr _ _ _ _ _ _ _ _ Hload ltac:(lia)) as (Ha & Ham & Hab). pose proof (handed_tables m' T ltac:(lia) Ham Hab) as Ht.
  destruct (initrd_pages_ok (len disk) ltac:(lia)) as (_ & _ & Hn). destruct (allocate_ok _ _ _ _ (Hn ltac:(lia)) Hq1) as (Hi0 & _).
  destruct (coop_pool _ _ _ _ Hc (len (map_bytes w1) + sizeof_KernelBootInfo) w1) as (info & w2 & E2).
  pose proof (Hpool _ _ _ _ E2) as Hg. pose proof (get_map_ok (len (map_bytes w1)) w2 Hg) as E3.
  destruct (exit_ok w2) as (w3 & E4). destruct (system_table w2) as [[rt tb] nt] eqn:E5.
  rewrite R. unfold leave_boot_services. eexists _, m', w3. split.
  { rewrite (bind_Ok _ _ _ (len (map_bytes w1)) (mkBooting (mkPaging q m') w1)) by done.
    rewrite (bind_Ok _ _ _ _ _ (asserted_fw _ _ _ _ _ E2)), (bind_Ok _ _ _ _ _ (asserted_fw _ _ _ _ _ E3)).
    rewrite (bind_Ok _ _ _ (rt, tb, nt) (mkBooting (mkPaging q m') w2)) by (apply on_fw_Ok; unfold gets; by rewrite E5).
    rewrite (bind_Ok _ _ _ _ _ (asserted_fw _ _ _ _ _ E4)). reflexivity. }
  cbn [cr3 rip rsp image_bytes image_at bootInfo initrd_bytes initrd_at descs fill_boot_info initrdSize initrd MemoryMapSize DescSize].
  assert (EK : KERNEL_IMAGE_BASE = 2 ^ 64 - 2 ^ 31) by done. split_and!; [unfold kernel_entry; rewrite u64_small by lia; lia|..|by exists w2].
  - intros o Ho. destruct (kernel_entry_translates addr size_ stack o Ho Hm (proj2 Hsize)) as [Hcn Hb].
    unfold kernel_entry in Hcn, Hb. rewrite u64_small in Hcn, Hb by lia. rewrite Z.add_comm in Hcn, Hb. by rewrite Ht, Hb.
  - exact L2.
  - exact L3.
  - rewrite Ht, stack_top_mapped by (first [dlia | right; unfold StackTop; lia]). done.
  - done.
  - exact Hbs.
  - intros o Ho. assert (EH : HIGHER_HALF_MEM initrd_ = initrd_ + HIGH_HALF).
    { unfold HIGHER_HALF_MEM. rewrite Z.lor_comm. assert (HIGH_HALF = (2 ^ 17 - 1) * 2 ^ 47) as -> by done. rewrite lor_add_shift by lia. lia. }
    rewrite EH. assert (EHH : HIGH_HALF = 2 ^ 64 - 2 ^ 47) by done. rewrite Ht by (right; lia). unfold boot_translation. rewrite EHH. zcases; f_equal; lia.
Qed.

(** If allocating the buffer makes the map larger, as the UEFI specification warns it may, the buffer is too small and the loader stops for good. *)
Theorem map_growth_stops :
  (forall n w a w', AllocatePool n w = Ok a w' -> len (map_bytes w) < len (map_bytes w')) ->
  UefiMain junk old (mkBooting (mkPaging p m) w) = OutOfFuel.
Proof.
  intros Hpool. destruct boots_to_map as (m' & w1 & fb & wd & ht & bs & R & _). rewrite R. unfold leave_boot_services.
  destruct (coop_pool _ _ _ _ Hc (len (map_bytes w1) + sizeof_KernelBootInfo) w1) as (info & w2 & E2).
  destruct (get_map_small (len (map_bytes w1)) w2 (Hpool _ _ _ _ E2)) as (c & E3).
  rewrite (bind_Ok _ _ _ (len (map_bytes w1)) (mkBooting (mkPaging q m') w1)) by done.
  rewrite (bind_Ok _ _ _ _ _ (asserted_fw _ _ _ _ _ E2)). unfold mbind at 1, M_bind at 1. unfold asserted at 1, on_fw at 1, zoom. cbn. by rewrite E3.
Qed.

End Takeover.

End Main.

(** * A firmware with two files *)

Definition toy_disk : list Z := [120; 116; 46; 116; 97; 114].

Definition toy_open (name : string) : list Z * Z := if (name =? "\XT\XTKERNEL.XTE")%string then (demo_kernel, 0) else (toy_disk, 0).

(** The state is the memory map; [grow] is what an allocation adds to it. *)
#[export, program] Instance toy_firmware (grow : list Z) : Firmware (list Z) (list Z * Z) := {|
  LocateProtocol := fun n => mret n;
  OpenVolume := fun _ => mret 7;
  OpenFile := fun _ name => mret (toy_open name);
  CloseFile := fun _ => mret tt;
  InfoSize := fun _ => mret 96;
  FileSize := fun f => mret (len (fst f));
  AllocatePool := fun _ w => Ok 0x9000 (w ++ grow);
  gop_mode := fun _ _ => (0x80000000, 1024, 768);
  GetMemoryMap := fun n w => if len w <=? n then Ok (w, 1, 48) w else Err (2 ^ 63 + 5) w;
  ExitBootServices := fun key => if key =? 1 then mret tt else throw (2 ^ 63 + 2);
  system_table := fun _ => (0x7000, 0x7100, 9);
  map_bytes := fun w => w;
  map_key := fun _ => 1;
  desc_size := fun _ => 48
|}.
Next Obligation. intros _ n w H. cbn. by rewrite (proj2 (Z.leb_le _ _) H). Qed.
Next Obligation. intros _ n w H. cbn. rewrite (proj2 (Z.leb_gt _ _) H). by eexists. Qed.
Next Obligation. intros _ w. by eexists. Qed.

Lemma toy_cooperative grow : cooperative (U := toy_firmware grow) 7 (len toy_disk) (demo_kernel, 0) (toy_disk, 0).
Proof. split; intros; by repeat eexists. Qed.

Definition toy_junk (_ n : Z) : list Z := replicate (Z.to_nat n) 7.

Lemma toy_loaded : exists image f, EfiLoadKernel toy_junk (mkLoader 0x100000 (demo_kernel, 0)) = Ok (0x101000, image, 0x1000, 8192) (mkLoader 0x103000 f).
Proof. eexists _, _. vm_compute. reflexivity. Qed.

Lemma kernel_takes_over_witness : exists h m' w', UefiMain (U := toy_firmware []) toy_junk 0 (mkBooting (mkPaging 0x100000 ∅) [1; 2; 3]) =
    Ok h (mkBooting (mkPaging 0x12b000 m') w') /\
  rip h = KERNEL_IMAGE_BASE + 0x1000 /\
  xtGetPhysicalAddress (cr3 h) (rip h) (mkPaging 0x12b000 m') = Ok (image_at h + 0x1000) (mkPaging 0x12b000 m') /\
  lies 4096 [1; 2; 3; 4] (image_bytes h) /\ take 6 (initrd_bytes h) = toy_disk.
Proof.
  destruct toy_loaded as (image & f & El).
  destruct (kernel_takes_over (U := toy_firmware []) toy_junk 0 0x100000 ∅ [1; 2; 3] 7 toy_disk (demo_kernel, 0) (toy_disk, 0) 0x101000 image 0x1000 8192
    (mkLoader 0x103000 f) 0x103000 0x104000 0x12b000 0x104000 0x105000 0x106000 0x126000 0x127000 0x128000 0x129000 0x12a000)
    with (p' := 0x101000) (p'' := 0x103000) (src := demo_kernel) (hd := 0x100000) (secs := [mkSection 4096 4 4096 0])
    as (h & m' & w' & R & Hr & Ht & _ & Hs & _ & _ & Hd & _).
  - apply toy_cooperative.
  - done.
  - done.
  - exact El.
  - lia.
  - unfold toy_disk. cbn [length]. lia.
  - vm_compute. reflexivity.
  - vm_compute. reflexivity.
  - intros a n Hn. unfold toy_junk. rewrite length_replicate. lia.
  - by vm_compute.
  - by vm_compute.
  - done.
  - done.
  - by vm_compute.
  - exact demo_kernel_headers.
  - intros img Hi. apply list.Forall_singleton. unfold section_ok. cbn [sec_va sec_size sec_raw]. rewrite Hi. repeat split; by vm_compute.
  - apply FOP_cons; [constructor|constructor].
  - apply list.Forall_singleton. done.
  - intros n w a w' [= <- <-]. cbn. by rewrite app_nil_r.
  - done.
  - lia.
  - unfold toy_disk. cbn [length]. lia.
  - exists h, m', w'. split; [exact R|]. split; [exact Hr|]. split; [rewrite Hr; apply Ht; lia|].
    split; [|exact Hd]. apply (Hs (mkSection 4096 4 4096 0)). by apply list_elem_of_singleton.
Defined.

Lemma map_growth_stops_witness : UefiMain (U := toy_firmware [0]) toy_junk 0 (mkBooting (mkPaging 0x100000 ∅) [1; 2; 3]) = OutOfFuel.
Proof.
  destruct toy_loaded as (image & f & El).
  apply (map_growth_stops (U := toy_firmware [0]) toy_junk 0 0x100000 ∅ [1; 2; 3] 7 toy_disk (demo_kernel, 0) (toy_disk, 0) 0x101000 image 0x1000 8192
    (mkLoader 0x103000 f) 0x103000 0x104000 0x12b000 0x104000 0x105000 0x106000 0x126000 0x127000 0x128000 0x129000 0x12a000);
    [apply toy_cooperative|done|done|exact El|lia|unfold toy_disk; cbn [length]; lia|vm_compute; reflexivity|vm_compute; reflexivity|].
  intros n w a w' [= <- <-]. cbn. rewrite length_app. cbn. lia.
Defined.
