(* ===== verification/Acpi.v ===== *)
(** The tables of the firmware and what the kernel does with them:
    xtkernel/acpi.c, xtHPETInit of xtkernel/hpet.c and
    xtkernel/arch/x86_64/shutdown.c, with the structures of include/xt/acpi.h. *)
From Stdlib Require Import ZArith Lia.
From stdpp Require Import base tactics list numbers.
From S2P Require Import Prelude Bytes CString Time Ports Paging.

Open Scope Z_scope.

(** * Layout *)

(** The offsets of the members of a structure of C, from their sizes and
    alignments. *)
Fixpoint member_offsets (members : list (Z * Z)) (from : Z) : list Z :=
  match members with
  | [] => []
  | (size, align) :: members =>
    let o := (from + align - 1) / align * align in
    o :: member_offsets members (o + size)
  end.

Definition member (members : list (Z * Z)) (i : nat) : Z := nth i (member_offsets members 0) 0.

(** [DescriptionHeader], 36 bytes without padding. *)
Definition DescriptionHeader : list (Z * Z) := [(4, 1); (4, 1); (1, 1); (1, 1); (6, 1); (8, 1); (4, 1); (4, 1); (4, 1)].

Definition DESC_SIZE : Z := 36.

Definition DESC_Length : Z := member DescriptionHeader 1.

(** [XSDT] and [RSDP] are packed too. *)
Definition XSDT_Tables : Z := DESC_SIZE.

Definition RSDP_XsdtAddress : Z := member [(8, 1); (1, 1); (6, 1); (1, 1); (4, 1); (4, 1); (8, 1); (1, 1); (3, 1)] 6.

(** [GenericAddressStructure]: 12 bytes, packed. *)
Definition GAS : Z * Z := (12, 1).

Definition GAS_AddressSpace : Z := 0.

Definition GAS_Address : Z := 4.

(** [FADT], which is not packed. *)
Definition FADT : list (Z * Z) :=
  let u8 := (1, 1) in let u16 := (2, 2) in let u32 := (4, 4) in let u64 := (8, 8) in
  [(DESC_SIZE, 1); u32; u32; u8; u8; u16; u32; u8; u8; u8; u8; u32; u32; u32; u32; u32; u32; u32; u32;
   u8; u8; u8; u8; u8; u8; u8; u8; u16; u16; u16; u16; u8; u8; u8; u8; u8; u16; u8; u32;
   GAS; u8; (3, 1); u64; u64; GAS; GAS; GAS; GAS; GAS; GAS; GAS; GAS].

Definition FADT_PM1aControlBlock : Z := member FADT 13.

Definition FADT_PM1bControlBlock : Z := member FADT 14.

Definition FADT_ResetReg : Z := member FADT 39.

Definition FADT_ResetValue : Z := member FADT 40.

Definition FADT_X_PM1aControlBlock : Z := member FADT 46.

Definition FADT_X_PM1bControlBlock : Z := member FADT 47.

(** [HPET], packed; the four bit fields share a byte. *)
Definition HPET_address : Z := member [(36, 1); (1, 1); (1, 1); (2, 1); GAS; (1, 1); (2, 1); (1, 1)] 4.

(** [EFI_CONFIGURATION_TABLE] of the firmware: a GUID and a pointer. *)
Definition SIZE_CONFIGURATION_TABLE : Z := 24.

(** [HPET], [FACP] *)
Definition hpet_signature : list Z := [72; 80; 69; 84; 0].

Definition facp_signature : list Z := [70; 65; 67; 80; 0].

(** The globals; [halted] says that the processor has stopped for good. *)
Record Platform (D : Type) := mkPlatform {
  board : D;
  rootACPI : Z;
  hpet : Z;
  hpet_base : Z;
  period_fs : Z;
  fadt : Z;
  halted : bool
}.

Arguments mkPlatform {D} _ _ _ _ _ _ _.
Arguments board {D} _.
Arguments rootACPI {D} _.
Arguments hpet {D} _.
Arguments hpet_base {D} _.
Arguments period_fs {D} _.
Arguments fadt {D} _.
Arguments halted {D} _.

Section Acpi.
Context {D : Type} {B : Bus D}.

(** What the firmware left in physical memory: the bytes from an address on. *)
Variable firmware : Z -> option (list Z).

Notation PM := (M (Platform D)).

Definition on_board {X} (m : M D X) : PM X :=
  zoom board (fun d w => mkPlatform d (rootACPI w) (hpet w) (hpet_base w) (period_fs w) (fadt w) (halted w)) m.

Definition set_root (v : Z) (w : Platform D) : Platform D :=
  mkPlatform (board w) v (hpet w) (hpet_base w) (period_fs w) (fadt w) (halted w).

Definition set_hpet (v : Z) (w : Platform D) : Platform D :=
  mkPlatform (board w) (rootACPI w) v (hpet_base w) (period_fs w) (fadt w) (halted w).

Definition set_base (v : Z) (w : Platform D) : Platform D :=
  mkPlatform (board w) (rootACPI w) (hpet w) v (period_fs w) (fadt w) (halted w).

Definition set_period (v : Z) (w : Platform D) : Platform D :=
  mkPlatform (board w) (rootACPI w) (hpet w) (hpet_base w) v (fadt w) (halted w).

Definition set_fadt (v : Z) (w : Platform D) : Platform D :=
  mkPlatform (board w) (rootACPI w) (hpet w) (hpet_base w) (period_fs w) v (halted w).

(** [while (1) asm volatile("hlt");] *)
Definition halt_forever : PM unit :=
  modify (fun w => mkPlatform (board w) (rootACPI w) (hpet w) (hpet_base w) (period_fs w) (fadt w) true).

(** Reading through a pointer into the tables. *)
Definition table_bytes (p : Z) : PM (list Z) := fun w =>
  match firmware (phys p) with Some l => Ok l w | None => Fault end.

Definition table_rd (n : nat) (p : Z) : PM Z :=
  l ← table_bytes p;
  if (n <=? length l)%nat then mret (of_le (take n l)) else fault.

Definition reg_in (width a : Z) : PM Z := on_board (fun d => let '(v, d) := mmio_in width a d in Ok v d).

Definition reg_out (width a v : Z) : PM unit := on_board (modify (mmio_out width a v)).

(** * acpi.c *)

(** [for (i = 0; i < entries; ++i)]; [n] entries are left. *)
Fixpoint table_loop (n : nat) (xsdt i : Z) (signature : list Z) : PM Z :=
  match n with
  | O => throw XT_NOT_FOUND
  | S n =>
    a ← table_rd 8 (xsdt + XSDT_Tables + 8 * i);
    let descHeader := HIGHER_HALF_MEM a in
    if descHeader =? HIGHER_HALF_MEM 0 then table_loop n xsdt (i + 1) signature
    else
      name ← table_bytes descHeader;
      r ← attempt (xtStringCmp name signature 4);
      match r with
      | inl _ => mret descHeader
      | inr _ => table_loop n xsdt (i + 1) signature
      end
  end.

Definition xtFindACPITable (signature : list Z) : PM Z :=
  root ← gets rootACPI;
  if root =? NULL then throw XT_NOT_FOUND
  else
    x ← table_rd 8 (root + RSDP_XsdtAddress);
    let xsdt := HIGHER_HALF_MEM x in
    length ← table_rd 4 (xsdt + DESC_Length);
    if length <=? DESC_SIZE then throw XT_NOT_FOUND
    else table_loop (Z.to_nat ((length - DESC_SIZE) / 8)) xsdt 0 signature.

(** hpet.c: the counter is switched on and its period noted. *)
Definition xtHPETInit : PM unit :=
  h ← xtFindACPITable hpet_signature;
  modify (set_hpet h) ;;;
  space ← table_rd 1 (h + HPET_address + GAS_AddressSpace);
  address ← table_rd 8 (h + HPET_address + GAS_Address);
  if negb (space =? 0) || (address =? 0) then throw XT_INVALID_INITIALIZATION
  else
    let base := HIGHER_HALF_MEM address in
    modify (set_base base) ;;;
    caps ← reg_in 8 base;
    if caps =? 0xFFFFFFFFFFFFFFFF then throw XT_ACCESS_VIOLATION
    else
      cfg ← reg_in 4 (base + 0x10);
      (if Z.land cfg 1 =? 0 then c ← reg_in 4 (base + 0x10); reg_out 4 (base + 0x10) (Z.lor c 1) else mret tt) ;;;
      let period := Z.shiftr caps 32 in
      modify (set_period period) ;;;
      if period =? 0 then throw XT_INVALID_INITIALIZATION else mret tt.

(** [for (i = 0; i < CountTables; ++i)]; [guid] is ACPI_20_TABLE_GUID. *)
Fixpoint config_loop (n : nat) (table : Z) (guid : list Z) : PM unit :=
  match n with
  | O => throw XT_NOT_FOUND
  | S n =>
    vendor ← table_bytes table;
    r ← attempt (xtCompareMemory vendor guid 16);
    match r with
    | inl _ =>
      p ← table_rd 8 (table + 16);
      modify (set_root (HIGHER_HALF_MEM p)) ;;;
      xtHPETInit
    | inr _ => config_loop n (table + SIZE_CONFIGURATION_TABLE) guid
    end
  end.

Definition xtACPIInit (guid : list Z) (TablePtr CountTables : Z) : PM unit :=
  config_loop (Z.to_nat CountTables) TablePtr guid.

(** * shutdown.c *)

Definition xtArchACPIInit : PM unit :=
  f ← xtFindACPITable facp_signature;
  modify (set_fadt f).

(** The messages it prints are left out. *)
Definition write_to_gas (gas value : Z) : PM unit :=
  space ← table_rd 1 (gas + GAS_AddressSpace);
  address ← table_rd 8 (gas + GAS_Address);
  if space =? 0 then reg_out 2 (HIGHER_HALF_MEM address) (u16 value)
  else if (space =? 1) && (address <=? 0xFFFF) then on_board (xtOutW address value)
  else mret tt.

Definition SLP_EN : Z := Z.shiftl 1 13.

Definition xtPowerOff : PM unit :=
  f ← gets fadt;
  if f =? NULL then throw XT_NOT_IMPLEMENTED
  else
    a ← table_rd 8 (f + FADT_X_PM1aControlBlock + GAS_Address);
    (if negb (a =? 0) then write_to_gas (f + FADT_X_PM1aControlBlock) SLP_EN
     else
       p ← table_rd 4 (f + FADT_PM1aControlBlock);
       if negb (p =? 0) then on_board (xtOutW p SLP_EN) else mret tt) ;;;
    b ← table_rd 8 (f + FADT_X_PM1bControlBlock + GAS_Address);
    usable ← (if b =? 0 then mret false
              else space ← table_rd 1 (f + FADT_X_PM1bControlBlock + GAS_AddressSpace);
                   mret (negb ((space =? 1) && (b >? 0xFFFF))));
    (if (usable : bool) then write_to_gas (f + FADT_X_PM1bControlBlock) SLP_EN
     else
       p ← table_rd 4 (f + FADT_PM1bControlBlock);
       if negb (p =? 0) && (p <=? 0xFFFF) then on_board (xtOutW p SLP_EN) else mret tt) ;;;
    halt_forever.

Definition xtReboot : PM unit :=
  f ← gets fadt;
  if f =? NULL then fault
  else
    a ← table_rd 8 (f + FADT_ResetReg + GAS_Address);
    if negb (a =? 0) then
      v ← table_rd 1 (f + FADT_ResetValue);
      write_to_gas (f + FADT_ResetReg) v ;;;
      halt_forever
    else throw XT_NOT_IMPLEMENTED.

Definition XT_SHUTDOWN_POWER_OFF : Z := 0.

Definition XT_SHUTDOWN_REBOOT : Z := 1.

Definition xtShutdown (state : Z) : PM unit :=
  if state =? XT_SHUTDOWN_POWER_OFF then xtPowerOff
  else if state =? XT_SHUTDOWN_REBOOT then xtReboot
  else throw XT_NOT_IMPLEMENTED.

End Acpi.

(** The fields behind the odd [Century] of the FADT are four bytes further on
    than the table has them: 116 for the reset register, 172 and 184 for the
    control blocks. *)
Example fadt_offsets :
  [FADT_PM1aControlBlock; FADT_PM1bControlBlock; FADT_ResetReg; FADT_ResetValue; FADT_X_PM1aControlBlock; FADT_X_PM1bControlBlock; HPET_address] =
  [64; 68; 120; 132; 176; 188; 40].
Proof. reflexivity. Qed.

(** * Finding a table *)

Section Find.
Context {D : Type} {B : Bus D}.
Variable firmware : Z -> option (list Z).

Implicit Types w : Platform D.

(** The tables the firmware lists, in its order. Entries that are NULL are
    passed over. *)
Definition listed (sig : list Z) (a : Z) : Prop :=
  phys (HIGHER_HALF_MEM a) = a /\ exists l, firmware a = Some l /\ (4 <= length l)%nat /\ take 4 l = sig.

Definition first_table (sigs : list (Z * list Z)) (sig : list Z) : option Z :=
  fst <$> List.find (fun t => negb (fst t =? 0) && bool_decide (snd t = sig)) sigs.

(** An XSDT at [x] with [sigs], the addresses of the tables with their signatures. *)
Definition xsdt_ok (x : Z) (sigs : list (Z * list Z)) : Prop :=
  (exists l, firmware (phys (x + DESC_Length)) = Some l /\ (4 <= length l)%nat /\ of_le (take 4 l) = DESC_SIZE + 8 * len sigs) /\
  (forall i t, sigs !! i = Some t ->
     (exists l, firmware (phys (x + XSDT_Tables + 8 * Z.of_nat i)) = Some l /\ (8 <= length l)%nat /\ of_le (take 8 l) = fst t) /\
     (fst t <> 0 -> listed (snd t) (fst t))).

Lemma table_rd_ok n p l w : firmware (phys p) = Some l -> (n <= length l)%nat ->
  table_rd firmware n p w = Ok (of_le (take n l)) w.
Proof.
  intros E Hn. unfold table_rd, table_bytes. unfold mbind, M_bind. rewrite E.
  destruct (Nat.leb_spec n (length l)); [done|lia].
Qed.

Lemma high_null a : phys (HIGHER_HALF_MEM a) = a -> a <> 0 -> (HIGHER_HALF_MEM a =? HIGHER_HALF_MEM 0) = false.
Proof. intros H Hn. apply Z.eqb_neq. intros E. rewrite E in H. vm_compute in H. lia. Qed.

Lemma table_loop_ok x sig w : forall rest done_,
  xsdt_ok x (done_ ++ rest) -> length sig = 4%nat -> Forall (fun c => c <> 0) sig ->
  table_loop firmware (length rest) x (len done_) (sig ++ [0]) w =
  match first_table rest sig with
  | Some a => Ok (HIGHER_HALF_MEM a) w
  | None => Err XT_NOT_FOUND w
  end.
Proof.
  induction rest as [|t rest IH]; intros done_ Hx Hs Hz; [done|]. cbn [length table_loop].
  destruct Hx as [Hl Ht]. pose proof (Ht (length done_) t) as [(l & E & Hn & Hv) Hk]; [by rewrite list_lookup_middle|].
  erewrite bind_Ok by (by apply table_rd_ok). rewrite Hv.
  assert (table_loop firmware (length rest) x (len done_ + 1) (sig ++ [0]) w =
    match first_table rest sig with Some a => Ok (HIGHER_HALF_MEM a) w | None => Err XT_NOT_FOUND w end) as IH'.
  { rewrite <- (IH (done_ ++ [t])); [|by rewrite <- app_assoc|done..]. do 2 f_equal. rewrite length_app. cbn. lia. }
  unfold first_table. cbn [List.find]. destruct (fst t =? 0) eqn:E0; zbool.
  - rewrite E0, Z.eqb_refl. exact IH'.
  - destruct (Hk E0) as (Hp & l' & E' & H4 & Hsig). rewrite high_null by done. cbn [negb andb].
    erewrite bind_Ok by (unfold table_bytes; rewrite Hp, E'; reflexivity).
    unfold attempt. unfold mbind, M_bind. unfold xtStringCmp. change (4 =? 0) with false. cbv iota. change (Z.to_nat 4) with 4%nat.
    rewrite strcmp_prefix; rewrite ?length_app; try (cbn; lia).
    2: { rewrite <- Hs at 1. rewrite take_app_length. exact Hz. }
    replace (take 4 (sig ++ [0])) with sig by (rewrite <- Hs at 1; by rewrite take_app_length). rewrite Hsig.
    destruct (decide (snd t = sig)) as [->|N].
    + by rewrite bool_decide_true.
    + rewrite bool_decide_false by done. exact IH'.
Qed.

(** [xtFindACPITable] gives the first table of the XSDT whose four bytes of signature are the ones asked for, passing over NULL entries, and says that there is none when no table has it; it changes nothing. *)
Theorem find_acpi_table_first (w : Platform D) (root x : Z) (sig : list Z) (sigs : list (Z * list Z)) :
  rootACPI w = root -> root <> NULL ->
  (exists l, firmware (phys (root + RSDP_XsdtAddress)) = Some l /\ (8 <= length l)%nat /\ of_le (take 8 l) = x) ->
  xsdt_ok (HIGHER_HALF_MEM x) sigs -> length sig = 4%nat -> Forall (fun c => c <> 0) sig ->
  xtFindACPITable firmware (sig ++ [0]) w =
  match first_table sigs sig with
  | Some a => Ok (HIGHER_HALF_MEM a) w
  | None => Err XT_NOT_FOUND w
  end.
Proof.
  intros Hr Hn (l & E & Hl & Hv) Hx Hs Hz. unfold xtFindACPITable, gets. unfold mbind at 1, M_bind at 1. rewrite Hr.
  replace (root =? NULL) with false by (symmetry; by apply Z.eqb_neq).
  erewrite bind_Ok by (by apply table_rd_ok). rewrite Hv.
  pose proof Hx as [(l' & E' & Hl' & Hv') _]. erewrite bind_Ok by (by apply table_rd_ok). rewrite Hv'.
  destruct sigs as [|t sigs].
  { cbn [length]. by rewrite Z.add_0_r. }
  assert (0 < len (t :: sigs)) as Hpos by (cbn [length]; lia).
  replace (DESC_SIZE + 8 * len (t :: sigs) <=? DESC_SIZE) with false by (symmetry; apply Z.leb_gt; lia).
  replace (Z.to_nat ((DESC_SIZE + 8 * len (t :: sigs) - DESC_SIZE) / 8)) with (length (t :: sigs)).
  2: { replace (DESC_SIZE + 8 * len (t :: sigs) - DESC_SIZE) with (len (t :: sigs) * 8) by lia. rewrite Z.div_mul by lia. lia. }
  exact (table_loop_ok _ sig w (t :: sigs) [] Hx Hs Hz).
Qed.

End Find.

(** * A firmware with three entries, one of them NULL *)

Definition demo_pieces : list (Z * list Z) :=
  [(0x1018, le 8 0x2000);
   (0x2000, [88; 83; 68; 84] ++ le 4 60 ++ replicate 28 0 ++ le 8 0x3000 ++ le 8 0 ++ le 8 0x4000);
   (0x3000, [70; 65; 67; 80]); (0x4000, [72; 80; 69; 84])].

Definition demo_firmware (a : Z) : option (list Z) :=
  match List.find (fun p => (fst p <=? a) && (a <? fst p + len (snd p))) demo_pieces with
  | Some p => Some (drop (Z.to_nat (a - fst p)) (snd p))
  | None => None
  end.

Definition demo_platform : Platform Pics := mkPlatform (mkChip 0 0x20 4 1 0xFE, mkChip 0 0x28 2 1 0xFF) 0x1000 0 0 0 0 false.

Definition demo_tables_listed : list (Z * list Z) := [(0x3000, [70; 65; 67; 80]); (0, []); (0x4000, [72; 80; 69; 84])].

(** A piece of the demonstration tables is there and holds the value. *)
Ltac in_tables := eexists; split_and!; [vm_compute; reflexivity|apply Nat.leb_le; vm_compute; reflexivity|reflexivity].

Lemma demo_xsdt : xsdt_ok demo_firmware (HIGHER_HALF_MEM 0x2000) demo_tables_listed.
Proof.
  split; [in_tables|]. intros [|[|[|i]]] t Ht.
  - injection Ht as <-. split; [in_tables|]. intros _. split; [reflexivity|in_tables].
  - injection Ht as <-. split; [in_tables|]. done.
  - injection Ht as <-. split; [in_tables|]. intros _. split; [reflexivity|in_tables].
  - done.
Qed.

Lemma find_acpi_table_first_witness :
  xtFindACPITable demo_firmware ([72; 80; 69; 84] ++ [0]) demo_platform = Ok (HIGHER_HALF_MEM 0x4000) demo_platform.
Proof.
  apply (find_acpi_table_first demo_firmware demo_platform 0x1000 0x2000 [72; 80; 69; 84] demo_tables_listed); try reflexivity.
  - discriminate.
  - in_tables.
  - exact demo_xsdt.
  - repeat constructor; discriminate.
Defined.
