(* ===== verification/System.v ===== *)
(** The state of the whole kernel that processes live in: the threads and lists
    of Threads.v, the page tables of Paging.v, the handle tables of Handles.v,
    and the processes and virtual maps of include/xt/scheduler.h. *)
From Stdlib Require Import ZArith.
From stdpp Require Import base tactics list gmap fin_maps numbers.
From S2P Require Import Prelude Allocator Gpt Handles ListC Threads Radix Paging.

Open Scope Z_scope.

(** * Data *)

Record XTVirtualMap := mkVMap { virtualStart : Z; vsize : Z; attr : Z; physicalAddress : Z; voffset : Z; vfile : Z }.

Record XTProcess := mkProcess {
  pthreads : Z;
  pageTable : Z;
  parentProcess : Z;
  childProcess : Z;
  memoryMap : Z;
  proot : Z;
  pflags : Z;
  activeThreads : Z;
  pid : Z
}.

(** [words] are the 64-bit words of the stacks, by physical address; [seed] is
    the state of the random numbers. The tables and descriptors are those of
    all processes; the root of a process is its [proot]. *)
Record System (H P : Type) := mkSystem {
  kern : Kernel H;
  paging : Paging P;
  tabs : gmap Z (list Z);
  descriptors : gmap Z XTDescriptor;
  procs : gmap Z XTProcess;
  vmaps : gmap Z XTVirtualMap;
  words : gmap Z Z;
  processess : Z;
  lastProcessId : Z;
  seed : Z;
  kernelPageTable : Z
}.

Arguments mkSystem {H P} _ _ _ _ _ _ _ _ _ _ _.
Arguments kern {H P} _.
Arguments paging {H P} _.
Arguments tabs {H P} _.
Arguments descriptors {H P} _.
Arguments procs {H P} _.
Arguments vmaps {H P} _.
Arguments words {H P} _.
Arguments processess {H P} _.
Arguments lastProcessId {H P} _.
Arguments seed {H P} _.
Arguments kernelPageTable {H P} _.

Section System.
Context {H P : Type} {A : Allocator H} {B : PageAllocator P}.
Implicit Types (s : System H P).

Definition with_kern k s : System H P :=
  mkSystem k (paging s) (tabs s) (descriptors s) (procs s) (vmaps s) (words s) (processess s) (lastProcessId s) (seed s) (kernelPageTable s).

Definition with_paging p s : System H P :=
  mkSystem (kern s) p (tabs s) (descriptors s) (procs s) (vmaps s) (words s) (processess s) (lastProcessId s) (seed s) (kernelPageTable s).

Definition with_procs p s : System H P :=
  mkSystem (kern s) (paging s) (tabs s) (descriptors s) p (vmaps s) (words s) (processess s) (lastProcessId s) (seed s) (kernelPageTable s).

Definition with_vmaps v s : System H P :=
  mkSystem (kern s) (paging s) (tabs s) (descriptors s) (procs s) v (words s) (processess s) (lastProcessId s) (seed s) (kernelPageTable s).

Definition with_words w s : System H P :=
  mkSystem (kern s) (paging s) (tabs s) (descriptors s) (procs s) (vmaps s) w (processess s) (lastProcessId s) (seed s) (kernelPageTable s).

Definition with_list_of_processes v s : System H P :=
  mkSystem (kern s) (paging s) (tabs s) (descriptors s) (procs s) (vmaps s) (words s) v (lastProcessId s) (seed s) (kernelPageTable s).

Definition with_lastId v s : System H P :=
  mkSystem (kern s) (paging s) (tabs s) (descriptors s) (procs s) (vmaps s) (words s) (processess s) v (seed s) (kernelPageTable s).

Definition with_seed v s : System H P :=
  mkSystem (kern s) (paging s) (tabs s) (descriptors s) (procs s) (vmaps s) (words s) (processess s) (lastProcessId s) v (kernelPageTable s).

Definition on_kern {X} (m : M (Kernel H) X) : M (System H P) X := zoom kern with_kern m.

Definition on_paging {X} (m : M (Paging P) X) : M (System H P) X := zoom paging with_paging m.

Definition on_procs {X} (m : M (gmap Z XTProcess) X) : M (System H P) X := zoom procs with_procs m.

Definition on_vmaps {X} (m : M (gmap Z XTVirtualMap) X) : M (System H P) X := zoom vmaps with_vmaps m.

Definition on_words {X} (m : M (gmap Z Z) X) : M (System H P) X := zoom words with_words m.

Definition on_seed {X} (m : M Z X) : M (System H P) X := zoom seed with_seed m.

(** The lists of the kernel, with and without the heap below them. *)
Definition on_lheap {X} (m : M (ListHeap H) X) : M (System H P) X := on_kern (on_mem m).

Definition on_nodes {X} (m : M Lists X) : M (System H P) X := on_lheap (on_lists m).

Definition halloc (n : Z) : M (System H P) Z := on_lheap (ListC.on_heap (xtHeapAlloc n)).

Definition hfree (p : Z) : M (System H P) unit := on_lheap (ListC.on_heap (xtHeapFree p)).

(** The handle table of one process. *)
Definition handles_of (root : Z) (s : System H P) : HandleState H :=
  mkHState (ListC.heap (mem (kern s))) (tabs s) (descriptors s) root.

Definition with_handles (process : Z) (p : XTProcess) (h : HandleState H) (s : System H P) : System H P :=
  let k := kern s in
  mkSystem
    (mkKernel (mkListHeap (Handles.heap h) (lists (mem k))) (thr k) (threads k) (currentThreadIterator k) (threadCount k)
       (IdleThread k) (currentThread k) (interrupts k) (objs k))
    (paging s) (tables h) (descs h)
    (<[process := mkProcess (pthreads p) (pageTable p) (parentProcess p) (childProcess p) (memoryMap p)
                    (descriptorRoot h) (pflags p) (activeThreads p) (pid p)]> (procs s))
    (vmaps s) (words s) (processess s) (lastProcessId s) (seed s) (kernelPageTable s).

Definition on_handles {X} (process : Z) (m : M (HandleState H) X) : M (System H P) X :=
  p ← on_procs (load process);
  zoom (handles_of (proot p)) (with_handles process p) m.

(** * Lemmas *)

Lemma on_procs_Ok {X} s (m : M (gmap Z XTProcess) X) x t : m (procs s) = Ok x t -> on_procs m s = Ok x (with_procs t s).
Proof. intros E. unfold on_procs, zoom. by rewrite E. Qed.

Lemma with_procs_id s : with_procs (procs s) s = s.
Proof. by destruct s. Qed.

Lemma load_proc s p pr : procs s !! p = Some pr -> on_procs (load p) s = Ok pr s.
Proof. intros E. rewrite (on_procs_Ok s _ pr (procs s)) by (by apply load_Ok). by rewrite with_procs_id. Qed.

Lemma assign_proc s p pr f : procs s !! p = Some pr -> on_procs (assign p f) s = Ok tt (with_procs (<[p := f pr]> (procs s)) s).
Proof. intros E. apply on_procs_Ok. by apply assign_Ok. Qed.

Lemma with_vmaps_id s : with_vmaps (vmaps s) s = s.
Proof. by destruct s. Qed.

Lemma load_vmap s p v : vmaps s !! p = Some v -> on_vmaps (load p) s = Ok v s.
Proof. intros E. unfold on_vmaps, zoom. rewrite (load_Ok _ _ _ E). by rewrite with_vmaps_id. Qed.

(** The lists of the system. *)
Definition nodes s : Lists := lists (mem (kern s)).

Definition with_lheap (l : ListHeap H) s : System H P :=
  let k := kern s in
  with_kern (mkKernel l (thr k) (threads k) (currentThreadIterator k) (threadCount k) (IdleThread k) (currentThread k) (interrupts k) (objs k)) s.

Lemma on_lheap_Ok {X} s (m : M (ListHeap H) X) x l : m (mem (kern s)) = Ok x l -> on_lheap m s = Ok x (with_lheap l s).
Proof. intros E. unfold on_lheap, on_kern, on_mem, zoom. by rewrite E. Qed.

Lemma on_lheap_Err {X} s (m : M (ListHeap H) X) c l : m (mem (kern s)) = Err c l -> on_lheap m s = Err c (with_lheap l s).
Proof. intros E. unfold on_lheap, on_kern, on_mem, zoom. by rewrite E. Qed.

Lemma halloc_Ok s n p h : xtHeapAlloc n (ListC.heap (mem (kern s))) = Ok p h -> halloc n s = Ok p (with_lheap (mkListHeap h (nodes s)) s).
Proof. intros E. apply on_lheap_Ok. unfold ListC.on_heap, zoom. by rewrite E. Qed.

Lemma with_lheap_id s : with_lheap (mem (kern s)) s = s.
Proof. by destruct s as [[]]. Qed.

Lemma on_nodes_Ok {X} s (m : M Lists X) x l : m (nodes s) = Ok x l -> on_nodes m s = Ok x (with_lheap (mkListHeap (ListC.heap (mem (kern s))) l) s).
Proof. intros E. unfold on_nodes. apply on_lheap_Ok. unfold on_lists, zoom. change (lists (mem (kern s))) with (nodes s). by rewrite E. Qed.

Lemma nodes_read {X} s (m : M Lists X) x : m (nodes s) = Ok x (nodes s) -> on_nodes m s = Ok x s.
Proof. intros E. rewrite (on_nodes_Ok s m x _ E). f_equal. by destruct s as [[[]]]. Qed.

End System.

(** A step may be replaced by one that does the same in this state. *)
Lemma bind_eq {S X Y} (m m' : M S X) (k : X -> M S Y) (s : S) : m s = m' s -> (m ≫= k) s = (m' ≫= k) s.
Proof. intros E. cbn. unfold mbind, M_bind. by rewrite E. Qed.

Section Walk.
Context {H P : Type} {A : Allocator H} {B : PageAllocator P}.
Implicit Types (s : System H P).

(** Reading a node of a list. *)
Lemma node_data s a n : nodes s !! a = Some n -> a <> NULL -> out_or NULL (on_nodes (xtGetListData a)) s = Ok (data n) s.
Proof.
  intros E Ha. apply out_or_Ok. apply nodes_read. unfold xtGetListData. rewrite check_then by done.
  by rewrite (bind_Ok _ _ _ _ _ (load_Ok _ _ _ E)).
Qed.

Lemma node_next s a n d : nodes s !! a = Some n -> a <> NULL -> out_or d (on_nodes (xtGetNextList a)) s = Ok (next n) s.
Proof.
  intros E Ha. apply out_or_Ok. apply nodes_read. unfold xtGetNextList. rewrite check_then by done.
  by rewrite (bind_Ok _ _ _ _ _ (load_Ok _ _ _ E)).
Qed.

End Walk.
