(* ===== verification/Vm.v ===== *)
(** Virtual memory maps of a process: xtkernel/vm.c. *)
From Stdlib Require Import ZArith Lia.
From Stdlib Require Import Sorting.Sorted.
From stdpp Require Import base tactics list gmap fin_maps numbers.
From S2P Require Import Prelude Allocator ListC Threads Radix Paging System.

Open Scope Z_scope.

(** * Operations *)

Definition set_memoryMap (v : Z) (p : XTProcess) : XTProcess :=
  mkProcess (pthreads p) (pageTable p) (parentProcess p) (childProcess p) v (proot p) (pflags p) (activeThreads p) (pid p).

Section Vm.
Context {H P : Type} {A : Allocator H} {B : PageAllocator P}.
Implicit Types (s : System H P).

(** [junk] is what the fresh memory holds: [offset] and [file] are not set. *)
Definition xtCreateVirtualMapEntry (junk : XTVirtualMap) (start physicalStart size attributes : Z) : M (System H P) Z :=
  mapEntry ← halloc 48;
  on_vmaps (create mapEntry (mkVMap start size attributes physicalStart (voffset junk) (vfile junk))) ;;;
  mret mapEntry.

(** The new node goes in after [prev], or first when there is none. *)
Definition link_at (process newNode prev : Z) : M (System H P) unit :=
  if prev =? NULL then
    p ← on_procs (load process);
    out_or tt (on_nodes (xtSetNextList newNode (memoryMap p))) ;;;
    on_procs (assign process (set_memoryMap newNode))
  else out_or tt (on_nodes (xtInsertList prev newNode)).

(** [while (curr)]: has a place been found? *)
Fixpoint place_loop (fuel : nat) (process newNode start curr prev : Z) : M (System H P) bool :=
  if curr =? NULL then mret false
  else
    existing ← out_or NULL (on_nodes (xtGetListData curr));
    e ← on_vmaps (load existing);
    if virtualStart e >? start then link_at process newNode prev ;;; mret true
    else
      next ← out_or curr (on_nodes (xtGetNextList curr));
      match fuel with O => nofuel | S fuel => place_loop fuel process newNode start next curr end.

Definition walk_fuel : M (System H P) nat := gets (fun s => size (nodes s)).

Definition xtInsertVirtualMap (junk : XTVirtualMap) (process start physicalAddress size attributes : Z) : M (System H P) unit :=
  XT_CHECK_ARG_IS_NULL process ;;;
  mapEntry ← xtCreateVirtualMapEntry junk start physicalAddress size attributes;
  newNode ← on_lheap (xtCreateList mapEntry);
  p ← on_procs (load process);
  if memoryMap p =? NULL then on_procs (assign process (set_memoryMap newNode))
  else
    n ← walk_fuel;
    placed ← place_loop n process newNode start (memoryMap p) NULL;
    if (placed : bool) then mret tt
    else
      p ← on_procs (load process);
      out_or tt (on_nodes (xtAppendList (memoryMap p) newNode)).

(** [map->virtualStart <= ptr && map->virtualStart + map->size >= ptr] *)
Definition covers (v : XTVirtualMap) (ptr : Z) : bool :=
  (virtualStart v <=? ptr) && (u64 (virtualStart v + vsize v) >=? ptr).

(** The map and the node before it. *)
Fixpoint find_loop (fuel : nat) (ptr i prev : Z) : M (System H P) (Z * Z) :=
  if i =? NULL then throw XT_NOT_FOUND
  else
    map ← out_or NULL (on_nodes (xtGetListData i));
    v ← on_vmaps (load map);
    if covers v ptr then mret (map, prev)
    else
      next ← out_or i (on_nodes (xtGetNextList i));
      match fuel with O => nofuel | S fuel => find_loop fuel ptr next i end.

Definition xtFindVirtualMap (process ptr : Z) : M (System H P) (Z * Z) :=
  XT_CHECK_ARG_IS_NULL process ;;;
  p ← on_procs (load process);
  n ← walk_fuel;
  find_loop n ptr (memoryMap p) NULL.

(** * The specification: a list of maps in the order of their addresses *)

(** The maps of a process are [vs], at the nodes and addresses [l]. *)
Definition maps_of s (process : Z) (l : list (Z * Z)) (vs : list XTVirtualMap) : Prop :=
  process <> NULL /\ exists p, procs s !! process = Some p /\ is_list (nodes s) (memoryMap p) l /\
  Forall2 (fun x v => vmaps s !! x.2 = Some v) l vs.

Definition starts_before (v w : XTVirtualMap) : Prop := virtualStart v <= virtualStart w.

End Vm.

(** The new map goes behind those that start at the same address or before. *)
Fixpoint insert_map (e : XTVirtualMap) (vs : list XTVirtualMap) : list XTVirtualMap :=
  match vs with
  | [] => [e]
  | v :: vs => if virtualStart v >? virtualStart e then e :: v :: vs else v :: insert_map e vs
  end.

Lemma insert_map_perm e vs : insert_map e vs ≡ₚ e :: vs.
Proof.
  induction vs as [|v vs IH]; cbn [insert_map]; [done|]. destruct (_ >? _); [done|]. rewrite IH. apply Permutation_swap.
Qed.

Lemma insert_map_sorted e vs : StronglySorted starts_before vs -> StronglySorted starts_before (insert_map e vs).
Proof.
  unfold starts_before. induction 1 as [|v vs Hs IH Hv]; cbn [insert_map]; [repeat constructor|].
  destruct (_ >? _) eqn:E; zbool.
  - constructor; [by constructor|]. constructor; [lia|]. eapply list.Forall_impl; [exact Hv|]. cbn. lia.
  - constructor; [done|]. rewrite insert_map_perm. by constructor.
Qed.

(** The place of the new map. *)
Lemma insert_map_split e vs : exists v1 v2, vs = v1 ++ v2 /\ insert_map e vs = v1 ++ e :: v2 /\
  Forall (fun v => virtualStart v <= virtualStart e) v1 /\ (forall v, head v2 = Some v -> virtualStart e < virtualStart v).
Proof.
  induction vs as [|v vs (v1 & v2 & -> & E & H1 & H2)]; cbn [insert_map]; [by exists [], []|].
  destruct (_ >? _) eqn:C; zbool.
  - exists [], (v :: v1 ++ v2). split; [done|]. split; [done|]. split; [done|]. intros w [= <-]. lia.
  - exists (v :: v1), v2. rewrite E. split; [done|]. split; [done|]. split; [constructor; [lia|done]|done].
Qed.

(** * Lemmas *)

Fixpoint last_node (prev : Z) (l : list (Z * Z)) : Z :=
  match l with [] => prev | (a, _) :: l => last_node a l end.

Lemma last_node_snoc prev l a d : last_node prev (l ++ [(a, d)]) = a.
Proof. revert prev; induction l as [|[b x] l IH]; intros prev; cbn; [done|apply IH]. Qed.

Section Proofs.
Context {H P : Type} {A : Allocator H} {B : PageAllocator P}.
Implicit Types (s : System H P).

Notation held s := (Forall2 (fun x v => vmaps s !! x.2 = Some v)).

(** The walk stops before the first map that starts behind the new one. *)
Lemma place_map_ok s process q start : forall la va lb vb fuel curr prev,
  lseg (nodes s) curr (la ++ lb) NULL -> held s la va -> held s lb vb -> (length (la ++ lb) <= fuel)%nat ->
  Forall (fun v => virtualStart v <= start) va -> (forall v, head vb = Some v -> start < virtualStart v) ->
  place_loop fuel process q start curr prev s =
    (match lb with [] => mret false | _ => link_at process q (last_node prev la) ;;; mret true end) s.
Proof.
  induction la as [|[a d] la IH]; intros va lb vb fuel curr prev Hc Ha Hb Hf Hle Hlt.
  - destruct Hb as [|[b d] v lb vb Hv Hb]; [cbn in Hc; subst curr; by destruct fuel|].
    destruct Hc as (-> & Hbn & n & Hn & Hd & _).
    assert (E : forall fuel, place_loop fuel process q start b prev s = (link_at process q prev ;;; mret true) s).
    { intros []; cbn [place_loop]; rewrite (proj2 (Z.eqb_neq _ _) Hbn), (bind_Ok _ _ _ _ _ (node_data s b n Hn Hbn)); rewrite Hd;
        rewrite (bind_Ok _ _ _ _ _ (load_vmap s d v Hv)); specialize (Hlt v eq_refl);
        by rewrite (proj2 (Z.gtb_lt _ _)) by lia. }
    apply E.
  - apply Forall2_cons_inv_l in Ha as (v & va' & Hv & Ha & ->). apply list.Forall_cons in Hle as [Hv1 Hle].
    destruct fuel as [|fuel]; [cbn in Hf; lia|]. destruct Hc as (-> & Han & n & Hn & Hd & Hc).
    cbn [place_loop]. rewrite (proj2 (Z.eqb_neq _ _) Han), (bind_Ok _ _ _ _ _ (node_data s a n Hn Han)), Hd.
    rewrite (bind_Ok _ _ _ _ _ (load_vmap s d v Hv)). replace (virtualStart v >? start) with false by lia.
    rewrite (bind_Ok _ _ _ _ _ (node_next s a n _ Hn Han)). cbn in Hf. erewrite IH; [done|done|done|done|lia|done|done].
Qed.

(** What an operation on the lists leaves alone. *)
Lemma maps_of_with s process p l vs first m : procs s !! process = Some p -> process <> NULL -> held s l vs -> is_list m first l ->
  maps_of (with_procs (<[process := set_memoryMap first p]> (procs s)) (with_lheap (mkListHeap (ListC.heap (mem (kern s))) m) s)) process l vs.
Proof.
  intros Hp Hn Hv Hl. split; [done|]. exists (set_memoryMap first p). cbn. rewrite lookup_insert_eq. split; [done|]. by split.
Qed.

Lemma link_at_ok s process p q e la lb va vb v :
  process <> NULL -> procs s !! process = Some p -> is_list (nodes s) (memoryMap p) (la ++ lb) -> held s la va -> held s lb vb -> lb <> [] ->
  nodes s !! q = Some (mkList e NULL) -> q <> NULL -> q ∉ (la ++ lb).*1 -> vmaps s !! e = Some v ->
  exists s', link_at process q (last_node NULL la) s = Ok tt s' /\ maps_of s' process (la ++ (q, e) :: lb) (va ++ v :: vb) /\
    ListC.heap (mem (kern s')) = ListC.heap (mem (kern s)).
Proof.
  intros Hpn Hp Hl Ha Hb Hne Hq Hqn Hql He. unfold link_at.
  destruct la as [|x la _] using rev_ind.
  - apply Forall2_nil_inv_l in Ha as ->. cbn [last_node app] in *. rewrite Z.eqb_refl, (bind_Ok _ _ _ _ _ (load_proc s process p Hp)).
    destruct (insert_front _ _ q e lb Hl Hne Hq Hqn Hql) as (m & R & Hl').
    rewrite (bind_Ok _ _ _ _ _ (out_or_Ok _ _ _ _ _ (on_nodes_Ok s _ _ _ R))). eexists. split; [by eapply assign_proc|]. split; [|done].
    assert (held s ((q, e) :: lb) (v :: vb)) as Hv by by constructor. exact (maps_of_with s process p ((q, e) :: lb) (v :: vb) q m Hp Hpn Hv Hl').
  - destruct x as [a d]. rewrite last_node_snoc. rewrite <- app_assoc in *. cbn [app] in *.
    assert (a <> NULL) as Han.
    { intros ->. destruct Hl as [Hl _]. apply chain_addresses_nonnull in Hl. apply Hl. rewrite fmap_app. set_solver. }
    rewrite (proj2 (Z.eqb_neq _ _) Han). destruct (insert_middle _ _ q e a d la lb Hl Hq Hqn Hql) as (m & R & Hl').
    eexists. split; [by apply out_or_Ok, on_nodes_Ok|]. split; [|done]. split; [done|]. exists p. split; [done|]. split; [done|].
    change ((a, d) :: (q, e) :: lb) with ([(a, d)] ++ (q, e) :: lb). rewrite app_assoc. apply Forall2_app; [done|]. by constructor.
Qed.

Lemma memoryMap_null s first l vs : is_list (nodes s) first l -> held s l vs -> first = NULL -> l = [] /\ vs = [].
Proof.
  intros [Hc _] Hh ->. destruct l as [|[a d] l]; [by apply Forall2_nil_inv_l in Hh as ->|]. by destruct Hc as (<- & ? & _).
Qed.

(** The new map and its node. *)
Lemma created s junk start pa size attributes h1 h2 e q process l vs L :
  maps_of s process l vs -> heap_ok (ListC.heap (mem (kern s))) L -> (forall a, a ∈ l.*1 ++ l.*2 -> a ∈ L) ->
  xtHeapAlloc 48 (ListC.heap (mem (kern s))) = Ok e h1 -> xtHeapAlloc 16 h1 = Ok q h2 ->
  exists s', (forall X (k : Z -> Z -> M (System H P) X),
      (xtCreateVirtualMapEntry junk start pa size attributes ≫= fun m => on_lheap (xtCreateList m) ≫= k m) s = k e q s') /\
    maps_of s' process l vs /\ nodes s' !! q = Some (mkList e NULL) /\ q <> NULL /\ (q ∉ l.*1) /\
    vmaps s' !! e = Some (mkVMap start size attributes pa (voffset junk) (vfile junk)) /\
    ListC.heap (mem (kern s')) = h2 /\ heap_ok h2 ({[q]} ∪ ({[e]} ∪ L)).
Proof.
  intros (Hpn & p & Hp & [Hc Hnd] & Hv) Hok HL E1 E2.
  destruct (alloc_fresh _ _ _ _ _ Hok E1) as (Hen & HeL & Hok1). destruct (alloc_fresh _ _ _ _ _ Hok1 E2) as (Hqn & HqL & Hok2).
  set (s1 := with_lheap (mkListHeap h1 (nodes s)) s). set (v := mkVMap _ _ _ _ _ _).
  set (s2 := with_vmaps (<[e := v]> (vmaps s)) s1).
  assert (on_lheap (xtCreateList e) s2 = Ok q (with_lheap (mkListHeap h2 (<[q := mkList e NULL]> (nodes s))) s2)) as R.
  { apply on_lheap_Ok. unfold xtCreateList. rewrite (bind_Ok _ _ _ q (mkListHeap h2 (nodes s))); [done|].
    unfold ListC.on_heap, zoom. cbn. by rewrite E2. }
  eexists. split.
  { intros X k. unfold xtCreateVirtualMapEntry. rewrite !bind_bind, (bind_Ok _ _ _ _ _ (halloc_Ok s _ e _ E1)). rewrite bind_bind.
    rewrite (bind_Ok (on_vmaps (create e v)) _ s1 tt s2 eq_refl), bind_ret. by rewrite (bind_Ok _ _ _ _ _ R). }
  cbn.
  assert (q ∉ l.*1) as Hql by (intros ?; apply HqL; set_solver).
  split; [|split; [by rewrite lookup_insert_eq|split; [done|split; [done|split; [by rewrite lookup_insert_eq|done]]]]].
  split; [done|]. exists p. split; [done|]. split; [split; [by apply chain_insert|done]|].
  apply Forall2_same_length_lookup_2; [by eapply Forall2_length|]. intros i x w Hx Hw. cbn.
  pose proof (Forall2_lookup_lr _ _ _ _ _ _ Hv Hx Hw) as E. cbn in E. rewrite lookup_insert_ne; [exact E|]. intros Ee. apply HeL, HL, elem_of_app. right.
  rewrite Ee. apply list_elem_of_fmap. exists x. split; [done|]. by eapply list_elem_of_lookup_2.
Qed.

(** The fuel of the walks. *)
Lemma walk_fuel_enough s first l : is_list (nodes s) first l -> (length l <= size (nodes s))%nat.
Proof. intros [Hc Hn]. by eapply chain_length. Qed.

(** C24: A new map is entered at its place in the order of the addresses: the maps stay sorted, none is lost, and the node and the entry come from the heap. *)
Theorem insert_map_sorted_perm (junk : XTVirtualMap) s (process : Z) (l : list (Z * Z)) (vs : list XTVirtualMap) (start pa size_ attributes : Z) (L : gset Z) (e q : Z) (h1 h2 : H) :
  maps_of s process l vs -> StronglySorted starts_before vs ->
  heap_ok (ListC.heap (mem (kern s))) L -> (forall a, a ∈ l.*1 ++ l.*2 -> a ∈ L) ->
  xtHeapAlloc 48 (ListC.heap (mem (kern s))) = Ok e h1 -> xtHeapAlloc 16 h1 = Ok q h2 ->
  let v := mkVMap start size_ attributes pa (voffset junk) (vfile junk) in
  exists s' l', xtInsertVirtualMap junk process start pa size_ attributes s = Ok tt s' /\
    maps_of s' process l' (insert_map v vs) /\ StronglySorted starts_before (insert_map v vs) /\ insert_map v vs ≡ₚ v :: vs /\
    heap_ok (ListC.heap (mem (kern s'))) ({[q]} ∪ ({[e]} ∪ L)).
Proof.
  intros Hm Hs Hok HL E1 E2 v. pose proof (insert_map_sorted v vs Hs) as Hso. pose proof (insert_map_perm v vs) as Hpe.
  destruct (created s junk start pa size_ attributes h1 h2 e q process l vs L Hm Hok HL E1 E2)
    as (s1 & R & (Hpn & p & Hp & Hl & Hh) & Hq & Hqn & Hql & He & Eh & Hok2).
  unfold xtInsertVirtualMap. rewrite check_then by done. rewrite R, (bind_Ok _ _ _ _ _ (load_proc s1 process p Hp)).
  destruct (memoryMap p =? NULL) eqn:E; zbool.
  - destruct (memoryMap_null s1 _ _ _ Hl Hh E) as [-> ->]. cbn [insert_map].
    exists (with_procs (<[process := set_memoryMap q p]> (procs s1)) s1), [(q, e)].
    split; [by apply assign_proc|]. split; [|rewrite <- Eh in Hok2; by eauto].
    split; [done|]. exists (set_memoryMap q p). cbn. rewrite lookup_insert_eq. split; [done|]. split; [|by constructor].
    split; [|by apply NoDup_singleton]. cbn. split; [done|]. split; [done|]. by exists (mkList e NULL).
  - destruct (insert_map_split v vs) as (va & vb & -> & Ei & Hv1 & Hv2). rewrite Ei in *.
    apply Forall2_app_inv_r in Hh as (la & lb & Ha & Hb & ->).
    unfold walk_fuel, gets. rewrite (bind_Ok _ _ _ (size (nodes s1)) s1) by done. destruct Hl as [Hc Hnd].
    rewrite (bind_eq _ _ _ _ (place_map_ok s1 process q start la va lb vb (size (nodes s1)) (memoryMap p) NULL Hc Ha Hb
               (walk_fuel_enough s1 _ _ (conj Hc Hnd)) Hv1 Hv2)).
    destruct lb as [|x lb].
    + apply Forall2_nil_inv_l in Hb as ->. rewrite !app_nil_r in *.
      rewrite bind_ret, (bind_Ok _ _ _ _ _ (load_proc s1 process p Hp)).
      assert (la <> []) as Hne by (intros ->; by apply E).
      destruct (xtAppendList_spec (nodes s1) (memoryMap p) q la [(q, e)]) as (m & Rm & Hl' & _); [done| |done|done| |].
      { split; [|by apply NoDup_singleton]. cbn. split; [done|]. split; [done|]. by exists (mkList e NULL). }
      { rewrite fmap_app, list.NoDup_app. cbn. split; [done|]. split; [|by apply NoDup_singleton]. set_solver. }
      do 2 eexists. split; [by apply out_or_Ok, on_nodes_Ok|]. split; [|rewrite <- Eh in Hok2; by eauto].
      split; [done|]. exists p. split; [done|]. split; [exact Hl'|]. apply Forall2_app; [done|]. by constructor.
    + destruct (link_at_ok s1 process p q e la (x :: lb) va vb v) as (s' & Rl & Hm' & Eh'); try done.
      rewrite bind_bind, (bind_Ok _ _ _ _ _ Rl), bind_ret. do 2 eexists. split; [done|]. split; [done|].
      rewrite Eh', Eh. by eauto.
Qed.

(** The walk stops at the first map that covers the address. *)
Lemma find_loop_ok s ptr : forall l vs fuel curr prev,
  lseg (nodes s) curr l NULL -> held s l vs -> (length l <= fuel)%nat ->
  find_loop fuel ptr curr prev s =
    match List.find (fun x => covers (x.2) ptr) (zip (zip l (prev :: l.*1)) vs) with
    | Some (((_, m), before), _) => Ok (m, before) s
    | None => Err XT_NOT_FOUND s
    end.
Proof.
  induction l as [|[a d] l IH]; intros vs fuel curr prev Hc Hh Hf.
  - apply Forall2_nil_inv_l in Hh as ->. cbn in Hc. subst curr. by destruct fuel.
  - apply Forall2_cons_inv_l in Hh as (v & vs' & Hv & Hh & ->). cbn [snd] in Hv.
    destruct fuel as [|fuel]; [cbn in Hf; lia|]. destruct Hc as (-> & Han & n & Hn & Hd & Hc).
    cbn [find_loop]. rewrite (proj2 (Z.eqb_neq _ _) Han), (bind_Ok _ _ _ _ _ (node_data s a n Hn Han)), Hd.
    rewrite (bind_Ok _ _ _ _ _ (load_vmap s d v Hv)). cbn [fmap list_fmap fst zip zip_with List.find snd].
    destruct (covers v ptr); [done|]. rewrite (bind_Ok _ _ _ _ _ (node_next s a n _ Hn Han)). cbn in Hf. apply IH; [done|done|lia].
Qed.

Lemma find_ok s process l vs ptr : maps_of s process l vs ->
  xtFindVirtualMap process ptr s =
    match List.find (fun x => covers (x.2) ptr) (zip (zip l (NULL :: l.*1)) vs) with
    | Some (((_, m), before), _) => Ok (m, before) s
    | None => Err XT_NOT_FOUND s
    end.
Proof.
  intros (Hn & p & Hp & Hl & Hh). unfold xtFindVirtualMap. rewrite check_then by done.
  rewrite (bind_Ok _ _ _ _ _ (load_proc s process p Hp)). unfold walk_fuel, gets. rewrite (bind_Ok _ _ _ (size (nodes s)) s) by done.
  pose proof (walk_fuel_enough s _ _ Hl). destruct Hl as [Hc _]. by apply find_loop_ok.
Qed.

Lemma find_zip {X} (f : XTVirtualMap -> bool) : forall (xs : list X) (vs : list XTVirtualMap) i v, length xs = length vs ->
  vs !! i = Some v -> f v = true -> (forall j w, (j < i)%nat -> vs !! j = Some w -> f w = false) ->
  exists x, xs !! i = Some x /\ List.find (fun y => f (y.2)) (zip xs vs) = Some (x, v).
Proof.
  induction xs as [|x xs IH]; intros [|w vs] i v Hlen Hi Hf Hb; try done. cbn [zip zip_with List.find snd]. destruct i as [|i].
  - injection Hi as ->. rewrite Hf. by exists x.
  - rewrite (Hb 0%nat w) by (done || lia). apply (IH vs i v); [by injection Hlen|done|done|].
    intros j u Hj Hu. apply (Hb (S j) u); [lia|done].
Qed.

Lemma find_zip_none {X} (f : XTVirtualMap -> bool) : forall (xs : list X) (vs : list XTVirtualMap),
  (forall w, w ∈ vs -> f w = false) -> List.find (fun y => f (y.2)) (zip xs vs) = None.
Proof.
  induction xs as [|x xs IH]; intros [|w vs] Hb; try done. cbn [zip zip_with List.find snd].
  rewrite (Hb w) by set_solver. apply IH. intros u Hu. apply Hb. set_solver.
Qed.

End Proofs.

(** The maps do not overlap, and none wraps around. *)
Definition apart (v w : XTVirtualMap) : Prop := virtualStart v + vsize v <= virtualStart w.

Definition map_ok (v : XTVirtualMap) : Prop := 0 <= virtualStart v /\ 0 < vsize v /\ virtualStart v + vsize v < 2 ^ 64.

Definition inside (v : XTVirtualMap) (ptr : Z) : Prop := virtualStart v <= ptr < virtualStart v + vsize v.

#[export] Instance inside_dec v ptr : Decision (inside v ptr) := _.

Lemma covers_spec v ptr : map_ok v -> covers v ptr = true <-> inside v ptr \/ ptr = virtualStart v + vsize v.
Proof. unfold map_ok, covers, inside. intros Hv. rewrite u64_small by lia. rewrite andb_true_iff, Z.leb_le, Z.geb_le. lia. Qed.

Lemma covers_false v ptr : map_ok v -> ~ inside v ptr -> ptr <> virtualStart v + vsize v -> covers v ptr = false.
Proof. intros Hv Hi He. apply not_true_iff_false. rewrite covers_spec by done. tauto. Qed.

Lemma apart_lookup vs i j v w : StronglySorted apart vs -> (i < j)%nat -> vs !! i = Some v -> vs !! j = Some w -> apart v w.
Proof.
  intros Hs. revert i j. induction Hs as [|u vs Hs IH Hu]; intros i j Hij Hi Hj; [done|].
  destruct j as [|j]; [lia|]. destruct i as [|i].
  - injection Hi as ->. eapply list.Forall_forall; [exact Hu|]. by eapply list_elem_of_lookup_2.
  - apply (IH i j); [lia|done|done].
Qed.

Section Find.
Context {H P : Type} {A : Allocator H} {B : PageAllocator P}.
Implicit Types (s : System H P).

(** The first map an address lies in, when no map ends just there. *)
Lemma find_first s (process : Z) (l : list (Z * Z)) (vs : list XTVirtualMap) (ptr : Z) i v :
  maps_of s process l vs -> Forall map_ok vs -> (forall v, v ∈ vs -> ptr <> virtualStart v + vsize v) ->
  list_find (fun v => inside v ptr) vs = Some (i, v) ->
  exists a m, l !! i = Some (a, m) /\ vmaps s !! m = Some v /\
    xtFindVirtualMap process ptr s = Ok (m, nth i (NULL :: l.*1) NULL) s.
Proof.
  intros Hm Hok He E. rewrite (find_ok s process l vs ptr Hm). destruct Hm as (_ & p & _ & _ & Hh).
  rewrite list.Forall_forall in Hok. assert (length l = length vs) as Hlen by by eapply Forall2_length.
  apply list_find_Some in E as (Hi & Hin & Hb). pose proof (list_elem_of_lookup_2 _ _ _ Hi) as Hv.
  destruct (find_zip (fun v => covers v ptr) (zip l (NULL :: l.*1)) vs i v) as (x & Hx & ->).
  { rewrite length_zip_with_l; [done|]. cbn. rewrite length_fmap. lia. }
  { done. } { apply covers_spec; [by apply Hok|by left]. }
  { intros j w Hj Hw. pose proof (list_elem_of_lookup_2 _ _ _ Hw). apply covers_false; [by apply Hok|by eapply Hb|by apply He]. }
  apply lookup_zip_with_Some in Hx as ([a m] & z & -> & Hy & Hz).
  exists a, m. split; [done|]. split; [exact (Forall2_lookup_lr _ _ _ _ _ _ Hh Hy Hi)|]. by rewrite (nth_lookup_Some _ _ _ _ Hz).
Qed.

(** The first map an address lies in is found, with the node before it, when no other map ends just there; an address in no map and at the end of none is not found. *)
Theorem find_virtual_map s (process : Z) (l : list (Z * Z)) (vs : list XTVirtualMap) (ptr : Z) :
  maps_of s process l vs -> Forall map_ok vs ->
  (forall v, v ∈ vs -> ptr <> virtualStart v + vsize v) ->
  match list_find (fun v => inside v ptr) vs with
  | Some (i, v) => exists a m, l !! i = Some (a, m) /\ vmaps s !! m = Some v /\
      xtFindVirtualMap process ptr s = Ok (m, nth i (NULL :: l.*1) NULL) s
  | None => xtFindVirtualMap process ptr s = Err XT_NOT_FOUND s
  end.
Proof.
  intros Hm Hok He. destruct (list_find _ vs) as [[i v]|] eqn:E; [by apply find_first with vs|].
  rewrite (find_ok s process l vs ptr Hm). rewrite list.Forall_forall in Hok. apply list_find_None in E.
  rewrite (find_zip_none (fun v => covers v ptr)); [done|]. intros w Hw. apply covers_false; [by apply Hok| |by apply He].
  rewrite list.Forall_forall in E. by apply E.
Qed.

(** The end of a map counts as part of it: where one map ends and the next one begins, the first address of the second is taken for the first. *)
Theorem find_map_end_of_previous s (process : Z) (l : list (Z * Z)) (va vb : list XTVirtualMap) (v w : XTVirtualMap) :
  maps_of s process l (va ++ v :: w :: vb) -> Forall map_ok (va ++ v :: w :: vb) -> StronglySorted apart (va ++ v :: w :: vb) ->
  virtualStart w = virtualStart v + vsize v ->
  inside w (virtualStart w) /\ ~ inside v (virtualStart w) /\
  exists m before, vmaps s !! m = Some v /\ xtFindVirtualMap process (virtualStart w) s = Ok (m, before) s.
Proof.
  intros Hm Hok Hs Hw. assert (map_ok w) as Hokw by (rewrite list.Forall_forall in Hok; apply Hok; set_solver).
  split; [unfold inside, map_ok in *; lia|]. split; [unfold inside; lia|].
  rewrite (find_ok s process l _ _ Hm). destruct Hm as (_ & p & _ & _ & Hh).
  assert (length l = length (va ++ v :: w :: vb)) as Hlen by by eapply Forall2_length.
  assert ((va ++ v :: w :: vb) !! length va = Some v) as Hi by by apply list_lookup_middle.
  assert (forall u, u ∈ va ++ v :: w :: vb -> map_ok u) as Hall by by apply list.Forall_forall.
  destruct (find_zip (fun u => covers u (virtualStart w)) (zip l (NULL :: l.*1)) (va ++ v :: w :: vb) (length va) v) as (x & Hx & ->).
  { rewrite length_zip_with_l; [done|]. cbn. rewrite length_fmap. lia. }
  { done. } { apply covers_spec; [apply Hall; set_solver|by right]. }
  { intros j u Hj Hu. pose proof (apart_lookup _ _ _ _ _ Hs Hj Hu Hi) as Ha. apply list_elem_of_lookup_2, Hall in Hu.
    assert (map_ok v) as Hv by (apply Hall; set_solver). apply covers_false; [done|unfold apart, inside, map_ok in *; lia..]. }
  apply lookup_zip_with_Some in Hx as ([a m] & z & -> & Hy & Hz). exists m, z.
  split; [exact (Forall2_lookup_lr _ _ _ _ _ _ Hh Hy Hi)|done].
Qed.

End Find.

(** * A process with two maps *)

Definition demo_map (start size_ : Z) : XTVirtualMap := mkVMap start size_ 0x600 0 0 0.

Definition demo_process (first : Z) : XTProcess := mkProcess NULL NULL NULL NULL first NULL 0 1 0.

Definition demo_kernel (b : Bump) (m : Lists) : Kernel Bump := mkKernel (mkListHeap b m) ∅ NULL NULL 0 NULL NULL true (mkObjects ∅ ∅ ∅).

Definition demo_system (b : Bump) (m : Lists) (first : Z) (maps : gmap Z XTVirtualMap) : System Bump (list Z) :=
  mkSystem (demo_kernel b m) (mkPaging [] ∅) ∅ ∅ {[16 := demo_process first]} maps ∅ NULL 0 0 NULL.

Definition two_maps : System Bump (list Z) :=
  demo_system (mkBump 256 {[32; 48; 64; 112]}) {[32 := mkList 64 48; 48 := mkList 112 NULL]} 32
    {[64 := demo_map 0x1000 0x1000; 112 := demo_map 0x2000 0x3000]}.

Lemma two_maps_ok : maps_of two_maps 16 [(32, 64); (48, 112)] [demo_map 0x1000 0x1000; demo_map 0x2000 0x3000].
Proof.
  split; [done|]. exists (demo_process 32). split; [done|]. split; [|by repeat constructor]. split.
  - cbn. repeat (split; [done|]). eexists. split; [done|]. cbn. repeat (split; [done|]). eexists. split; [done|]. by repeat split.
  - cbn. apply list.NoDup_cons. split; [set_solver|apply NoDup_singleton].
Qed.

Lemma two_maps_apart : Forall map_ok [demo_map 0x1000 0x1000; demo_map 0x2000 0x3000] /\
  StronglySorted apart [demo_map 0x1000 0x1000; demo_map 0x2000 0x3000].
Proof. split; repeat constructor; cbn; unfold apart; cbn; lia. Qed.

Lemma insert_map_sorted_perm_witness : let v := mkVMap 0x1800 0x800 0x600 0 0 0 in
  exists s' l', xtInsertVirtualMap (demo_map 0 0) 16 0x1800 0 0x800 0x600 two_maps = Ok tt s' /\
    maps_of s' 16 l' [demo_map 0x1000 0x1000; v; demo_map 0x2000 0x3000] /\
    StronglySorted starts_before [demo_map 0x1000 0x1000; v; demo_map 0x2000 0x3000] /\
    [demo_map 0x1000 0x1000; v; demo_map 0x2000 0x3000] ≡ₚ v :: [demo_map 0x1000 0x1000; demo_map 0x2000 0x3000] /\
    heap_ok (ListC.heap (mem (kern s'))) ({[304]} ∪ ({[256]} ∪ {[32; 48; 64; 112]})).
Proof.
  apply (insert_map_sorted_perm (demo_map 0 0) two_maps 16 [(32, 64); (48, 112)] [demo_map 0x1000 0x1000; demo_map 0x2000 0x3000]
           0x1800 0 0x800 0x600 {[32; 48; 64; 112]} 256 304 (mkBump 304 ({[256]} ∪ {[32; 48; 64; 112]}))
           (mkBump 320 ({[304]} ∪ ({[256]} ∪ {[32; 48; 64; 112]})))).
  - exact two_maps_ok.
  - apply SSorted_cons; [by repeat constructor|]. apply list.Forall_singleton. unfold starts_before. cbn. lia.
  - split; [done|]. cbn. split; [lia|]. intros p Hp. repeat (apply elem_of_union in Hp as [Hp|Hp]); apply elem_of_singleton in Hp; lia.
  - cbn. set_solver.
  - done.
  - done.
Defined.

Lemma find_virtual_map_witness :
  exists a m, [(32, 64); (48, 112)] !! 1%nat = Some (a, m) /\ vmaps two_maps !! m = Some (demo_map 0x2000 0x3000) /\
    xtFindVirtualMap 16 0x2800 two_maps = Ok (m, 32) two_maps.
Proof.
  apply (find_virtual_map two_maps 16 [(32, 64); (48, 112)] [demo_map 0x1000 0x1000; demo_map 0x2000 0x3000] 0x2800).
  - exact two_maps_ok.
  - exact (proj1 two_maps_apart).
  - intros v Hv. repeat (apply elem_of_cons in Hv as [->|Hv]; [cbn; lia|]). by apply elem_of_nil in Hv.
Defined.

Lemma find_map_end_of_previous_witness :
  inside (demo_map 0x2000 0x3000) 0x2000 /\ ~ inside (demo_map 0x1000 0x1000) 0x2000 /\
  exists m before, vmaps two_maps !! m = Some (demo_map 0x1000 0x1000) /\ xtFindVirtualMap 16 0x2000 two_maps = Ok (m, before) two_maps.
Proof.
  apply (find_map_end_of_previous two_maps 16 [(32, 64); (48, 112)] [] [] (demo_map 0x1000 0x1000) (demo_map 0x2000 0x3000)).
  - exact two_maps_ok.
  - exact (proj1 two_maps_apart).
  - exact (proj2 two_maps_apart).
  - done.
Defined.
