(* ===== verification/Process.v ===== *)
(** Processes and the life of threads: xtkernel/process.c (but for the handle
    tables, which are Handles.v), xtSchedulerInit of xtkernel/scheduler.c and
    xtkernel/arch/x86_64/context.c. *)
From Stdlib Require Import ZArith Lia.
From stdpp Require Import base tactics list gmap fin_maps numbers.
From S2P Require Import Prelude Allocator Gpt Handles ListC Threads Sync Radix Paging System Vm.

Open Scope Z_scope.

(** * Fields *)

Definition upd_process (threads_ root flags_ active : Z -> Z) (p : XTProcess) : XTProcess :=
  mkProcess (threads_ (pthreads p)) (pageTable p) (parentProcess p) (childProcess p) (memoryMap p) (root (proot p))
    (flags_ (pflags p)) (active (activeThreads p)) (pid p).

Definition set_pthreads (v : Z) : XTProcess -> XTProcess := upd_process (fun _ => v) (fun x => x) (fun x => x) (fun x => x).

Definition set_proot (v : Z) : XTProcess -> XTProcess := upd_process (fun x => x) (fun _ => v) (fun x => x) (fun x => x).

Definition set_pflags (f : Z -> Z) : XTProcess -> XTProcess := upd_process (fun x => x) (fun x => x) f (fun x => x).

Definition set_active (f : Z -> Z) : XTProcess -> XTProcess := upd_process (fun x => x) (fun x => x) (fun x => x) f.

(** [USER_SIZE_MAX] *)
Definition USER_SIZE_MAX : Z := 2 ^ 47 - 4096.

(** Sizes of the objects on the heap. *)
Definition SIZE_PROCESS : Z := 72.

Definition SIZE_THREAD : Z := 72.

(** [XTContext]: the offsets of its 64-bit words and its size. *)
Definition CTX_rcx : Z := 24.

Definition CTX_rip : Z := 144.

Definition CTX_cs : Z := 152.

Definition CTX_rflags : Z := 160.

Definition CTX_rsp : Z := 168.

Definition CTX_ss : Z := 176.

Definition CTX_SIZE : Z := 184.

Definition KERNEL_STACK : Z := 0x4000.

(** The free block of [threads], [threadCount] and the like are statics of
    scheduler.c. *)
Section Statics.
Context {H : Type}.

Definition set_threads (v : Z) (k : Kernel H) : Kernel H :=
  mkKernel (mem k) (thr k) v (currentThreadIterator k) (threadCount k) (IdleThread k) (currentThread k) (interrupts k) (objs k).

Definition set_threadCount (v : Z) (k : Kernel H) : Kernel H :=
  mkKernel (mem k) (thr k) (threads k) (currentThreadIterator k) v (IdleThread k) (currentThread k) (interrupts k) (objs k).

Definition set_idle (v : Z) (k : Kernel H) : Kernel H :=
  mkKernel (mem k) (thr k) (threads k) (currentThreadIterator k) (threadCount k) v (currentThread k) (interrupts k) (objs k).

End Statics.

Section Process.
Context {H P : Type} {A : Allocator H} {B : PageAllocator P}.
Implicit Types (s : System H P).

Notation SM := (M (System H P)).
Notation Env := (list (Kernel H -> Kernel H)).

Definition tload (t : Z) : SM XTThread := on_kern (on_thr (load t)).

Definition tassign (t : Z) (f : XTThread -> XTThread) : SM unit := on_kern (on_thr (assign t f)).

Definition page_alloc (n : Z) : SM Z := on_paging (on_frames (xtAllocatePages NULL n)).

(** The result of [xtFreePages] is never used. *)
Definition page_free (a n : Z) : SM unit := out_or tt (on_paging (on_frames (xtFreePages a n))).

(** * Current thread and process *)

Definition xtGetCurrentThread : SM Z := gets (fun s => currentThread (kern s)).

Definition xtGetCurrentProcess : SM Z :=
  t ← xtGetCurrentThread;
  x ← tload t;
  mret (process x).

Definition xtSetCurrentThread (t : Z) : SM unit := on_kern (modify (set_current t)).

(** * Lists of threads *)

Fixpoint find_thread_loop (fuel : nat) (thread i : Z) : SM Z :=
  if i =? NULL then throw XT_NOT_FOUND
  else
    threadi ← out_or NULL (on_nodes (xtGetListData i));
    if threadi =? thread then mret i
    else
      i ← out_or i (on_nodes (xtGetNextList i));
      match fuel with O => nofuel | S fuel => find_thread_loop fuel thread i end.

Definition xtFindThreadList (thread : Z) : SM Z :=
  XT_CHECK_ARG_IS_NULL thread ;;;
  t ← tload thread;
  p ← on_procs (load (process t));
  n ← walk_fuel;
  find_thread_loop n thread (pthreads p).

(** [for (waitThreadList = thread->waitThreads; ...)] *)
Fixpoint wake_waiters (fuel : nat) (i : Z) : SM unit :=
  if i =? NULL then mret tt
  else
    waitThread ← out_or NULL (on_nodes (xtGetListData i));
    tassign waitThread (fun t => set_state (Z.lor (Z.land (state t) 0x80) XT_THREAD_RUN_STATE) t) ;;;
    i ← out_or i (on_nodes (xtGetNextList i));
    match fuel with O => nofuel | S fuel => wake_waiters fuel i end.

(** * Terminating *)

(** The thread is marked, with interrupts off, and its waiters made runnable. *)
Definition mark_terminated (thread code : Z) : SM unit :=
  on_kern (xtLockSpinlock (thread_lock thread)) ;;;
  tassign thread (set_result code) ;;;
  tassign thread (fun t => set_state (Z.lor (Z.land (state t) 0x80) XT_THREAD_TERMINATED_STATE) t) ;;;
  t ← tload thread;
  n ← walk_fuel;
  wake_waiters n (waitThreads t) ;;;
  on_kern (xtUnlockSpinlock (thread_lock thread)).

(** The threads of a process but the current one. [terminate] is
    [xtTerminateThread]; the next node is read before the call. *)
Fixpoint terminate_loop (terminate : Z -> Env -> SM Env) (fuel : nat) (i current : Z) (env : Env) : SM Env :=
  if i =? NULL then mret env
  else
    thread ← out_or NULL (on_nodes (xtGetListData i));
    next ← out_or NULL (on_nodes (xtGetNextList i));
    env ← (if (thread =? NULL) || (thread =? current) then mret env
           else t ← tload thread;
                if Z.land (state t) 0x7f =? XT_THREAD_TERMINATED_STATE then mret env else out_or env (terminate thread env));
    match fuel with O => nofuel | S fuel => terminate_loop terminate fuel next current env end.

(** The threads and their kernel stacks are freed. *)
Fixpoint free_threads (fuel : nat) (i : Z) : SM unit :=
  if i =? NULL then mret tt
  else
    thread ← out_or NULL (on_nodes (xtGetListData i));
    next ← out_or NULL (on_nodes (xtGetNextList i));
    (if thread =? NULL then mret tt
     else
       t ← tload thread;
       (if kernelStack t =? NULL then mret tt else page_free (kernelStack t - KERNEL_STACK) KERNEL_STACK) ;;;
       out_or tt (hfree thread) ;;;
       on_kern (on_thr (dispose thread))) ;;;
    out_or tt (on_lheap (xtDestroyList i)) ;;;
    match fuel with O => nofuel | S fuel => free_threads fuel next end.

(** [map->physicalAddress && (~(map->attr & XT_MEM_SHARED))] *)
Definition frees_map (v : XTVirtualMap) : bool :=
  negb (physicalAddress v =? NULL) && negb (Z.lxor (Z.land (attr v) XT_MEM_SHARED) (2 ^ 64 - 1) =? 0).

Fixpoint free_maps (fuel : nat) (i : Z) : SM unit :=
  if i =? NULL then mret tt
  else
    map ← out_or NULL (on_nodes (xtGetListData i));
    next ← out_or NULL (on_nodes (xtGetNextList i));
    (if map =? NULL then mret tt
     else
       v ← on_vmaps (load map);
       (if frees_map v then page_free (physicalAddress v) (vsize v) else mret tt) ;;;
       out_or tt (hfree map) ;;;
       on_vmaps (dispose map)) ;;;
    out_or tt (on_lheap (xtDestroyList i)) ;;;
    match fuel with O => nofuel | S fuel => free_maps fuel next end.

(** The loop goes on from the node it has just removed. *)
Fixpoint forget_process (fuel : nat) (process l : Z) : SM unit :=
  if l =? NULL then mret tt
  else
    ourProcess ← out_or NULL (on_nodes (xtGetListData l));
    (if ourProcess =? process
     then first ← gets processess; out_or tt (on_lheap (xtRemoveFromList first l))
     else mret tt) ;;;
    l ← out_or l (on_nodes (xtGetNextList l));
    match fuel with O => nofuel | S fuel => forget_process fuel process l end.

(** What [xtTerminateProcess] frees once no thread of the process is left. *)
Definition free_process (process_ : Z) : SM unit :=
  p ← on_procs (load process_);
  n ← walk_fuel;
  free_threads n (pthreads p) ;;;
  on_procs (assign process_ (set_pthreads NULL)) ;;;
  p ← on_procs (load process_);
  n ← walk_fuel;
  free_maps n (memoryMap p) ;;;
  on_procs (assign process_ (set_memoryMap NULL)) ;;;
  p ← on_procs (load process_);
  (if proot p =? NULL then mret tt
   else
     on_handles process_ (xtFreeDescriptorTree (HANDLE_LEVELS - 1) (proot p)) ;;;
     on_procs (assign process_ (set_proot NULL))) ;;;
  n ← walk_fuel;
  first ← gets processess;
  forget_process n process_ first ;;;
  p ← on_procs (load process_);
  (if pageTable p =? NULL then mret tt else page_free (pageTable p) 0x1000) ;;;
  last ← gets lastProcessId;
  (if pid p <? last then modify (with_lastId (pid p)) else mret tt) ;;;
  out_or tt (hfree process_) ;;;
  on_procs (dispose process_).

(** The two call each other; [fuel] bounds the depth. *)
Fixpoint xtTerminateThread (fuel : nat) (thread code : Z) (env : Env) {struct fuel} : SM Env :=
  XT_CHECK_ARG_IS_NULL thread ;;;
  current ← xtGetCurrentThread;
  mark_terminated thread code ;;;
  t ← tload thread;
  env ← (if process t =? NULL then mret env
         else
           on_procs (assign (process t) (set_active (fun n => u64 (n - 1)))) ;;;
           p ← on_procs (load (process t));
           if (activeThreads p =? 0) && (Z.land (pflags p) XT_PROCESS_TERMINATING =? 0)
           then match fuel with O => nofuel | S fuel => out_or env (xtTerminateProcess fuel (process t) code env) end
           else mret env);
  if thread =? current then on_kern (xtSwitchToThread env) else mret env
with xtTerminateProcess (fuel : nat) (process_ code : Z) (env : Env) {struct fuel} : SM Env :=
  XT_CHECK_ARG_IS_NULL process_ ;;;
  p ← on_procs (load process_);
  if negb (Z.land (pflags p) XT_PROCESS_TERMINATING =? 0) then mret env
  else
    on_procs (assign process_ (set_pflags (fun f => Z.lor f XT_PROCESS_TERMINATING))) ;;;
    current ← xtGetCurrentThread;
    n ← walk_fuel;
    match fuel with
    | O => nofuel
    | S fuel =>
      env ← terminate_loop (fun t e => xtTerminateThread fuel t code e) n (pthreads p) current env;
      env ← (if current =? NULL then mret env
             else
               c ← tload current;
               if process c =? process_ then out_or env (xtTerminateThread fuel current code env) else mret env);
      free_process process_ ;;;
      mret env
    end.

(** * Creating *)

(** [xtSetMem(vnewPageTable, 0, 0x1000)] and the copy of [0x808] bytes from
    [0x7f8] on: entries 255 to 511. *)
Definition kernel_half (table kernel : Z) : M (Paging P) unit := fun p =>
  match ram p !! phys (HIGHER_HALF_MEM table), ram p !! phys (HIGHER_HALF_MEM kernel) with
  | Some _, Some es => Ok tt (mkPaging (frames p) (<[phys (HIGHER_HALF_MEM table) := take 255 zero_table ++ drop 255 es]> (ram p)))
  | _, _ => Fault
  end.

(** [junk] is what the fresh memory holds: most fields of the process are not
    set. *)
Definition xtCreateProcess (junk : XTProcess) (parent flags_ : Z) : SM Z :=
  r ← halloc SIZE_PROCESS;
  newPageTable ← page_alloc 0x1000;
  kernel ← gets kernelPageTable;
  on_paging (kernel_half newPageTable kernel) ;;;
  id_ ← gets lastProcessId;
  on_procs (create r (mkProcess (pthreads junk) newPageTable parent (childProcess junk) (memoryMap junk) (proot junk)
                        (pflags junk) (activeThreads junk) id_)) ;;;
  modify (with_lastId (u64 (id_ + 1))) ;;;
  newProcessList ← out_or NULL (on_lheap (xtCreateList r));
  first ← gets processess;
  (if first =? NULL then modify (with_list_of_processes newProcessList)
   else out_or tt (on_nodes (xtAppendList first newProcessList))) ;;;
  mret r.

Definition stack_flags : Z := Z.lor (Z.lor (Z.lor 2 XT_MEM_READ) XT_MEM_WRITE) XT_MEM_USER.

(** The top of the stack in the process and through the kernel's window. *)
Definition xtAllocateUserStack (junk : XTVirtualMap) (process_ stackSize : Z) : SM (Z * Z) :=
  stack_raw ← page_alloc 0x1000;
  let hmm_stack_raw := HIGHER_HALF_MEM stack_raw in
  r ← on_seed xtGetRandomU64;
  let virtualStack := u64 (Z.shiftl (Z.land r (2 ^ 34 - 1)) 12) in
  xtInsertVirtualMap junk process_ virtualStack NULL stackSize stack_flags ;;;
  p ← on_procs (load process_);
  on_paging (xtSetPages (pageTable p) (u64 (virtualStack + u64 (stackSize - 0x1000))) stack_raw 0x1000 stack_flags) ;;;
  mret (u64 (virtualStack + stackSize), u64 (hmm_stack_raw + 0x1000)).

Definition set_word (a v : Z) : SM unit := on_words (create (phys a) v).

(** [user_exit] is the address of the assembly routine [xtUserExit]. *)
Definition xtSetContext (user_exit kernelStack_ function arg physStackTop stackTop flags_ : Z) : SM Z :=
  kernel ← gets kernelPageTable;
  userExitPtr ← out_or 0 (on_paging (xtGetPhysicalAddress kernel user_exit));
  set_word physStackTop (USER_SIZE_MAX + Z.land userExitPtr 0xfff) ;;;
  let ctx := u64 (kernelStack_ + KERNEL_STACK - CTX_SIZE) in
  set_word (ctx + CTX_rip) function ;;;
  set_word (ctx + CTX_rflags) 0x202 ;;;
  set_word (ctx + CTX_rcx) arg ;;;
  (if negb (Z.land flags_ XT_THREAD_USER =? 0) then set_word (ctx + CTX_cs) 0x2b ;;; set_word (ctx + CTX_ss) 0x23
   else set_word (ctx + CTX_cs) 0x08 ;;; set_word (ctx + CTX_ss) 0x10) ;;;
  set_word (ctx + CTX_rsp) stackTop ;;;
  mret ctx.

(** [for (XTList* i = threads; ...)]: the last thread that is terminated. *)
Fixpoint reuse_loop (fuel : nat) (i found : Z) : SM Z :=
  if i =? NULL then mret found
  else
    thread ← out_or NULL (on_nodes (xtGetListData i));
    t ← tload thread;
    let found := if state t =? XT_THREAD_TERMINATED_STATE then thread else found in
    i ← out_or i (on_nodes (xtGetNextList i));
    match fuel with O => nofuel | S fuel => reuse_loop fuel i found end.

(** A thread object: the first one of all becomes the current thread, else a
    terminated one is taken again, else a new one is appended. *)
Definition take_thread (junk : XTThread) : SM Z :=
  first ← gets (fun s => threads (kern s));
  r ← (if first =? NULL then
         r ← halloc SIZE_THREAD;
         on_kern (on_thr (create r junk)) ;;;
         node ← on_lheap (xtCreateList r);
         on_kern (modify (set_threads node)) ;;;
         xtSetCurrentThread r ;;;
         on_kern (modify (set_iterator node)) ;;;
         tassign r (fun t => mkThread (context t) (result t) 0 (state t) (privilage t) (ticks t) (process t) (kernelStack t) (waitThreads t) (lock t)) ;;;
         mret r
       else n ← walk_fuel; reuse_loop n first NULL);
  if r =? NULL then
    r ← halloc SIZE_THREAD;
    on_kern (on_thr (create r junk)) ;;;
    newList ← on_lheap (xtCreateList r);
    first ← gets (fun s => threads (kern s));
    out_or tt (on_nodes (xtAppendList first newList)) ;;;
    c ← gets (fun s => threadCount (kern s));
    on_kern (modify (set_threadCount (u64 (c + 1)))) ;;;
    tassign r (fun t => mkThread (context t) (result t) (u32 (u64 (c + 1))) (state t) (privilage t) (ticks t) (process t) (kernelStack t) (waitThreads t) (lock t)) ;;;
    mret r
  else mret r.

Definition xtCreateThread (junk : XTThread) (junk_map : XTVirtualMap) (user_exit process_ ThreadFunc stackSize arg state_ : Z) : SM Z :=
  let stackSize := if stackSize =? 0 then 0x100000 else stackSize in
  XT_CHECK_ARG_IS_NULL ThreadFunc ;;;
  kernelStack_ ← page_alloc KERNEL_STACK;
  let kernelStack_ := HIGHER_HALF_MEM kernelStack_ in
  '(stack_top, physStackTop) ←
    (if negb (Z.land state_ XT_THREAD_USER =? 0) then xtAllocateUserStack junk_map process_ stackSize
     else mret (kernelStack_ + KERNEL_STACK, kernelStack_ + KERNEL_STACK));
  ctx ← xtSetContext user_exit kernelStack_ ThreadFunc arg (u64 (physStackTop - 40)) (u64 (stack_top - 40)) state_;
  r ← take_thread junk;
  tassign r (fun t => mkThread ctx 0 (id t) state_ 20 20 process_ (kernelStack_ + KERNEL_STACK) NULL (lock t)) ;;;
  on_kern (xtInitSpinlock (thread_lock r)) ;;;
  threadList ← on_lheap (xtCreateList r);
  p ← on_procs (load process_);
  (if pthreads p =? NULL then on_procs (assign process_ (set_pthreads threadList))
   else out_or tt (on_nodes (xtAppendList (pthreads p) threadList))) ;;;
  mret r.

(** [kernelProcess] and [idle] are the addresses of the static process and of
    [xtIdleThreadFunction]. *)
Definition xtSchedulerInit (junk : XTThread) (junk_map : XTVirtualMap) (user_exit kernelProcess idle : Z) : SM unit :=
  table ← gets kernelPageTable;
  on_procs (assign kernelProcess (fun p => mkProcess (pthreads p) table (parentProcess p) (childProcess p) (memoryMap p) (proot p)
                                             (pflags p) (activeThreads p) (pid p))) ;;;
  t ← xtCreateThread junk junk_map user_exit kernelProcess idle 0 NULL XT_THREAD_RUN_STATE;
  on_kern (modify (set_idle t)).

(** * Waiting *)

(** The waiter's node: or the code when the thread has terminated already. A failure
    of [xtCreateList] leaves the function with the spinlock held. *)
Definition wait_enqueue (thread current : Z) : SM (Z + Z) :=
  on_kern (xtLockSpinlock (thread_lock thread)) ;;;
  t ← tload thread;
  if Z.land (state t) 0x7f =? XT_THREAD_TERMINATED_STATE then
    on_kern (xtUnlockSpinlock (thread_lock thread)) ;;;
    mret (inr (result t))
  else
    currentList ← on_lheap (xtCreateList current);
    (if waitThreads t =? NULL then tassign thread (set_waitThreads currentList)
     else out_or tt (on_nodes (xtAppendList (waitThreads t) currentList))) ;;;
    on_kern (xtLockSpinlock (thread_lock current)) ;;;
    on_kern (xtUnlockSpinlock (thread_lock thread)) ;;;
    on_kern (xtUnlockSpinlock (thread_lock current)) ;;;
    mret (inl currentList).

Definition xtWaitForThread (thread : Z) (env : Env) : SM Z :=
  XT_CHECK_ARG_IS_NULL thread ;;;
  current ← xtGetCurrentThread;
  w ← wait_enqueue thread current;
  match w with
  | inr code => mret code
  | inl currentList =>
    out_or env (on_kern (xtSleepThread current UINT64_MAX env)) ;;;
    t ← tload thread;
    out_or tt (on_lheap (xtRemoveFromList (waitThreads t) currentList)) ;;;
    out_or tt (on_lheap (xtDestroyList currentList)) ;;;
    mret (result t)
  end.

End Process.
