(* ===== verification/ProcessProof.v ===== *)
(** Processes: the address space of a new one, and what terminating a thread and
    waiting for it do. *)
From Stdlib Require Import ZArith Lia.
From stdpp Require Import base tactics list gmap fin_maps numbers.
From S2P Require Import Prelude Allocator Gpt Handles ListC Threads Sync Radix Paging System Vm Process.

Open Scope Z_scope.

(** * The address space of a new process *)

Section Space.
Context {H P : Type} {A : Allocator H} {B : PageAllocator P}.
Implicit Types (s : System H P) (p : Paging P).









End Space.

(** * Terminating a thread and waiting for it *)

Definition set_run (t : XTThread) : XTThread := set_state (Z.lor (Z.land (state t) 0x80) XT_THREAD_RUN_STATE) t.

Definition terminated (code : Z) (t : XTThread) : XTThread :=
  set_state (Z.lor (Z.land (state t) 0x80) XT_THREAD_TERMINATED_STATE) (set_result code t).

Lemma terminated_state code t : Z.land (state (terminated code t)) 0x7f = XT_THREAD_TERMINATED_STATE.
Proof. cbn [terminated state set_state set_result]. rewrite Z.land_lor_distr_l, <- Z.land_assoc. change (Z.land 0x80 0x7f) with 0. by rewrite Z.land_0_r. Qed.

Lemma set_run_runs t : is_run (set_run t) = true.
Proof.
  unfold is_run, set_run. cbn [state set_state]. rewrite Z.land_lor_distr_l, <- Z.land_assoc. change (Z.land 0x80 0xf) with 0. by rewrite Z.land_0_r.
Qed.

Lemma alter_all_agree {V} (g : V -> V) ts : forall (m m' : gmap Z V) u, m !! u = m' !! u -> alter_all g ts m !! u = alter_all g ts m' !! u.
Proof.
  induction ts as [|t ts IH]; intros m m' u E; [done|]. rewrite !alter_all_cons. apply IH.
  destruct (decide (u = t)) as [->|]; [by rewrite !lookup_alter_eq, E|by rewrite !lookup_alter_ne].
Qed.

Section Terminate.
Context {H P : Type} {A : Allocator H} {B : PageAllocator P}.
Implicit Types (s : System H P).

Definition threads_of s : gmap Z XTThread := thr (kern s).

(** The system with other threads and another interrupt flag. *)
Definition with_threads m (b : bool) s : System H P := with_kern (set_interrupts b (with_thr (kern s) m)) s.

Lemma tload_ok s t x : threads_of s !! t = Some x -> tload t s = Ok x s.
Proof. intros E. unfold tload, on_kern, zoom. rewrite (load_thr (kern s) t x E). f_equal. by destruct s. Qed.

Lemma tassign_ok s t x f : threads_of s !! t = Some x ->
  tassign t f s = Ok tt (with_threads (<[t := f x]> (threads_of s)) (interrupts (kern s)) s).
Proof. intros E. unfold tassign, on_kern, zoom. rewrite (assign_thr (kern s) t x f E). done. Qed.

Lemma tlock_ok s t x : threads_of s !! t = Some x -> lock x = false ->
  on_kern (xtLockSpinlock (thread_lock t)) s = Ok tt (with_threads (<[t := set_lock true x]> (threads_of s)) false s).
Proof. intros E Hl. unfold on_kern, zoom. by rewrite (lock_thread (kern s) t x E Hl). Qed.

Lemma tunlock_ok s t x : threads_of s !! t = Some x ->
  on_kern (xtUnlockSpinlock (thread_lock t)) s = Ok tt (with_threads (<[t := set_lock false x]> (threads_of s)) true s).
Proof. intros E. unfold on_kern, zoom. by rewrite (unlock_thread (kern s) t x E). Qed.

Lemma with_threads_twice m1 m2 b1 b2 s : with_threads m2 b2 (with_threads m1 b1 s) = with_threads m2 b2 s.
Proof. done. Qed.

Lemma wake_waiters_ok b : forall w fuel i m s, lseg (nodes s) i w NULL -> (length w <= fuel)%nat ->
  (forall t, t ∈ w.*2 -> is_Some (m !! t)) ->
  wake_waiters fuel i (with_threads m b s) = Ok tt (with_threads (alter_all set_run w.*2 m) b s).
Proof.
  induction w as [|[a t] w IH]; intros fuel i m s Hc Hf Ht.
  - cbn in Hc. subst i. by destruct fuel.
  - destruct Hc as (-> & Han & n & Hn & Hd & Hc). destruct fuel as [|fuel]; [cbn in Hf; lia|]. cbn [wake_waiters].
    rewrite (proj2 (Z.eqb_neq _ _) Han), (bind_Ok _ _ _ _ _ (node_data (with_threads m b s) a n Hn Han)), Hd.
    destruct (Ht t) as [x Hx]; [set_solver|].
    rewrite (bind_Ok _ _ _ _ _ (tassign_ok (with_threads m b s) t x _ Hx)).
    rewrite with_threads_twice. change (interrupts (kern (with_threads m b s))) with b.
    change (threads_of (with_threads m b s)) with m. match goal with |- context [with_threads (<[t := ?v]> m)] => change (<[t := v]> m) with (<[t := set_run x]> m) end; rewrite (insert_alter m t x set_run Hx).
    rewrite (bind_Ok _ _ _ _ _ (node_next (with_threads _ b s) a n _ Hn Han)). cbn [fmap list_fmap snd]. rewrite alter_all_cons.
    apply IH; [done|cbn in Hf; lia|]. intros u Hu.
    destruct (decide (u = t)) as [->|Hne]; [rewrite lookup_alter_eq, Hx; by eexists|rewrite lookup_alter_ne by done]. apply Ht. set_solver.
Qed.

(** The threads after [mark_terminated]. *)
Definition after_termination (thread code : Z) (w : list (Z * Z)) (m : gmap Z XTThread) : gmap Z XTThread :=
  alter_all set_run w.*2 (alter (terminated code) thread m).

Lemma mark_terminated_ok s thread code x w : threads_of s !! thread = Some x -> lock x = false ->
  is_list (nodes s) (waitThreads x) w -> (forall t, t ∈ w.*2 -> t <> thread /\ is_Some (threads_of s !! t)) ->
  mark_terminated thread code s = Ok tt (with_threads (after_termination thread code w (threads_of s)) true s).
Proof.
  intros Hx Hl [Hc Hnd] Hw. unfold mark_terminated. rewrite (bind_Ok _ _ _ _ _ (tlock_ok s thread x Hx Hl)).
  set (m := threads_of s) in *. set (s1 := with_threads _ false s).
  assert (threads_of s1 !! thread = Some (set_lock true x)) as H1 by (cbn; by rewrite lookup_insert_eq).
  rewrite (bind_Ok _ _ _ _ _ (tassign_ok s1 thread _ _ H1)). set (s2 := with_threads _ _ s1).
  assert (threads_of s2 !! thread = Some (set_result code (set_lock true x))) as H2 by (cbn; by rewrite lookup_insert_eq).
  rewrite (bind_Ok _ _ _ _ _ (tassign_ok s2 thread _ _ H2)). set (s3 := with_threads _ _ s2).
  set (y := terminated code (set_lock true x)).
  assert (threads_of s3 !! thread = Some y) as H3 by (cbn; by rewrite lookup_insert_eq).
  rewrite (bind_Ok _ _ _ _ _ (tload_ok s3 thread _ H3)). unfold walk_fuel, gets. rewrite (bind_Ok _ _ s3 (size (nodes s3)) s3) by done.
  assert (s3 = with_threads (<[thread := y]> m) false s) as E3.
  { unfold s3, s2, s1. rewrite !with_threads_twice. f_equal. cbn. by rewrite !insert_insert_eq. }
  assert (forall t, t ∈ w.*2 -> is_Some ((<[thread := y]> m) !! t)) as Hsome.
  { intros t Ht. destruct (Hw t Ht) as [Hne Hs]. by rewrite lookup_insert_ne. }
  rewrite E3. erewrite bind_Ok; [|apply (wake_waiters_ok false w); [exact Hc|by eapply chain_length|done]].
  set (m' := alter_all set_run w.*2 (<[thread := y]> m)).
  assert (m' !! thread = Some y) as Hm' by (unfold m'; rewrite alter_all_other, lookup_insert_eq; [done|]; intros Ht; by apply Hw in Ht as [? _]).
  rewrite (tunlock_ok (with_threads m' false s) thread y Hm'). rewrite with_threads_twice. f_equal. f_equal.
  change (threads_of (with_threads m' false s)) with m'. unfold after_termination, m'.
  rewrite <- (insert_alter m thread x _ Hx). apply map_eq. intros u. destruct (decide (u = thread)) as [->|Hu].
  - rewrite lookup_insert_eq, alter_all_other, lookup_insert_eq by (intros Ht; by apply Hw in Ht as [? _]). f_equal.
    unfold y, terminated, set_lock, set_state, set_result. cbn. by rewrite Hl.
  - rewrite lookup_insert_ne by done. apply alter_all_agree. by rewrite !lookup_insert_ne.
Qed.

(** Waiting for a thread that has terminated gives its code at once. *)
Lemma wait_terminated s thread code x env : thread <> NULL -> threads_of s !! thread = Some x -> lock x = false ->
  interrupts (kern s) = true -> Z.land (state x) 0x7f = XT_THREAD_TERMINATED_STATE -> result x = code ->
  xtWaitForThread thread env s = Ok code s.
Proof.
  intros Hn Hx Hl Hi Hst <-. unfold xtWaitForThread, xtGetCurrentThread, gets. rewrite check_then by done.
  rewrite (bind_Ok _ _ s (currentThread (kern s)) s) by done. unfold wait_enqueue. rewrite bind_bind.
  rewrite (bind_Ok _ _ _ _ _ (tlock_ok s thread x Hx Hl)). set (s1 := with_threads _ false s).
  assert (threads_of s1 !! thread = Some (set_lock true x)) as H1 by (cbn; by rewrite lookup_insert_eq).
  rewrite bind_bind, (bind_Ok _ _ _ _ _ (tload_ok s1 thread _ H1)). change (state (set_lock true x)) with (state x). rewrite Hst, Z.eqb_refl.
  rewrite bind_bind, (bind_Ok _ _ _ _ _ (tunlock_ok s1 thread _ H1)). rewrite bind_ret. cbn. f_equal. unfold s1. rewrite with_threads_twice.
  unfold with_threads, with_kern, set_interrupts, with_thr. destruct s as [[] ? ? ? ? ? ? ? ? ? ?]. cbn in *. subst. f_equal. f_equal.
  rewrite insert_insert_eq. apply insert_id. rewrite Hx. f_equal. destruct x. cbn in *. by subst.
Qed.

(** The thread has no process, or its end is not the end of the process: the counter does not come to 0, or the process is being terminated already. *)
Definition process_stays (m : gmap Z XTProcess) (p : Z) : Prop :=
  p = NULL \/ exists pp, m !! p = Some pp /\ (u64 (activeThreads pp - 1) <> 0 \/ Z.land (pflags pp) XT_PROCESS_TERMINATING <> 0).

Definition counted_out (p : Z) (m : gmap Z XTProcess) : gmap Z XTProcess :=
  if decide (p = NULL) then m else alter (set_active (fun n => u64 (n - 1))) p m.

(** Terminating a thread that is not the last of its process. *)
Lemma terminate_ok s thread code x w fuel env : thread <> NULL -> threads_of s !! thread = Some x -> lock x = false ->
  is_list (nodes s) (waitThreads x) w -> (forall t, t ∈ w.*2 -> t <> thread /\ is_Some (threads_of s !! t)) ->
  process_stays (procs s) (process x) ->
  let m := after_termination thread code w (threads_of s) in
  let s' := with_procs (counted_out (process x) (procs s)) (with_threads m true s) in
  m !! thread = Some (terminated code x) /\
  xtTerminateThread fuel thread code env s = (if thread =? currentThread (kern s) then on_kern (xtSwitchToThread env) s' else Ok env s').
Proof.
  intros Hn Hx Hl Hw Hws Hp m s'.
  assert (m !! thread = Some (terminated code x)) as Hm.
  { unfold m, after_termination. rewrite alter_all_other by (intros Ht; by apply Hws in Ht as [? _]). by rewrite lookup_alter_eq, Hx. }
  split; [done|]. set (s1 := with_threads m true s) in *.
  destruct fuel as [|fuel]; cbn [xtTerminateThread]; (rewrite check_then by done); unfold xtGetCurrentThread, gets;
    (rewrite (bind_Ok _ _ s (currentThread (kern s)) s) by done);
    (rewrite (bind_Ok _ _ _ _ _ (mark_terminated_ok s thread code x w Hx Hl Hw Hws)));
    fold m; fold s1; (rewrite (bind_Ok _ _ _ _ _ (tload_ok s1 thread _ Hm))); change (process (terminated code x)) with (process x);
    (rewrite (bind_Ok _ _ _ env s'); [by destruct (thread =? _)|]);
    (destruct Hp as [Hp|(pp & Hp & Ha)]; unfold s', counted_out; [by rewrite Hp; destruct s|]);
    (destruct (decide (process x = NULL)) as [->|Hpn]; [by destruct s|]);
    (rewrite (proj2 (Z.eqb_neq _ _) Hpn), (bind_Ok _ _ _ _ _ (assign_proc s1 (process x) pp _ Hp)));
    change (procs s1) with (procs s); (rewrite (insert_alter _ _ _ _ Hp)); set (s2 := with_procs _ s1);
    (rewrite (bind_Ok _ _ _ (set_active (fun n => u64 (n - 1)) pp) s2) by (apply load_proc; cbn; by rewrite lookup_alter_eq, Hp));
    change (activeThreads (set_active _ pp)) with (u64 (activeThreads pp - 1)); change (pflags (set_active _ pp)) with (pflags pp);
    destruct Ha as [Ha|Ha]; rewrite (proj2 (Z.eqb_neq _ _) Ha); by rewrite ?andb_false_r.
Qed.

(** C28: A thread that is terminated, and is not the one whose end ends its process (the counter of the process is not 1, or the process is being terminated), wakes every thread that waits for it, leaves the others alone, and is counted out of its process, if it has one, modulo 2^64; the processor is given up if the thread is the current one, otherwise the call returns. Whoever waits for it later gets its code at once, as long as no new thread has been put into its object (xtCreateThread takes the object of a terminated thread). *)
Theorem terminate_then_wait s (thread code : Z) (x : XTThread) (w : list (Z * Z)) (fuel : nat) (env : list (Kernel H -> Kernel H)) :
  thread <> NULL -> threads_of s !! thread = Some x -> lock x = false -> is_list (nodes s) (waitThreads x) w -> NoDup w.*2 ->
  (forall t, t ∈ w.*2 -> t <> thread /\ is_Some (threads_of s !! t)) -> process_stays (procs s) (process x) ->
  exists s', xtTerminateThread fuel thread code env s = (if thread =? currentThread (kern s) then on_kern (xtSwitchToThread env) s' else Ok env s') /\
    (forall t, t ∈ w.*2 -> exists y, threads_of s' !! t = Some y /\ is_run y = true) /\
    (forall t, t <> thread -> t ∉ w.*2 -> threads_of s' !! t = threads_of s !! t) /\
    (forall p pp, procs s !! p = Some pp -> exists pp', procs s' !! p = Some pp' /\
       activeThreads pp' = if decide (p = process x /\ p <> NULL) then (activeThreads pp - 1) mod 2 ^ 64 else activeThreads pp) /\
    exists y, threads_of s' !! thread = Some y /\ result y = code /\
      forall s2 env', threads_of s2 !! thread = Some y -> interrupts (kern s2) = true -> xtWaitForThread thread env' s2 = Ok code s2.
Proof.
  intros Hn Hx Hl Hw Hnd Hws Hp. destruct (terminate_ok s thread code x w fuel env Hn Hx Hl Hw Hws Hp) as [Hm R].
  set (m := after_termination thread code w (threads_of s)) in *. rewrite R. set (s2 := with_procs _ _).
  exists s2. split; [done|split; [|split; [|split]]].
  - intros t Ht. destruct (Hws t Ht) as [Hne [y Hy]]. exists (set_run y). split; [|apply set_run_runs].
    change (threads_of s2) with m. unfold m, after_termination. rewrite alter_all_in by done. by rewrite lookup_alter_ne, Hy by done.
  - intros t Hne Ht. change (threads_of s2) with m. unfold m, after_termination. rewrite alter_all_other by done. by rewrite lookup_alter_ne by done.
  - intros p pp Hpp. change (procs s2) with (counted_out (process x) (procs s)). unfold counted_out.
    destruct (decide (process x = NULL)) as [->|Hpn]; [exists pp; split; [done|]; by rewrite decide_False by tauto|].
    destruct (decide (p = process x)) as [->|Hne].
    + exists (set_active (fun n => u64 (n - 1)) pp). split; [by rewrite lookup_alter_eq, Hpp|]. by rewrite decide_True by done.
    + exists pp. split; [by rewrite lookup_alter_ne|]. by rewrite decide_False by tauto.
  - exists (terminated code x). split; [exact Hm|]. split; [done|]. intros s3 env' H3 Hi.
    by apply (wait_terminated s3 thread code (terminated code x)); [..|apply terminated_state|].
Qed.

(** A thread that waits for itself takes its own spinlock twice and never returns. *)
Theorem wait_for_itself_never_returns s (x : XTThread) (q : Z) (h' : H) (env : list (Kernel H -> Kernel H)) :
  let thread := currentThread (kern s) in
  thread <> NULL -> threads_of s !! thread = Some x -> lock x = false -> Z.land (state x) 0x7f <> XT_THREAD_TERMINATED_STATE ->
  waitThreads x = NULL -> xtHeapAlloc 16 (ListC.heap (mem (kern s))) = Ok q h' ->
  xtWaitForThread thread env s = OutOfFuel.
Proof.
  intros thread Hn Hx Hl Hst Hw E. unfold xtWaitForThread, xtGetCurrentThread, gets. rewrite check_then by done.
  rewrite (bind_Ok _ _ s thread s) by done. unfold wait_enqueue. rewrite bind_bind.
  rewrite (bind_Ok _ _ _ _ _ (tlock_ok s thread x Hx Hl)). set (s1 := with_threads _ false s).
  assert (threads_of s1 !! thread = Some (set_lock true x)) as H1 by (cbn; by rewrite lookup_insert_eq).
  rewrite bind_bind, (bind_Ok _ _ _ _ _ (tload_ok s1 thread _ H1)). change (state (set_lock true x)) with (state x).
  rewrite (proj2 (Z.eqb_neq _ _) Hst). rewrite bind_bind.
  assert (on_lheap (xtCreateList thread) s1 = Ok q (with_lheap (mkListHeap h' (<[q := mkList thread NULL]> (nodes s1))) s1)) as R.
  { apply on_lheap_Ok. unfold xtCreateList. rewrite (bind_Ok _ _ _ q (mkListHeap h' (nodes s1))); [done|].
    unfold ListC.on_heap, zoom. cbn. by rewrite E. }
  rewrite (bind_Ok _ _ _ _ _ R). set (s2 := with_lheap _ s1). change (waitThreads (set_lock true x)) with (waitThreads x). rewrite Hw, Z.eqb_refl.
  assert (threads_of s2 !! thread = Some (set_lock true x)) as H2 by exact H1.
  rewrite bind_bind, (bind_Ok _ _ _ _ _ (tassign_ok s2 thread _ _ H2)). set (s3 := with_threads _ _ s2).
  rewrite bind_bind. unfold mbind at 1, M_bind.
  assert (on_kern (xtLockSpinlock (thread_lock thread)) s3 = OutOfFuel) as ->; [|done].
  unfold on_kern, zoom, xtLockSpinlock, acquire, thread_lock. cbn [test write].
  assert (thr (set_interrupts false (kern s3)) !! thread = Some (set_waitThreads q (set_lock true x))) as H3 by (cbn; by rewrite lookup_insert_eq).
  rewrite (bind_Ok _ _ _ tt (set_interrupts false (kern s3))) by done.
  rewrite (bind_Ok _ _ _ true (set_interrupts false (kern s3))).
  2: { unfold on_thr, zoom. rewrite (bind_Ok _ _ _ _ _ (load_Ok _ _ _ H3)). cbn. done. }
  by rewrite (bind_Ok _ _ _ _ _ (assign_thr _ thread _ _ H3)).
Qed.

End Terminate.

(** * Nobody counts the threads of a process *)

Section Count.
Context {H P : Type} {A : Allocator H} {B : PageAllocator P} (process_ : Z).

Definition count_of (s : System H P) : option Z := activeThreads <$> procs s !! process_.

(** An operation that, however it ends, leaves the count alone. *)
Definition steady {X} (m : M (System H P) X) : Prop := forall s,
  match m s with Ok _ s' | Err _ s' => count_of s' = count_of s | Fault | OutOfFuel => True end.

Lemma steady_bind {X Y} (m : M (System H P) X) (k : X -> M (System H P) Y) : steady m -> (forall x, steady (k x)) -> steady (m ≫= k).
Proof.
  intros Hm Hk s. unfold mbind, M_bind. specialize (Hm s). destruct (m s) as [x s1| | |]; try done.
  specialize (Hk x s1). destruct (k x s1); congruence.
Qed.

Lemma steady_out {X} (d : X) (m : M (System H P) X) : steady m -> steady (out_or d m).
Proof. intros Hm s. unfold out_or. specialize (Hm s). by destruct (m s). Qed.

Lemma steady_ret {X} (x : X) : steady (mret x).
Proof. done. Qed.

Lemma steady_throw {X} c : steady (throw (A := X) c).
Proof. done. Qed.

Lemma steady_nofuel {X} : steady (nofuel (A := X)).
Proof. done. Qed.

Lemma steady_gets {X} (f : System H P -> X) : steady (gets f).
Proof. done. Qed.

Lemma steady_check p : steady (XT_CHECK_ARG_IS_NULL p).
Proof. intros s. unfold XT_CHECK_ARG_IS_NULL. by destruct (_ =? _). Qed.

Lemma steady_zoom {T X} (g : System H P -> T) (u : T -> System H P -> System H P) (m : M T X) :
  (forall t s, procs (u t s) = procs s) -> steady (zoom g u m).
Proof. intros Hu s. unfold zoom, count_of. destruct (m (g s)); by rewrite ?Hu. Qed.

Lemma steady_modify f : (forall s, procs (f s) = procs s) -> steady (modify f).
Proof. intros Hf s. unfold modify, count_of. by rewrite Hf. Qed.

Lemma steady_load p : steady (on_procs (load p)).
Proof. intros s. unfold on_procs, zoom, load, deref. by destruct (_ !! p). Qed.

Lemma steady_assign p f : (forall x, activeThreads (f x) = activeThreads x) -> steady (on_procs (assign p f)).
Proof.
  intros Hf s. unfold on_procs, zoom, assign, count_of. destruct (procs s !! p) as [x|] eqn:E; [|done]. cbn.
  destruct (decide (p = process_)) as [->|]; [by rewrite lookup_insert_eq, E; cbn; rewrite Hf|by rewrite lookup_insert_ne].
Qed.

Lemma steady_kern {X} (m : M (Kernel H) X) : steady (on_kern m).
Proof. by apply steady_zoom. Qed.

Lemma steady_lheap {X} (m : M (ListHeap H) X) : steady (on_lheap m).
Proof. apply steady_kern. Qed.

Lemma steady_nodes {X} (m : M Lists X) : steady (on_nodes m).
Proof. apply steady_lheap. Qed.

Lemma steady_paging {X} (m : M (Paging P) X) : steady (on_paging m).
Proof. by apply steady_zoom. Qed.

Lemma steady_vmaps {X} (m : M (gmap Z XTVirtualMap) X) : steady (on_vmaps m).
Proof. by apply steady_zoom. Qed.

Lemma steady_words {X} (m : M (gmap Z Z) X) : steady (on_words m).
Proof. by apply steady_zoom. Qed.

Lemma steady_seed {X} (m : M Z X) : steady (on_seed m).
Proof. by apply steady_zoom. Qed.

Hint Resolve steady_kern steady_lheap steady_nodes steady_paging steady_vmaps steady_words steady_seed : steady.

Hint Resolve steady_out steady_ret steady_throw steady_nofuel steady_gets steady_check steady_zoom steady_modify steady_load steady_assign : steady.

(** An operation is taken apart into steps that keep the count. *)
Ltac steady := repeat lazymatch goal with
  | |- steady (mbind _ _) => apply steady_bind; [|intros ?]
  | |- steady (if ?b then _ else _) => destruct b
  | |- steady (match ?x with _ => _ end) => destruct x
  | |- steady (out_or _ _) => apply steady_out
  end; auto with steady.

Lemma steady_link_at p q prev : steady (link_at p q prev).
Proof. unfold link_at. steady. Qed.

Hint Resolve steady_link_at : steady.

Lemma steady_place fuel : forall p q start curr prev, steady (place_loop fuel p q start curr prev).
Proof. induction fuel as [|fuel IH]; intros; cbn [place_loop]; steady. Qed.

Hint Resolve steady_place : steady.

Lemma steady_insert junk p start pa size_ at_ : steady (xtInsertVirtualMap junk p start pa size_ at_).
Proof. unfold xtInsertVirtualMap, xtCreateVirtualMapEntry, halloc, walk_fuel. steady. Qed.

Hint Resolve steady_insert : steady.

Lemma steady_reuse fuel : forall i found, steady (reuse_loop fuel i found).
Proof. induction fuel as [|fuel IH]; intros; cbn [reuse_loop]; unfold tload; steady. Qed.

Hint Resolve steady_reuse : steady.

Lemma steady_user_stack junk p size_ : steady (xtAllocateUserStack junk p size_).
Proof. unfold xtAllocateUserStack, page_alloc. steady. Qed.

Lemma steady_context e k f a ps st fl : steady (xtSetContext e k f a ps st fl).
Proof. unfold xtSetContext, set_word. steady. Qed.

Lemma steady_take junk : steady (take_thread junk).
Proof. unfold take_thread, halloc, walk_fuel, tassign, xtSetCurrentThread. steady. Qed.

Hint Resolve steady_user_stack steady_context steady_take : steady.

Lemma steady_create_thread junk junk_map e p f size_ arg st : steady (xtCreateThread junk junk_map e p f size_ arg st).
Proof. unfold xtCreateThread, page_alloc, tassign. steady. Qed.

End Count.

Section NotCounted.
Context {H P : Type} {A : Allocator H} {B : PageAllocator P}.
Implicit Types (s : System H P).

(** A new thread is not counted as a thread of its process; when the count is zero, as it is for the kernel's process, the end of a thread takes it to its largest value, and the process is not terminated. *)
Theorem threads_are_not_counted junk junk_map user_exit (p f size_ arg st t : Z) s s' :
  xtCreateThread junk junk_map user_exit p f size_ arg st s = Ok t s' ->
  (activeThreads <$> procs s' !! p) = (activeThreads <$> procs s !! p) /\
  forall (thread code : Z) (x : XTThread) (w : list (Z * Z)) (pp : XTProcess) (fuel : nat) (env : list (Kernel H -> Kernel H)),
  thread <> NULL -> threads_of s' !! thread = Some x -> lock x = false -> is_list (nodes s') (waitThreads x) w ->
  (forall u, u ∈ w.*2 -> u <> thread /\ is_Some (threads_of s' !! u)) ->
  process x = p -> p <> NULL -> procs s' !! p = Some pp -> activeThreads pp = 0 -> thread <> currentThread (kern s') ->
  exists s'', xtTerminateThread fuel thread code env s' = Ok env s'' /\ procs s'' = <[p := set_active (fun _ => 2 ^ 64 - 1) pp]> (procs s').
Proof.
  intros R. split; [pose proof (steady_create_thread p junk junk_map user_exit p f size_ arg st s) as G; by rewrite R in G|].
  intros thread code x w pp fuel env Hn Hx Hl Hw Hws Hpx Hpn Hp Ha Hc.
  destruct (terminate_ok s' thread code x w fuel env Hn Hx Hl Hw Hws) as [_ E]; [right; rewrite Hpx; exists pp; split; [done|left; by rewrite Ha]|].
  rewrite E, (proj2 (Z.eqb_neq _ _) Hc). eexists. split; [done|]. cbn. rewrite Hpx. unfold counted_out. rewrite decide_False by done.
  rewrite <- (insert_alter _ _ _ _ Hp). f_equal. unfold set_active, upd_process. by rewrite Ha.
Qed.

End NotCounted.

(** * A kernel with two threads *)

Definition demo_thread (st p w : Z) : XTThread := mkThread 0 0 0 st 20 20 p NULL w false.

(** Thread 48 runs; thread 64 is terminated by it and thread 80 waits for that. *)
Definition duo : System Bump (list Z) :=
  mkSystem
    (mkKernel (mkListHeap (mkBump 1024 {[32]}) {[32 := mkList 48 NULL; 96 := mkList 80 NULL]})
       {[48 := demo_thread 1 16 NULL; 64 := demo_thread 1 16 96; 80 := demo_thread 0 16 NULL]} 32 32 1 48 48 true (mkObjects ∅ ∅ ∅))
    (mkPaging [0x8000] ∅) ∅ ∅ {[16 := mkProcess NULL NULL NULL NULL NULL NULL 0 3 0]} ∅ ∅ NULL 0 0 NULL.

Lemma terminate_then_wait_witness :
  exists s' y, xtTerminateThread 0 64 7 [] duo = Ok [] s' /\
    (forall t, t ∈ [(96, 80)].*2 -> exists y, threads_of s' !! t = Some y /\ is_run y = true) /\
    (forall t, t <> 64 -> t ∉ [(96, 80)].*2 -> threads_of s' !! t = threads_of duo !! t) /\
    (exists pp, procs s' !! 16 = Some pp /\ activeThreads pp = 2) /\
    threads_of s' !! 64 = Some y /\
    forall (s2 : System Bump (list Z)) env', threads_of s2 !! 64 = Some y -> interrupts (kern s2) = true -> xtWaitForThread 64 env' s2 = Ok 7 s2.
Proof.
  destruct (terminate_then_wait duo 64 7 (demo_thread 1 16 96) [(96, 80)] 0 []) as (s' & R & H1 & H2 & H3 & y & H4 & _ & H5).
  - done.
  - done.
  - done.
  - split; [|by apply NoDup_singleton]. cbn. split; [done|]. split; [done|]. by exists (mkList 80 NULL).
  - by apply NoDup_singleton.
  - intros t Ht. apply list_elem_of_singleton in Ht as ->. split; [done|]. by eexists.
  - right. exists (mkProcess NULL NULL NULL NULL NULL NULL 0 3 0). split; [done|]. by left.
  - exists s', y. split; [exact R|]. split; [exact H1|]. split; [exact H2|]. split; [|by split].
    exact (H3 16 (mkProcess NULL NULL NULL NULL NULL NULL 0 3 0) eq_refl).
Defined.

Lemma wait_for_itself_never_returns_witness : xtWaitForThread 48 [] duo = OutOfFuel.
Proof.
  apply (wait_for_itself_never_returns duo (demo_thread 1 16 NULL) 1024 (mkBump 1040 ({[1024]} ∪ {[32]})) []); done.
Defined.

(** A kernel whose process counts no threads. *)
Definition uncounted : System Bump (list Z) := with_procs {[16 := mkProcess NULL NULL NULL NULL NULL NULL 0 0 0]} duo.

Definition spawn (s : System Bump (list Z)) := xtCreateThread (demo_thread 0 0 0) (demo_map 0 0) 0 16 0x5000 0 0 1 s.

Definition spawned : System Bump (list Z) := match spawn uncounted with Ok _ s => s | _ => uncounted end.

Definition spawned_process : XTProcess := default (demo_process 0) (procs spawned !! 16).

Definition spawned_thread : XTThread := default (demo_thread 0 0 0) (threads_of spawned !! 1024).

Lemma spawn_ok : xtCreateThread (demo_thread 0 0 0) (demo_map 0 0) 0 16 0x5000 0 0 1 uncounted = Ok 1024 spawned.
Proof. vm_compute. reflexivity. Qed.

Lemma threads_are_not_counted_witness :
  spawn uncounted = Ok 1024 spawned /\
  ((activeThreads <$> procs spawned !! 16) = (activeThreads <$> procs uncounted !! 16)) /\
  exists pp s'', xtTerminateThread 0 1024 7 [] spawned = Ok [] s'' /\ procs s'' = <[16 := set_active (fun _ => 2 ^ 64 - 1) pp]> (procs spawned).
Proof.
  destruct (threads_are_not_counted (demo_thread 0 0 0) (demo_map 0 0) 0 16 0x5000 0 0 1 1024 uncounted spawned spawn_ok) as [G1 G2].
  split; [exact spawn_ok|]. split; [exact G1|]. exists spawned_process.
  apply (G2 1024 7 spawned_thread [] spawned_process 0%nat []).
  - discriminate.
  - vm_compute. reflexivity.
  - vm_compute. reflexivity.
  - split; [vm_compute; reflexivity|constructor].
  - intros u Hu. exfalso. exact (not_elem_of_nil u Hu).
  - vm_compute. reflexivity.
  - discriminate.
  - vm_compute. reflexivity.
  - vm_compute. reflexivity.
  - vm_compute. discriminate.
Defined.


