(* ===== verification/Gdt.v ===== *)
(** Interrupts and exceptions: xtkernel/arch/x86_64/gdt.c. The descriptor of the
    task state, the gates of the interrupt table, the timer interrupt and the
    page fault handler. *)
From Stdlib Require Import ZArith Lia.
From stdpp Require Import base tactics list gmap fin_maps numbers.
From S2P Require Import Prelude Allocator ListC Threads Sync Ports Radix Paging Acpi System Vm Process ProcessProof.

Open Scope Z_scope.

(** * Descriptors *)

Record GDTEntry := mkGDTEntry { limit0 : Z; base0 : Z; base1 : Z; access_ : Z; flags_limit1 : Z; base2 : Z }.

Record TSSDescriptor := mkTSSDescriptor { low : GDTEntry; base3 : Z; tss_reserved : Z }.

(** The six segments; the task state takes two entries after them. *)
Definition gdt : list GDTEntry :=
  [mkGDTEntry 0 0 0 0 0 0;
   mkGDTEntry 0 0 0 0x9A 0x20 0;
   mkGDTEntry 0 0 0 0x92 0x00 0;
   mkGDTEntry 0 0 0 0xFA 0x20 0;
   mkGDTEntry 0 0 0 0xF2 0x00 0;
   mkGDTEntry 0 0 0 0xFA 0x20 0].

(** [TSS], packed. *)
Definition TSS_members : list (Z * Z) := [(4, 1); (8, 1); (8, 1); (8, 1); (8, 1); (56, 1); (4, 1); (2, 1); (2, 1)].

Definition SIZE_TSS : Z := foldr (fun m n => m.1 + n) 0 TSS_members.

Record GateEntry := mkGate { offset : Z; segment : Z; gate_flags : Z; offset2 : Z; offset3 : Z }.

Definition tss_descriptor (tssPtr : Z) : TSSDescriptor :=
  mkTSSDescriptor
    (mkGDTEntry (SIZE_TSS - 1) (Z.land tssPtr 0xffff) (Z.land (Z.shiftr tssPtr 16) 0xff) 0x89 0x40 (Z.land (Z.shiftr tssPtr 24) 0xff))
    (Z.land (Z.shiftr tssPtr 32) 0xffffffff) 0.

(** The tables of the processor, with the stacks the task state names. *)
Record CpuTables := mkTables { tss_entry : TSSDescriptor; IST0 : Z; rsp0 : Z; idt : list GateEntry }.

(** [idt[vector] = ...] *)
Definition xtSetIRQ (vector irqFunc ist : Z) : M CpuTables unit := fun c =>
  let v := Z.to_nat (u8 vector) in
  match idt c !! v with
  | None => Fault
  | Some _ =>
    let g := mkGate (Z.land irqFunc 0xffff) 0x08 (Z.lor 0x8e00 ist) (Z.land (Z.shiftr irqFunc 16) 0xffff) (Z.land (Z.shiftr irqFunc 32) 0xffffffff) in
    Ok tt (mkTables (tss_entry c) (IST0 c) (rsp0 c) (<[v := g]> (idt c)))
  end.

(** The vectors with their stacks. *)
Definition irq_vectors : list (Z * Z) :=
  [(0, 0); (1, 0); (2, 0); (3, 0); (4, 0); (5, 0); (6, 0); (7, 0); (8, 1); (9, 0); (10, 0); (11, 0); (12, 0); (13, 1); (14, 0); (15, 0);
   (16, 0); (17, 0); (18, 0); (19, 0); (20, 0); (21, 0); (22, 0); (23, 0); (24, 0); (25, 0); (26, 0); (27, 0); (28, 0); (29, 0); (30, 0); (31, 0);
   (32, 0); (40, 0)].

Fixpoint set_irqs (isr_stub : Z -> Z) (l : list (Z * Z)) : M CpuTables unit :=
  match l with
  | [] => mret tt
  | (v, ist) :: l => xtSetIRQ v (isr_stub v) ist ;;; set_irqs isr_stub l
  end.

(** [isr_stub v] is the address of the assembly routine of vector [v]. *)
Definition xtSetIRQs (isr_stub : Z -> Z) : M CpuTables unit := set_irqs isr_stub irq_vectors.

(** * The processor *)

Record Cpu (H P D : Type) := mkCpu { csys : System H P; tables : CpuTables; bus : D }.

Arguments mkCpu {H P D} _ _ _.
Arguments csys {H P D} _.
Arguments tables {H P D} _.
Arguments bus {H P D} _.

(** What a handler does in the end: the interrupted code goes on, or the kernel
    has stopped with a message. *)
Inductive Verdict := Resume | Panic (code : Z).

Section Gdt.
Context {H P D : Type} {A : Allocator H} {B : PageAllocator P} {E : Bus D}.

Notation CM := (M (Cpu H P D)).
Notation SM := (M (System H P)).
Notation Env := (list (Kernel H -> Kernel H)).

Definition on_csys {X} (m : SM X) : CM X := zoom csys (fun s c => mkCpu s (tables c) (bus c)) m.

Definition on_tables {X} (m : M CpuTables X) : CM X := zoom tables (fun t c => mkCpu (csys c) t (bus c)) m.

Definition on_bus {X} (m : M D X) : CM X := zoom bus (fun d c => mkCpu (csys c) (tables c) d) m.

(** [lidt], [lgdt] and [ltr] are left out. *)
Definition xtDTInit (isr_stub : Z -> Z) (tssPtr : Z) : CM unit :=
  tssStackBottom ← out_or 0 (on_csys (page_alloc 0x4000));
  on_tables (modify (fun t => mkTables (tss_descriptor tssPtr) (HIGHER_HALF_MEM (tssStackBottom + 0x4000)) (rsp0 t) (idt t))) ;;;
  out_or tt (on_bus xtPITInit) ;;;
  on_tables (xtSetIRQs isr_stub).

(** * Page faults *)

Definition CTX_cr2 : Z := 0.

Definition CTX_interruptNumber : Z := 128.

Definition CTX_errorCode : Z := 136.

Definition get_word (a : Z) : SM Z := on_words (load (phys a)).

(** [for (e = __start_ex_table; e < __stop_ex_table; e++)] *)
Definition fixup_of (ex_table : list (Z * Z)) (rip : Z) : option Z :=
  snd <$> List.find (fun e => fst e =? rip) ex_table.

(** [map_file] is [xtMapFile]: it takes the file, the offset and where the size
    goes, for which the code gives it the number 0x1000. *)
Variable map_file : Z -> Z -> Z -> SM Z.

(** The page for a fault in a map, entered in the page table. *)
Definition back_page (root : Z) (e : XTVirtualMap) (errorVM : Z) : SM Verdict :=
  newPage ← (if negb (vfile e =? NULL) then
               let offset := u64 (virtualStart e - errorVM) in
               p ← out_or NULL (map_file (vfile e) (u64 (voffset e + offset)) 0x1000);
               mret (inl p)
             else attempt (page_alloc 0x1000));
  match newPage with
  | inr _ => mret Resume
  | inl newPage =>
    let errorVM := Z.land errorVM (2 ^ 64 - 1 - 0xfff) in
    out_or tt (on_paging (xtSetPages root errorVM newPage 0x1000 (attr e))) ;;;
    mret Resume
  end.

(** [fuel] is that of [xtTerminateThread], [env] what the other threads do when
    the thread is switched away from. Invalidating the page is left out. *)
Definition xtPageFaultHandler (ex_table : list (Z * Z)) (fuel : nat) (env : Env) : SM Verdict :=
  current ← xtGetCurrentThread;
  process_ ← xtGetCurrentProcess;
  t ← tload current;
  errorVM ← get_word (context t + CTX_cr2);
  cs ← get_word (context t + CTX_cs);
  if Z.land cs 0x3 =? 0 then
    rip ← get_word (context t + CTX_rip);
    match fixup_of ex_table rip with
    | Some fixup => set_word (context t + CTX_rip) fixup ;;; mret Resume
    | None => mret (Panic XT_ACCESS_VIOLATION)
    end
  else
    found ← attempt (xtFindVirtualMap process_ errorVM);
    let mapEntry := match found with inl (m, _) => m | inr _ => NULL end in
    env ← (match found with
           | inr c => if c =? XT_NOT_FOUND then out_or env (xtTerminateThread fuel current XT_ACCESS_VIOLATION env) else mret env
           | inl _ => mret env
           end);
    errorCode ← get_word (context t + CTX_errorCode);
    e ← on_vmaps (load mapEntry);
    (if negb (Z.land errorCode 0x2 =? 0) && (Z.land (attr e) XT_MEM_WRITE =? 0)
     then out_or env (xtTerminateThread fuel current XT_ACCESS_VIOLATION env) else mret env) ;;;
    p ← on_procs (load process_);
    back_page (pageTable p) e errorVM.

(** * The other exceptions *)

(** The names of the exceptions: 31 of them. *)
Definition exception_names : Z := 31.

(** What is printed is left out; the name of the exception is looked up for it. *)
Definition xtExceptionHandler (ex_table : list (Z * Z)) (fuel : nat) (env : Env) : CM Verdict :=
  current ← on_csys xtGetCurrentThread;
  t ← on_csys (tload current);
  n ← on_csys (get_word (context t + CTX_interruptNumber));
  if n =? 0x20 then
    on_csys (on_kern (modify (set_interrupts false))) ;;;
    on_csys (on_kern xtSchedule) ;;;
    current ← on_csys xtGetCurrentThread;
    t ← on_csys (tload current);
    on_tables (modify (fun c => mkTables (tss_entry c) (IST0 c) (kernelStack t) (idt c))) ;;;
    on_bus xtSendEOI ;;;
    mret Resume
  else if n =? 0xe then on_csys (xtPageFaultHandler ex_table fuel env)
  else if n <? exception_names then mret (Panic XT_ARCH_EXCEPTION)
  else fault.

End Gdt.

(** [IOPB] is at 98 and the structure has 100 bytes. *)
Example tss_size : SIZE_TSS = 100 /\ member TSS_members 8 = 98.
Proof. split; reflexivity. Qed.

(** * The gates *)

(** What the processor makes of a gate: the address of the handler, the stack. *)
Definition gate_target (g : GateEntry) : Z := offset g + offset2 g * 2 ^ 16 + offset3 g * 2 ^ 32.

(** Present, an interrupt gate of the kernel, with the stack [ist]. *)
Definition gate_ok (addr ist : Z) (g : GateEntry) : Prop :=
  gate_target g = addr /\ segment g = 0x08 /\ Z.land (gate_flags g) 7 = ist /\ Z.shiftr (gate_flags g) 8 = 0x8e.

Lemma three_parts a : 0 <= a < 2 ^ 64 ->
  Z.land a 0xffff + Z.land (Z.shiftr a 16) 0xffff * 2 ^ 16 + Z.land (Z.shiftr a 32) 0xffffffff * 2 ^ 32 = a.
Proof.
  intros Ha. change 0xffffffff with (2 ^ 32 - 1). change 0xffff with (2 ^ 16 - 1).
  rewrite !land_low, !shiftr_div by lia. dlia.
Qed.

Lemma set_irq_ok c v f ist : length (idt c) = 256%nat -> 0 <= v < 256 -> 0 <= f < 2 ^ 64 -> ist = 0 \/ ist = 1 ->
  exists g, xtSetIRQ v f ist c = Ok tt (mkTables (tss_entry c) (IST0 c) (rsp0 c) (<[Z.to_nat v := g]> (idt c))) /\ gate_ok f ist g.
Proof.
  intros Hl Hv Hf Hi. unfold xtSetIRQ. rewrite u8_small by lia.
  destruct (lookup_lt_is_Some_2 (idt c) (Z.to_nat v)) as [g ->]; [lia|]. eexists. split; [reflexivity|].
  split; [by apply three_parts|]. by destruct Hi as [-> | ->].
Qed.

Lemma set_irqs_ok isr_stub : forall (vs : list (Z * Z)) c,
  length (idt c) = 256%nat -> (forall v, 0 <= isr_stub v < 2 ^ 64) ->
  Forall (fun x => 0 <= x.1 < 256 /\ (x.2 = 0 \/ x.2 = 1)) vs -> NoDup vs.*1 ->
  exists c', set_irqs isr_stub vs c = Ok tt c' /\ tss_entry c' = tss_entry c /\ length (idt c') = 256%nat /\
    (forall v ist, (v, ist) ∈ vs -> exists g, idt c' !! Z.to_nat v = Some g /\ gate_ok (isr_stub v) ist g) /\
    (forall v, 0 <= v < 256 -> (v ∉ vs.*1) -> idt c' !! Z.to_nat v = idt c !! Z.to_nat v).
Proof.
  induction vs as [|[v ist] vs IH]; intros c Hl Hf Hv Hn; [exists c; split_and!; [done..|set_solver|done]|].
  apply list.Forall_cons in Hv as [[Hv Hi] Hvs]. rewrite fmap_cons in Hn. apply list.NoDup_cons in Hn as [Hnv Hn].
  cbn [set_irqs]. cbn [fst snd] in *. destruct (set_irq_ok c v (isr_stub v) ist Hl Hv (Hf v) Hi) as (g & R & Hg).
  rewrite (bind_Ok _ _ _ _ _ R). set (c1 := mkTables _ _ _ _).
  destruct (IH c1) as (c' & -> & Ht & Hl' & Hin & Hout); [by unfold c1; cbn; rewrite length_insert|done..|].
  exists c'. split; [done|]. split; [done|]. split; [done|]. split.
  - intros u i [[= -> ->]|Hu]%elem_of_cons; [|by apply Hin]. exists g. split; [|done].
    rewrite Hout by done. unfold c1. cbn. apply list_lookup_insert_eq. lia.
  - intros u Hu Hnu. rewrite fmap_cons in Hnu. apply not_elem_of_cons in Hnu as [Hne Hnu]. rewrite Hout by done.
    unfold c1. cbn. apply list_lookup_insert_ne. cbn in Hne. lia.
Qed.

(** After [xtSetIRQs] every exception, the timer and vector 40 enter the kernel at their routine, with interrupts off; double faults and protection faults do so on the stack kept for them; the other gates stay as they were. *)
Theorem set_irqs_gates (isr_stub : Z -> Z) (c : CpuTables) :
  length (idt c) = 256%nat -> (forall v, 0 <= isr_stub v < 2 ^ 64) ->
  exists c', xtSetIRQs isr_stub c = Ok tt c' /\ forall v, 0 <= v < 256 ->
    if decide (0 <= v <= 32 \/ v = 40)
    then exists g, idt c' !! Z.to_nat v = Some g /\ gate_ok (isr_stub v) (if decide (v = 8 \/ v = 13) then 1 else 0) g
    else idt c' !! Z.to_nat v = idt c !! Z.to_nat v.
Proof.
  intros Hl Hf. destruct (set_irqs_ok isr_stub irq_vectors c Hl Hf) as (c' & R & _ & _ & Hin & Hout).
  { unfold irq_vectors. repeat (apply list.Forall_cons; split; [cbn; lia|]). constructor. }
  { apply (bool_decide_unpack _). by vm_compute. }
  exists c'. split; [done|]. intros v Hv. assert (irq_vectors.*1 = seqZ 0 33 ++ [40]) as Ek by reflexivity.
  destruct (decide (0 <= v <= 32 \/ v = 40)) as [Hd|Hd].
  - apply Hin. assert (v ∈ seqZ 0 33 ++ [40]) as Hm by (rewrite elem_of_app, elem_of_seqZ, list_elem_of_singleton; lia).
    clear Hv Hd. revert v Hm. apply list.Forall_forall.
    repeat (apply list.Forall_cons; split; [apply (bool_decide_unpack _); by vm_compute|]). constructor.
  - apply Hout; [done|]. rewrite Ek, elem_of_app, elem_of_seqZ, list_elem_of_singleton. lia.
Qed.

(** * Demand paging *)

Section Faults.
Context {H P : Type} {A : Allocator H} {B : PageAllocator P}.
Implicit Types (s : System H P).
Variable map_file : Z -> Z -> Z -> M (System H P) Z.







End Faults.

(** * A program that touches its second page *)

Definition fault_thread : XTThread := mkThread 0x8000 0 1 (Z.lor 0x80 XT_THREAD_RUN_STATE) 20 20 16 0 NULL false.

Definition fault_system : System Bump (list Z) :=
  mkSystem (mkKernel (mem (kern two_maps)) {[48 := fault_thread]} NULL NULL 0 NULL 48 true (mkObjects ∅ ∅ ∅)) demo_tables ∅ ∅
    {[16 := mkProcess NULL demo_root NULL NULL 32 NULL 0 1 0]} (vmaps two_maps)
    {[0x8000 := 0x2345; 0x8000 + CTX_cs := 0x2b; 0x8000 + CTX_errorCode := 4]} NULL 0 0 NULL.

Definition no_file : Z -> Z -> Z -> M (System Bump (list Z)) Z := fun _ _ _ => fault.



(** With one page less the page is not mapped. *)
Example page_fault_without_tables :
  let s := with_paging (mkPaging [0x2000; 0x3000; 0x4000] (ram demo_tables)) fault_system in
  match xtPageFaultHandler no_file [] 0 [] s with
  | Ok Resume s' => translate (ram (paging s')) demo_root 0x2345 = None
  | _ => False
  end.
Proof. by vm_compute. Qed.

Definition demo_cpu : CpuTables := mkTables (tss_descriptor 0) 0 0 (replicate 256 (mkGate 0 0 0 0 0)).

Lemma set_irqs_gates_witness :
  exists c', xtSetIRQs (fun v => 0xffffffff80001000 + 16 * (v mod 256)) demo_cpu = Ok tt c' /\ forall v, 0 <= v < 256 ->
    if decide (0 <= v <= 32 \/ v = 40)
    then exists g, idt c' !! Z.to_nat v = Some g /\ gate_ok (0xffffffff80001000 + 16 * (v mod 256)) (if decide (v = 8 \/ v = 13) then 1 else 0) g
    else idt c' !! Z.to_nat v = idt demo_cpu !! Z.to_nat v.
Proof.
  apply (set_irqs_gates (fun v => 0xffffffff80001000 + 16 * (v mod 256))); [reflexivity|].
  intros v. pose proof (Z.mod_pos_bound v 256 ltac:(lia)). lia.
Defined.
