(* ===== verification/Linker.v ===== *)
(** Modules and programs: xtkernel/linker.c. The state is the system of
    System.v, the file system of Vfs.v, which share one kernel, and the images
    in physical memory. *)
From Stdlib Require Import ZArith Lia.
From stdpp Require Import base tactics list gmap fin_maps numbers.
From S2P Require Import Prelude Bytes Allocator SharedPtr ListC CString Pe Args Io Threads Vfs Gpt Radix Paging System Vm Process.

Open Scope Z_scope.

(** * Data *)

(** [mod_name] is the address of the name, [filename] its bytes. *)
Record XTModule := mkModule { mod_name : Z; filename : list Z; physicalImage : Z; mod_flags : Z }.

(** [images] are the pieces of physical memory that hold bytes, by the address
    of their first one. *)
Record Machine (H P : Type) := mkMachine {
  sys : System H P;
  fsys : World H;
  module_objs : gmap Z XTModule;
  images : gmap Z (list Z);
  modules : Z
}.

Arguments mkMachine {H P} _ _ _ _ _.
Arguments sys {H P} _.
Arguments fsys {H P} _.
Arguments module_objs {H P} _.
Arguments images {H P} _.
Arguments modules {H P} _.

Definition SIZE_MODULE : Z := 24.

Definition XT_LIBRARY_ATTACH : Z := 1.

Definition XT_LIBRARY_DETACH : Z := 2.

Definition KERNEL_IMAGE_BASE : Z := 0xffffffff80000000.

(** The piece an address lies in. *)
Definition piece_at (a : Z) (m : gmap Z (list Z)) : option (Z * list Z) :=
  List.find (fun x => (fst x <=? a) && (a <? fst x + len (snd x))) (map_to_list m).

(** The prefixes a library is looked for under. *)
Definition suffixes : list (list Z) :=
  [[47; 105; 110; 105; 116; 114; 100; 47; 0];
   [47; 88; 84; 47; 100; 114; 105; 118; 101; 114; 115; 47; 0];
   [47; 88; 84; 47; 0];
   [46; 47; 0];
   [0]].

Section Linker.
Context {H P : Type} {A : Allocator H} {B : PageAllocator P}.

(** The tables of function pointers the files and file systems point to. *)
Variables (file_io : Z -> option (XTFileIO H)) (fs_io : Z -> option (XTFileSystemIO H)).

Notation LM := (M (Machine H P)).

(** * Parts of the state *)

Definition on_sys {X} (m : M (System H P) X) : LM X :=
  zoom sys (fun s w => mkMachine s (fsys w) (module_objs w) (images w) (modules w)) m.

(** The file system sees the kernel of the system. *)
Definition share_kernel (k : Kernel H) (w : World H) : World H :=
  mkWorld k (path_nodes w) (mounts w) (file_objs w) (fs_objs w) (dirs w) (opened w) (shared w) (dev_objs w) (root w)
    (filesystems w) (openedFiles w) (openedFilesLock w) (devices w) (devLock w).

Definition on_files {X} (m : M (World H) X) : LM X :=
  zoom (fun w => share_kernel (System.kern (sys w)) (fsys w))
    (fun f w => mkMachine (with_kern (Vfs.kern f) (sys w)) f (module_objs w) (images w) (modules w)) m.

Definition on_modules {X} (m : M (gmap Z XTModule) X) : LM X :=
  zoom module_objs (fun x w => mkMachine (sys w) (fsys w) x (images w) (modules w)) m.

Definition set_modules (v : Z) (w : Machine H P) : Machine H P := mkMachine (sys w) (fsys w) (module_objs w) (images w) v.

Definition set_images (f : gmap Z (list Z) -> gmap Z (list Z)) (w : Machine H P) : Machine H P :=
  mkMachine (sys w) (fsys w) (module_objs w) (f (images w)) (modules w).

(** The shared pointers live with those of the file system. *)
Definition set_shared (p : gmap Z XTSharedPtr) (w : World H) : World H :=
  mkWorld (Vfs.kern w) (path_nodes w) (mounts w) (file_objs w) (fs_objs w) (dirs w) (opened w) p (dev_objs w) (root w)
    (filesystems w) (openedFiles w) (openedFilesLock w) (devices w) (devLock w).

Definition shared_part (w : Machine H P) : Shared H := mkSharedHeap (ListC.heap (mem (System.kern (sys w)))) (shared (fsys w)).

Definition set_shared_part (s : Shared H) (w : Machine H P) : Machine H P :=
  mkMachine (with_lheap (mkListHeap (sheap s) (nodes (sys w))) (sys w)) (set_shared (SharedPtr.pointers s) (fsys w)) (module_objs w) (images w) (modules w).

Definition on_shared {X} (m : M (Shared H) X) : LM X := zoom shared_part set_shared_part m.

(** An operation on the bytes from a pointer on, to the end of their piece. *)
Definition on_image {X} (p : Z) (m : M Image X) : LM X := fun w =>
  match piece_at (phys p) (images w) with
  | None => Fault
  | Some (b, l) =>
    let off := Z.to_nat (phys p - b) in
    match m (drop off l) with
    | Ok x l' => Ok x (set_images (insert b (take off l ++ l')) w)
    | Err c l' => Err c (set_images (insert b (take off l ++ l')) w)
    | Fault => Fault
    | OutOfFuel => OutOfFuel
    end
  end.

(** Pages that will hold bytes. They are not cleared: [garbage] is what they
    hold. NULL when there are none. *)
Definition alloc_image (garbage size : Z) : LM Z :=
  p ← out_or NULL (on_sys (page_alloc size));
  (if p =? NULL then mret tt else modify (set_images (insert p (replicate (Z.to_nat size) garbage)))) ;;;
  mret p.

Definition mnodes {X} (m : M Lists X) : LM X := on_sys (on_nodes m).

Definition list_bound : LM nat := gets (fun w => size (nodes (sys w))).

Definition alloc (n : Z) : LM Z := on_sys (halloc n).

Definition dealloc (p : Z) : LM unit := out_or tt (on_sys (hfree p)).

(** * The list of modules *)

(** The module of a node: the list holds shared pointers. *)
Definition module_of (i : Z) : LM XTModule :=
  sharedPtr ← out_or NULL (mnodes (xtGetListData i));
  module ← out_or NULL (on_shared (xtSharedPtrGetData sharedPtr));
  on_modules (load module).

Fixpoint find_module_loop (fuel : nat) (name : list Z) (i : Z) : LM Z :=
  if i =? NULL then throw XT_NOT_FOUND
  else
    m ← module_of i;
    r ← attempt (xtStringCmp (filename m) name 4096);
    match r with
    | inl _ => mret i
    | inr _ =>
      i ← out_or i (mnodes (xtGetNextList i));
      match fuel with O => nofuel | S fuel => find_module_loop fuel name i end
    end.

Definition xtFindModuleList (name : list Z) : LM Z :=
  n ← list_bound;
  first ← gets modules;
  find_module_loop n name first.

Definition xtRemoveModule (name : list Z) : LM unit :=
  list ← xtFindModuleList name;
  first ← gets modules;
  on_sys (on_lheap (xtRemoveFromList first list)).

(** The node's data is a shared pointer, which is read as if it were the module:
    its second field is the delete function. *)
Definition xtFindModule (name : list Z) : LM Z :=
  moduleList ← xtFindModuleList name;
  module ← out_or NULL (mnodes (xtGetListData moduleList));
  p ← on_shared (SharedPtr.on_pointers (load module));
  mret (deleteFunc p).

Fixpoint find_by_ptr_loop (fuel : nat) (ptr i : Z) : LM (list Z) :=
  if i =? NULL then throw XT_NOT_FOUND
  else
    m ← module_of i;
    size ← on_image (physicalImage m) (nt ← nt_headers; opt nt OPT_SizeOfImage 4);
    if (physicalImage m <? ptr) && (ptr <? u64 (physicalImage m + size)) then mret (filename m)
    else
      i ← out_or i (mnodes (xtGetNextList i));
      match fuel with O => nofuel | S fuel => find_by_ptr_loop fuel ptr i end.

Definition xtFindModuleByPtr (ptr : Z) : LM (list Z) :=
  n ← list_bound;
  first ← gets modules;
  find_by_ptr_loop n ptr first.

(** [entry a reason] is the call of the code at [a]. *)
Definition xtFreeModuleInternal (entry : Z -> Z -> LM unit) (data : Z) : LM unit :=
  XT_CHECK_ARG_IS_NULL data ;;;
  m ← on_modules (load data);
  imageSize ← on_image (HIGHER_HALF_MEM (physicalImage m)) (nt ← nt_headers; opt nt OPT_SizeOfImage 4);
  dll ← on_image (physicalImage m) xtIsDllFile;
  (if (dll : bool) then
     libMain ← on_image (HIGHER_HALF_MEM (physicalImage m)) (xtGetEntryPoint (physicalImage m));
     entry libMain XT_LIBRARY_DETACH
   else mret tt) ;;;
  (if physicalImage m =? NULL then mret tt else on_sys (page_free (physicalImage m) imageSize)) ;;;
  (if mod_name m =? NULL then mret tt else dealloc (mod_name m)) ;;;
  out_or tt (xtRemoveModule (filename m)) ;;;
  dealloc data ;;;
  on_modules (dispose data).

(** * Loading a module *)

(** What is on the stack and in fresh memory: the buffer of [xtOpenFile], bytes
    of pages and of the heap, and the flags of a new module, which are not
    set. *)
Record Junk := mkJunk { junk_buffer : list Z; junk_byte : Z; junk_flags : Z; junk_map : XTVirtualMap; junk_thread : XTThread }.

(** [freeInternal] is the address of [xtFreeModuleInternal]. *)
Definition new_module (junk : Junk) (freeInternal phys_ flags_ : Z) (name : list Z) : LM Z :=
  newMod ← out_or NULL (alloc SIZE_MODULE);
  if newMod =? NULL then fault
  else
    r ← attempt (on_sys (on_lheap (ListC.on_heap (xtDuplicateString (junk_byte junk) name))));
    let '(p, bytes) := match r with inl x => x | inr _ => (NULL, []) end in
    on_modules (create newMod (mkModule p bytes phys_ flags_)) ;;;
    on_shared (xtCreateSharedPtr newMod freeInternal).

Definition xtGetOrLoadPhysicalModule (junk : Junk) (freeInternal : Z) (name : list Z) : LM Z :=
  found ← attempt (xtFindModuleList name);
  match found with
  | inl listEntry =>
    p ← out_or NULL (mnodes (xtGetListData listEntry));
    on_shared (xtIncrementReference p) ;;;
    mret p
  | inr _ =>
    file ← on_files (xtOpenFile fs_io (junk_buffer junk) name XT_FILE_MODE_READ);
    '(fileSize, fileBase) ← out_or (0, NULL) (on_files (xtMapFile file_io file 0));
    let fileBase := HIGHER_HALF_MEM fileBase in
    src ← on_image fileBase get;
    sizeOfImage ← on_image fileBase (nt ← nt_headers; opt nt OPT_SizeOfImage 4);
    physImage ← alloc_image (junk_byte junk) sizeOfImage;
    on_image (HIGHER_HALF_MEM physImage) (load_image src) ;;;
    p ← new_module junk freeInternal physImage (junk_flags junk) name;
    newList ← out_or NULL (on_sys (on_lheap (xtCreateList p)));
    first ← gets modules;
    out_or tt (mnodes (xtAppendList first newList)) ;;;
    out_or tt (on_files (xtUnmapFile file_io file 0 fileBase fileSize)) ;;;
    out_or tt (on_files (xtCloseFile file_io file)) ;;;
    mret p
  end.

(** [xtkernel.xte] *)
Definition kernel_name : list Z := [120; 116; 107; 101; 114; 110; 101; 108; 46; 120; 116; 101; 0].

Definition xtInsertKernelModule (junk : Junk) (freeInternal : Z) : LM unit :=
  p ← new_module junk freeInternal KERNEL_IMAGE_BASE (Z.lor 0x4 0x2) kernel_name;
  newList ← out_or NULL (on_sys (on_lheap (xtCreateList p)));
  modify (set_modules newList).

(** * Modules of the kernel *)

(** The code calls [xtGetProcAddress] on the library, drops its result code and
    writes the function, or NULL, into the slot. *)
Fixpoint thunk_loop (fuel : nat) (image lib thunk origThunk : Z) : LM unit :=
  address ← on_image image (rd 8 origThunk);
  if address =? 0 then mret tt
  else
    (if Z.land address (2 ^ 63) =? 0 then
       name ← on_image image (bytes_at (address + 2));
       f ← out_or NULL (on_image lib (xtGetProcAddress lib name));
       on_image image (wr 8 thunk f)
     else mret tt) ;;;
    match fuel with O => nofuel | S fuel => thunk_loop fuel image lib (thunk + 8) (origThunk + 8) end.

(** [for (i = 0; i < 5; ++i)]: the first prefix under which the library loads. *)
Fixpoint try_prefixes (load : list Z -> LM Z) (junk_path dllName : list Z) (prefixes : list (list Z)) : LM (Z + Z) :=
  match prefixes with
  | [] => mret (inr XT_NOT_FOUND)
  | suffix :: prefixes =>
    sufLen ← xtGetStringLength suffix;
    tempPath ← xtCopyString junk_path suffix 4096;
    rest ← xtCopyString (drop (Z.to_nat sufLen) tempPath) dllName (u64 (4096 - sufLen));
    r ← attempt (load (take (Z.to_nat sufLen) tempPath ++ rest));
    match r with
    | inl base => mret (inl base)
    | inr c => match prefixes with [] => mret (inr c) | _ => try_prefixes load junk_path dllName prefixes end
    end
  end.

(** [IMAGE_IMPORT_DESCRIPTOR]: 20 bytes, OriginalFirstThunk at 0, Name at 12,
    FirstThunk at 16. *)
Fixpoint import_loop (load : list Z -> LM Z) (fuel : nat) (junk_path : list Z) (image importDesc : Z) : LM unit :=
  name ← on_image image (rd 4 (importDesc + 12));
  if name =? 0 then mret tt
  else
    dllName ← on_image image (bytes_at name);
    r ← try_prefixes load junk_path dllName suffixes;
    match r with
    | inr _ => throw XT_NOT_FOUND
    | inl lib =>
      if lib =? NULL then throw XT_NOT_FOUND
      else
        thunk ← on_image image (rd 4 (importDesc + 16));
        origThunk ← on_image image (rd 4 importDesc);
        n ← on_image image (gets length);
        thunk_loop n image lib thunk origThunk ;;;
        match fuel with O => nofuel | S fuel => import_loop load fuel junk_path image (importDesc + 20) end
    end.

Definition xtLoadKernelSubmodules (load : list Z -> LM Z) (junk_path : list Z) (image : Z) : LM unit :=
  importRVA ← on_image image (nt ← nt_headers; directory nt IMAGE_DIRECTORY_ENTRY_IMPORT);
  if importRVA =? 0 then mret tt
  else
    n ← on_image image (gets length);
    import_loop load n junk_path image importRVA.

Definition set_mod_flag (module flag : Z) : LM unit :=
  on_modules (assign module (fun m => mkModule (mod_name m) (filename m) (physicalImage m) (Z.lor (mod_flags m) flag))).

(** [fuel] bounds how deep libraries load each other; [call df data] is the call
    of a delete function. *)
Fixpoint xtLoadKernelModule (fuel : nat) (junk : Junk) (freeInternal : Z) (call : Z -> Z -> M (Shared H) unit) (entry : Z -> Z -> LM unit)
    (name : list Z) : LM Z :=
  physPtr ← xtGetOrLoadPhysicalModule junk freeInternal name;
  mod_ ← out_or NULL (on_shared (xtSharedPtrGetData physPtr));
  m ← on_modules (load mod_);
  let physBase := HIGHER_HALF_MEM (physicalImage m) in
  subRes ← match fuel with
           | O => nofuel
           | S fuel => attempt (xtLoadKernelSubmodules (xtLoadKernelModule fuel junk freeInternal call entry) (junk_buffer junk) physBase)
           end;
  match subRes with
  | inr c => out_or tt (on_shared (xtDecrementReference call physPtr)) ;;; throw c
  | inl _ =>
    m ← on_modules (load mod_);
    (if Z.land (mod_flags m) 0x4 =? 0 then
       base ← on_image physBase (nt ← nt_headers; opt nt OPT_ImageBase 8);
       on_image physBase (ApplyRelocations physBase base) ;;;
       set_mod_flag mod_ 0x4
     else mret tt) ;;;
    main ← on_image physBase (xtGetEntryPoint physBase);
    m ← on_modules (load mod_);
    (if (Z.land (mod_flags m) 0x2 =? 0) && (HIGH_HALF <? main) then
       out_or tt (entry main XT_LIBRARY_ATTACH) ;;;
       set_mod_flag mod_ 0x2
     else mret tt) ;;;
    mret physBase
  end.

(** * Programs *)

(** [XT_MEM_USER] and what the section allows. *)
Definition section_attr (flags_ : Z) : Z :=
  let attr := XT_MEM_USER in
  let attr := if negb (Z.land flags_ IMAGE_SCN_MEM_EXECUTE =? 0) then Z.lor attr XT_MEM_EXEC else attr in
  let attr := if negb (Z.land flags_ IMAGE_SCN_MEM_READ =? 0) then Z.lor attr XT_MEM_READ else attr in
  if negb (Z.land flags_ IMAGE_SCN_MEM_WRITE =? 0) then Z.lor attr XT_MEM_WRITE else attr.

(** [(SizeOfRawData + 0xFFF) & ~0xFFF] with 32 bits. *)
Definition round_size (n : Z) : Z := Z.land (u32 (n + 0xFFF)) (2 ^ 32 - 1 - 0xFFF).

(** A section that may be written gets a copy of its pages. The results of the
    allocation and of the mapping are dropped. *)
Fixpoint map_sections (junk : Junk) (process_ physImage virtualBase : Z) (n : nat) (sections i : Z) : LM unit :=
  match n with
  | O => mret tt
  | S n =>
    s ← on_image (HIGHER_HALF_MEM physImage) (section_at sections i);
    let attr := section_attr (sec_flags s) in
    let sourcePhys := physImage + sec_va s in
    let size_ := round_size (sec_size s) in
    sourcePhys ← (if negb (Z.land (sec_flags s) IMAGE_SCN_MEM_WRITE =? 0) then
                    privateCopy ← alloc_image (junk_byte junk) size_;
                    src ← on_image (HIGHER_HALF_MEM sourcePhys) get;
                    on_image (HIGHER_HALF_MEM privateCopy) (copy_to 0 src (sec_size s)) ;;;
                    mret privateCopy
                  else mret sourcePhys);
    p ← on_sys (on_procs (load process_));
    out_or tt (on_sys (on_paging (xtSetPages (pageTable p) (u64 (virtualBase + sec_va s)) sourcePhys size_ attr))) ;;;
    out_or tt (on_sys (xtInsertVirtualMap (junk_map junk) process_ (u64 (virtualBase + sec_va s)) sourcePhys size_ (Z.lor attr 2))) ;;;
    map_sections junk process_ physImage virtualBase n sections (i + 1)
  end.

Definition xtMapModuleToProcess (junk : Junk) (process_ physPtr virtualBase : Z) : LM unit :=
  mod_ ← out_or NULL (on_shared (xtSharedPtrGetData physPtr));
  XT_CHECK_ARG_IS_NULL mod_ ;;;
  m ← on_modules (load mod_);
  nt ← on_image (HIGHER_HALF_MEM (physicalImage m)) nt_headers;
  sections ← on_image (HIGHER_HALF_MEM (physicalImage m)) (first_section nt);
  count ← on_image (HIGHER_HALF_MEM (physicalImage m)) (rd 2 (nt + NT_NumberOfSections));
  map_sections junk process_ (physicalImage m) virtualBase (Z.to_nat count) sections 0.

(** The base of a module in a process. *)
Definition aslr_base (r : Z) : Z := u64 (0x00007f0000000000 + u64 (Z.shiftl (Z.land r (2 ^ 26 - 1)) 12)).

(** The relocations are applied to the image that all processes share. *)
Definition xtLoadModuleEx (junk : Junk) (freeInternal process_ : Z) (name : list Z) : LM (Z * Z) :=
  physPtr ← xtGetOrLoadPhysicalModule junk freeInternal name;
  mod_ ← out_or NULL (on_shared (xtSharedPtrGetData physPtr));
  r ← on_sys (on_seed xtGetRandomU64);
  let virtualBase := aslr_base r in
  out_or tt (xtMapModuleToProcess junk process_ physPtr virtualBase) ;;;
  m ← on_modules (load mod_);
  base ← on_image (HIGHER_HALF_MEM (physicalImage m)) (nt ← nt_headers; opt nt OPT_ImageBase 8);
  out_or tt (on_image (HIGHER_HALF_MEM (physicalImage m)) (ApplyRelocations virtualBase base)) ;;;
  mret (physicalImage m, virtualBase).

(** A random page of the lower half, not the first one. *)
Definition params_base (r : Z) : Z :=
  let va_base := Z.land (Z.land r 0x00007fffffffffff) (2 ^ 64 - 4096) in
  if va_base <? 0x1000 then 0x1000 else va_base.

Definition xtPassArgs (junk : Junk) (process_ : Z) (args : list (list Z)) (envp : option (list (list Z))) (imageBase : Z) : LM Z :=
  args_str_total ← strings_total args 0;
  env_str_total ← match envp with None => mret 0 | Some es => strings_total es 0 end;
  let total_size := block_total (len args) (match envp with Some es => len es | None => 0 end) args_str_total env_str_total in
  r ← on_sys (on_seed xtGetRandomU64);
  let va_base := params_base r in
  phys_ ← on_sys (page_alloc total_size);
  modify (set_images (insert phys_ (replicate (Z.to_nat total_size) (junk_byte junk)))) ;;;
  p ← on_sys (on_procs (load process_));
  let attr := Z.lor (Z.lor XT_MEM_USER XT_MEM_READ) XT_MEM_WRITE in
  on_sys (on_paging (xtSetPages (pageTable p) va_base phys_ total_size attr)) ;;;
  on_sys (xtInsertVirtualMap (junk_map junk) process_ va_base phys_ total_size (Z.lor attr 2)) ;;;
  on_image (HIGHER_HALF_MEM phys_) (fill_block args envp va_base imageBase) ;;;
  mret va_base.

(** [args] is the array up to its NULL; without a name there is no program.
    [user_exit] is the address of [xtUserExit]. *)
Definition xtExecuteProgram (junk : Junk) (freeInternal user_exit process_ : Z) (args : list (list Z)) (envp : option (list (list Z))) : LM Z :=
  match args with
  | [] => fault
  | name :: _ =>
    '(physBase, virtualBase) ← xtLoadModuleEx junk freeInternal process_ name;
    main ← on_image (HIGHER_HALF_MEM physBase) (xtGetEntryPoint virtualBase);
    params ← xtPassArgs junk process_ args envp virtualBase;
    on_sys (xtCreateThread (junk_thread junk) (junk_map junk) user_exit process_ main 0 params (Z.lor XT_THREAD_USER XT_THREAD_RUN_STATE))
  end.

End Linker.
