(* ===== verification/LinkerProof.v ===== *)
(** The linker: a module that is loaded is shared and not read again, and where
    the parts of a program are put. *)
From Stdlib Require Import ZArith Lia.
From stdpp Require Import base tactics list gmap fin_maps numbers.
From S2P Require Import Prelude Bytes Allocator SharedPtr ListC CString Pe Args Io Threads Vfs Gpt Radix Paging System Vm Process Linker.

Open Scope Z_scope.

(** * Finding a module *)

Section Find.
Context {H P : Type} {A : Allocator H} {B : PageAllocator P}.
Implicit Types (w : Machine H P).

(** The modules the kernel knows: the nodes of the list with their shared
    pointers, and the names of the modules. *)
Definition knows w (l : list (Z * Z)) (names : list (list Z)) : Prop :=
  is_list (nodes (sys w)) (modules w) l /\
  Forall2 (fun x c => x.2 <> NULL /\ exists mo df n m, shared (fsys w) !! x.2 = Some (mkShared mo df n) /\
    module_objs w !! mo = Some m /\ c_string (filename m) = Some c) l names.

(** Names are compared in their first 4096 bytes. *)
Definition same_module (c d : list Z) : Prop := take (Z.to_nat 4096) d = take (Z.to_nat 4096) c.

#[export] Instance same_module_dec c d : Decision (same_module c d) := decide (take (Z.to_nat 4096) d = take (Z.to_nat 4096) c).

Lemma mnodes_read {X} w (m : M Lists X) x : m (nodes (sys w)) = Ok x (nodes (sys w)) -> mnodes m w = Ok x w.
Proof. intros E. unfold mnodes, on_sys, zoom. rewrite (nodes_read _ _ _ E). by destruct w. Qed.

Lemma shared_part_id w : set_shared_part (shared_part w) w = w.
Proof. by destruct w as [[[[]]] [] ? ? ?]. Qed.

Lemma shared_read {X} w (m : M (Shared H) X) x : m (shared_part w) = Ok x (shared_part w) -> on_shared m w = Ok x w.
Proof. intros E. unfold on_shared, zoom. rewrite E. by rewrite shared_part_id. Qed.

Lemma pointer_data w sp mo df n : sp <> NULL -> shared (fsys w) !! sp = Some (mkShared mo df n) ->
  on_shared (xtSharedPtrGetData sp) w = Ok mo w.
Proof.
  intros Hn E. apply shared_read. unfold xtSharedPtrGetData. rewrite check_then by done.
  by rewrite (bind_Ok _ _ _ _ _ (load_ref (shared_part w) sp mo df n (conj Hn E))).
Qed.

Lemma node_pointer w a x : nodes (sys w) !! a = Some x -> a <> NULL ->
  out_or NULL (mnodes (xtGetListData a)) w = Ok (data x) w /\ out_or a (mnodes (xtGetNextList a)) w = Ok (next x) w.
Proof.
  intros E Ha. split; apply out_or_Ok, mnodes_read; [unfold xtGetListData|unfold xtGetNextList]; rewrite check_then by done;
    by rewrite (bind_Ok _ _ _ _ _ (load_Ok _ _ _ E)).
Qed.

Lemma module_of_ok w a x mo df n m : nodes (sys w) !! a = Some x -> a <> NULL -> data x <> NULL ->
  shared (fsys w) !! data x = Some (mkShared mo df n) -> module_objs w !! mo = Some m -> module_of a w = Ok m w.
Proof.
  intros E Ha Hs E1 E2. unfold module_of. rewrite (bind_Ok _ _ _ _ _ (proj1 (node_pointer w a x E Ha))).
  rewrite (bind_Ok _ _ _ _ _ (out_or_Ok _ _ _ _ _ (pointer_data w (data x) mo df n Hs E1))).
  unfold on_modules, zoom. rewrite (load_Ok _ _ _ E2). by destruct w.
Qed.

Lemma find_module_ok w (name c : list Z) : c_string name = Some c -> forall l names fuel i,
  lseg (nodes (sys w)) i l NULL -> (length l <= fuel)%nat ->
  Forall2 (fun x c => x.2 <> NULL /\ exists mo df n m, shared (fsys w) !! x.2 = Some (mkShared mo df n) /\
    module_objs w !! mo = Some m /\ c_string (filename m) = Some c) l names ->
  find_module_loop fuel name i w =
    match list_find (same_module c) names with
    | Some (k, _) => Ok (nth k l.*1 NULL) w
    | None => Err XT_NOT_FOUND w
    end.
Proof.
  intros Hc. induction l as [|[a sp] l IH]; intros names fuel i Hl Hf Hn.
  - apply Forall2_nil_inv_l in Hn as ->. cbn in Hl. subst i. by destruct fuel.
  - apply Forall2_cons_inv_l in Hn as (d & names' & (Hs & mo & df & n & m & E1 & E2 & E3) & Hn & ->). cbn [snd] in *.
    destruct Hl as (-> & Ha & x & Ex & Hd & Hl). subst sp.
    destruct fuel as [|fuel]; [cbn in Hf; lia|]. cbn [find_module_loop list_find]. rewrite (proj2 (Z.eqb_neq _ _) Ha).
    rewrite (bind_Ok _ _ _ _ _ (module_of_ok w a x mo df n m Ex Ha Hs E1 E2)).
    unfold attempt. unfold mbind at 1, M_bind at 1. rewrite (strcmp_ok (filename m) name d c 4096 w E3 Hc ltac:(lia)).
    fold (same_module c d). change (list_eq_dec _ _) with (same_module_dec c d). destruct (decide (same_module c d)); [done|].
    rewrite (bind_Ok _ _ _ _ _ (proj2 (node_pointer w a x Ex Ha))).
    rewrite (IH names' fuel (next x) Hl ltac:(cbn in Hf; lia) Hn). by destruct (list_find (same_module c) names') as [[k y]|].
Qed.

Lemma find_module_list_ok w name c l names : c_string name = Some c -> knows w l names ->
  xtFindModuleList name w =
    match list_find (same_module c) names with
    | Some (k, _) => Ok (nth k l.*1 NULL) w
    | None => Err XT_NOT_FOUND w
    end.
Proof.
  intros Hc [Hl Hn]. unfold xtFindModuleList, list_bound, gets. rewrite (bind_Ok _ _ w (size (nodes (sys w))) w) by done.
  rewrite (bind_Ok _ _ w (modules w) w) by done. apply find_module_ok; [done|apply Hl| |done]. by eapply walk_fuel_enough.
Qed.

Variables (file_io : Z -> option (XTFileIO H)) (fs_io : Z -> option (XTFileSystemIO H)).

(** A module that is loaded is found by its name, the first of that name, and shared: its image gets one more reference, and neither a file is opened nor anything else changes. *)
Theorem cached_module_shared (junk : Junk) (freeInternal : Z) w (name c d : list Z) (l : list (Z * Z)) (names : list (list Z)) (k : nat) :
  c_string name = Some c -> knows w l names -> list_find (same_module c) names = Some (k, d) ->
  exists a sp mo df n, l !! k = Some (a, sp) /\ shared (fsys w) !! sp = Some (mkShared mo df n) /\
    xtGetOrLoadPhysicalModule file_io fs_io junk freeInternal name w =
      Ok sp (mkMachine (sys w) (set_shared (<[sp := mkShared mo df (u64 (n + 1))]> (shared (fsys w))) (fsys w)) (module_objs w) (images w) (modules w)).
Proof.
  intros Hc Hk Hf. pose proof (find_module_list_ok w name c l names Hc Hk) as R. rewrite Hf in R. destruct Hk as [Hl Hn].
  apply list_find_Some in Hf as (Hd & _ & _). destruct (Forall2_lookup_r _ _ _ _ _ Hn Hd) as ([a sp] & Hx & Hs & mo & df & n & m & E1 & E2 & _).
  cbn [snd] in *. exists a, sp, mo, df, n. split; [done|]. split; [done|]. unfold xtGetOrLoadPhysicalModule.
  assert (nth k l.*1 NULL = a) as Ea by (apply nth_lookup_Some; by rewrite list_lookup_fmap, Hx). rewrite Ea in R.
  unfold attempt. unfold mbind at 1, M_bind at 1. rewrite R.
  destruct (chain_lookup next data _ _ _ _ a sp (proj1 Hl) (list_elem_of_lookup_2 _ _ _ Hx)) as (Ha & x & Ex & Hd').
  rewrite (bind_Ok _ _ _ _ _ (proj1 (node_pointer w a x Ex Ha))), Hd'.
  unfold on_shared at 1, zoom, xtIncrementReference. unfold mbind at 1, M_bind at 1. rewrite check_then by done.
  rewrite (assign_ref (shared_part w) sp mo df n _ (conj Hs E1)). cbn. f_equal. by destruct w as [[[[]]] [] ? ? ?].
Qed.

End Find.

(** * Where the parts of a program go *)

Lemma land_page z : 0 <= z < 2 ^ 64 -> Z.land z (2 ^ 64 - 4096) = z / 4096 * 4096.
Proof.
  intros Hz. replace (2 ^ 64 - 4096) with (Z.shiftl (Z.ones 52) 12) by reflexivity.
  replace (z / 4096 * 4096) with (Z.shiftl (Z.shiftr z 12) 12) by (rewrite Z.shiftl_mul_pow2, Z.shiftr_div_pow2 by lia; done). apply Z.bits_inj'. intros i Hi.
  rewrite Z.land_spec. destruct (decide (i < 12)); [rewrite !Z.shiftl_spec_low by lia; apply andb_false_r|].
  rewrite !Z.shiftl_spec, Z.shiftr_spec by lia. replace (i - 12 + 12) with i by lia.
  destruct (decide (i < 64)); [rewrite Z.ones_spec_low by lia; apply andb_true_r|].
  by rewrite (testbit_small z 64) by lia.
Qed.

(** C32: Whatever random number it draws, the linker puts an image at a page between 0x7f0000000000 and 0x7f4000000000, any of the 2^26 pages there, and the block of parameters at a page of the lower half that is not the first; but the second range takes in the first, and the two draws may meet. *)
Theorem program_addresses (r : Z) : 0 <= r < 2 ^ 64 ->
  (0x7f0000000000 <= aslr_base r < 0x7f4000000000 /\ aslr_base r mod 4096 = 0) /\
  (0x1000 <= params_base r < 2 ^ 47 /\ params_base r mod 4096 = 0) /\
  (forall k, 0 <= k < 2 ^ 26 -> aslr_base k = 0x7f0000000000 + 4096 * k) /\
  exists r', 0 <= r' < 2 ^ 64 /\ params_base r' = aslr_base r.
Proof.
  intros Hr.
  assert (forall x, 0 <= x -> aslr_base x = 0x7f0000000000 + 4096 * (x mod 2 ^ 26)) as Ha.
  { intros x Hx. unfold aslr_base. rewrite land_low, shiftl_mul by lia.
    assert (0 <= x mod 2 ^ 26 < 2 ^ 26) by (apply Z.mod_pos_bound; lia). rewrite !u64_small by (try rewrite u64_small; lia). lia. }
  assert (forall x, 0 <= x -> params_base x = Z.max 0x1000 (x mod 2 ^ 47 / 4096 * 4096)) as Hp.
  { intros x Hx. unfold params_base. change 0x00007fffffffffff with (2 ^ 47 - 1). rewrite land_low by lia.
    assert (0 <= x mod 2 ^ 47 < 2 ^ 47) by (apply Z.mod_pos_bound; lia). rewrite land_page by lia.
    destruct (_ <? _) eqn:E; zbool; lia. }
  rewrite (Ha r), (Hp r) by lia. assert (0 <= r mod 2 ^ 26 < 2 ^ 26) as Hm by (apply Z.mod_pos_bound; lia).
  split; [dlia|]. split; [dlia|]. split; [intros k Hk; rewrite Ha by lia; by rewrite Z.mod_small|].
  exists (0x7f0000000000 + 4096 * (r mod 2 ^ 26)). split; [lia|]. rewrite Hp by lia. dlia.
Qed.

Lemma program_addresses_witness :
  (0x7f0000000000 <= aslr_base 12345 < 0x7f4000000000 /\ aslr_base 12345 mod 4096 = 0) /\
  (0x1000 <= params_base 12345 < 2 ^ 47 /\ params_base 12345 mod 4096 = 0) /\
  (forall k, 0 <= k < 2 ^ 26 -> aslr_base k = 0x7f0000000000 + 4096 * k) /\
  exists r', 0 <= r' < 2 ^ 64 /\ params_base r' = aslr_base 12345.
Proof. apply program_addresses. lia. Defined.

(** * A kernel with one module *)

Definition one_kernel : Kernel Bump :=
  mkKernel (mkListHeap (mkBump 256 {[32; 64; 112]}) {[32 := mkList 64 NULL]}) ∅ NULL NULL 0 NULL NULL true (mkObjects ∅ ∅ ∅).

Definition one_module : Machine Bump (list Z) :=
  mkMachine (mkSystem one_kernel (mkPaging [] ∅) ∅ ∅ ∅ ∅ ∅ NULL 0 0 NULL)
    (mkWorld one_kernel ∅ ∅ ∅ ∅ ∅ ∅ {[64 := mkShared 112 7 1]} ∅ NULL NULL NULL false NULL false)
    {[112 := mkModule 128 [97; 46; 100; 0] 0x100000 0]} ∅ 32.

Definition no_junk : Junk := mkJunk [] 0 0 (mkVMap 0 0 0 0 0 0) (mkThread 0 0 0 0 0 0 0 0 0 false).

Lemma cached_module_shared_witness :
  exists a sp mo df n, [(32, 64)] !! 0%nat = Some (a, sp) /\ shared (fsys one_module) !! sp = Some (mkShared mo df n) /\
    xtGetOrLoadPhysicalModule (fun _ => None) (fun _ => None) no_junk 7 [97; 46; 100; 0] one_module =
      Ok sp (mkMachine (sys one_module) (set_shared (<[sp := mkShared mo df (u64 (n + 1))]> (shared (fsys one_module))) (fsys one_module))
               (module_objs one_module) (images one_module) (modules one_module)).
Proof.
  apply (cached_module_shared (fun _ => None) (fun _ => None) no_junk 7 one_module [97; 46; 100; 0] [97; 46; 100] [97; 46; 100]
    [(32, 64)] [[97; 46; 100]] 0).
  - reflexivity.
  - split.
    + split; [|by apply NoDup_singleton]. cbn. split; [done|]. split; [done|]. eexists. split; [reflexivity|]. done.
    + apply Forall2_cons; [|by apply Forall2_nil]. split; [done|]. exists 112, 7, 1. eexists. split; [reflexivity|]. split; reflexivity.
  - reflexivity.
Defined.
