(* ===== verification/DebugPrint.v ===== *)
(** The kernel's messages: xtDebugPrint of xtkernel/print.c, which formats a
    message and writes it to the serial device, and xtKernelPanic of
    xtkernel/panic.c. *)
From Stdlib Require Import ZArith Lia Ascii String.
From stdpp Require Import base tactics list gmap fin_maps numbers.
From S2P Require Import Prelude Allocator CString Io Threads Vfs VfsProof Printf Vsnprintf PrintfProof Paging System Process Linker.

Open Scope Z_scope.

(** [char buff[4096]] *)
Definition MESSAGE : Z := 4096.

(** A computation on the stack of a function: [b] is what its buffer holds. *)
Definition local {S X} (b : list Z) (m : M (list Z) X) : M S (X * list Z) := fun s =>
  match m b with
  | Ok x b => Ok (x, b) s
  | Err c _ => Err c s
  | Fault => Fault
  | OutOfFuel => OutOfFuel
  end.

Section DebugPrint.
Context {H : Type} {A : Allocator H}.
Variables (file_io : Z -> option (XTFileIO H)) (gSerialDevice : Z).

(** The length of the whole text is the number of bytes that are written:
    reading on behind the buffer is a fault. *)
Definition xtDebugPrint (garbage : list Z) (strings : Z -> option (list Z)) (format va : list Z) (env : list (Kernel H -> Kernel H)) :
    M (World H) Z :=
  '(n, buff) ← local garbage (vsnprintf_ MESSAGE strings format va);
  let written := u64 n in
  if Z.of_nat (length buff) <? written then fault
  else
    out_or (0, 0) (xtWriteFile file_io gSerialDevice (Some (take (Z.to_nat written) buff)) 0 env) ;;;
    mret n.

End DebugPrint.

Section Panic.
Context {H P : Type} {A : Allocator H} {B : PageAllocator P}.
Variables (file_io : Z -> option (XTFileIO H)) (gSerialDevice : Z).

(** [%s:0x%llx - %s: %s\n] *)
Definition panic_format : list Z := map (fun c => Z.of_N (N_of_ascii c)) (list_ascii_of_string "%s:0x%llx - %s: %s") ++ [10; 0].

(** The strings lie at the addresses 1 to 3. *)
Definition panic_strings (filenameOfImage strResult description : list Z) (p : Z) : option (list Z) :=
  if p =? 1 then Some filenameOfImage else if p =? 2 then Some strResult else if p =? 3 then Some description else None.

Definition unknown_image : list Z := bytes_of "(unknown)".

(** [return_address] is the one of the call. A panic does not return: after the
    message the processor is halted for good. Only XT_NOT_FOUND is looked for
    among the results of the search for the module. *)
Definition xtKernelPanic (garbage : list Z) (return_address : Z) (description : list Z) (instruction result : Z)
    (env : list (Kernel H -> Kernel H)) : M (Machine H P) unit :=
  let instruction := if instruction =? NULL then return_address else instruction in
  strResult ← xtResultToStr result;
  found ← attempt (xtFindModuleByPtr instruction);
  filenameOfImage ← match found with
                    | inl name => mret name
                    | inr c => if c =? XT_NOT_FOUND then mret unknown_image else fault
                    end;
  out_or 0 (on_files (xtDebugPrint file_io gSerialDevice garbage (panic_strings filenameOfImage (bytes_of strResult) description)
    panic_format [1; instruction; 2; 3] env)) ;;;
  nofuel.

(** * xtRegDump (xtkernel/arch/x86_64/gdt.c) *)

(** The names of the words of XTContext. *)
Definition registers : list string :=
  ["cr2"; "rax"; "rbx"; "rcx"; "rdx"; "rbp"; "rsi"; "rdi"; "r8"; "r9"; "r10"; "r11"; "r12"; "r13"; "r14"; "r15";
   "int"; "error"; "rip"; "cs"; "rflags"; "rsp"; "ss"]%string.

Definition register_format : list Z := bytes_of "% 6s=0x%016llx ".

(** The name of a register is the string at address 1. *)
Fixpoint dump_loop (garbage : list Z) (names : list string) (i ctx : Z) (env : list (Kernel H -> Kernel H)) : M (Machine H P) unit :=
  match names with
  | [] => mret tt
  | name :: names =>
    v ← on_sys (on_words (load (phys (ctx + 8 * i))));
    out_or 0 (on_files (xtDebugPrint file_io gSerialDevice garbage (fun p => if p =? 1 then Some (bytes_of name) else None) register_format [1; v] env)) ;;;
    (if (i mod 4 =? 0) && negb (i =? 0)
     then out_or 0 (on_files (xtDebugPrint file_io gSerialDevice garbage no_strings [10; 0] [] env)) ;;; mret tt
     else mret tt) ;;;
    dump_loop garbage names (i + 1) ctx env
  end.

Definition xtRegDump (garbage : list Z) (env : list (Kernel H -> Kernel H)) : M (Machine H P) unit :=
  currentThread ← on_sys xtGetCurrentThread;
  t ← on_sys (tload currentThread);
  dump_loop garbage registers 0 (context t) env ;;;
  out_or 0 (on_files (xtDebugPrint file_io gSerialDevice garbage no_strings [10; 0] [] env)) ;;;
  mret tt.

End Panic.

(** * Theorems *)

(** A message of fewer than 4096 characters is written to the serial device whole, and nothing else is. *)
Theorem debug_print_writes {H : Type} {A : Allocator H} (file_io : Z -> option (XTFileIO H)) (gSerialDevice : Z)
  (garbage : list Z) (strings : Z -> option (list Z)) (format va text : list Z) (n : Z) (env : list (Kernel H -> Kernel H)) (w : World H) :
  length garbage = 4096%nat -> _vsnprintf record MESSAGE strings format va [] = Ok n (text ++ [0]) -> (length text < 4096)%nat ->
  xtDebugPrint file_io gSerialDevice garbage strings format va env w =
    (out_or (0, 0) (xtWriteFile file_io gSerialDevice (Some text) 0 env) ;;; mret (Z.of_nat (length text))) w.
Proof.
  intros Hg E Hl. apply record_ok in E as (text' & Et & -> & E); [|rewrite length_app; cbn; lia]. apply app_inj_tail in Et as [<- _].
  unfold xtDebugPrint, local, vsnprintf_. unfold mbind at 1, M_bind at 1. unfold MESSAGE in *. rewrite E, buffer_text by lia. unfold truncated. cbn [Z.eqb].
  change (Z.to_nat (4096 - 1)) with 4095%nat. rewrite (take_ge text) by lia.
  assert (Hs : s32 (Z.of_nat (length text)) = Z.of_nat (length text)) by (unfold s32; rewrite Z.mod_small by lia; lia).
  rewrite Hs, u64_small by lia. rewrite (proj2 (Z.ltb_ge _ _)) by (rewrite length_app; cbn [length]; lia).
  rewrite Nat2Z.id, take_app_length. done.
Qed.

Lemma debug_print_writes_witness :
  xtDebugPrint (fun _ => None) 900 (replicate (Z.to_nat 4096) 7) no_strings (bytes_of "result is 0x%llx") [16] [] demo_world =
    (out_or (0, 0) (xtWriteFile (fun _ => None) 900 (Some (removelast (bytes_of "result is 0x10"))) 0 []) ;;; mret 14) demo_world.
Proof.
  apply (debug_print_writes (fun _ => None) 900 (replicate (Z.to_nat 4096) 7) no_strings (bytes_of "result is 0x%llx") [16]
    (removelast (bytes_of "result is 0x10")) 14 [] demo_world); [done|vm_compute; reflexivity|cbn; lia].
Defined.

(** A longer one makes it read on behind the buffer. *)
Theorem debug_print_overruns {H : Type} {A : Allocator H} (file_io : Z -> option (XTFileIO H)) (gSerialDevice : Z)
  (garbage : list Z) (strings : Z -> option (list Z)) (format va text : list Z) (n : Z) (env : list (Kernel H -> Kernel H)) (w : World H) :
  length garbage = 4096%nat -> _vsnprintf record MESSAGE strings format va [] = Ok n (text ++ [0]) -> 4096 < Z.of_nat (length text) < 2 ^ 31 ->
  xtDebugPrint file_io gSerialDevice garbage strings format va env w = Fault.
Proof.
  intros Hg E Hl. apply record_ok in E as (text' & Et & -> & E); [|rewrite length_app; cbn; lia]. apply app_inj_tail in Et as [<- _].
  unfold xtDebugPrint, local, vsnprintf_. unfold mbind at 1, M_bind at 1. unfold MESSAGE in *. rewrite E, buffer_text by lia. unfold truncated. cbn [Z.eqb].
  change (Z.to_nat (4096 - 1)) with 4095%nat.
  assert (Hs : s32 (Z.of_nat (length text)) = Z.of_nat (length text)) by (unfold s32; rewrite Z.mod_small by lia; lia).
  rewrite Hs, u64_small by lia. rewrite (proj2 (Z.ltb_lt _ _)); [done|]. rewrite length_app. cbn [length]. rewrite length_drop, length_take. lia.
Qed.

(** A panic with one of the codes that have no name does not even print. *)
Theorem panic_without_name {H P : Type} {A : Allocator H} {B : PageAllocator P} (file_io : Z -> option (XTFileIO H)) (gSerialDevice : Z)
  (garbage description : list Z) (return_address instruction : Z) (env : list (Kernel H -> Kernel H)) (w : Machine H P) :
  xtKernelPanic file_io gSerialDevice garbage return_address description instruction XT_TIMEOUT env w = Fault.
Proof. reflexivity. Qed.

(** The names of the dump are in the order of the words of the context, as the code that makes a context has them. *)
Example registers_in_order :
  (length registers * 8)%nat = Z.to_nat CTX_SIZE /\
  (forall name off, (name, off) ∈ [("rcx", CTX_rcx); ("rip", CTX_rip); ("cs", CTX_cs); ("rflags", CTX_rflags); ("rsp", CTX_rsp); ("ss", CTX_ss)]%string ->
    registers !! Z.to_nat (off / 8) = Some name).
Proof. split; [done|]. intros name off Hin. repeat (apply elem_of_cons in Hin as [[= -> ->]|Hin]; [done|]). by apply elem_of_nil in Hin. Qed.

(** A line of the dump: the name in six columns and the sixteen digits of the word. *)
Example register_line :
  _vsnprintf record MESSAGE (fun p => if p =? 1 then Some (bytes_of "rip") else None) register_format [1; 0xffffffff80001234] [] =
    Ok 26 (bytes_of "   rip=0xffffffff80001234 ").
Proof. vm_compute. reflexivity. Qed.
