(* ===== verification/Serial.v ===== *)
(** A message on its way: xtDebugPrint of xtkernel/print.c, xtWriteFile of
    xtkernel/fs.c, xtSerialWrite of xtkernel/arch/x86_64/serial.c, and the port
    of the serial line. The kernel's heap stands beside the devices of the
    machine. *)
From Stdlib Require Import ZArith Lia Ascii String.
From stdpp Require Import base tactics list gmap fin_maps numbers.
From S2P Require Import Prelude Bytes Allocator ListC Io Threads Sync Vfs VfsProof Printf Vsnprintf PrintfProof PrintfSpec RwLock Ports DebugPrint.

Open Scope Z_scope.

(** * The heap and the devices *)

#[export, program] Instance Wired_Allocator {H D} (A : Allocator H) : Allocator (H * D) := {|
  xtHeapAlloc := fun n => zoom fst (fun h x => (h, snd x)) (xtHeapAlloc n);
  xtHeapFree := fun p => zoom fst (fun h x => (h, snd x)) (xtHeapFree p);
  heap_ok := fun h L => heap_ok (fst h) L
|}.
Next Obligation.
  intros H D A [h d] L n p [h' d'] Hk. unfold zoom. cbn. destruct (xtHeapAlloc n h) as [q b| | |] eqn:E; [|done..]. intros [= <- <- <-].
  exact (alloc_fresh _ _ _ _ _ Hk E).
Qed.
Next Obligation.
  intros H D A [h d] L p Hk Hp. destruct (free_live h L p Hk Hp) as (b & E & Hb). exists (b, d). unfold zoom. cbn. by rewrite E.
Qed.
Next Obligation. intros H D A [h d]. unfold zoom. cbn. by rewrite free_null. Qed.

Section Serial.
Context {H D : Type} {A : Allocator H} {B : Bus D}.

Definition on_dev {X} (m : M D X) : M (World (H * D)) X :=
  on_kern (on_mem (on_heap (zoom snd (fun d x => (fst x, d)) m))).

(** [*written] is left as the caller had it: [before]. *)
Definition SerialIO (before : Z) : XTFileIO (H * D) :=
  mkFileIO _ (Some (fun file data offset => on_dev (xtSerialWrite data offset (len data)) ;;; mret (XT_SUCCESS, before)))
    None None None None None None.

(** [io] is the address of SerialIO, [lock_] that of the lock in the file. *)
Definition _gSerialDevice (io lock_ : Z) : XTFile := mkXTFile NULL io NULL XT_FILE_MODE_NONBLOCK lock_ NULL.

(** The statics of [xtSerialInit]: the file and its lock of zeros, and gSerialDevice with the address of the file. *)
Definition serial_file_at (w : World (H * D)) (gSerialDevice io lock_ : Z) : Prop :=
  gSerialDevice <> NULL /\ file_objs w !! gSerialDevice = Some (_gSerialDevice io lock_) /\
  rwlocks (objs (kern w)) !! lock_ = Some (mkRW false 0 NULL NULL).

Definition devices_of (w : World (H * D)) : D := snd (heap (mem (kern w))).

End Serial.

(** * The serial line *)

(** What went out on the line: a byte for each write to the port. *)
Class SerialLine (D : Type) `{Bus D} := {
  sent : D -> list Z;
  sent_law v d : 0 <= v < 2 ^ 8 -> sent (bus_out 1 0x3f8 v d) = sent d ++ [v]
}.

Section Line.
Context {D : Type} {B : Bus D} {L : SerialLine D}.

Lemma serial_sends data : forall d, exists d', xtSerialWrite data 0 (len data) d = Ok tt d' /\ sent d' = sent d ++ map u8 data.
Proof.
  unfold xtSerialWrite. rewrite Nat2Z.id. induction data as [|b data IH]; intros d; [exists d; by rewrite app_nil_r|].
  destruct (IH (bus_out 1 0x3f8 (u8 b) d)) as (d' & E & Hd). exists d'. split; [exact E|]. rewrite Hd, sent_law by apply u8_bound.
  by rewrite <- app_assoc.
Qed.

End Line.

Section Write.
Context {H D : Type} {A : Allocator H} {B : Bus D} {L : SerialLine D}.
Implicit Types w : World (H * D).

Definition set_kern (k : Kernel (H * D)) w : World (H * D) :=
  mkWorld k (path_nodes w) (mounts w) (file_objs w) (fs_objs w) (dirs w) (opened w) (shared w) (dev_objs w) (root w)
    (filesystems w) (openedFiles w) (openedFilesLock w) (devices w) (devLock w).

Lemma on_kern_Ok {X} (m : M (Kernel (H * D)) X) w x k : m (kern w) = Ok x k -> on_kern m w = Ok x (set_kern k w).
Proof. intros E. unfold on_kern, zoom. by rewrite E. Qed.

(** The lock without waiting threads. *)
Definition lock_with (n : Z) : XTRWLock := mkRW false n NULL NULL.

(** The kernel with its devices, interrupt flag and the lock [l] as given. *)
Definition kst (l : Z) (k : Kernel (H * D)) (d : D) (b : bool) (x : XTRWLock) : Kernel (H * D) :=
  st l k (currentThread k) (mkListHeap (fst (heap (mem k)), d) (lists (mem k))) (thr k) b x.

(** [k] after a message: the devices have changed, and interrupts are on. *)
Definition with_devices (d : D) (k : Kernel (H * D)) : Kernel (H * D) :=
  mkKernel (mkListHeap (fst (heap (mem k)), d) (lists (mem k))) (thr k) (threads k) (currentThreadIterator k) (threadCount k) (IdleThread k)
    (currentThread k) true (objs k).

Lemma kst_of l k : rwlocks (objs k) !! l = Some (lock_with 0) -> k = kst l k (snd (heap (mem k))) (interrupts k) (lock_with 0).
Proof. intros E. unfold kst, st. rewrite insert_id by done. by destruct k as [[[]] ? ? ? ? ? ? ? []]. Qed.

Lemma kst_end l k d : rwlocks (objs k) !! l = Some (lock_with 0) -> kst l k d true (lock_with 0) = with_devices d k.
Proof. intros E. unfold kst, st, with_devices. rewrite insert_id by done. by destruct k as [? ? ? ? ? ? ? ? []]. Qed.

(** A lock that nobody holds is taken at once, and given back with nobody to wake. *)
Lemma acquire_free l k d b env : xtAcquireWrite l env (kst l k d b (lock_with 0)) = Ok tt (kst l k d true (lock_with (-1))).
Proof.
  unfold xtAcquireWrite. assert (E : acquire_write_try l (kst l k d b (lock_with 0)) = Ok true (kst l k d true (lock_with (-1)))).
  { unfold acquire_write_try, kst, lock_with. rewrite (bind_Ok _ _ _ _ _ (lock_rw l k _ _ _ _ _ _ _)), (bind_Ok _ _ _ _ _ (load_rw l k _ _ _ _ _)). cbn.
    unfold set_readers. rewrite (bind_Ok _ _ _ _ _ (assign_rw l k _ _ _ _ _ _)). by rewrite (bind_Ok _ _ _ _ _ (unlock_rw l k _ _ _ _ _ _ _)). }
  destruct env; cbn [length acquire_loop]; by rewrite (bind_Ok _ _ _ _ _ E).
Qed.

Lemma release_alone l k d b : xtReleaseWrite l (kst l k d b (lock_with (-1))) = Ok tt (kst l k d true (lock_with 0)).
Proof.
  unfold xtReleaseWrite, kst, lock_with. rewrite (bind_Ok _ _ _ _ _ (lock_rw l k _ _ _ _ _ _ _)). unfold set_readers.
  rewrite (bind_Ok _ _ _ _ _ (assign_rw l k _ _ _ _ _ _)), (bind_Ok _ _ _ _ _ (load_rw l k _ _ _ _ _)). cbn [waitWriters Z.eqb negb].
  assert (Hq : is_list (lists (mem k)) NULL []) by (by split; [|constructor]).
  rewrite (bind_Ok _ _ _ _ _ (rwWakeAll_ok l _ _ _ k _ _ _ _ _ (mkRW true 0 NULL NULL) [] (reader_law l) Hq ltac:(by intros t Ht%elem_of_nil))).
  apply unlock_rw.
Qed.

(** * Writing to the serial device *)

Section Device.
Context (w : World (H * D)) (dev io l before : Z) (file_io : Z -> option (XTFileIO (H * D))).
Context (Hdev : serial_file_at w dev io l) (Hio : file_io io = Some (SerialIO before)).

(** [w] in the middle of the call. *)
Definition during (d : D) (b : bool) (x : XTRWLock) : World (H * D) := set_kern (kst l (kern w) d b x) w.

Lemma during_kern {X} (m : M (Kernel (H * D)) X) d b x v d' b' x' :
  m (kst l (kern w) d b x) = Ok v (kst l (kern w) d' b' x') -> on_kern m (during d b x) = Ok v (during d' b' x').
Proof. intros E. exact (on_kern_Ok m (during d b x) v _ E). Qed.

Lemma during_file d b x : on_file_objs (load dev) (during d b x) = Ok (_gSerialDevice io l) (during d b x).
Proof. destruct Hdev as (_ & E & _). unfold on_file_objs, zoom. cbn [file_objs during set_kern]. by rewrite (load_Ok _ _ _ E). Qed.

Lemma during_lock d b env : xtLockFile dev XT_LOCK_WRITE env (during d b (lock_with 0)) = Ok tt (during d true (lock_with (-1))).
Proof.
  unfold xtLockFile. rewrite (bind_Ok _ _ _ _ _ (check_nonnull dev _ (proj1 Hdev))), (bind_Ok _ _ _ _ _ (during_file d b _)).
  cbn [file_lock file_flags _gSerialDevice]. change (Z.land XT_FILE_MODE_NONBLOCK XT_FILE_MODE_NONBLOCK =? 0) with false. cbn iota.
  erewrite bind_Ok; [apply during_kern, acquire_free|].
  rewrite (bind_Ok _ _ _ _ _ (during_kern _ d _ _ _ _ _ _ (lock_rw l _ _ _ _ b 0 NULL NULL))).
  rewrite (bind_Ok _ _ _ _ _ (during_kern _ d _ _ _ d _ _ (load_rw l _ _ _ _ false _))).
  by rewrite (bind_Ok _ _ _ _ _ (during_kern _ d _ _ _ d _ _ (unlock_rw l _ _ _ _ false 0 NULL NULL))).
Qed.

Lemma during_unlock d b : xtUnlockFile dev XT_LOCK_WRITE (during d b (lock_with (-1))) = Ok tt (during d true (lock_with 0)).
Proof.
  unfold xtUnlockFile. rewrite (bind_Ok _ _ _ _ _ (check_nonnull dev _ (proj1 Hdev))), (bind_Ok _ _ _ _ _ (during_file d b _)).
  apply during_kern, release_alone.
Qed.

(** What is written goes out on the line; but for the devices and the interrupt flag the kernel is as before. *)
Lemma serial_write bs env : exists d,
  xtWriteFile file_io dev (Some bs) 0 env w = Ok (XT_SUCCESS, before) (set_kern (with_devices d (kern w)) w) /\
  sent d = sent (devices_of w) ++ map u8 bs.
Proof.
  destruct (serial_sends bs (devices_of w)) as (d & E & Hs). exists d. split; [|done].
  destruct Hdev as (Hn & Hf & Hl). rewrite <- (kst_end l (kern w) d Hl). fold (during d true (lock_with 0)).
  assert (E0 : w = during (devices_of w) (interrupts (kern w)) (lock_with 0)).
  { unfold during, devices_of. rewrite <- kst_of by done. by destruct w. }
  rewrite E0 at 1. unfold xtWriteFile. rewrite (bind_Ok _ _ _ _ _ (check_nonnull dev _ Hn)).
  assert (Eh : forall d b x, handler file_io dev WriteFile (during d b x) =
    Ok (fun file data offset => on_dev (xtSerialWrite data offset (len data)) ;;; mret (XT_SUCCESS, before)) (during d b x)).
  { intros d' b' x'. unfold handler. rewrite (bind_Ok _ _ _ _ _ (during_file _ _ _)). cbn [file_IO _gSerialDevice]. by rewrite Hio. }
  rewrite (bind_Ok _ _ _ _ _ (Eh _ _ _)), (bind_Ok _ _ _ _ _ (during_lock _ _ _)).
  assert (Ew : on_dev (xtSerialWrite bs 0 (len bs)) (during (devices_of w) true (lock_with (-1))) = Ok tt (during d true (lock_with (-1)))).
  { apply during_kern. unfold on_mem, on_heap, zoom. cbn. unfold zoom. cbn. by rewrite E. }
  unfold attempt. rewrite (bind_Ok _ _ _ (inl (XT_SUCCESS, before)) (during d true (lock_with (-1)))) by by rewrite (bind_Ok _ _ _ _ _ Ew).
  rewrite (bind_Ok _ _ _ _ _ (during_file _ _ _)). cbn [file_event _gSerialDevice].
  rewrite (bind_Ok _ _ _ tt (during d true (lock_with (-1)))) by done.
  by rewrite (bind_Ok _ _ _ _ _ (out_or_Ok _ _ _ _ _ (during_unlock _ _))).
Qed.

End Device.

(** * The theorem *)

(** C16: A message of the kernel goes from the format to the wire: what the items of the format mean goes out on the serial line, byte by byte and in order, if it is shorter than the buffer on the stack, and the call gives its length; the kernel is as before but for its devices and for interrupts, which are on. A message longer than the buffer is read on behind it. *)
Theorem message_on_the_line (w : World (H * D)) (dev io l before : Z) (file_io : Z -> option (XTFileIO (H * D)))
  (strings : Z -> option (list Z)) (items : list item) (garbage rest va : list Z) (env : list (Kernel (H * D) -> Kernel (H * D))) :
  serial_file_at w dev io l -> file_io io = Some (SerialIO before) -> length garbage = 4096%nat ->
  Forall (item_ok strings) items -> len items < 2 ^ 30 ->
  exists texts, Forall2 (renders strings) items texts /\ (forall texts', Forall2 (renders strings) items texts' -> texts' = texts) /\
    let text := concat texts in
    let print := xtDebugPrint file_io dev garbage strings (format_of items ++ 0 :: rest) (arguments_of items ++ va) env w in
    (len text < 4096 -> exists d,
      print = Ok (len text) (set_kern (with_devices d (kern w)) w) /\ sent d = sent (devices_of w) ++ map u8 text) /\
    (4096 < len text < 2 ^ 31 -> print = Fault).
Proof.
  intros Hdev Hio Hg Hi Hn. destruct (items_print strings items Hi) as (texts & H1 & H2 & H3). exists texts. split; [done|]. split; [intros texts' H'; by apply (texts_unique strings items)|]. intros text print.
  assert (Er : len text < 2 ^ 31 ->
    _vsnprintf record MESSAGE strings (format_of items ++ 0 :: rest) (arguments_of items ++ va) [] = Ok (len text) (text ++ [0])).
  { intros Hl. unfold _vsnprintf.
    rewrite (bind_cong _ _ _ _ (H3 _ record MESSAGE (Datatypes.S (length (format_of items ++ 0 :: rest))) 0 rest va [] ltac:(rewrite length_app; cbn [length]; lia) ltac:(lia) ltac:(lia))).
    fold text. unfold mbind, M_bind. rewrite record_chars, app_nil_l, u64_small by lia. unfold terminate, record, mbind, M_bind, mret, M_ret.
    f_equal. unfold s32. rewrite Z.mod_small; lia. }
  split; intros Hl.
  - destruct (serial_write w dev io l before file_io Hdev Hio text env) as (d & Ed & Hd). exists d. split; [|done].
    unfold print. rewrite (debug_print_writes file_io dev garbage strings _ _ text (len text) env w Hg (Er ltac:(lia)) ltac:(lia)).
    by rewrite (bind_Ok _ _ _ _ _ (out_or_Ok _ _ _ _ _ Ed)).
  - assert (E := Er ltac:(lia)). unfold print. by rewrite (debug_print_overruns file_io dev garbage strings _ _ text (len text) env w Hg E Hl).
Qed.

End Write.

(** * A machine with nothing but the line *)

#[export] Instance line_bus : Bus (list Z) :=
  {| bus_in _ _ d := (0, d); bus_out _ port v d := if port =? 0x3f8 then d ++ [v] else d; mmio_in _ _ d := (0, d); mmio_out _ _ _ d := d |}.

#[export, program] Instance plain_line : SerialLine (list Z) := {| sent d := d |}.
Next Obligation. done. Qed.

Definition line_world : World (Bump * list Z) :=
  mkWorld (mkKernel (mkListHeap (bump_empty, [62; 32]) ∅) ∅ NULL NULL 0 NULL NULL false (mkObjects ∅ {[520 := mkRW false 0 NULL NULL]} ∅))
    ∅ ∅ {[500 := _gSerialDevice 540 520]} ∅ ∅ ∅ ∅ ∅ NULL NULL NULL false NULL false.

Definition line_io (p : Z) : option (XTFileIO (Bump * list Z)) := if p =? 540 then Some (SerialIO 0) else None.

Lemma line_file : serial_file_at line_world 500 540 520.
Proof. by repeat split. Qed.

(** "pid %-4d handle 0x%08llx: %s (100%%)" *)
Lemma message_on_the_line_witness : exists texts, Forall2 (renders demo_strings) demo_items texts /\
  (forall texts', Forall2 (renders demo_strings) demo_items texts' -> texts' = texts) /\
  let text := concat texts in
  let print := xtDebugPrint line_io 500 (replicate (Z.to_nat 4096) 7) demo_strings (format_of demo_items ++ [0]) (arguments_of demo_items ++ []) [] line_world in
  (len text < 4096 -> exists d,
    print = Ok (len text) (set_kern (with_devices d (kern line_world)) line_world) /\ sent d = sent (devices_of line_world) ++ map u8 text) /\
  (4096 < len text < 2 ^ 31 -> print = Fault).
Proof.
  apply (message_on_the_line line_world 500 540 520 0 line_io demo_strings demo_items (replicate (Z.to_nat 4096) 7) [] [] []);
    [exact line_file|done|done| |cbn; lia].
  repeat constructor; try done; try lia. exists (removelast (bytes_of "open")), []. split; [done|]. split; [repeat constructor; done|cbn; lia].
Defined.

Example message_sent :
  match xtDebugPrint line_io 500 (replicate (Z.to_nat 4096) 7) demo_strings (format_of demo_items ++ [0]) (arguments_of demo_items) [] line_world with
  | Ok n w => (n, devices_of w ++ [0]) = (39, bytes_of "> pid -7   handle 0x0000beef: open (100%)")
  | _ => False
  end.
Proof. vm_compute. reflexivity. Qed.
