(* ===== verification/Start.v ===== *)
(** The start of the kernel: the second half of xtKernelMain, from the scheduler
    on, and the first thread, waitThread (xtkernel/main.c). The first half, the
    memory, the firmware's tables and the processor, are Memory.v, Acpi.v,
    Gdt.v and Ports.v, over states of their own. *)
From Stdlib Require Import ZArith Lia String.
From stdpp Require Import base tactics list gmap fin_maps numbers.
From S2P Require Import Prelude Allocator Handles ListC CString Io Threads Vfs Printf Vsnprintf PrintfProof Radix Paging Ports Acpi System Vm Process ProcessProof Linker DebugPrint.

Open Scope Z_scope.

(** * State *)

(** The machine with its firmware's tables, and bKernelWasInitialised. *)
Record Computer (H P D : Type) := mkComputer { machine : Machine H P; platform : Platform D; bKernelWasInitialised : bool }.

Arguments mkComputer {H P D} _ _ _.
Arguments machine {H P D} _.
Arguments platform {H P D} _.
Arguments bKernelWasInitialised {H P D} _.

(** The addresses of what is static in the kernel: objects, functions, tables
    of handlers. *)
Record Statics := mkStatics {
  kernelProcess : Z;
  idle_function : Z;
  waitThread_function : Z;
  user_exit : Z;
  freeInternal : Z;
  rootMP : Z;
  tarfs : Z;
  initrd : Z;
  initrdIO : Z;
  initrdData : Z;
  gSerialDevice : Z
}.

Definition XT_STDIN : Z := 0.

Definition XT_STDOUT : Z := 1.

Definition XT_STDERR : Z := 2.

Definition XT_DESCRIPTOR_TYPE_FILE : Z := 2.

Section Start.
Context {H P D : Type} {A : Allocator H} {B : PageAllocator P} {C : Bus D}.
Variables (file_io : Z -> option (XTFileIO H)) (fs_io : Z -> option (XTFileSystemIO H)) (firmware : Z -> option (list Z)).
Variables (st : Statics) (junk : Junk) (junk_process : XTProcess) (file_name : string).

Notation CM := (M (Computer H P D)).
Notation Env := (list (Kernel H -> Kernel H)).

Definition on_machine {X} (m : M (Machine H P) X) : CM X :=
  zoom machine (fun x c => mkComputer x (platform c) (bKernelWasInitialised c)) m.

Definition on_platform {X} (m : M (Platform D) X) : CM X :=
  zoom platform (fun x c => mkComputer (machine c) x (bKernelWasInitialised c)) m.

Definition on_system {X} (m : M (System H P) X) : CM X := on_machine (on_sys m).

(** [%d:%s:%s\n]; the text of the expression and the name of the result are
    passed too, and not printed. *)
Definition assert_format : list Z := removelast (bytes_of "%d:%s:%s") ++ [10; 0].

(** The names of the file and of the function lie at the addresses 1 and 2. *)
Definition assert_strings (function : string) (p : Z) : option (list Z) :=
  if p =? 1 then Some (bytes_of file_name) else if p =? 2 then Some (bytes_of function) else None.

Definition XT_ASSERT {X} (garbage : list Z) (return_address : Z) (env : Env) (function : string) (line : Z) (m : CM X) : CM X :=
  r ← attempt m;
  match r with
  | inl x => mret x
  | inr c =>
    _ ← xtResultToStr c;
    out_or 0 (on_machine (on_files (xtDebugPrint file_io (gSerialDevice st) garbage (assert_strings function) assert_format [line; 1; 2] env))) ;;;
    on_machine (xtKernelPanic file_io (gSerialDevice st) garbage return_address (bytes_of "ASSERT:") NULL c env) ;;;
    nofuel
  end.

(** * waitThread *)

(** [xtDuplicateHandle(process, ...)] of the serial device, its result dropped. *)
Definition give_serial (process_ position access_ : Z) : CM unit :=
  out_or tt (on_system (on_handles process_ (xtDuplicateHandle position access_ XT_DESCRIPTOR_TYPE_FILE (gSerialDevice st)))).

Definition result_format : list Z := removelast (bytes_of "result is 0x%llx") ++ [10; 0].

Definition init_program : list Z := bytes_of "/initrd/xtinit.xte".

(** The arguments of the environment are what the other threads do during the
    messages, the wait and the end of the thread. *)
Definition waitThread (fuel : nat) (garbage : list Z) (return_address : Z) (panics waits last_ : Env) : CM unit :=
  let check {X} line (m : CM X) := XT_ASSERT garbage return_address panics "waitThread"%string line m in
  process_ ← check 41 (on_system (xtCreateProcess junk_process NULL 0));
  give_serial process_ XT_STDOUT (Z.lor XT_FILE_MODE_READ XT_FILE_MODE_WRITE) ;;;
  give_serial process_ XT_STDIN XT_FILE_MODE_READ ;;;
  give_serial process_ XT_STDERR XT_FILE_MODE_WRITE ;;;
  out_or tt (on_machine (xtInsertKernelModule junk (freeInternal st))) ;;;
  mainThread ← check 78
    (on_machine (xtExecuteProgram file_io fs_io junk (freeInternal st) (user_exit st) process_ [init_program] None));
  result ← out_or NULL (on_system (xtWaitForThread mainThread waits));
  out_or 0 (on_machine (on_files (xtDebugPrint file_io (gSerialDevice st) garbage no_strings result_format [result] panics))) ;;;
  out_or tt (on_platform (xtShutdown firmware XT_SHUTDOWN_POWER_OFF)) ;;;
  currentThread ← on_system xtGetCurrentThread;
  out_or [] (on_system (xtTerminateThread fuel currentThread XT_SUCCESS last_)) ;;;
  mret tt.

(** * xtKernelMain *)

(** From the scheduler to the first switch: the thread that runs first is the
    one at the head of the list. *)
Definition start_threads (garbage : list Z) (return_address : Z) (panics : Env) : CM Z :=
  let check {X} line (m : CM X) := XT_ASSERT garbage return_address panics "xtKernelMain"%string line m in
  check 111 (on_system (xtSchedulerInit (junk_thread junk) (junk_map junk) (user_exit st) (kernelProcess st) (idle_function st))) ;;;
  check 112 (on_machine (on_files (xtFileSystemInit (rootMP st)))) ;;;
  check 113 (on_machine (on_files (xtRamDiskInit fs_io (tarfs st) (initrd st) (initrdIO st) (initrdData st)))) ;;;
  wait ← check 116 (on_system (xtCreateThread (junk_thread junk) (junk_map junk) (user_exit st) (kernelProcess st) (waitThread_function st) 0 NULL XT_THREAD_RUN_STATE));
  first ← on_system (gets (fun s => threads (System.kern s)));
  thread ← out_or NULL (on_system (on_nodes (xtGetListData first)));
  on_system (xtSetCurrentThread thread) ;;;
  modify (fun c => mkComputer (machine c) (platform c) true) ;;;
  mret wait.

End Start.

(** * A start on an example *)

(** The kernel's process is at 16, its page table at 0x1000; the RAM disk at 900
    is a file whose file system mounts. *)
Definition start_statics : Statics := mkStatics 16 0x5000 0x6000 0x7000 0x7100 300 400 900 910 920 930.

Definition tar_io : XTFileSystemIO Bump := mkFSIO _ None None None None (Some (fun _ => mret tt)) None None None.

Definition start_fs_io (p : Z) : option (XTFileSystemIO Bump) := if p =? 500 then Some tar_io else None.

Definition start_kernel : Kernel Bump := mkKernel (mkListHeap bump_empty ∅) ∅ NULL NULL 0 NULL NULL false (mkObjects ∅ ∅ ∅).

Definition start_machine : Machine Bump (list Z) :=
  mkMachine
    (mkSystem start_kernel (mkPaging [0x8000; 0x10000; 0x20000] {[0x1000 := zero_table]}) ∅ ∅ {[16 := mkProcess NULL NULL NULL NULL NULL NULL 0 0 0]}
       ∅ ∅ NULL 0 0 0x1000)
    (mkWorld start_kernel ∅ {[300 := mkMount NULL NULL NULL]} {[900 := mkXTFile NULL NULL NULL 0 901 NULL; 930 := mkXTFile NULL 940 NULL 0 931 NULL]}
       {[400 := mkFileSystem [116; 97; 114; 102; 115; 0] 500]} ∅ ∅ ∅ ∅ NULL NULL NULL false NULL false)
    ∅ ∅ NULL.

Definition start_computer : Computer Bump (list Z) Pics :=
  mkComputer start_machine (mkPlatform (mkChip 0 0x20 4 1 0xFE, mkChip 0 0x28 2 1 0xEF) NULL NULL NULL 0 NULL false) false.

Definition start_junk : Junk := mkJunk [] 0 0 (demo_map 0 0) (demo_thread 0 0 0).

(** What is left of a start that one looks at: the state of the machine's part of the kernel. *)
Definition started (o : outcome (Computer Bump (list Z) Pics) Z) : option (Z * Kernel Bump * gmap Z Z * World Bump) :=
  match o with Ok wait c => Some (wait, System.kern (sys (machine c)), words (sys (machine c)), fsys (machine c)) | _ => None end.

(** The idle thread runs first; behind it in the list is the thread that starts waitThread, runnable and of the kernel's process; the root directory is the one of the RAM disk. *)
Example start_runs_idle_first :
  match started (start_threads (fun _ => None) start_fs_io start_statics start_junk "main.c"%string [] 0 [] start_computer) with
  | Some (wait, k, ws, w) =>
    currentThread k = IdleThread k /\ wait <> IdleThread k /\
    (t ← thr k !! wait; ws !! phys (context t + CTX_rip)) = Some 0x6000 /\ (t ← thr k !! wait; Some (state t, process t)) = Some (1, 16) /\
    (l ← lists (mem k) !! threads k; n ← lists (mem k) !! next l; Some (data l, data n)) = Some (IdleThread k, wait) /\
    (r ← path_nodes w !! root w; m ← mounts w !! node_mp r; Some (mp_fs m, mp_device m)) = Some (400, 900)
  | None => False
  end.
Proof. vm_compute. repeat split; discriminate. Qed.

(** Without memory for the idle thread's object the start ends in a panic that finds no module, and so in the halt. *)
Example start_without_memory :
  let c := mkComputer (mkMachine (with_paging (mkPaging [] {[0x1000 := zero_table]}) (sys start_machine)) (fsys start_machine) ∅ ∅ NULL) (platform start_computer) false in
  start_threads (fun _ => None) start_fs_io start_statics start_junk "main.c"%string (replicate (Z.to_nat 4096) 0) 0 [] c = OutOfFuel.
Proof. vm_compute. reflexivity. Qed.
