(* ===== verification/User.v ===== *)
(** System calls: xtkernel/user.c, the copies from and to the memory of a
    program in xtkernel/arch/x86_64/mem.asm, and the table of calls of
    xtkernel/arch/x86_64/syscall.c. *)
From Stdlib Require Import ZArith Lia.
From stdpp Require Import base tactics list gmap fin_maps numbers.
From S2P Require Import Prelude Bytes Allocator SharedPtr Handles ListC Threads Sync Io Vfs Radix Paging System Vm Process ProcessProof Linker.
From S2P Require Pipe.

Open Scope Z_scope.

(** * Data *)

Definition XT_CURRENT_PROCESS : Z := 2 ^ 64 - 1.

Definition XT_CURRENT_THREAD : Z := 2 ^ 64 - 2.

Definition XT_DESCRIPTOR_TYPE_PROCESS : Z := 1.

Definition XT_DESCRIPTOR_TYPE_FILE : Z := 2.

Definition XT_DESCRIPTOR_TYPE_THREAD : Z := 4.

(** The machine and the pipes, whose file objects pipe.c makes itself. *)
Record UserState (H P : Type) := mkUser {
  machine : Machine H P;
  upipes : gmap Z Pipe.XTPipeData;
  uevents : gmap Z bool;
  ufiles : gmap Z Pipe.XTFile
}.

Arguments mkUser {H P} _ _ _ _.
Arguments machine {H P} _.
Arguments upipes {H P} _.
Arguments uevents {H P} _.
Arguments ufiles {H P} _.

Section User.
Context {H P : Type} {A : Allocator H} {B : PageAllocator P}.

(** What an access of the kernel to an address of the current program does:
    a byte, or a page fault. Nothing keeps the address out of the kernel's half. *)
Variables (u_load : Machine H P -> Z -> option Z) (u_store : Machine H P -> Z -> Z -> option (Machine H P)).

Variables (file_io : Z -> option (XTFileIO H)) (fs_io : Z -> option (XTFileSystemIO H)).

(** The addresses of [pipeWriteIO] and [pipeReadIO]. *)
Variables (write_io read_io : Z).

Notation UM := (M (UserState H P)).
Notation Env := (list (Kernel H -> Kernel H)).

Definition on_machine {X} (m : M (Machine H P) X) : UM X :=
  zoom machine (fun x s => mkUser x (upipes s) (uevents s) (ufiles s)) m.

Definition on_system {X} (m : M (System H P) X) : UM X := on_machine (on_sys m).

(** The heap of the kernel is that of the pipes. *)
Definition on_pipe_state {X} (m : M (Pipe.PipeState H) X) : UM X :=
  zoom (fun s => Pipe.mkPState (ListC.heap (mem (System.kern (sys (machine s))))) (upipes s) (uevents s) (ufiles s))
    (fun p s => let w := machine s in
       mkUser (mkMachine (with_lheap (mkListHeap (Pipe.heap p) (nodes (sys w))) (sys w)) (fsys w) (module_objs w) (images w) (modules w))
         (Pipe.pipes p) (Pipe.events p) (Pipe.files p)) m.

(** * mem.asm *)

(** [xtCopyFromUser]: the bytes that were copied before a fault, or all [n]. *)
Fixpoint copy_from (n : nat) (src : Z) (w : Machine H P) : list Z :=
  match n with
  | O => []
  | S n => match u_load w src with None => [] | Some b => b :: copy_from n (u64 (src + 1)) w end
  end.

(** The code and the bytes. A NULL destination faults at the first byte. *)
Definition xtCopyFromUser (dst src size : Z) : UM (Z * list Z) := fun s =>
  let bs := if dst =? NULL then [] else copy_from (Z.to_nat size) src (machine s) in
  Ok (if (length bs <? Z.to_nat size)%nat then XT_ACCESS_VIOLATION else XT_SUCCESS, bs) s.

Fixpoint copy_to_user (dst : Z) (bs : list Z) (w : Machine H P) : Z * Machine H P :=
  match bs with
  | [] => (XT_SUCCESS, w)
  | b :: bs => match u_store w dst b with None => (XT_ACCESS_VIOLATION, w) | Some w => copy_to_user (u64 (dst + 1)) bs w end
  end.

(** The code. The bytes before a fault have been written. *)
Definition xtCopyToUser (dst : Z) (bs : list Z) : UM Z := fun s =>
  let '(c, w) := copy_to_user dst bs (machine s) in Ok c (mkUser w (upipes s) (uevents s) (ufiles s)).

(** A word of the program's memory, low bytes first. *)
Definition user_word (w : Machine H P) (a : Z) : option Z :=
  let bs := copy_from 8 a w in if (length bs =? 8)%nat then Some (of_le bs) else None.

(** [xtGetArgsCount]: the count so far when a word faults. *)
Fixpoint args_count (fuel : nat) (args count : Z) (w : Machine H P) : option Z :=
  match user_word w args with
  | None => Some count
  | Some a => if a =? 0 then Some count
              else match fuel with O => None | S fuel => args_count fuel (u64 (args + 8)) (count + 1) w end
  end.

Definition xtGetArgsCount (fuel : nat) (args : Z) : UM Z := fun s =>
  match (if args =? NULL then Some 0 else args_count fuel args 0 (machine s)) with Some n => Ok n s | None => OutOfFuel end.

Fixpoint user_strlen (fuel : nat) (str n : Z) (w : Machine H P) : option Z :=
  match u_load w str with
  | None => Some n
  | Some b => if b =? 0 then Some n
              else match fuel with O => None | S fuel => user_strlen fuel (u64 (str + 1)) (n + 1) w end
  end.

Definition xtUserGetStringLength (fuel : nat) (str : Z) : UM Z := fun s =>
  match (if str =? NULL then Some 0 else user_strlen fuel str 0 (machine s)) with Some n => Ok n s | None => OutOfFuel end.

(** * user.c *)

Definition current_process : UM Z := on_system xtGetCurrentProcess.

(** The descriptor behind a handle of the current process. *)
Definition get_handle (process_ handle : Z) : UM Z := on_system (on_handles process_ (xtGetHandle handle)).

Definition load_desc (d : Z) : UM XTDescriptor := deref (fun s => descriptors (sys (machine s)) !! d).

Definition kalloc (n : Z) : UM Z := on_system (halloc n).

Definition kfree (p : Z) : UM unit := out_or tt (on_system (hfree p)).

(** A result code that is returned. *)
Definition done (code : Z) : UM unit := if code =? XT_SUCCESS then mret tt else throw code.

(** The checks of [xtUserWriteFile] and [xtUserReadFile]: the file of a handle
    with the right [mode]. Only [XT_NOT_FOUND] is caught before the
    descriptor is read. *)
Definition file_of_handle (handleId mode : Z) : UM Z :=
  process_ ← current_process;
  r ← attempt (get_handle process_ handleId);
  match r with
  | inr c => if c =? XT_NOT_FOUND then throw XT_INVALID_PARAMETER else fault
  | inl desc_ =>
    d ← load_desc desc_;
    if negb (type d =? XT_DESCRIPTOR_TYPE_FILE) then throw XT_INVALID_PARAMETER
    else if Z.land (access d) mode =? 0 then throw XT_ACCESS_DENIED
    else mret (desc d)
  end.

Definition xtUserWriteFile (handleId data offset size written : Z) (env : Env) : UM unit :=
  file ← file_of_handle handleId XT_FILE_MODE_WRITE;
  newData ← out_or NULL (kalloc size);
  '(result, bs) ← xtCopyFromUser newData data size;
  if result =? XT_ACCESS_VIOLATION then kfree newData ;;; throw result
  else
    r ← attempt (on_machine (on_files (xtWriteFile file_io file (if newData =? NULL then None else Some bs) offset env)));
    let '(result, temp_written) := match r with inl x => x | inr c => (c, 0) end in
    xtCopyToUser written (le 8 temp_written) ;;;
    kfree newData ;;;
    done result.

(** The buffer is not freed when the copy faults. *)
Definition xtUserReadFile (handleId data offset size read : Z) (env : Env) : UM unit :=
  file ← file_of_handle handleId XT_FILE_MODE_READ;
  newData ← kalloc size;
  r ← attempt (on_machine (on_files (xtReadFile file_io file newData offset size env)));
  let '(result, bs) := match r with inl x => x | inr c => (c, []) end in
  copyResult ← xtCopyToUser data bs;
  if copyResult =? XT_ACCESS_VIOLATION then throw copyResult
  else
    kfree newData ;;;
    xtCopyToUser read (le 8 (len bs)) ;;;
    done result.

(** The type of the object is not looked at. *)
Definition xtUserTerminateThread (fuel : nat) (handleId code : Z) (env : Env) : UM Env :=
  thread ← (if handleId =? XT_CURRENT_THREAD then on_system xtGetCurrentThread
            else
              currentProcess ← current_process;
              desc_ ← get_handle currentProcess handleId;
              d ← load_desc desc_;
              mret (desc d));
  on_system (xtTerminateThread fuel thread code env).

(** The process a handle stands for. *)
Definition process_of_handle (currentProcess processHandle : Z) : UM Z :=
  if processHandle =? XT_CURRENT_PROCESS then mret currentProcess
  else
    desc_ ← get_handle currentProcess processHandle;
    d ← load_desc desc_;
    if negb (type d =? XT_DESCRIPTOR_TYPE_PROCESS) then throw XT_INVALID_PARAMETER else mret (desc d).

Definition duplicate (process_ handle access_ type_ desc_ : Z) : UM unit :=
  on_system (on_handles process_ (xtDuplicateHandle handle access_ type_ desc_)).

Definition free_handle (process_ : Z) : UM Z := on_system (on_handles process_ xtFindFreeHandle).

Definition xtUserDuplicateHandle (handle processHandle toSetHandle : Z) : UM unit :=
  currentProcess ← current_process;
  anotherProcess ← process_of_handle currentProcess processHandle;
  desc_ ← get_handle currentProcess handle;
  d ← load_desc desc_;
  duplicate anotherProcess toSetHandle (access d) (type d) (desc d).

(** The two file objects as fs.c sees them: cleared but for the table, the data
    and the flags. *)
Definition publish (file io : Z) : UM unit :=
  f ← deref (fun s => ufiles s !! file);
  on_machine (on_files (on_file_objs (create file (mkXTFile NULL io (Pipe.data f) (Pipe.flags f) NULL NULL)))).

Definition create_pipe (garbage bufferSize : Z) : UM (Z * Z) :=
  '(writePipe, readPipe) ← on_pipe_state (Pipe.xtCreatePipe garbage bufferSize);
  publish writePipe write_io ;;;
  publish readPipe read_io ;;;
  mret (writePipe, readPipe).

(** A search for a free handle that fails leaves the handle at 0. *)
Definition xtUserCreatePipe (garbage writeHandle readHandle bufferSize : Z) : UM unit :=
  process_ ← current_process;
  '(writePipe, readPipe) ← create_pipe garbage bufferSize;
  writeHandleId ← out_or 0 (free_handle process_);
  duplicate process_ writeHandleId XT_FILE_MODE_WRITE XT_DESCRIPTOR_TYPE_FILE writePipe ;;;
  xtCopyToUser writeHandle (le 8 writeHandleId) ;;;
  readHandleId ← out_or 0 (free_handle process_);
  duplicate process_ readHandleId XT_FILE_MODE_READ XT_DESCRIPTOR_TYPE_FILE readPipe ;;;
  xtCopyToUser readHandle (le 8 readHandleId) ;;;
  mret tt.

Definition xtUserCreateProcess (junk : XTProcess) (parentProcessHandle flags_ newProcessHandle : Z) : UM unit :=
  currentProcess ← current_process;
  process_ ← process_of_handle currentProcess parentProcessHandle;
  newProcess ← on_system (xtCreateProcess junk process_ flags_);
  newProcessHandleId ← free_handle currentProcess;
  duplicate currentProcess newProcessHandleId 0 XT_DESCRIPTOR_TYPE_PROCESS newProcess ;;;
  copyResult ← xtCopyToUser newProcessHandle (le 8 newProcessHandleId);
  done copyResult.

(** The function is empty: it returns what a register holds. *)
Definition xtUserCloseHandle (register handle : Z) : UM unit := done register.

(** One string of the arguments: the terminator is not copied. [after] is what
    follows in the memory of the heap. *)
Definition copy_arg (fuel : nat) (after : list Z) (arg : Z) : UM (list Z) :=
  '(_, w) ← xtCopyFromUser 1 arg 8;
  let karg := of_le (take 8 (w ++ replicate 8 0)) in
  n ← xtUserGetStringLength fuel karg;
  p ← out_or NULL (kalloc (n + 1));
  '(_, bs) ← xtCopyFromUser p karg n;
  mret (bs ++ drop (length bs) (replicate (Z.to_nat n) 0) ++ after).

Fixpoint copy_args (fuel : nat) (after : list Z) (n : nat) (args : Z) : UM (list (list Z)) :=
  match n with
  | O => mret []
  | S n => a ← copy_arg fuel after args; rest ← copy_args fuel after n (u64 (args + 8)); mret (a :: rest)
  end.

(** [kargs] has no NULL at its end: [more] are the strings that the memory
    behind it seems to hold, up to a NULL. *)
Definition xtUserExecuteProgram (fuel : nat) (junk : Junk) (freeInternal user_exit : Z) (after : list Z) (more : list (list Z))
    (processHandle args envp mainThread : Z) : UM unit :=
  currentProcess ← current_process;
  process_ ← process_of_handle currentProcess processHandle;
  argc ← xtGetArgsCount fuel args;
  out_or NULL (kalloc (u64 (argc * 8))) ;;;
  kargs ← copy_args fuel after (Z.to_nat argc) args;
  mainThreadPtr ← on_machine (xtExecuteProgram file_io fs_io junk freeInternal user_exit process_ (kargs ++ more) None);
  mainThreadId ← out_or 0 (free_handle currentProcess);
  duplicate currentProcess mainThreadId 0 XT_DESCRIPTOR_TYPE_THREAD mainThreadPtr ;;;
  c ← xtCopyToUser mainThread (le 8 mainThreadId);
  done c.

(** * syscall.c *)

(** The fifth argument, from the stack of the program; 0 when it faults at once. *)
Definition stack_argument (user_stack : Z) : UM Z :=
  '(_, bs) ← xtCopyFromUser 1 (u64 (user_stack + 40)) 8;
  mret (of_le (take 8 (bs ++ replicate 8 0))).

Definition xtSyscallWriteFile (arg0 arg1 arg2 arg3 user_stack : Z) (env : Env) : UM unit :=
  arg4 ← stack_argument user_stack;
  xtUserWriteFile arg0 arg1 arg2 arg3 arg4 env.

Definition xtSyscallReadFile (arg0 arg1 arg2 arg3 user_stack : Z) (env : Env) : UM unit :=
  arg4 ← stack_argument user_stack;
  xtUserReadFile arg0 arg1 arg2 arg3 arg4 env.

(** The table the system call instruction goes through; [rax] is the number, and
    nothing keeps it below 7. The results are those the program sees. *)
Definition xtSyscallArray (fuel : nat) (junk : Junk) (junk_process : XTProcess) (freeInternal user_exit : Z) (after : list Z) (more : list (list Z))
    (rax arg0 arg1 arg2 arg3 user_stack : Z) (env : Env) : UM unit :=
  if rax =? 0 then xtUserTerminateThread fuel arg0 arg1 env ;;; mret tt
  else if rax =? 1 then xtSyscallWriteFile arg0 arg1 arg2 arg3 user_stack env
  else if rax =? 2 then xtSyscallReadFile arg0 arg1 arg2 arg3 user_stack env
  else if rax =? 3 then xtUserCreatePipe (junk_byte junk) arg0 arg1 arg2
  else if rax =? 4 then xtUserCreateProcess junk_process arg0 arg1 arg2
  else if rax =? 5 then xtUserDuplicateHandle arg0 arg1 arg2
  else if rax =? 6 then xtUserExecuteProgram fuel junk freeInternal user_exit after more arg0 arg1 arg2 arg3
  else fault.

(** * What a handle lets a program do *)

Implicit Types (s : UserState H P).

(** The current process is [process_], whose record is [p]. *)
Definition runs s (process_ : Z) (p : XTProcess) : Prop :=
  exists t, threads_of (sys (machine s)) !! currentThread (System.kern (sys (machine s))) = Some t /\
    process t = process_ /\ procs (sys (machine s)) !! process_ = Some p.

(** The descriptor a handle of [p] is bound to. *)
Definition bound s (p : XTProcess) (h : Z) : option XTDescriptor :=
  lookup_handle (handles_of (proot p) (sys (machine s))) h ≫= fun d => descriptors (sys (machine s)) !! d.

(** Every bound handle has its descriptor. *)
Definition descriptors_there s (p : XTProcess) : Prop :=
  (exists own, Handles.labelled (handles_of (proot p) (sys (machine s))) own) /\
  forall h d, lookup_handle (handles_of (proot p) (sys (machine s))) h = Some d -> is_Some (descriptors (sys (machine s)) !! d).

(** Why an access of the kind [mode] to a file is refused. *)
Definition refusal (mode : Z) (o : option XTDescriptor) : option Z :=
  match o with
  | None => Some XT_INVALID_PARAMETER
  | Some d => if negb (type d =? XT_DESCRIPTOR_TYPE_FILE) then Some XT_INVALID_PARAMETER
              else if Z.land (access d) mode =? 0 then Some XT_ACCESS_DENIED else None
  end.

Lemma on_system_read {X} s (m : M (System H P) X) x : m (sys (machine s)) = Ok x (sys (machine s)) -> on_system m s = Ok x s.
Proof. intros E. unfold on_system, on_machine, on_sys, zoom. rewrite E. by destruct s as [[]]. Qed.

Lemma on_system_refuse {X} s (m : M (System H P) X) c : m (sys (machine s)) = Err c (sys (machine s)) -> on_system m s = Err c s.
Proof. intros E. unfold on_system, on_machine, on_sys, zoom. rewrite E. by destruct s as [[]]. Qed.

Lemma current_process_ok s process_ p : runs s process_ p -> current_process s = Ok process_ s.
Proof.
  intros (t & Ht & Hp & _). apply on_system_read. unfold xtGetCurrentProcess.
  rewrite (bind_Ok _ _ _ (currentThread (System.kern (sys (machine s)))) (sys (machine s))) by done.
  rewrite (bind_Ok _ _ _ _ _ (tload_ok _ _ _ Ht)). by rewrite Hp.
Qed.

(** Reading the handle table changes nothing. *)
Lemma handles_read {X} (y : System H P) process_ p (m : M (HandleState H) X) :
  procs y !! process_ = Some p ->
  match m (handles_of (proot p) y) with
  | Ok x h => h = handles_of (proot p) y -> on_handles process_ m y = Ok x y
  | Err c h => h = handles_of (proot p) y -> on_handles process_ m y = Err c y
  | Fault => on_handles process_ m y = Fault
  | OutOfFuel => on_handles process_ m y = OutOfFuel
  end.
Proof.
  intros Hp. unfold on_handles. rewrite (bind_Ok _ _ _ _ _ (load_proc y _ _ Hp)). unfold zoom.
  assert (with_handles process_ p (handles_of (proot p) y) y = y) as Hw.
  { unfold with_handles, handles_of. cbn. destruct y as [k ? ? ? ps ? ? ? ? ? ?]; cbn in *. f_equal.
    - by destruct k as [[]]. - apply insert_id. by destruct p. }
  destruct (m _); try done; intros ->; by rewrite Hw.
Qed.

Lemma get_handle_read s process_ p h : runs s process_ p -> descriptors_there s p -> handle_ok h ->
  get_handle process_ h s = match lookup_handle (handles_of (proot p) (sys (machine s))) h with
                            | Some d => Ok d s | None => Err XT_NOT_FOUND s end.
Proof.
  intros (t & _ & _ & Hp) ((own & Hl) & _) Hh. unfold get_handle.
  pose proof (handles_read (sys (machine s)) process_ p (xtGetHandle h) Hp) as R. rewrite (get_handle_ok _ own h Hl Hh) in R.
  destruct (lookup_handle _ h); [apply on_system_read|apply on_system_refuse]; by apply R.
Qed.

Lemma refused_file s process_ p h mode c : runs s process_ p -> descriptors_there s p -> handle_ok h ->
  refusal mode (bound s p h) = Some c -> file_of_handle h mode s = Err c s.
Proof.
  intros Hr Hd Hh Hc. unfold file_of_handle. rewrite (bind_Ok _ _ _ _ _ (current_process_ok s process_ p Hr)).
  unfold attempt, mbind at 1, M_bind at 1. rewrite (get_handle_read s process_ p h Hr Hd Hh). unfold bound in Hc.
  destruct (lookup_handle _ h) as [d|] eqn:E.
  - destruct (proj2 Hd h d E) as [x Hx]. rewrite (bind_Ok (load_desc d) _ s x s) by (unfold load_desc, deref; by rewrite Hx).
    cbn [mbind option_bind] in Hc. rewrite Hx in Hc. cbn [refusal] in Hc.
    destruct (negb _); [by injection Hc as <-|]. destruct (_ =? 0); [by injection Hc as <-|done].
  - cbn in Hc. by injection Hc as <-.
Qed.

(** A handle with bit 34 set is refused with another code than one that is not
    bound, and the code does not look for that: the NULL it is left with is
    dereferenced. *)
Lemma far_handle s process_ p h mode : runs s process_ p -> 0 <= h < 2 ^ 64 -> Z.testbit h 34 = true -> file_of_handle h mode s = Fault.
Proof.
  intros Hr Hh Hb. unfold file_of_handle. rewrite (bind_Ok _ _ _ _ _ (current_process_ok s process_ p Hr)).
  destruct Hr as (t & _ & _ & Hp). unfold attempt, mbind at 1, M_bind at 1.
  assert (get_handle process_ h s = Err XT_INVALID_PARAMETER s) as ->; [|done].
  apply on_system_refuse. pose proof (handles_read (sys (machine s)) process_ p (xtGetHandle h) Hp) as R.
  assert (xtGetHandle h (handles_of (proot p) (sys (machine s))) = Err XT_INVALID_PARAMETER (handles_of (proot p) (sys (machine s)))) as E.
  { unfold xtGetHandle. by rewrite sign_ext_spec, Hb. }
  rewrite E in R. by apply R.
Qed.

(** C18: A program reads and writes only through handles that are bound to files with that right: any other handle is refused, with nothing changed. But a handle with bit 34 set takes the kernel down. *)
Theorem handles_guard_files s process_ p (h data size off out : Z) (env : Env) :
  runs s process_ p -> descriptors_there s p -> 0 <= h < 2 ^ 64 ->
  if Z.testbit h 34
  then xtUserWriteFile h data off size out env s = Fault /\ xtUserReadFile h data off size out env s = Fault
  else (forall c, refusal XT_FILE_MODE_WRITE (bound s p h) = Some c -> xtUserWriteFile h data off size out env s = Err c s) /\
       (forall c, refusal XT_FILE_MODE_READ (bound s p h) = Some c -> xtUserReadFile h data off size out env s = Err c s).
Proof.
  intros Hr Hd Hh. destruct (Z.testbit h 34) eqn:Hb.
  - split; apply bind_Fault; by apply far_handle with process_ p.
  - split; intros c Hc; apply bind_Err; apply (refused_file s process_ p h _ c Hr Hd); done.
Qed.

End User.

(** * The model specific registers (syscall.c) *)

Definition EFER_NXE : Z := Z.shiftl 1 11.

Definition MSR_EFER : Z := 0xc0000080.

Definition MSR_STAR : Z := 0xc0000081.

Definition MSR_LSTAR : Z := 0xc0000082.

Definition MSR_FMASK : Z := 0xC0000084.

Definition MSR_FS_BASE : Z := 0xc0000100.

Definition MSR_GS_BASE : Z := 0xc0000101.

Definition MSR_KERNEL_GS_BASE : Z := 0xc0000102.

Record Registers (H P : Type) := mkRegisters { msrs : gmap Z Z; rsys : System H P }.

Arguments mkRegisters {H P} _ _.
Arguments msrs {H P} _.
Arguments rsys {H P} _.

Section Registers.
Context {H P : Type} {A : Allocator H} {B : PageAllocator P}.

Notation RM := (M (Registers H P)).

Definition xtWrmsr (code value : Z) : RM unit := modify (fun r => mkRegisters (<[code := u64 value]> (msrs r)) (rsys r)).

(** [a << n] of an unsigned number of 32 bits. *)
Definition shl32 (a n : Z) : RM Z := if n >=? 32 then fault else mret (u32 (Z.shiftl a n)).

(** [out] is where the value goes. Both halves are in variables of 32 bits, which
    C does not let the code shift by 32. *)
Definition xtRdmsr (code out : Z) : RM Z :=
  XT_CHECK_ARG_IS_NULL out ;;;
  v ← deref (fun r => msrs r !! code);
  let low_ := u32 v in
  let high := u32 (Z.shiftr v 32) in
  h ← shl32 high 32;
  mret (Z.lor low_ h).

(** [efer_] is the address of the local variable, [handler_] that of the assembly
    routine. *)
Definition xtSyscallInit (efer_ handler_ : Z) : RM unit :=
  efer ← out_or 0 (xtRdmsr MSR_EFER efer_);
  xtWrmsr MSR_EFER (Z.lor (Z.lor efer 0x1) EFER_NXE) ;;;
  xtWrmsr MSR_STAR (Z.shiftl (Z.lor (Z.shiftl 0x18 16) 0x08) 32) ;;;
  xtWrmsr MSR_LSTAR handler_ ;;;
  perCPU ← out_or NULL (zoom rsys (fun x r => mkRegisters (msrs r) x) (halloc 24));
  xtWrmsr MSR_KERNEL_GS_BASE NULL ;;;
  xtWrmsr MSR_FS_BASE 0 ;;;
  xtWrmsr MSR_GS_BASE perCPU ;;;
  xtWrmsr MSR_FMASK 0x200.

(** So [xtSyscallInit] never gets past its first register. *)
Lemma syscall_init_undefined (r : Registers H P) efer_ handler_ : efer_ <> NULL -> is_Some (msrs r !! MSR_EFER) ->
  xtSyscallInit efer_ handler_ r = Fault.
Proof.
  intros Hn [v Hv]. unfold xtSyscallInit. apply bind_Fault. unfold out_or.
  assert (xtRdmsr MSR_EFER efer_ r = Fault) as ->; [|done]. unfold xtRdmsr. rewrite check_then by done.
  by rewrite (bind_Ok _ _ r v r) by (unfold deref; by rewrite Hv).
Qed.

End Registers.

(** * A program without handles *)

Definition lone_thread : XTThread := mkThread 0 0 1 (Z.lor 0x80 XT_THREAD_RUN_STATE) 20 20 16 0 NULL false.

Definition lone_kernel : Kernel Bump :=
  mkKernel (mkListHeap (mkBump 256 ∅) ∅) {[48 := lone_thread]} NULL NULL 0 NULL 48 true (mkObjects ∅ ∅ ∅).

Definition lone_process : XTProcess := mkProcess NULL 0x1000 NULL NULL NULL NULL 0 1 0.

Definition lone_user : UserState Bump (list Z) :=
  mkUser (mkMachine (mkSystem lone_kernel (mkPaging [] ∅) ∅ ∅ {[16 := lone_process]} ∅ ∅ NULL 0 0 NULL)
            (mkWorld lone_kernel ∅ ∅ ∅ ∅ ∅ ∅ ∅ ∅ NULL NULL NULL false NULL false) ∅ ∅ NULL) ∅ ∅ ∅.

Lemma handles_guard_files_witness :
  xtUserWriteFile (fun _ _ => None) (fun _ _ _ => None) (fun _ => None) 5 0x400000 0 0 0 [] lone_user = Err XT_INVALID_PARAMETER lone_user.
Proof.
  assert (runs lone_user 16 lone_process) as Hr by (exists lone_thread; repeat split).
  assert (descriptors_there lone_user lone_process) as Hd.
  { split; [|by intros h d]. exists ∅. split; [done|]. split; [set_solver|]. split; [done|]. split; [|set_solver].
    intros t es k p i e Ht. set_solver. }
  pose proof (handles_guard_files (fun _ _ => None) (fun _ _ _ => None) (fun _ => None) lone_user 16 lone_process 5 0x400000 0 0 0 []
    Hr Hd ltac:(lia)) as [G _].
  apply G. reflexivity.
Defined.
