(* ===== verification/Programs.v ===== *)
(** The two programs of the repository, user/xtinit/main.c and
    user/test/main.c, over the system calls of User.v: the first starts the
    second with a pipe as its output, and prints what comes through it. A
    program's variables are in its memory, where the kernel writes its results;
    the sections' parameters give their addresses. *)
From Stdlib Require Import ZArith Lia Ascii String.
From stdpp Require Import base tactics list gmap fin_maps numbers.
From S2P Require Import Prelude Bytes Allocator Io Threads Vfs Printf Vsnprintf PrintfProof PrintfSpec Paging System Vm Process Linker DebugPrint User.

Open Scope Z_scope.

(** The handles of the standard files. *)
Definition XT_STDOUT : Z := 1.

Section Programs.
Context {H P : Type} {A : Allocator H} {B : PageAllocator P}.
Variables (u_load : Machine H P -> Z -> option Z) (u_store : Machine H P -> Z -> Z -> option (Machine H P)).
Variables (file_io : Z -> option (XTFileIO H)) (fs_io : Z -> option (XTFileSystemIO H)) (write_io read_io : Z).
Variables (fuel : nat) (junk : Junk) (junk_process : XTProcess) (freeInternal user_exit : Z) (after : list Z) (more : list (list Z)).
Variables (env : list (Kernel H -> Kernel H)).

Notation UM := (M (UserState H P)).

(** * The program's own accesses *)

(** One that faults for good ends the program. *)
Definition store_bytes (a : Z) (bs : list Z) : UM unit := fun s =>
  let '(c, w) := copy_to_user u_store a bs (machine s) in
  if c =? XT_SUCCESS then Ok tt (mkUser w (upipes s) (uevents s) (ufiles s)) else Fault.

Definition load_word (a : Z) : UM Z := deref (fun s => user_word u_load (machine s) a).

(** The memory behind a pointer, as far as it can be read, at most [fuel]
    bytes; the literals of a program are given by [literals]. *)
Definition strings_of (literals : Z -> option (list Z)) (s : UserState H P) (p : Z) : option (list Z) :=
  match literals p with Some l => Some l | None => Some (copy_from u_load fuel p (machine s)) end.

(** [n = snprintf(buff, size, format, ...)] *)
Definition print_at (literals : Z -> option (list Z)) (garbage : list Z) (buff size : Z) (format va : list Z) : UM Z := fun s =>
  ('(n, bs) ← local garbage (snprintf_ size (strings_of literals s) format va);
   store_bytes buff bs ;;;
   mret n) s.

(** [xtUserWriteFile(XT_STDOUT, buff, 0, n, written)]: [n] is an [int]. *)
Definition write_out (buff n written : Z) : UM unit :=
  xtUserWriteFile u_load u_store file_io XT_STDOUT buff 0 (u64 n) written env.

(** * user/xtinit/main.c *)

(** The variables of xtMain and the buffer of its assertions. *)
Record Frame := mkFrame {
  writePipe_ : Z;
  readPipe_ : Z;
  process_ : Z;
  mainThread_ : Z;
  args_ : Z;
  from_pipe : Z;
  buff_ : Z;
  assert_buff : Z
}.

(** The literals: the program to start, the name of the file and of the
    function, and the texts of the calls. *)
Record Literals := mkLiterals { test_xte : Z; file_name : Z; function_name : Z; expression : Z -> Z; text_at : Z -> option (list Z) }.

Definition test_program : list Z := bytes_of "/initrd/test.xte".

Definition assert_line : list Z := removelast (bytes_of "%d:%s:%s %s %llx") ++ [10; 0].

Definition pipe_line : list Z := removelast (bytes_of "pipe: %s") ++ [10; 0].

Section Init.
Variables (f : Frame) (lit : Literals) (garbage : list Z).

(** XT_ASSERT; the thread ends in it, so nothing comes behind. *)
Definition user_assert {X} (line : Z) (m : UM X) : UM X :=
  r ← attempt m;
  match r with
  | inl x => mret x
  | inr c =>
    n ← print_at (text_at lit) garbage (assert_buff f) 512 assert_line [line; file_name lit; function_name lit; expression lit line; c];
    out_or tt (write_out (assert_buff f) n NULL) ;;;
    out_or [] (xtUserTerminateThread fuel XT_CURRENT_THREAD c env) ;;;
    throw c
  end.

Definition xtinit_main : UM unit :=
  store_bytes (writePipe_ f) (le 8 0) ;;;
  store_bytes (readPipe_ f) (le 8 0) ;;;
  store_bytes (process_ f) (le 8 0) ;;;
  store_bytes (mainThread_ f) (le 8 0) ;;;
  user_assert 30 (xtUserCreateProcess u_store junk_process XT_CURRENT_PROCESS 0 (process_ f)) ;;;
  user_assert 35 (xtUserCreatePipe u_store write_io read_io (junk_byte junk) (writePipe_ f) (readPipe_ f) 0) ;;;
  writePipe ← load_word (writePipe_ f);
  process ← load_word (process_ f);
  user_assert 42 (xtUserDuplicateHandle writePipe process XT_STDOUT) ;;;
  store_bytes (args_ f) (le 8 (test_xte lit) ++ le 8 NULL) ;;;
  process ← load_word (process_ f);
  user_assert 51 (xtUserExecuteProgram u_load u_store file_io fs_io fuel junk freeInternal user_exit after more process (args_ f) NULL (mainThread_ f)) ;;;
  readPipe ← load_word (readPipe_ f);
  out_or tt (xtUserReadFile u_store file_io readPipe (from_pipe f) 0 512 NULL env) ;;;
  n ← print_at (text_at lit) garbage (buff_ f) 512 pipe_line [from_pipe f];
  write_out (buff_ f) n NULL.

End Init.

(** * user/test/main.c *)

Definition test_line : list Z := removelast (bytes_of "args[0] %s gs=0x%llx") ++ [10; 0].

(** [buff] and [written] are the addresses of the variables. The instruction
    [lea] gives the offset, 0, and not the base of the segment. *)
Definition test_main (garbage : list Z) (buff written params : Z) : UM unit :=
  let gs := 0 in
  argv ← load_word (u64 (params + 8));
  arg0 ← load_word argv;
  n ← print_at (fun _ => None) garbage buff 4096 test_line [arg0; gs];
  store_bytes written (le 8 0) ;;;
  write_out buff n written.

(** * What the second program prints *)

Definition test_items (arg0 : Z) : list item :=
  [Text (removelast (bytes_of "args[0] ")); Str 0 0 arg0; Text (removelast (bytes_of " gs=0x"));
   Unsigned (CH "x") 0 (Z.lor FLAGS_LONG FLAGS_LONG_LONG) 0 0; Text [10]].

Lemma test_line_items arg0 : test_line = format_of (test_items arg0) ++ 0 :: [].
Proof. vm_compute. reflexivity. Qed.

Definition test_text (l : list Z) : list Z := removelast (bytes_of "args[0] ") ++ l ++ removelast (bytes_of " gs=0x0") ++ [10].

(** The line of the second program: its name, as it finds it in its parameters, goes to its standard output. *)
Theorem test_prints_its_name (garbage : list Z) (buff written params argv arg0 : Z) (l rest : list Z) (s : UserState H P) :
  user_word u_load (machine s) (u64 (params + 8)) = Some argv -> user_word u_load (machine s) argv = Some arg0 ->
  copy_from u_load fuel arg0 (machine s) = l ++ 0 :: rest -> Forall (fun c => c <> 0) l ->
  length garbage = 4096%nat -> len (test_text l) < 4096 ->
  test_main garbage buff written params s =
    (store_bytes buff (test_text l ++ 0 :: drop (S (length (test_text l))) garbage) ;;;
     store_bytes written (le 8 0) ;;;
     write_out buff (len (test_text l)) written) s.
Proof.
  intros E1 E2 E3 Hl Hg Hn. unfold test_main. assert (Hl' : len l < 2 ^ 32) by (unfold test_text in Hn; rewrite !length_app in Hn; lia).
  rewrite (bind_Ok _ _ _ argv s) by (unfold load_word, deref; by rewrite E1). rewrite (bind_Ok _ _ _ arg0 s) by (unfold load_word, deref; by rewrite E2).
  set (strings := strings_of (fun _ => None) s). assert (Es : strings arg0 = Some (l ++ 0 :: rest)) by (unfold strings, strings_of; by rewrite E3).
  assert (Hok : Forall (item_ok strings) (test_items arg0)).
  { repeat constructor; try done; try lia. by exists l, rest. }
  destruct (items_print strings (test_items arg0) Hok) as (texts & H1 & _ & H3).
  assert (Et : texts = [removelast (bytes_of "args[0] "); l; removelast (bytes_of " gs=0x"); [CH "0"]; [10]]).
  { apply (texts_unique strings (test_items arg0)); [done|]. repeat constructor.
    - exists l, rest. split; [done|]. split; [done|]. unfold field. cbn. by destruct l.
    - exists [CH "0"]. split; [|done]. exists [0]. repeat split; [|done]. by constructor. }
  assert (Ec : concat texts = test_text l) by (rewrite Et; by unfold test_text).
  assert (Ep : snprintf_ 4096 strings test_line [arg0; 0] garbage =
    Ok (s32 (len (test_text l))) (test_text l ++ 0 :: drop (S (length (test_text l))) garbage)).
  { rewrite (test_line_items arg0). unfold snprintf_, _vsnprintf.
    pose proof (H3 _ _out_buffer 4096 (S (length (format_of (test_items arg0) ++ [0]))) 0 [] [] garbage ltac:(rewrite length_app; cbn [length]; lia) ltac:(lia) ltac:(cbn; lia)) as Hp.
    rewrite app_nil_r in Hp. etransitivity; [exact (bind_cong _ _ _ _ Hp)|].
    rewrite Ec. unfold truncated in *. pose proof (buffer_text 4096 garbage (test_text l) ltac:(lia) ltac:(lia) ltac:(lia)) as Hb.
    unfold truncated in Hb. cbn [Z.eqb] in Hb. rewrite take_ge in Hb by lia. exact Hb. }
  assert (Hs : s32 (len (test_text l)) = len (test_text l)) by (unfold s32; rewrite Z.mod_small by lia; lia). rewrite Hs in Ep.
  assert (El : local garbage (snprintf_ 4096 strings test_line [arg0; 0]) s =
    Ok (len (test_text l), test_text l ++ 0 :: drop (S (length (test_text l))) garbage) s) by (unfold local; by rewrite Ep).
  unfold mbind at 1, M_bind at 1, print_at. fold strings. rewrite (bind_Ok _ _ _ _ _ El). unfold mbind, M_bind, mret, M_ret. by destruct (store_bytes _ _ _).
Qed.

End Programs.
